(* ===== verification/_CoqProject ===== *)
-Q . S2P
Prelude.v
PyString.v
Numerics.v
Calendar.v
Timestamps.v
Models.v
Session.v
Plan.v
AgentQueue.v
AgentLifecycle.v
AgentWire.v
RouterSync.v
Subscriptions.v
UsageAccounting.v
Expiry.v
ExpiryFacts.v
HotspotExpiry.v
Churn.v
Billing.v
Payments.v
Ledger.v
BillingFacts.v
HotspotNames.v
Bridge.v
BridgeFacts.v
Vouchers.v
Portal.v
PortalFacts.v
GatewayFilter.v
WireGuard.v
Events.v
EventsFacts.v
Passwords.v
Pppoe.v
PppoeFacts.v
Identity.v
IdentityFacts.v
Access.v
AccessFacts.v
RateLimit.v
Coroutines.v
Reachability.v
ReachabilityFacts.v
Detection.v
RouterCli.v
SetupCommands.v
SetupCommandsFacts.v
Provisioning.v
ProvisioningFacts.v
ActiveSessions.v
ProvisioningDelivery.v
ProvisioningCommands.v
RouterUnits.v
RouterRegistry.v
RegistryFacts.v
PlanService.v
Bandwidth.v
Expenses.v
Tickets.v
Onboarding.v
OnboardingFacts.v
Organizations.v
Accounts.v
