(* ===== verification/Prelude.v ===== *)
(** * A verification library of the ISP billing backend

    The repository is a multi-tenant backend for internet providers: customers
    hold subscriptions to plans, subscriptions are enforced on MikroTik
    routers, and payments activate them. This library models the part that
    decides who is online, what was paid, who may ask for what and how a router
    comes to be managed, as executable definitions translated from [src/app/],
    and proves what each part does.

    ** The parts and how they interact

    - A plan fixes an access window and rate limits ([models/plan.py],
      [api/v1/portal/hotspot.py]).
    - A router is registered ([modules/routers/service.py]), set up by a
      provisioning session ([modules/provisioning/]) and then reached in two
      ways. One with an installed agent polls the backend: services queue rows
      in [router_commands], a poll hands them out, a report resolves them, two
      sweeps recover or expire them ([services/router_agent.py]). One without is
      driven over the RouterOS API ([modules/subscriptions/router_sync.py],
      [integrations/mikrotik/client.py]).
    - The subscription service, the expiry manager and the churn manager
      ([modules/subscriptions/]) change the status of subscriptions and call
      the synchronisation; the billing services ([modules/billing/]) record
      invoices and payments and activate the subscription of a settled
      invoice, again through the synchronisation.
    - The customer portals sell hotspot access and renew PPPoE subscriptions
      ([api/v1/portal/]); a bridge mirrors hotspot customers as subscriptions;
      events are published through an outbox ([services/event_publisher.py] and
      its relatives).
    - A provider signs up in steps kept in Redis, the last of which writes its
      organization ([api/v1/onboarding.py]); the platform's owner suspends and
      extends tenants ([api/v1/platform/organizations.py]).
    - Requests are authorised by the dependencies of [api/], identities come
      from single sign-on, and attempts are limited by a Redis window.
    - A monitor tells dashboards when routers become reachable, and detection
      chooses how a router is reached.

    ** The files

    - [Prelude]: field updates, the state-and-exception monad [M] with its
      loops, invariants ([preserves], [never_raises]) and triples with an
      exceptional postcondition, fresh keys, tactics.
    - [PyString], [Numerics], [Calendar]: the Python strings, 32-bit columns,
      IEEE doubles, [Decimal] amounts, rounding and dates the code computes
      with, each with the lemmas that make them usable in proofs.
    - [Timestamps]: [fromisoformat], which reads back what [isoformat] writes.
    - [Models]: one Record per table of [models/], the record [DB] of all
      tables, and [schema_ok], what the server enforces when rows are written
      (natural keys, NOT NULL and 32-bit columns, the numeric columns, unique
      numbers and foreign keys of the billing and portal tables). A wide table
      whose columns serve separate parts is several tables with the same key:
      [routers] is [t_routers], [t_router_info] and [t_router_setup];
      [organization_settings] is [t_settings], [t_portal_pages],
      [t_remote_access] and [t_org_messages], [organizations] is
      [t_organizations], [t_org_terms], [t_org_timezones] and [t_licences],
      and [users] is [t_users], [t_emails_verified] and [t_profiles].
    - [Session]: [AsyncSession] as the world of a request: the transaction's
      view and the committed tables, loaded instances, flush, commit,
      rollback, refused flushes; the class [Backend] (row order of an unordered
      SELECT, reloading of expired attributes, ILIKE) and the class [RouterOS]
      (what a router answers); the tactic [preserve].
    - [Plan]: the computed limits of [ServicePlan] and the rate-limit string.
      [PlanService]: the administration of plans. [Bandwidth]: the profiles
      and queues that carry their rates to routers.
    - [AgentQueue], [AgentLifecycle], [AgentWire]: [RouterAgentService]; its
      life-cycle invariant over every interleaving of its operations; the wire
      format and the uptime parser.
    - [RouterSync]: [SubscriptionRouterSyncService], and the class
      [SyncService], the contract of a synchronisation (it returns, keeps the
      session in order, and changes only the two synchronisation columns of
      that subscription and the command queue). [router_sync_service] is the
      proof that the implementation meets it; the files below are proved
      against the class.
    - [Subscriptions], [UsageAccounting]: [SubscriptionService]; its usage
      counters against the usage log, paging.
    - [Expiry], [ExpiryFacts], [HotspotExpiry]: [SubscriptionExpiryManager].
    - [Churn]: [ChurnManager].
    - [Billing], [Payments], [Ledger], [BillingFacts]: [BillingService] and
      [PaymentManagementService]; the lemmas on the billing tables; the
      theorems on the ledger, on invoices, the billing cycle and webhooks.
    - [HotspotNames], [Bridge], [BridgeFacts]: generated user names and the
      mirror of hotspot customers in the dashboard's tables, with the abstract
      mirror it refines.
    - [Vouchers], [Portal], [PortalFacts], [GatewayFilter]: voucher codes,
      redemption, purchases and payment callbacks of the hotspot portal; which
      payment gateways it offers.
    - [WireGuard]: allocation of tunnel addresses and the list of peers.
    - [Events], [EventsFacts]: event types, the outbox and its drain, the
      consumers of payment events.
    - [Passwords]: hashes of passwords. [Pppoe], [PppoeFacts]: the PPPoE
      customer portal.
    - [Identity], [IdentityFacts], [Access], [AccessFacts], [RateLimit]: users
      and tenants from single sign-on, the authorisation of requests with the
      limits of the subscribed platform plan, the rate limiter.
    - [Coroutines], [Reachability], [ReachabilityFacts], [Detection]: tasks and
      cancellation as [asyncio] has them, the reachability monitor with its
      replicas, the choice of a connection.
    - [RouterCli]: console commands sent over the API, router versions.
      [SetupCommands], [SetupCommandsFacts]: the generators of the set-up
      commands and of the set-up script. [Provisioning], with the theorems of
      [ProvisioningFacts], [ActiveSessions], [ProvisioningDelivery] and
      [ProvisioningCommands]: provisioning sessions.
    - [RouterUnits], [RouterRegistry], [RegistryFacts]: the units RouterOS
      writes; registration, update, deletion and status of routers.
    - [Onboarding], [OnboardingFacts]: the sign-up of providers.
      [Organizations]: tenants as the platform's owner administers them.
      [Accounts]: the local sign-in and the administration of users.
    - [Expenses], [Tickets]: the expenses of a tenant and the tickets of its
      users.

    A definition has the name of the Python function it translates, sometimes
    without leading underscores; helper definitions name a condition, a row
    update or one iteration of a loop of that function.

    ** What the theorems show

    - Invariants: every command keeps its life cycle ([lifecycle_invariant]);
      usage counters equal the log ([usage_equals_log]); invoices stay
      reconciled with the payments received ([create_payment_reconciles]); a
      voucher is redeemed once ([voucher_redeemed_once]) and a purchase
      provisioned once ([purchase_provisioned_once]); a router has one active
      provisioning session ([one_active_session]); a decision on an expense is
      final ([decided_expense_final]).
    - Functional behaviour, whatever the router answers: an expiry pass and a
      hotspot pass change exactly the rows they should ([expiry_pass_exact],
      [hotspot_pass_exact]); redemption, renewal, registration, deletion and
      delivery do what they promise on every branch.
    - Safety: the commands a synchronisation can send by status
      ([sync_router_commands]); the WAN port is never bridged
      ([wan_never_bridged]); tunnel addresses do not conflict
      ([peer_list_conflict_free]); a user sees the own organisation only
      ([own_organization_only]); a deletion removes one router and nothing else
      ([delete_router_exact]); a closed ticket is not reopened
      ([ticket_moves]); a user who is no administrator changes the own profile
      only ([unprivileged_change_own_profile]); no provider registers an address that was not confirmed
      ([registration_confirmed]).
    - Refinement and equivalence: the bridge against an abstract mirror
      ([bridge_refines_mirror]), the limiter against a sliding window
      ([limiter_refines_window]), the network plan against CIDR arithmetic
      ([network_plan_exact]), detection against its decision table
      ([detection_exact]).
    - Liveness and termination: a confirmed command is recorded
      ([agent_sync_confirmed]); the outbox drains ([outbox_drains]).
    - Bounds: attempts of the limiter ([attempts_bounded]) and of the command
      executor ([command_outcome_recorded]).
    - Round trips of the wire format, of console commands, of uptimes, of
      timestamps and of sign-up sessions ([saved_session_found]).
    - Behaviour the comments do not promise, proved because callers live with
      it: the direct workflow never completes a session that bridges ports, a
      failed status synchronisation is not recorded, no expiry notification is
      ever sent, a customer or a router with history cannot be deleted, the
      billing cycle writes no invoice, a registration that succeeds is answered
      with an error ([registration_all_or_nothing]), a verified payment can be counted twice,
      a repeated webhook credits twice, and an administrator of a provider can
      make itself the owner of the platform ([administrator_promotes_itself]).

    ** Modelling decisions

    - One handler runs at one instant [w_now] of the clock, without concurrent
      transactions on the same rows; interleavings of whole operations are the
      steps of the relations of [AgentLifecycle], [UsageAccounting],
      [ActiveSessions], [Expenses], [Tickets] and [OnboardingFacts]. A provisioning run is interleaved with other
      requests at its waits for routers: [Elsewhere] lists what they commit and
      how long they take. A retry of [RouterRegistry] advances the clock alone.
    - Autoflush before a SELECT is part of the next flush or commit. A commit
      does not expire instances ([expire_on_commit=False]); a refused flush or a
      rollback does, which [w_epoch] counts: an instance is fresh in the epoch
      it was loaded in ([row_attrs]).
    - The server refuses a flush when [schema_ok] fails, and also whenever the
      schedule [w_faults] says so; theorems about orderly sessions assume
      [good] (no refused flush to come, schema in order) and say nothing is
      refused, those about errors choose the schedule.
    - Loops run over finite lists of rows, so most definitions need no fuel.
      The search for a free user name is bounded by the number of taken names,
      one of which it meets at every step; the watch of the monitor and the
      drain of the outbox run for a given number of rounds, and the theorems
      say how many are enough. Scans of strings recurse on the string, the scan
      for a free port on the length of its range.
    - Amounts count 1e-5 of the currency unit, so that the products the code
      forms with its rates are exact; a write to a [Numeric(10, 2)] column
      rounds to the cent, halves away from zero. Floats are finite and
      non-negative where the code has them; sizes and frequencies are computed
      in binary64 with the Standard Library's [SpecFloat].
    - JSON configurations hold strings, integers, booleans, nulls and lists of
      strings. Exceptions are values of [exn]; where the code returns [str(e)]
      the model returns the exception or its text [exn_text].
    - Code outside the repository is a class: [PortalEnv], [Treasury],
      [WgConfig], [Jetstream], [Bcrypt], [PppoeEnv], [Signer], [RbacRoles], [Tokens],
      [SubscriptionsApi], [Redis], [Cache], [SetupSettings], [ProvisioningEnv],
      [RegistryEnv], [VoucherBatches], [RedisDocuments], [SignupEnv]. Each has
      a concrete instance in the witnesses.
    - Left out: log lines, Redis telemetry, the tenant identifier of outbox
      events, [updated_at] columns and other columns nothing modelled reads,
      the progress inside a provisioning step, and the back-up step, which does
      nothing. [client.disconnect] has no effect. Random parts of document
      numbers are arguments.

    ** Not modelled

    Request parsing, rendering, sockets, message brokers, seeds and migrations,
    and read-only statistics in SQL are not modelled: they carry no rule of
    their own. Of the modelled parts, the administration of provisioning
    templates, the synchronisation of device lists, the JSON back-up of a router
    and its firmware, and the usage read from a queue are left out. The M-PESA
    client is retired: each of its methods answers that it is not configured.
    The templates of plans are instantiated nowhere. Notifications and
    campaigns hand messages to delivery services and keep their records. *)

From Stdlib Require Export Ascii.
From stdpp Require Export base gmap sets list strings pretty.
From Stdlib Require Export ZArith Lia.

Open Scope Z_scope.

(** ** Scope of the library's notations *)
Declare Scope py_scope.
Delimit Scope py_scope with py.
Open Scope py_scope.

(** ** Field updates

    [Eta R] is the eta-expanded identity of the record type [R]; from it the
    setter of a projection is computed, so that [r <| f := v |>] is convertible
    to the record with that one field changed and [g (r <| f := v |>)] reduces
    to [g r] for every other projection [g]. *)
Class Eta (R : Type) := eta_expand : R -> R.

Ltac build_setter R p :=
  let i := constr:(_ : Eta R) in
  exact (fun f (r : R) =>
    ltac:(let b := eval hnf in (@eta_expand R i r) in
          match b with
          | context C [p r] =>
              let b' := context C [f (p r)] in
              let b' := eval cbv beta in b' in
              exact b'
          end)).

Class Setter {R T : Type} (p : R -> T) := over : (T -> T) -> R -> R.
Arguments over {R T} p {_} _ _ /.
#[export] Hint Extern 1 (@Setter ?R ?T ?p) => build_setter R p : typeclass_instances.

Notation "r <| p := v |>" := (over p (fun _ => v) r)
  (at level 1, p constr at level 0, v constr at level 99, left associativity,
   format "r  <| p  :=  v |>") : py_scope.
Notation "r <| p ::= f |>" := (over p f r)
  (at level 1, p constr at level 0, f constr at level 99, left associativity,
   format "r  <| p  ::=  f |>") : py_scope.

(** ** Exceptions and the state-and-exception monad

    A Python coroutine that reads and writes a world of type [S] is a function
    of type [M S A]: it ends with a value or with an exception, and keeps the
    effects made before the exception was raised. *)
Inductive exn : Type :=
  | ValueError (msg : string)
  | ValidationError (msg : string)
  | BillingError (cause : exn)
  | AttributeError (msg : string)
  | TypeError (msg : string)
  | UnboundLocalError (name : string)
  | NameError (name : string)
  | NoInspectionAvailable
  | MultipleResultsFound
  | DatabaseError
  | PendingRollbackError
  | MissingGreenlet
  | ExternalServiceError (msg : string)
  | HTTPException (status_code : Z) (detail : string)
  | RuntimeError (msg : string)
  | KeyError (key : string)
  | IndexError (msg : string)
  | ProvisioningError (msg : string)
  | RouterOperationError (msg : string)
  | RouterConnectionError (msg : string)
  | ConfigurationError (msg : string)
  | TreasuryError.

#[export] Instance exn_eq_dec : EqDecision exn.
Proof. solve_decision. Defined.

Inductive outcome (A : Type) : Type :=
  | Ok (a : A)
  | Raise (e : exn).
Arguments Ok {A} a.
Arguments Raise {A} e.

Definition M (S A : Type) : Type := S -> outcome A * S.

Section Monad.
Context {S : Type}.

Definition mreturn {A} (a : A) : M S A := fun s => (Ok a, s).
Definition mraise {A} (e : exn) : M S A := fun s => (Raise e, s).
Definition mthen {A B} (m : M S A) (k : A -> M S B) : M S B := fun s =>
  match m s with
  | (Ok a, s') => k a s'
  | (Raise e, s') => (Raise e, s')
  end.
(** [try: m except Exception as e: h e] *)
Definition mtry {A} (m : M S A) (h : exn -> M S A) : M S A := fun s =>
  match m s with
  | (Ok a, s') => (Ok a, s')
  | (Raise e, s') => h e s'
  end.
(** [try: m finally: c] *)
Definition mfinally {A} (m : M S A) (c : M S unit) : M S A := fun s =>
  match m s with
  | (r, s') =>
      match c s' with
      | (Ok _, s'') => (r, s'')
      | (Raise e, s'') => (Raise e, s'')
      end
  end.
(** The outcome of [m] as a value: what a caller sees that keeps going. *)
Definition mattempt {A} (m : M S A) : M S (outcome A) := fun s =>
  match m s with (r, s') => (Ok r, s') end.
Definition mget : M S S := fun s => (Ok s, s).
Definition mmodify (f : S -> S) : M S unit := fun s => (Ok tt, f s).
Definition mwhen (b : bool) (m : M S unit) : M S unit :=
  if b then m else mreturn tt.

(** [for x in l: acc = body acc x] *)
Fixpoint mfold {A B} (body : B -> A -> M S B) (acc : B) (l : list A) : M S B :=
  match l with
  | [] => mreturn acc
  | x :: l' => mthen (body acc x) (fun acc' => mfold body acc' l')
  end.

(** The same loop when its body reports an exception beside an accumulator
    that survives it: a Python dictionary of results filled along the way. *)
Fixpoint mloop {A B} (body : B -> A -> M S (B * option exn)) (acc : B) (l : list A)
    : M S (B * option exn) :=
  match l with
  | [] => mreturn (acc, None)
  | x :: l' =>
      mthen (body acc x) (fun r =>
        match r with
        | (acc', None) => mloop body acc' l'
        | (acc', Some e) => mreturn (acc', Some e)
        end)
  end.
End Monad.

Notation "x <- m ;; k" := (mthen m (fun x => k))
  (at level 90, m at next level, right associativity) : py_scope.
Notation "m ;;; k" := (mthen m (fun _ => k))
  (at level 90, right associativity) : py_scope.

(** ** Outcomes of runs *)
Definition result_of {S A} (p : outcome A * S) : outcome A := fst p.
Definition state_of {S A} (p : outcome A * S) : S := snd p.

(** [m] ends without an exception from every state. *)
Definition never_raises {S A} (m : M S A) : Prop :=
  forall s, exists a s', m s = (Ok a, s').

(** [m] preserves the invariant [I], whether it ends normally or not. *)
Definition preserves {S A} (I : S -> Prop) (m : M S A) : Prop :=
  forall s, I s -> I (snd (m s)).

(** From a state of [P], [m] ends normally in [Q] or with an exception in [E]. *)
Definition triple {S A} (P : S -> Prop) (m : M S A) (Q : A -> S -> Prop) (E : S -> Prop) : Prop :=
  forall s, P s -> match m s with (Ok a, s') => Q a s' | (Raise _, s') => E s' end.

Section MonadLemmas.
Context {S : Type}.
Implicit Types s : S.

Lemma mthen_ok {A B} (m : M S A) (k : A -> M S B) s a s' :
  m s = (Ok a, s') -> mthen m k s = k a s'.
Proof. unfold mthen. by intros ->. Qed.

Lemma mthen_raise {A B} (m : M S A) (k : A -> M S B) s e s' :
  m s = (Raise e, s') -> mthen m k s = (Raise e, s').
Proof. unfold mthen. by intros ->. Qed.

Lemma mtry_ok {A} (m : M S A) h s a s' :
  m s = (Ok a, s') -> mtry m h s = (Ok a, s').
Proof. unfold mtry. by intros ->. Qed.

Lemma mtry_raise {A} (m : M S A) h s e s' :
  m s = (Raise e, s') -> mtry m h s = h e s'.
Proof. unfold mtry. by intros ->. Qed.

Lemma mthen_return {A B} (a : A) (k : A -> M S B) s :
  mthen (mreturn a) k s = k a s.
Proof. done. Qed.

Lemma mthen_ext {A B} (m : M S A) (k k' : A -> M S B) s :
  (forall a s', k a s' = k' a s') -> mthen m k s = mthen m k' s.
Proof. intros H. unfold mthen. destruct (m s) as [[a|e] s']; [apply H|done]. Qed.

Lemma mthen_assoc {A B C} (m : M S A) (k : A -> M S B) (h : B -> M S C) s :
  mthen (mthen m k) h s = mthen m (fun a => mthen (k a) h) s.
Proof. unfold mthen. by destruct (m s) as [[a|e] s']. Qed.

Lemma triple_return {A} (P : S -> Prop) (a : A) (Q : A -> S -> Prop) E :
  (forall s, P s -> Q a s) -> triple P (mreturn a) Q E.
Proof. intros H s Hs. by apply H. Qed.

Lemma triple_then {A B} P (m : M S A) (k : A -> M S B) Q' Q E :
  triple P m Q' E -> (forall a, triple (Q' a) (k a) Q E) -> triple P (mthen m k) Q E.
Proof.
  intros Hm Hk s Hs. specialize (Hm s Hs). unfold mthen. destruct (m s) as [[a|e] s']; [|done].
  by apply Hk.
Qed.

Lemma triple_try {A} P (m : M S A) h Q E' E :
  triple P m Q E' -> (forall e, triple E' (h e) Q E) -> triple P (mtry m h) Q E.
Proof.
  intros Hm Hh s Hs. specialize (Hm s Hs). unfold mtry. destruct (m s) as [[a|e] s']; [done|].
  by apply Hh.
Qed.

Lemma triple_weaken {A} (P P' : S -> Prop) (m : M S A) (Q Q' : A -> S -> Prop) (E E' : S -> Prop) :
  (forall s, P s -> P' s) -> (forall a s, Q' a s -> Q a s) -> (forall s, E' s -> E s) ->
  triple P' m Q' E' -> triple P m Q E.
Proof.
  intros HP HQ HE Hm s Hs. specialize (Hm s (HP s Hs)). destruct (m s) as [[a|e] s']; auto.
Qed.

Lemma triple_preserves {A} I (m : M S A) : preserves I m -> triple I m (fun _ => I) I.
Proof. intros Hm s Hs. specialize (Hm s Hs). by destruct (m s) as [[a|e] s']. Qed.

Lemma preserves_triple {A} I (m : M S A) : triple I m (fun _ => I) I -> preserves I m.
Proof. intros Hm s Hs. specialize (Hm s Hs). by destruct (m s) as [[a|e] s']. Qed.

Lemma never_raises_return {A} (a : A) : never_raises (S := S) (mreturn a).
Proof. intros s. by exists a, s. Qed.

Lemma never_raises_then {A B} (m : M S A) (k : A -> M S B) :
  never_raises m -> (forall a, never_raises (k a)) -> never_raises (mthen m k).
Proof.
  intros Hm Hk s. destruct (Hm s) as (a & s' & E).
  rewrite (mthen_ok _ _ _ _ _ E). apply Hk.
Qed.

Lemma never_raises_try {A} (m : M S A) h :
  (forall e, never_raises (h e)) -> never_raises (mtry m h).
Proof.
  intros Hh s. unfold mtry. destruct (m s) as [[a|e] s']; [by exists a, s'|apply Hh].
Qed.

Lemma never_raises_fold {A B} (body : B -> A -> M S B) :
  (forall b a, never_raises (body b a)) ->
  forall l acc, never_raises (mfold body acc l).
Proof.
  intros Hb l. induction l as [|x l IH]; intros acc; [apply never_raises_return|].
  by apply never_raises_then.
Qed.

Lemma preserves_return {A} I (a : A) : preserves (S := S) I (mreturn a).
Proof. by intros s. Qed.

Lemma preserves_raise {A} I e : preserves (S := S) (A := A) I (mraise e).
Proof. by intros s. Qed.

Lemma preserves_then {A B} I (m : M S A) (k : A -> M S B) :
  preserves I m -> (forall a, preserves I (k a)) -> preserves I (mthen m k).
Proof.
  intros Hm Hk s Hs. specialize (Hm s Hs). unfold mthen.
  destruct (m s) as [[a|e] s']; [by apply Hk|done].
Qed.

Lemma preserves_try {A} I (m : M S A) h :
  preserves I m -> (forall e, preserves I (h e)) -> preserves I (mtry m h).
Proof.
  intros Hm Hh s Hs. specialize (Hm s Hs). unfold mtry.
  destruct (m s) as [[a|e] s']; [done|by apply Hh].
Qed.

Lemma preserves_finally {A} I (m : M S A) c :
  preserves I m -> preserves I c -> preserves I (mfinally m c).
Proof.
  intros Hm Hc s Hs. specialize (Hm s Hs). unfold mfinally.
  destruct (m s) as [r s']. specialize (Hc s' Hm).
  by destruct (c s') as [[[]|e] s''].
Qed.

Lemma never_raises_attempt {A} (m : M S A) : never_raises (mattempt m).
Proof. intros s. unfold mattempt. destruct (m s) as [r s']. by exists r, s'. Qed.

Lemma mattempt_run {A} (m : M S A) s r s' : m s = (r, s') -> mattempt m s = (Ok r, s').
Proof. unfold mattempt. by intros ->. Qed.

Lemma preserves_attempt {A} I (m : M S A) : preserves I m -> preserves I (mattempt m).
Proof. intros Hm s Hs. specialize (Hm s Hs). unfold mattempt. by destruct (m s). Qed.

Lemma preserves_fold {A B} I (body : B -> A -> M S B) :
  (forall b a, preserves I (body b a)) ->
  forall l acc, preserves I (mfold body acc l).
Proof.
  intros Hb l. induction l as [|x l IH]; intros acc; [apply preserves_return|].
  by apply preserves_then.
Qed.

Lemma preserves_loop {A B} I (body : B -> A -> M S (B * option exn)) :
  (forall b a, preserves I (body b a)) ->
  forall l acc, preserves I (mloop body acc l).
Proof.
  intros Hb l. induction l as [|x l IH]; intros acc; [apply preserves_return|].
  apply preserves_then; [done|]. intros [acc' [e|]]; [apply preserves_return|apply IH].
Qed.

Lemma mfold_app {A B} (body : B -> A -> M S B) l1 l2 acc s acc' s' :
  mfold body acc l1 s = (Ok acc', s') ->
  mfold body acc (l1 ++ l2) s = mfold body acc' l2 s'.
Proof.
  revert acc s. induction l1 as [|x l1 IH]; intros acc s H; simpl in *.
  - by injection H as <- <-.
  - revert H. unfold mthen. destruct (body acc x s) as [[b|e] s1]; [apply IH|done].
Qed.
End MonadLemmas.

Create HintDb monad.
#[export] Hint Resolve never_raises_return never_raises_then never_raises_try
  never_raises_fold never_raises_attempt preserves_attempt preserves_return preserves_raise preserves_then preserves_try
  preserves_finally preserves_fold : monad.

(** ** Decimal notation of integers, as [str(n)] and the format [0kd] print it *)
Definition str_of_Z (n : Z) : string := pretty n.

Fixpoint zeros (k : nat) : string :=
  match k with O => "" | S k' => "0" +:+ zeros k' end.

(** [f"{n:0kd}"] for a non-negative [n]. *)
Definition zero_pad (k : nat) (n : Z) : string :=
  zeros (k - String.length (str_of_Z n)) +:+ str_of_Z n.

(** ** Partial updates: a field of a request is absent, null, or a value, for a
    column that takes no null and for one that does *)
Definition is_null {A} (o : option (option A)) : bool := match o with Some None => true | _ => false end.
Definition set_column {A} (o : option (option A)) (old : A) : A := match o with Some (Some a) => a | _ => old end.
Definition set_nullable {A} (o : option (option A)) (old : option A) : option A := match o with Some a => a | None => old end.

(** A row that may be missing is changed from its defaults. *)
Definition update_with {A} (d : A) (f : A -> A) (m : gmap Z A) (id : Z) : gmap Z A :=
  <[id := f (default d (m !! id))]> m.

(** ** Fresh keys: the next value of a serial primary key *)
Definition next_id {A} (m : gmap Z A) : Z :=
  Z.succ (map_fold (fun k _ acc => Z.max k acc) 0 m).

Lemma map_fold_max_ge {A} (m : gmap Z A) :
  0 <= map_fold (fun k _ acc => Z.max k acc) 0 m /\
  forall k x, m !! k = Some x -> k <= map_fold (fun k _ acc => Z.max k acc) 0 m.
Proof.
  apply (map_fold_weak_ind (fun r (m : gmap Z A) => 0 <= r /\ forall k x, m !! k = Some x -> k <= r)).
  - split; [lia|]. intros k x. by rewrite lookup_empty.
  - intros i x m' r Hi [H0 H]. split; [lia|]. intros k y.
    rewrite lookup_insert_Some. intros [[-> _]|[_ Hk]]; [lia|].
    specialize (H _ _ Hk). lia.
Qed.

Lemma next_id_fresh {A} (m : gmap Z A) : m !! next_id m = None.
Proof.
  destruct (m !! next_id m) as [x|] eqn:E; [|done].
  apply (proj2 (map_fold_max_ge m)) in E. unfold next_id in E. lia.
Qed.

Lemma next_id_pos {A} (m : gmap Z A) : 0 < next_id m.
Proof. pose proof (proj1 (map_fold_max_ge m)). unfold next_id. lia. Qed.

(** ** Lookups after a pointwise change of a table *)
Lemma lookup_map_cond {A} (P : Z -> A -> bool) (f : A -> A) (m : gmap Z A) i :
  map_imap (fun k x => Some (if P k x then f x else x)) m !! i
  = (fun x => if P i x then f x else x) <$> m !! i.
Proof. rewrite map_lookup_imap. by destruct (m !! i). Qed.

(** ** Library tactics *)

(** Case analysis on every test the goal is stuck on. *)
Ltac case_tests :=
  repeat match goal with
  | |- context [match ?x with _ => _ end] =>
      lazymatch x with
      | context [match _ with _ => _ end] => fail
      | _ => destruct x eqn:?
      end
  end.

(** Split a conjunction, solving the components that computation decides. *)
Ltac split_all := repeat match goal with |- _ /\ _ => split end.
