(* ===== verification/PyString.v ===== *)
(** * Python strings as the backend uses them

    [int(s)], [strip], [split], [in], decimal notation and base64, on
    [String.string], with the round trips between decimal notation and
    parsing. *)

From S2P Require Import Prelude.

(** ** Characters *)
Definition digit_value (c : ascii) : option Z :=
  let n := Z.of_nat (Ascii.nat_of_ascii c) in
  if (48 <=? n) && (n <=? 57) then Some (n - 48) else None.

Definition is_space (c : ascii) : bool :=
  let n := Z.of_nat (Ascii.nat_of_ascii c) in
  (n =? 32) || ((9 <=? n) && (n <=? 13)) || ((28 <=? n) && (n <=? 31)).

(** ** [strip], [in], [split] *)
Fixpoint lstrip (s : string) : string :=
  match s with
  | String c s' => if is_space c then lstrip s' else s
  | EmptyString => EmptyString
  end.

Fixpoint rstrip (s : string) : string :=
  match s with
  | String c s' =>
      match rstrip s' with
      | EmptyString => if is_space c then EmptyString else String c EmptyString
      | t => String c t
      end
  | EmptyString => EmptyString
  end.

Definition strip (s : string) : string := rstrip (lstrip s).

Fixpoint contains_char (x : ascii) (s : string) : bool :=
  match s with
  | String c s' => bool_decide (c = x) || contains_char x s'
  | EmptyString => false
  end.

(** [s.split(x)]: the pieces between separators, at least one. *)
Fixpoint split_on (x : ascii) (s : string) : list string :=
  match s with
  | EmptyString => [""]
  | String c s' =>
      if bool_decide (c = x) then "" :: split_on x s'
      else match split_on x s' with
           | [] => [String c ""]
           | p :: ps => String c p :: ps
           end
  end.

(** [s[:i]] and [s[i+1:]] for [i = s.find(x)]; [None] when [x] is absent. *)
Fixpoint cut_at (x : ascii) (s : string) : option (string * string) :=
  match s with
  | EmptyString => None
  | String c s' =>
      if bool_decide (c = x) then Some ("", s')
      else match cut_at x s' with
           | Some (a, b) => Some (String c a, b)
           | None => None
           end
  end.

(** [sep.join(l)] *)
Fixpoint join (sep : string) (l : list string) : string :=
  match l with
  | [] => ""
  | [s] => s
  | s :: l' => s +:+ sep +:+ join sep l'
  end.

(** [sub in s], [s.endswith(suffix)] *)
Fixpoint contains_text (sub s : string) : bool :=
  String.prefix sub s || match s with String _ s' => contains_text sub s' | EmptyString => false end.

Fixpoint ends_with (suffix s : string) : bool :=
  bool_decide (s = suffix) || match s with EmptyString => false | String _ s' => ends_with suffix s' end.

(** [s.rstrip(x)] for a single character *)
Fixpoint rstrip_char (x : ascii) (s : string) : string :=
  match s with
  | EmptyString => EmptyString
  | String c s' =>
      match rstrip_char x s' with
      | EmptyString => if bool_decide (c = x) then EmptyString else String c EmptyString
      | t => String c t
      end
  end.

(** ** [int(s)] *)

(** Decimal digits, with single underscores allowed between digits. *)
Fixpoint digits_from (acc : Z) (after_digit : bool) (s : string) : option Z :=
  match s with
  | EmptyString => if after_digit then Some acc else None
  | String c s' =>
      match digit_value c with
      | Some d => digits_from (10 * acc + d) true s'
      | None =>
          if bool_decide (c = "_"%char) && after_digit then digits_from acc false s'
          else None
      end
  end.

Definition py_int (s : string) : option Z :=
  match strip s with
  | String "-" s' => option_map Z.opp (digits_from 0 false s')
  | String "+" s' => digits_from 0 false s'
  | s' => digits_from 0 false s'
  end.

(** ** Base64 *)
Definition base64_char (n : Z) : ascii :=
  Ascii.ascii_of_nat (Z.to_nat
    (if n <? 26 then 65 + n
     else if n <? 52 then 71 + n
     else if n <? 62 then n - 4
     else if n =? 62 then 43 else 47)).

Fixpoint b64encode (s : string) : string :=
  let byte c := Z.of_nat (Ascii.nat_of_ascii c) in
  match s with
  | EmptyString => EmptyString
  | String a EmptyString =>
      String (base64_char (Z.shiftr (byte a) 2))
        (String (base64_char (Z.shiftl (Z.land (byte a) 3) 4)) "==")
  | String a (String b EmptyString) =>
      String (base64_char (Z.shiftr (byte a) 2))
        (String (base64_char (Z.lor (Z.shiftl (Z.land (byte a) 3) 4) (Z.shiftr (byte b) 4)))
          (String (base64_char (Z.shiftl (Z.land (byte b) 15) 2)) "="))
  | String a (String b (String c s')) =>
      String (base64_char (Z.shiftr (byte a) 2))
        (String (base64_char (Z.lor (Z.shiftl (Z.land (byte a) 3) 4) (Z.shiftr (byte b) 4)))
          (String (base64_char (Z.lor (Z.shiftl (Z.land (byte b) 15) 2) (Z.shiftr (byte c) 6)))
            (String (base64_char (Z.land (byte c) 63)) (b64encode s'))))
  end.

Example b64encode_example : b64encode "light work." = "bGlnaHQgd29yay4=".
Proof. reflexivity. Qed.

(** ** Lemmas *)

Lemma contains_char_app x s t :
  contains_char x (s +:+ t) = contains_char x s || contains_char x t.
Proof. induction s as [|c s IH]; [done|]. simpl. by rewrite IH, orb_assoc. Qed.

Lemma split_on_nonempty x s : split_on x s <> [].
Proof. destruct s; simpl; [done|]. case_match; [done|]. by case_match. Qed.

(** A piece without separators, followed by a separator, is the first piece. *)
Lemma split_on_app x p s :
  contains_char x p = false -> split_on x (p +:+ String x s) = p :: split_on x s.
Proof.
  induction p as [|c p IH]; simpl.
  - by rewrite bool_decide_eq_true_2.
  - intros [Hc Hp]%orb_false_iff. rewrite Hc, IH by done. done.
Qed.

Lemma split_on_last x p : contains_char x p = false -> split_on x p = [p].
Proof.
  induction p as [|c p IH]; simpl; [done|].
  intros [Hc Hp]%orb_false_iff. by rewrite Hc, IH.
Qed.

(** [split] undoes [join] on separator-free pieces. *)
Lemma split_join x l :
  l <> [] -> Forall (fun p => contains_char x p = false) l ->
  split_on x (join (String x "") l) = l.
Proof.
  induction l as [|p l IH]; [done|]. intros _ [Hp Hl]%Forall_cons.
  destruct l as [|q l]; [by apply split_on_last|].
  change (join (String x "") (p :: q :: l)) with (p +:+ String x (join (String x "") (q :: l))).
  rewrite split_on_app by done. by rewrite IH.
Qed.

Lemma string_app_assoc (a b c : string) : (a +:+ b) +:+ c = a +:+ b +:+ c.
Proof. induction a as [|x a IH]; [done|]. exact (f_equal (String x) IH). Qed.

Lemma string_app_nil_r (s : string) : s +:+ "" = s.
Proof. induction s as [|c s IH]; [done|]. exact (f_equal (String c) IH). Qed.

(** *** Decimal notation *)
Definition all_digits (s : string) : bool :=
  forallb (fun c => bool_decide (is_Some (digit_value c))) (String.list_ascii_of_string s).

(** The value read from a run of digits after the value [acc]. *)
Fixpoint read_digits (acc : Z) (s : string) : Z :=
  match s with
  | EmptyString => acc
  | String c s' => read_digits (10 * acc + default 0 (digit_value c)) s'
  end.

Lemma pretty_digit_value x :
  (x < 10)%N -> digit_value (pretty_N_char x) = Some (Z.of_N x).
Proof.
  intros Hx. assert (x = 0 \/ x = 1 \/ x = 2 \/ x = 3 \/ x = 4 \/ x = 5 \/ x = 6 \/ x = 7
    \/ x = 8 \/ x = 9)%N as Hcases by lia.
  destruct_or! Hcases; subst; reflexivity.
Qed.

Lemma pretty_N_go_digits x s :
  all_digits s = true ->
  all_digits (pretty_N_go x s) = true /\
  read_digits 0 (pretty_N_go x s) = read_digits (Z.of_N x) s.
Proof.
  revert s. induction (N.lt_wf_0 x) as [x _ IH]. intros s Hs.
  destruct (decide (0 < x)%N) as [Hx|Hx].
  - rewrite pretty_N_go_step by done.
    assert (x `mod` 10 < 10)%N as Hmod by (apply N.mod_lt; lia).
    destruct (IH (x `div` 10)%N (N.div_lt x 10 Hx ltac:(lia))
                (String (pretty_N_char (x `mod` 10)) s)) as [H1 H2].
    { unfold all_digits in *. simpl. rewrite pretty_digit_value by done.
      rewrite bool_decide_eq_true_2 by (by eexists). done. }
    split; [done|]. rewrite H2. simpl. rewrite pretty_digit_value by done. simpl.
    f_equal. rewrite N2Z.inj_div, N2Z.inj_mod.
    pose proof (Z.div_mod (Z.of_N x) 10 ltac:(lia)). lia.
  - assert (x = 0%N) as -> by lia. by rewrite pretty_N_go_0.
Qed.

Lemma str_of_Z_digits n :
  0 <= n -> all_digits (str_of_Z n) = true /\ read_digits 0 (str_of_Z n) = n
  /\ str_of_Z n <> "".
Proof.
  intros Hn. unfold str_of_Z. destruct n as [|p|p]; [done| |lia].
  change (pretty (Z.pos p)) with (pretty_N (N.pos p)). unfold pretty_N.
  rewrite decide_False by done.
  destruct (pretty_N_go_digits (N.pos p) "" eq_refl) as [H1 H2].
  split_all; [done|by rewrite H2|].
  intros E. rewrite E in H2. discriminate.
Qed.

Lemma all_digits_cons c s :
  all_digits (String c s) = true ->
  (exists d, digit_value c = Some d) /\ all_digits s = true.
Proof.
  unfold all_digits. simpl. intros [[d Hd]%bool_decide_eq_true_1 Hs]%andb_true_iff.
  split; [by exists d|done].
Qed.

Lemma digit_not_space c d : digit_value c = Some d -> is_space c = false.
Proof.
  unfold digit_value, is_space. intros H.
  destruct ((48 <=? Z.of_nat (Ascii.nat_of_ascii c)) && _) eqn:E; [|done].
  apply andb_true_iff in E as [H1%Z.leb_le H2%Z.leb_le].
  set (n := Z.of_nat _) in *. clearbody n.
  repeat match goal with |- context [?a <=? ?b] => destruct (Z.leb_spec a b) end;
    destruct (Z.eqb_spec n 32); simpl; lia.
Qed.

(** A run of digits contains no character that is not a digit. *)
Lemma all_digits_no_char x s :
  all_digits s = true -> digit_value x = None -> contains_char x s = false.
Proof.
  intros Hs Hx. induction s as [|c s IH]; [done|]. simpl.
  destruct (all_digits_cons c s Hs) as [[d Hd] Hs'].
  rewrite bool_decide_eq_false_2 by (intros ->; congruence). by apply IH.
Qed.

Lemma str_of_Z_no_char x n :
  0 <= n -> digit_value x = None -> contains_char x (str_of_Z n) = false.
Proof. intros Hn. apply all_digits_no_char, str_of_Z_digits, Hn. Qed.

Lemma strip_digits s : all_digits s = true -> strip s = s.
Proof.
  intros Hs. unfold strip. assert (lstrip s = s) as ->.
  { destruct s as [|c s]; [done|]. simpl.
    destruct (all_digits_cons c s Hs) as [[d Hd] _]. by rewrite (digit_not_space c d). }
  induction s as [|c s IH]; [done|].
  destruct (all_digits_cons c s Hs) as [[d Hd] Hs']. simpl. rewrite IH by done.
  destruct s; [|done]. by rewrite (digit_not_space c d).
Qed.

Lemma digits_from_all acc b s :
  all_digits s = true -> (s <> "" \/ b = true) -> digits_from acc b s = Some (read_digits acc s).
Proof.
  revert acc b. induction s as [|c s IH]; intros acc b Hs Hne; simpl.
  - destruct Hne as [Hne | ->]; done.
  - destruct (all_digits_cons c s Hs) as [[d Hd] Hs']. rewrite Hd. simpl.
    apply IH; [done|by right].
Qed.

(** [int(str(n))] is [n]. *)
Lemma py_int_str n : 0 <= n -> py_int (str_of_Z n) = Some n.
Proof.
  intros Hn. destruct (str_of_Z_digits n Hn) as (Hd & Hv & Hne).
  unfold py_int. rewrite strip_digits by done.
  destruct (str_of_Z n) as [|c s] eqn:E; [done|].
  destruct (all_digits_cons c s Hd) as [[d Hc] _].
  rewrite <- Hv, <- (digits_from_all 0 false) by (done || by left).
  destruct c as [b0 b1 b2 b3 b4 b5 b6 b7].
  destruct b0, b1, b2, b3, b4, b5, b6, b7; try reflexivity; discriminate.
Qed.

(** ** Padded numbers and prefixes *)
Lemma read_digits_zeros k s : read_digits 0 (zeros k +:+ s) = read_digits 0 s.
Proof. induction k; done. Qed.

Lemma zero_pad_inj k m n : 0 <= m -> 0 <= n -> zero_pad k m = zero_pad k n -> m = n.
Proof.
  intros Hm Hn H. apply (f_equal (read_digits 0)) in H. unfold zero_pad in H.
  rewrite !read_digits_zeros in H.
  destruct (str_of_Z_digits m Hm) as (_ & <- & _), (str_of_Z_digits n Hn) as (_ & <- & _). done.
Qed.

Lemma pretty_N_go_length (d : nat) : forall (x : N) (s : string),
  (x < 10 ^ N.of_nat d)%N -> (String.length (pretty_N_go x s) <= d + String.length s)%nat.
Proof.
  induction d as [|d IH]; intros x s Hx.
  - simpl in Hx. assert (x = 0%N) as -> by lia. by rewrite pretty_N_go_0.
  - destruct (decide (x = 0%N)) as [->|Hne]; [rewrite pretty_N_go_0; lia|].
    rewrite pretty_N_go_step by lia. etransitivity; [apply IH|simpl; lia].
    apply N.Div0.div_lt_upper_bound. rewrite Nat2N.inj_succ, N.pow_succ_r' in Hx. lia.
Qed.

Lemma str_of_Z_length (d : nat) (k : Z) :
  (1 <= d)%nat -> 0 <= k < 10 ^ Z.of_nat d -> (String.length (str_of_Z k) <= d)%nat.
Proof.
  intros Hd Hk. unfold str_of_Z. destruct k as [|p|p]; [|change (pretty (Z.pos p)) with (pretty (N.pos p))|lia].
  - simpl. lia.
  - unfold pretty, pretty_N. case_decide; [done|].
    etransitivity; [apply (pretty_N_go_length d)|simpl; lia].
    apply N2Z.inj_lt. rewrite N2Z.inj_pow, nat_N_Z. simpl. lia.
Qed.

Lemma string_app_inj (a b c : string) : a +:+ b = a +:+ c -> b = c.
Proof. induction a as [|x a IH]; [done|]. intros H. injection H as H. by apply IH. Qed.

Lemma string_length_app (a b : string) : String.length (a +:+ b) = (String.length a + String.length b)%nat.
Proof. induction a as [|x a IH]; [done|]. simpl. by rewrite IH. Qed.

Lemma string_app_inj_r (a b c : string) : a +:+ c = b +:+ c -> a = b.
Proof.
  revert b. induction a as [|x a IH]; intros [|y b] H; [done|..].
  - apply (f_equal String.length) in H. rewrite !string_length_app in H. simpl in H. lia.
  - apply (f_equal String.length) in H. rewrite !string_length_app in H. simpl in H. lia.
  - injection H as -> H. by rewrite (IH b H).
Qed.

Lemma prefix_app (a b : string) : String.prefix a (a +:+ b) = true.
Proof.
  induction a as [|x a IH]; [by destruct b|].
  change ((if Ascii.ascii_dec x x then String.prefix a (a +:+ b) else false) = true).
  by destruct (Ascii.ascii_dec x x).
Qed.

(** ** Case and URL encoding, on bytes *)
Definition ascii_shift (lo hi : Z) (d : Z) (c : ascii) : ascii :=
  let n := Z.of_nat (Ascii.nat_of_ascii c) in
  if (lo <=? n) && (n <=? hi) then Ascii.ascii_of_nat (Z.to_nat (n + d)) else c.

Fixpoint string_map (f : ascii -> ascii) (s : string) : string :=
  match s with
  | EmptyString => EmptyString
  | String c s' => String (f c) (string_map f s')
  end.

(** [s.lower()] and [s.upper()] *)
Definition lower : string -> string := string_map (ascii_shift 65 90 32).
Definition upper : string -> string := string_map (ascii_shift 97 122 (-32)).

Definition hex_digit (n : Z) : ascii :=
  Ascii.ascii_of_nat (Z.to_nat (if n <? 10 then 48 + n else 55 + n)).

(** [urllib.parse.quote_plus] *)
Definition quote_char (c : ascii) : string :=
  let n := Z.of_nat (Ascii.nat_of_ascii c) in
  if n =? 32 then "+"
  else if ((48 <=? n) && (n <=? 57)) || ((65 <=? n) && (n <=? 90)) || ((97 <=? n) && (n <=? 122))
          || (n =? 95) || (n =? 46) || (n =? 45) || (n =? 126)
  then String c ""
  else String "%" (String (hex_digit (n / 16)) (String (hex_digit (n mod 16)) "")).

Fixpoint quote_plus (s : string) : string :=
  match s with
  | EmptyString => EmptyString
  | String c s' => quote_char c +:+ quote_plus s'
  end.

Definition urlencode (l : list (string * string)) : string :=
  join "&" (map (fun kv => quote_plus kv.1 +:+ "=" +:+ quote_plus kv.2) l).

Example urlencode_example : urlencode [("u", "C 1"); ("lu", "300s&x")] = "u=C+1&lu=300s%26x".
Proof. reflexivity. Qed.

Lemma lower_idempotent s : lower (lower s) = lower s.
Proof.
  induction s as [|c s IH]; [done|]. unfold lower in *. simpl. f_equal; [|exact IH].
  destruct c as [[] [] [] [] [] [] [] []]; reflexivity.
Qed.

Lemma cut_at_none x s : contains_char x s = false -> cut_at x s = None.
Proof.
  induction s as [|c s IH]; [done|]. simpl. intros [Hc Hs]%orb_false_iff. by rewrite Hc, IH.
Qed.
