(* ===== verification/Numerics.v ===== *)
(** * Python numbers and times as the backend uses them

    Times are microseconds (the resolution of [datetime]); an [int4] is the
    32-bit integer of a PostgreSQL [Integer] column; a binary64 value is a
    dyadic rational, with rounding to nearest even written out. *)

From S2P Require Import Prelude.

(** ** Times *)
Definition datetime : Type := Z.

Definition usec_per_second : Z := 1000000.
Definition timedelta_us (us : Z) : Z := us.
Definition timedelta_seconds (n : Z) : Z := n * usec_per_second.
Definition timedelta_minutes (n : Z) : Z := n * 60 * usec_per_second.
Definition timedelta_hours (n : Z) : Z := n * 3600 * usec_per_second.
Definition timedelta_days (n : Z) : Z := n * 86400 * usec_per_second.

(** ** PostgreSQL [Integer] columns *)
Definition int4_max : Z := 2147483647.
Definition in_int4 (n : Z) : bool := (- int4_max - 1 <=? n) && (n <=? int4_max).

(** ** Rounding to nearest, ties to even *)

(** The integer nearest to [n / d], for [0 < d]. *)
Definition round_half_even (n d : Z) : Z :=
  let q := n / d in
  let r := n mod d in
  match Z.compare (2 * r) d with
  | Lt => q
  | Gt => q + 1
  | Eq => if Z.even q then q else q + 1
  end.

Lemma round_half_even_error n d :
  0 < d -> Z.abs (2 * (d * round_half_even n d - n)) <= d.
Proof.
  intros Hd. unfold round_half_even.
  pose proof (Z.div_mod n d ltac:(lia)). pose proof (Z.mod_pos_bound n d Hd).
  destruct (Z.compare_spec (2 * (n mod d)) d); [case_match|..]; nia.
Qed.

(** An integer strictly closer than half a unit is the rounded value. *)
Lemma round_half_even_unique n d k :
  0 < d -> Z.abs (2 * (d * k - n)) < d -> round_half_even n d = k.
Proof.
  intros Hd Hk. pose proof (round_half_even_error n d Hd). nia.
Qed.

Lemma round_half_even_mul d k : 0 < d -> round_half_even (k * d) d = k.
Proof. intros Hd. apply round_half_even_unique; [done|]. nia. Qed.

Lemma round_half_even_mono_int n d k :
  0 < d -> n <= k * d -> round_half_even n d <= k.
Proof.
  intros Hd Hk. pose proof (round_half_even_error n d Hd) as H.
  destruct (Z.eq_dec n (k * d)) as [->|]; [by rewrite round_half_even_mul|]. nia.
Qed.

Lemma round_half_even_nonneg n d : 0 < d -> 0 <= n -> 0 <= round_half_even n d.
Proof. intros Hd Hn. pose proof (round_half_even_error n d Hd). nia. Qed.

(** ** Binary64 values

    [Flt m e] is the non-negative value [m * 2^e]. The backend computes with
    finite non-negative values far from the overflow and underflow thresholds,
    so the format's rounding is rounding of a positive rational to 53 bits. *)
Record float : Type := Flt { fman : Z; fexp : Z }.

(** The scale of [e]: the value [Flt m e] is [m * fnum e / fden e]. *)
Definition fnum (e : Z) : Z := 2 ^ Z.max e 0.
Definition fden (e : Z) : Z := 2 ^ Z.max (- e) 0.

(** The exponent at which [n / d] has a 53-bit mantissa: [log2 n - log2 d]
    is at most one above the position of the leading bit. *)
Definition float_exp (n d : Z) : Z :=
  let k := Z.log2 n - Z.log2 d in
  (if fden k * n <? fnum k * d then k - 1 else k) - 52.

Definition float_of_ratio (n d : Z) : float :=
  if n <=? 0 then Flt 0 0
  else
    let e := float_exp n d in
    Flt (round_half_even (n * fden e) (d * fnum e)) e.

Definition float_of_int (n : Z) : float := float_of_ratio n 1.
Definition float_div (a b : float) : float :=
  float_of_ratio (fman a * fnum (fexp a) * fden (fexp b))
                 (fman b * fnum (fexp b) * fden (fexp a)).
Definition float_mul (a b : float) : float :=
  float_of_ratio (fman a * fman b * fnum (fexp a) * fnum (fexp b))
                 (fden (fexp a) * fden (fexp b)).

(** [round(x)]: nearest integer, ties to even. *)
Definition float_round (a : float) : Z :=
  round_half_even (fman a * fnum (fexp a)) (fden (fexp a)).

(** [math.modf]: the integral and the fractional part, both exact. *)
Definition float_trunc (a : float) : Z := fman a * fnum (fexp a) / fden (fexp a).
Definition float_frac (a : float) : float :=
  Flt (fman a * fnum (fexp a) mod fden (fexp a)) (Z.min (fexp a) 0).
Definition float_is_zero (a : float) : bool := fman a =? 0.

(** *** Accuracy *)
Lemma fden_pos e : 0 < fden e.
Proof. unfold fden. apply Z.pow_pos_nonneg; lia. Qed.
Lemma fnum_pos e : 0 < fnum e.
Proof. unfold fnum. apply Z.pow_pos_nonneg; lia. Qed.
Lemma fnum_neg e : e <= 0 -> fnum e = 1.
Proof. intros. unfold fnum. by rewrite Z.max_r by lia. Qed.

Lemma fden_split e k : e <= 0 -> 0 <= k <= - e -> fden e = 2 ^ k * fden (e + k).
Proof.
  intros He Hk. unfold fden. rewrite <- Z.pow_add_r by lia. f_equal. lia.
Qed.

(** The unscaled exponent is the position of the leading bit. *)
Lemma float_exp_lower n d :
  0 < n -> 0 < d -> fnum (float_exp n d + 52) * d <= fden (float_exp n d + 52) * n.
Proof.
  intros Hn Hd. unfold float_exp.
  pose proof (Z.log2_spec n Hn) as [Hn1 Hn2]. pose proof (Z.log2_spec d Hd) as [Hd1 Hd2].
  pose proof (Z.log2_nonneg n). pose proof (Z.log2_nonneg d).
  set (k := Z.log2 n - Z.log2 d) in *.
  destruct (fden k * n <? fnum k * d) eqn:E; [|apply Z.ltb_ge in E].
  - replace (k - 1 - 52 + 52) with (k - 1) by lia. unfold fnum, fden.
    destruct (Z.le_gt_cases 1 k).
    + rewrite Z.max_l, (Z.max_r (- (k - 1))) by lia. rewrite Z.pow_0_r, Z.mul_1_l.
      assert (2 ^ (k - 1) * 2 ^ Z.succ (Z.log2 d) = 2 ^ Z.log2 n).
      { rewrite <- Z.pow_add_r by lia. f_equal. lia. }
      assert (0 < 2 ^ (k - 1)) by (apply Z.pow_pos_nonneg; lia). nia.
    + rewrite Z.max_r, (Z.max_l (- (k - 1))) by lia. rewrite Z.pow_0_r, Z.mul_1_l.
      assert (2 ^ (- (k - 1)) * 2 ^ Z.log2 n = 2 ^ Z.succ (Z.log2 d)).
      { rewrite <- Z.pow_add_r by lia. f_equal. lia. }
      assert (0 < 2 ^ (- (k - 1))) by (apply Z.pow_pos_nonneg; lia). nia.
  - by replace (k - 52 + 52) with k by lia.
Qed.

Lemma float_exp_upper n d K :
  0 < n -> 0 < d -> 0 <= K -> n < 2 ^ K * d -> float_exp n d + 52 < K.
Proof.
  intros Hn Hd HK Hlt. pose proof (float_exp_lower n d Hn Hd) as H.
  set (k := float_exp n d + 52) in *. destruct (Z.lt_ge_cases k K); [done|exfalso].
  unfold fnum, fden in H. rewrite Z.max_l, Z.max_r, Z.pow_0_r in H by lia.
  assert (2 ^ K <= 2 ^ k) by (apply Z.pow_le_mono_r; lia). nia.
Qed.

(** Rounding a ratio below [2^52]: the result is [m / D] with an error of at
    most half a unit of the last place, and at least 52 significant bits. *)
Lemma float_of_ratio_accurate n d :
  0 < n -> 0 < d -> n < 2 ^ 52 * d ->
  let f := float_of_ratio n d in
  fexp f <= 0 /\ 2 ^ 52 * d <= fden (fexp f) * n /\
  Z.abs (2 * (d * fman f - n * fden (fexp f))) <= d.
Proof.
  intros Hn Hd Hlt f. unfold f, float_of_ratio.
  rewrite (proj2 (Z.leb_gt n 0)) by lia. cbn [fman fexp].
  set (e := float_exp n d).
  assert (He : e <= 0) by (pose proof (float_exp_upper n d 52 Hn Hd ltac:(lia) Hlt); lia).
  rewrite (fnum_neg e) by done. rewrite Z.mul_1_r. split_all; [done| |].
  - pose proof (float_exp_lower n d Hn Hd) as H. fold e in H.
    destruct (Z.le_gt_cases (e + 52) 0).
    + rewrite (fnum_neg (e + 52)) in H by lia. rewrite (fden_split e 52) by lia. nia.
    + unfold fnum, fden in *. rewrite Z.max_l in H by lia.
      rewrite (Z.max_r (- (e + 52))), Z.pow_0_r in H by lia.
      rewrite Z.max_l by lia.
      assert (2 ^ 52 = 2 ^ (e + 52) * 2 ^ (- e)) as ->.
      { rewrite <- Z.pow_add_r by lia. f_equal. lia. }
      assert (0 < 2 ^ (- e)) by (apply Z.pow_pos_nonneg; lia). nia.
  - apply round_half_even_error. lia.
Qed.

Lemma float_of_int_exact k :
  0 < k < 2 ^ 52 ->
  fexp (float_of_int k) <= 0 /\ fman (float_of_int k) = k * fden (fexp (float_of_int k)).
Proof.
  intros Hk. unfold float_of_int.
  destruct (float_of_ratio_accurate k 1) as (He & _ & Herr); [lia..|].
  cbn zeta in *. split; [done|]. lia.
Qed.

(** Division of integers: [m / D] is within [1 / 2D] of [a / b]. *)
Lemma float_div_int a b :
  0 < a < 2 ^ 52 -> 0 < b < 2 ^ 52 ->
  let f := float_div (float_of_int a) (float_of_int b) in
  fexp f <= 0 /\ 2 ^ 52 * b <= fden (fexp f) * a /\
  Z.abs (2 * (b * fman f - a * fden (fexp f))) <= b.
Proof.
  intros Ha Hb f.
  destruct (float_of_int_exact a Ha) as [Hea Hma].
  destruct (float_of_int_exact b Hb) as [Heb Hmb].
  unfold f, float_div. rewrite Hma, Hmb, !fnum_neg by done.
  set (Da := fden (fexp (float_of_int a))). set (Db := fden (fexp (float_of_int b))).
  assert (0 < Da /\ 0 < Db) as [HDa HDb] by (split; apply fden_pos).
  set (C := Da * Db). assert (0 < C) by (unfold C; nia).
  replace (a * Da * 1 * Db) with (a * C) by (unfold C; ring).
  replace (b * Db * 1 * Da) with (b * C) by (unfold C; ring).
  destruct (float_of_ratio_accurate (a * C) (b * C)) as (He & Hlo & Herr); [nia|nia|nia|].
  cbn zeta in *. set (g := float_of_ratio (a * C) (b * C)) in *.
  split_all; [done| |].
  - apply (Z.mul_le_mono_pos_l _ _ C); [done|]. nia.
  - replace (2 * (b * C * fman g - a * C * fden (fexp g)))
      with (C * (2 * (b * fman g - a * fden (fexp g)))) in Herr by ring.
    rewrite Z.abs_mul, (Z.abs_eq C) in Herr by lia.
    apply (Z.mul_le_mono_pos_l _ _ C); [done|]. lia.
Qed.

(** Multiplication of [m / D] by a positive integer. *)
Lemma float_mul_int f k :
  fexp f <= 0 -> 0 < fman f -> 0 < k < 2 ^ 52 -> fman f * k < 2 ^ 52 * fden (fexp f) ->
  let g := float_mul f (float_of_int k) in
  fexp g <= 0 /\ 2 ^ 52 * fden (fexp f) <= fden (fexp g) * (fman f * k) /\
  Z.abs (2 * (fden (fexp f) * fman g - fman f * k * fden (fexp g))) <= fden (fexp f).
Proof.
  intros Hef Hm Hk Hlt g.
  destruct (float_of_int_exact k Hk) as [Hek Hmk].
  unfold g, float_mul. rewrite Hmk, !fnum_neg by done.
  set (Dk := fden (fexp (float_of_int k))). set (D := fden (fexp f)) in *.
  assert (0 < Dk /\ 0 < D) as [HDk HD] by (split; apply fden_pos).
  replace (fman f * (k * Dk) * 1 * 1) with (fman f * k * Dk) by ring.
  destruct (float_of_ratio_accurate (fman f * k * Dk) (D * Dk)) as (He & Hlo & Herr);
    [nia|nia|nia|].
  cbn zeta in *. set (h := float_of_ratio _ _) in *. split_all; [done| |].
  - apply (Z.mul_le_mono_pos_l _ _ Dk); [done|]. nia.
  - replace (2 * (D * Dk * fman h - fman f * k * Dk * fden (fexp h)))
      with (Dk * (2 * (D * fman h - fman f * k * fden (fexp h)))) in Herr by ring.
    rewrite Z.abs_mul, (Z.abs_eq Dk) in Herr by lia.
    apply (Z.mul_le_mono_pos_l _ _ Dk); [done|]. lia.
Qed.

(** ** Python numbers: [int] and [float] *)
Inductive pynum : Type :=
  | PInt (z : Z)
  | PFloat (f : float).

(** [x > 0], [x * 3600], [int(round(x))] *)
Definition num_pos (x : pynum) : bool :=
  match x with PInt z => 0 <? z | PFloat f => 0 <? fman f end.
Definition num_is_zero (x : pynum) : bool :=
  match x with PInt z => z =? 0 | PFloat f => float_is_zero f end.
Definition num_mul_int (x : pynum) (k : Z) : pynum :=
  match x with
  | PInt z => PInt (z * k)
  | PFloat f => PFloat (float_mul f (float_of_int k))
  end.
Definition num_round (x : pynum) : Z :=
  match x with PInt z => z | PFloat f => float_round f end.

(** [timedelta(hours=x)] in microseconds. For a float the standard library
    converts the integral part exactly, multiplies the fractional part by the
    microseconds of an hour in binary64, and rounds what is left of a
    microsecond to even on the total. *)
Definition usec_per_hour : Z := 3600 * usec_per_second.

Definition timedelta_hours_num (x : pynum) : Z :=
  match x with
  | PInt z => timedelta_hours z
  | PFloat f =>
      let whole := float_trunc f * usec_per_hour in
      let frac := float_frac f in
      if float_is_zero frac then whole
      else
        let us := float_mul frac (float_of_int usec_per_hour) in
        let left := float_frac us in
        round_half_even
          ((whole + float_trunc us) * fden (fexp left) + fman left * fnum (fexp left))
          (fden (fexp left))
  end.

(** *** Minutes expressed as a float number of hours *)
Definition hours_of_minutes (m : Z) : float :=
  float_div (float_of_int m) (float_of_int 60).

Lemma hours_of_minutes_bounds m :
  1 <= m <= int4_max ->
  let f := hours_of_minutes m in
  fexp f <= 0 /\ 0 < fman f /\ 0 < fden (fexp f) /\
  2 ^ 52 * 60 <= fden (fexp f) * m /\
  Z.abs (2 * (60 * fman f - m * fden (fexp f))) <= 60.
Proof.
  intros Hm f. unfold int4_max in Hm.
  destruct (float_div_int m 60) as (He & Hlo & Herr); [lia..|].
  fold (hours_of_minutes m) in *. fold f in He, Hlo, Herr.
  pose proof (fden_pos (fexp f)). split_all; try done. nia.
Qed.

(** The last step of the accuracy arguments: a scaled error bound leaves less
    than half a unit when both scales are large. *)
Lemma rounding_gap D D2 c t :
  0 <= c -> 4 * c < D -> 4 < D2 -> D * t <= D + c * D2 -> t < D2.
Proof.
  intros Hc HD HD2 Hle. destruct (Z.lt_ge_cases t D2) as [|Hge]; [done|exfalso].
  assert (D * D2 <= D * t) by (apply Z.mul_le_mono_nonneg_l; lia).
  assert (D * 4 <= D * D2) by (apply Z.mul_le_mono_nonneg_l; lia).
  assert (4 * c * D2 <= D * D2) by (apply Z.mul_le_mono_nonneg_r; lia).
  lia.
Qed.

(** Multiplying the float number of hours by 3600 and rounding gives back
    sixty times the minutes, for every positive 32-bit number of minutes. *)
Lemma hours_of_minutes_seconds m :
  1 <= m <= int4_max ->
  float_round (float_mul (hours_of_minutes m) (float_of_int 3600)) = 60 * m.
Proof.
  intros Hm. destruct (hours_of_minutes_bounds m Hm) as (He & Hpos & HD & Hlo & Herr).
  unfold int4_max in Hm.
  set (f := hours_of_minutes m) in *. set (D := fden (fexp f)) in *.
  assert (HfD : fman f * 3600 < 2 ^ 52 * D) by nia.
  destruct (float_mul_int f 3600 He Hpos ltac:(lia) HfD) as (He2 & Hlo2 & Herr2).
  set (g := float_mul f (float_of_int 3600)) in *. fold D in Hlo2, Herr2.
  pose proof (fden_pos (fexp g)) as HD2. set (D2 := fden (fexp g)) in *.
  unfold float_round. rewrite fnum_neg, Z.mul_1_r by done. fold D2.
  apply round_half_even_unique; [done|].
  assert (HDbig : 2 ^ 26 <= D) by nia.
  assert (HfD' : 60 * fman f <= m * D + 30) by lia.
  assert (HD2big : 16 < D2) by nia.
  assert (Hscaled : Z.abs (2 * (D * (D2 * (60 * m) - fman g))) <= D + 3600 * D2).
  { replace (2 * (D * (D2 * (60 * m) - fman g)))
      with (60 * (D2 * (2 * (m * D - 60 * fman f)))
            + 2 * (fman f * 3600 * D2 - D * fman g)) by ring.
    assert (Z.abs (D2 * (2 * (m * D - 60 * fman f))) <= D2 * 60)
      by (rewrite Z.abs_mul, (Z.abs_eq D2) by lia; apply Z.mul_le_mono_nonneg_l; lia).
    lia. }
  replace (2 * (D * (D2 * (60 * m) - fman g)))
    with (D * (2 * (D2 * (60 * m) - fman g))) in Hscaled by ring.
  rewrite Z.abs_mul, (Z.abs_eq D) in Hscaled by lia.
  apply (rounding_gap D D2 3600); [lia..|done].
Qed.

(** [timedelta(hours=m / 60.0)] is exactly [m] minutes, for every number of
    minutes up to ten million (nineteen years). *)
Lemma hours_of_minutes_timedelta m :
  1 <= m <= 10000000 ->
  timedelta_hours_num (PFloat (hours_of_minutes m)) = timedelta_minutes m.
Proof.
  intros Hm. destruct (hours_of_minutes_bounds m) as (He & Hpos & HD & Hlo & Herr);
    [unfold int4_max; lia|].
  cbv beta delta [timedelta_hours_num float_trunc float_frac float_is_zero].
  cbv beta iota zeta. cbn [fman fexp].
  set (f := hours_of_minutes m) in *. rewrite (fnum_neg (fexp f)), Z.mul_1_r, Z.min_l by lia.
  set (D := fden (fexp f)) in *.
  assert (HDbig : 4 * usec_per_hour < D) by (unfold usec_per_hour, usec_per_second; nia).
  pose proof (Z.div_mod (fman f) D ltac:(lia)) as Hqr.
  pose proof (Z.mod_pos_bound (fman f) D HD) as Hr.
  set (q := fman f / D) in *. set (r := fman f mod D) in *.
  assert (HU : usec_per_hour = 3600000000) by reflexivity.
  destruct (r =? 0) eqn:Er.
  { apply Z.eqb_eq in Er. assert (D * Z.abs (2 * (60 * q - m)) <= 60).
    { rewrite <- (Z.abs_eq D) at 1 by lia. rewrite <- Z.abs_mul.
      replace (D * (2 * (60 * q - m))) with (2 * (60 * fman f - m * D)) by (rewrite Hqr; lia).
      done. }
    assert (Z.abs (2 * (60 * q - m)) < 1) by nia.
    unfold timedelta_minutes, usec_per_second. lia. }
  apply Z.eqb_neq in Er. rewrite HU in *.
  destruct (float_mul_int (Flt r (fexp f)) 3600000000) as (He2 & Hlo2 & Herr2);
    cbn [fman fexp]; [done|lia|lia|fold D; nia|].
  set (g := float_mul (Flt r (fexp f)) (float_of_int 3600000000)) in *.
  cbn [fman fexp] in Hlo2, Herr2. fold D in Hlo2, Herr2.
  rewrite (fnum_neg (fexp g)), !Z.mul_1_r, Z.min_l, (fnum_neg (fexp g)), Z.mul_1_r by lia.
  pose proof (fden_pos (fexp g)) as HD2. set (D2 := fden (fexp g)) in *.
  replace ((q * 3600000000 + fman g / D2) * D2 + fman g mod D2)
    with (q * 3600000000 * D2 + fman g) by (pose proof (Z.div_mod (fman g) D2); lia).
  apply round_half_even_unique; [done|].
  apply (rounding_gap D D2 3600000000); [lia..| |].
  { assert (2 ^ 52 * D < D2 * 3600000000 * D) as Hlt by nia. nia. }
  rewrite <- (Z.abs_eq D) at 1 by lia. rewrite <- Z.abs_mul.
  replace (D * (2 * (D2 * timedelta_minutes m - (q * 3600000000 * D2 + fman g))))
    with (60000000 * (D2 * (2 * (m * D - 60 * fman f)))
          + 2 * (r * 3600000000 * D2 - D * fman g))
    by (unfold timedelta_minutes, usec_per_second; rewrite Hqr; ring).
  assert (Z.abs (D2 * (2 * (m * D - 60 * fman f))) <= D2 * 60)
    by (rewrite Z.abs_mul, (Z.abs_eq D2) by lia; apply Z.mul_le_mono_nonneg_l; lia).
  lia.
Qed.

(** ** Money: [Decimal] amounts in units of [1e-5] of the currency

    A [Numeric(10, 2)] column holds multiples of [0.01]; the products the
    backend forms with rates of at most three decimals are exact here. *)
Definition money : Type := Z.
Definition units (n : Z) : money := n * 100000.
Definition cents (n : Z) : money := n * 1000.

(** What a [Numeric(10, 2)] column stores: the nearest cent, halves away from
    zero. *)
Definition numeric_2 (x : money) : money :=
  cents (Z.sgn x * ((2 * Z.abs x + 1000) / 2000)).

Lemma numeric_2_cents n : numeric_2 (cents n) = cents n.
Proof.
  unfold numeric_2, cents.
  assert ((2 * Z.abs (n * 1000) + 1000) / 2000 = Z.abs n) as ->.
  { rewrite Z.abs_mul. replace (2 * (Z.abs n * Z.abs 1000) + 1000) with (1000 + Z.abs n * 2000) by lia.
    rewrite Z.div_add by lia. done. }
  destruct n; done || lia.
Qed.

(** *** Percentages: [int(round(n / 100.0))] *)
Lemma fden_even e : e < 0 -> fden e = 2 * fden (e + 1).
Proof. intros He. rewrite (fden_split e 1) by lia. by rewrite Z.pow_1_r. Qed.

Lemma round_half_even_half q h : 0 < h ->
  round_half_even (q * (2 * h) + h) (2 * h) = if Z.even q then q else q + 1.
Proof.
  intros Hh. unfold round_half_even.
  replace (q * (2 * h) + h) with (h + q * (2 * h)) by lia.
  rewrite Z.div_add, Z.mod_add, Z.div_small, Z.mod_small by lia.
  rewrite Z.compare_refl. by rewrite Z.add_0_l.
Qed.

(** The binary64 quotient by 100 rounds to the same integer as the exact one. *)
Lemma float_percent n :
  0 <= n < 2 ^ 40 ->
  float_round (float_div (float_of_int n) (float_of_int 100)) = round_half_even n 100.
Proof.
  intros Hn. destruct (Z.eq_dec n 0) as [->|Hn0]; [reflexivity|].
  destruct (float_div_int n 100) as (He & Hlo & Herr); [lia..|].
  set (f := float_div (float_of_int n) (float_of_int 100)) in *.
  unfold float_round. rewrite fnum_neg, Z.mul_1_r by done.
  pose proof (fden_pos (fexp f)) as HD.
  assert (Hneg : fexp f < 0).
  { destruct (Z.eq_dec (fexp f) 0) as [E|]; [|lia]. rewrite E in Hlo. change (fden 0) with 1 in Hlo. lia. }
  pose proof (fden_even _ Hneg) as Heven. set (h := fden (fexp f + 1)) in *.
  set (D := fden (fexp f)) in *. assert (HDbig : 100 < D) by nia.
  pose proof (round_half_even_error n 100 ltac:(lia)) as Hk.
  pose proof (Z.div_mod n 100 ltac:(lia)) as Hqr.
  pose proof (Z.mod_pos_bound n 100 ltac:(lia)) as Hr.
  destruct (Z.eq_dec (n mod 100) 50) as [H50|H50].
  - assert (n * D = 200 * (n / 100 * h) + 100 * h) as HnD.
    { rewrite Heven. replace n with (100 * (n / 100) + 50) at 1 by lia. ring. }
    assert (fman f = n / 100 * (2 * h) + h) as -> by lia. rewrite Heven.
    rewrite round_half_even_half by lia.
    transitivity (round_half_even (n / 100 * (2 * 50) + 50) (2 * 50));
      [by rewrite (round_half_even_half (n / 100) 50)|].
    change (2 * 50) with 100. f_equal. lia.
  - set (k := round_half_even n 100) in *.
    assert (Z.abs (2 * (100 * k - n)) <= 98) as Hk98 by lia.
    apply round_half_even_unique; [done|].
    assert (D * Z.abs (2 * (100 * k - n)) <= D * 98) by (apply Z.mul_le_mono_nonneg_l; lia).
    assert (Z.abs (2 * (D * (100 * k - n))) = D * Z.abs (2 * (100 * k - n))) as Habs.
    { replace (2 * (D * (100 * k - n))) with (D * (2 * (100 * k - n))) by ring.
      rewrite Z.abs_mul. lia. }
    assert (100 * Z.abs (2 * (D * k - fman f)) <= 98 * D + 100).
    { rewrite <- (Z.abs_eq 100) at 1 by lia. rewrite <- Z.abs_mul.
      replace (100 * (2 * (D * k - fman f)))
        with (2 * (D * (100 * k - n)) + 2 * (n * D - 100 * fman f)) by ring.
      lia. }
    lia.
Qed.
