(* ===== verification/Calendar.v ===== *)
(** * Dates as text

    The civil calendar behind [str(datetime)], [isoformat] and
    [strftime("%Y%m%d")]: a [datetime] counts microseconds from
    1970-01-01T00:00:00. *)

From S2P Require Import Prelude Numerics.

Definition usec_per_day : Z := 86400 * usec_per_second.

(** Year, month and day of a day number, by 400-year eras starting in March. *)
Definition civil_from_days (days : Z) : Z * Z * Z :=
  let z := days + 719468 in
  let era := z / 146097 in
  let doe := z mod 146097 in
  let yoe := (doe - doe / 1460 + doe / 36524 - doe / 146096) / 365 in
  let doy := doe - (365 * yoe + yoe / 4 - yoe / 100) in
  let mp := (5 * doy + 2) / 153 in
  let d := doy - (153 * mp + 2) / 5 + 1 in
  let m := if mp <? 10 then mp + 3 else mp - 9 in
  (yoe + era * 400 + (if m <=? 2 then 1 else 0), m, d).

Definition date_of (t : datetime) : Z * Z * Z := civil_from_days (t / usec_per_day).

(** [t.strftime("%Y%m%d")] *)
Definition date_digits (t : datetime) : string :=
  let '(y, m, d) := date_of t in zero_pad 4 y +:+ zero_pad 2 m +:+ zero_pad 2 d.

Definition clock_digits (t : datetime) : string :=
  let us := t mod usec_per_day in
  let s := us / usec_per_second in
  zero_pad 2 (s / 3600) +:+ ":" +:+ zero_pad 2 (s / 60 mod 60) +:+ ":" +:+ zero_pad 2 (s mod 60)
  +:+ (if us mod usec_per_second =? 0 then "" else "." +:+ zero_pad 6 (us mod usec_per_second)).

Definition str_of_datetime_with (sep : string) (t : datetime) : string :=
  let '(y, m, d) := date_of t in
  zero_pad 4 y +:+ "-" +:+ zero_pad 2 m +:+ "-" +:+ zero_pad 2 d +:+ sep +:+ clock_digits t.

(** [str(t)] and [t.isoformat()] *)
Definition str_of_datetime : datetime -> string := str_of_datetime_with " ".
Definition isoformat : datetime -> string := str_of_datetime_with "T".

(** [str(o)] of an optional datetime *)
Definition str_of_datetime_opt (o : option datetime) : string :=
  match o with Some t => str_of_datetime t | None => "None" end.

Example epoch_text : str_of_datetime 0 = "1970-01-01 00:00:00".
Proof. vm_compute. reflexivity. Qed.

Example leap_day_text : isoformat (1709210096000007) = "2024-02-29T12:34:56.000007".
Proof. vm_compute. reflexivity. Qed.
