(* ===== verification/Timestamps.v ===== *)
(** * Timestamps read back from their text

    [datetime.fromisoformat] on the texts that [datetime.isoformat] writes
    ([Calendar.isoformat]), with the round trip. *)

From S2P Require Import Prelude PyString Numerics Calendar.
Open Scope Z_scope.

(** The day number of a civil date: the inverse of [civil_from_days]. *)
Definition days_from_civil (y m d : Z) : Z :=
  let y := if m <=? 2 then y - 1 else y in
  let era := y / 400 in
  let yoe := y mod 400 in
  let mp := if m <=? 2 then m + 9 else m - 3 in
  let doy := (153 * mp + 2) / 5 + d - 1 in
  let doe := yoe * 365 + yoe / 4 - yoe / 100 + doy in
  era * 146097 + doe - 719468.

(** A field of [k] digits *)
Definition field (k : nat) (s : string) : option Z :=
  if (String.length s =? k)%nat && all_digits s then Some (read_digits 0 s) else None.

Definition invalid_isoformat (s : string) : exn := ValueError ("Invalid isoformat string: '" +:+ s +:+ "'").

(** [datetime.fromisoformat], for the layout of [isoformat] *)
Definition fromisoformat (s : string) : outcome datetime :=
  match split_on "T" s with
  | [date; time] =>
      match split_on "-" date, split_on ":" time with
      | [y; m; d], [h; mi; rest] =>
          let '(sec, fraction) := match split_on "." rest with
                                  | [sec; us] => (sec, field 6 us)
                                  | _ => (rest, Some 0)
                                  end in
          match field 4 y, field 2 m, field 2 d, field 2 h, field 2 mi, field 2 sec, fraction with
          | Some y, Some m, Some d, Some h, Some mi, Some sec, Some us =>
              Ok (days_from_civil y m d * usec_per_day + ((h * 60 + mi) * 60 + sec) * usec_per_second + us)
          | _, _, _, _, _, _, _ => Raise (invalid_isoformat s)
          end
      | _, _ => Raise (invalid_isoformat s)
      end
  | _ => Raise (invalid_isoformat s)
  end.

(** ** The calendar *)

(** The year of a day of an era, and the day of that year *)
Lemma year_of_era doe : 0 <= doe < 146097 ->
  let yoe := (doe - doe / 1460 + doe / 36524 - doe / 146096) / 365 in
  0 <= yoe <= 399 /\ 0 <= doe - (365 * yoe + yoe / 4 - yoe / 100) <= 365.
Proof.
  intros H. cbv zeta. assert (doe < 146096 \/ doe = 146096) as [Hl| ->] by lia; [|vm_compute; split; split; discriminate].
  rewrite (Z.div_small doe 146096) by lia. split; Z.to_euclidean_division_equations; lia.
Qed.

(** The month counted from March and the day of the month *)
Lemma month_of_year doy : 0 <= doy <= 365 ->
  let mp := (5 * doy + 2) / 153 in
  0 <= mp <= 11 /\ 1 <= doy - (153 * mp + 2) / 5 + 1 <= 31.
Proof. intros H. cbv zeta. split; Z.to_euclidean_division_equations; lia. Qed.

Lemma days_of_civil n :
  let '(y, m, d) := civil_from_days n in
  days_from_civil y m d = n /\ 1 <= m <= 12 /\ 1 <= d <= 31.
Proof.
  unfold civil_from_days. set (z := n + 719468). pose proof (Z.mod_pos_bound z 146097 ltac:(lia)) as Hd.
  pose proof (Z.div_mod z 146097 ltac:(lia)) as Hz. set (doe := z mod 146097) in *. set (era := z / 146097) in *.
  destruct (year_of_era doe Hd) as [Hy Hdoy]. set (yoe := (doe - doe / 1460 + doe / 36524 - doe / 146096) / 365) in *.
  set (doy := doe - (365 * yoe + yoe / 4 - yoe / 100)) in *. destruct (month_of_year doy Hdoy) as [Hm Hday]. set (mp := (5 * doy + 2) / 153) in *.
  assert (Hback : forall y, y = yoe + era * 400 -> y / 400 = era /\ y mod 400 = yoe).
  { intros y ->. split; [rewrite Z.div_add, Z.div_small by lia; lia|rewrite Z.mod_add, Z.mod_small by lia; lia]. }
  unfold days_from_civil. destruct (Z.ltb_spec mp 10).
  - rewrite (proj2 (Z.leb_gt (mp + 3) 2)) by lia. destruct (Hback (yoe + era * 400 + 0) ltac:(lia)) as [-> ->].
    replace (mp + 3 - 3) with mp by lia. lia.
  - rewrite (proj2 (Z.leb_le (mp - 9) 2)) by lia.
    destruct (Hback (yoe + era * 400 + 1 - 1) ltac:(lia)) as [-> ->].
    replace (mp - 9 + 9) with mp by lia. lia.
Qed.

(** Days from 1970 to the end of 9998 have years of four digits. *)
Definition max_day : Z := 2932531.

Lemma year_of_civil n : 0 <= n < max_day -> 0 <= (civil_from_days n).1.1 <= 9999.
Proof.
  intros Hn. unfold civil_from_days, max_day in *. set (z := n + 719468). cbn [fst].
  pose proof (Z.mod_pos_bound z 146097 ltac:(lia)) as Hd. pose proof (Z.div_mod z 146097 ltac:(lia)) as Hz.
  set (doe := z mod 146097) in *. set (era := z / 146097) in *.
  destruct (year_of_era doe Hd) as [Hy _]. cbv zeta in Hy.
  assert (He : 0 <= era <= 24) by lia.
  assert (Hlast : era = 24 -> (doe - doe / 1460 + doe / 36524 - doe / 146096) / 365 <= 398).
  { intros E. assert (doe < 146037 - 365) by lia. Z.to_euclidean_division_equations. lia. }
  set (yoe := (doe - doe / 1460 + doe / 36524 - doe / 146096) / 365) in *. case_match; lia.
Qed.

(** ** The text *)

Lemma zeros_length k : String.length (zeros k) = k.
Proof. induction k as [|k IH]; [done|]. exact (f_equal S IH). Qed.

Lemma all_digits_app s t : all_digits (s +:+ t) = all_digits s && all_digits t.
Proof.
  induction s as [|c s IH]; [done|]. unfold all_digits in *. simpl. by rewrite IH, andb_assoc.
Qed.

Lemma zeros_digits k : all_digits (zeros k) = true.
Proof. induction k as [|k IH]; [done|]. exact IH. Qed.

Lemma zero_pad_all_digits k n : 0 <= n -> all_digits (zero_pad k n) = true.
Proof.
  intros Hn. unfold zero_pad. rewrite all_digits_app, zeros_digits. by destruct (str_of_Z_digits n Hn) as [-> _].
Qed.

Lemma zero_pad_no_char x k n : 0 <= n -> digit_value x = None -> contains_char x (zero_pad k n) = false.
Proof. intros Hn. by apply all_digits_no_char, zero_pad_all_digits. Qed.

Lemma field_zero_pad k n : (1 <= k)%nat -> 0 <= n < 10 ^ Z.of_nat k -> field k (zero_pad k n) = Some n.
Proof.
  intros Hk Hn. unfold field. rewrite zero_pad_all_digits by lia.
  assert (Hl : String.length (zero_pad k n) = k).
  { unfold zero_pad. rewrite string_length_app, zeros_length. pose proof (str_of_Z_length k n Hk Hn). lia. }
  rewrite Hl, Nat.eqb_refl. simpl. unfold zero_pad. rewrite read_digits_zeros.
  by destruct (str_of_Z_digits n) as (_ & -> & _); [lia|].
Qed.

(** ** The round trip *)
Definition max_instant : datetime := max_day * usec_per_day.

Lemma char_app c s : String c "" +:+ s = String c s.
Proof. done. Qed.

Lemma date_text_splits y m d : 0 <= y -> 0 <= m -> 0 <= d ->
  split_on "-" (zero_pad 4 y +:+ "-" +:+ zero_pad 2 m +:+ "-" +:+ zero_pad 2 d)
  = [zero_pad 4 y; zero_pad 2 m; zero_pad 2 d].
Proof.
  intros Hy Hm Hd. rewrite !char_app.
  rewrite !split_on_app, split_on_last by (by apply zero_pad_no_char). done.
Qed.

(** The seconds with their fraction *)
Definition seconds_text (s us : Z) : string :=
  zero_pad 2 s +:+ (if us =? 0 then "" else "." +:+ zero_pad 6 us).

Lemma seconds_text_no_char x s us :
  0 <= s -> 0 <= us -> digit_value x = None -> x <> "."%char -> contains_char x (seconds_text s us) = false.
Proof.
  intros Hs Hu Hx Hd. unfold seconds_text. rewrite contains_char_app, zero_pad_no_char by done.
  case_match; [done|]. simpl. rewrite bool_decide_eq_false_2 by (by intros <-). by apply zero_pad_no_char.
Qed.

Lemma seconds_text_read s us : 0 <= s < 60 -> 0 <= us < 10 ^ 6 ->
  (let '(sec, fraction) := match split_on "." (seconds_text s us) with
                           | [sec; us] => (sec, field 6 us)
                           | _ => (seconds_text s us, Some 0)
                           end in (field 2 sec, fraction)) = (Some s, Some us).
Proof.
  intros Hs Hu. unfold seconds_text. destruct (Z.eqb_spec us 0) as [->|Hne].
  - rewrite string_app_nil_r, split_on_last by (apply zero_pad_no_char; [lia|done]).
    rewrite field_zero_pad by lia. done.
  - rewrite char_app.
    rewrite split_on_app, split_on_last by (apply zero_pad_no_char; [lia|done]).
    rewrite !field_zero_pad by lia. done.
Qed.

Lemma clock_text_splits h m s us : 0 <= h -> 0 <= m -> 0 <= s -> 0 <= us ->
  split_on ":" (zero_pad 2 h +:+ ":" +:+ zero_pad 2 m +:+ ":" +:+ seconds_text s us)
  = [zero_pad 2 h; zero_pad 2 m; seconds_text s us].
Proof.
  intros Hh Hm Hs Hu. rewrite !char_app.
  rewrite !split_on_app, split_on_last by (by (apply zero_pad_no_char || apply seconds_text_no_char)). done.
Qed.

(** A timestamp is read back as it was written: [fromisoformat] inverts
    [isoformat] to the microsecond on every instant from 1970 to the end of 9998. *)
Lemma isoformat_round_trip t : 0 <= t < max_instant -> fromisoformat (isoformat t) = Ok t.
Proof.
  intros Ht. set (n := t / usec_per_day). set (us := t mod usec_per_day).
  assert (Hn : 0 <= n < max_day).
  { split; [apply Z.div_pos; [lia|reflexivity]|apply Z.div_lt_upper_bound; [reflexivity|]].
    rewrite Z.mul_comm. apply Ht. }
  assert (Hu : 0 <= us < usec_per_day) by (apply Z.mod_pos_bound; reflexivity).
  assert (Et : t = n * usec_per_day + us) by (unfold n, us; rewrite Z.mul_comm; by apply Z.div_mod).
  pose proof (days_of_civil n) as Hc. pose proof (year_of_civil n Hn) as Hy.
  unfold isoformat, str_of_datetime_with, date_of, clock_digits. fold n us.
  destruct (civil_from_days n) as [[y m] d]. cbn [fst] in Hy. destruct Hc as (Hd & Hm & Hday).
  unfold usec_per_day, usec_per_second in *. set (s := us / 1000000).
  change (zero_pad 2 (s mod 60) +:+ (if us mod 1000000 =? 0 then "" else "." +:+ zero_pad 6 (us mod 1000000)))
    with (seconds_text (s mod 60) (us mod 1000000)).
  assert (Hs : 0 <= s < 86400) by (unfold s; Z.to_euclidean_division_equations; lia).
  assert (Hf : 0 <= us mod 1000000 < 10 ^ 6) by (apply Z.mod_pos_bound; reflexivity).
  pose proof (Z.mod_pos_bound s 60 ltac:(lia)). pose proof (Z.mod_pos_bound (s / 60) 60 ltac:(lia)).
  assert (0 <= s / 3600 < 24) by (Z.to_euclidean_division_equations; lia).
  set (date := zero_pad 4 y +:+ "-" +:+ zero_pad 2 m +:+ "-" +:+ zero_pad 2 d).
  set (clock := zero_pad 2 (s / 3600) +:+ ":" +:+ zero_pad 2 (s / 60 mod 60) +:+ ":" +:+ seconds_text (s mod 60) (us mod 1000000)).
  assert (Etext : zero_pad 4 y +:+ "-" +:+ zero_pad 2 m +:+ "-" +:+ zero_pad 2 d +:+ "T" +:+ clock = date +:+ String "T" clock).
  { unfold date. by rewrite !string_app_assoc. }
  rewrite Etext. unfold fromisoformat. rewrite split_on_app, split_on_last.
  - unfold date, clock. rewrite date_text_splits, clock_text_splits by lia.
    pose proof (seconds_text_read (s mod 60) (us mod 1000000) ltac:(lia) Hf) as Hr.
    destruct (match split_on "." _ with [sec; us] => _ | _ => _ end) as [sec fraction]. injection Hr as Hsec Hfr.
    rewrite !field_zero_pad by lia. rewrite Hsec, Hfr. f_equal. rewrite Hd, Et.
    pose proof (Z.div_mod us 1000000 ltac:(lia)) as E1. pose proof (Z.div_mod s 60 ltac:(lia)) as E2.
    pose proof (Z.div_mod (s / 60) 60 ltac:(lia)) as E3. rewrite Z.div_div in E3 by lia.
    unfold usec_per_day, usec_per_second. fold s in E1. change (60 * 60) with 3600 in E3. lia.
  - unfold clock. rewrite !contains_char_app, !zero_pad_no_char, seconds_text_no_char by (done || lia). done.
  - unfold date. rewrite !contains_char_app, !zero_pad_no_char by (done || lia). done.
Qed.
