(* ===== verification/Models.v ===== *)
(** * Data model: the tables the modelled services read and write

    One Record per SQLAlchemy model of [src/app/models/], with the columns the
    modelled code uses, and the record [DB] of the tables, each keyed by its
    primary key. An optional column is an [option]; a [DateTime] is in
    microseconds. *)

From S2P Require Import Prelude Numerics.


(** [SubscriptionStatus] *)
Inductive SubscriptionStatus : Type :=
  | ACTIVE
  | INACTIVE
  | SUSPENDED
  | EXPIRED
  | CANCELLED
  | PENDING.
#[export] Instance SubscriptionStatus_eq_dec : EqDecision SubscriptionStatus.
Proof. solve_decision. Defined.

(** The [.value] of the member. *)
Definition status_value (x : SubscriptionStatus) : string :=
  match x with
  | ACTIVE => "active"
  | INACTIVE => "inactive"
  | SUSPENDED => "suspended"
  | EXPIRED => "expired"
  | CANCELLED => "cancelled"
  | PENDING => "pending"
  end.

(** [SubscriptionType] *)
Inductive SubscriptionType : Type :=
  | HOTSPOT
  | PPPOE.
#[export] Instance SubscriptionType_eq_dec : EqDecision SubscriptionType.
Proof. solve_decision. Defined.

(** [Subscription] *)
Record Subscription : Type := mkSubscription {
  sub_organization_id : option Z;
  sub_user_id : Z;
  sub_plan_id : Z;
  sub_router_id : Z;
  sub_type : SubscriptionType;
  sub_status : SubscriptionStatus;
  sub_username : string;
  sub_password : string;
  sub_start_date : option datetime;
  sub_end_date : option datetime;
  sub_is_auto_renewal : bool;
  sub_created_at : datetime;
  sub_bytes_uploaded : Z;
  sub_bytes_downloaded : Z;
  sub_total_bytes_used : Z;
  sub_session_count : Z;
  sub_last_activity : option datetime;
  sub_is_router_synced : bool;
  sub_last_router_sync : option datetime;
  sub_notes : option string;
  sub_created_by : option Z
}.
#[export] Instance Subscription_eta : Eta Subscription :=
  fun r => mkSubscription (sub_organization_id r) (sub_user_id r)
    (sub_plan_id r) (sub_router_id r) (sub_type r) (sub_status r)
    (sub_username r) (sub_password r) (sub_start_date r) (sub_end_date r)
    (sub_is_auto_renewal r) (sub_created_at r)
    (sub_bytes_uploaded r) (sub_bytes_downloaded r) (sub_total_bytes_used r)
    (sub_session_count r) (sub_last_activity r) (sub_is_router_synced r)
    (sub_last_router_sync r) (sub_notes r) (sub_created_by r).

(** [SubscriptionUsageLog] *)
Record SubscriptionUsageLog : Type := mkUsageLog {
  log_subscription_id : Z;
  log_date : datetime;
  log_bytes_uploaded : Z;
  log_bytes_downloaded : Z;
  log_session_duration : Z;
  log_ip_address : option string;
  log_mac_address : option string
}.
#[export] Instance SubscriptionUsageLog_eta : Eta SubscriptionUsageLog :=
  fun r => mkUsageLog (log_subscription_id r) (log_date r)
    (log_bytes_uploaded r) (log_bytes_downloaded r) (log_session_duration r)
    (log_ip_address r) (log_mac_address r).

(** [SubscriptionHistory] *)
Record SubscriptionHistory : Type := mkHistory {
  hist_subscription_id : Z;
  hist_action : string;
  hist_old_status : option string;
  hist_new_status : option string;
  hist_details : string;
  hist_changed_by : option Z;
  hist_ip_address : option string
}.
#[export] Instance SubscriptionHistory_eta : Eta SubscriptionHistory :=
  fun r => mkHistory (hist_subscription_id r) (hist_action r)
    (hist_old_status r) (hist_new_status r) (hist_details r)
    (hist_changed_by r) (hist_ip_address r).

(** [PlanType] *)
Inductive PlanType : Type :=
  | INTERNET
  | PT_HOTSPOT
  | PT_PPPOE
  | BOTH.
#[export] Instance PlanType_eq_dec : EqDecision PlanType.
Proof. solve_decision. Defined.

(** [BillingCycle] *)
Inductive BillingCycle : Type :=
  | DAILY
  | WEEKLY
  | MONTHLY
  | QUARTERLY
  | YEARLY
  | ONE_TIME.
#[export] Instance BillingCycle_eq_dec : EqDecision BillingCycle.
Proof. solve_decision. Defined.

(** The [.value] of the member. *)
Definition cycle_value (x : BillingCycle) : string :=
  match x with
  | DAILY => "DAILY"
  | WEEKLY => "WEEKLY"
  | MONTHLY => "MONTHLY"
  | QUARTERLY => "QUARTERLY"
  | YEARLY => "YEARLY"
  | ONE_TIME => "ONE_TIME"
  end.

(** [PlanStatus] *)
Inductive PlanStatus : Type :=
  | PLAN_ACTIVE
  | PLAN_INACTIVE
  | DISCONTINUED.
#[export] Instance PlanStatus_eq_dec : EqDecision PlanStatus.
Proof. solve_decision. Defined.

(** [ServicePlan] *)
Record ServicePlan : Type := mkServicePlan {
  plan_organization_id : option Z;
  plan_name : string;
  plan_type : PlanType;
  plan_status : PlanStatus;
  plan_price : money;
  plan_currency : string;
  plan_billing_cycle : BillingCycle;
  plan_download_speed : Z;
  plan_upload_speed : Z;
  plan_data_limit : Z;
  plan_time_limit : Z;
  plan_validity_days : Z;
  plan_duration_minutes : option Z;
  plan_concurrent_sessions : Z;
  plan_is_popular : bool;
  plan_sort_order : Z;
  plan_enable_burst : bool;
  plan_burst_download : option Z;
  plan_burst_upload : option Z;
  plan_burst_threshold : option Z;
  plan_burst_time : option Z;
  plan_created_at : datetime
}.
#[export] Instance ServicePlan_eta : Eta ServicePlan :=
  fun r => mkServicePlan (plan_organization_id r) (plan_name r) (plan_type
    r) (plan_status r) (plan_price r) (plan_currency r) (plan_billing_cycle
    r) (plan_download_speed r) (plan_upload_speed r) (plan_data_limit r)
    (plan_time_limit r) (plan_validity_days r) (plan_duration_minutes r)
    (plan_concurrent_sessions r) (plan_is_popular r) (plan_sort_order r)
    (plan_enable_burst r) (plan_burst_download r) (plan_burst_upload r)
    (plan_burst_threshold r) (plan_burst_time r) (plan_created_at r).

(** The columns of [service_plans] that only the administration of plans writes *)
Record PlanDetails : Type := mkPlanDetails {
  pld_description : option string;
  pld_fup_enabled : bool;
  pld_fup_threshold : option Z;
  pld_fup_download_speed : option Z;
  pld_fup_upload_speed : option Z;
  pld_auto_renewal : bool;
  pld_enable_schedule : bool;
  pld_schedule_start_time : option string;
  pld_schedule_end_time : option string;
  pld_config : option string;
  pld_notes : option string
}.
#[export] Instance PlanDetails_eta : Eta PlanDetails := fun r =>
  mkPlanDetails (pld_description r) (pld_fup_enabled r) (pld_fup_threshold r)
    (pld_fup_download_speed r) (pld_fup_upload_speed r) (pld_auto_renewal r)
    (pld_enable_schedule r) (pld_schedule_start_time r) (pld_schedule_end_time r)
    (pld_config r) (pld_notes r).

(** [PlanFeature] *)
Record PlanFeature : Type := mkPlanFeature {
  pf_plan_id : Z;
  pf_feature_name : string;
  pf_feature_value : option string;
  pf_is_included : bool;
  pf_sort_order : Z
}.

(** [PlanPricing]; the discount is in hundredths of a percent. *)
Record PlanPricing : Type := mkPlanPricing {
  pp_plan_id : Z;
  pp_duration_months : Z;
  pp_price : money;
  pp_discount_percentage : Z;
  pp_is_active : bool
}.

(** [RouterStatus] *)
Inductive RouterStatus : Type :=
  | ONLINE
  | OFFLINE
  | MAINTENANCE
  | ERROR.
#[export] Instance RouterStatus_eq_dec : EqDecision RouterStatus.
Proof. solve_decision. Defined.

(** One entry of the agent-reported list of active users *)
Record ActiveUser : Type := mkActiveUser {
  au_username : string;
  au_type : string;
  au_address : string;
  au_mac : string;
  au_uptime : string
}.
#[export] Instance ActiveUser_eta : Eta ActiveUser :=
  fun r => mkActiveUser (au_username r) (au_type r) (au_address r) (au_mac
    r) (au_uptime r).

(** A member of the JSON object stored in [Router.config] *)
Inductive JsonScalar : Type :=
  | JStr (s : string)
  | JNum (n : Z)
  | JNull.
#[export] Instance JsonScalar_eq_dec : EqDecision JsonScalar.
Proof. solve_decision. Defined.

(** [Router]; [rt_config] holds the members of the JSON object, and no member
    when the column is null or does not parse. *)
Record Router : Type := mkRouter {
  rt_organization_id : option Z;
  rt_name : string;
  rt_ip_address : string;
  rt_port : Z;
  rt_username : string;
  rt_password : string;
  rt_status : RouterStatus;
  rt_is_active : bool;
  rt_last_seen : option datetime;
  rt_uptime : Z;
  rt_routeros_version : option string;
  rt_cpu_load : option Z;
  rt_total_memory : option Z;
  rt_free_memory : option Z;
  rt_total_hdd_space : option Z;
  rt_free_hdd_space : option Z;
  rt_agent_token : option string;
  rt_agent_token_plain : option string;
  rt_agent_installed : bool;
  rt_agent_poll_interval : Z;
  rt_last_poll_at : option datetime;
  rt_active_users : option (list ActiveUser);
  rt_active_users_at : option datetime;
  rt_winbox_port : option Z;
  rt_vpn_address : option string;
  rt_vpn_public_key : option string;
  rt_vpn_enabled : bool;
  rt_config : list (string * JsonScalar)
}.
#[export] Instance Router_eta : Eta Router :=
  fun r => mkRouter (rt_organization_id r) (rt_name r) (rt_ip_address r)
    (rt_port r) (rt_username r) (rt_password r) (rt_status r) (rt_is_active
    r) (rt_last_seen r) (rt_uptime r) (rt_routeros_version r) (rt_cpu_load
    r) (rt_total_memory r) (rt_free_memory r) (rt_total_hdd_space r)
    (rt_free_hdd_space r) (rt_agent_token r) (rt_agent_token_plain r)
    (rt_agent_installed r) (rt_agent_poll_interval r) (rt_last_poll_at r)
    (rt_active_users r) (rt_active_users_at r) (rt_winbox_port r) (rt_vpn_address
    r) (rt_vpn_public_key r) (rt_vpn_enabled r) (rt_config r).

(** [UserRole] *)
Inductive UserRole : Type :=
  | PLATFORM_OWNER
  | ISP_ADMIN
  | ISP_TECHNICIAN
  | CUSTOMER.
#[export] Instance UserRole_eq_dec : EqDecision UserRole.
Proof. solve_decision. Defined.

(** The [.value] of the member. *)
Definition role_value (x : UserRole) : string :=
  match x with
  | PLATFORM_OWNER => "platform_owner"
  | ISP_ADMIN => "isp_admin"
  | ISP_TECHNICIAN => "isp_technician"
  | CUSTOMER => "customer"
  end.

(** [UserStatus] *)
Inductive UserStatus : Type :=
  | U_ACTIVE
  | U_INACTIVE
  | U_SUSPENDED
  | PENDING_VERIFICATION.
#[export] Instance UserStatus_eq_dec : EqDecision UserStatus.
Proof. solve_decision. Defined.

(** [User]; [usr_role_id] refers to the row of [roles] that carries the
    permissions. *)
Record User : Type := mkUser {
  usr_organization_id : option Z;
  usr_username : string;
  usr_email : string;
  usr_phone : option string;
  usr_first_name : string;
  usr_last_name : string;
  usr_hashed_password : string;
  usr_role : UserRole;
  usr_status : UserStatus;
  usr_is_active : bool;
  usr_is_verified : bool;
  usr_auth_service_user_id : option string;
  usr_auth_synced_at : option datetime;
  usr_role_id : option Z;
  usr_last_login : option datetime
}.
#[export] Instance User_eta : Eta User :=
  fun r => mkUser (usr_organization_id r) (usr_username r) (usr_email r)
    (usr_phone r) (usr_first_name r) (usr_last_name r) (usr_hashed_password r)
    (usr_role r) (usr_status r) (usr_is_active r) (usr_is_verified r)
    (usr_auth_service_user_id r) (usr_auth_synced_at r) (usr_role_id r)
    (usr_last_login r).

(** The columns of [users] for the profile page *)
Record UserProfile : Type := mkUserProfile {
  up_bio : option string;
  up_avatar_url : option string
}.

(** An active customer, for the concrete runs. *)
Definition customer_user (org : option Z) (username email : string) (phone : option string)
    (first last : string) : User :=
  mkUser org username email phone first last "hash" CUSTOMER U_ACTIVE true true None None None None.

(** [OrganizationStatus] *)
Inductive OrganizationStatus : Type :=
  | O_ACTIVE
  | O_SUSPENDED
  | TRIAL
  | PENDING_PAYMENT
  | O_INACTIVE.
#[export] Instance OrganizationStatus_eq_dec : EqDecision OrganizationStatus.
Proof. solve_decision. Defined.

(** [Organization], a row of [organizations] *)
Record OrganizationRow : Type := mkOrgRow {
  org_row_uuid : string;
  org_row_auth_tenant_id : option string;
  org_row_name : string;
  org_row_slug : string;
  org_row_status : OrganizationStatus;
  org_row_email : string;
  org_row_phone : option string;
  org_row_notification_email : option string;
  org_row_notification_phone : option string;
  org_row_address : option string;
  org_row_city : option string;
  org_row_trial_ends_at : option datetime;
  org_row_portal_domain : option string;
  org_row_subscription_ends_at : option datetime
}.
#[export] Instance OrganizationRow_eta : Eta OrganizationRow :=
  fun r => mkOrgRow (org_row_uuid r) (org_row_auth_tenant_id r) (org_row_name r)
    (org_row_slug r) (org_row_status r) (org_row_email r) (org_row_phone r)
    (org_row_notification_email r) (org_row_notification_phone r) (org_row_address r)
    (org_row_city r) (org_row_trial_ends_at r) (org_row_portal_domain r) (org_row_subscription_ends_at r).

(** [OrganizationSettings], keyed by the organization *)
Record OrganizationSettings : Type := mkOrgSettings {
  org_auto_suspend_days : option Z;
  org_prune_inactive_users_days : option Z;
  org_hotspot_username_prefix : string;
  org_hotspot_username_counter : Z
}.
#[export] Instance OrganizationSettings_eta : Eta OrganizationSettings :=
  fun r => mkOrgSettings (org_auto_suspend_days r)
    (org_prune_inactive_users_days r) (org_hotspot_username_prefix r)
    (org_hotspot_username_counter r).

(** [CommandStatus] *)
Inductive CommandStatus : Type :=
  | CMD_PENDING
  | SENT
  | SUCCESS
  | FAILED
  | CMD_EXPIRED.
#[export] Instance CommandStatus_eq_dec : EqDecision CommandStatus.
Proof. solve_decision. Defined.

(** [RouterCommand] *)
Record RouterCommand : Type := mkCommand {
  cmd_router_id : Z;
  cmd_action : string;
  cmd_params : list (string * string);
  cmd_priority : Z;
  cmd_status : CommandStatus;
  cmd_created_at : datetime;
  cmd_sent_at : option datetime;
  cmd_completed_at : option datetime;
  cmd_expires_at : option datetime;
  cmd_result_message : option string;
  cmd_retry_count : Z;
  cmd_max_retries : Z;
  cmd_source : option string;
  cmd_source_id : option string
}.
#[export] Instance RouterCommand_eta : Eta RouterCommand :=
  fun r => mkCommand (cmd_router_id r) (cmd_action r) (cmd_params r)
    (cmd_priority r) (cmd_status r) (cmd_created_at r) (cmd_sent_at r)
    (cmd_completed_at r) (cmd_expires_at r) (cmd_result_message r)
    (cmd_retry_count r) (cmd_max_retries r) (cmd_source r) (cmd_source_id r).

(** [RouterBackup] *)
Record RouterBackup : Type := mkBackup {
  bak_router_id : Z;
  bak_name : string;
  bak_command_id : option Z;
  bak_status : string;
  bak_message : option string;
  bak_created_at : datetime;
  bak_completed_at : option datetime
}.
#[export] Instance RouterBackup_eta : Eta RouterBackup :=
  fun r => mkBackup (bak_router_id r) (bak_name r) (bak_command_id r) (bak_status r)
    (bak_message r) (bak_created_at r) (bak_completed_at r).

(** [VoucherStatus] *)
Inductive VoucherStatus : Type :=
  | V_ACTIVE
  | V_USED
  | V_EXPIRED
  | V_CANCELLED.
#[export] Instance VoucherStatus_eq_dec : EqDecision VoucherStatus.
Proof. solve_decision. Defined.

(** [VoucherCode] *)
Record VoucherCode : Type := mkVoucher {
  vch_organization_id : Z;
  vch_code : string;
  vch_plan_id : Z;
  vch_status : VoucherStatus;
  vch_is_used : bool;
  vch_used_at : option datetime;
  vch_expires_at : option datetime;
  vch_hotspot_username : option string;
  vch_hotspot_password : option string;
  vch_created_at : datetime;
  vch_used_mac_address : option string;
  vch_used_ip_address : option string;
  vch_value : option money;
  vch_batch_id : option string;
  vch_created_by : option Z
}.
#[export] Instance VoucherCode_eta : Eta VoucherCode :=
  fun r => mkVoucher (vch_organization_id r) (vch_code r) (vch_plan_id r)
    (vch_status r) (vch_is_used r) (vch_used_at r) (vch_expires_at r)
    (vch_hotspot_username r) (vch_hotspot_password r) (vch_created_at r)
    (vch_used_mac_address r) (vch_used_ip_address r) (vch_value r) (vch_batch_id r)
    (vch_created_by r).

(** [SessionStatus] *)
Inductive SessionStatus : Type :=
  | S_ACTIVE
  | S_EXPIRED
  | S_DISCONNECTED
  | S_SUSPENDED.
#[export] Instance SessionStatus_eq_dec : EqDecision SessionStatus.
Proof. solve_decision. Defined.

(** [CustomerSession] *)
Record CustomerSession : Type := mkSession {
  ses_organization_id : Z;
  ses_status : SessionStatus;
  ses_expires_at : datetime;
  ses_ended_at : option datetime;
  ses_terminate_cause : option string;
  ses_session_token : string;
  ses_mac_address : string;
  ses_ip_address : option string;
  ses_started_at : datetime;
  ses_created_at : datetime;
  ses_bytes_in : Z;
  ses_bytes_out : Z;
  ses_plan_name : option string;
  ses_speed_limit_up : option Z;
  ses_speed_limit_down : option Z;
  ses_data_limit : option Z
}.
#[export] Instance CustomerSession_eta : Eta CustomerSession :=
  fun r => mkSession (ses_organization_id r) (ses_status r) (ses_expires_at
    r) (ses_ended_at r) (ses_terminate_cause r) (ses_session_token r)
    (ses_mac_address r) (ses_ip_address r) (ses_started_at r) (ses_created_at r)
    (ses_bytes_in r) (ses_bytes_out r) (ses_plan_name r) (ses_speed_limit_up r)
    (ses_speed_limit_down r) (ses_data_limit r).

(** [CustomerPurchase] *)
Record CustomerPurchase : Type := mkPurchase {
  pur_organization_id : Z;
  pur_voucher_code_id : option Z;
  pur_session_id : option Z;
  pur_subscription_id : option Z;
  pur_payment_status : string;
  pur_completed_at : option datetime;
  pur_phone_number : string;
  pur_email : option string;
  pur_plan_id : Z;
  pur_amount : money;
  pur_currency : string;
  pur_payment_method : string;
  pur_payment_reference : option string;
  pur_treasury_payment_intent_id : option string;
  pur_ip_address : option string;
  pur_created_at : datetime
}.
#[export] Instance CustomerPurchase_eta : Eta CustomerPurchase :=
  fun r => mkPurchase (pur_organization_id r) (pur_voucher_code_id r)
    (pur_session_id r) (pur_subscription_id r) (pur_payment_status r)
    (pur_completed_at r) (pur_phone_number r) (pur_email r) (pur_plan_id r)
    (pur_amount r) (pur_currency r) (pur_payment_method r)
    (pur_payment_reference r) (pur_treasury_payment_intent_id r)
    (pur_ip_address r) (pur_created_at r).

(** [InvoiceStatus] *)
Inductive InvoiceStatus : Type :=
  | DRAFT
  | INV_PENDING
  | PAID
  | OVERDUE
  | INV_CANCELLED
  | INV_REFUNDED.
#[export] Instance InvoiceStatus_eq_dec : EqDecision InvoiceStatus.
Proof. solve_decision. Defined.

(** [PaymentStatus] *)
Inductive PaymentStatus : Type :=
  | PAY_PENDING
  | COMPLETED
  | PAY_FAILED
  | PAY_CANCELLED
  | PAY_REFUNDED
  | CHECKED
  | UNCHECKED.
#[export] Instance PaymentStatus_eq_dec : EqDecision PaymentStatus.
Proof. solve_decision. Defined.

(** [PaymentMethod] *)
Inductive PaymentMethod : Type :=
  | MPESA
  | BANK_TRANSFER
  | CASH
  | CARD
  | OTHER.
#[export] Instance PaymentMethod_eq_dec : EqDecision PaymentMethod.
Proof. solve_decision. Defined.

(** [Invoice] *)
Record Invoice : Type := mkInvoice {
  inv_organization_id : option Z;
  inv_user_id : Z;
  inv_subscription_id : option Z;
  inv_invoice_number : string;
  inv_status : InvoiceStatus;
  inv_subtotal : money;
  inv_tax_amount : money;
  inv_discount_amount : money;
  inv_total_amount : money;
  inv_paid_amount : money;
  inv_balance : money;
  inv_issue_date : datetime;
  inv_due_date : datetime;
  inv_paid_date : option datetime;
  inv_billing_period_start : option datetime;
  inv_billing_period_end : option datetime;
  inv_notes : option string
}.
#[export] Instance Invoice_eta : Eta Invoice :=
  fun r => mkInvoice (inv_organization_id r) (inv_user_id r)
    (inv_subscription_id r) (inv_invoice_number r) (inv_status r)
    (inv_subtotal r) (inv_tax_amount r) (inv_discount_amount r)
    (inv_total_amount r) (inv_paid_amount r) (inv_balance r) (inv_issue_date
    r) (inv_due_date r) (inv_paid_date r) (inv_billing_period_start r)
    (inv_billing_period_end r) (inv_notes r).

(** [InvoiceItem]; [item_quantity] counts hundredths *)
Record InvoiceItem : Type := mkInvoiceItem {
  item_invoice_id : Z;
  item_description : string;
  item_quantity : Z;
  item_unit_price : money;
  item_total_price : money;
  item_item_type : string
}.
#[export] Instance InvoiceItem_eta : Eta InvoiceItem :=
  fun r => mkInvoiceItem (item_invoice_id r) (item_description r)
    (item_quantity r) (item_unit_price r) (item_total_price r)
    (item_item_type r).

(** [Payment] *)
Record Payment : Type := mkPayment {
  pay_organization_id : option Z;
  pay_user_id : option Z;
  pay_invoice_id : option Z;
  pay_payment_number : string;
  pay_amount : money;
  pay_currency : string;
  pay_method : PaymentMethod;
  pay_status : PaymentStatus;
  pay_transaction_id : option string;
  pay_reference_number : option string;
  pay_mpesa_receipt_number : option string;
  pay_mpesa_phone_number : option string;
  pay_mpesa_transaction_date : option datetime;
  pay_payment_date : option datetime;
  pay_processed_date : option datetime;
  pay_notes : option string;
  pay_verified_by : option Z;
  pay_verified_at : option datetime;
  pay_verification_notes : option string;
  pay_disbursement_method : option string;
  pay_disbursement_reference : option string;
  pay_is_manual_payment : bool;
  pay_recorded_by : option Z;
  pay_receipt_image_url : option string;
  pay_created_at : datetime
}.
#[export] Instance Payment_eta : Eta Payment :=
  fun r => mkPayment (pay_organization_id r) (pay_user_id r) (pay_invoice_id
    r) (pay_payment_number r) (pay_amount r) (pay_currency r) (pay_method r)
    (pay_status r) (pay_transaction_id r) (pay_reference_number r)
    (pay_mpesa_receipt_number r) (pay_mpesa_phone_number r)
    (pay_mpesa_transaction_date r) (pay_payment_date r) (pay_processed_date
    r) (pay_notes r) (pay_verified_by r) (pay_verified_at r)
    (pay_verification_notes r) (pay_disbursement_method r)
    (pay_disbursement_reference r) (pay_is_manual_payment r)
    (pay_recorded_by r) (pay_receipt_image_url r) (pay_created_at r).

(** [PaymentTransaction] *)
Record PaymentTransaction : Type := mkTransaction {
  tx_user_id : option Z;
  tx_invoice_id : option Z;
  tx_subscription_id : option Z;
  tx_transaction_reference : string;
  tx_currency : string;
  tx_status : string;
  tx_status_message : option string;
  tx_callback_event : option string;
  tx_completed_at : option datetime;
  tx_processed_at : option datetime;
  tx_gateway_fee : option money;
  tx_net_amount : option money
}.
#[export] Instance PaymentTransaction_eta : Eta PaymentTransaction :=
  fun r => mkTransaction (tx_user_id r) (tx_invoice_id r)
    (tx_subscription_id r) (tx_transaction_reference r) (tx_currency r)
    (tx_status r) (tx_status_message r) (tx_callback_event r)
    (tx_completed_at r) (tx_processed_at r) (tx_gateway_fee r)
    (tx_net_amount r).

(** What the code records in the transactional outbox: the expiry notice of a
    subscription, a customer's payment, the provisioning of a subscriber, the
    payment and the renewal of a PPPoE subscription. *)
Inductive EventBody : Type :=
  | ExpiryNotice (event_type : string) (aggregate_id : Z) (customer_name : string)
      (phone : option string) (email package_name : string) (expiry_at : option datetime)
      (days_remaining hours_remaining : Z)
  | PaymentReceived (purchase_id organization_id plan_id : Z) (amount : money)
      (reference : option string) (voucher_code : string)
  | SubscriberCreated (voucher_id organization_id purchase_id plan_id : Z)
      (voucher_code customer_name username password : string) (expiry_at : datetime)
  | RenewalPaid (payment_id organization_id user_id plan_id : Z) (amount : money)
      (reference : option string)
  | SubscriptionRenewed (subscription_id organization_id user_id payment_id plan_id : Z)
      (customer_name : string) (expiry_at : option datetime).

(** [OutboxEvent] *)
Record OutboxEvent : Type := mkOutbox {
  out_body : EventBody;
  out_created_at : datetime;
  out_attempts : Z;
  out_published_at : option datetime
}.
#[export] Instance OutboxEvent_eta : Eta OutboxEvent :=
  fun r => mkOutbox (out_body r) (out_created_at r) (out_attempts r) (out_published_at r).

(** The row [record_event] adds. *)
Definition pending_event (now : datetime) (body : EventBody) : OutboxEvent := mkOutbox body now 0 None.

(** ** The tables *)

(** ** Provisioning ([src/app/models/provisioning.py]) *)

(** [ProvisioningStatus] *)
Inductive ProvisioningStatus : Type :=
  | PS_PENDING
  | PS_IN_PROGRESS
  | PS_COMPLETED
  | PS_FAILED
  | PS_CANCELLED
  | PS_TIMEOUT.
#[export] Instance ProvisioningStatus_eq_dec : EqDecision ProvisioningStatus.
Proof. solve_decision. Defined.

(** [ProvisioningStep] *)
Inductive ProvisioningStep : Type :=
  | STEP_CONNECTION
  | STEP_CONFIGURATION
  | STEP_SERVICE_SETUP.
#[export] Instance ProvisioningStep_eq_dec : EqDecision ProvisioningStep.
Proof. solve_decision. Defined.

(** The [.value] of the member. *)
Definition step_value (x : ProvisioningStep) : string :=
  match x with
  | STEP_CONNECTION => "connection"
  | STEP_CONFIGURATION => "configuration"
  | STEP_SERVICE_SETUP => "service_setup"
  end.

(** [ServiceType] *)
Inductive ServiceType : Type :=
  | PPPOE_SERVER
  | ST_HOTSPOT
  | ST_BOTH
  | ST_BRIDGE.
#[export] Instance ServiceType_eq_dec : EqDecision ServiceType.
Proof. solve_decision. Defined.

(** The [.value] of the member. *)
Definition service_value (x : ServiceType) : string :=
  match x with
  | PPPOE_SERVER => "pppoe_server"
  | ST_HOTSPOT => "hotspot"
  | ST_BOTH => "both"
  | ST_BRIDGE => "bridge"
  end.

(** A value of the JSON object of a session's configuration *)
Inductive ConfigValue : Type :=
  | CStr (s : string)
  | CInt (n : Z)
  | CBool (b : bool)
  | CNull
  | CList (l : list ConfigValue).

Abbreviation Configuration := (gmap string ConfigValue).

(** [ProvisioningSession]; the progress is in tenths of a percent. *)
Record ProvisioningSession : Type := mkProvSession {
  ps_session_id : string;
  ps_router_id : Z;
  ps_user_id : Z;
  ps_status : ProvisioningStatus;
  ps_current_step : ProvisioningStep;
  ps_progress : Z;
  ps_service_type : option ServiceType;
  ps_configuration : option Configuration;
  ps_timeout_at : option datetime;
  ps_started_at : option datetime;
  ps_completed_at : option datetime;
  ps_success : bool;
  ps_error_message : option string;
  ps_rollback_required : bool;
  ps_rollback_completed : bool
}.
#[export] Instance ProvisioningSession_eta : Eta ProvisioningSession :=
  fun r => mkProvSession (ps_session_id r) (ps_router_id r) (ps_user_id r)
    (ps_status r) (ps_current_step r) (ps_progress r) (ps_service_type r)
    (ps_configuration r) (ps_timeout_at r) (ps_started_at r) (ps_completed_at r)
    (ps_success r) (ps_error_message r) (ps_rollback_required r)
    (ps_rollback_completed r).

(** [ProvisioningStepLog]; the duration is in microseconds. *)
Record ProvisioningStepLog : Type := mkStepLog {
  sl_session_id : Z;
  sl_step : ProvisioningStep;
  sl_step_order : Z;
  sl_status : ProvisioningStatus;
  sl_started_at : option datetime;
  sl_completed_at : option datetime;
  sl_duration : option Z;
  sl_error_details : option string
}.
#[export] Instance ProvisioningStepLog_eta : Eta ProvisioningStepLog :=
  fun r => mkStepLog (sl_session_id r) (sl_step r) (sl_step_order r) (sl_status r)
    (sl_started_at r) (sl_completed_at r) (sl_duration r) (sl_error_details r).

(** The text kept of a command's reply: the rows it shows, or a remark. *)
Inductive CommandOutput : Type :=
  | Rows (l : list (gmap string string))
  | Remark (s : string).

(** [ProvisioningCommand] *)
Record ProvisioningCommand : Type := mkProvCommand {
  pc_session_id : Z;
  pc_command_type : string;
  pc_command : string;
  pc_description : string;
  pc_execution_order : Z;
  pc_status : ProvisioningStatus;
  pc_executed_at : option datetime;
  pc_duration : option Z;
  pc_success : bool;
  pc_output : option CommandOutput;
  pc_error_message : option string;
  pc_rollback_command : option string;
  pc_rollback_executed : bool;
  pc_retry_count : Z;
  pc_max_retries : Z;
  pc_is_critical : bool
}.
#[export] Instance ProvisioningCommand_eta : Eta ProvisioningCommand :=
  fun r => mkProvCommand (pc_session_id r) (pc_command_type r) (pc_command r)
    (pc_description r) (pc_execution_order r) (pc_status r) (pc_executed_at r)
    (pc_duration r) (pc_success r) (pc_output r) (pc_error_message r)
    (pc_rollback_command r) (pc_rollback_executed r) (pc_retry_count r)
    (pc_max_retries r) (pc_is_critical r).

(** [ProvisioningTemplate] *)
Record ProvisioningTemplate : Type := mkTemplate {
  pt_name : string;
  pt_description : option string;
  pt_version : string;
  pt_service_type : ServiceType;
  pt_router_model : option string;
  pt_min_routeros_version : option string;
  pt_configuration_schema : Configuration;
  pt_default_configuration : Configuration;
  pt_command_templates : Configuration;
  pt_is_active : bool;
  pt_is_default : bool;
  pt_created_by : Z
}.
#[export] Instance ProvisioningTemplate_eta : Eta ProvisioningTemplate :=
  fun r => mkTemplate (pt_name r) (pt_description r) (pt_version r) (pt_service_type r)
    (pt_router_model r) (pt_min_routeros_version r) (pt_configuration_schema r)
    (pt_default_configuration r) (pt_command_templates r) (pt_is_active r)
    (pt_is_default r) (pt_created_by r).

(** The columns of [routers] that only provisioning writes *)
Record RouterSetup : Type := mkSetup {
  rs_provisioning_status : string;
  rs_bootstrap_completed : bool;
  rs_last_provisioned_at : option datetime
}.
#[export] Instance RouterSetup_eta : Eta RouterSetup :=
  fun r => mkSetup (rs_provisioning_status r) (rs_bootstrap_completed r)
    (rs_last_provisioned_at r).

(** [RouterType] *)
Inductive RouterType : Type :=
  | MIKROTIK
  | CISCO
  | UBIQUITI
  | RT_OTHER.
#[export] Instance RouterType_eq_dec : EqDecision RouterType.
Proof. solve_decision. Defined.

(** The columns of [routers] that only the router registry uses *)
Record RouterInfo : Type := mkRouterInfo {
  ri_type : RouterType;
  ri_description : option string;
  ri_location : option string;
  ri_board_name : option string;
  ri_architecture : option string;
  ri_cpu_count : option Z;
  ri_cpu_frequency : option Z;
  ri_created_at : datetime
}.
#[export] Instance RouterInfo_eta : Eta RouterInfo :=
  fun r => mkRouterInfo (ri_type r) (ri_description r) (ri_location r) (ri_board_name r)
    (ri_architecture r) (ri_cpu_count r) (ri_cpu_frequency r) (ri_created_at r).

(** [RouterLog] *)
Record RouterLog : Type := mkRouterLog {
  rl_router_id : Z;
  rl_action : string;
  rl_details : string;
  rl_success : bool
}.

(** [RouterDevice] *)
Record RouterDevice : Type := mkDevice {
  dv_router_id : Z;
  dv_device_name : string;
  dv_device_type : option string;
  dv_mac_address : option string;
  dv_ip_address : option string;
  dv_is_online : bool
}.
#[export] Instance RouterDevice_eta : Eta RouterDevice :=
  fun r => mkDevice (dv_router_id r) (dv_device_name r) (dv_device_type r)
    (dv_mac_address r) (dv_ip_address r) (dv_is_online r).

(** [ExpenseStatus], [ExpenseCategory] *)
Inductive ExpenseStatus : Type := EX_PENDING | EX_APPROVED | EX_REJECTED.
#[export] Instance ExpenseStatus_eq_dec : EqDecision ExpenseStatus.
Proof. solve_decision. Defined.

Inductive ExpenseCategory : Type :=
  | EC_INFRASTRUCTURE | EC_EQUIPMENT | EC_MAINTENANCE | EC_UTILITIES | EC_LICENSES
  | EC_MARKETING | EC_SALARIES | EC_OFFICE | EC_TRAVEL | EC_OTHER.
#[export] Instance ExpenseCategory_eq_dec : EqDecision ExpenseCategory.
Proof. solve_decision. Defined.

(** [Expense]; a date is a number of days. *)
Record Expense : Type := mkExpense {
  exp_organization_id : Z;
  exp_date : Z;
  exp_category : ExpenseCategory;
  exp_description : string;
  exp_amount : money;
  exp_currency : string;
  exp_receipt_url : option string;
  exp_added_by_user_id : Z;
  exp_status : ExpenseStatus;
  exp_notes : option string;
  exp_approved_by_user_id : option Z;
  exp_approved_at : option datetime;
  exp_rejection_reason : option string;
  exp_created_at : datetime
}.
#[export] Instance Expense_eta : Eta Expense := fun r =>
  mkExpense (exp_organization_id r) (exp_date r) (exp_category r) (exp_description r)
    (exp_amount r) (exp_currency r) (exp_receipt_url r) (exp_added_by_user_id r)
    (exp_status r) (exp_notes r) (exp_approved_by_user_id r) (exp_approved_at r)
    (exp_rejection_reason r) (exp_created_at r).

(** [TicketStatus], [TicketPriority] *)
Inductive TicketStatus : Type := TS_OPEN | TS_IN_PROGRESS | TS_RESOLVED | TS_CLOSED | TS_CANCELLED.
#[export] Instance TicketStatus_eq_dec : EqDecision TicketStatus.
Proof. solve_decision. Defined.

Inductive TicketPriority : Type := TP_LOW | TP_MEDIUM | TP_HIGH | TP_URGENT.
#[export] Instance TicketPriority_eq_dec : EqDecision TicketPriority.
Proof. solve_decision. Defined.

(** [SupportTicket] *)
Record SupportTicket : Type := mkTicket {
  tkt_organization_id : Z;
  tkt_user_id : Z;
  tkt_assigned_to : option Z;
  tkt_ticket_number : string;
  tkt_subject : string;
  tkt_description : string;
  tkt_status : TicketStatus;
  tkt_priority : TicketPriority;
  tkt_category : option string;
  tkt_tags : option string;
  tkt_resolution : option string;
  tkt_resolved_at : option datetime;
  tkt_closed_at : option datetime;
  tkt_attachments : option string;
  tkt_created_at : datetime
}.
#[export] Instance SupportTicket_eta : Eta SupportTicket := fun r =>
  mkTicket (tkt_organization_id r) (tkt_user_id r) (tkt_assigned_to r) (tkt_ticket_number r)
    (tkt_subject r) (tkt_description r) (tkt_status r) (tkt_priority r) (tkt_category r)
    (tkt_tags r) (tkt_resolution r) (tkt_resolved_at r) (tkt_closed_at r)
    (tkt_attachments r) (tkt_created_at r).

(** [TicketMessage] *)
Record TicketMessage : Type := mkTicketMessage {
  tm_ticket_id : Z;
  tm_user_id : Z;
  tm_message : string;
  tm_is_internal : bool;
  tm_attachments : option string;
  tm_created_at : datetime
}.

(** The columns of [organization_settings] about the remote access of routers *)
Record RemoteAccess : Type := mkRemote {
  ra_winbox_port_start : option Z;
  ra_winbox_port_end : option Z;
  ra_vpn_domain : option string
}.

(** The columns of [organization_settings] that only provisioning reads *)
Record PortalPage : Type := mkPortalPage {
  pg_hotspot_template : string;
  pg_hotspot_redirect_url : string;
  pg_session_timeout_minutes : Z
}.

(** [OrganizationType] *)
Inductive OrganizationType : Type := OT_HOTSPOT | OT_PPPOE | OT_HYBRID.
#[export] Instance OrganizationType_eq_dec : EqDecision OrganizationType.
Proof. solve_decision. Defined.

(** The columns of [organizations] that only the sign-up writes *)
Record OrganizationTerms : Type := mkTerms {
  ot_organization_type : OrganizationType;
  ot_country : string;
  ot_max_routers : Z;
  ot_max_customers : Z;
  ot_max_users : Z
}.
#[export] Instance OrganizationTerms_eta : Eta OrganizationTerms := fun r =>
  mkTerms (ot_organization_type r) (ot_country r) (ot_max_routers r) (ot_max_customers r) (ot_max_users r).

(** The columns of [organizations] about licences, which the platform's owner
    administers *)
Record OrganizationLicence : Type := mkLicence {
  lic_default_currency : string;
  lic_grace_period_ends_at : option datetime;
  lic_licence_bypass : bool;
  lic_bypass_reason : option string;
  lic_bypass_set_by : option Z;
  lic_created_by : option Z;
  lic_updated_by : option Z;
  lic_activated_at : option datetime;
  lic_suspended_at : option datetime
}.
#[export] Instance OrganizationLicence_eta : Eta OrganizationLicence := fun r =>
  mkLicence (lic_default_currency r) (lic_grace_period_ends_at r) (lic_licence_bypass r) (lic_bypass_reason r)
    (lic_bypass_set_by r) (lic_created_by r) (lic_updated_by r) (lic_activated_at r) (lic_suspended_at r).

(** The columns of [organization_settings] about the messages to customers *)
Record OrganizationMessages : Type := mkMessages {
  om_enable_mikrotik_status_notifications : bool;
  om_send_hotspot_payment_confirmation : bool;
  om_hotspot_payment_confirmation_sms : option string;
  om_send_pppoe_payment_confirmation : bool;
  om_pppoe_payment_confirmation_sms : option string;
  om_send_hotspot_expiry_notification : bool;
  om_hotspot_expiry_notification_sms : option string;
  om_send_pppoe_expiry_notification : bool;
  om_pppoe_expiry_notification_sms : option string;
  om_send_hotspot_expiry_reminder : bool;
  om_hotspot_expiry_reminder_sms : option string;
  om_send_pppoe_expiry_reminder : bool;
  om_pppoe_expiry_reminder_sms : option string;
  om_whatsapp_enabled : bool
}.

(** The database *)
Record DB : Type := mkDB {
  t_subs : gmap Z Subscription;
  t_plans : gmap Z ServicePlan;
  t_routers : gmap Z Router;
  t_users : gmap Z User;
  t_settings : gmap Z OrganizationSettings;
  t_history : list SubscriptionHistory;
  t_usage : list SubscriptionUsageLog;
  t_commands : gmap Z RouterCommand;
  t_backups : gmap Z RouterBackup;
  t_vouchers : gmap Z VoucherCode;
  t_sessions : gmap Z CustomerSession;
  t_purchases : gmap Z CustomerPurchase;
  t_invoices : gmap Z Invoice;
  t_items : gmap Z InvoiceItem;
  t_payments : gmap Z Payment;
  t_transactions : gmap Z PaymentTransaction;
  t_outbox : list OutboxEvent;
  t_organizations : gmap Z OrganizationRow;
  t_prov_sessions : gmap Z ProvisioningSession;
  t_prov_steps : gmap Z ProvisioningStepLog;
  t_prov_commands : gmap Z ProvisioningCommand;
  t_prov_templates : gmap Z ProvisioningTemplate;
  t_router_setup : gmap Z RouterSetup;
  t_portal_pages : gmap Z PortalPage;
  t_org_timezones : gmap Z string;
  t_router_info : gmap Z RouterInfo;
  t_router_logs : list RouterLog;
  t_devices : gmap Z RouterDevice;
  t_remote_access : gmap Z RemoteAccess;
  t_plan_details : gmap Z PlanDetails;
  t_plan_features : gmap Z PlanFeature;
  t_plan_pricing : gmap Z PlanPricing;
  t_expenses : gmap Z Expense;
  t_tickets : gmap Z SupportTicket;
  t_ticket_messages : gmap Z TicketMessage;
  t_org_terms : gmap Z OrganizationTerms;
  t_org_messages : gmap Z OrganizationMessages;
  t_emails_verified : gmap Z datetime;
  t_licences : gmap Z OrganizationLicence;
  t_profiles : gmap Z UserProfile
}.
#[export] Instance DB_eta : Eta DB :=
  fun r => mkDB (t_subs r) (t_plans r) (t_routers r) (t_users r) (t_settings
    r) (t_history r) (t_usage r) (t_commands r) (t_backups r) (t_vouchers r)
    (t_sessions r) (t_purchases r) (t_invoices r) (t_items r) (t_payments r)
    (t_transactions r) (t_outbox r) (t_organizations r)
    (t_prov_sessions r) (t_prov_steps r) (t_prov_commands r) (t_prov_templates r)
    (t_router_setup r) (t_portal_pages r) (t_org_timezones r) (t_router_info r)
    (t_router_logs r) (t_devices r) (t_remote_access r) (t_plan_details r)
    (t_plan_features r) (t_plan_pricing r) (t_expenses r) (t_tickets r) (t_ticket_messages r)
    (t_org_terms r) (t_org_messages r) (t_emails_verified r) (t_licences r)
    (t_profiles r).

Definition empty_db : DB :=
  mkDB ∅ ∅ ∅ ∅ ∅ [] [] ∅ ∅ ∅ ∅ ∅ ∅ ∅ ∅ ∅ [] ∅ ∅ ∅ ∅ ∅ ∅ ∅ ∅ ∅ [] ∅ ∅ ∅ ∅ ∅ ∅ ∅ ∅ ∅ ∅ ∅ ∅ ∅.

(** ** Schema constraints enforced when rows are written

    The natural key of [subscriptions], its [NOT NULL] end date and its 32-bit
    counters; the 32-bit counters of the usage log; the billing tables; the
    tables of the portals and of the tunnels. *)
Definition same_natural_key (s s' : Subscription) : bool :=
  (sub_user_id s =? sub_user_id s') && (sub_router_id s =? sub_router_id s')
  && bool_decide (sub_type s = sub_type s').

Definition sub_row_ok (s : Subscription) : bool :=
  bool_decide (is_Some (sub_end_date s)) && in_int4 (sub_bytes_uploaded s)
  && in_int4 (sub_bytes_downloaded s) && in_int4 (sub_total_bytes_used s)
  && in_int4 (sub_session_count s).

Definition usage_row_ok (l : SubscriptionUsageLog) : bool :=
  in_int4 (log_bytes_uploaded l) && in_int4 (log_bytes_downloaded l)
  && in_int4 (log_session_duration l).

Definition natural_key_unique (subs : gmap Z Subscription) : Prop :=
  map_Forall (fun i s => map_Forall (fun j s' =>
    same_natural_key s s' = true -> i = j) subs) subs.

(** The billing tables: amounts within [Numeric(10, 2)], unique numbers and
    references, and the foreign keys between them and to the users. The rows
    hold amounts as the column stores them, so that writers round first. *)
Definition fits_10_2 (x : money) : bool :=
  (x mod cents 1 =? 0) && (Z.abs x <? units (10 ^ 8)).

Definition invoice_row_ok (v : Invoice) : bool :=
  forallb fits_10_2 [inv_subtotal v; inv_tax_amount v; inv_discount_amount v;
    inv_total_amount v; inv_paid_amount v; inv_balance v].

Definition refers {A} (m : gmap Z A) (o : option Z) : bool :=
  match o with Some i => bool_decide (is_Some (m !! i)) | None => true end.

Definition item_row_ok (invoices : gmap Z Invoice) (t : InvoiceItem) : bool :=
  fits_10_2 (item_unit_price t) && fits_10_2 (item_total_price t)
  && (Z.abs (item_quantity t) <? 10 ^ 10) && refers invoices (Some (item_invoice_id t)).

Definition payment_row_ok (users : gmap Z User) (invoices : gmap Z Invoice) (p : Payment) : bool :=
  fits_10_2 (pay_amount p) && bool_decide (is_Some (pay_user_id p))
  && refers users (pay_user_id p) && refers invoices (pay_invoice_id p).

Definition transaction_row_ok (t : PaymentTransaction) : bool :=
  match tx_gateway_fee t with Some x => fits_10_2 x | None => true end
  && match tx_net_amount t with Some x => fits_10_2 x | None => true end.

Definition unique_by {A K} (f : A -> K) (m : gmap Z A) : Prop :=
  map_Forall (fun i x => map_Forall (fun j y => f x = f y -> i = j) m) m.

Abbreviation BillingTables := (gmap Z User * gmap Z Invoice * gmap Z InvoiceItem
  * gmap Z Payment * gmap Z PaymentTransaction)%type.

Definition billing_tables (db : DB) : BillingTables :=
  (t_users db, t_invoices db, t_items db, t_payments db, t_transactions db).

Definition billing_ok (t : BillingTables) : Prop :=
  let '(users, invoices, items, payments, transactions) := t in
  map_Forall (fun _ v => invoice_row_ok v = true) invoices /\
  unique_by inv_invoice_number invoices /\
  map_Forall (fun _ t => item_row_ok invoices t = true) items /\
  map_Forall (fun _ p => payment_row_ok users invoices p = true) payments /\
  unique_by pay_payment_number payments /\
  map_Forall (fun _ t => transaction_row_ok t = true) transactions /\
  unique_by tx_transaction_reference transactions.

#[export] Instance billing_ok_dec t : Decision (billing_ok t).
Proof. destruct t as [[[[u v] i] p] x]. unfold billing_ok, unique_by. apply _. Defined.

(** The tables of the portals and of the tunnels: unique user names, e-mail
    addresses, phone numbers, voucher codes and session tokens; the 32-bit
    limits of a session; unique tunnel addresses and WinBox ports; the 32-bit
    counter of hotspot names; unique identities of single sign-on; unique
    identifiers, tenants and slugs of organizations. A null key conflicts with
    nothing. *)
Definition unique_opt {A K} (f : A -> option K) (m : gmap Z A) : Prop :=
  map_Forall (fun i x => map_Forall (fun j y => is_Some (f x) -> f x = f y -> i = j) m) m.

Definition in_int4_opt (o : option Z) : bool :=
  match o with Some n => in_int4 n | None => true end.

Definition session_row_ok (s : CustomerSession) : bool :=
  in_int4_opt (ses_data_limit s) && in_int4_opt (ses_speed_limit_up s)
  && in_int4_opt (ses_speed_limit_down s).

Definition router_keys (r : Router) : option string * option Z :=
  (rt_vpn_address r, rt_winbox_port r).

Definition orgs_ok (orgs : gmap Z OrganizationRow) : Prop :=
  unique_by org_row_uuid orgs /\ unique_opt org_row_auth_tenant_id orgs /\ unique_by org_row_slug orgs.

Abbreviation PortalTables := (gmap Z User * gmap Z VoucherCode * gmap Z CustomerSession
  * gmap Z (option string * option Z) * gmap Z OrganizationSettings * gmap Z OrganizationRow)%type.

Definition portal_tables (db : DB) : PortalTables :=
  (t_users db, t_vouchers db, t_sessions db, router_keys <$> t_routers db, t_settings db,
   t_organizations db).

Definition portal_ok (t : PortalTables) : Prop :=
  let '(users, vouchers, sessions, keys, settings, orgs) := t in
  unique_by usr_username users /\ unique_by usr_email users /\ unique_opt usr_phone users /\
  unique_by vch_code vouchers /\
  unique_by ses_session_token sessions /\
  map_Forall (fun _ s => session_row_ok s = true) sessions /\
  unique_opt fst keys /\ unique_opt snd keys /\
  map_Forall (fun _ s => in_int4 (org_hotspot_username_counter s) = true) settings /\
  unique_opt usr_auth_service_user_id users /\
  orgs_ok orgs.

#[export] Instance portal_ok_dec t : Decision (portal_ok t).
Proof. destruct t as [[[[[u v] s] k] o] g]. unfold portal_ok, orgs_ok, unique_by, unique_opt. apply _. Defined.

Definition schema_ok (db : DB) : Prop :=
  map_Forall (fun _ s => sub_row_ok s = true) (t_subs db) /\
  natural_key_unique (t_subs db) /\
  Forall (fun l => usage_row_ok l = true) (t_usage db) /\
  billing_ok (billing_tables db) /\
  portal_ok (portal_tables db).

#[export] Instance schema_ok_dec db : Decision (schema_ok db).
Proof. unfold schema_ok, natural_key_unique. apply _. Defined.

(** ** Key constraints under writes of one row *)
Lemma unique_insert {A K} (f : A -> K) (m : gmap Z A) i x :
  unique_by f m -> m !! i = None -> (forall j y, m !! j = Some y -> f y <> f x) ->
  unique_by f (<[i := x]> m).
Proof.
  intros Hu Hi Hx j y Hj k z Hk E.
  apply lookup_insert_Some in Hj as [[<- <-]|[Hij Hj]], Hk as [[<- <-]|[Hik Hk]].
  - done.
  - by destruct (Hx _ _ Hk).
  - by destruct (Hx _ _ Hj).
  - by apply (Hu _ _ Hj _ _ Hk).
Qed.

Lemma unique_opt_insert {A K} (f : A -> option K) (m : gmap Z A) i x :
  unique_opt f m -> (forall j y, m !! j = Some y -> is_Some (f x) -> f y <> f x) ->
  unique_opt f (<[i := x]> m).
Proof.
  intros Hu Hx j y Hj k z Hk Hs E.
  apply lookup_insert_Some in Hj as [[<- <-]|[Hij Hj]], Hk as [[<- <-]|[Hik Hk]].
  - done.
  - by destruct (Hx _ _ Hk Hs).
  - rewrite E in Hs. by destruct (Hx _ _ Hj Hs).
  - by apply (Hu _ _ Hj _ _ Hk).
Qed.

(** A table whose rows have the keys they had. *)
Lemma unique_same {A K} (f : A -> K) (m m' : gmap Z A) :
  (forall j y, m' !! j = Some y -> exists x, m !! j = Some x /\ f y = f x) ->
  unique_by f m -> unique_by f m'.
Proof.
  intros H Hu j y (y' & Hj & Ey)%H k z (z' & Hk & Ez)%H E.
  apply (Hu _ _ Hj _ _ Hk). congruence.
Qed.

Lemma lookup_alter_origin {A} (g : A -> A) (P : A -> A -> Prop) (m : gmap Z A) i :
  (forall x, P x x) -> (forall x, m !! i = Some x -> P (g x) x) ->
  forall j y, alter g i m !! j = Some y -> exists x, m !! j = Some x /\ P y x.
Proof.
  intros Hr Hg j y. rewrite lookup_alter_Some. intros [(<- & x & E & ->)|[_ E]]; eauto.
Qed.

Lemma unique_alter {A K} (f : A -> K) (g : A -> A) (m : gmap Z A) i :
  unique_by f m -> (forall x, m !! i = Some x -> f (g x) = f x) -> unique_by f (alter g i m).
Proof.
  intros Hu Hg. eapply unique_same; [|exact Hu].
  by apply (lookup_alter_origin g (fun y x => f y = f x)).
Qed.

Lemma map_Forall_alter {A} (P : Z -> A -> Prop) (g : A -> A) (m : gmap Z A) i :
  map_Forall P m -> (forall x, m !! i = Some x -> P i (g x)) -> map_Forall P (alter g i m).
Proof.
  intros Hm Hg j y. rewrite lookup_alter_Some. intros [(<- & x & E & ->)|[_ E]]; eauto.
Qed.
