(* ===== verification/Session.v ===== *)
(** * The database session, the router connections and the world of a request

    Every service holds an [AsyncSession]. The model keeps the transaction's
    view of the tables beside the committed one; attribute writes and
    [session.add] change the view, [commit] makes it durable and [rollback]
    drops it. What the code relies on but does not define is a parameter: the
    order in which an unordered [SELECT] returns rows and the treatment of
    attributes expired by a rollback ([Backend]), the answers of a router
    ([RouterOS]), and which flushes the server refuses ([w_faults]). *)

From S2P Require Import Prelude Numerics Models.

(** ** Interfaces to code outside the repository *)

(** PostgreSQL and the session: a [SELECT] without [ORDER BY] returns every
    matching row once, in an order of the server's choosing; reading an
    attribute expired by a rollback either reloads it or raises; the server
    matches [ILIKE] patterns. *)
Class Backend := {
  scan : forall {A}, gmap Z A -> list (Z * A);
  scan_perm : forall {A} (m : gmap Z A), scan m ≡ₚ map_to_list m;
  reload_expired : bool;
  (** [column ILIKE pattern] *)
  ilike : string -> string -> bool
}.

(** RouterOS commands as [execute_command(connection, path, method, ...)]
    sends them; an argument is [None] when the code passes Python's [None]. *)
Inductive RosMethod : Type := GET | ADD | SET | REMOVE | CALL (cmd : string).

Record RosCommand : Type := mkRos {
  ros_host : string;
  ros_path : string;
  ros_method : RosMethod;
  ros_args : list (string * option string)
}.

Abbreviation Entry := (gmap string string).

Class RouterOS := {
  Dev : Type;
  (** [client.connect] *)
  ros_connect : Dev -> Router -> outcome unit * Dev;
  (** [client.execute_command]; [None] is an absent reply *)
  ros_execute : Dev -> RosCommand -> outcome (option (list Entry)) * Dev;
  (** [client.get_active_connections], which answers [[]] on any error *)
  ros_active : Dev -> Router -> list Entry * Dev
}.

(** Messages to a provisioning session's live-log WebSocket. *)
Inductive WsMessage : Type :=
  | WsLog (session_id level message : string)
  | WsComplete (session_id : string)
  | WsFailed (session_id message : string).

(** ** The world of a request *)
Section World.
Context {ros : RouterOS}.

(** One handler runs at one instant [w_now] of the model's clock. [w_loaded]
    are the subscriptions whose ORM instance is loaded and not expired, and
    [w_epoch] counts the events that expired every instance of the session;
    [w_broken] says that a flush failed and only [rollback] is accepted;
    [w_faults] lists, for the next flushes, whether the server refuses it. *)
Record World : Type := mkWorld {
  w_now : datetime;
  w_view : DB;
  w_durable : DB;
  w_loaded : gset Z;
  w_broken : bool;
  w_faults : list bool;
  w_dev : Dev;
  w_trace : list RosCommand;
  w_ws : list WsMessage;
  w_epoch : nat
}.

#[global] Instance World_eta : Eta World := fun r =>
  mkWorld (w_now r) (w_view r) (w_durable r) (w_loaded r) (w_broken r)
    (w_faults r) (w_dev r) (w_trace r) (w_ws r) (w_epoch r).

Definition start (now : datetime) (db : DB) (dev : Dev) : World :=
  mkWorld now db db ∅ false [] dev [] [] 0.
End World.

(** ** Session operations *)
Section Session.
Context {be : Backend} {ros : RouterOS}.
Abbreviation run := (M World).

Definition utcnow : run datetime := fun w => (Ok (w_now w), w).

(** A [SELECT]. *)
Definition query {A} (f : DB -> A) : run A := fun w =>
  if w_broken w then (Raise PendingRollbackError, w) else (Ok (f (w_view w)), w).

(** A bulk [UPDATE] or [DELETE] statement. *)
Definition execute_update (f : DB -> DB) : run unit := fun w =>
  if w_broken w then (Raise PendingRollbackError, w)
  else (Ok tt, w <| w_view ::= f |>).

(** Attribute assignments on loaded instances and [session.add]. *)
Definition assign (f : DB -> DB) : run unit := mmodify (over w_view f).

Definition rollback : run unit :=
  mmodify (fun w => w <| w_view := w_durable w |> <| w_broken := false |>
                      <| w_loaded := ∅ |> <| w_epoch ::= S |>).

(** A refused flush leaves the session to be rolled back and expires its
    instances. *)
Definition flush : run unit := fun w =>
  if w_broken w then (Raise PendingRollbackError, w)
  else
    let refused := match w_faults w with b :: _ => b | [] => false end in
    let w' := w <| w_faults ::= tail |> in
    if refused || negb (bool_decide (schema_ok (w_view w))) then
      (Raise DatabaseError,
       w' <| w_view := w_durable w |> <| w_broken := true |> <| w_loaded := ∅ |>
          <| w_epoch ::= S |>)
    else (Ok tt, w').

(** A write the server refuses when [b] says so; like any refused flush it drops
    the transaction. *)
Definition refuse_if (b : DB -> bool) : run unit := fun w =>
  if w_broken w then (Raise PendingRollbackError, w)
  else if b (w_view w) then
    (Raise DatabaseError,
     w <| w_view := w_durable w |> <| w_broken := true |> <| w_loaded := ∅ |> <| w_epoch ::= S |>)
  else (Ok tt, w).

Definition commit : run unit :=
  flush ;;; mmodify (fun w => w <| w_durable := w_view w |>).

(** The rows of a table that satisfy [p], in the order of the server. *)
Definition select {A} (p : Z -> A -> bool) (m : gmap Z A) : list (Z * A) :=
  filter (fun kv => p kv.1 kv.2 = true) (scan m).

(** [scalar_one_or_none()] *)
Definition scalar_one_or_none {A} (l : list A) : run (option A) :=
  match l with
  | [] => mreturn None
  | [x] => mreturn (Some x)
  | _ => mraise MultipleResultsFound
  end.

(** Subscriptions are handled as ORM instances: loading one marks it fresh,
    and reading the attributes of an expired one reloads it or raises. *)
Definition load_subs (ids : list Z) : run unit :=
  mmodify (over w_loaded (fun s => list_to_set ids ∪ s)).

Definition sub_attrs (i : Z) : run Subscription := fun w =>
  if bool_decide (i ∈ w_loaded w) then
    match t_subs (w_view w) !! i with
    | Some s => (Ok s, w)
    | None => (Raise (AttributeError "deleted instance"), w)
    end
  else if reload_expired then
    match query (fun db => t_subs db !! i) w with
    | (Ok (Some s), w') => (Ok s, w' <| w_loaded ::= union {[i]} |>)
    | (Ok None, w') => (Raise (AttributeError "deleted instance"), w')
    | (Raise e, w') => (Raise e, w')
    end
  else (Raise MissingGreenlet, w).

(** Reading a column of a row of another table: a failed flush expires it. *)
Definition attrs_fresh : run unit := fun w =>
  if w_broken w then (Raise MissingGreenlet, w) else (Ok tt, w).

(** The same for an instance loaded in the epoch [e] that may have been expired
    by a failed flush or by a rollback since: the read reloads it or raises. *)
Definition row_attrs (e : nat) : run unit := fun w =>
  if Nat.eqb (w_epoch w) e then (Ok tt, w)
  else if reload_expired then query (fun _ => tt) w
  else (Raise MissingGreenlet, w).

Definition epoch : run nat := fun w => (Ok (w_epoch w), w).

Definition select_subs (p : Z -> Subscription -> bool) (n : option nat) : run (list Z) :=
  rows <- query (fun db => select p (t_subs db)) ;;
  let ids := map fst (match n with Some k => take k rows | None => rows end) in
  load_subs ids ;;;
  mreturn ids.

(** [db.get(Subscription, i)] and a [SELECT] by primary key *)
Definition get_sub (i : Z) : run (option Subscription) :=
  o <- query (fun db => t_subs db !! i) ;;
  (match o with Some _ => load_subs [i] | None => mreturn tt end) ;;;
  mreturn o.

Definition set_sub (i : Z) (f : Subscription -> Subscription) : run unit :=
  assign (over t_subs (alter f i)).

(** [DELETE FROM subscriptions WHERE id = i]: the foreign keys of the history
    and of the usage log are [ON DELETE SET NULL] on [NOT NULL] columns, so
    that the server refuses the statement while one of their rows refers to
    the subscription; those of the other tables become null. A refused
    statement leaves a transaction that only a rollback ends. *)
Definition sub_referenced (i : Z) (db : DB) : bool :=
  existsb (fun h => hist_subscription_id h =? i) (t_history db)
  || existsb (fun l => log_subscription_id l =? i) (t_usage db).

Definition unlink (i : Z) (o : option Z) : option Z :=
  if bool_decide (o = Some i) then None else o.

Definition delete_sub_row (i : Z) (db : DB) : DB :=
  db <| t_subs ::= delete i |>
     <| t_invoices ::= fmap (fun v => v <| inv_subscription_id ::= unlink i |>) |>
     <| t_transactions ::= fmap (fun t => t <| tx_subscription_id ::= unlink i |>) |>
     <| t_purchases ::= fmap (fun p => p <| pur_subscription_id ::= unlink i |>) |>.

Definition delete_sub (i : Z) : run unit := fun w =>
  if w_broken w then (Raise PendingRollbackError, w)
  else if sub_referenced i (w_view w) then (Raise DatabaseError, w <| w_broken := true |>)
  else (Ok tt, w <| w_view ::= delete_sub_row i |>).

(** ** Router connections *)
Definition client_connect (r : Router) : run unit := fun w =>
  let (o, d) := ros_connect (w_dev w) r in (o, w <| w_dev := d |>).

Definition execute_command (r : Router) (path : string) (m : RosMethod)
    (args : list (string * option string)) : run (option (list Entry)) := fun w =>
  let c := mkRos (rt_ip_address r) path m args in
  let (o, d) := ros_execute (w_dev w) c in
  (o, w <| w_dev := d |> <| w_trace ::= (fun t => t ++ [c]) |>).

Definition get_active_connections (r : Router) : run (list Entry) := fun w =>
  let (l, d) := ros_active (w_dev w) r in (Ok l, w <| w_dev := d |>).

(** [client.disconnect] swallows its errors. *)
Definition client_disconnect (r : Router) : run unit := mreturn tt.

Definition ws_send (m : WsMessage) : run unit :=
  mmodify (over w_ws (fun l => l ++ [m])).
End Session.

Abbreviation run := (M World).

(** ** Sessions in good order: not broken, with no refused flush to come *)
Section Good.
Context {be : Backend} {ros : RouterOS}.

Record good (w : World) : Prop := {
  good_broken : w_broken w = false;
  good_faults : w_faults w = [];
  good_schema : schema_ok (w_view w)
}.

Lemma good_start now db dev : schema_ok db -> good (start now db dev).
Proof. by split. Qed.

Lemma query_good {A} (f : DB -> A) w : w_broken w = false -> query f w = (Ok (f (w_view w)), w).
Proof. unfold query. by intros ->. Qed.

Lemma execute_update_good f w :
  w_broken w = false -> execute_update f w = (Ok tt, w <| w_view ::= f |>).
Proof. unfold execute_update. by intros ->. Qed.

Lemma flush_good w : good w -> flush w = (Ok tt, w).
Proof.
  intros [Hb Hf Hs]. unfold flush. rewrite Hb, Hf, bool_decide_eq_true_2 by done.
  simpl. destruct w; simpl in *. by subst.
Qed.

Lemma commit_good w : good w -> commit w = (Ok tt, w <| w_durable := w_view w |>).
Proof. intros Hg. unfold commit. by rewrite (mthen_ok _ _ _ _ _ (flush_good w Hg)). Qed.

(** The schema constrains only the subscriptions, their usage log, the billing
    tables and the portal tables. *)
Lemma schema_ok_frame (db db' : DB) :
  t_subs db' = t_subs db -> t_usage db' = t_usage db ->
  billing_tables db' = billing_tables db -> portal_tables db' = portal_tables db ->
  schema_ok db -> schema_ok db'.
Proof. unfold schema_ok. by intros -> -> -> ->. Qed.

(** A change of one row that keeps its checks and its natural key. *)
Lemma schema_ok_alter (f : Subscription -> Subscription) i db :
  (forall s, t_subs db !! i = Some s ->
     sub_row_ok (f s) = true /\ sub_user_id (f s) = sub_user_id s /\
     sub_router_id (f s) = sub_router_id s /\ sub_type (f s) = sub_type s) ->
  schema_ok db -> schema_ok (over t_subs (alter f i) db).
Proof.
  intros Hf (Hrow & Hkey & Hlog & Hrest). split; [|split; [|split; [done|exact Hrest]]]; simpl.
  - intros j s. rewrite lookup_alter_Some.
    intros [(-> & s0 & E & ->)|[_ E]]; [by apply Hf|by apply (Hrow _ _ E)].
  - assert (Hsame : forall j s', alter f i (t_subs db) !! j = Some s' ->
      exists s0, t_subs db !! j = Some s0 /\ sub_user_id s' = sub_user_id s0 /\
        sub_router_id s' = sub_router_id s0 /\ sub_type s' = sub_type s0).
    { intros j s'. rewrite lookup_alter_Some. intros [(-> & s0 & E & ->)|[_ E]].
      - exists s0. by destruct (Hf s0 E) as [_ ?].
      - by exists s'. }
    intros j1 s1 (s1' & E1 & U1 & R1 & T1)%Hsame j2 s2 (s2' & E2 & U2 & R2 & T2)%Hsame.
    unfold same_natural_key. rewrite U1, R1, T1, U2, R2, T2.
    apply (Hkey _ _ E1 _ _ E2).
Qed.

Lemma good_view_alter (f : Subscription -> Subscription) i w :
  (forall s, t_subs (w_view w) !! i = Some s ->
     sub_row_ok (f s) = true /\ sub_user_id (f s) = sub_user_id s /\
     sub_router_id (f s) = sub_router_id s /\ sub_type (f s) = sub_type s) ->
  good w -> good (w <| w_view ::= over t_subs (alter f i) |>).
Proof. intros Hf [Hb Hfa Hs]. split; [done..|]. by apply schema_ok_alter. Qed.

Lemma good_view w db :
  good w -> t_subs db = t_subs (w_view w) -> t_usage db = t_usage (w_view w) ->
  billing_tables db = billing_tables (w_view w) ->
  portal_tables db = portal_tables (w_view w) ->
  good (w <| w_view := db |>).
Proof. intros [Hb Hf Hs] H1 H2 H3 H4. split; [done..|]. by eapply schema_ok_frame. Qed.

(** A change of the portal tables that keeps their constraints. *)
Lemma good_portal f w :
  good w -> (forall db, t_subs (f db) = t_subs db) -> (forall db, t_usage (f db) = t_usage db) ->
  (forall db, billing_tables (f db) = billing_tables db) ->
  (portal_ok (portal_tables (w_view w)) -> portal_ok (portal_tables (f (w_view w)))) ->
  good (w <| w_view ::= f |>).
Proof.
  intros [Hb Hf (H1 & H2 & H3 & H4 & H5)] Hs Hu Hbi Hok. split; [done..|]. unfold schema_ok.
  change (w_view (w <| w_view ::= f |>)) with (f (w_view w)). rewrite Hs, Hu, Hbi.
  exact (conj H1 (conj H2 (conj H3 (conj H4 (Hok H5))))).
Qed.

(** Changing the columns of a voucher other than its code, and those of a
    session other than its token and limits. *)
Lemma good_alter_voucher f i w :
  good w -> (forall v, t_vouchers (w_view w) !! i = Some v -> vch_code (f v) = vch_code v) ->
  good (w <| w_view ::= over t_vouchers (alter f i) |>).
Proof.
  intros Hg Hf. apply good_portal; [done..|]. unfold portal_ok, portal_tables. simpl.
  intros (H1 & H2 & H3 & H4 & H5).
  exact (conj H1 (conj H2 (conj H3 (conj (unique_alter _ _ _ _ H4 Hf) H5)))).
Qed.

Lemma good_map_sessions f w :
  good w ->
  (forall s, ses_session_token (f s) = ses_session_token s /\ session_row_ok (f s) = session_row_ok s) ->
  good (w <| w_view ::= over t_sessions (map_imap (fun _ s => Some (f s))) |>).
Proof.
  intros Hg Hf. apply good_portal; [done..|]. unfold portal_ok, portal_tables. simpl.
  intros (H1 & H2 & H3 & H4 & H5 & H6 & H7).
  split; [done|]. split; [done|]. split; [done|]. split; [done|]. split; [|split; [|done]].
  - eapply unique_same; [|exact H5]. intros j y. rewrite map_lookup_imap.
    destruct (t_sessions (w_view w) !! j) as [x|]; [|done]. intros [= <-].
    exists x. split; [done|]. apply Hf.
  - intros j y. rewrite map_lookup_imap.
    destruct (t_sessions (w_view w) !! j) as [x|] eqn:E; [|done]. intros [= <-].
    rewrite (proj2 (Hf x)). by apply (H6 j).
Qed.

(** Changing the columns of a router that are not unique. *)
Lemma router_keys_alter f i (m : gmap Z Router) :
  (forall r, m !! i = Some r -> router_keys (f r) = router_keys r) ->
  router_keys <$> alter f i m = router_keys <$> m.
Proof.
  intros Hf. apply map_eq. intros j. rewrite !lookup_fmap.
  destruct (decide (j = i)) as [->|Hne].
  - rewrite lookup_alter_eq. destruct (m !! i) as [r|] eqn:E; simpl; [by rewrite Hf|done].
  - by rewrite lookup_alter_ne by done.
Qed.

Lemma good_alter_router f i w :
  good w -> (forall r, router_keys (f r) = router_keys r) ->
  good (w <| w_view ::= over t_routers (alter f i) |>).
Proof.
  intros Hg Hf. apply good_view; [done..|]. unfold portal_tables. simpl.
  by rewrite router_keys_alter.
Qed.

Lemma good_commit w : good w -> good (w <| w_durable := w_view w |>).
Proof. by intros [Hb Hf Hs]. Qed.

Lemma row_attrs_fresh e w : w_epoch w = e -> row_attrs e w = (Ok tt, w).
Proof. intros <-. unfold row_attrs. by rewrite Nat.eqb_refl. Qed.

Lemma sub_attrs_loaded i w s :
  i ∈ w_loaded w -> t_subs (w_view w) !! i = Some s -> sub_attrs i w = (Ok s, w).
Proof. intros Hi Hs. unfold sub_attrs. by rewrite bool_decide_eq_true_2, Hs. Qed.

Lemma get_sub_good i w :
  w_broken w = false ->
  exists w', get_sub i w = (Ok (t_subs (w_view w) !! i), w') /\
    w' = match t_subs (w_view w) !! i with
         | Some _ => w <| w_loaded ::= union (list_to_set [i]) |> | None => w end.
Proof.
  intros Hb. unfold get_sub. rewrite (mthen_ok _ _ _ _ _ (query_good _ w Hb)).
  destruct (t_subs (w_view w) !! i); eexists; split; reflexivity.
Qed.

Lemma elem_of_select {A} (p : Z -> A -> bool) (m : gmap Z A) i x :
  (i, x) ∈ select p m <-> m !! i = Some x /\ p i x = true.
Proof.
  unfold select. rewrite list_elem_of_filter, scan_perm, elem_of_map_to_list. simpl.
  tauto.
Qed.

Lemma scan_keys_nodup {A} (m : gmap Z A) : NoDup (map fst (scan m)).
Proof. rewrite scan_perm. apply NoDup_fst_map_to_list. Qed.

Lemma select_keys_nodup {A} (p : Z -> A -> bool) (m : gmap Z A) :
  NoDup (map fst (select p m)).
Proof.
  unfold select. eapply sublist_NoDup; [apply (scan_keys_nodup m)|].
  apply fmap_sublist, sublist_filter.
Qed.

Lemma select_unique {A} (p : Z -> A -> bool) (m : gmap Z A) i x :
  m !! i = Some x -> p i x = true -> (forall j y, m !! j = Some y -> p j y = true -> j = i) ->
  select p m = [(i, x)].
Proof.
  intros Hi Hp Hu.
  assert (Hall : forall j y, (j, y) ∈ select p m -> j = i /\ y = x).
  { intros j y [Hj Hpj]%elem_of_select. pose proof (Hu j y Hj Hpj) as ->. split; [done|congruence]. }
  pose proof (select_keys_nodup p m) as Hnd.
  assert (Hin : (i, x) ∈ select p m) by (by apply elem_of_select).
  destruct (select p m) as [|[j y] [|[j' y'] l]].
  - by apply elem_of_nil in Hin.
  - destruct (Hall j y) as [-> ->]; [apply list_elem_of_here|done].
  - destruct (Hall j y) as [-> _]; [apply list_elem_of_here|].
    destruct (Hall j' y') as [-> _]; [apply list_elem_of_further, list_elem_of_here|].
    simpl in Hnd. apply NoDup_cons in Hnd as [Hnd _]. destruct Hnd. apply list_elem_of_here.
Qed.

Lemma select_none {A} (p : Z -> A -> bool) (m : gmap Z A) :
  (forall j y, m !! j = Some y -> p j y = false) -> select p m = [].
Proof.
  intros H. destruct (select p m) as [|[j y] l] eqn:E; [done|].
  assert (Hin : (j, y) ∈ select p m) by (rewrite E; apply list_elem_of_here).
  apply elem_of_select in Hin as [Hj Hp]. by rewrite (H _ _ Hj) in Hp.
Qed.

Lemma select_nil_inv {A} (p : Z -> A -> bool) (m : gmap Z A) j y :
  select p m = [] -> m !! j = Some y -> p j y = false.
Proof.
  intros H Hj. destruct (p j y) eqn:Hp; [|done].
  assert (Hin : (j, y) ∈ select p m) by (by apply elem_of_select). rewrite H in Hin.
  by apply elem_of_nil in Hin.
Qed.

(** A selection on a key has at most one row. *)
Lemma select_one {A} (p : Z -> A -> bool) (m : gmap Z A) :
  (forall i x j y, m !! i = Some x -> m !! j = Some y -> p i x = true -> p j y = true -> i = j) ->
  select p m = [] \/ exists i x, select p m = [(i, x)] /\ m !! i = Some x /\ p i x = true.
Proof.
  intros H. destruct (select p m) as [|[i x] l] eqn:E; [by left|right].
  assert (Hin : (i, x) ∈ select p m) by (rewrite E; apply list_elem_of_here).
  apply elem_of_select in Hin as [Hi Hp]. exists i, x. split; [|done]. rewrite <- E.
  apply select_unique; [done|done|]. intros j y Hj Hpj. by apply (H j y i x).
Qed.

Lemma select_length_le {A} (p : Z -> A -> bool) (m : gmap Z A) :
  (length (select p m) <= size m)%nat.
Proof.
  unfold select. rewrite <- length_map_to_list, <- (scan_perm m). apply length_filter.
Qed.
End Good.

(** ** Invariants of the tables, across commits, refusals and rollbacks *)
Definition db_inv {ros : RouterOS} (I : DB -> Prop) (w : World) : Prop :=
  I (w_view w) /\ I (w_durable w).

Section Invariants.
Context {be : Backend} {ros : RouterOS}.
Variable I : DB -> Prop.

Lemma preserves_query {A} (f : DB -> A) : preserves (db_inv I) (query f).
Proof. intros w Hw. unfold query. by case_match. Qed.

Lemma preserves_utcnow : preserves (db_inv I) utcnow.
Proof. by intros w. Qed.

Lemma preserves_assign f : (forall db, I db -> I (f db)) -> preserves (db_inv I) (assign f).
Proof. intros Hf w [Hv Hd]. split; simpl; auto. Qed.

Lemma preserves_execute_update f :
  (forall db, I db -> I (f db)) -> preserves (db_inv I) (execute_update f).
Proof.
  intros Hf w [Hv Hd]. unfold execute_update. case_match; [done|]. split; simpl; auto.
Qed.

Lemma preserves_flush : preserves (db_inv I) flush.
Proof. intros w [Hv Hd]. unfold flush. case_match; [done|]. by case_match. Qed.

Lemma preserves_commit : preserves (db_inv I) commit.
Proof.
  apply preserves_then; [apply preserves_flush|]. intros _ w [Hv Hd]. by split.
Qed.

Lemma preserves_rollback : preserves (db_inv I) rollback.
Proof. intros w [Hv Hd]. by split. Qed.

Lemma preserves_scalar {A} (l : list A) : preserves (db_inv I) (scalar_one_or_none l).
Proof. intros w Hw. by destruct l as [|x [|y l]]. Qed.

Lemma preserves_load_subs ids : preserves (db_inv I) (load_subs ids).
Proof. by intros w [Hv Hd]. Qed.

Lemma preserves_get_sub i : preserves (db_inv I) (get_sub i).
Proof.
  apply preserves_then; [apply preserves_query|]. intros o.
  apply preserves_then; [destruct o; [apply preserves_load_subs|apply preserves_return]|].
  intros _. apply preserves_return.
Qed.

Lemma preserves_sub_attrs i : preserves (db_inv I) (sub_attrs i).
Proof.
  intros w Hw. unfold sub_attrs. case_match; [by case_match|]. case_match; [|done].
  unfold query. destruct (w_broken w); [done|]. by destruct (t_subs (w_view w) !! i).
Qed.

Lemma preserves_row_attrs e : preserves (db_inv I) (row_attrs e).
Proof.
  intros w Hw. unfold row_attrs. case_match; [done|]. case_match; [|done]. by apply preserves_query.
Qed.

Lemma preserves_epoch : preserves (db_inv I) epoch.
Proof. by intros w. Qed.

Lemma preserves_select_subs p n : preserves (db_inv I) (select_subs p n).
Proof.
  apply preserves_then; [apply preserves_query|]. intros rows.
  apply preserves_then; [apply preserves_load_subs|]. intros _. apply preserves_return.
Qed.

Lemma preserves_ws_send m : preserves (db_inv I) (ws_send m).
Proof. by intros w [Hv Hd]. Qed.

Lemma preserves_connect r : preserves (db_inv I) (client_connect r).
Proof. intros w [Hv Hd]. unfold client_connect. by destruct (ros_connect (w_dev w) r). Qed.

Lemma preserves_active r : preserves (db_inv I) (get_active_connections r).
Proof. intros w [Hv Hd]. unfold get_active_connections. by destruct (ros_active _ _). Qed.

Lemma preserves_execute_command r path m args :
  preserves (db_inv I) (execute_command r path m args).
Proof. intros w [Hv Hd]. unfold execute_command. by destruct (ros_execute _ _). Qed.

Lemma preserves_disconnect r : preserves (db_inv I) (client_disconnect r).
Proof. apply preserves_return. Qed.

Lemma preserves_when b m : preserves (db_inv I) m -> preserves (db_inv I) (mwhen b m).
Proof. intros Hm. destruct b; [done|apply preserves_return]. Qed.
End Invariants.

(** ** The committed tables satisfy the schema, whatever a handler does *)
Definition durable_ok {ros : RouterOS} (w : World) : Prop := schema_ok (w_durable w).

Section Durable.
Context {be : Backend} {ros : RouterOS}.

Lemma durable_query {A} (f : DB -> A) : preserves durable_ok (query f).
Proof. intros w Hw. unfold query. by case_match. Qed.

Lemma durable_assign f : preserves durable_ok (assign f).
Proof. by intros w Hw. Qed.

Lemma durable_flush : preserves durable_ok flush.
Proof. intros w Hw. unfold flush. case_match; [done|]. by case_match. Qed.

Lemma durable_rollback : preserves durable_ok rollback.
Proof. by intros w Hw. Qed.

(** A commit makes durable only what its flush has checked. *)
Lemma durable_commit : preserves durable_ok commit.
Proof.
  intros w Hw. unfold commit, mthen, flush. destruct (w_broken w); [done|].
  destruct (_ || _) eqn:E; [done|]. apply orb_false_iff in E as [_ E].
  apply negb_false_iff, bool_decide_eq_true_1 in E. exact E.
Qed.

Lemma durable_scalar {A} (l : list A) : preserves durable_ok (scalar_one_or_none l).
Proof. intros w Hw. by destruct l as [|x [|y l]]. Qed.
End Durable.

(** ** What a handler does to the routers *)

(** Every RouterOS command sent by [m] satisfies [P]. *)
Definition emits {ros : RouterOS} (P : RosCommand -> Prop) {A} (m : run A) : Prop :=
  forall w, exists l, w_trace (snd (m w)) = w_trace w ++ l /\ Forall P l.

(** [m] touches the routers and nothing else. *)
Definition device_only {ros : RouterOS} {A} (m : run A) : Prop :=
  forall w, snd (m w) = w <| w_dev := w_dev (snd (m w)) |> <| w_trace := w_trace (snd (m w)) |>.

Section Devices.
Context {be : Backend} {ros : RouterOS}.
Variable P : RosCommand -> Prop.

Lemma emits_nothing {A} (m : run A) : (forall w, w_trace (snd (m w)) = w_trace w) -> emits P m.
Proof. intros H w. exists []. by rewrite H, app_nil_r. Qed.

Lemma emits_return {A} (a : A) : emits P (mreturn a).
Proof. by apply emits_nothing. Qed.

Lemma emits_raise {A} e : emits P (mraise e : run A).
Proof. by apply emits_nothing. Qed.

Lemma emits_then {A B} (m : run A) (k : A -> run B) :
  emits P m -> (forall a, emits P (k a)) -> emits P (mthen m k).
Proof.
  intros Hm Hk w. destruct (Hm w) as (l & E & Hl). unfold mthen.
  destruct (m w) as [[a|e] w']; simpl in *; [|by exists l].
  destruct (Hk a w') as (l' & E' & Hl'). exists (l ++ l').
  by rewrite E', E, app_assoc, Forall_app.
Qed.

Lemma emits_try {A} (m : run A) h : emits P m -> (forall e, emits P (h e)) -> emits P (mtry m h).
Proof.
  intros Hm Hh w. destruct (Hm w) as (l & E & Hl). unfold mtry.
  destruct (m w) as [[a|e] w']; simpl in *; [by exists l|].
  destruct (Hh e w') as (l' & E' & Hl'). exists (l ++ l').
  by rewrite E', E, app_assoc, Forall_app.
Qed.

Lemma emits_fold {A B} (body : B -> A -> run B) :
  (forall b a, emits P (body b a)) -> forall l acc, emits P (mfold body acc l).
Proof.
  intros Hb l. induction l as [|x l IH]; intros acc; [apply emits_return|]. by apply emits_then.
Qed.

Lemma emits_execute r path m args :
  P (mkRos (rt_ip_address r) path m args) -> emits P (execute_command r path m args).
Proof.
  intros HP w. exists [mkRos (rt_ip_address r) path m args]. unfold execute_command.
  destruct (ros_execute _ _). by split; [|apply Forall_singleton].
Qed.

Lemma device_only_return {A} (a : A) : device_only (mreturn a).
Proof. by intros []. Qed.

Lemma device_only_raise {A} e : device_only (mraise e : run A).
Proof. by intros []. Qed.

Lemma device_only_then {A B} (m : run A) (k : A -> run B) :
  device_only m -> (forall a, device_only (k a)) -> device_only (mthen m k).
Proof.
  intros Hm Hk w. specialize (Hm w). unfold mthen. destruct (m w) as [[a|e] w']; [|done].
  specialize (Hk a w'). rewrite Hk, Hm at 1. done.
Qed.

Lemma device_only_try {A} (m : run A) h :
  device_only m -> (forall e, device_only (h e)) -> device_only (mtry m h).
Proof.
  intros Hm Hh w. specialize (Hm w). unfold mtry. destruct (m w) as [[a|e] w']; [done|].
  specialize (Hh e w'). rewrite Hh, Hm at 1. done.
Qed.

Lemma device_only_fold {A B} (body : B -> A -> run B) :
  (forall b a, device_only (body b a)) -> forall l acc, device_only (mfold body acc l).
Proof.
  intros Hb l. induction l as [|x l IH]; intros acc; [apply device_only_return|].
  by apply device_only_then.
Qed.

Lemma device_only_connect r : device_only (client_connect r).
Proof. intros []. unfold client_connect. by destruct (ros_connect _ _). Qed.

Lemma device_only_execute r path m args : device_only (execute_command r path m args).
Proof. intros []. unfold execute_command. by destruct (ros_execute _ _). Qed.

Lemma device_only_good {A} (m : run A) w : device_only m -> good w -> good (snd (m w)).
Proof. intros Hm [Hb Hf Hs]. rewrite (Hm w). by split. Qed.
End Devices.

Ltac device_step :=
  first
    [ apply device_only_return | apply device_only_raise | apply device_only_connect
    | apply device_only_execute
    | apply device_only_fold; intros ? ? | apply device_only_try; [|intros ?]
    | apply device_only_then; [|intros ?]
    | match goal with |- device_only (match ?x with _ => _ end) => destruct x eqn:? end ].

Ltac emits_step :=
  first
    [ apply emits_return | apply emits_raise | apply emits_execute
    | apply emits_fold; intros ? ? | apply emits_try; [|intros ?]
    | apply emits_then; [|intros ?]
    | match goal with |- emits _ (match ?x with _ => _ end) => destruct x eqn:? end ].

(** A server that returns rows in key order, with SQLAlchemy's asynchronous
    session: an expired attribute cannot be reloaded implicitly. *)
#[export] Program Instance key_order_backend : Backend := {
  scan A m := map_to_list m;
  reload_expired := false;
  ilike column pattern := bool_decide (pattern = "%" +:+ column +:+ "%")
}.
Next Obligation. done. Qed.

(** A router that never answers. *)
#[export] Instance unreachable_router : RouterOS := {
  Dev := unit;
  ros_connect d r := (Raise (ExternalServiceError "connect"), d);
  ros_execute d c := (Raise (ExternalServiceError "execute"), d);
  ros_active d r := ([], d)
}.

Definition start_offline (now : datetime) (db : DB) : @World unreachable_router :=
  @start unreachable_router now db tt.

Lemma good_offline now db :
  bool_decide (schema_ok db) = true -> good (start_offline now db).
Proof. intros H. apply good_start. by apply bool_decide_eq_true_1 in H. Qed.

Create HintDb session.
#[export] Hint Resolve query_good execute_update_good flush_good commit_good
  good_broken good_faults good_schema : session.
#[export] Hint Resolve preserves_query preserves_utcnow preserves_assign
  preserves_execute_update preserves_flush preserves_commit preserves_rollback
  preserves_scalar preserves_load_subs preserves_get_sub preserves_sub_attrs
  preserves_select_subs preserves_ws_send preserves_connect preserves_execute_command
  preserves_disconnect preserves_when : session.

(** Preservation of an invariant by a handler, one operation at a time. *)
Ltac preserve_step :=
  first
    [ apply preserves_return | apply preserves_raise | apply preserves_query
    | apply preserves_row_attrs | apply preserves_epoch
    | apply preserves_utcnow | apply preserves_flush | apply preserves_commit
    | apply preserves_rollback | apply preserves_scalar | apply preserves_load_subs
    | apply preserves_get_sub | apply preserves_sub_attrs | apply preserves_select_subs
    | apply preserves_ws_send | apply preserves_connect | apply preserves_execute_command
    | apply preserves_disconnect | apply preserves_when
    | apply preserves_assign | apply preserves_execute_update
    | apply preserves_fold; intros ? ? | apply preserves_try; [|intros ?]
    | apply preserves_attempt | apply preserves_loop; intros ? ?
    | apply preserves_active
    | apply preserves_finally | apply preserves_then; [|intros ?]
    | match goal with |- preserves _ (match ?x with _ => _ end) => destruct x eqn:? end ].
Ltac preserve := repeat preserve_step.
