(* ===== verification/Plan.v ===== *)
(** * Service plans: access windows, router caps and rate limits

    [ServicePlan]'s computed limits ([src/app/models/plan.py]), the RouterOS
    rate-limit strings built from a plan's speeds
    ([src/app/api/v1/portal/hotspot.py],
    [src/app/modules/subscriptions/bandwidth_manager.py]). *)

From S2P Require Import Prelude Numerics Models.

(** ** Access window *)

Definition is_unlimited_data (p : ServicePlan) : bool := plan_data_limit p =? -1.
Definition is_unlimited_time (p : ServicePlan) : bool := plan_time_limit p =? -1.

(** A positive [duration_minutes] wins, as a float number of hours; otherwise
    the validity in hours, capped by a positive [time_limit]. *)
Definition access_window_hours (p : ServicePlan) : pynum :=
  let legacy :=
    let hours := plan_validity_days p * 24 in
    if 0 <? plan_time_limit p then
      PInt (if 0 <? hours then Z.min hours (plan_time_limit p) else plan_time_limit p)
    else PInt hours in
  match plan_duration_minutes p with
  | Some d => if 0 <? d then PFloat (hours_of_minutes d) else legacy
  | None => legacy
  end.

Definition limit_uptime_seconds (p : ServicePlan) : Z :=
  let hours := access_window_hours p in
  if num_is_zero hours || negb (num_pos hours) then 0
  else num_round (num_mul_int hours 3600).

Definition limit_uptime_str (p : ServicePlan) : string :=
  let secs := limit_uptime_seconds p in
  if 0 <? secs then str_of_Z secs +:+ "s" else "".

Definition access_expiry_from (p : ServicePlan) (activated_at : datetime)
    (fallback_churn_days : option Z) : option datetime :=
  let hours := access_window_hours p in
  if num_pos hours then Some (activated_at + timedelta_hours_num hours)
  else
    match fallback_churn_days with
    | Some d => if 0 <? d then Some (activated_at + timedelta_days d) else None
    | None => None
    end.

(** ** Rate limits *)

(** [x or 0] for an optional integer column *)
Definition or_zero (o : option Z) : Z := default 0 o.

Definition mbps (n : Z) : string := str_of_Z n +:+ "M".
Definition kbps (n : Z) : string := str_of_Z n +:+ "k".

(** [int(round(base * pct / 100.0))] *)
Definition burst_share (base pct : Z) : Z :=
  float_round (float_div (float_of_int (base * pct)) (float_of_int 100)).

Definition burst_thresholds (download upload pct : Z) : Z * Z :=
  if 0 <? pct then (Z.max 1 (burst_share download pct), Z.max 1 (burst_share upload pct))
  else (Z.max 1 download, Z.max 1 upload).

Definition build_rate_limit (p : ServicePlan) : string :=
  let download := plan_download_speed p in
  let upload := plan_upload_speed p in
  if (download =? 0) && (upload =? 0) then ""
  else
    let base := mbps download +:+ "/" +:+ mbps upload in
    if negb (plan_enable_burst p) then base
    else
      let b_down := or_zero (plan_burst_download p) in
      let b_up := or_zero (plan_burst_upload p) in
      if (b_down =? 0) && (b_up =? 0) then base
      else
        let thr := burst_thresholds download upload (or_zero (plan_burst_threshold p)) in
        let btime := or_zero (plan_burst_time p) in
        base +:+ " " +:+ mbps b_down +:+ "/" +:+ mbps b_up +:+ " "
        +:+ mbps (fst thr) +:+ "/" +:+ mbps (snd thr) +:+ " "
        +:+ str_of_Z btime +:+ "/" +:+ str_of_Z btime.

(** [BandwidthProfileManager.format_rate_limit]; [int(a / 100)] truncates the
    correctly rounded quotient. *)
Definition format_rate_limit (download_kbps upload_kbps : Z)
    (burst_download_kbps burst_upload_kbps : option Z)
    (burst_threshold_percent burst_time_seconds : Z) : string :=
  let base := kbps upload_kbps +:+ "/" +:+ kbps download_kbps in
  let b_down := or_zero burst_download_kbps in
  let b_up := or_zero burst_upload_kbps in
  if negb (b_down =? 0) && negb (b_up =? 0) then
    let share n := float_trunc (float_of_ratio (n * burst_threshold_percent) 100) in
    let time := str_of_Z burst_time_seconds +:+ "s" in
    base +:+ " " +:+ kbps b_up +:+ "/" +:+ kbps b_down +:+ " "
    +:+ kbps (share upload_kbps) +:+ "/" +:+ kbps (share download_kbps) +:+ " "
    +:+ time +:+ "/" +:+ time
  else base.

(** [SubscriptionRouterSyncService._calculate_*] *)
Definition calculate_rate_limit (p : ServicePlan) : string := build_rate_limit p.

Definition calculate_time_limit (p : ServicePlan) : option string :=
  match limit_uptime_str p with "" => None | s => Some s end.

Definition calculate_data_limit (p : ServicePlan) : option string :=
  if 0 <? plan_data_limit p
  then Some (str_of_Z (plan_data_limit p * 1024 * 1024 * 1024)) else None.

Definition profile_name (plan_id : Z) : string := "plan_" +:+ str_of_Z plan_id.

(** ** Properties *)

Lemma hours_of_minutes_pos d :
  0 < d <= int4_max -> num_pos (PFloat (hours_of_minutes d)) = true.
Proof.
  intros Hd. destruct (hours_of_minutes_bounds d) as (_ & Hp & _); [lia|].
  by apply Z.ltb_lt.
Qed.

(** The window of a plan without a precise duration, in hours. *)
Definition legacy_hours (p : ServicePlan) : Z :=
  if 0 <? plan_time_limit p then
    if 0 <? plan_validity_days p
    then Z.min (plan_validity_days p * 24) (plan_time_limit p)
    else plan_time_limit p
  else plan_validity_days p * 24.

Definition precise_minutes (p : ServicePlan) : option Z :=
  match plan_duration_minutes p with
  | Some d => if 0 <? d then Some d else None
  | None => None
  end.

Lemma access_window_cases p :
  access_window_hours p =
  match precise_minutes p with
  | Some d => PFloat (hours_of_minutes d)
  | None => PInt (legacy_hours p)
  end.
Proof.
  unfold access_window_hours, precise_minutes, legacy_hours.
  replace (0 <? plan_validity_days p * 24) with (0 <? plan_validity_days p)
    by (destruct (Z.ltb_spec 0 (plan_validity_days p)); symmetry; [apply Z.ltb_lt|apply Z.ltb_ge]; lia).
  destruct (plan_duration_minutes p) as [d|]; [destruct (0 <? d)|];
    try done; by case_match.
Qed.

Lemma precise_minutes_pos p d : precise_minutes p = Some d -> 0 < d.
Proof.
  unfold precise_minutes. destruct (plan_duration_minutes p) as [d'|]; [|done].
  destruct (Z.ltb_spec 0 d'); [intros [= <-]; done|done].
Qed.

(** The window in seconds, without floating point. *)
Definition window_seconds (p : ServicePlan) : Z :=
  match precise_minutes p with
  | Some d => 60 * d
  | None => Z.max 0 (legacy_hours p * 3600)
  end.

(** The router-side cap of a plan is exactly its access window in seconds:
    sixty times the precise duration, for every positive 32-bit number of
    minutes (the binary64 detour through hours loses nothing), or 3600 times
    the whole hours of validity capped by the time limit, and 0 (no cap) when
    neither is positive. *)
Theorem limit_uptime_exact (p : ServicePlan) :
  (forall d, plan_duration_minutes p = Some d -> d <= int4_max) ->
  limit_uptime_seconds p = window_seconds p.
Proof.
  intros Hd. unfold limit_uptime_seconds, window_seconds. rewrite access_window_cases.
  destruct (precise_minutes p) as [d|] eqn:E.
  - pose proof (precise_minutes_pos p d E) as Hpos.
    assert (d <= int4_max) as Hmax.
    { apply Hd. unfold precise_minutes in E. destruct (plan_duration_minutes p); [|done].
      case_match; congruence. }
    rewrite hours_of_minutes_pos by lia. simpl.
    destruct (hours_of_minutes_bounds d ltac:(lia)) as (_ & Hp & _).
    unfold float_is_zero. rewrite (proj2 (Z.eqb_neq _ 0)) by lia. simpl.
    apply hours_of_minutes_seconds. lia.
  - simpl. destruct (Z.eqb_spec (legacy_hours p) 0) as [->|]; [done|].
    destruct (Z.ltb_spec 0 (legacy_hours p)); simpl; lia.
Qed.

Definition hourly_plan (minutes : option Z) (days limit : Z) : ServicePlan :=
  mkServicePlan None "P" PT_HOTSPOT PLAN_ACTIVE (units 10) "KES" DAILY 5 2 (-1) limit days
    minutes 1 false 0 false None None None None 0.

Lemma limit_uptime_exact_witness :
  limit_uptime_seconds (hourly_plan (Some 5) 1 0) = 300.
Proof.
  apply (limit_uptime_exact (hourly_plan (Some 5) 1 0)).
  intros d [= <-]. unfold int4_max. lia.
Defined.

(** The two enforcement paths agree: whenever a plan has a finite window,
    the expiry computed by the reconciler is the activation time plus exactly
    the seconds of the router-side cap, which is positive; and without a
    window the expiry is the churn fallback, or none at all. *)
Theorem router_cap_agrees_with_expiry (p : ServicePlan) (a : datetime) (churn : option Z) :
  (forall d, plan_duration_minutes p = Some d -> d <= 10000000) ->
  access_expiry_from p a churn =
  if 0 <? limit_uptime_seconds p
  then Some (a + timedelta_seconds (limit_uptime_seconds p))
  else match churn with
       | Some d => if 0 <? d then Some (a + timedelta_days d) else None
       | None => None
       end.
Proof.
  intros Hd.
  assert (Hcap : limit_uptime_seconds p = window_seconds p).
  { apply limit_uptime_exact. intros d H. specialize (Hd d H). unfold int4_max. lia. }
  rewrite Hcap. unfold access_expiry_from, window_seconds. rewrite access_window_cases.
  destruct (precise_minutes p) as [d|] eqn:E.
  - pose proof (precise_minutes_pos p d E) as Hpos.
    assert (d <= 10000000) as Hmax.
    { apply Hd. unfold precise_minutes in E. destruct (plan_duration_minutes p); [|done].
      case_match; congruence. }
    rewrite hours_of_minutes_pos by (unfold int4_max; lia).
    rewrite hours_of_minutes_timedelta by lia.
    rewrite (proj2 (Z.ltb_lt 0 (60 * d))) by lia.
    f_equal. unfold timedelta_minutes, timedelta_seconds. lia.
  - simpl. destruct (Z.ltb_spec 0 (legacy_hours p)).
    + rewrite (proj2 (Z.ltb_lt 0 _)) by lia. f_equal.
      unfold timedelta_hours, timedelta_seconds. lia.
    + by rewrite (proj2 (Z.ltb_ge 0 _)) by lia.
Qed.

Lemma router_cap_agrees_with_expiry_witness :
  access_expiry_from (hourly_plan (Some 90) 30 0) 0 (Some 14) = Some 5400000000.
Proof.
  rewrite (router_cap_agrees_with_expiry (hourly_plan (Some 90) 30 0) 0 (Some 14));
    [reflexivity|intros d [= <-]; lia].
Defined.

Lemma burst_share_exact base pct :
  0 <= base * pct < 2 ^ 40 -> burst_share base pct = round_half_even (base * pct) 100.
Proof. apply float_percent. Qed.

(** Burst thresholds are sound: for a percentage between 1 and 100 the
    threshold emitted for a direction is at least 1M, never above the base
    rate (or 1M when the base is 0), and within half a megabit of the exact
    percentage unless it was raised to 1M. *)
Theorem burst_threshold_sound (base other pct : Z) :
  0 <= base < 1000000 -> 0 < pct <= 100 ->
  let thr := fst (burst_thresholds base other pct) in
  1 <= thr <= Z.max 1 base /\
  (thr = 1 \/ Z.abs (100 * thr - base * pct) <= 50).
Proof.
  intros Hb Hp. unfold burst_thresholds.
  rewrite (proj2 (Z.ltb_lt 0 pct)) by lia. cbn [fst].
  rewrite burst_share_exact by nia.
  pose proof (round_half_even_mono_int (base * pct) 100 base ltac:(lia) ltac:(nia)).
  pose proof (round_half_even_error (base * pct) 100 ltac:(lia)).
  split; [lia|]. destruct (Z.le_gt_cases (round_half_even (base * pct) 100) 1); [left|right]; lia.
Qed.

Lemma burst_threshold_sound_witness :
  1 <= fst (burst_thresholds 5 2 75) <= Z.max 1 5 /\
  (fst (burst_thresholds 5 2 75) = 1 \/ Z.abs (100 * fst (burst_thresholds 5 2 75) - 5 * 75) <= 50).
Proof. apply (burst_threshold_sound 5 2 75); lia. Defined.
