(* ===== verification/AgentQueue.v ===== *)
(** * The polling agent's command queue

    [RouterAgentService] of [src/app/services/router_agent.py] over the
    [router_commands] table ([src/app/models/router_command.py]): queueing,
    the poll that dispatches commands, the report that resolves them, and the
    two sweeps. *)

From stdpp Require Import sorting.
From S2P Require Import Prelude PyString Numerics Models Session.

(** ** Configuration ([settings.agent_*]) *)
Class AgentConfig := {
  agent_command_expiry_hours : Z;
  agent_max_commands_per_poll : nat;
  agent_default_poll_interval : Z;
  agent_script_version : string
}.

#[export] Instance default_agent_config : AgentConfig := {
  agent_command_expiry_hours := 1;
  agent_max_commands_per_poll := 10;
  agent_default_poll_interval := 10;
  agent_script_version := "1.0"
}.

(** ** Uptime strings *)
Inductive UptimeValue : Type :=
  | UpNumber (n : Z)
  | UpText (s : string).

Definition unit_seconds (c : ascii) : option Z :=
  match c with
  | "w"%char => Some 604800
  | "d"%char => Some 86400
  | "h"%char => Some 3600
  | "m"%char => Some 60
  | "s"%char => Some 1
  | _ => None
  end.

Fixpoint parse_letters (total : Z) (current : option Z) (s : string) : Z :=
  match s with
  | EmptyString => total
  | String c s' =>
      match digit_value c with
      | Some d => parse_letters total (Some (10 * default 0 current + d)) s'
      | None =>
          match current, unit_seconds c with
          | Some v, Some u => parse_letters (total + v * u) None s'
          | _, _ => parse_letters total current s'
          end
      end
  end.

Definition parse_clock (s : string) : Z :=
  match mapM py_int (split_on ":" s) with
  | Some [h; m; x] => h * 3600 + m * 60 + x
  | Some [m; x] => m * 60 + x
  | Some [x] => x
  | _ => 0
  end.

Definition parse_colon (s : string) : Z :=
  match cut_at "d" s with
  | Some (day_part, rest) =>
      default 0 (option_map (Z.mul 86400) (py_int (strip day_part))) + parse_clock (strip rest)
  | None => parse_clock s
  end.

Definition parse_uptime (u : UptimeValue) : Z :=
  match u with
  | UpNumber n => n
  | UpText text =>
      let s := strip text in
      if bool_decide (s = "") then 0
      else if contains_char ":" s then parse_colon s
      else parse_letters 0 None text
  end.

(** ** The pipe-delimited wire format *)
Definition param (params : list (string * string)) (key dflt : string) : string :=
  match list_find (fun kv => kv.1 = key) params with
  | Some (_, kv) => kv.2
  | None => dflt
  end.

Record AgentCommand : Type := mkAgentCommand {
  ac_id : Z;
  ac_action : string;
  ac_params : list (string * string)
}.

Definition command_fields (c : AgentCommand) : list string :=
  let p := param (ac_params c) in
  let action := ac_action c in
  if bool_decide (action = "disconnect") then [action; p "username" ""]
  else if bool_decide (action ∈ ["disable_user"; "enable_user"; "remove_user"])
  then [action; p "username" ""; p "type" "pppoe"]
  else if bool_decide (action = "create_user")
  then [action; p "username" ""; p "password" ""; p "type" "pppoe"; p "profile" "default";
        p "rate_limit" ""]
  else if bool_decide (action = "set_queue") then [action; p "target" ""; p "max_limit" ""]
  else if bool_decide (action = "fetch_import") then [action; p "url" ""]
  else if bool_decide (action = "run_script") then [action; b64encode (p "script" "")]
  else [action; join "," (map (fun kv => kv.1 +:+ "=" +:+ kv.2) (ac_params c))].

Definition format_command (c : AgentCommand) : string :=
  join "|" (command_fields c ++ [str_of_Z (ac_id c)]).

Definition newline : ascii := Ascii.ascii_of_nat 10.

Definition format_commands_pipe_delimited (l : list AgentCommand) : string :=
  join (String newline "") (map format_command l).

(** ** The queue *)

(** The order of dispatch: by priority, then by creation time. *)
Definition dispatch_before (a b : Z * RouterCommand) : Prop :=
  cmd_priority a.2 < cmd_priority b.2 \/
  cmd_priority a.2 = cmd_priority b.2 /\ cmd_created_at a.2 <= cmd_created_at b.2.

#[export] Instance dispatch_before_dec : RelDecision dispatch_before.
Proof. intros a b. unfold dispatch_before. apply _. Defined.

#[export] Instance dispatch_before_total : Total dispatch_before.
Proof. intros a b. unfold dispatch_before. lia. Qed.

#[export] Instance dispatch_before_trans : Transitive dispatch_before.
Proof. intros a b c. unfold dispatch_before. lia. Qed.

Definition pending_for (router_id : Z) (now : datetime) (c : RouterCommand) : bool :=
  (cmd_router_id c =? router_id) && bool_decide (cmd_status c = CMD_PENDING)
  && match cmd_expires_at c with None => true | Some e => now <? e end.

(** What a router reports with a poll. *)
Record Telemetry : Type := mkTelemetry {
  tm_cpu_load : option Z;
  tm_free_memory : option Z;
  tm_total_memory : option Z;
  tm_free_hdd_space : option Z;
  tm_total_hdd_space : option Z;
  tm_uptime : option UptimeValue;
  tm_version : option string;
  (** [None] inside the list is an entry that is not a dict *)
  tm_active_users : option (list (option Entry))
}.

(** [u.get(k1) or u.get(k2) or ... or ""] *)
Fixpoint first_truthy (u : Entry) (keys : list string) : string :=
  match keys with
  | [] => ""
  | k :: ks => match u !! k with
               | Some v => if bool_decide (v = "") then first_truthy u ks else v
               | None => first_truthy u ks
               end
  end.

Definition normalise_active_user (u : Entry) : ActiveUser :=
  mkActiveUser (first_truthy u ["username"; "user"; "name"]) (first_truthy u ["type"])
    (first_truthy u ["address"; "ip"]) (first_truthy u ["mac"; "mac-address"])
    (first_truthy u ["uptime"]).

(** [x if x is not None else old] for a nullable column *)
Definition keep {A} (o old : option A) : option A :=
  match o with Some x => Some x | None => old end.

Definition apply_telemetry (now : datetime) (t : Telemetry) (r : Router) : Router :=
  let r := r <| rt_last_seen := Some now |> <| rt_last_poll_at := Some now |>
             <| rt_status := ONLINE |>
             <| rt_cpu_load ::= keep (tm_cpu_load t) |>
             <| rt_free_memory ::= keep (tm_free_memory t) |>
             <| rt_total_memory ::= keep (tm_total_memory t) |>
             <| rt_free_hdd_space ::= keep (tm_free_hdd_space t) |>
             <| rt_total_hdd_space ::= keep (tm_total_hdd_space t) |> in
  let r := match tm_uptime t with
           | Some u => r <| rt_uptime := parse_uptime u |> | None => r end in
  let r := match tm_version t with
           | Some v => if bool_decide (v = "") then r else r <| rt_routeros_version := Some v |>
           | None => r end in
  match tm_active_users t with
  | Some l => r <| rt_active_users := Some (map normalise_active_user (omap id l)) |>
                <| rt_active_users_at := Some now |>
  | None => r
  end.

Record PollResponse : Type := mkPollResponse {
  pr_commands : list AgentCommand;
  pr_poll_interval : Z;
  pr_agent_version : option string
}.

Definition level_of (status : string) : string :=
  if bool_decide (status = "success") then "success"
  else if bool_decide (status = "failed") then "error"
  else if bool_decide (status = "retry") then "warning"
  else "info".

(** One entry of an agent's report, with the defaults of [result.get]. *)
Record Report : Type := mkReport {
  rep_id : option Z;
  rep_status : string;
  rep_message : string
}.

Section Agent.
Context {be : Backend} {ros : RouterOS} {cfg : AgentConfig}.

Definition set_command (i : Z) (f : RouterCommand -> RouterCommand) : run unit :=
  assign (over t_commands (alter f i)).

Definition queue_command (router_id : Z) (action : string) (params : list (string * string))
    (priority : Z) (source source_id : option string) (expires_in_seconds : option Z) : run Z :=
  now <- utcnow ;;
  let expires := default (agent_command_expiry_hours * 3600) expires_in_seconds in
  id <- query (fun db => next_id (t_commands db)) ;;
  assign (over t_commands (insert id
    (mkCommand router_id action params priority CMD_PENDING now None None
       (Some (now + timedelta_seconds expires)) None 0 3 source source_id))) ;;;
  flush ;;;
  mreturn id.

Definition eligible (r : Z) (now : datetime) (m : gmap Z RouterCommand) : list (Z * RouterCommand) :=
  select (fun _ => pending_for r now) m.

Definition pending_rows (router_id : Z) (now : datetime) (limit : nat)
    (m : gmap Z RouterCommand) : list (Z * RouterCommand) :=
  take limit (merge_sort dispatch_before (eligible router_id now m)).

Definition get_pending_commands (router_id : Z) (limit : option nat)
    : run (list (Z * RouterCommand)) :=
  now <- utcnow ;;
  query (fun db => pending_rows router_id now
                     (default agent_max_commands_per_poll limit) (t_commands db)).

(** The values written by an [UPDATE ... WHERE id IN (...)]. *)
Definition update_commands (sel : Z -> RouterCommand -> bool)
    (f : RouterCommand -> RouterCommand) (m : gmap Z RouterCommand) : gmap Z RouterCommand :=
  map_imap (fun i c => Some (if sel i c then f c else c)) m.

Definition mark_sent (now : datetime) (c : RouterCommand) : RouterCommand :=
  c <| cmd_status := SENT |> <| cmd_sent_at := Some now |>.

Definition mark_commands_sent (ids : list Z) : run unit :=
  match ids with
  | [] => mreturn tt
  | _ =>
      now <- utcnow ;;
      execute_update (over t_commands
        (update_commands (fun i _ => bool_decide (i ∈ ids)) (mark_sent now)))
  end.

Definition handle_poll (router_id : Z) (t : Telemetry) : run PollResponse :=
  o <- query (fun db => t_routers db !! router_id) ;;
  match o with
  | None => mreturn (mkPollResponse [] agent_default_poll_interval None)
  | Some r =>
      now <- utcnow ;;
      assign (over t_routers (alter (apply_telemetry now t) router_id)) ;;;
      commands <- get_pending_commands router_id None ;;
      mark_commands_sent (map fst commands) ;;;
      commit ;;;
      mreturn (mkPollResponse
        (map (fun ic => mkAgentCommand ic.1 (cmd_action ic.2) (cmd_params ic.2)) commands)
        (rt_agent_poll_interval r) (Some agent_script_version))
  end.

(** ** Results *)
Definition broadcast_provisioning_progress (c : RouterCommand) (status message : string)
    : run unit :=
  if bool_decide (cmd_source c = Some "provisioning") then
    match cmd_source_id c with
    | Some session_id =>
        if bool_decide (session_id = "") then mreturn tt
        else
          ws_send (WsLog session_id (level_of status)
            ("Router agent: " +:+ cmd_action c +:+ " " +:+ status
             +:+ (if bool_decide (message = "") then "" else " — " +:+ message))) ;;;
          mwhen (bool_decide (cmd_action c = "fetch_import"))
            (if bool_decide (status = "success") then ws_send (WsComplete session_id)
             else if bool_decide (status = "failed") then
               ws_send (WsFailed session_id
                 (if bool_decide (message = "") then "unknown error" else message))
             else mreturn tt)
    | None => mreturn tt
    end
  else mreturn tt.

Definition update_backup_status (command_id : Z) (status message : string) : run unit :=
  rows <- query (fun db =>
    select (fun _ b => bool_decide (bak_command_id b = Some command_id)) (t_backups db)) ;;
  o <- scalar_one_or_none rows ;;
  match o with
  | Some (i, b) =>
      if bool_decide (bak_status b = "pending") then
        now <- utcnow ;;
        assign (over t_backups (alter (fun b =>
          b <| bak_status := status |> <| bak_message := Some message |>
            <| bak_completed_at := Some now |>) i))
      else mreturn tt
  | None => mreturn tt
  end.

Definition update_subscription_sync_status (subscription_id : string) (synced : bool) : run unit :=
  match py_int subscription_id with
  | None => mreturn tt
  | Some sub_id =>
      o <- get_sub sub_id ;;
      match o with
      | Some _ =>
          now <- utcnow ;;
          set_sub sub_id (fun s => s <| sub_is_router_synced := synced |>
                                     <| sub_last_router_sync := Some now |>)
      | None => mreturn tt
      end
  end.

Definition message_or_ok (m : string) : string := if bool_decide (m = "") then "OK" else m.

Definition succeed (now : datetime) (message : string) (c : RouterCommand) : RouterCommand :=
  c <| cmd_status := SUCCESS |> <| cmd_completed_at := Some now |>
    <| cmd_result_message := Some (message_or_ok message) |>.

Definition retry_exhausted (c : RouterCommand) : bool := cmd_max_retries c <=? cmd_retry_count c + 1.

Definition fail (now : datetime) (message : string) (c : RouterCommand) : RouterCommand :=
  let c' := c <| cmd_retry_count ::= Z.succ |> <| cmd_result_message := Some message |> in
  if retry_exhausted c
  then c' <| cmd_status := FAILED |> <| cmd_completed_at := Some now |>
  else c' <| cmd_status := CMD_PENDING |> <| cmd_sent_at := None |>.

Definition process_command_result (command_id : Z) (status message : string) : run unit :=
  o <- query (fun db => t_commands db !! command_id) ;;
  match o with
  | None => mreturn tt
  | Some c =>
      now <- utcnow ;;
      if bool_decide (status = "success") then
        set_command command_id (succeed now message) ;;;
        (match cmd_source_id c with
         | Some sid =>
             mwhen (bool_decide (cmd_source c = Some "subscription_sync")
                    && negb (bool_decide (sid = "")))
               (update_subscription_sync_status sid true)
         | None => mreturn tt
         end) ;;;
        update_backup_status command_id "completed" (message_or_ok message) ;;;
        broadcast_provisioning_progress c "success" message
      else if bool_decide (status = "failed") then
        set_command command_id (fail now message) ;;;
        (if retry_exhausted c then
           update_backup_status command_id "failed" message ;;;
           broadcast_provisioning_progress c "failed" message
         else
           broadcast_provisioning_progress c "retry"
             (message +:+ " (retry " +:+ str_of_Z (cmd_retry_count c + 1) +:+ "/"
              +:+ str_of_Z (cmd_max_retries c) +:+ ")"))
      else mreturn tt
  end.

(** [router_id] is the reporting router; the body does not read it. *)
Definition handle_report (router_id : Z) (results : list Report) : run unit :=
  mfold (fun _ r =>
    match rep_id r with
    | Some i => process_command_result i (rep_status r) (rep_message r)
    | None => mreturn tt
    end) tt results ;;;
  commit.

(** ** Sweeps *)
Definition expired_command (now : datetime) (c : RouterCommand) : bool :=
  bool_decide (cmd_status c ∈ [CMD_PENDING; SENT])
  && match cmd_expires_at c with Some e => e <? now | None => false end.

Definition mark_expired (now : datetime) (c : RouterCommand) : RouterCommand :=
  c <| cmd_status := CMD_EXPIRED |> <| cmd_completed_at := Some now |>.

Definition cleanup_expired_commands : run Z :=
  now <- utcnow ;;
  count <- query (fun db => length (select (fun _ => expired_command now) (t_commands db))) ;;
  execute_update (over t_commands
    (update_commands (fun _ => expired_command now) (mark_expired now))) ;;;
  commit ;;;
  mreturn (Z.of_nat count).

Definition stale_sent (threshold : datetime) (c : RouterCommand) : bool :=
  bool_decide (cmd_status c = SENT)
  && match cmd_sent_at c with Some t => t <? threshold | None => false end
  && (cmd_retry_count c <? cmd_max_retries c).

Definition reset_sent (c : RouterCommand) : RouterCommand :=
  c <| cmd_status := CMD_PENDING |> <| cmd_sent_at := None |>.

Definition reset_stale_sent_commands (stale_threshold_minutes : Z) : run Z :=
  now <- utcnow ;;
  let threshold := now - timedelta_minutes stale_threshold_minutes in
  count <- query (fun db => length (select (fun _ => stale_sent threshold) (t_commands db))) ;;
  execute_update (over t_commands
    (update_commands (fun _ => stale_sent threshold) reset_sent)) ;;;
  commit ;;;
  mreturn (Z.of_nat count).
End Agent.

(** ** Selection of the pending commands *)
Section Selection.
Context {be : Backend} {ros : RouterOS} {cfg : AgentConfig}.

Lemma elem_of_eligible r now m i c :
  (i, c) ∈ eligible r now m <-> m !! i = Some c /\ pending_for r now c = true.
Proof. apply (elem_of_select (fun _ => pending_for r now)). Qed.

Lemma sorted_perm_eligible r now m :
  merge_sort dispatch_before (eligible r now m) ≡ₚ eligible r now m.
Proof. apply merge_sort_Permutation. Qed.

Lemma elem_of_pending_rows r now n m i c :
  (i, c) ∈ pending_rows r now n m -> m !! i = Some c /\ pending_for r now c = true.
Proof.
  unfold pending_rows. intros H%subseteq_take. rewrite sorted_perm_eligible in H. by apply elem_of_eligible.
Qed.

Lemma pending_rows_nodup r now n m : NoDup (map fst (pending_rows r now n m)).
Proof.
  eapply sublist_NoDup; [|apply fmap_sublist, sublist_take].
  change (NoDup ((merge_sort dispatch_before (eligible r now m)).*1)).
  rewrite sorted_perm_eligible. apply select_keys_nodup.
Qed.

(** [get_pending_commands] returns the commands to dispatch next: pending,
    unexpired commands of that router only, ordered by priority and then
    creation time, as many as the limit allows, and none of the eligible
    commands left out comes before one that is returned. *)
Theorem pending_commands_are_first (w : World) (r : Z) (limit : option nat) :
  w_broken w = false ->
  exists l, get_pending_commands r limit w = (Ok l, w) /\
    let n := default agent_max_commands_per_poll limit in
    let m := t_commands (w_view w) in
    StronglySorted dispatch_before l /\
    length l = Nat.min n (length (eligible r (w_now w) m)) /\
    (forall i c, (i, c) ∈ l -> m !! i = Some c /\ pending_for r (w_now w) c = true) /\
    (forall i c x, m !! i = Some c -> pending_for r (w_now w) c = true ->
       (i, c) ∉ l -> x ∈ l -> dispatch_before x (i, c)).
Proof.
  intros Hb. eexists. split.
  { unfold get_pending_commands. rewrite (mthen_ok utcnow _ w (w_now w) w) by done.
    by rewrite query_good. }
  cbn zeta. set (n := default _ limit). set (m := t_commands (w_view w)).
  pose proof (StronglySorted_merge_sort dispatch_before (eligible r (w_now w) m)) as Hs.
  rewrite <- (take_drop n (merge_sort dispatch_before (eligible r (w_now w) m))) in Hs.
  split_all.
  - by apply StronglySorted_app_1_l in Hs.
  - unfold pending_rows. by rewrite length_take, sorted_perm_eligible.
  - intros i c. apply elem_of_pending_rows.
  - intros i c x Hi Hp Hout Hx.
    assert (Hin : (i, c) ∈ merge_sort dispatch_before (eligible r (w_now w) m)).
    { rewrite sorted_perm_eligible. by apply elem_of_eligible. }
    rewrite <- (take_drop n), elem_of_app in Hin.
    destruct Hin as [Hin|Hin]; [by destruct Hout|].
    by eapply StronglySorted_app_1_elem_of.
Qed.

Definition sample_command (r prio created : Z) : RouterCommand :=
  mkCommand r "disconnect" [("username", "C001")] prio CMD_PENDING created None None None None 0 3
    None None.

Definition sample_queue : DB :=
  empty_db <| t_commands := {[1 := sample_command 7 5 10; 2 := sample_command 7 2 20;
                              3 := sample_command 8 1 5]} |>.
End Selection.

Lemma pending_commands_are_first_witness :
  exists l, get_pending_commands 7 (Some 1%nat) (start_offline 100 sample_queue) =
            (Ok l, start_offline 100 sample_queue) /\ map fst l = [2].
Proof.
  destruct (pending_commands_are_first (start_offline 100 sample_queue) 7 (Some 1%nat) eq_refl)
    as (l & Hl & _).
  exists l. split; [exact Hl|].
  assert (E : get_pending_commands 7 (Some 1%nat) (start_offline 100 sample_queue)
              = (Ok [(2, sample_command 7 2 20)], start_offline 100 sample_queue)) by (vm_compute; reflexivity).
  rewrite E in Hl. injection Hl as <-. reflexivity.
Defined.

(** ** Polls *)
Section Polls.
Context {be : Backend} {ros : RouterOS} {cfg : AgentConfig}.

Lemma lookup_update_commands sel f (m : gmap Z RouterCommand) i :
  update_commands sel f m !! i = (fun c => if sel i c then f c else c) <$> m !! i.
Proof. apply lookup_map_cond. Qed.

(** The commands dispatched by a poll of router [r]. *)
Definition dispatched (r : Z) (w : World) : list (Z * RouterCommand) :=
  pending_rows r (w_now w) agent_max_commands_per_poll (t_commands (w_view w)).

Definition poll_effect (r : Z) (w : World) (i : Z) (c : RouterCommand) : RouterCommand :=
  if bool_decide (i ∈ map fst (dispatched r w)) then mark_sent (w_now w) c else c.

Lemma handle_poll_run (w : World) (r : Z) (t : Telemetry) (rt : Router) :
  good w -> t_routers (w_view w) !! r = Some rt ->
  exists w', handle_poll r t w =
    (Ok (mkPollResponse
           (map (fun ic => mkAgentCommand ic.1 (cmd_action ic.2) (cmd_params ic.2)) (dispatched r w))
           (rt_agent_poll_interval rt) (Some agent_script_version)), w') /\
    good w' /\ w_now w' = w_now w /\ w_durable w' = w_view w' /\
    t_routers (w_view w') = alter (apply_telemetry (w_now w) t) r (t_routers (w_view w)) /\
    forall i, t_commands (w_view w') !! i = poll_effect r w i <$> t_commands (w_view w) !! i.
Proof.
  intros Hg Hr. pose proof (good_broken w Hg) as Hb.
  set (w1 := w <| w_view ::= over t_routers (alter (apply_telemetry (w_now w) t) r) |>).
  assert (Hg1 : good w1).
  { apply good_alter_router; [done|]. intros r0. unfold apply_telemetry. by repeat case_match. }
  assert (Hrows : get_pending_commands r None w1 = (Ok (dispatched r w), w1)).
  { unfold get_pending_commands. rewrite (mthen_ok utcnow _ w1 (w_now w1) w1) by done.
    by rewrite query_good by auto with session. }
  assert (Hmark : exists w2, mark_commands_sent (map fst (dispatched r w)) w1 = (Ok tt, w2) /\
    good w2 /\ w_now w2 = w_now w /\ t_routers (w_view w2) = t_routers (w_view w1) /\
    forall i, t_commands (w_view w2) !! i = poll_effect r w i <$> t_commands (w_view w) !! i).
  { unfold mark_commands_sent, poll_effect. destruct (map fst (dispatched r w)) as [|i ids] eqn:E.
    - exists w1. split_all; [done..|]. intros i.
      rewrite bool_decide_eq_false_2 by apply not_elem_of_nil. by rewrite option_fmap_id.
    - eexists. split.
      { rewrite (mthen_ok utcnow _ w1 (w_now w1) w1) by done.
        by rewrite execute_update_good by auto with session. }
      split_all; [by apply good_view|done..|]. intros j. apply lookup_update_commands. }
  destruct Hmark as (w2 & Hmark & Hg2 & Hn2 & Hr2 & Hc2).
  eexists. split.
  { unfold handle_poll. rewrite (mthen_ok _ _ _ _ _ (query_good _ w Hb)), Hr.
    rewrite (mthen_ok utcnow _ w (w_now w) w) by done.
    rewrite (mthen_ok (assign _) _ w tt w1) by done.
    rewrite (mthen_ok _ _ _ _ _ Hrows), (mthen_ok _ _ _ _ _ Hmark).
    by rewrite (mthen_ok _ _ _ _ _ (commit_good w2 Hg2)). }
  split_all; [by apply good_commit|done..].
Qed.

(** A poll dispatches each command once: the commands returned to the
    router are recorded as SENT at the time of the poll, in the committed
    state, every other command is untouched, and a second poll of the same
    router at the same time returns none of them again. *)
Theorem poll_dispatches_once (w : World) (r : Z) (t t' : Telemetry) (rt : Router) :
  good w -> t_routers (w_view w) !! r = Some rt ->
  exists resp w', handle_poll r t w = (Ok resp, w') /\
    (forall i c, t_commands (w_view w) !! i = Some c ->
       t_commands (w_durable w') !! i =
       Some (if bool_decide (i ∈ map ac_id (pr_commands resp))
             then mark_sent (w_now w) c else c)) /\
    exists resp' w'', handle_poll r t' w' = (Ok resp', w'') /\
      forall i, i ∈ map ac_id (pr_commands resp) -> i ∉ map ac_id (pr_commands resp').
Proof.
  intros Hg Hr. destruct (handle_poll_run w r t rt Hg Hr) as (w' & Hrun & Hg' & Hn & Hd & Hrt & Hc).
  assert (Hids : forall (v : World),
    map ac_id (map (fun ic => mkAgentCommand ic.1 (cmd_action ic.2) (cmd_params ic.2)) (dispatched r v))
    = map fst (dispatched r v)) by (intros v; rewrite map_map; by apply map_ext).
  do 2 eexists. split; [exact Hrun|]. simpl. rewrite Hids. split.
  - intros i c Hi. by rewrite Hd, Hc, Hi.
  - destruct (handle_poll_run w' r t' (apply_telemetry (w_now w) t rt) Hg') as (w'' & Hrun' & _).
    { rewrite Hrt. by rewrite lookup_alter_eq, Hr. }
    do 2 eexists. split; [exact Hrun'|]. simpl. rewrite Hids.
    intros i Hi Hi'. apply list_elem_of_fmap in Hi' as ([j c'] & -> & Hj).
    apply elem_of_pending_rows in Hj as [Hj Hp]. simpl in *. rewrite Hc in Hj.
    destruct (t_commands (w_view w) !! j) as [c|]; [|done]. injection Hj as <-.
    unfold poll_effect in Hp. rewrite bool_decide_eq_true_2 in Hp by done.
    unfold pending_for in Hp. simpl in Hp. by rewrite andb_false_r in Hp.
Qed.
End Polls.

Definition sample_router : Router :=
  mkRouter (Some 1) "hq" "10.0.0.1" 8728 "admin" "pw" OFFLINE true None 0 None None None None
    None None (Some "hash") None true 10 None None None None None None false [].

Definition idle_telemetry : Telemetry := mkTelemetry None None None None None None None None.

Definition polled_db : DB := sample_queue <| t_routers := {[7 := sample_router]} |>.

Lemma polled_good : good (start_offline 100 polled_db).
Proof. apply good_offline. vm_compute. reflexivity. Qed.

Lemma poll_dispatches_once_witness :
  exists resp w', handle_poll 7 idle_telemetry (start_offline 100 polled_db) = (Ok resp, w') /\
    map ac_id (pr_commands resp) = [2; 1].
Proof.
  destruct (poll_dispatches_once (start_offline 100 polled_db) 7 idle_telemetry idle_telemetry
              sample_router polled_good eq_refl) as (resp & w' & Hrun & _).
  exists resp, w'. split; [exact Hrun|].
  assert (E : match handle_poll 7 idle_telemetry (start_offline 100 polled_db) with
              | (Ok r, _) => map ac_id (pr_commands r) = [2; 1] | _ => False end)
    by (vm_compute; reflexivity).
  by rewrite Hrun in E.
Defined.
