(* ===== verification/AgentLifecycle.v ===== *)
(** * The life cycle of an agent command

    The invariant of the [router_commands] table over every interleaving of
    the service's operations, the recovery of commands whose answer was lost,
    and the accounting of retries. *)

From S2P Require Import Prelude PyString Numerics Models Session AgentQueue.

(** ** The life-cycle invariant of a row *)
Definition cmd_wf (c : RouterCommand) : Prop :=
  0 <= cmd_retry_count c /\
  match cmd_status c with
  | CMD_PENDING => cmd_sent_at c = None /\ cmd_retry_count c < cmd_max_retries c
  | SENT => is_Some (cmd_sent_at c) /\ cmd_retry_count c < cmd_max_retries c
  | SUCCESS | CMD_EXPIRED => is_Some (cmd_completed_at c)
  | FAILED => is_Some (cmd_completed_at c) /\ cmd_max_retries c <= cmd_retry_count c
  end.

Definition commands_wf (db : DB) : Prop := map_Forall (fun _ c => cmd_wf c) (t_commands db).

Ltac wf_row := split; simpl; try lia; repeat split; eauto; lia.

Lemma succeed_wf now msg c : cmd_wf c -> cmd_wf (succeed now msg c).
Proof. intros [H _]. wf_row. Qed.

Lemma fail_wf now msg c : cmd_wf c -> cmd_wf (fail now msg c).
Proof.
  intros [H _]. unfold fail, retry_exhausted. case_match; wf_row.
Qed.

Lemma mark_sent_wf now c : cmd_status c = CMD_PENDING -> cmd_wf c -> cmd_wf (mark_sent now c).
Proof. intros E [H Hc]. rewrite E in Hc. wf_row. Qed.

Lemma mark_expired_wf now c : cmd_wf c -> cmd_wf (mark_expired now c).
Proof. intros [H _]. wf_row. Qed.

Lemma reset_sent_wf c : cmd_retry_count c < cmd_max_retries c -> cmd_wf c -> cmd_wf (reset_sent c).
Proof. intros Hr [H _]. wf_row. Qed.

Lemma commands_wf_frame db db' : t_commands db' = t_commands db -> commands_wf db -> commands_wf db'.
Proof. unfold commands_wf. by intros ->. Qed.

Lemma commands_wf_alter (f : RouterCommand -> RouterCommand) i db :
  (forall c, cmd_wf c -> cmd_wf (f c)) -> commands_wf db ->
  commands_wf (over t_commands (alter f i) db).
Proof.
  intros Hf H j c. simpl. rewrite lookup_alter_Some.
  intros [(_ & c' & E & ->)|[_ E]]; [apply Hf|]; by apply (H _ _ E).
Qed.

Lemma commands_wf_update sel (f : RouterCommand -> RouterCommand) db :
  (forall i c, t_commands db !! i = Some c -> sel i c = true -> cmd_wf c -> cmd_wf (f c)) ->
  commands_wf db -> commands_wf (over t_commands (update_commands sel f) db).
Proof.
  intros Hf H i c. simpl. rewrite lookup_update_commands.
  destruct (t_commands db !! i) as [c0|] eqn:E; [|done]. simpl. intros [= <-].
  destruct (sel i c0) eqn:Es; [|by apply (H _ _ E)]. apply (Hf i c0); [done..|by apply (H _ _ E)].
Qed.

Create HintDb lifecycle.
#[export] Hint Resolve succeed_wf fail_wf mark_expired_wf commands_wf_alter : lifecycle.
#[export] Hint Extern 2 (commands_wf _) =>
  (eapply commands_wf_frame; [reflexivity|eassumption]) : lifecycle.

(** ** Preservation by the operations *)
Section Preservation.
Context {be : Backend} {ros : RouterOS} {cfg : AgentConfig}.
Abbreviation inv := (db_inv commands_wf).

Lemma preserves_set_command i f :
  (forall c, cmd_wf c -> cmd_wf (f c)) -> preserves inv (set_command i f).
Proof. intros Hf. apply preserves_assign. intros db. by apply commands_wf_alter. Qed.

Lemma queue_command_wf r action params prio src sid exp :
  preserves inv (queue_command r action params prio src sid exp).
Proof.
  unfold queue_command. preserve. intros db H i c. simpl. rewrite lookup_insert_Some.
  intros [[_ <-]|[_ E]]; [by split|by apply (H _ _ E)].
Qed.

Lemma update_backup_status_wf i st msg : preserves inv (update_backup_status i st msg).
Proof. unfold update_backup_status. preserve. intros db H. eauto with lifecycle. Qed.

Lemma update_subscription_sync_status_wf s b : preserves inv (update_subscription_sync_status s b).
Proof.
  unfold update_subscription_sync_status, set_sub. preserve.
  intros db H. eauto with lifecycle.
Qed.

Lemma broadcast_wf c st msg : preserves inv (broadcast_provisioning_progress c st msg).
Proof. unfold broadcast_provisioning_progress. preserve. Qed.

Lemma process_command_result_wf i st msg : preserves inv (process_command_result i st msg).
Proof.
  unfold process_command_result.
  repeat first
    [ apply preserves_set_command; auto with lifecycle
    | apply update_backup_status_wf | apply update_subscription_sync_status_wf
    | apply broadcast_wf | preserve_step ].
Qed.

Lemma handle_report_wf r results : preserves inv (handle_report r results).
Proof.
  unfold handle_report. repeat first [apply process_command_result_wf | preserve_step].
Qed.

Lemma cleanup_expired_commands_wf : preserves inv cleanup_expired_commands.
Proof.
  unfold cleanup_expired_commands. preserve.
  intros db H. apply commands_wf_update; [|done]. auto with lifecycle.
Qed.

Lemma reset_stale_sent_commands_wf n : preserves inv (reset_stale_sent_commands n).
Proof.
  unfold reset_stale_sent_commands. preserve.
  intros db H. apply commands_wf_update; [|done]. intros i c _ Hs. apply reset_sent_wf.
  unfold stale_sent in Hs. apply andb_true_iff in Hs as [_ Hs]. lia.
Qed.

(** The poll marks as sent only rows it has just read as pending. *)
Lemma dispatch_wf {A} r (k : list (Z * RouterCommand) -> run A) :
  (forall l, preserves inv (k l)) ->
  preserves inv (commands <- get_pending_commands r None ;;
                 mark_commands_sent (map fst commands) ;;; k commands).
Proof.
  intros Hk w Hw. unfold get_pending_commands, mark_commands_sent.
  unfold mthen at 1, mthen at 1, utcnow at 1, query.
  destruct (w_broken w) eqn:Eb; [done|]. set (l := pending_rows _ _ _ _).
  destruct (map fst l) as [|i ids] eqn:El; [by apply Hk|].
  rewrite <- El. unfold mthen at 1 2, utcnow, execute_update. rewrite Eb.
  apply Hk. destruct Hw as [Hv Hd]. split; [|done].
  apply commands_wf_update; [|done]. intros j c Hj Hin.
  apply bool_decide_eq_true_1, list_elem_of_fmap in Hin as ([j' c'] & -> & Hin).
  apply elem_of_pending_rows in Hin as [Hj' Hp]. simpl in *. rewrite Hj in Hj'. injection Hj' as <-.
  apply mark_sent_wf. unfold pending_for in Hp. rewrite !andb_true_iff in Hp.
  destruct Hp as [[_ Hp] _]. by apply bool_decide_eq_true_1 in Hp.
Qed.

Lemma handle_poll_wf r t : preserves inv (handle_poll r t).
Proof.
  unfold handle_poll.
  repeat first [apply dispatch_wf; intros ? | preserve_step].
  intros db H. eauto with lifecycle.
Qed.

(** ** The transition system of the queue *)

(** One operation of the service, a rollback of its caller, or time passing. *)
Inductive agent_step (w : World) : World -> Prop :=
  | step_queue r action params prio src sid exp o w' :
      queue_command r action params prio src sid exp w = (o, w') -> agent_step w w'
  | step_poll r t o w' : handle_poll r t w = (o, w') -> agent_step w w'
  | step_report r l o w' : handle_report r l w = (o, w') -> agent_step w w'
  | step_cleanup o w' : cleanup_expired_commands w = (o, w') -> agent_step w w'
  | step_reset n o w' : reset_stale_sent_commands n w = (o, w') -> agent_step w w'
  | step_commit o w' : commit w = (o, w') -> agent_step w w'
  | step_rollback o w' : rollback w = (o, w') -> agent_step w w'
  | step_time t : w_now w <= t -> agent_step w (w <| w_now := t |>).

Lemma step_by {A} (m : run A) w o w' : preserves inv m -> m w = (o, w') -> inv w -> inv w'.
Proof. intros Hm E Hw. specialize (Hm w Hw). by rewrite E in Hm. Qed.

Lemma agent_step_wf w w' : agent_step w w' -> inv w -> inv w'.
Proof.
  intros H. destruct H;
    try solve [eapply step_by; [|eassumption];
               auto using queue_command_wf, handle_poll_wf, handle_report_wf,
                 cleanup_expired_commands_wf, reset_stale_sent_commands_wf with session].
  by intros [Hv Hd].
Qed.

(** C3. Whatever operations are run, in whatever order and with whatever
    commits refused, every command of the view and of the committed table
    keeps its life-cycle invariant: a pending one has no sending time and
    retries left, a sent one has a sending time and retries left, a resolved
    one has a completion time, and a failed one has used up its retries. *)
Theorem lifecycle_invariant (w w' : World) :
  commands_wf (w_view w) -> commands_wf (w_durable w) -> rtc agent_step w w' ->
  commands_wf (w_view w') /\ commands_wf (w_durable w').
Proof.
  intros Hv Hd H. assert (Hw : inv w) by (by split). clear Hv Hd.
  induction H as [w|w w1 w' Hs _ IH]; [done|]. apply IH. by eapply agent_step_wf.
Qed.

Definition stuck_before (t : datetime) (c : RouterCommand) : Prop :=
  cmd_status c = SENT /\ exists s, cmd_sent_at c = Some s /\ s < t.

(** No command is lost to a lost answer: in a table reached by the
    service's operations, the stale sweep puts back every command that was
    sent before its threshold, commits, and leaves every other command
    alone. *)
Theorem stale_sweep_recovers (w : World) (n : Z) :
  good w -> commands_wf (w_view w) ->
  exists k w', reset_stale_sent_commands n w = (Ok k, w') /\
    w_durable w' = w_view w' /\
    forall i c, t_commands (w_view w) !! i = Some c ->
      t_commands (w_view w') !! i =
        Some (if bool_decide (cmd_status c = SENT) &&
                 match cmd_sent_at c with Some s => s <? w_now w - timedelta_minutes n | None => false end
              then reset_sent c else c) /\
      forall c', t_commands (w_view w') !! i = Some c' ->
        ~ stuck_before (w_now w - timedelta_minutes n) c'.
Proof.
  intros Hg Hwf. pose proof (good_broken w Hg) as Hb.
  set (th := w_now w - timedelta_minutes n).
  set (w1 := w <| w_view ::= over t_commands (update_commands (fun _ => stale_sent th) reset_sent) |>).
  assert (Hg1 : good w1) by (by apply good_view).
  do 2 eexists. split.
  { unfold reset_stale_sent_commands. rewrite (mthen_ok utcnow _ w (w_now w) w) by done.
    cbv zeta. rewrite (mthen_ok _ _ _ _ _ (query_good _ w Hb)).
    rewrite (mthen_ok _ _ _ _ _ (execute_update_good _ w Hb)).
    rewrite (mthen_ok _ _ _ _ _ (commit_good w1 Hg1)). reflexivity. }
  split; [done|]. intros i c Hi. destruct (Hwf i c Hi) as [H0 Hc].
  assert (E : t_commands (w_view w1) !! i
              = Some (if stale_sent th c then reset_sent c else c)).
  { unfold w1. simpl. by rewrite lookup_update_commands, Hi. }
  assert (Es : stale_sent th c = bool_decide (cmd_status c = SENT) &&
            match cmd_sent_at c with Some s => s <? th | None => false end).
  { unfold stale_sent. destruct (cmd_status c); simpl in *; try done.
    destruct Hc as [_ Hc]. apply Z.ltb_lt in Hc. by rewrite Hc, andb_true_r. }
  simpl in *. rewrite E, Es. split; [done|].
  intros c' [= <-] [Hst (s & Hs & Hlt)]. revert Hst Hs.
  destruct (bool_decide (cmd_status c = SENT)) eqn:Eb; simpl.
  - destruct (cmd_sent_at c) as [s'|] eqn:Es'; simpl; [|by rewrite Es'].
    destruct (s' <? th) eqn:El; simpl; [done|]. rewrite Es'. intros _ [= ->]. lia.
  - intros Hst. by apply bool_decide_eq_false_1 in Eb.
Qed.
End Preservation.

Lemma empty_queue_wf : commands_wf empty_db.
Proof. intros i c. simpl. by rewrite lookup_empty. Qed.

Definition queued_one : World :=
  snd (queue_command 7 "disconnect" [("username", "C001")] 1 None None None
         (start_offline 100 empty_db)).

Lemma lifecycle_invariant_witness :
  commands_wf (w_view queued_one) /\ t_commands (w_view queued_one) !! 1 <> None.
Proof.
  split; [|by vm_compute].
  apply (lifecycle_invariant (start_offline 100 empty_db) queued_one empty_queue_wf empty_queue_wf).
  apply rtc_once. by eapply step_queue, surjective_pairing.
Defined.

Definition sent_command : RouterCommand :=
  (sample_command 7 1 10) <| cmd_status := SENT |> <| cmd_sent_at := Some 10 |>.

Definition sent_db : DB := empty_db <| t_commands := {[1 := sent_command]} |>.

Lemma sent_db_wf : commands_wf sent_db.
Proof. apply map_Forall_singleton. split; simpl; [lia|]. split; [eauto|lia]. Qed.

Lemma sent_db_good : good (start_offline 1000000000 sent_db).
Proof. apply good_offline. vm_compute. reflexivity. Qed.

Lemma stale_sweep_recovers_witness :
  exists w', state_of (reset_stale_sent_commands 5 (start_offline 1000000000 sent_db)) = w' /\
    t_commands (w_durable w') !! 1 = Some (reset_sent sent_command).
Proof.
  destruct (stale_sweep_recovers (start_offline 1000000000 sent_db) 5 sent_db_good sent_db_wf)
    as (k & w' & E & Hd & H).
  exists w'. rewrite E. split; [done|]. rewrite Hd.
  destruct (H 1 sent_command eq_refl) as [-> _]. vm_compute. reflexivity.
Defined.

(** ** Reports *)
Section Reports.
Context {be : Backend} {ros : RouterOS} {cfg : AgentConfig}.

(** No backup waits for the command, so that its report ends normally. *)
Definition no_backup (i : Z) (db : DB) : Prop :=
  forall j b, t_backups db !! j = Some b -> bak_command_id b <> Some i.

Lemma update_backup_status_none i st msg w :
  w_broken w = false -> no_backup i (w_view w) -> update_backup_status i st msg w = (Ok tt, w).
Proof.
  intros Hb Hn. unfold update_backup_status. rewrite (mthen_ok _ _ _ _ _ (query_good _ w Hb)).
  destruct (select _ _) as [|[j b] l] eqn:E; [done|exfalso].
  assert (H : (j, b) ∈ (j, b) :: l) by apply list_elem_of_here.
  rewrite <- E in H.
  apply (elem_of_select (fun _ b => bool_decide (bak_command_id b = Some i))) in H as [H Hd].
  apply bool_decide_eq_true_1 in Hd. by apply (Hn j b).
Qed.

(** A change of the world that keeps its tables and its session. *)
Definition same_session (w w' : World) : Prop :=
  w_view w' = w_view w /\ w_durable w' = w_durable w /\ w_broken w' = w_broken w /\
  w_faults w' = w_faults w /\ w_now w' = w_now w.

Lemma broadcast_run c st msg w :
  exists w', broadcast_provisioning_progress c st msg w = (Ok tt, w') /\ same_session w w'.
Proof.
  unfold broadcast_provisioning_progress, mwhen. cbv zeta. unfold ws_send.
  repeat case_match; eexists; (split; [reflexivity|]); repeat split.
Qed.

Lemma report_failed_run (w : World) i c msg :
  w_broken w = false -> t_commands (w_view w) !! i = Some c -> no_backup i (w_view w) ->
  exists w', process_command_result i "failed" msg w = (Ok tt, w') /\
    same_session (w <| w_view ::= over t_commands (alter (fail (w_now w) msg) i) |>) w'.
Proof.
  intros Hb Hi Hn. unfold process_command_result.
  rewrite (mthen_ok _ _ _ _ _ (query_good _ w Hb)), Hi.
  rewrite (mthen_ok utcnow _ w (w_now w) w) by done.
  rewrite bool_decide_eq_false_2, bool_decide_eq_true_2 by done.
  set (w1 := w <| w_view ::= _ |>).
  rewrite (mthen_ok (set_command _ _) _ w tt w1) by done.
  destruct (retry_exhausted c); [|apply broadcast_run].
  rewrite (mthen_ok _ _ w1 tt w1) by (by apply update_backup_status_none).
  apply broadcast_run.
Qed.

(** [n] successive failed reports of one command, before the commit. *)
Definition failures (i : Z) (msg : string) (n : nat) : run unit :=
  mfold (fun _ r => match rep_id r with
                    | Some j => process_command_result j (rep_status r) (rep_message r)
                    | None => mreturn tt end) tt
    (replicate n (mkReport (Some i) "failed" msg)).

Lemma failures_run (w : World) i msg n : forall c,
  good w -> t_commands (w_view w) !! i = Some c -> no_backup i (w_view w) ->
  exists w', failures i msg n w = (Ok tt, w') /\ good w' /\
    t_commands (w_view w') !! i = Some (Nat.iter n (fail (w_now w) msg) c) /\
    forall j, j <> i -> t_commands (w_view w') !! j = t_commands (w_view w) !! j.
Proof.
  revert w. induction n as [|n IH]; intros w c Hg Hi Hn.
  { by exists w. }
  destruct (report_failed_run w i c msg (good_broken w Hg) Hi Hn)
    as (w1 & E & Hv & _ & Hb & Hf & Ht).
  simpl in *.
  destruct (IH w1 (fail (w_now w) msg c)) as (w' & E' & Hg' & Hi' & Hj').
  - destruct Hg as [Gb Gf Gs]. split; rewrite ?Hb, ?Hf, ?Hv; [done..|].
    by eapply schema_ok_frame.
  - rewrite Hv. simpl. by rewrite lookup_alter_eq, Hi.
  - intros j b. rewrite Hv. apply Hn.
  - exists w'. split; [|split; [done|split]].
    + unfold failures in *. simpl replicate. simpl. by rewrite (mthen_ok _ _ _ _ _ E).
    + rewrite Hi', Ht. by rewrite Nat.iter_swap.
    + intros j Hne. rewrite Hj' by done. rewrite Hv. simpl. by rewrite lookup_alter_ne.
Qed.

Lemma iter_fail_count now msg n c :
  cmd_retry_count (Nat.iter n (fail now msg) c) = cmd_retry_count c + Z.of_nat n /\
  cmd_max_retries (Nat.iter n (fail now msg) c) = cmd_max_retries c.
Proof.
  induction n as [|n [IH1 IH2]]; [split; simpl; lia|]. simpl. unfold fail at 1 3.
  case_match; simpl; rewrite IH1, IH2; split; lia.
Qed.

Lemma iter_fail_status now msg n c :
  let c' := Nat.iter (S n) (fail now msg) c in
  cmd_status c' = (if cmd_max_retries c <=? cmd_retry_count c + Z.of_nat (S n) then FAILED else CMD_PENDING).
Proof.
  destruct (iter_fail_count now msg n c) as [E1 E2]. simpl. unfold fail at 1, retry_exhausted.
  rewrite E1, E2.
  replace (cmd_retry_count c + Z.of_nat n + 1) with (cmd_retry_count c + Z.of_nat (S n)) by lia.
  by case_match.
Qed.

(** Retries are bounded and exactly as many as configured: after any
    number of failed reports (one at least) the command has counted each of
    them, is back in the queue while it has retries left, and is FAILED as
    soon as they are used up; the report commits this and changes no other
    command. *)
Theorem retries_are_exact (w : World) (r i : Z) (msg : string) (n : nat) (c : RouterCommand) :
  good w -> t_commands (w_view w) !! i = Some c -> no_backup i (w_view w) ->
  exists w', handle_report r (replicate (S n) (mkReport (Some i) "failed" msg)) w = (Ok tt, w') /\
    (exists c', t_commands (w_durable w') !! i = Some c' /\
       cmd_retry_count c' = cmd_retry_count c + Z.of_nat (S n) /\
       cmd_status c' = if cmd_max_retries c <=? cmd_retry_count c + Z.of_nat (S n)
                       then FAILED else CMD_PENDING) /\
    forall j, j <> i -> t_commands (w_durable w') !! j = t_commands (w_view w) !! j.
Proof.
  intros Hg Hi Hn. destruct (failures_run w i msg (S n) c Hg Hi Hn) as (w1 & E & Hg1 & Hi1 & Hj1).
  eexists. split.
  { unfold handle_report. rewrite (mthen_ok _ _ w tt w1) by exact E.
    by rewrite (commit_good w1 Hg1). }
  split; [|done]. eexists. split; [exact Hi1|].
  split; [apply iter_fail_count|apply iter_fail_status].
Qed.

(** A result is matched to its command by number alone: a report of any
    router, whoever the command was queued for and whether or not it was
    already resolved, rewrites the command; one late failure puts a command
    already reported as a success back in the queue. *)
Theorem report_ignores_owner_and_status (w : World) (reporter i : Z) (msg : string) (c : RouterCommand) :
  good w -> t_commands (w_view w) !! i = Some c -> no_backup i (w_view w) ->
  cmd_retry_count c + 1 < cmd_max_retries c ->
  exists w', handle_report reporter [mkReport (Some i) "failed" msg] w = (Ok tt, w') /\
    exists c', t_commands (w_durable w') !! i = Some c' /\ cmd_status c' = CMD_PENDING /\
      cmd_sent_at c' = None /\ cmd_completed_at c' = cmd_completed_at c.
Proof.
  intros Hg Hi Hn Hr. destruct (failures_run w i msg 1 c Hg Hi Hn) as (w1 & E & Hg1 & Hi1 & _).
  eexists. split.
  { unfold handle_report. rewrite (mthen_ok _ _ w tt w1) by exact E.
    by rewrite (commit_good w1 Hg1). }
  eexists. split; [exact Hi1|]. simpl. unfold fail, retry_exhausted.
  destruct (Z.leb_spec (cmd_max_retries c) (cmd_retry_count c + 1)); [lia|done].
Qed.
End Reports.

Lemma sent_db_no_backup i : no_backup i sent_db.
Proof. intros j b. simpl. by rewrite lookup_empty. Qed.

Lemma retries_are_exact_witness :
  exists w', handle_report 7 (replicate 3 (mkReport (Some 1) "failed" "no such user"))
               (start_offline 1000000000 sent_db) = (Ok tt, w') /\
    exists c', t_commands (w_durable w') !! 1 = Some c' /\ cmd_status c' = FAILED.
Proof.
  destruct (retries_are_exact (start_offline 1000000000 sent_db) 7 1 "no such user" 2 sent_command
              sent_db_good eq_refl (sent_db_no_backup 1)) as (w' & E & (c' & Hc & _ & Hs) & _).
  exists w'. split; [exact E|]. by exists c'.
Defined.

(** A command of router 7 resolved as a success, reported on by router 99. *)
Definition done_db : DB :=
  empty_db <| t_commands := {[1 := succeed 50 "OK" sent_command]} |>.

Lemma report_ignores_owner_and_status_witness :
  exists w', handle_report 99 [mkReport (Some 1) "failed" "late"] (start_offline 60 done_db) = (Ok tt, w') /\
    exists c', t_commands (w_durable w') !! 1 = Some c' /\ cmd_status c' = CMD_PENDING.
Proof.
  destruct (report_ignores_owner_and_status (start_offline 60 done_db) 99 1 "late"
              (succeed 50 "OK" sent_command)) as (w' & E & c' & Hc & Hs & _).
  - apply good_offline. vm_compute. reflexivity.
  - reflexivity.
  - intros j b. simpl. by rewrite lookup_empty.
  - reflexivity.
  - exists w'. split; [exact E|]. by exists c'.
Defined.
