(* ===== verification/AgentWire.v ===== *)
(** * What goes over the wire between the service and a router's agent

    The pipe-delimited command list that the agent splits on newlines and
    pipes, and the two uptime notations that RouterOS reports. *)

From S2P Require Import Prelude PyString Numerics Models Session AgentQueue.

(** ** The command list *)
Lemma contains_char_join x sep l :
  contains_char x sep = false -> Forall (fun p => contains_char x p = false) l ->
  contains_char x (join sep l) = false.
Proof.
  intros Hsep Hl. induction Hl as [|p l Hp Hl IH]; [done|].
  destruct l as [|q l]; [done|]. change (join sep (p :: q :: l)) with (p +:+ sep +:+ join sep (q :: l)).
  by rewrite !contains_char_app, Hp, Hsep, IH.
Qed.

(** What the agent recovers from one line. *)
Definition wire_fields (c : AgentCommand) : list string := command_fields c ++ [str_of_Z (ac_id c)].

Definition wire_safe (c : AgentCommand) : Prop :=
  0 <= ac_id c /\
  Forall (fun p => contains_char "|" p = false /\ contains_char newline p = false) (command_fields c).

Lemma wire_fields_safe x c :
  digit_value x = None -> 0 <= ac_id c ->
  Forall (fun p => contains_char x p = false) (command_fields c) ->
  Forall (fun p => contains_char x p = false) (wire_fields c).
Proof.
  intros Hx Hid H. apply Forall_app. split; [done|].
  apply Forall_singleton. by apply str_of_Z_no_char.
Qed.

Lemma wire_fields_nonempty c : wire_fields c <> [].
Proof. unfold wire_fields. by destruct (command_fields c). Qed.

Lemma format_command_fields c : wire_safe c -> split_on "|" (format_command c) = wire_fields c.
Proof.
  intros [Hid H]. unfold format_command. apply split_join; [apply wire_fields_nonempty|].
  apply wire_fields_safe; [done..|]. by eapply Forall_impl; [exact H|intros p [? _]].
Qed.

Lemma format_command_one_line c : wire_safe c -> contains_char newline (format_command c) = false.
Proof.
  intros [Hid H]. apply contains_char_join; [done|].
  apply wire_fields_safe; [done..|]. by eapply Forall_impl; [exact H|intros p [_ ?]].
Qed.

(** The command list round-trips: an agent that splits the text on
    newlines and each line on pipes gets back, command by command and in
    order, the fields of each command followed by its number, as long as the
    fields hold no pipe and no newline themselves. *)
Theorem wire_round_trip (l : list AgentCommand) :
  l <> [] -> Forall wire_safe l ->
  map (split_on "|") (split_on newline (format_commands_pipe_delimited l)) = map wire_fields l.
Proof.
  intros Hne Hl. unfold format_commands_pipe_delimited. rewrite split_join.
  - rewrite map_map. apply map_ext_in. intros c Hc%list_elem_of_In.
    apply format_command_fields. by eapply Forall_forall in Hl.
  - by destruct l.
  - apply Forall_fmap. eapply Forall_impl; [exact Hl|]. intros c. apply format_command_one_line.
Qed.

Definition sample_commands : list AgentCommand :=
  [mkAgentCommand 4 "create_user" [("username", "C001"); ("password", "pw"); ("rate_limit", "5M/5M")];
   mkAgentCommand 9 "run_script" [("script", "/log info hello")]].

Lemma wire_round_trip_witness :
  map (split_on "|") (split_on newline (format_commands_pipe_delimited sample_commands))
  = [["create_user"; "C001"; "pw"; "pppoe"; "default"; "5M/5M"; "4"];
     ["run_script"; "L2xvZyBpbmZvIGhlbGxv"; "9"]].
Proof.
  rewrite (wire_round_trip sample_commands).
  - reflexivity.
  - done.
  - repeat constructor; vm_compute; done.
Defined.

(** ** Uptimes *)

(** The letter notation: numbers, each followed by its unit. *)
Fixpoint letters_text (l : list (Z * ascii)) : string :=
  match l with
  | [] => ""
  | (n, u) :: l' => str_of_Z n +:+ String u (letters_text l')
  end.

Fixpoint letters_value (l : list (Z * ascii)) : Z :=
  match l with
  | [] => 0
  | (n, u) :: l' => n * default 0 (unit_seconds u) + letters_value l'
  end.

Definition letters_ok (l : list (Z * ascii)) : Prop :=
  Forall (fun nu => 0 <= nu.1 /\ is_Some (unit_seconds nu.2)) l.

Lemma unit_not_digit u : is_Some (unit_seconds u) -> digit_value u = None /\ is_space u = false /\ u <> ":"%char.
Proof.
  intros [k H]. destruct u as [[] [] [] [] [] [] [] []]; try discriminate H; by repeat split.
Qed.

Lemma parse_letters_digits s : forall total acc tail,
  all_digits s = true ->
  parse_letters total (Some acc) (s +:+ tail) = parse_letters total (Some (read_digits acc s)) tail.
Proof.
  induction s as [|c s IH]; intros total acc tail Hs; [done|].
  destruct (all_digits_cons c s Hs) as [[d Hd] Hs'].
  change (String c s +:+ tail) with (String c (s +:+ tail)). simpl. rewrite Hd. simpl. by apply IH.
Qed.

Lemma parse_letters_text l : forall total, letters_ok l ->
  parse_letters total None (letters_text l) = total + letters_value l.
Proof.
  induction l as [|[n u] l IH]; intros total Hl; simpl; [lia|].
  apply Forall_cons in Hl as [[Hn Hu] Hl]. simpl in *.
  destruct (str_of_Z_digits n Hn) as (Hd & Hv & Hne).
  destruct (unit_not_digit u Hu) as (Hud & _ & _). destruct Hu as [k Hu].
  destruct (str_of_Z n) as [|c s]; [done|].
  destruct (all_digits_cons c s Hd) as [[d Hc] Hs].
  change (String c s +:+ String u (letters_text l)) with (String c (s +:+ String u (letters_text l))).
  simpl in *. rewrite Hc in *. simpl in *.
  rewrite parse_letters_digits by done. simpl. rewrite Hud, Hu, Hv, IH by done. simpl. lia.
Qed.

Lemma letters_no_colon l : letters_ok l -> contains_char ":" (letters_text l) = false.
Proof.
  induction l as [|[n u] l IH]; intros Hl; simpl; [done|].
  apply Forall_cons in Hl as [[Hn Hu] Hl]. simpl in *.
  rewrite contains_char_app, str_of_Z_no_char by done. simpl.
  destruct (unit_not_digit u Hu) as (_ & _ & Hne). by rewrite bool_decide_eq_false_2, IH.
Qed.

Lemma lstrip_digit s tail : all_digits s = true -> s <> "" -> lstrip (s +:+ tail) = s +:+ tail.
Proof.
  intros Hs Hne. destruct s as [|c s]; [done|].
  destruct (all_digits_cons c s Hs) as [[d Hd] _].
  change (String c s +:+ tail) with (String c (s +:+ tail)). simpl. by rewrite (digit_not_space c d).
Qed.

Lemma rstrip_app_kept s t : rstrip t = t -> t <> "" -> rstrip (s +:+ t) = s +:+ t.
Proof.
  intros Ht Hne. induction s as [|c s IH]; [done|].
  change (String c s +:+ t) with (String c (s +:+ t)). simpl. rewrite IH.
  destruct (s +:+ t) as [|c' s'] eqn:E; [|done].
  exfalso. by destruct s, t.
Qed.

Lemma contains_char_strip x s : contains_char x s = false -> contains_char x (strip s) = false.
Proof.
  assert (Hl : contains_char x s = false -> contains_char x (lstrip s) = false).
  { induction s as [|c s IH]; [done|]. simpl. intros [Hc Hs]%orb_false_iff.
    case_match; [by apply IH|]. simpl. by rewrite Hc. }
  intros H. apply Hl in H. unfold strip. revert H. generalize (lstrip s). clear.
  intros s. induction s as [|c s IH]; [done|]. simpl. intros [Hc Hs]%orb_false_iff.
  specialize (IH Hs). destruct (rstrip s); [case_match; [done|]|]; simpl in *; by rewrite Hc.
Qed.

Lemma strip_from_digit s tail :
  all_digits s = true -> s <> "" -> strip (s +:+ tail) = rstrip (s +:+ tail) /\ strip (s +:+ tail) <> "".
Proof.
  intros Hs Hne. unfold strip. rewrite lstrip_digit by done. split; [done|].
  destruct s as [|c s]; [done|]. destruct (all_digits_cons c s Hs) as [[d Hd] _].
  change (String c s +:+ tail) with (String c (s +:+ tail)). simpl.
  rewrite (digit_not_space c d Hd). by destruct (rstrip _).
Qed.

(** An uptime in RouterOS's letter notation ([1w2d3h], [45m10s], ...) is
    read as the sum of its numbers, each times the seconds of its unit. *)
Theorem letters_uptime (l : list (Z * ascii)) :
  l <> [] -> letters_ok l -> parse_uptime (UpText (letters_text l)) = letters_value l.
Proof.
  intros Hne Hl. unfold parse_uptime.
  rewrite contains_char_strip by (by apply letters_no_colon).
  rewrite parse_letters_text by done. rewrite bool_decide_eq_false_2; [done|].
  destruct l as [|[n u] l]; [done|]. apply Forall_cons in Hl as [[Hn _] _].
  destruct (str_of_Z_digits n Hn) as (Hd & _ & Hs). by apply strip_from_digit.
Qed.

Lemma letters_uptime_witness : parse_uptime (UpText "1w2d3h45m10s") = 791110.
Proof.
  change "1w2d3h45m10s" with
    (letters_text [(1, "w"%char); (2, "d"%char); (3, "h"%char); (45, "m"%char); (10, "s"%char)]).
  rewrite letters_uptime.
  - reflexivity.
  - done.
  - repeat constructor; simpl; (lia || eauto).
Defined.

(** The clock notation, with or without a number of days. *)
Definition clock_text (h m s : Z) : string :=
  str_of_Z h +:+ String ":" (str_of_Z m +:+ String ":" (str_of_Z s)).

Definition uptime_text (days : option Z) (h m s : Z) : string :=
  match days with
  | Some d => str_of_Z d +:+ String "d" (String " " (clock_text h m s))
  | None => clock_text h m s
  end.

Lemma clock_strip h m s tail :
  0 <= s -> rstrip (tail +:+ clock_text h m s) = tail +:+ clock_text h m s.
Proof.
  intros Hs. destruct (str_of_Z_digits s Hs) as (Hd & _ & Hne).
  assert (E : tail +:+ clock_text h m s
    = (tail +:+ str_of_Z h +:+ String ":" (str_of_Z m +:+ ":")) +:+ str_of_Z s).
  { unfold clock_text. rewrite !string_app_assoc. do 2 f_equal.
    change (String ":" (str_of_Z m +:+ ":") +:+ str_of_Z s)
      with (String ":" ((str_of_Z m +:+ ":") +:+ str_of_Z s)).
    by rewrite string_app_assoc. }
  rewrite E. apply rstrip_app_kept; [|done].
  rewrite <- (strip_digits _ Hd) at 2. unfold strip.
  destruct (str_of_Z s) as [|c z]; [done|].
  destruct (all_digits_cons c z Hd) as [[d Hc] _]. simpl lstrip. by rewrite (digit_not_space c d).
Qed.

Lemma clock_value h m s : 0 <= h -> 0 <= m -> 0 <= s ->
  parse_clock (clock_text h m s) = h * 3600 + m * 60 + s.
Proof.
  intros Hh Hm Hs. unfold parse_clock, clock_text.
  rewrite !split_on_app, split_on_last by (by apply str_of_Z_no_char).
  simpl. by rewrite !py_int_str by done.
Qed.

Lemma cut_at_app x p s :
  contains_char x p = false -> cut_at x (p +:+ String x s) = Some (p, s).
Proof.
  induction p as [|c p IH]; simpl.
  - by rewrite bool_decide_eq_true_2.
  - intros [Hc Hp]%orb_false_iff. by rewrite Hc, IH.
Qed.

Lemma clock_colon h m s : contains_char ":" (clock_text h m s) = true.
Proof. unfold clock_text. rewrite contains_char_app. simpl. apply orb_true_r. Qed.

Lemma clock_no_d h m s : 0 <= h -> 0 <= m -> 0 <= s -> contains_char "d" (clock_text h m s) = false.
Proof.
  intros. unfold clock_text.
  rewrite contains_char_app, str_of_Z_no_char by done. simpl.
  rewrite contains_char_app, str_of_Z_no_char by done. simpl. by apply str_of_Z_no_char.
Qed.

Lemma clock_strip_id h m s : 0 <= h -> 0 <= s -> strip (clock_text h m s) = clock_text h m s.
Proof.
  intros Hh Hs. destruct (str_of_Z_digits h Hh) as (Hd & _ & Hne).
  destruct (strip_from_digit (str_of_Z h) (String ":" (str_of_Z m +:+ String ":" (str_of_Z s))) Hd Hne)
    as [E _]. unfold clock_text. rewrite E. exact (clock_strip h m s "" Hs).
Qed.

(** An uptime in RouterOS's clock notation, [h:m:s] alone or after
    [<days>d ], is read as its number of seconds. *)
Theorem clock_uptime (days : option Z) (h m s : Z) :
  0 <= default 0 days -> 0 <= h -> 0 <= m -> 0 <= s ->
  parse_uptime (UpText (uptime_text days h m s)) =
  default 0 days * 86400 + h * 3600 + m * 60 + s.
Proof.
  intros Hd Hh Hm Hs. unfold parse_uptime, uptime_text. destruct days as [d|]; simpl default in *.
  - destruct (str_of_Z_digits d Hd) as (Hdd & _ & Hne).
    set (tail := String "d" (String " " (clock_text h m s))).
    assert (E : strip (str_of_Z d +:+ tail) = str_of_Z d +:+ tail).
    { destruct (strip_from_digit _ tail Hdd Hne) as [-> _]. unfold tail.
      pose proof (clock_strip h m s (str_of_Z d +:+ String "d" (String " " "")) Hs) as H.
      by rewrite string_app_assoc in H. }
    rewrite E. rewrite bool_decide_eq_false_2 by (by destruct (str_of_Z d)).
    assert (Hc : contains_char ":" (str_of_Z d +:+ tail) = true).
    { rewrite contains_char_app. unfold tail. simpl. by rewrite clock_colon, orb_true_r. }
    rewrite Hc. unfold parse_colon, tail. rewrite cut_at_app by (by apply str_of_Z_no_char).
    rewrite strip_digits, py_int_str by done. simpl option_map. simpl default.
    assert (Hsp : strip (String " " (clock_text h m s)) = clock_text h m s)
      by exact (clock_strip_id h m s Hh Hs).
    rewrite Hsp, clock_value by done. lia.
  - rewrite clock_strip_id by done. rewrite bool_decide_eq_false_2.
    2:{ intros E. pose proof (clock_colon h m s) as H. by rewrite E in H. }
    rewrite clock_colon. unfold parse_colon. rewrite cut_at_none by (by apply clock_no_d).
    rewrite clock_value by done. lia.
Qed.

Lemma clock_uptime_witness : parse_uptime (UpText "1d 2:3:4") = 93784.
Proof. apply (clock_uptime (Some 1) 2 3 4); simpl; lia. Defined.
