(* ===== verification/RouterSync.v ===== *)
(** * Synchronising a subscription with its router

    [SubscriptionRouterSyncService] of
    [src/app/modules/subscriptions/router_sync.py]: a command for the agent
    when the router has one, a direct connection otherwise, and the two batch
    runs; and the contract [SyncService] that the services which change
    subscriptions rely on. *)

From S2P Require Import Prelude PyString Numerics Models Session Plan AgentQueue AgentLifecycle.

Inductive SyncError : Type :=
  | RouterNotFound (router_id : Z)
  | PlanNotFound (plan_id : Z)
  | ConnectFailed (ip_address : string) (e : exn)
  | UserCreateFailed (user_type : string)
  | Failed (e : exn).

(** The dictionary returned by a synchronisation. *)
Record SyncResult : Type := mkSyncResult {
  sr_success : bool;
  sr_subscription_id : Z;
  sr_action : option string;
  sr_error : option SyncError;
  sr_queued : bool
}.
#[export] Instance SyncResult_eta : Eta SyncResult := fun r =>
  mkSyncResult (sr_success r) (sr_subscription_id r) (sr_action r) (sr_error r) (sr_queued r).

(** The dictionary returned by a batch run. *)
Record BatchResult : Type := mkBatch {
  br_total : Z;
  br_success : Z;
  br_failed : Z;
  br_errors : list (option Z * option SyncError)
}.
#[export] Instance BatchResult_eta : Eta BatchResult := fun r =>
  mkBatch (br_total r) (br_success r) (br_failed r) (br_errors r).

Definition user_type_of (t : SubscriptionType) : string :=
  match t with HOTSPOT => "hotspot" | PPPOE => "pppoe" end.

Definition user_path (t : SubscriptionType) : string :=
  match t with HOTSPOT => "/ip/hotspot/user" | PPPOE => "/ppp/secret" end.
Definition active_path (t : SubscriptionType) : string :=
  match t with HOTSPOT => "/ip/hotspot/active" | PPPOE => "/ppp/active" end.
Definition profile_path (t : SubscriptionType) : string :=
  match t with HOTSPOT => "/ip/hotspot/user/profile" | PPPOE => "/ppp/profile" end.
(** The key that carries the user's name in an active session. *)
Definition active_name_key (t : SubscriptionType) : string :=
  match t with HOTSPOT => "user" | PPPOE => "name" end.

(** [next((e for e in l if e.get(key) == name), None)] *)
Fixpoint find_entry (key name : string) (l : list Entry) : option Entry :=
  match l with
  | [] => None
  | e :: l' => if bool_decide (e !! key = Some name) then Some e else find_entry key name l'
  end.

(** [l or []] *)
Definition or_empty (o : option (list Entry)) : list Entry := default [] o.

(** Iterating over [None] raises. *)
Definition iterate {W} (o : option (list Entry)) : M W (list Entry) :=
  match o with Some l => mreturn l | None => mraise (TypeError "'NoneType' object is not iterable") end.

Definition entry_id (e : Entry) : string * option string := ("id", e !! ".id").

Definition disabled_status (st : SubscriptionStatus) : bool :=
  bool_decide (st ∈ [EXPIRED; SUSPENDED; CANCELLED]).

Definition has_agent (r : Router) : bool :=
  rt_agent_installed r
  && match rt_agent_token r with Some t => negb (bool_decide (t = "")) | None => false end.

Section RouterSync.
Context {be : Backend} {ros : RouterOS} {cfg : AgentConfig}.

Definition get_router (i : Z) : run (option Router) := query (fun db => t_routers db !! i).
Definition get_plan (i : Z) : run (option ServicePlan) := query (fun db => t_plans db !! i).

(** ** Direct connection *)
Definition ensure_hotspot_profile_exists (r : Router) (name rate : string) (p : ServicePlan)
    : run bool :=
  mtry
    (profiles <- execute_command r (profile_path HOTSPOT) GET [] ;;
     (match find_entry "name" name (or_empty profiles) with
      | Some e => execute_command r (profile_path HOTSPOT) SET [entry_id e; ("rate-limit", Some rate)]
      | None =>
          execute_command r (profile_path HOTSPOT) ADD
            ([("name", Some name); ("rate-limit", Some rate);
              ("shared-users", Some (if plan_concurrent_sessions p =? 0 then "1"
                                     else str_of_Z (plan_concurrent_sessions p)))]
             ++ (if plan_validity_days p =? 0 then []
                 else [("session-timeout", Some (str_of_Z (plan_validity_days p) +:+ "d"))]))
      end) ;;;
     mreturn true)
    (fun _ => mreturn false).

Definition ensure_ppp_profile_exists (r : Router) (name rate : string) (p : ServicePlan)
    : run bool :=
  mtry
    (profiles <- execute_command r (profile_path PPPOE) GET [] ;;
     (match find_entry "name" name (or_empty profiles) with
      | Some e => execute_command r (profile_path PPPOE) SET [entry_id e; ("rate-limit", Some rate)]
      | None =>
          execute_command r (profile_path PPPOE) ADD
            [("name", Some name); ("rate-limit", Some rate);
             ("only-one", Some (if plan_concurrent_sessions p =? 1 then "yes" else "no"))]
      end) ;;;
     mreturn true)
    (fun _ => mreturn false).

Definition create_hotspot_user_with_limits (r : Router) (s : Subscription) (p : ServicePlan)
    (rate : string) : run bool :=
  mtry
    (let profile := profile_name (sub_plan_id s) in
     ensure_hotspot_profile_exists r profile rate p ;;;
     execute_command r (user_path HOTSPOT) ADD
       ([("name", Some (sub_username s)); ("password", Some (sub_password s));
         ("profile", Some profile)]
        ++ match calculate_time_limit p with
           | Some t => if bool_decide (t = "0") then [] else [("limit-uptime", Some t)]
           | None => [] end
        ++ match calculate_data_limit p with
           | Some b => if bool_decide (b = "0") then [] else [("limit-bytes-total", Some b)]
           | None => [] end) ;;;
     mreturn true)
    (fun _ => mreturn false).

Definition create_pppoe_user_with_limits (r : Router) (s : Subscription) (p : ServicePlan)
    (rate : string) : run bool :=
  mtry
    (let profile := profile_name (sub_plan_id s) in
     ensure_ppp_profile_exists r profile rate p ;;;
     execute_command r (user_path PPPOE) ADD
       [("name", Some (sub_username s)); ("password", Some (sub_password s));
        ("service", Some "pppoe"); ("profile", Some profile)] ;;;
     mreturn true)
    (fun _ => mreturn false).

Definition get_user_from_router (r : Router) (username : string) (t : SubscriptionType)
    : run (option Entry) :=
  mtry
    (users <- execute_command r (user_path t) GET [] ;;
     mreturn (find_entry "name" username (or_empty users)))
    (fun _ => mreturn None).

Definition update_user_profile (r : Router) (s : Subscription) (p : ServicePlan) (rate : string)
    : run bool :=
  mtry
    (let profile := profile_name (sub_plan_id s) in
     (match sub_type s with
      | HOTSPOT => ensure_hotspot_profile_exists r profile rate p
      | PPPOE => ensure_ppp_profile_exists r profile rate p
      end) ;;;
     reply <- execute_command r (user_path (sub_type s)) GET [] ;;
     users <- iterate reply ;;
     match find_entry "name" (sub_username s) users with
     | Some e =>
         execute_command r (user_path (sub_type s)) SET
           [entry_id e; ("profile", Some profile); ("disabled", Some "no")] ;;;
         mreturn true
     | None => mreturn false
     end)
    (fun _ => mreturn false).

Definition ensure_user_on_router (r : Router) (s : Subscription) (p : ServicePlan)
    (force_create : bool) : run (bool * option SyncError) :=
  mtry
    (existing <- get_user_from_router r (sub_username s) (sub_type s) ;;
     let rate := calculate_rate_limit p in
     let create :=
       success <- (match sub_type s with
                   | HOTSPOT => create_hotspot_user_with_limits r s p rate
                   | PPPOE => create_pppoe_user_with_limits r s p rate
                   end) ;;
       mreturn (success, if success then None else Some (UserCreateFailed (user_type_of (sub_type s)))) in
     match existing with
     | Some e =>
         if force_create then
           execute_command r (user_path (sub_type s)) REMOVE [entry_id e] ;;;
           create
         else
           update_user_profile r s p rate ;;;
           mreturn (true, None)
     | None => create
     end)
    (fun e => mreturn (false, Some (Failed e))).

Definition disconnect_active_session (r : Router) (username : string) (t : SubscriptionType)
    : run bool :=
  mtry
    (active <- execute_command r (active_path t) GET [] ;;
     mfold (fun _ e =>
       if bool_decide (e !! active_name_key t = Some username) then
         execute_command r (active_path t) REMOVE [entry_id e] ;;;
         mreturn tt
       else mreturn tt) tt (or_empty active) ;;;
     mreturn true)
    (fun _ => mreturn false).

Definition disable_user_on_router (r : Router) (s : Subscription) : run (bool * option SyncError) :=
  mtry
    (disconnect_active_session r (sub_username s) (sub_type s) ;;;
     mtry
       (reply <- execute_command r (user_path (sub_type s)) GET [] ;;
        users <- iterate reply ;;
        match find_entry "name" (sub_username s) users with
        | Some e =>
            execute_command r (user_path (sub_type s)) SET [entry_id e; ("disabled", Some "yes")] ;;;
            mreturn (true, None)
        | None => mreturn (true, None)
        end)
       (fun e => mreturn (false, Some (Failed e))))
    (fun e => mreturn (false, Some (Failed e))).

(** ** Through the agent's queue *)
Definition create_user_params (s : Subscription) (p : ServicePlan) : list (string * string) :=
  [("username", sub_username s); ("password", sub_password s); ("type", user_type_of (sub_type s));
   ("profile", profile_name (sub_plan_id s)); ("rate_limit", calculate_rate_limit p)].

Definition disable_user_params (s : Subscription) : list (string * string) :=
  [("username", sub_username s); ("type", user_type_of (sub_type s))].

(** The [except] branch reads [subscription.id] for its log line. *)
Definition sync_via_agent_queue (i : Z) (s : Subscription) (p : ServicePlan) : run SyncResult :=
  mtry
    (action <- (if bool_decide (sub_status s = ACTIVE) then
                  queue_command (sub_router_id s) "create_user" (create_user_params s p) 3
                    (Some "subscription_sync") (Some (str_of_Z i)) None ;;;
                  mreturn (Some "create_user_queued")
                else if disabled_status (sub_status s) then
                  queue_command (sub_router_id s) "disable_user" (disable_user_params s) 2
                    (Some "subscription_sync") (Some (str_of_Z i)) None ;;;
                  mreturn (Some "disable_user_queued")
                else mreturn None) ;;
     commit ;;;
     mreturn (mkSyncResult true i action None true))
    (fun e =>
       sub_attrs i ;;;
       mreturn (mkSyncResult false i None (Some (Failed e)) true)).

(** ** One subscription *)
Definition sync_direct (i : Z) (s : Subscription) (r : Router) (p : ServicePlan)
    (force_create : bool) : run SyncResult :=
  mfinally
    (res <- (if bool_decide (sub_status s = ACTIVE) then
               a <- ensure_user_on_router r s p force_create ;;
               mreturn (mkSyncResult (fst a) i (Some "create_or_update")
                          (if fst a then None else snd a) false)
             else if disabled_status (sub_status s) then
               a <- disable_user_on_router r s ;;
               mreturn (mkSyncResult (fst a) i (Some "disable") (if fst a then None else snd a) false)
             else mreturn (mkSyncResult false i None None false)) ;;
     now <- utcnow ;;
     set_sub i (fun s => s <| sub_is_router_synced := sr_success res |>
                           <| sub_last_router_sync := Some now |>) ;;;
     commit ;;;
     mreturn res)
    (client_disconnect r).

Definition sync_body (i : Z) (force_create : bool) : run SyncResult :=
  let failed err := mkSyncResult false i None (Some err) false in
  s <- sub_attrs i ;;
  o <- get_router (sub_router_id s) ;;
  match o with
  | None => mreturn (failed (RouterNotFound (sub_router_id s)))
  | Some r =>
      o <- get_plan (sub_plan_id s) ;;
      match o with
      | None => mreturn (failed (PlanNotFound (sub_plan_id s)))
      | Some p =>
          if has_agent r then sync_via_agent_queue i s p
          else
            c <- mattempt (client_connect r) ;;
            match c with
            | Raise e => mreturn (failed (ConnectFailed (rt_ip_address r) e))
            | Ok _ => sync_direct i s r p force_create
            end
      end
  end.

(** [subscription.id] is read before the [try] and again in its [except]. *)
Definition sync_subscription_to_router (i : Z) (force_create : bool) : run SyncResult :=
  sub_attrs i ;;;
  mtry (sync_body i force_create)
    (fun e => sub_attrs i ;;; mreturn (mkSyncResult false i None (Some (Failed e)) false)).

(** ** Batches *)

(** The loop of a batch run; an exception ends it with the counts so far. *)
Fixpoint sync_each (force_create : bool) (acc : BatchResult) (l : list Z) : run BatchResult :=
  match l with
  | [] => mreturn acc
  | i :: l' =>
      let abort (a : BatchResult) e := mreturn (a <| br_errors ::= fun x => x ++ [(None, Some (Failed e))] |>) in
      o <- mattempt (sync_subscription_to_router i force_create) ;;
      match o with
      | Raise e => abort acc e
      | Ok r =>
          if sr_success r then sync_each force_create (acc <| br_success ::= Z.succ |>) l'
          else
            let acc := acc <| br_failed ::= Z.succ |> in
            o <- mattempt (sub_attrs i) ;;
            match o with
            | Raise e => abort acc e
            | Ok _ => sync_each force_create
                        (acc <| br_errors ::= fun x => x ++ [(Some i, sr_error r)] |>) l'
            end
      end
  end.

Definition sync_batch (p : Z -> Subscription -> bool) (limit : option nat) (force_create : bool)
    : run BatchResult :=
  o <- mattempt (select_subs p limit) ;;
  match o with
  | Raise e => mreturn (mkBatch 0 0 0 [(None, Some (Failed e))])
  | Ok ids => sync_each force_create (mkBatch (Z.of_nat (length ids)) 0 0 []) ids
  end.

Definition sync_all_unsynced_subscriptions (limit : nat) : run BatchResult :=
  sync_batch (fun _ s => negb (sub_is_router_synced s) && bool_decide (sub_status s = ACTIVE))
    (Some limit) false.

Definition sync_router_subscriptions (router_id : Z) : run BatchResult :=
  sync_batch (fun _ s => (sub_router_id s =? router_id) && bool_decide (sub_status s = ACTIVE))
    None true.
End RouterSync.

(** ** The contract of a synchronisation

    What the services that change subscriptions rely on: with a session in
    good order and the instance loaded, the call returns, keeps the session in
    good order, and changes nothing but the subscription's two
    synchronisation columns and the command queue. *)
Definition same_but_sync (s s' : Subscription) : Prop :=
  s' = s <| sub_is_router_synced := sub_is_router_synced s' |>
         <| sub_last_router_sync := sub_last_router_sync s' |>.

Definition sync_frame (i : Z) (db db' : DB) : Prop :=
  db' = db <| t_subs := t_subs db' |> <| t_commands := t_commands db' |> /\
  exists g, (forall s, same_but_sync s (g s)) /\ t_subs db' = alter g i (t_subs db).

Record sync_outcome {ros : RouterOS} (i : Z) (w : World) (w' : World) : Prop := {
  sync_good : good w';
  sync_now : w_now w' = w_now w;
  sync_loaded : w_loaded w' = w_loaded w;
  sync_framed : sync_frame i (w_view w) (w_view w');
  sync_durable : w_durable w' = w_view w' \/
                 (w_view w' = w_view w /\ w_durable w' = w_durable w)
}.

Class SyncService {ros : RouterOS} := {
  sync_subscription : Z -> bool -> run SyncResult;
  sync_spec : forall i force w, good w -> i ∈ w_loaded w -> is_Some (t_subs (w_view w) !! i) ->
    exists r w', sync_subscription i force w = (Ok r, w') /\ sync_outcome i w w';
  (** in any session, an invariant of the tables that ignores those columns and
      the command queue survives *)
  sync_preserves : forall (I : DB -> Prop),
    (forall i db db', sync_frame i db db' -> I db -> I db') ->
    forall i force, preserves (db_inv I) (sync_subscription i force)
}.

Lemma same_but_sync_refl s : same_but_sync s s.
Proof. by destruct s. Qed.

Lemma sync_frame_refl i db : sync_frame i db db.
Proof.
  split; [by destruct db|]. exists id. split; [intros s; apply same_but_sync_refl|].
  apply map_eq. intros j. destruct (decide (i = j)) as [->|].
  - rewrite lookup_alter_eq. by destruct (_ !! j).
  - by rewrite lookup_alter_ne.
Qed.

Lemma sync_frame_commands i db m : sync_frame i db (db <| t_commands := m |>).
Proof. destruct (sync_frame_refl i db) as [_ Hg]. split; [by destruct db|done]. Qed.

Lemma sync_outcome_refl {ros : RouterOS} i w : good w -> sync_outcome i w w.
Proof. intros Hg. split; auto using sync_frame_refl. Qed.

(** The fields a synchronisation does not touch. *)
Lemma sync_frame_lookup i db db' j s :
  sync_frame i db db' -> t_subs db !! j = Some s ->
  exists s', t_subs db' !! j = Some s' /\ same_but_sync s s'.
Proof.
  intros (_ & g & Hg & E) Hj. rewrite E. destruct (decide (i = j)) as [->|].
  - rewrite lookup_alter_eq, Hj. simpl. eauto.
  - rewrite lookup_alter_ne by done. eauto using same_but_sync_refl.
Qed.

Section Implementation.
Context {be : Backend} {ros : RouterOS} {cfg : AgentConfig}.

Lemma device_ensure_profile t r name rate p :
  device_only (match t with HOTSPOT => ensure_hotspot_profile_exists r name rate p
                          | PPPOE => ensure_ppp_profile_exists r name rate p end).
Proof.
  destruct t; unfold ensure_hotspot_profile_exists, ensure_ppp_profile_exists; repeat device_step.
Qed.

Lemma device_create_user t r s p rate :
  device_only (match t with HOTSPOT => create_hotspot_user_with_limits r s p rate
                          | PPPOE => create_pppoe_user_with_limits r s p rate end).
Proof.
  destruct t; unfold create_hotspot_user_with_limits, create_pppoe_user_with_limits;
    repeat first [apply (device_ensure_profile HOTSPOT) | apply (device_ensure_profile PPPOE)
                 | device_step].
Qed.

Lemma device_get_user r name t : device_only (get_user_from_router r name t).
Proof. unfold get_user_from_router. repeat device_step. Qed.

Lemma device_iterate o : device_only (iterate o).
Proof. unfold iterate. repeat device_step. Qed.

Lemma device_update_user r s p rate : device_only (update_user_profile r s p rate).
Proof.
  unfold update_user_profile. cbv zeta.
  repeat first [apply device_ensure_profile | apply device_iterate | device_step].
Qed.

Lemma device_ensure_user r s p f : device_only (ensure_user_on_router r s p f).
Proof.
  unfold ensure_user_on_router. cbv zeta.
  repeat first [apply device_get_user | apply device_create_user | apply device_update_user
               | device_step].
Qed.

Lemma device_disconnect r name t : device_only (disconnect_active_session r name t).
Proof. unfold disconnect_active_session. repeat device_step. Qed.

Lemma device_disable_user r s : device_only (disable_user_on_router r s).
Proof.
  unfold disable_user_on_router.
  repeat first [apply device_disconnect | apply device_iterate | device_step].
Qed.

Lemma ensure_user_returns r s p f : never_raises (ensure_user_on_router r s p f).
Proof. apply never_raises_try. auto with monad. Qed.

Lemma disable_user_returns r s : never_raises (disable_user_on_router r s).
Proof. apply never_raises_try. auto with monad. Qed.

(** What the router did in a direct synchronisation. *)
Definition router_run (s : Subscription) (r : Router) (p : ServicePlan) (f : bool)
    : run (bool * option SyncError) :=
  if bool_decide (sub_status s = ACTIVE) then ensure_user_on_router r s p f
  else if disabled_status (sub_status s) then disable_user_on_router r s
  else mreturn (false, None).

Lemma router_run_ok s r p f w :
  exists a w', router_run s r p f w = (Ok a, w') /\
    w' = w <| w_dev := w_dev w' |> <| w_trace := w_trace w' |>.
Proof.
  assert (Hn : never_raises (router_run s r p f)).
  { unfold router_run. repeat case_match;
      auto using ensure_user_returns, disable_user_returns, never_raises_return. }
  assert (Hd : device_only (router_run s r p f)).
  { unfold router_run. repeat case_match;
      auto using device_ensure_user, device_disable_user, device_only_return. }
  destruct (Hn w) as (a & w' & E). specialize (Hd w). rewrite E in Hd. eauto.
Qed.

(** The columns written at the end of a direct synchronisation. *)
Definition record_sync (ok : bool) (now : datetime) (s : Subscription) : Subscription :=
  s <| sub_is_router_synced := ok |> <| sub_last_router_sync := Some now |>.

Definition sync_action (st : SubscriptionStatus) : option string :=
  if bool_decide (st = ACTIVE) then Some "create_or_update"
  else if disabled_status st then Some "disable" else None.

Lemma sync_direct_run i s r p f w a w1 :
  good w -> t_subs (w_view w) !! i = Some s -> router_run s r p f w = (Ok a, w1) ->
  w1 = w <| w_dev := w_dev w1 |> <| w_trace := w_trace w1 |> ->
  exists w', sync_direct i s r p f w =
      (Ok (mkSyncResult (fst a) i (sync_action (sub_status s)) (if fst a then None else snd a) false), w') /\
    sync_outcome i w w' /\ w_durable w' = w_view w' /\ w_trace w' = w_trace w1 /\
    t_subs (w_view w') = alter (record_sync (fst a) (w_now w)) i (t_subs (w_view w)) /\
    t_commands (w_view w') = t_commands (w_view w).
Proof.
  intros Hg Hs Hrun Hw1. set (ok := fst a).
  set (w2 := w1 <| w_view ::= over t_subs (alter (record_sync ok (w_now w)) i) |>).
  assert (Hg1 : good w1) by (rewrite Hw1; destruct Hg; by split).
  assert (Hg2 : good w2).
  { apply good_view_alter; [|done]. intros s0 Hs0.
    split; [|done]. rewrite Hw1 in Hs0. apply (proj1 (good_schema w Hg) _ _ Hs0). }
  exists (w2 <| w_durable := w_view w2 |>).
  assert (Hcommit : commit w2 = (Ok tt, w2 <| w_durable := w_view w2 |>)) by (by apply commit_good).
  assert (Hnow : w_now w1 = w_now w) by (by rewrite Hw1).
  set (res := mkSyncResult ok i (sync_action (sub_status s)) (if ok then None else snd a) false).
  assert (Hres : (if bool_decide (sub_status s = ACTIVE) then
               a <- ensure_user_on_router r s p f ;;
               mreturn (mkSyncResult (fst a) i (Some "create_or_update")
                          (if fst a then None else snd a) false)
             else if disabled_status (sub_status s) then
               a <- disable_user_on_router r s ;;
               mreturn (mkSyncResult (fst a) i (Some "disable") (if fst a then None else snd a) false)
             else mreturn (mkSyncResult false i None None false)) w = (Ok res, w1)).
  { unfold res, sync_action. unfold router_run in Hrun. unfold mthen.
    destruct (bool_decide _); [by rewrite Hrun|].
    destruct (disabled_status _); [by rewrite Hrun|]. injection Hrun as <- <-. done. }
  split.
  { unfold sync_direct, mfinally. rewrite (mthen_ok _ _ _ _ _ Hres).
    rewrite (mthen_ok utcnow _ w1 (w_now w) w1) by (unfold utcnow; by rewrite Hnow).
    rewrite (mthen_ok (set_sub _ _) _ w1 tt w2) by done.
    by rewrite (mthen_ok _ _ _ _ _ Hcommit). }
  assert (Hview : w_view w2 = over t_subs (alter (record_sync ok (w_now w)) i) (w_view w)).
  { unfold w2. simpl. by rewrite Hw1. }
  split_all; [|done|done|exact (f_equal t_subs Hview)|exact (f_equal t_commands Hview)].
  split.
  - by apply good_commit.
  - simpl. by rewrite Hw1.
  - simpl. by rewrite Hw1.
  - change (sync_frame i (w_view w) (w_view w2)). rewrite Hview.
    split; [by destruct (w_view w)|]. by exists (record_sync ok (w_now w)).
  - by left.
Qed.

(** The command that a synchronisation queues for the agent. *)
Definition agent_command (s : Subscription) (p : ServicePlan)
    : option (string * list (string * string) * Z) :=
  if bool_decide (sub_status s = ACTIVE) then Some ("create_user", create_user_params s p, 3)
  else if disabled_status (sub_status s) then Some ("disable_user", disable_user_params s, 2)
  else None.

Definition queued_row (s : Subscription) (i : Z) (now : datetime)
    (c : string * list (string * string) * Z) : RouterCommand :=
  mkCommand (sub_router_id s) (fst (fst c)) (snd (fst c)) (snd c) CMD_PENDING now None None
    (Some (now + timedelta_seconds (agent_command_expiry_hours * 3600))) None 0 3
    (Some "subscription_sync") (Some (str_of_Z i)).

Definition queue_for (s : Subscription) (i : Z) (p : ServicePlan) (now : datetime)
    (m : gmap Z RouterCommand) : gmap Z RouterCommand :=
  match agent_command s p with
  | Some c => <[next_id m := queued_row s i now c]> m
  | None => m
  end.

Lemma queue_command_good r action params prio src sid w :
  good w ->
  let m := t_commands (w_view w) in
  queue_command r action params prio src sid None w =
    (Ok (next_id m), w <| w_view ::= over t_commands (insert (next_id m)
       (mkCommand r action params prio CMD_PENDING (w_now w) None None
         (Some (w_now w + timedelta_seconds (agent_command_expiry_hours * 3600))) None 0 3 src sid)) |>).
Proof.
  intros Hg m. unfold queue_command. rewrite (mthen_ok utcnow _ w (w_now w) w) by done. cbv zeta.
  rewrite (mthen_ok _ _ _ _ _ (query_good _ w (good_broken w Hg))).
  set (w1 := w <| w_view ::= _ |>).
  rewrite (mthen_ok (assign _) _ w tt w1) by done.
  rewrite (mthen_ok _ _ w1 tt w1); [done|]. apply flush_good. by apply good_view.
Qed.

Lemma sync_via_agent_queue_run i s p w :
  good w ->
  exists w', sync_via_agent_queue i s p w =
      (Ok (mkSyncResult true i (option_map (fun c => fst (fst c) +:+ "_queued") (agent_command s p))
             None true), w') /\
    sync_outcome i w w' /\ w_durable w' = w_view w' /\ w_trace w' = w_trace w /\
    w_view w' = (w_view w) <| t_commands ::= queue_for s i p (w_now w) |>.
Proof.
  intros Hg. set (w1 := w <| w_view ::= over t_commands (queue_for s i p (w_now w)) |>).
  assert (Hg1 : good w1) by (by apply good_view).
  exists (w1 <| w_durable := w_view w1 |>). split.
  - unfold sync_via_agent_queue. apply mtry_ok.
    rewrite (mthen_ok _ _ w (option_map (fun c => fst (fst c) +:+ "_queued") (agent_command s p)) w1).
    { by rewrite (mthen_ok _ _ _ _ _ (commit_good w1 Hg1)). }
    unfold w1, queue_for, agent_command.
    destruct (bool_decide _); [|destruct (disabled_status _)].
    + by rewrite (mthen_ok _ _ _ _ _ (queue_command_good _ _ _ _ _ _ w Hg)).
    + by rewrite (mthen_ok _ _ _ _ _ (queue_command_good _ _ _ _ _ _ w Hg)).
    + destruct w as [? [] ? ? ? ? ? ? ?]; done.
  - split_all; [|done..]. split; [by apply good_commit|done|done| |by left].
    apply sync_frame_commands.
Qed.
End Implementation.

Section SyncProperties.
Context {be : Backend} {ros : RouterOS} {cfg : AgentConfig}.

Lemma sync_start i f s w :
  good w -> i ∈ w_loaded w -> t_subs (w_view w) !! i = Some s ->
  sync_subscription_to_router i f w =
  mtry
    (match t_routers (w_view w) !! sub_router_id s with
     | None => mreturn (mkSyncResult false i None (Some (RouterNotFound (sub_router_id s))) false)
     | Some r =>
         match t_plans (w_view w) !! sub_plan_id s with
         | None => mreturn (mkSyncResult false i None (Some (PlanNotFound (sub_plan_id s))) false)
         | Some p =>
             if has_agent r then sync_via_agent_queue i s p
             else
               c <- mattempt (client_connect r) ;;
               match c with
               | Raise e => mreturn (mkSyncResult false i None
                   (Some (ConnectFailed (rt_ip_address r) e)) false)
               | Ok _ => sync_direct i s r p f
               end
         end
     end)
    (fun e => sub_attrs i ;;; mreturn (mkSyncResult false i None (Some (Failed e)) false)) w.
Proof.
  intros Hg Hi Hs. pose proof (good_broken w Hg) as Hb.
  pose proof (sub_attrs_loaded i w s Hi Hs) as Ha.
  unfold sync_subscription_to_router. rewrite (mthen_ok _ _ _ _ _ Ha).
  unfold mtry, sync_body. cbv zeta. rewrite (mthen_ok _ _ _ _ _ Ha).
  unfold get_router, get_plan. rewrite (mthen_ok _ _ _ _ _ (query_good _ w Hb)).
  destruct (t_routers (w_view w) !! sub_router_id s); [|done].
  by rewrite (mthen_ok _ _ _ _ _ (query_good _ w Hb)).
Qed.

Lemma sync_subscription_ok i f w :
  good w -> i ∈ w_loaded w -> is_Some (t_subs (w_view w) !! i) ->
  exists r w', sync_subscription_to_router i f w = (Ok r, w') /\ sync_outcome i w w'.
Proof.
  intros Hg Hi [s Hs]. rewrite (sync_start i f s w Hg Hi Hs). unfold mtry.
  destruct (t_routers (w_view w) !! sub_router_id s) as [r|];
    [|do 2 eexists; split; [reflexivity|by apply sync_outcome_refl]].
  destruct (t_plans (w_view w) !! sub_plan_id s) as [p|];
    [|do 2 eexists; split; [reflexivity|by apply sync_outcome_refl]].
  destruct (has_agent r).
  { destruct (sync_via_agent_queue_run i s p w Hg) as (w' & -> & Ho & _). eauto. }
  destruct (client_connect r w) as [c w1] eqn:Ec.
  rewrite (mthen_ok _ _ _ _ _ (mattempt_run _ _ _ _ Ec)).
  pose proof (device_only_connect r w) as E. rewrite Ec in E. simpl in E.
  assert (Hg1 : good w1) by (rewrite E; destruct Hg; by split).
  destruct c as [[]|e].
  - assert (Hs1 : t_subs (w_view w1) !! i = Some s) by (by rewrite E).
    destruct (router_run_ok s r p f w1) as (a & w2 & Hrun & E2).
    destruct (sync_direct_run i s r p f w1 a w2 Hg1 Hs1 Hrun E2) as (w' & -> & Ho & _).
    do 2 eexists. split; [reflexivity|]. destruct Ho as [H1 H2 H3 H4 H5].
    rewrite E in H2, H3, H4, H5. by split.
  - do 2 eexists. split; [reflexivity|]. rewrite E. rewrite E in Hg1.
    by split; auto using sync_frame_refl.
Qed.

Lemma preserves_device {A} I (m : run A) : device_only m -> preserves (db_inv I) m.
Proof. intros Hm w [Hv Hd]. rewrite (Hm w). by split. Qed.

Lemma sync_subscription_preserves (I : DB -> Prop) :
  (forall i db db', sync_frame i db db' -> I db -> I db') ->
  forall i f, preserves (db_inv I) (sync_subscription_to_router i f).
Proof.
  intros HI i f.
  assert (Hcmd : forall g db, I db -> I (over t_commands g db)).
  { intros g db. apply (HI 0). apply sync_frame_commands. }
  assert (Hset : forall ok now db, I db -> I (over t_subs (alter (record_sync ok now) i) db)).
  { intros ok now db. apply (HI i). split; [by destruct db|]. by exists (record_sync ok now). }
  unfold sync_subscription_to_router, sync_body, sync_via_agent_queue, sync_direct, get_router,
    get_plan, queue_command, set_sub. cbv zeta.
  repeat first
    [ apply preserves_device, device_ensure_user | apply preserves_device, device_disable_user
    | preserve_step ]; intros db Hdb; first [by apply Hcmd | by apply (Hset _ _ db)].
Qed.

#[export] Instance router_sync_service : SyncService := {
  sync_subscription := sync_subscription_to_router;
  sync_spec := sync_subscription_ok;
  sync_preserves := sync_subscription_preserves
}.

(** For a router with an agent, a synchronisation queues and commits
    exactly the command that the subscription's status asks for (create_user
    for ACTIVE, disable_user for EXPIRED, SUSPENDED or CANCELLED, nothing for
    PENDING or INACTIVE), reports success, sends nothing to the router, and
    leaves the subscription's own row as it was, not yet marked as synced. *)
Theorem agent_sync_queues (w : World) (i : Z) (f : bool) (s : Subscription) (r : Router)
    (p : ServicePlan) :
  good w -> i ∈ w_loaded w -> t_subs (w_view w) !! i = Some s ->
  t_routers (w_view w) !! sub_router_id s = Some r -> has_agent r = true ->
  t_plans (w_view w) !! sub_plan_id s = Some p ->
  exists res w', sync_subscription_to_router i f w = (Ok res, w') /\
    sr_success res = true /\ w_trace w' = w_trace w /\
    t_subs (w_durable w') = t_subs (w_view w) /\
    t_commands (w_durable w') =
      match sub_status s with
      | ACTIVE =>
          <[next_id (t_commands (w_view w)) :=
             queued_row s i (w_now w) ("create_user", create_user_params s p, 3)]> (t_commands (w_view w))
      | EXPIRED | SUSPENDED | CANCELLED =>
          <[next_id (t_commands (w_view w)) :=
             queued_row s i (w_now w) ("disable_user", disable_user_params s, 2)]> (t_commands (w_view w))
      | PENDING | INACTIVE => t_commands (w_view w)
      end.
Proof.
  intros Hg Hi Hs Hr Ha Hp. rewrite (sync_start i f s w Hg Hi Hs), Hr, Hp, Ha.
  destruct (sync_via_agent_queue_run i s p w Hg) as (w' & E & Ho & Hd & Ht & Hv).
  do 2 eexists. split; [unfold mtry; by rewrite E|]. split; [done|]. split; [done|].
  rewrite Hd, Hv. simpl. unfold queue_for, agent_command.
  by destruct (sub_status s).
Qed.

(** A direct synchronisation records the router's answer: when the
    connection is accepted, the committed subscription is marked as synced
    exactly when the result is a success, at the time of the call, nothing is
    queued for an agent, and no other column changes. *)
Theorem direct_sync_records (w : World) (i : Z) (f : bool) (s : Subscription) (r : Router)
    (p : ServicePlan) (w1 : World) :
  good w -> i ∈ w_loaded w -> t_subs (w_view w) !! i = Some s ->
  t_routers (w_view w) !! sub_router_id s = Some r -> has_agent r = false ->
  t_plans (w_view w) !! sub_plan_id s = Some p -> client_connect r w = (Ok tt, w1) ->
  exists res w', sync_subscription_to_router i f w = (Ok res, w') /\
    sr_action res = sync_action (sub_status s) /\
    t_subs (w_durable w') = alter (record_sync (sr_success res) (w_now w)) i (t_subs (w_view w)) /\
    t_commands (w_durable w') = t_commands (w_view w).
Proof.
  intros Hg Hi Hs Hr Ha Hp Hc. rewrite (sync_start i f s w Hg Hi Hs), Hr, Hp, Ha.
  pose proof (device_only_connect r w) as E. rewrite Hc in E. simpl in E.
  assert (Hg1 : good w1) by (rewrite E; destruct Hg; by split).
  assert (Hs1 : t_subs (w_view w1) !! i = Some s) by (by rewrite E).
  destruct (router_run_ok s r p f w1) as (a & w2 & Hrun & E2).
  destruct (sync_direct_run i s r p f w1 a w2 Hg1 Hs1 Hrun E2) as (w' & Ed & _ & Hd & _ & Hsub & Hcmd).
  do 2 eexists. split.
  { unfold mtry. rewrite (mthen_ok _ _ _ _ _ (mattempt_run _ _ _ _ Hc)). by rewrite Ed. }
  split; [done|]. rewrite Hd, Hsub, Hcmd, E. done.
Qed.

(** ** The commands sent to a router *)
Definition arg (k : string) (c : RosCommand) : option (option string) :=
  match list_find (fun kv => kv.1 = k) (ros_args c) with
  | Some (_, kv) => Some kv.2
  | None => None
  end.

(** Suspension may only look, end active sessions, and disable users. *)
Definition restricting (t : SubscriptionType) (c : RosCommand) : Prop :=
  match ros_method c with
  | GET => True
  | REMOVE => ros_path c = active_path t
  | SET => ros_path c = user_path t /\ arg "disabled" c = Some (Some "yes")
  | ADD | CALL _ => False
  end.

(** Activation without force never removes anything and never disables. *)
Definition granting (t : SubscriptionType) (c : RosCommand) : Prop :=
  match ros_method c with
  | GET => True
  | REMOVE | CALL _ => False
  | ADD => ros_path c = user_path t \/ ros_path c = profile_path t
  | SET => (ros_path c = user_path t /\ arg "disabled" c = Some (Some "no")) \/
           (ros_path c = profile_path t /\ arg "disabled" c = None)
  end.

Lemma emits_iterate P o : emits P (iterate o).
Proof. unfold iterate. repeat emits_step. Qed.

Lemma disable_restricts r s : emits (restricting (sub_type s)) (disable_user_on_router r s).
Proof.
  unfold disable_user_on_router, disconnect_active_session.
  repeat first [apply emits_iterate | emits_step]; try done; by split.
Qed.

Lemma profile_grants t r name rate p :
  emits (granting t) (match t with HOTSPOT => ensure_hotspot_profile_exists r name rate p
                                 | PPPOE => ensure_ppp_profile_exists r name rate p end).
Proof.
  destruct t; unfold ensure_hotspot_profile_exists, ensure_ppp_profile_exists;
    repeat emits_step; try done; by right.
Qed.

Lemma create_grants t r s p rate :
  emits (granting t) (match t with HOTSPOT => create_hotspot_user_with_limits r s p rate
                                 | PPPOE => create_pppoe_user_with_limits r s p rate end).
Proof.
  destruct t; unfold create_hotspot_user_with_limits, create_pppoe_user_with_limits; cbv zeta;
    repeat first [apply (profile_grants HOTSPOT) | apply (profile_grants PPPOE) | emits_step];
    by left.
Qed.

Lemma ensure_grants r s p : emits (granting (sub_type s)) (ensure_user_on_router r s p false).
Proof.
  unfold ensure_user_on_router, update_user_profile, get_user_from_router. cbv zeta.
  repeat first [apply profile_grants | apply create_grants | apply emits_iterate | emits_step];
    try done; by left.
Qed.


Lemma update_user_returns r s p rate : never_raises (update_user_profile r s p rate).
Proof. apply never_raises_try. auto with monad. Qed.

(** A failed update is recorded as a success: once the router has shown
    that the user exists, an unforced synchronisation of an active
    subscription reports success and marks the committed row as synced
    whatever the router answers to the commands that should update the user,
    errors included. *)
Theorem failed_update_recorded_as_success (w : World) (i : Z) (s : Subscription) (r : Router)
    (p : ServicePlan) (w1 : World) (users : list Entry) (d : Dev) (e : Entry) :
  good w -> i ∈ w_loaded w -> t_subs (w_view w) !! i = Some s -> sub_status s = ACTIVE ->
  t_routers (w_view w) !! sub_router_id s = Some r -> has_agent r = false ->
  t_plans (w_view w) !! sub_plan_id s = Some p -> client_connect r w = (Ok tt, w1) ->
  ros_execute (w_dev w1) (mkRos (rt_ip_address r) (user_path (sub_type s)) GET [])
    = (Ok (Some users), d) ->
  find_entry "name" (sub_username s) users = Some e ->
  exists res w', sync_subscription_to_router i false w = (Ok res, w') /\
    sr_success res = true /\ sr_error res = None /\
    exists s', t_subs (w_durable w') !! i = Some s' /\ sub_is_router_synced s' = true.
Proof.
  intros Hg Hi Hs Hst Hr Ha Hp Hc Hget Hfind.
  rewrite (sync_start i false s w Hg Hi Hs), Hr, Hp, Ha.
  pose proof (device_only_connect r w) as E. rewrite Hc in E. simpl in E.
  assert (Hg1 : good w1) by (rewrite E; destruct Hg; by split).
  assert (Hs1 : t_subs (w_view w1) !! i = Some s) by (by rewrite E).
  assert (Hrun : exists w2, router_run s r p false w1 = (Ok (true, None), w2)).
  { unfold router_run. rewrite Hst. simpl. unfold ensure_user_on_router.
    set (w1' := w1 <| w_dev := d |> <| w_trace ::= fun t => t ++
                  [mkRos (rt_ip_address r) (user_path (sub_type s)) GET []] |>).
    assert (Hex : get_user_from_router r (sub_username s) (sub_type s) w1 = (Ok (Some e), w1')).
    { unfold get_user_from_router, mtry, mthen, execute_command. rewrite Hget. simpl.
      by rewrite Hfind. }
    destruct (update_user_returns r s p (calculate_rate_limit p) w1') as (b & w2 & Hu).
    exists w2. apply mtry_ok. rewrite (mthen_ok _ _ _ _ _ Hex). cbv zeta.
    by rewrite (mthen_ok _ _ _ _ _ Hu). }
  destruct Hrun as (w2 & Hrun).
  destruct (router_run_ok s r p false w1) as (a & w2' & Hrun' & E2).
  rewrite Hrun in Hrun'. injection Hrun' as <- <-.
  destruct (sync_direct_run i s r p false w1 _ w2 Hg1 Hs1 Hrun E2) as (w' & Ed & _ & Hd & _ & Hsub & _).
  do 2 eexists. split.
  { unfold mtry. rewrite (mthen_ok _ _ _ _ _ (mattempt_run _ _ _ _ Hc)). by rewrite Ed. }
  split; [done|]. split; [done|]. rewrite Hd, Hsub. rewrite lookup_alter_eq, Hs1. simpl. eauto.
Qed.

(** ** From the queue back to the subscription *)
Lemma report_success_run (w : World) i sub_id c msg :
  good w -> t_commands (w_view w) !! i = Some c -> no_backup i (w_view w) ->
  cmd_source c = Some "subscription_sync" -> cmd_source_id c = Some (str_of_Z sub_id) -> 0 <= sub_id ->
  exists w', process_command_result i "success" msg w = (Ok tt, w') /\ good w' /\
    t_commands (w_view w') = alter (succeed (w_now w) msg) i (t_commands (w_view w)) /\
    t_subs (w_view w') = alter (record_sync true (w_now w)) sub_id (t_subs (w_view w)).
Proof.
  intros Hg Hi Hn Hsrc Hsid Hpos. destruct (str_of_Z_digits sub_id Hpos) as (_ & _ & Hne).
  unfold process_command_result.
  rewrite (mthen_ok _ _ _ _ _ (query_good _ w (good_broken w Hg))), Hi.
  rewrite (mthen_ok utcnow _ w (w_now w) w) by done. rewrite bool_decide_eq_true_2 by done.
  set (w1 := w <| w_view ::= over t_commands (alter (succeed (w_now w) msg) i) |>).
  rewrite (mthen_ok (set_command _ _) _ w tt w1) by done.
  assert (Hg1 : good w1) by (by apply good_view).
  rewrite Hsid, Hsrc, bool_decide_eq_true_2, bool_decide_eq_false_2 by done.
  change (mwhen (true && negb false)) with (mwhen (S := World) true). unfold mwhen.
  assert (Hsub : exists w2, update_subscription_sync_status (str_of_Z sub_id) true w1 = (Ok tt, w2) /\
    good w2 /\ t_commands (w_view w2) = t_commands (w_view w1) /\
    t_backups (w_view w2) = t_backups (w_view w) /\
    t_subs (w_view w2) = alter (record_sync true (w_now w)) sub_id (t_subs (w_view w))).
  { unfold update_subscription_sync_status. rewrite py_int_str by done.
    destruct (get_sub_good sub_id w1 (good_broken _ Hg1)) as (w2 & Hget & Hw2).
    rewrite (mthen_ok _ _ _ _ _ Hget).
    destruct (t_subs (w_view w1) !! sub_id) as [s0|] eqn:E0.
    - rewrite (mthen_ok utcnow _ w2 (w_now w) w2) by (by subst w2).
      eexists. split; [reflexivity|]. subst w2. split_all; [|done..].
      apply good_view_alter; [|by destruct Hg1]. intros s' Hs'.
      split; [|done]. apply (proj1 (good_schema w1 Hg1) _ _ Hs').
    - exists w2. subst w2. split_all; [done..|]. symmetry. by apply alter_id'. }
  destruct Hsub as (w2 & Hu & Hg2 & Hc2 & Hb2 & Hs2).
  rewrite (mthen_ok _ _ _ _ _ Hu).
  rewrite (mthen_ok _ _ w2 tt w2).
  2:{ apply update_backup_status_none; [by apply good_broken|]. intros j b. rewrite Hb2. apply Hn. }
  destruct (broadcast_run c "success" msg w2) as (w3 & E3 & Hv & _ & Hb & Hf & _).
  exists w3. split; [exact E3|]. split.
  { destruct Hg2. split; rewrite ?Hv, ?Hb, ?Hf; done. }
  by rewrite Hv.
Qed.


(** ** Batches *)
Lemma sync_each_good f l : forall w acc,
  good w -> (forall i, i ∈ l -> i ∈ w_loaded w /\ is_Some (t_subs (w_view w) !! i)) ->
  exists res w', sync_each f acc l w = (Ok res, w') /\ good w' /\
    br_total res = br_total acc /\
    br_success res + br_failed res = br_success acc + br_failed acc + Z.of_nat (length l) /\
    br_failed res - Z.of_nat (length (br_errors res))
      = br_failed acc - Z.of_nat (length (br_errors acc)).
Proof.
  induction l as [|i l IH]; intros w acc Hg Hl.
  { exists acc, w. simpl. split_all; [done..|lia|done]. }
  destruct (Hl i) as [Hi Hs]; [apply list_elem_of_here|].
  destruct (sync_subscription_ok i f w Hg Hi Hs) as (r & w1 & E & Ho).
  destruct Ho as [Hg1 _ Hl1 Hf1 _].
  assert (Hl' : forall j, j ∈ l -> j ∈ w_loaded w1 /\ is_Some (t_subs (w_view w1) !! j)).
  { intros j Hj. destruct (Hl j) as [Hj1 [sj Hj2]]; [by apply list_elem_of_further|].
    rewrite Hl1. split; [done|].
    destruct (sync_frame_lookup _ _ _ _ _ Hf1 Hj2) as (s' & -> & _). eauto. }
  simpl. rewrite (mthen_ok _ _ _ _ _ (mattempt_run _ _ _ _ E)).
  destruct (sr_success r).
  - destruct (IH w1 (acc <| br_success ::= Z.succ |>) Hg1 Hl') as (res & w' & E' & Hg' & H1 & H2 & H3).
    exists res, w'. simpl in *. split_all; [done..|lia|lia].
  - destruct Hs as [s Hs]. destruct (sync_frame_lookup _ _ _ _ _ Hf1 Hs) as (s' & Hs' & _).
    assert (Ha : sub_attrs i w1 = (Ok s', w1)).
    { apply sub_attrs_loaded; [by rewrite Hl1|done]. }
    rewrite (mthen_ok _ _ _ _ _ (mattempt_run _ _ _ _ Ha)).
    edestruct (IH w1) as (res & w' & E' & Hg' & H1 & H2 & H3); [done|done|].
    exists res, w'. split; [exact E'|]. simpl in *. rewrite length_app in H3. simpl in H3.
    split_all; [done..|lia|lia].
Qed.

Lemma select_subs_good p n w :
  good w ->
  exists ids w', select_subs p n w = (Ok ids, w') /\ good w' /\
    w' = w <| w_loaded := w_loaded w' |> /\
    (forall i, i ∈ ids -> i ∈ w_loaded w' /\ exists s, t_subs (w_view w) !! i = Some s /\ p i s = true) /\
    NoDup ids /\
    match n with Some k => length ids = Nat.min k (length (select p (t_subs (w_view w))))
               | None => ids = map fst (select p (t_subs (w_view w))) end.
Proof.
  intros Hg. set (rows := select p (t_subs (w_view w))).
  set (l := match n with Some k => take k rows | None => rows end).
  exists (map fst l), (w <| w_loaded ::= fun s => list_to_set (map fst l) ∪ s |>).
  assert (Hsub : sublist l rows) by (unfold l; destruct n; [apply sublist_take|done]).
  split_all.
  - unfold select_subs. by rewrite (mthen_ok _ _ _ _ _ (query_good _ w (good_broken w Hg))).
  - destruct Hg. by split.
  - by destruct w.
  - intros i Hi. split; [simpl; apply elem_of_union; left; by apply elem_of_list_to_set|].
    apply list_elem_of_fmap in Hi as ([i' s] & -> & Hin). simpl.
    pose proof (elem_of_sublist _ _ _ Hin Hsub) as Hin'. apply elem_of_select in Hin'. eauto.
  - eapply sublist_NoDup; [apply (select_keys_nodup p (t_subs (w_view w)))|]. by apply fmap_sublist.
  - unfold l. destruct n; [|done]. by rewrite length_map, length_take.
Qed.

(** A batch accounts for every subscription it selects: in a session in
    good order the run returns, its total is the number of unsynced active
    subscriptions up to the limit, every one of them is counted once as a
    success or as a failure, and each failure has its entry in the errors. *)
Theorem batch_accounts_for_all (w : World) (limit : nat) :
  good w ->
  exists res w', sync_all_unsynced_subscriptions limit w = (Ok res, w') /\ good w' /\
    br_total res = Z.of_nat (Nat.min limit (length (select (fun _ s =>
       negb (sub_is_router_synced s) && bool_decide (sub_status s = ACTIVE)) (t_subs (w_view w))))) /\
    br_success res + br_failed res = br_total res /\
    Z.of_nat (length (br_errors res)) = br_failed res.
Proof.
  intros Hg. unfold sync_all_unsynced_subscriptions, sync_batch.
  destruct (select_subs_good (fun _ s => negb (sub_is_router_synced s)
              && bool_decide (sub_status s = ACTIVE)) (Some limit) w Hg)
    as (ids & w1 & E & Hg1 & Hw1 & Hids & _ & Hlen).
  rewrite (mthen_ok _ _ _ _ _ (mattempt_run _ _ _ _ E)).
  destruct (sync_each_good false ids w1 (mkBatch (Z.of_nat (length ids)) 0 0 []) Hg1)
    as (res & w' & E' & Hg' & H1 & H2 & H3).
  { intros i Hi. destruct (Hids i Hi) as (Hl & s & Hs & _). rewrite Hw1 in *. simpl in *. eauto. }
  exists res, w'. simpl in *. rewrite <- Hlen. split_all; [done..|lia|lia].
Qed.
End SyncProperties.

(** ** Concrete runs *)

(** A router that accepts connections and answers from a script. *)
#[export] Instance scripted_router : RouterOS := {
  Dev := list (outcome (option (list Entry)));
  ros_connect d r := (Ok tt, d);
  ros_execute d c := match d with a :: d' => (a, d') | [] => (Raise (ExternalServiceError "timeout"), []) end;
  ros_active d r := match d with Ok (Some l) :: d' => (l, d') | _ => ([], d) end
}.

Definition sample_sub (st : SubscriptionStatus) : Subscription :=
  mkSubscription (Some 1) 5 3 7 HOTSPOT st "C001" "pw" (Some 0) (Some 1000) false 0 0 0 0 0 None
    false None None None.

Definition sample_plan : ServicePlan :=
  mkServicePlan (Some 1) "Daily" PT_HOTSPOT PLAN_ACTIVE (units 100) "KES" DAILY 5 5 (-1) 0 1 None 1
    false 0 false None None None None 0.

Definition agent_db (st : SubscriptionStatus) : DB :=
  empty_db <| t_subs := {[42 := sample_sub st]} |> <| t_plans := {[3 := sample_plan]} |>
           <| t_routers := {[7 := sample_router]} |>.

Definition direct_db (st : SubscriptionStatus) : DB :=
  (agent_db st) <| t_routers := {[7 := sample_router <| rt_agent_token := None |>]} |>.

Definition scripted (db : DB) (answers : list (outcome (option (list Entry)))) : @World scripted_router :=
  (@start scripted_router 500 db answers) <| w_loaded := {[42]} |>.

Lemma scripted_good db answers :
  bool_decide (schema_ok db) = true -> good (scripted db answers).
Proof. intros H. split; [done..|]. by apply bool_decide_eq_true_1 in H. Qed.

Lemma agent_sync_queues_witness :
  exists res w', sync_subscription_to_router 42 false (scripted (agent_db SUSPENDED) []) = (Ok res, w') /\
    sr_success res = true /\ (cmd_action <$> t_commands (w_durable w') !! 1) = Some "disable_user".
Proof.
  destruct (agent_sync_queues (scripted (agent_db SUSPENDED) []) 42 false (sample_sub SUSPENDED)
              sample_router sample_plan) as (res & w' & E & Hs & _ & _ & Hc).
  - apply scripted_good. vm_compute. reflexivity.
  - apply elem_of_singleton. reflexivity.
  - reflexivity.
  - reflexivity.
  - reflexivity.
  - reflexivity.
  - exists res, w'. split; [exact E|]. split; [exact Hs|]. rewrite Hc. reflexivity.
Defined.

Lemma direct_sync_records_witness :
  exists res w', sync_subscription_to_router 42 false (scripted (direct_db ACTIVE) []) = (Ok res, w') /\
    (sub_last_router_sync <$> t_subs (w_durable w') !! 42) = Some (Some 500).
Proof.
  destruct (direct_sync_records (scripted (direct_db ACTIVE) []) 42 false (sample_sub ACTIVE)
              (sample_router <| rt_agent_token := None |>) sample_plan
              (scripted (direct_db ACTIVE) [])) as (res & w' & E & _ & Hs & _).
  - apply scripted_good. vm_compute. reflexivity.
  - apply elem_of_singleton. reflexivity.
  - reflexivity.
  - reflexivity.
  - reflexivity.
  - reflexivity.
  - reflexivity.
  - exists res, w'. split; [exact E|]. rewrite Hs. reflexivity.
Defined.

Definition known_user : Entry := {["name" := "C001"; ".id" := "*1"]}.


Lemma failed_update_recorded_as_success_witness :
  exists res w', sync_subscription_to_router 42 false
      (scripted (direct_db ACTIVE) [Ok (Some [known_user])]) = (Ok res, w') /\ sr_success res = true.
Proof.
  destruct (failed_update_recorded_as_success (scripted (direct_db ACTIVE) [Ok (Some [known_user])]) 42
              (sample_sub ACTIVE) (sample_router <| rt_agent_token := None |>) sample_plan
              (scripted (direct_db ACTIVE) [Ok (Some [known_user])]) [known_user] [] known_user)
    as (res & w' & E & Hs & _).
  - apply scripted_good. vm_compute. reflexivity.
  - apply elem_of_singleton. reflexivity.
  - reflexivity.
  - reflexivity.
  - reflexivity.
  - reflexivity.
  - reflexivity.
  - reflexivity.
  - reflexivity.
  - reflexivity.
  - exists res, w'. split; [exact E|exact Hs].
Defined.


Lemma batch_accounts_for_all_witness :
  exists res w', sync_all_unsynced_subscriptions 100 (scripted (direct_db ACTIVE) []) = (Ok res, w') /\
    br_total res = 1 /\ br_success res + br_failed res = 1.
Proof.
  destruct (batch_accounts_for_all (scripted (direct_db ACTIVE) []) 100) as (res & w' & E & _ & Ht & Hsum & _).
  - apply scripted_good. vm_compute. reflexivity.
  - exists res, w'. split; [exact E|].
    assert (H1 : br_total res = 1) by (rewrite Ht; vm_compute; reflexivity).
    split; [exact H1|]. rewrite Hsum. exact H1.
Defined.
