(* ===== verification/Subscriptions.v ===== *)
(** * The subscription service

    [SubscriptionService] of [src/app/modules/subscriptions/service.py] over
    the [subscriptions], [subscription_history] and
    [subscription_usage_logs] tables, with the computed properties of
    [src/app/models/subscription.py] and the pagination parameters of
    [src/app/api/deps.py]. The router synchronisation is the interface
    [SyncService]. *)

From stdpp Require Import sorting.
From S2P Require Import Prelude PyString Numerics Calendar Models Session Plan AgentQueue RouterSync.

(** ** Computed properties of a subscription *)
Definition is_active (now : datetime) (s : Subscription) : bool :=
  bool_decide (sub_status s = ACTIVE)
  && match sub_end_date s with Some e => now <? e | None => false end.

Definition is_expired (now : datetime) (s : Subscription) : bool :=
  match sub_end_date s with Some e => e <=? now | None => false end.

(** [total / (1024 ** 3)] *)
Definition total_data_used_gb (s : Subscription) : float :=
  float_of_ratio (sub_total_bytes_used s) (1024 ^ 3).

(** ** Pagination *)
Record PaginationParams : Type := mkPagination {
  pg_page : Z;
  pg_size : Z;
  pg_offset : Z
}.

Definition pagination_params (page size max_size : Z) : PaginationParams :=
  let page := if page <? 1 then 1 else page in
  let size := if size <? 1 then 20 else size in
  let size := if max_size <? size then max_size else size in
  mkPagination page size ((page - 1) * size).

Record Page (A : Type) : Type := mkPage {
  page_items : list A;
  page_total : Z;
  page_page : Z;
  page_size : Z;
  page_pages : Z
}.
Arguments mkPage {A}.
Arguments page_items {A}.
Arguments page_total {A}.
Arguments page_page {A}.
Arguments page_size {A}.
Arguments page_pages {A}.

(** [query.offset(...).limit(...)] over the rows in their order. *)
Definition paginate {A} (pg : PaginationParams) (rows : list A) : Page A :=
  let total := Z.of_nat (length rows) in
  mkPage (take (Z.to_nat (pg_size pg)) (drop (Z.to_nat (pg_offset pg)) rows)) total
    (pg_page pg) (pg_size pg) ((total + pg_size pg - 1) / pg_size pg).

(** ** Filters; a filter that is [None] or zero is not applied *)
Definition given (o : option Z) : option Z :=
  match o with Some 0 => None | _ => o end.

Definition matches {A} (o : option A) (p : A -> bool) : bool :=
  match o with Some a => p a | None => true end.

Record SubscriptionFilter : Type := mkFilter {
  flt_user_id : option Z;
  flt_plan_id : option Z;
  flt_router_id : option Z;
  flt_status : option SubscriptionStatus;
  flt_type : option SubscriptionType;
  flt_search : option string;
  flt_organization_id : option Z
}.

(** Newest first. *)
Definition newer (a b : Z * Subscription) : Prop := sub_created_at b.2 <= sub_created_at a.2.

#[export] Instance newer_dec : RelDecision newer.
Proof. intros a b. unfold newer. apply _. Defined.
#[export] Instance newer_total : Total newer.
Proof. intros a b. unfold newer. lia. Qed.
#[export] Instance newer_trans : Transitive newer.
Proof. intros a b c. unfold newer. lia. Qed.

Definition newer_log (a b : SubscriptionUsageLog) : Prop := log_date b <= log_date a.
#[export] Instance newer_log_dec : RelDecision newer_log.
Proof. intros a b. unfold newer_log. apply _. Defined.

(** The dictionary given to [update_subscription]: the keys present, in order;
    [None] is a key present with Python's [None]. *)
Inductive FieldUpdate : Type :=
  | UPlan (v : option Z)
  | URouter (v : option Z)
  | UType (v : option SubscriptionType)
  | UStatus (v : option SubscriptionStatus)
  | UUsername (v : option string)
  | UPassword (v : option string)
  | UStart (v : option datetime)
  | UEnd (v : option datetime)
  | UAutoRenewal (v : option bool)
  | UNotes (v : option string)
  (** a key that names no attribute of the model *)
  | UUnknown (key : string).

Definition set_field (u : FieldUpdate) (s : Subscription) : Subscription :=
  match u with
  | UPlan (Some v) => s <| sub_plan_id := v |>
  | URouter (Some v) => s <| sub_router_id := v |>
  | UType (Some v) => s <| sub_type := v |>
  | UStatus (Some v) => s <| sub_status := v |>
  | UUsername (Some v) => s <| sub_username := v |>
  | UPassword (Some v) => s <| sub_password := v |>
  | UStart (Some v) => s <| sub_start_date := Some v |>
  | UEnd (Some v) => s <| sub_end_date := Some v |>
  | UAutoRenewal (Some v) => s <| sub_is_auto_renewal := v |>
  | UNotes (Some v) => s <| sub_notes := Some v |>
  | _ => s
  end.

(** [update_data.get('status')]: a later key of the same name wins. *)
Fixpoint status_in (l : list FieldUpdate) : option (option SubscriptionStatus) :=
  match l with
  | [] => None
  | UStatus v :: l' => match status_in l' with Some w => Some w | None => Some v end
  | _ :: l' => status_in l'
  end.

Definition status_changing (l : list FieldUpdate) (old : SubscriptionStatus) : bool :=
  match status_in l with
  | Some v => negb (bool_decide (v = Some old))
  | None => false
  end.

Definition or_no_reason (o : option string) : string :=
  match o with
  | Some r => if bool_decide (r = "") then "No reason provided" else r
  | None => "No reason provided"
  end.

(** The row of a new subscription. *)
Definition new_subscription (now : datetime) (user_id plan_id router_id : Z) (t : SubscriptionType)
    (username password : string) (start_date end_date : datetime) (auto : bool)
    (created_by : option Z) (notes : option string) : Subscription :=
  mkSubscription None user_id plan_id router_id t PENDING username password (Some start_date)
    (Some end_date) auto now 0 0 0 0 None false None notes created_by.

Definition record_usage (up down : Z) (now : datetime) (s : Subscription) : Subscription :=
  s <| sub_bytes_uploaded ::= fun b => b + up |> <| sub_bytes_downloaded ::= fun b => b + down |>
    <| sub_total_bytes_used ::= fun b => b + (up + down) |> <| sub_session_count ::= Z.succ |>
    <| sub_last_activity := Some now |>.

Definition change_status (st : SubscriptionStatus) (s : Subscription) : Subscription :=
  s <| sub_status := st |> <| sub_is_router_synced := false |>.

Record SubscriptionStats : Type := mkStats {
  st_subscription_id : Z;
  st_username : string;
  st_status : string;
  st_total_bytes_used : Z;
  st_total_data_used_gb : float;
  st_session_count : Z;
  st_monthly_uploaded : Z;
  st_monthly_downloaded : Z;
  st_last_activity : option datetime;
  st_start_date : option datetime;
  st_end_date : option datetime;
  st_is_active : bool;
  st_is_expired : bool
}.

Definition sum_Z (l : list Z) : Z := foldr Z.add 0 l.

(** [func.sum(...)] over the logs of one subscription since an instant. *)
Definition usage_since (i : Z) (since : datetime) (field : SubscriptionUsageLog -> Z)
    (logs : list SubscriptionUsageLog) : Z :=
  sum_Z (map field (filter (fun l => log_subscription_id l = i /\ since <= log_date l) logs)).

(** ** The service *)
Section Service.
Context {be : Backend} {ros : RouterOS} {sv : SyncService}.
(** [SubscriptionService(db, auto_sync_router)] *)
Variable auto_sync_router : bool.

Inductive SyncReply : Type :=
  | Skipped
  | Synced (r : SyncResult)
  | SyncRaised (e : exn).

(** Both log lines read [subscription.id]. *)
Definition sync_to_router (i : Z) : run SyncReply :=
  if negb auto_sync_router then mreturn Skipped
  else
    mtry (r <- sync_subscription i false ;; sub_attrs i ;;; mreturn (Synced r))
      (fun e => sub_attrs i ;;; mreturn (SyncRaised e)).

(** [db.refresh(subscription)] *)
Definition refresh_sub (i : Z) : run unit :=
  o <- get_sub i ;;
  match o with Some _ => mreturn tt | None => mraise (AttributeError "could not refresh instance") end.

Definition log_subscription_action (i : Z) (action details : string) (user_id : option Z) : run unit :=
  assign (over t_history (fun h => h ++ [mkHistory i action None None details user_id None])) ;;;
  commit.

Definition get_by_id (i : Z) : run (option Subscription) := get_sub i.

Definition matching (f : SubscriptionFilter) (users : gmap Z User) (i : Z) (s : Subscription) : bool :=
  matches (given (flt_organization_id f)) (fun o =>
    match users !! sub_user_id s with
    | Some u => bool_decide (usr_organization_id u = Some o)
    | None => false
    end)
  && matches (given (flt_user_id f)) (Z.eqb (sub_user_id s))
  && matches (given (flt_plan_id f)) (Z.eqb (sub_plan_id s))
  && matches (given (flt_router_id f)) (Z.eqb (sub_router_id s))
  && matches (flt_status f) (fun st => bool_decide (sub_status s = st))
  && matches (flt_type f) (fun t => bool_decide (sub_type s = t))
  && match flt_search f with
     | Some p => bool_decide (p = "") || ilike (sub_username s) ("%" +:+ p +:+ "%")
     | None => true
     end.

Definition listing (f : SubscriptionFilter) (db : DB) : list (Z * Subscription) :=
  merge_sort newer (select (matching f (t_users db)) (t_subs db)).

Definition get_all (pg : PaginationParams) (f : SubscriptionFilter) : run (Page (Z * Subscription)) :=
  query (fun db => paginate pg (listing f db)).

Definition create_subscription (user_id plan_id router_id : Z) (t : SubscriptionType)
    (username password : string) (start_date end_date : datetime) (is_auto_renewal : bool)
    (created_by : option Z) (notes : option string) : run Z :=
  user <- query (fun db => t_users db !! user_id) ;;
  match user with
  | None => mraise (ValueError "User not found")
  | Some u =>
      plan <- query (fun db => t_plans db !! plan_id) ;;
      match plan with
      | None => mraise (ValueError "Service plan not found")
      | Some _ =>
          router <- query (fun db => t_routers db !! router_id) ;;
          match router with
          | None => mraise (ValueError "Router not found")
          | Some _ =>
              rows <- query (fun db => select (fun _ s =>
                (sub_user_id s =? user_id) && (sub_router_id s =? router_id)
                && bool_decide (sub_type s = t)) (t_subs db)) ;;
              existing <- scalar_one_or_none rows ;;
              match existing with
              | Some _ => mraise (ValueError "User already has a subscription on this router")
              | None =>
                  now <- utcnow ;;
                  i <- query (fun db => next_id (t_subs db)) ;;
                  assign (over t_subs (insert i
                    (new_subscription now user_id plan_id router_id t username password
                       start_date end_date is_auto_renewal created_by notes))) ;;;
                  commit ;;;
                  refresh_sub i ;;;
                  log_subscription_action i "created"
                    ("Subscription created for user " +:+ usr_username u) created_by ;;;
                  mreturn i
              end
          end
      end
  end.

Definition update_subscription (i : Z) (update_data : list FieldUpdate) (updated_by : option Z)
    : run (option Z) :=
  o <- get_by_id i ;;
  match o with
  | None => mreturn None
  | Some s =>
      let old_status := sub_status s in
      set_sub i (fun s => foldl (fun s u => set_field u s) s update_data) ;;;
      mwhen (status_changing update_data old_status)
        (set_sub i (fun s => s <| sub_is_router_synced := false |>)) ;;;
      commit ;;;
      refresh_sub i ;;;
      s' <- sub_attrs i ;;
      mwhen (negb (bool_decide (sub_status s' = old_status)))
        (log_subscription_action i "status_changed"
           ("Status changed from " +:+ status_value old_status +:+ " to " +:+ status_value (sub_status s'))
           updated_by ;;;
         sync_to_router i ;;;
         mreturn tt) ;;;
      mreturn (Some i)
  end.

Definition activate_subscription (i : Z) (activated_by : option Z) : run (option Z) :=
  o <- get_by_id i ;;
  match o with
  | None => mreturn None
  | Some _ =>
      set_sub i (change_status ACTIVE) ;;;
      commit ;;;
      refresh_sub i ;;;
      log_subscription_action i "activated" "Subscription activated" activated_by ;;;
      sync_to_router i ;;;
      mreturn (Some i)
  end.

Definition suspend_subscription (i : Z) (suspended_by : option Z) (reason : option string)
    : run (option Z) :=
  o <- get_by_id i ;;
  match o with
  | None => mreturn None
  | Some _ =>
      set_sub i (change_status SUSPENDED) ;;;
      commit ;;;
      refresh_sub i ;;;
      log_subscription_action i "suspended"
        ("Subscription suspended. Reason: " +:+ or_no_reason reason) suspended_by ;;;
      sync_to_router i ;;;
      mreturn (Some i)
  end.

Definition cancel_subscription (i : Z) (cancelled_by : option Z) (reason : option string)
    : run (option Z) :=
  o <- get_by_id i ;;
  match o with
  | None => mreturn None
  | Some _ =>
      set_sub i (change_status CANCELLED) ;;;
      commit ;;;
      refresh_sub i ;;;
      log_subscription_action i "cancelled"
        ("Subscription cancelled. Reason: " +:+ or_no_reason reason) cancelled_by ;;;
      sync_to_router i ;;;
      mreturn (Some i)
  end.

(** The soft delete neither clears [is_router_synced] nor synchronises. *)
Definition delete_subscription (i : Z) (deleted_by : option Z) : run bool :=
  o <- get_by_id i ;;
  match o with
  | None => mreturn false
  | Some _ =>
      set_sub i (fun s => s <| sub_status := CANCELLED |>) ;;;
      commit ;;;
      log_subscription_action i "deleted" "Subscription deleted" deleted_by ;;;
      mreturn true
  end.

Definition get_user_subscriptions (user_id : Z) (active_only : bool) : run (list (Z * Subscription)) :=
  query (fun db => merge_sort newer (select (fun _ s =>
    (sub_user_id s =? user_id) && (negb active_only || bool_decide (sub_status s = ACTIVE)))
    (t_subs db))).

Definition get_expired_subscriptions : run (list (Z * Subscription)) :=
  now <- utcnow ;;
  query (fun db => select (fun _ s =>
    match sub_end_date s with Some e => e <? now | None => false end
    && bool_decide (sub_status s ∈ [ACTIVE; PENDING])) (t_subs db)).

Definition get_expiring_subscriptions (days : Z) : run (list (Z * Subscription)) :=
  now <- utcnow ;;
  query (fun db => select (fun _ s =>
    match sub_end_date s with
    | Some e => (e <=? now + timedelta_days days) && (now <? e)
    | None => false
    end && bool_decide (sub_status s = ACTIVE)) (t_subs db)).

Definition renew_subscription (i : Z) (new_end_date : datetime) (renewed_by : option Z)
    : run (option Z) :=
  o <- get_by_id i ;;
  match o with
  | None => mreturn None
  | Some s =>
      set_sub i (fun s => (change_status ACTIVE s) <| sub_end_date := Some new_end_date |>) ;;;
      commit ;;;
      refresh_sub i ;;;
      log_subscription_action i "renewed"
        ("Subscription renewed from " +:+ str_of_datetime_opt (sub_end_date s) +:+ " to "
         +:+ str_of_datetime new_end_date) renewed_by ;;;
      (if bool_decide (sub_status s = ACTIVE) then mreturn tt
       else sync_to_router i ;;; mreturn tt) ;;;
      mreturn (Some i)
  end.

Definition update_usage (i : Z) (bytes_uploaded bytes_downloaded session_duration : Z)
    (ip_address mac_address : option string) : run bool :=
  o <- get_by_id i ;;
  match o with
  | None => mreturn false
  | Some _ =>
      now <- utcnow ;;
      set_sub i (record_usage bytes_uploaded bytes_downloaded now) ;;;
      assign (over t_usage (fun l => l ++ [mkUsageLog i now bytes_uploaded bytes_downloaded
                                             session_duration ip_address mac_address])) ;;;
      commit ;;;
      mreturn true
  end.

Definition get_usage_logs (i : Z) (limit : nat) : run (list SubscriptionUsageLog) :=
  query (fun db => take limit (merge_sort newer_log
    (filter (fun l => log_subscription_id l = i) (t_usage db)))).

(** [SubscriptionHistory] declares no [created_at] column. *)
Definition get_subscription_history (i : Z) : run (list SubscriptionHistory) :=
  mraise (AttributeError "type object 'SubscriptionHistory' has no attribute 'created_at'").

Definition get_subscription_stats (i : Z) : run (option SubscriptionStats) :=
  o <- get_by_id i ;;
  match o with
  | None => mreturn None
  | Some _ =>
      now <- utcnow ;;
      let since := now - timedelta_days 30 in
      up <- query (fun db => usage_since i since log_bytes_uploaded (t_usage db)) ;;
      down <- query (fun db => usage_since i since log_bytes_downloaded (t_usage db)) ;;
      s <- sub_attrs i ;;
      mreturn (Some (mkStats i (sub_username s) (status_value (sub_status s)) (sub_total_bytes_used s)
        (total_data_used_gb s) (sub_session_count s) up down (sub_last_activity s)
        (sub_start_date s) (sub_end_date s) (is_active now s) (is_expired now s)))
  end.
End Service.

(** ** Runs in a session in good order *)
Section Runs.
Context {be : Backend} {ros : RouterOS} {sv : SyncService}.

(** A change of a row that keeps its checks and its natural key. *)
Definition keeps_key (f : Subscription -> Subscription) : Prop :=
  forall s, sub_row_ok s = true ->
    sub_row_ok (f s) = true /\ sub_user_id (f s) = sub_user_id s /\
    sub_router_id (f s) = sub_router_id s /\ sub_type (f s) = sub_type s.

Lemma keeps_key_status st : keeps_key (change_status st).
Proof. intros s Hs. by split. Qed.

Lemma good_set_sub i f w : keeps_key f -> good w -> good (w <| w_view ::= over t_subs (alter f i) |>).
Proof.
  intros Hf Hg. apply good_view_alter; [|done]. intros s Hs. apply Hf.
  apply (proj1 (good_schema w Hg) _ _ Hs).
Qed.

Lemma refresh_sub_good i w s :
  good w -> t_subs (w_view w) !! i = Some s ->
  refresh_sub i w = (Ok tt, w <| w_loaded ::= union (list_to_set [i]) |>).
Proof.
  intros Hg Hs. unfold refresh_sub.
  destruct (get_sub_good i w (good_broken w Hg)) as (w' & E & Hw'). rewrite Hs in E, Hw'. subst w'.
  by rewrite (mthen_ok _ _ _ _ _ E).
Qed.

Definition with_history (h : SubscriptionHistory) (db : DB) : DB :=
  over t_history (fun l => l ++ [h]) db.

Lemma log_action_good i action details by_id w :
  good w ->
  log_subscription_action i action details by_id w =
    (Ok tt, let db := with_history (mkHistory i action None None details by_id None) (w_view w) in
            w <| w_view := db |> <| w_durable := db |>).
Proof.
  intros Hg. unfold log_subscription_action.
  set (w1 := w <| w_view ::= over t_history (fun h => h ++ [mkHistory i action None None details by_id None]) |>).
  rewrite (mthen_ok (assign _) _ w tt w1) by done. rewrite commit_good; [done|]. by apply good_view.
Qed.

Lemma sync_to_router_good auto i w :
  good w -> i ∈ w_loaded w -> is_Some (t_subs (w_view w) !! i) ->
  exists r w', sync_to_router auto i w = (Ok r, w') /\ sync_outcome i w w' /\
    (auto = false -> w' = w).
Proof.
  intros Hg Hi [s Hs]. unfold sync_to_router. destruct auto; simpl.
  2:{ exists Skipped, w. split; [done|]. split; [by apply sync_outcome_refl|done]. }
  destruct (sync_spec i false w Hg Hi) as (r & w' & E & Ho); [eauto|].
  exists (Synced r), w'. split; [|done]. apply mtry_ok. rewrite (mthen_ok _ _ _ _ _ E).
  destruct Ho as [Hg' _ Hl Hf _]. destruct (sync_frame_lookup _ _ _ _ _ Hf Hs) as (s' & Hs' & _).
  rewrite (mthen_ok _ _ w' s' w'); [done|].
  apply sub_attrs_loaded; [by rewrite Hl|done].
Qed.

(** The common tail of the operations that change a status. *)
Definition after_change (auto : bool) (i : Z) (f : Subscription -> Subscription)
    (action details : string) (by_id : option Z) (sync : bool) : run (option Z) :=
  set_sub i f ;;;
  commit ;;;
  refresh_sub i ;;;
  log_subscription_action i action details by_id ;;;
  (if sync then sync_to_router auto i ;;; mreturn (Some i) else mreturn (Some i)).

(** What it leaves: one row changed as said (its synchronisation columns
    apart), one history entry, everything committed, the rest untouched. *)
Record changed (i : Z) (f : Subscription -> Subscription) (h : SubscriptionHistory)
    (w w' : World) : Prop := {
  chg_good : good w';
  chg_durable : w_durable w' = w_view w';
  chg_history : t_history (w_durable w') = t_history (w_view w) ++ [h];
  chg_row : forall s, t_subs (w_view w) !! i = Some s ->
    exists s', t_subs (w_durable w') !! i = Some s' /\ same_but_sync (f s) s';
  chg_others : forall j, j <> i -> t_subs (w_durable w') !! j = t_subs (w_view w) !! j;
  chg_usage : t_usage (w_durable w') = t_usage (w_view w)
}.

Lemma after_change_run auto i f action details by_id sync w s :
  keeps_key f -> good w -> t_subs (w_view w) !! i = Some s ->
  exists w', after_change auto i f action details by_id sync w = (Ok (Some i), w') /\
    changed i f (mkHistory i action None None details by_id None) w w' /\
    (sync = false -> t_subs (w_view w') = alter f i (t_subs (w_view w)) /\
       t_commands (w_view w') = t_commands (w_view w) /\ w_trace w' = w_trace w).
Proof.
  intros Hf Hg Hs. set (h := mkHistory i action None None details by_id None).
  set (w1 := w <| w_view ::= over t_subs (alter f i) |>).
  assert (Hg1 : good w1) by (by apply good_set_sub).
  set (w2 := w1 <| w_durable := w_view w1 |>).
  assert (Hg2 : good w2) by (by apply good_commit).
  assert (Hs2 : t_subs (w_view w2) !! i = Some (f s)) by (simpl; by rewrite lookup_alter_eq, Hs).
  set (w3 := w2 <| w_loaded ::= union (list_to_set [i]) |>).
  assert (Hg3 : good w3) by (destruct Hg2; by split).
  set (w4 := w3 <| w_view ::= with_history h |> <| w_durable := with_history h (w_view w3) |>).
  assert (Hg4 : good w4) by (destruct Hg3; by split).
  assert (E4 : forall k : run (option Z), (set_sub i f ;;; commit ;;; refresh_sub i ;;;
      log_subscription_action i action details by_id ;;; k) w = k w4).
  { intros k. rewrite (mthen_ok (set_sub i f) _ w tt w1) by done.
    rewrite (mthen_ok _ _ _ _ _ (commit_good w1 Hg1)).
    rewrite (mthen_ok _ _ _ _ _ (refresh_sub_good i w2 _ Hg2 Hs2)).
    by rewrite (mthen_ok _ _ _ _ _ (log_action_good i action details by_id w3 Hg3)). }
  unfold after_change. rewrite E4. destruct sync.
  2:{ exists w4. split; [done|]. split; [|done]. split; simpl; try done.
      - intros s' Hs'. rewrite lookup_alter_eq, Hs'. simpl. eauto using same_but_sync_refl.
      - intros j Hj. by rewrite lookup_alter_ne. }
  destruct (sync_to_router_good auto i w4 Hg4) as (r & w5 & E5 & [Hg5 _ _ Hfr Hd] & _).
  - simpl. set_solver.
  - eauto.
  - exists w5. split; [by rewrite (mthen_ok _ _ _ _ _ E5)|]. split; [|done].
    assert (Hdur : w_durable w5 = w_view w5) by (destruct Hd as [Hd|[Hv Hd]]; [done|by rewrite Hv, Hd]).
    assert (Hframe := Hfr). destruct Hframe as [Heq (g & Hg' & Hsubs)].
    split; [done|done|by rewrite Hdur, Heq| | |by rewrite Hdur, Heq]; rewrite Hdur.
    + intros s' Hs'. apply (sync_frame_lookup _ _ _ _ _ Hfr). simpl. by rewrite lookup_alter_eq, Hs'.
    + intros j Hj. rewrite Hsubs. rewrite lookup_alter_ne by done. simpl. by rewrite lookup_alter_ne.
Qed.

Lemma get_by_id_loaded i w s :
  good w -> t_subs (w_view w) !! i = Some s ->
  get_by_id i w = (Ok (Some s), w <| w_loaded ::= union (list_to_set [i]) |>).
Proof.
  intros Hg Hs. unfold get_by_id. destruct (get_sub_good i w (good_broken w Hg)) as (w' & E & Hw').
  rewrite Hs in E, Hw'. by subst w'.
Qed.

Lemma good_loaded w g : good w -> good (w <| w_loaded ::= g |>).
Proof. intros []. by split. Qed.

(** Activation, suspension and cancellation do what they say: whatever
    the router answers, they return, commit the new status with one entry in
    the history, mark the row for synchronisation before they synchronise it,
    and change nothing else of the row and no other subscription; of an
    unknown subscription they change nothing. *)
Theorem status_operations (w : World) (auto : bool) (i : Z) (by_id : option Z)
    (reason : option string) (s : Subscription) :
  good w -> t_subs (w_view w) !! i = Some s ->
  (exists w', activate_subscription auto i by_id w = (Ok (Some i), w') /\
     changed i (change_status ACTIVE)
       (mkHistory i "activated" None None "Subscription activated" by_id None) w w') /\
  (exists w', suspend_subscription auto i by_id reason w = (Ok (Some i), w') /\
     changed i (change_status SUSPENDED)
       (mkHistory i "suspended" None None ("Subscription suspended. Reason: " +:+ or_no_reason reason)
          by_id None) w w') /\
  (exists w', cancel_subscription auto i by_id reason w = (Ok (Some i), w') /\
     changed i (change_status CANCELLED)
       (mkHistory i "cancelled" None None ("Subscription cancelled. Reason: " +:+ or_no_reason reason)
          by_id None) w w').
Proof.
  intros Hg Hs. set (w1 := w <| w_loaded ::= union (list_to_set [i]) |>).
  assert (Hg1 : good w1) by (by apply good_loaded).
  assert (E : forall k, (o <- get_by_id i ;; k o) w = (k (Some s) : run (option Z)) w1).
  { intros k. by rewrite (mthen_ok _ _ _ _ _ (get_by_id_loaded i w s Hg Hs)). }
  assert (H : forall st action details, exists w',
    after_change auto i (change_status st) action details by_id true w1 = (Ok (Some i), w') /\
    changed i (change_status st) (mkHistory i action None None details by_id None) w w').
  { intros st action details.
    destruct (after_change_run auto i (change_status st) action details by_id true w1 s
                (keeps_key_status st) Hg1 Hs) as (w' & Ew & [? ? ? ? ? ?] & _).
    exists w'. split; [done|by split]. }
  unfold activate_subscription, suspend_subscription, cancel_subscription.
  split_all; rewrite E; apply H.
Qed.

(** Renewal gives the subscription its new end date and makes it ACTIVE,
    with one history entry naming both dates; it reaches for the router only
    when the subscription was not already active. *)
Theorem renewal (w : World) (auto : bool) (i : Z) (new_end : datetime) (by_id : option Z)
    (s : Subscription) :
  good w -> t_subs (w_view w) !! i = Some s ->
  exists w', renew_subscription auto i new_end by_id w = (Ok (Some i), w') /\
    changed i (fun s => (change_status ACTIVE s) <| sub_end_date := Some new_end |>)
      (mkHistory i "renewed" None None ("Subscription renewed from "
         +:+ str_of_datetime_opt (sub_end_date s) +:+ " to " +:+ str_of_datetime new_end) by_id None) w w' /\
    (sub_status s = ACTIVE -> w_trace w' = w_trace w /\ t_commands (w_view w') = t_commands (w_view w)).
Proof.
  intros Hg Hs. set (w1 := w <| w_loaded ::= union (list_to_set [i]) |>).
  assert (Hg1 : good w1) by (by apply good_loaded).
  set (f := fun s => (change_status ACTIVE s) <| sub_end_date := Some new_end |>).
  assert (Hf : keeps_key f).
  { intros s0 Hs0. split; [|done]. unfold sub_row_ok in *. simpl.
    rewrite !andb_true_iff in Hs0. destruct Hs0 as [[[[_ H1] H2] H3] H4].
    by rewrite H1, H2, H3, H4. }
  unfold renew_subscription. rewrite (mthen_ok _ _ _ _ _ (get_by_id_loaded i w s Hg Hs)).
  fold f.
  destruct (after_change_run auto i f "renewed" ("Subscription renewed from "
         +:+ str_of_datetime_opt (sub_end_date s) +:+ " to " +:+ str_of_datetime new_end) by_id
         (negb (bool_decide (sub_status s = ACTIVE))) w1 s Hf Hg1 Hs) as (w' & E & [? ? ? ? ? ?] & Hno).
  exists w'. split; [|split; [by split|]].
  - rewrite <- E. unfold after_change. do 4 (apply mthen_ext; intros ? ?).
    destruct (bool_decide _); [done|apply mthen_assoc].
  - intros Hst. rewrite Hst in Hno. simpl in Hno. by destruct Hno as (_ & -> & ->).
Qed.

(** Deleting a subscription only relabels it: it becomes CANCELLED with a
    history entry, keeping its synchronisation columns; nothing is sent to the
    router and nothing is queued for its agent, so a subscription that was
    active and synced stays enabled on the router. *)
Theorem delete_leaves_router_access (w : World) (i : Z) (by_id : option Z) (s : Subscription) :
  good w -> t_subs (w_view w) !! i = Some s ->
  exists w', delete_subscription i by_id w = (Ok true, w') /\
    t_subs (w_durable w') !! i = Some (s <| sub_status := CANCELLED |>) /\
    t_commands (w_durable w') = t_commands (w_view w) /\ w_trace w' = w_trace w /\
    t_history (w_durable w') = t_history (w_view w)
      ++ [mkHistory i "deleted" None None "Subscription deleted" by_id None].
Proof.
  intros Hg Hs. unfold delete_subscription.
  rewrite (mthen_ok _ _ _ _ _ (get_by_id_loaded i w s Hg Hs)).
  set (w0 := w <| w_loaded ::= union (list_to_set [i]) |>).
  set (w1 := w0 <| w_view ::= over t_subs (alter (fun s => s <| sub_status := CANCELLED |>) i) |>).
  assert (Hg1 : good w1) by (apply good_set_sub; [intros s0 Hs0; by split|by apply good_loaded]).
  rewrite (mthen_ok (set_sub _ _) _ w0 tt w1) by done.
  rewrite (mthen_ok _ _ _ _ _ (commit_good w1 Hg1)).
  eexists. split.
  { rewrite (mthen_ok _ _ _ _ _ (log_action_good _ _ _ _ _ (good_commit w1 Hg1))). reflexivity. }
  simpl. by rewrite lookup_alter_eq, Hs.
Qed.

(** ** Creation *)
Definition holds_key (user_id router_id : Z) (t : SubscriptionType) (s : Subscription) : bool :=
  (sub_user_id s =? user_id) && (sub_router_id s =? router_id) && bool_decide (sub_type s = t).

Lemma holds_key_unique user_id router_id t (db : DB) :
  schema_ok db ->
  select (fun _ => holds_key user_id router_id t) (t_subs db) = [] \/
  exists i s, select (fun _ => holds_key user_id router_id t) (t_subs db) = [(i, s)] /\
    t_subs db !! i = Some s /\ holds_key user_id router_id t s = true.
Proof.
  intros (_ & Hkey & _). set (l := select _ _).
  assert (Hin : forall i s, (i, s) ∈ l -> t_subs db !! i = Some s /\ holds_key user_id router_id t s = true).
  { intros i s. apply (elem_of_select (fun _ => holds_key user_id router_id t)). }
  pose proof (select_keys_nodup (fun _ => holds_key user_id router_id t) (t_subs db)) as Hnd.
  fold l in Hnd. destruct l as [|[i s] [|[j s'] l']]; [by left| |].
  - right. exists i, s. split; [done|]. apply Hin. apply list_elem_of_here.
  - exfalso. destruct (Hin i s) as [Hi Hki]; [apply list_elem_of_here|].
    destruct (Hin j s') as [Hj Hkj]; [apply list_elem_of_further, list_elem_of_here|].
    assert (i = j) as ->.
    { apply (Hkey _ _ Hi _ _ Hj). unfold same_natural_key, holds_key in *.
      rewrite !andb_true_iff in *. destruct Hki as [[U1 R1] T1], Hkj as [[U2 R2] T2].
      apply bool_decide_eq_true_1 in T1, T2. apply Z.eqb_eq in U1, R1, U2, R2. subst.
      rewrite !Z.eqb_eq. split; [done|]. by apply bool_decide_eq_true_2. }
    simpl in Hnd. apply NoDup_cons in Hnd as [Hnd _]. apply Hnd, list_elem_of_here.
Qed.

Lemma schema_ok_insert i s db :
  schema_ok db -> t_subs db !! i = None -> sub_row_ok s = true ->
  (forall j s', t_subs db !! j = Some s' ->
     holds_key (sub_user_id s) (sub_router_id s) (sub_type s) s' = false) ->
  schema_ok (over t_subs (insert i s) db).
Proof.
  intros (Hrow & Hkey & Hlog & Hbill) Hi Hs Hfree.
  split; [|split; [|split; [done|exact Hbill]]]; simpl.
  - by apply map_Forall_insert_2.
  - intros j1 s1 H1 j2 s2 H2 Hsame. apply lookup_insert_Some in H1, H2.
    unfold same_natural_key in Hsame. rewrite !andb_true_iff in Hsame.
    destruct Hsame as [[U R] T]. apply bool_decide_eq_true_1 in T. apply Z.eqb_eq in U, R.
    destruct H1 as [[<- <-]|[_ H1]], H2 as [[<- <-]|[_ H2]]; [done| | |].
    + specialize (Hfree _ _ H2). unfold holds_key in Hfree.
      rewrite U, R, T, !Z.eqb_refl, bool_decide_eq_true_2 in Hfree by done. done.
    + specialize (Hfree _ _ H1). unfold holds_key in Hfree.
      rewrite U, R, T, !Z.eqb_refl, bool_decide_eq_true_2 in Hfree by done. done.
    + apply (Hkey _ _ H1 _ _ H2). unfold same_natural_key.
      by rewrite U, R, T, !Z.eqb_refl, bool_decide_eq_true_2.
Qed.

(** What a creation answers and leaves, case by case. *)
Definition creation_cases (w : World) (user_id plan_id router_id : Z) (t : SubscriptionType)
    (row : Subscription) (created_by : option Z) (o : outcome Z) (w' : World) : Prop :=
  match t_users (w_view w) !! user_id, t_plans (w_view w) !! plan_id, t_routers (w_view w) !! router_id with
  | None, _, _ => o = Raise (ValueError "User not found") /\ w' = w
  | Some _, None, _ => o = Raise (ValueError "Service plan not found") /\ w' = w
  | Some _, Some _, None => o = Raise (ValueError "Router not found") /\ w' = w
  | Some u, Some _, Some _ =>
      ((exists j s, t_subs (w_view w) !! j = Some s /\ holds_key user_id router_id t s = true) /\
       o = Raise (ValueError "User already has a subscription on this router") /\ w' = w) \/
      ((forall j s, t_subs (w_view w) !! j = Some s -> holds_key user_id router_id t s = false) /\
       exists i, o = Ok i /\ t_subs (w_view w) !! i = None /\ good w' /\
         w_durable w' = w_view w' /\
         t_subs (w_durable w') = <[i := row]> (t_subs (w_view w)) /\
         t_history (w_durable w') = t_history (w_view w) ++ [mkHistory i "created" None None
           ("Subscription created for user " +:+ usr_username u) created_by None] /\
         t_commands (w_durable w') = t_commands (w_view w) /\ w_trace w' = w_trace w)
  end.

(** Creation validates in order (user, plan, router, then the natural
    key) and refuses without any change; otherwise it commits one new PENDING,
    unsynced row under a fresh key with a history entry, keeps the natural key
    unique, and does not touch the router. *)
Theorem creation (w : World) (user_id plan_id router_id : Z) (t : SubscriptionType)
    (username password : string) (start_date end_date : datetime) (auto : bool)
    (created_by : option Z) (notes : option string) :
  good w ->
  exists o w', create_subscription user_id plan_id router_id t username password start_date end_date
      auto created_by notes w = (o, w') /\
    creation_cases w user_id plan_id router_id t
      (new_subscription (w_now w) user_id plan_id router_id t username password start_date end_date
         auto created_by notes) created_by o w'.
Proof.
  intros Hg. pose proof (good_broken w Hg) as Hb. unfold create_subscription, creation_cases.
  rewrite (mthen_ok _ _ _ _ _ (query_good _ w Hb)).
  destruct (t_users (w_view w) !! user_id) as [u|]; [|by do 2 eexists].
  rewrite (mthen_ok _ _ _ _ _ (query_good _ w Hb)).
  destruct (t_plans (w_view w) !! plan_id) as [p|]; [|by do 2 eexists].
  rewrite (mthen_ok _ _ _ _ _ (query_good _ w Hb)).
  destruct (t_routers (w_view w) !! router_id) as [r|]; [|by do 2 eexists].
  rewrite (mthen_ok _ _ _ _ _ (query_good _ w Hb)).
  change (fun (_ : Z) s => _) with (fun (_ : Z) => holds_key user_id router_id t).
  destruct (holds_key_unique user_id router_id t (w_view w) (good_schema w Hg))
    as [E|(j & s & E & Hj & Hk)]; rewrite E.
  2:{ do 2 eexists. split; [reflexivity|]. left. split; [eauto|done]. }
  set (row := new_subscription _ _ _ _ _ _ _ _ _ _ _ _). set (i := next_id (t_subs (w_view w))).
  assert (Hfree : forall j s, t_subs (w_view w) !! j = Some s -> holds_key user_id router_id t s = false).
  { intros j s Hj. destruct (holds_key user_id router_id t s) eqn:Ek; [|done].
    assert (H : (j, s) ∈ select (fun _ => holds_key user_id router_id t) (t_subs (w_view w))).
    { by apply (elem_of_select (fun _ => holds_key user_id router_id t)). }
    rewrite E in H. by apply elem_of_nil in H. }
  set (w1 := w <| w_view ::= over t_subs (insert i row) |>).
  assert (Hg1 : good w1).
  { destruct Hg as [? ? Hs]. split; [done..|]. apply schema_ok_insert; [done|apply next_id_fresh|done|done]. }
  set (w2 := w1 <| w_durable := w_view w1 |>).
  assert (Hg2 : good w2) by (by apply good_commit).
  assert (Hrow : t_subs (w_view w2) !! i = Some row) by (simpl; by rewrite lookup_insert_eq).
  set (w3 := w2 <| w_loaded ::= union (list_to_set [i]) |>).
  assert (Hg3 : good w3) by (by apply good_loaded).
  do 2 eexists. split.
  { simpl. rewrite (mthen_ok (mreturn None) _ w None w) by done.
    rewrite (mthen_ok utcnow _ w (w_now w) w) by done.
    rewrite (mthen_ok _ _ _ _ _ (query_good _ w Hb)). fold i row.
    rewrite (mthen_ok (assign _) _ w tt w1) by done.
    rewrite (mthen_ok _ _ _ _ _ (commit_good w1 Hg1)).
    rewrite (mthen_ok _ _ _ _ _ (refresh_sub_good i w2 _ Hg2 Hrow)).
    by rewrite (mthen_ok _ _ _ _ _ (log_action_good _ _ _ _ w3 Hg3)). }
  right. split; [done|]. exists i. split; [done|]. split; [apply next_id_fresh|].
  split; [destruct Hg3; by split|done].
Qed.
End Runs.
