(* ===== verification/UsageAccounting.v ===== *)
(** * Usage counters and their log

    The counters of a subscription against the usage log: an exact account of
    one update, 32-bit overflow included, and the invariant that the counters
    are the sums of the log, over every run of the subscription service. *)

From stdpp Require Import sorting.
From S2P Require Import Prelude PyString Numerics Calendar Models Session Plan AgentQueue RouterSync.
From S2P Require Import Subscriptions.

(** The sum of one field over the log entries of one subscription. *)
Definition logged (i : Z) (field : SubscriptionUsageLog -> Z) (logs : list SubscriptionUsageLog) : Z :=
  sum_Z (map field (filter (fun l => log_subscription_id l = i) logs)).

Lemma logged_app i field l1 l2 : logged i field (l1 ++ l2) = logged i field l1 + logged i field l2.
Proof.
  unfold logged. rewrite filter_app, map_app. unfold sum_Z. rewrite foldr_app.
  induction (map field (filter _ l1)) as [|x l IH]; simpl; [done|]. rewrite IH. lia.
Qed.

Lemma logged_one i field l :
  logged i field [l] = if bool_decide (log_subscription_id l = i) then field l else 0.
Proof.
  unfold logged. rewrite filter_cons. case_decide as H.
  - rewrite bool_decide_eq_true_2 by done. simpl. lia.
  - by rewrite bool_decide_eq_false_2.
Qed.

Lemma logged_other i field logs :
  (forall l, l ∈ logs -> log_subscription_id l <> i) -> logged i field logs = 0.
Proof.
  intros H. unfold logged. induction logs as [|l logs IH]; [done|].
  rewrite filter_cons. rewrite decide_False by (apply H, list_elem_of_here).
  apply IH. intros l' Hl'. by apply H, list_elem_of_further.
Qed.

(** The counters of each row are the sums of its log entries, and every entry
    belongs to a row. *)
Definition row_consistent (i : Z) (s : Subscription) (logs : list SubscriptionUsageLog) : Prop :=
  sub_bytes_uploaded s = logged i log_bytes_uploaded logs /\
  sub_bytes_downloaded s = logged i log_bytes_downloaded logs /\
  sub_total_bytes_used s = sub_bytes_uploaded s + sub_bytes_downloaded s.

Definition usage_consistent (db : DB) : Prop :=
  (forall i s, t_subs db !! i = Some s -> row_consistent i s (t_usage db)) /\
  (forall l, l ∈ t_usage db -> is_Some (t_subs db !! log_subscription_id l)).

(** A change that leaves the counters alone. *)
Definition keeps_usage (f : Subscription -> Subscription) : Prop :=
  forall s, sub_bytes_uploaded (f s) = sub_bytes_uploaded s /\
    sub_bytes_downloaded (f s) = sub_bytes_downloaded s /\
    sub_total_bytes_used (f s) = sub_total_bytes_used s.

Lemma usage_alter f i db :
  keeps_usage f -> usage_consistent db -> usage_consistent (over t_subs (alter f i) db).
Proof.
  intros Hf [Hrow Hlog]. split; simpl.
  - intros j s. rewrite lookup_alter_Some. intros [(-> & s0 & E & ->)|[_ E]]; [|by apply Hrow].
    destruct (Hf s0) as (H1 & H2 & H3). unfold row_consistent. rewrite H1, H2, H3. by apply Hrow.
  - intros l Hl. apply Hlog in Hl as [s Hs].
    destruct (decide (i = log_subscription_id l)) as [->|].
    + rewrite lookup_alter_eq, Hs. simpl. eauto.
    + rewrite lookup_alter_ne by done. eauto.
Qed.

Lemma usage_frame db db' :
  t_subs db' = t_subs db -> t_usage db' = t_usage db -> usage_consistent db -> usage_consistent db'.
Proof. unfold usage_consistent. by intros -> ->. Qed.

Lemma usage_sync i db db' : sync_frame i db db' -> usage_consistent db -> usage_consistent db'.
Proof.
  intros (E & g & Hg & Hs) Hdb. assert (Hu : t_usage db' = t_usage db) by (by rewrite E).
  apply (usage_frame (over t_subs (alter g i) db)); [done|done|].
  apply usage_alter; [|done]. intros s. rewrite (Hg s). done.
Qed.

Lemma usage_new_row row db :
  sub_bytes_uploaded row = 0 -> sub_bytes_downloaded row = 0 -> sub_total_bytes_used row = 0 ->
  usage_consistent db -> usage_consistent (over t_subs (insert (next_id (t_subs db)) row) db).
Proof.
  intros H1 H2 H3 [Hrow Hlog]. pose proof (next_id_fresh (t_subs db)) as Hfresh. split; simpl.
  - intros j s. rewrite lookup_insert_Some. intros [[<- <-]|[_ E]]; [|by apply Hrow].
    unfold row_consistent. rewrite H1, H2, H3.
    rewrite !logged_other; [done| |];
      intros l Hl Heq; apply Hlog in Hl as [s Hs]; rewrite Heq in Hs; congruence.
  - intros l Hl. apply Hlog in Hl as [s Hs]. rewrite lookup_insert_ne; [eauto|].
    intros Heq. rewrite <- Heq in Hs. congruence.
Qed.

Lemma usage_recorded i up down now log db :
  is_Some (t_subs db !! i) -> log_subscription_id log = i ->
  log_bytes_uploaded log = up -> log_bytes_downloaded log = down ->
  usage_consistent db ->
  usage_consistent (over t_usage (fun l => l ++ [log]) (over t_subs (alter (record_usage up down now) i) db)).
Proof.
  intros [s0 Hi] Hl Hup Hdown [Hrow Hlog]. split; simpl.
  - intros j s. rewrite lookup_alter_Some. unfold row_consistent.
    rewrite !logged_app, !logged_one, Hl, Hup, Hdown.
    intros [(-> & s1 & E & ->)|[Hne E]].
    + rewrite !bool_decide_eq_true_2 by done. destruct (Hrow _ _ E) as (E1 & E2 & E3).
      simpl. rewrite E1, E2, E3. split; [done|]. split; [done|lia].
    + rewrite !bool_decide_eq_false_2 by done. destruct (Hrow _ _ E) as (E1 & E2 & E3).
      rewrite !Z.add_0_r. done.
  - intros l. rewrite elem_of_app, list_elem_of_singleton. intros [Hin | ->].
    + apply Hlog in Hin as [s Hs]. destruct (decide (i = log_subscription_id l)) as [->|].
      * rewrite lookup_alter_eq, Hs. simpl. eauto.
      * rewrite lookup_alter_ne by done. eauto.
    + rewrite Hl, lookup_alter_eq, Hi. simpl. eauto.
Qed.

(** ** Preservation by the service *)
Section Preservation.
Context {be : Backend} {ros : RouterOS} {sv : SyncService}.
Variable auto : bool.
Abbreviation inv := (db_inv usage_consistent).

Lemma sync_to_router_usage i : preserves inv (sync_to_router auto i).
Proof.
  unfold sync_to_router.
  repeat first [apply sync_preserves; apply usage_sync | preserve_step].
Qed.

Lemma log_action_usage i a d u : preserves inv (log_subscription_action i a d u).
Proof. unfold log_subscription_action. preserve. intros db Hdb. by eapply usage_frame. Qed.

Lemma refresh_usage i : preserves inv (refresh_sub i).
Proof. unfold refresh_sub. preserve. Qed.

Lemma set_sub_usage i f : keeps_usage f -> preserves inv (set_sub i f).
Proof. intros Hf. apply preserves_assign. intros db. by apply usage_alter. Qed.

Lemma set_fields_keep l : keeps_usage (fun s => foldl (fun s u => set_field u s) s l).
Proof.
  induction l as [|u l IH]; intros s; [done|]. simpl. destruct (IH (set_field u s)) as (H1 & H2 & H3).
  rewrite H1, H2, H3. by destruct u as [[]|[]|[]|[]|[]|[]|[]|[]|[]|[]|].
Qed.

Ltac usage_step :=
  first [ apply sync_to_router_usage | apply log_action_usage | apply refresh_usage
        | apply set_sub_usage; solve [apply set_fields_keep | by intros ?]
        | preserve_step ].

Lemma update_usage_preserves i up down dur ip mac :
  preserves inv (update_usage i up down dur ip mac).
Proof.
  intros w Hw. unfold update_usage, get_by_id, get_sub, mthen at 1, mthen at 1, query.
  destruct (w_broken w); [done|]. destruct (t_subs (w_view w) !! i) as [s|] eqn:Hs; [|done].
  set (log := mkUsageLog i (w_now w) up down dur ip mac).
  set (w1 := w <| w_loaded ::= fun x => list_to_set [i] ∪ x |>
               <| w_view ::= fun db => over t_usage (fun l => l ++ [log])
                    (over t_subs (alter (record_usage up down (w_now w)) i) db) |>).
  change (inv (snd ((commit ;;; mreturn true) w1))).
  apply preserves_then; [apply preserves_commit|intros; apply preserves_return|].
  destruct Hw as [Hv Hd]. split; [|done]. apply usage_recorded; eauto.
Qed.

Lemma fresh_row_usage {A} row (k : Z -> run A) :
  sub_bytes_uploaded row = 0 -> sub_bytes_downloaded row = 0 -> sub_total_bytes_used row = 0 ->
  (forall i, preserves inv (k i)) ->
  preserves inv (i <- query (fun db => next_id (t_subs db)) ;;
                 assign (over t_subs (insert i row)) ;;; k i).
Proof.
  intros H1 H2 H3 Hk w [Hv Hd]. unfold mthen at 1, query. destruct (w_broken w); [done|].
  apply Hk. split; [|done]. by apply usage_new_row.
Qed.

Lemma create_usage user_id plan_id router_id t username password start_date end_date auto_renew by_id notes :
  preserves inv (create_subscription user_id plan_id router_id t username password start_date
                   end_date auto_renew by_id notes).
Proof.
  unfold create_subscription. repeat first [apply fresh_row_usage; [done..|intros ?] | usage_step].
Qed.

Lemma update_preserves i l by_id : preserves inv (update_subscription auto i l by_id).
Proof. unfold update_subscription, get_by_id. repeat usage_step. Qed.

Lemma activate_preserves i by_id : preserves inv (activate_subscription auto i by_id).
Proof. unfold activate_subscription, get_by_id. repeat usage_step. Qed.

Lemma suspend_preserves i by_id why : preserves inv (suspend_subscription auto i by_id why).
Proof. unfold suspend_subscription, get_by_id. repeat usage_step. Qed.

Lemma cancel_preserves i by_id why : preserves inv (cancel_subscription auto i by_id why).
Proof. unfold cancel_subscription, get_by_id. repeat usage_step. Qed.

Lemma delete_preserves i by_id : preserves inv (delete_subscription i by_id).
Proof. unfold delete_subscription, get_by_id. repeat usage_step. Qed.

Lemma renew_preserves i en by_id : preserves inv (renew_subscription auto i en by_id).
Proof. unfold renew_subscription, get_by_id. repeat usage_step. Qed.

(** One call of the service, or the end of a request. *)
Inductive service_step (w : World) : World -> Prop :=
  | svc_create u p r t name pw st en ar by_id notes o w' :
      create_subscription u p r t name pw st en ar by_id notes w = (o, w') -> service_step w w'
  | svc_update i l by_id o w' : update_subscription auto i l by_id w = (o, w') -> service_step w w'
  | svc_activate i by_id o w' : activate_subscription auto i by_id w = (o, w') -> service_step w w'
  | svc_suspend i by_id why o w' : suspend_subscription auto i by_id why w = (o, w') -> service_step w w'
  | svc_cancel i by_id why o w' : cancel_subscription auto i by_id why w = (o, w') -> service_step w w'
  | svc_delete i by_id o w' : delete_subscription i by_id w = (o, w') -> service_step w w'
  | svc_renew i en by_id o w' : renew_subscription auto i en by_id w = (o, w') -> service_step w w'
  | svc_usage i up down dur ip mac o w' :
      update_usage i up down dur ip mac w = (o, w') -> service_step w w'
  | svc_sync i f o w' : sync_subscription i f w = (o, w') -> service_step w w'
  | svc_rollback o w' : rollback w = (o, w') -> service_step w w'
  | svc_time t : w_now w <= t -> service_step w (w <| w_now := t |>).

Lemma step_inv {A} (m : run A) w o w' : preserves inv m -> m w = (o, w') -> inv w -> inv w'.
Proof. intros Hm E Hw. specialize (Hm w Hw). by rewrite E in Hm. Qed.

Lemma service_step_usage w w' : service_step w w' -> inv w -> inv w'.
Proof.
  intros H. destruct H as
    [? ? ? ? ? ? ? ? ? ? ? ? ? E|? ? ? ? ? E|? ? ? ? E|? ? ? ? ? E|? ? ? ? ? E|? ? ? ? E|? ? ? ? ? E
    |? ? ? ? ? ? ? ? E|? ? ? ? E|? ? E|t Ht].
  - exact (step_inv _ _ _ _ (create_usage _ _ _ _ _ _ _ _ _ _ _) E).
  - exact (step_inv _ _ _ _ (update_preserves _ _ _) E).
  - exact (step_inv _ _ _ _ (activate_preserves _ _) E).
  - exact (step_inv _ _ _ _ (suspend_preserves _ _ _) E).
  - exact (step_inv _ _ _ _ (cancel_preserves _ _ _) E).
  - exact (step_inv _ _ _ _ (delete_preserves _ _) E).
  - exact (step_inv _ _ _ _ (renew_preserves _ _ _) E).
  - exact (step_inv _ _ _ _ (update_usage_preserves _ _ _ _ _ _) E).
  - exact (step_inv _ _ _ _ (sync_preserves _ usage_sync _ _) E).
  - exact (step_inv _ _ _ _ (preserves_rollback _) E).
  - intros [Hv Hd]. split; [exact Hv|exact Hd].
Qed.

(** C24. Usage is never lost or invented: over any run of the service's
    operations, in any order, with refused commits, rollbacks and router
    failures, the counters of every subscription, in the view and in the
    committed tables, are the sums of its usage log, and the total is the sum
    of the two directions. *)
Theorem usage_equals_log (w w' : World) :
  usage_consistent (w_view w) -> usage_consistent (w_durable w) -> rtc service_step w w' ->
  usage_consistent (w_view w') /\ usage_consistent (w_durable w').
Proof.
  intros Hv Hd H. assert (Hw : inv w) by (by split). clear Hv Hd.
  induction H as [w|w w1 w' Hs _ IH]; [done|]. apply IH. by eapply service_step_usage.
Qed.
End Preservation.

(** ** One update, overflow included *)
Section Overflow.
Context {be : Backend} {ros : RouterOS}.

(** The row and the log entry fit their 32-bit columns. *)
Definition usage_fits (s : Subscription) (up down dur : Z) : bool :=
  in_int4 (sub_bytes_uploaded s + up) && in_int4 (sub_bytes_downloaded s + down)
  && in_int4 (sub_total_bytes_used s + (up + down)) && in_int4 (Z.succ (sub_session_count s))
  && in_int4 up && in_int4 down && in_int4 dur.

Lemma schema_ok_usage db i up down now log s :
  schema_ok db -> t_subs db !! i = Some s ->
  log_bytes_uploaded log = up -> log_bytes_downloaded log = down ->
  schema_ok (over t_usage (fun l => l ++ [log]) (over t_subs (alter (record_usage up down now) i) db))
  <-> usage_fits s up down (log_session_duration log) = true.
Proof.
  intros Hok Hs Hup Hdown.
  assert (Hrow : sub_row_ok (record_usage up down now s) && usage_row_ok log
                 = usage_fits s up down (log_session_duration log)).
  { pose proof (proj1 Hok _ _ Hs) as Hs0. unfold sub_row_ok, usage_row_ok, usage_fits in *.
    rewrite !andb_true_iff in Hs0. destruct Hs0 as [[[[He _] _] _] _].
    simpl. rewrite He, Hup, Hdown. simpl. rewrite !andb_assoc. done. }
  rewrite <- Hrow, andb_true_iff. split.
  - intros (Hsubs & _ & Hlog & _). split.
    + apply (Hsubs i). simpl. by rewrite lookup_alter_eq, Hs.
    + simpl in Hlog. apply Forall_app in Hlog as [_ Hlog]. by apply (Forall_singleton (fun l => usage_row_ok l = true)) in Hlog.
  - intros [H1 H2]. destruct Hok as (Hsubs & Hkey & Hlog & Hbill).
    destruct (schema_ok_alter (record_usage up down now) i db) as (G1 & G2 & G3 & _).
    { intros s' Hs'. rewrite Hs in Hs'. injection Hs' as <-. by split. }
    { exact (conj Hsubs (conj Hkey (conj Hlog Hbill))). }
    split; [done|split; [done|split; [|exact Hbill]]]. simpl in *. apply Forall_app. split; [done|]. by apply Forall_singleton.
Qed.

(** A usage update is all or nothing at the width of its columns: when
    the new counters and the log entry fit 32 bits it commits exactly the sums
    and one log entry; otherwise it raises a database error, the committed
    tables keep their old values and the session has to be rolled back. A
    session of more than 2 GiB can therefore not be recorded. *)
Theorem usage_update_exact (w : World) (i up down dur : Z) (ip mac : option string) (s : Subscription) :
  good w -> t_subs (w_view w) !! i = Some s -> w_durable w = w_view w ->
  exists o w', update_usage i up down dur ip mac w = (o, w') /\
    if usage_fits s up down dur then
      o = Ok true /\ good w' /\
      t_subs (w_durable w') = alter (record_usage up down (w_now w)) i (t_subs (w_view w)) /\
      t_usage (w_durable w') = t_usage (w_view w) ++ [mkUsageLog i (w_now w) up down dur ip mac]
    else o = Raise DatabaseError /\ w_broken w' = true /\ w_durable w' = w_durable w.
Proof.
  intros Hg Hs Hd. unfold update_usage.
  rewrite (mthen_ok _ _ _ _ _ (get_by_id_loaded i w s Hg Hs)).
  set (w0 := w <| w_loaded ::= union (list_to_set [i]) |>).
  rewrite (mthen_ok utcnow _ w0 (w_now w) w0) by done.
  set (log := mkUsageLog i (w_now w) up down dur ip mac).
  set (w1 := w0 <| w_view ::= over t_subs (alter (record_usage up down (w_now w)) i) |>).
  set (w2 := w1 <| w_view ::= over t_usage (fun l => l ++ [log]) |>).
  rewrite (mthen_ok (set_sub _ _) _ w0 tt w1) by done.
  rewrite (mthen_ok (assign _) _ w1 tt w2) by done.
  pose proof (schema_ok_usage (w_view w) i up down (w_now w) log s (good_schema w Hg) Hs eq_refl eq_refl)
    as Hfit. simpl in Hfit. destruct Hg as [Hb Hf Hok].
  destruct (usage_fits s up down dur) eqn:Efit.
  - assert (Hg2 : good w2) by (split; [done|done|by apply Hfit]).
    do 2 eexists. split; [by rewrite (mthen_ok _ _ _ _ _ (commit_good w2 Hg2))|].
    split; [done|]. split; [destruct Hg2; by split|done].
  - assert (Hbad : ~ schema_ok (w_view w2)) by (intros H; apply Hfit in H; done).
    do 2 eexists. split.
    { unfold commit, flush, mthen. change (w_broken w2) with (w_broken w). rewrite Hb.
      change (w_faults w2) with (w_faults w). rewrite Hf, bool_decide_eq_false_2 by done. reflexivity. }
    done.
Qed.
End Overflow.

(** ** Pages *)
Section Pages.
Context {be : Backend} {ros : RouterOS}.

(** The pages from the first to the last, one request each. *)
Definition all_pages {A} (size max_size : Z) (rows : list A) : list A :=
  let pages := page_pages (paginate (pagination_params 1 size max_size) rows) in
  concat (map (fun k => page_items (paginate (pagination_params (Z.of_nat k) size max_size) rows))
            (seq 1 (Z.to_nat pages))).

Lemma pages_prefix {A} (n : nat) (rows : list A) k :
  concat (map (fun p => take n (drop ((p - 1) * n) rows)) (seq 1 k)) = take (k * n) rows.
Proof.
  induction k as [|k IH]; [done|]. rewrite seq_S, map_app, concat_app, IH. simpl.
  rewrite app_nil_r, Nat.sub_0_r, take_take_drop. f_equal. lia.
Qed.

Lemma pages_enough (len : nat) (s : Z) :
  1 <= s -> (len <= Z.to_nat ((Z.of_nat len + s - 1) / s) * Z.to_nat s)%nat.
Proof.
  intros Hs. set (L := Z.of_nat len).
  pose proof (Z.mod_pos_bound (L + s - 1) s ltac:(lia)).
  pose proof (Z.div_mod (L + s - 1) s ltac:(lia)).
  assert (0 <= (L + s - 1) / s) by (apply Z.div_pos; lia).
  apply Nat2Z.inj_le. rewrite Nat2Z.inj_mul, !Z2Nat.id by lia. fold L. lia.
Qed.

(** Paging loses nothing and repeats nothing: whatever page size is
    asked for (corrected to the allowed range), the pages from the first to
    the last number announced, put together, are exactly the rows that match
    the filter, newest first, and each page announces their number. *)
Theorem pages_cover_listing (w : World) (f : SubscriptionFilter) (size max_size : Z) :
  good w -> 1 <= max_size ->
  let rows := listing f (w_view w) in
  (forall page, exists pg, get_all (pagination_params page size max_size) f w = (Ok pg, w) /\
     page_total pg = Z.of_nat (length rows) /\ page_items pg ⊆ rows) /\
  all_pages size max_size rows = rows /\
  rows ≡ₚ select (matching f (t_users (w_view w))) (t_subs (w_view w)) /\
  Sorting.Sorted.StronglySorted newer rows.
Proof.
  intros Hg Hmax rows. split; [|split; [|split]].
  - intros page. eexists. split; [apply query_good, (good_broken w Hg)|]. split; [done|].
    simpl. intros x Hx. apply subseteq_take in Hx. by apply subseteq_drop in Hx.
  - unfold all_pages. set (n := Z.to_nat (pg_size (pagination_params 1 size max_size))).
    assert (Hn : 1 <= pg_size (pagination_params 1 size max_size)).
    { unfold pagination_params. simpl. repeat case_match; lia. }
    rewrite (map_ext_in _ (fun p => take n (drop ((p - 1) * n) rows))).
    + rewrite pages_prefix. apply take_ge. by apply pages_enough.
    + intros p Hp%in_seq. unfold paginate. simpl.
      replace (Z.of_nat p <? 1) with false by lia. f_equal. f_equal. unfold n. simpl.
      rewrite <- (Nat2Z.id ((p - 1) * _)). f_equal. rewrite Nat2Z.inj_mul, Nat2Z.inj_sub by lia.
      rewrite Z2Nat.id; [done|]. simpl in Hn. lia.
  - apply merge_sort_Permutation.
  - apply StronglySorted_merge_sort; apply _.
Qed.
End Pages.

(** ** Concrete runs *)
Definition sample_user : User := customer_user (Some 1) "jane" "jane@example.com" (Some "0700") "Jane" "D".

Definition service_db (st : SubscriptionStatus) : DB :=
  (agent_db st) <| t_users := {[5 := sample_user; 6 := customer_user (Some 1) "john" "john@example.com" None "John" "D"]} |>.

Lemma service_good st t : good (start_offline t (service_db st)).
Proof. apply good_offline. destruct st; vm_compute; reflexivity. Qed.

Lemma status_operations_witness :
  exists w', suspend_subscription true 42 None None (start_offline 500 (service_db ACTIVE)) = (Ok (Some 42), w') /\
    (sub_status <$> t_subs (w_durable w') !! 42) = Some SUSPENDED.
Proof.
  destruct (status_operations (start_offline 500 (service_db ACTIVE)) true 42 None None (sample_sub ACTIVE)
              (service_good ACTIVE 500) eq_refl) as (_ & (w' & E & [_ _ _ Hrow _ _]) & _).
  exists w'. split; [exact E|]. destruct (Hrow _ eq_refl) as (s' & -> & Hs). simpl.
  rewrite Hs. reflexivity.
Defined.

Lemma renewal_witness :
  exists w', renew_subscription true 42 9000 None (start_offline 500 (service_db EXPIRED)) = (Ok (Some 42), w') /\
    (sub_end_date <$> t_subs (w_durable w') !! 42) = Some (Some 9000).
Proof.
  destruct (renewal (start_offline 500 (service_db EXPIRED)) true 42 9000 None (sample_sub EXPIRED)
              (service_good EXPIRED 500) eq_refl) as (w' & E & [_ _ _ Hrow _ _] & _).
  exists w'. split; [exact E|]. destruct (Hrow _ eq_refl) as (s' & -> & Hs). simpl.
  rewrite Hs. reflexivity.
Defined.

Lemma delete_leaves_router_access_witness :
  exists w', delete_subscription 42 (Some 1) (start_offline 500 (service_db ACTIVE)) = (Ok true, w') /\
    t_commands (w_durable w') = ∅ /\ w_trace w' = [].
Proof.
  destruct (delete_leaves_router_access (start_offline 500 (service_db ACTIVE)) 42 (Some 1)
              (sample_sub ACTIVE) (service_good ACTIVE 500) eq_refl) as (w' & E & _ & Hc & Ht & _).
  exists w'. split; [exact E|]. rewrite Hc, Ht. split; reflexivity.
Defined.

Lemma creation_witness :
  exists o w', create_subscription 5 3 7 HOTSPOT "C002" "pw" 0 10 false None None
      (start_offline 500 (service_db ACTIVE)) = (o, w') /\
    o = Raise (ValueError "User already has a subscription on this router").
Proof.
  destruct (creation (start_offline 500 (service_db ACTIVE)) 5 3 7 HOTSPOT "C002" "pw" 0 10 false None None
              (service_good ACTIVE 500)) as (o & w' & E & H).
  exists o, w'. split; [exact E|]. destruct H as [(_ & H & _)|(Hfree & _)]; [exact H|].
  specialize (Hfree 42 (sample_sub ACTIVE) eq_refl). discriminate Hfree.
Defined.

Lemma service_usage_consistent : usage_consistent (service_db ACTIVE).
Proof.
  split.
  - intros i s. simpl. rewrite lookup_singleton_Some. intros [_ <-]. by repeat split.
  - intros l Hl. by apply elem_of_nil in Hl.
Qed.

Lemma usage_equals_log_witness :
  let w' := snd (update_usage 42 700 300 60 None None (start_offline 500 (service_db ACTIVE))) in
  usage_consistent (w_durable w') /\ (sub_total_bytes_used <$> t_subs (w_durable w') !! 42) = Some 1000.
Proof.
  cbv zeta. split; [|vm_compute; reflexivity].
  apply (usage_equals_log true (start_offline 500 (service_db ACTIVE))); [exact service_usage_consistent..|].
  apply rtc_once. eapply svc_usage. apply surjective_pairing.
Defined.

Lemma usage_update_exact_witness :
  exists w', update_usage 42 3000000000 0 60 None None (start_offline 500 (service_db ACTIVE)) =
    (Raise DatabaseError, w') /\ w_durable w' = service_db ACTIVE.
Proof.
  destruct (usage_update_exact (start_offline 500 (service_db ACTIVE)) 42 3000000000 0 60 None None
              (sample_sub ACTIVE) (service_good ACTIVE 500) eq_refl eq_refl) as (o & w' & E & H).
  destruct H as (-> & _ & Hd). exists w'. split; [exact E|exact Hd].
Defined.

Lemma pages_cover_listing_witness :
  all_pages 1 100 (listing (mkFilter None None None None None None None) (service_db ACTIVE))
  = [(42, sample_sub ACTIVE)].
Proof.
  rewrite (proj1 (proj2 (pages_cover_listing (start_offline 500 (service_db ACTIVE))
    (mkFilter None None None None None None None) 1 100 (service_good ACTIVE 500) ltac:(lia)))).
  vm_compute. reflexivity.
Defined.
