(* ===== verification/Expiry.v ===== *)
(** * Expiry of subscriptions and hotspot vouchers

    [SubscriptionExpiryManager] of
    [src/app/modules/subscriptions/expiry_manager.py]: the periodic passes
    that expire subscriptions and vouchers, warn of coming expiries, close
    sessions of lapsed subscriptions, and renew. *)

From stdpp Require Import sorting.
From S2P Require Import Prelude PyString Numerics Calendar Models Session Plan AgentQueue RouterSync.

Definition DEFAULT_CHURN_DAYS : Z := 14.

(** ** Results *)
Inductive RunError : Type :=
  | StageError (id : Z) (error : option SyncError) (stage : string)
  | AtHours (id : option Z) (hours : Z) (e : exn)
  | AtRouter (router_id : Z) (e : exn)
  | RunFailed (e : exn) (stage : option string).

Record ExpiryResult : Type := mkExpiry {
  er_processed : Z;
  er_expired : Z;
  er_disabled_on_router : Z;
  er_failed : Z;
  er_notifications_sent : Z;
  er_errors : list RunError
}.
#[export] Instance ExpiryResult_eta : Eta ExpiryResult := fun r =>
  mkExpiry (er_processed r) (er_expired r) (er_disabled_on_router r) (er_failed r)
    (er_notifications_sent r) (er_errors r).

Record HotspotResult : Type := mkHotspot {
  hr_checked : Z;
  hr_expired : Z;
  hr_disabled_on_router : Z;
  hr_sessions_expired : Z;
  hr_failed : Z;
  hr_errors : list RunError
}.
#[export] Instance HotspotResult_eta : Eta HotspotResult := fun r =>
  mkHotspot (hr_checked r) (hr_expired r) (hr_disabled_on_router r) (hr_sessions_expired r)
    (hr_failed r) (hr_errors r).

Record NoticeResult : Type := mkNotice {
  nr_checked : Z;
  nr_notifications_sent : Z;
  nr_errors : list RunError;
  nr_by_hours : list (Z * Z)
}.
#[export] Instance NoticeResult_eta : Eta NoticeResult := fun r =>
  mkNotice (nr_checked r) (nr_notifications_sent r) (nr_errors r) (nr_by_hours r).

Record SessionCheck : Type := mkCheck {
  sc_routers_checked : Z;
  sc_sessions_checked : Z;
  sc_disconnected : Z;
  sc_errors : list RunError
}.
#[export] Instance SessionCheck_eta : Eta SessionCheck := fun r =>
  mkCheck (sc_routers_checked r) (sc_sessions_checked r) (sc_disconnected r) (sc_errors r).

Record ExpiryStats : Type := mkExpiryStats {
  es_period_days : Z;
  es_counts : list (string * Z);
  es_expiring_soon : list (string * Z);
  es_recently_expired_24h : Z
}.

Inductive RenewError : Type :=
  | RenewNotFound
  | RenewFailed (e : exn).

Record RenewResult : Type := mkRenew {
  rn_success : bool;
  rn_error : option RenewError;
  rn_new_end_date : option datetime;
  rn_router_synced : option bool;
  rn_router_error : option SyncError
}.

(** ** Pure conditions *)
Definition due (cutoff : datetime) (s : Subscription) : bool :=
  bool_decide (sub_status s = ACTIVE)
  && match sub_end_date s with Some e => e <=? cutoff | None => false end.

Definition perpetual (s : Subscription) : bool :=
  bool_decide (sub_status s = ACTIVE) && bool_decide (sub_end_date s = None).

Definition expire_row (s : Subscription) : Subscription := s <| sub_status := EXPIRED |>.

Definition expiry_history (i : Z) (s : Subscription) : SubscriptionHistory :=
  mkHistory i "expired" (Some (status_value ACTIVE)) (Some (status_value EXPIRED))
    ("Subscription expired at " +:+ str_of_datetime_opt (sub_end_date s)) None (Some "system").

(** A voucher with the instant its access started. *)
Abbreviation Candidate := (Z * VoucherCode * datetime)%type.

Definition used_before (a b : Z * VoucherCode) : Prop :=
  match vch_used_at a.2, vch_used_at b.2 with
  | Some x, Some y => x <= y
  | _, _ => True
  end.
#[export] Instance used_before_dec : RelDecision used_before.
Proof. intros a b. unfold used_before. repeat case_match; apply _. Defined.

Definition redeemed (v : VoucherCode) : bool :=
  bool_decide (is_Some (vch_hotspot_username v)) && bool_decide (vch_status v = V_USED)
  && bool_decide (is_Some (vch_used_at v)).

Definition used_candidates {be : Backend} (n : nat) (db : DB) : list Candidate :=
  omap (fun iv => match vch_used_at iv.2 with Some t => Some (iv.1, iv.2, t) | None => None end)
    (take n (merge_sort used_before (select (fun _ => redeemed) (t_vouchers db)))).

Definition purchased (db : DB) (p : CustomerPurchase) : option Candidate :=
  match pur_voucher_code_id p with
  | Some i =>
      match t_vouchers db !! i with
      | Some v =>
          if bool_decide (is_Some (vch_hotspot_username v)) && bool_decide (vch_status v = V_ACTIVE)
             && bool_decide (pur_payment_status p = "completed")
          then Some (i, v, default (vch_created_at v) (pur_completed_at p)) else None
      | None => None
      end
  | None => None
  end.

Definition purchased_candidates {be : Backend} (n : nat) (db : DB) : list Candidate :=
  take n (omap (fun ip => purchased db ip.2) (scan (t_purchases db))).

Definition stale_session (now : datetime) (s : CustomerSession) : bool :=
  bool_decide (ses_status s = S_ACTIVE) && (ses_expires_at s <=? now).

Definition close_session (now : datetime) (s : CustomerSession) : CustomerSession :=
  s <| ses_status := S_EXPIRED |> <| ses_ended_at := Some now |>
    <| ses_terminate_cause := Some "Session-Timeout" |>.

Definition expire_voucher (v : VoucherCode) : VoucherCode := v <| vch_status := V_EXPIRED |>.

(** [" ".join(filter(None, [first, last])).strip() or email or username] *)
Definition customer_name (u : User) : string :=
  let name := strip (join " " (filter (fun s => s <> "") [usr_first_name u; usr_last_name u])) in
  if bool_decide (name = "") then
    (if bool_decide (usr_email u = "") then usr_username u else usr_email u)
  else name.

Definition days_remaining (hours : Z) : Z := if 24 <=? hours then Z.max 1 (hours / 24) else 0.

Definition expiring_event (i : Z) (s : Subscription) (u : User) (plan : string) (hours : Z) : EventBody :=
  ExpiryNotice "subscription.expiring" i (customer_name u) (usr_phone u) (usr_email u) plan
    (sub_end_date s) (days_remaining hours) hours.

Definition half_hour : Z := timedelta_minutes 30.

Definition expiring_around (now : datetime) (hours : Z) (s : Subscription) : bool :=
  bool_decide (sub_status s = ACTIVE)
  && match sub_end_date s with
     | Some e => (now + timedelta_hours hours - half_hour <=? e)
                 && (e <=? now + timedelta_hours hours + half_hour)
     | None => false
     end.

Definition lapsed (now : datetime) (s : Subscription) : bool :=
  disabled_status (sub_status s)
  || match sub_end_date s with Some e => e <? now | None => false end.

(** [a.get(".id")] when it is a non-empty string *)
Definition truthy_id (e : Entry) : option string :=
  match e !! ".id" with
  | Some s => if bool_decide (s = "") then None else Some s
  | None => None
  end.

Definition all_statuses : list SubscriptionStatus :=
  [ACTIVE; INACTIVE; SUSPENDED; EXPIRED; CANCELLED; PENDING].

Section Manager.
Context {be : Backend} {ros : RouterOS} {cfg : AgentConfig} {sv : SyncService}.

(** ** Churn window of an organization *)
Definition churn_days_for_org (org_id : option Z) (cache : gmap Z Z) : run (Z * gmap Z Z) :=
  match org_id with
  | None => mreturn (DEFAULT_CHURN_DAYS, cache)
  | Some o =>
      match cache !! o with
      | Some d => mreturn (d, cache)
      | None =>
          days <- mtry
            (settings <- query (fun db => t_settings db !! o) ;;
             mreturn (match settings with
                      | Some st => match org_auto_suspend_days st with
                                   | Some d => if 0 <? d then d else DEFAULT_CHURN_DAYS
                                   | None => DEFAULT_CHURN_DAYS end
                      | None => DEFAULT_CHURN_DAYS end))
            (fun _ => mreturn DEFAULT_CHURN_DAYS) ;;
          mreturn (days, <[o := days]> cache)
      end
  end.

(** ** Notifications *)

(** [select(User)] runs before the function's own import of [User]; what
    follows it is never reached. *)
Definition send_expiry_notification (i : Z) : run bool :=
  mtry (mraise (UnboundLocalError "User")) (fun _ => mreturn false).

Definition send_expiring_soon_notification (i : Z) (hours : Z) : run bool :=
  mtry
    (s <- sub_attrs i ;;
     user <- query (fun db => t_users db !! sub_user_id s) ;;
     match user with
     | None => mreturn false
     | Some u =>
         plan <- query (fun db => t_plans db !! sub_plan_id s) ;;
         let name := match plan with Some p => plan_name p | None => "Unknown" end in
         mtry
           (now <- utcnow ;;
            assign (over t_outbox (fun l => l ++ [pending_event now (expiring_event i s u name hours)])) ;;;
            commit)
           (fun _ => mreturn tt) ;;;
         mreturn true
     end)
    (fun _ => mreturn false).

(** ** Expired subscriptions *)
Definition backfill (ids : list Z) : run (gmap Z Z) :=
  mfold (fun cache i =>
    s <- sub_attrs i ;;
    let start := default (sub_created_at s) (sub_start_date s) in
    r <- churn_days_for_org (sub_organization_id s) cache ;;
    set_sub i (fun s => s <| sub_end_date := Some (start + timedelta_days (fst r)) |>) ;;;
    mreturn (snd r)) ∅ ids.

(** The [try] body for one subscription up to its synchronisation. *)
Definition expire_and_sync (i : Z) : run SyncResult :=
  set_sub i expire_row ;;;
  s <- sub_attrs i ;;
  assign (over t_history (fun h => h ++ [expiry_history i s])) ;;;
  sync_subscription i false.

(** The [except] branch: it reads [subscription.id] before it rolls back. *)
Definition processing_failed (i : Z) (acc : ExpiryResult) (e : exn)
    : run (ExpiryResult * option exn) :=
  let acc := acc <| er_failed ::= Z.succ |> in
  o <- mattempt (sub_attrs i) ;;
  match o with
  | Raise e' => mreturn (acc, Some e')
  | Ok _ =>
      rollback ;;;
      mreturn (acc <| er_errors ::= fun l => l ++ [StageError i (Some (Failed e)) "processing"] |>, None)
  end.

(** Notification and commit, after the synchronisation has been counted. *)
Definition finish_expiry (send_notifications : bool) (i : Z) (acc : ExpiryResult)
    : run (ExpiryResult * option exn) :=
  sent <- (if send_notifications then send_expiry_notification i else mreturn false) ;;
  let acc := if sent then acc <| er_notifications_sent ::= Z.succ |> else acc in
  o <- mattempt commit ;;
  match o with
  | Ok _ => mreturn (acc, None)
  | Raise e => processing_failed i acc e
  end.

Definition process_one (send_notifications : bool) (acc : ExpiryResult) (i : Z)
    : run (ExpiryResult * option exn) :=
  let acc := acc <| er_processed ::= Z.succ |> in
  o <- mattempt (expire_and_sync i) ;;
  match o with
  | Raise e => processing_failed i acc e
  | Ok r =>
      if sr_success r then
        finish_expiry send_notifications i (acc <| er_disabled_on_router ::= Z.succ |>)
      else
        o <- mattempt (sub_attrs i) ;;
        match o with
        | Raise e => processing_failed i acc e
        | Ok _ =>
            finish_expiry send_notifications i
              (acc <| er_errors ::= fun l => l ++ [StageError i (sr_error r) "router_sync"] |>)
        end
  end.

(** The query stage: backfill of the rows without an end date, then the rows
    whose end date has passed the grace period. *)
Definition find_expired (grace_period_minutes : Z) (batch_size : nat) : run (list Z) :=
  now <- utcnow ;;
  open_ended <- select_subs (fun _ => perpetual) (Some batch_size) ;;
  backfill open_ended ;;;
  mwhen (negb (bool_decide (open_ended = []))) flush ;;;
  select_subs (fun _ => due (now - timedelta_minutes grace_period_minutes)) (Some batch_size).

Definition process_expired_subscriptions (grace_period_minutes : Z) (batch_size : nat)
    (send_notifications : bool) : run ExpiryResult :=
  let failed (acc : ExpiryResult) e :=
    acc <| er_errors ::= fun l => l ++ [RunFailed e (Some "query")] |> in
  let results := mkExpiry 0 0 0 0 0 [] in
  o <- mattempt (find_expired grace_period_minutes batch_size) ;;
  match o with
  | Raise e => mreturn (failed results e)
  | Ok ids =>
      r <- mloop (process_one send_notifications)
             (results <| er_expired := Z.of_nat (length ids) |>) ids ;;
      mreturn (match r with (acc, None) => acc | (acc, Some e) => failed acc e end)
  end.

(** ** Expired hotspot vouchers *)
Definition active_router_of (organization_id : Z) (db : DB) : option (Z * Router) :=
  head (select (fun _ r => bool_decide (rt_organization_id r = Some organization_id) && rt_is_active r)
          (t_routers db)).

Definition expire_direct (r : Router) (username : string) : run unit :=
  client_connect r ;;;
  mfinally
    (users <- execute_command r "/ip/hotspot/user" GET [] ;;
     mfold (fun _ u =>
       match truthy_id u with
       | Some id =>
           if bool_decide (u !! "name" = Some username) then
             execute_command r "/ip/hotspot/user" SET [("id", Some id); ("disabled", Some "yes")] ;;;
             mreturn tt
           else mreturn tt
       | None => mreturn tt
       end) tt (or_empty users) ;;;
     actives <- execute_command r "/ip/hotspot/active" GET [] ;;
     mfold (fun _ a =>
       match truthy_id a with
       | Some id =>
           if bool_decide (a !! "user" = Some username) then
             execute_command r "/ip/hotspot/active" REMOVE [("id", Some id)] ;;;
             mreturn tt
           else mreturn tt
       | None => mreturn tt
       end) tt (or_empty actives))
    (client_disconnect r).

Definition expire_hotspot_user_on_router (organization_id : Z) (username : string) : run bool :=
  o <- query (active_router_of organization_id) ;;
  match o with
  | None => mreturn false
  | Some (router_id, r) =>
      if has_agent r then
        mtry
          (queue_command router_id "disable_user" [("username", username); ("type", "hotspot")] 2
             (Some "hotspot_expiry") (Some username) None ;;;
           queue_command router_id "disconnect" [("username", username)] 2
             (Some "hotspot_expiry") (Some username) None ;;;
           mreturn true)
          (fun _ => mreturn false)
      else mtry (expire_direct r username ;;; mreturn true) (fun _ => mreturn false)
  end.

Definition window_passed (now : datetime) (grace_period_minutes : Z) (p : ServicePlan)
    (activated_at : datetime) (churn_days : Z) : bool :=
  match access_expiry_from p activated_at (Some churn_days) with
  | Some expiry => expiry + timedelta_minutes grace_period_minutes <? now
  | None => false
  end.

Definition set_voucher (i : Z) (f : VoucherCode -> VoucherCode) : run unit :=
  assign (over t_vouchers (alter f i)).

Definition expire_candidate (now : datetime) (grace_period_minutes : Z)
    (acc : HotspotResult * gmap Z Z) (c : Candidate) : run (HotspotResult * gmap Z Z * option exn) :=
  let '(res, cache) := acc in
  let '(i, v, activated_at) := c in
  let failed (res : HotspotResult) (cache : gmap Z Z) (e : exn) :=
    let res := res <| hr_failed ::= Z.succ |> in
    o <- mattempt attrs_fresh ;;
    match o with
    | Raise e' => mreturn (res, cache, Some e')
    | Ok _ => mreturn (res <| hr_errors ::= fun l => l ++ [StageError i (Some (Failed e)) ""] |>, cache, None)
    end in
  plan <- mattempt (attrs_fresh ;;; query (fun db => t_plans db !! vch_plan_id v)) ;;
  match plan with
  | Raise e => failed res cache e
  | Ok None => mreturn (res, cache, None)
  | Ok (Some p) =>
      d <- churn_days_for_org (Some (vch_organization_id v)) cache ;;
      if window_passed now grace_period_minutes p activated_at (fst d) then
        let res := res <| hr_expired ::= Z.succ |> in
        o <- mattempt (expire_hotspot_user_on_router (vch_organization_id v)
                         (default "" (vch_hotspot_username v))) ;;
        match o with
        | Raise e => failed res (snd d) e
        | Ok done =>
            set_voucher i expire_voucher ;;;
            mreturn (if done then res <| hr_disabled_on_router ::= Z.succ |> else res, snd d, None)
        end
      else mreturn (res, snd d, None)
  end.

Definition process_expired_hotspot_users (grace_period_minutes : Z) (batch_size : nat)
    : run HotspotResult :=
  let results := mkHotspot 0 0 0 0 0 [] in
  let failed (res : HotspotResult) e :=
    rollback ;;;
    mreturn (res <| hr_errors ::= fun l => l ++ [RunFailed e (Some "query")] |>) in
  now <- utcnow ;;
  o <- mattempt (used <- query (used_candidates batch_size) ;;
                 bought <- query (purchased_candidates batch_size) ;;
                 mreturn (used ++ bought)) ;;
  match o with
  | Raise e => failed results e
  | Ok candidates =>
      let results := results <| hr_checked := Z.of_nat (length candidates) |> in
      r <- mloop (expire_candidate now grace_period_minutes) (results, ∅) candidates ;;
      match r with
      | (res, _, Some e) => failed res e
      | (res, _, None) =>
          o <- mattempt
            (n <- query (fun db => length (select (fun _ => stale_session now) (t_sessions db))) ;;
             execute_update (over t_sessions
               (map_imap (fun _ s => Some (if stale_session now s then close_session now s else s)))) ;;;
             mreturn n) ;;
          match o with
          | Raise e => failed res e
          | Ok n =>
              let res := res <| hr_sessions_expired := Z.of_nat n |> in
              o <- mattempt commit ;;
              match o with
              | Raise e => failed res e
              | Ok _ => mreturn res
              end
          end
      end
  end.

(** ** Warnings of a coming expiry *)
Definition notify_hours (batch_size : nat) (acc : NoticeResult) (hours : Z) : run NoticeResult :=
  now <- utcnow ;;
  o <- mattempt (select_subs (fun _ => expiring_around now hours) (Some batch_size)) ;;
  match o with
  | Raise e => mreturn (acc <| nr_errors ::= fun l => l ++ [AtHours None hours e] |>)
  | Ok ids =>
      let n := Z.of_nat (length ids) in
      let acc := acc <| nr_by_hours ::= fun l => l ++ [(hours, n)] |> <| nr_checked ::= Z.add n |> in
      mfold (fun acc i =>
        sent <- send_expiring_soon_notification i hours ;;
        mreturn (if sent then acc <| nr_notifications_sent ::= Z.succ |> else acc)) acc ids
  end.

Definition process_expiring_soon_notifications (hours_before : option (list Z)) (batch_size : nat)
    : run NoticeResult :=
  mfold (notify_hours batch_size) (mkNotice 0 0 [] []) (default [24; 6; 1] hours_before).

(** ** Sessions of lapsed subscriptions *)
Definition disconnect_session (r : Router) (session : Entry) (user_type : string) : run bool :=
  mtry
    (match truthy_id session with
     | None => mreturn false
     | Some id =>
         execute_command r (if bool_decide (user_type = "hotspot") then "/ip/hotspot/active" else "/ppp/active")
           REMOVE [("id", Some id)] ;;;
         mreturn true
     end)
    (fun _ => mreturn false).

Definition check_connection (router_id : Z) (r : Router) (acc : SessionCheck) (conn : Entry)
    : run (SessionCheck * option exn) :=
  let username := first_truthy conn ["user"; "name"] in
  if bool_decide (username = "") then mreturn (acc, None)
  else
    now <- utcnow ;;
    o <- mattempt
      (rows <- query (fun db => select (fun _ s =>
         bool_decide (sub_username s = username) && (sub_router_id s =? router_id) && lapsed now s)
         (t_subs db)) ;;
       scalar_one_or_none rows) ;;
    match o with
    | Raise e => mreturn (acc, Some e)
    | Ok None => mreturn (acc, None)
    | Ok (Some _) =>
        done <- disconnect_session r conn (default "hotspot" (conn !! "type")) ;;
        mreturn (if done then acc <| sc_disconnected ::= Z.succ |> else acc, None)
    end.

Definition check_router (acc : SessionCheck) (ir : Z * Router) : run SessionCheck :=
  let '(i, r) := ir in
  let acc := acc <| sc_routers_checked ::= Z.succ |> in
  let failed (acc : SessionCheck) e := acc <| sc_errors ::= fun l => l ++ [AtRouter i e] |> in
  c <- mattempt (client_connect r) ;;
  match c with
  | Raise e => mreturn (failed acc e)
  | Ok _ =>
      connections <- get_active_connections r ;;
      let acc := acc <| sc_sessions_checked ::= Z.add (Z.of_nat (length connections)) |> in
      res <- mloop (check_connection i r) acc connections ;;
      client_disconnect r ;;;
      mreturn (match res with (acc, None) => acc | (acc, Some e) => failed acc e end)
  end.

Definition check_and_disconnect_expired_sessions (router_id : option Z) : run SessionCheck :=
  let results := mkCheck 0 0 0 [] in
  o <- mattempt (query (fun db => select (fun i r =>
         match router_id with
         | Some j => if j =? 0 then bool_decide (rt_status r = ONLINE) else i =? j
         | None => bool_decide (rt_status r = ONLINE)
         end) (t_routers db))) ;;
  match o with
  | Raise e => mreturn (results <| sc_errors ::= fun l => l ++ [RunFailed e None] |>)
  | Ok routers => mfold check_router results routers
  end.

(** ** Statistics *)
Definition in_organization (organization_id : option Z) (s : Subscription) : bool :=
  match organization_id with
  | Some o => if o =? 0 then true else bool_decide (sub_organization_id s = Some o)
  | None => true
  end.

Definition count_subs (p : Subscription -> bool) (db : DB) : Z :=
  Z.of_nat (length (select (fun _ => p) (t_subs db))).

Definition get_expiry_statistics (organization_id : option Z) (days : Z)
    : run (exn + ExpiryStats) :=
  mtry
    (now <- utcnow ;;
     let mine := in_organization organization_id in
     counts <- mfold (fun acc st =>
       n <- query (count_subs (fun s => bool_decide (sub_status s = st) && mine s)) ;;
       mreturn (acc ++ [(status_value st, n)])) [] all_statuses ;;
     soon <- mfold (fun acc hl =>
       n <- query (count_subs (fun s => bool_decide (sub_status s = ACTIVE)
              && match sub_end_date s with
                 | Some e => (e <=? now + timedelta_hours (fst hl)) && (now <? e)
                 | None => false end && mine s)) ;;
       mreturn (acc ++ [(snd hl, n)])) [] [(24, "24h"); (168, "7d"); (720, "30d")] ;;
     recent <- query (count_subs (fun s => bool_decide (sub_status s = EXPIRED)
              && match sub_end_date s with Some e => now - timedelta_hours 24 <=? e | None => false end
              && mine s)) ;;
     mreturn (inr (mkExpiryStats days counts soon recent)))
    (fun e => mreturn (inl e)).

(** ** Renewal *)
Definition renew_subscription (i : Z) (new_end_date : datetime) (changed_by : option Z)
    : run RenewResult :=
  mtry
    (o <- get_sub i ;;
     match o with
     | None => mreturn (mkRenew false (Some RenewNotFound) None None None)
     | Some s =>
         set_sub i (fun s => s <| sub_status := ACTIVE |> <| sub_end_date := Some new_end_date |>
                               <| sub_is_router_synced := false |>) ;;;
         assign (over t_history (fun h => h ++ [mkHistory i "renewed" (Some (status_value (sub_status s)))
                   (Some (status_value ACTIVE)) ("Renewed until " +:+ str_of_datetime new_end_date)
                   changed_by None])) ;;;
         commit ;;;
         r <- sync_subscription i false ;;
         mreturn (mkRenew (sr_success r) None (Some new_end_date) (Some (sr_success r))
                    (if sr_success r then None else sr_error r))
     end)
    (fun e => rollback ;;; mreturn (mkRenew false (Some (RenewFailed e)) None None None)).
End Manager.
