(* ===== verification/ExpiryFacts.v ===== *)
(** * What the expiry passes guarantee

    The effect of the subscription pass in a session in good order and under
    a refused commit, of the hotspot pass on vouchers and sessions, the
    notifications, the statistics and the manager's renewal. *)

From stdpp Require Import sorting.
From S2P Require Import Prelude PyString Numerics Calendar Models Session Plan AgentQueue RouterSync Expiry.

Section SubscriptionPass.
Context {be : Backend} {ros : RouterOS} {sv : SyncService}.

(** ** Notifications *)
Lemma send_expiry_notification_false i w : send_expiry_notification i w = (Ok false, w).
Proof. done. Qed.

(** The result of a step in any session: it returns, and sends nothing. *)
Definition sends_none (m : run (ExpiryResult * option exn)) (acc : ExpiryResult) : Prop :=
  forall w, exists acc' e w', m w = (Ok (acc', e), w') /\
    er_notifications_sent acc' = er_notifications_sent acc.

Lemma processing_failed_none i acc e : sends_none (processing_failed i acc e) acc.
Proof.
  intros w. unfold processing_failed, mattempt, mthen.
  destruct (sub_attrs i w) as [[s|e'] w']; simpl; eauto 6.
Qed.

Lemma finish_expiry_none n i acc : sends_none (finish_expiry n i acc) acc.
Proof.
  intros w. unfold finish_expiry.
  assert (E : (if n then send_expiry_notification i else mreturn false) w = (Ok false, w)) by (by destruct n).
  rewrite (mthen_ok _ _ _ _ _ E). unfold mattempt, mthen.
  destruct (commit w) as [[[]|e] w']; [simpl; eauto 6|].
  destruct (processing_failed_none i acc e w') as (acc' & e' & w'' & E' & H). eauto 6.
Qed.

Lemma process_one_none n acc i : sends_none (process_one n acc i) acc.
Proof.
  intros w. unfold process_one, mattempt, mthen.
  destruct (expire_and_sync i w) as [[r|e] w1].
  - destruct (sr_success r).
    + exact (finish_expiry_none n i
               (acc <| er_processed ::= Z.succ |> <| er_disabled_on_router ::= Z.succ |>) w1).
    + destruct (sub_attrs i w1) as [[s|e] w2].
      * exact (finish_expiry_none n i (acc <| er_processed ::= Z.succ |>
                 <| er_errors ::= fun l => l ++ [StageError i (sr_error r) "router_sync"] |>) w2).
      * exact (processing_failed_none i (acc <| er_processed ::= Z.succ |>) e w2).
  - exact (processing_failed_none i (acc <| er_processed ::= Z.succ |>) e w1).
Qed.

Lemma process_loop_none n l : forall acc, sends_none (mloop (process_one n) acc l) acc.
Proof.
  induction l as [|i l IH]; intros acc w; simpl; [eauto 6|].
  destruct (process_one_none n acc i w) as (acc1 & e & w1 & E & H).
  rewrite (mthen_ok _ _ _ _ _ E). destruct e as [e|]; [eauto 6|].
  destruct (IH acc1 w1) as (acc2 & e2 & w2 & E2 & H2). rewrite H in H2. eauto 6.
Qed.

(** The pass always returns, whatever the state of the session and the
    router, and no expiry notification is ever sent, even when notifications
    are enabled: the function that should send them fails on its first line. *)
Theorem expiry_never_notifies (w : World) (grace : Z) (batch : nat) (notify : bool) :
  exists res w', process_expired_subscriptions grace batch notify w = (Ok res, w') /\
    er_notifications_sent res = 0.
Proof.
  unfold process_expired_subscriptions. cbv zeta. unfold mattempt, mthen at 1.
  destruct (find_expired grace batch w) as [[ids|e] w1]; [|eauto].
  destruct (process_loop_none notify ids
              ((mkExpiry 0 0 0 0 0 []) <| er_expired := Z.of_nat (length ids) |>) w1)
    as (acc & e & w2 & E & H).
  rewrite (mthen_ok _ _ _ _ _ E). do 2 eexists. split; [reflexivity|]. by destruct e.
Qed.

(** ** The pass in a session in good order *)
Lemma no_perpetual (w : World) i s :
  good w -> t_subs (w_view w) !! i = Some s -> perpetual s = false.
Proof.
  intros Hg Hs. pose proof (proj1 (good_schema w Hg) _ _ Hs) as H. unfold sub_row_ok in H.
  rewrite !andb_true_iff in H. destruct H as [[[[H _] _] _] _]. apply bool_decide_eq_true_1 in H.
  unfold perpetual. destruct H as [e ->]. by rewrite andb_comm.
Qed.

Lemma find_expired_good grace batch w :
  good w ->
  exists ids w', find_expired grace batch w = (Ok ids, w') /\ good w' /\
    w' = w <| w_loaded := w_loaded w' |> /\
    (forall i, i ∈ ids -> i ∈ w_loaded w' /\ exists s, t_subs (w_view w) !! i = Some s /\
       due (w_now w - timedelta_minutes grace) s = true) /\
    NoDup ids /\
    length ids = Nat.min batch (length (select (fun _ => due (w_now w - timedelta_minutes grace))
                                          (t_subs (w_view w)))).
Proof.
  intros Hg. unfold find_expired. rewrite (mthen_ok utcnow _ w (w_now w) w) by done.
  destruct (select_subs_good (fun _ => perpetual) (Some batch) w Hg)
    as (l1 & w1 & E1 & Hg1 & Hw1 & Hl1 & _ & _).
  rewrite (mthen_ok _ _ _ _ _ E1).
  assert (l1 = []) as ->.
  { destruct l1 as [|i l1]; [done|]. destruct (Hl1 i) as (_ & s & Hs & Hp); [apply list_elem_of_here|].
    by rewrite (no_perpetual w i s Hg Hs) in Hp. }
  rewrite (mthen_ok (backfill []) _ w1 ∅ w1) by done.
  rewrite (mthen_ok (mwhen _ flush) _ w1 tt w1) by done.
  destruct (select_subs_good (fun _ => due (w_now w - timedelta_minutes grace)) (Some batch) w1 Hg1)
    as (ids & w2 & E2 & Hg2 & Hw2 & Hids & Hnd & Hlen).
  assert (Hv : w_view w1 = w_view w) by (by rewrite Hw1).
  rewrite Hv in Hids, Hlen.
  exists ids, w2. split; [exact E2|]. split; [done|]. split; [rewrite Hw2, Hw1; done|]. done.
Qed.

Lemma expire_row_good i w : good w -> good (w <| w_view ::= over t_subs (alter expire_row i) |>).
Proof.
  intros Hg. apply good_view_alter; [|done]. intros s Hs. split; [|done].
  apply (proj1 (good_schema w Hg) _ _ Hs).
Qed.

(** What one turn of the loop leaves. *)
Record expired_one (i : Z) (s : Subscription) (w w' : World) : Prop := {
  xo_good : good w';
  xo_now : w_now w' = w_now w;
  xo_loaded : w_loaded w' = w_loaded w;
  xo_durable : w_durable w' = w_view w';
  xo_row : exists s', t_subs (w_view w') = <[i := s']> (t_subs (w_view w)) /\
             same_but_sync (expire_row s) s';
  xo_history : t_history (w_view w') = t_history (w_view w) ++ [expiry_history i s]
}.

Lemma expire_and_sync_good i s w :
  good w -> i ∈ w_loaded w -> t_subs (w_view w) !! i = Some s ->
  exists r w', expire_and_sync i w = (Ok r, w') /\ good w' /\ w_now w' = w_now w /\
    w_loaded w' = w_loaded w /\
    (exists s', t_subs (w_view w') = <[i := s']> (t_subs (w_view w)) /\ same_but_sync (expire_row s) s') /\
    t_history (w_view w') = t_history (w_view w) ++ [expiry_history i s].
Proof.
  intros Hg Hi Hs.
  set (w1 := w <| w_view ::= over t_subs (alter expire_row i) |>).
  assert (Hg1 : good w1) by (by apply expire_row_good).
  assert (Hs1 : t_subs (w_view w1) !! i = Some (expire_row s)) by (simpl; by rewrite lookup_alter_eq, Hs).
  set (w2 := w1 <| w_view ::= over t_history (fun h => h ++ [expiry_history i (expire_row s)]) |>).
  assert (Hg2 : good w2) by (by apply good_view).
  destruct (sync_spec i false w2 Hg2) as (r & w3 & E3 & [Hg3 Hn3 Hl3 Hf3 _]); [done|by eexists|].
  exists r, w3. split.
  { unfold expire_and_sync. rewrite (mthen_ok (set_sub _ _) _ w tt w1) by done.
    rewrite (mthen_ok _ _ w1 _ _ (sub_attrs_loaded i w1 _ Hi Hs1)).
    by rewrite (mthen_ok (assign _) _ w1 tt w2) by done. }
  destruct Hf3 as [Heq (g & Hg' & Hsub)]. split_all; [done|done|done| |by rewrite Heq].
  exists (g (expire_row s)). split; [|apply Hg'].
  rewrite Hsub. apply map_eq. intros j. simpl. destruct (decide (i = j)) as [<-|].
  - by rewrite lookup_insert_eq, !lookup_alter_eq, Hs.
  - by rewrite lookup_insert_ne, !lookup_alter_ne.
Qed.

Lemma process_one_good n acc i s w :
  good w -> i ∈ w_loaded w -> t_subs (w_view w) !! i = Some s ->
  exists acc' w', process_one n acc i w = (Ok (acc', None), w') /\ expired_one i s w w' /\
    er_processed acc' = Z.succ (er_processed acc) /\ er_expired acc' = er_expired acc /\
    er_failed acc' = er_failed acc /\
    er_disabled_on_router acc' + Z.of_nat (length (er_errors acc'))
      = er_disabled_on_router acc + Z.of_nat (length (er_errors acc)) + 1.
Proof.
  intros Hg Hi Hs. destruct (expire_and_sync_good i s w Hg Hi Hs)
    as (r & w1 & E & Hg1 & Hn1 & Hl1 & Hrow & Hhist).
  assert (Hx : expired_one i s w (w1 <| w_durable := w_view w1 |>)).
  { split; [by apply good_commit|done..]. }
  assert (Hfin : forall acc0, finish_expiry n i acc0 w1 = (Ok (acc0, None), w1 <| w_durable := w_view w1 |>)).
  { intros acc0. unfold finish_expiry.
    rewrite (mthen_ok _ _ w1 false w1) by (by destruct n).
    by rewrite (mthen_ok _ _ _ _ _ (mattempt_run _ _ _ _ (commit_good w1 Hg1))). }
  unfold process_one. rewrite (mthen_ok _ _ _ _ _ (mattempt_run _ _ _ _ E)).
  destruct (sr_success r).
  - do 2 eexists. split; [apply Hfin|]. split; [done|]. simpl. split_all; lia.
  - destruct Hrow as (s' & Hs' & _).
    assert (Ha : sub_attrs i w1 = (Ok s', w1)).
    { apply sub_attrs_loaded; [by rewrite Hl1|]. by rewrite Hs', lookup_insert_eq. }
    rewrite (mthen_ok _ _ _ _ _ (mattempt_run _ _ _ _ Ha)).
    do 2 eexists. split; [apply Hfin|]. split; [done|]. simpl. rewrite length_app. simpl. split_all; lia.
Qed.

Lemma process_loop_good n ids : forall acc w,
  good w -> NoDup ids ->
  (forall i, i ∈ ids -> i ∈ w_loaded w /\ is_Some (t_subs (w_view w) !! i)) ->
  exists acc' w', mloop (process_one n) acc ids w = (Ok (acc', None), w') /\ good w' /\
    (ids <> [] -> w_durable w' = w_view w') /\ (ids = [] -> w' = w) /\
    (forall i s, t_subs (w_view w) !! i = Some s ->
       exists s', t_subs (w_view w') !! i = Some s' /\
         (if bool_decide (i ∈ ids) then same_but_sync (expire_row s) s' else s' = s)) /\
    t_history (w_view w') = t_history (w_view w)
      ++ omap (fun i => expiry_history i <$> t_subs (w_view w) !! i) ids /\
    er_processed acc' = er_processed acc + Z.of_nat (length ids) /\
    er_expired acc' = er_expired acc /\ er_failed acc' = er_failed acc /\
    er_disabled_on_router acc' + Z.of_nat (length (er_errors acc'))
      = er_disabled_on_router acc + Z.of_nat (length (er_errors acc)) + Z.of_nat (length ids).
Proof.
  induction ids as [|i ids IH]; intros acc w Hg Hnd Hids.
  { exists acc, w. simpl. rewrite app_nil_r. split_all; try done; try lia.
    intros i s Hs. by exists s. }
  apply NoDup_cons in Hnd as [Hnot Hnd].
  destruct (Hids i) as [Hi [s Hs]]; [apply list_elem_of_here|].
  destruct (process_one_good n acc i s w Hg Hi Hs)
    as (acc1 & w1 & E1 & [Hg1 Hn1 Hl1 Hd1 (s1 & Hs1 & Hsame) Hh1] & P1 & X1 & F1 & D1).
  assert (Hother : forall j, j <> i -> t_subs (w_view w1) !! j = t_subs (w_view w) !! j).
  { intros j Hj. by rewrite Hs1, lookup_insert_ne. }
  destruct (IH acc1 w1 Hg1 Hnd) as (acc2 & w2 & E2 & Hg2 & Hd2 & Hnil & Hrow & Hh2 & P2 & X2 & F2 & D2).
  { intros j Hj. rewrite Hl1. destruct (Hids j) as [Hj1 Hj2]; [by apply list_elem_of_further|].
    split; [done|]. rewrite Hother; [done|]. by intros ->. }
  exists acc2, w2. split; [simpl; by rewrite (mthen_ok _ _ _ _ _ E1)|].
  split; [done|]. split.
  { intros _. destruct ids as [|j ids]; [by rewrite Hnil|by apply Hd2]. }
  split; [done|]. split; [|split; [|simpl length; split_all; lia]].
  - intros j sj Hj. destruct (decide (j = i)) as [->|Hne].
    + rewrite Hs in Hj. injection Hj as <-.
      destruct (Hrow i s1) as (s2 & H2 & Hs2); [by rewrite Hs1, lookup_insert_eq|].
      rewrite bool_decide_eq_false_2 in Hs2 by done. subst s2. exists s1. split; [done|].
      rewrite bool_decide_eq_true_2 by apply list_elem_of_here. done.
    + destruct (Hrow j sj) as (s2 & H2 & Hs2); [by rewrite Hother|]. exists s2. split; [done|].
      rewrite (bool_decide_ext (j ∈ i :: ids) (j ∈ ids)); [done|].
      rewrite elem_of_cons. tauto.
  - rewrite Hh2, Hh1. simpl. rewrite Hs. simpl. rewrite <- app_assoc. simpl. do 2 f_equal.
    apply list_omap_ext. apply Forall2_same_length_lookup_2; [done|].
    intros k x y Hx Hy. rewrite Hx in Hy. injection Hy as ->. rewrite Hother; [done|].
    intros ->. by apply list_elem_of_lookup_2 in Hx.
Qed.

(** C13. In a session in good order, one pass expires exactly the
    subscriptions it selects and leaves the rest alone, whatever the router
    answers: the selected ones are active and past the grace period, as many
    as the batch allows (all of them when it is large enough), each becomes
    EXPIRED in the committed table with its own history entry, none fails, and
    each is counted once as disabled on its router or with an error. *)
Theorem expiry_pass_exact (w : World) (grace : Z) (batch : nat) (notify : bool) :
  good w -> w_durable w = w_view w ->
  exists res w' ids, process_expired_subscriptions grace batch notify w = (Ok res, w') /\
    NoDup ids /\
    length ids = Nat.min batch (length (select (fun _ => due (w_now w - timedelta_minutes grace))
                                          (t_subs (w_view w)))) /\
    (forall i, i ∈ ids -> exists s, t_subs (w_view w) !! i = Some s /\
       due (w_now w - timedelta_minutes grace) s = true) /\
    (forall i s, t_subs (w_view w) !! i = Some s ->
       exists s', t_subs (w_durable w') !! i = Some s' /\
         (if bool_decide (i ∈ ids) then same_but_sync (expire_row s) s' else s' = s)) /\
    t_history (w_durable w') = t_history (w_view w)
      ++ omap (fun i => expiry_history i <$> t_subs (w_view w) !! i) ids /\
    er_expired res = Z.of_nat (length ids) /\ er_processed res = Z.of_nat (length ids) /\
    er_failed res = 0 /\
    er_disabled_on_router res + Z.of_nat (length (er_errors res)) = Z.of_nat (length ids).
Proof.
  intros Hg Hdur. destruct (find_expired_good grace batch w Hg)
    as (ids & w1 & E1 & Hg1 & Hw1 & Hids & Hnd & Hlen).
  assert (Hv : w_view w1 = w_view w) by (by rewrite Hw1).
  destruct (process_loop_good notify ids ((mkExpiry 0 0 0 0 0 []) <| er_expired := Z.of_nat (length ids) |>)
              w1 Hg1 Hnd) as (acc & w2 & E2 & Hg2 & Hd2 & Hnil & Hrow & Hh & P & X & F & D).
  { intros i Hi. destruct (Hids i Hi) as (Hl & s & Hs & _). rewrite Hv. eauto. }
  rewrite Hv in Hrow, Hh.
  assert (Hd : w_durable w2 = w_view w2).
  { destruct ids as [|i ids]; [|by apply Hd2]. rewrite Hnil, Hw1 by done. exact Hdur. }
  exists acc, w2, ids. split.
  { unfold process_expired_subscriptions. cbv zeta.
    rewrite (mthen_ok _ _ _ _ _ (mattempt_run _ _ _ _ E1)).
    by rewrite (mthen_ok _ _ _ _ _ E2). }
  rewrite Hd. split; [done|]. split; [done|]. split; [intros i Hi; by apply Hids|].
  split; [done|]. split; [done|]. simpl in *. split_all; lia.
Qed.
End SubscriptionPass.

(** ** A refused commit *)
Section Isolation.
Context {be : Backend} {ros : RouterOS} {sv : SyncService}.

(** Failures are not isolated: when the server refuses the commit of one
    subscription, the error branch reads an attribute that the refusal has
    expired, so that the whole pass ends there with one failure counted, no
    rollback, and none of the remaining subscriptions processed (with a
    session that cannot reload attributes implicitly, which is the case of the
    asynchronous one in use). *)
Theorem refused_commit_ends_pass (w w1 w2 : World) (grace : Z) (batch : nat) (notify : bool)
    (i : Z) (rest : list Z) (r : SyncResult) (fs : list bool) :
  reload_expired = false ->
  find_expired grace batch w = (Ok (i :: rest), w1) ->
  expire_and_sync i w1 = (Ok r, w2) -> sr_success r = true ->
  w_broken w2 = false -> w_faults w2 = true :: fs ->
  exists res w', process_expired_subscriptions grace batch notify w = (Ok res, w') /\
    er_expired res = Z.of_nat (length (i :: rest)) /\ er_processed res = 1 /\ er_failed res = 1 /\
    er_errors res = [RunFailed MissingGreenlet (Some "query")] /\
    w_durable w' = w_durable w2 /\ w_broken w' = true.
Proof.
  intros Hre Hfind Hexp Hs Hb Hf. unfold process_expired_subscriptions. cbv zeta.
  rewrite (mthen_ok _ _ _ _ _ (mattempt_run _ _ _ _ Hfind)). simpl mloop.
  set (acc := (mkExpiry 0 0 0 0 0 []) <| er_expired := Z.of_nat (length (i :: rest)) |>).
  set (w3 := w2 <| w_faults ::= tail |> <| w_view := w_durable w2 |> <| w_broken := true |>
               <| w_loaded := ∅ |> <| w_epoch ::= S |>).
  assert (Hc : commit w2 = (Raise DatabaseError, w3)).
  { unfold commit, mthen, flush. rewrite Hb, Hf. done. }
  assert (Ha : sub_attrs i w3 = (Raise MissingGreenlet, w3)).
  { unfold sub_attrs. rewrite Hre. done. }
  assert (Hone : process_one notify acc i w1 =
    (Ok (acc <| er_processed ::= Z.succ |> <| er_disabled_on_router ::= Z.succ |>
             <| er_failed ::= Z.succ |>, Some MissingGreenlet), w3)).
  { unfold process_one. rewrite (mthen_ok _ _ _ _ _ (mattempt_run _ _ _ _ Hexp)), Hs.
    unfold finish_expiry. rewrite (mthen_ok _ _ w2 false w2) by (by destruct notify).
    rewrite (mthen_ok _ _ _ _ _ (mattempt_run _ _ _ _ Hc)). unfold processing_failed.
    by rewrite (mthen_ok _ _ _ _ _ (mattempt_run _ _ _ _ Ha)). }
  do 2 eexists. split.
  { rewrite (mthen_ok _ _ w1 (acc <| er_processed ::= Z.succ |> <| er_disabled_on_router ::= Z.succ |>
             <| er_failed ::= Z.succ |>, Some MissingGreenlet) w3); [reflexivity|].
    by rewrite (mthen_ok _ _ _ _ _ Hone). }
  done.
Qed.

(** ** Renewal by the manager *)

(** A renewal is committed whatever the router does: it returns, the
    committed row is ACTIVE with the new end date, with one history entry that
    names the old status, and [success] only says whether the router was
    synchronised; an unknown subscription changes nothing. *)
Theorem manager_renewal (w : World) (i : Z) (new_end : datetime) (by_id : option Z) :
  good w ->
  match t_subs (w_view w) !! i with
  | None => renew_subscription i new_end by_id w = (Ok (mkRenew false (Some RenewNotFound) None None None), w)
  | Some s =>
      exists res w' s', renew_subscription i new_end by_id w = (Ok res, w') /\
        rn_error res = None /\ rn_new_end_date res = Some new_end /\
        rn_router_synced res = Some (rn_success res) /\
        t_subs (w_durable w') !! i = Some s' /\
        same_but_sync (s <| sub_status := ACTIVE |> <| sub_end_date := Some new_end |>
                         <| sub_is_router_synced := false |>) s' /\
        t_history (w_durable w') = t_history (w_view w) ++
          [mkHistory i "renewed" (Some (status_value (sub_status s))) (Some "active")
             ("Renewed until " +:+ str_of_datetime new_end) by_id None]
  end.
Proof.
  intros Hg. destruct (get_sub_good i w (good_broken w Hg)) as (w0 & E0 & Hw0).
  destruct (t_subs (w_view w) !! i) as [s|] eqn:Hs.
  2:{ unfold renew_subscription. apply mtry_ok. rewrite (mthen_ok _ _ _ _ _ E0). by subst w0. }
  set (f := fun s => s <| sub_status := ACTIVE |> <| sub_end_date := Some new_end |>
                       <| sub_is_router_synced := false |>).
  set (h := mkHistory i "renewed" (Some (status_value (sub_status s))) (Some "active")
             ("Renewed until " +:+ str_of_datetime new_end) by_id None).
  set (w1 := w0 <| w_view ::= over t_subs (alter f i) |>).
  set (w2 := w1 <| w_view ::= over t_history (fun l => l ++ [h]) |>).
  assert (Hg2 : good w2).
  { apply good_view; [|done..]. apply good_view_alter.
    - intros s0 Hs0. split; [|done].
      assert (Hs0' : sub_row_ok s0 = true).
      { subst w0. apply (proj1 (good_schema w Hg) _ _ Hs0). }
      unfold sub_row_ok in *. simpl. rewrite !andb_true_iff in Hs0'.
      destruct Hs0' as [[[[_ H1] H2] H3] H4]. by rewrite H1, H2, H3, H4.
    - subst w0. destruct Hg. by split. }
  set (w3 := w2 <| w_durable := w_view w2 |>).
  assert (Hs3 : t_subs (w_view w3) !! i = Some (f s)).
  { unfold w3, w2, w1. simpl. rewrite Hw0. simpl. by rewrite lookup_alter_eq, Hs. }
  destruct (sync_spec i false w3 (good_commit w2 Hg2)) as (r & w4 & E4 & [Hg4 _ _ Hf4 Hd4]).
  { unfold w3, w2, w1. simpl. rewrite Hw0. simpl. set_solver. }
  { eauto. }
  destruct (sync_frame_lookup _ _ _ _ _ Hf4 Hs3) as (s' & Hs' & Hsame).
  assert (Hdur : w_durable w4 = w_view w4) by (destruct Hd4 as [Hd|[Hv Hd]]; [done|by rewrite Hv, Hd]).
  do 2 eexists. exists s'. split.
  { unfold renew_subscription. apply mtry_ok. rewrite (mthen_ok _ _ _ _ _ E0). fold f.
    rewrite (mthen_ok (set_sub _ _) _ w0 tt w1) by done.
    rewrite (mthen_ok (assign _) _ w1 tt w2) by done.
    rewrite (mthen_ok _ _ _ _ _ (commit_good w2 Hg2)). fold w3.
    rewrite (mthen_ok _ _ _ _ _ E4). reflexivity. }
  split_all; [done|done|done|by rewrite Hdur|done|].
  rewrite Hdur. destruct Hf4 as [Heq _]. rewrite Heq. unfold w3, w2, w1. simpl. by rewrite Hw0.
Qed.

(** ** Statistics *)
Lemma count_split (mine : Subscription -> bool) (l : list (Z * Subscription)) :
  foldr Z.add 0 (map (fun st => Z.of_nat (length (filter
     (fun kv : Z * Subscription => bool_decide (sub_status kv.2 = st) && mine kv.2 = true) l))) all_statuses)
  = Z.of_nat (length (filter (fun kv : Z * Subscription => mine kv.2 = true) l)).
Proof.
  induction l as [|[i s] l IH]; [done|]. simpl in *. rewrite !filter_cons. simpl.
  destruct (mine s), (sub_status s); simpl; lia.
Qed.

Lemma mfold_queries {A K} (f : A -> DB -> Z) (g : A -> K) (l : list A) : forall acc w,
  w_broken w = false ->
  mfold (fun acc x => n <- query (f x) ;; mreturn (acc ++ [(g x, n)])) acc l w
  = (Ok (acc ++ map (fun x => (g x, f x (w_view w))) l), w).
Proof.
  induction l as [|x l IH]; intros acc w Hb; simpl; [by rewrite app_nil_r|].
  rewrite (mthen_ok _ _ w (acc ++ [(g x, f x (w_view w))]) w).
  - rewrite IH by done. by rewrite <- app_assoc.
  - by rewrite (mthen_ok _ _ _ _ _ (query_good _ w Hb)).
Qed.

(** The statistics partition the organization's subscriptions: the counts
    by status, one for each status in order, add up to the number of its
    subscriptions. *)
Theorem statistics_partition (w : World) (org : option Z) (days : Z) :
  good w ->
  exists st, get_expiry_statistics org days w = (Ok (inr st), w) /\
    map fst (es_counts st) = ["active"; "inactive"; "suspended"; "expired"; "cancelled"; "pending"] /\
    foldr Z.add 0 (map snd (es_counts st)) = count_subs (in_organization org) (w_view w).
Proof.
  intros Hg. pose proof (good_broken w Hg) as Hb. eexists. split.
  { unfold get_expiry_statistics. apply mtry_ok.
    rewrite (mthen_ok utcnow _ w (w_now w) w) by done. cbv zeta.
    rewrite (mthen_ok _ _ _ _ _ (mfold_queries (fun st => count_subs (fun s =>
      bool_decide (sub_status s = st) && in_organization org s)) status_value all_statuses [] w Hb)).
    rewrite (mthen_ok _ _ _ _ _ (mfold_queries (fun hl => count_subs (fun s =>
      bool_decide (sub_status s = ACTIVE)
      && match sub_end_date s with
         | Some e => (e <=? w_now w + timedelta_hours (fst hl)) && (w_now w <? e)
         | None => false end && in_organization org s)) snd _ [] w Hb)).
    rewrite (mthen_ok _ _ _ _ _ (query_good _ w Hb)). reflexivity. }
  split; [done|]. exact (count_split (in_organization org) (scan (t_subs (w_view w)))).
Qed.
End Isolation.

(** ** Concrete runs *)
Definition second_sub : Subscription := (sample_sub ACTIVE) <| sub_user_id := 6 |>.

Definition due_db : DB := (direct_db ACTIVE) <| t_subs := {[42 := sample_sub ACTIVE; 43 := second_sub]} |>.

(** Five minutes and a second after the end of the subscriptions. *)
Definition due_time : datetime := timedelta_minutes 6.

Definition idle_router : list (outcome (option (list Entry))) :=
  [Ok (Some []); Ok (Some []); Ok (Some []); Ok (Some [])].

Definition due_world (faults : list bool) : @World scripted_router :=
  (@start scripted_router due_time due_db idle_router) <| w_faults := faults |>.

Lemma due_good : good (due_world []).
Proof. apply good_start. apply (bool_decide_eq_true_1 (schema_ok due_db)). vm_compute. reflexivity. Qed.

Lemma expiry_pass_exact_witness :
  exists res w', process_expired_subscriptions 5 1 true (due_world []) = (Ok res, w') /\
    er_expired res = 1 /\ er_failed res = 0.
Proof.
  destruct (expiry_pass_exact (due_world []) 5 1 true due_good eq_refl)
    as (res & w' & ids & E & _ & Hlen & _ & _ & _ & Hx & _ & Hf & _).
  exists res, w'. split; [exact E|]. split; [|exact Hf]. rewrite Hx, Hlen. vm_compute. reflexivity.
Defined.

Lemma refused_commit_ends_pass_witness :
  exists res w', process_expired_subscriptions 5 10 true (due_world [false; true]) = (Ok res, w') /\
    er_expired res = 2 /\ er_processed res = 1.
Proof.
  set (w := due_world [false; true]). set (w1 := snd (find_expired 5 10 w)).
  set (w2 := snd (expire_and_sync 43 w1)).
  destruct (refused_commit_ends_pass w w1 w2 5 10 true 43 [42]
              (mkSyncResult true 43 (Some "disable") None false) []) as (res & w' & E & Hx & Hp & _).
  - reflexivity.
  - vm_compute. reflexivity.
  - vm_compute. reflexivity.
  - reflexivity.
  - vm_compute. reflexivity.
  - vm_compute. reflexivity.
  - exists res, w'. split; [exact E|]. split; [exact Hx|exact Hp].
Defined.

Lemma manager_renewal_witness :
  exists res w', renew_subscription 42 9000 None (due_world []) = (Ok res, w') /\
    rn_new_end_date res = Some 9000.
Proof.
  destruct (manager_renewal (due_world []) 42 9000 None due_good) as (res & w' & s' & E & _ & He & _).
  exists res, w'. split; [exact E|exact He].
Defined.

Lemma statistics_partition_witness :
  exists st, get_expiry_statistics (Some 1) 30 (due_world []) = (Ok (inr st), due_world []) /\
    foldr Z.add 0 (map snd (es_counts st)) = 2.
Proof.
  destruct (statistics_partition (due_world []) (Some 1) 30 due_good) as (st & E & _ & Hs).
  exists st. split; [exact E|]. rewrite Hs. vm_compute. reflexivity.
Defined.
