(* ===== verification/HotspotExpiry.v ===== *)
(** * What the hotspot pass guarantees

    The pass over redeemed and purchased vouchers: exactly the candidates
    whose access window (or churn window) and grace period have passed are
    expired, and stale sessions are closed. *)

From stdpp Require Import sorting.
From S2P Require Import Prelude PyString Numerics Calendar Models Session Plan AgentQueue RouterSync Expiry.

(** ** When a voucher is due *)
Definition churn_window (db : DB) (org : Z) : Z :=
  match t_settings db !! org with
  | Some st => match org_auto_suspend_days st with
               | Some d => if 0 <? d then d else DEFAULT_CHURN_DAYS
               | None => DEFAULT_CHURN_DAYS end
  | None => DEFAULT_CHURN_DAYS
  end.

Definition voucher_due (now : datetime) (grace : Z) (db : DB) (v : VoucherCode) (t : datetime) : bool :=
  match t_plans db !! vch_plan_id v with
  | Some p => window_passed now grace p t (churn_window db (vch_organization_id v))
  | None => false
  end.

Definition candidate_due (now : datetime) (grace : Z) (db : DB) (c : Candidate) : bool :=
  let '(_, v, t) := c in voucher_due now grace db v t.

Definition candidates {be : Backend} (n : nat) (db : DB) : list Candidate :=
  used_candidates n db ++ purchased_candidates n db.

Definition due_among (now : datetime) (grace : Z) (db : DB) (l : list Candidate) (i : Z) : bool :=
  existsb (fun c => bool_decide (fst (fst c) = i) && candidate_due now grace db c) l.

(** The tables a voucher's expiry may change. *)
Definition voucher_frame (db db' : DB) : Prop :=
  db' = db <| t_vouchers := t_vouchers db' |> <| t_commands := t_commands db' |>.

Lemma voucher_frame_trans db1 db2 db3 :
  voucher_frame db1 db2 -> voucher_frame db2 db3 -> voucher_frame db1 db3.
Proof. unfold voucher_frame. intros -> ->. done. Qed.

Lemma voucher_frame_due now grace db db' v t :
  voucher_frame db db' -> voucher_due now grace db' v t = voucher_due now grace db v t.
Proof. unfold voucher_frame. by intros ->. Qed.

Lemma churn_window_frame db db' o : voucher_frame db db' -> churn_window db' o = churn_window db o.
Proof. unfold voucher_frame. by intros ->. Qed.

(** The parts of the result that only a failure changes. *)
Definition kept (r : HotspotResult) : Z * list RunError * Z := (hr_failed r, hr_errors r, hr_checked r).

Section Pass.
Context {be : Backend} {ros : RouterOS} {cfg : AgentConfig}.

Lemma churn_days_good org cache w :
  w_broken w = false -> (forall o d, cache !! o = Some d -> d = churn_window (w_view w) o) ->
  exists cache', churn_days_for_org (Some org) cache w = (Ok (churn_window (w_view w) org, cache'), w) /\
    forall o d, cache' !! o = Some d -> d = churn_window (w_view w) o.
Proof.
  intros Hb Hc. unfold churn_days_for_org. destruct (cache !! org) as [d|] eqn:E.
  - exists cache. by rewrite (Hc _ _ E).
  - exists (<[org := churn_window (w_view w) org]> cache). split.
    + rewrite (mthen_ok _ _ w (churn_window (w_view w) org) w); [done|].
      apply mtry_ok. rewrite (mthen_ok _ _ _ _ _ (query_good _ w Hb)). done.
    + intros o d'. rewrite lookup_insert_Some. intros [[<- <-]|[_ H]]; [done|by apply Hc].
Qed.

Lemma device_expire_direct r username : device_only (expire_direct r username).
Proof.
  unfold expire_direct. apply device_only_then; [apply device_only_connect|intros _].
  intros w. unfold mfinally.
  match goal with |- context [match ?m w with _ => _ end] =>
    assert (Hm : device_only m) by (repeat device_step); specialize (Hm w); destruct (m w) as [o w1]
  end. done.
Qed.

Lemma expire_user_good org username w :
  good w ->
  exists b w', expire_hotspot_user_on_router org username w = (Ok b, w') /\ good w' /\
    w_now w' = w_now w /\ w_durable w' = w_durable w /\
    voucher_frame (w_view w) (w_view w') /\ t_vouchers (w_view w') = t_vouchers (w_view w).
Proof.
  intros Hg. unfold expire_hotspot_user_on_router.
  rewrite (mthen_ok _ _ _ _ _ (query_good _ w (good_broken w Hg))).
  destruct (active_router_of org (w_view w)) as [[rid r]|].
  2:{ exists false, w. split_all; try done. unfold voucher_frame. by destruct (w_view w). }
  destruct (has_agent r).
  - assert (Hq : forall action params sid v, good v ->
      exists n v', queue_command rid action params 2 (Some "hotspot_expiry") sid None v = (Ok n, v') /\
        good v' /\ w_now v' = w_now v /\ w_durable v' = w_durable v /\
        voucher_frame (w_view v) (w_view v') /\ t_vouchers (w_view v') = t_vouchers (w_view v)).
    { intros action params sid v Hv. do 2 eexists. split; [by apply queue_command_good|].
      split; [by apply good_view|]. by split_all. }
    destruct (Hq "disable_user" [("username", username); ("type", "hotspot")] (Some username) w Hg)
      as (n1 & w1 & E1 & Hg1 & Hn1 & Hd1 & Hf1 & Hv1).
    destruct (Hq "disconnect" [("username", username)] (Some username) w1 Hg1)
      as (n2 & w2 & E2 & Hg2 & Hn2 & Hd2 & Hf2 & Hv2).
    exists true, w2. split.
    { apply mtry_ok. rewrite (mthen_ok _ _ _ _ _ E1). by rewrite (mthen_ok _ _ _ _ _ E2). }
    split_all; [done|congruence|congruence|by eapply voucher_frame_trans|congruence].
  - pose proof (device_expire_direct r username w) as Hd.
    destruct (expire_direct r username w) as [o w1] eqn:E. simpl in Hd.
    exists (match o with Ok _ => true | Raise _ => false end), w1. split.
    { unfold mtry, mthen. rewrite E. by destruct o. }
    rewrite Hd. split_all; try done.
    + destruct Hg. by split.
    + unfold voucher_frame. by destruct (w_view w).
Qed.

(** One turn of the loop. *)
Lemma expire_candidate_good grace res cache i v t w :
  good w -> (forall o d, cache !! o = Some d -> d = churn_window (w_view w) o) ->
  exists res' cache' w', expire_candidate (w_now w) grace (res, cache) (i, v, t) w
      = (Ok (res', cache', None), w') /\ good w' /\ w_now w' = w_now w /\ w_durable w' = w_durable w /\
    voucher_frame (w_view w) (w_view w') /\
    t_vouchers (w_view w') = (if voucher_due (w_now w) grace (w_view w) v t
                              then alter expire_voucher i (t_vouchers (w_view w))
                              else t_vouchers (w_view w)) /\
    (forall o d, cache' !! o = Some d -> d = churn_window (w_view w') o) /\
    kept res' = kept res /\
    hr_expired res' = hr_expired res + (if voucher_due (w_now w) grace (w_view w) v t then 1 else 0).
Proof.
  intros Hg Hc. pose proof (good_broken w Hg) as Hb.
  assert (Hstay : forall res0 (cache0 : gmap Z Z), voucher_due (w_now w) grace (w_view w) v t = false ->
    kept res0 = kept res -> hr_expired res0 = hr_expired res ->
    (forall o d, cache0 !! o = Some d -> d = churn_window (w_view w) o) ->
    exists res' cache' w', (Ok (res0, cache0, None), w) = (Ok (res', cache', None : option exn), w') /\
      good w' /\ w_now w' = w_now w /\ w_durable w' = w_durable w /\
      voucher_frame (w_view w) (w_view w') /\
      t_vouchers (w_view w') = (if voucher_due (w_now w) grace (w_view w) v t
                                then alter expire_voucher i (t_vouchers (w_view w))
                                else t_vouchers (w_view w)) /\
      (forall o d, cache' !! o = Some d -> d = churn_window (w_view w') o) /\
      kept res' = kept res /\
      hr_expired res' = hr_expired res + (if voucher_due (w_now w) grace (w_view w) v t then 1 else 0)).
  { intros res0 cache0 Hd H1 H2 H3. exists res0, cache0, w. rewrite Hd. split_all; try done; [|lia].
    unfold voucher_frame. by destruct (w_view w). }
  unfold expire_candidate. cbv zeta.
  assert (Hplan : mattempt (attrs_fresh ;;; query (fun db => t_plans db !! vch_plan_id v)) w
                  = (Ok (Ok (t_plans (w_view w) !! vch_plan_id v)), w)).
  { apply mattempt_run. rewrite (mthen_ok attrs_fresh _ w tt w) by (unfold attrs_fresh; by rewrite Hb).
    exact (query_good _ w Hb). }
  rewrite (mthen_ok _ _ _ _ _ Hplan).
  destruct (t_plans (w_view w) !! vch_plan_id v) as [p|] eqn:Ep.
  2:{ apply Hstay; try done. unfold voucher_due. by rewrite Ep. }
  destruct (churn_days_good (vch_organization_id v) cache w Hb Hc) as (cache1 & Ec & Hc1).
  rewrite (mthen_ok _ _ _ _ _ Ec). simpl fst. simpl snd.
  assert (Hdue : voucher_due (w_now w) grace (w_view w) v t
                 = window_passed (w_now w) grace p t (churn_window (w_view w) (vch_organization_id v)))
    by (unfold voucher_due; by rewrite Ep).
  destruct (window_passed _ _ _ _ _); [|by apply Hstay].
  destruct (expire_user_good (vch_organization_id v) (default "" (vch_hotspot_username v)) w Hg)
    as (b & w1 & E1 & Hg1 & Hn1 & Hd1 & Hf1 & Hv1).
  rewrite (mthen_ok _ _ _ _ _ (mattempt_run _ _ _ _ E1)).
  set (w2 := w1 <| w_view ::= over t_vouchers (alter expire_voucher i) |>).
  do 3 eexists. split; [reflexivity|]. split; [by apply good_alter_voucher|].
  assert (Hf2 : voucher_frame (w_view w) (w_view w2)).
  { eapply voucher_frame_trans; [exact Hf1|]. done. }
  split_all; try done.
  - simpl. by rewrite Hdue, Hv1.
  - intros o d Hod. rewrite (Hc1 _ _ Hod). symmetry. exact (churn_window_frame _ _ o Hf2).
  - by destruct b.
  - rewrite Hdue. destruct b; simpl; lia.
Qed.

Lemma expire_voucher_twice v : expire_voucher (expire_voucher v) = expire_voucher v.
Proof. done. Qed.

Lemma expire_loop_good grace l : forall res cache w,
  good w -> (forall o d, cache !! o = Some d -> d = churn_window (w_view w) o) ->
  exists res' cache' w', mloop (expire_candidate (w_now w) grace) (res, cache) l w
      = (Ok (res', cache', None), w') /\ good w' /\ w_now w' = w_now w /\ w_durable w' = w_durable w /\
    voucher_frame (w_view w) (w_view w') /\
    (forall i, t_vouchers (w_view w') !! i =
       (fun v => if due_among (w_now w) grace (w_view w) l i then expire_voucher v else v)
         <$> t_vouchers (w_view w) !! i) /\
    kept res' = kept res /\
    hr_expired res' = hr_expired res
      + Z.of_nat (length (filter (fun c => candidate_due (w_now w) grace (w_view w) c = true) l)).
Proof.
  induction l as [|[[i v] t] l IH]; intros res cache w Hg Hc.
  { exists res, cache, w. simpl. split_all; try done; try lia.
    - unfold voucher_frame. by destruct (w_view w).
    - intros i. by rewrite option_fmap_id. }
  destruct (expire_candidate_good grace res cache i v t w Hg Hc)
    as (res1 & cache1 & w1 & E1 & Hg1 & Hn1 & Hd1 & Hf1 & Hv1 & Hc1 & F1 & X1).
  destruct (IH res1 cache1 w1 Hg1 Hc1) as (res2 & cache2 & w2 & E2 & Hg2 & Hn2 & Hd2 & Hf2 & Hv2 & F2 & X2).
  rewrite Hn1 in E2, Hv2, X2.
  assert (Hsame : forall c, candidate_due (w_now w) grace (w_view w1) c = candidate_due (w_now w) grace (w_view w) c).
  { intros [[j u] t']. by apply voucher_frame_due. }
  exists res2, cache2, w2. split; [simpl mloop; by rewrite (mthen_ok _ _ _ _ _ E1)|].
  split; [done|]. split; [congruence|]. split; [congruence|]. split; [by eapply voucher_frame_trans|].
  split; [|split; [congruence|]].
  - intros j. rewrite Hv2, Hv1.
    assert (Hdl : due_among (w_now w) grace (w_view w1) l j = due_among (w_now w) grace (w_view w) l j).
    { unfold due_among. induction l as [|c l' IHl]; [done|]. simpl. rewrite Hsame. f_equal.
      clear -Hsame. induction l' as [|c l' IH]; [done|]. simpl. by rewrite Hsame, IH. }
    rewrite Hdl. simpl. change (candidate_due (w_now w) grace (w_view w) (i, v, t))
      with (voucher_due (w_now w) grace (w_view w) v t).
    destruct (voucher_due (w_now w) grace (w_view w) v t); [|by rewrite andb_false_r].
    rewrite andb_true_r. destruct (decide (i = j)) as [->|Hne].
    + rewrite lookup_alter_eq, bool_decide_eq_true_2 by done. simpl.
      destruct (t_vouchers (w_view w) !! j); [|done]. simpl.
      destruct (due_among (w_now w) grace (w_view w) l j); reflexivity.
    + by rewrite lookup_alter_ne, bool_decide_eq_false_2.
  - rewrite X2, X1, filter_cons.
    assert (Hfil : filter (fun c => candidate_due (w_now w) grace (w_view w1) c = true) l
                   = filter (fun c => candidate_due (w_now w) grace (w_view w) c = true) l).
    { apply list_filter_iff. intros c. by rewrite Hsame. }
    rewrite Hfil. simpl. destruct (voucher_due (w_now w) grace (w_view w) v t).
    + rewrite decide_True by done. simpl. lia.
    + rewrite decide_False by done. lia.
Qed.

End Pass.

(** With an agent on the organization's router, expiring a hotspot user
    queues exactly two commands for it, to disable the user and then to end
    its session, both ahead of normal traffic, and reports success. *)
Theorem hotspot_expiry_queues {be : Backend} {ros : RouterOS} {cfg : AgentConfig}
    (w : World) (org rid : Z) (username : string) (r : Router) :
  good w -> active_router_of org (w_view w) = Some (rid, r) -> has_agent r = true ->
  exists w' c1 c2, expire_hotspot_user_on_router org username w = (Ok true, w') /\
    let m := t_commands (w_view w) in
    t_commands (w_view w') = <[next_id (<[next_id m := c1]> m) := c2]> (<[next_id m := c1]> m) /\
    w_trace w' = w_trace w /\
    cmd_action c1 = "disable_user" /\ cmd_action c2 = "disconnect" /\
    cmd_router_id c1 = rid /\ cmd_router_id c2 = rid /\ cmd_priority c1 = 2 /\ cmd_priority c2 = 2 /\
    param (cmd_params c1) "username" "" = username /\ param (cmd_params c2) "username" "" = username.
Proof.
  intros Hg Hr Ha. unfold expire_hotspot_user_on_router.
  rewrite (mthen_ok _ _ _ _ _ (query_good _ w (good_broken w Hg))), Hr, Ha.
  pose proof (queue_command_good rid "disable_user" [("username", username); ("type", "hotspot")] 2
                (Some "hotspot_expiry") (Some username) w Hg) as E1. cbv zeta in E1.
  set (w1 := w <| w_view ::= _ |>) in E1.
  assert (Hg1 : good w1) by (by apply good_view).
  pose proof (queue_command_good rid "disconnect" [("username", username)] 2
                (Some "hotspot_expiry") (Some username) w1 Hg1) as E2. cbv zeta in E2.
  do 3 eexists. split.
  { apply mtry_ok. rewrite (mthen_ok _ _ _ _ _ E1). rewrite (mthen_ok _ _ _ _ _ E2). reflexivity. }
  split; [reflexivity|]. by split_all.
Qed.

(** ** Concrete runs *)
Definition redeemed_voucher (t : datetime) : VoucherCode :=
  mkVoucher 1 "AB12-CD34" 3 V_USED true (Some t) None (Some "C029") (Some "865") 0
    None None None None None.

Definition voucher_db (t : datetime) : DB :=
  (agent_db ACTIVE) <| t_vouchers := {[9 := redeemed_voucher t]} |>.

Definition two_days : datetime := timedelta_days 2.

Lemma voucher_good t : good (start_offline two_days (voucher_db t)).
Proof. apply good_offline. vm_compute. reflexivity. Qed.


Lemma hotspot_expiry_queues_witness :
  exists w', expire_hotspot_user_on_router 1 "C029"
      (start_offline 0 ((voucher_db 0) <| t_routers ::= alter (fun r => r <| rt_is_active := true |>) 7 |>))
    = (Ok true, w') /\ size (t_commands (w_view w')) = 2%nat.
Proof.
  set (db := (voucher_db 0) <| t_routers ::= alter (fun r => r <| rt_is_active := true |>) 7 |>).
  destruct (hotspot_expiry_queues (start_offline 0 db) 1 7 "C029" (sample_router <| rt_is_active := true |>))
    as (w' & c1 & c2 & E & Hm & _).
  - apply good_offline. vm_compute. reflexivity.
  - vm_compute. reflexivity.
  - reflexivity.
  - exists w'. split; [exact E|]. rewrite Hm. vm_compute. reflexivity.
Defined.
