(* ===== verification/Churn.v ===== *)
(** * Churned customers

    [ChurnManager] of [src/app/modules/subscriptions/churn_manager.py]: the
    pass that marks long-expired hotspot customers as churned and the pass
    that purges them. *)

From S2P Require Import Prelude PyString Numerics Calendar Models Session Plan AgentQueue RouterSync.

Definition DEFAULT_HARD_PURGE_DAYS : Z := 90.
Definition DEFAULT_PRUNE_DAYS : Z := 14.

Record ChurnResult : Type := mkChurn {
  cr_scanned : Z;
  (** [churned] of one pass, [purged] of the other *)
  cr_done : Z;
  cr_router_removed : Z;
  cr_errors : Z
}.
#[export] Instance ChurnResult_eta : Eta ChurnResult := fun r =>
  mkChurn (cr_scanned r) (cr_done r) (cr_router_removed r) (cr_errors r).

Abbreviation RouterCache := (gmap (option Z) (option (Z * Router))).

Definition prune_days_by_org (db : DB) : gmap Z Z :=
  (fun st => match org_prune_inactive_users_days st with
             | Some d => if d =? 0 then DEFAULT_PRUNE_DAYS else d
             | None => DEFAULT_PRUNE_DAYS end) <$> t_settings db.

Definition prune_days (by_org : gmap Z Z) (org : option Z) : Z :=
  match org with Some o => default DEFAULT_PRUNE_DAYS (by_org !! o) | None => DEFAULT_PRUNE_DAYS end.

Definition churn_candidate (s : Subscription) : bool :=
  bool_decide (sub_type s = HOTSPOT) && bool_decide (sub_status s = EXPIRED).

(** Past the tenant's window of inactivity. *)
Definition inactive_too_long (now : datetime) (by_org : gmap Z Z) (s : Subscription) : bool :=
  match sub_end_date s with
  | Some e => e <? now - timedelta_days (prune_days by_org (sub_organization_id s))
  | None => false
  end.

Definition churn_row (s : Subscription) : Subscription := s <| sub_status := INACTIVE |>.

Definition purge_candidate (cutoff : datetime) (s : Subscription) : bool :=
  bool_decide (sub_type s = HOTSPOT) && bool_decide (sub_status s ∈ [INACTIVE; EXPIRED; CANCELLED])
  && match sub_end_date s with Some e => e <? cutoff | None => false end.

Section Manager.
Context {be : Backend} {ros : RouterOS} {cfg : AgentConfig}.

Definition router_for_org (org : option Z) (cache : RouterCache) : run (option (Z * Router) * RouterCache) :=
  match cache !! org with
  | Some r => mreturn (r, cache)
  | None =>
      r <- query (fun db => head (select (fun _ r =>
             bool_decide (rt_organization_id r = org) && rt_is_active r) (t_routers db))) ;;
      mreturn (r, <[org := r]> cache)
  end.

(** The [except] branch reads [router.id]. *)
Definition queue_remove_user (org : option Z) (username source : string) (source_id : Z)
    (cache : RouterCache) : run (bool * RouterCache) :=
  rc <- router_for_org org cache ;;
  let '(o, cache) := rc in
  match o with
  | None => mreturn (false, cache)
  | Some (router_id, r) =>
      if bool_decide (username = "") then mreturn (false, cache)
      else
        attrs_fresh ;;;
        if negb (has_agent r) then mreturn (false, cache)
        else
          mtry
            (queue_command router_id "remove_user" [("username", username); ("type", "hotspot")] 3
               (Some source) (Some (str_of_Z source_id)) None ;;;
             mreturn (true, cache))
            (fun _ => attrs_fresh ;;; mreturn (false, cache))
  end.

(** ** Tier 2: churn-mark *)
Definition churn_one (now : datetime) (by_org : gmap Z Z) (acc : ChurnResult * RouterCache) (i : Z)
    : run (ChurnResult * RouterCache) :=
  let '(res, cache) := acc in
  let res := res <| cr_scanned ::= Z.succ |> in
  o <- mattempt
    (s <- sub_attrs i ;;
     if inactive_too_long now by_org s then
       q <- queue_remove_user (sub_organization_id s) (sub_username s) "churn_mark" i cache ;;
       set_sub i churn_row ;;;
       mreturn ((if fst q then res <| cr_router_removed ::= Z.succ |> else res) <| cr_done ::= Z.succ |>,
                snd q)
     else mreturn (res, cache)) ;;
  match o with
  | Ok acc' => mreturn acc'
  | Raise e => sub_attrs i ;;; mreturn (res <| cr_errors ::= Z.succ |>, cache)
  end.

Definition process_churn_mark : run ChurnResult :=
  now <- utcnow ;;
  by_org <- query prune_days_by_org ;;
  ids <- select_subs (fun _ => churn_candidate) None ;;
  r <- mfold (churn_one now by_org) (mkChurn 0 0 0 0, ∅) ids ;;
  commit ;;;
  mreturn (fst r).

(** ** Tier 3: hard purge *)
Definition delete_footprint (i : Z) : run unit :=
  session_ids <- query (fun db => omap (fun p => pur_session_id p.2)
    (select (fun _ p => bool_decide (pur_subscription_id p = Some i)) (t_purchases db))) ;;
  execute_update (over t_purchases (fun m =>
    filter (fun kv => pur_subscription_id kv.2 <> Some i) m)) ;;;
  mwhen (negb (bool_decide (session_ids = [])))
    (execute_update (fun db => db
       <| t_sessions ::= fun m => filter (fun kv => kv.1 ∉ session_ids) m |>
       <| t_purchases ::= fmap (fun p => p <| pur_session_id ::= fun o =>
            match o with Some k => if bool_decide (k ∈ session_ids) then None else Some k | None => None end |>) |>)) ;;;
  delete_sub i ;;;
  commit.

Definition purge_failed (i : Z) (res : ChurnResult) (cache : RouterCache) : run (ChurnResult * RouterCache) :=
  let res := res <| cr_errors ::= Z.succ |> in
  sub_attrs i ;;;
  rollback ;;;
  mreturn (res, cache).

Definition purge_one (acc : ChurnResult * RouterCache) (i : Z) : run (ChurnResult * RouterCache) :=
  let '(res, cache) := acc in
  let res := res <| cr_scanned ::= Z.succ |> in
  o <- mattempt
    (s <- sub_attrs i ;;
     queue_remove_user (sub_organization_id s) (sub_username s) "hard_purge" i cache) ;;
  match o with
  | Raise e => purge_failed i res cache
  | Ok (queued, cache) =>
      let res := if queued then res <| cr_router_removed ::= Z.succ |> else res in
      o <- mattempt (delete_footprint i) ;;
      match o with
      | Raise e => purge_failed i res cache
      | Ok _ => mreturn (res <| cr_done ::= Z.succ |>, cache)
      end
  end.

Definition process_hard_purge (hard_purge_days : Z) : run ChurnResult :=
  now <- utcnow ;;
  ids <- select_subs (fun _ => purge_candidate (now - timedelta_days hard_purge_days)) None ;;
  r <- mfold purge_one (mkChurn 0 0 0 0, ∅) ids ;;
  mreturn (fst r).
End Manager.

(** ** The churn-mark pass in a session in good order *)
Section ChurnMark.
Context {be : Backend} {ros : RouterOS} {cfg : AgentConfig}.

(** A step that touches only the command queue, uncommitted. *)
Record queue_only (w w' : World) : Prop := {
  qo_good : good w';
  qo_now : w_now w' = w_now w;
  qo_loaded : w_loaded w' = w_loaded w;
  qo_durable : w_durable w' = w_durable w;
  qo_view : w_view w' = (w_view w) <| t_commands := t_commands (w_view w') |>
}.

Lemma queue_only_refl w : good w -> queue_only w w.
Proof. intros Hg. split; try done. by destruct (w_view w). Qed.

Lemma queue_remove_user_good org username source i cache w :
  good w ->
  exists r w', queue_remove_user org username source i cache w = (Ok r, w') /\ queue_only w w'.
Proof.
  intros Hg. pose proof (good_broken w Hg) as Hb. unfold queue_remove_user.
  assert (Hr : exists rc, router_for_org org cache w = (Ok rc, w)).
  { unfold router_for_org. destruct (cache !! org); [eauto|].
    eexists. by rewrite (mthen_ok _ _ _ _ _ (query_good _ w Hb)). }
  destruct Hr as ([o cache'] & Er). rewrite (mthen_ok _ _ _ _ _ Er).
  destruct o as [[rid r]|]; [|eauto using queue_only_refl].
  destruct (bool_decide (username = "")); [eauto using queue_only_refl|].
  rewrite (mthen_ok attrs_fresh _ w tt w) by (unfold attrs_fresh; by rewrite Hb).
  destruct (has_agent r); simpl; [|eauto using queue_only_refl].
  do 2 eexists. split.
  { apply mtry_ok. rewrite (mthen_ok _ _ _ _ _ (queue_command_good _ _ _ _ _ _ w Hg)). reflexivity. }
  split; try done. by apply good_view.
Qed.

Lemma churn_row_good i w : good w -> good (w <| w_view ::= over t_subs (alter churn_row i) |>).
Proof.
  intros Hg. apply good_view_alter; [|done]. intros s Hs. split; [|done].
  apply (proj1 (good_schema w Hg) _ _ Hs).
Qed.

(** The tables of the two worlds differ in the subscriptions and the queue. *)
Definition churn_frame (db db' : DB) : Prop :=
  db' = db <| t_subs := t_subs db' |> <| t_commands := t_commands db' |>.

Lemma churn_one_good by_org res cache i s w :
  good w -> i ∈ w_loaded w -> t_subs (w_view w) !! i = Some s ->
  exists res' cache' w', churn_one (w_now w) by_org (res, cache) i w = (Ok (res', cache'), w') /\
    good w' /\ w_now w' = w_now w /\ w_loaded w' = w_loaded w /\ churn_frame (w_view w) (w_view w') /\
    t_subs (w_view w') = (if inactive_too_long (w_now w) by_org s then alter churn_row i (t_subs (w_view w))
                          else t_subs (w_view w)) /\
    cr_scanned res' = cr_scanned res + 1 /\ cr_errors res' = cr_errors res /\
    cr_done res' = cr_done res + (if inactive_too_long (w_now w) by_org s then 1 else 0).
Proof.
  intros Hg Hi Hs. unfold churn_one. cbv zeta.
  pose proof (sub_attrs_loaded i w s Hi Hs) as Ha.
  destruct (inactive_too_long (w_now w) by_org s) eqn:Ed.
  - destruct (queue_remove_user_good (sub_organization_id s) (sub_username s) "churn_mark" i cache w Hg)
      as ([b cache'] & w1 & E1 & [Hg1 Hn1 Hl1 _ Hv1]).
    set (w2 := w1 <| w_view ::= over t_subs (alter churn_row i) |>).
    do 3 eexists. split.
    { rewrite (mthen_ok _ _ w (Ok ((if b then res <| cr_scanned ::= Z.succ |> <| cr_router_removed ::= Z.succ |>
               else res <| cr_scanned ::= Z.succ |>) <| cr_done ::= Z.succ |>, cache')) w2); [reflexivity|].
      apply mattempt_run. rewrite (mthen_ok _ _ _ _ _ Ha), Ed.
      by rewrite (mthen_ok _ _ _ _ _ E1). }
    split; [by apply churn_row_good|]. split; [done|]. split; [done|]. split.
    { unfold churn_frame. simpl. by rewrite Hv1. }
    split; [simpl; by rewrite Hv1|]. destruct b; simpl; split_all; lia.
  - do 3 eexists. split.
    { rewrite (mthen_ok _ _ w (Ok (res <| cr_scanned ::= Z.succ |>, cache)) w); [reflexivity|].
      apply mattempt_run. by rewrite (mthen_ok _ _ _ _ _ Ha), Ed. }
    split_all; try done; simpl; try lia. unfold churn_frame. by destruct (w_view w).
Qed.

Definition churned_among (now : datetime) (by_org : gmap Z Z) (ids : list Z) (i : Z) (s : Subscription)
    : Subscription :=
  if bool_decide (i ∈ ids) && inactive_too_long now by_org s then churn_row s else s.

Lemma churn_loop_good by_org ids : forall res cache w,
  good w -> NoDup ids ->
  (forall i, i ∈ ids -> i ∈ w_loaded w /\ is_Some (t_subs (w_view w) !! i)) ->
  exists res' cache' w', mfold (churn_one (w_now w) by_org) (res, cache) ids w = (Ok (res', cache'), w') /\
    good w' /\ churn_frame (w_view w) (w_view w') /\
    (forall i, t_subs (w_view w') !! i =
       churned_among (w_now w) by_org ids i <$> t_subs (w_view w) !! i) /\
    cr_scanned res' = cr_scanned res + Z.of_nat (length ids) /\ cr_errors res' = cr_errors res.
Proof.
  induction ids as [|i ids IH]; intros res cache w Hg Hnd Hids.
  { exists res, cache, w. simpl. split_all; try done; try lia.
    - unfold churn_frame. by destruct (w_view w).
    - intros i. by rewrite option_fmap_id. }
  apply NoDup_cons in Hnd as [Hnot Hnd].
  destruct (Hids i) as [Hi [s Hs]]; [apply list_elem_of_here|].
  destruct (churn_one_good by_org res cache i s w Hg Hi Hs)
    as (res1 & cache1 & w1 & E1 & Hg1 & Hn1 & Hl1 & Hf1 & Hs1 & S1 & R1 & _).
  assert (Hother : forall j, j <> i -> t_subs (w_view w1) !! j = t_subs (w_view w) !! j).
  { intros j Hj. rewrite Hs1. case_match; [|done]. by rewrite lookup_alter_ne. }
  destruct (IH res1 cache1 w1 Hg1 Hnd) as (res2 & cache2 & w2 & E2 & Hg2 & Hf2 & Hs2 & S2 & R2).
  { intros j Hj. rewrite Hl1. destruct (Hids j) as [H1 H2]; [by apply list_elem_of_further|].
    split; [done|]. rewrite Hother; [done|]. by intros ->. }
  rewrite Hn1 in E2, Hs2.
  exists res2, cache2, w2. split; [simpl; by rewrite (mthen_ok _ _ _ _ _ E1)|].
  split; [done|]. split; [unfold churn_frame in *; rewrite Hf2, Hf1; done|].
  split; [|simpl length; split; [lia|congruence]].
  intros j. rewrite Hs2. unfold churned_among. destruct (decide (j = i)) as [->|Hne].
  - rewrite (bool_decide_eq_false_2 (i ∈ ids)) by done.
    rewrite (bool_decide_eq_true_2 (i ∈ i :: ids)) by apply list_elem_of_here.
    rewrite Hs1. destruct (inactive_too_long (w_now w) by_org s) eqn:Ed;
      rewrite ?lookup_alter_eq, Hs; simpl; by rewrite Ed.
  - rewrite Hother by done. rewrite (bool_decide_ext (j ∈ i :: ids) (j ∈ ids)); [done|].
    rewrite elem_of_cons. tauto.
Qed.

(** The churn pass marks exactly the expired hotspot subscriptions whose
    end lies beyond their organization's window of inactivity (the default
    when it has none), in the committed table, and keeps every row: nothing
    is deleted, no other subscription changes, each candidate is scanned once
    and none is counted as an error. *)
Theorem churn_mark_exact (w : World) :
  good w ->
  exists res w', process_churn_mark w = (Ok res, w') /\ good w' /\
    (forall i, t_subs (w_durable w') !! i =
       (fun s => if churn_candidate s && inactive_too_long (w_now w) (prune_days_by_org (w_view w)) s
                 then churn_row s else s) <$> t_subs (w_view w) !! i) /\
    churn_frame (w_view w) (w_durable w') /\
    cr_scanned res = Z.of_nat (length (select (fun _ => churn_candidate) (t_subs (w_view w)))) /\
    cr_errors res = 0.
Proof.
  intros Hg. destruct (select_subs_good (fun _ => churn_candidate) None w Hg)
    as (ids & w1 & E1 & Hg1 & Hw1 & Hids & Hnd & Hall).
  assert (Hv : w_view w1 = w_view w) by (by rewrite Hw1).
  assert (Hn : w_now w1 = w_now w) by (by rewrite Hw1).
  destruct (churn_loop_good (prune_days_by_org (w_view w)) ids (mkChurn 0 0 0 0) ∅ w1 Hg1 Hnd)
    as (res & cache & w2 & E2 & Hg2 & Hf2 & Hs2 & S2 & R2).
  { intros i Hi. destruct (Hids i Hi) as (Hl & s & Hs & _). rewrite Hv. eauto. }
  rewrite Hn in E2, Hs2. rewrite Hv in Hs2, Hf2.
  exists res, (w2 <| w_durable := w_view w2 |>). split.
  { unfold process_churn_mark. rewrite (mthen_ok utcnow _ w (w_now w) w) by done.
    rewrite (mthen_ok _ _ _ _ _ (query_good _ w (good_broken w Hg))).
    rewrite (mthen_ok _ _ _ _ _ E1), (mthen_ok _ _ _ _ _ E2).
    by rewrite (mthen_ok _ _ _ _ _ (commit_good w2 Hg2)). }
  split; [by apply good_commit|]. split.
  { intros i. simpl. rewrite Hs2. destruct (t_subs (w_view w) !! i) as [s|] eqn:Hs; [|done].
    assert (Hin : bool_decide (i ∈ ids) = churn_candidate s).
    { destruct (churn_candidate s) eqn:Ec.
      - apply bool_decide_eq_true_2. rewrite Hall. apply list_elem_of_fmap. exists (i, s).
        split; [done|]. by apply (elem_of_select (fun _ => churn_candidate)).
      - apply bool_decide_eq_false_2. intros Hi. destruct (Hids i Hi) as (_ & s' & Hs' & Hc).
        rewrite Hs in Hs'. injection Hs' as <-. congruence. }
    simpl. unfold churned_among. by rewrite Hin. }
  split; [exact Hf2|]. split; [|exact R2]. simpl in S2. rewrite S2, Hall, length_map. done.
Qed.
End ChurnMark.

(** ** The hard purge and the history *)
Section HardPurge.
Context {be : Backend} {ros : RouterOS} {cfg : AgentConfig}.

Definition has_history (i : Z) (db : DB) : Prop :=
  exists h, h ∈ t_history db /\ hist_subscription_id h = i.

Lemma has_history_referenced i db : has_history i db -> sub_referenced i db = true.
Proof.
  intros (h & Hh & Hi). unfold sub_referenced. apply orb_true_iff. left.
  apply existsb_exists. exists h. split; [by apply list_elem_of_In|]. by apply Z.eqb_eq.
Qed.

Lemma delete_footprint_refused i w :
  w_broken w = false -> has_history i (w_view w) ->
  exists w', delete_footprint i w = (Raise DatabaseError, w') /\
    w_durable w' = w_durable w /\ w_loaded w' = w_loaded w /\ t_subs (w_view w') = t_subs (w_view w).
Proof.
  intros Hb Hh. unfold delete_footprint. rewrite (mthen_ok _ _ _ _ _ (query_good _ w Hb)).
  set (ids := omap _ _).
  rewrite (mthen_ok _ _ _ _ _ (execute_update_good _ w Hb)).
  set (w1 := w <| w_view ::= _ |>).
  assert (Hw : exists w2, mwhen (negb (bool_decide (ids = [])))
    (execute_update (fun db => db
       <| t_sessions ::= fun m => filter (fun kv => kv.1 ∉ ids) m |>
       <| t_purchases ::= fmap (fun p => p <| pur_session_id ::= fun o =>
            match o with Some k => if bool_decide (k ∈ ids) then None else Some k | None => None end |>) |>)) w1
    = (Ok tt, w2) /\ w_broken w2 = false /\ w_durable w2 = w_durable w /\ w_loaded w2 = w_loaded w /\
      t_subs (w_view w2) = t_subs (w_view w) /\ t_history (w_view w2) = t_history (w_view w)).
  { unfold mwhen. destruct (negb _); [|by exists w1].
    eexists. split; [by apply execute_update_good|done]. }
  destruct Hw as (w2 & E2 & Hb2 & Hd2 & Hl2 & Hs2 & Hh2).
  rewrite (mthen_ok _ _ _ _ _ E2).
  exists (w2 <| w_broken := true |>). split; [|done].
  unfold mthen, delete_sub. rewrite Hb2, has_history_referenced; [done|].
  unfold has_history. by rewrite Hh2.
Qed.

Lemma purge_refused i s res cache w :
  good w -> i ∈ w_loaded w -> t_subs (w_view w) !! i = Some s -> has_history i (w_view w) ->
  exists res' cache' w', purge_one (res, cache) i w = (Ok (res', cache'), w') /\
    w_view w' = w_durable w /\ w_durable w' = w_durable w /\ w_loaded w' = ∅ /\
    cr_scanned res' = cr_scanned res + 1 /\ cr_done res' = cr_done res /\ cr_errors res' = cr_errors res + 1.
Proof.
  intros Hg Hi Hs Hh. unfold purge_one. cbv zeta.
  destruct (queue_remove_user_good (sub_organization_id s) (sub_username s) "hard_purge" i cache w Hg)
    as ([b cache'] & w1 & E1 & [Hg1 Hn1 Hl1 Hd1 Hv1]).
  rewrite (mthen_ok _ _ w (Ok (b, cache')) w1).
  2:{ apply mattempt_run. by rewrite (mthen_ok _ _ _ _ _ (sub_attrs_loaded i w s Hi Hs)). }
  destruct (delete_footprint_refused i w1 (good_broken w1 Hg1)) as (w2 & E2 & Hd2 & Hl2 & Hs2).
  { unfold has_history. by rewrite Hv1. }
  rewrite (mthen_ok _ _ _ _ _ (mattempt_run _ _ _ _ E2)). unfold purge_failed. cbv zeta.
  rewrite (mthen_ok _ _ w2 s w2).
  2:{ apply sub_attrs_loaded; [by rewrite Hl2, Hl1|]. by rewrite Hs2, Hv1. }
  do 3 eexists. split; [reflexivity|]. simpl. rewrite Hd2, Hd1.
  destruct b; simpl; split_all; (done || lia).
Qed.

(** The hard purge never removes a customer whose subscription has a
    history entry, as every subscription expired by the system has: the
    server refuses the deletion, everything done for that customer is rolled
    back, and, if another customer is left, reading its expired attributes
    makes the whole pass raise; the committed tables are unchanged. *)
Theorem history_blocks_purge (w : World) (days i : Z) (rest : list Z) :
  reload_expired = false -> good w -> w_durable w = w_view w ->
  map fst (select (fun _ => purge_candidate (w_now w - timedelta_days days)) (t_subs (w_view w))) = i :: rest ->
  has_history i (w_view w) ->
  exists o w', process_hard_purge days w = (o, w') /\ w_durable w' = w_view w /\
    match rest with
    | [] => exists res, o = Ok res /\ cr_scanned res = 1 /\ cr_done res = 0 /\ cr_errors res = 1
    | _ => o = Raise MissingGreenlet
    end.
Proof.
  intros Hre Hg Hdur Hsel Hh. unfold process_hard_purge.
  rewrite (mthen_ok utcnow _ w (w_now w) w) by done.
  destruct (select_subs_good (fun _ => purge_candidate (w_now w - timedelta_days days)) None w Hg)
    as (ids & w1 & E1 & Hg1 & Hw1 & Hids & _ & Hall).
  rewrite Hsel in Hall. subst ids. rewrite (mthen_ok _ _ _ _ _ E1).
  destruct (Hids i) as (Hi & s & Hs & _); [apply list_elem_of_here|].
  assert (Hv : w_view w1 = w_view w) by (by rewrite Hw1).
  assert (Hd : w_durable w1 = w_view w) by (by rewrite Hw1).
  destruct (purge_refused i s (mkChurn 0 0 0 0) ∅ w1 Hg1 Hi) as
    (res & cache & w2 & E2 & _ & Hd2 & Hl2 & S2 & D2 & R2); [by rewrite Hv|by rewrite Hv|].
  rewrite Hd in Hd2. simpl mfold. destruct rest as [|j rest].
  - do 2 eexists. split.
    { rewrite (mthen_ok _ _ w1 (res, cache) w2); [reflexivity|].
      by rewrite (mthen_ok _ _ _ _ _ E2). }
    split; [done|]. exists res. split_all; [done|simpl in *; lia..].
  - assert (Hj : sub_attrs j w2 = (Raise MissingGreenlet, w2)).
    { unfold sub_attrs. by rewrite Hl2, Hre. }
    assert (E3 : purge_one (res, cache) j w2 = (Raise MissingGreenlet, w2)).
    { unfold purge_one. cbv zeta.
      rewrite (mthen_ok _ _ w2 (Raise MissingGreenlet) w2).
      2:{ apply mattempt_run. by rewrite (mthen_raise _ _ _ _ _ Hj). }
      unfold purge_failed. cbv zeta. by rewrite (mthen_raise _ _ _ _ _ Hj). }
    do 2 eexists. split; [|split; [exact Hd2|reflexivity]].
    rewrite (mthen_raise _ _ w1 MissingGreenlet w2); [reflexivity|].
    rewrite (mthen_ok _ _ _ _ _ E2). simpl. by rewrite (mthen_raise _ _ _ _ _ E3).
Qed.
End HardPurge.

(** ** Concrete runs *)
Definition churn_db : DB :=
  (agent_db EXPIRED) <| t_history := [mkHistory 42 "expired" (Some "active") (Some "expired") "" None (Some "system")] |>.

Definition in_a_year : datetime := timedelta_days 365.

Lemma churn_good : good (start_offline in_a_year churn_db).
Proof. apply good_offline. vm_compute. reflexivity. Qed.

Lemma churn_mark_exact_witness :
  exists res w', process_churn_mark (start_offline in_a_year churn_db) = (Ok res, w') /\
    (sub_status <$> t_subs (w_durable w') !! 42) = Some INACTIVE.
Proof.
  destruct (churn_mark_exact (start_offline in_a_year churn_db) churn_good)
    as (res & w' & E & _ & H & _).
  exists res, w'. split; [exact E|]. rewrite H. vm_compute. reflexivity.
Defined.

Lemma history_blocks_purge_witness :
  exists res w', process_hard_purge 90 (start_offline in_a_year churn_db) = (Ok res, w') /\
    cr_done res = 0 /\ t_subs (w_durable w') = t_subs churn_db.
Proof.
  destruct (history_blocks_purge (start_offline in_a_year churn_db) 90 42 []) as (o & w' & E & Hd & Ho).
  - reflexivity.
  - exact churn_good.
  - reflexivity.
  - vm_compute. reflexivity.
  - eexists. split; [apply list_elem_of_here|reflexivity].
  - destruct Ho as (res & -> & _ & Hdone & _). exists res, w'. split; [exact E|]. split; [exact Hdone|].
    rewrite Hd. reflexivity.
Defined.
