(* ===== verification/Billing.v ===== *)
(** * Invoices and payments

    [BillingService] of [src/app/modules/billing/service.py]: invoices and
    their items, payments and the ledger they feed, the gateway callbacks, and
    the activation of a subscription whose invoice is settled. Amounts are
    written to [Numeric(10, 2)] columns, which round to the cent. *)

From S2P Require Import Prelude PyString Numerics Calendar Models Session AgentQueue RouterSync.

(** ** Values *)

(** [if x:] on an optional identifier: [None] and [0] are false. *)
Definition truthy_id (o : option Z) : option Z :=
  match o with Some n => if n =? 0 then None else Some n | None => None end.

(** [min(amount * 0.015 + 100, 2000)] *)
Definition gateway_fee (amount : money) : money :=
  Z.min (amount * 15 / 1000 + units 100) (units 2000).

(** [PREFIX-%Y%m] *)
Definition number_prefix (kind : string) (now : datetime) : string :=
  let '(y, m, _) := date_of now in kind +:+ "-" +:+ zero_pad 4 y +:+ zero_pad 2 m.

(** [column LIKE 'prefix%'], for a prefix without wildcards. *)
Definition numbered {A} (f : A -> string) (prefix : string) (m : gmap Z A) : Z :=
  Z.of_nat (size (filter (fun kv => String.prefix prefix (f kv.2) = true) m)).

Definition next_number (prefix : string) (count : Z) : string :=
  prefix +:+ "-" +:+ zero_pad 4 (count + 1).

(** An entry of the list [items]: quantities in hundredths and prices in
    cents; an absent key has the default of [item.get]. *)
Record ItemData : Type := mkItemData {
  id_description : option string;
  id_quantity : option Z;
  id_unit_price : option Z;
  id_item_type : option string
}.

(** ** Row updates *)
Definition apply_payment (amount : money) (now : datetime) (v : Invoice) : Invoice :=
  let paid := inv_paid_amount v + amount in
  let balance := inv_total_amount v - paid in
  let v' := v <| inv_paid_amount := numeric_2 paid |> <| inv_balance := numeric_2 balance |> in
  if balance <=? 0 then v' <| inv_status := PAID |> <| inv_paid_date := Some now |> else v'.

Definition settles (amount : money) (v : Invoice) : bool :=
  inv_total_amount v - (inv_paid_amount v + amount) <=? 0.

Definition retotal (subtotal : money) (v : Invoice) : Invoice :=
  let total := subtotal + inv_tax_amount v - inv_discount_amount v in
  v <| inv_subtotal := numeric_2 subtotal |> <| inv_total_amount := numeric_2 total |>
    <| inv_balance := numeric_2 (total - inv_paid_amount v) |>.

Definition items_total (i : Z) (items : gmap Z InvoiceItem) : money :=
  map_fold (fun _ t acc => (if item_invoice_id t =? i then item_total_price t else 0) + acc) 0 items.

Definition mark_invoice (status : InvoiceStatus) (now : datetime) (v : Invoice) : Invoice :=
  let v' := v <| inv_status := status |> in
  match status with
  | PAID => v' <| inv_paid_date := Some now |> <| inv_balance := 0 |>
  | OVERDUE => if inv_due_date v' <? now then v' <| inv_status := OVERDUE |> else v'
  | _ => v'
  end.

Definition activate (s : Subscription) : Subscription :=
  s <| sub_status := ACTIVE |> <| sub_is_router_synced := false |>.

Definition new_invoice (now : datetime) (user_id : Z) (subscription_id : option Z)
    (number : string) (subtotal tax discount : money)
    (period_start period_end : option datetime) (notes : option string) : Invoice :=
  let total := subtotal + tax - discount in
  mkInvoice None user_id subscription_id number DRAFT (numeric_2 subtotal) (numeric_2 tax)
    (numeric_2 discount) (numeric_2 total) 0 (numeric_2 total) now (now + timedelta_days 30)
    None period_start period_end notes.

Definition offline_method (m : PaymentMethod) : bool :=
  bool_decide (m ∈ [CASH; BANK_TRANSFER]).

Definition new_payment (now : datetime) (user_id : Z) (number : string) (amount : money)
    (method : PaymentMethod) (invoice_id : option Z) (transaction_id reference notes : option string)
    (offline : bool) : Payment :=
  mkPayment None (Some user_id) invoice_id number (numeric_2 amount) "KES" method
    (if offline then COMPLETED else PAY_PENDING) transaction_id reference None None None
    (Some now) (if offline then Some now else None) notes None None None None None offline
    None None now.

Section Billing.
Context {be : Backend} {ros : RouterOS} {sync : SyncService}.

Definition set_invoice (i : Z) (f : Invoice -> Invoice) : run unit :=
  assign (over t_invoices (alter f i)).
Definition set_payment (i : Z) (f : Payment -> Payment) : run unit :=
  assign (over t_payments (alter f i)).
Definition set_transaction (i : Z) (f : PaymentTransaction -> PaymentTransaction) : run unit :=
  assign (over t_transactions (alter f i)).

Definition get_user (i : Z) : run (option User) := query (fun db => t_users db !! i).
Definition get_payment (i : Z) : run (option Payment) := query (fun db => t_payments db !! i).

(** ** Invoices *)
Definition get_invoice_by_id (i : Z) : run (option Invoice) :=
  mtry (if i <=? 0 then mraise (ValidationError "Invalid invoice ID")
        else query (fun db => t_invoices db !! i))
    (fun e => mraise (BillingError e)).

Definition generate_invoice_number : run string :=
  now <- utcnow ;;
  let prefix := number_prefix "INV" now in
  count <- query (fun db => numbered inv_invoice_number prefix (t_invoices db)) ;;
  mreturn (next_number prefix count).

Definition update_invoice_totals (i : Z) : run unit :=
  subtotal <- query (fun db => items_total i (t_items db)) ;;
  o <- get_invoice_by_id i ;;
  match o with
  | None => mreturn tt
  | Some _ => set_invoice i (retotal subtotal) ;;; commit
  end.

(** The key of the new item. *)
Definition add_invoice_item (i : Z) (description : string) (quantity unit_price : Z)
    (item_type : string) : run Z :=
  j <- query (fun db => next_id (t_items db)) ;;
  assign (over t_items (insert j (mkInvoiceItem i description quantity (cents unit_price)
    (numeric_2 (quantity * cents unit_price / 100)) item_type))) ;;;
  commit ;;;
  update_invoice_totals i ;;;
  mreturn j.

(** The key of the new invoice. *)
Definition create_invoice (user_id : Z) (subtotal : money) (subscription_id : option Z)
    (tax discount : money) (period_start period_end : option datetime) (notes : option string)
    (items : list ItemData) : run Z :=
  u <- get_user user_id ;;
  match u with
  | None => mraise (ValidationError "User does not exist")
  | Some _ =>
      (match truthy_id subscription_id with
       | None => mreturn tt
       | Some k =>
           o <- get_sub k ;;
           match o with
           | None => mraise (ValidationError "Subscription does not exist")
           | Some s => if sub_user_id s =? user_id then mreturn tt
                       else mraise (ValidationError "Subscription does not belong to user")
           end
       end) ;;;
      number <- generate_invoice_number ;;
      now <- utcnow ;;
      i <- query (fun db => next_id (t_invoices db)) ;;
      assign (over t_invoices (insert i (new_invoice now user_id subscription_id number subtotal
        tax discount period_start period_end notes))) ;;;
      commit ;;;
      mfold (fun _ t =>
          add_invoice_item i (default "" (id_description t)) (default 100 (id_quantity t))
            (default 0 (id_unit_price t)) (default "subscription" (id_item_type t)) ;;;
          mreturn tt)
        tt items ;;;
      mreturn i
  end.

(** [except ValidationError: raise; except Exception: raise BillingError], each
    after a rollback. *)
Definition item_errors {A} (m : run A) : run A :=
  mtry m (fun e =>
    rollback ;;;
    match e with ValidationError _ => mraise e | _ => mraise (BillingError e) end).

(** [setattr] of the keys that are present. *)
Definition edit_item (d : ItemData) (t : InvoiceItem) : InvoiceItem :=
  t <| item_description := default (item_description t) (id_description d) |>
    <| item_quantity := default (item_quantity t) (id_quantity d) |>
    <| item_unit_price := default (item_unit_price t) (cents <$> id_unit_price d) |>
    <| item_item_type := default (item_item_type t) (id_item_type d) |>.

Definition update_invoice_item (j : Z) (d : ItemData) : run (option InvoiceItem) :=
  item_errors
    ((if j <=? 0 then mraise (ValidationError "Invalid item ID") else mreturn tt) ;;;
     o <- query (fun db => t_items db !! j) ;;
     match o with
     | None => mreturn None
     | Some _ =>
         assign (over t_items (alter (edit_item d) j)) ;;;
         commit ;;;
         query (fun db => t_items db !! j)
     end).

Definition delete_invoice_item (j : Z) : run bool :=
  item_errors
    ((if j <=? 0 then mraise (ValidationError "Invalid item ID") else mreturn tt) ;;;
     o <- query (fun db => t_items db !! j) ;;
     match o with
     | None => mreturn false
     | Some _ =>
         assign (over t_items (delete j)) ;;;
         commit ;;;
         mreturn true
     end).

Definition update_invoice_status (i : Z) (status : InvoiceStatus) : run (option Invoice) :=
  o <- get_invoice_by_id i ;;
  match o with
  | None => mreturn None
  | Some _ =>
      now <- utcnow ;;
      set_invoice i (mark_invoice status now) ;;;
      commit ;;;
      query (fun db => t_invoices db !! i)
  end.

(** [self.db.get(subscription.plan_id, subscription.plan_id)]: the first
    argument of [Session.get] has to be a mapped class, an integer is not. *)
Definition get_plan_of (s : Subscription) : run (option ServicePlan) :=
  mraise NoInspectionAvailable.

Definition generate_subscription_invoice (k : Z) : run (option Z) :=
  o <- get_sub k ;;
  match o with
  | None => mreturn None
  | Some s =>
      u <- get_user (sub_user_id s) ;;
      match u with
      | None => mreturn None
      | Some _ =>
          p <- get_plan_of s ;;
          match p with
          | None => mreturn None
          | Some p =>
              i <- create_invoice (sub_user_id s) (plan_price p) (Some k) 0 0 (sub_start_date s)
                     (sub_end_date s) (Some ("Subscription invoice for " +:+ plan_name p))
                     [mkItemData (Some (plan_name p +:+ " - " +:+ cycle_value (plan_billing_cycle p)))
                        (Some 100) (Some (plan_price p / cents 1)) (Some "subscription")] ;;
              mreturn (Some i)
          end
      end
  end.

Record CycleResult : Type := mkCycleResult {
  cr_invoices_created : Z;
  cr_total_subscriptions : Z;
  cr_errors : list (Z * exn)
}.

Definition open_invoice (k : Z) (v : Invoice) : bool :=
  bool_decide (inv_subscription_id v = Some k)
  && bool_decide (inv_status v ∈ [DRAFT; INV_PENDING; PAID]).

Definition billed (org : option Z) (s : Subscription) : bool :=
  bool_decide (sub_status s = ACTIVE) && sub_is_auto_renewal s
  && match truthy_id org with
     | Some o => bool_decide (sub_organization_id s = Some o)
     | None => true
     end.

(** One subscription of the cycle: the count and the errors so far. *)
Definition bill_one (acc : Z * list (Z * exn)) (k : Z) : run (Z * list (Z * exn)) :=
  mtry
    (sub_attrs k ;;;
     rows <- query (fun db => select (fun _ => open_invoice k) (t_invoices db)) ;;
     existing <- scalar_one_or_none rows ;;
     match existing with
     | Some _ => mreturn acc
     | None => generate_subscription_invoice k ;;; mreturn (acc.1 + 1, acc.2)
     end)
    (fun e => sub_attrs k ;;; mreturn (acc.1, acc.2 ++ [(k, e)])).

Definition generate_billing_cycle_invoices (org : option Z) : run CycleResult :=
  ids <- select_subs (fun _ => billed org) None ;;
  r <- mfold bill_one (0, []) ids ;;
  mreturn (mkCycleResult r.1 (Z.of_nat (length ids)) r.2).

Definition overdue (org : option Z) (now : datetime) (v : Invoice) : bool :=
  bool_decide (inv_status v = INV_PENDING) && (inv_due_date v <? now)
  && match truthy_id org with
     | Some o => bool_decide (inv_organization_id v = Some o)
     | None => true
     end.

Definition get_overdue_invoices (org : option Z) : run (list (Z * Invoice)) :=
  now <- utcnow ;;
  query (fun db => select (fun _ => overdue org now) (t_invoices db)).

(** ** Payments *)
Definition activate_subscription_on_payment (k : Z) : run unit :=
  mtry
    (o <- get_sub k ;;
     match o with
     | None => mreturn tt
     | Some s =>
         if bool_decide (sub_status s = ACTIVE) then mreturn tt
         else
           set_sub k activate ;;;
           commit ;;;
           mtry (sync_subscription k false ;;; mreturn tt) (fun _ => mreturn tt)
     end)
    (fun _ => mreturn tt).

Definition apply_payment_to_invoice (i : Z) (amount : money) : run unit :=
  o <- get_invoice_by_id i ;;
  match o with
  | None => mreturn tt
  | Some v =>
      now <- utcnow ;;
      set_invoice i (apply_payment amount now) ;;;
      commit ;;;
      match truthy_id (inv_subscription_id v) with
      | Some k => mwhen (settles amount v) (activate_subscription_on_payment k)
      | None => mreturn tt
      end
  end.

Definition generate_payment_number : run string :=
  now <- utcnow ;;
  let prefix := number_prefix "PAY" now in
  count <- query (fun db => numbered pay_payment_number prefix (t_payments db)) ;;
  mreturn (next_number prefix count).

(** [self.db.add(payment)]: the key the row will get. *)
Definition add_payment (p : Payment) : run Z :=
  i <- query (fun db => next_id (t_payments db)) ;;
  assign (over t_payments (insert i p)) ;;;
  mreturn i.

Definition create_payment (user_id : Z) (amount : money) (method : PaymentMethod)
    (invoice_id : option Z) (transaction_id reference notes : option string) (is_manual : bool)
    : run Z :=
  number <- generate_payment_number ;;
  let offline := is_manual || offline_method method in
  now <- utcnow ;;
  i <- add_payment (new_payment now user_id number amount method invoice_id transaction_id
                      reference notes offline) ;;
  commit ;;;
  (if offline then
     match truthy_id invoice_id with
     | Some k => apply_payment_to_invoice k amount
     | None => mreturn tt
     end
   else mreturn tt) ;;;
  mreturn i.

(** ** Gateway callbacks *)

(** What [MpesaService.handle_payment_callback] would report. *)
Record MpesaResult : Type := mkMpesaResult {
  mr_success : bool;
  mr_payment_successful : bool;
  mr_checkout_request_id : option string;
  mr_mpesa_receipt_number : option string;
  mr_phone_number : option string
}.

(** The answer of a callback handler: [success], and the message or the
    exception whose text it carries. *)
Record Answer : Type := mkAnswer {
  an_success : bool;
  an_message : string + exn
}.

(** [MpesaService] of [billing/mpesa.py] declares no method of that name. *)
Definition mpesa_handle_payment_callback : run MpesaResult :=
  mraise (AttributeError "handle_payment_callback").

Definition confirm_mpesa (now : datetime) (r : MpesaResult) (p : Payment) : Payment :=
  p <| pay_status := COMPLETED |> <| pay_mpesa_receipt_number := mr_mpesa_receipt_number r |>
    <| pay_mpesa_phone_number := mr_phone_number r |>
    <| pay_mpesa_transaction_date := Some now |> <| pay_payment_date := Some now |>
    <| pay_processed_date := Some now |>.

Definition handle_mpesa_result (r : MpesaResult) : run Answer :=
  let failed := mkAnswer false (inl "Payment processing failed") in
  if mr_success r && mr_payment_successful r then
    match mr_checkout_request_id r with
    | None => mreturn failed
    | Some reference =>
        if bool_decide (reference = "") then mreturn failed
        else
          rows <- query (fun db =>
                    select (fun _ p => bool_decide (pay_reference_number p = Some reference))
                      (t_payments db)) ;;
          o <- scalar_one_or_none rows ;;
          match o with
          | None => mreturn failed
          | Some (i, p) =>
              now <- utcnow ;;
              set_payment i (confirm_mpesa now r) ;;;
              commit ;;;
              match truthy_id (pay_invoice_id p) with
              | Some k => apply_payment_to_invoice k (pay_amount p)
              | None => mreturn tt
              end ;;;
              mreturn (mkAnswer true (inl "Payment processed successfully"))
          end
    end
  else mreturn failed.

Definition handle_mpesa_callback : run Answer :=
  mtry (r <- mpesa_handle_payment_callback ;; handle_mpesa_result r)
    (fun e => mreturn (mkAnswer false (inr e))).

(** [MpesaService.initiate_payment(user, amount, account_reference, description)]
    is called with [phone_number=] and [invoice_number=]. *)
Definition mpesa_initiate_payment : run MpesaResult :=
  mraise (TypeError "unexpected keyword argument 'phone_number'").

(** [merchant_request_id] and [checkout_request_id] are the two strings of the
    gateway's reply. *)
Definition process_mpesa_payment (user_id amount : Z) (invoice_number : string)
    (merchant_request_id : option string) : run Answer :=
  mtry
    (r <- mpesa_initiate_payment ;;
     if mr_success r then
       create_payment user_id (units amount) MPESA None merchant_request_id
         (mr_checkout_request_id r) (Some ("MPESA STK Push for invoice " +:+ invoice_number))
         false ;;;
       mreturn (mkAnswer true (inl ""))
     else mreturn (mkAnswer false (inl "Payment initiation failed")))
    (fun e => mreturn (mkAnswer false (inr e))).

(** The [data] of a Paystack webhook: the amount in hundredths, and the result
    of parsing [paid_at] when the key is there, without its UTC offset. *)
Record WebhookData : Type := mkWebhookData {
  wd_reference : string;
  wd_amount : Z;
  wd_paid_at : option (outcome datetime);
  wd_gateway_response : option string;
  wd_reason : option string
}.

Definition complete_transaction (amount : money) (completed now : datetime)
    (t : PaymentTransaction) : PaymentTransaction :=
  t <| tx_status := "completed" |> <| tx_completed_at := Some completed |>
    <| tx_processed_at := Some now |>
    <| tx_gateway_fee := Some (numeric_2 (gateway_fee amount)) |>
    <| tx_net_amount := Some (numeric_2 (amount - gateway_fee amount)) |>.

Definition card_payment (now : datetime) (number : string) (t : PaymentTransaction)
    (amount : money) (paid : datetime) : Payment :=
  mkPayment None (tx_user_id t) (tx_invoice_id t) number (numeric_2 amount) (tx_currency t) CARD
    COMPLETED None (Some (tx_transaction_reference t)) None None None (Some paid) None None None
    None None None None false None None now.

Definition process_paystack_success (i : Z) (t : PaymentTransaction) (amount : money)
    (paid_at : option datetime) : run unit :=
  mtry
    (now <- utcnow ;;
     let paid := default now paid_at in
     set_transaction i (complete_transaction amount paid now) ;;;
     number <- generate_payment_number ;;
     add_payment (card_payment now number t amount paid) ;;;
     match truthy_id (tx_invoice_id t) with
     | Some k => apply_payment_to_invoice k amount
     | None => mreturn tt
     end ;;;
     attrs_fresh ;;;
     match truthy_id (tx_subscription_id t) with
     | Some k => activate_subscription_on_payment k
     | None => mreturn tt
     end ;;;
     commit)
    (fun e => rollback ;;; mraise e).

Definition record_transfer (event : string) (now : datetime) (d : WebhookData)
    (t : PaymentTransaction) : PaymentTransaction :=
  if bool_decide (event = "transfer.success") then
    t <| tx_status := "completed" |> <| tx_completed_at := Some now |> <| tx_status_message := None |>
  else
    t <| tx_status := "failed" |> <| tx_completed_at := None |>
      <| tx_status_message := Some (default "" (wd_reason d)) |>.

Definition handle_paystack_webhook (event : string) (d : WebhookData) : run Answer :=
  mtry
    (if bool_decide (wd_reference d = "") then
       mreturn (mkAnswer false (inl "No reference in webhook data"))
     else
       rows <- query (fun db =>
                 select (fun _ t => bool_decide (tx_transaction_reference t = wd_reference d))
                   (t_transactions db)) ;;
       o <- scalar_one_or_none rows ;;
       match o with
       | None => mreturn (mkAnswer false (inl "Transaction not found"))
       | Some (i, t) =>
           set_transaction i (fun t => t <| tx_callback_event := Some event |>) ;;;
           if bool_decide (event = "charge.success") then
             paid_at <- (match wd_paid_at d with
                         | None => mreturn None
                         | Some (Ok x) => mreturn (Some x)
                         | Some (Raise e) => mraise e
                         end) ;;
             process_paystack_success i t (cents (wd_amount d)) paid_at ;;;
             mreturn (mkAnswer true (inl "Payment processed successfully"))
           else if bool_decide (event = "charge.failed") then
             set_transaction i (fun t => t <| tx_status := "failed" |>
               <| tx_status_message := Some (default "Payment failed" (wd_gateway_response d)) |>) ;;;
             commit ;;;
             mreturn (mkAnswer true (inl "Payment failure recorded"))
           else if bool_decide (event ∈ ["transfer.success"; "transfer.failed"]) then
             now <- utcnow ;;
             set_transaction i (record_transfer event now d) ;;;
             commit ;;;
             mreturn (mkAnswer true (inl "Transfer recorded"))
           else mreturn (mkAnswer true (inl "Event acknowledged"))
       end)
    (fun e => mreturn (mkAnswer false (inr e))).

(** Both entry points that used to charge through the gateway. *)
Definition gateway_retired : string :=
  "Direct payment-gateway charging has been retired in isp-billing — payments are now initiated and confirmed via treasury-api.".
Definition initiate_paystack_payment (invoice_id : Z) : run Answer :=
  mreturn (mkAnswer false (inl gateway_retired)).
Definition verify_paystack_payment (reference : string) : run Answer :=
  mreturn (mkAnswer false (inl gateway_retired)).
End Billing.
