(* ===== verification/Payments.v ===== *)
(** * Manual payments and their verification

    [PaymentManagementService] of [src/app/modules/billing/payments.py]:
    payments recorded by an administrator, their verification one by one and
    in bulk, disbursements, and the recomputation of an invoice from its
    payments. *)

From S2P Require Import Prelude PyString Numerics Calendar Models Session AgentQueue RouterSync Billing.

(** The dictionary [payment_data]; an absent key is [None]. *)
Record PaymentData : Type := mkPaymentData {
  pd_user_id : Z;
  pd_invoice_id : option Z;
  pd_amount : money;
  pd_currency : option string;
  pd_payment_method : option string;
  pd_reference_number : option string;
  pd_notes : option string;
  pd_payment_date : option datetime
}.

(** [%H%M%S] *)
Definition clock_compact (t : datetime) : string :=
  let s := t mod usec_per_day / usec_per_second in
  zero_pad 2 (s / 3600) +:+ zero_pad 2 (s / 60 mod 60) +:+ zero_pad 2 (s mod 60).

(** [PREFIX-%Y%m%d%H%M%S-dddd]; the four digits come from the system's random
    source. *)
Definition manual_number (prefix : string) (now : datetime) (random_part : string) : string :=
  prefix +:+ "-" +:+ date_digits now +:+ clock_compact now +:+ "-" +:+ random_part.

Definition manual_payment (now : datetime) (number : string) (d : PaymentData)
    (recorded_by : Z) (receipt : option string) : Payment :=
  mkPayment None (Some (pd_user_id d)) (pd_invoice_id d) number (numeric_2 (pd_amount d))
    (default "KES" (pd_currency d))
    (if bool_decide (pd_payment_method d = Some "cash") then CASH else BANK_TRANSFER)
    UNCHECKED None (pd_reference_number d) None None None
    (Some (default now (pd_payment_date d))) None (pd_notes d) None None None None None true
    (Some recorded_by) receipt now.

Definition verify (status : PaymentStatus) (by_id : Z) (now : datetime) (notes : option string)
    (p : Payment) : Payment :=
  p <| pay_status := status |> <| pay_verified_by := Some by_id |>
    <| pay_verified_at := Some now |> <| pay_verification_notes := notes |>.

(** The [values] of the bulk update. *)
Definition bulk_set (status : PaymentStatus) (by_id : Z) (now : datetime) (notes : option string)
    (p : Payment) : Payment :=
  if bool_decide (status ∈ [CHECKED; UNCHECKED]) then verify status by_id now notes p
  else p <| pay_status := status |>.

(** Payments that count as money received. *)
Definition settled_status (st : PaymentStatus) : bool := bool_decide (st ∈ [COMPLETED; CHECKED]).

Definition settles_invoice (i : Z) (p : Payment) : bool :=
  bool_decide (pay_invoice_id p = Some i) && settled_status (pay_status p).

Definition settled_total (i : Z) (payments : gmap Z Payment) : money :=
  map_fold (fun _ p acc => (if settles_invoice i p then pay_amount p else 0) + acc) 0 payments.

(** The recomputed invoice. *)
Definition reconcile (total : money) (now : datetime) (v : Invoice) : Invoice :=
  let balance := inv_total_amount v - total in
  let v' := v <| inv_paid_amount := numeric_2 total |> <| inv_balance := numeric_2 balance |> in
  if balance <=? 0 then v' <| inv_status := PAID |> <| inv_paid_date := Some now |>
  else if 0 <? total then v' <| inv_status := INV_PENDING |>
  else v'.

Record VerifyEntry : Type := mkVerifyEntry {
  ve_payment_id : Z;
  ve_success : bool;
  ve_error : option (string + exn)
}.

Record BulkVerifyResult : Type := mkBulkVerify {
  bv_total_processed : Z;
  bv_successful : Z;
  bv_failed : Z;
  bv_results : list VerifyEntry
}.
#[export] Instance BulkVerifyResult_eta : Eta BulkVerifyResult := fun r =>
  mkBulkVerify (bv_total_processed r) (bv_successful r) (bv_failed r) (bv_results r).

Section Payments.
Context {be : Backend} {ros : RouterOS} {sync : SyncService}.

(** The key of the new payment. *)
Definition record_manual_payment (d : PaymentData) (recorded_by : Z) (receipt : option string)
    (random_part : string) : run Z :=
  mtry
    (now <- utcnow ;;
     i <- add_payment (manual_payment now (manual_number "MANUAL" now random_part) d
                         recorded_by receipt) ;;
     commit ;;;
     mreturn i)
    (fun e => rollback ;;; mraise e).

(** The invoice part of a verification: the subscription to activate. *)
Definition credit_invoice (p : Payment) (now : datetime) : run (option Z) :=
  match truthy_id (pay_invoice_id p) with
  | None => mreturn None
  | Some k =>
      o <- query (fun db => t_invoices db !! k) ;;
      match o with
      | None => mreturn None
      | Some v =>
          set_invoice k (apply_payment (pay_amount p) now) ;;;
          mreturn (if settles (pay_amount p) v then truthy_id (inv_subscription_id v) else None)
      end
  end.

Definition verify_payment (i : Z) (by_id : Z) (status : PaymentStatus) (notes : option string)
    : run bool :=
  o <- get_payment i ;;
  match o with
  | None => mreturn false
  | Some p =>
      mtry
        (now <- utcnow ;;
         set_payment i (verify status by_id now notes) ;;;
         k <- (if bool_decide (status = CHECKED) then credit_invoice p now else mreturn None) ;;
         commit ;;;
         match k with
         | Some k => mtry (activate_subscription_on_payment k) (fun _ => mreturn tt)
         | None => mreturn tt
         end ;;;
         attrs_fresh ;;;
         mreturn true)
        (fun _ => rollback ;;; mreturn false)
  end.

(** One payment of the bulk verification. *)
Definition verify_one (status : PaymentStatus) (by_id : Z) (notes : option string)
    (acc : BulkVerifyResult) (i : Z) : run BulkVerifyResult :=
  mtry
    (ok <- verify_payment i by_id status notes ;;
     mreturn
       (if ok then
          acc <| bv_successful ::= Z.succ |>
              <| bv_results ::= (fun l => l ++ [mkVerifyEntry i true None]) |>
        else
          acc <| bv_failed ::= Z.succ |>
              <| bv_results ::= (fun l => l ++ [mkVerifyEntry i false (Some (inl "Payment not found"))]) |>))
    (fun e => mreturn
       (acc <| bv_failed ::= Z.succ |>
            <| bv_results ::= (fun l => l ++ [mkVerifyEntry i false (Some (inr e))]) |>)).

Definition bulk_verify_payments (ids : list Z) (status : PaymentStatus) (by_id : Z)
    (notes : option string) : run BulkVerifyResult :=
  mfold (verify_one status by_id notes) (mkBulkVerify (Z.of_nat (length ids)) 0 0 []) ids.

(** The number of payments updated. *)
Definition bulk_update_payment_status (ids : list Z) (status : PaymentStatus) (by_id : Z)
    (notes : option string) : run Z :=
  mtry
    (rows <- query (fun db => select (fun i _ => bool_decide (i ∈ ids)) (t_payments db)) ;;
     (if bool_decide (length rows = length ids) then mreturn tt
      else mraise (ValidationError "Payments not found")) ;;;
     now <- utcnow ;;
     execute_update (over t_payments (map_imap (fun i p =>
       Some (if bool_decide (i ∈ ids) then bulk_set status by_id now notes p else p)))) ;;;
     (if bool_decide (status = CHECKED) then
        mfold (fun _ (row : Z * Payment) => credit_invoice row.2 now ;;; mreturn tt) tt rows
      else mreturn tt) ;;;
     commit ;;;
     mreturn (Z.of_nat (length ids)))
    (fun e => rollback ;;; mraise e).

Definition update_payment_disbursement (i : Z) (method reference : string) : run bool :=
  o <- get_payment i ;;
  match o with
  | None => mreturn false
  | Some _ =>
      mtry
        (set_payment i (fun p => p <| pay_disbursement_method := Some method |>
                                   <| pay_disbursement_reference := Some reference |>) ;;;
         commit ;;;
         mreturn true)
        (fun _ => rollback ;;; mreturn false)
  end.

Definition update_invoice_payment_status (i : Z) : run unit :=
  o <- query (fun db => t_invoices db !! i) ;;
  match o with
  | None => mreturn tt
  | Some _ =>
      total <- query (fun db => settled_total i (t_payments db)) ;;
      now <- utcnow ;;
      set_invoice i (reconcile total now) ;;;
      commit
  end.
End Payments.
