(* ===== verification/Ledger.v ===== *)
(** * Lemmas on the billing tables

    Rounding, document numbers, sums over a table, the schema of the billing
    tables under each kind of write, and the effect of activating a
    subscription; the theorems on billing are proved from these. *)

From S2P Require Import Prelude PyString Numerics Calendar Models Session AgentQueue RouterSync.
From S2P Require Import Billing Payments.

(** ** Amounts *)
Definition whole_cents (x : money) : Prop := exists n, x = cents n.

Lemma numeric_2_whole x : whole_cents x -> numeric_2 x = x.
Proof. intros [n ->]. apply numeric_2_cents. Qed.

Lemma whole_cents_add x y : whole_cents x -> whole_cents y -> whole_cents (x + y).
Proof. intros [m ->] [n ->]. exists (m + n). unfold cents. lia. Qed.

Lemma whole_cents_sub x y : whole_cents x -> whole_cents y -> whole_cents (x - y).
Proof. intros [m ->] [n ->]. exists (m - n). unfold cents. lia. Qed.

Lemma whole_cents_0 : whole_cents 0.
Proof. by exists 0. Qed.

Lemma fits_whole x : fits_10_2 x = true -> whole_cents x.
Proof.
  unfold fits_10_2. intros [H _]%andb_true_iff. apply Z.eqb_eq in H.
  exists (x / 1000). change (cents 1) with 1000 in H. unfold cents.
  pose proof (Z.div_mod x 1000 ltac:(lia)). lia.
Qed.

Lemma fits_intro x : whole_cents x -> Z.abs x < units (10 ^ 8) -> fits_10_2 x = true.
Proof.
  intros [n ->] H. unfold fits_10_2. apply andb_true_iff. split; [|by apply Z.ltb_lt].
  apply Z.eqb_eq. change (cents 1) with 1000. unfold cents. apply Z.mod_mul. lia.
Qed.

Create HintDb ledger.
#[export] Hint Resolve whole_cents_add whole_cents_sub whole_cents_0 fits_whole : ledger.

(** The amounts of a stored invoice. *)
Lemma invoice_row_amounts v : invoice_row_ok v = true ->
  whole_cents (inv_subtotal v) /\ whole_cents (inv_tax_amount v) /\
  whole_cents (inv_discount_amount v) /\ whole_cents (inv_total_amount v) /\
  whole_cents (inv_paid_amount v) /\ whole_cents (inv_balance v).
Proof.
  unfold invoice_row_ok. simpl. rewrite !andb_true_iff.
  intros (H1 & H2 & H3 & H4 & H5 & H6 & _). auto 10 with ledger.
Qed.

(** ** Document numbers *)
Lemma next_number_inj prefix m n :
  0 <= m -> 0 <= n -> next_number prefix m = next_number prefix n -> m = n.
Proof.
  unfold next_number. intros Hm Hn H%string_app_inj%string_app_inj.
  apply zero_pad_inj in H; lia.
Qed.

Section Numbers.
Context {A : Type} (f : A -> string) (prefix : string).

(** The numbers of one month run from the first without a gap: none of its
    documents was deleted. *)
Definition dense_numbers (m : gmap Z A) : Prop :=
  map_Forall (fun _ x => String.prefix prefix (f x) = true ->
    exists k, 0 <= k < numbered f prefix m /\ f x = next_number prefix k) m.

Lemma dense_fresh m i x :
  dense_numbers m -> m !! i = Some x -> f x <> next_number prefix (numbered f prefix m).
Proof.
  intros Hd Hi E. destruct (Hd i x Hi) as (k & Hk & E').
  { rewrite E. apply prefix_app. }
  rewrite E in E'. apply next_number_inj in E'; lia.
Qed.

Lemma numbered_insert m i x :
  m !! i = None -> String.prefix prefix (f x) = true ->
  numbered f prefix (<[i := x]> m) = numbered f prefix m + 1.
Proof.
  intros Hi Hx. unfold numbered. rewrite map_filter_insert_True by done.
  rewrite map_size_insert_None; [by rewrite Nat2Z.inj_succ|]. apply map_lookup_filter_None. by left.
Qed.

Lemma dense_insert m i x :
  dense_numbers m -> m !! i = None -> f x = next_number prefix (numbered f prefix m) ->
  dense_numbers (<[i := x]> m).
Proof.
  intros Hd Hi Hx. assert (Hp : String.prefix prefix (f x) = true).
  { rewrite Hx. apply prefix_app. }
  intros j y Hj Hy. rewrite numbered_insert by done.
  assert (0 <= numbered f prefix m) by (unfold numbered; lia).
  apply lookup_insert_Some in Hj as [[<- <-]|[_ Hj]].
  - exists (numbered f prefix m). split; [lia|done].
  - destruct (Hd j y Hj Hy) as (k & Hk & E). exists k. split; [lia|done].
Qed.
End Numbers.

(** ** Sums over a table *)
Section Sums.
Context {A : Type} (f : A -> Z).

Definition total_of (m : gmap Z A) : Z := map_fold (fun _ x acc => f x + acc) 0 m.

Lemma total_of_insert m i x : m !! i = None -> total_of (<[i := x]> m) = f x + total_of m.
Proof.
  intros Hi. unfold total_of. rewrite (map_fold_insert_L (fun _ x acc => f x + acc)); [done| |done].
  intros. lia.
Qed.

Lemma total_of_delete m i x : m !! i = Some x -> total_of m = f x + total_of (delete i m).
Proof.
  intros Hi. rewrite <- (insert_delete_id m i x Hi) at 1.
  apply total_of_insert, lookup_delete_eq.
Qed.

Lemma total_of_alter m i g x :
  m !! i = Some x -> total_of (alter g i m) = total_of m + f (g x) - f x.
Proof.
  intros Hi. rewrite (total_of_delete m i x Hi).
  rewrite (total_of_delete (alter g i m) i (g x)) by (by rewrite lookup_alter_eq, Hi).
  rewrite delete_alter_eq. lia.
Qed.

Lemma total_of_zero m : map_Forall (fun _ x => f x = 0) m -> total_of m = 0.
Proof.
  induction m as [|i x m Hi IH] using map_ind; [done|]. intros H.
  rewrite total_of_insert by done. rewrite IH by (by eapply map_Forall_insert_1_2).
  rewrite (map_Forall_insert_1_1 _ _ _ _ H). done.
Qed.

Lemma total_of_whole m :
  map_Forall (fun _ x => whole_cents (f x)) m -> whole_cents (total_of m).
Proof.
  induction m as [|i x m Hi IH] using map_ind; [by exists 0|]. intros H.
  rewrite total_of_insert by done. apply whole_cents_add.
  - by apply (map_Forall_insert_1_1 _ _ _ _ H).
  - apply IH. by eapply map_Forall_insert_1_2.
Qed.
End Sums.

(** What one payment, or one item, adds to an invoice. *)
Definition payment_share (i : Z) (p : Payment) : money :=
  if settles_invoice i p then pay_amount p else 0.
Definition item_share (i : Z) (t : InvoiceItem) : money :=
  if item_invoice_id t =? i then item_total_price t else 0.

Lemma settled_total_of i m : settled_total i m = total_of (payment_share i) m.
Proof. done. Qed.

Lemma items_total_of i m : items_total i m = total_of (item_share i) m.
Proof. done. Qed.

(** ** The schema of the billing tables under each write *)
Lemma refers_same_domain {A} (m m' : gmap Z A) o :
  (forall i, is_Some (m !! i) -> is_Some (m' !! i)) -> refers m o = true -> refers m' o = true.
Proof.
  intros H. destruct o as [i|]; [|done]. simpl.
  intros Hi%bool_decide_eq_true_1. apply bool_decide_eq_true_2. auto.
Qed.

Lemma item_ok_same_domain m m' t :
  (forall i, is_Some (m !! i) -> is_Some (m' !! i)) ->
  item_row_ok m t = true -> item_row_ok m' t = true.
Proof.
  unfold item_row_ok. rewrite !andb_true_iff. intros H [[[H1 H2] H3] H4].
  eauto using refers_same_domain.
Qed.

Lemma payment_ok_same_domain u m m' p :
  (forall i, is_Some (m !! i) -> is_Some (m' !! i)) ->
  payment_row_ok u m p = true -> payment_row_ok u m' p = true.
Proof.
  unfold payment_row_ok. rewrite !andb_true_iff. intros H [[[H1 H2] H3] H4].
  eauto using refers_same_domain.
Qed.

Section Writes.
Context {be : Backend} {ros : RouterOS}.

Lemma good_billing f w :
  good w -> (forall db, t_subs (f db) = t_subs db) -> (forall db, t_usage (f db) = t_usage db) ->
  (forall db, portal_tables (f db) = portal_tables db) ->
  (billing_ok (billing_tables (w_view w)) -> billing_ok (billing_tables (f (w_view w)))) ->
  good (w <| w_view ::= f |>).
Proof.
  intros [Hb Hf (H1 & H2 & H3 & H4 & H5)] Hs Hu Hp Hok. split; [done..|]. unfold schema_ok.
  change (w_view (w <| w_view ::= f |>)) with (f (w_view w)). rewrite Hs, Hu, Hp.
  exact (conj H1 (conj H2 (conj H3 (conj (Hok H4) H5)))).
Qed.

Lemma good_alter_invoice f i w :
  good w ->
  (forall v, t_invoices (w_view w) !! i = Some v ->
     invoice_row_ok (f v) = true /\ inv_invoice_number (f v) = inv_invoice_number v) ->
  good (w <| w_view ::= over t_invoices (alter f i) |>).
Proof.
  intros Hg Hf. apply good_billing; [done..|].
  intros (H1 & H2 & H3 & H4 & H5 & H6). simpl.
  assert (Hdom : forall j, is_Some (t_invoices (w_view w) !! j) ->
            is_Some (alter f i (t_invoices (w_view w)) !! j)).
  { intros j. by rewrite lookup_alter_is_Some. }
  split; [|split; [|split; [|split; [|done]]]].
  - apply map_Forall_alter; [done|]. intros v Hv. by apply Hf.
  - apply unique_alter; [done|]. intros v Hv. by apply Hf.
  - intros j t Ht. eapply item_ok_same_domain; [done|]. by apply (H3 j).
  - intros j p Hp. eapply payment_ok_same_domain; [done|]. by apply (H4 j).
Qed.

Lemma good_insert_invoice v i w :
  good w -> t_invoices (w_view w) !! i = None -> invoice_row_ok v = true ->
  (forall j v', t_invoices (w_view w) !! j = Some v' -> inv_invoice_number v' <> inv_invoice_number v) ->
  good (w <| w_view ::= over t_invoices (insert i v) |>).
Proof.
  intros Hg Hi Hv Hn. apply good_billing; [done..|].
  intros (H1 & H2 & H3 & H4 & H5 & H6). simpl.
  assert (Hdom : forall j, is_Some (t_invoices (w_view w) !! j) ->
            is_Some (<[i := v]> (t_invoices (w_view w)) !! j)).
  { intros j. rewrite lookup_insert_is_Some'. by right. }
  split; [|split; [|split; [|split; [|done]]]].
  - by apply map_Forall_insert_2.
  - by apply unique_insert.
  - intros j t Ht. eapply item_ok_same_domain; [done|]. by apply (H3 j).
  - intros j p Hp. eapply payment_ok_same_domain; [done|]. by apply (H4 j).
Qed.

Lemma good_insert_payment p i w :
  good w -> t_payments (w_view w) !! i = None ->
  payment_row_ok (t_users (w_view w)) (t_invoices (w_view w)) p = true ->
  (forall j q, t_payments (w_view w) !! j = Some q -> pay_payment_number q <> pay_payment_number p) ->
  good (w <| w_view ::= over t_payments (insert i p) |>).
Proof.
  intros Hg Hi Hp Hn. apply good_billing; [done..|].
  intros (H1 & H2 & H3 & H4 & H5 & H6). simpl.
  split; [done|split; [done|split; [done|split; [|split; [|done]]]]].
  - by apply map_Forall_insert_2.
  - by apply unique_insert.
Qed.

Lemma good_alter_payment f i w :
  good w ->
  (forall p, t_payments (w_view w) !! i = Some p ->
     pay_amount (f p) = pay_amount p /\ pay_user_id (f p) = pay_user_id p /\
     pay_invoice_id (f p) = pay_invoice_id p /\ pay_payment_number (f p) = pay_payment_number p) ->
  good (w <| w_view ::= over t_payments (alter f i) |>).
Proof.
  intros Hg Hf. apply good_billing; [done..|].
  intros (H1 & H2 & H3 & H4 & H5 & H6). simpl.
  split; [done|split; [done|split; [done|split; [|split; [|done]]]]].
  - apply map_Forall_alter; [done|]. intros p Hp. destruct (Hf p Hp) as (E1 & E2 & E3 & _).
    unfold payment_row_ok. rewrite E1, E2, E3. apply (H4 _ _ Hp).
  - apply unique_alter; [done|]. intros p Hp. by apply Hf.
Qed.

Lemma good_insert_item t j w :
  good w -> t_items (w_view w) !! j = None -> item_row_ok (t_invoices (w_view w)) t = true ->
  good (w <| w_view ::= over t_items (insert j t) |>).
Proof.
  intros Hg Hj Ht. apply good_billing; [done..|].
  intros (H1 & H2 & H3 & H4 & H5 & H6). simpl.
  split; [done|split; [done|split; [|done]]]. by apply map_Forall_insert_2.
Qed.

Lemma good_alter_item f j w :
  good w ->
  (forall t, t_items (w_view w) !! j = Some t -> item_row_ok (t_invoices (w_view w)) (f t) = true) ->
  good (w <| w_view ::= over t_items (alter f j) |>).
Proof.
  intros Hg Hf. apply good_billing; [done..|].
  intros (H1 & H2 & H3 & H4 & H5 & H6). simpl.
  split; [done|split; [done|split; [|done]]]. by apply map_Forall_alter.
Qed.

Lemma good_delete_item j w :
  good w -> good (w <| w_view ::= over t_items (delete j) |>).
Proof.
  intros Hg. apply good_billing; [done..|].
  intros (H1 & H2 & H3 & H4 & H5 & H6). simpl.
  split; [done|split; [done|split; [|done]]]. by apply map_Forall_delete.
Qed.

Lemma good_alter_transaction f i w :
  good w ->
  (forall t, t_transactions (w_view w) !! i = Some t ->
     transaction_row_ok (f t) = true /\ tx_transaction_reference (f t) = tx_transaction_reference t) ->
  good (w <| w_view ::= over t_transactions (alter f i) |>).
Proof.
  intros Hg Hf. apply good_billing; [done..|].
  intros (H1 & H2 & H3 & H4 & H5 & H6 & H7). simpl.
  split; [done|split; [done|split; [done|split; [done|split; [done|split]]]]].
  - apply map_Forall_alter; [done|]. intros t Ht. by apply Hf.
  - apply unique_alter; [done|]. intros t Ht. by apply Hf.
Qed.

Lemma good_invoice_row i v w :
  good w -> t_invoices (w_view w) !! i = Some v -> invoice_row_ok v = true.
Proof. intros [_ _ (_ & _ & _ & (H & _) & _)]. apply H. Qed.

Lemma good_payment_row i p w :
  good w -> t_payments (w_view w) !! i = Some p ->
  payment_row_ok (t_users (w_view w)) (t_invoices (w_view w)) p = true.
Proof. intros [_ _ (_ & _ & _ & (_ & _ & _ & H & _) & _)]. apply H. Qed.

Lemma good_item_row j t w :
  good w -> t_items (w_view w) !! j = Some t -> item_row_ok (t_invoices (w_view w)) t = true.
Proof. intros [_ _ (_ & _ & _ & (_ & _ & H & _) & _)]. apply H. Qed.

(** A commit of a view the schema refuses. *)
Lemma commit_refused w :
  w_broken w = false -> w_faults w = [] -> ~ schema_ok (w_view w) ->
  exists w', commit w = (Raise DatabaseError, w') /\ w_durable w' = w_durable w /\
    w_broken w' = true.
Proof.
  intros Hb Hf Hs. unfold commit, flush, mthen. rewrite Hb, Hf, bool_decide_eq_false_2 by done.
  eexists. split; [reflexivity|done].
Qed.
End Writes.

(** ** Activation *)

(** Every subscription is kept with its end date, and only [k] changes status:
    it is ACTIVE. *)
Definition activated (k : Z) (db db' : DB) : Prop :=
  forall j s, t_subs db !! j = Some s ->
  exists s', t_subs db' !! j = Some s' /\ sub_end_date s' = sub_end_date s /\
    sub_status s' = if j =? k then ACTIVE else sub_status s.

(** The subscriptions keep their status and end date. *)
Definition untouched (db db' : DB) : Prop :=
  forall j s, t_subs db !! j = Some s ->
  exists s', t_subs db' !! j = Some s' /\ sub_end_date s' = sub_end_date s /\
    sub_status s' = sub_status s.

(** A session in good order with nothing uncommitted. *)
Record quiet {ros : RouterOS} (w : World) : Prop := {
  quiet_good : good w;
  quiet_durable : w_durable w = w_view w
}.

Section Activation.
Context {be : Backend} {ros : RouterOS} {sync : SyncService}.

Lemma quiet_loaded s w : quiet w -> quiet (w <| w_loaded ::= s |>).
Proof. intros [[] Hd]. split; [by split|done]. Qed.

Lemma quiet_commit w : good w -> quiet (w <| w_durable := w_view w |>).
Proof. intros []. by split. Qed.

Lemma sync_quiet i force w :
  quiet w -> i ∈ w_loaded w -> is_Some (t_subs (w_view w) !! i) ->
  exists r w', sync_subscription i force w = (Ok r, w') /\ quiet w' /\ w_now w' = w_now w /\
    sync_frame i (w_view w) (w_view w').
Proof.
  intros [Hg Hd] Hi Hs. destruct (sync_spec i force w Hg Hi Hs) as (r & w' & E & [Hg' Hn _ Hf Hd']).
  exists r, w'. split; [done|]. split; [|done]. split; [done|].
  destruct Hd' as [|[E1 E2]]; congruence.
Qed.

Lemma sync_frame_billing i db db' : sync_frame i db db' -> billing_tables db' = billing_tables db.
Proof. by intros [-> _]. Qed.

Lemma activation k w :
  quiet w ->
  exists w', activate_subscription_on_payment k w = (Ok tt, w') /\ quiet w' /\
    w_now w' = w_now w /\ billing_tables (w_view w') = billing_tables (w_view w) /\
    activated k (w_view w) (w_view w').
Proof.
  intros Hq. destruct Hq as [Hg Hd]. unfold activate_subscription_on_payment.
  destruct (get_sub_good k w (good_broken w Hg)) as (w0 & E0 & Hw0).
  destruct (t_subs (w_view w) !! k) as [s|] eqn:Hs.
  2:{ subst w0. exists w. split; [apply mtry_ok; by rewrite (mthen_ok _ _ _ _ _ E0)|].
      split; [done|]. split; [done|]. split; [done|]. intros j s Hj. exists s. split; [done|].
      split; [done|]. destruct (Z.eqb_spec j k) as [->|]; congruence. }
  assert (Hq0 : quiet w0) by (subst w0; by apply quiet_loaded).
  assert (Hv0 : w_view w0 = w_view w) by (by subst w0).
  destruct (decide (sub_status s = ACTIVE)) as [Ha|Ha].
  { exists w0. split.
    { apply mtry_ok. rewrite (mthen_ok _ _ _ _ _ E0), bool_decide_eq_true_2 by done. done. }
    split; [done|]. split; [by subst w0|]. split; [by rewrite Hv0|]. intros j s' Hj.
    exists s'. rewrite Hv0. split; [done|]. split; [done|].
    destruct (Z.eqb_spec j k) as [->|]; congruence. }
  set (w1 := w0 <| w_view ::= over t_subs (alter activate k) |>).
  assert (Hg1 : good w1) by (apply good_view_alter; [|apply Hq0]; intros s0 Hs0; split; [|done];
    exact (proj1 (good_schema w0 (quiet_good w0 Hq0)) _ _ Hs0)).
  set (w2 := w1 <| w_durable := w_view w1 |>).
  assert (Hv1 : t_subs (w_view w2) = alter activate k (t_subs (w_view w))).
  { unfold w2, w1. simpl. by rewrite Hv0. }
  destruct (sync_quiet k false w2) as (r & w3 & E3 & Hq3 & Hn3 & Hf3).
  { by apply quiet_commit. }
  { unfold w2, w1. rewrite Hw0. simpl. set_solver. }
  { rewrite Hv1, lookup_alter_is_Some. by exists s. }
  exists w3. split.
  { apply mtry_ok. rewrite (mthen_ok _ _ _ _ _ E0), bool_decide_eq_false_2 by done.
    rewrite (mthen_ok (set_sub k activate) _ w0 tt w1) by done.
    rewrite (mthen_ok _ _ _ _ _ (commit_good w1 Hg1)). apply mtry_ok.
    by rewrite (mthen_ok _ _ _ _ _ E3). }
  split; [done|]. split; [rewrite Hn3; by subst w0|].
  split.
  { rewrite (sync_frame_billing _ _ _ Hf3). unfold w2, w1. simpl. by rewrite Hv0. }
  intros j s' Hj.
  destruct (sync_frame_lookup k (w_view w2) (w_view w3) j
              (if j =? k then activate s' else s') Hf3) as (s3 & Es3 & Hsame).
  { rewrite Hv1. destruct (Z.eqb_spec j k) as [->|].
    - by rewrite lookup_alter_eq, Hj.
    - by rewrite lookup_alter_ne. }
  exists s3. split; [done|]. rewrite Hsame. by destruct (j =? k).
Qed.

Lemma activated_untouched k db db1 db2 :
  t_subs db1 = t_subs db -> activated k db1 db2 -> activated k db db2.
Proof. intros E H j s. rewrite <- E. apply H. Qed.

Lemma untouched_eq db db' : t_subs db' = t_subs db -> untouched db db'.
Proof. intros E j s Hj. exists s. by rewrite E. Qed.

(** ** Applying a payment *)
Lemma get_invoice_good i w :
  0 < i -> good w -> get_invoice_by_id i w = (Ok (t_invoices (w_view w) !! i), w).
Proof.
  intros Hi Hg. unfold get_invoice_by_id. apply mtry_ok.
  destruct (Z.leb_spec i 0); [lia|].
  by rewrite (query_good (fun db => t_invoices db !! i) w (good_broken w Hg)).
Qed.

Lemma apply_payment_number amount now v :
  inv_invoice_number (apply_payment amount now v) = inv_invoice_number v.
Proof. unfold apply_payment. by destruct (_ <=? 0). Qed.

(** The subscription a settled invoice activates. *)
Definition paid_subscription (amount : money) (v : Invoice) : option Z :=
  if settles amount v then truthy_id (inv_subscription_id v) else None.

Definition paid_effect (o : option Z) (db db' : DB) : Prop :=
  match o with Some k => activated k db db' | None => untouched db db' end.

Lemma apply_payment_good i amount v w :
  0 < i -> good w -> t_invoices (w_view w) !! i = Some v ->
  invoice_row_ok (apply_payment amount (w_now w) v) = true ->
  exists w', apply_payment_to_invoice i amount w = (Ok tt, w') /\ quiet w' /\ w_now w' = w_now w /\
    billing_tables (w_view w') = billing_tables ((w_view w)
      <| t_invoices ::= alter (apply_payment amount (w_now w)) i |>) /\
    paid_effect (paid_subscription amount v) (w_view w) (w_view w').
Proof.
  intros Hi Hg Hv Hok. unfold apply_payment_to_invoice.
  rewrite (mthen_ok _ _ _ _ _ (get_invoice_good i w Hi Hg)), Hv.
  rewrite (mthen_ok utcnow _ w (w_now w) w) by done.
  set (w1 := w <| w_view ::= over t_invoices (alter (apply_payment amount (w_now w)) i) |>).
  assert (Hg1 : good w1).
  { apply good_alter_invoice; [done|]. intros v0 Hv0. rewrite Hv in Hv0. injection Hv0 as <-.
    split; [done|apply apply_payment_number]. }
  rewrite (mthen_ok (set_invoice _ _) _ w tt w1) by done.
  rewrite (mthen_ok _ _ _ _ _ (commit_good w1 Hg1)).
  set (w2 := w1 <| w_durable := w_view w1 |>).
  assert (Hq2 : quiet w2) by (by apply quiet_commit).
  unfold paid_subscription. destruct (truthy_id (inv_subscription_id v)) as [k|];
    destruct (settles amount v); simpl.
  2-4: exists w2; split; [done|]; split; [done|]; split; [done|]; split; [done|];
    by apply untouched_eq.
  destruct (activation k w2 Hq2) as (w3 & E3 & Hq3 & Hn3 & Hb3 & Ha3).
  exists w3. split; [done|]. split; [done|]. split; [by rewrite Hn3|]. split; [by rewrite Hb3|].
  by eapply activated_untouched; [|apply Ha3].
Qed.
End Activation.
