(* ===== verification/BillingFacts.v ===== *)
(** * Theorems on invoices and payments

    The ledger invariant of an invoice and its payments across the ways a
    payment is recorded, and the functional behaviour of invoicing, of the
    billing cycle and of the webhooks. *)

From S2P Require Import Prelude PyString Numerics Calendar Models Session AgentQueue RouterSync.
From S2P Require Import Billing Payments Ledger.

(** The paid amount of every invoice is the sum of the payments received for
    it, and the balance is what is left of the total. *)
Definition invoice_reconciled (payments : gmap Z Payment) (i : Z) (v : Invoice) : Prop :=
  inv_paid_amount v = settled_total i payments /\
  inv_balance v = inv_total_amount v - inv_paid_amount v.

Definition reconciled (db : DB) : Prop :=
  map_Forall (invoice_reconciled (t_payments db)) (t_invoices db).

Section Facts.
Context {be : Backend} {ros : RouterOS} {sync : SyncService}.

Lemma apply_payment_amounts amount now v :
  whole_cents amount -> invoice_row_ok v = true ->
  inv_paid_amount (apply_payment amount now v) = inv_paid_amount v + amount /\
  inv_balance (apply_payment amount now v)
    = inv_total_amount v - inv_paid_amount v - amount /\
  inv_total_amount (apply_payment amount now v) = inv_total_amount v.
Proof.
  intros Ha Hv. destruct (invoice_row_amounts v Hv) as (_ & _ & _ & Ht & Hp & _).
  assert (H1 : numeric_2 (inv_paid_amount v + amount) = inv_paid_amount v + amount)
    by auto using numeric_2_whole with ledger.
  assert (H2 : numeric_2 (inv_total_amount v - (inv_paid_amount v + amount))
               = inv_total_amount v - (inv_paid_amount v + amount))
    by auto using numeric_2_whole with ledger.
  unfold apply_payment. rewrite H1, H2. destruct (_ <=? 0); simpl; lia.
Qed.

(** The stored row fits when the paid amount and the balance do. *)
Lemma apply_payment_fits amount now v :
  whole_cents amount -> invoice_row_ok v = true ->
  Z.abs (inv_paid_amount v + amount) < units (10 ^ 8) ->
  Z.abs (inv_total_amount v - inv_paid_amount v - amount) < units (10 ^ 8) ->
  invoice_row_ok (apply_payment amount now v) = true.
Proof.
  intros Ha Hv H1 H2. pose proof (apply_payment_amounts amount now v Ha Hv) as (E1 & E2 & E3).
  pose proof (invoice_row_amounts v Hv) as (_ & _ & _ & Ht & Hp & _).
  unfold invoice_row_ok in *. simpl in *. rewrite E1, E2, E3.
  rewrite !andb_true_iff in Hv. destruct Hv as (F1 & F2 & F3 & F4 & F5 & F6 & _).
  assert (inv_subtotal (apply_payment amount now v) = inv_subtotal v) as ->
    by (unfold apply_payment; by destruct (_ <=? 0)).
  assert (inv_tax_amount (apply_payment amount now v) = inv_tax_amount v) as ->
    by (unfold apply_payment; by destruct (_ <=? 0)).
  assert (inv_discount_amount (apply_payment amount now v) = inv_discount_amount v) as ->
    by (unfold apply_payment; by destruct (_ <=? 0)).
  rewrite F1, F2, F3, F4. simpl. rewrite !fits_intro by auto with ledger. done.
Qed.

(** One more received payment, applied to its invoice. *)
Lemma reconciled_apply payments payments' (invoices : gmap Z Invoice) i v amount now :
  whole_cents amount -> invoice_row_ok v = true -> invoices !! i = Some v ->
  map_Forall (invoice_reconciled payments) invoices ->
  settled_total i payments' = settled_total i payments + amount ->
  (forall j, j <> i -> settled_total j payments' = settled_total j payments) ->
  map_Forall (invoice_reconciled payments') (alter (apply_payment amount now) i invoices).
Proof.
  intros Ha Hv Hi Hrec Hsum Hother j y. rewrite lookup_alter_Some.
  intros [(<- & x & E & ->)|[Hne E]].
  - rewrite Hi in E. injection E as <-. destruct (Hrec _ _ Hi) as [H1 H2].
    destruct (apply_payment_amounts amount now v Ha Hv) as (E1 & E2 & E3).
    split; rewrite ?E1, ?E2, ?E3; lia.
  - destruct (Hrec _ _ E) as [H1 H2]. split; [|done]. rewrite Hother by congruence. done.
Qed.

Lemma settled_insert j payments i p :
  payments !! i = None ->
  settled_total j (<[i := p]> payments) = payment_share j p + settled_total j payments.
Proof. intros Hi. rewrite !settled_total_of. by apply total_of_insert. Qed.

(** A payment that is not yet received, or is for no invoice, changes no sum. *)
Lemma reconciled_ignore payments payments' (invoices : gmap Z Invoice) :
  (forall j, settled_total j payments' = settled_total j payments) ->
  map_Forall (invoice_reconciled payments) invoices ->
  map_Forall (invoice_reconciled payments') invoices.
Proof. intros H Hrec j v Hv. destruct (Hrec j v Hv) as [H1 H2]. split; [by rewrite H|done]. Qed.

Lemma new_payment_share j now user number amount method o tx reference notes received :
  whole_cents amount ->
  payment_share j (new_payment now user number amount method o tx reference notes received)
  = if bool_decide (o = Some j) && received then amount else 0.
Proof.
  intros Ha. unfold payment_share, settles_invoice, new_payment. simpl.
  rewrite numeric_2_whole by done. by destruct (bool_decide (o = Some j)), received.
Qed.

(** The number, the insertion and the commit of a payment. *)
Lemma add_payment_good p w :
  good w -> payment_row_ok (t_users (w_view w)) (t_invoices (w_view w)) p = true ->
  (forall j q, t_payments (w_view w) !! j = Some q -> pay_payment_number q <> pay_payment_number p) ->
  add_payment p w = (Ok (next_id (t_payments (w_view w))),
    w <| w_view ::= over t_payments (insert (next_id (t_payments (w_view w))) p) |>) /\
  good (w <| w_view ::= over t_payments (insert (next_id (t_payments (w_view w))) p) |>).
Proof.
  intros Hg Hp Hn. split.
  - unfold add_payment. by rewrite (mthen_ok _ _ _ _ _ (query_good _ w (good_broken w Hg))).
  - apply good_insert_payment; [done|apply next_id_fresh|done|done].
Qed.

Lemma payment_number_good w :
  good w ->
  generate_payment_number w =
    (Ok (next_number (number_prefix "PAY" (w_now w))
          (numbered pay_payment_number (number_prefix "PAY" (w_now w)) (t_payments (w_view w)))), w).
Proof.
  intros Hg. unfold generate_payment_number. rewrite (mthen_ok utcnow _ w (w_now w) w) by done.
  by rewrite (mthen_ok _ _ _ _ _ (query_good _ w (good_broken w Hg))).
Qed.

(** The invoice a payment is for: it exists and can take the amount. *)
Definition payable (invoices : gmap Z Invoice) (amount : money) (k : Z) (v : Invoice) : Prop :=
  0 < k /\ invoices !! k = Some v /\
  Z.abs (inv_paid_amount v + amount) < units (10 ^ 8) /\
  Z.abs (inv_total_amount v - inv_paid_amount v - amount) < units (10 ^ 8).

(** What recording the payment does to the invoices and the subscriptions. *)
Definition payment_recorded (amount : money) (now : datetime) (received : bool)
    (invoice : option (Z * Invoice)) (db db' : DB) : Prop :=
  match invoice with
  | Some (k, v) =>
      if received then
        t_invoices db' = alter (apply_payment amount now) k (t_invoices db) /\
        paid_effect (paid_subscription amount v) db db'
      else t_invoices db' = t_invoices db /\ untouched db db'
  | None => t_invoices db' = t_invoices db /\ untouched db db'
  end.

(** Everything up to the application of the payment: the world in which the
    row is committed. *)
Definition with_payment (w : World) (p : Payment) : World :=
  let w1 := w <| w_view ::= over t_payments (insert (next_id (t_payments (w_view w))) p) |> in
  w1 <| w_durable := w_view w1 |>.

Lemma create_payment_start w user amount method o tx reference notes manual :
  let received := manual || offline_method method in
  let prefix := number_prefix "PAY" (w_now w) in
  let p := new_payment (w_now w) user
    (next_number prefix (numbered pay_payment_number prefix (t_payments (w_view w))))
    amount method o tx reference notes received in
  good w -> dense_numbers pay_payment_number prefix (t_payments (w_view w)) ->
  payment_row_ok (t_users (w_view w)) (t_invoices (w_view w)) p = true ->
  quiet (with_payment w p) /\
  create_payment user amount method o tx reference notes manual w =
    mthen (if received then match truthy_id o with
             | Some k => apply_payment_to_invoice k amount | None => mreturn tt end
           else mreturn tt) (fun _ => mreturn (next_id (t_payments (w_view w)))) (with_payment w p).
Proof.
  intros received prefix p Hg Hd Hp. destruct (add_payment_good p w Hg Hp) as [E1 Hg1].
  { intros j q Hj. unfold p, new_payment. simpl. by apply (dense_fresh _ _ _ j). }
  split; [by apply quiet_commit|].
  unfold create_payment. rewrite (mthen_ok _ _ _ _ _ (payment_number_good w Hg)).
  rewrite (mthen_ok utcnow _ w (w_now w) w) by done. rewrite (mthen_ok _ _ _ _ _ E1).
  by rewrite (mthen_ok _ _ _ _ _ (commit_good _ Hg1)).
Qed.


Lemma verify_share j i p status by_id now notes payments :
  payments !! i = Some p ->
  settled_total j (alter (verify status by_id now notes) i payments)
  = settled_total j payments + (if bool_decide (pay_invoice_id p = Some j) && settled_status status
                                then pay_amount p else 0) - payment_share j p.
Proof. intros Hi. rewrite !settled_total_of. by rewrite (total_of_alter _ _ _ _ p Hi). Qed.

(** The ledger after the row is verified and its invoice credited. *)
Lemma verified_ledger db i by_id now notes p k v :
  reconciled db -> t_payments db !! i = Some p -> pay_invoice_id p = Some k ->
  t_invoices db !! k = Some v -> invoice_row_ok v = true -> whole_cents (pay_amount p) ->
  forall j u, alter (apply_payment (pay_amount p) now) k (t_invoices db) !! j = Some u ->
    inv_balance u = inv_total_amount u - inv_paid_amount u /\
    inv_paid_amount u = settled_total j (alter (verify CHECKED by_id now notes) i (t_payments db))
      + (if (j =? k) && settled_status (pay_status p) then pay_amount p else 0).
Proof.
  intros Hrec Hp Hk Hv Hrow Ha j u. rewrite (verify_share j i p), lookup_alter_Some by done. rewrite Hk.
  unfold payment_share, settles_invoice. rewrite Hk.
  destruct (apply_payment_amounts (pay_amount p) now v Ha Hrow) as (E1 & E2 & E3).
  intros [(<- & x & E & ->)|[Hne E]].
  - rewrite Hv in E. injection E as <-. destruct (Hrec _ _ Hv) as [H1 H2].
    rewrite E1, E2, E3, Z.eqb_refl, bool_decide_eq_true_2 by done. simpl.
    destruct (settled_status (pay_status p)); lia.
  - destruct (Hrec _ _ E) as [H1 H2]. rewrite bool_decide_eq_false_2 by congruence. simpl.
    destruct (Z.eqb_spec j k); [congruence|]. simpl. lia.
Qed.

Lemma payment_whole_cents i p w :
  good w -> t_payments (w_view w) !! i = Some p -> whole_cents (pay_amount p).
Proof.
  intros Hg Hp. pose proof (good_payment_row i p w Hg Hp) as H. unfold payment_row_ok in H.
  rewrite !andb_true_iff in H. destruct H as [[[H _] _] _]. by apply fits_whole.
Qed.

(** Verifying a payment as CHECKED adds its amount to the invoice
    whatever its previous status. For a payment that was waiting (UNCHECKED,
    PENDING, ...) the invoice stays reconciled; for one that was already
    COMPLETED or CHECKED the paid amount exceeds the payments received by the
    amount of the payment, which is counted twice. *)
Theorem verification_ledger (w : World) (i by_id : Z) (notes : option string) (p : Payment)
    (k : Z) (v : Invoice) :
  quiet w -> reconciled (w_view w) -> t_payments (w_view w) !! i = Some p ->
  pay_invoice_id p = Some k -> payable (t_invoices (w_view w)) (pay_amount p) k v ->
  exists w', verify_payment i by_id CHECKED notes w = (Ok true, w') /\ quiet w' /\
    t_payments (w_durable w') = alter (verify CHECKED by_id (w_now w) notes) i (t_payments (w_view w)) /\
    (forall j u, t_invoices (w_durable w') !! j = Some u ->
       inv_balance u = inv_total_amount u - inv_paid_amount u /\
       inv_paid_amount u = settled_total j (t_payments (w_durable w'))
         + (if (j =? k) && settled_status (pay_status p) then pay_amount p else 0)) /\
    paid_effect (paid_subscription (pay_amount p) v) (w_view w) (w_durable w').
Proof.
  intros Hq Hrec Hp Hk (Hpos & Hv & Hf1 & Hf2). pose proof (quiet_good w Hq) as Hg.
  pose proof (good_invoice_row k v w Hg Hv) as Hrow.
  pose proof (payment_whole_cents i p w Hg Hp) as Ha.
  set (pf := verify CHECKED by_id (w_now w) notes). set (vf := apply_payment (pay_amount p) (w_now w)).
  set (w1 := w <| w_view ::= over t_payments (alter pf i) |>).
  set (w2 := w1 <| w_view ::= over t_invoices (alter vf k) |>).
  assert (Hg1 : good w1) by (by apply good_alter_payment).
  assert (Hg2 : good w2).
  { apply good_alter_invoice; [done|]. intros v0 Hv0. simpl in Hv0. rewrite Hv in Hv0.
    injection Hv0 as <-. split; [by apply apply_payment_fits|apply apply_payment_number]. }
  set (w3 := w2 <| w_durable := w_view w2 |>).
  assert (Hq3 : quiet w3) by (by apply quiet_commit).
  pose proof (verified_ledger (w_view w) i by_id (w_now w) notes p k v Hrec Hp Hk Hv Hrow Ha) as Hbal.
  assert (Erun : verify_payment i by_id CHECKED notes w =
      mtry (mthen (match paid_subscription (pay_amount p) v with
          | Some k => mtry (activate_subscription_on_payment k) (fun _ => mreturn tt)
          | None => mreturn tt end) (fun _ => attrs_fresh ;;; mreturn true))
        (fun _ => rollback ;;; mreturn false) w3).
  { unfold verify_payment, get_payment.
    rewrite (mthen_ok _ _ _ _ _ (query_good (fun db => t_payments db !! i) w (good_broken w Hg))), Hp.
    unfold mtry. rewrite (mthen_ok utcnow _ w (w_now w) w) by done.
    rewrite (mthen_ok (set_payment i pf) _ w tt w1) by done. rewrite bool_decide_eq_true_2 by done.
    assert (Ec : credit_invoice p (w_now w) w1 = (Ok (paid_subscription (pay_amount p) v), w2)).
    { unfold credit_invoice. rewrite Hk. simpl. destruct (Z.eqb_spec k 0); [lia|].
      rewrite (mthen_ok _ _ _ _ _ (query_good (fun db => t_invoices db !! k) w1 (good_broken w1 Hg1))).
      simpl. by rewrite Hv. }
    rewrite (mthen_ok _ _ _ _ _ Ec). by rewrite (mthen_ok _ _ _ _ _ (commit_good w2 Hg2)). }
  rewrite Erun. clear Erun. destruct (paid_subscription (pay_amount p) v) as [s|].
  - destruct (activation s w3 Hq3) as (w4 & E4 & Hq4 & Hn4 & Hb4 & He4). exists w4.
    injection Hb4 as Hb1 Hb2 Hb3 Hb5 Hb6. split.
    { apply mtry_ok. rewrite (mthen_ok _ _ _ _ _ (mtry_ok _ _ _ _ _ E4)). unfold attrs_fresh, mthen.
      by rewrite (good_broken w4 (quiet_good w4 Hq4)). }
    split; [done|]. rewrite (quiet_durable w4 Hq4), Hb5, Hb2. split; [done|]. split; [done|].
    by eapply activated_untouched; [|apply He4].
  - exists w3. split.
    { apply mtry_ok. rewrite mthen_return. unfold attrs_fresh, mthen. simpl.
      by rewrite (good_broken w Hg). }
    split; [done|]. split; [done|]. split; [done|by apply untouched_eq].
Qed.

(** ** Invoices and their items *)

(** The stored price of a line. *)
Definition line_total (t : ItemData) : money :=
  numeric_2 (default 100 (id_quantity t) * cents (default 0 (id_unit_price t)) / 100).
Definition lines_total (items : list ItemData) : money :=
  foldr (fun t acc => line_total t + acc) 0 items.

(** Quantities and prices the columns hold, none of them negative. *)
Definition line_ok (t : ItemData) : Prop :=
  0 <= default 100 (id_quantity t) < 10 ^ 10 /\ 0 <= default 0 (id_unit_price t) < 10 ^ 10.

Lemma whole_numeric_2 x : whole_cents (numeric_2 x).
Proof. unfold numeric_2. by eexists. Qed.

Lemma numeric_2_nonneg x : 0 <= x -> 0 <= numeric_2 x.
Proof.
  intros Hx. unfold numeric_2, cents.
  assert (0 <= (2 * Z.abs x + 1000) / 2000) by (apply Z.div_pos; lia).
  assert (0 <= Z.sgn x) by (apply Z.sgn_nonneg; lia). nia.
Qed.

Lemma line_total_nonneg t : line_ok t -> 0 <= line_total t.
Proof.
  intros [H1 H2]. apply numeric_2_nonneg, Z.div_pos; [|lia]. unfold cents. nia.
Qed.

Lemma lines_total_nonneg items : Forall line_ok items -> 0 <= lines_total items.
Proof.
  induction 1 as [|t l Ht _ IH]; simpl; [lia|]. pose proof (line_total_nonneg t Ht). lia.
Qed.

Lemma retotal_retotal s1 s2 v : retotal s2 (retotal s1 v) = retotal s2 v.
Proof. by destruct v. Qed.

(** The totals that fit the columns of an unpaid invoice. *)
Definition chargeable (tax discount top : money) : Prop :=
  Z.abs (tax - discount) < units (10 ^ 8) /\ top + tax - discount < units (10 ^ 8) /\
  top < units (10 ^ 8).

Lemma retotal_fits subtotal top v :
  invoice_row_ok v = true -> inv_paid_amount v = 0 -> whole_cents subtotal -> 0 <= subtotal <= top ->
  chargeable (inv_tax_amount v) (inv_discount_amount v) top ->
  invoice_row_ok (retotal subtotal v) = true.
Proof.
  intros Hv Hp Hs Hle (H1 & H2 & H3).
  pose proof (invoice_row_amounts v Hv) as (_ & Ht & Hd & _).
  unfold invoice_row_ok in *. simpl in *. rewrite Hp, Z.sub_0_r.
  rewrite !andb_true_iff in Hv. destruct Hv as (F1 & F2 & F3 & F4 & F5 & F6 & _).
  rewrite !numeric_2_whole by auto with ledger. rewrite F2, F3.
  rewrite !fits_intro by (auto with ledger || lia). done.
Qed.

Lemma items_total_insert i items j t :
  items !! j = None -> items_total i (<[j := t]> items) = item_share i t + items_total i items.
Proof. intros Hj. rewrite !items_total_of. by apply total_of_insert. Qed.

Lemma items_total_whole i w : good w -> whole_cents (items_total i (t_items (w_view w))).
Proof.
  intros Hg. rewrite items_total_of. apply total_of_whole. intros j t Ht. unfold item_share.
  pose proof (good_item_row j t w Hg Ht) as H. unfold item_row_ok in H.
  rewrite !andb_true_iff in H. destruct H as [[[_ H] _] _]. destruct (_ =? i); auto with ledger.
Qed.

(** One item: its row, then the totals of the invoice. *)
Lemma add_item_good i v t top w :
  0 < i -> quiet w -> t_invoices (w_view w) !! i = Some v -> inv_paid_amount v = 0 -> line_ok t ->
  let sum := items_total i (t_items (w_view w)) in
  0 <= sum -> sum + line_total t <= top -> chargeable (inv_tax_amount v) (inv_discount_amount v) top ->
  exists j w', add_invoice_item i (default "" (id_description t)) (default 100 (id_quantity t))
      (default 0 (id_unit_price t)) (default "subscription" (id_item_type t)) w = (Ok j, w') /\
    quiet w' /\ items_total i (t_items (w_view w')) = sum + line_total t /\
    t_invoices (w_view w') = <[i := retotal (sum + line_total t) v]> (t_invoices (w_view w)) /\
    t_subs (w_view w') = t_subs (w_view w) /\ t_payments (w_view w') = t_payments (w_view w).
Proof.
  intros Hi Hq Hv Hp Ht sum Hs Htop Hch. pose proof (quiet_good w Hq) as Hg.
  pose proof (line_total_nonneg t Ht) as Hl. destruct Ht as [Hq1 Hq2]. pose proof Hch as (Hc1 & Hc2 & Hc3).
  unfold add_invoice_item.
  rewrite (mthen_ok _ _ _ _ _ (query_good (fun db => next_id (t_items db)) w (good_broken w Hg))).
  set (j := next_id (t_items (w_view w))). 
  set (item := mkInvoiceItem i (default "" (id_description t)) (default 100 (id_quantity t))
    (cents (default 0 (id_unit_price t))) (line_total t) (default "subscription" (id_item_type t))).
  set (w1 := w <| w_view ::= over t_items (insert j item) |>).
  assert (Hj : t_items (w_view w) !! j = None) by apply next_id_fresh.
  assert (Hg1 : good w1).
  { apply good_insert_item; [done..|]. unfold item_row_ok, item. simpl.
    rewrite bool_decide_eq_true_2 by (by exists v).
    rewrite !fits_intro by first [by eexists|apply whole_numeric_2
      |unfold cents, units, line_total in *; lia].
    destruct (Z.ltb_spec (Z.abs (default 100 (id_quantity t))) (10 ^ 10)); [done|lia]. }
  set (w2 := w1 <| w_durable := w_view w1 |>).
  assert (Hg2 : good w2) by (by apply good_commit).
  assert (Hsum : items_total i (t_items (w_view w2)) = sum + line_total t).
  { unfold w2, w1. simpl. rewrite items_total_insert by done. unfold item_share, item. simpl.
    rewrite Z.eqb_refl. unfold line_total, sum. lia. }
  set (w3 := w2 <| w_view ::= over t_invoices (alter (retotal (sum + line_total t)) i) |>).
  assert (Hg3 : good w3).
  { apply good_alter_invoice; [done|]. intros v0 Hv0. simpl in Hv0. rewrite Hv in Hv0.
    injection Hv0 as <-. split; [|by destruct v].
    apply (retotal_fits _ top); [by apply (good_invoice_row i v w)|done| |lia|done].
    apply whole_cents_add; [by apply items_total_whole|apply whole_numeric_2]. }
  exists j, (w3 <| w_durable := w_view w3 |>). split.
  { rewrite (mthen_ok (assign _) _ w tt w1) by done.
    rewrite (mthen_ok _ _ _ _ _ (commit_good w1 Hg1)).
    assert (E : update_invoice_totals i w2 = (Ok tt, w3 <| w_durable := w_view w3 |>)).
    { unfold update_invoice_totals.
      rewrite (mthen_ok _ _ _ _ _ (query_good (fun db => items_total i (t_items db)) w2 (good_broken w2 Hg2))).
      rewrite (mthen_ok _ _ _ _ _ (get_invoice_good i w2 Hi Hg2)).
      change (t_invoices (w_view w2) !! i) with (t_invoices (w_view w) !! i). rewrite Hv, Hsum.
      rewrite (mthen_ok (set_invoice i _) _ w2 tt w3) by done. apply (commit_good w3 Hg3). }
    by rewrite (mthen_ok _ _ _ _ _ E). }
  split; [by apply quiet_commit|]. split; [done|]. split; [|done]. unfold w3, w2, w1. simpl.
  apply map_eq. intros k. destruct (decide (k = i)) as [->|].
  - by rewrite lookup_alter_eq, Hv, lookup_insert_eq.
  - by rewrite lookup_alter_ne, lookup_insert_ne.
Qed.

(** All the items of the list. *)
Lemma add_items_good i top items :
  0 < i -> Forall line_ok items -> forall v w,
  quiet w -> t_invoices (w_view w) !! i = Some v -> inv_paid_amount v = 0 ->
  let sum := items_total i (t_items (w_view w)) in
  0 <= sum -> sum + lines_total items <= top ->
  chargeable (inv_tax_amount v) (inv_discount_amount v) top ->
  exists w', mfold (fun _ t =>
          add_invoice_item i (default "" (id_description t)) (default 100 (id_quantity t))
            (default 0 (id_unit_price t)) (default "subscription" (id_item_type t)) ;;;
          mreturn tt) tt items w = (Ok tt, w') /\
    quiet w' /\ items_total i (t_items (w_view w')) = sum + lines_total items /\
    t_invoices (w_view w') =
      <[i := match items with [] => v | _ => retotal (sum + lines_total items) v end]>
        (t_invoices (w_view w)) /\
    t_subs (w_view w') = t_subs (w_view w) /\ t_payments (w_view w') = t_payments (w_view w).
Proof.
  intros Hi Hok. induction Hok as [|t items Ht Hitems IH]; intros v w Hq Hv Hp sum Hs Htop Hch; simpl.
  - exists w. rewrite Z.add_0_r, insert_id by done. done.
  - simpl in Htop. pose proof (lines_total_nonneg items Hitems) as Hnn.
    pose proof (line_total_nonneg t Ht) as Hl.
    destruct (add_item_good i v t top w Hi Hq Hv Hp Ht Hs ltac:(fold sum; lia) Hch)
      as (j & w1 & E1 & Hq1 & Hsum1 & Hv1 & Hsub1 & Hpay1).
    fold sum in Hsum1, Hv1.
    destruct (IH (retotal (sum + line_total t) v) w1) as (w2 & E2 & Hq2 & Hsum2 & Hv2 & Hsub2 & Hpay2);
      [done|by rewrite Hv1, lookup_insert_eq|by destruct v|lia|lia|by destruct v|].
    exists w2. rewrite Hsum1 in Hsum2, Hv2. split.
    { rewrite mthen_assoc, (mthen_ok _ _ _ _ _ E1), mthen_return. done. }
    split; [done|]. split; [lia|]. split; [|by rewrite Hsub2, Hpay2].
    rewrite Hv2, Hv1, insert_insert_eq. f_equal. rewrite Z.add_assoc.
    destruct items; [|by rewrite retotal_retotal]. simpl. by rewrite Z.add_0_r.
Qed.

Lemma invoice_number_good w :
  good w ->
  generate_invoice_number w =
    (Ok (next_number (number_prefix "INV" (w_now w))
          (numbered inv_invoice_number (number_prefix "INV" (w_now w)) (t_invoices (w_view w)))), w).
Proof.
  intros Hg. unfold generate_invoice_number. rewrite (mthen_ok utcnow _ w (w_now w) w) by done.
  by rewrite (mthen_ok _ _ _ _ _ (query_good _ w (good_broken w Hg))).
Qed.

(** The subscription named by the request is the user's. *)
Definition own_subscription (subs : gmap Z Subscription) (user : Z) (o : option Z) : Prop :=
  match truthy_id o with
  | Some k => exists s, subs !! k = Some s /\ sub_user_id s = user
  | None => True
  end.

Lemma new_invoice_fits now user o number subtotal tax discount ps pe notes :
  whole_cents subtotal -> whole_cents tax -> whole_cents discount ->
  Z.abs subtotal < units (10 ^ 8) -> Z.abs tax < units (10 ^ 8) -> Z.abs discount < units (10 ^ 8) ->
  Z.abs (subtotal + tax - discount) < units (10 ^ 8) ->
  invoice_row_ok (new_invoice now user o number subtotal tax discount ps pe notes) = true.
Proof.
  intros. unfold invoice_row_ok, new_invoice. simpl.
  rewrite !numeric_2_whole by auto with ledger.
  rewrite !fits_intro by (auto with ledger || lia). done.
Qed.

(** The new invoice before its items: no item refers to it yet. *)
Lemma insert_invoice_good v w :
  good w -> invoice_row_ok v = true ->
  (forall j u, t_invoices (w_view w) !! j = Some u -> inv_invoice_number u <> inv_invoice_number v) ->
  let i := next_id (t_invoices (w_view w)) in
  let w1 := w <| w_view ::= over t_invoices (insert i v) |> in
  good w1 /\ items_total i (t_items (w_view w1)) = 0.
Proof.
  intros Hg Hv Hn i w1. split; [by apply good_insert_invoice; [|apply next_id_fresh| |]|].
  rewrite items_total_of. apply total_of_zero. intros j t Ht. unfold item_share.
  destruct (Z.eqb_spec (item_invoice_id t) i) as [E|]; [|done]. exfalso.
  pose proof (good_item_row j t w Hg Ht) as H. unfold item_row_ok in H.
  rewrite !andb_true_iff in H. destruct H as [_ H]. apply bool_decide_eq_true_1 in H.
  rewrite E in H. unfold i in H. rewrite next_id_fresh in H. by destruct H.
Qed.

Lemma own_subscription_check user o w :
  quiet w -> own_subscription (t_subs (w_view w)) user o ->
  exists w0, (match truthy_id o with
       | None => mreturn tt
       | Some k =>
           o <- get_sub k ;;
           match o with
           | None => mraise (ValidationError "Subscription does not exist")
           | Some s => if sub_user_id s =? user then mreturn tt
                       else mraise (ValidationError "Subscription does not belong to user")
           end
       end) w = (Ok tt, w0) /\ quiet w0 /\ w_view w0 = w_view w /\ w_now w0 = w_now w.
Proof.
  intros Hq Hown. unfold own_subscription in Hown. destruct (truthy_id o) as [k|]; [|by exists w].
  destruct Hown as (s & Hs & Hus).
  destruct (get_sub_good k w (good_broken w (quiet_good w Hq))) as (w0 & E0 & Hw0).
  rewrite Hs in E0, Hw0. exists w0. rewrite (mthen_ok _ _ _ _ _ E0), Hus, Z.eqb_refl. subst w0.
  split; [done|]. split; [by apply quiet_loaded|done].
Qed.

(** The amount an invoice charges before tax: its items when it has some. *)
Definition charged (subtotal : money) (items : list ItemData) : money :=
  match items with [] => subtotal | _ => lines_total items end.

(** A new invoice gets a fresh key and the next number of its month, is a
    DRAFT due in thirty days with nothing paid, and its stored totals agree
    with its items: the subtotal is the sum of the item prices (the one given
    when there are no items), the total is subtotal + tax - discount and the
    whole of it is the balance. No other invoice changes. *)
Theorem create_invoice_totals (w : World) (user : Z) (subtotal tax discount : money)
    (o : option Z) (ps pe : option datetime) (notes : option string) (items : list ItemData) :
  let prefix := number_prefix "INV" (w_now w) in
  quiet w -> is_Some (t_users (w_view w) !! user) ->
  own_subscription (t_subs (w_view w)) user o ->
  dense_numbers inv_invoice_number prefix (t_invoices (w_view w)) ->
  whole_cents subtotal -> whole_cents tax -> whole_cents discount ->
  0 <= subtotal -> Z.abs tax < units (10 ^ 8) -> Z.abs discount < units (10 ^ 8) ->
  Forall line_ok items ->
  chargeable tax discount (Z.max subtotal (lines_total items)) ->
  exists i w' v, create_invoice user subtotal o tax discount ps pe notes items w = (Ok i, w') /\
    quiet w' /\ t_invoices (w_view w) !! i = None /\
    t_invoices (w_durable w') = <[i := v]> (t_invoices (w_view w)) /\
    dense_numbers inv_invoice_number prefix (t_invoices (w_durable w')) /\
    items_total i (t_items (w_durable w')) = lines_total items /\
    inv_subtotal v = charged subtotal items /\
    inv_total_amount v = charged subtotal items + tax - discount /\
    inv_balance v = inv_total_amount v /\ inv_paid_amount v = 0 /\
    inv_status v = DRAFT /\ inv_due_date v = w_now w + timedelta_days 30.
Proof.
  intros prefix Hq [u Hu] Hown Hd Hsub Htax Hdis H0 Ht Hdi Hitems Hch. pose proof (quiet_good w Hq) as Hg.
  pose proof (lines_total_nonneg items Hitems) as Hl. pose proof Hch as (Hc1 & Hc2 & Hc3).
  set (v0 := new_invoice (w_now w) user o (next_number prefix (numbered inv_invoice_number prefix
               (t_invoices (w_view w)))) subtotal tax discount ps pe notes).
  set (i := next_id (t_invoices (w_view w))).
  assert (Hrow0 : invoice_row_ok v0 = true) by (apply new_invoice_fits; done || lia).
  destruct (own_subscription_check user o w Hq Hown) as (w0 & E0 & Hq0 & Hv0 & Hn0). pose proof (quiet_good w0 Hq0) as Hg0.
  destruct (insert_invoice_good v0 w0 Hg0 Hrow0) as [Hg1 Hz1].
  { intros j y Hj. rewrite Hv0 in Hj. by apply (dense_fresh inv_invoice_number prefix _ j). }
  rewrite Hv0 in Hg1, Hz1. fold i in Hg1, Hz1.
  set (w1 := w0 <| w_view ::= over t_invoices (insert i v0) |>) in *.
  set (w2 := w1 <| w_durable := w_view w1 |>).
  assert (Hinv1 : t_invoices (w_view w2) = <[i := v0]> (t_invoices (w_view w))).
  { unfold w2, w1. simpl. by rewrite Hv0. }
  assert (Etax : inv_tax_amount v0 = tax) by (by apply numeric_2_whole).
  assert (Edis : inv_discount_amount v0 = discount) by (by apply numeric_2_whole).
  destruct (add_items_good i (Z.max subtotal (lines_total items)) items (next_id_pos _) Hitems v0 w2)
    as (w3 & E3 & Hq3 & Hsum3 & Hinv3 & _);
    [by apply quiet_commit|by rewrite Hinv1, lookup_insert_eq|done
    |change (items_total i (t_items (w_view w2))) with (items_total i (t_items (w_view w1))); lia
    |change (items_total i (t_items (w_view w2))) with (items_total i (t_items (w_view w1))); lia
    |by rewrite Etax, Edis|].
  change (items_total i (t_items (w_view w2))) with (items_total i (t_items (w_view w1))) in Hsum3, Hinv3.
  rewrite Hz1, Z.add_0_l in Hsum3, Hinv3. rewrite Hinv1, insert_insert_eq in Hinv3.
  eexists i, w3, _. split.
  { unfold create_invoice, get_user.
    rewrite (mthen_ok _ _ _ _ _ (query_good (fun db => t_users db !! user) w (good_broken w Hg))), Hu.
    rewrite (mthen_ok _ _ _ _ _ E0). rewrite (mthen_ok _ _ _ _ _ (invoice_number_good w0 Hg0)).
    rewrite (mthen_ok utcnow _ w0 (w_now w0) w0) by done.
    rewrite (mthen_ok _ _ _ _ _ (query_good (fun db => next_id (t_invoices db)) w0 (good_broken w0 Hg0))).
    rewrite Hv0, Hn0. fold prefix i v0. rewrite (mthen_ok (assign _) _ w0 tt w1) by done.
    rewrite (mthen_ok _ _ _ _ _ (commit_good w1 Hg1)). by rewrite (mthen_ok _ _ _ _ _ E3). }
  rewrite (quiet_durable w3 Hq3). split; [done|]. split; [apply next_id_fresh|]. split; [exact Hinv3|].
  assert (Hwl : whole_cents (lines_total items)).
  { rewrite <- Hsum3. apply items_total_whole, Hq3. }
  split; [rewrite Hinv3; apply dense_insert; [done|apply next_id_fresh|by destruct items]|].
  split; [done|]. unfold charged. destruct items as [|t items]; simpl in *;
    rewrite ?(numeric_2_whole tax), ?(numeric_2_whole discount) by done;
    rewrite ?numeric_2_whole by auto with ledger; split_and!; (done || lia).
Qed.

(** Editing or deleting an item commits the change of its row and nothing
    else: neither its total price nor the totals of its invoice follow. *)
Lemma item_edits_keep_totals w j d t :
  0 < j -> good w -> t_items (w_view w) !! j = Some t ->
  item_row_ok (t_invoices (w_view w)) (edit_item d t) = true ->
  (exists w', update_invoice_item j d w = (Ok (Some (edit_item d t)), w') /\ quiet w' /\
     w_view w' = (w_view w) <| t_items ::= alter (edit_item d) j |> /\
     item_total_price (edit_item d t) = item_total_price t) /\
  (exists w', delete_invoice_item j w = (Ok true, w') /\ quiet w' /\
     w_view w' = (w_view w) <| t_items ::= delete j |>).
Proof.
  intros Hj Hg Ht Hok.
  pose proof (query_good (fun db => t_items db !! j) w (good_broken w Hg)) as Eq.
  cbv beta in Eq. rewrite Ht in Eq.
  unfold update_invoice_item, delete_invoice_item, item_errors.
  destruct (Z.leb_spec j 0); [lia|]. split.
  - set (w1 := w <| w_view ::= over t_items (alter (edit_item d) j) |>).
    assert (Hg1 : good w1).
    { apply good_alter_item; [done|]. intros t0 Ht0. rewrite Ht in Ht0. by injection Ht0 as <-. }
    exists (w1 <| w_durable := w_view w1 |>). split; [|split; [by apply quiet_commit|done]].
    apply mtry_ok. rewrite mthen_return, (mthen_ok _ _ _ _ _ Eq).
    rewrite (mthen_ok (assign _) _ w tt w1) by done. rewrite (mthen_ok _ _ _ _ _ (commit_good w1 Hg1)).
    etransitivity; [apply (query_good (fun db => t_items db !! j)), (good_broken w1 Hg1)|].
    unfold w1. simpl. by rewrite lookup_alter_eq, Ht.
  - set (w1 := w <| w_view ::= over t_items (delete j) |>).
    assert (Hg1 : good w1) by (by apply good_delete_item).
    exists (w1 <| w_durable := w_view w1 |>). split; [|split; [by apply quiet_commit|done]].
    apply mtry_ok. rewrite mthen_return, (mthen_ok _ _ _ _ _ Eq).
    rewrite (mthen_ok (assign _) _ w tt w1) by done. by rewrite (mthen_ok _ _ _ _ _ (commit_good w1 Hg1)).
Qed.

(** ** The billing cycle *)

(** The errors one subscription contributes: none when it has one open
    invoice. *)
Definition bill_errors (db : DB) (k : Z) : list (Z * exn) :=
  match select (fun _ => open_invoice k) (t_invoices db) with
  | [] => [(k, NoInspectionAvailable)]
  | [_] => []
  | _ => [(k, MultipleResultsFound)]
  end.

(** The same session with more instances loaded. *)
Definition only_loaded (w w' : World) : Prop :=
  w_loaded w ⊆ w_loaded w' /\ w' = w <| w_loaded := w_loaded w' |>.

Lemma only_loaded_refl w : only_loaded w w.
Proof. split; [done|by destruct w]. Qed.

Lemma only_loaded_good w w' : only_loaded w w' -> good w -> good w'.
Proof. intros [_ ->] []. by split. Qed.

Lemma only_loaded_view w w' : only_loaded w w' -> w_view w' = w_view w.
Proof. by intros [_ ->]. Qed.

Lemma only_loaded_trans w w1 w2 : only_loaded w w1 -> only_loaded w1 w2 -> only_loaded w w2.
Proof. intros [H1 E1] [H2 E2]. split; [by transitivity (w_loaded w1)|]. rewrite E2, E1 at 1. done. Qed.

Lemma bill_one_good acc k s w :
  good w -> k ∈ w_loaded w -> t_subs (w_view w) !! k = Some s ->
  is_Some (t_users (w_view w) !! sub_user_id s) ->
  exists w', bill_one acc k w = (Ok (acc.1, acc.2 ++ bill_errors (w_view w) k), w') /\ only_loaded w w'.
Proof.
  intros Hg Hk Hs [u Hu]. unfold bill_one, bill_errors. pose proof (sub_attrs_loaded k w s Hk Hs) as Ea.
  pose proof (query_good (fun db => select (fun _ => open_invoice k) (t_invoices db)) w (good_broken w Hg)) as Eq.
  destruct (select (fun _ => open_invoice k) (t_invoices (w_view w))) as [|x [|y l]] eqn:El.
  - destruct (get_sub_good k w (good_broken w Hg)) as (w0 & E0 & Hw0). rewrite Hs in E0, Hw0.
    assert (Hw : only_loaded w w0).
    { subst w0. split; [simpl; set_solver|done]. }
    exists w0. split; [|done].
    rewrite (mtry_raise _ _ w NoInspectionAvailable w0).
    + rewrite (mthen_ok _ _ w0 s w0); [done|]. apply sub_attrs_loaded; [by apply Hw|].
      by rewrite (only_loaded_view w w0 Hw).
    + rewrite (mthen_ok _ _ _ _ _ Ea), (mthen_ok _ _ _ _ _ Eq), El.
      unfold scalar_one_or_none. rewrite mthen_return. apply mthen_raise.
      unfold generate_subscription_invoice, get_user. rewrite (mthen_ok _ _ _ _ _ E0).
      rewrite (mthen_ok _ _ _ _ _ (query_good (fun db => t_users db !! sub_user_id s) w0
                 (good_broken w0 (only_loaded_good w w0 Hw Hg)))).
      by rewrite (only_loaded_view w w0 Hw), Hu.
  - exists w. split; [|apply only_loaded_refl]. apply mtry_ok.
    rewrite (mthen_ok _ _ _ _ _ Ea), (mthen_ok _ _ _ _ _ Eq), El. simpl.
    rewrite app_nil_r. by destruct acc.
  - exists w. split; [|apply only_loaded_refl].
    rewrite (mtry_raise _ _ w MultipleResultsFound w); [by rewrite (mthen_ok _ _ _ _ _ Ea)|].
    rewrite (mthen_ok _ _ _ _ _ Ea), (mthen_ok _ _ _ _ _ Eq), El. done.
Qed.

(** The billing cycle never writes an invoice. It reports every active,
    automatically renewed subscription in its total, counts no invoice, and
    for each of them that has no open invoice records the error of
    [generate_subscription_invoice], whose plan lookup cannot succeed. *)
Theorem billing_cycle_creates_nothing (w : World) (org : option Z) :
  good w ->
  (forall k s, t_subs (w_view w) !! k = Some s -> is_Some (t_users (w_view w) !! sub_user_id s)) ->
  let ids := map fst (select (fun _ => billed org) (t_subs (w_view w))) in
  exists w', generate_billing_cycle_invoices org w =
      (Ok (mkCycleResult 0 (Z.of_nat (length ids)) (flat_map (bill_errors (w_view w)) ids)), w') /\
    w_view w' = w_view w /\ w_durable w' = w_durable w /\ w_trace w' = w_trace w.
Proof.
  intros Hg Husers ids. set (w0 := w <| w_loaded ::= union (list_to_set ids) |>).
  assert (E0 : select_subs (fun _ => billed org) None w = (Ok ids, w0)).
  { unfold select_subs. by rewrite (mthen_ok _ _ _ _ _ (query_good _ w (good_broken w Hg))). }
  assert (Hfold : forall l acc w1, only_loaded w0 w1 -> l ⊆ ids ->
    exists w2, mfold bill_one acc l w1 = (Ok (acc.1, acc.2 ++ flat_map (bill_errors (w_view w)) l), w2) /\
      only_loaded w0 w2).
  { induction l as [|k l IH]; intros acc w1 Hw1 Hl; simpl.
    - exists w1. rewrite app_nil_r. by destruct acc.
    - assert (Hk : k ∈ ids) by (apply Hl, list_elem_of_here).
      assert (Hv1 : w_view w1 = w_view w) by (by rewrite (only_loaded_view w0 w1 Hw1)).
      pose proof Hk as Hs. unfold ids in Hs. apply list_elem_of_fmap in Hs as ([k' s] & -> & Hs).
      apply (elem_of_select (fun _ => billed org)) in Hs as [Hs _].
      destruct (bill_one_good acc k' s w1) as (w2 & E2 & Hw2).
      { apply (only_loaded_good w0); [done|]. destruct Hg. by split. }
      { apply Hw1. unfold w0. simpl. set_solver. }
      { by rewrite Hv1. }
      { rewrite Hv1. by apply (Husers k'). }
      destruct (IH (acc.1, acc.2 ++ bill_errors (w_view w) k') w2) as (w3 & E3 & Hw3).
      { by eapply only_loaded_trans. }
      { intros x Hx. by apply Hl, list_elem_of_further. }
      exists w3. rewrite Hv1 in E2. rewrite (mthen_ok _ _ _ _ _ E2), E3. simpl.
      by rewrite <- app_assoc. }
  destruct (Hfold ids (0, []) w0 (only_loaded_refl w0) ltac:(done)) as (w1 & E1 & Hw1).
  exists w1. split.
  { unfold generate_billing_cycle_invoices. by rewrite (mthen_ok _ _ _ _ _ E0), (mthen_ok _ _ _ _ _ E1). }
  destruct Hw1 as [_ ->]. done.
Qed.

(** No M-PESA callback is ever processed: the call into the gateway service
    raises, and the handler answers failure without touching anything. *)
Lemma mpesa_callback_fails w :
  handle_mpesa_callback w
  = (Ok (mkAnswer false (inr (AttributeError "handle_payment_callback"))), w).
Proof. done. Qed.

(** ** Webhooks *)

Lemma numeric_2_bound x : Z.abs (numeric_2 x) <= Z.abs x + 500.
Proof.
  unfold numeric_2, cents.
  pose proof (Z.div_mod (2 * Z.abs x + 1000) 2000 ltac:(lia)).
  pose proof (Z.mod_pos_bound (2 * Z.abs x + 1000) 2000 ltac:(lia)). destruct x; lia.
Qed.

Lemma gateway_fee_bounds amount :
  0 <= amount -> units 100 <= gateway_fee amount <= units 2000.
Proof.
  intros Ha. unfold gateway_fee, units.
  assert (0 <= amount * 15 / 1000) by (apply Z.div_pos; lia). lia.
Qed.

Lemma complete_transaction_ok amount completed now t :
  0 <= amount < units (10 ^ 8) -> transaction_row_ok (complete_transaction amount completed now t) = true.
Proof.
  intros Ha. pose proof (gateway_fee_bounds amount ltac:(lia)) as Hf.
  pose proof (numeric_2_bound (gateway_fee amount)) as H1.
  pose proof (numeric_2_bound (amount - gateway_fee amount)) as H2.
  unfold transaction_row_ok, complete_transaction. simpl. unfold units in *.
  rewrite !fits_intro by first [apply whole_numeric_2|unfold units; lia]. done.
Qed.

(** The reference names one transaction, for an existing user, whose invoice
    can take the amount. *)
Definition chargeable_transaction (db : DB) (d : WebhookData) (i : Z) (t : PaymentTransaction)
    (k : Z) (v : Invoice) : Prop :=
  wd_reference d <> "" /\ wd_paid_at d = None /\ t_transactions db !! i = Some t /\
  tx_transaction_reference t = wd_reference d /\
  (exists u, tx_user_id t = Some u /\ is_Some (t_users db !! u)) /\
  tx_invoice_id t = Some k /\ payable (t_invoices db) (cents (wd_amount d)) k v /\
  0 <= cents (wd_amount d) < units (10 ^ 8).

Lemma find_transaction db d i t k v :
  schema_ok db -> chargeable_transaction db d i t k v ->
  select (fun _ t => bool_decide (tx_transaction_reference t = wd_reference d)) (t_transactions db)
  = [(i, t)].
Proof.
  intros (_ & _ & _ & (_ & _ & _ & _ & _ & _ & Hu) & _) (_ & _ & Ht & Hr & _).
  apply select_unique; [done|by apply bool_decide_eq_true_2|].
  intros j y Hj Hy%bool_decide_eq_true_1. apply (Hu _ _ Hj _ _ Ht). congruence.
Qed.

(** The transaction row after a successful charge. *)
Definition charged_transaction (amount : money) (now : datetime) (t : PaymentTransaction) :=
  complete_transaction amount now now (t <| tx_callback_event := Some "charge.success" |>).

(** The tables one processed charge leaves, for the next number [number]. *)
Definition charge_recorded (now : datetime) (d : WebhookData) (i : Z) (t : PaymentTransaction)
    (k : Z) (number : string) (db db' : DB) : Prop :=
  (exists j, t_payments db !! j = None /\
     t_payments db' = <[j := card_payment now number t (cents (wd_amount d)) now]> (t_payments db)) /\
  t_invoices db' = alter (apply_payment (cents (wd_amount d)) now) k (t_invoices db) /\
  t_transactions db' = alter (charged_transaction (cents (wd_amount d)) now) i (t_transactions db) /\
  t_users db' = t_users db.

(** An activation that may be skipped. *)
Lemma maybe_activation (o : option Z) w :
  quiet w ->
  exists w', (match o with Some k => activate_subscription_on_payment k | None => mreturn tt end) w
      = (Ok tt, w') /\ quiet w' /\ w_now w' = w_now w /\
    billing_tables (w_view w') = billing_tables (w_view w).
Proof.
  intros Hq. destruct o as [k|]; [|by exists w].
  destruct (activation k w Hq) as (w' & E & Hq' & Hn & Hb & _). by exists w'.
Qed.

(** The writes before the payment is applied. *)
Lemma charge_writes w d i t k v number :
  good w -> chargeable_transaction (w_view w) d i t k v ->
  (forall j q, t_payments (w_view w) !! j = Some q -> pay_payment_number q <> number) ->
  let a := cents (wd_amount d) in
  let p := card_payment (w_now w) number t a (w_now w) in
  let w1 := w <| w_view ::= over t_transactions (alter (fun t => t <| tx_callback_event := Some "charge.success" |>) i) |> in
  let w2 := w1 <| w_view ::= over t_transactions (alter (complete_transaction a (w_now w) (w_now w)) i) |> in
  let w3 := w2 <| w_view ::= over t_payments (insert (next_id (t_payments (w_view w2))) p) |> in
  good w1 /\ good w2 /\ good w3 /\
  add_payment p w2 = (Ok (next_id (t_payments (w_view w2))), w3).
Proof.
  intros Hg (_ & _ & Ht & Hr & (u & Hu & Huser) & Hk & (Hpos & Hv & Hf) & Ha) Hn a p w1 w2 w3.
  assert (Hg1 : good w1).
  { apply good_alter_transaction; [done|]. intros t0 Ht0. split; [|done].
    destruct Hg as [_ _ (_ & _ & _ & (_ & _ & _ & _ & _ & H & _) & _)]. apply (H _ _ Ht0). }
  assert (Hg2 : good w2).
  { apply good_alter_transaction; [done|]. intros t0 Ht0. split; [|done].
    by apply complete_transaction_ok. }
  assert (Hp : payment_row_ok (t_users (w_view w2)) (t_invoices (w_view w2)) p = true).
  { unfold payment_row_ok, p, card_payment. cbn -[fits_10_2 numeric_2 refers]. rewrite Hu, Hk.
    unfold a. rewrite numeric_2_cents, fits_intro by first [by eexists|lia]. simpl.
    destruct Huser as [x Hx]. rewrite Hx, Hv. done. }
  destruct (add_payment_good p w2 Hg2 Hp Hn) as [E Hg3]. done.
Qed.

Lemma charge_once w d i t k v :
  let prefix := number_prefix "PAY" (w_now w) in
  let number := next_number prefix (numbered pay_payment_number prefix (t_payments (w_view w))) in
  quiet w -> dense_numbers pay_payment_number prefix (t_payments (w_view w)) ->
  chargeable_transaction (w_view w) d i t k v ->
  exists w', handle_paystack_webhook "charge.success" d w =
      (Ok (mkAnswer true (inl "Payment processed successfully")), w') /\
    quiet w' /\ w_now w' = w_now w /\ charge_recorded (w_now w) d i t k number (w_view w) (w_view w').
Proof.
  intros prefix number Hq Hd Hc. pose proof (quiet_good w Hq) as Hg.
  pose proof (find_transaction _ _ _ _ _ _ (good_schema w Hg) Hc) as Hfind.
  destruct (charge_writes w d i t k v number Hg Hc) as (Hg1 & Hg2 & Hg3 & E3).
  { intros j q Hj. by apply (dense_fresh pay_payment_number prefix _ j). }
  set (a := cents (wd_amount d)) in *. set (p := card_payment _ _ _ _ _) in *.
  set (w1 := over w_view _ w) in *.
  set (w2 := over w_view (over t_transactions (alter (complete_transaction _ _ _) i)) w1) in *.
  set (w3 := over w_view _ w2) in *.
  destruct Hc as (Hr0 & Hpaid & Ht & Hr & Hu & Hk & (Hpos & Hv & Hf1 & Hf2) & Ha).
  assert (Hrow : invoice_row_ok v = true) by (by apply (good_invoice_row k v w)).
  destruct (apply_payment_good k a v w3 Hpos Hg3 Hv) as (w4 & E4 & Hq4 & Hn4 & Hb4 & _).
  { apply apply_payment_fits; [by eexists|done..]. }
  destruct (maybe_activation (truthy_id (tx_subscription_id t)) w4 Hq4) as (w5 & E5 & Hq5 & Hn5 & Hb5).
  exists (w5 <| w_durable := w_view w5 |>). split; [|split; [|split]].
  - unfold handle_paystack_webhook. apply mtry_ok. rewrite bool_decide_eq_false_2 by done.
    rewrite (mthen_ok _ _ _ _ _ (query_good (fun db => select
      (fun _ t => bool_decide (tx_transaction_reference t = wd_reference d)) (t_transactions db)) w
      (good_broken w Hg))), Hfind.
    unfold scalar_one_or_none. rewrite mthen_return.
    rewrite (mthen_ok (set_transaction i _) _ w tt w1) by done. rewrite bool_decide_eq_true_2, Hpaid by done.
    rewrite mthen_return.
    assert (E : process_paystack_success i t a None w1 = (Ok tt, w5 <| w_durable := w_view w5 |>)).
    { unfold process_paystack_success. apply mtry_ok.
      rewrite (mthen_ok utcnow _ w1 (w_now w) w1) by done.
      rewrite (mthen_ok (set_transaction i _) _ w1 tt w2) by done.
      rewrite (mthen_ok _ _ _ _ _ (payment_number_good w2 Hg2)).
      change (add_payment _) with (add_payment p). rewrite (mthen_ok _ _ _ _ _ E3).
      rewrite Hk. simpl. destruct (Z.eqb_spec k 0); [lia|].
      rewrite (mthen_ok _ _ _ _ _ E4).
      assert (Ef : attrs_fresh w4 = (Ok tt, w4)).
      { unfold attrs_fresh. by rewrite (good_broken w4 (quiet_good w4 Hq4)). }
      rewrite (mthen_ok _ _ _ _ _ Ef), (mthen_ok _ _ _ _ _ E5). apply (commit_good w5 (quiet_good w5 Hq5)). }
    by rewrite (mthen_ok _ _ _ _ _ E).
  - apply quiet_commit, Hq5.
  - by transitivity (w_now w4).
  - change (w_view (w5 <| w_durable := w_view w5 |>)) with (w_view w5).
    rewrite Hb4 in Hb5. injection Hb5 as H1 H2 H3 H4 H5. split; [|split; [|split]]; [|done| |done].
    + exists (next_id (t_payments (w_view w2))). split; [apply next_id_fresh|done].
    + rewrite H5. unfold w3, w2, w1. simpl. by rewrite alter_alter_eq.
Qed.

Lemma card_payment_share j now number t a paid :
  whole_cents a -> payment_share j (card_payment now number t a paid)
  = if bool_decide (tx_invoice_id t = Some j) then a else 0.
Proof.
  intros Ha. unfold payment_share, settles_invoice, card_payment. simpl.
  rewrite numeric_2_whole by done. by destruct (bool_decide (tx_invoice_id t = Some j)).
Qed.

Lemma charge_reconciled now d i t k v number db db' :
  charge_recorded now d i t k number db db' -> reconciled db ->
  tx_invoice_id t = Some k -> t_invoices db !! k = Some v -> invoice_row_ok v = true ->
  reconciled db'.
Proof.
  intros ((j & Hj & Hp) & Hi & _ & _) Hrec Hk Hv Hrow. unfold reconciled. rewrite Hp, Hi.
  apply (reconciled_apply (t_payments db) _ _ _ v); [by eexists|done..| |].
  - rewrite settled_insert, card_payment_share, bool_decide_eq_true_2 by (done || by eexists). lia.
  - intros l Hl. rewrite settled_insert, card_payment_share, bool_decide_eq_false_2
      by (congruence || by eexists). lia.
Qed.

(** A successful-charge webhook is processed whatever the status of its
    transaction: delivering the same event twice records two COMPLETED card
    payments under different keys and credits the invoice twice, while the
    ledger stays reconciled with those two payments. *)
Theorem webhook_replay_credits_twice (w : World) (d : WebhookData) (i : Z) (t : PaymentTransaction)
    (k : Z) (v : Invoice) :
  let a := cents (wd_amount d) in
  let once := handle_paystack_webhook "charge.success" d in
  let processed := mkAnswer true (inl "Payment processed successfully") in
  quiet w -> reconciled (w_view w) ->
  dense_numbers pay_payment_number (number_prefix "PAY" (w_now w)) (t_payments (w_view w)) ->
  chargeable_transaction (w_view w) d i t k v ->
  payable (t_invoices (w_view w)) (2 * a) k v ->
  exists w1 w2 j1 j2 p1 p2 t1, once w = (Ok processed, w1) /\ once w1 = (Ok processed, w2) /\ quiet w2 /\
    t_transactions (w_durable w1) !! i = Some t1 /\ tx_status t1 = "completed" /\
    j1 <> j2 /\ t_payments (w_durable w2) = <[j2 := p2]> (<[j1 := p1]> (t_payments (w_view w))) /\
    (pay_status p1 = COMPLETED /\ pay_amount p1 = a /\ pay_status p2 = COMPLETED /\ pay_amount p2 = a) /\
    inv_paid_amount <$> (t_invoices (w_durable w2) !! k) = Some (inv_paid_amount v + 2 * a) /\
    reconciled (w_durable w2).
Proof.
  intros a once processed Hq Hrec Hd Hc (Hpos & Hv & Hf1 & Hf2).
  pose proof (good_invoice_row k v w (quiet_good w Hq) Hv) as Hrow.
  assert (Hwa : whole_cents a) by (by eexists).
  destruct (apply_payment_amounts a (w_now w) v Hwa Hrow) as (P1 & P2 & P3).
  destruct (charge_once w d i t k v Hq Hd Hc) as (w1 & E1 & Hq1 & Hn1 & Hr1).
  pose proof Hr1 as ((j1 & Hj1 & Hp1) & Hi1 & Ht1 & Hu1).
  destruct Hc as (Hr0 & Hpaid & Ht & Href & Huser & Hk & (_ & _ & Hg1 & Hg2) & Ha).
  set (t1 := charged_transaction a (w_now w) t).
  assert (Et1 : t_transactions (w_view w1) !! i = Some t1) by (by rewrite Ht1, lookup_alter_eq, Ht).
  set (v1 := apply_payment a (w_now w) v).
  assert (Ev1 : t_invoices (w_view w1) !! k = Some v1) by (by rewrite Hi1, lookup_alter_eq, Hv).
  assert (Hd1 : dense_numbers pay_payment_number (number_prefix "PAY" (w_now w1)) (t_payments (w_view w1))).
  { rewrite Hn1, Hp1. by apply dense_insert. }
  assert (Hc1 : chargeable_transaction (w_view w1) d i t1 k v1).
  { refine (conj Hr0 (conj Hpaid (conj Et1 (conj Href (conj _ (conj Hk (conj _ Ha))))))).
    - destruct Huser as (u & Hu & Hus). exists u. by rewrite Hu1.
    - split; [done|]. split; [done|]. unfold v1. fold a. rewrite P1, P3. split; [lia|].
      replace (inv_total_amount v - (inv_paid_amount v + a) - a)
        with (inv_total_amount v - inv_paid_amount v - 2 * a) by lia. done. }
  destruct (charge_once w1 d i t1 k v1 Hq1 Hd1 Hc1) as (w2 & E2 & Hq2 & Hn2 & Hr2).
  pose proof Hr2 as ((j2 & Hj2 & Hp2) & Hi2 & _ & _).
  assert (Hrow1 : invoice_row_ok v1 = true) by (by apply (good_invoice_row k v1 w1 (quiet_good w1 Hq1))).
  eexists w1, w2, j1, j2, _, _, t1. split; [exact E1|]. split; [exact E2|]. split; [done|].
  rewrite (quiet_durable w1 Hq1), (quiet_durable w2 Hq2). split; [done|]. split; [done|].
  split. { intros <-. rewrite Hp1, lookup_insert_eq in Hj2. done. }
  split; [rewrite Hp2, Hp1; reflexivity|].
  split; [unfold card_payment; simpl; by rewrite numeric_2_cents|].
  split.
  - rewrite Hi2, lookup_alter_eq, Ev1. simpl.
    destruct (apply_payment_amounts a (w_now w1) v1 Hwa Hrow1) as (Q1 & _). fold a. rewrite Q1.
    f_equal. unfold v1. rewrite P1. lia.
  - by eapply charge_reconciled, Hrow1; [apply Hr2|eapply charge_reconciled|..].
Qed.
End Facts.
(** ** Witnesses

    A suspended customer with an invoice of 1000.00, one payment of 400.00 for
    it recorded by hand, and a pending gateway transaction. *)
#[export] Instance reconciled_dec db : Decision (reconciled db).
Proof. unfold reconciled, invoice_reconciled. apply _. Defined.

Definition sample_invoice (st : PaymentStatus) : Invoice :=
  let paid := if settled_status st then units 400 else 0 in
  mkInvoice (Some 1) 5 (Some 42) "INV-197001-0001" INV_PENDING (units 1000) 0 0 (units 1000) paid
    (units 1000 - paid) 0 1000 None None None None.

Definition sample_payment (st : PaymentStatus) : Payment :=
  (manual_payment 0 "MANUAL-1" (mkPaymentData 5 (Some 7) (units 400) None None None None None) 1 None)
    <| pay_status := st |>.

Definition sample_transaction : PaymentTransaction :=
  mkTransaction (Some 5) (Some 7) (Some 42) "TX-1" "KES" "pending" None None None None None None.

Definition billing_db (st : PaymentStatus) : DB :=
  (agent_db SUSPENDED) <| t_users := {[5 := customer_user (Some 1) "C001" "c@x" None "C" "D"]} |>
    <| t_invoices := {[7 := sample_invoice st]} |> <| t_payments := {[2 := sample_payment st]} |>
    <| t_transactions := {[1 := sample_transaction]} |>.

Definition billing_world (st : PaymentStatus) : @World unreachable_router :=
  start_offline 500 (billing_db st).

Lemma billing_quiet st : quiet (billing_world st).
Proof. split; [|done]. apply good_offline. destruct st; vm_compute; reflexivity. Qed.

Lemma billing_reconciled st : reconciled (billing_db st).
Proof. apply (bool_decide_eq_true_1 _). destruct st; vm_compute; reflexivity. Qed.

Lemma billing_payable st amount :
  amount = units 400 \/ amount = units 1000 ->
  payable (t_invoices (billing_db st)) amount 7 (sample_invoice st).
Proof.
  intros Ha. split; [lia|]. split; [done|]. destruct Ha as [-> | ->], st; split; reflexivity.
Qed.

Lemma billing_dense st :
  dense_numbers pay_payment_number (number_prefix "PAY" 500) (t_payments (billing_db st)).
Proof.
  intros i p. unfold billing_db. simpl. rewrite lookup_singleton_Some. intros [_ <-].
  destruct st; vm_compute; discriminate.
Qed.


Lemma verification_ledger_witness :
  exists w', verify_payment 2 1 CHECKED None (billing_world COMPLETED) = (Ok true, w') /\
    (inv_paid_amount <$> (t_invoices (w_durable w') !! 7)) = Some (units 800) /\
    settled_total 7 (t_payments (w_durable w')) = units 400.
Proof.
  destruct (verification_ledger (billing_world COMPLETED) 2 1 None (sample_payment COMPLETED) 7
      (sample_invoice COMPLETED) (billing_quiet COMPLETED) (billing_reconciled COMPLETED) eq_refl
      eq_refl (billing_payable COMPLETED (units 400) (or_introl eq_refl)))
    as (w' & E & _ & Hp & Hi & _).
  assert (Hs : settled_total 7 (t_payments (w_durable w')) = units 400).
  { rewrite Hp. vm_compute. reflexivity. }
  assert (Hrun : w' = snd (verify_payment 2 1 CHECKED None (billing_world COMPLETED))) by (by rewrite E).
  exists w'. split; [exact E|]. split; [|exact Hs].
  destruct (t_invoices (w_durable w') !! 7) as [u|] eqn:Eu.
  - simpl. rewrite (proj2 (Hi 7 u Eu)), Hs. vm_compute. reflexivity.
  - rewrite Hrun in Eu. vm_compute in Eu. discriminate Eu.
Defined.

Lemma create_invoice_totals_witness :
  exists i w' v, create_invoice 5 0 (Some 42) (units 16) (units 10) None None None
      [mkItemData (Some "Monthly") None (Some 20000) None; mkItemData None (Some 250) (Some 999) None]
      (billing_world UNCHECKED) = (Ok i, w') /\
    t_invoices (w_durable w') !! i = Some v /\
    inv_total_amount v = cents (20000 + 2498 + 1600 - 1000) /\ inv_paid_amount v = 0.
Proof.
  set (items := [mkItemData (Some "Monthly") None (Some 20000) None; mkItemData None (Some 250) (Some 999) None]).
  destruct (create_invoice_totals (billing_world UNCHECKED) 5 0 (units 16) (units 10) (Some 42) None None None
      items (billing_quiet UNCHECKED) ltac:(by eexists))
    as (i & w' & v & E & _ & _ & Hi & _ & _ & _ & Ht & _ & Hp & _).
  - by exists (sample_sub SUSPENDED).
  - intros j u. simpl. rewrite lookup_singleton_Some. intros [_ <-] _. exists 0. split; [|reflexivity].
    vm_compute. split; [discriminate|reflexivity].
  - by exists 0.
  - by exists 1600.
  - by exists 1000.
  - done.
  - reflexivity.
  - reflexivity.
  - repeat constructor; vm_compute; done.
  - split; [reflexivity|split; reflexivity].
  - exists i, w', v. split; [exact E|]. rewrite Hi, lookup_insert_eq. split; [done|].
    split; [|exact Hp]. rewrite Ht. reflexivity.
Defined.

Lemma billing_cycle_creates_nothing_witness :
  exists w', generate_billing_cycle_invoices None
      (start_offline 500 ((billing_db UNCHECKED) <| t_invoices := ∅ |> <| t_payments := ∅ |>
         <| t_subs := {[42 := (sample_sub ACTIVE) <| sub_is_auto_renewal := true |>]} |>)) =
    (Ok (mkCycleResult 0 1 [(42, NoInspectionAvailable)]), w') /\
    t_invoices (w_durable w') = ∅.
Proof.
  set (db := over t_subs _ _).
  destruct (billing_cycle_creates_nothing (start_offline 500 db) None)
    as (w' & E & _ & Hd & _).
  - apply good_offline. vm_compute. reflexivity.
  - intros k s. simpl. rewrite lookup_singleton_Some. intros [_ <-]. by eexists.
  - exists w'. split; [|by rewrite Hd]. rewrite E. vm_compute. reflexivity.
Defined.

Lemma webhook_replay_credits_twice_witness :
  let once := handle_paystack_webhook "charge.success" (mkWebhookData "TX-1" 40000 None None None) in
  exists w1 w2, once (billing_world UNCHECKED) =
      (Ok (mkAnswer true (inl "Payment processed successfully")), w1) /\
    once w1 = (Ok (mkAnswer true (inl "Payment processed successfully")), w2) /\
    (inv_paid_amount <$> (t_invoices (w_durable w2) !! 7)) = Some (units 800).
Proof.
  intros once.
  destruct (webhook_replay_credits_twice (billing_world UNCHECKED)
      (mkWebhookData "TX-1" 40000 None None None) 1 sample_transaction 7 (sample_invoice UNCHECKED)
      (billing_quiet UNCHECKED) (billing_reconciled UNCHECKED) (billing_dense UNCHECKED))
    as (w1 & w2 & _ & _ & _ & _ & _ & E1 & E2 & _ & _ & _ & _ & _ & _ & Hp & _).
  - split; [done|]. split; [done|]. split; [done|]. split; [done|].
    split; [exists 5; split; [done|by eexists]|]. split; [done|].
    split; [apply (billing_payable UNCHECKED (units 400)); by left|]. vm_compute. split; [discriminate|reflexivity].
  - split; [done|]. split; [done|]. split; reflexivity.
  - exists w1, w2. split; [exact E1|]. split; [exact E2|]. rewrite Hp. reflexivity.
Defined.
