(* ===== verification/HotspotNames.v ===== *)
(** * Hotspot user names ([app/utils/hotspot_username.py])

    Every hotspot customer of an organization logs in under a name made of the
    organization's prefix and of a counter kept in its settings. The random
    digits of the password, which the code draws with [secrets.randbelow], are
    an argument. *)

From S2P Require Import Prelude PyString Numerics Models Session.


(** ** Names and passwords *)

(** [f"{n:0kd}"], with the sign counted in the width. *)
Definition zero_pad_signed (k : nat) (n : Z) : string :=
  if n <? 0 then "-" +:+ zero_pad (k - 1) (- n) else zero_pad k n.

Definition hotspot_username (prefix : string) (counter : Z) : string :=
  if counter <? 1000 then prefix +:+ zero_pad_signed 3 counter
  else if counter <? 10000 then prefix +:+ zero_pad_signed 4 counter
  else prefix +:+ zero_pad_signed 5 counter.

(** [''.join(str(secrets.randbelow(10)) for _ in range(password_length))] *)
Definition password_of_digits (digits : list Z) : string :=
  foldr (fun d s => str_of_Z (d mod 10) +:+ s) "" digits.

(** The row [OrganizationSettings(...)] with the column defaults. *)
Definition default_settings : OrganizationSettings := mkOrgSettings (Some 14) (Some 14) "C" 1.

Definition name_of_settings (s : OrganizationSettings) : string :=
  hotspot_username (org_hotspot_username_prefix s) (org_hotspot_username_counter s).

(** ** Operations *)
Section Operations.
Context {be : Backend} {ros : RouterOS}.

Definition get_settings (org : Z) : run (option OrganizationSettings) :=
  query (fun db => t_settings db !! org).

Definition generate_hotspot_credentials (org : Z) (digits : list Z) : run (string * string) :=
  settings <- get_settings org ;;
  s <- match settings with
       | Some s => mreturn s
       | None =>
           assign (over t_settings (insert org default_settings)) ;;;
           flush ;;;
           mreturn default_settings
       end ;;
  assign (over t_settings (alter (over org_hotspot_username_counter
            (fun _ => org_hotspot_username_counter s + 1)) org)) ;;;
  commit ;;;
  mreturn (name_of_settings s, password_of_digits digits).

Definition get_next_username_preview (org : Z) : run string :=
  settings <- get_settings org ;;
  match settings with
  | None => mreturn "C001"
  | Some s => mreturn (name_of_settings s)
  end.

Definition reset_username_counter (org new_counter : Z) : run bool :=
  settings <- get_settings org ;;
  match settings with
  | None => mreturn false
  | Some _ =>
      assign (over t_settings (alter (fun s => s <| org_hotspot_username_counter := new_counter |>) org)) ;;;
      commit ;;;
      mreturn true
  end.

Definition update_username_prefix (org : Z) (new_prefix : string) : run bool :=
  settings <- get_settings org ;;
  match settings with
  | None => mreturn false
  | Some _ =>
      assign (over t_settings (alter (fun s => s <| org_hotspot_username_prefix := new_prefix |>) org)) ;;;
      commit ;;;
      mreturn true
  end.

(** A run of credentials, one after the other, as a batch of vouchers takes
    them. *)
Definition issue_credentials (org : Z) (draws : list (list Z)) : run (list (string * string)) :=
  mfold (fun acc digits =>
           c <- generate_hotspot_credentials org digits ;;
           mreturn (acc ++ [c])) [] draws.
End Operations.

(** ** The format is injective *)
Lemma zero_pad_digits k n : 0 <= n -> read_digits 0 (zero_pad k n) = n /\ all_digits (zero_pad k n) = true.
Proof.
  intros Hn. destruct (str_of_Z_digits n Hn) as (H1 & H2 & _).
  unfold zero_pad. split; [by rewrite read_digits_zeros|].
  induction (k - String.length (str_of_Z n))%nat as [|m IH]; [done|]. exact IH.
Qed.

Lemma zero_pad_signed_inj k k' m n :
  zero_pad_signed k m = zero_pad_signed k' n -> m = n.
Proof.
  unfold zero_pad_signed. intros H.
  destruct (Z.ltb_spec m 0) as [Hm|Hm], (Z.ltb_spec n 0) as [Hn|Hn].
  - apply string_app_inj, (f_equal (read_digits 0)) in H.
    rewrite (proj1 (zero_pad_digits (k - 1) (- m) ltac:(lia))) in H.
    rewrite (proj1 (zero_pad_digits (k' - 1) (- n) ltac:(lia))) in H. lia.
  - destruct (zero_pad_digits k' n Hn) as [_ E]. by rewrite <- H in E.
  - destruct (zero_pad_digits k m Hm) as [_ E]. by rewrite H in E.
  - apply (f_equal (read_digits 0)) in H.
    by rewrite (proj1 (zero_pad_digits k m Hm)), (proj1 (zero_pad_digits k' n Hn)) in H.
Qed.

Lemma hotspot_username_inj prefix m n :
  hotspot_username prefix m = hotspot_username prefix n -> m = n.
Proof.
  assert (H : forall c, exists k, hotspot_username prefix c = prefix +:+ zero_pad_signed k c).
  { intros c. unfold hotspot_username. destruct (c <? 1000); [by exists 3%nat|].
    destruct (c <? 10000); [by exists 4%nat|by exists 5%nat]. }
  destruct (H m) as [k ->], (H n) as [k' ->]. intros E%string_app_inj.
  by eapply zero_pad_signed_inj.
Qed.

(** ** The operations in a session in good order *)
Section Runs.
Context {be : Backend} {ros : RouterOS}.

(** The settings the next name is taken from. *)
Definition settings_of (db : DB) (org : Z) : OrganizationSettings :=
  default default_settings (t_settings db !! org).

(** The tables after the counter of [org] moved to [c]. *)
Definition with_counter (org c : Z) (db : DB) : DB :=
  over t_settings (insert org ((settings_of db org) <| org_hotspot_username_counter := c |>)) db.

Lemma good_settings_insert org s w :
  good w -> in_int4 (org_hotspot_username_counter s) = true ->
  good (w <| w_view ::= over t_settings (insert org s) |>).
Proof.
  intros Hg Hs. apply good_portal; [done..|]. unfold portal_ok, portal_tables. simpl.
  intros (H1 & H2 & H3 & H4 & H5 & H6 & H7 & H8 & H9 & H10).
  do 8 (split; [done|]). split; [by apply map_Forall_insert_2|exact H10].
Qed.

Lemma with_counter_twice org c c' db : with_counter org c' (with_counter org c db) = with_counter org c' db.
Proof.
  unfold with_counter, settings_of. destruct db; simpl. by rewrite lookup_insert_eq, insert_insert_eq.
Qed.

(** The settings row is read, created when absent, and moved by one. *)
Lemma generate_run org digits w :
  good w -> let s := settings_of (w_view w) org in
  in_int4 (org_hotspot_username_counter s + 1) = true ->
  let db := with_counter org (org_hotspot_username_counter s + 1) (w_view w) in
  let w' := w <| w_view := db |> <| w_durable := db |> in
  generate_hotspot_credentials org digits w
    = (Ok (name_of_settings s, password_of_digits digits), w') /\ good w'.
Proof.
  intros Hg s Hc db w'. unfold generate_hotspot_credentials, get_settings.
  rewrite (mthen_ok _ _ _ _ _ (query_good _ w (good_broken w Hg))).
  assert (Hg1 : good (w <| w_view := db |>)) by (by apply good_settings_insert).
  split; [|by apply (good_commit _ Hg1)]. unfold s, db, with_counter, settings_of in *.
  destruct (t_settings (w_view w) !! org) as [s0|] eqn:E; simpl in *.
  - rewrite mthen_return.
    assert (Ha : alter (over org_hotspot_username_counter (fun _ => org_hotspot_username_counter s0 + 1)) org
                   (t_settings (w_view w))
                 = <[org := s0 <| org_hotspot_username_counter := org_hotspot_username_counter s0 + 1 |>]>
                     (t_settings (w_view w))) by 
      by (rewrite <- (insert_id _ _ _ E) at 1; by rewrite alter_insert_eq).
    rewrite (mthen_ok (assign _) _ w tt
      (w <| w_view ::= over t_settings (insert org (s0 <| org_hotspot_username_counter := org_hotspot_username_counter s0 + 1 |>)) |>))
      by (unfold assign, mmodify, over in *; simpl in *; by rewrite Ha).
    by rewrite (mthen_ok _ _ _ _ _ (commit_good _ Hg1)).
  - set (w1 := w <| w_view ::= over t_settings (insert org default_settings) |>).
    assert (Hg0 : good w1) by (by apply good_settings_insert).
    rewrite (mthen_ok _ _ w default_settings w1).
    2:{ rewrite (mthen_ok (assign _) _ w tt w1) by done. by rewrite (mthen_ok _ _ _ _ _ (flush_good w1 Hg0)). }
    rewrite (mthen_ok (assign _) _ w1 tt
      (w <| w_view ::= over t_settings (insert org (default_settings <| org_hotspot_username_counter := 2 |>)) |>)).
    2:{ unfold assign, mmodify, w1, over; simpl. by rewrite alter_insert_eq. }
    by rewrite (mthen_ok _ _ _ _ _ (commit_good _ Hg1)).
Qed.

(** [n] draws take [n] consecutive counters. *)
Definition names_from (s : OrganizationSettings) (draws : list (list Z)) : list (string * string) :=
  imap (fun k digits => (hotspot_username (org_hotspot_username_prefix s)
                           (org_hotspot_username_counter s + Z.of_nat k), password_of_digits digits)) draws.

Lemma names_nodup s draws : NoDup (map fst (names_from s draws)).
Proof.
  apply NoDup_alt. intros i j x. unfold names_from. rewrite !list_lookup_fmap, !list_lookup_imap.
  destruct (draws !! i), (draws !! j); try done. simpl. intros [= <-] [= H].
  apply hotspot_username_inj in H. lia.
Qed.

Lemma issue_from org draws : forall acc w,
  good w -> let s := settings_of (w_view w) org in
  0 <= org_hotspot_username_counter s -> org_hotspot_username_counter s + Z.of_nat (length draws) <= int4_max ->
  w_durable w = w_view w ->
  exists w', mfold (fun acc digits =>
           c <- generate_hotspot_credentials org digits ;;
           mreturn (acc ++ [c])) acc draws w = (Ok (acc ++ names_from s draws), w') /\ good w' /\
    w_now w' = w_now w /\ w_durable w' = w_view w' /\
    w_view w' = if bool_decide (draws = []) then w_view w
                else with_counter org (org_hotspot_username_counter s + Z.of_nat (length draws)) (w_view w).
Proof.
  induction draws as [|d draws IH]; intros acc w Hg s Hc Hmax Hd.
  { exists w. by rewrite app_nil_r. }
  simpl length in Hmax.
  assert (Hi : in_int4 (org_hotspot_username_counter s + 1) = true).
  { unfold in_int4. apply andb_true_iff. split; apply Z.leb_le; unfold int4_max in *; lia. }
  pose proof (generate_run org d w Hg Hi) as HE. cbv zeta in HE. fold s in HE.
  match type of HE with _ = (_, ?x) /\ _ => set (w1 := x) in * end. destruct HE as [HE Hg1].
  assert (Hs1 : settings_of (w_view w1) org
                = s <| org_hotspot_username_counter := org_hotspot_username_counter s + 1 |>).
  { unfold settings_of, w1, with_counter. simpl. by rewrite lookup_insert_eq. }
  destruct (IH (acc ++ [(name_of_settings s, password_of_digits d)]) w1 Hg1) as (w' & E' & Hg' & Hn' & Hd' & Hv').
  { rewrite Hs1. simpl. lia. }
  { rewrite Hs1. simpl. lia. }
  { done. }
  exists w'. split_all; [|done|done|done|].
  - simpl. rewrite mthen_assoc, (mthen_ok _ _ _ _ _ HE), mthen_return, E', Hs1, <- app_assoc.
    unfold names_from. rewrite imap_cons. simpl. do 4 f_equal.
    + unfold name_of_settings. by rewrite Z.add_0_r.
    + apply imap_ext. intros k x _. unfold compose. simpl. do 2 f_equal. lia.
  - rewrite Hv', Hs1. rewrite (bool_decide_eq_false_2 (d :: draws = [])) by done.
    unfold w1. simpl w_view. rewrite with_counter_twice. simpl length.
    destruct draws; simpl; unfold over; simpl; f_equal; lia.
Qed.

(** The names of an organization never repeat: as long as its counter is
    not reset and fits its column, any number of credentials drawn one after
    the other carries pairwise distinct user names, under the prefix of the
    settings, and the committed counter has moved by their number. *)
Theorem hotspot_names_distinct org draws w :
  good w -> w_durable w = w_view w -> let s := settings_of (w_view w) org in
  0 <= org_hotspot_username_counter s -> org_hotspot_username_counter s + Z.of_nat (length draws) <= int4_max ->
  exists l w', issue_credentials org draws w = (Ok l, w') /\ length l = length draws /\
    NoDup (map fst l) /\
    Forall (fun c => String.prefix (org_hotspot_username_prefix s) c.1 = true) l /\
    org_hotspot_username_counter (settings_of (w_durable w') org)
      = org_hotspot_username_counter s + Z.of_nat (length draws).
Proof.
  intros Hg Hd s Hc Hmax.
  destruct (issue_from org draws [] w Hg Hc Hmax Hd) as (w' & E & _ & _ & Hd' & Hv').
  fold s in E, Hv'. exists (names_from s draws), w'. split; [exact E|]. unfold names_from.
  split; [by rewrite length_imap|]. split; [|split].
  - apply names_nodup.
  - apply Forall_lookup. intros i x. rewrite list_lookup_imap. destruct (draws !! i); [|done].
    intros [= <-]. simpl. unfold hotspot_username. by repeat case_match; apply prefix_app.
  - rewrite Hd', Hv'. destruct draws as [|d draws]; simpl bool_decide; cbv iota.
    + simpl. fold s. lia.
    + unfold settings_of, with_counter. simpl. by rewrite lookup_insert_eq.
Qed.

(** The preview is what the next customer gets: the name shown is the
    one the next draw returns, whether or not the settings row exists yet. *)
Theorem preview_is_next org digits w :
  good w -> in_int4 (org_hotspot_username_counter (settings_of (w_view w) org) + 1) = true ->
  exists name w', get_next_username_preview org w = (Ok name, w) /\
    generate_hotspot_credentials org digits w = (Ok (name, password_of_digits digits), w').
Proof.
  intros Hg Hc. destruct (generate_run org digits w Hg Hc) as [E _]. cbv zeta in E.
  do 2 eexists. split; [|exact E]. unfold get_next_username_preview, get_settings.
  rewrite (mthen_ok _ _ _ _ _ (query_good _ w (good_broken w Hg))).
  unfold settings_of. by destruct (t_settings (w_view w) !! org).
Qed.
End Runs.

(** ** Concrete runs *)
Definition settings_db (counter : Z) : DB :=
  empty_db <| t_settings := {[1 := mkOrgSettings (Some 14) (Some 14) "C" counter]} |>.

Lemma settings_db_good counter : in_int4 counter = true -> good (start_offline 0 (settings_db counter)).
Proof.
  intros H. apply good_start. split; [done|split; [done|split; [by constructor|split]]].
  - by split_and!.
  - do 8 (split; [done|]). split; [apply map_Forall_singleton; exact H|done].
Qed.

(** Across the change of width: C999 is followed by C1000. *)
Lemma hotspot_names_distinct_witness :
  exists l w', issue_credentials 1 [[8; 6; 5]; [1; 2; 3]] (start_offline 0 (settings_db 999)) = (Ok l, w') /\
    l = [("C999", "865"); ("C1000", "123")] /\ NoDup (map fst l).
Proof.
  destruct (hotspot_names_distinct 1 [[8; 6; 5]; [1; 2; 3]] (start_offline 0 (settings_db 999)))
    as (l & w' & E & _ & Hl & _); [by apply settings_db_good|done|vm_compute; discriminate..|].
  exists l, w'. split; [exact E|]. split; [|exact Hl].
  assert (H : fst (issue_credentials 1 [[8; 6; 5]; [1; 2; 3]] (start_offline 0 (settings_db 999)))
              = Ok [("C999", "865"); ("C1000", "123")]) by (vm_compute; reflexivity).
  rewrite E in H. by injection H.
Defined.

Lemma preview_is_next_witness :
  exists name w', get_next_username_preview 1 (start_offline 0 empty_db) = (Ok name, start_offline 0 empty_db) /\
    generate_hotspot_credentials 1 [0; 0; 7] (start_offline 0 empty_db) = (Ok (name, "007"), w').
Proof.
  apply (preview_is_next 1 [0; 0; 7] (start_offline 0 empty_db)); [|reflexivity].
  apply good_offline. vm_compute. reflexivity.
Defined.
