(* ===== verification/Bridge.v ===== *)
(** * The hotspot dashboard bridge ([app/services/hotspot_dashboard_bridge.py])

    After a captive purchase or a voucher redemption the bridge mirrors the
    customer into the tables the dashboard reads: a user under the hotspot
    name, a hotspot subscription, and for a purchase a completed payment. *)

From S2P Require Import Prelude PyString Numerics Models Session Plan RouterSync Subscriptions Expiry.


(** The columns of [Organization] the portals read. *)
Record Organization : Type := mkOrg {
  org_id : Z;
  org_slug : string;
  org_uuid : string
}.

(** ** The rows the bridge writes *)

(** [User(organization_id=..., username=hotspot_username, email=synthetic_email, ...)] *)
Definition hotspot_user (org : Organization) (hotspot_username hotspot_password_hash : string) : User :=
  mkUser (Some (org_id org)) hotspot_username
    (lower hotspot_username +:+ "@hotspot." +:+ org_slug org +:+ ".local") None
    "Hotspot" hotspot_username hotspot_password_hash CUSTOMER U_ACTIVE true true None None None None.

Definition user_matches (org : Organization) (hotspot_username : string) (u : User) : bool :=
  bool_decide (usr_organization_id u = Some (org_id org))
  && bool_decide (usr_username u = hotspot_username).

Definition hotspot_subscription (now : datetime) (org : Organization) (user_id plan_id router_id : Z)
    (username password : string) (expires_at : datetime) : Subscription :=
  mkSubscription (Some (org_id org)) user_id plan_id router_id HOTSPOT ACTIVE username password
    (Some now) (Some expires_at) false now 0 0 0 0 None false None None None.

Definition renew_hotspot (now : datetime) (org : Organization) (plan_id : Z)
    (username password : string) (expires_at : datetime) (s : Subscription) : Subscription :=
  s <| sub_plan_id := plan_id |> <| sub_organization_id := Some (org_id org) |>
    <| sub_status := ACTIVE |> <| sub_start_date := Some now |> <| sub_end_date := Some expires_at |>
    <| sub_username := username |> <| sub_password := password |> <| sub_last_activity := Some now |>.

(** [reference or f"HSP-{organization.id}-{int(datetime.utcnow().timestamp())}"],
    on a server that runs in UTC *)
Definition payment_number_of (now : datetime) (org : Organization) (reference : option string) : string :=
  match reference with
  | Some "" | None => "HSP-" +:+ str_of_Z (org_id org) +:+ "-" +:+ str_of_Z (Z.quot now usec_per_second)
  | Some s => s
  end.

Definition hotspot_payment (now : datetime) (org : Organization) (user_id : Z) (amount : money)
    (currency : string) (reference : option string) (method : string) : Payment :=
  mkPayment (Some (org_id org)) (Some user_id) None (payment_number_of now org reference)
    (numeric_2 amount) (if bool_decide (currency = "") then "KES" else currency)
    (if bool_decide (lower method = "mpesa") then MPESA else OTHER)
    COMPLETED None reference None None None (Some now) None (Some "Hotspot package purchase")
    None None None None None false None None now.

Definition payment_recorded (org : Organization) (reference : string) (p : Payment) : bool :=
  bool_decide (pay_reference_number p = Some reference)
  && bool_decide (pay_organization_id p = Some (org_id org)).

(** What the caller hands over; [br_epoch] is the epoch in which it loaded the
    organization and the plan. *)
Record BridgeCall : Type := mkBridge {
  br_epoch : nat;
  br_org : Organization;
  br_plan_id : Z;
  br_username : string;
  br_password : string;
  br_expires_at : datetime;
  br_amount : option money;
  br_currency : string;
  br_reference : option string;
  br_method : string;
  br_is_voucher_redeem : bool
}.

(** ** Operations *)
Section Bridge.
Context {be : Backend} {ros : RouterOS}.

Definition _resolve_router_id (org : Organization) : run (option Z) :=
  query (fun db => fst <$> active_router_of (org_id org) db).

Definition find_customer (org : Organization) (hotspot_username : string) : run (option (Z * User)) :=
  rows <- query (fun db => select (fun _ => user_matches org hotspot_username) (t_users db)) ;;
  scalar_one_or_none rows.

Definition _upsert_customer_user (e : nat) (org : Organization) (hotspot_username hotspot_password_hash : string)
    : run (option Z) :=
  found <- find_customer org hotspot_username ;;
  match found with
  | Some (i, _) => mreturn (Some i)
  | None =>
      id <- query (fun db => next_id (t_users db)) ;;
      assign (over t_users (insert id (hotspot_user org hotspot_username hotspot_password_hash))) ;;;
      mtry (flush ;;; mreturn (Some id))
        (fun _ =>
           rollback ;;;
           row_attrs e ;;;
           winner <- find_customer org hotspot_username ;;
           mreturn (fst <$> winner))
  end.

Definition _upsert_subscription (e : nat) (org : Organization) (user_id plan_id router_id : Z)
    (username password : string) (expires_at : datetime) : run unit :=
  found <- query (fun db => head (select (fun _ => holds_key user_id router_id HOTSPOT) (t_subs db))) ;;
  now <- utcnow ;;
  match found with
  | Some (i, _) =>
      load_subs [i] ;;;
      row_attrs e ;;;
      set_sub i (renew_hotspot now org plan_id username password expires_at)
  | None =>
      row_attrs e ;;;
      id <- query (fun db => next_id (t_subs db)) ;;
      assign (over t_subs (insert id
        (hotspot_subscription now org user_id plan_id router_id username password expires_at))) ;;;
      load_subs [id] ;;;
      flush
  end.

Definition _maybe_create_payment (org : Organization) (user_id : Z) (amount : money)
    (currency : string) (reference : option string) (method : string) : run unit :=
  seen <- match reference with
          | Some "" | None => mreturn false
          | Some s => query (fun db =>
              match select (fun _ => payment_recorded org s) (t_payments db) with [] => false | _ => true end)
          end ;;
  if (seen : bool) then mreturn tt
  else
    now <- utcnow ;;
    id <- query (fun db => next_id (t_payments db)) ;;
    assign (over t_payments (insert id (hotspot_payment now org user_id amount currency reference method))) ;;;
    flush.

Definition mirror_purchase (c : BridgeCall) : run unit :=
  row_attrs (br_epoch c) ;;;
  router_id <- _resolve_router_id (br_org c) ;;
  match router_id with
  | None => mreturn tt
  | Some rid =>
      user <- _upsert_customer_user (br_epoch c) (br_org c) (br_username c) (br_password c) ;;
      match user with
      | None => mreturn tt
      | Some uid =>
          _upsert_subscription (br_epoch c) (br_org c) uid (br_plan_id c) rid (br_username c)
            (br_password c) (br_expires_at c) ;;;
          match br_amount c with
          | Some a =>
              mwhen (negb (br_is_voucher_redeem c))
                (_maybe_create_payment (br_org c) uid a (br_currency c) (br_reference c) (br_method c))
          | None => mreturn tt
          end ;;;
          commit
      end
  end.

Definition bridge_hotspot_purchase_to_dashboard (c : BridgeCall) : run unit :=
  mtry (mirror_purchase c) (fun _ => mtry rollback (fun _ => mreturn tt)).
End Bridge.
