(* ===== verification/BridgeFacts.v ===== *)
(** * The dashboard bridge: what it mirrors, once *)

From S2P Require Import Prelude PyString Numerics Models Session Plan AgentQueue RouterSync Subscriptions Expiry Ledger Bridge.


(** ** Writing a user *)
Lemma payment_ok_more_users u u' m p :
  (forall i, is_Some (u !! i) -> is_Some (u' !! i)) ->
  payment_row_ok u m p = true -> payment_row_ok u' m p = true.
Proof.
  unfold payment_row_ok. rewrite !andb_true_iff. intros H [[[H1 H2] H3] H4].
  eauto using refers_same_domain.
Qed.

Section Facts.
Context {be : Backend} {ros : RouterOS}.

Lemma good_insert_user u i w :
  good w -> t_users (w_view w) !! i = None -> usr_phone u = None ->
  (forall j v, t_users (w_view w) !! j = Some v ->
     usr_username v <> usr_username u /\ usr_email v <> usr_email u /\
     (is_Some (usr_auth_service_user_id u) ->
      usr_auth_service_user_id v <> usr_auth_service_user_id u)) ->
  good (w <| w_view ::= over t_users (insert i u) |>).
Proof.
  intros [Hb Hf (H1 & H2 & H3 & (B1 & B2 & B3 & B4 & B5)
    & (P1 & P2 & P3 & P4 & P5 & P6 & P7 & P8 & P9 & P10 & P11))] Hi Hp Hu.
  split; [done..|]. split; [done|]. split; [done|]. split; [done|]. split.
  - split; [done|]. split; [done|]. split; [done|]. split; [|done].
    intros j p Hj. apply (payment_ok_more_users (t_users (w_view w))); [|by apply (B4 j)].
    intros k Hk. simpl. rewrite lookup_insert_is_Some'. by right.
  - split; [|split; [|split; [|do 6 (split; [done|]); split; [|exact P11]]]].
    + apply unique_insert; [done..|]. intros j v Hj. apply (Hu j v Hj).
    + apply unique_insert; [done..|]. intros j v Hj. apply (Hu j v Hj).
    + apply unique_opt_insert; [done|]. rewrite Hp. by intros ? ? ? [? ?].
    + apply unique_opt_insert; [done|]. intros j v Hj. apply (Hu j v Hj).
Qed.

(** ** What the tables become *)
Definition own_user (c : BridgeCall) (db : DB) : option (Z * User) :=
  head (select (fun _ => user_matches (br_org c) (br_username c)) (t_users db)).

Definition mirrored_id (c : BridgeCall) (db : DB) : Z :=
  match own_user c db with Some (i, _) => i | None => next_id (t_users db) end.

Definition mirror_user (c : BridgeCall) (db : DB) : DB :=
  match own_user c db with
  | Some _ => db
  | None => over t_users (insert (next_id (t_users db)) (hotspot_user (br_org c) (br_username c) (br_password c))) db
  end.

Definition own_sub (uid rid : Z) (db : DB) : option (Z * Subscription) :=
  head (select (fun _ => holds_key uid rid HOTSPOT) (t_subs db)).

Definition mirror_sub (now : datetime) (c : BridgeCall) (uid rid : Z) (db : DB) : DB :=
  match own_sub uid rid db with
  | Some (i, _) =>
      over t_subs (alter (renew_hotspot now (br_org c) (br_plan_id c) (br_username c)
        (br_password c) (br_expires_at c)) i) db
  | None =>
      over t_subs (insert (next_id (t_subs db)) (hotspot_subscription now (br_org c) uid
        (br_plan_id c) rid (br_username c) (br_password c) (br_expires_at c))) db
  end.

Definition recorded (c : BridgeCall) (db : DB) : bool :=
  match br_reference c with
  | Some "" | None => false
  | Some s => match select (fun _ => payment_recorded (br_org c) s) (t_payments db) with
              | [] => false | _ => true end
  end.

(** The payment a call owes: none for a redeemed voucher, none without an
    amount, none when its reference is already recorded. *)
Definition payment_due (c : BridgeCall) (db : DB) : option money :=
  match br_amount c with
  | Some a => if br_is_voucher_redeem c || recorded c db then None else Some a
  | None => None
  end.

Definition mirror_payment (now : datetime) (c : BridgeCall) (uid : Z) (db : DB) : DB :=
  match payment_due c db with
  | Some a =>
      over t_payments (insert (next_id (t_payments db)) (hotspot_payment now (br_org c) uid a
        (br_currency c) (br_reference c) (br_method c))) db
  | None => db
  end.

(** The tables after the bridge. *)
Definition mirror (now : datetime) (c : BridgeCall) (rid : Z) (db : DB) : DB :=
  let uid := mirrored_id c db in
  mirror_payment now c uid (mirror_sub now c uid rid (mirror_user c db)).

(** The schema leaves room for the rows: nobody else holds the user name or
    its synthetic address, and the payment's number and amount are free. *)
Record room_for (now : datetime) (c : BridgeCall) (db : DB) : Prop := {
  rf_name : forall j u, t_users db !! j = Some u ->
    usr_username u = br_username c \/ usr_email u = usr_email (hotspot_user (br_org c) (br_username c) (br_password c)) ->
    user_matches (br_org c) (br_username c) u = true;
  rf_amount : forall a, payment_due c db = Some a -> fits_10_2 (numeric_2 a) = true;
  rf_number : forall j p, payment_due c db <> None -> t_payments db !! j = Some p ->
    pay_payment_number p <> payment_number_of now (br_org c) (br_reference c)
}.

(** A step of the session that leads to the tables [db]. *)
Record reaches (w : World) (db : DB) (w' : World) : Prop := {
  re_good : good w';
  re_now : w_now w' = w_now w;
  re_epoch : w_epoch w' = w_epoch w;
  re_durable : w_durable w' = w_durable w;
  re_view : w_view w' = db
}.

Lemma reaches_refl w : good w -> reaches w (w_view w) w.
Proof. by split. Qed.

Lemma unique_usernames w : good w -> unique_by usr_username (t_users (w_view w)).
Proof. intros [_ _ (_ & _ & _ & _ & (H & _))]. exact H. Qed.

Lemma find_customer_good c w :
  good w -> find_customer (br_org c) (br_username c) w = (Ok (own_user c (w_view w)), w).
Proof.
  intros Hg. unfold find_customer, own_user.
  rewrite (mthen_ok _ _ _ _ _ (query_good _ w (good_broken w Hg))).
  destruct (select_one (fun _ => user_matches (br_org c) (br_username c)) (t_users (w_view w)))
    as [-> | (i & x & -> & _)]; [|done..].
  unfold user_matches. intros i x j y Hi Hj [_ Hx%bool_decide_eq_true_1]%andb_true_iff
    [_ Hy%bool_decide_eq_true_1]%andb_true_iff.
  apply (unique_usernames w Hg _ _ Hi _ _ Hj). congruence.
Qed.

Lemma own_user_found c db i u :
  own_user c db = Some (i, u) -> t_users db !! i = Some u /\ user_matches (br_org c) (br_username c) u = true.
Proof.
  unfold own_user. intros H. apply head_Some_elem_of in H.
  by apply (elem_of_select (fun _ => user_matches (br_org c) (br_username c))) in H.
Qed.

Lemma own_user_none c db :
  own_user c db = None -> forall j u, t_users db !! j = Some u ->
  user_matches (br_org c) (br_username c) u = false.
Proof.
  unfold own_user. intros H%head_None j u Hj.
  by apply (select_nil_inv (fun _ => user_matches (br_org c) (br_username c)) _ _ _ H Hj).
Qed.

Lemma upsert_user_good e c w :
  good w -> room_for (w_now w) c (w_view w) ->
  exists w', _upsert_customer_user e (br_org c) (br_username c) (br_password c) w
      = (Ok (Some (mirrored_id c (w_view w))), w') /\ reaches w (mirror_user c (w_view w)) w'.
Proof.
  intros Hg Hr. unfold _upsert_customer_user, mirrored_id, mirror_user.
  rewrite (mthen_ok _ _ _ _ _ (find_customer_good c w Hg)).
  destruct (own_user c (w_view w)) as [[i u]|] eqn:Eo.
  { exists w. split; [done|by apply reaches_refl]. }
  rewrite (mthen_ok _ _ _ _ _ (query_good _ w (good_broken w Hg))).
  set (id := next_id (t_users (w_view w))).
  set (w1 := w <| w_view ::= over t_users (insert id (hotspot_user (br_org c) (br_username c) (br_password c))) |>).
  assert (Hg1 : good w1).
  { apply good_insert_user; [done|apply next_id_fresh|done|]. intros j v Hj.
    pose proof (own_user_none _ _ Eo _ _ Hj) as Hno.
    split_all; [intros E; rewrite (rf_name _ _ _ Hr j v Hj) in Hno; auto; discriminate..|].
    by intros [? ?]. }
  exists w1. rewrite (mthen_ok (assign _) _ w tt w1) by done. split; [|by split].
  apply mtry_ok. by rewrite (mthen_ok _ _ _ _ _ (flush_good w1 Hg1)).
Qed.

Lemma holds_renewed now c uid rid s :
  same_natural_key (renew_hotspot now (br_org c) (br_plan_id c) (br_username c) (br_password c)
    (br_expires_at c) s) s = true /\
  holds_key uid rid HOTSPOT (renew_hotspot now (br_org c) (br_plan_id c) (br_username c)
    (br_password c) (br_expires_at c) s) = holds_key uid rid HOTSPOT s.
Proof.
  split; [|done]. unfold same_natural_key. simpl. by rewrite !Z.eqb_refl, bool_decide_eq_true_2.
Qed.

Lemma good_renewed now c i w :
  good w -> good (w <| w_view ::= over t_subs (alter (renew_hotspot now (br_org c) (br_plan_id c)
    (br_username c) (br_password c) (br_expires_at c)) i) |>).
Proof.
  intros Hg. apply good_view_alter; [|done]. intros s Hs. split; [|done].
  pose proof (proj1 (good_schema w Hg) _ _ Hs) as H. unfold sub_row_ok in *. simpl.
  rewrite !andb_true_iff in *. tauto.
Qed.

Lemma good_hotspot_sub now c uid rid w :
  good w -> own_sub uid rid (w_view w) = None ->
  good (w <| w_view ::= over t_subs (insert (next_id (t_subs (w_view w)))
    (hotspot_subscription now (br_org c) uid (br_plan_id c) rid (br_username c) (br_password c)
       (br_expires_at c))) |>).
Proof.
  intros Hg Hn%head_None. destruct Hg as [Hb Hf Hs]. split; [done..|].
  apply schema_ok_insert; [done|apply next_id_fresh|done|]. intros j s' Hj.
  by apply (select_nil_inv (fun _ => holds_key uid rid HOTSPOT) _ _ _ Hn Hj).
Qed.

Lemma upsert_sub_good c uid rid w :
  good w -> w_epoch w = br_epoch c ->
  exists w', _upsert_subscription (br_epoch c) (br_org c) uid (br_plan_id c) rid (br_username c)
      (br_password c) (br_expires_at c) w = (Ok tt, w') /\
    reaches w (mirror_sub (w_now w) c uid rid (w_view w)) w'.
Proof.
  intros Hg He. unfold _upsert_subscription, mirror_sub.
  rewrite (mthen_ok _ _ _ _ _ (query_good (fun db => own_sub uid rid db) w (good_broken w Hg))).
  rewrite (mthen_ok utcnow _ w (w_now w) w) by done.
  destruct (own_sub uid rid (w_view w)) as [[i s]|] eqn:Es.
  - set (w1 := w <| w_loaded ::= union (list_to_set [i]) |>).
    rewrite (mthen_ok (load_subs [i]) _ w tt w1) by done.
    rewrite (mthen_ok _ _ _ _ _ (row_attrs_fresh _ w1 He)).
    assert (Hg1 : good w1) by (destruct Hg; by split).
    eexists. split; [reflexivity|]. split; [by apply (good_renewed _ _ _ w1)|done..].
  - rewrite (mthen_ok _ _ _ _ _ (row_attrs_fresh _ w He)).
    rewrite (mthen_ok _ _ _ _ _ (query_good _ w (good_broken w Hg))).
    set (w1 := w <| w_view ::= over t_subs (insert (next_id (t_subs (w_view w)))
      (hotspot_subscription (w_now w) (br_org c) uid (br_plan_id c) rid (br_username c)
         (br_password c) (br_expires_at c))) |>).
    assert (Hg1 : good w1) by (by apply good_hotspot_sub).
    rewrite (mthen_ok (assign _) _ w tt w1) by done.
    set (w2 := w1 <| w_loaded ::= union (list_to_set [next_id (t_subs (w_view w))]) |>).
    assert (Hg2 : good w2) by (destruct Hg1; by split).
    rewrite (mthen_ok (load_subs _) _ w1 tt w2) by done. exists w2. split; [by apply flush_good|by split].
Qed.

Lemma create_payment_good c uid a w :
  good w -> br_amount c = Some a -> br_is_voucher_redeem c = false ->
  room_for (w_now w) c (w_view w) -> is_Some (t_users (w_view w) !! uid) ->
  exists w', _maybe_create_payment (br_org c) uid a (br_currency c) (br_reference c) (br_method c) w
      = (Ok tt, w') /\ reaches w (mirror_payment (w_now w) c uid (w_view w)) w'.
Proof.
  intros Hg Ha Hv Hr Hu. unfold _maybe_create_payment, mirror_payment.
  rewrite (mthen_ok _ _ w (recorded c (w_view w)) w).
  2:{ unfold recorded. destruct (br_reference c) as [[|x s]|]; [done| |done].
      exact (query_good (fun db => match select (fun _ => payment_recorded (br_org c) (String x s))
               (t_payments db) with [] => false | _ => true end) w (good_broken w Hg)). }
  assert (Hdue : payment_due c (w_view w) = if recorded c (w_view w) then None else Some a)
    by (unfold payment_due; by rewrite Ha, Hv).
  rewrite Hdue. destruct (recorded c (w_view w)).
  { exists w. split; [done|by apply reaches_refl]. }
  rewrite (mthen_ok utcnow _ w (w_now w) w) by done.
  rewrite (mthen_ok _ _ _ _ _ (query_good _ w (good_broken w Hg))).
  set (w1 := w <| w_view ::= over t_payments (insert (next_id (t_payments (w_view w)))
    (hotspot_payment (w_now w) (br_org c) uid a (br_currency c) (br_reference c) (br_method c))) |>).
  assert (Hg1 : good w1).
  { apply good_insert_payment; [done|apply next_id_fresh| |].
    - unfold payment_row_ok. simpl. rewrite (rf_amount _ _ _ Hr a Hdue). simpl.
      by rewrite !bool_decide_eq_true_2.
    - intros j q Hj. apply (rf_number _ _ _ Hr j q); [by rewrite Hdue|done]. }
  rewrite (mthen_ok (assign _) _ w tt w1) by done. exists w1. split; [by apply flush_good|by split].
Qed.

Lemma mirrored_user_exists c db : is_Some (t_users (mirror_user c db) !! mirrored_id c db).
Proof.
  unfold mirror_user, mirrored_id. destruct (own_user c db) as [[i u]|] eqn:E.
  - apply own_user_found in E as [E _]. by exists u.
  - simpl. rewrite lookup_insert_eq. by eexists.
Qed.

Lemma mirror_sub_frame now c uid rid db :
  t_users (mirror_sub now c uid rid db) = t_users db /\
  t_payments (mirror_sub now c uid rid db) = t_payments db.
Proof. unfold mirror_sub. by destruct (own_sub uid rid db) as [[i s]|]. Qed.

Lemma mirror_user_frame c db :
  t_subs (mirror_user c db) = t_subs db /\ t_payments (mirror_user c db) = t_payments db.
Proof. unfold mirror_user. by destruct (own_user c db) as [[i s]|]. Qed.

(** The payment owed depends on the payments only. *)
Lemma payment_due_frame c db db' :
  t_payments db' = t_payments db -> payment_due c db' = payment_due c db.
Proof. unfold payment_due, recorded. by intros ->. Qed.

Lemma pay_good c uid w :
  good w -> room_for (w_now w) c (w_view w) -> is_Some (t_users (w_view w) !! uid) ->
  exists w', match br_amount c with
    | Some a => mwhen (negb (br_is_voucher_redeem c))
        (_maybe_create_payment (br_org c) uid a (br_currency c) (br_reference c) (br_method c))
    | None => mreturn tt end w = (Ok tt, w') /\
    reaches w (mirror_payment (w_now w) c uid (w_view w)) w'.
Proof.
  intros Hg Hr Hu. destruct (br_amount c) as [a|] eqn:Ea; [destruct (br_is_voucher_redeem c) eqn:Ev|].
  - exists w. split; [done|]. unfold mirror_payment, payment_due. rewrite Ea, Ev. by apply reaches_refl.
  - by apply create_payment_good.
  - exists w. split; [done|]. unfold mirror_payment, payment_due. rewrite Ea. by apply reaches_refl.
Qed.

Lemma mirror_user_room c db :
  (forall j u, t_users db !! j = Some u ->
     usr_username u = br_username c \/ usr_email u = usr_email (hotspot_user (br_org c) (br_username c) (br_password c)) ->
     user_matches (br_org c) (br_username c) u = true) ->
  forall j u, t_users (mirror_user c db) !! j = Some u ->
    usr_username u = br_username c \/ usr_email u = usr_email (hotspot_user (br_org c) (br_username c) (br_password c)) ->
    user_matches (br_org c) (br_username c) u = true.
Proof.
  intros H j u. unfold mirror_user. destruct (own_user c db); [apply H|]. simpl.
  rewrite lookup_insert_Some. intros [[<- <-]|[_ Hj]]; [|by apply (H j)].
  intros _. unfold user_matches. simpl. by rewrite !bool_decide_eq_true_2.
Qed.

Lemma room_for_payment now c rid db :
  room_for now c db ->
  room_for now c (mirror_sub now c (mirrored_id c db) rid (mirror_user c db)).
Proof.
  intros [H1 H2 H3].
  destruct (mirror_sub_frame now c (mirrored_id c db) rid (mirror_user c db)) as [Fu Fp].
  destruct (mirror_user_frame c db) as [_ Gp]. split.
  - rewrite Fu. by apply mirror_user_room.
  - rewrite (payment_due_frame c db) by congruence. exact H2.
  - rewrite (payment_due_frame c db), Fp, Gp by congruence. exact H3.
Qed.

Lemma mirror_keeps_payments now c rid db :
  br_is_voucher_redeem c = true -> t_payments (mirror now c rid db) = t_payments db.
Proof.
  intros Hred. unfold mirror, mirror_payment, payment_due. rewrite Hred.
  destruct (br_amount c); simpl;
    (rewrite (proj2 (mirror_sub_frame _ _ _ _ _)); by rewrite (proj2 (mirror_user_frame _ _))).
Qed.

Lemma mirror_run c rid r w :
  good w -> w_epoch w = br_epoch c -> active_router_of (org_id (br_org c)) (w_view w) = Some (rid, r) ->
  room_for (w_now w) c (w_view w) ->
  exists w', mirror_purchase c w = (Ok tt, w') /\ good w' /\ w_now w' = w_now w /\
    w_epoch w' = w_epoch w /\ w_view w' = mirror (w_now w) c rid (w_view w) /\ w_durable w' = w_view w'.
Proof.
  intros Hg He Hr Hroom. unfold mirror_purchase, _resolve_router_id, mirror.
  rewrite (mthen_ok _ _ _ _ _ (row_attrs_fresh _ w He)).
  rewrite (mthen_ok _ _ _ _ _ (query_good _ w (good_broken w Hg))), Hr. simpl.
  destruct (upsert_user_good (br_epoch c) c w Hg Hroom) as (w1 & E1 & [Hg1 Hn1 He1 _ Hv1]).
  rewrite (mthen_ok _ _ _ _ _ E1). set (uid := mirrored_id c (w_view w)) in *.
  destruct (upsert_sub_good c uid rid w1 Hg1 ltac:(congruence)) as (w2 & E2 & [Hg2 Hn2 He2 _ Hv2]).
  rewrite (mthen_ok _ _ _ _ _ E2). rewrite Hn1, Hv1 in Hv2.
  destruct (pay_good c uid w2 Hg2) as (w3 & E3 & [Hg3 Hn3 He3 _ Hv3]).
  { rewrite Hv2, Hn2, Hn1. by apply room_for_payment. }
  { rewrite Hv2. rewrite (proj1 (mirror_sub_frame _ _ _ _ _)). apply mirrored_user_exists. }
  rewrite (mthen_ok _ _ _ _ _ E3). eexists. split; [exact (commit_good w3 Hg3)|].
  split; [by apply good_commit|]. split_all; simpl; try congruence.
Qed.

(** C12. The bridge implements its specification: when the organization has an
    active router and the schema has room, it ends without an error, commits
    exactly the tables of [mirror], keeps the session in order, and for a
    redeemed voucher leaves the payments alone. *)
Theorem bridge_refines_mirror c rid r w :
  good w -> w_epoch w = br_epoch c -> active_router_of (org_id (br_org c)) (w_view w) = Some (rid, r) ->
  room_for (w_now w) c (w_view w) ->
  exists w', bridge_hotspot_purchase_to_dashboard c w = (Ok tt, w') /\ good w' /\
    w_durable w' = mirror (w_now w) c rid (w_view w) /\ w_view w' = w_durable w' /\
    w_epoch w' = w_epoch w /\
    (br_is_voucher_redeem c = true -> t_payments (w_durable w') = t_payments (w_view w)).
Proof.
  intros Hg He Hr Hroom. destruct (mirror_run c rid r w Hg He Hr Hroom)
    as (w' & E & Hg' & Hn' & He' & Hv' & Hd').
  exists w'. split; [by apply mtry_ok|]. split_all; try congruence.
  intros Hred. rewrite Hd', Hv'. by apply mirror_keeps_payments.
Qed.

(** A second call finds the rows of the first. *)
Lemma mirrored_own_user c db :
  unique_by usr_username (t_users (mirror_user c db)) ->
  exists u, own_user c (mirror_user c db) = Some (mirrored_id c db, u).
Proof.
  intros Hu. destruct (mirrored_user_exists c db) as [u Hi]. exists u. unfold own_user.
  assert (Hm : user_matches (br_org c) (br_username c) u = true).
  { revert Hi. unfold mirror_user, mirrored_id. destruct (own_user c db) as [[i v]|] eqn:E.
    - apply own_user_found in E as [E Em]. rewrite E. by intros [= <-].
    - simpl. rewrite lookup_insert_eq. intros [= <-]. unfold user_matches. simpl.
      by rewrite !bool_decide_eq_true_2. }
  rewrite (select_unique (fun _ => user_matches (br_org c) (br_username c)) _ (mirrored_id c db) u); [done|done|done|].
  intros j v Hj Hv. apply (Hu _ _ Hj _ _ Hi). unfold user_matches in *.
  apply andb_true_iff in Hm as [_ Hm%bool_decide_eq_true_1], Hv as [_ Hv%bool_decide_eq_true_1]. congruence.
Qed.

Lemma mirror_user_twice c db :
  unique_by usr_username (t_users (mirror_user c db)) ->
  forall db', t_users db' = t_users (mirror_user c db) ->
  mirrored_id c db' = mirrored_id c db /\ mirror_user c db' = db'.
Proof.
  intros Hu db' E. destruct (mirrored_own_user c db Hu) as [u Ho].
  assert (Ho' : own_user c db' = Some (mirrored_id c db, u)) by (unfold own_user in *; by rewrite E).
  unfold mirrored_id at 1, mirror_user. by rewrite Ho'.
Qed.

(** The payment is on record after a call that owed one under a reference. *)
Lemma nothing_due_after now c uid db :
  br_is_voucher_redeem c = true \/ (exists s, br_reference c = Some s /\ s <> "") ->
  payment_due c (mirror_payment now c uid db) = None.
Proof.
  intros [H|(s & Hs & Hne)].
  { unfold payment_due. rewrite H. by destruct (br_amount c). }
  unfold mirror_payment. destruct (payment_due c db) as [a|] eqn:E; [|done].
  assert (Ha : br_amount c = Some a).
  { unfold payment_due in E. destruct (br_amount c); [|done]. by destruct (_ || _). }
  unfold payment_due. rewrite Ha.
  match goal with |- (if _ || recorded c ?d then _ else _) = _ => assert (Hrec : recorded c d = true) end;
    [|by rewrite Hrec, orb_true_r].
  unfold recorded. rewrite Hs. destruct s as [|x s]; [done|].
  match goal with |- match select ?p ?m with _ => _ end = _ => destruct (select p m) eqn:El end; [|done].
  exfalso.
  pose proof (select_nil_inv _ _ (next_id (t_payments db)) _ El (lookup_insert_eq _ _ _)) as H.
  unfold payment_recorded in H. simpl in H. by rewrite !bool_decide_eq_true_2 in H.
Qed.

Lemma own_sub_next now c uid rid db :
  own_sub uid rid db = None -> natural_key_unique (t_subs (mirror_sub now c uid rid db)) ->
  exists s, own_sub uid rid (mirror_sub now c uid rid db) = Some (next_id (t_subs db), s).
Proof.
  unfold mirror_sub. intros -> Hu. unfold own_sub.
  erewrite (select_unique (fun _ => holds_key uid rid HOTSPOT)); [by eexists|apply lookup_insert_eq| |].
  { unfold holds_key. simpl. by rewrite !Z.eqb_refl. }
  intros j s' Hj Hh. apply (Hu _ _ Hj _ _ (lookup_insert_eq _ _ _)). simpl.
  unfold holds_key in Hh. rewrite !andb_true_iff in Hh. destruct Hh as [[H1%Z.eqb_eq H2%Z.eqb_eq] H3%bool_decide_eq_true_1].
  unfold same_natural_key. simpl. by rewrite H1, H2, H3, !Z.eqb_refl, bool_decide_eq_true_2.
Qed.

(** The subscription rows a second call meets have the keys of the first. *)
Lemma mirror_sub_twice_dom now now' c uid rid db :
  natural_key_unique (t_subs (mirror_sub now c uid rid db)) ->
  dom (t_subs (mirror_sub now' c uid rid (mirror_sub now c uid rid db)))
  = dom (t_subs (mirror_sub now c uid rid db)).
Proof.
  intros Hu. set (db1 := mirror_sub now c uid rid db). unfold mirror_sub at 1.
  destruct (own_sub uid rid db1) as [[i s]|] eqn:E; [apply dom_alter_L|]. exfalso.
  destruct (own_sub uid rid db) as [[i s]|] eqn:E0.
  - assert (Hdb1 : t_subs db1 = alter (renew_hotspot now (br_org c) (br_plan_id c) (br_username c)
      (br_password c) (br_expires_at c)) i (t_subs db)) by (unfold db1, mirror_sub; by rewrite E0).
    unfold own_sub in E0, E. apply head_None in E. apply head_Some_elem_of in E0.
    apply (elem_of_select (fun _ => holds_key uid rid HOTSPOT)) in E0 as [Hi Hh].
    assert (Hlk : t_subs db1 !! i = Some (renew_hotspot now (br_org c) (br_plan_id c) (br_username c)
      (br_password c) (br_expires_at c) s)) by (by rewrite Hdb1, lookup_alter_eq, Hi).
    apply (select_nil_inv _ _ _ _ E) in Hlk. cbv beta in Hlk.
    by rewrite (proj2 (holds_renewed _ _ _ _ _)), Hh in Hlk.
  - destruct (own_sub_next now c uid rid db E0 Hu) as [s Hs]. unfold db1 in E. congruence.
Qed.

Lemma mirror_schema_user c db now rid :
  unique_by usr_username (t_users (mirror now c rid db)) ->
  unique_by usr_username (t_users (mirror_user c db)).
Proof.
  unfold mirror, mirror_payment. destruct (payment_due c _); simpl; by rewrite (proj1 (mirror_sub_frame _ _ _ _ _)).
Qed.

Lemma mirror_payment_frame now c uid db :
  t_users (mirror_payment now c uid db) = t_users db /\ t_subs (mirror_payment now c uid db) = t_subs db.
Proof. unfold mirror_payment. by destruct (payment_due c db). Qed.

Lemma mirror_frames now c rid db :
  t_users (mirror now c rid db) = t_users (mirror_user c db) /\
  t_subs (mirror now c rid db) = t_subs (mirror_sub now c (mirrored_id c db) rid (mirror_user c db)).
Proof.
  unfold mirror. destruct (mirror_payment_frame now c (mirrored_id c db)
    (mirror_sub now c (mirrored_id c db) rid (mirror_user c db))) as [-> ->].
  by rewrite (proj1 (mirror_sub_frame _ _ _ _ _)).
Qed.

(** Nothing is mirrored twice: when the same purchase (under a payment
    reference) or the same redemption is bridged again at any later time, no user, no payment and no subscription row is
    added: the users and the payments are those the first call left, and the
    subscriptions have the same keys. *)
Theorem bridge_idempotent c rid r w w2 :
  good w -> w_epoch w = br_epoch c -> active_router_of (org_id (br_org c)) (w_view w) = Some (rid, r) ->
  room_for (w_now w) c (w_view w) ->
  br_is_voucher_redeem c = true \/ (exists s, br_reference c = Some s /\ s <> "") ->
  good w2 -> w_epoch w2 = br_epoch c -> w_view w2 = mirror (w_now w) c rid (w_view w) ->
  active_router_of (org_id (br_org c)) (w_view w2) = Some (rid, r) ->
  exists w3, bridge_hotspot_purchase_to_dashboard c w2 = (Ok tt, w3) /\
    t_users (w_durable w3) = t_users (w_view w2) /\
    t_payments (w_durable w3) = t_payments (w_view w2) /\
    dom (t_subs (w_durable w3)) = dom (t_subs (w_view w2)).
Proof.
  intros Hg He Hr Hroom Hkey Hg2 He2 Hv2 Hr2. set (db := w_view w) in *.
  destruct (mirror_frames (w_now w) c rid db) as [Fu Fs].
  assert (Huniq : unique_by usr_username (t_users (mirror_user c db))).
  { apply (mirror_schema_user c db (w_now w) rid). rewrite <- Hv2. by apply unique_usernames. }
  destruct (mirror_user_twice c db Huniq (w_view w2)) as [Hid Hmu]; [by rewrite Hv2|].
  assert (Hdue : payment_due c (w_view w2) = None).
  { rewrite Hv2. by apply nothing_due_after. }
  assert (Hroom2 : room_for (w_now w2) c (w_view w2)).
  { split; [|by rewrite Hdue..]. rewrite Hv2, Fu. apply mirror_user_room, Hroom. }
  destruct (mirror_run c rid r w2 Hg2 He2 Hr2 Hroom2) as (w3 & E & _ & _ & _ & Hv3 & Hd3).
  exists w3. split; [by apply mtry_ok|]. rewrite Hd3, Hv3. unfold mirror. rewrite Hid, Hmu.
  unfold mirror_payment at 1 2 3.
  rewrite (payment_due_frame c (w_view w2)) by apply mirror_sub_frame. rewrite Hdue.
  destruct (mirror_sub_frame (w_now w2) c (mirrored_id c db) rid (w_view w2)) as [-> ->].
  split; [done|]. split; [done|].
  assert (Hnk : natural_key_unique (t_subs (w_view w2))) by apply (good_schema w2 Hg2).
  assert (Hdb : forall now' db1 db2, t_subs db1 = t_subs db2 ->
    t_subs (mirror_sub now' c (mirrored_id c db) rid db1) = t_subs (mirror_sub now' c (mirrored_id c db) rid db2)).
  { intros now' db1 db2 H. unfold mirror_sub, own_sub. rewrite H. by destruct (head _) as [[i s]|]; simpl; rewrite H. }
  rewrite Hv2 in Hnk |- *. rewrite (Hdb _ _ _ Fs), Fs. apply mirror_sub_twice_dom. by rewrite <- Fs.
Qed.

(** A refused flush. *)
Lemma flush_refused w :
  w_broken w = false -> w_faults w = [] -> ~ schema_ok (w_view w) ->
  exists w', flush w = (Raise DatabaseError, w') /\ w_view w' = w_durable w /\
    w_durable w' = w_durable w /\ w_broken w' = true /\ w_faults w' = [] /\ w_now w' = w_now w /\
    w_epoch w' = S (w_epoch w).
Proof.
  intros Hb Hf Hs. unfold flush. rewrite Hb, Hf, bool_decide_eq_false_2 by done. simpl.
  eexists. split; [reflexivity|]. simpl. by rewrite Hf.
Qed.

(** Hotspot names are counted per organization, but the user names of the
    database are global: when another tenant's customer already holds the name,
    the bridge reports nothing, writes nothing, and leaves the caller's session
    with all its instances expired. *)
Theorem bridge_name_clash c rid r w j u :
  good w -> w_durable w = w_view w -> w_epoch w = br_epoch c ->
  active_router_of (org_id (br_org c)) (w_view w) = Some (rid, r) ->
  t_users (w_view w) !! j = Some u -> usr_username u = br_username c ->
  usr_organization_id u <> Some (org_id (br_org c)) ->
  exists w', bridge_hotspot_purchase_to_dashboard c w = (Ok tt, w') /\
    w_view w' = w_view w /\ w_durable w' = w_durable w /\ w_broken w' = false /\
    (br_epoch c < w_epoch w')%nat.
Proof.
  intros Hg Hd He Hr Hj Hun Horg. pose proof (good_broken w Hg) as Hb.
  assert (Hnone : own_user c (w_view w) = None).
  { destruct (own_user c (w_view w)) as [[i v]|] eqn:E; [|done]. exfalso.
    apply own_user_found in E as [Hi Hm]. unfold user_matches in Hm.
    apply andb_true_iff in Hm as [Ho%bool_decide_eq_true_1 Hn%bool_decide_eq_true_1].
    assert (i = j) as -> by (apply (unique_usernames w Hg _ _ Hi _ _ Hj); congruence). congruence. }
  set (id := next_id (t_users (w_view w))).
  set (w1 := w <| w_view ::= over t_users (insert id (hotspot_user (br_org c) (br_username c) (br_password c))) |>).
  assert (Hbad : ~ schema_ok (w_view w1)).
  { intros (_ & _ & _ & _ & (Hu & _)).
    assert (Hne : id <> j) by (intros E; pose proof (next_id_fresh (t_users (w_view w))) as H; fold id in H; congruence).
    apply Hne, (Hu id _ (lookup_insert_eq _ _ _) j u); [|done]. simpl. by rewrite lookup_insert_ne. }
  destruct (flush_refused w1 Hb (good_faults w Hg) Hbad) as (w2 & E2 & Hv2 & Hd2 & Hb2 & Hf2 & _ & He2).
  set (w3 := snd (rollback w2)). assert (Hv3 : w_view w3 = w_view w) by (simpl; by rewrite Hd2).
  assert (Hg3 : good w3).
  { split; [done|exact Hf2|]. rewrite Hv3. apply (good_schema w Hg). }
  assert (He3 : w_epoch w3 = S (S (w_epoch w))) by (simpl; by rewrite He2).
  assert (Hmp : exists o w', mirror_purchase c w = (o, w') /\ (o = Ok tt \/ exists x, o = Raise x) /\
            w' = w3).
  { unfold mirror_purchase, _resolve_router_id, _upsert_customer_user.
    rewrite (mthen_ok _ _ _ _ _ (row_attrs_fresh _ w He)).
    rewrite (mthen_ok _ _ _ _ _ (query_good _ w Hb)), Hr. 
    change (fst <$> Some (rid, r)) with (Some rid). cbv iota beta.
    rewrite mthen_assoc, (mthen_ok _ _ _ _ _ (find_customer_good c w Hg)), Hnone. simpl.
    rewrite mthen_assoc, (mthen_ok _ _ _ _ _ (query_good _ w Hb)).
    rewrite mthen_assoc, (mthen_ok (assign _) _ w tt w1) by done.
    unfold mthen at 1, mtry at 1.
    rewrite (mthen_raise flush _ _ _ _ E2). rewrite (mthen_ok rollback _ w2 tt w3) by done.
    unfold mthen at 1, row_attrs. rewrite He3.
    rewrite (proj2 (Nat.eqb_neq _ _)) by lia.
    destruct reload_expired; [|by eauto 10].
    rewrite (query_good _ w3 (good_broken w3 Hg3)).
    rewrite (mthen_ok _ _ _ _ _ (find_customer_good c w3 Hg3)).
    rewrite Hv3, Hnone. simpl. eauto 10. }
  destruct Hmp as (o & w' & E & Ho & ->). unfold bridge_hotspot_purchase_to_dashboard.
  destruct Ho as [-> | (x & ->)].
  - exists w3. split; [by apply mtry_ok|]. split; [done|]. split; [done|]. split; [done|]. lia.
  - eexists. split; [rewrite (mtry_raise _ _ _ _ _ E); reflexivity|]. simpl. rewrite He2, Hd2.
    split; [done|]. split; [done|]. split; [done|]. simpl. lia.
Qed.
End Facts.

(** ** Concrete runs *)
Definition acme : Organization := mkOrg 1 "acme" "6f1c".

Definition captive_db : DB :=
  empty_db <| t_routers := {[7 := sample_router]} |> <| t_plans := {[3 := sample_plan]} |>.

Definition purchase_call : BridgeCall :=
  mkBridge 0 acme 3 "C001" "865" (timedelta_hours 24) (Some (units 100)) "KES" (Some "HS-ACME-1")
    "treasury" false.

Lemma captive_good : good (start_offline 0 captive_db).
Proof. apply good_offline. vm_compute. reflexivity. Qed.

Lemma captive_room now : room_for now purchase_call captive_db.
Proof.
  split.
  - intros j u. unfold captive_db. simpl. by rewrite lookup_empty.
  - intros a H. assert (E : payment_due purchase_call captive_db = Some (units 100)) by reflexivity.
    rewrite E in H. injection H as <-. reflexivity.
  - intros j p _. unfold captive_db. simpl. by rewrite lookup_empty.
Qed.

Lemma captive_router : active_router_of 1 captive_db = Some (7, sample_router).
Proof. vm_compute. reflexivity. Qed.

Lemma bridge_refines_mirror_witness :
  exists w', bridge_hotspot_purchase_to_dashboard purchase_call (start_offline 0 captive_db) = (Ok tt, w') /\
    size (t_users (w_durable w')) = 1%nat /\ size (t_payments (w_durable w')) = 1%nat.
Proof.
  destruct (bridge_refines_mirror purchase_call 7 sample_router (start_offline 0 captive_db) captive_good
              eq_refl captive_router (captive_room _)) as (w' & E & _ & Hd & _).
  exists w'. split; [exact E|]. rewrite Hd. split; vm_compute; reflexivity.
Defined.

Lemma bridge_idempotent_witness :
  let db1 := mirror 0 purchase_call 7 captive_db in
  exists w3, bridge_hotspot_purchase_to_dashboard purchase_call (start_offline 60 db1) = (Ok tt, w3) /\
    t_users (w_durable w3) = t_users db1 /\ t_payments (w_durable w3) = t_payments db1.
Proof.
  destruct (bridge_idempotent purchase_call 7 sample_router (start_offline 0 captive_db)
              (start_offline 60 (mirror 0 purchase_call 7 captive_db)) captive_good
              eq_refl captive_router (captive_room _)) as (w3 & E & H1 & H2 & _).
  - right. exists "HS-ACME-1". by split.
  - apply good_offline. vm_compute. reflexivity.
  - reflexivity.
  - reflexivity.
  - vm_compute. reflexivity.
  - exists w3. split; [exact E|]. by split.
Defined.

Definition other_tenant_db : DB :=
  captive_db <| t_users := {[5 := customer_user (Some 2) "C001" "c001@hotspot.beta.local" None "Hotspot" "C001"]} |>.

Lemma bridge_name_clash_witness :
  exists w', bridge_hotspot_purchase_to_dashboard purchase_call (start_offline 0 other_tenant_db) = (Ok tt, w') /\
    w_durable w' = other_tenant_db /\ (0 < w_epoch w')%nat.
Proof.
  destruct (bridge_name_clash purchase_call 7 sample_router (start_offline 0 other_tenant_db) 5
              (customer_user (Some 2) "C001" "c001@hotspot.beta.local" None "Hotspot" "C001"))
    as (w' & E & _ & Hd & _ & He); [apply good_offline; vm_compute; reflexivity|reflexivity|reflexivity
    |exact captive_router|reflexivity|reflexivity|discriminate|].
  exists w'. split; [exact E|]. by split.
Defined.
