(* ===== verification/Vouchers.v ===== *)
(** * Vouchers: code generation and the staff endpoints

    [VoucherCode.generate_code] ([app/models/customer_portal.py]) and the
    handlers of [app/api/v1/business/vouchers.py]. The random choices of
    [secrets] are arguments. *)

From S2P Require Import Prelude PyString Numerics Models Session HotspotNames.
From stdpp Require Import sorting.
Open Scope Z_scope.


(** ** Codes *)
Definition ascii_uppercase : string := "ABCDEFGHIJKLMNOPQRSTUVWXYZ".
Definition digits_alphabet : string := "0123456789".

(** [secrets.choice(alphabet)], where [r] is the drawn index *)
Definition choice (alphabet : string) (r : Z) : ascii :=
  default "?"%char (String.get (Z.to_nat (r mod Z.of_nat (String.length alphabet))) alphabet).

Definition pattern_char (c : ascii) (r : Z) : ascii :=
  if bool_decide (c = "X"%char) then choice (ascii_uppercase +:+ digits_alphabet) r
  else if bool_decide (c = "N"%char) then choice digits_alphabet r
  else if bool_decide (c = "A"%char) then choice ascii_uppercase r
  else c.

Definition is_drawn (c : ascii) : bool :=
  bool_decide (c = "X"%char) || bool_decide (c = "N"%char) || bool_decide (c = "A"%char).

(** A character that is not part of the alphabet of patterns draws nothing. *)
Fixpoint fill_pattern (pattern : string) (draws : list Z) : string :=
  match pattern with
  | EmptyString => EmptyString
  | String c p => String (pattern_char c (default 0 (head draws)))
                    (fill_pattern p (if is_drawn c then tail draws else draws))
  end.

Fixpoint repeat_char (c : ascii) (n : nat) : string :=
  match n with O => EmptyString | S n' => String c (repeat_char c n') end.

(** An empty pattern stands for [length] alphanumeric characters. *)
Definition generate_code (format_pattern : string) (length : nat) (draws : list Z) : string :=
  match format_pattern with
  | EmptyString => fill_pattern (repeat_char "X" length) draws
  | _ => fill_pattern format_pattern draws
  end.

(** ** What the endpoints answer *)
Record VoucherListItem : Type := mkVoucherItem {
  vi_id : Z;
  vi_code : string;
  vi_status : VoucherStatus;
  vi_plan_id : Z;
  vi_plan_name : option string;
  vi_organization_id : Z;
  vi_hotspot_username : option string;
  vi_hotspot_password : option string;
  vi_data_limit_bytes : option Z;
  vi_time_limit_seconds : option Z;
  vi_bandwidth_limit : option string;
  vi_used_at : option datetime;
  vi_expires_at : option datetime;
  vi_created_at : datetime;
  vi_batch_id : option string
}.

Definition _to_list_item (i : Z) (v : VoucherCode) (plan : option ServicePlan) : VoucherListItem :=
  mkVoucherItem i (vch_code v) (vch_status v) (vch_plan_id v) (plan_name <$> plan)
    (vch_organization_id v) (vch_hotspot_username v) (vch_hotspot_password v)
    (p ← plan; if 0 <? plan_data_limit p then Some (plan_data_limit p * 1024 * 1024) else None)
    (p ← plan; if 0 <? plan_time_limit p then Some (plan_time_limit p) else None)
    (p ← plan; if plan_download_speed p =? 0 then None
               else Some (str_of_Z (plan_download_speed p) +:+ "/" +:+ str_of_Z (plan_upload_speed p)))
    (vch_used_at v) (vch_expires_at v) (vch_created_at v) (vch_batch_id v).

Record VoucherList : Type := mkVoucherList {
  vl_vouchers : list VoucherListItem;
  vl_total : Z;
  vl_page : Z;
  vl_size : Z;
  vl_pages : Z
}.

Record VoucherStats : Type := mkVoucherStats {
  vs_total : Z; vs_active : Z; vs_used : Z; vs_expired : Z
}.

(** [VoucherStatusFilter]; ["disabled"] is no member of [VoucherStatus]. *)
Inductive VoucherStatusFilter : Type := F_ACTIVE | F_USED | F_EXPIRED | F_DISABLED.

(** [VoucherStatus(f.value)] *)
Definition status_of_filter (f : VoucherStatusFilter) : option VoucherStatus :=
  match f with
  | F_ACTIVE => Some V_ACTIVE
  | F_USED => Some V_USED
  | F_EXPIRED => Some V_EXPIRED
  | F_DISABLED => None
  end.

(** [ORDER BY created_at DESC] *)
Definition voucher_newer (a b : Z * VoucherCode) : Prop := vch_created_at b.2 <= vch_created_at a.2.

#[export] Instance voucher_newer_dec : RelDecision voucher_newer.
Proof. intros a b. unfold voucher_newer. apply _. Defined.
#[export] Instance voucher_newer_total : Total voucher_newer.
Proof. intros a b. unfold voucher_newer. lia. Qed.
#[export] Instance voucher_newer_trans : Transitive voucher_newer.
Proof. intros a b c. unfold voucher_newer. lia. Qed.

Definition batch_voucher (now : datetime) (org plan_id : Z) (code username password : string)
    (expires_at : option datetime) (batch_id : string) (created_by : option Z) : VoucherCode :=
  mkVoucher org code plan_id V_ACTIVE false None expires_at (Some username) (Some password) now
    None None None (Some batch_id) created_by.

(** ** Handlers *)
Section Handlers.
Context {be : Backend} {ros : RouterOS}.

Definition not_found {A} (what : string) : run A := mraise (HTTPException 404 what).

(** The filters of [list_vouchers]; an optional argument that is falsy does
    not filter. *)
Definition listed (org : Z) (status : option VoucherStatus) (search : option string)
    (plan_id : option Z) (v : VoucherCode) : bool :=
  (vch_organization_id v =? org)
  && match status with Some s => bool_decide (vch_status v = s) | None => true end
  && match plan_id with Some p => (p =? 0) || (vch_plan_id v =? p) | None => true end
  && match search with
     | Some "" | None => true
     | Some q =>
         ilike (vch_code v) ("%" +:+ q +:+ "%")
         || match vch_hotspot_username v with
            | Some u => ilike u ("%" +:+ q +:+ "%") | None => false end
     end.

(** [page] and [size] are at least 1; the server refuses to compare the status
    column with a value that is no label of its type. *)
Definition list_vouchers (page size : Z) (status : option VoucherStatusFilter)
    (search : option string) (plan_id : option Z) (org : Z) : run VoucherList :=
  wanted <- match status with
            | None => mreturn None
            | Some f => match status_of_filter f with
                        | Some s => mreturn (Some s)
                        | None => mraise DatabaseError
                        end
            end ;;
  rows <- query (fun db => select (fun _ => listed org wanted search plan_id) (t_vouchers db)) ;;
  let total := Z.of_nat (length rows) in
  let offset := (page - 1) * size in
  let vouchers := take (Z.to_nat size) (drop (Z.to_nat offset) (merge_sort voucher_newer rows)) in
  plans <- query t_plans ;;
  mreturn (mkVoucherList (map (fun iv => _to_list_item iv.1 iv.2 (plans !! vch_plan_id iv.2)) vouchers)
    total page size (if 0 <? total then (total + size - 1) / size else 0)).

Definition count_vouchers (p : VoucherCode -> bool) : run Z :=
  query (fun db => Z.of_nat (length (select (fun _ => p) (t_vouchers db)))).

Definition get_voucher_stats (org : Z) : run VoucherStats :=
  let with_status s := count_vouchers (fun v => (vch_organization_id v =? org) && bool_decide (vch_status v = s)) in
  total <- count_vouchers (fun v => vch_organization_id v =? org) ;;
  active <- with_status V_ACTIVE ;;
  used <- with_status V_USED ;;
  expired <- with_status V_EXPIRED ;;
  mreturn (mkVoucherStats total active used expired).

(** [SELECT ... WHERE id = voucher_id AND organization_id = org_id] *)
Definition find_voucher (voucher_id org : Z) : run VoucherCode :=
  found <- query (fun db => t_vouchers db !! voucher_id) ;;
  match found with
  | Some v => if vch_organization_id v =? org then mreturn v else not_found "Voucher not found"
  | None => not_found "Voucher not found"
  end.

Definition get_voucher (voucher_id org : Z) : run VoucherListItem :=
  v <- find_voucher voucher_id org ;;
  plan <- (if vch_plan_id v =? 0 then mreturn None else query (fun db => t_plans db !! vch_plan_id v)) ;;
  mreturn (_to_list_item voucher_id v plan).

Definition set_voucher (i : Z) (f : VoucherCode -> VoucherCode) : run unit :=
  assign (over t_vouchers (alter f i)).

(** One voucher of a batch, from the draws of its code and of its password. *)
Definition issue_voucher (org plan_id : Z) (code_format : string) (expires_at : option datetime)
    (batch_id : string) (created_by : option Z) (acc : list (string * (string * string)))
    (draws : list Z * list Z) : run (list (string * (string * string))) :=
  let code := generate_code code_format 8 draws.1 in
  credentials <- generate_hotspot_credentials org draws.2 ;;
  now <- utcnow ;;
  id <- query (fun db => next_id (t_vouchers db)) ;;
  assign (over t_vouchers (insert id
    (batch_voucher now org plan_id code credentials.1 credentials.2 expires_at batch_id created_by))) ;;;
  mreturn (acc ++ [(code, credentials)]).

Definition generate_vouchers (plan_id : Z) (code_format : string) (expires_in_days : option Z)
    (batch_id : string) (org : Z) (created_by : option Z) (draws : list (list Z * list Z))
    : run (list (string * (string * string))) :=
  plan <- query (fun db => t_plans db !! plan_id) ;;
  match plan with
  | None => not_found "Plan not found"
  | Some _ =>
      now <- utcnow ;;
      let expires_at := d ← expires_in_days; if d =? 0 then None else Some (now + timedelta_days d) in
      issued <- mfold (issue_voucher org plan_id code_format expires_at batch_id created_by) [] draws ;;
      commit ;;;
      mreturn issued
  end.

Definition update_voucher (voucher_id org : Z) (status : option VoucherStatusFilter)
    (expires_at : option datetime) : run unit :=
  _ <- find_voucher voucher_id org ;;
  match status with
  | Some f => match status_of_filter f with
              | Some s => set_voucher voucher_id (fun v => v <| vch_status := s |>)
              | None => mraise (ValueError "disabled is not a valid VoucherStatus")
              end
  | None => mreturn tt
  end ;;;
  match expires_at with
  | Some t => set_voucher voucher_id (fun v => v <| vch_expires_at := Some t |>)
  | None => mreturn tt
  end ;;;
  commit.

(** Deleting the row sets the references of purchases to null. *)
Definition delete_voucher (voucher_id org : Z) : run unit :=
  _ <- find_voucher voucher_id org ;;
  execute_update (fun db =>
    db <| t_purchases ::= fmap (fun p => p <| pur_voucher_code_id ::= unlink voucher_id |>) |>
       <| t_vouchers ::= delete voucher_id |>) ;;;
  commit.
End Handlers.

(** ** Generated codes conform to their pattern *)
Definition member (c : ascii) (s : string) : bool := contains_char c s.

Definition char_conforms (p c : ascii) : bool :=
  if bool_decide (p = "X"%char) then member c (ascii_uppercase +:+ digits_alphabet)
  else if bool_decide (p = "N"%char) then member c digits_alphabet
  else if bool_decide (p = "A"%char) then member c ascii_uppercase
  else bool_decide (c = p).

Fixpoint code_conforms (pattern code : string) : bool :=
  match pattern, code with
  | EmptyString, EmptyString => true
  | String p pattern', String c code' => char_conforms p c && code_conforms pattern' code'
  | _, _ => false
  end.

Lemma get_member n s c : String.get n s = Some c -> member c s = true.
Proof.
  revert n. induction s as [|x s IH]; intros n H; [by destruct n|]. destruct n as [|n]; simpl in *.
  - injection H as ->. unfold member. simpl. by rewrite bool_decide_eq_true_2.
  - unfold member in *. simpl. rewrite (IH _ H). apply orb_true_r.
Qed.

Lemma get_defined n s : (n < String.length s)%nat -> is_Some (String.get n s).
Proof.
  revert n. induction s as [|x s IH]; simpl; intros n H; [lia|].
  destruct n as [|n]; [by eexists|]. apply IH. lia.
Qed.

Lemma choice_member s r : s <> "" -> member (choice s r) s = true.
Proof.
  intros Hs. unfold choice. assert (Hl : 0 < Z.of_nat (String.length s)) by (destruct s; [done|simpl; lia]).
  pose proof (Z.mod_pos_bound r _ Hl) as Hr.
  destruct (get_defined (Z.to_nat (r mod Z.of_nat (String.length s))) s ltac:(lia)) as [c Hc].
  rewrite Hc. by eapply get_member.
Qed.

Lemma pattern_char_conforms p r : char_conforms p (pattern_char p r) = true.
Proof.
  unfold char_conforms, pattern_char. repeat case_bool_decide; try done; by apply choice_member.
Qed.

Lemma fill_conforms pattern : forall draws, code_conforms pattern (fill_pattern pattern draws) = true.
Proof.
  induction pattern as [|p pattern IH]; intros draws; [done|]. simpl.
  by rewrite pattern_char_conforms, IH.
Qed.

(** C40. Voucher codes are well typed: whatever is drawn, a generated code has
    exactly the shape of its pattern (a capital letter or digit for each X, a
    digit for each N, a capital letter for each A, every other character kept),
    and an empty pattern gives [length] capital letters and digits. *)
Theorem voucher_code_conforms (pattern : string) (length : nat) (draws : list Z) :
  code_conforms (if bool_decide (pattern = "") then repeat_char "X" length else pattern)
    (generate_code pattern length draws) = true.
Proof.
  unfold generate_code. destruct pattern as [|p pattern]; simpl bool_decide; cbv iota; apply fill_conforms.
Qed.

(** ** A batch of vouchers *)
Section Batch.
Context {be : Backend} {ros : RouterOS}.

Lemma good_insert_voucher v i w :
  good w -> t_vouchers (w_view w) !! i = None ->
  (forall j v', t_vouchers (w_view w) !! j = Some v' -> vch_code v' <> vch_code v) ->
  good (w <| w_view ::= over t_vouchers (insert i v) |>).
Proof.
  intros Hg Hi Hv. apply good_portal; [done..|]. unfold portal_ok, portal_tables. simpl.
  intros (H1 & H2 & H3 & H4 & H5).
  exact (conj H1 (conj H2 (conj H3 (conj (unique_insert _ _ _ _ H4 Hi Hv) H5)))).
Qed.

(** Code and credentials of each voucher of a batch. *)
Definition batch_items (s : OrganizationSettings) (code_format : string) (draws : list (list Z * list Z))
    : list (string * (string * string)) :=
  zip (map (fun d => generate_code code_format 8 d.1) draws) (names_from s (map snd draws)).

Definition insert_voucher (mk : string * (string * string) -> VoucherCode) (m : gmap Z VoucherCode)
    (it : string * (string * string)) : gmap Z VoucherCode := <[next_id m := mk it]> m.

Section Rows.
Variable mk : string * (string * string) -> VoucherCode.

Lemma insert_batch_grows items : forall m,
  m ⊆ foldl (insert_voucher mk) m items /\
  size (foldl (insert_voucher mk) m items) = (size m + length items)%nat.
Proof.
  induction items as [|it items IH]; intros m; simpl; [split; [done|lia]|].
  destruct (IH (insert_voucher mk m it)) as [H1 H2]. unfold insert_voucher in *.
  rewrite map_size_insert_None in H2 by apply next_id_fresh. split; [|lia].
  etrans; [|exact H1]. apply insert_subseteq, next_id_fresh.
Qed.

Lemma insert_batch_row items : forall m it, it ∈ items ->
  exists i, m !! i = None /\ foldl (insert_voucher mk) m items !! i = Some (mk it).
Proof.
  induction items as [|x items IH]; intros m it Hin; [by apply elem_of_nil in Hin|]. simpl.
  apply elem_of_cons in Hin as [-> | Hin].
  - exists (next_id m). split; [apply next_id_fresh|].
    eapply lookup_weaken; [|apply insert_batch_grows]. apply lookup_insert_eq.
  - destruct (IH (insert_voucher mk m x) it Hin) as (i & Hi & H). exists i. split; [|done].
    unfold insert_voucher in Hi. by apply lookup_insert_None in Hi as [Hi _].
Qed.
End Rows.

Definition row_of_item (now : datetime) (org plan_id : Z) (expires_at : option datetime)
    (batch_id : string) (created_by : option Z) (it : string * (string * string)) : VoucherCode :=
  batch_voucher now org plan_id it.1 it.2.1 it.2.2 expires_at batch_id created_by.

Lemma in_int4_step c n : 0 <= c -> c + Z.of_nat (S n) <= int4_max -> in_int4 (c + 1) = true.
Proof. intros H1 H2. unfold in_int4, int4_max in *. apply andb_true_iff. split; apply Z.leb_le; lia. Qed.

Lemma batch_items_cons s f d draws :
  batch_items s f (d :: draws)
  = (generate_code f 8 d.1, (name_of_settings s, password_of_digits d.2))
    :: batch_items (s <| org_hotspot_username_counter := org_hotspot_username_counter s + 1 |>) f draws.
Proof.
  unfold batch_items, names_from. change (map snd (d :: draws)) with (d.2 :: map snd draws).
  rewrite imap_cons. simpl. f_equal; [do 2 f_equal|f_equal].
  - unfold name_of_settings. by rewrite Z.add_0_r.
  - apply imap_ext. intros k x _. unfold compose. simpl. do 2 f_equal. lia.
Qed.

Lemma issue_loop org plan f exp batch by_id draws : forall acc w,
  good w -> let s := settings_of (w_view w) org in
  0 <= org_hotspot_username_counter s -> org_hotspot_username_counter s + Z.of_nat (length draws) <= int4_max ->
  NoDup (map (fun d => generate_code f 8 d.1) draws) ->
  (forall d, d ∈ draws -> forall j v, t_vouchers (w_view w) !! j = Some v -> vch_code v <> generate_code f 8 d.1) ->
  exists w', mfold (issue_voucher org plan f exp batch by_id) acc draws w = (Ok (acc ++ batch_items s f draws), w') /\
    good w' /\
    t_vouchers (w_view w') = foldl (insert_voucher (row_of_item (w_now w) org plan exp batch by_id))
                               (t_vouchers (w_view w)) (batch_items s f draws).
Proof.
  induction draws as [|d draws IH]; intros acc w Hg s Hc Hmax Hnd Hfresh.
  { exists w. by rewrite app_nil_r. }
  simpl length in Hmax. pose proof (in_int4_step _ _ Hc Hmax) as Hi.
  destruct (generate_run org d.2 w Hg Hi) as [HE Hg1]. fold s in HE, Hg1.
  match type of Hg1 with good ?x => set (w1 := x) in * end.
  rewrite batch_items_cons. set (it := (generate_code f 8 d.1, (name_of_settings s, password_of_digits d.2))).
  set (row := row_of_item (w_now w) org plan exp batch by_id it).
  set (w2 := w1 <| w_view ::= over t_vouchers (insert (next_id (t_vouchers (w_view w))) row) |>).
  assert (Hg2 : good w2).
  { apply good_insert_voucher; [done|apply next_id_fresh|]. intros j v'. apply (Hfresh d).
    apply list_elem_of_here. }
  assert (Hone : issue_voucher org plan f exp batch by_id acc d w = (Ok (acc ++ [it]), w2)).
  { unfold issue_voucher. rewrite (mthen_ok _ _ _ _ _ HE), (mthen_ok utcnow _ w1 (w_now w) w1) by done.
    by rewrite (mthen_ok _ _ _ _ _ (query_good _ w1 (good_broken w1 Hg1))). }
  assert (Hs2 : settings_of (w_view w2) org
                = s <| org_hotspot_username_counter := org_hotspot_username_counter s + 1 |>).
  { unfold settings_of, w2, w1, with_counter. simpl. by rewrite lookup_insert_eq. }
  apply NoDup_cons in Hnd as [Hnew Hnd].
  destruct (IH (acc ++ [it]) w2 Hg2) as (w' & E' & Hg' & Hv').
  - rewrite Hs2. simpl. lia.
  - rewrite Hs2. simpl. lia.
  - done.
  - intros d' Hd' j v. simpl. rewrite lookup_insert_Some. intros [[_ <-]|[_ Hj]].
    + simpl. intros E. apply Hnew. rewrite E. apply list_elem_of_fmap. by exists d'.
    + exact (Hfresh d' (list_elem_of_further _ _ _ Hd') j v Hj).
  - exists w'. rewrite Hs2 in E', Hv'. simpl mfold. rewrite (mthen_ok _ _ _ _ _ Hone), E'.
    split; [by rewrite <- app_assoc|]. split; [done|]. exact Hv'.
Qed.

Lemma batch_items_names s f draws :
  length (batch_items s f draws) = length draws /\
  NoDup (map (fun it => it.2.1) (batch_items s f draws)).
Proof.
  unfold batch_items. split.
  { rewrite length_zip. unfold names_from. rewrite length_imap, !length_fmap. lia. }
  replace (map (fun it => it.2.1) (zip _ _)) with (map fst (names_from s (map snd draws))).
  2:{ rewrite <- (snd_zip (map (fun d => generate_code f 8 d.1) draws) (names_from s (map snd draws))) at 1.
      - by rewrite map_map.
      - unfold names_from. by rewrite length_imap, !length_fmap. }
  apply names_nodup.
Qed.

(** A batch is complete: when the drawn codes are new and distinct, the
    organization gets exactly one new voucher per draw, committed, active,
    unused and with a hotspot user name of its own, every code the answer
    shows is stored with the credentials shown beside it, and the vouchers
    that existed are untouched. *)
Theorem generate_vouchers_complete plan_id p f days batch org by_id draws w :
  good w -> t_plans (w_view w) !! plan_id = Some p -> let s := settings_of (w_view w) org in
  0 <= org_hotspot_username_counter s -> org_hotspot_username_counter s + Z.of_nat (length draws) <= int4_max ->
  NoDup (map (fun d => generate_code f 8 d.1) draws) ->
  (forall d, d ∈ draws -> forall j v, t_vouchers (w_view w) !! j = Some v -> vch_code v <> generate_code f 8 d.1) ->
  exists issued w', generate_vouchers plan_id f days batch org by_id draws w = (Ok issued, w') /\
    length issued = length draws /\ NoDup (map (fun it => it.2.1) issued) /\
    t_vouchers (w_view w) ⊆ t_vouchers (w_durable w') /\
    size (t_vouchers (w_durable w')) = (size (t_vouchers (w_view w)) + length draws)%nat /\
    forall code username password, (code, (username, password)) ∈ issued ->
      exists i v, t_vouchers (w_view w) !! i = None /\ t_vouchers (w_durable w') !! i = Some v /\
        vch_code v = code /\ vch_organization_id v = org /\ vch_plan_id v = plan_id /\
        vch_status v = V_ACTIVE /\ vch_is_used v = false /\ vch_used_at v = None /\
        vch_hotspot_username v = Some username /\ vch_hotspot_password v = Some password.
Proof.
  intros Hg Hp s Hc Hmax Hnd Hfresh. unfold generate_vouchers.
  rewrite (mthen_ok _ _ _ _ _ (query_good _ w (good_broken w Hg))), Hp.
  rewrite (mthen_ok utcnow _ w (w_now w) w) by done.
  set (exp := mbind _ _).
  destruct (issue_loop org plan_id f exp batch by_id draws [] w Hg Hc Hmax Hnd Hfresh) as (w' & E & Hg' & Hv').
  fold s in E, Hv'. set (items := batch_items s f draws) in *.
  exists items, (w' <| w_durable := w_view w' |>). simpl app in E.
  split; [by rewrite (mthen_ok _ _ _ _ _ E), (mthen_ok _ _ _ _ _ (commit_good w' Hg'))|].
  destruct (batch_items_names s f draws) as [Hl Hn]. fold items in Hl, Hn. split; [done|]. split; [done|]. simpl.
  destruct (insert_batch_grows (row_of_item (w_now w) org plan_id exp batch by_id) items (t_vouchers (w_view w)))
    as [H1 H2].
  rewrite Hv'. split; [done|]. split; [by rewrite H2, Hl|].
  intros code username password Hin.
  destruct (insert_batch_row (row_of_item (w_now w) org plan_id exp batch by_id) items
              (t_vouchers (w_view w)) _ Hin) as (i & Hi & Hrow).
  do 2 eexists. split; [exact Hi|]. split; [exact Hrow|]. done.
Qed.
End Batch.

(** ** Concrete runs *)
Definition voucher_plan : ServicePlan :=
  mkServicePlan (Some 1) "Daily" PT_HOTSPOT PLAN_ACTIVE (units 100) "KES" DAILY 5 5 (-1) (-1) 1 None 1
    false 0 false None None None None 0.

Definition voucher_shop : DB := (settings_db 29) <| t_plans := {[3 := voucher_plan]} |>.

Definition two_draws : list (list Z * list Z) :=
  [([0; 1; 2; 3; 26; 27; 28; 29], [8; 6; 5]); ([4; 5; 6; 7; 30; 31; 32; 33], [1; 2; 3])].

Lemma generate_vouchers_complete_witness :
  exists issued w', generate_vouchers 3 "XXXX-XXXX" None "b1" 1 None two_draws
      (start_offline 0 voucher_shop) = (Ok issued, w') /\
    issued = [("ABCD-0123", ("C029", "865")); ("EFGH-4567", ("C030", "123"))] /\
    size (t_vouchers (w_durable w')) = 2%nat.
Proof.
  destruct (generate_vouchers_complete 3 voucher_plan "XXXX-XXXX" None "b1" 1 None two_draws
              (start_offline 0 voucher_shop)) as (issued & w' & E & _ & _ & _ & Hs & _).
  - apply good_offline. vm_compute. reflexivity.
  - reflexivity.
  - vm_compute. discriminate.
  - vm_compute. discriminate.
  - apply (bool_decide_eq_true_1 (NoDup _)). vm_compute. reflexivity.
  - intros d _ j v H. vm_compute in H. discriminate.
  - exists issued, w'. split; [exact E|]. split; [|exact Hs].
    assert (H : fst (generate_vouchers 3 "XXXX-XXXX" None "b1" 1 None two_draws
      (start_offline 0 voucher_shop)) = Ok [("ABCD-0123", ("C029", "865")); ("EFGH-4567", ("C030", "123"))])
      by (vm_compute; reflexivity).
    rewrite E in H. by injection H.
Defined.
