(* ===== verification/Portal.v ===== *)
(** * The hotspot customer portal ([app/api/v1/portal/hotspot.py])

    Login, voucher redemption, purchases and their confirmation, on the
    session of [Session]: every handler loads its rows in one epoch of the
    session and reads them again after flushes that may have been refused.
    Outside the repository: the treasury's answers ([Treasury]), the signer of
    access tokens and the limiter of credential attempts ([PortalEnv]). *)

From S2P Require Import Prelude PyString Numerics Models Session Plan AgentQueue RouterSync Subscriptions Expiry HotspotNames Vouchers Bridge.
From stdpp Require Import sorting.
Open Scope Z_scope.


Class PortalEnv := {
  (** [settings.backend_url] *)
  backend_url : string;
  (** [create_access_token] for a user id *)
  access_token : string -> string;
  (** [limit_credential_attempt] for a scope and an identifier *)
  credential_attempt : string -> option string -> outcome unit
}.

Class Treasury := {
  treasury_is_configured : bool;
  (** [create_payment_intent] by reference: [intent_id] and [id] of the answer *)
  create_payment_intent : string -> outcome (option string * option string);
  (** [get_status] by intent: [status] and [Status] of the answer *)
  treasury_status : string -> outcome (option string * option string)
}.

(** ** Gateways and commands *)
Definition or_else (o : option string) (d : string) : string :=
  match o with Some "" | None => d | Some s => s end.

Definition is_present (o : option string) : bool :=
  match o with Some "" | None => false | Some _ => true end.

Record NetworkConfig : Type := mkNetwork {
  net_gateway : string; net_pool_start : string; net_pool_end : string; net_network : string
}.

(** [calculate_network_config] ([app/modules/provisioning/commands.py]);
    [None] for an index or conversion error. *)
Definition calculate_network_config (subnet_address : string) (cidr : Z) : option NetworkConfig :=
  let parts := split_on "."%char subnet_address in
  p0 ← parts !! 0%nat; p1 ← parts !! 1%nat;
  let net := subnet_address +:+ "/" +:+ str_of_Z cidr in
  let dotted a b c d := a +:+ "." +:+ b +:+ "." +:+ c +:+ "." +:+ d in
  if cidr =? 16 then
    Some (mkNetwork (dotted p0 p1 "0" "1") (dotted p0 p1 "0" "2") (dotted p0 p1 "255" "254") net)
  else
    p2 ← parts !! 2%nat;
    let with_end c := mkNetwork (dotted p0 p1 p2 "1") (dotted p0 p1 p2 "2") (dotted p0 p1 c "254") net in
    if cidr =? 22 then n ← py_int p2; Some (with_end (str_of_Z (n + 3)))
    else if cidr =? 23 then n ← py_int p2; Some (with_end (str_of_Z (n + 1)))
    else Some (with_end p2).

Definition config_get (key : string) (r : Router) : option JsonScalar :=
  snd <$> head (filter (fun kv => bool_decide (kv.1 = key)) (rt_config r)).

Definition default_gateway : string := "172.31.0.1".

(** [int(cfg.get("cidr", 16) or 16)] *)
Definition config_cidr (r : Router) : option Z :=
  match config_get "cidr" r with
  | None | Some JNull => Some 16
  | Some (JNum n) => Some (if n =? 0 then 16 else n)
  | Some (JStr s) => if bool_decide (s = "") then Some 16 else py_int s
  end.

Definition config_subnet (r : Router) : option string :=
  match config_get "subnet_address" r with
  | None => Some "172.31.0.0"
  | Some (JStr s) => Some s
  | Some _ => None
  end.

Definition _resolve_hotspot_gateway (r : Router) : string :=
  let computed :=
    default default_gateway
      (subnet ← config_subnet r; cidr ← config_cidr r; net_gateway <$> calculate_network_config subnet cidr) in
  match config_get "gateway" r with
  | Some (JStr s) => if bool_decide (s = "") then computed else s
  | Some (JNum n) => if n =? 0 then computed else str_of_Z n
  | _ => computed
  end.

Definition login_url_of (gateway username password : string) (mac : option string) : string :=
  "http://" +:+ gateway +:+ "/login?username=" +:+ username +:+ "&password=" +:+ password
  +:+ (if is_present mac then "&mac=" +:+ default "" mac else "").

(** [plan.data_limit * 1024 * 1024 * 1024] *)
Definition data_limit_bytes (p : ServicePlan) : option Z :=
  if 0 <? plan_data_limit p then Some (plan_data_limit p * 1024 * 1024 * 1024) else None.

Fixpoint rstrip_char (x : ascii) (s : string) : string :=
  match s with
  | EmptyString => EmptyString
  | String c s' =>
      match rstrip_char x s' with
      | EmptyString => if bool_decide (c = x) then EmptyString else String c EmptyString
      | t => String c t
      end
  end.

Section Routers.
Context {be : Backend} {ros : RouterOS} {cfg : AgentConfig} {env : PortalEnv}.

(** [_queue_agent_action] ([app/api/v1/network/routers.py]) *)
Definition _queue_agent_action (router_id : Z) (action : string) (user_id : option Z)
    (extra_query : list (string * string)) : run Z :=
  let base := rstrip_char "/"%char backend_url in
  let url := base +:+ "/api/v1/routers/" +:+ str_of_Z router_id +:+ "/action-script/" +:+ action
    +:+ "?token=" +:+ access_token (str_of_Z (default 0 user_id))
    +:+ match extra_query with
        | [] => ""
        | _ => "&" +:+ urlencode (filter (fun kv => negb (bool_decide (kv.2 = ""))) extra_query)
        end in
  id <- queue_command router_id "fetch_import" [("url", url)] 2 (Some "router_action") (Some action) None ;;
  commit ;;;
  mreturn id.

(** The limits queued behind a [create_user]. *)
Definition queue_limits (router_id : Z) (username : string) (p : ServicePlan) : run unit :=
  let limit_uptime := limit_uptime_str p in
  let limit_bytes := match data_limit_bytes p with Some b => str_of_Z b | None => "" end in
  if bool_decide (limit_uptime = "") && bool_decide (limit_bytes = "") then mreturn tt
  else
    _ <- _queue_agent_action router_id "set_limits" None
           [("u", username); ("lu", limit_uptime); ("lb", limit_bytes)] ;;
    mreturn tt.

Definition create_user_params (plan_id : Z) (p : ServicePlan) (username password : string)
    : list (string * string) :=
  [("username", username); ("password", password); ("type", "hotspot");
   ("profile", profile_name plan_id); ("rate_limit", build_rate_limit p)].

(** [client.create_hotspot_user] on a direct connection *)
Definition create_hotspot_user_direct (r : Router) (p : ServicePlan) (username password : string)
    (comment : option string) : run unit :=
  client_connect r ;;;
  _ <- execute_command r "/ip/hotspot/user" ADD
         ([("name", Some username); ("password", Some password); ("profile", Some "default")]
          ++ (if bool_decide (limit_uptime_str p = "") then [] else [("limit-uptime", Some (limit_uptime_str p))])
          ++ match data_limit_bytes p with Some b => [("limit-bytes-total", Some (str_of_Z b))] | None => [] end
          ++ match comment with Some c => [("comment", Some c)] | None => [] end) ;;
  client_disconnect r.

(** [e] is the epoch in which the caller loaded the organization. *)
Definition _sync_hotspot_user_to_router (e : nat) (org : Organization) (username password : string)
    (plan_id : Z) (p : ServicePlan) (mac comment : option string) (source : string)
    (source_id : option string) : run (option string) :=
  row_attrs e ;;;
  found <- query (fun db => active_router_of (org_id org) db) ;;
  e' <- epoch ;;
  match found with
  | None => mreturn None
  | Some (rid, r) =>
      if has_agent r then
        mtry
          (queue_command rid "create_user" (create_user_params plan_id p username password) 2
             (Some source) source_id None ;;;
           queue_limits rid username p)
          (fun _ => row_attrs e') ;;;
        row_attrs e' ;;;
        mreturn (Some (login_url_of (_resolve_hotspot_gateway r) username password mac))
      else
        mtry
          (create_hotspot_user_direct r p username password comment ;;;
           mreturn (Some (login_url_of (_resolve_hotspot_gateway r) username password mac)))
          (fun _ => mreturn None)
  end.
End Routers.

(** ** Packages on display *)
Record PackageResponse : Type := mkPackage {
  pk_id : Z;
  pk_name : string;
  pk_price : money;
  pk_features : list string;
  pk_concurrent_sessions : Z;
  pk_duration_minutes : option Z;
  pk_access_window_hours : pynum
}.

Definition package_features (p : ServicePlan) : list string :=
  (if is_unlimited_data p then ["Unlimited data"]
   else if 0 <? plan_data_limit p then [str_of_Z (plan_data_limit p) +:+ " GB data"] else [])
  ++ (if is_unlimited_time p then ["Unlimited time"]
      else if 0 <? plan_time_limit p then [str_of_Z (plan_time_limit p) +:+ " hours"] else [])
  ++ ["Up to " +:+ str_of_Z (plan_download_speed p) +:+ " Mbps download";
      "Up to " +:+ str_of_Z (plan_upload_speed p) +:+ " Mbps upload"]
  ++ (if 1 <? plan_concurrent_sessions p
      then [str_of_Z (plan_concurrent_sessions p) +:+ " devices"] else []).

Definition package_of_plan (ip : Z * ServicePlan) : PackageResponse :=
  let (i, p) := ip in
  mkPackage i (plan_name p) (plan_price p) (package_features p)
    (if plan_concurrent_sessions p =? 0 then 1 else plan_concurrent_sessions p)
    (plan_duration_minutes p) (access_window_hours p).

(** [ORDER BY sort_order, price] *)
Definition shelf_before (a b : Z * ServicePlan) : Prop :=
  plan_sort_order a.2 < plan_sort_order b.2 \/
  plan_sort_order a.2 = plan_sort_order b.2 /\ plan_price a.2 <= plan_price b.2.

#[export] Instance shelf_before_dec : RelDecision shelf_before.
Proof. intros a b. unfold shelf_before. apply _. Defined.

(** ** What the endpoints answer *)
Record LoginResponse : Type := mkLogin {
  lr_success : bool;
  lr_message : string;
  lr_session_token : option string;
  lr_login_url : option string;
  lr_plan_name : option string;
  lr_expires_at : option datetime
}.

Definition login_refused (message : string) : LoginResponse := mkLogin false message None None None None.

Record RedeemResponse : Type := mkRedeem {
  rr_success : bool;
  rr_message : string;
  rr_plan_name : option string;
  rr_validity_hours : option pynum;
  rr_expires_at : option datetime;
  rr_hotspot_username : option string;
  rr_hotspot_password : option string;
  rr_login_url : option string
}.

Definition redeem_refused (message : string) : RedeemResponse :=
  mkRedeem false message None None None None None None.

Definition unknown_mac : string := "00:00:00:00:00:00".

(** [CustomerSession(...)] as login and redemption create it. *)
Definition portal_session (now : datetime) (org : Organization) (token : string)
    (mac client_ip : option string) (expires_at : datetime) (p : ServicePlan) : CustomerSession :=
  mkSession (org_id org) S_ACTIVE expires_at None None token (or_else mac unknown_mac) client_ip now now 0 0
    (Some (plan_name p)) (Some (plan_upload_speed p * 1000)) (Some (plan_download_speed p * 1000))
    (data_limit_bytes p).

(** The window [hotspot_login] gives a voucher without an expiry of its own. *)
Definition login_window_hours (p : ServicePlan) : Z :=
  let hours := plan_validity_days p * 24 in
  if 0 <? plan_time_limit p then Z.min hours (plan_time_limit p) else hours.

Definition login_voucher_matches (org : Organization) (username password : string) (v : VoucherCode) : bool :=
  (vch_organization_id v =? org_id org) && bool_decide (vch_hotspot_username v = Some username)
  && bool_decide (vch_hotspot_password v = Some password).

Definition login_sub_matches (org : Organization) (username password : string) (s : Subscription) : bool :=
  bool_decide (sub_organization_id s = Some (org_id org)) && bool_decide (sub_username s = username)
  && bool_decide (sub_password s = password) && bool_decide (sub_type s = HOTSPOT).

(** [Subscription.is_active] *)
Definition sub_is_active (now : datetime) (s : Subscription) : bool :=
  bool_decide (sub_status s = ACTIVE)
  && match sub_end_date s with Some t => now <? t | None => false end.

Definition voucher_has_code (org : Organization) (code : string) (v : VoucherCode) : bool :=
  (vch_organization_id v =? org_id org) && bool_decide (vch_code v = code).

Definition past (now : datetime) (o : option datetime) : bool :=
  match o with Some t => t <? now | None => false end.

(** The columns [redeem_voucher] writes when it consumes a voucher. *)
Definition consume (now : datetime) (mac client_ip : option string) (v : VoucherCode) : VoucherCode :=
  v <| vch_is_used := true |> <| vch_status := V_USED |> <| vch_used_at := Some now |>
    <| vch_used_mac_address := mac |> <| vch_used_ip_address := client_ip |>.

Definition fill_credentials (gen : string * string) (v : VoucherCode) : VoucherCode :=
  v <| vch_hotspot_username ::= fun o => Some (or_else o gen.1) |>
    <| vch_hotspot_password ::= fun o => Some (or_else o gen.2) |>.

Section Handlers.
Context {be : Backend} {ros : RouterOS} {cfg : AgentConfig} {env : PortalEnv}.

Definition attempt (scope : string) (identifier : option string) : run unit :=
  match credential_attempt scope identifier with Ok _ => mreturn tt | Raise e => mraise e end.

Definition get_packages (org : Organization) : run (list PackageResponse) :=
  plans <- query (fun db =>
    merge_sort shelf_before
      (select (fun _ p => bool_decide (plan_organization_id p = Some (org_id org))
                          && bool_decide (plan_status p = PLAN_ACTIVE)) (t_plans db))) ;;
  mreturn (map package_of_plan plans).

Definition add_session (s : CustomerSession) : run Z :=
  id <- query (fun db => next_id (t_sessions db)) ;;
  assign (over t_sessions (insert id s)) ;;;
  mreturn id.

(** A returning customer whose credentials are those of a voucher. *)
Definition login_with_voucher (e : nat) (org : Organization) (i : Z) (v : VoucherCode)
    (username password : string) (mac client_ip : option string) (token : string) : run LoginResponse :=
  now <- utcnow ;;
  if bool_decide (vch_status v = V_EXPIRED) || past now (vch_expires_at v) then
    set_voucher i (fun v => v <| vch_status := V_EXPIRED |>) ;;;
    commit ;;;
    mreturn (login_refused "Your package has expired. Please purchase a new package.")
  else
    plan <- query (fun db => t_plans db !! vch_plan_id v) ;;
    match plan with
    | None => mreturn (login_refused "Associated package not found.")
    | Some p =>
        url <- _sync_hotspot_user_to_router e org username password (vch_plan_id v) p mac
                 (Some ("Login - voucher " +:+ vch_code v +:+ " - " +:+ plan_name p)) "hotspot_login" None ;;
        row_attrs e ;;;
        let expires_at := default (now + timedelta_hours (login_window_hours p)) (vch_expires_at v) in
        _ <- add_session (portal_session now org token mac client_ip expires_at p) ;;
        commit ;;;
        mreturn (mkLogin true "Connected successfully." (Some token) url (Some (plan_name p)) (Some expires_at))
    end.

(** A returning customer whose credentials are those of a subscription. *)
Definition login_with_subscription (e : nat) (org : Organization) (i : Z) (s : Subscription)
    (username password : string) (mac : option string) : run LoginResponse :=
  now <- utcnow ;;
  if negb (sub_is_active now s) then
    mreturn (login_refused "Your subscription has expired. Please renew your package.")
  else
    plan <- query (fun db => t_plans db !! sub_plan_id s) ;;
    match plan with
    | None => mreturn (login_refused "Associated package not found.")
    | Some p =>
        url <- _sync_hotspot_user_to_router e org username password (sub_plan_id s) p mac
                 (Some ("Login - subscription #" +:+ str_of_Z i +:+ " - " +:+ plan_name p)) "hotspot_login" None ;;
        set_sub i (fun s => s <| sub_last_activity := Some now |>) ;;;
        _ <- sub_attrs i ;;
        set_sub i (fun s => s <| sub_session_count ::= Z.succ |>) ;;;
        commit ;;;
        s' <- sub_attrs i ;;
        row_attrs e ;;;
        mreturn (mkLogin true "Connected successfully." None url (Some (plan_name p)) (sub_end_date s'))
    end.

Definition hotspot_login (org : Organization) (scope username password : string)
    (mac client_ip : option string) (token : string) : run LoginResponse :=
  e <- epoch ;;
  attempt ("hotspot-login:" +:+ scope) (Some username) ;;;
  vouchers <- query (fun db => select (fun _ => login_voucher_matches org username password) (t_vouchers db)) ;;
  voucher <- scalar_one_or_none vouchers ;;
  match voucher with
  | Some (i, v) => login_with_voucher e org i v username password mac client_ip token
  | None =>
      subs <- query (fun db =>
        head (merge_sort newer (select (fun _ => login_sub_matches org username password) (t_subs db)))) ;;
      match subs with
      | Some (i, s) =>
          load_subs [i] ;;;
          login_with_subscription e org i s username password mac
      | None => mreturn (login_refused "Invalid username or password.")
      end
  end.

(** The part of a redemption after the checks: the voucher is consumed, the
    session created, the user queued for the router, all in one transaction. *)
Definition ensure_credentials (org : Organization) (i : Z) (v : VoucherCode) (digits : list Z) : run VoucherCode :=
  if is_present (vch_hotspot_username v) && is_present (vch_hotspot_password v) then mreturn v
  else
    gen <- generate_hotspot_credentials (org_id org) digits ;;
    set_voucher i (fill_credentials gen) ;;;
    mreturn (fill_credentials gen v).

Definition sync_redeemed (e : nat) (org : Organization) (i : Z) (v : VoucherCode) (p : ServicePlan)
    (mac : option string) : run (option string) :=
  mtry
    (_sync_hotspot_user_to_router e org (default "" (vch_hotspot_username v))
       (default "" (vch_hotspot_password v)) (vch_plan_id v) p mac
       (Some ("Redeemed voucher " +:+ vch_code v +:+ " - " +:+ plan_name p)) "voucher_redeem"
       (Some (str_of_Z i)))
    (fun _ => row_attrs e ;;; mreturn None).

Definition redeem_checked (e : nat) (org : Organization) (i : Z) (v : VoucherCode) (p : ServicePlan)
    (mac client_ip : option string) (token : string) (digits : list Z) : run RedeemResponse :=
  now <- utcnow ;;
  set_voucher i (consume now mac client_ip) ;;;
  v <- ensure_credentials org i v digits ;;
  let window := access_window_hours p in
  let expires_at := now + timedelta_hours_num window in
  _ <- add_session (portal_session now org token mac client_ip expires_at p) ;;
  flush ;;;
  url <- sync_redeemed e org i v p mac ;;
  commit ;;;
  bridge_hotspot_purchase_to_dashboard
    (mkBridge e org (vch_plan_id v) (default "" (vch_hotspot_username v))
       (default "" (vch_hotspot_password v)) expires_at None "KES" None "treasury" true) ;;;
  row_attrs e ;;;
  mreturn (mkRedeem true "Voucher redeemed successfully. You can now connect to the internet."
             (Some (plan_name p)) (Some window) (Some expires_at) (vch_hotspot_username v)
             (vch_hotspot_password v) url).

Definition redeem_voucher (org : Organization) (scope code : string) (mac client_ip : option string)
    (token : string) (digits : list Z) : run RedeemResponse :=
  e <- epoch ;;
  attempt ("voucher-redeem:" +:+ scope) None ;;;
  vouchers <- query (fun db => select (fun _ => voucher_has_code org (strip (upper code))) (t_vouchers db)) ;;
  voucher <- scalar_one_or_none vouchers ;;
  match voucher with
  | None => mreturn (redeem_refused "Invalid voucher code")
  | Some (i, v) =>
      if negb (bool_decide (vch_status v = V_ACTIVE)) then
        mreturn (redeem_refused "Voucher has already been used or expired")
      else if vch_is_used v then mreturn (redeem_refused "Voucher has already been used")
      else
        now <- utcnow ;;
        if past now (vch_expires_at v) then
          set_voucher i (fun v => v <| vch_status := V_EXPIRED |>) ;;;
          commit ;;;
          mreturn (redeem_refused "Voucher has expired")
        else
          plan <- query (fun db => t_plans db !! vch_plan_id v) ;;
          match plan with
          | None => mreturn (redeem_refused "Associated package not found")
          | Some p => redeem_checked e org i v p mac client_ip token digits
          end
  end.
End Handlers.

(** ** Status queries *)
Inductive ConnectionStatus : Type :=
  | NoRouter
  | Ready
  | CreationFailed (message : option string)
  | CreationPending.

(** [ORDER BY created_at DESC] *)
Definition command_newer (a b : Z * RouterCommand) : Prop := cmd_created_at b.2 <= cmd_created_at a.2.
#[export] Instance command_newer_dec : RelDecision command_newer.
Proof. intros a b. unfold command_newer. apply _. Defined.

Definition session_newer (a b : Z * CustomerSession) : Prop := ses_created_at b.2 <= ses_created_at a.2.
#[export] Instance session_newer_dec : RelDecision session_newer.
Proof. intros a b. unfold session_newer. apply _. Defined.

Record SessionStatusResponse : Type := mkSessionStatus {
  ss_is_active : bool;
  ss_plan_name : option string;
  ss_started_at : option datetime;
  ss_expires_at : option datetime;
  ss_time_remaining_seconds : option Z;
  ss_data_used_mb : option float;
  ss_data_limit_mb : option float
}.

Definition no_session : SessionStatusResponse := mkSessionStatus false None None None None None None.

Definition megabytes (n : Z) : float := float_of_ratio n (1024 * 1024).

Definition session_response (now : datetime) (s : CustomerSession) : SessionStatusResponse :=
  mkSessionStatus true (ses_plan_name s) (Some (ses_started_at s)) (Some (ses_expires_at s))
    (Some (Z.max 0 (Z.quot (ses_expires_at s - now) usec_per_second)))
    (Some (megabytes (ses_bytes_in s + ses_bytes_out s)))
    (n ← ses_data_limit s; if n =? 0 then None else Some (megabytes n)).

(** ** Payments *)

(** What the confirmation of a purchase answers to the polling page. *)
Record PaymentStatusResponse : Type := mkPaymentStatus {
  ps_status : string;
  ps_is_completed : bool;
  ps_is_success : bool;
  ps_message : string;
  ps_voucher : option (string * option string * option string);
  ps_login_url : option string
}.

#[export] Instance PaymentStatusResponse_eta : Eta PaymentStatusResponse :=
  fun r => mkPaymentStatus (ps_status r) (ps_is_completed r) (ps_is_success r) (ps_message r)
    (ps_voucher r) (ps_login_url r).

(** The bodies the webhook understands: an STK callback with its result code,
    a charge event, a plain reference with an optional status, or none. *)
Inductive WebhookPayload : Type :=
  | StkCallback (checkout_request_id : option string) (result_code : option Z)
  | ChargeEvent (event : string) (reference : option string)
  | PlainReference (reference : option string) (status : option string)
  | OtherPayload.

Definition webhook_outcome (p : WebhookPayload) : option string * option string :=
  match p with
  | StkCallback r code => (r, Some (if bool_decide (code = Some 0) then "completed" else "failed"))
  | ChargeEvent ev r =>
      (r, if bool_decide (ev = "charge.success") then Some "completed"
          else if bool_decide (ev ∈ ["charge.failed"; "transfer.failed"]) then Some "failed" else None)
  | PlainReference r st => (r, Some (default "completed" st))
  | OtherPayload => (None, None)
  end.

Record PurchaseResponse : Type := mkPurchaseResponse {
  pr_reference : string;
  pr_intent_id : string;
  pr_amount : money;
  pr_currency : string
}.

(** [s[:n]] *)
Fixpoint take_chars (n : nat) (s : string) : string :=
  match n, s with
  | S n', String c s' => String c (take_chars n' s')
  | _, _ => EmptyString
  end.

Definition purchase_reference (org : Organization) (hex : string) : string :=
  "HS-" +:+ upper (take_chars 6 (org_slug org)) +:+ "-" +:+ upper hex.

Definition new_purchase (now : datetime) (org : Organization) (plan_id : Z) (p : ServicePlan)
    (phone : string) (email client_ip : option string) (reference : string) : CustomerPurchase :=
  mkPurchase (org_id org) None None None "pending" None phone email plan_id (plan_price p)
    (plan_currency p) "treasury" (Some reference) None client_ip now.

Definition purchased_voucher (now : datetime) (org : Organization) (q : CustomerPurchase)
    (code : string) (credentials : string * string) : VoucherCode :=
  mkVoucher (org_id org) code (pur_plan_id q) V_USED true (Some now) (Some (now + timedelta_days 30))
    (Some credentials.1) (Some credentials.2) now None None (Some (pur_amount q)) None None.

Definition mark_completed (now : datetime) (q : CustomerPurchase) : CustomerPurchase :=
  q <| pur_payment_status := "completed" |> <| pur_completed_at := Some now |>.

Definition purchase_matches (org : Organization) (reference : string) (q : CustomerPurchase) : bool :=
  bool_decide (pur_payment_reference q = Some reference) && (pur_organization_id q =? org_id org).

Section Payments.
Context {be : Backend} {ros : RouterOS} {cfg : AgentConfig} {env : PortalEnv} {tr : Treasury}.

Definition get_connection_status (org : Organization) (username : string) : run ConnectionStatus :=
  found <- query (fun db => active_router_of (org_id org) db) ;;
  match found with
  | None => mreturn NoRouter
  | Some (rid, _) =>
      rows <- query (fun db => take 50 (merge_sort command_newer
        (select (fun _ c => (cmd_router_id c =? rid) && bool_decide (cmd_action c = "create_user"))
           (t_commands db)))) ;;
      match head (filter (fun ic => bool_decide (("username", username) ∈ cmd_params ic.2) = true) rows) with
      | None => mreturn Ready
      | Some (_, c) =>
          mreturn (match cmd_status c with
                   | SUCCESS => Ready
                   | FAILED => CreationFailed (cmd_result_message c)
                   | _ => CreationPending
                   end)
      end
  end.

Definition get_session_status (org : Organization) (mac client_ip : option string)
    : run SessionStatusResponse :=
  let here (s : CustomerSession) :=
    if is_present mac then Some (bool_decide (Some (ses_mac_address s) = mac))
    else if is_present client_ip then Some (bool_decide (ses_ip_address s = client_ip))
    else None in
  if negb (is_present mac) && negb (is_present client_ip) then mreturn no_session
  else
    found <- query (fun db => head (merge_sort session_newer
      (select (fun _ s => (ses_organization_id s =? org_id org) && bool_decide (ses_status s = S_ACTIVE)
                          && default false (here s)) (t_sessions db)))) ;;
    match found with
    | None => mreturn no_session
    | Some (i, s) =>
        now <- utcnow ;;
        if ses_expires_at s <? now then
          assign (over t_sessions (alter (fun s =>
            s <| ses_status := S_EXPIRED |> <| ses_ended_at := Some (ses_expires_at s) |>) i)) ;;;
          commit ;;;
          mreturn no_session
        else mreturn (session_response now s)
    end.

Definition set_purchase (i : Z) (f : CustomerPurchase -> CustomerPurchase) : run unit :=
  assign (over t_purchases (alter f i)).

(** [record_event] *)
Definition add_event (body : EventBody) : run unit :=
  now <- utcnow ;;
  assign (over t_outbox (fun l => l ++ [pending_event now body])).

(** The voucher, the events and the commands of a paid purchase. *)
Definition provision_purchase (e : nat) (org : Organization) (i : Z) (q : CustomerPurchase)
    (p : ServicePlan) (code_draws digits : list Z) : run unit :=
  now <- utcnow ;;
  let code := generate_code "XXXX-XXXX-XXXX" 8 code_draws in
  credentials <- generate_hotspot_credentials (org_id org) digits ;;
  vid <- query (fun db => next_id (t_vouchers db)) ;;
  assign (over t_vouchers (insert vid (purchased_voucher now org q code credentials))) ;;;
  flush ;;;
  set_purchase i (fun q => q <| pur_voucher_code_id := Some vid |>) ;;;
  let expires_at := now + timedelta_hours_num (access_window_hours p) in
  add_event (PaymentReceived i (org_id org) (pur_plan_id q) (pur_amount q) (pur_payment_reference q) code) ;;;
  add_event (SubscriberCreated vid (org_id org) i (pur_plan_id q) code
    (or_else (pur_email q) (if bool_decide (pur_phone_number q = "") then credentials.1 else pur_phone_number q))
    credentials.1 credentials.2 expires_at) ;;;
  commit ;;;
  _ <- _sync_hotspot_user_to_router e org credentials.1 credentials.2 (pur_plan_id q) p None
         (Some ("Purchased " +:+ plan_name p +:+ " - Voucher " +:+ code)) "voucher_purchase"
         (Some (str_of_Z i)) ;;
  commit ;;;
  bridge_hotspot_purchase_to_dashboard
    (mkBridge e org (pur_plan_id q) credentials.1 credentials.2 expires_at (Some (pur_amount q))
       (pur_currency q) (pur_payment_reference q)
       (if bool_decide (pur_payment_method q = "") then "treasury" else pur_payment_method q) false).

(** [e] is the epoch in which the caller loaded the purchase and the
    organization. *)
Definition _process_successful_payment (e : nat) (org : Organization) (i : Z) (q : CustomerPurchase)
    (code_draws digits : list Z) : run unit :=
  now <- utcnow ;;
  mtry
    (set_purchase i (mark_completed now) ;;;
     plan <- query (fun db => t_plans db !! pur_plan_id q) ;;
     match plan with
     | None => commit
     | Some p => provision_purchase e org i q p code_draws digits
     end)
    (fun _ =>
       row_attrs e ;;;
       set_purchase i (mark_completed now) ;;;
       commit).

Definition find_purchase (org : Organization) (reference : string) : run (option (Z * CustomerPurchase)) :=
  rows <- query (fun db => select (fun _ => purchase_matches org reference) (t_purchases db)) ;;
  scalar_one_or_none rows.

Definition payment_webhook (org : Organization) (payload : WebhookPayload) (code_draws digits : list Z)
    : run string :=
  e <- epoch ;;
  let (reference, status) := webhook_outcome payload in
  if negb (is_present reference) then mreturn "No reference found"
  else
    found <- find_purchase org (default "" reference) ;;
    match found with
    | None => mreturn "Purchase not found"
    | Some (i, q) =>
        (if bool_decide (status = Some "completed") then
           _process_successful_payment e org i q code_draws digits
         else if bool_decide (status = Some "failed") then
           set_purchase i (fun q => q <| pur_payment_status := "failed" |>) ;;; commit
         else mreturn tt) ;;;
        mreturn (default "" status)
    end.

(** [str(intent.get("status") or intent.get("Status") or "").lower()] *)
Definition intent_state (st : option string * option string) : string :=
  lower (or_else st.1 (or_else st.2 "")).

(** The fallback poll of the treasury; only [TreasuryError] is caught. *)
Definition verify_with_treasury (e : nat) (org : Organization) (i : Z) (q : CustomerPurchase)
    (code_draws digits : list Z) : run unit :=
  match pur_treasury_payment_intent_id q with
  | Some intent =>
      if bool_decide (pur_payment_status q = "processing") && negb (bool_decide (intent = ""))
         && treasury_is_configured then
        match treasury_status intent with
        | Raise TreasuryError => mreturn tt
        | Raise x => mraise x
        | Ok st =>
            if bool_decide (intent_state st ∈ ["succeeded"; "success"; "completed"; "paid"]) then
              _process_successful_payment e org i q code_draws digits
            else if bool_decide (intent_state st ∈ ["failed"; "cancelled"; "canceled"; "expired"]) then
              set_purchase i (fun q => q <| pur_payment_status := "failed" |>) ;;; commit
            else mreturn tt
        end
      else mreturn tt
  | None => mreturn tt
  end.

Definition payment_message (status : string) : string :=
  if bool_decide (status = "completed") then "Payment successful"
  else if bool_decide (status = "failed") then "Payment failed" else "Payment pending".

Definition status_response (org : Organization) (q : CustomerPurchase) : run PaymentStatusResponse :=
  let status := pur_payment_status q in
  let plain := mkPaymentStatus status (bool_decide (status ∈ ["completed"; "failed"]))
                 (bool_decide (status = "completed")) (payment_message status) None None in
  match pur_voucher_code_id q with
  | Some vid =>
      if bool_decide (status = "completed") && negb (vid =? 0) then
        voucher <- query (fun db => t_vouchers db !! vid) ;;
        match voucher with
        | None => mreturn plain
        | Some v =>
            let shown := plain <| ps_voucher := Some (vch_code v, vch_hotspot_username v, vch_hotspot_password v) |> in
            if is_present (vch_hotspot_username v) then
              r <- query (fun db => active_router_of (org_id org) db) ;;
              let gateway := match r with Some (_, r) => _resolve_hotspot_gateway r | None => default_gateway end in
              mreturn (shown <| ps_login_url := Some (login_url_of gateway
                (default "" (vch_hotspot_username v)) (default "None" (vch_hotspot_password v)) None) |>)
            else mreturn shown
        end
      else mreturn plain
  | None => mreturn plain
  end.

Definition get_payment_status (org : Organization) (reference : string) (code_draws digits : list Z)
    : run PaymentStatusResponse :=
  e <- epoch ;;
  found <- find_purchase org reference ;;
  match found with
  | None => mreturn (mkPaymentStatus "not_found" false false "Payment reference not found" None None)
  | Some (i, q) =>
      verify_with_treasury e org i q code_draws digits ;;;
      row_attrs e ;;;
      q' <- (fun w => (Ok (default q (t_purchases (w_view w) !! i)), w)) ;;
      status_response org q'
  end.

(** [_purchase_via_treasury]; [hex] is the random part of the reference. *)
Definition _purchase_via_treasury (org : Organization) (plan_id : Z) (p : ServicePlan) (phone : string)
    (email client_ip : option string) (hex : string) : run (option PurchaseResponse) :=
  if negb treasury_is_configured then mreturn None
  else
    now <- utcnow ;;
    let reference := purchase_reference org hex in
    id <- query (fun db => next_id (t_purchases db)) ;;
    assign (over t_purchases (insert id (new_purchase now org plan_id p phone email client_ip reference))) ;;;
    commit ;;;
    let failed :=
      set_purchase id (fun q => q <| pur_payment_status := "failed" |>) ;;; commit ;;; mreturn None in
    match create_payment_intent reference with
    | Raise TreasuryError => failed
    | Raise x => mraise x
    | Ok ids =>
        match or_else ids.1 (or_else ids.2 "") with
        | "" => failed
        | intent =>
            set_purchase id (fun q => q <| pur_treasury_payment_intent_id := Some intent |>
                                        <| pur_payment_status := "processing" |>) ;;;
            commit ;;;
            mreturn (Some (mkPurchaseResponse reference intent (plan_price p) (plan_currency p)))
        end
    end.

(** [provider_active] is the answer of [resolve_provider_access]. *)
Definition purchase_package (org : Organization) (provider_active : bool) (plan_id : Z) (phone : string)
    (email client_ip : option string) (hex : string) : run PurchaseResponse :=
  if negb provider_active then mraise (HTTPException 403 "provider_subscription_inactive")
  else
    plan <- query (fun db => t_plans db !! plan_id) ;;
    match plan with
    | Some p =>
        if bool_decide (plan_organization_id p = Some (org_id org)) && bool_decide (plan_status p = PLAN_ACTIVE) then
          result <- _purchase_via_treasury org plan_id p phone email client_ip hex ;;
          match result with
          | Some r => mreturn r
          | None => mraise (HTTPException 502 "Payment service is temporarily unavailable. Please try again.")
          end
        else mraise (HTTPException 404 "Package not found")
    | None => mraise (HTTPException 404 "Package not found")
    end.
End Payments.
