(* ===== verification/PortalFacts.v ===== *)
(** * The customer portal: what it guarantees *)

From S2P Require Import Prelude PyString Numerics Models Session Plan AgentQueue RouterSync Subscriptions Expiry HotspotNames Vouchers Bridge BridgeFacts Portal.


(** ** A consumed voucher stays consumed *)

(** Row [i] is a consumed voucher of the organization under [code]. *)
Definition consumed (i : Z) (org : Organization) (code : string) (db : DB) : Prop :=
  exists v, t_vouchers db !! i = Some v /\ voucher_has_code org code v = true /\ vch_is_used v = true.

Section Consumed.
Context {be : Backend} {ros : RouterOS} {cfg : AgentConfig} {env : PortalEnv}.
Variables (i : Z) (org : Organization) (code : string).
Abbreviation inv := (consumed i org code).

Lemma consumed_frame db db' : t_vouchers db' = t_vouchers db -> inv db -> inv db'.
Proof. unfold consumed. by intros ->. Qed.

(** A write of one voucher that keeps its identity and its use. *)
Lemma consumed_alter f j db :
  (forall v, vch_organization_id (f v) = vch_organization_id v /\ vch_code (f v) = vch_code v /\
     (vch_is_used v = true -> vch_is_used (f v) = true)) ->
  inv db -> inv (over t_vouchers (alter f j) db).
Proof.
  intros Hf (v & Hi & Hc & Hu). unfold consumed. simpl. rewrite lookup_alter.
  case_decide as E; [subst|by exists v]. rewrite Hi. exists (f v). split; [done|].
  destruct (Hf v) as (H1 & H2 & H3). split; [|by apply H3]. unfold voucher_has_code in *. by rewrite H1, H2.
Qed.

(** The portal's steps, whatever the session's state. *)
Variable R : World -> Prop.
Hypothesis R_query : forall A (f : DB -> A), preserves R (query f).
Hypothesis R_assign : forall f, (forall db, inv db -> inv (f db)) -> preserves R (assign f).
Hypothesis R_flush : preserves R flush.
Hypothesis R_commit : preserves R commit.
Hypothesis R_same : forall w w', R w -> w_view w' = w_view w -> w_durable w' = w_durable w ->
  w_broken w' = w_broken w -> R w'.

Lemma R_epoch : preserves R epoch.
Proof. by intros w. Qed.

Lemma R_utcnow : preserves R utcnow.
Proof. by intros w. Qed.

Lemma R_row_attrs e : preserves R (row_attrs e).
Proof. intros w Hw. unfold row_attrs. case_match; [done|]. case_match; [|done]. by apply R_query. Qed.

Lemma R_connect r : preserves R (client_connect r).
Proof.
  intros w Hw. unfold client_connect. destruct (ros_connect (w_dev w) r). by apply (R_same w).
Qed.

Lemma R_execute r path m args : preserves R (execute_command r path m args).
Proof.
  intros w Hw. unfold execute_command. destruct (ros_execute _ _). by apply (R_same w).
Qed.

Lemma R_queue_command rid action params prio src sid exp :
  preserves R (queue_command rid action params prio src sid exp).
Proof.
  unfold queue_command. apply preserves_then; [apply R_utcnow|intros now].
  apply preserves_then; [apply R_query|intros id]. apply preserves_then; [|intros _].
  { apply R_assign. intros db. by apply consumed_frame. }
  apply preserves_then; [apply R_flush|intros _]. apply preserves_return.
Qed.

Lemma R_sync e o username password plan p mac comment src sid :
  preserves R (_sync_hotspot_user_to_router e o username password plan p mac comment src sid).
Proof.
  unfold _sync_hotspot_user_to_router.
  apply preserves_then; [apply R_row_attrs|intros _]. apply preserves_then; [apply R_query|intros found].
  apply preserves_then; [apply R_epoch|intros e'].
  destruct found as [[rid r]|]; [|apply preserves_return]. destruct (has_agent r).
  - apply preserves_then; [|intros _; apply preserves_then; [apply R_row_attrs|intros _; apply preserves_return]].
    apply preserves_try; [|intros _; apply R_row_attrs].
    apply preserves_then; [apply R_queue_command|intros _]. unfold queue_limits.
    case_match; [apply preserves_return|]. apply preserves_then; [|intros _; apply preserves_return].
    unfold _queue_agent_action. apply preserves_then; [apply R_queue_command|intros id].
    apply preserves_then; [apply R_commit|intros _]. apply preserves_return.
  - apply preserves_try; [|intros _; apply preserves_return].
    apply preserves_then; [|intros _; apply preserves_return]. unfold create_hotspot_user_direct.
    apply preserves_then; [apply R_connect|intros _].
    apply preserves_then; [apply R_execute|intros _]. apply preserves_return.
Qed.

Lemma R_set_voucher j f :
  (forall v, vch_organization_id (f v) = vch_organization_id v /\ vch_code (f v) = vch_code v /\
     (vch_is_used v = true -> vch_is_used (f v) = true)) ->
  preserves R (set_voucher j f).
Proof. intros Hf. apply R_assign. intros db. by apply consumed_alter. Qed.

Lemma R_add_session s : preserves R (add_session s).
Proof.
  unfold add_session. apply preserves_then; [apply R_query|intros id].
  apply preserves_then; [|intros _; apply preserves_return]. apply R_assign. intros db. by apply consumed_frame.
Qed.

Lemma R_credentials o digits : preserves R (generate_hotspot_credentials o digits).
Proof.
  unfold generate_hotspot_credentials. apply preserves_then; [apply R_query|intros s0].
  apply preserves_then; [|intros s].
  { destruct s0; [apply preserves_return|]. apply preserves_then; [apply R_assign; intros db; by apply consumed_frame|].
    intros _. apply preserves_then; [apply R_flush|intros _; apply preserves_return]. }
  apply preserves_then; [apply R_assign; intros db; by apply consumed_frame|intros _].
  apply preserves_then; [apply R_commit|intros _; apply preserves_return].
Qed.

Lemma R_ensure o j v digits : preserves R (ensure_credentials o j v digits).
Proof.
  unfold ensure_credentials. case_match; [apply preserves_return|].
  apply preserves_then; [apply R_credentials|intros gen].
  apply preserves_then; [|intros _; apply preserves_return]. by apply R_set_voucher.
Qed.

Lemma R_sync_redeemed e o j v p mac : preserves R (sync_redeemed e o j v p mac).
Proof.
  unfold sync_redeemed. apply preserves_try; [apply R_sync|intros _].
  apply preserves_then; [apply R_row_attrs|intros _; apply preserves_return].
Qed.
End Consumed.

(** Two readings of the invariant: of the tables of the session and of the
    committed ones, and of a session that either is broken or has the voucher
    consumed in its view. *)
Section Redemption.
Context {be : Backend} {ros : RouterOS} {cfg : AgentConfig} {env : PortalEnv}.

Definition armed (I : DB -> Prop) (w : World) : Prop := w_broken w = true \/ I (w_view w).

Section Instances.
Variables (i : Z) (org : Organization) (code : string).
Abbreviation inv := (consumed i org code).
Abbreviation kept := (db_inv inv).
Abbreviation ready := (armed inv).

Lemma kept_same w w' : kept w -> w_view w' = w_view w -> w_durable w' = w_durable w ->
  w_broken w' = w_broken w -> kept w'.
Proof. unfold db_inv. by intros [H1 H2] -> -> _. Qed.

Lemma ready_same w w' : ready w -> w_view w' = w_view w -> w_durable w' = w_durable w ->
  w_broken w' = w_broken w -> ready w'.
Proof. unfold armed. by intros H -> _ ->. Qed.

Lemma ready_query A (f : DB -> A) : preserves ready (query f).
Proof. intros w Hw. unfold query. by case_match. Qed.

Lemma ready_assign f : (forall db, inv db -> inv (f db)) -> preserves ready (assign f).
Proof. intros Hf w [Hb|Hv]; [by left|right]. by apply Hf. Qed.

Lemma ready_flush : preserves ready flush.
Proof.
  intros w Hw. unfold flush. case_match; [by left|]. case_match; [by left|].
  destruct Hw as [Hb|Hv]; [by left|by right].
Qed.

Lemma ready_commit : preserves ready commit.
Proof. apply preserves_then; [apply ready_flush|]. intros _ w [Hb|Hv]; [by left|by right]. Qed.

(** A commit that succeeds from a ready session makes the consumption durable. *)
Lemma commit_ready w w' : ready w -> commit w = (Ok tt, w') -> kept w'.
Proof.
  intros Hw. unfold commit, mthen, flush. destruct (w_broken w) eqn:Hb; [done|].
  match goal with |- context [if ?b then _ else _] => destruct b end; [done|].
  intros [= <-]. destruct Hw as [Hw|Hv]; [congruence|]. by split.
Qed.

Lemma bridge_kept c : preserves kept (bridge_hotspot_purchase_to_dashboard c).
Proof.
  unfold bridge_hotspot_purchase_to_dashboard, mirror_purchase, _resolve_router_id,
    _upsert_customer_user, find_customer, _upsert_subscription, _maybe_create_payment.
  repeat first [apply preserves_commit | apply preserves_then; [|intros ?] | preserve_step];
    intros db; by apply consumed_frame.
Qed.

Lemma sync_kept e o username password plan p mac comment src sid :
  preserves kept (_sync_hotspot_user_to_router e o username password plan p mac comment src sid).
Proof.
  exact (R_sync i org code kept (fun A => preserves_query inv (A := A)) (preserves_assign inv) (preserves_flush inv)
           (preserves_commit inv) kept_same e o username password plan p mac comment src sid).
Qed.

Lemma redeem_kept o scope c mac ip token digits :
  preserves kept (redeem_voucher o scope c mac ip token digits).
Proof.
  unfold redeem_voucher, attempt, redeem_checked.
  repeat first
    [ apply (R_set_voucher i org code kept (preserves_assign inv)); by repeat split
    | apply bridge_kept
    | apply (R_ensure i org code kept (fun A => preserves_query inv (A := A)) (preserves_assign inv)
               (preserves_flush inv) (preserves_commit inv))
    | apply (R_sync_redeemed i org code kept (fun A => preserves_query inv (A := A)) (preserves_assign inv)
               (preserves_flush inv) (preserves_commit inv) kept_same)
    | apply (R_add_session i org code kept (fun A => preserves_query inv (A := A)) (preserves_assign inv))
    | preserve_step ].
Qed.
End Instances.

(** Reading an outcome backwards through the monad. *)
Lemma then_inv {S A B} (m : M S A) (k : A -> M S B) s b s' :
  mthen m k s = (Ok b, s') -> exists a s1, m s = (Ok a, s1) /\ k a s1 = (Ok b, s').
Proof. unfold mthen. destruct (m s) as [[a|e] s1]; [eauto|done]. Qed.

Lemma query_inv {A} (f : DB -> A) w a w' :
  query f w = (Ok a, w') -> a = f (w_view w) /\ w' = w /\ w_broken w = false.
Proof. unfold query. destruct (w_broken w); [done|]. by intros [= <- <-]. Qed.

(** The vouchers a redemption of [code] looks at. *)
Definition redeemable (org : Organization) (code : string) (db : DB) : list (Z * VoucherCode) :=
  select (fun _ => voucher_has_code org (strip (upper code))) (t_vouchers db).

(** A redemption that answers has looked up at most one voucher. *)
Lemma redeem_lookup org scope code mac ip token digits w r w' :
  redeem_voucher org scope code mac ip token digits w = (Ok r, w') ->
  (redeemable org code (w_view w) = [] /\ rr_success r = false) \/
  exists i v, redeemable org code (w_view w) = [(i, v)] /\
    (rr_success r = false \/
     vch_status v = V_ACTIVE /\ vch_is_used v = false /\ past (w_now w) (vch_expires_at v) = false /\
     exists p, t_plans (w_view w) !! vch_plan_id v = Some p /\
       redeem_checked (w_epoch w) org i v p mac ip token digits w = (Ok r, w')).
Proof.
  unfold redeem_voucher, redeemable. intros H.
  rewrite (mthen_ok epoch _ w (w_epoch w) w) in H by done.
  apply then_inv in H as ([] & w1 & Ha & H).
  assert (w1 = w) as -> by (unfold attempt in Ha; destruct (credential_attempt _ _); by injection Ha).
  apply then_inv in H as (l & w1 & (-> & -> & _)%query_inv & H).
  destruct (select _ _) as [|[i v] [|x l]]; simpl in H.
  - left. injection H as <- <-. done.
  - right. exists i, v. split; [done|]. rewrite mthen_return in H.
    case_bool_decide as Es; simpl in H; [|injection H as <- <-; by left].
    destruct (vch_is_used v); [injection H as <- <-; by left|].
    rewrite (mthen_ok utcnow _ w (w_now w) w) in H by done.
    destruct (past _ _).
    { apply then_inv in H as (? & ? & _ & H). apply then_inv in H as (? & ? & _ & H).
      injection H as <- _. by left. }
    apply then_inv in H as (o & w1 & (-> & -> & _)%query_inv & H).
    destruct (t_plans _ !! _) as [p|]; [right; eauto 10|injection H as <- <-; by left].
  - done.
Qed.

(** A consumed voucher is refused. *)
Lemma consumed_refused i org scope code mac ip token digits w r w' :
  consumed i org (strip (upper code)) (w_view w) ->
  redeem_voucher org scope code mac ip token digits w = (Ok r, w') -> rr_success r = false.
Proof.
  intros (v & Hi & Hc & Hu) H. apply redeem_lookup in H as [[_ H]|(j & v' & Hl & [H|(_ & Hu' & _)])]; [done..|].
  assert (Hin : (i, v) ∈ redeemable org code (w_view w)) by (by apply elem_of_select).
  rewrite Hl in Hin. apply list_elem_of_singleton in Hin. congruence.
Qed.

(** A redemption that succeeds has consumed the voucher, durably. *)
Lemma success_consumes org scope code mac ip token digits w r w' :
  redeem_voucher org scope code mac ip token digits w = (Ok r, w') -> rr_success r = true ->
  exists i, consumed i org (strip (upper code)) (w_durable w').
Proof.
  intros H Hr. apply redeem_lookup in H as [[_ H]|(i & v & Hl & [H|(_ & _ & _ & p & _ & H)])]; [congruence..|].
  exists i. set (c := strip (upper code)).
  assert (Hv : t_vouchers (w_view w) !! i = Some v /\ voucher_has_code org c v = true).
  { apply (elem_of_select (fun _ => voucher_has_code org c)). unfold redeemable in Hl. fold c in Hl.
    rewrite Hl. apply list_elem_of_here. }
  unfold redeem_checked in H. rewrite (mthen_ok utcnow _ w (w_now w) w) in H by done.
  apply then_inv in H as ([] & w1 & E1 & H). injection E1 as <-.
  match type of H with _ ?x = _ => set (w1 := x) in H end.
  assert (R1 : armed (consumed i org c) w1).
  { right. exists (consume (w_now w) mac ip v). destruct Hv as [Hi Hc]. simpl.
    rewrite lookup_alter_eq, Hi. by split. }
  pose proof (ready_query i org c) as Rq. pose proof (ready_assign i org c) as Ra.
  pose proof (ready_flush i org c) as Rf. pose proof (ready_commit i org c) as Rc.
  pose proof (ready_same i org c) as Rs.
  apply then_inv in H as (v2 & w2 & E2 & H).
  pose proof (R_ensure i org c _ Rq Ra Rf Rc org i v digits w1 R1) as R2. rewrite E2 in R2. simpl in R2.
  cbv zeta in H. apply then_inv in H as (sid & w3 & E3 & H).
  match type of E3 with add_session ?s _ = _ => pose proof (R_add_session i org c _ Rq Ra s w2 R2) as R3 end.
  rewrite E3 in R3. simpl in R3.
  apply then_inv in H as ([] & w4 & E4 & H). pose proof (Rf w3 R3) as R4. rewrite E4 in R4. simpl in R4.
  apply then_inv in H as (url & w5 & E5 & H).
  pose proof (R_sync_redeemed i org c _ Rq Ra Rf Rc Rs (w_epoch w) org i v2 p mac w4 R4) as R5.
  rewrite E5 in R5. simpl in R5.
  apply then_inv in H as ([] & w6 & E6 & H). pose proof (commit_ready i org c w5 w6 R5 E6) as R6.
  apply then_inv in H as ([] & w7 & E7 & H).
  match type of E7 with bridge_hotspot_purchase_to_dashboard ?b _ = _ =>
    pose proof (bridge_kept i org c b w6 R6) as R7 end.
  rewrite E7 in R7. simpl in R7.
  apply then_inv in H as ([] & w8 & E8 & H).
  pose proof (preserves_row_attrs (consumed i org c) (w_epoch w) w7 R7) as R8. rewrite E8 in R8. simpl in R8.
  injection H as _ <-. apply R8.
Qed.
End Redemption.

(** ** Requests one after the other *)

(** The requests that touch vouchers, each with the instant it runs at and the
    flushes the server refuses it. *)
Inductive VoucherRequest : Type :=
  | Redeem (org : Organization) (scope code : string) (mac client_ip : option string) (token : string)
      (digits : list Z)
  | Login (org : Organization) (scope username password : string) (mac client_ip : option string)
      (token : string)
  | Generate (plan_id : Z) (code_format : string) (expires_in_days : option Z) (batch_id : string)
      (org : Z) (created_by : option Z) (draws : list (list Z * list Z))
  | Update (voucher_id org : Z) (status : option VoucherStatusFilter) (expires_at : option datetime)
  | Sell (org : Organization) (payload : WebhookPayload) (code_draws digits : list Z).

Section Serving.
Context {be : Backend} {ros : RouterOS} {cfg : AgentConfig} {env : PortalEnv}.

(** What a request grants: the redemption of an organization's code. *)
Definition serve (rq : VoucherRequest) : run (option (Z * string)) :=
  match rq with
  | Redeem org scope code mac ip token digits =>
      r <- redeem_voucher org scope code mac ip token digits ;;
      mreturn (if rr_success r then Some (org_id org, strip (upper code)) else None)
  | Login org scope username password mac ip token =>
      _ <- hotspot_login org scope username password mac ip token ;; mreturn None
  | Generate plan f days batch org by_id draws =>
      _ <- generate_vouchers plan f days batch org by_id draws ;; mreturn None
  | Update i org st exp => update_voucher i org st exp ;;; mreturn None
  | Sell org payload code_draws digits => _ <- payment_webhook org payload code_draws digits ;; mreturn None
  end.

(** Each request has a session of its own on the committed tables; an
    exception grants nothing. *)
Definition serve_one (now : datetime) (faults : list bool) (rq : VoucherRequest) (st : DB * Dev)
    : option (Z * string) * (DB * Dev) :=
  let (o, w') := serve rq ((start now st.1 st.2) <| w_faults := faults |>) in
  (match o with Ok g => g | Raise _ => None end, (w_durable w', w_dev w')).

Fixpoint grants (rqs : list (datetime * list bool * VoucherRequest)) (st : DB * Dev) : list (Z * string) :=
  match rqs with
  | [] => []
  | (now, faults, rq) :: rqs' =>
      let (g, st') := serve_one now faults rq st in
      match g with Some x => x :: grants rqs' st' | None => grants rqs' st' end
  end.

Section Preserved.
Variables (i : Z) (org : Organization) (code : string).
Abbreviation inv := (consumed i org code).
Abbreviation kept := (db_inv inv).

Lemma consumed_insert j v db :
  t_vouchers db !! j = None -> inv db -> inv (over t_vouchers (insert j v) db).
Proof.
  intros Hj (v0 & Hi & H). exists v0. split; [|done]. simpl. rewrite lookup_insert_ne; [done|]. congruence.
Qed.

(** A row inserted under a key read just before. *)
Lemma kept_insert_voucher {A} (mk : Z -> VoucherCode) (k : Z -> run A) :
  (forall id, preserves kept (k id)) ->
  preserves kept (id <- query (fun db => next_id (t_vouchers db)) ;;
                  assign (over t_vouchers (insert id (mk id))) ;;; k id).
Proof.
  intros Hk w [Hv Hd]. unfold mthen at 1, query. destruct (w_broken w); [done|].
  unfold mthen, assign, mmodify. apply Hk. split; simpl; [|done].
  by apply consumed_insert; [apply next_id_fresh|].
Qed.

Lemma login_kept o scope username password mac ip token :
  preserves kept (hotspot_login o scope username password mac ip token).
Proof.
  unfold hotspot_login, attempt, login_with_voucher, login_with_subscription, set_sub.
  repeat first
    [ apply (R_set_voucher i org code kept (preserves_assign inv)); by repeat split
    | apply sync_kept | apply preserves_sub_attrs | apply preserves_load_subs
    | apply (R_add_session i org code kept (fun A => preserves_query inv (A := A)) (preserves_assign inv))
    | apply preserves_commit | apply preserves_then; [|intros ?]
    | preserve_step ]; intros db; by apply consumed_frame.
Qed.

Lemma update_kept j o st exp : preserves kept (update_voucher j o st exp).
Proof.
  unfold update_voucher, find_voucher, not_found.
  repeat first
    [ apply (R_set_voucher i org code kept (preserves_assign inv)); by repeat split
    | apply preserves_commit | apply preserves_then; [|intros ?]
    | preserve_step ].
Qed.

Lemma credentials_kept o digits : preserves kept (generate_hotspot_credentials o digits).
Proof.
  exact (R_credentials i org code kept (fun A => preserves_query inv (A := A)) (preserves_assign inv)
           (preserves_flush inv) (preserves_commit inv) o digits).
Qed.

Lemma generate_kept plan f days batch o by_id draws :
  preserves kept (generate_vouchers plan f days batch o by_id draws).
Proof.
  unfold generate_vouchers, issue_voucher, not_found. cbv zeta.
  repeat first
    [ apply credentials_kept | apply kept_insert_voucher; intros ?
    | apply preserves_commit | apply preserves_then; [|intros ?]
    | preserve_step ].
Qed.

Lemma payment_kept e o j q code_draws digits :
  preserves kept (_process_successful_payment e o j q code_draws digits).
Proof.
  unfold _process_successful_payment, provision_purchase, set_purchase, add_event.
  repeat first
    [ apply credentials_kept | apply kept_insert_voucher; intros ? | apply sync_kept | apply bridge_kept
    | apply preserves_commit | apply preserves_then; [|intros ?]
    | preserve_step ]; intros db; by apply consumed_frame.
Qed.

Lemma webhook_kept o payload code_draws digits :
  preserves kept (payment_webhook o payload code_draws digits).
Proof.
  unfold payment_webhook, find_purchase, set_purchase.
  apply preserves_then; [apply preserves_epoch|intros e]. destruct (webhook_outcome payload) as [r st].
  repeat first
    [ apply payment_kept | apply preserves_commit | apply preserves_then; [|intros ?]
    | preserve_step ]; intros db; by apply consumed_frame.
Qed.

Lemma serve_kept rq : preserves kept (serve rq).
Proof.
  destruct rq; simpl; (apply preserves_then; [|intros; apply preserves_return]).
  - apply redeem_kept.
  - apply login_kept.
  - apply generate_kept.
  - apply update_kept.
  - apply webhook_kept.
Qed.

Lemma serve_one_kept now faults rq st :
  inv st.1 -> inv (serve_one now faults rq st).2.1.
Proof.
  intros H. unfold serve_one.
  pose proof (serve_kept rq ((start now st.1 st.2) <| w_faults := faults |>) (conj H H)) as [_ Hd].
  by destruct (serve rq _) as [o w'].
Qed.
End Preserved.

(** Once consumed, a voucher is never granted again. *)
Lemma consumed_never_granted i org code rqs : forall st,
  consumed i org code st.1 -> (org_id org, code) ∉ grants rqs st.
Proof.
  induction rqs as [|[[now faults] rq] rqs IH]; intros st H; simpl; [apply not_elem_of_nil|].
  pose proof (serve_one_kept i org code now faults rq st H) as H'.
  destruct (serve_one now faults rq st) as [g st'] eqn:E. simpl in H'.
  destruct g as [x|]; [|by apply IH]. apply not_elem_of_cons. split; [|by apply IH].
  intros <-. unfold serve_one in E. destruct (serve rq _) as [o w'] eqn:Es.
  injection E as E _. destruct o as [g|e]; [|done]. subst g.
  destruct rq; simpl in Es; apply then_inv in Es as (r & w1 & E1 & E2); try (injection E2; done).
  injection E2 as Eg _. destruct (rr_success r) eqn:Hr; [|done]. injection Eg as Eo Ec.
  assert (Hcon : consumed i org0 (strip (upper code0)) st.1).
  { destruct H as (v & Hi & Hc & Hu). exists v. split; [done|]. split; [|done].
    unfold voucher_has_code in *. by rewrite Eo, Ec. }
  pose proof (consumed_refused i org0 scope code0 mac client_ip token digits
    ((start now st.1 st.2) <| w_faults := faults |>) r w1 Hcon E1). congruence.
Qed.

End Serving.

(** ** Redemption in a session in good order *)
Section Exact.
Context {be : Backend} {ros : RouterOS} {cfg : AgentConfig} {env : PortalEnv}.

(** A step that touches only the command queue. *)
Record commands_step (w w' : World) : Prop := {
  cs_good : good w';
  cs_now : w_now w' = w_now w;
  cs_epoch : w_epoch w' = w_epoch w;
  cs_view : w_view w' = (w_view w) <| t_commands := t_commands (w_view w') |>
}.

Lemma commands_step_refl w : good w -> commands_step w w.
Proof. intros Hg. split; try done. by destruct (w_view w). Qed.

Lemma commands_step_trans w1 w2 w3 : commands_step w1 w2 -> commands_step w2 w3 -> commands_step w1 w3.
Proof.
  intros [H1 H2 H3 H4] [G1 G2 G3 G4]. split; [done|congruence..|]. rewrite G4, H4. done.
Qed.

Lemma queue_command_step rid action params prio src sid w :
  good w -> exists n w', queue_command rid action params prio src sid None w = (Ok n, w') /\ commands_step w w'.
Proof.
  intros Hg. do 2 eexists. split; [by apply queue_command_good|]. split; try done. by apply good_view.
Qed.

Lemma queue_limits_step rid username p w :
  good w -> exists w', queue_limits rid username p w = (Ok tt, w') /\ commands_step w w'.
Proof.
  intros Hg. unfold queue_limits. case_match; [by eauto using commands_step_refl|].
  unfold _queue_agent_action. rewrite mthen_assoc.
  match goal with |- context [queue_command ?a ?b ?c ?d ?e ?f None] =>
    destruct (queue_command_step a b c d e f w Hg) as (n & w1 & E & H1) end.
  rewrite (mthen_ok _ _ _ _ _ E), mthen_assoc, (mthen_ok _ _ _ _ _ (commit_good w1 (cs_good _ _ H1))).
  eexists. split; [reflexivity|]. destruct H1. split; try done. by apply good_commit.
Qed.

Lemma device_direct r p username password comment :
  device_only (create_hotspot_user_direct r p username password comment).
Proof. unfold create_hotspot_user_direct, client_disconnect. repeat device_step. Qed.

Lemma device_step_commands {A} (m : run A) w :
  device_only m -> good w -> commands_step w (snd (m w)).
Proof.
  intros Hm Hg. split; [by apply device_only_good| | |]; rewrite (Hm w); try done. simpl.
  by destruct (w_view w).
Qed.

Lemma sync_good org username password plan p mac comment src sid w :
  good w -> exists url w',
    _sync_hotspot_user_to_router (w_epoch w) org username password plan p mac comment src sid w = (Ok url, w') /\
    commands_step w w'.
Proof.
  intros Hg. unfold _sync_hotspot_user_to_router.
  rewrite (mthen_ok _ _ _ _ _ (row_attrs_fresh _ w eq_refl)).
  rewrite (mthen_ok _ _ _ _ _ (query_good _ w (good_broken w Hg))).
  rewrite (mthen_ok epoch _ w (w_epoch w) w) by done.
  destruct (active_router_of (org_id org) (w_view w)) as [[rid r]|]; [|by eauto using commands_step_refl].
  destruct (has_agent r).
  - destruct (queue_command_step rid "create_user" (create_user_params plan p username password) 2
      (Some src) sid w Hg) as (n & w1 & E1 & H1).
    destruct (queue_limits_step rid username p w1 (cs_good _ _ H1)) as (w2 & E2 & H2).
    pose proof (commands_step_trans _ _ _ H1 H2) as H3.
    do 2 eexists. split; [|exact H3].
    rewrite (mthen_ok _ _ w tt w2) by (apply mtry_ok; by rewrite (mthen_ok _ _ _ _ _ E1)).
    by rewrite (mthen_ok _ _ _ _ _ (row_attrs_fresh _ w2 (cs_epoch _ _ H3))).
  - pose proof (device_step_commands _ w (device_direct r p username password comment) Hg) as H1.
    destruct (create_hotspot_user_direct r p username password comment w) as [[u|x] w1] eqn:E; simpl in H1.
    + do 2 eexists. split; [|exact H1]. apply mtry_ok. by rewrite (mthen_ok _ _ _ _ _ E).
    + do 2 eexists. split; [|exact H1].
      rewrite (mtry_raise _ _ _ x w1); [reflexivity|]. by apply mthen_raise.
Qed.

Lemma good_insert_session s i w :
  good w -> t_sessions (w_view w) !! i = None -> session_row_ok s = true ->
  (forall j s', t_sessions (w_view w) !! j = Some s' -> ses_session_token s' <> ses_session_token s) ->
  good (w <| w_view ::= over t_sessions (insert i s) |>).
Proof.
  intros Hg Hi Hs Hn. apply good_portal; [done..|]. unfold portal_ok, portal_tables. simpl.
  intros (H1 & H2 & H3 & H4 & H5 & H6 & H7).
  exact (conj H1 (conj H2 (conj H3 (conj H4 (conj (unique_insert _ _ _ _ H5 Hi Hn)
    (conj (map_Forall_insert_2 _ _ _ _ Hs H6) H7)))))).
Qed.

(** A voucher that may be redeemed, in a session in good order. *)
Record redemption (w : World) (org : Organization) (scope code : string) (mac ip : option string)
    (token : string) (i : Z) (v : VoucherCode) (p : ServicePlan) (username password : string) : Prop := {
  rd_good : good w;
  rd_attempt : credential_attempt ("voucher-redeem:" +:+ scope) None = Ok tt;
  rd_voucher : t_vouchers (w_view w) !! i = Some v;
  rd_code : voucher_has_code org (strip (upper code)) v = true;
  rd_active : vch_status v = V_ACTIVE;
  rd_unused : vch_is_used v = false;
  rd_unexpired : past (w_now w) (vch_expires_at v) = false;
  rd_plan : t_plans (w_view w) !! vch_plan_id v = Some p;
  rd_username : vch_hotspot_username v = Some username /\ username <> "";
  rd_password : vch_hotspot_password v = Some password /\ password <> "";
  rd_session : forall exp, session_row_ok (portal_session (w_now w) org token mac ip exp p) = true;
  rd_token : forall j s, t_sessions (w_view w) !! j = Some s -> ses_session_token s <> token
}.

(** The end of the access window that starts now. *)
Definition window_end (now : datetime) (p : ServicePlan) : datetime :=
  now + timedelta_hours_num (access_window_hours p).

(** The tables once the voucher is consumed and its session open. *)
Definition redeemed_db (now : datetime) (org : Organization) (i : Z) (p : ServicePlan)
    (mac ip : option string) (token : string) (db : DB) : DB :=
  over t_sessions (insert (next_id (t_sessions db))
      (portal_session now org token mac ip (window_end now p) p))
    (over t_vouchers (alter (consume now mac ip) i) db).

Definition redeem_call (e : nat) (org : Organization) (plan : Z) (username password : string)
    (exp : datetime) : BridgeCall :=
  mkBridge e org plan username password exp None "KES" None "treasury" true.

Definition redeemed_answer (p : ServicePlan) (now : datetime) (username password : string)
    (url : option string) : RedeemResponse :=
  mkRedeem true "Voucher redeemed successfully. You can now connect to the internet."
    (Some (plan_name p)) (Some (access_window_hours p)) (Some (window_end now p))
    (Some username) (Some password) url.

Lemma is_present_some s : s <> "" -> is_present (Some s) = true.
Proof. by destruct s. Qed.

(** Up to its commit the redemption does what it says; then come the bridge
    and the answer. *)
Lemma redeem_prefix w org scope code mac ip token digits i v p username password :
  redemption w org scope code mac ip token i v p username password ->
  exists url w1, redeem_voucher org scope code mac ip token digits w =
      (bridge_hotspot_purchase_to_dashboard
         (redeem_call (w_epoch w) org (vch_plan_id v) username password (window_end (w_now w) p)) ;;;
       row_attrs (w_epoch w) ;;;
       mreturn (redeemed_answer p (w_now w) username password url)) w1 /\
    good w1 /\ w_now w1 = w_now w /\ w_epoch w1 = w_epoch w /\ w_durable w1 = w_view w1 /\
    w_view w1 = (redeemed_db (w_now w) org i p mac ip token (w_view w))
                  <| t_commands := t_commands (w_view w1) |>.
Proof.
  intros [Hg Ha Hi Hc Hs Hu Hx Hp [Hn Hn0] [Hw Hw0] Hses Htok]. pose proof (good_broken w Hg) as Hb.
  unfold redeem_voucher. rewrite (mthen_ok epoch _ w (w_epoch w) w) by done.
  rewrite (mthen_ok _ _ w tt w) by (unfold attempt; by rewrite Ha).
  rewrite (mthen_ok _ _ _ _ _ (query_good _ w Hb)).
  assert (Huniq : unique_by vch_code (t_vouchers (w_view w))).
  { destruct Hg as [_ _ (_ & _ & _ & _ & (_ & _ & _ & H & _))]. exact H. }
  rewrite (select_unique (fun _ => voucher_has_code org (strip (upper code))) _ i v Hi Hc).
  2:{ intros j y Hj [_ Hy%bool_decide_eq_true_1]%andb_true_iff. apply (Huniq _ _ Hj _ _ Hi).
      apply andb_true_iff in Hc as [_ Hc%bool_decide_eq_true_1]. congruence. }
  simpl scalar_one_or_none. rewrite mthen_return, Hs, Hu. rewrite bool_decide_eq_true_2 by done.
  change (negb true) with false. cbv iota.
  rewrite (mthen_ok utcnow _ w (w_now w) w), Hx by done.
  rewrite (mthen_ok _ _ _ _ _ (query_good _ w Hb)), Hp.
  unfold redeem_checked. rewrite (mthen_ok utcnow _ w (w_now w) w) by done.
  set (w1 := w <| w_view ::= over t_vouchers (alter (consume (w_now w) mac ip) i) |>).
  assert (Hg1 : good w1) by (by apply good_alter_voucher).
  rewrite (mthen_ok (set_voucher _ _) _ w tt w1) by done.
  rewrite (mthen_ok _ _ w1 v w1).
  2:{ unfold ensure_credentials. by rewrite Hn, Hw, !is_present_some. }
  cbv zeta. fold (window_end (w_now w) p).
  set (ses := portal_session (w_now w) org token mac ip (window_end (w_now w) p) p).
  set (w2 := w1 <| w_view ::= over t_sessions (insert (next_id (t_sessions (w_view w1))) ses) |>).
  assert (Hg2 : good w2) by (apply good_insert_session; [done|apply next_id_fresh|apply Hses|exact Htok]).
  rewrite (mthen_ok (add_session ses) _ w1 (next_id (t_sessions (w_view w1))) w2).
  2:{ unfold add_session. by rewrite (mthen_ok _ _ _ _ _ (query_good _ w1 (good_broken w1 Hg1))). }
  rewrite (mthen_ok _ _ _ _ _ (flush_good w2 Hg2)). rewrite Hn, Hw. simpl default.
  destruct (sync_good org username password (vch_plan_id v) p mac
    (Some ("Redeemed voucher " +:+ vch_code v +:+ " - " +:+ plan_name p)) "voucher_redeem"
    (Some (str_of_Z i)) w2 Hg2) as (url & w3 & E3 & [Hg3 Hn3 He3 Hv3]).
  rewrite (mthen_ok _ _ w2 url w3).
  2:{ unfold sync_redeemed. rewrite Hn, Hw. by apply mtry_ok. }
  rewrite (mthen_ok _ _ _ _ _ (commit_good w3 Hg3)).
  exists url, (w3 <| w_durable := w_view w3 |>). split; [done|]. split; [by apply good_commit|].
  split; [done|]. split; [done|]. split; [done|]. exact Hv3.
Qed.

Lemma redeemed_frame now org i p mac ip token db cmds :
  let db' := (redeemed_db now org i p mac ip token db) <| t_commands := cmds |> in
  t_users db' = t_users db /\ t_payments db' = t_payments db /\ t_subs db' = t_subs db /\
  active_router_of (org_id org) db' = active_router_of (org_id org) db.
Proof. done. Qed.

(** Nobody outside the organization holds the customer's name or address. *)
Definition name_free (org : Organization) (username : string) (db : DB) : Prop :=
  forall j u, t_users db !! j = Some u ->
    usr_username u = username \/ usr_email u = usr_email (hotspot_user org username "") ->
    user_matches org username u = true.

Lemma bridge_without_router c w :
  good w -> w_epoch w = br_epoch c -> active_router_of (org_id (br_org c)) (w_view w) = None ->
  bridge_hotspot_purchase_to_dashboard c w = (Ok tt, w).
Proof.
  intros Hg He Hr. apply mtry_ok. unfold mirror_purchase, _resolve_router_id.
  rewrite (mthen_ok _ _ _ _ _ (row_attrs_fresh _ w He)).
  by rewrite (mthen_ok _ _ _ _ _ (query_good _ w (good_broken w Hg))), Hr.
Qed.


(** When a customer of another tenant already holds the name, the
    redemption fails after the fact: the voucher is consumed and the session
    committed, but reading the plan's name for the answer raises, so that the
    customer gets an error and never sees the credentials. *)
Theorem redeem_name_clash_loses_voucher w org scope code mac ip token digits i v p username password rid r j u :
  reload_expired = false ->
  redemption w org scope code mac ip token i v p username password ->
  active_router_of (org_id org) (w_view w) = Some (rid, r) ->
  t_users (w_view w) !! j = Some u -> usr_username u = username ->
  usr_organization_id u <> Some (org_id org) ->
  exists w', redeem_voucher org scope code mac ip token digits w = (Raise MissingGreenlet, w') /\
    t_vouchers (w_durable w') = alter (consume (w_now w) mac ip) i (t_vouchers (w_view w)) /\
    t_users (w_durable w') = t_users (w_view w) /\ t_subs (w_durable w') = t_subs (w_view w).
Proof.
  intros Hre Hred Hr Hj Hun Horg. pose proof (redeem_prefix _ _ _ _ _ _ _ digits _ _ _ _ _ Hred)
    as (url & w1 & E & Hg1 & Hn1 & He1 & Hd1 & Hv1).
  destruct (redeemed_frame (w_now w) org i p mac ip token (w_view w) (t_commands (w_view w1)))
    as (Fu & _ & Fs & Fr).
  set (c := redeem_call (w_epoch w) org (vch_plan_id v) username password (window_end (w_now w) p)) in E.
  destruct (bridge_name_clash c rid r w1 j u Hg1 Hd1 He1) as (w2 & E2 & Hv2 & Hd2 & _ & He2);
    [simpl; rewrite Hv1; by rewrite Fr|by rewrite Hv1, Fu|exact Hun|exact Horg|].
  exists w2. split.
  { rewrite E, (mthen_ok _ _ _ _ _ E2). apply mthen_raise. unfold row_attrs.
    rewrite (proj2 (Nat.eqb_neq _ _)) by (simpl in He2; lia). by rewrite Hre. }
  rewrite Hd2, Hd1, Hv1. by rewrite Fu, Fs.
Qed.

(** The bridge never raises, and writes neither vouchers nor purchases. *)
Lemma bridge_never_raises c : never_raises (bridge_hotspot_purchase_to_dashboard c).
Proof.
  apply never_raises_try. intros e. apply never_raises_try. intros _. apply never_raises_return.
Qed.

Definition sales (V : gmap Z VoucherCode) (P : gmap Z CustomerPurchase) (db : DB) : Prop :=
  t_vouchers db = V /\ t_purchases db = P.

Lemma bridge_keeps_sales c V P : preserves (db_inv (sales V P)) (bridge_hotspot_purchase_to_dashboard c).
Proof.
  unfold bridge_hotspot_purchase_to_dashboard, mirror_purchase, _resolve_router_id,
    _upsert_customer_user, find_customer, _upsert_subscription, _maybe_create_payment.
  repeat first [apply preserves_commit | apply preserves_then; [|intros ?] | preserve_step];
    by intros db.
Qed.

Definition sold_voucher (now : datetime) (org : Organization) (q : CustomerPurchase)
    (code_draws digits : list Z) (db : DB) : VoucherCode :=
  purchased_voucher now org q (generate_code "XXXX-XXXX-XXXX" 8 code_draws)
    (name_of_settings (settings_of db (org_id org)), password_of_digits digits).

Definition sold_purchase (now : datetime) (vid : Z) (q : CustomerPurchase) : CustomerPurchase :=
  (mark_completed now q) <| pur_voucher_code_id := Some vid |>.

Lemma provision_run org i q p code_draws digits w :
  good w -> t_plans (w_view w) !! pur_plan_id q = Some p ->
  in_int4 (org_hotspot_username_counter (settings_of (w_view w) (org_id org)) + 1) = true ->
  (forall j v, t_vouchers (w_view w) !! j = Some v ->
     vch_code v <> generate_code "XXXX-XXXX-XXXX" 8 code_draws) ->
  exists w', _process_successful_payment (w_epoch w) org i q code_draws digits w = (Ok tt, w') /\
    let vid := next_id (t_vouchers (w_view w)) in
    sales (<[vid := sold_voucher (w_now w) org q code_draws digits (w_view w)]> (t_vouchers (w_view w)))
      (alter (sold_purchase (w_now w) vid) i (t_purchases (w_view w))) (w_durable w').
Proof.
  intros Hg Hp Hc Hfresh. cbv zeta. set (vid := next_id (t_vouchers (w_view w))).
  unfold _process_successful_payment.
  rewrite (mthen_ok utcnow _ w (w_now w) w) by done.
  set (w1 := w <| w_view ::= over t_purchases (alter (mark_completed (w_now w)) i) |>).
  assert (Hg1 : good w1) by (by apply good_view).
  destruct (generate_run (org_id org) digits w1 Hg1 Hc) as [E2 Hg2]. cbv zeta in E2, Hg2.
  match type of Hg2 with good ?x => set (w2 := x) in * end.
  set (row := sold_voucher (w_now w) org q code_draws digits (w_view w)).
  set (w3 := w2 <| w_view ::= over t_vouchers (insert vid row) |>).
  assert (Hg3 : good w3) by (apply good_insert_voucher; [done|apply next_id_fresh|exact Hfresh]).
  set (f := fun q : CustomerPurchase => q <| pur_voucher_code_id := Some vid |>).
  set (code := generate_code "XXXX-XXXX-XXXX" 8 code_draws) in *.
  set (exp := w_now w + timedelta_hours_num (access_window_hours p)).
  set (creds := (name_of_settings (settings_of (w_view w) (org_id org)), password_of_digits digits)).
  set (w4 := w3 <| w_view ::= over t_purchases (alter f i) |>
    <| w_view ::= over t_outbox (fun l => l ++ [pending_event (w_now w) (PaymentReceived i (org_id org) (pur_plan_id q) (pur_amount q)
         (pur_payment_reference q) code)]) |>
    <| w_view ::= over t_outbox (fun l => l ++ [pending_event (w_now w) (SubscriberCreated vid (org_id org) i (pur_plan_id q) code
         (or_else (pur_email q) (if bool_decide (pur_phone_number q = "") then creds.1 else pur_phone_number q))
         creds.1 creds.2 exp)]) |>).
  assert (Hg4 : good w4) by (apply (good_view w3 (w_view w4)); [exact Hg3|done..]).
  destruct (sync_good org creds.1 creds.2 (pur_plan_id q) p None
    (Some ("Purchased " +:+ plan_name p +:+ " - Voucher " +:+ code)) "voucher_purchase"
    (Some (str_of_Z i)) (w4 <| w_durable := w_view w4 |>) (good_commit w4 Hg4))
    as (url & w5 & E5 & [Hg5 _ _ Hv5]).
  set (c := mkBridge (w_epoch w) org (pur_plan_id q) creds.1 creds.2 exp (Some (pur_amount q))
       (pur_currency q) (pur_payment_reference q)
       (if bool_decide (pur_payment_method q = "") then "treasury" else pur_payment_method q) false).
  destruct (bridge_never_raises c (w5 <| w_durable := w_view w5 |>)) as ([] & w6 & E6).
  exists w6. split.
  - apply mtry_ok. rewrite (mthen_ok (set_purchase _ _) _ w tt w1) by done.
    rewrite (mthen_ok _ _ _ _ _ (query_good _ w1 (good_broken w1 Hg1))).
    change (t_plans (w_view w1)) with (t_plans (w_view w)). rewrite Hp. unfold provision_purchase.
    rewrite (mthen_ok utcnow _ w1 (w_now w) w1) by done. cbv zeta. rewrite (mthen_ok _ _ _ _ _ E2).
    rewrite (mthen_ok _ _ _ _ _ (query_good _ w2 (good_broken w2 Hg2))).
    rewrite (mthen_ok (assign _) _ w2 tt w3) by done.
    rewrite (mthen_ok _ _ _ _ _ (flush_good w3 Hg3)).
    rewrite (mthen_ok (set_purchase i f) _ w3 tt _ eq_refl).
    rewrite (mthen_ok (add_event _) _ _ tt _ eq_refl), (mthen_ok (add_event _) _ _ tt _ eq_refl).
    match goal with |- mthen commit ?k ?x = _ => change x with w4 end.
    rewrite (mthen_ok _ _ _ _ _ (commit_good w4 Hg4)), (mthen_ok _ _ _ _ _ E5).
    by rewrite (mthen_ok _ _ _ _ _ (commit_good w5 Hg5)).
  - assert (Hs : db_inv (sales (<[vid := row]> (t_vouchers (w_view w)))
        (alter (sold_purchase (w_now w) vid) i (t_purchases (w_view w)))) (w5 <| w_durable := w_view w5 |>)).
    { assert (H : sales (<[vid := row]> (t_vouchers (w_view w)))
        (alter (sold_purchase (w_now w) vid) i (t_purchases (w_view w))) (w_view w5)); [|by split].
      rewrite Hv5. split; [done|]. simpl. by rewrite alter_alter_eq. }
    pose proof (bridge_keeps_sales c _ _ _ Hs) as [_ H]. by rewrite E6 in H.
Qed.

(** Payment callbacks are not idempotent: when the callback of a purchase
    that is already completed is delivered again, another voucher with other
    credentials is issued and committed for the same payment, and the purchase
    points to the new one. *)
Theorem repeated_callback_sells_again org payload reference i q p code_draws digits w :
  good w -> webhook_outcome payload = (Some reference, Some "completed") -> reference <> "" ->
  t_purchases (w_view w) !! i = Some q -> purchase_matches org reference q = true ->
  (forall j q', t_purchases (w_view w) !! j = Some q' -> purchase_matches org reference q' = true -> j = i) ->
  pur_payment_status q = "completed" ->
  t_plans (w_view w) !! pur_plan_id q = Some p ->
  in_int4 (org_hotspot_username_counter (settings_of (w_view w) (org_id org)) + 1) = true ->
  (forall j v, t_vouchers (w_view w) !! j = Some v ->
     vch_code v <> generate_code "XXXX-XXXX-XXXX" 8 code_draws) ->
  exists w' vid, payment_webhook org payload code_draws digits w = (Ok "completed", w') /\
    t_vouchers (w_view w) !! vid = None /\
    t_vouchers (w_durable w')
      = <[vid := sold_voucher (w_now w) org q code_draws digits (w_view w)]> (t_vouchers (w_view w)) /\
    t_purchases (w_durable w') !! i = Some (sold_purchase (w_now w) vid q).
Proof.
  intros Hg Hout Href Hi Hm Huniq _ Hp Hc Hfresh.
  destruct (provision_run org i q p code_draws digits w Hg Hp Hc Hfresh) as (w' & E & HV & HP).
  exists w', (next_id (t_vouchers (w_view w))). split; [|split; [apply next_id_fresh|split; [exact HV|]]].
  - unfold payment_webhook. rewrite (mthen_ok epoch _ w (w_epoch w) w) by done. rewrite Hout.
    rewrite is_present_some by done. change (negb true) with false. cbv iota. simpl default.
    unfold find_purchase. rewrite mthen_assoc, (mthen_ok _ _ _ _ _ (query_good _ w (good_broken w Hg))).
    rewrite (select_unique (fun _ => purchase_matches org reference) _ i q Hi Hm); [|exact Huniq].
    simpl scalar_one_or_none. rewrite mthen_return. simpl bool_decide. cbv iota.
    by rewrite (mthen_ok _ _ _ _ _ E).
  - rewrite HP, lookup_alter_eq, Hi. done.
Qed.
End Exact.

(** ** Concrete runs *)
#[export] Instance sample_portal : PortalEnv := {
  backend_url := "https://isp.example/";
  access_token sub := "token-" +:+ sub;
  credential_attempt scope identifier := Ok tt
}.

Definition stock_voucher : VoucherCode :=
  mkVoucher 1 "ABCD-0123" 3 V_ACTIVE false None None (Some "C001") (Some "865") 0 None None None None None.

Definition portal_db : DB := captive_db <| t_vouchers := {[9 := stock_voucher]} |>.

Definition at_the_counter (code : string) (token : string) : VoucherRequest :=
  Redeem acme "acme" code (Some "AA:BB") None token [].

(** The first of three redemptions of a code is granted, the others are not,
    even after staff set the voucher's status back. *)
Example one_grant :
  grants [(0, [], at_the_counter " abcd-0123 " "t1"); (60, [], at_the_counter "ABCD-0123" "t2");
          (90, [], Update 9 1 (Some F_ACTIVE) None); (100, [], at_the_counter "ABCD-0123" "t3")]
    (portal_db, tt : @Dev unreachable_router) = [(1, "ABCD-0123")].
Proof. vm_compute. reflexivity. Qed.

(** A refused commit grants nothing and leaves the voucher for a retry. *)
Example refused_then_granted :
  grants [(0, [false; true], at_the_counter "ABCD-0123" "t1"); (60, [], at_the_counter "ABCD-0123" "t2")]
    (portal_db, tt : @Dev unreachable_router) = [(1, "ABCD-0123")].
Proof. vm_compute. reflexivity. Qed.

Lemma stock_redemption db :
  good (start_offline 0 db) -> t_vouchers db = {[9 := stock_voucher]} -> t_plans db = {[3 := sample_plan]} ->
  t_sessions db = ∅ ->
  redemption (start_offline 0 db) acme "acme" "abcd-0123" (Some "AA:BB") None "t1" 9 stock_voucher
    sample_plan "C001" "865".
Proof.
  intros Hg Hv Hp Hs. split; try done.
  - simpl. by rewrite Hv.
  - simpl. by rewrite Hp.
  - intros j s. simpl. by rewrite Hs, lookup_empty.
Qed.


Lemma redeem_name_clash_loses_voucher_witness :
  let db := portal_db <| t_users := t_users other_tenant_db |> in
  exists w', redeem_voucher acme "acme" "abcd-0123" (Some "AA:BB") None "t1" [] (start_offline 0 db)
      = (Raise MissingGreenlet, w') /\
    t_vouchers (w_durable w') = {[9 := consume 0 (Some "AA:BB") None stock_voucher]}.
Proof.
  set (db := portal_db <| t_users := t_users other_tenant_db |>).
  assert (Hg : good (start_offline 0 db)) by (apply good_offline; vm_compute; reflexivity).
  destruct (redeem_name_clash_loses_voucher (start_offline 0 db) acme "acme" "abcd-0123" (Some "AA:BB") None
              "t1" [] 9 stock_voucher sample_plan "C001" "865" 7 sample_router 5
              (customer_user (Some 2) "C001" "c001@hotspot.beta.local" None "Hotspot" "C001")) as (w' & E & Hv & _).
  - reflexivity.
  - by apply stock_redemption.
  - exact captive_router.
  - reflexivity.
  - reflexivity.
  - discriminate.
  - exists w'. split; [exact E|]. rewrite Hv. vm_compute. reflexivity.
Defined.

Definition completed_purchase : CustomerPurchase :=
  mkPurchase 1 (Some 9) None None "completed" (Some 0) "0700" None 3 (units 100) "KES" "treasury"
    (Some "HS-ACME-1") (Some "pi_1") None 0.

Lemma repeated_callback_sells_again_witness :
  let db := portal_db <| t_purchases := {[4 := completed_purchase]} |> in
  let draws := [0; 1; 2; 3; 4; 5; 6; 7; 8; 9; 10; 11] in
  exists w' vid, payment_webhook acme (ChargeEvent "charge.success" (Some "HS-ACME-1")) draws [1; 2; 3]
      (start_offline 0 db) = (Ok "completed", w') /\
    t_vouchers (w_durable w') !! vid = Some (sold_voucher 0 acme completed_purchase draws [1; 2; 3] db) /\
    t_vouchers (w_durable w') !! 9 = Some stock_voucher.
Proof.
  set (db := portal_db <| t_purchases := {[4 := completed_purchase]} |>).
  set (draws := [0; 1; 2; 3; 4; 5; 6; 7; 8; 9; 10; 11]).
  destruct (repeated_callback_sells_again acme (ChargeEvent "charge.success" (Some "HS-ACME-1")) "HS-ACME-1" 4
              completed_purchase sample_plan draws [1; 2; 3] (start_offline 0 db)) as (w' & vid & E & Hn & Hv & _).
  - apply good_offline. vm_compute. reflexivity.
  - reflexivity.
  - discriminate.
  - reflexivity.
  - reflexivity.
  - intros j q' Hj _. change (({[4 := completed_purchase]} : gmap Z CustomerPurchase) !! j = Some q') in Hj.
    by apply lookup_singleton_Some in Hj as [<- _].
  - reflexivity.
  - reflexivity.
  - reflexivity.
  - intros j v Hj. change (({[9 := stock_voucher]} : gmap Z VoucherCode) !! j = Some v) in Hj.
    apply lookup_singleton_Some in Hj as [_ <-]. discriminate.
  - exists w', vid. split; [exact E|]. rewrite Hv. split; [apply lookup_insert_eq|].
    rewrite lookup_insert_ne; [reflexivity|]. intros ->. discriminate.
Defined.
