(* ===== verification/GatewayFilter.v ===== *)
(** * The captive gateway filter ([app/modules/payments/gateway_filter.py])

    Which payment gateways a customer of the captive portal is offered. The
    dictionaries the filter reads come from several stores, so their values
    keep Python's dynamic types. *)

From S2P Require Import Prelude PyString.


(** A value of a gateway or configuration dictionary; a container only matters
    by its length. *)
Inductive PyValue : Type :=
  | PNone
  | PStr (s : string)
  | PBool (b : bool)
  | PNum (n : Z)
  | PContainer (length : nat).
#[export] Instance PyValue_eq_dec : EqDecision PyValue.
Proof. solve_decision. Defined.

(** A dictionary, in insertion order. *)
Abbreviation Dict := (list (string * PyValue)).

(** [d.get(key)]; keys of a dictionary are distinct. *)
Definition dict_get (d : Dict) (key : string) : PyValue :=
  default PNone (snd <$> head (filter (fun kv => bool_decide (kv.1 = key) = true) d)).

(** [bool(v)] *)
Definition truthy (v : PyValue) : bool :=
  match v with
  | PNone => false
  | PStr s => negb (bool_decide (s = ""))
  | PBool b => b
  | PNum n => negb (n =? 0)
  | PContainer n => negb (Nat.eqb n 0)
  end.

(** ** Types of gateways *)
Definition CASH_LIKE_GATEWAY_TYPES : list string :=
  ["cash"; "cash_on_delivery"; "cod"; "manual"; "offline"; "on_delivery"; "pay_on_delivery";
   "pay_later"; "bank_transfer"; "cheque"; "check"].

Definition normalize_gateway_type (gateway_type : option string) : string :=
  lower (strip (default "" gateway_type)).

Definition is_cash_like_gateway (gateway_type : option string) : bool :=
  let gt := normalize_gateway_type gateway_type in
  if bool_decide (gt = "") then false
  else if bool_decide (gt ∈ CASH_LIKE_GATEWAY_TYPES) then true
  else contains_text "cash" gt || bool_decide (gt = "cod") || ends_with "_cod" gt
       || contains_text "_cod_" gt.

(** ** Required configuration *)
Definition shortcode_aliases : list string :=
  ["shortcode"; "short_code"; "paybill"; "paybill_number"; "till"; "till_number"; "public_shortcode"].

Definition GATEWAY_REQUIRED_CONFIGS (gw_type : string) : option (list (list string)) :=
  let daraja (shortcode : list string) :=
    [shortcode; ["consumer_key"]; ["consumer_secret"]; ["passkey"; "pass_key"]] in
  let card := [["secret_key"; "paystack_secret_key"; "secret"]] in
  if bool_decide (gw_type = "mpesa") then Some (daraja shortcode_aliases)
  else if bool_decide (gw_type = "mpesa_paybill") then
    Some (daraja ["shortcode"; "short_code"; "paybill"; "paybill_number"; "public_shortcode"])
  else if bool_decide (gw_type = "mpesa_till") then
    Some (daraja ["shortcode"; "short_code"; "till"; "till_number"; "public_shortcode"])
  else if bool_decide (gw_type = "paystack") then Some card
  else if bool_decide (gw_type = "card") then Some card
  else None.

Definition _has_value (v : PyValue) : bool :=
  match v with
  | PNone => false
  | PStr s => negb (bool_decide (strip s = ""))
  | PContainer n => Nat.ltb 0 n
  | PBool _ | PNum _ => true
  end.

(** [{str(k).lower(): v for k, v in tenant_config.items()}]: of two keys that
    differ only in case the later one stays. *)
Definition lowered_get (cfg : Dict) (key : string) : PyValue :=
  default PNone (snd <$> last (filter (fun kv => bool_decide (lower kv.1 = key) = true) cfg)).

Definition _lookup (cfg : Dict) (aliases : list string) : bool :=
  match cfg with
  | [] => false
  | _ => existsb (fun alias => _has_value (lowered_get cfg (lower alias))) aliases
  end.

(** [gateway.get("gateway_type") or gateway.get("type")], then [.strip()]:
    a truthy value that is no string has no such method. *)
Definition gateway_type_of (gw : Dict) : outcome string :=
  let v := if truthy (dict_get gw "gateway_type") then dict_get gw "gateway_type" else dict_get gw "type" in
  match v with
  | PStr s => Ok (normalize_gateway_type (Some s))
  | v => if truthy v then Raise (AttributeError "strip") else Ok ""
  end.

Definition required_groups_met (gw_type : string) (cfg : Dict) : bool :=
  match GATEWAY_REQUIRED_CONFIGS gw_type with
  | None => true
  | Some groups => forallb (_lookup cfg) groups
  end.

Definition gateway_essential_configs_complete (gw : Dict) (tenant_config : option Dict) : outcome bool :=
  match gateway_type_of gw with
  | Ok gw_type => Ok (required_groups_met gw_type (default [] tenant_config))
  | Raise e => Raise e
  end.

(** ** The filter *)
Definition keep_gateway (tenant_configs : list (string * Dict)) (gw : Dict) : outcome bool :=
  match gateway_type_of gw with
  | Raise e => Raise e
  | Ok gw_type =>
      if is_cash_like_gateway (Some gw_type) then Ok false
      else if negb (_has_value (dict_get gw "is_active")) || negb (truthy (dict_get gw "is_active")) then Ok false
      else gateway_essential_configs_complete gw
             (snd <$> head (filter (fun kv => bool_decide (kv.1 = gw_type) = true) tenant_configs))
  end.

Fixpoint filter_captive_payment_gateways (gateways : list Dict) (tenant_configs : list (string * Dict))
    : outcome (list Dict) :=
  match gateways with
  | [] => Ok []
  | gw :: gateways' =>
      match keep_gateway tenant_configs gw with
      | Raise e => Raise e
      | Ok kept =>
          match filter_captive_payment_gateways gateways' tenant_configs with
          | Raise e => Raise e
          | Ok l => Ok (if kept : bool then gw :: l else l)
          end
      end
  end.

(** ** What is promised *)

(** A configuration gives a value to one of the aliases. *)
Definition provides (cfg : Dict) (aliases : list string) : Prop :=
  exists alias v, alias ∈ aliases /\ lowered_get cfg (lower alias) = v /\ _has_value v = true.

(** An online rail that is enabled and completely configured. *)
Definition offerable (tenant_configs : list (string * Dict)) (gw : Dict) : Prop :=
  exists gw_type, gateway_type_of gw = Ok gw_type /\
    (gw_type ∉ CASH_LIKE_GATEWAY_TYPES) /\
    contains_text "cash" gw_type = false /\ ends_with "_cod" gw_type = false /\
    contains_text "_cod_" gw_type = false /\
    _has_value (dict_get gw "is_active") = true /\ truthy (dict_get gw "is_active") = true /\
    (forall groups, GATEWAY_REQUIRED_CONFIGS gw_type = Some groups ->
      forall aliases, aliases ∈ groups ->
        exists cfg, (snd <$> head (filter (fun kv => bool_decide (kv.1 = gw_type) = true) tenant_configs)) = Some cfg /\
          provides cfg aliases).

Lemma lookup_provides cfg aliases : _lookup cfg aliases = true <-> provides cfg aliases.
Proof.
  unfold _lookup, provides. destruct cfg as [|kv cfg].
  - split; [done|]. intros (alias & v & _ & <- & H). done.
  - rewrite existsb_exists. split.
    + intros (alias & Hin & H). exists alias. eexists. split; [by apply list_elem_of_In|]. done.
    + intros (alias & v & Hin & <- & H). exists alias. split; [by apply list_elem_of_In|done].
Qed.

(** *** Normalisation is idempotent *)
Lemma lower_space c : is_space (ascii_shift 65 90 32 c) = is_space c.
Proof. destruct c as [[] [] [] [] [] [] [] []]; reflexivity. Qed.

Lemma lstrip_lower s : lstrip (lower s) = lower (lstrip s).
Proof.
  unfold lower. induction s as [|c s IH]; [done|]. simpl. rewrite lower_space.
  by destruct (is_space c).
Qed.

Lemma rstrip_lower s : rstrip (lower s) = lower (rstrip s).
Proof.
  unfold lower. induction s as [|c s IH]; [done|]. simpl. rewrite IH, lower_space.
  destruct (rstrip s); simpl; [by destruct (is_space c)|done].
Qed.

Lemma rstrip_idempotent s : rstrip (rstrip s) = rstrip s.
Proof.
  induction s as [|c s IH]; [done|]. simpl. destruct (rstrip s) as [|x t] eqn:E.
  - destruct (is_space c) eqn:Ec; [done|]. simpl. by rewrite Ec.
  - change (rstrip (String c (String x t)) = String c (String x t)). simpl in *. by rewrite IH.
Qed.

Lemma lstrip_idempotent s : lstrip (lstrip s) = lstrip s.
Proof. induction s as [|c s IH]; [done|]. simpl. destruct (is_space c) eqn:E; [done|]. simpl. by rewrite E. Qed.

Lemma lstrip_rstrip s : lstrip s = s -> lstrip (rstrip s) = rstrip s.
Proof.
  destruct s as [|c s]; [done|]. simpl. destruct (is_space c) eqn:E.
  - intros H. exfalso. assert (Hl : forall t, (String.length (lstrip t) <= String.length t)%nat).
    { induction t as [|x t IH]; simpl; [lia|]. destruct (is_space x); simpl; lia. }
    specialize (Hl s). rewrite H in Hl. simpl in Hl. lia.
  - intros _. destruct (rstrip s); simpl; by rewrite E.
Qed.

Lemma strip_idempotent s : strip (strip s) = strip s.
Proof.
  unfold strip. rewrite (lstrip_rstrip (lstrip s)) by apply lstrip_idempotent. apply rstrip_idempotent.
Qed.

Lemma normalize_idempotent o :
  normalize_gateway_type (Some (normalize_gateway_type o)) = normalize_gateway_type o.
Proof.
  unfold normalize_gateway_type. simpl. set (s := default "" o).
  assert (H : strip (lower (strip s)) = lower (strip s)).
  { unfold strip at 1. rewrite lstrip_lower, rstrip_lower. fold (strip (strip s)). by rewrite strip_idempotent. }
  by rewrite H, lower_idempotent.
Qed.

(** *** The filter *)
Lemma cash_like_false o : let t := normalize_gateway_type o in
  (is_cash_like_gateway (Some t) = false <->
   (t ∉ CASH_LIKE_GATEWAY_TYPES) /\ contains_text "cash" t = false /\ ends_with "_cod" t = false /\
   contains_text "_cod_" t = false).
Proof.
  intros t. unfold is_cash_like_gateway. cbv zeta.
  replace (normalize_gateway_type (Some t)) with t by (symmetry; apply normalize_idempotent).
  destruct (decide (t = "")) as [->|Hne].
  { split; [|done]. intros _. by split_all; try apply (bool_decide_eq_true_1 (_ ∉ _)). }
  rewrite bool_decide_eq_false_2 by done. case_bool_decide as Hin; [by split; [|intros [? _]]|].
  rewrite !orb_false_iff, bool_decide_eq_false. split; [tauto|]. intros (_ & H1 & H2 & H3).
  repeat split; try done. intros ->. apply Hin. by apply (bool_decide_eq_true_1 (_ ∈ _)).
Qed.

Lemma gateway_type_normalised gw t :
  gateway_type_of gw = Ok t -> exists o, t = normalize_gateway_type o.
Proof.
  unfold gateway_type_of.
  destruct (if truthy _ then _ else _) as [|s|b|n|n]; simpl.
  - intros [= <-]. by exists None.
  - intros [= <-]. by exists (Some s).
  - destruct b; [done|]. intros [= <-]. by exists None.
  - destruct (negb _); [done|]. intros [= <-]. by exists None.
  - destruct (negb _); [done|]. intros [= <-]. by exists None.
Qed.

Lemma keep_offerable cfgs gw t :
  gateway_type_of gw = Ok t ->
  exists b, keep_gateway cfgs gw = Ok b /\ (b = true <-> offerable cfgs gw).
Proof.
  intros Ht. destruct (gateway_type_normalised gw t Ht) as [o Ho]. unfold keep_gateway, offerable. rewrite Ht.
  destruct (is_cash_like_gateway (Some t)) eqn:Ec.
  { eexists. split; [reflexivity|]. split; [done|]. intros (t' & [= <-] & H1 & H2 & H3 & H4 & _).
    rewrite Ho in *. rewrite (proj2 (cash_like_false o)) in Ec by done. done. }
  rewrite Ho in Ec. apply cash_like_false in Ec. rewrite <- Ho in Ec. destruct Ec as (C1 & C2 & C3 & C4).
  destruct (_has_value (dict_get gw "is_active")) eqn:Ea; [|eexists; split; [reflexivity|];
    split; [done|intros (t' & _ & _ & _ & _ & _ & H & _); discriminate]].
  destruct (truthy (dict_get gw "is_active")) eqn:Eb; [|eexists; split; [reflexivity|];
    split; [done|intros (t' & _ & _ & _ & _ & _ & _ & H & _); discriminate]].
  simpl. unfold gateway_essential_configs_complete. rewrite Ht. eexists. split; [reflexivity|].
  set (cfg := snd <$> head _). unfold required_groups_met.
  destruct (GATEWAY_REQUIRED_CONFIGS t) as [groups|] eqn:Eg.
  - rewrite forallb_forall. split.
    + intros H. exists t. split_all; try done. intros gs Hgs aliases Hin. rewrite Eg in Hgs. injection Hgs as <-.
      apply list_elem_of_In, H, lookup_provides in Hin. fold cfg. destruct cfg as [c|]; [by exists c|].
      destruct Hin as (alias & v & _ & <- & Hv). done.
    + intros (t' & [= <-] & _ & _ & _ & _ & _ & _ & H) aliases Hin. apply lookup_provides.
      apply list_elem_of_In in Hin. destruct (H groups Eg aliases Hin) as (c & Hc & Hp). fold cfg in Hc.
      by rewrite Hc.
  - split; [|done]. intros _. exists t. split_all; try done. intros gs Hgs. congruence.
Qed.

(** The captive portal offers exactly the usable gateways: when the types
    are strings the filter returns a list, in the given order, of precisely the
    gateways whose normalised type is no cash-like rail, that are enabled, and
    whose tenant configuration has a non-blank value for every required group
    of keys. *)
Theorem captive_gateways_exact (gateways : list Dict) (tenant_configs : list (string * Dict)) :
  (forall gw, gw ∈ gateways -> exists t, gateway_type_of gw = Ok t) ->
  exists l, filter_captive_payment_gateways gateways tenant_configs = Ok l /\
    sublist l gateways /\ forall gw, gw ∈ l <-> (gw ∈ gateways) /\ offerable tenant_configs gw.
Proof.
  induction gateways as [|gw gateways IH]; intros Ht; simpl.
  - exists []. split; [done|]. split; [constructor|]. intros gw. split; [|by intros [? _]].
    by intros ?%elem_of_nil.
  - destruct (Ht gw (list_elem_of_here _ _)) as [t Hgw].
    destruct (keep_offerable tenant_configs gw t Hgw) as (b & -> & Hb).
    destruct IH as (l & -> & Hsub & Hl).
    { intros g Hg. apply Ht. by apply list_elem_of_further. }
    exists (if b then gw :: l else l). split; [by destruct b|]. split; [destruct b; by constructor|].
    intros g. rewrite elem_of_cons. destruct b.
    + rewrite elem_of_cons, Hl. split; [|tauto]. intros [->|[? ?]]; [|tauto]. split; [by left|]. by apply Hb.
    + rewrite Hl. split; [tauto|]. intros [[->|?] Ho]; [|done]. apply Hb in Ho. done.
Qed.

Lemma captive_gateways_exact_witness :
  let mpesa := [("gateway_type", PStr " MPesa "); ("is_active", PBool true)] in
  let cash := [("type", PStr "Cash_Pickup"); ("is_active", PBool true)] in
  let card := [("type", PStr "card"); ("is_active", PBool true)] in
  exists l, filter_captive_payment_gateways [mpesa; cash; card]
      [("mpesa", [("Paybill", PStr "600"); ("CONSUMER_KEY", PStr "k"); ("consumer_secret", PStr "s");
                  ("pass_key", PStr "p")]); ("card", [("secret_key", PStr " ")])] = Ok l /\
    l = [mpesa] /\ sublist l [mpesa; cash; card].
Proof.
  intros mpesa cash card.
  destruct (captive_gateways_exact [mpesa; cash; card]
    [("mpesa", [("Paybill", PStr "600"); ("CONSUMER_KEY", PStr "k"); ("consumer_secret", PStr "s");
                ("pass_key", PStr "p")]); ("card", [("secret_key", PStr " ")])]) as (l & E & Hs & _).
  - intros gw. rewrite !elem_of_cons. intros [->|[->|[->|H]]]; [by eexists..|by apply elem_of_nil in H].
  - exists l. split; [exact E|]. split; [|exact Hs].
    assert (H : Ok l = Ok [mpesa]) by (rewrite <- E; vm_compute; reflexivity). by injection H.
Defined.
