(* ===== verification/WireGuard.v ===== *)
(** * WireGuard overlay ([app/services/wireguard.py])

    Allocation of tunnel addresses, registration of the routers' public keys
    and the peer list of the server. IPv4 addresses are 32-bit integers;
    [ipaddress] is modelled for networks in prefix-length notation. *)

From S2P Require Import Prelude PyString Numerics Models Session AgentQueue.


(** ** IPv4 addresses *)
Record IPv4Network : Type := mkNet {
  network_address : Z;
  prefixlen : Z
}.

Definition octet (n k : Z) : Z := Z.land (Z.shiftr n (8 * k)) 255.

(** [str(address)] *)
Definition ip_str (n : Z) : string :=
  join "." [str_of_Z (octet n 3); str_of_Z (octet n 2); str_of_Z (octet n 1); str_of_Z (octet n 0)].

Definition starts_with_zero (s : string) : bool :=
  match s with String "0" (String _ _) => true | _ => false end.

(** An octet has one to three digits, no leading zero, and fits a byte. *)
Definition parse_octet (s : string) : option Z :=
  let n := read_digits 0 s in
  if all_digits s && negb (bool_decide (s = "")) && Nat.leb (String.length s) 3
     && negb (starts_with_zero s) && (n <=? 255)
  then Some n else None.

(** [ipaddress.ip_address(s)] *)
Definition parse_ip (s : string) : option Z :=
  match map parse_octet (split_on "."%char s) with
  | [Some a; Some b; Some c; Some d] => Some (a * 2 ^ 24 + b * 2 ^ 16 + c * 2 ^ 8 + d)
  | _ => None
  end.

Definition hostmask (prefix : Z) : Z := 2 ^ (32 - prefix) - 1.

(** [ipaddress.ip_network(s, strict=False)]: the host bits are cleared. *)
Definition parse_network (s : string) : option IPv4Network :=
  match split_on "/"%char s with
  | [a] => n ← parse_ip a; Some (mkNet n 32)
  | [a; p] =>
      n ← parse_ip a;
      let k := read_digits 0 p in
      if all_digits p && negb (bool_decide (p = "")) && (k <=? 32)
      then Some (mkNet (Z.ldiff n (hostmask k)) k) else None
  | _ => None
  end.

Definition broadcast (net : IPv4Network) : Z := network_address net + hostmask (prefixlen net).

(** [net.hosts()]: its first address and how many follow. *)
Definition first_host (net : IPv4Network) : Z :=
  if 31 <=? prefixlen net then network_address net else network_address net + 1.

Definition host_count (net : IPv4Network) : nat :=
  Z.to_nat (if 31 <=? prefixlen net then hostmask (prefixlen net) + 1 else hostmask (prefixlen net) - 1).

(** ** The service *)
Class WgConfig := {
  wg_subnet : string;
  wg_endpoint : string;
  wg_server_public_key : string
}.

(** [endpoint.rsplit(":", 1)], when there is a colon *)
Fixpoint rsplit_colon (s : string) : option (string * string) :=
  match s with
  | EmptyString => None
  | String c s' =>
      match rsplit_colon s' with
      | Some (a, b) => Some (String c a, b)
      | None => if bool_decide (c = ":"%char) then Some ("", s') else None
      end
  end.

Record Peer : Type := mkPeer {
  peer_router_id : Z;
  peer_public_key : string;
  peer_allowed_ips : string;
  peer_tunnel_ip : string;
  peer_winbox_port : option Z
}.

Section WireGuard.
Context {be : Backend} {ros : RouterOS} {wg : WgConfig}.

Definition endpoint_host : string :=
  match rsplit_colon (strip wg_endpoint) with Some (h, _) => h | None => strip wg_endpoint end.

Definition endpoint_port : Z :=
  match rsplit_colon (strip wg_endpoint) with
  | Some (_, p) => default 51820 (py_int p)
  | None => 51820
  end.

(** [self._network()]; a subnet that does not parse raises. *)
Definition _network : run IPv4Network :=
  match parse_network (strip wg_subnet) with
  | Some net => mreturn net
  | None => mraise (ValueError "does not appear to be an IPv4 or IPv6 network")
  end.

Definition server_address (net : IPv4Network) : string := ip_str (network_address net + 1).

(** The tunnel addresses of the routers, and the server's. *)
Definition assigned_addresses (db : DB) : list string :=
  omap (fun ir => match rt_vpn_address ir.2 with Some "" | None => None | Some a => Some a end)
    (scan (t_routers db)).

Definition _used_addresses (net : IPv4Network) : run (gset string) :=
  rows <- query assigned_addresses ;;
  mreturn ({[server_address net]} ∪ list_to_set rows).

(** [for host in net.hosts()] *)
Fixpoint first_free (used : gset string) (server : string) (host : Z) (left_hosts : nat) : option string :=
  match left_hosts with
  | O => None
  | S n =>
      let candidate := ip_str host in
      if bool_decide (candidate = server) then first_free used server (host + 1) n
      else if bool_decide (candidate ∈ used) then first_free used server (host + 1) n
      else Some candidate
  end.

(** [router] is the row the address is for, when there is one. *)
Definition allocate_ip (router : option Router) : run string :=
  match r ← router; rt_vpn_address r with
  | Some (String c s) => mreturn (String c s)
  | _ =>
      net <- _network ;;
      used <- _used_addresses net ;;
      match first_free used (server_address net) (first_host net) (host_count net) with
      | Some a => mreturn a
      | None => mraise (RuntimeError "No free WireGuard tunnel IP available")
      end
  end.

Definition set_router (i : Z) (f : Router -> Router) : run unit := assign (over t_routers (alter f i)).

Definition register_peer (i : Z) (r : Router) (public_key : option string) : run unit :=
  let key := strip (default "" public_key) in
  if bool_decide (key = "") then mraise (ValueError "Empty WireGuard public key")
  else
    match rt_vpn_address r with
    | Some (String _ _) => mreturn tt
    | _ =>
        a <- allocate_ip (Some r) ;;
        set_router i (fun r => r <| rt_vpn_address := Some a |>)
    end ;;;
    set_router i (fun r => r <| rt_vpn_public_key := Some key |> <| rt_vpn_enabled := true |>) ;;;
    flush.

Definition list_peers : run (list Peer) :=
  rows <- query (fun db => select (fun _ r => rt_vpn_enabled r && bool_decide (is_Some (rt_vpn_public_key r))
                                            && bool_decide (is_Some (rt_vpn_address r))) (t_routers db)) ;;
  mreturn (map (fun ir => let a := default "" (rt_vpn_address ir.2) in
             mkPeer ir.1 (default "" (rt_vpn_public_key ir.2)) (a +:+ "/32") a (rt_winbox_port ir.2)) rows).

(** The address is reserved when the client configuration is handed out
    ([bootstrap.py], [network/routers.py]). *)
Definition reserve_tunnel_ip (i : Z) (r : Router) : run string :=
  tunnel_ip <- allocate_ip (Some r) ;;
  set_router i (fun r => r <| rt_vpn_address := Some tunnel_ip |>) ;;;
  commit ;;;
  mreturn tunnel_ip.

(** [POST /bootstrap/wg-register] after the token and the body were read:
    [form_key] and [query_key] are the two places of the public key. *)
Definition router_by (p : Router -> bool) : run (option (Z * Router)) :=
  rows <- query (fun db => select (fun _ r => p r) (t_routers db)) ;;
  scalar_one_or_none rows.

Definition bootstrap_wg_register (form_key query_key : string) (identity client : option string)
    : run (Z * option string) :=
  let public_key := if bool_decide (strip form_key = "") then strip query_key else strip form_key in
  if bool_decide (public_key = "") then mraise (HTTPException 400 "Missing public_key")
  else
    by_name <- match identity with
               | Some (String c s) => router_by (fun r => bool_decide (rt_name r = String c s))
               | _ => mreturn None
               end ;;
    router_obj <- match by_name, client with
                  | None, Some host => router_by (fun r => bool_decide (rt_ip_address r = host))
                  | o, _ => mreturn o
                  end ;;
    match router_obj with
    | None => mraise (HTTPException 404 "Router not found")
    | Some (i, r) =>
        mtry (
          register_peer i r (Some public_key) ;;;
          commit ;;;
          query (fun db => (i, t_routers db !! i ≫= rt_vpn_address)))
        (fun _ =>
          rollback ;;;
          mraise (HTTPException 500 "Failed to register WireGuard peer"))
    end.
End WireGuard.

(** ** Addresses are printed injectively *)
Lemma octet_mod n k : octet n k = Z.shiftr n (8 * k) mod 256.
Proof. unfold octet. change 255 with (Z.ones 8). by rewrite Z.land_ones. Qed.

Lemma octet_bounds n k : 0 <= octet n k <= 255.
Proof. rewrite octet_mod. pose proof (Z.mod_pos_bound (Z.shiftr n (8 * k)) 256 ltac:(lia)). lia. Qed.

Lemma octets_value n : 0 <= n < 2 ^ 32 ->
  n = octet n 3 * 2 ^ 24 + octet n 2 * 2 ^ 16 + octet n 1 * 2 ^ 8 + octet n 0.
Proof.
  intros Hn. rewrite !octet_mod, !Z.shiftr_div_pow2 by lia.
  change (2 ^ (8 * 3)) with 16777216. change (2 ^ (8 * 2)) with 65536. change (2 ^ (8 * 1)) with 256.
  change (2 ^ (8 * 0)) with 1. change (2 ^ 24) with 16777216. change (2 ^ 16) with 65536. change (2 ^ 8) with 256.
  change (2 ^ 32) with 4294967296 in Hn. rewrite Z.div_1_r.
  replace (n / 16777216) with (n / 256 / 256 / 256) by (rewrite !Z.div_div by lia; done).
  replace (n / 65536) with (n / 256 / 256) by (rewrite !Z.div_div by lia; done).
  assert (Hc : 0 <= n / 256 / 256 / 256 < 256).
  { rewrite !Z.div_div by lia. split; [apply Z.div_pos; lia|apply Z.div_lt_upper_bound; lia]. }
  rewrite (Z.mod_small (n / 256 / 256 / 256)) by lia.
  pose proof (Z.div_mod n 256 ltac:(done)) as E0. pose proof (Z.div_mod (n / 256) 256 ltac:(done)) as E1.
  pose proof (Z.div_mod (n / 256 / 256) 256 ltac:(done)) as E2. clear Hn Hc.
  revert E0 E1 E2. generalize (n / 256 / 256 / 256), ((n / 256 / 256) mod 256), ((n / 256) mod 256), (n mod 256).
  generalize (n / 256 / 256), (n / 256). clear. intros. lia.
Qed.

Lemma str_of_Z_inj m n : 0 <= m -> 0 <= n -> str_of_Z m = str_of_Z n -> m = n.
Proof.
  intros Hm Hn H. destruct (str_of_Z_digits m Hm) as (_ & <- & _), (str_of_Z_digits n Hn) as (_ & <- & _).
  by rewrite H.
Qed.

Definition octet_strings (n : Z) : list string :=
  [str_of_Z (octet n 3); str_of_Z (octet n 2); str_of_Z (octet n 1); str_of_Z (octet n 0)].

Lemma split_ip n : split_on "."%char (ip_str n) = octet_strings n.
Proof.
  unfold ip_str. apply split_join; [done|]. repeat constructor; apply str_of_Z_no_char; try done;
    apply octet_bounds.
Qed.

Lemma ip_str_inj m n : 0 <= m < 2 ^ 32 -> 0 <= n < 2 ^ 32 -> ip_str m = ip_str n -> m = n.
Proof.
  intros Hm Hn H. pose proof (split_ip m) as E. rewrite H, split_ip in E. unfold octet_strings in E.
  assert (F : forall k, In k [3; 2; 1; 0] -> octet n k = octet m k).
  { intros k Hk. apply str_of_Z_inj; [apply octet_bounds..|].
    pose proof (f_equal (fun l => nth 0 l "") E). pose proof (f_equal (fun l => nth 1 l "") E).
    pose proof (f_equal (fun l => nth 2 l "") E). pose proof (f_equal (fun l => nth 3 l "") E).
    cbn [nth] in *. cbn [In] in Hk. destruct Hk as [<-|[<-|[<-|[<-|[]]]]]; assumption. }
  rewrite (octets_value m Hm), (octets_value n Hn), !F by (cbn [In]; tauto). done.
Qed.

(** The printed form parses back. *)
Lemma parse_octet_str n : 0 <= n <= 255 -> parse_octet (str_of_Z n) = Some n.
Proof.
  intros Hn. assert (Hall : forallb (fun k => bool_decide (parse_octet (str_of_Z (Z.of_nat k)) = Some (Z.of_nat k)))
    (seq 0 256) = true) by (vm_compute; reflexivity).
  rewrite forallb_forall in Hall. specialize (Hall (Z.to_nat n)). rewrite Z2Nat.id in Hall by lia.
  apply (bool_decide_eq_true_1 _), Hall. apply in_seq. lia.
Qed.

Lemma parse_ip_str n : 0 <= n < 2 ^ 32 -> parse_ip (ip_str n) = Some n.
Proof.
  intros Hn. unfold parse_ip. rewrite split_ip. unfold octet_strings. cbn [map].
  rewrite !parse_octet_str by apply octet_bounds. rewrite <-(octets_value n Hn). reflexivity.
Qed.

(** ** Networks *)
Lemma read_digits_nonneg s : forall acc, 0 <= acc -> 0 <= read_digits acc s.
Proof.
  induction s as [|c s IH]; intros acc Ha; [done|]. simpl. apply IH.
  assert (0 <= default 0 (digit_value c)); [|lia]. unfold digit_value.
  case_match eqn:E; simpl; [|lia]. apply andb_true_iff in E as [E%Z.leb_le _]. lia.
Qed.

Lemma parse_octet_bounds s n : parse_octet s = Some n -> 0 <= n <= 255.
Proof.
  unfold parse_octet. case_match eqn:E; [|done]. intros [= <-].
  rewrite !andb_true_iff in E. destruct E as [_ E%Z.leb_le]. split; [by apply read_digits_nonneg|done].
Qed.

Lemma parse_ip_bounds s n : parse_ip s = Some n -> 0 <= n < 2 ^ 32.
Proof.
  unfold parse_ip. destruct (map parse_octet _) as [|[a|] [|[b|] [|[c|] [|[d|] [|? ?]]]]] eqn:E; try done.
  assert (H : forall x, In (Some x) [Some a; Some b; Some c; Some d] -> 0 <= x <= 255).
  { intros x. rewrite <- E, in_map_iff. intros (y & Hy & _). by apply parse_octet_bounds in Hy. }
  intros [= <-]. pose proof (H a ltac:(by left)). pose proof (H b ltac:(by right; left)).
  pose proof (H c ltac:(by right; right; left)). pose proof (H d ltac:(by right; right; right; left)).
  change (2 ^ 24) with 16777216. change (2 ^ 16) with 65536. change (2 ^ 8) with 256.
  change (2 ^ 32) with 4294967296. lia.
Qed.

(** A network that parses lies within the 32-bit addresses. *)
Lemma parse_network_ok s net :
  parse_network s = Some net ->
  0 <= prefixlen net <= 32 /\ 0 <= network_address net /\ broadcast net < 2 ^ 32.
Proof.
  unfold parse_network, broadcast. destruct (split_on _ s) as [|a [|p [|? ?]]]; try done.
  - destruct (parse_ip a) as [n|] eqn:E; [|done]. intros [= <-]. apply parse_ip_bounds in E.
    cbn [network_address prefixlen]. change (hostmask 32) with 0. rewrite Z.add_0_r. lia.
  - destruct (parse_ip a) as [n|] eqn:E; [|done]. apply parse_ip_bounds in E. simpl.
    case_match eqn:Hp; [|done]. intros [= <-]. cbn [network_address prefixlen].
    rewrite !andb_true_iff in Hp. destruct Hp as [_ Hk%Z.leb_le].
    pose proof (read_digits_nonneg p 0 ltac:(done)) as H0. revert H0 Hk. generalize (read_digits 0 p). intros k H0 Hk.
    assert (Hm : hostmask k = Z.ones (32 - k)) by (unfold hostmask; rewrite Z.ones_equiv; lia).
    rewrite Hm, Z.ldiff_ones_r, Z.shiftr_div_pow2, Z.shiftl_mul_pow2, Z.ones_equiv by lia.
    assert (Hs : 2 ^ 32 = 2 ^ k * 2 ^ (32 - k)) by (rewrite <- Z.pow_add_r by lia; f_equal; lia).
    assert (Hpos : 0 < 2 ^ (32 - k)) by lia.
    assert (n / 2 ^ (32 - k) < 2 ^ k) by (apply Z.div_lt_upper_bound; [done|lia]).
    assert (0 <= n / 2 ^ (32 - k)) by (apply Z.div_pos; lia).
    rewrite Hs. clear -H H1 Hpos H0 Hk.
    revert H H1 Hpos. generalize (n / 2 ^ (32 - k)), (2 ^ k), (2 ^ (32 - k)). intros q x y ???.
    split; [lia|]. split; [nia|]. nia.
Qed.

(** The addresses a router may get: the hosts of the subnet but the server's. *)
Definition is_tunnel_host (net : IPv4Network) (h : Z) : Prop :=
  network_address net + 1 < h < broadcast net.

Lemma first_free_spec used server : forall n host,
  match first_free used server host n with
  | Some a => exists h, host <= h < host + Z.of_nat n /\ a = ip_str h /\ a <> server /\ (a ∉ used) /\
      forall h', host <= h' < h -> ip_str h' = server \/ ip_str h' ∈ used
  | None => forall h, host <= h < host + Z.of_nat n -> ip_str h = server \/ ip_str h ∈ used
  end.
Proof.
  induction n as [|n IH]; intros host; cbn [first_free]; [intros h Hh; lia|].
  specialize (IH (host + 1)).
  assert (Hskip : (ip_str host = server \/ ip_str host ∈ used) ->
    match first_free used server (host + 1) n with
    | Some a => exists h, host <= h < host + Z.of_nat (S n) /\ a = ip_str h /\ a <> server /\ (a ∉ used) /\
        forall h', host <= h' < h -> ip_str h' = server \/ ip_str h' ∈ used
    | None => forall h, host <= h < host + Z.of_nat (S n) -> ip_str h = server \/ ip_str h ∈ used
    end).
  { intros Hs. destruct (first_free used server (host + 1) n) as [a|].
    - destruct IH as (h & Hh & Ha & Hn & Hu & Hl). exists h. split; [lia|]. split; [done|]. split; [done|].
      split; [done|]. intros h' Hh'. destruct (Z.eq_dec h' host) as [->|]; [done|]. apply Hl. lia.
    - intros h Hh. destruct (Z.eq_dec h host) as [->|]; [done|]. apply IH. lia. }
  case_bool_decide as H1; [by apply Hskip; left|].
  case_bool_decide as H2; [by apply Hskip; right|].
  exists host. split; [lia|]. split; [done|]. split; [done|]. split; [done|]. intros h' Hh'. lia.
Qed.

(** ** Allocation *)
Section Allocation.
Context {be : Backend} {ros : RouterOS} {wg : WgConfig}.
Variable net : IPv4Network.
Hypothesis Hnet : parse_network (strip wg_subnet) = Some net.
Hypothesis Hsize : prefixlen net <= 30.

Lemma host_range :
  first_host net = network_address net + 1 /\
  Z.of_nat (host_count net) = broadcast net - network_address net - 1 /\
  0 <= network_address net /\ broadcast net < 2 ^ 32 /\ 3 <= broadcast net - network_address net.
Proof.
  pose proof (parse_network_ok _ _ Hnet) as (Hp & H0 & Hb). unfold first_host, host_count, broadcast in *.
  rewrite (proj2 (Z.leb_gt 31 (prefixlen net))) by lia.
  assert (H4 : 2 ^ 2 <= 2 ^ (32 - prefixlen net)) by (apply Z.pow_le_mono_r; lia).
  change (2 ^ 2) with 4 in H4. unfold hostmask in *. lia.
Qed.

Lemma host_inj h h' :
  network_address net <= h <= broadcast net -> network_address net <= h' <= broadcast net ->
  ip_str h = ip_str h' -> h = h'.
Proof.
  destruct host_range as (_ & _ & H0 & Hb & _). intros ? ?. apply ip_str_inj; lia.
Qed.

(** [a] is taken in [db] when a router has it. *)
Lemma assigned_elem db a :
  a ∈ assigned_addresses db <->
  a <> "" /\ exists i r, t_routers db !! i = Some r /\ rt_vpn_address r = Some a.
Proof.
  unfold assigned_addresses. rewrite list_elem_of_omap. split.
  - intros ([i r] & Hin & Ha). rewrite scan_perm, elem_of_map_to_list in Hin. simpl in Ha.
    destruct (rt_vpn_address r) as [[|c s]|] eqn:E; simplify_eq. split; [done|by exists i, r].
  - intros (Hne & i & r & Hi & Ha). exists (i, r). split.
    + by rewrite scan_perm, elem_of_map_to_list.
    + simpl. rewrite Ha. by destruct a.
Qed.

Definition taken (db : DB) : gset string := {[server_address net]} ∪ list_to_set (assigned_addresses db).

Lemma allocate_run r w :
  w_broken w = false -> (match r with Some r => default "" (rt_vpn_address r) | None => "" end) = "" ->
  allocate_ip r w =
    (match first_free (taken (w_view w)) (server_address net) (first_host net) (host_count net) with
     | Some a => Ok a | None => Raise (RuntimeError "No free WireGuard tunnel IP available") end, w).
Proof.
  intros Hb Hr. unfold allocate_ip.
  assert (E : forall A (x : string -> A) y, match r ≫= rt_vpn_address with Some (String c s) => x (String c s) | _ => y end = y).
  { intros A x y. destruct r as [r|]; simpl in *; [|done]. by destruct (rt_vpn_address r) as [[|? ?]|]. }
  rewrite E. unfold _network. rewrite Hnet, mthen_return.
  unfold _used_addresses. rewrite mthen_assoc, (mthen_ok _ _ _ _ _ (query_good _ w Hb)), mthen_return.
  unfold taken. by destruct (first_free _ _ _ _).
Qed.

(** The subnet is exhausted: every host but the server's is some router's. *)
Definition exhausted (db : DB) : Prop :=
  forall h, is_tunnel_host net h -> ip_str h ∈ assigned_addresses db.

Lemma taken_elem db a : a ∈ taken db <-> a = server_address net \/ a ∈ assigned_addresses db.
Proof. unfold taken. by rewrite elem_of_union, elem_of_singleton, elem_of_list_to_set. Qed.

Lemma taken_host db h :
  is_tunnel_host net h -> ip_str h = server_address net \/ ip_str h ∈ taken db ->
  ip_str h ∈ assigned_addresses db.
Proof.
  intros Hh H. assert (Hne : ip_str h <> server_address net).
  { intros E. destruct host_range as (_ & _ & _ & _ & H3). unfold is_tunnel_host in Hh.
    assert (h = network_address net + 1); [|lia]. apply host_inj; [lia..|done]. }
  rewrite taken_elem in H. tauto.
Qed.

Lemma free_cases db :
  match first_free (taken db) (server_address net) (first_host net) (host_count net) with
  | Some a => exists h, a = ip_str h /\ is_tunnel_host net h /\ (ip_str h ∉ assigned_addresses db) /\
      forall h', network_address net + 1 < h' < h -> ip_str h' ∈ assigned_addresses db
  | None => exhausted db
  end.
Proof.
  destruct host_range as (Hf & Hn & H0 & Hmax & H3).
  pose proof (first_free_spec (taken db) (server_address net) (host_count net) (first_host net)) as H.
  rewrite Hf in *. destruct (first_free _ _ _ _) as [a|].
  - destruct H as (h & Hh & -> & Hs & Hu & Hl). exists h. split; [done|].
    assert (Hne : h <> network_address net + 1) by (intros ->; done).
    assert (Ht : is_tunnel_host net h) by (unfold is_tunnel_host; lia).
    split; [done|]. rewrite taken_elem in Hu. split; [tauto|].
    intros h' Hh'. apply taken_host; [|apply Hl; lia]. unfold is_tunnel_host in *. lia.
  - intros h Hh. apply taken_host; [done|]. apply H. unfold is_tunnel_host in Hh. lia.
Qed.

(** [allocate_ip] for a router that has no tunnel address yet returns the
    lowest host of the subnet after the server's that no router has, without
    touching the tables; it raises [RuntimeError] exactly when every such host
    is taken. *)
Theorem allocate_lowest_free r w :
  w_broken w = false -> rt_vpn_address r = None \/ rt_vpn_address r = Some "" ->
  (exists h, allocate_ip (Some r) w = (Ok (ip_str h), w) /\ is_tunnel_host net h /\
     (ip_str h ∉ assigned_addresses (w_view w)) /\
     forall h', network_address net + 1 < h' < h -> ip_str h' ∈ assigned_addresses (w_view w))
  \/ (allocate_ip (Some r) w = (Raise (RuntimeError "No free WireGuard tunnel IP available"), w) /\
      exhausted (w_view w)).
Proof.
  intros Hb Hr. rewrite allocate_run by (done || by destruct Hr as [-> | ->]).
  pose proof (free_cases (w_view w)) as H. destruct (first_free _ _ _ _) as [a|]; [left|by right].
  destruct H as (h & -> & H). by exists h.
Qed.

Lemma exhausted_count db :
  exhausted db -> broadcast net - network_address net - 2 <= Z.of_nat (length (assigned_addresses db)).
Proof.
  intros He. destruct host_range as (Hf & Hn & H0 & Hmax & H3).
  set (l := map (fun k => ip_str (network_address net + 2 + Z.of_nat k)) (seq 0 (host_count net - 1))).
  assert (Hnd : NoDup l).
  { apply NoDup_alt. intros i j x. unfold l. rewrite !list_lookup_fmap.
    destruct (seq 0 _ !! i) as [a|] eqn:Ea, (seq 0 _ !! j) as [b|] eqn:Eb; try done.
    apply lookup_seq in Ea as [-> Ha], Eb as [-> Hb]. simpl. intros [= <-] [= E].
    apply host_inj in E; lia. }
  assert (Hin : forall x, x ∈ l -> x ∈ assigned_addresses db).
  { intros x. unfold l. rewrite list_elem_of_fmap. intros (k & -> & Hk). apply He.
    apply elem_of_seq in Hk. unfold is_tunnel_host. lia. }
  pose proof (NoDup_incl_length (l := l) (l' := assigned_addresses db)) as Hlen.
  assert (Hl : length l = (host_count net - 1)%nat) by (unfold l; by rewrite length_map, length_seq).
  rewrite Hl in Hlen. enough (host_count net - 1 <= length (assigned_addresses db))%nat by lia.
  apply Hlen; [by apply NoDup_ListNoDup|]. intros x Hx. apply list_elem_of_In, Hin, list_elem_of_In, Hx.
Qed.

(** The allocator does not give up early: while fewer routers hold a
    tunnel address than the subnet has hosts besides the server, the next
    router without one gets an address. *)
Theorem allocate_succeeds r w :
  w_broken w = false -> rt_vpn_address r = None \/ rt_vpn_address r = Some "" ->
  Z.of_nat (length (assigned_addresses (w_view w))) < broadcast net - network_address net - 2 ->
  exists a, allocate_ip (Some r) w = (Ok a, w) /\ a ∉ assigned_addresses (w_view w).
Proof.
  intros Hb Hr Hlt. rewrite allocate_run by (done || by destruct Hr as [-> | ->]).
  pose proof (free_cases (w_view w)) as H. destruct (first_free _ _ _ _) as [a|].
  - destruct H as (h & -> & _ & Hu & _). by exists (ip_str h).
  - apply exhausted_count in H. lia.
Qed.

(** ** Enrolment keeps the overlay free of conflicts *)

(** Every tunnel address a router holds is a host of the subnet and not the
    server's. *)
Definition pool_ok (db : DB) : Prop :=
  forall i r a, t_routers db !! i = Some r -> rt_vpn_address r = Some a ->
    exists h, is_tunnel_host net h /\ a = ip_str h.

Definition pool_inv (w : World) : Prop := durable_ok w /\ db_inv pool_ok w.

Lemma pool_query {A} (f : DB -> A) : preserves pool_inv (query f).
Proof. intros w [H1 H2]. split; [by apply durable_query|by apply preserves_query]. Qed.

Lemma pool_flush : preserves pool_inv flush.
Proof. intros w [H1 H2]. split; [by apply durable_flush|by apply preserves_flush]. Qed.

Lemma pool_commit : preserves pool_inv commit.
Proof. intros w [H1 H2]. split; [by apply durable_commit|by apply preserves_commit]. Qed.

Lemma pool_rollback : preserves pool_inv rollback.
Proof. intros w [H1 H2]. split; [by apply durable_rollback|by apply preserves_rollback]. Qed.

Lemma pool_scalar {A} (l : list A) : preserves pool_inv (scalar_one_or_none l).
Proof. intros w Hw. by destruct l as [|x [|y l]]. Qed.

(** A row keeps its address or gets one of the pool. *)
Lemma pool_set_router i f :
  (forall r, rt_vpn_address (f r) = rt_vpn_address r \/
     exists h, is_tunnel_host net h /\ rt_vpn_address (f r) = Some (ip_str h)) ->
  preserves pool_inv (set_router i f).
Proof.
  intros Hf w [H1 H2]. split; [by apply durable_assign|]. apply preserves_assign; [|done].
  intros db Hdb j r a. simpl. rewrite lookup_alter_Some.
  intros [(-> & r0 & Hr & ->)|[_ Hr]] Ha; [|by apply (Hdb j r)].
  destruct (Hf r0) as [E|(h & Hh & E)]; rewrite E in Ha.
  - by apply (Hdb j r0).
  - exists h. split; [done|congruence].
Qed.

(** The allocator leaves the world alone and answers a router without address
    with a host of the subnet or an exception. *)
Lemma allocate_total r w :
  default "" (rt_vpn_address r) = "" ->
  (exists h, is_tunnel_host net h /\ allocate_ip (Some r) w = (Ok (ip_str h), w)) \/
  exists e, allocate_ip (Some r) w = (Raise e, w).
Proof.
  intros Hr. destruct (w_broken w) eqn:Hb.
  - right. exists PendingRollbackError. unfold allocate_ip, _network, _used_addresses. simpl. rewrite Hnet.
    assert (E : query assigned_addresses w = (Raise PendingRollbackError, w)) by (unfold query; by rewrite Hb).
    destruct (rt_vpn_address r) as [[|? ?]|]; [|done|]; unfold mthen, mreturn; by rewrite E.
  - rewrite (allocate_run (Some r) _ Hb Hr). pose proof (free_cases (w_view w)) as Hc.
    destruct (first_free _ _ _ _) as [b|]; [left|right; by eexists].
    destruct Hc as (h & -> & Hh & _). by exists h.
Qed.

Lemma pool_allocate_then {A} r (k : string -> run A) :
  (forall a, rt_vpn_address r = Some a -> a <> "" -> exists h, is_tunnel_host net h /\ a = ip_str h) ->
  (forall h, is_tunnel_host net h -> preserves pool_inv (k (ip_str h))) ->
  preserves pool_inv (mthen (allocate_ip (Some r)) k).
Proof.
  intros Hr Hk w Hw. destruct (rt_vpn_address r) as [[|c s]|] eqn:E.
  2:{ destruct (Hr _ eq_refl ltac:(done)) as (h & Hh & Ea).
      rewrite (mthen_ok (allocate_ip (Some r)) k w (ip_str h) w); [by apply (Hk h Hh)|].
      unfold allocate_ip. simpl. by rewrite E, Ea. }
  all: destruct (allocate_total r w) as [(h & Hh & Ha)|(e & Ha)]; [by rewrite E| |].
  all: try (rewrite (mthen_ok _ _ _ _ _ Ha); by apply (Hk h Hh)).
  all: by rewrite (mthen_raise _ _ _ _ _ Ha).
Qed.

Ltac pool_step :=
  first [ apply preserves_return | apply preserves_raise | apply pool_query | apply pool_flush
        | apply pool_commit | apply pool_rollback | apply pool_scalar
        | apply preserves_try; [|intros ?] | apply preserves_attempt
        | apply preserves_then; [|intros ?]
        | match goal with |- preserves _ (match ?x with _ => _ end) => destruct x eqn:? end ].

Lemma pool_register_peer i r key : preserves pool_inv (register_peer i r key).
Proof.
  unfold register_peer. case_bool_decide; [apply preserves_raise|].
  assert (Hk : preserves pool_inv (set_router i (fun r => r <| rt_vpn_public_key := Some (strip (default "" key)) |>
            <| rt_vpn_enabled := true |>) ;;; flush)).
  { apply preserves_then; [|intros _; apply pool_flush]. apply pool_set_router. intros r0. by left. }
  apply preserves_then; [|intros _; exact Hk].
  destruct (rt_vpn_address r) as [[|c s]|] eqn:Er; [|apply preserves_return|];
    (apply pool_allocate_then; [by rewrite Er; intros a [= <-]|]; intros h Hh;
     apply pool_set_router; intros r0; right; by exists h).
Qed.

(** One request in a session of its own. *)
Inductive Enrolment : Type :=
  | Reserve (router_id : Z)
  | Register (form_key query_key : string) (identity client : option string).

Definition enrol (e : Enrolment) : run unit :=
  match e with
  | Reserve i =>
      row <- query (fun db => t_routers db !! i) ;;
      match row with
      | Some r => reserve_tunnel_ip i r ;;; mreturn tt
      | None => mraise (HTTPException 404 "Router not found")
      end
  | Register f q identity client => bootstrap_wg_register f q identity client ;;; mreturn tt
  end.

Definition enrol_all (l : list Enrolment) : run unit :=
  mfold (fun _ e => mattempt (enrol e) ;;; rollback) tt l.

Lemma pool_enrol e : preserves pool_inv (enrol e).
Proof.
  destruct e as [i|f q identity client]; simpl.
  - intros w Hw. unfold query, mthen. destruct (w_broken w); [done|].
    destruct (t_routers (w_view w) !! i) as [r|] eqn:Hr; [|done].
    assert (H : preserves pool_inv (reserve_tunnel_ip i r ;;; mreturn tt)); [|exact (H w Hw)].
    apply preserves_then; [|intros _; apply preserves_return]. apply pool_allocate_then.
    + intros a Ha _. destruct Hw as [_ [Hv _]]. by apply (Hv i r).
    + intros h Hh. apply preserves_then; [|intros _; repeat pool_step].
      apply pool_set_router. intros r0. right. by exists h.
  - assert (Hby : forall p, preserves pool_inv (router_by p)) by (intros p; unfold router_by; repeat pool_step).
    apply preserves_then; [|intros ?; apply preserves_return]. unfold bootstrap_wg_register.
    case_bool_decide; [apply preserves_raise|].
    apply preserves_then; [destruct identity as [[|? ?]|]; [apply preserves_return|apply Hby|apply preserves_return]|].
    intros o. apply preserves_then; [destruct o, client; try apply preserves_return; apply Hby|].
    intros [[i r]|]; [|apply preserves_raise]. apply preserves_try; [|intros ?; repeat pool_step].
    apply preserves_then; [apply pool_register_peer|intros _]. repeat pool_step.
Qed.

Lemma pool_enrol_all l : preserves pool_inv (enrol_all l).
Proof.
  apply preserves_fold. intros _ e. apply preserves_then; [|intros _; apply pool_rollback].
  apply preserves_attempt, pool_enrol.
Qed.

Lemma enrol_all_never_raises l : never_raises (enrol_all l).
Proof.
  apply never_raises_fold. intros _ e. apply never_raises_then; [apply never_raises_attempt|].
  intros _ w. by do 2 eexists.
Qed.

Lemma allowed_ips_nodup (rows : list (Z * Router)) (f : Router -> string) :
  NoDup (map fst rows) ->
  (forall i r j r', (i, r) ∈ rows -> (j, r') ∈ rows -> f r = f r' -> i = j) ->
  NoDup (map (fun ir => f ir.2) rows).
Proof.
  induction rows as [|[i r] rows IH]; simpl; intros Hnd Hr; [constructor|].
  apply NoDup_cons in Hnd as [Hni Hnd]. apply NoDup_cons. split.
  - intros ([j r'] & E & Hj)%list_elem_of_fmap. simpl in E.
    assert (i = j) as <-.
    { apply (Hr i r j r'); [apply list_elem_of_here|by apply list_elem_of_further|done]. }
    destruct Hni. apply list_elem_of_fmap. by exists (i, r').
  - apply IH; [done|]. intros j r' k r'' Hj Hk. apply Hr; by apply list_elem_of_further.
Qed.

(** C35. Enrolment never gives two routers one address. From committed tables
    that satisfy the schema and whose tunnel addresses lie in the subnet, after
    any sequence of reservations and of [wg-register] callbacks, whatever the
    server refuses, the peer list handed to the tunnel server has pairwise
    distinct [allowed_ips], and each peer's address is a host of the subnet
    other than the server's. *)
Theorem peer_list_conflict_free l w :
  durable_ok w -> pool_ok (w_view w) -> pool_ok (w_durable w) ->
  exists peers w', (enrol_all l ;;; rollback ;;; list_peers) w = (Ok peers, w') /\
    NoDup (map peer_allowed_ips peers) /\
    Forall (fun p => exists h, is_tunnel_host net h /\ peer_tunnel_ip p = ip_str h /\
      peer_allowed_ips p = ip_str h +:+ "/32") peers.
Proof.
  intros Hd Hv Hdp. destruct (enrol_all_never_raises l w) as ([] & w1 & E1).
  assert (Hp : pool_inv w1).
  { pose proof (pool_enrol_all l w (conj Hd (conj Hv Hdp))) as H. by rewrite E1 in H. }
  destruct Hp as (Hs & _ & Hpool). unfold durable_ok in Hs.
  rewrite (mthen_ok _ _ _ _ _ E1). set (w2 := w1 <| w_view := w_durable w1 |> <| w_broken := false |> <| w_loaded := ∅ |> <| w_epoch ::= S |>).
  rewrite (mthen_ok rollback _ w1 tt w2) by done.
  unfold list_peers. rewrite (mthen_ok _ _ _ _ _ (query_good _ w2 eq_refl)).
  change (w_view w2) with (w_durable w1).
  set (rows := select _ _).
  assert (Hrow : forall i r, (i, r) ∈ rows -> t_routers (w_durable w1) !! i = Some r /\
    exists a, rt_vpn_address r = Some a).
  { intros i r [Hi Hr]%elem_of_select. split; [done|]. apply andb_true_iff in Hr as [_ Hr].
    apply bool_decide_eq_true_1 in Hr as [a Ha]. by exists a. }
  do 2 eexists. split; [reflexivity|]. rewrite map_map. simpl. split.
  - apply (allowed_ips_nodup rows (fun r => default "" (rt_vpn_address r) +:+ "/32"));
      [apply select_keys_nodup|].
    intros i r j r' (Hi & a & Ha)%Hrow (Hj & a' & Ha')%Hrow Eq%string_app_inj_r.
    rewrite Ha, Ha' in Eq. simpl in Eq. subst a'.
    destruct Hs as (_ & _ & _ & _ & _ & _ & _ & _ & _ & _ & Hu & _).
    refine (Hu i (router_keys r) _ j (router_keys r') _ _ _).
    + by rewrite lookup_fmap, Hi.
    + by rewrite lookup_fmap, Hj.
    + simpl. by rewrite Ha.
    + simpl. congruence.
  - apply Forall_fmap, Forall_forall. intros [i r] (Hi & a & Ha)%Hrow. simpl. rewrite Ha. simpl.
    destruct (Hpool i r a Hi Ha) as (h & Hh & ->). by exists h.
Qed.

(** Giving a router a tunnel address that no router has. *)
Lemma good_give_address i r a f w :
  good w -> t_routers (w_view w) !! i = Some r -> a ∉ assigned_addresses (w_view w) -> a <> "" ->
  rt_vpn_address (f r) = Some a -> rt_winbox_port (f r) = rt_winbox_port r ->
  good (w <| w_view ::= over t_routers (insert i (f r)) |>).
Proof.
  intros Hg Hi Ha Hne Hf Hw. apply good_portal; [done..|]. unfold portal_ok, portal_tables. simpl.
  intros (H1 & H2 & H3 & H4 & H5 & H6 & H7 & H8 & H9). repeat (split; [done|]).
  rewrite fmap_insert. split; [|split; [|done]].
  - apply unique_opt_insert; [done|]. intros j y. rewrite lookup_fmap_Some. simpl.
    intros (r' & <- & Hj) _. simpl. rewrite Hf. intros E. destruct Ha. apply assigned_elem.
    split; [done|]. by exists j, r'.
  - intros j y Hj k z Hk Hs E.
    assert (Hport : forall j y, <[i := router_keys (f r)]> (router_keys <$> t_routers (w_view w)) !! j = Some y ->
      exists y', (router_keys <$> t_routers (w_view w)) !! j = Some y' /\ snd y' = snd y).
    { intros j' y'. rewrite lookup_insert_Some. intros [[<- <-]|[_ Hj']]; [|by exists y'].
      exists (router_keys r). rewrite lookup_fmap, Hi. split; [done|]. simpl. by rewrite Hw. }
    destruct (Hport _ _ Hj) as (y' & Hj' & Ey), (Hport _ _ Hk) as (z' & Hk' & Ez).
    apply (H8 _ _ Hj' _ _ Hk'); congruence.
Qed.

Lemma ip_str_nonempty h : ip_str h <> "".
Proof.
  intros E. pose proof (split_ip h) as H. rewrite E in H. unfold octet_strings in H.
  apply (f_equal length) in H. done.
Qed.

(** Registering the public key of a router that has no tunnel address:
    with room in the subnet the router gets the lowest free host, its trimmed
    key and the enabled flag, no other row changes, and the tables still
    satisfy the uniqueness constraints of the schema, so that the commit that
    follows is accepted and what it makes durable is exactly that. *)
Theorem register_peer_exact i r key w :
  good w -> t_routers (w_view w) !! i = Some r -> rt_vpn_address r = None -> strip key <> "" ->
  Z.of_nat (length (assigned_addresses (w_view w))) < broadcast net - network_address net - 2 ->
  exists h w', is_tunnel_host net h /\ (ip_str h ∉ assigned_addresses (w_view w)) /\
    (forall h', network_address net + 1 < h' < h -> ip_str h' ∈ assigned_addresses (w_view w)) /\
    (register_peer i r (Some key) ;;; commit) w = (Ok tt, w') /\
    w_durable w' = over t_routers (insert i (r <| rt_vpn_address := Some (ip_str h) |>
        <| rt_vpn_public_key := Some (strip key) |> <| rt_vpn_enabled := true |>)) (w_view w).
Proof.
  intros Hg Hi Hr Hk Hroom.
  pose proof (free_cases (w_view w)) as H. pose proof (allocate_run (Some r) w (good_broken w Hg)) as Ha.
  specialize (Ha ltac:(simpl; by rewrite Hr)).
  destruct (first_free _ _ _ _) as [a|]; [|by apply exhausted_count in H; lia].
  destruct H as (h & -> & Hh & Hu & Hl).
  set (f := fun r : Router => r <| rt_vpn_address := Some (ip_str h) |>
        <| rt_vpn_public_key := Some (strip key) |> <| rt_vpn_enabled := true |>).
  set (w1 := w <| w_view ::= over t_routers (insert i (f r)) |>).
  assert (Hg1 : good w1).
  { by apply (good_give_address i r (ip_str h) f); [| | |apply ip_str_nonempty| |]. }
  exists h, (w1 <| w_durable := w_view w1 |>). split; [done|]. split; [done|]. split; [done|]. split; [|done].
  unfold register_peer. simpl default. rewrite bool_decide_eq_false_2 by done. rewrite Hr.
  rewrite !mthen_assoc, (mthen_ok _ _ _ _ _ Ha).
  rewrite (mthen_ok (set_router i _) _ w tt (w <| w_view ::= over t_routers (alter (fun r => r <| rt_vpn_address := Some (ip_str h) |>) i) |>)) by done.
  rewrite mthen_assoc.
  rewrite (mthen_ok (set_router i _) _ _ tt w1).
  - by rewrite (mthen_ok _ _ _ _ _ (flush_good w1 Hg1)), (commit_good w1 Hg1).
  - unfold set_router, assign, mmodify, w1, over. destruct w as [? db]. simpl in *. do 3 f_equal.
    rewrite <- (insert_id _ _ _ Hi) at 1. by rewrite !alter_insert_eq.
Qed.
End Allocation.

(** ** Concrete overlays *)

(** A subnet of six hosts. *)
#[local] Instance small_overlay : WgConfig := {
  wg_subnet := " 10.8.0.5/29 ";
  wg_endpoint := "vpn.example.com:51821";
  wg_server_public_key := "srv"
}.

Definition small_net : IPv4Network := mkNet 168296448 29.

Lemma small_net_parses : parse_network (strip wg_subnet) = Some small_net.
Proof. vm_compute. reflexivity. Qed.

Example small_server : server_address small_net = "10.8.0.1".
Proof. vm_compute. reflexivity. Qed.

Example small_endpoint : (endpoint_host, endpoint_port) = ("vpn.example.com", 51821).
Proof. vm_compute. reflexivity. Qed.

(** The first router took the second address after the server's. *)
Definition overlay_db : DB :=
  empty_db <| t_routers := {[1 := sample_router <| rt_vpn_address := Some "10.8.0.3" |>; 2 := sample_router]} |>.

Lemma overlay_good : good (start_offline 0 overlay_db).
Proof. apply good_offline. vm_compute. reflexivity. Qed.

Lemma overlay_room :
  Z.of_nat (length (assigned_addresses (w_view (start_offline 0 overlay_db))))
    < broadcast small_net - network_address small_net - 2.
Proof. vm_compute. reflexivity. Qed.

Lemma allocate_lowest_free_witness :
  allocate_ip (Some sample_router) (start_offline 0 overlay_db) = (Ok "10.8.0.2", start_offline 0 overlay_db).
Proof.
  destruct (allocate_lowest_free small_net small_net_parses ltac:(vm_compute; discriminate) sample_router
    (start_offline 0 overlay_db) eq_refl (or_introl eq_refl)) as [(h & E & _)|[E _]].
  - rewrite E. f_equal. f_equal.
    assert (H : fst (allocate_ip (Some sample_router) (start_offline 0 overlay_db)) = Ok "10.8.0.2")
      by (vm_compute; reflexivity).
    rewrite E in H. by injection H.
  - assert (H : fst (allocate_ip (Some sample_router) (start_offline 0 overlay_db)) = Ok "10.8.0.2")
      by (vm_compute; reflexivity).
    by rewrite E in H.
Defined.

Lemma allocate_succeeds_witness :
  exists a, allocate_ip (Some sample_router) (start_offline 0 overlay_db) = (Ok a, start_offline 0 overlay_db) /\
    (a ∉ assigned_addresses overlay_db).
Proof.
  exact (allocate_succeeds small_net small_net_parses ltac:(vm_compute; discriminate) sample_router
    (start_offline 0 overlay_db) eq_refl (or_introl eq_refl) overlay_room).
Defined.

Lemma register_peer_exact_witness :
  exists h w', (register_peer 2 sample_router (Some " k= ") ;;; commit) (start_offline 0 overlay_db) = (Ok tt, w') /\
    w_durable w' = over t_routers (insert 2 (sample_router <| rt_vpn_address := Some (ip_str h) |>
        <| rt_vpn_public_key := Some "k=" |> <| rt_vpn_enabled := true |>)) overlay_db.
Proof.
  assert (Hrow : t_routers overlay_db !! 2 = Some sample_router) by (vm_compute; reflexivity).
  destruct (register_peer_exact small_net small_net_parses ltac:(vm_compute; discriminate) 2 sample_router " k= "
    (start_offline 0 overlay_db) overlay_good Hrow eq_refl ltac:(vm_compute; discriminate) overlay_room)
    as (h & w' & _ & _ & _ & E & Hd).
  exists h, w'. split; [exact E|exact Hd].
Defined.

Lemma overlay_pool : pool_ok small_net overlay_db.
Proof.
  intros i r a. unfold overlay_db. simpl. rewrite lookup_insert_Some, lookup_singleton_Some.
  intros [[<- <-]|[_ [<- <-]]]; [|done]. intros [= <-]. exists 168296451. split; [|by vm_compute].
  unfold is_tunnel_host. by vm_compute.
Qed.

Lemma peer_list_conflict_free_witness :
  exists peers w', (enrol_all [Register "k1" "" (Some "hq") None; Reserve 2; Register "k2" "" None (Some "10.0.0.1")] ;;;
      rollback ;;; list_peers) (start_offline 0 overlay_db) = (Ok peers, w') /\
    NoDup (map peer_allowed_ips peers).
Proof.
  destruct (peer_list_conflict_free small_net small_net_parses ltac:(vm_compute; discriminate)
    [Register "k1" "" (Some "hq") None; Reserve 2; Register "k2" "" None (Some "10.0.0.1")]
    (start_offline 0 overlay_db) (good_schema _ overlay_good) overlay_pool overlay_pool) as (peers & w' & E & Hn & _).
  exists peers, w'. split; [exact E|exact Hn].
Defined.
