(* ===== verification/Events.v ===== *)
(** * Events: the payment consumer and the outbox publisher
    ([app/events/consumer.py], [app/events/outbox.py])

    Deliveries of [treasury.payment.succeeded], each handled in a session of
    its own and acknowledged or refused, and the pass that publishes the
    transactional outbox. The message broker is a parameter. *)

From S2P Require Import Prelude PyString Numerics Models Session Plan AgentQueue RouterSync Expiry HotspotNames Vouchers Bridge BridgeFacts Portal PortalFacts.
From stdpp Require Import sorting.
Open Scope Z_scope.


(** ** Envelopes *)

(** The members of a message that the handlers read; an object that is absent
    or not an object is [None]. *)
Record Envelope : Type := mkEnvelope {
  env_payload : option (list (string * JsonScalar));
  env_data : option (list (string * JsonScalar));
  env_aggregate_id : option JsonScalar;
  env_tenant_id : option JsonScalar
}.

Definition _payload (e : Envelope) : list (string * JsonScalar) :=
  match env_payload e with Some p => p | None => default [] (env_data e) end.

Definition member (key : string) (p : list (string * JsonScalar)) : option JsonScalar :=
  snd <$> head (filter (fun kv => bool_decide (kv.1 = key)) p).

(** [str(x)] of a truthy value *)
Definition truthy_str (o : option JsonScalar) : option string :=
  match o with
  | Some (JStr "") | Some JNull | None => None
  | Some (JStr s) => Some s
  | Some (JNum n) => if n =? 0 then None else Some (str_of_Z n)
  end.

(** [a or b or ...] *)
Definition first_truthy (l : list (option JsonScalar)) : option string := head (omap truthy_str l).

Definition event_intent (e : Envelope) : option string :=
  first_truthy [member "intent_id" (_payload e); member "id" (_payload e); env_aggregate_id e].

Definition event_reference (e : Envelope) : option string :=
  first_truthy [member "reference_id" (_payload e); member "reference" (_payload e)].

(** The organization as the portal's code reads it. *)
Definition org_of (i : Z) (o : OrganizationRow) : Organization := mkOrg i (org_row_slug o) (org_row_uuid o).

Definition purchase_of_intent (intent : string) (q : CustomerPurchase) : bool :=
  bool_decide (pur_treasury_payment_intent_id q = Some intent).

Definition purchase_of_reference (reference : string) (q : CustomerPurchase) : bool :=
  bool_decide (pur_payment_reference q = Some reference).

Section Consumer.
Context {be : Backend} {ros : RouterOS} {cfg : AgentConfig} {env : PortalEnv}.

Definition lookup_purchase (p : CustomerPurchase -> bool) : run (option (Z * CustomerPurchase)) :=
  rows <- query (fun db => select (fun _ => p) (t_purchases db)) ;;
  scalar_one_or_none rows.

Definition find_event_purchase (e : Envelope) : run (option (Z * CustomerPurchase)) :=
  purchase <- match event_intent e with
              | Some intent => lookup_purchase (purchase_of_intent intent)
              | None => mreturn None
              end ;;
  match purchase, event_reference e with
  | None, Some reference => lookup_purchase (purchase_of_reference reference)
  | o, _ => mreturn o
  end.

Definition handle_treasury_payment_succeeded (e : Envelope) (code_draws digits : list Z) : run unit :=
  ep <- epoch ;;
  purchase <- find_event_purchase e ;;
  match purchase with
  | None => mreturn tt
  | Some (i, q) =>
      if bool_decide (pur_payment_status q = "completed") then mreturn tt
      else
        organization <- query (fun db => t_organizations db !! pur_organization_id q) ;;
        match organization with
        | None => mreturn tt
        | Some o =>
            _process_successful_payment ep (org_of (pur_organization_id q) o) i q code_draws digits
        end
  end.

(** [async with AsyncSessionLocal() as db]: what is not committed is lost when
    the session is closed. *)
Definition in_session {A} (m : run A) : run A := mfinally m rollback.

(** The callback of a durable consumer: [true] acknowledges the message,
    [false] asks for its redelivery. *)
Definition _cb (handler : run unit) : run bool :=
  mtry (in_session handler ;;; mreturn true) (fun _ => mreturn false).
End Consumer.

(** ** The outbox publisher *)
Definition MAX_PUBLISH_ATTEMPTS : Z := 10.
Definition PUBLISH_BATCH : nat := 100.

(** JetStream: [connect], and [js.publish] of an event, which may fail; the
    stream is created on the way. *)
Class Jetstream := {
  Broker : Type;
  nats_enabled : bool;
  js_connect : Broker -> outcome bool * Broker;
  js_publish : Broker -> OutboxEvent -> outcome unit * Broker
}.

Definition event_pending (ev : OutboxEvent) : bool :=
  bool_decide (out_published_at ev = None) && (out_attempts ev <? MAX_PUBLISH_ATTEMPTS).

(** [ORDER BY created_at ASC], on the positions of the rows *)
Definition event_older (a b : nat * OutboxEvent) : Prop := out_created_at a.2 <= out_created_at b.2.
#[export] Instance event_older_dec : RelDecision event_older.
Proof. intros a b. unfold event_older. apply _. Defined.

Definition pending_batch (limit : nat) (l : list OutboxEvent) : list (nat * OutboxEvent) :=
  take limit (merge_sort event_older (filter (fun ie => event_pending ie.2 = true) (imap pair l))).

Definition published (now : datetime) (ev : OutboxEvent) : OutboxEvent :=
  ev <| out_published_at := Some now |>.

Definition attempted (ev : OutboxEvent) : OutboxEvent := ev <| out_attempts ::= Z.succ |>.

Section Publisher.
Context {be : Backend} {ros : RouterOS} {js : Jetstream}.

(** One event: the broker's answer decides what happens to its row. *)
Definition publish_one (now : datetime) (acc : nat * Broker) (ie : nat * OutboxEvent) : run (nat * Broker) :=
  let (n, b) := acc in
  let (i, ev) := ie in
  match js_publish b ev with
  | (Ok _, b') =>
      assign (over t_outbox (alter (published now) i)) ;;;
      mreturn (S n, b')
  | (Raise _, b') =>
      assign (over t_outbox (alter attempted i)) ;;;
      mreturn (n, b')
  end.

(** The broker keeps what was published even when the commit is refused: the
    outcome of the pass is a value beside the broker. *)
Definition publish_pending (b : Broker) (limit : nat) : run (outcome nat * Broker) :=
  if negb nats_enabled then mreturn (Ok 0%nat, b)
  else
    rows <- query (fun db => pending_batch limit (t_outbox db)) ;;
    match rows with
    | [] => mreturn (Ok 0%nat, b)
    | _ =>
        match js_connect b with
        | (Raise e, b') => mreturn (Raise e, b')
        | (Ok false, b') => mreturn (Ok 0%nat, b')
        | (Ok true, b') =>
            now <- utcnow ;;
            r <- mfold (publish_one now) (0%nat, b') rows ;;
            c <- mattempt commit ;;
            mreturn (match c with Ok _ => Ok r.1 | Raise e => Raise e end, r.2)
        end
    end.

(** The poller of [event_tasks.py]: one pass after the other, each in a session
    of its own. *)
Fixpoint publish_passes (k : nat) (limit : nat) (b : Broker) : run Broker :=
  match k with
  | O => mreturn b
  | S k' =>
      r <- in_session (publish_pending b limit) ;;
      publish_passes k' limit r.2
  end.
End Publisher.
