(* ===== verification/EventsFacts.v ===== *)
(** * Events: what the consumer and the publisher guarantee *)

From S2P Require Import Prelude PyString Numerics Models Session Plan AgentQueue RouterSync Expiry HotspotNames Vouchers Bridge BridgeFacts Portal PortalFacts Events.
From stdpp Require Import sorting.
Open Scope Z_scope.


(** ** A purchase is provisioned once *)
Definition provisions (i : Z) (ev : OutboxEvent) : bool :=
  match out_body ev with SubscriberCreated _ _ j _ _ _ _ _ _ => j =? i | _ => false end.

(** How often purchase [i] was provisioned, as the outbox records it. *)
Definition provisionings (i : Z) (db : DB) : nat :=
  length (filter (fun ev => provisions i ev = true) (t_outbox db)).

Definition completed (i : Z) (db : DB) : Prop :=
  exists q, t_purchases db !! i = Some q /\ pur_payment_status q = "completed".

Definition all_once (db : DB) : Prop :=
  forall i, provisionings i db = 0%nat \/ (provisionings i db = 1%nat /\ completed i db).

(** What one delivery or one poll of the payment page does, in its session. *)
Inductive Confirmation : Type :=
  | PaymentEvent (e : Envelope) (code_draws digits : list Z)
  | StatusPoll (org : Organization) (reference : string) (code_draws digits : list Z).

Section Once.
Context {be : Backend} {ros : RouterOS} {cfg : AgentConfig} {env : PortalEnv} {tr : Treasury}.

Definition confirm (c : Confirmation) : run unit :=
  match c with
  | PaymentEvent e code digits => _ <- _cb (handle_treasury_payment_succeeded e code digits) ;; mreturn tt
  | StatusPoll org reference code digits =>
      _ <- mattempt (in_session (get_payment_status org reference code digits)) ;; mreturn tt
  end.

Definition confirm_one (now : datetime) (faults : list bool) (c : Confirmation) (st : DB * Dev) : DB * Dev :=
  let w' := snd (confirm c ((start now st.1 st.2) <| w_faults := faults |>)) in
  (w_durable w', w_dev w').

Fixpoint confirm_all (l : list (datetime * list bool * Confirmation)) (st : DB * Dev) : DB * Dev :=
  match l with
  | [] => st
  | (now, faults, c) :: l' => confirm_all l' (confirm_one now faults c st)
  end.

Variable j : Z.

(** While purchase [j] is not provisioned, in both views of the tables. *)
Definition unprovisioned (db : DB) : Prop := all_once db /\ provisionings j db = 0%nat.
Abbreviation K := (db_inv unprovisioned).
Abbreviation Once := (db_inv all_once).
Definition Kc (w : World) : Prop := K w /\ completed j (w_view w).

Lemma K_once w : K w -> Once w.
Proof. by intros [[? _] [? _]]. Qed.

Lemma Kc_K w : Kc w -> K w.
Proof. by intros [? _]. Qed.

Lemma kc_query {A} (f : DB -> A) : triple Kc (query f) (fun _ => Kc) K.
Proof. intros w Hw. unfold query. destruct (w_broken w); [by apply Kc_K|done]. Qed.

Lemma kc_utcnow : triple Kc utcnow (fun _ => Kc) K.
Proof. by intros w Hw. Qed.

Lemma kc_flush : triple Kc flush (fun _ => Kc) K.
Proof.
  intros w [[Hv Hd] Hc]. unfold flush. destruct (w_broken w); [done|]. by destruct (_ || _).
Qed.

Lemma kc_commit : triple Kc commit (fun _ => Kc) K.
Proof.
  apply (triple_then _ _ _ (fun _ => Kc)); [apply kc_flush|]. by intros _ w [[Hv Hd] Hc].
Qed.

Lemma kc_assign f :
  (forall db, unprovisioned db -> unprovisioned (f db)) ->
  (forall db, completed j db -> completed j (f db)) ->
  triple Kc (assign f) (fun _ => Kc) K.
Proof. intros Hf Hg w [[Hv Hd] Hc]. split; [split; [by apply Hf|done]|by apply Hg]. Qed.

(** Writing another table changes nothing here. *)
Lemma kc_assign_frame f :
  (forall db, t_outbox (f db) = t_outbox db) -> (forall db, t_purchases (f db) = t_purchases db) ->
  triple Kc (assign f) (fun _ => Kc) K.
Proof.
  intros Ho Hp. apply kc_assign; intros db; unfold unprovisioned, all_once, provisionings, completed;
    by rewrite ?Ho, ?Hp.
Qed.

Lemma kc_credentials o digits : triple Kc (generate_hotspot_credentials o digits) (fun _ => Kc) K.
Proof.
  unfold generate_hotspot_credentials, get_settings.
  apply (triple_then _ _ _ (fun _ => Kc)); [apply kc_query|intros s].
  apply (triple_then _ _ _ (fun _ => Kc)).
  { destruct s; [by apply triple_return|]. apply (triple_then _ _ _ (fun _ => Kc)); [by apply kc_assign_frame|intros _].
    apply (triple_then _ _ _ (fun _ => Kc)); [apply kc_flush|intros _]. by apply triple_return. }
  intros s'. apply (triple_then _ _ _ (fun _ => Kc)); [by apply kc_assign_frame|intros _].
  apply (triple_then _ _ _ (fun _ => Kc)); [apply kc_commit|intros _]. by apply triple_return.
Qed.

(** Completing a purchase or linking its voucher. *)
Lemma completed_alter (f : CustomerPurchase -> CustomerPurchase) i k db :
  (forall q, pur_payment_status q = "completed" -> pur_payment_status (f q) = "completed") ->
  completed k db -> completed k (over t_purchases (alter f i) db).
Proof.
  intros Hf (q & Hq & Hs). unfold completed. simpl. rewrite lookup_alter.
  case_decide as E; [subst|by exists q]. exists (f q). rewrite Hq. auto.
Qed.

Lemma once_alter (f : CustomerPurchase -> CustomerPurchase) i db :
  (forall q, pur_payment_status q = "completed" -> pur_payment_status (f q) = "completed") ->
  all_once db -> all_once (over t_purchases (alter f i) db).
Proof.
  intros Hf H k. destruct (H k) as [H0|[H1 Hc]]; [by left|right]. split; [done|]. by apply completed_alter.
Qed.

Lemma provisionings_app i db l :
  provisionings i (over t_outbox (fun l0 => l0 ++ l) db)
  = (provisionings i db + length (filter (fun ev => provisions i ev = true) l))%nat.
Proof. unfold provisionings. simpl. by rewrite filter_app, length_app. Qed.

(** An event that provisions nothing. *)
Lemma kc_payment_received now i o plan amount ref code :
  triple Kc (assign (over t_outbox (fun l => l ++ [pending_event now (PaymentReceived i o plan amount ref code)])))
    (fun _ => Kc) K.
Proof.
  apply kc_assign; [|done]. intros db [H H0].
  assert (Hp : forall k, provisionings k (over t_outbox (fun l => l ++ [pending_event now
      (PaymentReceived i o plan amount ref code)]) db) = provisionings k db).
  { intros k. rewrite provisionings_app. simpl. lia. }
  split; [|by rewrite Hp]. intros k. rewrite Hp. apply H.
Qed.

(** The event that does, once the purchase is completed. *)
Lemma created_once now vid o plan code name user pw exp db :
  unprovisioned db -> completed j db ->
  all_once (over t_outbox (fun l => l ++ [pending_event now
    (SubscriberCreated vid o j plan code name user pw exp)]) db).
Proof.
  intros [Hv Hj] Hc k. rewrite provisionings_app.
  destruct (decide (k = j)) as [->|Hne].
  - right. split; [|exact Hc]. rewrite Hj. simpl. unfold filter, list_filter. simpl.
    unfold provisions. simpl. rewrite Z.eqb_refl. done.
  - assert (E : length (filter (fun ev => provisions k ev = true) [pending_event now
        (SubscriberCreated vid o j plan code name user pw exp)]) = 0%nat).
    { unfold filter, list_filter. simpl. unfold provisions. simpl.
      rewrite (proj2 (Z.eqb_neq j k)) by done. done. }
    rewrite E, Nat.add_0_r. exact (Hv k).
Qed.

Lemma kc_subscriber_created now vid o plan code name user pw exp :
  triple Kc (assign (over t_outbox (fun l => l ++ [pending_event now
    (SubscriberCreated vid o j plan code name user pw exp)]))) (fun _ => Once) Once.
Proof. intros w [[Hv [Hd _]] Hc]. split; [by apply created_once|done]. Qed.

Lemma sync_once e o username password plan p mac comment src sid :
  preserves Once (_sync_hotspot_user_to_router e o username password plan p mac comment src sid).
Proof.
  unfold _sync_hotspot_user_to_router, queue_limits, _queue_agent_action, queue_command, create_hotspot_user_direct.
  repeat first [apply preserves_commit | apply preserves_then; [|intros ?] | preserve_step]; by intros db.
Qed.

Lemma bridge_once c : preserves Once (bridge_hotspot_purchase_to_dashboard c).
Proof.
  unfold bridge_hotspot_purchase_to_dashboard, mirror_purchase, _resolve_router_id,
    _upsert_customer_user, find_customer, _upsert_subscription, _maybe_create_payment.
  repeat first [apply preserves_commit | apply preserves_then; [|intros ?] | preserve_step];
    by intros db.
Qed.

Lemma completes now q :
  pur_payment_status q = "completed" -> pur_payment_status (mark_completed now q) = "completed".
Proof. done. Qed.

Lemma kc_provision e o q p code_draws digits :
  triple Kc (provision_purchase e o j q p code_draws digits) (fun _ => Once) Once.
Proof.
  assert (HK : forall w, K w -> Once w) by (intros w; apply K_once).
  unfold provision_purchase.
  apply (triple_then _ _ _ (fun _ => Kc)); [by eapply triple_weaken, kc_utcnow|intros now]. cbv zeta.
  apply (triple_then _ _ _ (fun _ => Kc)); [by eapply triple_weaken, kc_credentials|intros cr].
  apply (triple_then _ _ _ (fun _ => Kc)); [by eapply triple_weaken, kc_query|intros vid].
  apply (triple_then _ _ _ (fun _ => Kc)); [by eapply triple_weaken, kc_assign_frame|intros _].
  apply (triple_then _ _ _ (fun _ => Kc)); [by eapply triple_weaken, kc_flush|intros _].
  apply (triple_then _ _ _ (fun _ => Kc)).
  { eapply triple_weaken; [by intros w Hw; exact Hw|by intros a w Hw; exact Hw|exact HK|].
    apply kc_assign; intros db.
    - intros [H H0]. split; [|exact H0]. by apply once_alter.
    - by apply completed_alter. }
  intros _. unfold add_event.
  apply (triple_then _ _ _ (fun _ => Kc)).
  { apply (triple_then _ _ _ (fun _ => Kc)); [by eapply triple_weaken, kc_utcnow|intros now'].
    by eapply triple_weaken, kc_payment_received. }
  intros _. apply (triple_then _ _ _ (fun _ => Once)).
  { apply (triple_then _ _ _ (fun _ => Kc)); [by eapply triple_weaken, kc_utcnow|intros now'].
    by eapply triple_weaken, kc_subscriber_created. }
  intros _. apply triple_preserves.
  repeat first [apply sync_once | apply bridge_once | apply preserves_commit
    | apply preserves_then; [|intros ?] | preserve_step].
Qed.

(** Confirming purchase [j], present and not provisioned yet. *)
Lemma process_once e o q code_draws digits :
  triple (fun w => K w /\ is_Some (t_purchases (w_view w) !! j))
    (_process_successful_payment e o j q code_draws digits) (fun _ => Once) Once.
Proof.
  assert (HK : forall w, K w -> Once w) by (intros w; apply K_once).
  unfold _process_successful_payment.
  apply (triple_then _ _ _ (fun _ w => K w /\ is_Some (t_purchases (w_view w) !! j))).
  { by intros w Hw. }
  intros now. apply (triple_try _ _ _ _ Once).
  - apply (triple_then _ _ _ (fun _ => Kc)).
    { intros w [[[Hv Hj] Hd] [q0 Hq]]. split; [split; [split|done]|].
      - by apply once_alter.
      - exact Hj.
      - exists (mark_completed now q0). simpl. by rewrite lookup_alter_eq, Hq. }
    intros _. apply (triple_then _ _ _ (fun _ => Kc)); [by eapply triple_weaken, kc_query|intros plan].
    destruct plan as [p|]; [apply kc_provision|].
    eapply triple_weaken, kc_commit; [done| |exact HK]. intros _ w [Hw _]. by apply HK.
  - intros _. apply triple_preserves.
    repeat first [apply preserves_commit | apply preserves_then; [|intros ?] | preserve_step].
    intros db. by apply once_alter.
Qed.

(** Changing the status of a purchase that is not provisioned. *)
Lemma fail_once db :
  unprovisioned db -> all_once (over t_purchases (alter (fun q => q <| pur_payment_status := "failed" |>) j) db).
Proof.
  intros [H Hj] k. destruct (decide (k = j)) as [->|Hne]; [by left|].
  destruct (H k) as [H0|[H1 (q & Hq & Hs)]]; [by left|right]. split; [done|].
  exists q. simpl. by rewrite lookup_alter_ne.
Qed.
End Once.

Section Confirmations.
Context {be : Backend} {ros : RouterOS} {cfg : AgentConfig} {env : PortalEnv} {tr : Treasury}.
Abbreviation Once := (db_inv all_once).

(** The state in which a session starts: both views are the committed tables. *)
Definition fresh_session (w : World) : Prop := w_view w = w_durable w /\ all_once (w_view w).

Lemma not_completed_unprovisioned i q w :
  fresh_session w -> t_purchases (w_view w) !! i = Some q -> pur_payment_status q <> "completed" ->
  db_inv (unprovisioned i) w /\ is_Some (t_purchases (w_view w) !! i).
Proof.
  intros [E H] Hq Hs. assert (Hu : unprovisioned i (w_view w)).
  { split; [done|]. destruct (H i) as [H0|[_ (q' & Hq' & Hs')]]; [done|]. congruence. }
  split; [split; [done|by rewrite <- E]|by exists q].
Qed.

Lemma fresh_once w : fresh_session w -> Once w.
Proof. intros [E H]. split; [done|by rewrite <- E]. Qed.

(** What a lookup of a purchase returns is a row of the view. *)
Definition found (o : option (Z * CustomerPurchase)) (w : World) : Prop :=
  fresh_session w /\ match o with Some (i, q) => t_purchases (w_view w) !! i = Some q | None => True end.

Lemma found_fresh o w : found o w -> fresh_session w.
Proof. by intros [? _]. Qed.

Lemma fresh_query {A} (f : DB -> A) : triple fresh_session (query f) (fun _ => fresh_session) fresh_session.
Proof. intros w Hw. unfold query. by destruct (w_broken w). Qed.

Lemma lookup_found p : triple fresh_session (lookup_purchase p) found fresh_session.
Proof.
  intros w Hw. unfold lookup_purchase, query, mthen. destruct (w_broken w); [done|].
  destruct (select (fun _ => p) (t_purchases (w_view w))) as [|[i q] [|? ?]] eqn:E; [done|simpl|done].
  split; [done|].
  assert (H : (i, q) ∈ select (fun _ => p) (t_purchases (w_view w))) by (rewrite E; apply list_elem_of_here).
  by apply (elem_of_select (fun _ => p)) in H as [H _].
Qed.

Lemma event_found e : triple fresh_session (find_event_purchase e) found fresh_session.
Proof.
  unfold find_event_purchase. apply (triple_then _ _ _ found).
  - destruct (event_intent e); [apply lookup_found|]. apply triple_return. by intros w Hw.
  - intros o. destruct o as [[i q]|]; [by apply triple_return|].
    destruct (event_reference e); [|by apply triple_return].
    eapply triple_weaken, lookup_found; [|done|done]. by intros w [? _].
Qed.

(** The two callers of the confirmation that look at the status first. *)
Lemma event_once e code digits :
  triple fresh_session (handle_treasury_payment_succeeded e code digits) (fun _ => Once) Once.
Proof.
  unfold handle_treasury_payment_succeeded.
  apply (triple_then _ _ _ (fun _ => fresh_session)); [by intros w Hw|intros ep].
  apply (triple_then _ _ _ found); [eapply triple_weaken, event_found; auto using fresh_once|].
  intros [[i q]|]; [|apply triple_return; intros w [Hw _]; by apply fresh_once].
  case_bool_decide as Hs; [apply triple_return; intros w [Hw _]; by apply fresh_once|].
  apply (triple_then _ _ _ (fun _ => found (Some (i, q)))).
  { intros w [Hw Hq]. unfold query. destruct (w_broken w); [by apply fresh_once|done]. }
  intros [o|]; [|apply triple_return; intros w [Hw _]; by apply fresh_once].
  eapply triple_weaken, (process_once i); [|done|done].
  intros w [Hw Hq]. by apply (not_completed_unprovisioned i q).
Qed.

Lemma verify_once e org i q code digits :
  triple (found (Some (i, q))) (verify_with_treasury e org i q code digits) (fun _ => Once) Once.
Proof.
  assert (Hf : forall w, found (Some (i, q)) w -> Once w) by (intros w [Hw _]; by apply fresh_once).
  unfold verify_with_treasury. destruct (pur_treasury_payment_intent_id q); [|by apply triple_return].
  destruct (_ && treasury_is_configured) eqn:Hs; [|by apply triple_return].
  apply andb_true_iff in Hs as [[Hs%bool_decide_eq_true_1 _]%andb_true_iff _].
  assert (Hu : forall w, found (Some (i, q)) w -> db_inv (unprovisioned i) w /\ is_Some (t_purchases (w_view w) !! i)).
  { intros w [Hw Hq]. apply (not_completed_unprovisioned i q); [done|done|congruence]. }
  destruct (treasury_status s) as [st|x].
  - case_bool_decide; [eapply triple_weaken, (process_once i); done|].
    case_bool_decide; [|by apply triple_return].
    intros w Hw. destruct (Hu w Hw) as [[Hv Hd] _].
    set (w1 := w <| w_view ::= over t_purchases
      (alter (fun q => q <| pur_payment_status := "failed" |>) i) |>).
    assert (Hc : Once (snd (commit w1))).
    { apply preserves_commit. split; [by apply fail_once|apply Hd]. }
    unfold set_purchase. rewrite (mthen_ok (assign _) _ w tt w1) by done.
    by destruct (commit w1) as [[[]|e'] w'].
  - destruct x; first [by apply triple_return | by intros w Hw; apply Hf].
Qed.

Lemma status_once org reference code digits :
  triple fresh_session (get_payment_status org reference code digits) (fun _ => Once) Once.
Proof.
  unfold get_payment_status.
  apply (triple_then _ _ _ (fun _ => fresh_session)); [by intros w Hw|intros ep].
  apply (triple_then _ _ _ found).
  { eapply triple_weaken, (lookup_found (purchase_matches org reference)); auto using fresh_once. }
  intros [[i q]|]; [|apply triple_return; intros w [Hw _]; by apply fresh_once].
  apply (triple_then _ _ _ (fun _ => Once)); [apply verify_once|intros _].
  apply triple_preserves. unfold status_response.
  repeat first [apply preserves_then; [|intros ?] | preserve_step].
Qed.

Lemma session_once {A} (m : run A) :
  triple fresh_session m (fun _ => Once) Once -> triple fresh_session (in_session m) (fun _ => Once) Once.
Proof.
  intros H w Hw. specialize (H w Hw). unfold in_session, mfinally.
  destruct (m w) as [[a|e] w']; simpl; by destruct H as [_ Hd].
Qed.

Lemma confirm_one_once now faults c st : all_once st.1 -> all_once (confirm_one now faults c st).1.
Proof.
  intros H. unfold confirm_one. set (w := (start now st.1 st.2) <| w_faults := faults |>).
  assert (Hw : fresh_session w) by done.
  assert (Ht : Once (snd (confirm c w))); [|by destruct Ht as [_ Hd]].
  destruct c as [e code digits|org reference code digits]; simpl.
  - unfold _cb, mthen, mtry.
    pose proof (session_once _ (event_once e code digits) w Hw) as Hs.
    by destruct (in_session _ w) as [[[]|x] w'].
  - unfold mattempt, mthen. pose proof (session_once _ (status_once org reference code digits) w Hw) as Hs.
    by destruct (in_session _ w) as [[r|x] w'].
Qed.

(** C2. A paid purchase is provisioned at most once by the paths that confirm
    it: whatever deliveries of the payment event (repeated, with any envelope)
    and whatever polls of the payment page arrive, in any order, whatever the
    treasury, the routers and the server answer, the outbox ends with at most
    one subscriber creation per purchase, and only for completed ones. *)
Theorem purchase_provisioned_once (l : list (datetime * list bool * Confirmation)) (st : DB * Dev) :
  all_once st.1 ->
  forall i, provisionings i (confirm_all l st).1 = 0%nat \/
    (provisionings i (confirm_all l st).1 = 1%nat /\ completed i (confirm_all l st).1).
Proof.
  revert st. induction l as [|[[now faults] c] l IH]; intros st H; [exact H|].
  simpl. apply IH. by apply confirm_one_once.
Qed.
End Confirmations.

(** ** What a delivery does *)
Section Deliveries.
Context {be : Backend} {ros : RouterOS} {cfg : AgentConfig} {env : PortalEnv}.

(** The event names the intent of purchase [i], and of no other. *)
Definition names_purchase (e : Envelope) (i : Z) (q : CustomerPurchase) (db : DB) : Prop :=
  exists intent, event_intent e = Some intent /\ t_purchases db !! i = Some q /\
    pur_treasury_payment_intent_id q = Some intent /\
    forall j q', t_purchases db !! j = Some q' -> pur_treasury_payment_intent_id q' = Some intent -> j = i.

Lemma find_named e i q w :
  w_broken w = false -> names_purchase e i q (w_view w) -> find_event_purchase e w = (Ok (Some (i, q)), w).
Proof.
  intros Hb (intent & He & Hi & Hm & Ho). unfold find_event_purchase. rewrite He. unfold lookup_purchase.
  rewrite mthen_assoc, (mthen_ok _ _ _ _ _ (query_good _ w Hb)).
  rewrite (select_unique (fun _ => purchase_of_intent intent) _ i q Hi); [done| |].
  - by apply bool_decide_eq_true_2.
  - intros j q' Hj H%bool_decide_eq_true_1. by apply (Ho j q').
Qed.

(** A world whose session was closed. *)
Definition closed (w : World) : World :=
  w <| w_view := w_durable w |> <| w_broken := false |> <| w_loaded := ∅ |> <| w_epoch ::= S |>.

Lemma delivery_ok h w w' : h w = (Ok tt, w') -> _cb h w = (Ok true, closed w').
Proof. intros E. unfold _cb, mtry, mthen, in_session, mfinally. by rewrite E. Qed.

Lemma delivery_refused h w e w' : h w = (Raise e, w') -> _cb h w = (Ok false, closed w').
Proof. intros E. unfold _cb, mtry, mthen, in_session, mfinally. by rewrite E. Qed.

(** A delivery for a completed purchase is acknowledged and changes nothing. *)
Lemma completed_skipped e i q code digits w :
  w_broken w = false -> names_purchase e i q (w_view w) -> pur_payment_status q = "completed" ->
  exists w', _cb (handle_treasury_payment_succeeded e code digits) w = (Ok true, w') /\
    w_durable w' = w_durable w.
Proof.
  intros Hb Hn Hs. exists (closed w). split; [|done]. apply delivery_ok.
  unfold handle_treasury_payment_succeeded. rewrite (mthen_ok epoch _ w (w_epoch w) w) by done.
  by rewrite (mthen_ok _ _ _ _ _ (find_named e i q w Hb Hn)), bool_decide_eq_true_2 by done.
Qed.

(** C38. A confirmed payment is provisioned on the first delivery and only then:
    in good conditions the event is acknowledged with exactly one new voucher,
    linked to the completed purchase, committed; delivering the event again,
    in any later session on the committed tables, is acknowledged and leaves
    them as they are. *)
Theorem payment_event_idempotent e i q o p code digits code2 digits2 w :
  good w -> names_purchase e i q (w_view w) -> pur_payment_status q <> "completed" ->
  t_organizations (w_view w) !! pur_organization_id q = Some o ->
  t_plans (w_view w) !! pur_plan_id q = Some p ->
  in_int4 (org_hotspot_username_counter (settings_of (w_view w) (pur_organization_id q)) + 1) = true ->
  (forall j v, t_vouchers (w_view w) !! j = Some v -> vch_code v <> generate_code "XXXX-XXXX-XXXX" 8 code) ->
  exists w', _cb (handle_treasury_payment_succeeded e code digits) w = (Ok true, w') /\
    (exists vid v, t_vouchers (w_view w) !! vid = None /\
      t_vouchers (w_durable w') = <[vid := v]> (t_vouchers (w_view w)) /\
      t_purchases (w_durable w') !! i = Some (sold_purchase (w_now w) vid q)) /\
    forall w2, w_broken w2 = false -> w_view w2 = w_durable w' -> w_durable w2 = w_durable w' ->
      exists w3, _cb (handle_treasury_payment_succeeded e code2 digits2) w2 = (Ok true, w3) /\
        w_durable w3 = w_durable w'.
Proof.
  intros Hg Hn Hs Ho Hp Hc Hfresh.
  destruct (provision_run (org_of (pur_organization_id q) o) i q p code digits w Hg Hp Hc Hfresh)
    as (w1 & E1 & HV & HP).
  exists (closed w1).
  assert (Hi : t_purchases (w_durable w1) !! i = Some (sold_purchase (w_now w) (next_id (t_vouchers (w_view w))) q)).
  { rewrite HP, lookup_alter_eq. by destruct Hn as (? & ? & -> & ? & ?). }
  split; [|split].
  - assert (E : handle_treasury_payment_succeeded e code digits w = (Ok tt, w1)).
    { unfold handle_treasury_payment_succeeded. rewrite (mthen_ok epoch _ w (w_epoch w) w) by done.
      rewrite (mthen_ok _ _ _ _ _ (find_named e i q w (good_broken w Hg) Hn)).
      rewrite bool_decide_eq_false_2 by done.
      by rewrite (mthen_ok _ _ _ _ _ (query_good _ w (good_broken w Hg))), Ho. }
    by apply delivery_ok.
  - exists (next_id (t_vouchers (w_view w))). eexists. split; [apply next_id_fresh|]. by split.
  - intros w2 Hb2 Hv2 Hd2. rewrite <- Hd2.
    apply (completed_skipped e i (sold_purchase (w_now w) (next_id (t_vouchers (w_view w))) q)); [done| |done].
    rewrite Hv2. simpl. destruct Hn as (intent & He & Hi0 & Hm & Honly). exists intent.
    split; [done|]. split; [exact Hi|]. split; [exact Hm|].
    intros j q'. rewrite HP, lookup_alter. case_decide as Ej; [done|]. apply Honly.
Qed.

Lemma flush_accepted w l :
  w_broken w = false -> w_faults w = false :: l -> schema_ok (w_view w) -> flush w = (Ok tt, w <| w_faults := l |>).
Proof.
  intros Hb Hf Hs. unfold flush. rewrite Hb, Hf, bool_decide_eq_true_2 by done. simpl. unfold over. simpl.
  by rewrite Hf.
Qed.

Lemma flush_denied w l :
  w_broken w = false -> w_faults w = true :: l ->
  flush w = (Raise DatabaseError, w <| w_faults := l |> <| w_view := w_durable w |> <| w_broken := true |>
    <| w_loaded := ∅ |> <| w_epoch ::= S |>).
Proof. intros Hb Hf. unfold flush. rewrite Hb, Hf. simpl. unfold over. simpl. by rewrite Hf. Qed.

(** A payment can be taken for nothing: drawing the credentials commits
    the purchase as completed before its voucher is written, so that when the
    server then refuses the voucher, the message is refused but the redelivery
    it asks for is acknowledged as already done; the customer has paid and no
    voucher exists. *)
Theorem paid_without_voucher e i q o p s code digits code2 digits2 w :
  reload_expired = false ->
  w_broken w = false -> w_faults w = [false; true] -> schema_ok (w_view w) ->
  names_purchase e i q (w_view w) -> pur_payment_status q <> "completed" ->
  t_organizations (w_view w) !! pur_organization_id q = Some o ->
  t_plans (w_view w) !! pur_plan_id q = Some p ->
  t_settings (w_view w) !! pur_organization_id q = Some s ->
  in_int4 (org_hotspot_username_counter s + 1) = true ->
  exists w', _cb (handle_treasury_payment_succeeded e code digits) w = (Ok false, w') /\
    t_purchases (w_durable w') !! i = Some (mark_completed (w_now w) q) /\
    t_vouchers (w_durable w') = t_vouchers (w_view w) /\
    forall w2, w_broken w2 = false -> w_view w2 = w_durable w' -> w_durable w2 = w_durable w' ->
      exists w3, _cb (handle_treasury_payment_succeeded e code2 digits2) w2 = (Ok true, w3) /\
        w_durable w3 = w_durable w'.
Proof.
  intros Hre Hb Hf Hs Hn Hst Ho Hp Hset Hc.
  set (db1 := over t_settings (alter (over org_hotspot_username_counter
            (fun _ => org_hotspot_username_counter s + 1)) (pur_organization_id q))
            (over t_purchases (alter (mark_completed (w_now w)) i) (w_view w))).
  set (w1 := w <| w_view := db1 |>).
  set (w2 := w <| w_view := db1 |> <| w_faults := [true] |> <| w_durable := db1 |>).
  assert (Hs1 : schema_ok db1).
  { set (w0 := w <| w_faults := [] |> <| w_view ::= over t_purchases (alter (mark_completed (w_now w)) i) |>).
    assert (Hg0 : good w0) by (apply (good_view (w <| w_faults := [] |>)); [by split|done..]).
    pose proof (good_schema _ (good_settings_insert (pur_organization_id q)
      (s <| org_hotspot_username_counter := org_hotspot_username_counter s + 1 |>) w0 Hg0 Hc)) as H.
    assert (Ha : db1 = w_view (w0 <| w_view ::= over t_settings (insert (pur_organization_id q)
      (s <| org_hotspot_username_counter := org_hotspot_username_counter s + 1 |>)) |>)); [|by rewrite Ha].
    unfold db1, w0, over. simpl. f_equal. rewrite <- (insert_id _ _ _ Hset) at 1. by rewrite alter_insert_eq. }
  assert (Hi : t_purchases db1 !! i = Some (mark_completed (w_now w) q)).
  { destruct Hn as (? & _ & Hi & _). simpl. by rewrite lookup_alter_eq, Hi. }
  assert (E : exists w', handle_treasury_payment_succeeded e code digits w = (Raise MissingGreenlet, w') /\
                w_durable w' = db1).
  { unfold handle_treasury_payment_succeeded. rewrite (mthen_ok epoch _ w (w_epoch w) w) by done.
    rewrite (mthen_ok _ _ _ _ _ (find_named e i q w Hb Hn)), bool_decide_eq_false_2 by done.
    rewrite (mthen_ok _ _ _ _ _ (query_good _ w Hb)), Ho. unfold _process_successful_payment.
    rewrite (mthen_ok utcnow _ w (w_now w) w) by done.
    set (w3 := w <| w_view ::= over t_purchases (alter (mark_completed (w_now w)) i) |>).
    assert (Eg : generate_hotspot_credentials (org_id (org_of (pur_organization_id q) o)) digits w3
                 = (Ok (name_of_settings s, password_of_digits digits), w2)).
    { unfold generate_hotspot_credentials, get_settings.
      rewrite (mthen_ok _ _ _ _ _ (query_good _ w3 Hb)).
      change (t_settings (w_view w3) !! _) with (t_settings (w_view w) !! pur_organization_id q).
      rewrite Hset, mthen_return.
      rewrite (mthen_ok (assign _) _ w3 tt w1) by done.
      unfold commit. rewrite mthen_assoc, (mthen_ok _ _ _ _ _ (flush_accepted w1 [true] Hb Hf Hs1)). done. }
    set (row := purchased_voucher (w_now w) (org_of (pur_organization_id q) o) q
      (generate_code "XXXX-XXXX-XXXX" 8 code) (name_of_settings s, password_of_digits digits)).
    set (w4 := w2 <| w_view ::= over t_vouchers (insert (next_id (t_vouchers db1)) row) |>).
    pose proof (flush_denied w4 [] Hb eq_refl) as Ed.
    match type of Ed with _ = (_, ?x) => set (w5 := x) in Ed end.
    exists w5. split; [|done]. rewrite (mtry_raise _ _ _ DatabaseError w5).
    - unfold mthen, row_attrs. rewrite (proj2 (Nat.eqb_neq (w_epoch w5) (w_epoch w))) by (simpl; lia).
      by rewrite Hre.
    - rewrite (mthen_ok (set_purchase _ _) _ w tt w3) by done.
      rewrite (mthen_ok _ _ _ _ _ (query_good _ w3 Hb)).
      change (t_plans (w_view w3)) with (t_plans (w_view w)). rewrite Hp.
      unfold provision_purchase. rewrite (mthen_ok utcnow _ w3 (w_now w) w3) by done. cbv zeta.
      rewrite (mthen_ok _ _ _ _ _ Eg). rewrite (mthen_ok _ _ _ _ _ (query_good _ w2 Hb)).
      rewrite (mthen_ok (assign _) _ w2 tt w4) by done. by rewrite (mthen_raise _ _ _ _ _ Ed). }
  destruct E as (w' & E & Hd). exists (closed w'). split; [by apply (delivery_refused _ _ MissingGreenlet)|].
  change (w_durable (closed w')) with (w_durable w'). rewrite Hd. split; [done|]. split; [done|].
  intros wr Hbr Hvr Hdr. rewrite <- Hdr. apply (completed_skipped e i (mark_completed (w_now w) q)); [done| |done].
  rewrite Hvr. destruct Hn as (intent & He & Hi0 & Hm & Honly). exists intent.
  split; [done|]. split; [done|]. split; [done|]. intros j q'. simpl. rewrite lookup_alter.
  case_decide as Ej; [done|]. apply Honly.
Qed.
End Deliveries.

(** ** The outbox publisher *)
Definition n_pending (l : list OutboxEvent) : nat := length (filter (fun ev => event_pending ev = true) l).

Definition stamp (now : datetime) (l : list OutboxEvent) (i : nat) : list OutboxEvent := alter (published now) i l.

Lemma n_pending_cons ev l :
  n_pending (ev :: l) = ((if event_pending ev then 1 else 0) + n_pending l)%nat.
Proof. unfold n_pending. rewrite filter_cons. by destruct (event_pending ev). Qed.

(** Stamping a pending row takes it off the queue, and only it. *)
Lemma stamp_pending now ev l : forall i,
  l !! i = Some ev -> event_pending ev = true -> S (n_pending (stamp now l i)) = n_pending l.
Proof.
  induction l as [|x l IH]; intros [|i]; [done..| |].
  - intros [= ->] Hp. change (stamp now (ev :: l) 0) with (published now ev :: l).
    rewrite !n_pending_cons, Hp. change (event_pending (published now ev)) with false. simpl. lia.
  - intros Hi Hp. change (stamp now (x :: l) (S i)) with (x :: stamp now l i).
    rewrite !n_pending_cons, <- (IH i Hi Hp). lia.
Qed.

Lemma stamp_other now l i j : i <> j -> stamp now l i !! j = l !! j.
Proof. intros H. unfold stamp. by rewrite list_lookup_alter_ne. Qed.

Lemma stamp_all_pending now idxs : forall l,
  NoDup idxs -> (forall i, i ∈ idxs -> exists ev, l !! i = Some ev /\ event_pending ev = true) ->
  (n_pending (foldl (stamp now) l idxs) + length idxs)%nat = n_pending l.
Proof.
  induction idxs as [|i idxs IH]; intros l Hnd Hi; [simpl; lia|].
  apply NoDup_cons in Hnd as [Hni Hnd]. simpl.
  destruct (Hi i) as (ev & Hl & Hp); [apply list_elem_of_here|].
  rewrite <- (stamp_pending now ev l i Hl Hp), <- (IH (stamp now l i) Hnd); [lia|].
  intros j Hj. rewrite stamp_other by (intros ->; done). apply Hi. by apply list_elem_of_further.
Qed.

Lemma stamp_bodies now idxs : forall l, map out_body (foldl (stamp now) l idxs) = map out_body l.
Proof.
  induction idxs as [|i idxs IH]; intros l; [done|]. simpl. rewrite IH. unfold stamp.
  revert i. induction l as [|ev l IHl]; intros [|i]; try done. simpl. f_equal. apply IHl.
Qed.

(** The batch: distinct pending rows, as many as the limit allows. *)
Lemma pending_rows l ie :
  ie ∈ filter (fun ie => event_pending ie.2 = true) (imap pair l) ->
  l !! ie.1 = Some ie.2 /\ event_pending ie.2 = true.
Proof.
  intros [Hp Hin]%list_elem_of_filter. split; [|done].
  apply list_elem_of_lookup in Hin as [k Hk]. rewrite list_lookup_imap in Hk.
  destruct (l !! k) as [ev|] eqn:E; [|done]. by injection Hk as <-.
Qed.

Lemma imap_pair_count l : forall k,
  length (filter (fun ie : nat * OutboxEvent => event_pending ie.2 = true) (imap (fun n ev => ((k + n)%nat, ev)) l))
  = n_pending l.
Proof.
  induction l as [|ev l IH]; intros k; [done|]. rewrite imap_cons, filter_cons, n_pending_cons. simpl.
  rewrite <- (IH (S k)).
  rewrite (imap_ext _ (fun n ev => ((S k + n)%nat, ev)) l) by (intros; unfold compose; f_equal; lia).
  by destruct (event_pending ev).
Qed.

Lemma imap_pair_fst (l : list OutboxEvent) : forall k,
  map fst (imap (fun n ev => ((k + n)%nat, ev)) l) = seq k (length l).
Proof.
  induction l as [|ev l IH]; intros k; [done|]. rewrite imap_cons. simpl. f_equal; [lia|].
  rewrite <- (IH (S k)). f_equal. apply imap_ext. intros. unfold compose. f_equal. lia.
Qed.

Lemma batch_facts limit l :
  length (pending_batch limit l) = min limit (n_pending l) /\
  NoDup (map fst (pending_batch limit l)) /\
  forall i, i ∈ map fst (pending_batch limit l) -> exists ev, l !! i = Some ev /\ event_pending ev = true.
Proof.
  unfold pending_batch. set (rows := filter _ (imap pair l)).
  pose proof (merge_sort_Permutation event_older rows) as Hperm. split; [|split].
  - rewrite length_take, Hperm. unfold rows. f_equal. exact (imap_pair_count l 0).
  - eapply sublist_NoDup; [|apply fmap_sublist, sublist_take].
    rewrite Hperm. unfold rows. eapply sublist_NoDup; [|apply fmap_sublist, sublist_filter].
    assert (Hs : map fst (imap pair l) = seq 0 (length l)) by exact (imap_pair_fst l 0).
    change (NoDup (map fst (imap pair l))). rewrite Hs. apply NoDup_seq.
  - intros i ([i' ev] & -> & Hin)%list_elem_of_fmap. exists ev.
    apply (pending_rows l (i', ev)). fold rows. rewrite <- Hperm.
    rewrite <- (take_drop limit (merge_sort event_older rows)). apply elem_of_app. by left.
Qed.

Section Draining.
Context {be : Backend} {ros : RouterOS} {js : Jetstream}.

(** A broker that is up. *)
Hypothesis broker_enabled : nats_enabled = true.
Hypothesis broker_connects : forall b, exists b', js_connect b = (Ok true, b').
Hypothesis broker_accepts : forall b ev, exists b', js_publish b ev = (Ok tt, b').

Lemma publish_rows now rows : forall n b w,
  exists b', mfold (publish_one now) (n, b) rows w
    = (Ok ((n + length rows)%nat, b'), w <| w_view ::= over t_outbox (fun l => foldl (stamp now) l (map fst rows)) |>).
Proof.
  induction rows as [|[i ev] rows IH]; intros n b w.
  - exists b. simpl. rewrite Nat.add_0_r. destruct w as [? []]; done.
  - destruct (broker_accepts b ev) as [b1 E]. destruct (IH (S n) b1 (w <| w_view ::= over t_outbox (alter (published now) i) |>)) as [b' E'].
    exists b'. change (mfold (publish_one now) (n, b) ((i, ev) :: rows))
      with (mthen (publish_one now (n, b) (i, ev)) (fun acc => mfold (publish_one now) acc rows)).
    rewrite (mthen_ok _ _ w (S n, b1) (w <| w_view ::= over t_outbox (alter (published now) i) |>)).
    + rewrite E'. simpl length. by rewrite Nat.add_succ_r.
    + unfold publish_one. by rewrite E.
Qed.

Lemma pass_run limit b w :
  good w -> exists r w', publish_pending b limit w = (Ok r, w') /\ good w' /\
    (w_durable w = w_view w -> w_durable w' = w_view w') /\
    w_view w' = over t_outbox (fun l => foldl (stamp (w_now w)) l (map fst (pending_batch limit l))) (w_view w).
Proof.
  intros Hg. unfold publish_pending. rewrite broker_enabled. change (negb true) with false. cbv iota.
  rewrite (mthen_ok _ _ _ _ _ (query_good _ w (good_broken w Hg))).
  destruct (pending_batch limit (t_outbox (w_view w))) as [|x rows] eqn:Eb.
  - do 2 eexists. split; [reflexivity|]. split; [done|]. split; [done|].
    unfold over. rewrite Eb. simpl. by destruct (w_view w).
  - destruct (broker_connects b) as [b1 ->].
    rewrite (mthen_ok utcnow _ w (w_now w) w) by done.
    destruct (publish_rows (w_now w) (x :: rows) 0 b1 w) as [b2 E]. rewrite (mthen_ok _ _ _ _ _ E).
    match type of E with _ = (_, ?y) => set (w1 := y) in * end.
    assert (Hg1 : good w1) by (by apply good_view).
    rewrite (mthen_ok _ _ _ _ _ (mattempt_run _ _ _ _ (commit_good w1 Hg1))).
    do 2 eexists. split; [reflexivity|]. split; [by apply good_commit|]. split; [done|].
    simpl. unfold over. by rewrite Eb.
Qed.

End Draining.

(** ** Concrete runs *)
Definition processing_purchase : CustomerPurchase :=
  completed_purchase <| pur_payment_status := "processing" |> <| pur_voucher_code_id := None |>
    <| pur_completed_at := None |>.

Definition acme_row : OrganizationRow :=
  mkOrgRow "6f1c" None "Acme" "acme" O_ACTIVE "noc@acme.ke" None None None None None None None None.

Definition counter_of (n : Z) : OrganizationSettings := mkOrgSettings (Some 14) (Some 14) "C" n.

(** The tables of a portal with one payment under way. *)
Definition paying_db : DB :=
  portal_db <| t_purchases := {[4 := processing_purchase]} |>
    <| t_organizations := {[1 := acme_row]} |> <| t_settings := {[1 := counter_of 1]} |>.

Definition success_event (intent : string) : Envelope :=
  mkEnvelope (Some [("intent_id", JStr intent)]) None None None.

Definition draws : list Z := [0; 1; 2; 3; 4; 5; 6; 7; 8; 9; 10; 11].

#[export] Instance sample_treasury : Treasury := {
  treasury_is_configured := true;
  create_payment_intent reference := Ok (Some ("pi-" +:+ reference), None);
  treasury_status i := Ok (Some "succeeded", None)
}.

Lemma paying_good : good (start_offline 0 paying_db).
Proof. apply good_offline. vm_compute. reflexivity. Qed.

Lemma paying_named db :
  t_purchases db = {[4 := processing_purchase]} ->
  names_purchase (success_event "pi_1") 4 processing_purchase db.
Proof.
  intros H. unfold names_purchase. rewrite H. exists "pi_1". split; [reflexivity|]. split; [reflexivity|]. split; [reflexivity|].
  intros j q' Hj _. by apply lookup_singleton_Some in Hj as [<- _].
Qed.

Lemma paying_codes db :
  t_vouchers db = {[9 := stock_voucher]} ->
  forall j v, t_vouchers db !! j = Some v -> vch_code v <> generate_code "XXXX-XXXX-XXXX" 8 draws.
Proof. intros -> j v Hj. apply lookup_singleton_Some in Hj as [_ <-]. discriminate. Qed.

Lemma none_provisioned db : t_outbox db = [] -> all_once db.
Proof. intros H i. left. unfold provisionings. by rewrite H. Qed.

(** Two deliveries and a poll between them. *)
Definition confirmations : list (datetime * list bool * Confirmation) :=
  [(0, [], PaymentEvent (success_event "pi_1") draws [1; 2; 3]);
   (60, [], StatusPoll acme "HS-ACME-1" draws [1; 2; 3]);
   (90, [], PaymentEvent (success_event "pi_1") draws [1; 2; 3])].

Lemma purchase_provisioned_once_witness :
  let st := confirm_all confirmations (paying_db, tt : @Dev unreachable_router) in
  (provisionings 4 st.1 = 0%nat \/ (provisionings 4 st.1 = 1%nat /\ completed 4 st.1)) /\
  provisionings 4 st.1 = 1%nat.
Proof.
  split; [|vm_compute; reflexivity].
  apply (purchase_provisioned_once confirmations (paying_db, tt : @Dev unreachable_router)).
  by apply none_provisioned.
Defined.

Lemma payment_event_idempotent_witness :
  exists w', _cb (handle_treasury_payment_succeeded (success_event "pi_1") draws [1; 2; 3])
      (start_offline 0 paying_db) = (Ok true, w') /\ size (t_vouchers (w_durable w')) = 2%nat.
Proof.
  destruct (payment_event_idempotent (success_event "pi_1") 4 processing_purchase acme_row sample_plan
              draws [1; 2; 3] [] [] (start_offline 0 paying_db)) as (w' & E & (vid & v & Hn & Hv & _) & _).
  - exact paying_good.
  - by apply paying_named.
  - discriminate.
  - reflexivity.
  - reflexivity.
  - reflexivity.
  - by apply paying_codes.
  - exists w'. split; [exact E|]. rewrite Hv, map_size_insert, Hn. reflexivity.
Defined.

Lemma paid_without_voucher_witness :
  let w := (start_offline 0 paying_db) <| w_faults := [false; true] |> in
  exists w', _cb (handle_treasury_payment_succeeded (success_event "pi_1") draws [1; 2; 3]) w = (Ok false, w') /\
    t_vouchers (w_durable w') = {[9 := stock_voucher]}.
Proof.
  destruct (paid_without_voucher (success_event "pi_1") 4 processing_purchase acme_row sample_plan (counter_of 1)
              draws [1; 2; 3] [] [] ((start_offline 0 paying_db) <| w_faults := [false; true] |>))
    as (w' & E & _ & Hv & _).
  - reflexivity.
  - reflexivity.
  - reflexivity.
  - exact (good_schema _ paying_good).
  - by apply paying_named.
  - discriminate.
  - reflexivity.
  - reflexivity.
  - reflexivity.
  - reflexivity.
  - exists w'. split; [exact E|exact Hv].
Defined.

(** A broker that takes everything, and counts. *)
#[export] Instance counting_broker : Jetstream := {
  Broker := nat;
  nats_enabled := true;
  js_connect b := (Ok true, b);
  js_publish b ev := (Ok tt, S b)
}.

Definition backlog_db : DB :=
  empty_db <| t_outbox := [pending_event 0 (RenewalPaid 5 1 2 3 (units 100) (Some "R-1"));
    pending_event 60 (RenewalPaid 6 1 2 3 (units 100) None);
    pending_event 90 (RenewalPaid 7 1 2 3 (units 100) (Some "R-3"))] |>.

