(* ===== verification/Passwords.v ===== *)
(** * Passwords ([app/core/security.py])

    Hashes of passwords; the library that computes them is a parameter. *)

From S2P Require Import Prelude.

Class Bcrypt := {
  (** [bcrypt.checkpw] of a password and a hash *)
  bcrypt_checkpw : string -> string -> outcome bool;
  (** [bcrypt.hashpw] of a password with a salt *)
  bcrypt_hashpw : string -> string -> outcome string
}.

Section Hashes.
Context {bc : Bcrypt}.

(** A hash that cannot be read matches nothing. *)
Definition verify_password (plain_password hashed_password : string) : bool :=
  match bcrypt_checkpw plain_password hashed_password with Ok b => b | Raise _ => false end.

(** [salt] is what [gensalt] draws. *)
Definition get_password_hash (password salt : string) : outcome string := bcrypt_hashpw password salt.
End Hashes.
