(* ===== verification/Pppoe.v ===== *)
(** * The PPPoE customer portal
    ([app/api/v1/portal/pppoe.py], [app/services/treasury_topup.py])

    Login, renewals and their confirmation by the treasury, and the pages and
    the webhook that read columns the models do not have. Outside the
    repository, beside those of [Portal] and of [Passwords]: the signer of
    customer tokens ([PppoeEnv]). *)

From S2P Require Import Prelude PyString Numerics Calendar Models Session Plan AgentQueue RouterSync Subscriptions Expiry HotspotNames Vouchers Bridge Portal Passwords.
From stdpp Require Import sorting.
Open Scope Z_scope.


Class PppoeEnv := {
  (** [create_access_token] for a user, an organization and a role *)
  customer_token : Z -> Z -> string -> string
}.

(** ** Subscribers on the router *)

(** The data cap as this portal computes it: megabytes. *)
Definition pppoe_data_limit (p : ServicePlan) : option Z :=
  if (0 <? plan_data_limit p) && negb (is_unlimited_data p)
  then Some (plan_data_limit p * 1024 * 1024) else None.

Definition given_text (s : string) : option string := if bool_decide (s = "") then None else Some s.

(** [date.isoformat()] of the day of [t] *)
Definition str_of_date (t : datetime) : string :=
  let '(y, m, d) := date_of t in
  zero_pad 4 y +:+ "-" +:+ zero_pad 2 m +:+ "-" +:+ zero_pad 2 d.

Section Router.
Context {be : Backend} {ros : RouterOS}.

(** [client.create_pppoe_user] *)
Definition create_pppoe_user (r : Router) (p : ServicePlan) (username password comment : string) : run unit :=
  _ <- execute_command r "/ppp/secret" ADD
         [("name", Some username); ("password", Some password); ("profile", Some "default");
          ("service", Some "pppoe"); ("limit-bytes-total", str_of_Z <$> pppoe_data_limit p);
          ("limit-uptime", given_text (limit_uptime_str p)); ("comment", Some comment)] ;;
  mreturn tt.

(** Neither the login nor a renewal fails because of the router. *)
Definition sync_pppoe_user (org : Organization) (p : ServicePlan) (username password comment : string) : run unit :=
  found <- query (fun db => active_router_of (org_id org) db) ;;
  match found with
  | None => mreturn tt
  | Some (_, r) =>
      mtry
        (client_connect r ;;;
         create_pppoe_user r p username password comment ;;;
         client_disconnect r)
        (fun _ => mreturn tt)
  end.

(** The most recent subscription of a user that satisfies [p]. *)
Definition newest_sub (org : Organization) (user_id : Z) (p : Subscription -> bool) : run (option (Z * Subscription)) :=
  found <- query (fun db =>
    head (merge_sort newer (select (fun _ s =>
      (sub_user_id s =? user_id) && bool_decide (sub_organization_id s = Some (org_id org)) && p s) (t_subs db)))) ;;
  (match found with Some (i, _) => load_subs [i] | None => mreturn tt end) ;;;
  mreturn found.

Definition set_user (i : Z) (f : User -> User) : run unit := assign (over t_users (alter f i)).

(** A flush with a pending row that leaves a [NOT NULL] column without value:
    the server refuses it. *)
Definition flush_null {A} : run A := fun w =>
  if w_broken w then (Raise PendingRollbackError, w)
  else (Raise DatabaseError,
        w <| w_faults ::= tail |> <| w_view := w_durable w |> <| w_broken := true |> <| w_loaded := ∅ |>
          <| w_epoch ::= S |>).
End Router.

(** ** Answers *)
Record PppoeLogin : Type := mkPppoeLogin {
  pl_access_token : string;
  pl_customer_id : Z;
  pl_customer : User
}.

Record RenewalResponse : Type := mkRenewal {
  rn_success : bool;
  rn_reference : string;
  rn_message : string;
  rn_intent_id : string
}.

Record VerifyAnswer : Type := mkVerify {
  va_success : bool;
  va_status : string;
  va_message : string;
  va_data : option (string * money * string)
}.

Definition SUCCESS_STATUSES : list string := ["succeeded"; "success"; "completed"; "paid"].
Definition FAILURE_STATUSES : list string := ["failed"; "cancelled"; "canceled"; "expired"].

(** ["PPP-{slug[:6].upper()}-{hex[:8].upper()}"] *)
Definition renewal_reference (org : Organization) (hex : string) : string :=
  "PPP-" +:+ upper (take_chars 6 (org_slug org)) +:+ "-" +:+ upper (take_chars 8 hex).

Definition renewal_payment (now : datetime) (org : Organization) (user_id : Z) (p : ServicePlan)
    (reference : string) : Payment :=
  mkPayment (Some (org_id org)) (Some user_id) None reference (plan_price p) (plan_currency p) OTHER PAY_PENDING
    None (Some reference) None None None None None (Some ("PPPoE Subscription Renewal - " +:+ plan_name p))
    None None None None None false None None now.

Definition payment_has_reference (org : Organization) (reference : string) (p : Payment) : bool :=
  bool_decide (pay_reference_number p = Some reference) && bool_decide (pay_organization_id p = Some (org_id org)).

(** [" ".join(filter(None, [first, last])).strip() or email or username] *)
Definition renewed_customer_name (u : User) : string :=
  let name := strip (PyString.join " " (filter (fun s => s <> "") [usr_first_name u; usr_last_name u])) in
  if negb (bool_decide (name = "")) then name
  else if negb (bool_decide (usr_email u = "")) then usr_email u else usr_username u.

(** ** Handlers *)
Section Handlers.
Context {be : Backend} {ros : RouterOS} {cfg : AgentConfig} {env : PortalEnv} {bc : Bcrypt} {penv : PppoeEnv} {tr : Treasury}.

Definition customer_login (org : Organization) (scope username password : string) : run PppoeLogin :=
  attempt ("pppoe-login:" +:+ scope) (Some username) ;;;
  users <- query (fun db => select (fun _ u =>
    bool_decide (usr_organization_id u = Some (org_id org)) && bool_decide (usr_role u = CUSTOMER)
    && bool_decide (usr_username u = username)) (t_users db)) ;;
  user <- scalar_one_or_none users ;;
  match user with
  | None => mraise (HTTPException 401 "Invalid username or password")
  | Some (i, u) =>
      if negb (verify_password password (usr_hashed_password u)) then
        mraise (HTTPException 401 "Invalid username or password")
      else if negb (bool_decide (usr_status u = U_ACTIVE)) then
        mraise (HTTPException 401 "Account is not active")
      else
        let token := customer_token i (org_id org) (role_value (usr_role u)) in
        now <- utcnow ;;
        set_user i (fun u => u <| usr_last_login := Some now |>) ;;;
        flush ;;;
        found <- newest_sub org i (fun s => bool_decide (sub_status s = ACTIVE)) ;;
        (match found with
         | None => mreturn tt
         | Some (_, s) =>
             plan <- query (fun db => t_plans db !! sub_plan_id s) ;;
             match plan with
             | None => mreturn tt
             | Some p =>
                 sync_pppoe_user org p (usr_username u) password
                   ("PPPoE user - " +:+ plan_name p +:+ " subscription")
             end
         end) ;;;
        commit ;;;
        mreturn (mkPppoeLogin token i u)
  end.

(** The pages that read columns the models do not have: building the query of
    the dashboard, of the usage history and of the plans raises, and so does
    listing a payment. *)
Definition get_dashboard (org : Organization) (user_id : Z) : run unit :=
  user <- query (fun db => t_users db !! user_id) ;;
  match user with
  | Some u =>
      if bool_decide (usr_organization_id u = Some (org_id org)) && bool_decide (usr_role u = CUSTOMER) then
        _ <- newest_sub org user_id (fun s => bool_decide (sub_status s = ACTIVE)) ;;
        mraise (AttributeError "bytes_in")
      else mraise (HTTPException 404 "Customer not found")
  | None => mraise (HTTPException 404 "Customer not found")
  end.

Definition get_usage_history (org : Organization) (user_id : Z) : run (list SubscriptionUsageLog) :=
  found <- newest_sub org user_id (fun _ => true) ;;
  match found with
  | None => mreturn []
  | Some _ => mraise (AttributeError "created_at")
  end.

Definition payment_newer (a b : Z * Payment) : Prop := pay_created_at b.2 <= pay_created_at a.2.
#[export] Instance payment_newer_dec : RelDecision payment_newer.
Proof. intros a b. unfold payment_newer. apply _. Defined.

Definition get_payment_history (org : Organization) (user_id : Z) (limit : nat) : run (list Payment) :=
  rows <- query (fun db => take limit (merge_sort payment_newer (select (fun _ p =>
    bool_decide (pay_user_id p = Some user_id) && bool_decide (pay_organization_id p = Some (org_id org)))
    (t_payments db)))) ;;
  match rows with
  | [] => mreturn []
  | _ => mraise (AttributeError "payment_reference")
  end.

Definition get_available_plans (org : Organization) (user_id : Z) : run (list ServicePlan) :=
  _ <- newest_sub org user_id (fun s => bool_decide (sub_status s = ACTIVE)) ;;
  mraise (AttributeError "is_active").

(** [create_topup_intent]: [None] when the treasury is unusable. *)
Definition create_topup_intent (reference : string) : outcome (option string) :=
  if negb treasury_is_configured then Ok None
  else
    match create_payment_intent reference with
    | Raise TreasuryError => Ok None
    | Raise x => Raise x
    | Ok ids => Ok (given_text (or_else ids.1 (or_else ids.2 "")))
    end.

(** [get_intent_status]: only the member [status] of the answer is read. *)
Definition get_intent_status (intent_id : string) : outcome (option string) :=
  if negb treasury_is_configured then Ok None
  else
    match treasury_status intent_id with
    | Raise TreasuryError => Ok None
    | Raise x => Raise x
    | Ok st => Ok (Some (lower (default "" st.1)))
    end.

(** What an expression of a client call gives or raises. *)
Definition lift {A} (o : outcome A) : run A := match o with Ok a => mreturn a | Raise e => mraise e end.

Definition set_pppoe_payment (i : Z) (f : Payment -> Payment) : run unit := assign (over t_payments (alter f i)).

(** [hex] is the random part of the reference. *)
Definition renew_subscription (org : Organization) (user_id plan_id : Z) (hex : string) : run RenewalResponse :=
  plan <- query (fun db => t_plans db !! plan_id) ;;
  match plan with
  | Some p =>
      if negb (bool_decide (plan_organization_id p = Some (org_id org))) then
        mraise (HTTPException 404 "Package not found")
      else if bool_decide (org_uuid org = "") then
        mraise (HTTPException 400 "Unable to resolve billing tenant for this organization")
      else
        now <- utcnow ;;
        let reference := renewal_reference org hex in
        id <- query (fun db => next_id (t_payments db)) ;;
        assign (over t_payments (insert id (renewal_payment now org user_id p reference))) ;;;
        commit ;;;
        intent <- lift (create_topup_intent reference) ;;
        match intent with
        | None =>
            set_pppoe_payment id (fun p => p <| pay_status := PAY_FAILED |>) ;;;
            commit ;;;
            mraise (HTTPException 502 "Payment service is temporarily unavailable. Please try again.")
        | Some intent_id =>
            set_pppoe_payment id (fun p => p <| pay_transaction_id := Some intent_id |>) ;;;
            commit ;;;
            mreturn (mkRenewal true reference "Choose a payment method to complete your renewal." intent_id)
        end
  | None => mraise (HTTPException 404 "Package not found")
  end.

(** The renewal of a subscription: an active one is extended; otherwise a new
    one is added without a router, which the table refuses. *)
Definition extend_or_create (k : Z) (s : Subscription) (p : ServicePlan) : run datetime :=
  now <- utcnow ;;
  if bool_decide (sub_status s = ACTIVE) then
    let new_end := default now (sub_end_date s) + timedelta_days (plan_validity_days p) in
    set_sub k (fun s => s <| sub_end_date := Some new_end |>) ;;;
    mreturn new_end
  else flush_null.

Definition _process_pppoe_subscription_renewal (org : Organization) (i : Z) (pay : Payment) : run unit :=
  user <- query (fun db => match pay_user_id pay with Some u => pair u <$> t_users db !! u | None => None end) ;;
  match user with
  | None => mreturn tt
  | Some (uid, u) =>
      found <- newest_sub org uid (fun _ => true) ;;
      match found with
      | None => mreturn tt
      | Some (k, s) =>
          plan <- query (fun db => t_plans db !! sub_plan_id s) ;;
          match plan with
          | None => mreturn tt
          | Some p =>
              until <- extend_or_create k s p ;;
              sync_pppoe_user org p (usr_username u) (usr_hashed_password u)
                ("PPPoE subscription - " +:+ plan_name p +:+ " - Valid until " +:+ str_of_date until) ;;;
              add_event (RenewalPaid i (org_id org) uid (sub_plan_id s) (pay_amount pay) (pay_reference_number pay)) ;;;
              add_event (SubscriptionRenewed k (org_id org) uid i (sub_plan_id s) (renewed_customer_name u) (Some until))
          end
      end
  end.

Definition find_payment (org : Organization) (reference : string) : run (option (Z * Payment)) :=
  rows <- query (fun db => select (fun _ => payment_has_reference org reference) (t_payments db)) ;;
  scalar_one_or_none rows.

Definition verify_pppoe_payment (org : Organization) (reference : string) : run VerifyAnswer :=
  payment <- find_payment org reference ;;
  match payment with
  | None => mreturn (mkVerify false "not_found" "Payment not found for this reference" None)
  | Some (i, p) =>
      let data := Some (reference, pay_amount p, pay_currency p) in
      if bool_decide (pay_status p = COMPLETED) then
        mreturn (mkVerify true "success" "Payment already processed" data)
      else if negb (is_present (pay_transaction_id p)) then
        mreturn (mkVerify false "error" "No treasury payment intent associated with this payment" None)
      else
        status <- (if bool_decide (org_uuid org = "") then mreturn None
                   else lift (get_intent_status (default "" (pay_transaction_id p)))) ;;
        match status with
        | None => mreturn (mkVerify false "error" "Unable to verify payment with treasury. Please try again." None)
        | Some st =>
            if bool_decide (st ∈ FAILURE_STATUSES) then
              set_pppoe_payment i (fun p => p <| pay_status := PAY_FAILED |>) ;;;
              commit ;;;
              mreturn (mkVerify false st ("Payment " +:+ st) None)
            else if negb (bool_decide (st ∈ SUCCESS_STATUSES)) then
              mreturn (mkVerify false "pending" "Payment is still pending" None)
            else
              now <- utcnow ;;
              set_pppoe_payment i (fun p => p <| pay_status := COMPLETED |> <| pay_payment_date := Some now |>) ;;;
              flush ;;;
              _process_pppoe_subscription_renewal org i p ;;;
              commit ;;;
              mreturn (mkVerify true "success" "Payment verified and subscription renewed" data)
        end
  end.

(** The webhook looks its payment up by a column the model does not have:
    whatever the payload names, building that query raises. *)
Definition pppoe_payment_webhook (payload : WebhookPayload) : run string :=
  let (reference, status) := webhook_outcome payload in
  if negb (is_present reference) then mreturn "No reference found"
  else mraise (AttributeError "payment_reference").
End Handlers.
