(* ===== verification/PppoeFacts.v ===== *)
(** * The PPPoE portal: renewals that are paid for *)

From S2P Require Import Prelude PyString Numerics Calendar Models Session Plan AgentQueue RouterSync Subscriptions Expiry HotspotNames Vouchers Ledger Bridge BridgeFacts Portal PortalFacts Passwords Pppoe.
From stdpp Require Import sorting.
Open Scope Z_scope.


Section Renewals.
Context {be : Backend} {ros : RouterOS} {cfg : AgentConfig} {env : PortalEnv} {bc : Bcrypt} {penv : PppoeEnv} {tr : Treasury}.

Lemma sync_pppoe_run org p username password comment w :
  good w -> exists w1, sync_pppoe_user org p username password comment w = (Ok tt, w1) /\
    good w1 /\ w_view w1 = w_view w /\ w_durable w1 = w_durable w /\ w_now w1 = w_now w.
Proof.
  intros Hg. unfold sync_pppoe_user. rewrite (mthen_ok _ _ _ _ _ (query_good _ w (good_broken w Hg))).
  destruct (active_router_of (org_id org) (w_view w)) as [[rid r]|]; [|by exists w].
  match goal with |- context [mtry ?m ?h] => set (call := mtry m h) end.
  assert (Hd : device_only call) by (unfold call, create_pppoe_user, client_disconnect; repeat device_step).
  assert (Hn : never_raises call) by (apply never_raises_try; intros e; apply never_raises_return).
  destruct (Hn w) as ([] & w1 & E). exists w1. split; [done|].
  pose proof (device_only_good call w Hd Hg) as H1. specialize (Hd w). rewrite E in H1, Hd. simpl in H1, Hd.
  split; [done|]. by rewrite Hd.
Qed.

(** The most recent subscription of the customer. *)
Definition newest_of (org : Organization) (user_id : Z) (db : DB) : option (Z * Subscription) :=
  head (merge_sort newer (select (fun _ s =>
    (sub_user_id s =? user_id) && bool_decide (sub_organization_id s = Some (org_id org)) && true) (t_subs db))).

Lemma newest_of_row org uid db k s : newest_of org uid db = Some (k, s) -> t_subs db !! k = Some s.
Proof.
  intros H. unfold newest_of in H. set (l := select _ (t_subs db)) in H.
  assert (Hin : (k, s) ∈ l).
  { rewrite <- (merge_sort_Permutation newer l). destruct (merge_sort newer l); [done|].
    injection H as ->. apply list_elem_of_here. }
  unfold l in Hin.
  by apply (elem_of_select (fun _ s => (sub_user_id s =? uid)
    && bool_decide (sub_organization_id s = Some (org_id org)) && true)) in Hin as [Hin _].
Qed.

Lemma newest_sub_run org uid w :
  w_broken w = false ->
  newest_sub org uid (fun _ => true) w
  = (Ok (newest_of org uid (w_view w)),
     match newest_of org uid (w_view w) with Some (i, _) => w <| w_loaded ::= fun l => list_to_set [i] ∪ l |> | None => w end).
Proof.
  intros Hb. unfold newest_sub. rewrite (mthen_ok _ _ _ _ _ (query_good _ w Hb)).
  fold (newest_of org uid (w_view w)). by destruct (newest_of org uid (w_view w)) as [[i s]|].
Qed.

(** A payment that the treasury confirms, of a customer whose most recent
    subscription is [k]. *)
Record renewal_paid (w : World) (org : Organization) (reference : string) (i : Z) (p : Payment)
    (intent st : string) (uid : Z) (u : User) (k : Z) (s : Subscription) (pl : ServicePlan) : Prop := {
  rp_good : good w;
  rp_payment : t_payments (w_view w) !! i = Some p;
  rp_reference : payment_has_reference org reference p = true;
  rp_unique : forall j q, t_payments (w_view w) !! j = Some q -> payment_has_reference org reference q = true -> j = i;
  rp_open : pay_status p <> COMPLETED;
  rp_intent : pay_transaction_id p = Some intent /\ intent <> "";
  rp_tenant : org_uuid org <> "";
  rp_state : get_intent_status intent = Ok (Some st);
  rp_success : st ∈ SUCCESS_STATUSES;
  rp_user : pay_user_id p = Some uid /\ t_users (w_view w) !! uid = Some u;
  rp_sub : newest_of org uid (w_view w) = Some (k, s);
  rp_plan : t_plans (w_view w) !! sub_plan_id s = Some pl
}.

(** What a confirmed payment does to its row. *)
Definition confirmed (now : datetime) (p : Payment) : Payment :=
  p <| pay_status := COMPLETED |> <| pay_payment_date := Some now |>.

Definition extend_to (t : datetime) (s : Subscription) : Subscription := s <| sub_end_date := Some t |>.

Definition renewed_end (now : datetime) (s : Subscription) (pl : ServicePlan) : datetime :=
  default now (sub_end_date s) + timedelta_days (plan_validity_days pl).

Lemma find_payment_run org reference i p w :
  w_broken w = false -> t_payments (w_view w) !! i = Some p -> payment_has_reference org reference p = true ->
  (forall j q, t_payments (w_view w) !! j = Some q -> payment_has_reference org reference q = true -> j = i) ->
  find_payment org reference w = (Ok (Some (i, p)), w).
Proof.
  intros Hb Hi Hr Hu. unfold find_payment. rewrite (mthen_ok _ _ _ _ _ (query_good _ w Hb)).
  by rewrite (select_unique (fun _ => payment_has_reference org reference) _ i p Hi Hr Hu).
Qed.

Lemma verify_completed org reference i p w :
  w_broken w = false -> t_payments (w_view w) !! i = Some p -> payment_has_reference org reference p = true ->
  (forall j q, t_payments (w_view w) !! j = Some q -> payment_has_reference org reference q = true -> j = i) ->
  pay_status p = COMPLETED ->
  verify_pppoe_payment org reference w
  = (Ok (mkVerify true "success" "Payment already processed" (Some (reference, pay_amount p, pay_currency p))), w).
Proof.
  intros Hb Hi Hr Hu Hs. unfold verify_pppoe_payment.
  by rewrite (mthen_ok _ _ _ _ _ (find_payment_run _ _ _ _ _ Hb Hi Hr Hu)), bool_decide_eq_true_2.
Qed.

Lemma success_not_failure st : st ∈ SUCCESS_STATUSES -> st ∉ FAILURE_STATUSES.
Proof.
  intros H. apply (bool_decide_unpack _). unfold SUCCESS_STATUSES in H.
  repeat (apply elem_of_cons in H as [->|H]; [reflexivity|]). by apply elem_of_nil in H.
Qed.

(** Up to the renewal itself. *)
Lemma verify_prefix w org reference i p intent st uid u k s pl :
  renewal_paid w org reference i p intent st uid u k s pl ->
  exists w1, good w1 /\ w_durable w1 = w_durable w /\ w_now w1 = w_now w /\
    w_view w1 = over t_payments (alter (confirmed (w_now w)) i) (w_view w) /\
    verify_pppoe_payment org reference w
    = (_process_pppoe_subscription_renewal org i p ;;; commit ;;;
       mreturn (mkVerify true "success" "Payment verified and subscription renewed"
         (Some (reference, pay_amount p, pay_currency p)))) w1.
Proof.
  intros [Hg Hi Hr Hu Hs [Hin Hin0] Ht Hst Hok _ _ _].
  exists (w <| w_view ::= over t_payments (alter (confirmed (w_now w)) i) |>).
  assert (Hg1 : good (w <| w_view ::= over t_payments (alter (confirmed (w_now w)) i) |>))
    by (by apply good_alter_payment).
  split; [done|]. split; [done|]. split; [done|]. split; [done|]. unfold verify_pppoe_payment.
  rewrite (mthen_ok _ _ _ _ _ (find_payment_run _ _ _ _ _ (good_broken w Hg) Hi Hr Hu)).
  rewrite bool_decide_eq_false_2 by done. rewrite Hin, is_present_some by done.
  change (negb true) with false. cbv iota. rewrite bool_decide_eq_false_2 by done. simpl default.
  unfold lift at 1. rewrite Hst, mthen_return.
  rewrite bool_decide_eq_false_2 by (by apply success_not_failure).
  rewrite bool_decide_eq_true_2 by done. change (negb true) with false. cbv iota.
  rewrite (mthen_ok utcnow _ w (w_now w) w) by done.
  rewrite (mthen_ok (set_pppoe_payment _ _) _ w tt _) by reflexivity.
  by rewrite (mthen_ok _ _ _ _ _ (flush_good _ Hg1)).
Qed.

(** The two events of a renewal. *)
Definition renewal_events (now : datetime) (org : Organization) (i : Z) (p : Payment) (uid : Z) (u : User)
    (k : Z) (s : Subscription) (until : datetime) : list OutboxEvent :=
  [pending_event now (RenewalPaid i (org_id org) uid (sub_plan_id s) (pay_amount p) (pay_reference_number p));
   pending_event now (SubscriptionRenewed k (org_id org) uid i (sub_plan_id s) (renewed_customer_name u) (Some until))].

Lemma renewal_run org i p uid u k s pl w :
  good w -> pay_user_id p = Some uid -> t_users (w_view w) !! uid = Some u ->
  newest_of org uid (w_view w) = Some (k, s) -> t_plans (w_view w) !! sub_plan_id s = Some pl ->
  sub_status s = ACTIVE ->
  exists w2, _process_pppoe_subscription_renewal org i p w = (Ok tt, w2) /\ good w2 /\
    w_view w2 = over t_outbox (fun l => l ++ renewal_events (w_now w) org i p uid u k s (renewed_end (w_now w) s pl))
      (over t_subs (alter (extend_to (renewed_end (w_now w) s pl)) k) (w_view w)).
Proof.
  intros Hg Hp Hu Hk Hpl Ha. unfold _process_pppoe_subscription_renewal. rewrite Hp.
  rewrite (mthen_ok _ _ _ _ _ (query_good _ w (good_broken w Hg))), Hu.
  change (fmap (pair uid) (Some u)) with (Some (uid, u)). cbv beta iota.
  rewrite (mthen_ok _ _ _ _ _ (newest_sub_run org uid w (good_broken w Hg))), Hk.
  set (w1 := w <| w_loaded ::= fun l => list_to_set [k] ∪ l |>).
  assert (Hg1 : good w1) by (by destruct Hg).
  rewrite (mthen_ok _ _ _ _ _ (query_good _ w1 (good_broken w1 Hg1))).
  change (t_plans (w_view w1)) with (t_plans (w_view w)). rewrite Hpl.
  set (e := renewed_end (w_now w) s pl).
  set (w2 := w1 <| w_view ::= over t_subs (alter (extend_to e) k) |>).
  assert (Hg2 : good w2).
  { apply good_view_alter; [|done]. intros s0 Hs0. split; [|done].
    pose proof (good_schema w1 Hg1) as (Hrow & _). specialize (Hrow k s0 Hs0). unfold sub_row_ok in *.
    simpl in *. destruct (sub_end_date s0); [exact Hrow|done]. }
  rewrite (mthen_ok (extend_or_create k s pl) _ w1 e w2).
  2:{ unfold extend_or_create. rewrite (mthen_ok utcnow _ w1 (w_now w) w1), bool_decide_eq_true_2 by done.
      unfold e, renewed_end. by rewrite (mthen_ok (set_sub _ _) _ w1 tt w2). }
  destruct (sync_pppoe_run org pl (usr_username u) (usr_hashed_password u)
    ("PPPoE subscription - " +:+ plan_name pl +:+ " - Valid until " +:+ str_of_date e) w2 Hg2)
    as (w3 & E3 & Hg3 & Hv3 & _ & Hn3).
  rewrite (mthen_ok _ _ _ _ _ E3). eexists. split; [reflexivity|]. split.
  - apply good_view; try done. by apply good_view.
  - simpl. rewrite Hv3, Hn3. unfold over. simpl. by rewrite <- app_assoc.
Qed.

(** The tables once the payment is applied. *)
Definition renewed_db (now : datetime) (org : Organization) (i : Z) (p : Payment) (uid : Z) (u : User)
    (k : Z) (s : Subscription) (pl : ServicePlan) (db : DB) : DB :=
  over t_outbox (fun l => l ++ renewal_events now org i p uid u k s (renewed_end now s pl))
    (over t_subs (alter (extend_to (renewed_end now s pl)) k)
      (over t_payments (alter (confirmed now) i) db)).

Lemma verify_renews w org reference i p intent st uid u k s pl :
  renewal_paid w org reference i p intent st uid u k s pl -> sub_status s = ACTIVE ->
  exists w', verify_pppoe_payment org reference w
      = (Ok (mkVerify true "success" "Payment verified and subscription renewed"
               (Some (reference, pay_amount p, pay_currency p))), w') /\
    w_durable w' = renewed_db (w_now w) org i p uid u k s pl (w_view w).
Proof.
  intros H Ha. pose proof (verify_prefix _ _ _ _ _ _ _ _ _ _ _ _ H) as (w1 & Hg1 & Hd1 & Hn1 & Hv1 & E).
  destruct H as [Hg Hi Hr Hu _ _ _ _ _ [Hp Hus] Hk Hpl].
  destruct (renewal_run org i p uid u k s pl w1 Hg1 Hp) as (w2 & E2 & Hg2 & Hv2); rewrite ?Hv1; [done..|].
  rewrite E, (mthen_ok _ _ _ _ _ E2), (mthen_ok _ _ _ _ _ (commit_good w2 Hg2)).
  eexists. split; [reflexivity|]. simpl. by rewrite Hv2, Hn1, Hv1.
Qed.

(** C28. A renewal that was paid for is applied exactly once: when the treasury
    confirms the payment of a customer whose most recent subscription is
    active, the first poll marks it completed, moves the end of that
    subscription by the validity of its plan, announces it, and commits all of
    it together; every later poll answers success and changes nothing. *)
Theorem renewal_applied_once w org reference i p intent st uid u k s pl :
  renewal_paid w org reference i p intent st uid u k s pl -> sub_status s = ACTIVE ->
  exists w', verify_pppoe_payment org reference w
      = (Ok (mkVerify true "success" "Payment verified and subscription renewed"
               (Some (reference, pay_amount p, pay_currency p))), w') /\
    w_durable w' = renewed_db (w_now w) org i p uid u k s pl (w_view w) /\
    forall w2, w_broken w2 = false -> w_view w2 = w_durable w' ->
      verify_pppoe_payment org reference w2
      = (Ok (mkVerify true "success" "Payment already processed"
               (Some (reference, pay_amount p, pay_currency p))), w2).
Proof.
  intros H Ha. destruct (verify_renews _ _ _ _ _ _ _ _ _ _ _ _ H Ha) as (w' & E & Hd).
  destruct H as [_ Hi Hr Hu _ _ _ _ _ _ _ _].
  exists w'. split; [done|]. split; [done|].
  intros w3 Hb3 Hv3. change (pay_amount p) with (pay_amount (confirmed (w_now w) p)).
  change (pay_currency p) with (pay_currency (confirmed (w_now w) p)).
  assert (HP : t_payments (w_view w3) = alter (confirmed (w_now w)) i (t_payments (w_view w)))
    by (by rewrite Hv3, Hd).
  apply (verify_completed org reference i); rewrite ?HP; try done.
  - by rewrite lookup_alter_eq, Hi.
  - intros j q. rewrite lookup_alter. case_decide as Ej; [done|]. apply Hu.
Qed.

(** A customer whose subscription has lapsed cannot renew: the renewal adds
    a subscription without the router every subscription must have, the
    server refuses it, and the confirmation of the payment is lost with it;
    the poll raises, and nothing of it is committed, however often the
    customer, who has paid, comes back. *)
Theorem lapsed_renewal_refused w org reference i p intent st uid u k s pl :
  renewal_paid w org reference i p intent st uid u k s pl -> sub_status s <> ACTIVE ->
  exists w', verify_pppoe_payment org reference w = (Raise DatabaseError, w') /\
    w_durable w' = w_durable w.
Proof.
  intros H Ha. pose proof (verify_prefix _ _ _ _ _ _ _ _ _ _ _ _ H) as (w1 & Hg1 & Hd1 & Hn1 & Hv1 & E).
  destruct H as [Hg Hi Hr Hu _ _ _ _ _ [Hp Hus] Hk Hpl].
  rewrite E. unfold _process_pppoe_subscription_renewal. rewrite Hp.
  rewrite mthen_assoc, (mthen_ok _ _ _ _ _ (query_good _ w1 (good_broken w1 Hg1))).
  rewrite Hv1. change (t_users (over t_payments _ (w_view w))) with (t_users (w_view w)). rewrite Hus.
  change (fmap (pair uid) (Some u)) with (Some (uid, u)). cbv beta iota. rewrite mthen_assoc, (mthen_ok _ _ _ _ _ (newest_sub_run org uid w1 (good_broken w1 Hg1))).
  rewrite Hv1. change (newest_of org uid (over t_payments _ (w_view w))) with (newest_of org uid (w_view w)).
  rewrite Hk. set (w2 := w1 <| w_loaded ::= _ |>).
  assert (Hb2 : w_broken w2 = false) by exact (good_broken w1 Hg1).
  rewrite mthen_assoc, (mthen_ok _ _ _ _ _ (query_good _ w2 Hb2)).
  change (w_view w2) with (w_view w1). rewrite Hv1.
  change (t_plans (over t_payments _ (w_view w))) with (t_plans (w_view w)). rewrite Hpl.
  eexists. split; [apply mthen_raise; apply mthen_raise|].
  - unfold extend_or_create. rewrite (mthen_ok utcnow _ w2 (w_now w2) w2), bool_decide_eq_false_2 by done.
    unfold flush_null. by rewrite Hb2.
  - exact Hd1.
Qed.

(** A renewal requested and handed to the treasury. *)
Lemma renew_requested w org uid b pb hex intent :
  good w -> t_plans (w_view w) !! b = Some pb -> plan_organization_id pb = Some (org_id org) ->
  org_uuid org <> "" -> fits_10_2 (plan_price pb) = true -> is_Some (t_users (w_view w) !! uid) ->
  (forall j q, t_payments (w_view w) !! j = Some q -> pay_payment_number q <> renewal_reference org hex) ->
  create_topup_intent (renewal_reference org hex) = Ok (Some intent) ->
  let id := next_id (t_payments (w_view w)) in
  let row := (renewal_payment (w_now w) org uid pb (renewal_reference org hex))
               <| pay_transaction_id := Some intent |> in
  exists w1, renew_subscription org uid b hex w
      = (Ok (mkRenewal true (renewal_reference org hex) "Choose a payment method to complete your renewal." intent), w1) /\
    good w1 /\ w_now w1 = w_now w /\ w_durable w1 = w_view w1 /\
    w_view w1 = over t_payments (insert id row) (w_view w).
Proof.
  intros Hg Hb Horg Ht Hfit [u Hu] Hnew Hint id row.
  set (row0 := renewal_payment (w_now w) org uid pb (renewal_reference org hex)).
  set (w1 := w <| w_view ::= over t_payments (insert id row0) |>).
  assert (Hg1 : good w1).
  { apply good_insert_payment; [done|apply next_id_fresh| |exact Hnew].
    unfold payment_row_ok, row0, renewal_payment. simpl. by rewrite Hfit, Hu. }
  set (w2 := w1 <| w_durable := w_view w1 |>).
  set (w3 := w2 <| w_view ::= over t_payments (alter (fun p => p <| pay_transaction_id := Some intent |>) id) |>).
  assert (Hg3 : good w3) by (apply good_alter_payment; [by apply good_commit|done]).
  exists (w3 <| w_durable := w_view w3 |>). split; [|split; [by apply good_commit|split; [done|split; [done|]]]].
  2:{ simpl. unfold over. simpl. by rewrite alter_insert_eq. }
  unfold renew_subscription. rewrite (mthen_ok _ _ _ _ _ (query_good _ w (good_broken w Hg))), Hb.
  rewrite bool_decide_eq_true_2 by done. change (negb true) with false. cbv iota.
  rewrite bool_decide_eq_false_2 by done. rewrite (mthen_ok utcnow _ w (w_now w) w) by done. cbv zeta.
  rewrite (mthen_ok _ _ _ _ _ (query_good _ w (good_broken w Hg))).
  rewrite (mthen_ok (assign _) _ w tt w1) by done.
  rewrite (mthen_ok _ _ _ _ _ (commit_good w1 Hg1)). unfold lift. rewrite Hint, mthen_return.
  rewrite (mthen_ok (set_pppoe_payment _ _) _ w2 tt w3) by done.
  by rewrite (mthen_ok _ _ _ _ _ (commit_good w3 Hg3)).
Qed.

(** The package chosen for a renewal is charged but not delivered: the
    payment is for the price of the chosen plan, yet the confirmed renewal
    leaves the subscription on the plan it had and extends it by that plan's
    validity. *)
Theorem renewal_ignores_chosen_plan w org uid u k s pl b pb hex intent st :
  good w -> t_plans (w_view w) !! b = Some pb -> plan_organization_id pb = Some (org_id org) ->
  org_uuid org <> "" -> fits_10_2 (plan_price pb) = true -> t_users (w_view w) !! uid = Some u ->
  (forall j q, t_payments (w_view w) !! j = Some q ->
     pay_payment_number q <> renewal_reference org hex /\ pay_reference_number q <> Some (renewal_reference org hex)) ->
  create_topup_intent (renewal_reference org hex) = Ok (Some intent) -> intent <> "" ->
  get_intent_status intent = Ok (Some st) -> st ∈ SUCCESS_STATUSES ->
  newest_of org uid (w_view w) = Some (k, s) -> sub_status s = ACTIVE ->
  t_plans (w_view w) !! sub_plan_id s = Some pl ->
  exists w1 w', result_of (renew_subscription org uid b hex w)
      = Ok (mkRenewal true (renewal_reference org hex) "Choose a payment method to complete your renewal." intent) /\
    w1 = state_of (renew_subscription org uid b hex w) /\
    verify_pppoe_payment org (renewal_reference org hex) w1
      = (Ok (mkVerify true "success" "Payment verified and subscription renewed"
               (Some (renewal_reference org hex, plan_price pb, plan_currency pb))), w') /\
    t_subs (w_durable w') !! k = Some (extend_to (renewed_end (w_now w) s pl) s).
Proof.
  intros Hg Hb Horg Ht Hfit Hu Hnew Hint Hint0 Hst Hok Hk Ha Hpl.
  destruct (renew_requested w org uid b pb hex intent Hg Hb Horg Ht Hfit (ex_intro _ u Hu)
    (fun j q Hj => proj1 (Hnew j q Hj)) Hint) as (w1 & E1 & Hg1 & Hn1 & Hd1 & Hv1).
  set (i := next_id (t_payments (w_view w))) in Hv1.
  set (row := (renewal_payment (w_now w) org uid pb (renewal_reference org hex)) <| pay_transaction_id := Some intent |>) in Hv1.
  assert (HP : t_payments (w_view w1) = <[i := row]> (t_payments (w_view w))) by (by rewrite Hv1).
  destruct (verify_renews w1 org (renewal_reference org hex) i row intent st uid u k s pl) as (w' & E' & Hd').
  - split; try done; rewrite ?HP, ?Hv1; try done.
    + apply lookup_insert_eq.
    + unfold payment_has_reference. simpl. by rewrite !bool_decide_eq_true_2.
    + intros j q [[<- _]|[Hij Hj]]%lookup_insert_Some; [done|].
      intros [H1%bool_decide_eq_true_1 _]%andb_true_iff. by destruct (Hnew j q Hj).
  - done.
  - exists w1, w'. rewrite E1. split; [done|]. split; [done|]. split; [exact E'|].
    rewrite Hd', Hn1, Hv1. simpl. rewrite lookup_alter_eq, (newest_of_row _ _ _ _ _ Hk). done.
Qed.
End Renewals.

(** ** Concrete runs *)
#[export] Instance sample_bcrypt : Bcrypt := {
  bcrypt_checkpw plain hashed := Ok (bool_decide (plain = "secret"));
  bcrypt_hashpw plain salt := Ok (salt +:+ plain)
}.

#[export] Instance sample_pppoe : PppoeEnv := {
  customer_token user org role := str_of_Z user +:+ role
}.

#[export] Instance paid_treasury : Treasury := {
  treasury_is_configured := true;
  create_payment_intent reference := Ok (Some ("pi-" +:+ reference), None);
  treasury_status i := Ok (Some "SUCCEEDED", None)
}.

Definition home_user : User := customer_user (Some 1) "jane" "jane@isp.ke" (Some "0700") "Jane" "W".

Definition home_sub : Subscription :=
  mkSubscription (Some 1) 5 3 7 PPPOE ACTIVE "jane" "hash" (Some 0) (Some (timedelta_days 30)) false 0
    0 0 0 0 None true None None None.

Definition open_payment : Payment :=
  (renewal_payment 0 acme 5 sample_plan "PPP-ACME-1") <| pay_transaction_id := Some "pi_1" |>.

Definition home_db (s : Subscription) : DB :=
  captive_db <| t_users := {[5 := home_user]} |> <| t_subs := {[1 := s]} |>
    <| t_payments := {[2 := open_payment]} |>.

Definition lapsed_sub : Subscription := home_sub <| sub_status := EXPIRED |>.

(** The login of a customer reaches for the router and does not need it. *)
Example jane_logs_in :
  match fst (customer_login acme "acme" "jane" "secret" (start_offline 60 (home_db home_sub))) with
  | Ok r => pl_access_token r = "5customer" | Raise _ => False end.
Proof. vm_compute. reflexivity. Qed.

Lemma home_paid s :
  good (start_offline 60 (home_db s)) ->
  newest_of acme 5 (home_db s) = Some (1, s) -> sub_plan_id s = 3 ->
  renewal_paid (start_offline 60 (home_db s)) acme "PPP-ACME-1" 2 open_payment "pi_1" "succeeded" 5 home_user 1 s sample_plan.
Proof.
  intros Hg Hn Hp. split; try done.
  - intros j q Hj _. change (({[2 := open_payment]} : gmap Z Payment) !! j = Some q) in Hj.
    by apply lookup_singleton_Some in Hj as [<- _].
  - apply list_elem_of_here.
  - rewrite Hp. reflexivity.
Qed.

Lemma renewal_applied_once_witness :
  exists w' : @World unreachable_router, result_of (verify_pppoe_payment acme "PPP-ACME-1" (start_offline 60 (home_db home_sub)))
      = Ok (mkVerify true "success" "Payment verified and subscription renewed"
             (Some ("PPP-ACME-1", plan_price sample_plan, plan_currency sample_plan))) /\
    sub_end_date <$> t_subs (w_durable w') !! 1 = Some (Some (timedelta_days 31)) /\
    length (t_outbox (w_durable w')) = 2%nat.
Proof.
  destruct (renewal_applied_once (start_offline 60 (home_db home_sub)) acme "PPP-ACME-1" 2 open_payment "pi_1"
              "succeeded" 5 home_user 1 home_sub sample_plan) as (w' & E & Hd & _).
  - apply home_paid; [apply good_offline; vm_compute; reflexivity|vm_compute; reflexivity|reflexivity].
  - reflexivity.
  - exists w'. split; [by rewrite E|]. rewrite Hd. split; vm_compute; reflexivity.
Defined.

Lemma lapsed_renewal_refused_witness :
  exists w' : @World unreachable_router, verify_pppoe_payment acme "PPP-ACME-1" (start_offline 60 (home_db lapsed_sub)) = (Raise DatabaseError, w') /\
    pay_status <$> t_payments (w_durable w') !! 2 = Some PAY_PENDING.
Proof.
  destruct (lapsed_renewal_refused (start_offline 60 (home_db lapsed_sub)) acme "PPP-ACME-1" 2 open_payment "pi_1"
              "succeeded" 5 home_user 1 lapsed_sub sample_plan) as (w' & E & Hd).
  - apply home_paid; [apply good_offline; vm_compute; reflexivity|vm_compute; reflexivity|reflexivity].
  - discriminate.
  - exists w'. split; [exact E|]. rewrite Hd. reflexivity.
Defined.

(** A longer and dearer package. *)
Definition quarter_plan : ServicePlan :=
  sample_plan <| plan_validity_days := 90 |> <| plan_price := units 5000 |> <| plan_organization_id := Some 1 |>.

Lemma renewal_ignores_chosen_plan_witness :
  let db := (home_db home_sub) <| t_plans ::= insert 4 quarter_plan |> in
  exists w' : @World unreachable_router, result_of (verify_pppoe_payment acme "PPP-ACME-00FF"
      (state_of (renew_subscription acme 5 4 "00ff" (start_offline 60 db))))
      = Ok (mkVerify true "success" "Payment verified and subscription renewed"
              (Some ("PPP-ACME-00FF", units 5000, "KES"))) /\
    sub_end_date <$> t_subs (w_durable w') !! 1 = Some (Some (timedelta_days 31)).
Proof.
  set (db := (home_db home_sub) <| t_plans ::= insert 4 quarter_plan |>).
  destruct (renewal_ignores_chosen_plan (start_offline 60 db) acme 5 home_user 1 home_sub sample_plan 4 quarter_plan
              "00ff" "pi-PPP-ACME-00FF" "succeeded") as (w1 & w' & _ & -> & E & Hs).
  - apply good_offline. vm_compute. reflexivity.
  - reflexivity.
  - reflexivity.
  - discriminate.
  - reflexivity.
  - reflexivity.
  - intros j q Hj. change (({[2 := open_payment]} : gmap Z Payment) !! j = Some q) in Hj.
    apply lookup_singleton_Some in Hj as [_ <-]. split; discriminate.
  - reflexivity.
  - discriminate.
  - reflexivity.
  - apply list_elem_of_here.
  - vm_compute. reflexivity.
  - reflexivity.
  - reflexivity.
  - exists w'. split; [|rewrite Hs; vm_compute; reflexivity].
    change (renewal_reference acme "00ff") with "PPP-ACME-00FF" in E. by rewrite E.
Defined.
