(* ===== verification/Identity.v ===== *)
(** * Identities from the single sign-on
    ([app/core/sso.py], [app/events/consumer.py])

    The mapping of global roles, the provisioning of local users from the
    claims of a token or of an event, and the mirroring of tenants. The rows of
    the table [roles] are a parameter: nothing here writes them. *)

From S2P Require Import Prelude PyString Numerics Models Session Plan AgentQueue Vouchers Bridge Portal Passwords Pppoe Events.


(** ** Claims *)

(** The claims read from a token, or built from an event. *)
Record Claims : Type := mkClaims {
  cl_sub : option string;
  cl_email : option string;
  cl_full_name : option JsonScalar;
  cl_roles : list string;
  cl_is_platform_owner : bool;
  cl_tenant_id : option string;
  cl_tenant_slug : option string;
  cl_is_demo : bool;
  cl_billing_mode : option string;
  cl_sub_status : option string;
  cl_sub_limits : list (string * JsonScalar)
}.

Definition normalized (roles : list string) : list string := map (fun r => lower (strip r)) roles.

Definition any_of (l names : list string) : bool := existsb (fun r => bool_decide (r ∈ names)) l.

Definition map_global_roles_to_isp_role (roles : list string) (is_platform_owner : bool) : UserRole :=
  let normalized := normalized roles in
  if is_platform_owner || any_of normalized ["platform_owner"] then PLATFORM_OWNER
  else if any_of normalized ["superuser"; "admin"; "isp_admin"; "owner"] then ISP_ADMIN
  else if any_of normalized ["technician"; "isp_technician"; "staff"; "support"] then ISP_TECHNICIAN
  else if any_of normalized ["customer"; "subscriber"; "end_user"] then CUSTOMER
  else CUSTOMER.

Definition _isp_role_to_rbac_role_name (r : UserRole) : string :=
  match r with
  | PLATFORM_OWNER => "superuser"
  | ISP_ADMIN => "admin"
  | ISP_TECHNICIAN => "technician"
  | CUSTOMER => "customer"
  end.

Definition _rank (r : UserRole) : Z :=
  match r with CUSTOMER => 0 | ISP_TECHNICIAN => 1 | ISP_ADMIN => 2 | PLATFORM_OWNER => 3 end.

(** The role of a known user after a sync with these claims. *)
Definition synced_role (roles : list string) (is_platform_owner : bool) (current : UserRole) : UserRole :=
  let isp_role := map_global_roles_to_isp_role roles is_platform_owner in
  let incoming_has_roles := negb (bool_decide (roles = [])) || is_platform_owner in
  if incoming_has_roles && negb (bool_decide (current = isp_role)) then
    if (_rank current <=? _rank isp_role) || negb (bool_decide (isp_role = CUSTOMER)) then isp_role
    else current
  else current.

Definition truthy_text (o : option string) : option string :=
  match o with Some "" | None => None | Some s => Some s end.

(** [s.split(c, 1)] *)
Definition split_once (c : ascii) (s : string) : string * option string :=
  match cut_at c s with Some (a, b) => (a, Some b) | None => (s, None) end.

(** [_split_name]: a full name that is not text has no [strip]. *)
Definition _split_name (full_name : option JsonScalar) (email : string) : outcome (string * string) :=
  let local := fst (split_once "@" (if bool_decide (email = "") then "user" else email)) in
  match full_name with
  | Some (JNum n) => if n =? 0 then Ok (local, local) else Raise (AttributeError "strip")
  | Some (JStr s) =>
      let t := strip s in
      if bool_decide (s = "") || bool_decide (t = "") then Ok (local, local)
      else
        let (first, rest) := split_once " " t in
        let last := default "" rest in
        Ok (first, if bool_decide (last = "") then first else last)
  | Some JNull | None => Ok (local, local)
  end.

(** ** Names for new users *)
Definition base_username (sub : string) (email : string) : string :=
  let derived := if bool_decide (email = "") then "sso_" +:+ sub else fst (split_once "@" email) in
  let base := take_chars 40 derived in
  if bool_decide (base = "") then "sso_" +:+ sub else base.

Definition nth_username (base : string) (suffix : Z) : string :=
  take_chars 50 (base +:+ "_" +:+ str_of_Z suffix).

(** The loop over the candidates, each looked up among the names in use. *)
Fixpoint free_name (used : list string) (candidate : Z -> string) (name : string) (suffix : Z) (fuel : nat)
    : option string :=
  match fuel with
  | O => None
  | S fuel' =>
      if bool_decide (name ∈ used) then free_name used candidate (candidate suffix) (suffix + 1) fuel'
      else Some name
  end.

Definition usernames (db : DB) : list string := map (fun iu => usr_username iu.2) (map_to_list (t_users db)).

(** The rows of [roles], by name. *)
Class RbacRoles := { role_named : string -> option Z }.

(** ** Provisioning *)
Section Provisioning.
Context {be : Backend} {ros : RouterOS} {rbac : RbacRoles}.

Definition one_user (p : User -> bool) : run (option (Z * User)) :=
  rows <- query (fun db => select (fun _ => p) (t_users db)) ;;
  scalar_one_or_none rows.

Definition one_org (p : Z -> OrganizationRow -> bool) : run (option (Z * OrganizationRow)) :=
  rows <- query (fun db => select p (t_organizations db)) ;;
  scalar_one_or_none rows.

(** Link the user to the role row that carries the permissions. *)
Definition _sync_role_obj (i : Z) (r : UserRole) : run unit :=
  role <- query (fun _ => role_named (_isp_role_to_rbac_role_name r)) ;;
  match role with
  | Some rid => set_user i (fun u => u <| usr_role_id := Some rid |>)
  | None => mreturn tt
  end.

(** By slug, then by uuid; a lookup by uuid that fails is ignored. *)
Definition _resolve_organization_id (c : Claims) : run (option Z) :=
  by_slug <- (match truthy_text (cl_tenant_slug c) with
              | Some slug => one_org (fun _ o => bool_decide (org_row_slug o = slug))
              | None => mreturn None
              end) ;;
  match by_slug, truthy_text (cl_tenant_id c) with
  | Some (i, _), _ => mreturn (Some i)
  | None, Some t =>
      mtry
        (org <- one_org (fun _ o => bool_decide (org_row_uuid o = t)) ;;
         mreturn (fst <$> org))
        (fun _ => mreturn None)
  | None, None => mreturn None
  end.

(** What a sync changes on the row of a known user. *)
Definition refresh_user (now : datetime) (c : Claims) (org : option Z) (u : User) : User :=
  u <| usr_auth_service_user_id ::= (fun old => match truthy_text (cl_sub c) with Some s => Some s | None => old end) |>
    <| usr_auth_synced_at := Some now |>
    <| usr_role ::= synced_role (cl_roles c) (cl_is_platform_owner c) |>
    <| usr_organization_id ::= (fun old => match old, org with
         | None, Some o => if cl_is_platform_owner c then None else Some o
         | _, _ => old
         end) |>.

Definition reread_user (i : Z) : run (Z * User) :=
  user <- query (fun db => t_users db !! i) ;;
  match user with
  | Some u => mreturn (i, u)
  | None => mraise (RuntimeError "NoResultFound")
  end.

Definition refresh_known (c : Claims) (org : option Z) (i : Z) (u : User) : run (Z * User) :=
  now <- utcnow ;;
  set_user i (refresh_user now c org) ;;;
  _sync_role_obj i (usr_role (refresh_user now c org u)) ;;;
  commit ;;;
  reread_user i.

(** [random] is the token behind the unusable password. *)
Definition sso_user (now : datetime) (c : Claims) (org : option Z) (username email first last random : string)
    : User :=
  mkUser (if cl_is_platform_owner c then None else org) username
    (if bool_decide (email = "") then username +:+ "@sso.local" else email) None first last
    ("!sso!" +:+ random) (map_global_roles_to_isp_role (cl_roles c) (cl_is_platform_owner c)) U_ACTIVE true true
    (truthy_text (cl_sub c)) (Some now) None None.

(** The fuel of the search for a name: one more than the users there are. *)
Definition create_sso_user (c : Claims) (org : option Z) (email random : string) : run (Z * User) :=
  names <- lift (_split_name (cl_full_name c) email) ;;
  let base := base_username (default "None" (cl_sub c)) email in
  used <- query usernames ;;
  match free_name used (nth_username base) base 1 (S (length used)) with
  | None => mraise (RuntimeError "no free name")
  | Some username =>
      now <- utcnow ;;
      i <- query (fun db => next_id (t_users db)) ;;
      let u := sso_user now c org username email names.1 names.2 random in
      assign (over t_users (insert i u)) ;;;
      commit ;;;
      _sync_role_obj i (usr_role u) ;;;
      commit ;;;
      reread_user i
  end.

Definition provision_sso_user (c : Claims) (random : string) : run (Z * User) :=
  let email := lower (strip (default "" (cl_email c))) in
  match truthy_text (cl_sub c), bool_decide (email = "") with
  | None, true => mraise (HTTPException 401 "SSO token missing subject/email")
  | sub, no_email =>
      by_sub <- (match sub with
                 | Some s => one_user (fun u => bool_decide (usr_auth_service_user_id u = Some s))
                 | None => mreturn None
                 end) ;;
      user <- (match by_sub, no_email with
               | None, false => one_user (fun u => bool_decide (usr_email u = email))
               | o, _ => mreturn o
               end) ;;
      org <- _resolve_organization_id c ;;
      match user with
      | Some (i, u) => refresh_known c org i u
      | None => create_sso_user c org email random
      end
  end.
End Provisioning.

(** ** Tenants *)
Definition is_hex (c : ascii) : bool :=
  let n := Z.of_nat (Ascii.nat_of_ascii c) in
  ((48 <=? n) && (n <=? 57)) || ((97 <=? n) && (n <=? 102)) || ((65 <=? n) && (n <=? 70)).

Fixpoint drop_char (x : ascii) (s : string) : string :=
  match s with
  | EmptyString => EmptyString
  | String c s' => if bool_decide (c = x) then drop_char x s' else String c (drop_char x s')
  end.

Fixpoint all_chars (p : ascii -> bool) (s : string) : bool :=
  match s with EmptyString => true | String c s' => p c && all_chars p s' end.

Fixpoint drop_chars (n : nat) (s : string) : string :=
  match n, s with S n', String _ s' => drop_chars n' s' | _, _ => s end.

(** [s.replace(pat, "")]; [skip] characters of an occurrence are still to go. *)
Fixpoint remove_text (pat : string) (skip : nat) (s : string) : string :=
  match s with
  | EmptyString => EmptyString
  | String c s' =>
      match skip with
      | S k => remove_text pat k s'
      | O => if String.prefix pat s then remove_text pat (String.length pat - 1) s'
             else String c (remove_text pat 0 s')
      end
  end.

Fixpoint lstrip_braces (s : string) : string :=
  match s with
  | String c s' => if bool_decide (c = "{"%char) || bool_decide (c = "}"%char) then lstrip_braces s' else s
  | EmptyString => EmptyString
  end.

(** [str(uuid.UUID(s))]: without [urn:], [uuid:], outer braces and hyphens, 32
    hexadecimal digits are left, or the constructor raises [ValueError], which
    is [None]. (The underscores and the prefix [0x] that [int(_, 16)] takes as
    well are refused.) *)
Definition uuid_of (s : string) : option string :=
  let bare := lstrip_braces (remove_text "uuid:" 0 (remove_text "urn:" 0 s)) in
  let hex := drop_char "-" (rstrip_char "}" (rstrip_char "{" (rstrip_char "}" bare))) in
  if (Nat.eqb (String.length hex) 32) && all_chars is_hex hex then
    let h := lower hex in
    Some (take_chars 8 h +:+ "-" +:+ take_chars 4 (drop_chars 8 h) +:+ "-" +:+ take_chars 4 (drop_chars 12 h)
          +:+ "-" +:+ take_chars 4 (drop_chars 16 h) +:+ "-" +:+ drop_chars 20 h)
  else None.

Example uuid_forms :
  uuid_of "{6F1C0000-0000-0000-0000-0000000000AB}" = Some "6f1c0000-0000-0000-0000-0000000000ab" /\
  uuid_of "urn:uuid:6f1c00000000000000000000000000ab" = uuid_of "6f1c00000000000000000000000000ab" /\
  uuid_of "acme" = None.
Proof. repeat split. Qed.

Definition ISP_USE_CASES : list string :=
  ["isp"; "isp_billing"; "ispbilling"; "internet"; "hotspot"; "hotspot_business"; "pppoe"].

(** [(a or b or "").strip().lower()]: only text has [strip]. *)
Definition stripped_text (l : list (option JsonScalar)) : outcome string :=
  match head (filter (fun o => is_Some (truthy_str o)) l) with
  | Some (Some (JStr s)) => Ok (lower (strip s))
  | Some _ => Raise (AttributeError "strip")
  | None => Ok ""
  end.

(** A text column takes text: a number is refused when it is written. *)
Definition text_column (o : option JsonScalar) : outcome (option string) :=
  match o with
  | Some (JStr s) => Ok (Some s)
  | Some (JNum _) => Raise DatabaseError
  | Some JNull | None => Ok None
  end.

Definition first_given (l : list (option JsonScalar)) : option JsonScalar :=
  default None (head (filter (fun o => is_Some (truthy_str o)) l)).

Record Tenant : Type := mkTenant {
  tn_id : string;
  tn_uuid : string;
  tn_name : string;
  tn_slug : option string
}.

Definition nth_slug (base : string) (suffix : Z) : string :=
  take_chars 100 (base +:+ "-" +:+ str_of_Z suffix).

Definition slugs (db : DB) : list string := map (fun io => org_row_slug io.2) (map_to_list (t_organizations db)).

(** ** The handlers of the identity events *)
Section Consumer.
Context {be : Backend} {ros : RouterOS} {rbac : RbacRoles}.

Definition set_org (i : Z) (f : OrganizationRow -> OrganizationRow) : run unit :=
  assign (over t_organizations (alter f i)).

(** The tenant an event announces: [None] when it is to be ignored. *)
Definition tenant_of_event (e : Envelope) : outcome (option Tenant) :=
  let p := _payload e in
  match first_truthy [member "tenant_id" p; member "id" p; env_tenant_id e; env_aggregate_id e] with
  | None => Ok None
  | Some id =>
      match stripped_text [member "slug" p; member "tenant_slug" p], stripped_text [member "use_case" p] with
      | Raise x, _ | _, Raise x => Raise x
      | Ok slug, Ok use_case =>
          if negb (bool_decide (use_case = "")) && negb (bool_decide (use_case ∈ ISP_USE_CASES)) then Ok None
          else
            match uuid_of id with
            | None => Ok None
            | Some u =>
                match text_column (first_given [member "name" p; member "tenant_name" p; Some (JStr "ISP Provider")]) with
                | Raise x => Raise x
                | Ok name => Ok (Some (mkTenant id u (default "ISP Provider" name) (truthy_text (Some slug))))
                end
            end
      end
  end.

(** By tenant, by uuid, then by slug. *)
Definition find_org (t : Tenant) : run (option (Z * OrganizationRow)) :=
  o1 <- one_org (fun _ o => bool_decide (org_row_auth_tenant_id o = Some (tn_id t))) ;;
  o2 <- (match o1 with
         | Some _ => mreturn o1
         | None => one_org (fun _ o => bool_decide (org_row_uuid o = tn_uuid t))
         end) ;;
  match o2, tn_slug t with
  | None, Some slug => one_org (fun _ o => bool_decide (org_row_slug o = slug))
  | o, _ => mreturn o
  end.

(** The slug is adopted unless another organization has it. *)
Definition adopted_slug (t : Tenant) (i : Z) (o : OrganizationRow) : run string :=
  match tn_slug t with
  | None => mreturn (org_row_slug o)
  | Some slug =>
      if bool_decide (org_row_slug o = slug) then mreturn (org_row_slug o)
      else
        existing <- one_org (fun j o => bool_decide (org_row_slug o = slug) && negb (j =? i)) ;;
        mreturn (match existing with None => slug | Some _ => org_row_slug o end)
  end.

Definition synced_org (t : Tenant) (slug : string) (o : OrganizationRow) : OrganizationRow :=
  o <| org_row_auth_tenant_id := Some (tn_id t) |> <| org_row_uuid := tn_uuid t |>
    <| org_row_name := tn_name t |> <| org_row_slug := slug |>.

Definition sync_org (t : Tenant) (i : Z) (o : OrganizationRow) : run unit :=
  slug <- adopted_slug t i o ;;
  let o' := synced_org t slug o in
  set_org i (fun _ => o') ;;;
  mwhen (negb (bool_decide (org_row_auth_tenant_id o = org_row_auth_tenant_id o')
               && bool_decide (org_row_uuid o = org_row_uuid o')
               && bool_decide (org_row_name o = org_row_name o')
               && bool_decide (org_row_slug o = org_row_slug o'))) commit.

Definition new_org (now : datetime) (t : Tenant) (slug : string) (email phone : option string) : OrganizationRow :=
  mkOrgRow (tn_uuid t) (Some (tn_id t)) (tn_name t) slug TRIAL (or_else email (slug +:+ "@sso.local")) phone
    None None None None (Some (now + timedelta_days 14)) None None.

(** A number in [contact_email] counts when it is not zero. *)
Definition create_org (e : Envelope) (t : Tenant) : run unit :=
  let base := default ("isp-" +:+ take_chars 8 (tn_id t)) (tn_slug t) in
  used <- query slugs ;;
  match free_name used (nth_slug base) base 1 (S (length used)) with
  | None => mraise (RuntimeError "no free slug")
  | Some slug =>
      now <- utcnow ;;
      email <- lift (text_column (first_given [member "contact_email" (_payload e)])) ;;
      phone <- lift (text_column (member "contact_phone" (_payload e))) ;;
      i <- query (fun db => next_id (t_organizations db)) ;;
      assign (over t_organizations (insert i (new_org now t slug email phone))) ;;;
      commit
  end.

Definition handle_auth_tenant (e : Envelope) : run unit :=
  tenant <- lift (tenant_of_event e) ;;
  match tenant with
  | None => mreturn tt
  | Some t =>
      found <- find_org t ;;
      match found with
      | Some (i, o) => sync_org t i o
      | None => create_org e t
      end
  end.

(** [roles] and [owner] are the members [roles] and [is_platform_owner] of the
    payload, which are not scalars. *)
Definition handle_auth_user (e : Envelope) (roles : list string) (owner : bool) (random : string) : run unit :=
  let p := _payload e in
  let id := first_truthy [member "user_id" p; member "id" p; env_aggregate_id e] in
  email <- lift (stripped_text [member "email" p]) ;;
  match id, bool_decide (email = "") with
  | None, true => mreturn tt
  | _, _ =>
      slug <- lift (text_column (first_given [member "tenant_slug" p])) ;;
      _ <- provision_sso_user
             (mkClaims id (truthy_text (Some email)) (first_given [member "full_name" p; member "name" p]) roles owner
                (first_truthy [member "tenant_id" p; env_tenant_id e]) slug false None None []) random ;;
      mreturn tt
  end.
End Consumer.
