(* ===== verification/IdentityFacts.v ===== *)
(** * Identities: what provisioning and mirroring guarantee *)

From S2P Require Import Prelude PyString Numerics Models Session Plan AgentQueue Vouchers Bridge BridgeFacts Portal PortalFacts Pppoe PppoeFacts WireGuard Events Identity.


(** ** The search for a free name ends *)

Lemma take_chars_all n s : (String.length s <= n)%nat -> take_chars n s = s.
Proof.
  revert n. induction s as [|c s IH]; intros [|n] H; simpl in *; [done..|lia|]. rewrite IH by lia. done.
Qed.

Lemma take_chars_length n s : (String.length (take_chars n s) <= n)%nat.
Proof. revert n. induction s as [|c s IH]; intros [|n]; simpl; [lia..|]. specialize (IH n). lia. Qed.

Section Search.
Variables (used : list string) (candidate : Z -> string).

(** The candidates of a search, in order. *)
Fixpoint candidates (name : string) (suffix : Z) (k : nat) : list string :=
  name :: match k with O => [] | S k' => candidates (candidate suffix) (suffix + 1) k' end.

Lemma free_name_sound fuel : forall name suffix x,
  free_name used candidate name suffix fuel = Some x -> x ∉ used.
Proof.
  induction fuel as [|fuel IH]; intros name suffix x; [done|]. simpl. case_bool_decide; [apply IH|].
  by intros [= <-].
Qed.

Lemma free_name_none fuel : forall name suffix,
  free_name used candidate name suffix (S fuel) = None ->
  Forall (fun x => x ∈ used) (candidates name suffix fuel).
Proof.
  induction fuel as [|fuel IH]; intros name suffix H; cbn [free_name] in H; case_bool_decide; [|done| |done].
  - by repeat constructor.
  - constructor; [done|]. by apply IH.
Qed.

Lemma candidates_length k : forall name suffix, length (candidates name suffix k) = S k.
Proof. induction k as [|k IH]; intros name suffix; [done|]. simpl. by rewrite IH. Qed.

Lemma elem_of_candidates k : forall name suffix x,
  x ∈ candidates name suffix k -> x = name \/ exists j, suffix <= j < suffix + Z.of_nat k /\ x = candidate j.
Proof.
  induction k as [|k IH]; intros name suffix x [->|H]%elem_of_cons; [by left|by apply elem_of_nil in H|by left|].
  right. destruct (IH _ _ _ H) as [->|(j & Hj & ->)].
  - exists suffix. split; [lia|done].
  - exists j. split; [lia|done].
Qed.

Lemma candidates_nodup k : forall name suffix,
  (forall j, suffix <= j < suffix + Z.of_nat k -> candidate j <> name) ->
  (forall i j, suffix <= i < suffix + Z.of_nat k -> suffix <= j < suffix + Z.of_nat k ->
     candidate i = candidate j -> i = j) ->
  NoDup (candidates name suffix k).
Proof.
  induction k as [|k IH]; intros name suffix Hn Hinj; constructor.
  - by intros H%elem_of_nil.
  - constructor.
  - intros [E|(j & Hj & E)]%elem_of_candidates.
    + by apply (Hn suffix); [lia|].
    + apply (Hn j); [lia|done].
  - apply IH.
    + intros j Hj E. assert (j = suffix) by (apply Hinj; [lia|lia|done]). lia.
    + intros i j Hi Hj. apply Hinj; lia.
Qed.

(** More distinct candidates than names in use. *)
Lemma free_name_found name suffix :
  (forall j, suffix <= j < suffix + Z.of_nat (length used) -> candidate j <> name) ->
  (forall i j, suffix <= i < suffix + Z.of_nat (length used) -> suffix <= j < suffix + Z.of_nat (length used) ->
     candidate i = candidate j -> i = j) ->
  exists x, free_name used candidate name suffix (S (length used)) = Some x /\ x ∉ used.
Proof.
  intros Hn Hinj. destruct (free_name used candidate name suffix (S (length used))) as [x|] eqn:E.
  - exists x. split; [done|]. by apply free_name_sound in E.
  - apply free_name_none in E. pose proof (candidates_nodup _ _ _ Hn Hinj) as Hnd.
    assert (H : candidates name suffix (length used) ⊆+ used).
    { apply NoDup_submseteq; [done|]. intros x Hx. rewrite Forall_forall in E. by apply E. }
    apply submseteq_length in H. rewrite candidates_length in H. lia.
Qed.
End Search.

Lemma nth_name_distinct (sep : string) (limit : nat) base (n : Z) :
  (1 <= String.length sep)%nat -> (String.length base + String.length sep + 9 <= limit)%nat -> n < 10 ^ 9 - 1 ->
  let candidate k := take_chars limit (base +:+ sep +:+ str_of_Z k) in
  (forall j, 1 <= j < 1 + n -> candidate j <> base) /\
  (forall i j, 1 <= i < 1 + n -> 1 <= j < 1 + n -> candidate i = candidate j -> i = j).
Proof.
  intros Hs Hb Hn candidate.
  assert (Hc : forall k, 1 <= k < 1 + n -> candidate k = base +:+ sep +:+ str_of_Z k).
  { intros k Hk. apply take_chars_all. rewrite !string_length_app.
    pose proof (str_of_Z_length 9 k). lia. }
  split.
  - intros j Hj. rewrite Hc by done. intros H. apply (f_equal String.length) in H.
    rewrite !string_length_app in H. lia.
  - intros i j Hi Hj. rewrite !Hc by done. intros H%string_app_inj%string_app_inj.
    apply str_of_Z_inj in H; lia.
Qed.

(** Naming a new user always ends with a name nobody has: for any address
    with a local part and any names in use (fewer than a thousand million),
    the search with its fuel finds one, and it is not in use. *)
Theorem sso_username_found (sub email : string) (used : list string) :
  fst (split_once "@" email) <> "" -> email <> "" -> Z.of_nat (length used) < 10 ^ 9 - 1 ->
  exists x, free_name used (nth_username (base_username sub email)) (base_username sub email) 1 (S (length used))
      = Some x /\ x ∉ used.
Proof.
  intros Hl He Hn. set (base := base_username sub email).
  assert (Hb : (String.length base <= 40)%nat).
  { unfold base, base_username. rewrite (bool_decide_eq_false_2 (email = "")) by done.
    rewrite bool_decide_eq_false_2; [apply take_chars_length|].
    by destruct (fst (split_once "@" email)). }
  destruct (nth_name_distinct "_" 50 base (Z.of_nat (length used))) as [H1 H2]; [simpl; lia..|lia|].
  by apply free_name_found.
Qed.

(** ** What provisioning keeps *)

(** User [i] is not a customer and belongs to organization [o]. *)
Definition staff_of (i o : Z) (db : DB) : Prop :=
  exists u, t_users db !! i = Some u /\ usr_role u <> CUSTOMER /\ usr_organization_id u = Some o.

Lemma synced_role_staff roles owner r : r <> CUSTOMER -> synced_role roles owner r <> CUSTOMER.
Proof.
  intros H. unfold synced_role. set (x := map_global_roles_to_isp_role roles owner).
  repeat case_match; try done. intros E. rewrite E in *.
  match goal with H0 : _ || _ = true |- _ => apply orb_true_iff in H0 as [H0|H0] end; [|done].
  destruct r; done.
Qed.

Section Kept.
Context {be : Backend} {ros : RouterOS} {rbac : RbacRoles}.
Variables i o : Z.
Abbreviation kept := (db_inv (staff_of i o)).

Lemma staff_alter f j db :
  (forall u, usr_role u <> CUSTOMER -> usr_organization_id u = Some o ->
     usr_role (f u) <> CUSTOMER /\ usr_organization_id (f u) = Some o) ->
  staff_of i o db -> staff_of i o (over t_users (alter f j) db).
Proof.
  intros Hf (u & Hi & Hr & Ho). unfold staff_of. simpl. rewrite lookup_alter.
  case_decide as E; [subst|by exists u]. exists (f u). rewrite Hi. by split; [|apply Hf].
Qed.

Lemma kept_one_user p : preserves kept (one_user p).
Proof. unfold one_user. preserve. Qed.

Lemma kept_one_org p : preserves kept (one_org p).
Proof. unfold one_org. preserve. Qed.

Lemma kept_resolve c : preserves kept (_resolve_organization_id c).
Proof. unfold _resolve_organization_id, one_org. preserve. Qed.

Lemma kept_lift {A} (x : outcome A) : preserves kept (lift x).
Proof. unfold lift. preserve. Qed.

Lemma kept_sync_role j r : preserves kept (_sync_role_obj j r).
Proof. unfold _sync_role_obj, set_user. preserve. intros db. by apply staff_alter. Qed.

Lemma kept_refresh c org j u : preserves kept (refresh_known c org j u).
Proof.
  unfold refresh_known, reread_user, set_user.
  repeat first [apply kept_sync_role | apply preserves_commit | apply preserves_then; [|intros ?] | preserve_step].
  intros db. apply staff_alter. intros u0 Hr Ho. split; [by apply synced_role_staff|]. simpl. by rewrite Ho.
Qed.

Lemma kept_insert db u :
  staff_of i o db -> staff_of i o (over t_users (insert (next_id (t_users db)) u) db).
Proof.
  intros (u0 & Hi & H). exists u0. split; [|done]. simpl. rewrite lookup_insert_ne; [done|].
  intros E. rewrite <- E, next_id_fresh in Hi. done.
Qed.

(** Adding a user under the next identifier. *)
Lemma kept_add {A} u (k : Z -> run A) :
  (forall j, preserves kept (k j)) ->
  preserves kept (j <- query (fun db => next_id (t_users db)) ;; assign (over t_users (insert j u)) ;;; k j).
Proof.
  intros Hk w Hw. unfold mthen at 1, query. destruct (w_broken w); [done|].
  rewrite (mthen_ok (assign _) _ w tt (w <| w_view ::= over t_users (insert (next_id (t_users (w_view w))) u) |>)) by done.
  apply Hk. destruct Hw as [Hv Hd]. split; [by apply kept_insert|done].
Qed.

Lemma kept_create c org email random : preserves kept (create_sso_user c org email random).
Proof.
  unfold create_sso_user. apply preserves_then; [apply kept_lift|intros names]. cbv zeta.
  apply preserves_then; [apply preserves_query|intros used].
  destruct (free_name _ _ _ _ _) as [username|]; [|apply preserves_raise].
  apply preserves_then; [apply preserves_utcnow|intros now]. apply kept_add. intros j.
  apply preserves_then; [apply preserves_commit|intros _].
  apply preserves_then; [apply kept_sync_role|intros _].
  apply preserves_then; [apply preserves_commit|intros _]. unfold reread_user. preserve.
Qed.

Lemma kept_provision c random : preserves kept (provision_sso_user c random).
Proof.
  unfold provision_sso_user. cbv zeta.
  repeat first [apply kept_refresh | apply kept_create | apply kept_one_user | apply kept_resolve
    | apply preserves_then; [|intros ?] | preserve_step].
Qed.

Lemma kept_handle_user e roles owner random : preserves kept (handle_auth_user e roles owner random).
Proof.
  unfold handle_auth_user.
  repeat first [apply kept_lift | apply kept_provision | apply preserves_then; [|intros ?] | preserve_step].
Qed.

Lemma kept_handle_tenant e : preserves kept (handle_auth_tenant e).
Proof.
  unfold handle_auth_tenant, find_org, sync_org, adopted_slug, create_org, set_org.
  repeat first [apply kept_lift | apply kept_one_org | apply preserves_commit
    | apply preserves_then; [|intros ?] | preserve_step]; by intros db.
Qed.
End Kept.

(** One delivery or one request with a token of the single sign-on. *)
Inductive IdentityStep : Type :=
  | Login (c : Claims) (random : string)
  | UserEvent (e : Envelope) (roles : list string) (owner : bool) (random : string)
  | TenantEvent (e : Envelope).

Section Histories.
Context {be : Backend} {ros : RouterOS} {rbac : RbacRoles}.

Definition identify (s : IdentityStep) : run unit :=
  match s with
  | Login c random => _ <- mattempt (in_session (provision_sso_user c random)) ;; mreturn tt
  | UserEvent e roles owner random => _ <- _cb (handle_auth_user e roles owner random) ;; mreturn tt
  | TenantEvent e => _ <- _cb (handle_auth_tenant e) ;; mreturn tt
  end.

Fixpoint identify_all (l : list (datetime * list bool * IdentityStep)) (st : DB * Dev) : DB * Dev :=
  match l with
  | [] => st
  | (now, faults, s) :: l' =>
      let w' := snd (identify s ((start now st.1 st.2) <| w_faults := faults |>)) in
      identify_all l' (w_durable w', w_dev w')
  end.

Lemma kept_identify i o s : preserves (db_inv (staff_of i o)) (identify s).
Proof.
  destruct s; unfold identify, _cb, in_session; apply preserves_then; try (intros ?; apply preserves_return).
  - apply preserves_attempt, preserves_finally; [apply kept_provision|apply preserves_rollback].
  - apply preserves_try; [|intros ?; apply preserves_return].
    apply preserves_then; [|intros ?; apply preserves_return].
    apply preserves_finally; [apply kept_handle_user|apply preserves_rollback].
  - apply preserves_try; [|intros ?; apply preserves_return].
    apply preserves_then; [|intros ?; apply preserves_return].
    apply preserves_finally; [apply kept_handle_tenant|apply preserves_rollback].
Qed.

(** C5. Single sign-on neither turns staff into customers nor moves anybody to
    another tenant: whatever tokens and identity events arrive, with whatever
    roles and tenants, in any order and under any faults, a member of staff of
    an organization stays staff, of that organization. *)
Theorem staff_and_tenant_kept (l : list (datetime * list bool * IdentityStep)) (st : DB * Dev) (i o : Z) :
  staff_of i o st.1 -> staff_of i o (identify_all l st).1.
Proof.
  revert st. induction l as [|[[now faults] s] l IH]; intros st H; [done|]. simpl. apply IH.
  set (w := (start now st.1 st.2) <| w_faults := faults |>).
  assert (Hw : db_inv (staff_of i o) w) by done.
  by destruct (kept_identify i o s w Hw).
Qed.
End Histories.

(** ** Tenants are mirrored *)

(** Replacing a row by one whose key no other row has. *)
Lemma unique_replace {A K} (f : A -> K) (m : gmap Z A) i x :
  unique_by f m -> (forall j y, j <> i -> m !! j = Some y -> f y <> f x) -> unique_by f (alter (fun _ => x) i m).
Proof.
  intros Hu Hx j y Hj k z Hk E. rewrite lookup_alter_Some in Hj, Hk.
  destruct Hj as [(<- & y0 & Hj & ->)|[Hij Hj]], Hk as [(<- & z0 & Hk & ->)|[Hik Hk]]; [done| | |by apply (Hu _ _ Hj _ _ Hk)].
  - by destruct (Hx k z (not_eq_sym Hik) Hk).
  - by destruct (Hx j y (not_eq_sym Hij) Hj).
Qed.

Lemma unique_opt_replace {A K} (f : A -> option K) (m : gmap Z A) i x :
  unique_opt f m -> (forall j y, j <> i -> m !! j = Some y -> f y <> f x) -> unique_opt f (alter (fun _ => x) i m).
Proof.
  intros Hu Hx j y Hj k z Hk Hs E. rewrite lookup_alter_Some in Hj, Hk.
  destruct Hj as [(<- & y0 & Hj & ->)|[Hij Hj]], Hk as [(<- & z0 & Hk & ->)|[Hik Hk]]; [done| | |by apply (Hu _ _ Hj _ _ Hk)].
  - by destruct (Hx k z (not_eq_sym Hik) Hk).
  - by destruct (Hx j y (not_eq_sym Hij) Hj).
Qed.
Section Mirror.
Context {be : Backend} {ros : RouterOS} {rbac : RbacRoles}.

(** Organization [i] carries what the event says of tenant [t]; its slug is the
    tenant's, or that one belongs to another organization. *)
Definition in_sync (t : Tenant) (i : Z) (o : OrganizationRow) (db : DB) : Prop :=
  t_organizations db !! i = Some o /\ org_row_auth_tenant_id o = Some (tn_id t) /\
  org_row_uuid o = tn_uuid t /\ org_row_name o = tn_name t /\
  match tn_slug t with
  | None => True
  | Some s => org_row_slug o = s \/ exists j o', j <> i /\ t_organizations db !! j = Some o' /\ org_row_slug o' = s
  end.

Lemma one_org_row p w r w' :
  one_org p w = (Ok r, w') -> w' = w /\
  match r with
  | Some (i, o) => t_organizations (w_view w) !! i = Some o /\ p i o = true
  | None => forall j o, t_organizations (w_view w) !! j = Some o -> p j o = false
  end.
Proof.
  unfold one_org, mthen, query. destruct (w_broken w); [done|].
  destruct (select p (t_organizations (w_view w))) as [|[i o] [|? ?]] eqn:E; [| |done].
  - intros [= <- <-]. split; [done|]. intros j o Hj. by apply (select_nil_inv p _ j o E).
  - intros [= <- <-]. split; [done|]. apply (elem_of_select p). rewrite E. apply list_elem_of_here.
Qed.

Lemma orgs_unique db : schema_ok db -> orgs_ok (t_organizations db).
Proof. intros (_ & _ & _ & _ & (_ & _ & _ & _ & _ & _ & _ & _ & _ & _ & H)). exact H. Qed.

Lemma mirrored_found t i o w :
  w_broken w = false -> schema_ok (w_view w) -> in_sync t i o (w_view w) -> find_org t w = (Ok (Some (i, o)), w).
Proof.
  intros Hb Hs (Hi & Ha & _). unfold find_org, one_org.
  rewrite mthen_assoc, (mthen_ok _ _ _ _ _ (query_good _ w Hb)).
  rewrite (select_unique (fun _ o => bool_decide (org_row_auth_tenant_id o = Some (tn_id t))) _ i o Hi); [done| |].
  - by apply bool_decide_eq_true_2.
  - intros j o' Hj H%bool_decide_eq_true_1. destruct (orgs_unique _ Hs) as (_ & Hu & _).
    apply (Hu _ _ Hj _ _ Hi); [by rewrite H|congruence].
Qed.

(** Where the event was applied, applying it again writes nothing. *)
Lemma sync_again t i o w :
  w_broken w = false -> schema_ok (w_view w) -> in_sync t i o (w_view w) ->
  exists w', sync_org t i o w = (Ok tt, w') /\ w_durable w' = w_durable w.
Proof.
  intros Hb Hs (Hi & Ha & Hu & Hn & Hsl).
  assert (E : adopted_slug t i o w = (Ok (org_row_slug o), w)).
  { unfold adopted_slug. destruct (tn_slug t) as [s|]; [|done]. case_bool_decide as Hd; [done|].
    destruct Hsl as [Hsl|(j & o' & Hj & Ho' & Hs')]; [done|].
    unfold one_org. rewrite mthen_assoc, (mthen_ok _ _ _ _ _ (query_good _ w Hb)).
    rewrite (select_unique (fun j o => bool_decide (org_row_slug o = s) && negb (j =? i)) _ j o' Ho'); [done| |].
    - rewrite bool_decide_eq_true_2 by done. by rewrite (proj2 (Z.eqb_neq _ _) Hj).
    - intros k x Hk [Hx%bool_decide_eq_true_1 _]%andb_true_iff. destruct (orgs_unique _ Hs) as (_ & _ & Huq).
      apply (Huq _ _ Hk _ _ Ho'). congruence. }
  unfold sync_org. rewrite (mthen_ok _ _ _ _ _ E). cbv zeta.
  assert (Eo : synced_org t (org_row_slug o) o = o).
  { unfold synced_org. destruct o. simpl in *. by subst. }
  rewrite Eo, !bool_decide_eq_true_2 by done. eexists. split; [reflexivity|done].
Qed.

(** The slug that is adopted. *)
Lemma adopted_cases t i o w slug w' :
  adopted_slug t i o w = (Ok slug, w') -> w' = w /\
  match tn_slug t with
  | None => slug = org_row_slug o
  | Some s => slug = s \/ slug = org_row_slug o /\
      exists j o', j <> i /\ t_organizations (w_view w) !! j = Some o' /\ org_row_slug o' = s
  end.
Proof.
  unfold adopted_slug. destruct (tn_slug t) as [s|]; [|by intros [= <- <-]].
  case_bool_decide as Hd; [intros [= <- <-]; by auto|].
  intros (r & w1 & E1 & E2)%then_inv. apply one_org_row in E1 as [-> Hr]. injection E2 as <- <-.
  split; [done|]. destruct r as [[j o']|]; [right|by left]. split; [done|].
  destruct Hr as [Hj [Hs%bool_decide_eq_true_1 Hne]%andb_true_iff]. exists j, o'.
  split; [|done]. intros ->. by rewrite Z.eqb_refl in Hne.
Qed.

(** An acknowledged sync leaves the tenant in step. *)
Lemma sync_org_mirrors t i o w w' :
  w_view w = w_durable w -> t_organizations (w_view w) !! i = Some o -> sync_org t i o w = (Ok tt, w') ->
  exists o', in_sync t i o' (w_durable w').
Proof.
  intros Hd Hi (slug & w1 & E1 & E2)%then_inv. apply adopted_cases in E1 as [-> Hsl].
  set (o' := synced_org t slug o) in *. set (w2 := w <| w_view ::= over t_organizations (alter (fun _ => o') i) |>).
  rewrite (mthen_ok (set_org i (fun _ => o')) _ w tt w2) in E2 by done. exists o'.
  assert (Hrest : match tn_slug t with
    | None => True
    | Some s => org_row_slug o' = s \/ exists j x, j <> i /\ t_organizations (w_view w) !! j = Some x /\ org_row_slug x = s
    end).
  { destruct (tn_slug t) as [s|]; [|done]. destruct Hsl as [->|[-> H]]; [by left|by right]. }
  destruct (bool_decide (org_row_auth_tenant_id o = org_row_auth_tenant_id o') && bool_decide (org_row_uuid o = org_row_uuid o')
    && bool_decide (org_row_name o = org_row_name o') && bool_decide (org_row_slug o = org_row_slug o')) eqn:Eq;
    rewrite ?Eq in E2; simpl in E2.
  - injection E2 as <-. apply andb_true_iff in Eq as [[[E1%bool_decide_eq_true_1 E2%bool_decide_eq_true_1]%andb_true_iff
      E3%bool_decide_eq_true_1]%andb_true_iff E4%bool_decide_eq_true_1].
    assert (o = o') as Ho by (unfold o', synced_org in *; destruct o; simpl in *; congruence).
    unfold in_sync. simpl. rewrite <- Hd. rewrite <- Ho at 1. by repeat split.
  - assert (Hw' : w_durable w' = w_view w2).
    { unfold commit, mthen, flush in E2. destruct (w_broken w2); [done|].
      destruct (_ || _); [done|]. injection E2 as <-. done. }
    unfold in_sync. rewrite Hw'. split; [simpl; by rewrite lookup_alter_eq, Hi|]. split; [done|].
    split; [done|]. split; [done|]. destruct (tn_slug t) as [s|]; [|done].
    destruct Hrest as [H|(j & x & Hj & Hx & Hs)]; [by left|right]. exists j, x. split; [done|]. split; [|done].
    simpl. by rewrite lookup_alter_ne.
Qed.

Lemma find_org_row t w r w' :
  find_org t w = (Ok r, w') -> w' = w /\
  match r with
  | Some (i, o) => t_organizations (w_view w) !! i = Some o
  | None => forall s, tn_slug t = Some s -> forall j o, t_organizations (w_view w) !! j = Some o -> org_row_slug o <> s
  end.
Proof.
  intros (r1 & w1 & [-> H1]%one_org_row & (r2 & w2 & E2 & E3)%then_inv)%then_inv.
  assert (Hr2 : w2 = w /\ match r2 with Some (i, o) => t_organizations (w_view w) !! i = Some o | None => True end).
  { destruct r1 as [[i o]|]; [injection E2 as <- <-; by destruct H1|].
    apply one_org_row in E2 as [-> H2]. split; [done|]. destruct r2 as [[i o]|]; [by destruct H2|done]. }
  destruct Hr2 as [-> H2]. destruct r2 as [[i o]|]; [by injection E3 as <- <-|].
  destruct (tn_slug t) as [s|]; [|by injection E3 as <- <-].
  apply one_org_row in E3 as [-> H3]. split; [done|]. destruct r as [[i o]|]; [by destruct H3|].
  intros s0 [= <-] j o Hj. specialize (H3 j o Hj). by apply bool_decide_eq_false_1 in H3.
Qed.

(** A commit that succeeds makes the view durable. *)
Lemma commit_view w w' : commit w = (Ok tt, w') -> w_durable w' = w_view w.
Proof.
  unfold commit, mthen, flush. destruct (w_broken w); [done|]. destruct (_ || _); [done|]. by intros [= <-].
Qed.

Lemma slug_in_use db j o : t_organizations db !! j = Some o -> org_row_slug o ∈ slugs db.
Proof.
  intros H. apply list_elem_of_fmap. exists (j, o). split; [done|]. by apply elem_of_map_to_list.
Qed.

Lemma lift_inv {A} (x : outcome A) a w w' : lift x w = (Ok a, w') -> w' = w /\ x = Ok a.
Proof. destruct x; [|done]. by intros [= <- <-]. Qed.

Lemma create_org_mirrors e t w w' :
  (forall s, tn_slug t = Some s -> forall j o, t_organizations (w_view w) !! j = Some o -> org_row_slug o <> s) ->
  create_org e t w = (Ok tt, w') -> exists i o, in_sync t i o (w_durable w').
Proof.
  intros Hfree (used & w1 & E1 & E2)%then_inv. unfold query in E1. destruct (w_broken w); [done|].
  injection E1 as <- <-. set (used := slugs (w_view w)) in E2.
  set (base := default ("isp-" +:+ take_chars 8 (tn_id t)) (tn_slug t)) in E2.
  destruct (free_name used (nth_slug base) base 1 (S (length used))) as [slug|] eqn:Es; [|done].
  apply then_inv in E2 as (now & w2 & [= <- <-] & E2). apply then_inv in E2 as (email & w3 & E3 & E2).
  apply lift_inv in E3 as [-> _].
  apply then_inv in E2 as (phone & w4 & E4 & E2).
  apply lift_inv in E4 as [-> _].
  apply then_inv in E2 as (i & w5 & E5 & E2). unfold query in E5. destruct (w_broken w); [done|].
  injection E5 as <- <-. set (i := next_id (t_organizations (w_view w))) in E2.
  set (o := new_org (w_now w) t slug email phone) in E2.
  rewrite (mthen_ok (assign _) _ w tt (w <| w_view ::= over t_organizations (insert i o) |>)) in E2 by done.
  apply commit_view in E2. exists i, o. unfold in_sync. rewrite E2.
  split; [apply lookup_insert_eq|]. split; [done|]. split; [done|]. split; [done|].
  destruct (tn_slug t) as [s|] eqn:Et; [left|done]. simpl.
  assert (Hs : s ∉ used).
  { unfold used, slugs. intros H. apply list_elem_of_fmap in H as ([j x] & Hx & Hin).
    apply elem_of_map_to_list in Hin. by apply (Hfree s eq_refl j x Hin). }
  unfold base in Es. cbn [free_name default] in Es. unfold default in Es.
  rewrite bool_decide_eq_false_2 in Es by done. by injection Es as <-.
Qed.

Lemma durable_lift {A} (x : outcome A) : preserves durable_ok (lift x).
Proof. intros w Hw. by destruct x. Qed.

Lemma durable_one_org p : preserves durable_ok (one_org p).
Proof. apply preserves_then; [apply durable_query|intros rows; apply durable_scalar]. Qed.

Lemma durable_tenant e : preserves durable_ok (handle_auth_tenant e).
Proof.
  unfold handle_auth_tenant, find_org, sync_org, adopted_slug, create_org, set_org, mwhen.
  repeat first [apply durable_lift | apply durable_one_org | apply durable_query | apply durable_assign | apply durable_commit
    | apply preserves_return | apply preserves_raise | apply preserves_then; [|intros ?]
    | match goal with |- preserves _ utcnow => by intros w0 | |- preserves _ (match ?x with _ => _ end) => destruct x end ].
Qed.

(** A tenant event that is acknowledged is mirrored, once and for all: the
    committed tables hold an organization under the tenant's identity and
    uuid, whatever flushes the server refused on the way, and delivering the
    event again on those tables is acknowledged and leaves them as they are. *)
Theorem tenant_event_mirrored e t w w' :
  w_view w = w_durable w -> schema_ok (w_durable w) ->
  tenant_of_event e = Ok (Some t) -> handle_auth_tenant e w = (Ok tt, w') ->
  (exists i o, t_organizations (w_durable w') !! i = Some o /\
     org_row_auth_tenant_id o = Some (tn_id t) /\ org_row_uuid o = tn_uuid t) /\
  forall w2, w_broken w2 = false -> w_view w2 = w_durable w' -> w_durable w2 = w_durable w' ->
    exists w3, handle_auth_tenant e w2 = (Ok tt, w3) /\ w_durable w3 = w_durable w'.
Proof.
  intros Hd Hs Ht E. pose proof (durable_tenant e w Hs) as Hs'. rewrite E in Hs'. simpl in Hs'.
  assert (H : exists i o, in_sync t i o (w_durable w')).
  { unfold handle_auth_tenant in E. rewrite Ht in E. unfold lift in E. rewrite mthen_return in E.
    apply then_inv in E as (r & w1 & [-> Hr]%find_org_row & E2). destruct r as [[i o]|].
    - exists i. by apply (sync_org_mirrors t i o w).
    - by apply (create_org_mirrors e t w). }
  destruct H as (i & o & Hin). split.
  - destruct Hin as (Hi & Ha & Hu & _). by exists i, o.
  - intros w2 Hb2 Hv2 Hd2. rewrite <- Hv2 in Hin.
    assert (Hs2 : schema_ok (w_view w2)) by (by rewrite Hv2).
    unfold handle_auth_tenant. rewrite Ht. unfold lift. rewrite mthen_return.
    rewrite (mthen_ok _ _ _ _ _ (mirrored_found t i o w2 Hb2 Hs2 Hin)).
    destruct (sync_again t i o w2 Hb2 Hs2 Hin) as (w3 & E3 & Hd3). exists w3. split; [done|]. by rewrite Hd3.
Qed.

(** A tenant's organization can be taken over by its slug: an event of an
    unknown tenant that carries the slug of an organization linked to another
    tenant, with a fresh identity, rebinds that organization, with its
    customers, routers and plans, to the new tenant; the old tenant is left
    without one. *)
Theorem slug_rebinds_organization e t i o old w :
  good w -> tenant_of_event e = Ok (Some t) -> tn_slug t = Some (org_row_slug o) ->
  t_organizations (w_view w) !! i = Some o -> org_row_auth_tenant_id o = Some old -> old <> tn_id t ->
  (forall j x, t_organizations (w_view w) !! j = Some x ->
     org_row_auth_tenant_id x <> Some (tn_id t) /\ org_row_uuid x <> tn_uuid t) ->
  exists w', handle_auth_tenant e w = (Ok tt, w') /\
    t_organizations (w_durable w') = <[i := synced_org t (org_row_slug o) o]> (t_organizations (w_view w)) /\
    forall j x, t_organizations (w_durable w') !! j = Some x -> org_row_auth_tenant_id x <> Some old.
Proof.
  intros Hg Ht Hsl Hi Hold Hne Hfresh. pose proof (good_broken w Hg) as Hb.
  destruct (orgs_unique _ (good_schema w Hg)) as (Hu1 & Hu2 & Hu3).
  assert (Ef : find_org t w = (Ok (Some (i, o)), w)).
  { unfold find_org, one_org. rewrite mthen_assoc, (mthen_ok _ _ _ _ _ (query_good _ w Hb)).
    rewrite select_none by (intros j x Hj; apply bool_decide_eq_false_2; by apply (Hfresh j)).
    simpl scalar_one_or_none. rewrite mthen_return, mthen_assoc, (mthen_ok _ _ _ _ _ (query_good _ w Hb)).
    rewrite select_none by (intros j x Hj; apply bool_decide_eq_false_2; by apply (Hfresh j)).
    simpl scalar_one_or_none. rewrite mthen_return, Hsl, (mthen_ok _ _ _ _ _ (query_good _ w Hb)).
    rewrite (select_unique (fun _ x => bool_decide (org_row_slug x = org_row_slug o)) _ i o Hi); [done| |].
    - by apply bool_decide_eq_true_2.
    - intros j x Hj H%bool_decide_eq_true_1. by apply (Hu3 _ _ Hj _ _ Hi). }
  set (o' := synced_org t (org_row_slug o) o).
  set (w1 := w <| w_view ::= over t_organizations (alter (fun _ => o') i) |>).
  assert (Hg1 : good w1).
  { apply good_portal; [done..|]. unfold portal_ok, portal_tables, orgs_ok. simpl.
    intros (H1 & H2 & H3 & H4 & H5 & H6 & H7 & H8 & H9 & H10 & _).
    refine (conj H1 (conj H2 (conj H3 (conj H4 (conj H5 (conj H6 (conj H7 (conj H8 (conj H9 (conj H10 _)))))))))).
    split; [|split].
    - apply unique_replace; [done|]. intros j x _ Hj. by apply (Hfresh j).
    - apply unique_opt_replace; [done|]. intros j x _ Hj. by apply (Hfresh j).
    - apply unique_alter; [done|]. intros x Hx. simpl. congruence. }
  exists (w1 <| w_durable := w_view w1 |>). split; [|split].
  - unfold handle_auth_tenant. rewrite Ht. unfold lift. rewrite mthen_return, (mthen_ok _ _ _ _ _ Ef).
    unfold sync_org. rewrite (mthen_ok _ _ w (org_row_slug o) w).
    2:{ unfold adopted_slug. by rewrite Hsl, bool_decide_eq_true_2. }
    cbv zeta. fold o'. rewrite (mthen_ok (set_org i (fun _ => o')) _ w tt w1) by done.
    rewrite (bool_decide_eq_false_2 (org_row_auth_tenant_id o = _)) by (rewrite Hold; simpl; congruence).
    simpl. exact (commit_good w1 Hg1).
  - simpl. rewrite <- (insert_id _ _ _ Hi) at 1. by rewrite alter_insert_eq.
  - intros j x. simpl. rewrite lookup_alter. case_decide as Ej; [subst; rewrite Hi; intros [= <-]; simpl; congruence|].
    intros Hj Hx. apply Ej. symmetry. apply (Hu2 _ _ Hj _ _ Hi); [by rewrite Hx|congruence].
Qed.
End Mirror.

(** ** Provisioning twice *)
Section Twice.
Context {be : Backend} {ros : RouterOS} {rbac : RbacRoles}.

(** The organization the claims lead to. *)
Definition org_of_claims (c : Claims) (db : DB) : option Z :=
  let by_slug := match truthy_text (cl_tenant_slug c) with
    | Some slug => head (select (fun _ o => bool_decide (org_row_slug o = slug)) (t_organizations db))
    | None => None
    end in
  match by_slug, truthy_text (cl_tenant_id c) with
  | Some (i, _), _ => Some i
  | None, Some t => fst <$> head (select (fun _ o => bool_decide (org_row_uuid o = t)) (t_organizations db))
  | None, None => None
  end.

Lemma one_org_unique {K} (f : OrganizationRow -> K) `{!EqDecision K} (k : K) w :
  w_broken w = false -> unique_by f (t_organizations (w_view w)) ->
  one_org (fun _ o => bool_decide (f o = k)) w
  = (Ok (head (select (fun _ o => bool_decide (f o = k)) (t_organizations (w_view w)))), w).
Proof.
  intros Hb Hu. unfold one_org. rewrite (mthen_ok _ _ _ _ _ (query_good _ w Hb)).
  destruct (select_one (fun _ o => bool_decide (f o = k)) (t_organizations (w_view w))) as [->|(j & x & -> & _)]; [|done..].
  intros i x j y Hi Hj Hx%bool_decide_eq_true_1 Hy%bool_decide_eq_true_1.
  apply (Hu _ _ Hi _ _ Hj). congruence.
Qed.

Lemma resolve_run c w : good w -> _resolve_organization_id c w = (Ok (org_of_claims c (w_view w)), w).
Proof.
  intros Hg. pose proof (good_broken w Hg) as Hb. destruct (orgs_unique _ (good_schema w Hg)) as (Hu & _ & Hs).
  unfold _resolve_organization_id, org_of_claims.
  assert (E : (match truthy_text (cl_tenant_slug c) with
      | Some slug => one_org (fun _ o => bool_decide (org_row_slug o = slug)) | None => mreturn None end) w
    = (Ok (match truthy_text (cl_tenant_slug c) with
      | Some slug => head (select (fun _ o => bool_decide (org_row_slug o = slug)) (t_organizations (w_view w)))
      | None => None end), w)).
  { destruct (truthy_text (cl_tenant_slug c)); [by apply (one_org_unique org_row_slug)|done]. }
  rewrite (mthen_ok _ _ _ _ _ E). destruct (match truthy_text _ with Some _ => _ | None => None end) as [[i o]|]; [done|].
  destruct (truthy_text (cl_tenant_id c)); [|done]. apply mtry_ok.
  by rewrite (mthen_ok _ _ _ _ _ (one_org_unique org_row_uuid _ w Hb Hu)).
Qed.

Definition link_role (r : UserRole) (u : User) : User :=
  match role_named (_isp_role_to_rbac_role_name r) with Some rid => u <| usr_role_id := Some rid |> | None => u end.

Lemma sync_role_run i r w :
  w_broken w = false ->
  _sync_role_obj i r w = (Ok tt, w <| w_view ::= over t_users (alter (link_role r) i) |>).
Proof.
  intros Hb. unfold _sync_role_obj, link_role. rewrite (mthen_ok _ _ _ _ _ (query_good _ w Hb)).
  destruct (role_named _) as [rid|]; [done|]. unfold mreturn. do 2 f_equal.
  assert (E : alter (fun u : User => u) i (t_users (w_view w)) = t_users (w_view w)) by (by apply alter_id).
  unfold over. simpl. rewrite E. destruct w as [? []]. done.
Qed.

(** A row that another sync with the same claims only dates anew. *)
Definition settled (c : Claims) (org : option Z) (u : User) : Prop :=
  usr_auth_service_user_id u = truthy_text (cl_sub c) /\
  link_role (usr_role u) u = u /\
  forall now, refresh_user now c org u = u <| usr_auth_synced_at := Some now |>.

Lemma synced_role_twice roles owner r : synced_role roles owner (synced_role roles owner r) = synced_role roles owner r.
Proof.
  unfold synced_role. set (x := map_global_roles_to_isp_role roles owner).
  destruct (negb (bool_decide (roles = [])) || owner); [|done]. simpl.
  destruct (decide (r = x)) as [->|Hne].
  - rewrite (bool_decide_eq_true_2 (x = x)) by done. simpl. by rewrite bool_decide_eq_true_2.
  - rewrite (bool_decide_eq_false_2 (r = x)) by done. simpl.
    destruct ((_rank r <=? _rank x) || negb (bool_decide (x = CUSTOMER))) eqn:E.
    + by rewrite bool_decide_eq_true_2.
    + rewrite bool_decide_eq_false_2 by done. simpl. by rewrite E.
Qed.

Lemma refreshed_settled now c org u s :
  truthy_text (cl_sub c) = Some s -> settled c org (link_role (usr_role (refresh_user now c org u)) (refresh_user now c org u)).
Proof.
  intros Hs. set (v := refresh_user now c org u).
  assert (Hr : forall r x, usr_role (link_role r x) = usr_role x) by (intros r x; unfold link_role; by case_match).
  assert (Ho : forall r x, usr_organization_id (link_role r x) = usr_organization_id x) by (intros r x; unfold link_role; by case_match).
  assert (Ha : forall r x, usr_auth_service_user_id (link_role r x) = usr_auth_service_user_id x)
    by (intros r x; unfold link_role; by case_match).
  split; [|split].
  - rewrite Ha. simpl. by rewrite Hs.
  - rewrite Hr. unfold link_role. by case_match.
  - intros now2. unfold refresh_user at 1. rewrite Hs.
    assert (E : forall x y : User, x = y -> x = y) by done.
    set (x := link_role (usr_role v) v).
    assert (H1 : usr_auth_service_user_id x = Some s) by (unfold x; rewrite Ha; simpl; by rewrite Hs).
    assert (H2 : synced_role (cl_roles c) (cl_is_platform_owner c) (usr_role x) = usr_role x)
      by (unfold x; rewrite Hr; apply synced_role_twice).
    assert (H3 : match usr_organization_id x, org with
      | None, Some o => if cl_is_platform_owner c then None else Some o | _, _ => usr_organization_id x end = usr_organization_id x).
    { unfold x. rewrite Ho. unfold v, refresh_user. simpl.
      destruct (usr_organization_id u), org, (cl_is_platform_owner c); done. }
    clearbody x. destruct x. simpl in *. by rewrite H2, H3, H1.
Qed.

Lemma unique_opt_alter {A K} (f : A -> option K) (g : A -> A) (m : gmap Z A) i :
  unique_opt f m -> (forall x, m !! i = Some x -> f (g x) = f x) -> unique_opt f (alter g i m).
Proof.
  intros Hu Hg j y Hj k z Hk Hs E.
  apply (lookup_alter_origin g (fun y x => f y = f x)) in Hj as (y' & Hj & Ey), Hk as (z' & Hk & Ez); try done.
  apply (Hu _ _ Hj _ _ Hk); congruence.
Qed.

(** Changing the columns of a user other than its keys. *)
Lemma good_alter_user f i w :
  good w ->
  (forall u, t_users (w_view w) !! i = Some u ->
     usr_username (f u) = usr_username u /\ usr_email (f u) = usr_email u /\ usr_phone (f u) = usr_phone u /\
     usr_auth_service_user_id (f u) = usr_auth_service_user_id u) ->
  good (w <| w_view ::= over t_users (alter f i) |>).
Proof.
  intros [Hb Hf (H1 & H2 & H3 & (B1 & B2 & B3 & B4 & B5)
    & (P1 & P2 & P3 & P4 & P5 & P6 & P7 & P8 & P9 & P10 & P11))] Hk.
  split; [done..|]. split; [done|]. split; [done|]. split; [done|]. split.
  - split; [done|]. split; [done|]. split; [done|]. split; [|done].
    intros j p Hj. apply (payment_ok_more_users (t_users (w_view w))); [|by apply (B4 j)].
    intros k Hs. simpl. by rewrite lookup_alter_is_Some.
  - split; [|split; [|split; [|do 6 (split; [done|]); split; [|exact P11]]]].
    + apply unique_alter; [done|]. intros u Hu. by apply Hk.
    + apply unique_alter; [done|]. intros u Hu. by apply Hk.
    + apply unique_opt_alter; [done|]. intros u Hu. by apply Hk.
    + apply unique_opt_alter; [done|]. intros u Hu. by apply Hk.
Qed.

(** A sync with claims that were applied before. *)
Lemma provision_settled c random i u s w :
  good w -> truthy_text (cl_sub c) = Some s -> t_users (w_view w) !! i = Some u ->
  settled c (org_of_claims c (w_view w)) u ->
  exists w', provision_sso_user c random w = (Ok (i, u <| usr_auth_synced_at := Some (w_now w) |>), w') /\
    t_users (w_durable w') = alter (fun u => u <| usr_auth_synced_at := Some (w_now w) |>) i (t_users (w_view w)) /\
    w_durable w' = (w_view w) <| t_users := t_users (w_durable w') |>.
Proof.
  intros Hg Hs Hi (Ha & Hl & Hr). pose proof (good_broken w Hg) as Hb. rewrite Hs in Ha.
  set (date := fun u : User => u <| usr_auth_synced_at := Some (w_now w) |>).
  set (w1 := w <| w_view ::= over t_users (alter date i) |>).
  assert (Hg1 : good w1) by (by apply good_alter_user).
  assert (Ef : one_user (fun u => bool_decide (usr_auth_service_user_id u = Some s)) w = (Ok (Some (i, u)), w)).
  { unfold one_user. rewrite (mthen_ok _ _ _ _ _ (query_good _ w Hb)).
    rewrite (select_unique (fun _ u => bool_decide (usr_auth_service_user_id u = Some s)) _ i u Hi); [done| |].
    - by apply bool_decide_eq_true_2.
    - intros j v Hj Hv%bool_decide_eq_true_1.
      destruct Hg as [_ _ (_ & _ & _ & _ & (_ & _ & _ & _ & _ & _ & _ & _ & _ & Hu & _))].
      apply (Hu _ _ Hj _ _ Hi); [by rewrite Hv|congruence]. }
  assert (E1 : set_user i (refresh_user (w_now w) c (org_of_claims c (w_view w))) w = (Ok tt, w1)).
  { assert (Em : alter (refresh_user (w_now w) c (org_of_claims c (w_view w))) i (t_users (w_view w))
                 = alter date i (t_users (w_view w))).
    { apply map_eq. intros j. rewrite !lookup_alter. case_decide as E; [subst|done]. rewrite Hi. simpl. by rewrite Hr. }
    unfold set_user, assign, mmodify, w1, over. simpl. by rewrite Em. }
  assert (E2 : _sync_role_obj i (usr_role (refresh_user (w_now w) c (org_of_claims c (w_view w)) u)) w1 = (Ok tt, w1)).
  { rewrite (sync_role_run _ _ w1 (good_broken w1 Hg1)), Hr.
    assert (Em : alter (link_role (usr_role u)) i (alter date i (t_users (w_view w))) = alter date i (t_users (w_view w))).
    { apply map_eq. intros j. destruct (decide (i = j)) as [->|Hne]; [|by rewrite lookup_alter_ne].
      rewrite !lookup_alter_eq, Hi. simpl. f_equal.
      unfold link_role in *. destruct (role_named _); [|done]. unfold date. destruct u. simpl in *. congruence. }
    unfold w1, over. simpl. by rewrite Em. }
  exists (w1 <| w_durable := w_view w1 |>). split; [|split; [done|]].
  - unfold provision_sso_user. rewrite Hs. cbv zeta. cbv iota beta.
    rewrite (mthen_ok _ _ _ _ _ Ef).
    rewrite (mthen_ok (mreturn _) _ w (Some (i, u)) w) by done.
    rewrite (mthen_ok _ _ _ _ _ (resolve_run c w Hg)). unfold refresh_known.
    rewrite (mthen_ok utcnow _ w (w_now w) w) by done. rewrite (mthen_ok _ _ _ _ _ E1), (mthen_ok _ _ _ _ _ E2).
    rewrite (mthen_ok _ _ _ _ _ (commit_good w1 Hg1)). unfold reread_user.
    unfold mthen, query. simpl. by rewrite Hb, lookup_alter_eq, Hi.
  - simpl. by destruct (w_view w).
Qed.

Lemma commit_inv w w' : commit w = (Ok tt, w') -> w_durable w' = w_view w /\ w_view w' = w_view w /\ w_broken w' = false.
Proof.
  unfold commit, mthen, flush. destruct (w_broken w) eqn:Hb; [done|]. destruct (_ || _); [done|]. by intros [= <-].
Qed.

Lemma reread_inv i j u w w' : reread_user i w = (Ok (j, u), w') -> w' = w /\ j = i /\ t_users (w_view w) !! i = Some u.
Proof.
  intros (o & w1 & (-> & -> & _)%query_inv & E)%then_inv. destruct (t_users (w_view w) !! i) eqn:Hi; [|done].
  by injection E as <- <- <-.
Qed.

(** What both branches end with. *)
Definition linked (c : Claims) (org : option Z) (db : DB) (i : Z) (u : User) (db' : DB) : Prop :=
  settled c org u /\ t_users db' !! i = Some u /\ t_organizations db' = t_organizations db.

Lemma refresh_known_inv c org i u0 s w j u w' :
  truthy_text (cl_sub c) = Some s -> w_broken w = false -> t_users (w_view w) !! i = Some u0 ->
  refresh_known c org i u0 w = (Ok (j, u), w') -> linked c org (w_view w) j u (w_durable w').
Proof.
  intros Hs Hb Hi (now & w0 & [= <- <-] & E)%then_inv.
  set (w1 := w <| w_view ::= over t_users (alter (refresh_user (w_now w) c org) i) |>).
  rewrite (mthen_ok (set_user _ _) _ w tt w1) in E by done.
  rewrite (mthen_ok _ _ _ _ _ (sync_role_run i _ w1 Hb)) in E.
  apply then_inv in E as ([] & w2 & (Hd & Hv & _)%commit_inv & (-> & -> & Hu)%reread_inv).
  rewrite Hv in Hu. simpl in Hu. rewrite !lookup_alter_eq, Hi in Hu. simpl in Hu. injection Hu as <-.
  split; [by apply (refreshed_settled _ _ _ _ s)|]. rewrite Hd. simpl. by rewrite !lookup_alter_eq, Hi.
Qed.

Lemma created_settled now c org username email first last random s :
  truthy_text (cl_sub c) = Some s ->
  let u := sso_user now c org username email first last random in
  settled c org (link_role (usr_role u) u).
Proof.
  intros Hs u. assert (E : u = refresh_user now c org u).
  { unfold u, refresh_user, sso_user. simpl. rewrite Hs. f_equal.
    - by destruct org, (cl_is_platform_owner c).
    - unfold synced_role. rewrite (bool_decide_eq_true_2 (map_global_roles_to_isp_role _ _ = _)) by done.
      by rewrite andb_false_r. }
  rewrite E. by apply (refreshed_settled _ _ _ _ s).
Qed.

Lemma create_inv c org email random s w j u w' :
  truthy_text (cl_sub c) = Some s -> create_sso_user c org email random w = (Ok (j, u), w') ->
  linked c org (w_view w) j u (w_durable w').
Proof.
  intros Hs (names & w1 & [-> _]%lift_inv & E)%then_inv. cbv zeta in E.
  apply then_inv in E as (used & w1 & (-> & -> & Hb)%query_inv & E).
  destruct (free_name _ _ _ _ _) as [username|]; [|done].
  apply then_inv in E as (now & w0 & [= <- <-] & E).
  apply then_inv in E as (i & w0 & (-> & -> & _)%query_inv & E). set (i := next_id (t_users (w_view w))) in E.
  set (u0 := sso_user (w_now w) c org username email names.1 names.2 random) in E.
  rewrite (mthen_ok (assign _) _ w tt (w <| w_view ::= over t_users (insert i u0) |>)) in E by done.
  apply then_inv in E as ([] & w2 & (Hd2 & Hv2 & Hb2)%commit_inv & E).
  rewrite (mthen_ok _ _ _ _ _ (sync_role_run _ _ _ Hb2)) in E.
  apply then_inv in E as ([] & w3 & (Hd3 & Hv3 & _)%commit_inv & (-> & -> & Hu)%reread_inv).
  rewrite Hv3 in Hu. simpl in Hu. rewrite Hv2 in Hu. simpl in Hu. rewrite lookup_alter_eq, lookup_insert_eq in Hu.
  simpl in Hu. injection Hu as <-.
  split; [by apply created_settled with s|]. rewrite Hd3. simpl. rewrite Hv2. simpl.
  by rewrite lookup_alter_eq, lookup_insert_eq.
Qed.

Lemma one_user_inv p w r w' :
  one_user p w = (Ok r, w') -> w' = w /\ match r with Some (i, u) => t_users (w_view w) !! i = Some u | None => True end.
Proof.
  intros (rows & w1 & (-> & -> & _)%query_inv & E)%then_inv.
  destruct (select (fun _ => p) (t_users (w_view w))) as [|[i u] [|? ?]] eqn:Es; [by injection E as <- <-| |done].
  injection E as <- <-. split; [done|].
  assert (Hin : (i, u) ∈ select (fun _ => p) (t_users (w_view w))) by (rewrite Es; apply list_elem_of_here).
  by apply (elem_of_select (fun _ => p)) in Hin as [H _].
Qed.

Lemma provision_inv c random s w j u w' :
  good w -> truthy_text (cl_sub c) = Some s -> provision_sso_user c random w = (Ok (j, u), w') ->
  linked c (org_of_claims c (w_view w)) (w_view w) j u (w_durable w').
Proof.
  intros Hg Hs E. unfold provision_sso_user in E. rewrite Hs in E. cbv zeta in E. cbv iota beta in E.
  apply then_inv in E as (r1 & w1 & [-> H1]%one_user_inv & E).
  apply then_inv in E as (r2 & w2 & E2 & E).
  assert (H2 : w2 = w /\ match r2 with Some (i, u) => t_users (w_view w) !! i = Some u | None => True end).
  { destruct r1 as [[i u1]|]; [injection E2 as <- <-; done|].
    destruct (bool_decide _); [by injection E2 as <- <-|]. by apply one_user_inv in E2. }
  destruct H2 as [-> H2]. rewrite (mthen_ok _ _ _ _ _ (resolve_run c w Hg)) in E.
  destruct r2 as [[i u2]|].
  - exact (refresh_known_inv _ _ _ _ s _ _ _ _ Hs (good_broken w Hg) H2 E).
  - exact (create_inv _ _ _ _ s _ _ _ _ Hs E).
Qed.

Lemma org_of_claims_frame c db db' :
  t_organizations db' = t_organizations db -> org_of_claims c db' = org_of_claims c db.
Proof. unfold org_of_claims. by intros ->. Qed.

(** Signing on again finds the user that the first sign-on left: once a
    token with a subject was accepted, accepting a token with the same claims
    later returns the same user with the same role, tenant and permissions,
    adds nobody, and changes nothing but the date of the sync. *)
Theorem sso_sign_on_idempotent c random random2 s i u w w1 w2 :
  good w -> truthy_text (cl_sub c) = Some s -> provision_sso_user c random w = (Ok (i, u), w1) ->
  good w2 -> w_view w2 = w_durable w1 ->
  exists w3, provision_sso_user c random2 w2 = (Ok (i, u <| usr_auth_synced_at := Some (w_now w2) |>), w3) /\
    t_users (w_durable w3)
      = alter (fun u => u <| usr_auth_synced_at := Some (w_now w2) |>) i (t_users (w_durable w1)) /\
    w_durable w3 = (w_durable w1) <| t_users := t_users (w_durable w3) |>.
Proof.
  intros Hg Hs E Hg2 Hv2. destruct (provision_inv _ _ _ _ _ _ _ Hg Hs E) as (Hset & Hi & Ho).
  rewrite <- Hv2 in *. apply (provision_settled c random2 i u s); [done|done|done|].
  by rewrite (org_of_claims_frame _ _ _ Ho).
Qed.
End Twice.

(** ** Concrete runs *)
#[export] Instance seeded_roles : RbacRoles := {
  role_named name := if bool_decide (name = "admin") then Some 2 else None
}.

Lemma sso_username_found_witness :
  exists x, free_name ["jane"; "jane_1"] (nth_username "jane") "jane" 1 3 = Some x /\ x ∉ ["jane"; "jane_1"].
Proof.
  exact (sso_username_found "s" "jane@isp.ke" ["jane"; "jane_1"] ltac:(discriminate) ltac:(discriminate) eq_refl).
Defined.

Definition staff_user : User :=
  (customer_user (Some 1) "ann" "ann@acme.ke" None "Ann" "K") <| usr_role := ISP_ADMIN |>.

Definition staff_db : DB :=
  empty_db <| t_users := {[3 := staff_user]} |>
    <| t_organizations := {[1 := mkOrgRow "6f1c0000-0000-0000-0000-000000000000" (Some "6f1c0000-0000-0000-0000-000000000000")
         "Acme" "acme" O_ACTIVE "noc@acme.ke" None None None None None None None None]} |>.

Definition claims_of (sub email : string) (roles : list string) : Claims :=
  mkClaims (Some sub) (Some email) None roles false None (Some "acme") false None None [].

Definition other_tenant : string := "aaaaaaaa-0000-0000-0000-000000000001".

Definition tenant_event (id slug : string) : Envelope :=
  mkEnvelope (Some [("tenant_id", JStr id); ("name", JStr "Beta"); ("slug", JStr slug)]) None None None.

Lemma staff_and_tenant_kept_witness :
  staff_of 3 1 (identify_all [(0, [], Login (claims_of "sub-9" "ann@acme.ke" ["customer"]) "r");
    (60, [true], UserEvent (mkEnvelope (Some [("email", JStr "Ann@acme.ke")]) None None None) [] false "r");
    (90, [], TenantEvent (tenant_event other_tenant "acme"))] (staff_db, tt : @Dev unreachable_router)).1.
Proof.
  apply (staff_and_tenant_kept (ros := unreachable_router)). exists staff_user. repeat split. discriminate.
Defined.

(** A first sign-on that creates the user. *)
Definition bob_claims : Claims := claims_of "sub-1" "Bob@acme.ke" ["admin"].

Definition bob : User :=
  mkUser (Some 1) "bob" "bob@acme.ke" None "bob" "bob" "!sso!r" ISP_ADMIN U_ACTIVE true true (Some "sub-1") (Some 0) (Some 2) None.

Lemma sso_sign_on_idempotent_witness :
  exists w1 w3 : @World unreachable_router,
    w1 = state_of (provision_sso_user bob_claims "r" (start_offline 0 staff_db)) /\
    provision_sso_user bob_claims "q" (start_offline 60 (w_durable w1))
      = (Ok (4, bob <| usr_auth_synced_at := Some 60 |>), w3) /\ size (t_users (w_durable w3)) = 2%nat.
Proof.
  set (w1 := state_of (provision_sso_user bob_claims "r" (start_offline 0 staff_db))).
  destruct (sso_sign_on_idempotent bob_claims "r" "q" "sub-1" 4 bob (start_offline 0 staff_db) w1
              (start_offline 60 (w_durable w1))) as (w3 & E & Hu & _).
  - apply good_offline. vm_compute. reflexivity.
  - reflexivity.
  - vm_compute. reflexivity.
  - apply good_offline. vm_compute. reflexivity.
  - reflexivity.
  - exists w1, w3. split; [reflexivity|]. split; [exact E|]. rewrite Hu. vm_compute. reflexivity.
Defined.

Lemma tenant_event_mirrored_witness :
  let w' := state_of (handle_auth_tenant (tenant_event other_tenant "Beta ") (start_offline 0 staff_db)) in
  exists i o, t_organizations (w_durable w') !! i = Some o /\ org_row_uuid o = other_tenant.
Proof.
  set (w := start_offline 0 staff_db).
  destruct (tenant_event_mirrored (tenant_event other_tenant "Beta ") (mkTenant other_tenant other_tenant "Beta" (Some "beta"))
              w (state_of (handle_auth_tenant (tenant_event other_tenant "Beta ") w))) as [(i & o & Hi & _ & Hu) _].
  - reflexivity.
  - apply (good_schema w). apply good_offline. vm_compute. reflexivity.
  - vm_compute. reflexivity.
  - vm_compute. reflexivity.
  - by exists i, o.
Defined.

Lemma slug_rebinds_organization_witness :
  exists w' : @World unreachable_router,
    handle_auth_tenant (tenant_event other_tenant "acme") (start_offline 0 staff_db) = (Ok tt, w') /\
    org_row_auth_tenant_id <$> t_organizations (w_durable w') !! 1 = Some (Some other_tenant).
Proof.
  destruct (slug_rebinds_organization (tenant_event other_tenant "acme") (mkTenant other_tenant other_tenant "Beta" (Some "acme"))
              1 (default (mkOrgRow "" None "" "" TRIAL "" None None None None None None None None) (t_organizations staff_db !! 1))
              "6f1c0000-0000-0000-0000-000000000000" (start_offline 0 staff_db)) as (w' & E & Ho & _).
  - apply good_offline. vm_compute. reflexivity.
  - vm_compute. reflexivity.
  - reflexivity.
  - reflexivity.
  - reflexivity.
  - discriminate.
  - intros j x Hj. change (w_view (start_offline 0 staff_db)) with staff_db in Hj.
    unfold staff_db in Hj. simpl in Hj. apply lookup_singleton_Some in Hj as [_ <-]. split; discriminate.
  - exists w'. split; [exact E|]. rewrite Ho, lookup_insert_eq. reflexivity.
Defined.
