(* ===== verification/Access.v ===== *)
(** * Who may do what
    ([app/api/deps.py], [app/api/deps_tenant.py], [app/api/deps_org.py],
    [app/core/security.py], [app/core/tenant_middleware.py],
    [app/services/provider_gate.py])

    The current user of a request, the guards on roles, the organization a
    request acts for, and the gates on the provider's subscription. Outside the
    repository: the decoding of signed tokens ([Tokens]) and the subscriptions
    service ([SubscriptionsApi]). *)

From S2P Require Import Prelude PyString Numerics Models Session Plan AgentQueue Vouchers Bridge Portal Passwords Pppoe Events Identity.


(** ** Requests *)
Record Request : Type := mkRequest {
  rq_method : string;
  rq_path : string;
  rq_authorization : option string;
  rq_x_api_key : option string;
  rq_x_tenant_id : option string;
  rq_x_org_slug : option string;
  rq_org_slug_param : option string;
  rq_x_organization_slug : option string;
  rq_host : string;
  (** [request.state.sso_claims], once a resolver has set it *)
  rq_sso_claims : option Claims
}.

(** The claims of a local token. *)
Record LocalClaims : Type := mkLocalClaims {
  lc_type : option string;
  lc_sub : option string;
  lc_username : option string;
  lc_role : option string;
  lc_organization_id : option Z
}.

Record TokenData : Type := mkTokenData {
  td_user_id : Z;
  td_username : string;
  td_role : option string;
  td_organization_id : option Z
}.

Class Tokens := {
  (** [jwt.decode] with the local secret; [None] is [InvalidTokenError] *)
  jwt_decode : string -> option LocalClaims;
  (** the algorithm in the unverified header *)
  jwt_alg : string -> option string;
  (** [jwt.decode] with the issuer's keys; [None] is [PyJWTError] *)
  sso_decode : string -> option Claims;
  (** [settings.internal_service_key] *)
  internal_service_key : string;
  (** [settings.portal_base_domain] *)
  portal_base_domain : string
}.

(** The answer of subscriptions-api: [access_status] and [limits]. *)
Record ProviderSubscription : Type := mkProviderSubscription {
  ps_access_status : option string;
  ps_limits : list (string * JsonScalar)
}.

Class SubscriptionsApi := {
  (** [get_subscription] of a tenant *)
  get_subscription : string -> outcome (option ProviderSubscription)
}.

Definition unauthenticated : exn := HTTPException 401 "Not authenticated".

(** [s.partition(" ")], the scheme and the rest *)
Definition scheme_and_rest (s : string) : string * string :=
  let (a, b) := split_once " " s in (a, default "" b).

(** The token of [security_scheme]. *)
Definition scheme_token (rq : Request) : option string :=
  match rq_authorization rq with
  | None => None
  | Some h =>
      let (scheme, rest) := scheme_and_rest h in
      if bool_decide (lower scheme = "bearer") then truthy_text (Some rest) else None
  end.

Definition _extract_bearer (rq : Request) : option string :=
  match truthy_text (rq_authorization rq) with
  | None => None
  | Some h =>
      match split_once " " h with
      | (scheme, Some rest) => if bool_decide (lower scheme = "bearer") then Some (strip rest) else None
      | (_, None) => None
      end
  end.

Section Users.
Context {be : Backend} {ros : RouterOS} {rbac : RbacRoles} {tok : Tokens}.

Definition verify_token (token token_type : string) : outcome (option TokenData) :=
  match jwt_decode token with
  | None => Ok None
  | Some c =>
      if negb (bool_decide (lc_type c = Some token_type)) then Ok None
      else
        match lc_sub c, lc_username c with
        | Some sub, Some username =>
            match py_int sub with
            | Some user_id => Ok (Some (mkTokenData user_id username (lc_role c) (lc_organization_id c)))
            | None => Raise (ValueError "invalid literal for int()")
            end
        | _, _ => Ok None
        end
  end.

Definition looks_like_sso_token (token : string) : bool :=
  match jwt_alg token with Some alg => String.prefix "RS" (upper alg) | None => false end.

Definition get_optional_sso_claims (rq : Request) : option Claims :=
  match truthy_text (_extract_bearer rq) with
  | Some token => if looks_like_sso_token token then sso_decode token else None
  | None => None
  end.

Definition is_internal_service_request (rq : Request) : bool :=
  let expected := strip internal_service_key in
  negb (bool_decide (expected = "")) &&
  match truthy_text (rq_x_api_key rq) with Some key => bool_decide (key = expected) | None => false end.

(** [UserService.get_by_id]: any failure is a [ValidationError]. *)
Definition get_user_by_id (user_id : Z) : run (option (Z * User)) :=
  if user_id <=? 0 then mraise (ValidationError "Unexpected error: Invalid user ID")
  else mtry (query (fun db => pair user_id <$> t_users db !! user_id))
         (fun _ => mraise (ValidationError "Failed to retrieve user")).

(** Local token first, then the single sign-on; [random] is for a user created
    on the way. *)
Definition resolve_user (rq : Request) (token random : string) : run (Z * User) :=
  local <- lift (verify_token token "access") ;;
  match local with
  | Some td =>
      user <- get_user_by_id (td_user_id td) ;;
      match user with Some iu => mreturn iu | None => mraise unauthenticated end
  | None =>
      match get_optional_sso_claims rq with
      | Some c => provision_sso_user c random
      | None => mraise unauthenticated
      end
  end.

Definition get_current_user (rq : Request) (random : string) : run (Z * User) :=
  match scheme_token rq with
  | Some token => resolve_user rq token random
  | None => mraise unauthenticated
  end.

Definition get_current_user_unified (rq : Request) (random : string) : run (Z * User) :=
  match truthy_text (_extract_bearer rq) with
  | Some token => resolve_user rq token random
  | None => mraise unauthenticated
  end.

Definition if_active (iu : Z * User) : run (Z * User) :=
  if usr_is_active iu.2 then mreturn iu else mraise (HTTPException 400 "Inactive user").

Definition get_current_active_user (rq : Request) (random : string) : run (Z * User) :=
  iu <- get_current_user rq random ;;
  if_active iu.

Definition get_current_active_user_unified (rq : Request) (random : string) : run (Z * User) :=
  iu <- get_current_user_unified rq random ;;
  if_active iu.

Definition get_current_verified_user (rq : Request) (random : string) : run (Z * User) :=
  iu <- get_current_active_user rq random ;;
  if usr_is_verified iu.2 then mreturn iu else mraise (HTTPException 400 "User not verified").

(** ** Guards on roles *)
Definition insufficient : exn := HTTPException 403 "Insufficient permissions".

Definition guard_role (allowed : UserRole -> bool) (refusal : exn) (iu : Z * User) : run (Z * User) :=
  if allowed (usr_role iu.2) then mreturn iu else mraise refusal.

(** [ADMIN] and [TECHNICIAN] are aliases of the ISP roles. *)
Definition role_admits (required r : UserRole) : bool :=
  if bool_decide (r = PLATFORM_OWNER) then true
  else if bool_decide (r = ISP_ADMIN) && bool_decide (required = ISP_ADMIN) then true
  else bool_decide (r = required).

Definition require_role (required : UserRole) (rq : Request) (random : string) : run (Z * User) :=
  iu <- get_current_active_user rq random ;;
  guard_role (role_admits required) insufficient iu.

Definition admin_roles : list UserRole := [PLATFORM_OWNER; ISP_ADMIN; ISP_ADMIN].
Definition staff_roles : list UserRole := [PLATFORM_OWNER; ISP_ADMIN; ISP_TECHNICIAN; ISP_ADMIN; ISP_TECHNICIAN].
Definition customer_roles : list UserRole := [PLATFORM_OWNER; ISP_ADMIN; CUSTOMER; ISP_ADMIN].

Definition require_admin (rq : Request) (random : string) : run (Z * User) :=
  iu <- get_current_active_user rq random ;;
  guard_role (fun r => bool_decide (r ∈ admin_roles)) insufficient iu.

Definition require_technician_or_admin (rq : Request) (random : string) : run (Z * User) :=
  iu <- get_current_active_user rq random ;;
  guard_role (fun r => bool_decide (r ∈ staff_roles)) insufficient iu.

Definition require_customer_or_admin (rq : Request) (random : string) : run (Z * User) :=
  iu <- get_current_active_user rq random ;;
  guard_role (fun r => bool_decide (r ∈ customer_roles)) insufficient iu.
End Users.

(** ** The organization of a request *)
Definition tenant_not_found : exn := HTTPException 404 "Organization not found".
Definition tenant_suspended : exn := HTTPException 403 "Organization is suspended. Please contact support.".
Definition platform_owner_required : exn := HTTPException 403 "Platform owner access required".
Definition isp_admin_required : exn := HTTPException 403 "ISP administrator access required".
Definition isp_staff_required : exn := HTTPException 403 "ISP staff access required".

Definition EXEMPT_PATHS : list string :=
  ["/api/v1/auth/login"; "/api/v1/auth/register"; "/api/v1/onboarding"; "/api/v1/platform"; "/api/v1/provisioning";
   "/health"; "/docs"; "/redoc"; "/openapi.json"].

Definition PORTAL_PATHS : list string := ["/api/v1/portal/hotspot"; "/api/v1/portal/pppoe"].

Definition starts_with_any (path : string) (l : list string) : bool := existsb (fun p => String.prefix p path) l.

(** [s.replace(pat, "").split(":")[0]] *)
Definition host_without (pat host : string) : string :=
  fst (split_once ":" (if bool_decide (pat = "") then host else remove_text pat 0 host)).

Section Tenants.
Context {be : Backend} {ros : RouterOS} {rbac : RbacRoles} {tok : Tokens}.

(** A query in a session of its own sees what is committed. *)
Definition committed {A} (f : DB -> A) : run A := fun w => (Ok (f (w_durable w)), w).

(** The lookups of the middleware swallow their errors. *)
Definition lookup_org (p : OrganizationRow -> bool) : run (option Z) :=
  mtry
    (rows <- committed (fun db => select (fun _ => p) (t_organizations db)) ;;
     o <- scalar_one_or_none rows ;;
     mreturn (fst <$> o))
    (fun _ => mreturn None).

Definition _lookup_by_slug (slug : string) : run (option Z) := lookup_org (fun o => bool_decide (org_row_slug o = slug)).

Definition _resolve_from_uuid (s : string) : run (option Z) :=
  match uuid_of s with
  | Some u => lookup_org (fun o => bool_decide (org_row_uuid o = u))
  | None => mreturn None
  end.

(** The identifier of a truthy integer. *)
Definition truthy_id (o : option Z) : option Z := match o with Some 0 | None => None | Some n => Some n end.

Definition _resolve_from_jwt (rq : Request) : option Z :=
  match rq_authorization rq with
  | Some h =>
      if String.prefix "Bearer " h then
        match verify_token (nth 1 (split_on " " h) "") "access" with
        | Ok (Some td) => td_organization_id td
        | _ => None
        end
      else None
  | None => None
  end.

Definition _resolve_from_subdomain (rq : Request) : run (option Z) :=
  let host := rq_host rq in
  if bool_decide (host = "") || negb (contains_text portal_base_domain host) then mreturn None
  else
    let subdomain := host_without ("." +:+ portal_base_domain) host in
    if bool_decide (subdomain = "") || bool_decide (subdomain ∈ ["www"; "api"; "app"]) then mreturn None
    else _lookup_by_slug subdomain.

Definition _resolve_from_custom_domain (rq : Request) : run (option Z) :=
  let host := fst (split_once ":" (rq_host rq)) in
  if bool_decide (host = "") then mreturn None
  else lookup_org (fun o => bool_decide (org_row_portal_domain o = Some host)).

(** [a or b], where [b] is looked up only when [a] gives nothing. *)
Definition or_lookup (m k : run (option Z)) : run (option Z) :=
  o <- m ;;
  match truthy_id o with Some i => mreturn (Some i) | None => k end.

Definition from_slug (s : option string) : run (option Z) :=
  match truthy_text s with Some slug => _lookup_by_slug slug | None => mreturn None end.

(** The header [X-Tenant-ID]: an integer is taken as it is. *)
Definition _resolve_tenant (rq : Request) : run (option Z) :=
  let rest :=
    or_lookup (from_slug (rq_x_org_slug rq))
      (or_lookup (from_slug (rq_org_slug_param rq))
        (or_lookup (_resolve_from_subdomain rq)
          (or_lookup (_resolve_from_custom_domain rq) (mreturn None)))) in
  match truthy_id (_resolve_from_jwt rq) with
  | Some i => mreturn (Some i)
  | None =>
      match truthy_text (rq_x_tenant_id rq) with
      | None => rest
      | Some header =>
          match py_int header with
          | Some n => mreturn (Some n)
          | None => or_lookup (_resolve_from_uuid header) rest
          end
      end
  end.

Definition _load_tenant (i : Z) : run (option (Z * OrganizationRow)) :=
  o <- committed (fun db => t_organizations db !! i) ;;
  mreturn (match o with
           | Some o => if bool_decide (org_row_status o ∈ [O_ACTIVE; TRIAL]) then Some (i, o) else None
           | None => None
           end).

(** [dispatch]: the organization the request's context is set to, and the
    tenant loaded for a portal path; [None] answers 404 at once. *)
Definition dispatch (rq : Request) : run (option (option Z * option (Z * OrganizationRow))) :=
  if bool_decide (rq_method rq = "OPTIONS") || starts_with_any (rq_path rq) EXEMPT_PATHS then
    mreturn (Some (None, None))
  else
    organization_id <- _resolve_tenant rq ;;
    match truthy_id organization_id with
    | None => mreturn (Some (None, None))
    | Some i =>
        if starts_with_any (rq_path rq) PORTAL_PATHS then
          tenant <- _load_tenant i ;;
          match tenant with
          | Some t => mreturn (Some (Some i, Some t))
          | None => mreturn None
          end
        else mreturn (Some (Some i, None))
    end.

Definition org_by_id (i : Z) : run (option (Z * OrganizationRow)) :=
  query (fun db => pair i <$> t_organizations db !! i).

(** [ctx] is the organization of the request's context. *)
Definition current_organization (ctx : option Z) (iu : Z * User) : run (Z * OrganizationRow) :=
  id <- (if bool_decide (usr_role iu.2 = PLATFORM_OWNER) then
           match truthy_id ctx with
           | None => mraise (HTTPException 400 "Platform owners must specify an organization via X-Tenant-ID header")
           | Some i => mreturn (Some i)
           end
         else mreturn (usr_organization_id iu.2)) ;;
  match truthy_id id with
  | None => mraise tenant_not_found
  | Some i =>
      organization <- org_by_id i ;;
      match organization with
      | None => mraise tenant_not_found
      | Some (i, o) =>
          if bool_decide (org_row_status o = O_SUSPENDED) then mraise tenant_suspended
          else mreturn (i, o)
      end
  end.

Definition get_current_organization (ctx : option Z) (rq : Request) (random : string) : run (Z * OrganizationRow) :=
  iu <- get_current_user rq random ;;
  current_organization ctx iu.

Definition get_optional_organization (rq : Request) (random : string) : run (option (Z * OrganizationRow)) :=
  iu <- get_current_user rq random ;;
  if bool_decide (usr_role iu.2 = PLATFORM_OWNER) then mreturn None
  else match truthy_id (usr_organization_id iu.2) with
       | None => mreturn None
       | Some i => org_by_id i
       end.

Definition get_organization_from_context (ctx : option Z) (tenant : option (Z * OrganizationRow))
    : run (option (Z * OrganizationRow)) :=
  match truthy_id ctx, tenant with
  | None, _ => mreturn None
  | Some _, Some t => mreturn (Some t)
  | Some i, None => org_by_id i
  end.

Definition require_organization_from_context (ctx : option Z) (tenant : option (Z * OrganizationRow))
    : run (Z * OrganizationRow) :=
  organization <- get_organization_from_context ctx tenant ;;
  match organization with
  | None => mraise tenant_not_found
  | Some (i, o) => if bool_decide (org_row_status o = O_SUSPENDED) then mraise tenant_suspended else mreturn (i, o)
  end.

(** The dependencies of a request share its current user. *)
Definition require_platform_owner (rq : Request) (random : string) : run (Z * User) :=
  iu <- get_current_user rq random ;;
  guard_role (fun r => bool_decide (r = PLATFORM_OWNER)) platform_owner_required iu.

Definition require_isp_admin (ctx : option Z) (rq : Request) (random : string) : run (Z * User) :=
  iu <- get_current_user rq random ;;
  _ <- current_organization ctx iu ;;
  guard_role (fun r => bool_decide (r ∈ [ISP_ADMIN; PLATFORM_OWNER])) isp_admin_required iu.

Definition require_isp_staff (ctx : option Z) (rq : Request) (random : string) : run (Z * User) :=
  iu <- get_current_user rq random ;;
  _ <- current_organization ctx iu ;;
  guard_role (fun r => bool_decide (r ∈ [ISP_ADMIN; ISP_TECHNICIAN; PLATFORM_OWNER])) isp_staff_required iu.

Definition require_platform_integration_access (rq : Request) (random : string) : run (Z * User) :=
  iu <- get_current_user rq random ;;
  guard_role (fun r => bool_decide (r = PLATFORM_OWNER))
    (HTTPException 403 "Platform integration access required. Only ISP Software Provider staff can access integration secrets and URLs.") iu.

Definition require_tenant_integration_access (ctx : option Z) (rq : Request) (random : string) : run (Z * User) :=
  iu <- get_current_user rq random ;;
  _ <- current_organization ctx iu ;;
  guard_role (fun r => bool_decide (r ∈ [ISP_ADMIN; PLATFORM_OWNER]))
    (HTTPException 403 "ISP administrator access required for integration configuration") iu.

(** [Organization.is_trial], [Organization.is_subscription_active] *)
Definition is_trial (now : datetime) (o : OrganizationRow) : bool :=
  bool_decide (org_row_status o = TRIAL) && match org_row_trial_ends_at o with Some t => now <? t | None => false end.

Definition is_subscription_active (now : datetime) (o : OrganizationRow) : bool :=
  bool_decide (org_row_status o ∈ [O_ACTIVE; TRIAL]) &&
  (is_trial now o || match org_row_subscription_ends_at o with Some t => now <? t | None => false end).

Definition require_active_subscription (ctx : option Z) (rq : Request) (random : string) : run (Z * OrganizationRow) :=
  io <- get_current_organization ctx rq random ;;
  now <- utcnow ;;
  if is_subscription_active now io.2 then mreturn io
  else mraise (HTTPException 403 "Subscription expired. Please renew your subscription.").

Definition get_organization_by_id (i : Z) (rq : Request) (random : string) : run (Z * OrganizationRow) :=
  _ <- require_platform_owner rq random ;;
  organization <- org_by_id i ;;
  match organization with Some io => mreturn io | None => mraise tenant_not_found end.

Definition get_organization_by_slug (slug : string) : run (Z * OrganizationRow) :=
  organization <- one_org (fun _ o => bool_decide (org_row_slug o = slug)) ;;
  match organization with
  | None => mraise tenant_not_found
  | Some (i, o) => if bool_decide (org_row_status o = O_SUSPENDED) then mraise tenant_suspended else mreturn (i, o)
  end.

(** ** The header [X-Organization-Slug] *)
Definition get_org_from_header (rq : Request) : run (option (Z * OrganizationRow)) :=
  match truthy_text (rq_x_organization_slug rq) with
  | None => mreturn None
  | Some slug =>
      organization <- one_org (fun _ o => bool_decide (org_row_slug o = slug)) ;;
      match organization with
      | None => mraise (HTTPException 404 ("Organization '" +:+ slug +:+ "' not found"))
      | o => mreturn o
      end
  end.

Definition get_required_org (rq : Request) : run (Z * OrganizationRow) :=
  organization <- get_org_from_header rq ;;
  match organization with
  | Some io => mreturn io
  | None => mraise (HTTPException 400 "Organization context required. Please provide X-Organization-Slug header.")
  end.

Definition validate_user_org_access (rq : Request) (random : string) : run (Z * OrganizationRow) :=
  io <- get_required_org rq ;;
  iu <- get_current_user rq random ;;
  if bool_decide (usr_role iu.2 = PLATFORM_OWNER) then mreturn io
  else if negb (bool_decide (usr_organization_id iu.2 = Some io.1)) then
    mraise (HTTPException 403 "Access denied: You do not have permission to access this organization")
  else mreturn io.

Definition get_org_id_for_query (rq : Request) (random : string) : run Z :=
  iu <- get_current_user rq random ;;
  organization <- get_org_from_header rq ;;
  if bool_decide (usr_role iu.2 = PLATFORM_OWNER) then
    match organization with
    | Some (i, _) => mreturn i
    | None => mraise (HTTPException 400 "Organization context required for this operation")
    end
  else
    match organization with
    | Some (i, _) =>
        if negb (bool_decide (usr_organization_id iu.2 = Some i)) then
          mraise (HTTPException 403 "Access denied: Organization mismatch")
        else match truthy_id (usr_organization_id iu.2) with
             | Some j => mreturn j
             | None => mraise (HTTPException 400 "User does not belong to any organization")
             end
    | None =>
        match truthy_id (usr_organization_id iu.2) with
        | Some j => mreturn j
        | None => mraise (HTTPException 400 "User does not belong to any organization")
        end
    end.
End Tenants.

(** ** Gates on the provider's subscription *)
Definition _SAFE_METHODS : list string := ["GET"; "HEAD"; "OPTIONS"].

Definition lower_strip (o : option string) : string := lower (strip (default "" o)).

Definition _claims_is_exempt (c : Claims) : bool :=
  if cl_is_platform_owner c || cl_is_demo c then true
  else if bool_decide (lower_strip (cl_billing_mode c) = "service_charge") then true
  else if any_of (normalized (cl_roles c)) ["platform_owner"; "superuser"] then true
  else bool_decide (lower_strip (cl_tenant_slug c) ∈ ["codevertex"; "codevertex-demo"]).

Definition subscription_inactive : exn := HTTPException 403 "subscription_inactive".

Definition usage_limit_exceeded : exn := HTTPException 403 "usage_limit_exceeded".

(** [int(x)]; [None] is its [TypeError] or [ValueError]. *)
Definition int_of (x : JsonScalar) : option Z :=
  match x with JNum n => Some n | JStr s => py_int s | JNull => None end.

Definition _limit_is_unlimited (x : JsonScalar) : bool :=
  match int_of x with Some n => n <=? 0 | None => true end.

(** A member that is present and not null. *)
Definition limit_in (key : string) (l : list (string * JsonScalar)) : option JsonScalar :=
  match member key l with Some JNull | None => None | o => o end.

Section Gates.
Context {be : Backend} {ros : RouterOS} {rbac : RbacRoles} {tok : Tokens} {subs : SubscriptionsApi}.

Definition request_claims (rq : Request) : option Claims :=
  match rq_sso_claims rq with Some c => Some c | None => get_optional_sso_claims rq end.

Definition enforce_subscription_active (rq : Request) : run unit :=
  if bool_decide (upper (rq_method rq) ∈ _SAFE_METHODS) then mreturn tt
  else if is_internal_service_request rq then mreturn tt
  else
    match request_claims rq with
    | None => mreturn tt
    | Some c =>
        if _claims_is_exempt c then mreturn tt
        else if bool_decide (upper (strip (default "" (cl_sub_status c))) = "ACTIVE") then mreturn tt
        else mraise subscription_inactive
    end.

(** The limit that binds: from the claims, else from subscriptions-api, whose
    failures lift it. *)
Definition resolved_limit (key : string) (c : Claims) : option JsonScalar :=
  match limit_in key (cl_sub_limits c) with
  | Some x => Some x
  | None =>
      match truthy_text (cl_tenant_id c) with
      | None => None
      | Some t =>
          match get_subscription t with
          | Ok (Some s) => limit_in key (ps_limits s)
          | Ok None | Raise _ => None
          end
      end
  end.

(** [count] is [count_fn] for the user's organization. *)
Definition enforce_plan_limit (key : string) (count : option Z -> run Z) (rq : Request) (iu : Z * User) : run unit :=
  if is_internal_service_request rq then mreturn tt
  else if bool_decide (usr_role iu.2 = PLATFORM_OWNER) then mreturn tt
  else
    match request_claims rq with
    | None => mreturn tt
    | Some c =>
        if _claims_is_exempt c then mreturn tt
        else
          match resolved_limit key c with
          | None => mreturn tt
          | Some x =>
              if _limit_is_unlimited x then mreturn tt
              else
                match int_of x with
                | None => mreturn tt
                | Some limit =>
                    current <- mattempt (count (usr_organization_id iu.2)) ;;
                    match current with
                    | Raise _ => mreturn tt
                    | Ok n => if limit <=? n then mraise usage_limit_exceeded else mreturn tt
                    end
                end
          end
    end.

(** ** Whether the provider may sell *)
Record Contact : Type := mkContact {
  ct_name : string;
  ct_phone : option string;
  ct_email : option string;
  ct_whatsapp : option string;
  ct_address : option string;
  ct_city : option string
}.

Definition text_or (a b : option string) : option string := match truthy_text a with Some s => Some s | None => b end.

Definition provider_contact (o : OrganizationRow) : Contact :=
  mkContact (org_row_name o) (text_or (org_row_phone o) (org_row_notification_phone o))
    (text_or (Some (org_row_email o)) (org_row_notification_email o))
    (text_or (org_row_notification_phone o) (org_row_phone o)) (org_row_address o) (org_row_city o).

Definition resolve_provider_access (o : OrganizationRow) : bool * Contact :=
  let contact := provider_contact o in
  if bool_decide (org_row_status o = O_SUSPENDED) then (false, contact)
  else
    match truthy_text (org_row_auth_tenant_id o) with
    | None => (true, contact)
    | Some tenant =>
        match get_subscription tenant with
        | Raise _ | Ok None => (true, contact)
        | Ok (Some s) => (negb (bool_decide (lower_strip (ps_access_status s) = "blocked")), contact)
        end
    end.
End Gates.
