(* ===== verification/AccessFacts.v ===== *)
(** * Access: isolation of tenants and the gates *)

From S2P Require Import Prelude PyString Numerics Models Session Plan AgentQueue Vouchers Bridge BridgeFacts Portal PortalFacts Pppoe PppoeFacts Events Identity IdentityFacts Access.


Section Isolation.
Context {be : Backend} {ros : RouterOS} {rbac : RbacRoles} {tok : Tokens}.

Lemma truthy_id_some o i : truthy_id o = Some i -> o = Some i.
Proof. by destruct o as [[|p|p]|]. Qed.

Lemma org_by_id_row i w io w' : org_by_id i w = (Ok (Some io), w') -> io.1 = i.
Proof.
  intros (E & _ & _)%query_inv. destruct (t_organizations (w_view w) !! i); [|done]. by injection E as ->.
Qed.

Lemma current_organization_own ctx iu w io w' :
  usr_role iu.2 <> PLATFORM_OWNER -> current_organization ctx iu w = (Ok io, w') ->
  usr_organization_id iu.2 = Some io.1 /\ org_row_status io.2 <> O_SUSPENDED.
Proof.
  intros Hr. unfold current_organization. rewrite bool_decide_eq_false_2 by done. rewrite mthen_return.
  destruct (truthy_id (usr_organization_id iu.2)) as [i|] eqn:Hi; [|done].
  intros (o & w1 & E1 & E2)%then_inv. destruct o as [[j o]|]; [|done]. apply org_by_id_row in E1 as Hj. simpl in Hj. subst j.
  case_bool_decide as Hs; [done|]. injection E2 as <- <-. split; [by apply truthy_id_some|done].
Qed.

Lemma header_world rq w o w' : get_org_from_header rq w = (Ok o, w') -> w' = w.
Proof.
  unfold get_org_from_header. destruct (truthy_text _) as [slug|]; [|by intros [= <- <-]].
  intros (r & w1 & [-> _]%one_org_row & E)%then_inv. destruct r; [|done]. by injection E as <- <-.
Qed.

Lemma required_world rq w io w' : get_required_org rq w = (Ok io, w') -> w' = w.
Proof.
  intros (o & w1 & ->%header_world & E)%then_inv. destruct o; [|done]. by injection E as <- <-.
Qed.


(** Deactivating an administrator does not lock the account out of the
    tenant's administration: the guards that check for an active user refuse,
    those of the tenant's own endpoints do not look. *)
Theorem deactivated_admin_passes rq random ctx i u k o w :
  get_current_user rq random w = (Ok (i, u), w) ->
  usr_role u = ISP_ADMIN -> usr_is_active u = false ->
  w_broken w = false -> usr_organization_id u = Some k -> k <> 0 ->
  t_organizations (w_view w) !! k = Some o -> org_row_status o <> O_SUSPENDED ->
  require_admin rq random w = (Raise (HTTPException 400 "Inactive user"), w) /\
  require_isp_admin ctx rq random w = (Ok (i, u), w) /\
  require_isp_staff ctx rq random w = (Ok (i, u), w).
Proof.
  intros Hu Hr Ha Hb Hk Hk0 Ho Hs.
  assert (Ec : current_organization ctx (i, u) w = (Ok (k, o), w)).
  { unfold current_organization. simpl. rewrite Hr, bool_decide_eq_false_2 by done. rewrite mthen_return, Hk.
    assert (Ht : truthy_id (Some k) = Some k) by (by destruct k). rewrite Ht.
    unfold org_by_id. rewrite (mthen_ok _ _ _ _ _ (query_good _ w Hb)), Ho. simpl.
    by rewrite bool_decide_eq_false_2. }
  split; [|split].
  - unfold require_admin, get_current_active_user. rewrite mthen_assoc, (mthen_ok _ _ _ _ _ Hu).
    unfold if_active. simpl. by rewrite Ha.
  - unfold require_isp_admin. rewrite (mthen_ok _ _ _ _ _ Hu), (mthen_ok _ _ _ _ _ Ec).
    unfold guard_role. simpl. by rewrite Hr.
  - unfold require_isp_staff. rewrite (mthen_ok _ _ _ _ _ Hu), (mthen_ok _ _ _ _ _ Ec).
    unfold guard_role. simpl. by rewrite Hr.
Qed.
End Isolation.

Section Limits.
Context {be : Backend} {ros : RouterOS} {rbac : RbacRoles} {tok : Tokens} {subs : SubscriptionsApi}.

(** The limit a request is held to: known, positive, and nobody's exemption. *)
Definition binding_limit (key : string) (rq : Request) (u : User) (limit : Z) : Prop :=
  is_internal_service_request rq = false /\ usr_role u <> PLATFORM_OWNER /\ 0 < limit /\
  exists c x, request_claims rq = Some c /\ _claims_is_exempt c = false /\
    resolved_limit key c = Some x /\ int_of x = Some limit.

(** The outcomes of the gate. *)
Lemma plan_limit_cases key count rq i u w :
  result_of (enforce_plan_limit key count rq (i, u) w) = Ok tt \/
  (result_of (enforce_plan_limit key count rq (i, u) w) = Raise usage_limit_exceeded /\
   exists limit n, binding_limit key rq u limit /\ result_of (count (usr_organization_id u) w) = Ok n /\ limit <= n).
Proof.
  unfold enforce_plan_limit. simpl.
  destruct (is_internal_service_request rq) eqn:Hi; [by left|]. case_bool_decide as Hr; [by left|].
  destruct (request_claims rq) as [c|] eqn:Hc; [|by left]. destruct (_claims_is_exempt c) eqn:He; [by left|].
  destruct (resolved_limit key c) as [x|] eqn:Hx; [|by left].
  unfold _limit_is_unlimited. destruct (int_of x) as [limit|] eqn:Hl; [|by left].
  destruct (limit <=? 0) eqn:H0; [by left|]. unfold mattempt, mthen, result_of.
  destruct (count (usr_organization_id u) w) as [[n|e] w']; [|by left]. simpl.
  destruct (limit <=? n) eqn:Hn; [right|by left]. split; [done|]. exists limit, n.
  split; [|split; [done|lia]]. split; [done|]. split; [done|]. split; [lia|]. by exists c, x.
Qed.

Lemma plan_limit_refuses key count rq i u w limit n :
  binding_limit key rq u limit -> result_of (count (usr_organization_id u) w) = Ok n -> limit <= n ->
  result_of (enforce_plan_limit key count rq (i, u) w) = Raise usage_limit_exceeded.
Proof.
  intros (Hi & Hr & H0 & c & x & Hc & He & Hx & Hl) Hn Hle. unfold enforce_plan_limit. simpl.
  rewrite Hi, bool_decide_eq_false_2, Hc, He, Hx by done. unfold _limit_is_unlimited. rewrite Hl.
  rewrite (proj2 (Z.leb_gt limit 0)) by lia. unfold mattempt, mthen, result_of in *.
  destruct (count (usr_organization_id u) w) as [[m|e] w']; [|done]. simpl in *. injection Hn as ->.
  by rewrite (proj2 (Z.leb_le limit n)).
Qed.

(** A plan limit refuses exactly what exceeds it: the gate raises when a
    positive limit is known for the tenant, nobody exempts the request, and
    the count of what there is has reached it; in every other case, an
    unknown limit or a count that fails included, it lets the request through. *)
Theorem plan_limit_exact key count rq i u w :
  (result_of (enforce_plan_limit key count rq (i, u) w) = Raise usage_limit_exceeded <->
   exists limit n, binding_limit key rq u limit /\ result_of (count (usr_organization_id u) w) = Ok n /\ limit <= n) /\
  (result_of (enforce_plan_limit key count rq (i, u) w) <> Raise usage_limit_exceeded ->
   result_of (enforce_plan_limit key count rq (i, u) w) = Ok tt).
Proof.
  split; [split|].
  - intros H. destruct (plan_limit_cases key count rq i u w) as [E|[_ H']]; [|done]. by rewrite E in H.
  - intros (limit & n & Hl & Hn & Hle). by apply (plan_limit_refuses _ _ _ _ _ _ limit n).
  - intros H. by destruct (plan_limit_cases key count rq i u w) as [E|[E _]].
Qed.
End Limits.

(** ** Concrete runs *)
#[export] Instance sample_tokens : Tokens := {
  jwt_decode t := if bool_decide (t = "ann") then Some (mkLocalClaims (Some "access") (Some "3") (Some "ann") None (Some 1))
    else if bool_decide (t = "portal") then Some (mkLocalClaims (Some "access") (Some "3") None (Some "customer") (Some 1))
    else None;
  jwt_alg t := Some "HS256";
  sso_decode t := None;
  internal_service_key := "k";
  portal_base_domain := "isp.example"
}.

Definition request_with (authorization : string) (tenant : option string) : Request :=
  mkRequest "POST" "/api/v1/business/plans" (Some authorization) None tenant None None None "acme.isp.example" None.

(** The tenant of a request without a local token comes from its headers. *)
Example header_tenant :
  fst (dispatch (request_with "Bearer x" (Some "7")) (start_offline 0 staff_db)) = Ok (Some (Some 7, None)).
Proof. vm_compute. reflexivity. Qed.

Example subdomain_tenant :
  fst (dispatch (request_with "Bearer x" None) (start_offline 0 staff_db)) = Ok (Some (Some 1, None)).
Proof. vm_compute. reflexivity. Qed.

(** A token without a user name, as the PPPoE portal issues them, opens nothing. *)
Example portal_token_refused :
  fst (get_current_user (request_with "Bearer portal" None) "r" (start_offline 0 staff_db)) = Raise unauthenticated.
Proof. vm_compute. reflexivity. Qed.


Definition former_admin : User := staff_user <| usr_is_active := false |>.

Lemma deactivated_admin_passes_witness :
  let db := staff_db <| t_users := {[3 := former_admin]} |> in
  exists w' : @World unreachable_router,
    require_isp_admin None (request_with "Bearer ann" None) "r" (start_offline 0 db) = (Ok (3, former_admin), w').
Proof.
  set (db := staff_db <| t_users := {[3 := former_admin]} |>).
  destruct (deactivated_admin_passes (request_with "Bearer ann" None) "r" None 3 former_admin 1
              (default (mkOrgRow "" None "" "" TRIAL "" None None None None None None None None) (t_organizations staff_db !! 1))
              (start_offline 0 db)) as (_ & E & _).
  - vm_compute. reflexivity.
  - reflexivity.
  - reflexivity.
  - reflexivity.
  - reflexivity.
  - discriminate.
  - reflexivity.
  - discriminate.
  - eexists. exact E.
Defined.
