(* ===== verification/RateLimit.v ===== *)
(** * Limits on credential attempts ([app/core/rate_limit.py])

    The Lua script and its callers over a Redis server, whose commands are a
    parameter with the laws of their documentation; the limiter refines a
    fixed-window counter per key, and the bound on what passes in any span of
    time follows. Times are in milliseconds. *)

From S2P Require Import Prelude PyString.

(** ** The server *)

(** The live entry of a key: its counter and the time it expires at. *)
Class Redis := {
  Store : Type;
  entry : Store -> Z -> string -> option (Z * option Z);
  incr : Store -> Z -> string -> Z * Store;
  pexpire : Store -> Z -> string -> Z -> Store;
  (** an entry lives until it expires *)
  entry_later : forall s now t k, now <= t ->
    entry s t k = match entry s now k with
                  | Some (v, Some e) => if t <? e then Some (v, Some e) else None
                  | o => o
                  end;
  (** [INCR] counts from zero and keeps the expiry *)
  incr_count : forall s now k,
    fst (incr s now k) = default 0 (fst <$> entry s now k) + 1;
  incr_entry : forall s now k,
    entry (snd (incr s now k)) now k = Some (fst (incr s now k), match entry s now k with Some (_, e) => e | None => None end);
  incr_other : forall s now k k', k' <> k -> entry (snd (incr s now k)) now k' = entry s now k';
  (** [PEXPIRE] with a positive time sets the expiry of a live key *)
  pexpire_entry : forall s now k ms v e, 0 < ms -> entry s now k = Some (v, e) ->
    entry (pexpire s now k ms) now k = Some (v, Some (now + ms));
  pexpire_other : forall s now k ms k', k' <> k -> entry (pexpire s now k ms) now k' = entry s now k'
}.

(** ** The limiter *)
Definition IDENTIFIER_LIMIT : Z := 10.
Definition IDENTIFIER_WINDOW_SECONDS : Z := 300.

Inductive Verdict : Type :=
  | Pass
  | Wait (retry_after : Z).

Record LimitConfig : Type := mkLimitConfig {
  rate_limit_enabled : bool;
  rate_limit_requests : Z;
  rate_limit_window : Z
}.

Section Limiter.
Context {redis : Redis}.

(** [PTTL] *)
Definition pttl (s : Store) (now : Z) (k : string) : Z :=
  match entry s now k with
  | None => -2
  | Some (_, None) => -1
  | Some (_, Some e) => e - now
  end.

(** [_HIT_SCRIPT] *)
Definition hit (s : Store) (now : Z) (k : string) (limit window_ms : Z) : Z * Store :=
  let (n, s) := incr s now k in
  let s := if n =? 1 then pexpire s now k window_ms else s in
  if limit <? n then
    let ttl := pttl s now k in
    if ttl <? 0 then (window_ms, pexpire s now k window_ms) else (ttl, s)
  else (-1, s).

Definition retry_after (ttl_ms : Z) : Z := Z.max 1 (- (- ttl_ms / 1000)).

(** [up] says whether the server answers: an outage lets the request through. *)
Definition enforce (cfg : LimitConfig) (up : bool) (s : Store) (now : Z) (key : string) (limit window_seconds : Z)
    : Verdict * Store :=
  if negb (rate_limit_enabled cfg) then (Pass, s)
  else if negb up then (Pass, s)
  else
    let (ttl_ms, s) := hit s now ("isp:rl:" +:+ key) limit (window_seconds * 1000) in
    (if 0 <=? ttl_ms then Wait (retry_after ttl_ms) else Pass, s).

Definition client_ip (x_real_ip : option string) (host : option string) : string :=
  let real := strip (default "" x_real_ip) in
  if bool_decide (real = "") then default "unknown" host else real.

Definition limit_credential_attempt (cfg : LimitConfig) (up : bool) (s : Store) (now : Z) (ip scope : string)
    (identifier : option string) : Verdict * Store :=
  match enforce cfg up s now (scope +:+ ":ip:" +:+ ip) (rate_limit_requests cfg) (rate_limit_window cfg) with
  | (Wait r, s) => (Wait r, s)
  | (Pass, s) =>
      match identifier with
      | Some i =>
          if bool_decide (i = "") then (Pass, s)
          else enforce cfg up s now (scope +:+ ":id:" +:+ lower (strip i)) IDENTIFIER_LIMIT IDENTIFIER_WINDOW_SECONDS
      | None => (Pass, s)
      end
  end.
End Limiter.

(** ** The fixed-window counter *)

(** A counter with the end of its window. *)
Definition window_step (limit window_ms : Z) (st : option (Z * Z)) (t : Z) : Verdict * option (Z * Z) :=
  let '(n, e) := match st with
                 | Some (n, e) => if t <? e then (n + 1, e) else (1, t + window_ms)
                 | None => (1, t + window_ms)
                 end in
  (if limit <? n then Wait (retry_after (e - t)) else Pass, Some (n, e)).

Fixpoint window_run (limit window_ms : Z) (st : option (Z * Z)) (ts : list Z) : list Verdict :=
  match ts with
  | [] => []
  | t :: ts' =>
      let (v, st') := window_step limit window_ms st t in
      v :: window_run limit window_ms st' ts'
  end.

Definition passes (v : Verdict) : bool := match v with Pass => true | Wait _ => false end.

(** How many of the attempts at [ts] in the span of [len] from [a] passed. *)
Fixpoint passed_in (a len : Z) (ts : list Z) (vs : list Verdict) : Z :=
  match ts, vs with
  | t :: ts', v :: vs' =>
      (if passes v && (a <=? t) && (t <? a + len) then 1 else 0) + passed_in a len ts' vs'
  | _, _ => 0
  end.

(** Times that do not go back. *)
Fixpoint ordered (now : Z) (ts : list Z) : Prop :=
  match ts with [] => True | t :: ts' => now <= t /\ ordered t ts' end.

(** What the span can still let through. *)
Definition room (limit window_ms a now : Z) (st : option (Z * Z)) : Z :=
  if a + window_ms <=? now then 0
  else match st with
       | Some (n, e) =>
           if a + window_ms <=? e then Z.max 0 (limit - n)
           else if a <? e then Z.max 0 (limit - n) + limit else 2 * limit
       | None => 2 * limit
       end.

Lemma room_step limit window_ms a now st t :
  0 <= limit -> 0 < window_ms -> now <= t ->
  (if passes (fst (window_step limit window_ms st t)) && (a <=? t) && (t <? a + window_ms) then 1 else 0)
  + room limit window_ms a t (snd (window_step limit window_ms st t)) <= room limit window_ms a now st.
Proof.
  intros Hl Hw Ht. unfold room, window_step. destruct st as [[n e]|]; [destruct (t <? e) eqn:Et|];
    simpl; repeat match goal with
      | |- context [limit <? ?x] => destruct (limit <? x) eqn:?
      end; simpl;
    repeat match goal with |- context [if ?b then _ else _] => destruct b eqn:? end; lia.
Qed.

Lemma window_bound limit window_ms a : 0 <= limit -> 0 < window_ms ->
  forall ts now st, ordered now ts ->
  passed_in a window_ms ts (window_run limit window_ms st ts) <= room limit window_ms a now st.
Proof.
  intros Hl Hw ts. induction ts as [|t ts IH]; intros now st H.
  - simpl. unfold room. repeat case_match; lia.
  - destruct H as [Ht Ho]. simpl. pose proof (room_step limit window_ms a now st t Hl Hw Ht) as Hs.
    destruct (window_step limit window_ms st t) as [v st']. simpl in *. specialize (IH t st' Ho). lia.
Qed.

(** ** The limiter is that counter, key by key *)
Section Refinement.
Context {redis : Redis}.
Variable cfg : LimitConfig.
Hypothesis enabled : rate_limit_enabled cfg = true.

(** The limit and the window in seconds of each key. *)
Variables (limit_of window_of : string -> Z).
Hypothesis window_pos : forall k, 0 < window_of k.

Definition window_ms (k : string) : Z := window_of k * 1000.

(** A run of attempts, each at its time on its key. *)
Fixpoint enforce_all (s : Store) (l : list (Z * string)) : list Verdict :=
  match l with
  | [] => []
  | (t, k) :: l' =>
      let (v, s') := enforce cfg true s t k (limit_of k) (window_of k) in
      v :: enforce_all s' l'
  end.

Definition times_of (k : string) (l : list (Z * string)) : list Z :=
  map fst (filter (fun tk => tk.2 = k) l).

(** The verdicts on the attempts of one key. *)
Fixpoint verdicts_of (k : string) (l : list (Z * string)) (vs : list Verdict) : list Verdict :=
  match l, vs with
  | (_, k') :: l', v :: vs' => if bool_decide (k' = k) then v :: verdicts_of k l' vs' else verdicts_of k l' vs'
  | _, _ => []
  end.

Definition redis_key (k : string) : string := "isp:rl:" +:+ k.

(** The server's entry for a key, and the counter it stands for. *)
Definition stands_for (s : Store) (now : Z) (k : string) (st : option (Z * Z)) : Prop :=
  match st with
  | Some (n, e) => 1 <= n /\ entry s now (redis_key k) = if now <? e then Some (n, Some e) else None
  | None => entry s now (redis_key k) = None
  end.

Lemma stands_later s now t k st : now <= t -> stands_for s now k st -> stands_for s t k st.
Proof.
  intros Ht. unfold stands_for. destruct st as [[n e]|].
  - intros [Hn H]. split; [done|]. rewrite (entry_later s now t) by done. rewrite H.
    destruct (now <? e) eqn:E1, (t <? e) eqn:E2; try done; lia.
  - intros H. rewrite (entry_later s now t) by done. by rewrite H.
Qed.

Lemma redis_key_inj k k' : redis_key k = redis_key k' -> k = k'.
Proof. apply string_app_inj. Qed.

(** The script on one key is a step of its counter. *)
Lemma hit_step s now k st :
  stands_for s now k st ->
  let (v, s') := enforce cfg true s now k (limit_of k) (window_of k) in
  let (v', st') := window_step (limit_of k) (window_ms k) st now in
  v = v' /\ stands_for s' now k st'.
Proof.
  intros H. unfold enforce. rewrite enabled. simpl negb. cbv iota. fold (redis_key k).
  fold (window_ms k). unfold hit.
  pose proof (incr_count s now (redis_key k)) as Hc. pose proof (incr_entry s now (redis_key k)) as He.
  destruct (incr s now (redis_key k)) as [n s1]. simpl in Hc, He.
  assert (Hw : 0 < window_ms k) by (unfold window_ms; specialize (window_pos k); lia).
  assert (Hcases : (entry s now (redis_key k) = None /\
      window_step (limit_of k) (window_ms k) st now = (if limit_of k <? 1 then Wait (retry_after (window_ms k)) else Pass, Some (1, now + window_ms k))) \/
    exists m e, now < e /\ 1 <= m /\ entry s now (redis_key k) = Some (m, Some e) /\
      window_step (limit_of k) (window_ms k) st now = (if limit_of k <? m + 1 then Wait (retry_after (e - now)) else Pass, Some (m + 1, e))).
  { unfold stands_for in H. unfold window_step. destruct st as [[m e]|].
    - destruct H as [Hm H]. destruct (now <? e) eqn:E; [right|left].
      + exists m, e. split; [lia|done].
      + split; [done|]. by replace (now + window_ms k - now) with (window_ms k) by lia.
    - left. split; [done|]. by replace (now + window_ms k - now) with (window_ms k) by lia. }
  destruct Hcases as [[Hn ->]|(m & e & Hlt & Hm & Hn & ->)]; rewrite Hn in Hc, He; simpl in Hc, He; subst n.
  - change (0 + 1) with 1 in *. change (1 =? 1) with true. lazy beta iota zeta.
    pose proof (pexpire_entry s1 now (redis_key k) (window_ms k) 1 None Hw He) as He2.
    assert (Hs : stands_for (pexpire s1 now (redis_key k) (window_ms k)) now k (Some (1, now + window_ms k))).
    { split; [lia|]. rewrite He2. rewrite (proj2 (Z.ltb_lt _ _)) by lia. done. }
    destruct (limit_of k <? 1) eqn:El; [|lazy beta iota zeta; change (0 <=? -1) with false; lazy beta iota zeta; by split].
    lazy beta iota zeta. unfold pttl. rewrite He2. replace (now + window_ms k - now) with (window_ms k) by lia.
    rewrite (proj2 (Z.ltb_ge (window_ms k) 0)) by lia. rewrite (proj2 (Z.leb_le 0 (window_ms k))) by lia.
    lazy beta iota zeta. by split.
  - rewrite (proj2 (Z.eqb_neq (m + 1) 1)) by lia. cbv iota.
    assert (Hs : stands_for s1 now k (Some (m + 1, e))).
    { split; [lia|]. rewrite He. by rewrite (proj2 (Z.ltb_lt _ _)). }
    destruct (limit_of k <? m + 1) eqn:El; [|lazy beta iota zeta; change (0 <=? -1) with false; lazy beta iota zeta; by split].
    unfold pttl. rewrite He. rewrite (proj2 (Z.ltb_ge (e - now) 0)) by lia.
    rewrite (proj2 (Z.leb_le 0 (e - now))) by lia. lazy beta iota zeta. by split.
Qed.

(** An attempt on another key leaves the entry alone. *)
Lemma hit_other s now k k' st :
  k' <> k -> stands_for s now k st -> stands_for (snd (enforce cfg true s now k' (limit_of k') (window_of k'))) now k st.
Proof.
  intros Hk. assert (Hne : redis_key k <> redis_key k') by (intros E%redis_key_inj; by subst).
  unfold stands_for.
  assert (E : entry (snd (enforce cfg true s now k' (limit_of k') (window_of k'))) now (redis_key k) = entry s now (redis_key k)).
  { unfold enforce. rewrite enabled. simpl negb. cbv iota. fold (redis_key k'). unfold hit.
    pose proof (incr_other s now (redis_key k') (redis_key k) Hne) as H1.
    destruct (incr s now (redis_key k')) as [n s1]. simpl in H1.
    destruct (n =? 1), (limit_of k' <? n); cbv zeta; try (destruct (pttl _ now _ <? 0));
      simpl; rewrite ?pexpire_other by done; done. }
  by rewrite E.
Qed.

Lemma refines_from k l : forall s now st,
  ordered now (map fst l) -> stands_for s now k st ->
  verdicts_of k l (enforce_all s l) = window_run (limit_of k) (window_ms k) st (times_of k l).
Proof.
  induction l as [|[t k'] l IH]; intros s now st Ho Hst; [done|]. destruct Ho as [Ht Ho].
  apply (stands_later s now t k st Ht) in Hst. unfold times_of.
  destruct (decide (k' = k)) as [->|Hne].
  - rewrite filter_cons_True by done. simpl. pose proof (hit_step s t k st Hst) as H.
    destruct (enforce cfg true s t k (limit_of k) (window_of k)) as [v s']. simpl.
    rewrite bool_decide_eq_true_2 by done.
    destruct (window_step (limit_of k) (window_ms k) st t) as [v' st']. destruct H as [-> Hst'].
    f_equal. by apply (IH s' t).
  - rewrite filter_cons_False by done. simpl. pose proof (hit_other s t k k' st Hne Hst) as H.
    destruct (enforce cfg true s t k' (limit_of k') (window_of k')) as [v s']. simpl in H |- *.
    rewrite bool_decide_eq_false_2 by done. by apply (IH s' t).
Qed.

(** C25. The limiter is a fixed-window counter per key: whatever attempts on
    whatever keys come in the order of time, the verdicts on one key are
    those of a counter of its own that opens a window at the first attempt,
    refuses what exceeds the limit, says how long the window still lasts, and
    starts again at its end; attempts on other keys make no difference. *)
Theorem limiter_refines_window s now k l :
  entry s now (redis_key k) = None -> ordered now (map fst l) ->
  verdicts_of k l (enforce_all s l) = window_run (limit_of k) (window_ms k) None (times_of k l).
Proof. intros He Ho. by apply (refines_from k l s now None). Qed.

Lemma ordered_times k l : forall now, ordered now (map fst l) -> ordered now (times_of k l).
Proof.
  assert (Hlow : forall ts a b, a <= b -> ordered b ts -> ordered a ts)
    by (intros [|t ts] a b Hab; [done|]; intros [H1 H2]; split; [lia|done]).
  induction l as [|[t k'] l IH]; intros now H; [done|]. destruct H as [Ht Ho].
  unfold times_of. rewrite filter_cons. simpl. case_decide; simpl.
  - split; [done|]. by apply IH.
  - apply (Hlow _ now t Ht). by apply IH.
Qed.

(** Guessing is bounded: in any span as long as a key's window, at most
    twice its limit of the attempts on that key get through, whenever they
    come and whatever happens on other keys. *)
Theorem attempts_bounded s now k l a :
  0 <= limit_of k -> entry s now (redis_key k) = None -> ordered now (map fst l) ->
  passed_in a (window_ms k) (times_of k l) (verdicts_of k l (enforce_all s l)) <= 2 * limit_of k.
Proof.
  intros Hl He Ho. rewrite (refines_from k l s now None Ho He).
  assert (Hw : 0 < window_ms k) by (unfold window_ms; specialize (window_pos k); lia).
  etransitivity; [exact (window_bound _ _ a Hl Hw _ now None (ordered_times k l now Ho))|].
  unfold room. case_match; lia.
Qed.
End Refinement.

(** ** A server of its commands *)

Notation table := (gmap string (Z * option Z)).

Definition live (now : Z) (ve : Z * option Z) : option (Z * option Z) :=
  match ve with
  | (v, Some e) => if now <? e then Some (v, Some e) else None
  | (v, None) => Some (v, None)
  end.

Definition table_entry (m : table) (now : Z) (k : string) : option (Z * option Z) := m !! k ≫= live now.

Definition table_incr (m : table) (now : Z) (k : string) : Z * table :=
  let (v, e) := default (0, None) (table_entry m now k) in (v + 1, <[k := (v + 1, e)]> m).

Definition table_pexpire (m : table) (now : Z) (k : string) (ms : Z) : table :=
  match table_entry m now k with
  | Some (v, _) => <[k := (v, Some (now + ms))]> m
  | None => m
  end.

#[export] Program Instance table_redis : Redis := {|
  Store := table;
  entry := table_entry;
  incr := table_incr;
  pexpire := table_pexpire
|}.
Next Obligation.
  intros s now t k Ht. unfold table_entry. destruct (s !! k) as [[v [e|]]|]; simpl; [|done|done].
  destruct (now <? e) eqn:E1, (t <? e) eqn:E2; simpl; rewrite ?E2; try done; lia.
Qed.
Next Obligation.
  intros s now k. unfold table_incr. by destruct (table_entry s now k) as [[v e]|].
Qed.
Next Obligation.
  intros s now k. unfold table_incr.
  destruct (table_entry s now k) as [[v e]|] eqn:E; cbn [default option_map from_option id fst snd];
    unfold table_entry; rewrite lookup_insert_eq; simpl; [|done].
  destruct e as [e|]; [|done]. unfold table_entry in E.
  destruct (s !! k) as [[v0 [e0|]]|]; simpl in E; try done. destruct (now <? e0) eqn:Ee; simplify_eq. by rewrite Ee.
Qed.
Next Obligation.
  intros s now k k' Hk. unfold table_incr. destruct (default (0, None) (table_entry s now k)) as [v e].
  cbn [snd]. unfold table_entry. by rewrite lookup_insert_ne.
Qed.
Next Obligation.
  intros s now k ms v e Hms H. unfold table_pexpire. rewrite H.
  unfold table_entry. rewrite lookup_insert_eq. simpl. by rewrite (proj2 (Z.ltb_lt _ _)) by lia.
Qed.
Next Obligation.
  intros s now k ms k' Hk. unfold table_pexpire. destruct (table_entry s now k) as [[v e]|]; [|done].
  unfold table_entry. by rewrite lookup_insert_ne.
Qed.

Definition limits_on : LimitConfig := mkLimitConfig true 30 60.

(** Two codes tried in turn with a limit of two in ten seconds. *)
Definition attempts : list (Z * string) :=
  [(0, "a"); (100, "b"); (200, "a"); (300, "a"); (400, "b"); (9999, "a"); (10000, "a"); (10001, "a"); (10002, "a")].

Example attempts_verdicts :
  verdicts_of "a" attempts (enforce_all limits_on (fun _ => 2) (fun _ => 10) (∅ : table) attempts)
  = [Pass; Pass; Wait 10; Wait 1; Pass; Pass; Wait 10].
Proof. reflexivity. Qed.

Lemma limiter_refines_window_witness :
  verdicts_of "a" attempts (enforce_all limits_on (fun _ => 2) (fun _ => 10) (∅ : table) attempts)
  = window_run 2 10000 None (times_of "a" attempts).
Proof.
  apply (limiter_refines_window (redis := table_redis) limits_on eq_refl (fun _ => 2) (fun _ => 10) ltac:(lia) (∅ : table) 0 "a" attempts);
    [reflexivity | simpl; lia].
Defined.

Lemma attempts_bounded_witness :
  passed_in 100 10000 (times_of "a" attempts)
    (verdicts_of "a" attempts (enforce_all limits_on (fun _ => 2) (fun _ => 10) (∅ : table) attempts)) <= 4.
Proof.
  apply (attempts_bounded (redis := table_redis) limits_on eq_refl (fun _ => 2) (fun _ => 10) ltac:(lia) (∅ : table) 0 "a" attempts 100);
    [lia | reflexivity | simpl; lia].
Defined.
