(* ===== verification/Coroutines.v ===== *)
(** * Coroutines of an event loop

    The programs of [asyncio] handlers and tasks: between two awaits a
    coroutine runs alone, at an await it gives way to any other. A scheduler of
    threads over several processes with one shared cache, and a rule to prove
    that an invariant of the processes holds at every await. *)

From S2P Require Import Prelude.

(** ** The shared cache

    [SET] with an expiry, and [GET]; times in seconds. *)
Class Cache (Js : Type) := {
  CStore : Type;
  cget : CStore -> Z -> string -> option Js;
  cset : CStore -> Z -> string -> Js -> Z -> CStore;
  cget_same : forall c now t k v ttl, now <= t < now + ttl -> cget (cset c now k v ttl) t k = Some v;
  cget_other : forall c now t k k' v ttl, k' <> k -> cget (cset c now k v ttl) t k' = cget c t k'
}.

Section Coroutines.
(** The state of a process, the requests answered by a boolean, the cached
    values, and the arguments of the tasks a coroutine may create. *)
Context {St Rq Js Tk : Type}.

Inductive co (A : Type) : Type :=
  | Done (a : A)
  | Throw (e : exn)
  (** a synchronous change of the state: [f] and [k] take the time and the
      state before it *)
  | Local (f : Z -> St -> St) (k : Z -> St -> co A)
  (** awaits *)
  | Ask (q : Rq) (k : bool -> co A)
  | Get (key : string) (k : option Js -> co A)
  | Put (key : string) (v : Js) (ttl : Z) (k : co A)
  | Join (t : nat) (k : co A)
  (** [create_task], [task.cancel] *)
  | Spawn (a : Tk) (k : nat -> co A)
  | Cancel (t : nat) (k : co A).

Arguments Done {A} a.
Arguments Throw {A} e.
Arguments Local {A} f k.
Arguments Ask {A} q k.
Arguments Get {A} key k.
Arguments Put {A} key v ttl k.
Arguments Join {A} t k.
Arguments Spawn {A} a k.
Arguments Cancel {A} t k.

Fixpoint cbind {A B} (c : co A) (h : A -> co B) : co B :=
  match c with
  | Done a => h a
  | Throw e => Throw e
  | Local f k => Local f (fun now s => cbind (k now s) h)
  | Ask q k => Ask q (fun b => cbind (k b) h)
  | Get key k => Get key (fun o => cbind (k o) h)
  | Put key v ttl k => Put key v ttl (cbind k h)
  | Join t k => Join t (cbind k h)
  | Spawn a k => Spawn a (fun n => cbind (k n) h)
  | Cancel t k => Cancel t (cbind k h)
  end.

(** [try: c except Exception as e: h e] *)
Fixpoint ctry {A} (c : co A) (h : exn -> co A) : co A :=
  match c with
  | Done a => Done a
  | Throw e => h e
  | Local f k => Local f (fun now s => ctry (k now s) h)
  | Ask q k => Ask q (fun b => ctry (k b) h)
  | Get key k => Get key (fun o => ctry (k o) h)
  | Put key v ttl k => Put key v ttl (ctry k h)
  | Join t k => Join t (ctry k h)
  | Spawn a k => Spawn a (fun n => ctry (k n) h)
  | Cancel t k => Cancel t (ctry k h)
  end.

Definition get_state {A} (k : Z -> St -> co A) : co A := Local (fun _ s => s) k.
Definition set_state {A} (f : Z -> St -> St) (k : co A) : co A := Local f (fun _ _ => k).

(** ** Threads and processes *)
Context {Rep Lc Cl : Type}.

(** A task is a loop: [body] is one pass, from the arguments or from the
    variables the last pass left; [None] ends it. [cleanup] is its [finally]. *)
Record Program := {
  handler : Cl -> co Rep;
  body : Tk -> option Lc -> co (option Lc);
  cleanup : Tk -> St -> St
}.

Inductive Thread : Type :=
  | Handler (c : co Rep)
  | Fresh (a : Tk) (cancelled : bool)
  | Looping (a : Tk) (cancelled : bool) (c : co (option Lc)).

Record Proc : Type := mkProc {
  p_st : St;
  p_next : nat;
  p_pool : gmap nat Thread;
  p_asked : list Rq;
  p_replies : list (nat * outcome Rep)
}.

#[export] Instance proc_eta : Eta Proc :=
  fun p => mkProc (p_st p) (p_next p) (p_pool p) (p_asked p) (p_replies p).

Definition cancel_thread (th : Thread) : Thread :=
  match th with
  | Fresh a _ => Fresh a true
  | Looping a _ c => Looping a true c
  | h => h
  end.

(** Runs up to the next await. *)
Fixpoint settle {A} (now : Z) (p : Proc) (c : co A) : Proc * co A :=
  match c with
  | Local f k => settle now (p <| p_st ::= f now |>) (k now (p_st p))
  | Spawn a k =>
      settle now (p <| p_next ::= S |> <| p_pool ::= insert (p_next p) (Fresh a false) |>) (k (p_next p))
  | Cancel t k => settle now (p <| p_pool ::= alter cancel_thread t |>) k
  | c => (p, c)
  end.

Definition park_handler (t : nat) (pc : Proc * co Rep) : Proc :=
  let (p, c) := pc in
  match c with
  | Done a => p <| p_replies ::= fun l => l ++ [(t, Ok a)] |>
  | Throw e => p <| p_replies ::= fun l => l ++ [(t, Raise e)] |>
  | c => p <| p_pool ::= insert t (Handler c) |>
  end.

Section Schedule.
Context {cache : Cache Js} (prog : Program).

Definition finish_task (a : Tk) (p : Proc) : Proc := p <| p_st ::= cleanup prog a |>.

Definition park_task (t : nat) (a : Tk) (pc : Proc * co (option Lc)) : Proc :=
  let (p, c) := pc in
  match c with
  | Done None | Throw _ => finish_task a p
  | c => p <| p_pool ::= insert t (Looping a false c) |>
  end.

(** A pass that ends goes on with the next one. *)
Definition run_task (now : Z) (t : nat) (a : Tk) (p : Proc) (c : co (option Lc)) : Proc :=
  match settle now p c with
  | (p, Done (Some l)) => park_task t a (settle now p (body prog a (Some l)))
  | pc => park_task t a pc
  end.

(** The answer to an await; [b] says whether the probe succeeded, the message
    went out or the cache is there. [None] is an await that has to go on. *)
Definition answer {A} (now : Z) (cs : CStore) (p : Proc) (b : bool) (c : co A) : option (CStore * Proc * co A) :=
  match c with
  | Ask q k => Some (cs, p <| p_asked ::= fun l => l ++ [q] |>, k b)
  | Get key k => Some (cs, p, k (if b then cget cs now key else None))
  | Put key v ttl k => Some (if b then cset cs now key v ttl else cs, p, k)
  | Join t k => match p_pool p !! t with Some _ => None | None => Some (cs, p, k) end
  | _ => None
  end.

(** [CancelledError] is thrown at the await of a cancelled task; a task that
    has not started ends without its [finally]. *)
Definition resume (now : Z) (cs : CStore) (p : Proc) (t : nat) (b : bool) : CStore * Proc :=
  let p' := p <| p_pool ::= delete t |> in
  match p_pool p !! t with
  | None => (cs, p)
  | Some (Handler c) =>
      match answer now cs p' b c with
      | Some (cs, p', c) => (cs, park_handler t (settle now p' c))
      | None => (cs, p)
      end
  | Some (Fresh a true) => (cs, p')
  | Some (Fresh a false) => (cs, run_task now t a p' (body prog a None))
  | Some (Looping a true c) => (cs, finish_task a p')
  | Some (Looping a false c) =>
      match answer now cs p' b c with
      | Some (cs, p', c) => (cs, run_task now t a p' c)
      | None => (cs, p)
      end
  end.

Inductive Event : Type :=
  | Call (r : nat) (c : Cl)
  | Resume (r t : nat) (b : bool).

Record Cluster : Type := mkCluster {
  cl_cache : CStore;
  cl_procs : list Proc
}.

#[export] Instance cluster_eta : Eta Cluster := fun w => mkCluster (cl_cache w) (cl_procs w).

Definition call (now : Z) (p : Proc) (c : Cl) : Proc :=
  park_handler (p_next p) (settle now (p <| p_next ::= S |>) (handler prog c)).

Definition cluster_step (w : Cluster) (te : Z * Event) : Cluster :=
  let (now, e) := te in
  match e with
  | Call r c => w <| cl_procs ::= alter (fun p => call now p c) r |>
  | Resume r t b =>
      match cl_procs w !! r with
      | None => w
      | Some p =>
          let (cs, p') := resume now (cl_cache w) p t b in
          mkCluster cs (<[r := p']> (cl_procs w))
      end
  end.

Definition cluster_run (w : Cluster) (l : list (Z * Event)) : Cluster := fold_left cluster_step l w.

(** ** A task left alone *)

(** The requests of a coroutine that only asks, answered by [reply], and how
    it ends; [None] when it does anything else. *)
Fixpoint play {A} (reply : Rq -> bool) (now : Z) (s : St) (c : co A) : list Rq * St * option (outcome A) :=
  match c with
  | Done a => ([], s, Some (Ok a))
  | Throw e => ([], s, Some (Raise e))
  | Local f k => play reply now (f now s) (k now s)
  | Ask q k => let '(qs, s, o) := play reply now s (k (reply q)) in (q :: qs, s, o)
  | _ => ([], s, None)
  end.

Definition ended {A} (o : outcome A) : co A := match o with Ok a => Done a | Raise e => Throw e end.

Definition resume_all (now : Z) (cs : CStore) (p : Proc) (t : nat) (bs : list bool) : Proc :=
  fold_left (fun p b => snd (resume now cs p t b)) bs p.

(** The scheduler plays it, whatever else there is in the pool. *)
Lemma play_run reply now cs t a (c : co (option Lc)) : forall p qs s o,
  p_pool p !! t = None -> play reply now (p_st p) c = (qs, s, Some o) ->
  resume_all now cs (run_task now t a p c) t (map reply qs) =
  run_task now t a (mkProc s (p_next p) (p_pool p) (p_asked p ++ qs) (p_replies p)) (ended o).
Proof.
  induction c as [x|e|f k IH|q k IH|key k IH|key v ttl k IH|t' k IH|a' k IH|t' k IH]; intros p qs s o Hp E; simpl in E;
    try done.
  - injection E as <- <- <-. rewrite app_nil_r. by destruct p.
  - injection E as <- <- <-. rewrite app_nil_r. by destruct p.
  - destruct p as [m nx pool asked reps]. exact (IH now m (mkProc (f now m) nx pool asked reps) qs s o Hp E).
  - destruct (play reply now (p_st p) (k (reply q))) as [[qs' s'] o'] eqn:E'. injection E as <- <- ->.
    destruct p as [m nx pool asked reps]. simpl in *. unfold resume_all. simpl.
    unfold run_task at 1. simpl. unfold resume at 2. simpl. rewrite lookup_insert_eq. simpl.
    rewrite delete_insert_id by done.
    change (q :: qs') with ([q] ++ qs'). rewrite (app_assoc asked). exact (IH (reply q) (mkProc m nx pool (asked ++ [q]) reps) qs' s' o Hp E').
Qed.

(** The passes of a task, with what they asked; [true] when it has ended. *)
Fixpoint watch (reply : option Lc -> Rq -> bool) (now : Z) (a : Tk) (fuel : nat) (s : St) (o : option Lc) (acc : list Rq)
    : list Rq * St * bool :=
  match fuel with
  | O => (acc, s, false)
  | S fuel' =>
      match play (reply o) now s (body prog a o) with
      | (qs, s, Some (Ok (Some l))) => watch reply now a fuel' s (Some l) (acc ++ qs)
      | (qs, s, Some _) => (acc ++ qs, s, true)
      | (qs, s, None) => (acc ++ qs, s, false)
      end
  end.

Section Watch.
Context (now : Z) (a : Tk).
(** A pass after the first awaits before it ends. *)
Hypothesis awaits : forall p l l', snd (settle now p (body prog a (Some l))) <> Done (Some l').

Lemma next_pass t p l : run_task now t a p (Done (Some l)) = run_task now t a p (body prog a (Some l)).
Proof.
  unfold run_task at 1. simpl. unfold run_task. pose proof (awaits p l) as H.
  destruct (settle now p (body prog a (Some l))) as [p1 c1]. simpl in H.
  destruct c1 as [[l'|]| | | | | | | | ]; try done. by destruct (H l').
Qed.

Lemma watch_passes reply cs t fuel : forall p o acc qs s,
  p_pool p !! t = None ->
  watch reply now a fuel (p_st p) o acc = (qs, s, true) ->
  exists qs' bs, qs = acc ++ qs' /\
    resume_all now cs (run_task now t a p (body prog a o)) t bs =
    mkProc (cleanup prog a s) (p_next p) (p_pool p) (p_asked p ++ qs') (p_replies p).
Proof.
  induction fuel as [|fuel IH]; intros p o acc qs s Hp E; simpl in E; [done|].
  destruct (play (reply o) now (p_st p) (body prog a o)) as [[qs1 s1] [o1|]] eqn:Ep; [|done].
  pose proof (play_run (reply o) now cs t a (body prog a o) p qs1 s1 o1 Hp Ep) as Hrun.
  destruct o1 as [[l|]|e].
  - set (p1 := mkProc s1 (p_next p) (p_pool p) (p_asked p ++ qs1) (p_replies p)).
    destruct (IH p1 (Some l) (acc ++ qs1) qs s Hp E) as (qs' & bs & -> & Hbs).
    exists (qs1 ++ qs'), (map (reply o) qs1 ++ bs). rewrite !app_assoc. split; [done|].
    unfold resume_all in *. rewrite fold_left_app, Hrun. simpl ended. rewrite next_pass. exact Hbs.
  - injection E as <- <-. exists qs1, (map (reply o) qs1). split; [done|exact Hrun].
  - injection E as <- <-. exists qs1, (map (reply o) qs1). split; [done|exact Hrun].
Qed.

(** What the passes ask is what the scheduler gets asked, by a task that it
    resumes with those answers. *)
Lemma watch_run reply cs t fuel p qs s :
  p_pool p !! t = Some (Fresh a false) ->
  watch reply now a fuel (p_st p) None [] = (qs, s, true) ->
  exists bs, resume_all now cs p t bs =
    mkProc (cleanup prog a s) (p_next p) (delete t (p_pool p)) (p_asked p ++ qs) (p_replies p).
Proof.
  intros Ht E. set (p0 := mkProc (p_st p) (p_next p) (delete t (p_pool p)) (p_asked p) (p_replies p)).
  destruct (watch_passes reply cs t fuel p0 None [] qs s) as (qs' & bs & Eq & Hbs);
    [apply lookup_delete_eq | exact E |].
  simpl in Eq. subst qs'. exists (true :: bs). unfold resume_all. simpl. unfold resume at 2. rewrite Ht. exact Hbs.
Qed.
End Watch.

(** One event at a time. *)
Lemma run_call cs ps r p now c l :
  ps !! r = Some p ->
  cluster_run (mkCluster cs ps) ((now, Call r c) :: l) = cluster_run (mkCluster cs (<[r := call now p c]> ps)) l.
Proof.
  intros Hp. unfold cluster_run. simpl. f_equal. unfold over. simpl. f_equal.
  revert r Hp. induction ps as [|q ps IH]; intros [|r] Hp; [done..| |].
  - by injection Hp as ->.
  - simpl. f_equal. by apply IH.
Qed.

Lemma run_resume cs ps r p now t b l cs' p' :
  ps !! r = Some p -> resume now cs p t b = (cs', p') ->
  cluster_run (mkCluster cs ps) ((now, Resume r t b) :: l) = cluster_run (mkCluster cs' (<[r := p']> ps)) l.
Proof. intros Hp E. unfold cluster_run. simpl. by rewrite Hp, E. Qed.

(** The same for a process alone. *)
Lemma alone_call cs p now c l :
  cluster_run (mkCluster cs [p]) ((now, Call 0 c) :: l) = cluster_run (mkCluster cs [call now p c]) l.
Proof. reflexivity. Qed.

Lemma alone_resume cs p now t b l cs' p' :
  resume now cs p t b = (cs', p') ->
  cluster_run (mkCluster cs [p]) ((now, Resume 0 t b) :: l) = cluster_run (mkCluster cs' [p']) l.
Proof. intros E. unfold cluster_run. simpl. by rewrite E. Qed.

Lemma resume_handler now cs p t b c cs' p1 c1 :
  p_pool p !! t = Some (Handler c) -> answer now cs (p <| p_pool ::= delete t |>) b c = Some (cs', p1, c1) ->
  resume now cs p t b = (cs', park_handler t (settle now p1 c1)).
Proof. intros Ht E. unfold resume. by rewrite Ht, E. Qed.

Lemma resume_cancelled now cs p t b a c :
  p_pool p !! t = Some (Looping a true c) -> resume now cs p t b = (cs, finish_task a (p <| p_pool ::= delete t |>)).
Proof. intros Ht. unfold resume. by rewrite Ht. Qed.

(** ** Invariants at every await *)
Section Invariants.
Variable I : St -> Prop.

(** [c], started in the state, keeps [I] at each of its awaits, whatever the
    others do to the state there, and ends as [Q] says. *)
Fixpoint wp {A} (c : co A) (Q : outcome A -> St -> Prop) (s : St) : Prop :=
  match c with
  | Done a => Q (Ok a) s
  | Throw e => Q (Raise e) s
  | Local f k => forall now, wp (k now s) Q (f now s)
  | Ask q k => I s /\ forall b s', I s' -> wp (k b) Q s'
  | Get key k => I s /\ forall o s', I s' -> wp (k o) Q s'
  | Put key v ttl k => I s /\ forall s', I s' -> wp k Q s'
  | Join t k => I s /\ forall s', I s' -> wp k Q s'
  | Spawn a k => forall n, wp (k n) Q s
  | Cancel t k => wp k Q s
  end.

Lemma wp_mono {A} (c : co A) (Q Q' : outcome A -> St -> Prop) :
  (forall o s, Q o s -> Q' o s) -> forall s, wp c Q s -> wp c Q' s.
Proof.
  intros H. induction c; simpl; intros s Hs; eauto;
    destruct Hs as [Hi Hs]; (split; [exact Hi|]); intros; eauto.
Qed.

Lemma wp_bind {A B} (c : co A) (h : A -> co B) Q s :
  wp c (fun o s => match o with Ok a => wp (h a) Q s | Raise e => Q (Raise e) s end) s -> wp (cbind c h) Q s.
Proof.
  revert s. induction c; simpl; intros s Hs; eauto;
    destruct Hs as [Hi Hs]; (split; [exact Hi|]); intros; eauto.
Qed.

Lemma wp_try {A} (c : co A) (h : exn -> co A) Q s :
  wp c (fun o s => match o with Ok a => Q (Ok a) s | Raise e => wp (h e) Q s end) s -> wp (ctry c h) Q s.
Proof.
  revert s. induction c; simpl; intros s Hs; eauto;
    destruct Hs as [Hi Hs]; (split; [exact Hi|]); intros; eauto.
Qed.

(** Code that waits, and is right from any state the others may leave. *)
Definition parked {A} (c : co A) (Q : outcome A -> St -> Prop) : Prop := forall s, I s -> wp c Q s.

(** What is left of a run that has settled. *)
Definition settled {A} (c : co A) (Q : outcome A -> St -> Prop) (s : St) : Prop :=
  match c with
  | Done a => Q (Ok a) s
  | Throw e => Q (Raise e) s
  | c => I s /\ parked c Q
  end.

Variable P : Tk -> Lc -> Prop.

(** The end of a pass: the next one goes on, or [finally] restores [I]. *)
Definition pass_ends (a : Tk) (o : outcome (option Lc)) (s : St) : Prop :=
  match o with
  | Ok (Some l) => I s /\ P a l
  | _ => I (cleanup prog a s)
  end.

(** What holds of every reply. *)
Variable R : Rep -> Prop.

Definition reply_ok (o : outcome Rep) : Prop := match o with Ok r => R r | Raise _ => True end.

Definition kept (o : outcome Rep) (s : St) : Prop := I s /\ reply_ok o.

Hypothesis handlers_keep : forall c, parked (handler prog c) kept.
Hypothesis body_starts : forall a, parked (body prog a None) (pass_ends a).
Hypothesis body_goes_on : forall a l, P a l -> parked (body prog a (Some l)) (pass_ends a).
Hypothesis cleanup_keeps : forall a s, I s -> I (cleanup prog a s).

Definition thread_ok (th : Thread) : Prop :=
  match th with
  | Handler c => parked c kept
  | Fresh a _ => True
  | Looping a _ c => parked c (pass_ends a)
  end.

Definition replies_ok (p : Proc) : Prop := Forall (fun to => reply_ok to.2) (p_replies p).

Definition proc_ok (p : Proc) : Prop :=
  I (p_st p) /\ map_Forall (fun _ => thread_ok) (p_pool p) /\ replies_ok p.

Lemma cancel_ok th : thread_ok th -> thread_ok (cancel_thread th).
Proof. by destruct th. Qed.

Lemma settle_settled {A} now (c : co A) Q : forall p,
  map_Forall (fun _ => thread_ok) (p_pool p) -> wp c Q (p_st p) ->
  settled (snd (settle now p c)) Q (p_st (fst (settle now p c))) /\
  map_Forall (fun _ => thread_ok) (p_pool (fst (settle now p c))) /\
  p_replies (fst (settle now p c)) = p_replies p.
Proof.
  induction c as [a|e|f k IH|q k IH|key k IH|key v ttl k IH|t k IH|a k IH|t k IH]; intros p Hp H; simpl in *;
    try (split; [|split; [exact Hp|done]]; done);
    try (split; [|split; [exact Hp|done]]; split; [exact (proj1 H)|]; intros s Hs; split; [exact Hs|exact (proj2 H)]).
  - refine (IH now (p_st p) (mkProc _ _ (p_pool p) _ (p_replies p)) Hp _). apply H.
  - refine (IH (p_next p) (mkProc (p_st p) _ _ _ (p_replies p)) _ _); [by apply map_Forall_insert_2|apply H].
  - refine (IH (mkProc (p_st p) _ _ _ (p_replies p)) _ H). intros i th. simpl. rewrite lookup_alter_Some.
    intros [(<- & th' & Ht & ->)|[_ Ht]]; [apply cancel_ok|]; by apply (Hp _ _ Ht).
Qed.

Lemma park_handler_ok t (pc : Proc * co Rep) :
  map_Forall (fun _ => thread_ok) (p_pool pc.1) -> replies_ok pc.1 -> settled pc.2 kept (p_st pc.1) ->
  proc_ok (park_handler t pc).
Proof.
  destruct pc as [p c]. simpl. intros Hp Hr H.
  assert (Hw : forall c : co Rep, I (p_st p) -> parked c kept -> proc_ok (p <| p_pool ::= insert t (Handler c) |>)).
  { intros c' Hi Hc. split; [exact Hi|]. split; [|exact Hr]. by apply map_Forall_insert_2. }
  assert (Hd : forall o, kept o (p_st p) -> proc_ok (p <| p_replies ::= fun l => l ++ [(t, o)] |>)).
  { intros o [Hi Ho]. split; [exact Hi|]. split; [exact Hp|]. unfold replies_ok. simpl. by apply Forall_app_2, Forall_singleton. }
  destruct c; simpl in H; try (by apply Hd); (apply Hw; [exact (proj1 H)|exact (proj2 H)]).
Qed.

Lemma park_task_ok t a (pc : Proc * co (option Lc)) :
  map_Forall (fun _ => thread_ok) (p_pool pc.1) -> replies_ok pc.1 -> settled pc.2 (pass_ends a) (p_st pc.1) ->
  proc_ok (park_task t a pc).
Proof.
  destruct pc as [p c]. simpl. intros Hp Hr H.
  assert (Hw : forall c : co (option Lc), I (p_st p) -> parked c (pass_ends a) ->
    proc_ok (p <| p_pool ::= insert t (Looping a false c) |>)).
  { intros c' Hi Hc. split; [exact Hi|]. split; [|exact Hr]. by apply map_Forall_insert_2. }
  destruct c as [[l|]|e| | | | | | |]; simpl in *; try (by split); try (apply Hw; [exact (proj1 H)|exact (proj2 H)]).
  apply Hw; [exact (proj1 H)|]. intros s Hs. simpl. split; [exact Hs|exact (proj2 H)].
Qed.

Lemma run_task_ok now t a p (c : co (option Lc)) :
  map_Forall (fun _ => thread_ok) (p_pool p) -> replies_ok p -> wp c (pass_ends a) (p_st p) ->
  proc_ok (run_task now t a p c).
Proof.
  intros Hp Hr H. destruct (settle_settled now c (pass_ends a) p Hp H) as (Hs & Hp' & Hr'). unfold run_task.
  destruct (settle now p c) as [p1 c1]. simpl in *.
  assert (Hr1 : replies_ok p1) by (unfold replies_ok; by rewrite Hr').
  destruct c1 as [[l|]| | | | | | | | ]; [|exact (park_task_ok t a (p1, _) Hp' Hr1 Hs)..].
  destruct Hs as [Hi Hl].
  destruct (settle_settled now (body prog a (Some l)) (pass_ends a) p1 Hp' (body_goes_on a l Hl _ Hi)) as (Hs2 & Hp2 & Hr2).
  apply park_task_ok; [done| |done]. unfold replies_ok. by rewrite Hr2.
Qed.

(** An answered await goes on from where it stood. *)
Lemma answer_ok {A} now cs p b (c : co A) Q cs' p' c' :
  answer now cs p b c = Some (cs', p', c') -> parked c Q -> I (p_st p) ->
  p_st p' = p_st p /\ p_pool p' = p_pool p /\ p_replies p' = p_replies p /\ wp c' Q (p_st p').
Proof.
  intros E H Hi. specialize (H (p_st p) Hi).
  destruct c; simpl in *; try done;
    try (injection E as <- <- <-; do 3 (split; [done|]); by apply (proj2 H)).
  destruct (p_pool p !! t); [done|]. injection E as <- <- <-. do 3 (split; [done|]). by apply (proj2 H).
Qed.

Lemma resume_ok now cs p t b : proc_ok p -> proc_ok (snd (resume now cs p t b)).
Proof.
  intros (Hi & Hp & Hr). unfold resume. destruct (p_pool p !! t) as [th|] eqn:Et; [|by split].
  pose proof (Hp _ _ Et) as Hth. set (p' := p <| p_pool ::= delete t |>).
  assert (Hp' : map_Forall (fun _ => thread_ok) (p_pool p')) by (by apply map_Forall_delete).
  assert (Hr' : replies_ok p') by exact Hr.
  destruct th as [c|a [|]|a [|] c]; simpl in Hth.
  - destruct (answer now cs p' b c) as [[[cs' p1] c1]|] eqn:E; [|by split].
    destruct (answer_ok now cs p' b c kept cs' p1 c1 E Hth Hi) as (_ & Epool & Erep & Hw).
    rewrite <- Epool in Hp'. destruct (settle_settled now c1 kept p1 Hp' Hw) as (Hs & Hp2 & Hr2).
    apply park_handler_ok; [done| |done]. unfold replies_ok. by rewrite Hr2, Erep.
  - by split.
  - apply run_task_ok; [done|done|]. by apply body_starts.
  - split; [by apply cleanup_keeps|by split].
  - destruct (answer now cs p' b c) as [[[cs' p1] c1]|] eqn:E; [|by split].
    destruct (answer_ok now cs p' b c (pass_ends a) cs' p1 c1 E Hth Hi) as (_ & Epool & Erep & Hw).
    rewrite <- Epool in Hp'. apply run_task_ok; [done| |done]. unfold replies_ok. by rewrite Erep.
Qed.

Lemma call_ok now p c : proc_ok p -> proc_ok (call now p c).
Proof.
  intros (Hi & Hp & Hr). unfold call. set (p1 := p <| p_next ::= S |>).
  destruct (settle_settled now (handler prog c) kept p1 Hp (handlers_keep c _ Hi)) as (Hs & Hp' & Hr').
  apply park_handler_ok; [done| |done]. unfold replies_ok. by rewrite Hr'.
Qed.

(** The invariant holds in every process after any events. *)
Lemma cluster_ok l : forall w, Forall proc_ok (cl_procs w) -> Forall proc_ok (cl_procs (cluster_run w l)).
Proof.
  induction l as [|[now e] l IH]; intros w H; [done|]. apply IH. destruct e as [r c|r t b]; simpl.
  - apply Forall_alter; [done|]. intros p _ Hp. by apply call_ok.
  - destruct (cl_procs w !! r) as [p|] eqn:Ep; [|done].
    pose proof (resume_ok now (cl_cache w) p t b (proj1 (Forall_lookup _ _) H _ _ Ep)) as Hr.
    destruct (resume now (cl_cache w) p t b) as [cs p']. simpl in *. by apply Forall_insert.
Qed.
End Invariants.
End Schedule.
End Coroutines.

Arguments Done {St Rq Js Tk A} a.
Arguments Throw {St Rq Js Tk A} e.
Arguments Local {St Rq Js Tk A} f k.
Arguments Ask {St Rq Js Tk A} q k.
Arguments Get {St Rq Js Tk A} key k.
Arguments Put {St Rq Js Tk A} key v ttl k.
Arguments Join {St Rq Js Tk A} t k.
Arguments Spawn {St Rq Js Tk A} a k.
Arguments Cancel {St Rq Js Tk A} t k.

#[global] Arguments cluster_run : simpl never.

(** ** A cache of its commands *)
Definition table_get {Js} (m : gmap string (Js * Z)) (t : Z) (k : string) : option Js :=
  match m !! k with Some (v, e) => if t <? e then Some v else None | None => None end.

Definition table_set {Js} (m : gmap string (Js * Z)) (now : Z) (k : string) (v : Js) (ttl : Z) : gmap string (Js * Z) :=
  <[k := (v, now + ttl)]> m.

Program Definition table_cache (Js : Type) : Cache Js := {|
  CStore := gmap string (Js * Z);
  cget := table_get;
  cset := table_set
|}.
Next Obligation.
  intros Js c now t k v ttl H. unfold table_get, table_set. rewrite lookup_insert_eq.
  by rewrite (proj2 (Z.ltb_lt t (now + ttl))) by lia.
Qed.
Next Obligation.
  intros Js c now t k k' v ttl H. unfold table_get, table_set. by rewrite lookup_insert_ne.
Qed.
