(* ===== verification/Reachability.v ===== *)
(** * The reachability monitor of the provisioning wizard
    ([app/services/ping_monitor.py], the endpoints [ping/start], [ping/stop],
    [ping/status] and the end of [provision-notify] in
    [app/api/v1/provisioning/bootstrap.py])

    Every replica of the backend keeps a [PingMonitor]; its loops probe a
    device, its handlers record what devices report themselves, and a shared
    Redis carries the reports between the replicas. The code is written as
    coroutines ([Coroutines]). Latencies and wall-clock texts are left out;
    whether a text is a private IPv6 address is a parameter. *)

From S2P Require Import Prelude PyString Numerics Calendar Models Session Plan WireGuard Coroutines.

(** ** Data *)
Definition _SCAN_TTL : Z := timedelta_seconds 7200.
Definition _CHECKIN_TTL : Z := timedelta_seconds 3600.

(** A scan reported by a device, a dictionary that is not empty. *)
Record Scan : Type := mkScan { scan_interfaces : list string; scan_wan : option string }.

(** The values in Redis; those of a verified session carry both flags set. *)
Inductive Json : Type :=
  | JVerified (ip : option string)
  | JCheckin (ip : option string) (ts : datetime)
  | JScan (s : Scan).

(** The entries of [monitor_results]. *)
Inductive Result : Type :=
  | FromCheckin (ip timestamp : string)
  | FromNotify (ip : option string) (at_ : datetime)
  | PrivateAddress (ip : string)
  | Progress (ip : string) (attempt cycle_attempt max_attempts retry_cycle : Z) (ping_verified api_verified : bool).

Definition verified (r : Result) : bool :=
  match r with
  | FromCheckin _ _ | FromNotify _ _ => true
  | PrivateAddress _ => false
  | Progress _ _ _ _ _ p a => p && a
  end.

Definition result_ip (r : Result) : option string :=
  match r with FromCheckin ip _ | PrivateAddress ip | Progress ip _ _ _ _ _ _ => Some ip | FromNotify ip _ => ip end.

(** The info of a pending check-in, never empty. *)
Record Checkin : Type := mkCheckin { ci_identity : option string; ci_timestamp : string }.

(** [PingMonitor]; a running monitor is known by its task. *)
Record PingMonitor : Type := mkPingMonitor {
  active_monitors : gmap string nat;
  monitor_results : gmap string Result;
  pending_checkins : gmap string Checkin;
  identity_checkins : gmap string (option string * datetime);
  scanned_configs : gmap string Scan
}.

#[export] Instance PingMonitor_eta : Eta PingMonitor := fun m =>
  mkPingMonitor (active_monitors m) (monitor_results m) (pending_checkins m) (identity_checkins m) (scanned_configs m).

Definition new_monitor : PingMonitor := mkPingMonitor ∅ ∅ ∅ ∅ ∅.

(** The messages to the listeners of a session. *)
Inductive Msg : Type :=
  | PrivateAddressError (ip : string)
  | MonitoringError (e : exn)
  | PingResult (attempt max_attempts retry_cycle : Z) (reachable : bool)
  | ApiCheckResult (attempt max_attempts : Z) (port_open : bool)
  | StageComplete (stage : Z) (by_notify : bool)
  | DeviceOnline (by_notify : bool) (identity : option string)
  | PingBackoff (ping_verified api_verified : bool) (retry_cycle : Z)
  | PingRetry (retry_cycle : Z)
  | ProvisioningComplete (ip identity : option string).

Inductive Probe : Type :=
  | SendMessage (sid : string) (m : Msg)
  | PingDevice (ip : string) (timeout_ms : Z)
  | CheckApiPort (ip : string) (port timeout_ms : Z)
  | Sleep (ms : Z).

(** The arguments of [_monitor_loop], and its variables. *)
Record LoopArgs : Type := mkLoopArgs {
  la_session : string;
  la_ip : string;
  la_port : Z;
  la_interval_ms : Z;
  la_max_attempts : Z;
  la_timeout_ms : Z
}.

Record Vars : Type := mkVars {
  v_attempt : Z;
  v_cycle_attempts : Z;
  v_retry_cycle : Z;
  v_ping_verified : bool;
  v_api_verified : bool;
  v_ping_successes : Z;
  v_api_successes : Z
}.

#[export] Instance Vars_eta : Eta Vars := fun v =>
  mkVars (v_attempt v) (v_cycle_attempts v) (v_retry_cycle v) (v_ping_verified v) (v_api_verified v)
    (v_ping_successes v) (v_api_successes v).

Definition initial_vars : Vars := mkVars 0 0 0 false false 0 0.

Inductive Reply : Type :=
  | Started
  | AlreadyRunning
  | Stopped
  | NotActive
  | Status (is_monitoring : bool) (latest_result : option Result)
  | CachedScan (s : option Scan)
  | Noted.

Inductive Operation : Type :=
  | StartPing (a : LoopArgs) (identity : option string)
  | StopPing (sid : string)
  | PingStatus (sid : string)
  | Notify (sid : string) (ip identity : option string)
  | ReportCheckin (ip : string) (info : Checkin)
  | StoreScan (sid identity : option string) (s : Scan)
  | ScanByIdentity (identity : string)
  | ScanBySession (sid : string).

Notation code := (@co PingMonitor Probe Json LoopArgs).
Notation "x <~ c ;; k" := (cbind c (fun x => k)) (at level 100, c at next level, right associativity).

Definition given (o : option string) : option string :=
  match o with Some "" | None => None | Some s => Some s end.

(** ** Private addresses *)
Definition in_net (base prefix n : Z) : bool := n / 2 ^ (32 - prefix) =? base / 2 ^ (32 - prefix).

Definition private_networks : list (Z * Z) :=
  let net a b c d p := (a * 2 ^ 24 + b * 2 ^ 16 + c * 2 ^ 8 + d, p) in
  [net 0 0 0 0 8; net 10 0 0 0 8; net 127 0 0 0 8; net 169 254 0 0 16; net 172 16 0 0 12; net 192 0 0 0 24;
   net 192 0 0 170 31; net 192 0 2 0 24; net 192 168 0 0 16; net 198 18 0 0 15; net 198 51 100 0 24;
   net 203 0 113 0 24; net 240 0 0 0 4; net 255 255 255 255 32].

(** [IPv4Address.is_private]: in a network of the table and not one of its
    exceptions, 192.0.0.9 and 192.0.0.10. *)
Definition is_private_v4 (n : Z) : bool :=
  existsb (fun bp => in_net bp.1 bp.2 n) private_networks &&
  negb (n =? 192 * 2 ^ 24 + 9) && negb (n =? 192 * 2 ^ 24 + 10).

Section Monitor.
(** [ip_address(s).is_private] for a text that is no IPv4 address: false too
    when the text cannot be read, where the code goes on just the same. *)
Context (private_v6 : string -> bool).

Definition is_private (ip : string) : bool :=
  match parse_ip ip with Some n => is_private_v4 n | None => private_v6 ip end.

(** ** Redis and the listeners *)
Definition key_verified (sid : string) : string := "isp:prov:verified:sess:" +:+ sid.
Definition key_checkin (identity : string) : string := "isp:prov:checkin:ident:" +:+ identity.
Definition key_scan_session (sid : string) : string := "isp:prov:scan:sess:" +:+ sid.
Definition key_scan_identity (identity : string) : string := "isp:prov:scan:ident:" +:+ identity.

Definition send (sid : string) (m : Msg) : code unit :=
  Ask (SendMessage sid m) (fun ok => if ok : bool then Done tt else Throw (RuntimeError "send_message")).

Definition send_quietly (sid : string) (m : Msg) : code unit := ctry (send sid m) (fun _ => Done tt).

(** ** The monitor's operations *)
(** [del self.active_monitors[session_id]], once the task has ended *)
Definition unregister (sid : string) : code unit :=
  get_state (fun _ m =>
    match active_monitors m !! sid with
    | None => Throw (KeyError sid)
    | Some _ => set_state (fun _ m => m <| active_monitors ::= delete sid |>) (Done tt)
    end).

Definition stop_monitoring (sid : string) : code unit :=
  get_state (fun _ m =>
    match active_monitors m !! sid with
    | None => Done tt
    | Some t => Cancel t (Join t (unregister sid))
    end).

(** A loop that runs is stopped; its failures are ignored. *)
Definition stop_if_monitoring (sid : string) : code unit :=
  ctry (get_state (fun _ m => match active_monitors m !! sid with
                              | Some _ => stop_monitoring sid
                              | None => Done tt
                              end)) (fun _ => Done tt).

Definition announce (sid : string) (identity : option string) : code unit :=
  _ <~ send_quietly sid (StageComplete 1 true) ;;
  _ <~ send_quietly sid (StageComplete 2 true) ;;
  send_quietly sid (DeviceOnline true identity).

Definition share_checkin (ip identity : option string) : code unit :=
  match given identity with
  | Some i => get_state (fun now _ => Put (key_checkin i) (JCheckin ip now) _CHECKIN_TTL (Done tt))
  | None => Done tt
  end.

Definition mark_online_from_notify (sid : string) (ip identity : option string) : code unit :=
  set_state (fun now m => m <| monitor_results ::= insert sid (FromNotify ip now) |>)
  (set_state (fun now m =>
     match given identity with
     | Some i => m <| identity_checkins ::= insert i (ip, now) |>
     | None => m
     end)
  (Put (key_verified sid) (JVerified ip) _CHECKIN_TTL
  (_ <~ share_checkin ip identity ;;
   _ <~ stop_if_monitoring sid ;;
   announce sid identity))).

(** A recent check-in of the identity. *)
Definition recent (now : datetime) (c : option (option string * datetime)) : option (option string) :=
  match c with Some (ip, ts) => if now - ts <? timedelta_minutes 30 then Some ip else None | None => None end.

Definition checkin_of_json (o : option Json) : option (option string * datetime) :=
  match o with Some (JCheckin ip ts) => Some (ip, ts) | _ => None end.

Definition create_monitor (a : LoopArgs) : code unit :=
  Spawn a (fun t => set_state (fun _ m => m <| active_monitors ::= insert (la_session a) t |>) (Done tt)).

Definition find_identity (identity : option string) : code (option (option string)) :=
  match given identity with
  | None => Done None
  | Some i =>
      get_state (fun now m =>
        match identity_checkins m !! i with
        | Some c => Done (recent now (Some c))
        | None => Get (key_checkin i) (fun o => get_state (fun now _ => Done (recent now (checkin_of_json o))))
        end)
  end.

Definition find_verified (sid : string) : code (option (option string)) :=
  get_state (fun _ m =>
    match monitor_results m !! sid with
    | Some r => if verified r then Done (Some (result_ip r))
                else Get (key_verified sid) (fun o => Done (match o with Some (JVerified ip) => Some ip | _ => None end))
    | None => Get (key_verified sid) (fun o => Done (match o with Some (JVerified ip) => Some ip | _ => None end))
    end).

Definition start_monitoring (a : LoopArgs) (identity : option string) : code unit :=
  let sid := la_session a in
  let ip := la_ip a in
  get_state (fun _ m =>
    match active_monitors m !! sid with
    | Some _ => Done tt
    | None =>
        match pending_checkins m !! ip with
        | Some c =>
            set_state (fun _ m => m <| monitor_results ::= insert sid (FromCheckin ip (ci_timestamp c)) |>
                                    <| pending_checkins ::= delete ip |>)
              (mark_online_from_notify sid (Some ip) None)
        | None =>
            existing <~ find_verified sid ;;
            match existing with
            | Some known_ip => mark_online_from_notify sid known_ip identity
            | None =>
                checkin <~ find_identity identity ;;
                match checkin with
                | Some known_ip => mark_online_from_notify sid known_ip identity
                | None => create_monitor a
                end
            end
        end
    end).

Definition register_device_checkin (ip : string) (info : Checkin) : code unit :=
  set_state (fun _ m => m <| pending_checkins ::= insert ip info |>) (Done tt).

Definition store_scan (sid identity : option string) (s : Scan) : code unit :=
  _ <~ (match given sid with
        | Some i => set_state (fun _ m => m <| scanned_configs ::= insert i s |>)
                      (Put (key_scan_session i) (JScan s) _SCAN_TTL (Done tt))
        | None => Done tt
        end) ;;
  match given identity with
  | Some i => set_state (fun _ m => m <| scanned_configs ::= insert ("identity:" +:+ i) s |>)
                (Put (key_scan_identity i) (JScan s) _SCAN_TTL (Done tt))
  | None => Done tt
  end.

(** The local copy, or the shared one, which is then kept. *)
Definition get_scan (local_key key : string) : code (option Scan) :=
  get_state (fun _ m =>
    match scanned_configs m !! local_key with
    | Some s => Done (Some s)
    | None =>
        Get key (fun o =>
          match o with
          | Some (JScan s) => set_state (fun _ m => m <| scanned_configs ::= insert local_key s |>) (Done (Some s))
          | _ => Done None
          end)
    end).

Definition get_scan_by_identity (identity : string) : code (option Scan) :=
  get_scan ("identity:" +:+ identity) (key_scan_identity identity).

Definition get_scan_by_session (sid : string) : code (option Scan) := get_scan sid (key_scan_session sid).

(** ** The loop *)
Definition backoff_ms : Z := 300000.

Definition monitor_result (a : LoopArgs) (v : Vars) : Result :=
  Progress (la_ip a) (v_attempt v) (v_cycle_attempts v) (la_max_attempts a) (v_retry_cycle v)
    (v_ping_verified v) (v_api_verified v).

Definition ping_stage (a : LoopArgs) (v : Vars) : code Vars :=
  if v_ping_verified v then Done v
  else
    Ask (PingDevice (la_ip a) (la_timeout_ms a)) (fun reachable =>
      _ <~ send (la_session a) (PingResult (v_cycle_attempts v) (la_max_attempts a) (v_retry_cycle v) reachable) ;;
      if reachable then
        let v := v <| v_ping_successes ::= Z.succ |> in
        if 2 <=? v_ping_successes v then
          _ <~ send (la_session a) (StageComplete 1 false) ;;
          Done (v <| v_ping_verified := true |>)
        else Done v
      else Done (v <| v_ping_successes := 0 |>)).

Definition api_stage (a : LoopArgs) (v : Vars) : code Vars :=
  if v_ping_verified v && negb (v_api_verified v) then
    Ask (CheckApiPort (la_ip a) (la_port a) (la_timeout_ms a)) (fun port_open =>
      _ <~ send (la_session a) (ApiCheckResult (v_cycle_attempts v) (la_max_attempts a) port_open) ;;
      if port_open then
        let v := v <| v_api_successes ::= Z.succ |> in
        if 2 <=? v_api_successes v then
          _ <~ send (la_session a) (StageComplete 2 false) ;;
          Done (v <| v_api_verified := true |>)
        else Done v
      else Done (v <| v_api_successes := 0 |>))
  else Done v.

Definition counted (v : Vars) : Vars := v <| v_attempt ::= Z.succ |> <| v_cycle_attempts ::= Z.succ |>.

(** One attempt, or the back-off after the last attempt of a cycle. *)
Definition attempt (a : LoopArgs) (v : Vars) : code (option Vars) :=
  if v_cycle_attempts v <? la_max_attempts a then
    let v := counted v in
    set_state (fun _ m => m <| monitor_results ::= insert (la_session a) (monitor_result a v) |>)
      (v <~ ping_stage a v ;;
       v <~ api_stage a v ;;
       if v_ping_verified v && v_api_verified v then
         _ <~ send (la_session a) (DeviceOnline false None) ;;
         Done None
       else Ask (Sleep (la_interval_ms a)) (fun _ => Done (Some v)))
  else
    let v := v <| v_retry_cycle ::= Z.succ |> in
    _ <~ send (la_session a) (PingBackoff (v_ping_verified v) (v_api_verified v) (v_retry_cycle v)) ;;
    Ask (Sleep backoff_ms) (fun _ =>
      _ <~ send (la_session a) (PingRetry (v_retry_cycle v)) ;;
      Done (Some (v <| v_cycle_attempts := 0 |>))).

(** The check of a private address goes on with the loop when it fails. *)
Definition first_pass (a : LoopArgs) : code (option Vars) :=
  ctry (if is_private (la_ip a) then
          _ <~ send (la_session a) (PrivateAddressError (la_ip a)) ;;
          set_state (fun _ m => m <| monitor_results ::= insert (la_session a) (PrivateAddress (la_ip a)) |>) (Done None)
        else Done (Some initial_vars))
       (fun _ => Done (Some initial_vars)).

Definition _monitor_loop (a : LoopArgs) (o : option Vars) : code (option Vars) :=
  ctry (match o with None => first_pass a | Some v => attempt a v end)
       (fun e => _ <~ send (la_session a) (MonitoringError e) ;; Done None).

(** The loop's [finally]. *)
Definition forget_session (a : LoopArgs) (m : PingMonitor) : PingMonitor :=
  m <| active_monitors ::= delete (la_session a) |> <| monitor_results ::= delete (la_session a) |>.

(** ** The endpoints *)
Definition is_monitoring (m : PingMonitor) (sid : string) : bool := bool_decide (is_Some (active_monitors m !! sid)).

Definition internal_error (what : string) (c : code Reply) : code Reply :=
  ctry c (fun _ => Throw (HTTPException 500 what)).

Definition start_ping_monitoring (a : LoopArgs) (identity : option string) : code Reply :=
  internal_error "Failed to start device monitoring"
    (get_state (fun _ m =>
       if is_monitoring m (la_session a) then Done AlreadyRunning
       else _ <~ start_monitoring a identity ;; Done Started)).

Definition stop_ping_monitoring (sid : string) : code Reply :=
  internal_error "Failed to stop ping monitoring"
    (get_state (fun _ m =>
       if negb (is_monitoring m sid) then Done NotActive
       else _ <~ stop_monitoring sid ;; Done Stopped)).

Definition get_ping_status (sid : string) : code Reply :=
  get_state (fun _ m => Done (Status (is_monitoring m sid) (monitor_results m !! sid))).

(** The end of the notify endpoint, for the session of the report. *)
Definition notify_session (sid : string) (ip identity : option string) : code Reply :=
  _ <~ ctry (mark_online_from_notify sid ip identity) (fun _ => Done tt) ;;
  _ <~ send_quietly sid (ProvisioningComplete ip identity) ;;
  Done Noted.

Definition handle (o : Operation) : code Reply :=
  match o with
  | StartPing a identity => start_ping_monitoring a identity
  | StopPing sid => stop_ping_monitoring sid
  | PingStatus sid => get_ping_status sid
  | Notify sid ip identity => notify_session sid ip identity
  | ReportCheckin ip info => _ <~ register_device_checkin ip info ;; Done Noted
  | StoreScan sid identity s => _ <~ store_scan sid identity s ;; Done Noted
  | ScanByIdentity i => s <~ get_scan_by_identity i ;; Done (CachedScan s)
  | ScanBySession sid => s <~ get_scan_by_session sid ;; Done (CachedScan s)
  end.

Definition ping_monitor : Program (Rep := Reply) (Lc := Vars) (Cl := Operation) :=
  {| handler := handle; body := _monitor_loop; cleanup := forget_session |}.
End Monitor.
