(* ===== verification/ReachabilityFacts.v ===== *)
(** * Reachability: what the monitor shows, and what reaches whom *)

From S2P Require Import Prelude PyString Numerics Calendar Models Session Plan WireGuard Coroutines Reachability.

Section Facts.
Context (private_v6 : string -> bool).

(** ** What can be seen *)

(** A report of a device, or the progress of a loop that has not finished. *)
Definition visible (r : Result) : Prop :=
  match r with
  | FromNotify _ _ => True
  | Progress _ _ _ _ _ p a => p && a = false
  | FromCheckin _ _ | PrivateAddress _ => False
  end.

Definition seen (m : PingMonitor) : Prop := map_Forall (fun _ => visible) (monitor_results m).

Definition reply_visible (r : Reply) : Prop :=
  match r with Status _ (Some x) => visible x | _ => True end.

(** The loop goes on only while a stage is open. *)
Definition unfinished (a : LoopArgs) (v : Vars) : Prop := v_ping_verified v && v_api_verified v = false.

(** The entry of one session aside. *)
Definition seen_but (sid : string) (m : PingMonitor) : Prop :=
  map_Forall (fun k r => k = sid \/ visible r) (monitor_results m).

Lemma seen_insert m sid r : seen_but sid m -> visible r -> seen (m <| monitor_results ::= insert sid r |>).
Proof.
  intros H Hr k r'. simpl. rewrite lookup_insert_Some. intros [[_ <-]|[Hk E]]; [done|].
  destruct (H k r' E) as [->|Hv]; [by destruct Hk|done].
Qed.

Lemma seen_weaken m sid : seen m -> seen_but sid m.
Proof. intros H k r E. right. by apply (H k r). Qed.

Lemma seen_forget a m : seen_but (la_session a) m -> seen (forget_session a m).
Proof.
  intros H k r. simpl. rewrite lookup_delete_Some. intros [Hk E].
  destruct (H k r E) as [->|Hv]; [by destruct Hk|done].
Qed.

Notation shows := (wp seen).

(** Code that keeps what is seen, and ends anyhow. *)
Definition quiet {A} (c : code A) : Prop := forall s, seen s -> shows c (fun _ s => seen s) s.

Lemma quiet_then {A B} (c : code A) (h : A -> code B) Q s :
  quiet c -> (forall a s, seen s -> shows (h a) Q s) -> (forall e s, seen s -> Q (Raise e) s) -> seen s ->
  shows (cbind c h) Q s.
Proof.
  intros Hc Hh He Hs. apply wp_bind. eapply wp_mono; [|exact (Hc s Hs)]. intros [a|e] s' Hs'; eauto.
Qed.

Lemma quiet_try {A} (c : code A) (h : exn -> code A) : quiet c -> (forall e, quiet (h e)) -> quiet (ctry c h).
Proof.
  intros Hc Hh s Hs. apply wp_try. eapply wp_mono; [|exact (Hc s Hs)]. intros [a|e] s' Hs'; [done|]. by apply Hh.
Qed.

Lemma quiet_send sid m : quiet (send sid m).
Proof. intros s Hs. split; [done|]. by intros [|] s' Hs'. Qed.

Lemma quiet_send_quietly sid m : quiet (send_quietly sid m).
Proof. apply quiet_try; [apply quiet_send|]. by intros e s Hs. Qed.

Lemma quiet_stop sid : quiet (stop_monitoring sid).
Proof.
  intros s Hs now. simpl. destruct (active_monitors s !! sid) as [t|]; [|done]. split; [done|].
  intros s' Hs' now'. simpl. destruct (active_monitors s' !! sid); [|done]. by intros now''.
Qed.

Lemma quiet_stop_if sid : quiet (stop_if_monitoring sid).
Proof.
  apply quiet_try; [|by intros e s Hs]. intros s Hs now. simpl. destruct (active_monitors s !! sid); [|done].
  by apply quiet_stop.
Qed.

(** The report replaces whatever the session's entry was. *)
Lemma mark_shows sid ip identity s :
  seen_but sid s -> shows (mark_online_from_notify sid ip identity) (fun _ s => seen s) s.
Proof.
  intros Hs now. set (s1 := s <| monitor_results ::= insert sid (FromNotify ip now) |>).
  assert (H1 : seen s1) by by apply seen_insert. intros now'.
  set (s2 := match given identity with Some i => s1 <| identity_checkins ::= insert i (ip, now') |> | None => s1 end).
  assert (H2 : seen s2) by (unfold s2; by destruct (given identity)).
  split; [exact H2|]. intros s3 H3. apply quiet_then; [|intros _ s4 H4|done|done].
  { unfold share_checkin. intros s4 H4. destruct (given identity); [|done]. intros now''. by split. }
  apply quiet_then; [apply quiet_stop_if|intros _ s5 H5|done|done].
  apply quiet_then; [apply quiet_send_quietly|intros _ s6 H6|done|done].
  apply quiet_then; [apply quiet_send_quietly|intros _ s7 H7|done|done].
  by apply quiet_send_quietly.
Qed.

Lemma quiet_mark sid ip identity : quiet (mark_online_from_notify sid ip identity).
Proof. intros s Hs. by apply mark_shows, seen_weaken. Qed.

Lemma quiet_found {A} (c : code A) : quiet c -> forall {B} (h : A -> code B),
  (forall a, quiet (h a)) -> quiet (cbind c h).
Proof. intros Hc B h Hh s Hs. apply quiet_then; [done| |done|done]. intros a s' Hs'. by apply Hh. Qed.

Lemma quiet_find_verified sid : quiet (find_verified sid).
Proof.
  intros s Hs now. simpl. destruct (monitor_results s !! sid) as [r|]; [destruct (verified r); [done|]|]; by split.
Qed.

Lemma quiet_find_identity identity : quiet (find_identity identity).
Proof.
  unfold find_identity. destruct (given identity) as [i|]; [|by intros s Hs]. intros s Hs now. simpl.
  destruct (identity_checkins s !! _); [done|]. split; [done|]. by intros o s' Hs' now'.
Qed.

Lemma quiet_start a identity : quiet (start_monitoring a identity).
Proof.
  intros s Hs now. destruct (active_monitors s !! la_session a); [done|].
  destruct (pending_checkins s !! la_ip a) as [c|].
  - (* the entry of the check-in is replaced before anyone can see it *)
    intros now'. apply mark_shows. intros k r. simpl. rewrite lookup_insert_Some.
    intros [[<- _]|[_ E]]; [by left|right; by apply (Hs k r)].
  - refine (quiet_found _ (quiet_find_verified _) _ _ s Hs). intros [ip|]; [apply quiet_mark|].
    refine (quiet_found _ (quiet_find_identity _) _ _). intros [ip|]; [apply quiet_mark|]. by intros s' Hs' t now'.
Qed.

Lemma quiet_get_scan k key : quiet (get_scan k key).
Proof.
  intros s Hs now. simpl. destruct (scanned_configs s !! k); [done|]. split; [done|].
  intros [[| |sc]|] s' Hs'; try done. by intros now'.
Qed.

Lemma quiet_store_scan sid identity sc : quiet (store_scan sid identity sc).
Proof.
  refine (quiet_found _ _ _ _).
  - destruct (given sid) as [i|]; [|by intros s Hs]. intros s Hs now. by split.
  - intros _. destruct (given identity) as [i|]; [|by intros s Hs]. intros s Hs now. by split.
Qed.

(** ** Every handler and every pass *)
Definition reports (c : code Reply) : Prop := forall s, seen s -> shows c (kept seen reply_visible) s.

Lemma report_of_quiet {A} (c : code A) (h : A -> code Reply) :
  quiet c -> (forall a, reports (h a)) -> reports (cbind c h).
Proof. intros Hc Hh s Hs. apply quiet_then; [done| |by split|done]. intros a s' Hs'. by apply Hh. Qed.

Lemma report_done r s : seen s -> reply_visible r -> shows (Done r : code Reply) (kept seen reply_visible) s.
Proof. by split. Qed.

Lemma report_errors what c : reports c -> reports (internal_error what c).
Proof.
  intros Hc s Hs. apply wp_try. eapply wp_mono; [|exact (Hc s Hs)]. intros [r|e] s' [Hs' Hr]; by split.
Qed.

Lemma handlers_report o : reports (handle o).
Proof.
  destruct o as [a i|sid|sid|sid ip i|ip info|sid i sc|i|sid]; simpl.
  - apply report_errors. intros s Hs now. simpl. case_match; [by apply report_done|].
    refine (report_of_quiet _ _ (quiet_start a i) _ s Hs). by intros _ s' Hs'.
  - apply report_errors. intros s Hs now. simpl. case_match; [by apply report_done|].
    refine (report_of_quiet _ _ (quiet_stop sid) _ s Hs). by intros _ s' Hs'.
  - intros s Hs now. apply report_done; [done|]. simpl. destruct (monitor_results s !! sid) as [r|] eqn:E; [|done].
    by apply (Hs sid r).
  - refine (report_of_quiet _ _ _ _).
    { apply quiet_try; [apply quiet_mark|]. by intros e s Hs. }
    intros _. refine (report_of_quiet _ _ (quiet_send_quietly _ _) _). by intros _ s Hs.
  - intros s Hs now. by apply report_done.
  - refine (report_of_quiet _ _ (quiet_store_scan _ _ _) _). by intros _ s Hs.
  - refine (report_of_quiet _ _ (quiet_get_scan _ _) _). by intros x s Hs.
  - refine (report_of_quiet _ _ (quiet_get_scan _ _) _). by intros x s Hs.
Qed.

Notation monitor := (ping_monitor private_v6).
Notation goes_on a := (pass_ends monitor seen unfinished a).

Lemma ends_here a o s : match o with Ok (Some _) => False | _ => True end -> seen_but (la_session a) s -> goes_on a o s.
Proof. destruct o as [[v|]|e]; [done|..]; intros _ H; by apply seen_forget. Qed.

(** What a stage leaves when it does not raise. *)
Lemma ping_stage_shows a v Q s :
  (forall v' s, seen s -> v_api_verified v' = v_api_verified v -> Q (Ok v') s) ->
  (forall e s, seen s -> Q (Raise e) s) -> seen s -> shows (ping_stage a v) Q s.
Proof.
  intros Hq He Hs. unfold ping_stage. destruct (v_ping_verified v); [by apply Hq|].
  split; [done|]. intros reachable s1 H1. apply quiet_then; [apply quiet_send| |done|done].
  intros _ s2 H2. destruct reachable; [|by apply Hq]. case_match; [|by apply Hq].
  apply quiet_then; [apply quiet_send| |done|done]. intros _ s3 H3. by apply Hq.
Qed.

Lemma api_stage_shows a v Q s :
  (forall v' s, seen s -> Q (Ok v') s) -> (forall e s, seen s -> Q (Raise e) s) -> seen s ->
  shows (api_stage a v) Q s.
Proof.
  intros Hq He Hs. unfold api_stage. case_match; [|by apply Hq].
  split; [done|]. intros open s1 H1. apply quiet_then; [apply quiet_send| |done|done].
  intros _ s2 H2. destruct open; [|by apply Hq]. case_match; [|by apply Hq].
  apply quiet_then; [apply quiet_send| |done|done]. intros _ s3 H3. by apply Hq.
Qed.

Lemma attempt_goes_on a v s : unfinished a v -> seen s ->
  shows (attempt a v) (fun o s => match o with Ok (Some v) => seen s /\ unfinished a v | _ => seen s end) s.
Proof.
  intros Hv Hs. unfold attempt. case_match.
  - intros now. assert (H1 := seen_insert s (la_session a) (monitor_result a (counted v)) (seen_weaken _ _ Hs) Hv).
    apply wp_bind. apply ping_stage_shows; [|done|exact H1]. intros v2 s2 H2 _.
    apply wp_bind. apply api_stage_shows; [|done|done]. intros v3 s3 H3.
    destruct (v_ping_verified v3 && v_api_verified v3) eqn:E.
    + apply quiet_then; [apply quiet_send|done..].
    + split; [done|]. by intros _ s4 H4.
  - apply quiet_then; [apply quiet_send| |done|done]. intros _ s1 H1. split; [done|].
    intros _ s2 H2. apply quiet_then; [apply quiet_send|done..].
Qed.

Lemma first_pass_goes_on a s : seen s ->
  shows (first_pass private_v6 a) (fun o s => match o with Ok (Some v) => seen s /\ unfinished a v | Ok None => seen_but (la_session a) s | Raise _ => False end) s.
Proof.
  intros Hs. unfold first_pass. apply wp_try. destruct (is_private private_v6 (la_ip a)); [|done].
  apply quiet_then; [apply quiet_send| |done|done]. intros _ s1 H1 now. simpl.
  intros k r. simpl. rewrite lookup_insert_Some. intros [[<- _]|[_ E]]; [by left|right; by apply (H1 k r)].
Qed.

Lemma loop_goes_on a o s : (forall v, o = Some v -> unfinished a v) -> seen s ->
  shows (_monitor_loop private_v6 a o) (goes_on a) s.
Proof.
  intros Ho Hs. unfold _monitor_loop. apply wp_try.
  assert (Herr : forall e s, seen s -> shows (_ <~ send (la_session a) (MonitoringError e) ;; Done None) (goes_on a) s).
  { intros e s' Hs'. apply quiet_then; [apply quiet_send| | |done]; intros ? s2 H2; apply ends_here; try done; by apply seen_weaken. }
  destruct o as [v|].
  - eapply wp_mono; [|exact (attempt_goes_on a v s (Ho v eq_refl) Hs)].
    intros [[v'|]|e] s' H; [exact H|apply ends_here; [done|by apply seen_weaken]|by apply Herr].
  - eapply wp_mono; [|exact (first_pass_goes_on a s Hs)].
    intros [[v'|]|e] s' H; [exact H|by apply ends_here|done].
Qed.

Definition fresh_proc : @Proc PingMonitor Probe Json LoopArgs Reply Vars := mkProc new_monitor 0 ∅ [] [].


(** ** Stopping a loop *)
Context {cache : Cache Json}.

Notation proc := (@Proc PingMonitor Probe Json LoopArgs Reply Vars).

(** A replica on which the loop [t] of the session runs. *)
Record running (p : proc) (t : nat) (a : LoopArgs) : Prop := {
  run_active : active_monitors (p_st p) !! la_session a = Some t;
  run_loop : exists c, p_pool p !! t = Some (Looping a false c);
  run_old : t <> p_next p;
  run_free : p_pool p !! p_next p = None
}.

(** The handler [h] waits for the cancelled loop. *)
Definition waiting (p : proc) (h t : nat) (c : code Reply) : proc :=
  mkProc (p_st p) (p_next p) (<[h := Handler (Join t c)]> (alter cancel_thread t (p_pool p))) (p_asked p) (p_replies p).

(** The loop is gone, with what it stored. *)
Definition stopped (p : proc) (h t : nat) (a : LoopArgs) (c : code Reply) : proc :=
  mkProc (forget_session a (p_st p)) (p_next p) (<[h := Handler (Join t c)]> (delete t (p_pool p)))
    (p_asked p) (p_replies p).

Lemma cancelled_ends n cs p h t a c k b :
  p_pool p !! t = Some (Looping a false k) -> t <> h ->
  resume monitor n cs (waiting p h t c) t b = (cs, stopped p h t a c).
Proof.
  intros Hk Hn. rewrite (resume_cancelled _ _ _ _ _ _ a k).
  - unfold finish_task, waiting, stopped. simpl. do 2 f_equal.
    by rewrite delete_insert_ne, delete_alter_eq.
  - simpl. by rewrite lookup_insert_ne, lookup_alter_eq, Hk.
Qed.

Lemma join_ends n cs p h t a c b :
  t <> h -> p_pool p !! h = None ->
  resume monitor n cs (stopped p h t a c) h b =
  (cs, park_handler h (settle n (mkProc (forget_session a (p_st p)) (p_next p) (delete t (p_pool p)) (p_asked p) (p_replies p)) c)).
Proof.
  intros Hn Hh. apply (resume_handler _ _ _ _ _ _ (Join t c)).
  - simpl. by rewrite lookup_insert_eq.
  - simpl. rewrite delete_insert_id by (by rewrite lookup_delete_ne).
    by rewrite lookup_delete_eq.
Qed.

Definition stop_refused : exn := HTTPException 500 "Failed to stop ping monitoring".

Lemma stop_call n p t a :
  running p t a ->
  call monitor n p (StopPing (la_session a)) =
  waiting (p <| p_next ::= S |>) (p_next p) t
    (ctry (_ <~ unregister (la_session a) ;; Done Stopped) (fun _ => Throw stop_refused)).
Proof.
  intros [Ha _ _]. destruct p as [m nx pool asked replies]. simpl in Ha.
  unfold call. cbn. unfold is_monitoring. rewrite Ha. cbn. rewrite Ha. reflexivity.
Qed.

(** Stopping a loop works and is refused: the endpoint answers with an
    error whenever the session's loop was running, although the loop is gone
    and the replica has forgotten the session, because the loop's own cleanup
    takes the entry that the stop deletes afterwards. *)
Theorem stop_fails_after_stopping p t a cs n1 n2 n3 b1 b2 :
  running p t a ->
  exists p',
    cluster_run monitor (mkCluster cs [p])
      [(n1, Call 0 (StopPing (la_session a))); (n2, Resume 0 t b1); (n3, Resume 0 (p_next p) b2)]
    = mkCluster cs [p'] /\
    p_replies p' = p_replies p ++ [(p_next p, Raise stop_refused)] /\
    p_st p' = forget_session a (p_st p) /\ p_pool p' = delete t (p_pool p).
Proof.
  intros Hrun. pose proof Hrun as [Ha [k Hk] Hn Hf].
  rewrite alone_call, (stop_call _ _ _ _ Hrun).
  erewrite alone_resume; [|by apply (cancelled_ends _ _ _ _ _ a _ k)].
  erewrite alone_resume; [|by apply join_ends].
  eexists. split; [reflexivity|]. simpl. by rewrite lookup_delete_eq.
Qed.

(** ** A report for a session whose loop runs *)

(** What the notify endpoint still does once its loop is stopped. *)
Definition finish_report (sid : string) (ip identity : option string) (c : code unit) : code Reply :=
  _ <~ ctry c (fun _ => Done tt) ;;
  _ <~ send_quietly sid (ProvisioningComplete ip identity) ;;
  Done Noted.

Definition reported (sid : string) (ip : option string) (n : Z) (p : proc) (c : code Reply) : proc :=
  mkProc ((p_st p) <| monitor_results ::= insert sid (FromNotify ip n) |>) (S (p_next p))
    (<[p_next p := Handler c]> (p_pool p)) (p_asked p) (p_replies p).

Lemma notify_call n p sid ip :
  call monitor n p (Notify sid ip None) =
  reported sid ip n p
    (Put (key_verified sid) (JVerified ip) _CHECKIN_TTL
       (finish_report sid ip None (_ <~ stop_if_monitoring sid ;; announce sid None))).
Proof. by destruct p. Qed.

Lemma report_stops n cs n0 p t a ip b :
  running p t a ->
  resume monitor n cs
    (reported (la_session a) ip n0 p
       (Put (key_verified (la_session a)) (JVerified ip) _CHECKIN_TTL
          (finish_report (la_session a) ip None (_ <~ stop_if_monitoring (la_session a) ;; announce (la_session a) None))))
    (p_next p) b =
  (if b then cset cs n (key_verified (la_session a)) (JVerified ip) _CHECKIN_TTL else cs,
   waiting (mkProc ((p_st p) <| monitor_results ::= insert (la_session a) (FromNotify ip n0) |>) (S (p_next p))
              (p_pool p) (p_asked p) (p_replies p)) (p_next p) t
     (finish_report (la_session a) ip None
        (_ <~ ctry (unregister (la_session a)) (fun _ => Done tt) ;; announce (la_session a) None))).
Proof.
  intros [Ha _ Hn Hf]. erewrite resume_handler; [|simpl; apply lookup_insert_eq|reflexivity]. f_equal.
  destruct p as [m nx pool asked replies]. simpl in *. rewrite delete_insert_id by done.
  unfold finish_report, stop_if_monitoring. cbn. rewrite Ha. cbn. rewrite Ha. reflexivity.
Qed.

(** Announcing and answering does not touch the state. *)
Definition announcing (sid : string) (ip : option string) : code Reply :=
  finish_report sid ip None (announce sid None).

Definition announced (sid : string) (ip : option string) : list Probe :=
  [SendMessage sid (StageComplete 1 true); SendMessage sid (StageComplete 2 true);
   SendMessage sid (DeviceOnline true None); SendMessage sid (ProvisioningComplete ip None)].

Lemma announce_runs n1 n2 n3 n4 n5 cs h sid ip m nx pool asked replies :
  pool !! h = None ->
  cluster_run monitor (mkCluster cs [park_handler h (settle n1 (mkProc m nx pool asked replies) (announcing sid ip))])
    [(n2, Resume 0 h true); (n3, Resume 0 h true); (n4, Resume 0 h true); (n5, Resume 0 h true)] =
  mkCluster cs [mkProc m nx pool (asked ++ announced sid ip) (replies ++ [(h, Ok Noted)])].
Proof.
  intros Hh. cbn [settle announcing finish_report announce send_quietly send cbind ctry park_handler].
  repeat (erewrite alone_resume;
    [|erewrite resume_handler; [reflexivity|simpl; apply lookup_insert_eq|reflexivity]]).
  cbn. rewrite <- !app_assoc, !delete_insert_eq, !delete_delete_eq, delete_id by done. reflexivity.
Qed.

(** With nothing to unregister the report goes on to its announcements. *)
Lemma settled_announcing n sid ip m nx pool asked replies :
  active_monitors m !! sid = None ->
  settle n (mkProc m nx pool asked replies : proc)
    (finish_report sid ip None (_ <~ ctry (unregister sid) (fun _ => Done tt) ;; announce sid None)) =
  settle n (mkProc m nx pool asked replies) (announcing sid ip).
Proof. intros Ha. unfold finish_report. cbn. by rewrite Ha. Qed.

(** A device's report stops the loop of its session, and the loop's end
    takes the report with it: the listeners are told that the device is
    online and the report is acknowledged, and nothing of it is left on the
    replica, neither the session's result nor its monitor. *)
Theorem report_lost_with_its_loop p t a ip cs n1 n2 n3 n4 n5 n6 n7 n8 b1 b2 b3 :
  running p t a ->
  let h := p_next p in
  let w := cluster_run monitor (mkCluster cs [p])
    [(n1, Call 0 (Notify (la_session a) ip None)); (n2, Resume 0 h b1); (n3, Resume 0 t b2); (n4, Resume 0 h b3);
     (n5, Resume 0 h true); (n6, Resume 0 h true); (n7, Resume 0 h true); (n8, Resume 0 h true)] in
  exists p', cl_procs w = [p'] /\
    p_replies p' = p_replies p ++ [(h, Ok Noted)] /\ p_asked p' = p_asked p ++ announced (la_session a) ip /\
    monitor_results (p_st p') !! la_session a = None /\ active_monitors (p_st p') !! la_session a = None /\
    p_pool p' = delete t (p_pool p).
Proof.
  intros Hrun h. pose proof Hrun as [Ha [k Hk] Hn Hf]. subst h.
  cbv zeta. rewrite alone_call, notify_call.
  erewrite alone_resume; [|by apply report_stops].
  erewrite alone_resume; [|by apply (cancelled_ends _ _ _ _ _ a _ k)].
  erewrite alone_resume; [|by apply join_ends].
  set (m := forget_session a _).
  assert (Hm : active_monitors m !! la_session a = None /\ monitor_results m !! la_session a = None)
    by (split; apply lookup_delete_eq).
  rewrite (settled_announcing _ _ _ m) by apply Hm. rewrite announce_runs by (by rewrite lookup_delete_None; right).
  eexists. split; [reflexivity|]. simpl. by split_and!; try apply Hm.
Qed.

(** ** What one replica was told, the others know *)

(** A replica that knows nothing of the session. *)
Record unaware (q : proc) (a : LoopArgs) : Prop := {
  un_active : active_monitors (p_st q) !! la_session a = None;
  un_pending : pending_checkins (p_st q) !! la_ip a = None;
  un_result : monitor_results (p_st q) !! la_session a = None;
  un_free : p_pool q !! p_next q = None
}.

(** The handler of a start, once the session is known to be verified. *)
Definition start_known (a : LoopArgs) (c : code unit) : code Reply :=
  internal_error "Failed to start device monitoring" (_ <~ c ;; Done Started).

Lemma start_asks_cache n q a :
  unaware q a ->
  exists k, call monitor n q (StartPing a None) =
    mkProc (p_st q) (S (p_next q)) (<[p_next q := Handler (Get (key_verified (la_session a)) k)]> (p_pool q))
      (p_asked q) (p_replies q) /\
    forall ip, k (Some (JVerified ip)) = start_known a (mark_online_from_notify (la_session a) ip None).
Proof.
  intros [Ha Hp Hr _]. destruct q as [m nx pool asked replies]. simpl in Ha, Hp, Hr.
  unfold call. cbn. unfold is_monitoring. rewrite Ha. cbn. rewrite Ha, Hp. cbn. rewrite Hr.
  eexists. split; [reflexivity|]. reflexivity.
Qed.

(** Where the start of a verified session stands, with its state. *)
Definition known_online (q : proc) (a : LoopArgs) (ip : option string) (n : Z) (c : code Reply) : proc :=
  mkProc ((p_st q) <| monitor_results ::= insert (la_session a) (FromNotify ip n) |>) (S (p_next q))
    (<[p_next q := Handler c]> (p_pool q)) (p_asked q) (p_replies q).

(** A report reaches every replica: once one replica has stored a
    device's report in Redis, any other replica that is asked to monitor the
    session within the hour starts no loop; it takes the device as online,
    tells the session's listeners so, and answers. *)
Theorem report_reaches_other_replicas p q a ip cs n1 n2 n3 n4 n5 n6 n7 n8 :
  unaware q a -> n2 <= n4 < n2 + _CHECKIN_TTL ->
  let h := p_next q in
  let w := cluster_run monitor (mkCluster cs [p; q])
    [(n1, Call 0 (Notify (la_session a) ip None)); (n2, Resume 0 (p_next p) true);
     (n3, Call 1 (StartPing a None)); (n4, Resume 1 h true);
     (n5, Resume 1 h true); (n6, Resume 1 h true); (n7, Resume 1 h true); (n8, Resume 1 h true)] in
  exists p' q', cl_procs w = [p'; q'] /\
    p_pool q' = p_pool q /\ p_replies q' = p_replies q ++ [(h, Ok Started)] /\
    p_st q' = (p_st q) <| monitor_results ::= insert (la_session a) (FromNotify ip n4) |> /\
    p_asked q' = p_asked q ++
      [SendMessage (la_session a) (StageComplete 1 true); SendMessage (la_session a) (StageComplete 2 true);
       SendMessage (la_session a) (DeviceOnline true None)].
Proof.
  intros Hq Hn h. pose proof Hq as [Ha _ _ Hf]. subst h. cbv zeta.
  destruct (start_asks_cache n3 q a Hq) as (k & E2 & Ek).
  erewrite run_call by reflexivity. rewrite notify_call. cbn [insert list_insert].
  erewrite run_resume; [|reflexivity|erewrite resume_handler; [reflexivity|simpl; apply lookup_insert_eq|reflexivity]].
  cbn [insert list_insert].
  erewrite run_call by reflexivity. rewrite E2. cbn [insert list_insert].
  erewrite run_resume; [|reflexivity|erewrite resume_handler; [reflexivity|simpl; apply lookup_insert_eq|simpl; rewrite cget_same by done; rewrite Ek; reflexivity]].
  cbn [insert list_insert].
  match goal with |- context [park_handler (p_next p) ?x] => generalize (park_handler (p_next p) x) end. intros p1.
  rewrite delete_insert_id by done.
  erewrite run_resume; [|reflexivity|erewrite resume_handler; [reflexivity|simpl; apply lookup_insert_eq|reflexivity]].
  destruct q as [m nx pool asked replies]. cbn in Ha, Hf |- *. rewrite Ha. cbn.
  repeat (erewrite run_resume;
    [|reflexivity|erewrite resume_handler; [reflexivity|simpl; apply lookup_insert_eq|reflexivity]];
    cbn [insert list_insert]).
  eexists p1, _. split; [reflexivity|]. cbn. rewrite <- !app_assoc, !delete_insert_eq, !delete_delete_eq, delete_id by done.
  by split_and!.
Qed.
End Facts.

(** ** Concrete runs *)
Definition no_v6 (ip : string) : bool := false.

Definition wizard : LoopArgs := mkLoopArgs "s1" "41.90.64.10" 8728 2000 30 1000.

(** A replica that runs the wizard's loop as its task 0. *)
Definition busy_proc : @Proc PingMonitor Probe Json LoopArgs Reply Vars :=
  mkProc (new_monitor <| active_monitors := {["s1" := 0%nat]} |>) 1
    {[0%nat := Looping wizard false (_monitor_loop no_v6 wizard (Some initial_vars))]} [] [].

Lemma busy_running : running busy_proc 0 wizard.
Proof. split; [reflexivity|eexists; reflexivity|discriminate|reflexivity]. Qed.

(** A private address: the loop says so and is forgotten with its result. *)
Example private_address_forgotten :
  let w := cluster_run (cache := table_cache Json) (ping_monitor no_v6) (mkCluster (cache := table_cache Json) ∅ [fresh_proc])
    [(0, Call 0 (StartPing (mkLoopArgs "s1" "192.168.88.1" 8728 2000 30 1000) None)); (0, Resume 0 0 true); (0, Resume 0 1 true);
     (0, Resume 0 1 true); (0, Call 0 (PingStatus "s1"))] in
  map p_replies (cl_procs w) = [[(0%nat, Ok Started); (2%nat, Ok (Status false None))]].
Proof. vm_compute. reflexivity. Qed.

(** Two starts that interleave at the cache leave two loops, one of them
    registered; stopping the session stops that one. *)
Example two_starts_two_loops :
  let w := cluster_run (cache := table_cache Json) (ping_monitor no_v6) (mkCluster (cache := table_cache Json) ∅ [fresh_proc])
    [(0, Call 0 (StartPing wizard None)); (0, Call 0 (StartPing wizard None)); (0, Resume 0 0 false); (0, Resume 0 1 false);
     (0, Resume 0 2 true); (0, Resume 0 3 true); (0, Call 0 (StopPing "s1")); (0, Resume 0 3 true); (0, Resume 0 4 true)] in
  map (fun p => (p_replies p, map fst (map_to_list (p_pool p)), active_monitors (p_st p) !! "s1")) (cl_procs w) =
  [([(0%nat, Ok Started); (1%nat, Ok Started); (4%nat, Raise stop_refused)], [2%nat], None)].
Proof. vm_compute. reflexivity. Qed.


Lemma stop_fails_after_stopping_witness :
  let w := cluster_run (cache := table_cache Json) (ping_monitor no_v6) (mkCluster (cache := table_cache Json) ∅ [busy_proc])
    [(0, Call 0 (StopPing "s1")); (0, Resume 0 0 true); (0, Resume 0 1 true)] in
  exists p', cl_procs w = [p'] /\ p_replies p' = [(1%nat, Raise stop_refused)].
Proof.
  destruct (stop_fails_after_stopping no_v6 (cache := table_cache Json) busy_proc 0 wizard ∅ 0 0 0 true true busy_running)
    as (p' & E & Hr & _).
  exists p'. split; [|exact Hr]. cbv zeta. exact (f_equal cl_procs E).
Defined.

Lemma report_lost_with_its_loop_witness :
  let w := cluster_run (cache := table_cache Json) (ping_monitor no_v6) (mkCluster (cache := table_cache Json) ∅ [busy_proc])
    [(0, Call 0 (Notify "s1" None None)); (0, Resume 0 1 true); (0, Resume 0 0 true); (0, Resume 0 1 true);
     (0, Resume 0 1 true); (0, Resume 0 1 true); (0, Resume 0 1 true); (0, Resume 0 1 true)] in
  exists p', cl_procs w = [p'] /\ monitor_results (p_st p') !! "s1" = None.
Proof.
  destruct (report_lost_with_its_loop no_v6 (cache := table_cache Json) busy_proc 0 wizard None ∅
              0 0 0 0 0 0 0 0 true true true busy_running) as (p' & E & _ & _ & Hm & _).
  exists p'. split; [exact E|exact Hm].
Defined.

Lemma report_reaches_other_replicas_witness :
  let w := cluster_run (cache := table_cache Json) (ping_monitor no_v6)
    (mkCluster (cache := table_cache Json) ∅ [fresh_proc; fresh_proc])
    [(0, Call 0 (Notify "s1" (Some "10.0.0.2") None)); (0, Resume 0 0 true);
     (5, Call 1 (StartPing wizard None)); (5, Resume 1 0 true);
     (5, Resume 1 0 true); (5, Resume 1 0 true); (5, Resume 1 0 true); (5, Resume 1 0 true)] in
  exists p' q', cl_procs w = [p'; q'] /\ p_pool q' = ∅ /\ p_replies q' = [(0%nat, Ok Started)].
Proof.
  destruct (report_reaches_other_replicas no_v6 (cache := table_cache Json) fresh_proc fresh_proc wizard (Some "10.0.0.2") ∅
              0 0 5 5 5 5 5 5) as (p' & q' & E & Hp & Hr & _).
  - split; reflexivity.
  - split; [lia|reflexivity].
  - exists p', q'. split; [exact E|]. split; [exact Hp|exact Hr].
Defined.
