(* ===== verification/Detection.v ===== *)
(** * Detection: what a loop left alone finds out

    The loop of the reachability monitor against its specification: the first
    two answers in a row of the ping, then of the API port. *)

From S2P Require Import Prelude PyString Numerics Calendar Models Session Plan WireGuard Coroutines Reachability.

(** ** The specification *)

(** [k] is the first position after [from] where [f] holds for the second time
    in a row. *)
Definition first_pair (f : Z -> bool) (from k : Z) : Prop :=
  from < k /\ f (k - 1) && f k = true /\ forall j, from < j < k -> f (j - 1) && f j = false.

Lemma first_pair_unique f from k k' : first_pair f from k -> first_pair f from k' -> k = k'.
Proof.
  intros (H1 & H2 & H3) (H1' & H2' & H3'). destruct (Z.lt_trichotomy k k') as [H|[H|H]]; [|done|].
  - rewrite H3' in H2 by lia. done.
  - rewrite H3 in H2' by lia. done.
Qed.

Lemma no_pair_next (f : Z -> bool) from k :
  (forall j, from < j <= k -> f (j - 1) && f j = false) -> (from <= k -> f k && f (k + 1) = false) ->
  forall j, from < j <= k + 1 -> f (j - 1) && f j = false.
Proof.
  intros H1 H2 j Hj. destruct (decide (j = k + 1)) as [->|Hne]; [|apply H1; lia].
  replace (k + 1 - 1) with k by lia. apply H2. lia.
Qed.

(** The answers to the requests of attempt [n]: every message goes out. *)
Definition responds (ping api : Z -> bool) (n : Z) (q : Probe) : bool :=
  match q with
  | PingDevice _ _ => ping n
  | CheckApiPort _ _ _ => api n
  | SendMessage _ _ | Sleep _ => true
  end.

Definition is_ping (q : Probe) : bool := match q with PingDevice _ _ => true | _ => false end.
Definition is_api_check (q : Probe) : bool := match q with CheckApiPort _ _ _ => true | _ => false end.
Definition is_backoff (q : Probe) : bool := match q with SendMessage _ (PingBackoff _ _ _) => true | _ => false end.
Definition is_online (q : Probe) : bool := match q with SendMessage _ (DeviceOnline _ _) => true | _ => false end.

Definition count (p : Probe -> bool) (l : list Probe) : Z := Z.of_nat (length (filter (fun q => p q = true) l)).

Lemma count_nil p : count p [] = 0.
Proof. done. Qed.

Lemma count_app p l l' : count p (l ++ l') = count p l + count p l'.
Proof. unfold count. rewrite filter_app, length_app. lia. Qed.

Lemma count_cons p q l : count p (q :: l) = (if p q then 1 else 0) + count p l.
Proof. unfold count. rewrite filter_cons. destruct (p q); simpl; lia. Qed.

(** Runs a pass whose answers are known. *)
Ltac run_pass Hp Hc :=
  cbn; rewrite ?Hp; try change (2 <=? Z.succ 1) with true; try change (2 <=? Z.succ 0) with false;
  cbn; rewrite ?Hc; try change (2 <=? Z.succ 1) with true; try change (2 <=? Z.succ 0) with false; cbn; reflexivity.

Ltac counting :=
  rewrite ?count_app, ?count_cons, ?count_nil; cbn [is_ping is_api_check is_backoff is_online v_retry_cycle]; lia.

Section Detection.
Context (private_v6 : string -> bool).
Context (a : LoopArgs) (ping api : Z -> bool).
Hypothesis some_attempts : 1 <= la_max_attempts a.

Notation monitor := (ping_monitor private_v6).

(** The attempt a pass makes. *)
Definition number (o : option Vars) : Z := match o with Some v => v_attempt v + 1 | None => 0 end.

Definition reply (o : option Vars) : Probe -> bool := responds ping api (number o).

(** ** The variables after [k] attempts *)
Definition searching (k : Z) (v : Vars) (acc : list Probe) : Prop :=
  v_ping_verified v = false /\ v_ping_successes v = (if (1 <=? k) && ping k then 1 else 0) /\ v_api_successes v = 0 /\
  (forall j, 1 < j <= k -> ping (j - 1) && ping j = false) /\ count is_ping acc = k /\ count is_api_check acc = 0.

Definition probing (k : Z) (v : Vars) (acc : list Probe) : Prop :=
  exists m, first_pair ping 1 m /\ m <= k /\ v_ping_verified v = true /\
    v_api_successes v = (if api k then 1 else 0) /\
    (forall j, m < j <= k -> api (j - 1) && api j = false) /\
    count is_ping acc = m /\ count is_api_check acc = k - m + 1.

Definition tracked (k : Z) (v : Vars) (acc : list Probe) : Prop :=
  0 <= k /\ v_attempt v = k /\ 0 <= v_cycle_attempts v <= la_max_attempts a /\ 0 <= v_retry_cycle v /\
  k = v_retry_cycle v * la_max_attempts a + v_cycle_attempts v /\ v_api_verified v = false /\
  count is_backoff acc = v_retry_cycle v /\ count is_online acc = 0 /\
  (searching k v acc \/ probing k v acc).

Definition online (acc : list Probe) (m n : Z) : Prop :=
  exists acc', acc = acc' ++ [SendMessage (la_session a) (DeviceOnline false None)] /\ count is_online acc' = 0 /\
    count is_ping acc = m /\ count is_api_check acc = n - m + 1.

(** An attempt that is left in the cycle goes on, or finds both. *)
Lemma attempt_plays k v acc s :
  tracked k v acc -> v_cycle_attempts v < la_max_attempts a ->
  exists qs s',
    (exists v', play (reply (Some v)) 0 s (_monitor_loop private_v6 a (Some v)) = (qs, s', Some (Ok (Some v'))) /\
       tracked (k + 1) v' (acc ++ qs) /\ v_retry_cycle v' = v_retry_cycle v) \/
    (play (reply (Some v)) 0 s (_monitor_loop private_v6 a (Some v)) = (qs, s', Some (Ok None)) /\
       exists m, first_pair ping 1 m /\ first_pair api m (k + 1) /\ online (acc ++ qs) m (k + 1) /\
         count is_backoff (acc ++ qs) = v_retry_cycle v).
Proof.
  intros (Hk & Ha & Hc & Hr & Heq & Hapi & Hb & Ho & H) Hlt.
  destruct v as [at_ cyc ret pv av ps as_]. simpl in *. subst at_ av.
  unfold _monitor_loop, attempt. simpl v_cycle_attempts. rewrite (proj2 (Z.ltb_lt _ _) Hlt).
  destruct H as [(Hpv & Hps & Has & Hno & Hcp & Hca)|(m & Hm & Hmk & Hpv & Has & Hno & Hcp & Hca)]; simpl in *; subst pv as_.
  - subst ps. destruct (ping (k + 1)) eqn:Hp; [destruct ((1 <=? k) && ping k) eqn:Hpk|].
    + (* the second answer in a row: the port is checked at once *)
      apply andb_true_iff in Hpk as [Hk1 Hpk]. apply Z.leb_le in Hk1.
      assert (Hm : first_pair ping 1 (k + 1)).
      { split; [lia|]. replace (k + 1 - 1) with k by lia. rewrite Hp, Hpk. split; [done|].
        intros j Hj. apply Hno. lia. }
      destruct (api (k + 1)) eqn:Hc1; eexists _, _; left; eexists; (split; [run_pass Hp Hc1|]);
        (split; [|done]); (split_and!; try (simpl; lia); try counting; []); right; exists (k + 1);
        (split_and!; simpl; rewrite ?Hc1; try done; try lia; try counting; intros; lia).
    + eexists _, _; left; eexists; (split; [run_pass Hp Hp|]);
        (split; [|done]); (split_and!; try (simpl; lia); try counting; []); left;
        (split_and!; simpl; rewrite ?Hp; try done; try lia; try counting).
      * by rewrite (proj2 (Z.leb_le 1 (k + 1))) by lia.
      * apply no_pair_next; [done|]. intros Hk1. rewrite (proj2 (Z.leb_le 1 k)) in Hpk by lia. simpl in Hpk. by rewrite Hpk.
    + eexists _, _; left; eexists; (split; [run_pass Hp Hp|]);
        (split; [|done]); (split_and!; try (simpl; lia); try counting; []); left;
        (split_and!; simpl; rewrite ?Hp; try done; try lia; try counting).
      * by rewrite andb_false_r.
      * apply no_pair_next; [done|]. intros _. by rewrite Hp, andb_false_r.
  - destruct (api (k + 1)) eqn:Hc1; [destruct (api k) eqn:Hck|].
    + (* the port answers for the second time in a row *)
      eexists _, _; right; (split; [run_pass Hc1 Hc1|]). exists m. split; [done|]. split.
      * split; [lia|]. replace (k + 1 - 1) with k by lia. rewrite Hck, Hc1. split; [done|]. intros j Hj. apply Hno. lia.
      * split; [|counting].
        exists (acc ++ [CheckApiPort (la_ip a) (la_port a) (la_timeout_ms a);
                  SendMessage (la_session a) (ApiCheckResult (Z.succ cyc) (la_max_attempts a) true);
                  SendMessage (la_session a) (StageComplete 2 false)]).
        split; [by rewrite <- app_assoc|]. split_and!; counting.
    + eexists _, _; left; eexists; (split; [run_pass Hc1 Hc1|]);
        (split; [|done]); (split_and!; try (simpl; lia); try counting; []); right; exists m;
        (split_and!; simpl; rewrite ?Hc1; try done; try lia; try counting).
      apply no_pair_next; [done|]. intros _. by rewrite Hck.
    + eexists _, _; left; eexists; (split; [run_pass Hc1 Hc1|]);
        (split; [|done]); (split_and!; try (simpl; lia); try counting; []); right; exists m;
        (split_and!; simpl; rewrite ?Hc1; try done; try lia; try counting).
      apply no_pair_next; [done|]. intros _. by rewrite Hc1, andb_false_r.
Qed.

(** A cycle that is used up backs off and starts again. *)
Lemma backoff_plays k v acc s :
  tracked k v acc -> v_cycle_attempts v = la_max_attempts a ->
  exists qs s' v', play (reply (Some v)) 0 s (_monitor_loop private_v6 a (Some v)) = (qs, s', Some (Ok (Some v'))) /\
    tracked k v' (acc ++ qs) /\ v_retry_cycle v' = v_retry_cycle v + 1 /\ v_cycle_attempts v' = 0.
Proof.
  intros (Hk & Ha & Hc & Hr & Heq & Hapi & Hb & Ho & H) Hlt.
  destruct v as [at_ cyc ret pv av ps as_]. simpl in *. subst at_ av cyc.
  unfold _monitor_loop, attempt. simpl v_cycle_attempts. rewrite Z.ltb_irrefl.
  eexists _, _, _. split; [cbn; reflexivity|]. split; [|split; [simpl; lia|done]].
  split_and!; try (simpl; lia); try counting.
  destruct H as [(H1 & H2 & H3 & H4 & H5 & H6)|(m & H1 & H2 & H3 & H4 & H5 & H6 & H7)];
    [left|right; exists m]; split_and!; simpl in *; try done; counting.
Qed.

Lemma first_plays s :
  is_private private_v6 (la_ip a) = false ->
  play (reply None) 0 s (_monitor_loop private_v6 a None) = ([], s, Some (Ok (Some initial_vars))).
Proof. intros Hp. unfold _monitor_loop, first_pass. by rewrite Hp. Qed.

Lemma initially_tracked : tracked 0 initial_vars [].
Proof.
  split_and!; simpl; try lia; try done. left. split_and!; simpl; try done. intros. lia.
Qed.

Notation watched := (watch monitor reply 0 a).

(** A loop that ends has found both pairs. *)
Lemma watched_ends fuel : forall k v acc s qs s',
  tracked k v acc -> watched fuel s (Some v) acc = (qs, s', true) ->
  exists m n, k < n /\ first_pair ping 1 m /\ first_pair api m n /\ online qs m n.
Proof.
  induction fuel as [|fuel IH]; intros k v acc s qs s' Ht E; cbn [watch] in E; [done|].
  destruct (decide (v_cycle_attempts v < la_max_attempts a)) as [Hlt|Hge].
  - destruct (attempt_plays k v acc s Ht Hlt) as (qs1 & s1 & [(v1 & Ep & Ht1 & _)|(Ep & m & Hm & Hn & Hon & _)]);
      simpl body in E; rewrite Ep in E.
    + destruct (IH (k + 1) v1 _ s1 qs s' Ht1 E) as (m & n & Hkn & H). exists m, n. split; [lia|done].
    + injection E as <- <-. exists m, (k + 1). split; [lia|done].
  - assert (Heq : v_cycle_attempts v = la_max_attempts a) by (destruct Ht as (_ & _ & Hc & _); lia).
    destruct (backoff_plays k v acc s Ht Heq) as (qs1 & s1 & v1 & Ep & Ht1 & _ & _).
    simpl body in E. rewrite Ep in E. by apply (IH k v1 _ s1 qs s' Ht1).
Qed.

(** How many passes are left before attempt [n] finds the second pair. *)
Definition passes_left (n k retries : Z) : Z := n - k + ((n - 1) / la_max_attempts a - retries).

Lemma watched_finds m n : first_pair ping 1 m -> first_pair api m n ->
  forall fuel k v acc s,
  tracked k v acc -> k < n -> Z.of_nat fuel = passes_left n k (v_retry_cycle v) ->
  exists qs s', watched fuel s (Some v) acc = (qs, s', true) /\ online qs m n /\
    count is_backoff qs = (n - 1) / la_max_attempts a.
Proof.
  intros Hm Hn. induction fuel as [|fuel IH]; intros k v acc s Ht Hkn Hf; cbn [watch].
  - exfalso. destruct Ht as (H1 & H2 & H3 & H4 & H5 & _). unfold passes_left in Hf.
    assert (v_retry_cycle v <= (n - 1) / la_max_attempts a) by (apply Z.div_le_lower_bound; nia). lia.
  - assert (Hret : v_retry_cycle v * la_max_attempts a + v_cycle_attempts v <= n - 1)
      by (destruct Ht as (H1 & H2 & H3 & H4 & H5 & _); lia).
    destruct (decide (v_cycle_attempts v < la_max_attempts a)) as [Hlt|Hge].
    + destruct (attempt_plays k v acc s Ht Hlt) as (qs1 & s1 & [(v1 & Ep & Ht1 & Hr1)|(Ep & m' & Hm' & Hn' & Hon & Hb)]);
        simpl body; rewrite Ep.
      * apply IH with (k + 1); [done| |unfold passes_left in *; rewrite Hr1; lia].
        destruct (decide (n = k + 1)) as [->|Hne]; [|lia]. exfalso.
        destruct Ht1 as (_ & _ & _ & _ & _ & Hav & _ & _ & [(Hpv & _ & _ & Hno & _)|(m' & Hm' & Hmk & _ & _ & Hno & _)]).
        -- destruct Hm as (Hm1 & Hm2 & _). destruct Hn as (Hn1 & _). rewrite Hno in Hm2 by lia. done.
        -- rewrite (first_pair_unique ping 1 m m' Hm Hm') in Hn. destruct Hn as (Hn1 & Hn2 & _).
           rewrite Hno in Hn2 by lia. done.
      * rewrite (first_pair_unique _ _ _ _ Hm' Hm) in Hn', Hon.
        rewrite (first_pair_unique _ _ _ _ Hn' Hn) in Hon. eexists _, _. split; [reflexivity|]. split; [done|].
        rewrite Hb. assert (n = k + 1) by (by apply (first_pair_unique api m)).
        destruct Ht as (H1 & H2 & H3 & H4 & H5 & _). apply (Z.div_unique _ _ _ (v_cycle_attempts v)); [left|]; lia.
    + destruct Ht as (H1 & H2 & H3 & H4 & H5 & Hrest).
      assert (Heq : v_cycle_attempts v = la_max_attempts a) by lia.
      destruct (backoff_plays k v acc s (conj H1 (conj H2 (conj H3 (conj H4 (conj H5 Hrest))))) Heq) as (qs1 & s1 & v1 & Ep & Ht1 & Hr1 & Hc1).
      simpl body. rewrite Ep. apply IH with k; [done|done|]. unfold passes_left in *. rewrite Hr1. lia.
Qed.
Lemma attempts_await (p : @Proc PingMonitor Probe Json LoopArgs Reply Vars) v v' :
  snd (settle 0 p (body monitor a (Some v))) <> Done (Some v').
Proof.
  simpl body. unfold _monitor_loop, attempt. destruct (v_cycle_attempts v <? la_max_attempts a); [|done].
  unfold ping_stage, api_stage. destruct v as [at_ cyc ret [] [] ps as_]; done.
Qed.

End Detection.

(** ** Concrete runs *)
Definition slow_device : LoopArgs := mkLoopArgs "s1" "41.90.64.10" 8728 2000 5 1000.

(** It answers pings from the third attempt on, and its port from the sixth. *)
Definition slow_ping (n : Z) : bool := 3 <=? n.
Definition slow_api (n : Z) : bool := 6 <=? n.

Lemma slow_ping_pair : first_pair slow_ping 1 4.
Proof. split; [lia|]. split; [reflexivity|]. intros j Hj. unfold slow_ping. lia. Qed.

Lemma slow_api_pair : first_pair slow_api 4 7.
Proof. split; [lia|]. split; [reflexivity|]. intros j Hj. unfold slow_api. lia. Qed.

Definition waiting_proc : @Proc PingMonitor Probe Json LoopArgs Reply Vars :=
  mkProc new_monitor 1 {[0%nat := Fresh slow_device false]} [] [].


(** The same run, evaluated. *)
Example slow_run :
  let '(qs, _, done) := watch (ping_monitor (fun _ => false)) (reply slow_ping slow_api) 0 slow_device 9 new_monitor None [] in
  (count is_ping qs, count is_api_check qs, count is_backoff qs, count is_online qs, done) = (4, 4, 1, 1, true).
Proof. vm_compute. reflexivity. Qed.
