(* ===== verification/RouterCli.v ===== *)
(** * RouterOS commands as text

    [MikroTikClient.execute_command] ([src/app/integrations/mikrotik/client.py])
    takes a command of the router's console, parses it into a resource, a method
    and parameters, and turns it into calls of the API. The parser, with the
    regular expression of the parameters; the execution; the helpers that read
    RouterOS versions ([src/app/modules/provisioning/commands.py],
    [src/app/modules/provisioning/service.py]). *)

From S2P Require Import Prelude PyString Numerics Models Session.

(** ** Parameters: [re.findall] of a key, that is as few non-space characters
    as possible, an equals sign, and a value, that is a text in double quotes, a
    text in single quotes, or a run of non-space characters *)

Definition double_quote : ascii := "034".
Definition single_quote : ascii := "039".

(** The longest run of characters of [p], and what follows it. *)
Fixpoint span (p : ascii -> bool) (s : string) : string * string :=
  match s with
  | String c s' => if p c then let (a, b) := span p s' in (String c a, b) else ("", s)
  | EmptyString => ("", "")
  end.

Definition nonspace (c : ascii) : bool := negb (is_space c).

(** A quotation mark [q], one or more other characters, and [q] again. *)
Definition quoted (q : ascii) (s : string) : option (string * string) :=
  match s with
  | String c s' =>
      if bool_decide (c = q) then
        match span (fun x => negb (bool_decide (x = q))) s' with
        | (EmptyString, _) | (_, EmptyString) => None
        | (v, String _ rest) => Some (v, rest)
        end
      else None
  | EmptyString => None
  end.

Definition bare (s : string) : option (string * string) :=
  match span nonspace s with (EmptyString, _) => None | r => Some r end.

(** The value after the [=]: the alternatives in their order. *)
Definition match_value (s : string) : option (string * string) :=
  match quoted double_quote s with
  | Some r => Some r
  | None => match quoted single_quote s with Some r => Some r | None => bare s end
  end.

(** The key so far has one character or more: the shortest continuation that
    reaches an [=] followed by a value. *)
Fixpoint match_key (key : string) (s : string) : option (string * string * string) :=
  match s with
  | EmptyString => None
  | String c s' =>
      let longer := if is_space c then None else match_key (key +:+ String c "") s' in
      if bool_decide (c = "="%char) then
        match match_value s' with Some (v, rest) => Some (key, v, rest) | None => longer end
      else longer
  end.

(** All matches from left to right; each one consumes a character, so that the
    length of the text is enough fuel. *)
Fixpoint find_params (n : nat) (s : string) : list (string * string) :=
  match n, s with
  | S n, String c s' =>
      match (if is_space c then None else match_key (String c "") s') with
      | Some (k, v, rest) => (k, v) :: find_params n rest
      | None => find_params n s'
      end
  | _, _ => []
  end.

(** [params[key] = value] in a dictionary that keeps its order. *)
Fixpoint dict_set (k v : string) (d : list (string * string)) : list (string * string) :=
  match d with
  | [] => [(k, v)]
  | (k', v') :: d' => if bool_decide (k' = k) then (k, v) :: d' else (k', v') :: dict_set k v d'
  end.

Definition dict_of (l : list (string * string)) : list (string * string) :=
  foldl (fun d kv => dict_set kv.1 kv.2 d) [] l.

(** ** [_parse_cli_command] *)
Definition method_keywords : list string :=
  ["add"; "set"; "remove"; "print"; "get"; "enable"; "disable"; "reset"; "sign"].

Record CliCommand : Type := mkCli {
  cli_path : string;
  cli_method : string;
  cli_item : option string;
  cli_params : list (string * string)
}.

(** The resource and the method: the last segment when it is a keyword. *)
Definition split_path (path_with_method : string) : string * string :=
  let segments := split_on "/" (rstrip_char "/" path_with_method) in
  match last segments with
  | Some m =>
      if bool_decide (m ∈ method_keywords)
      then (join "/" (take (Nat.pred (length segments)) segments), m)
      else (path_with_method, "get")
  | None => (path_with_method, "get")
  end.

(** The first word of the arguments of a [set] that has no [=]. *)
Definition split_item (method params : string) : option string * string :=
  if bool_decide (method = "set") then
    match cut_at " " params with
    | Some (EmptyString, _) | None =>
        if contains_char "=" params then (None, params) else (Some params, "")
    | Some (word, rest) =>
        if contains_char "=" word then (None, params) else (Some word, rest)
    end
  else (None, params).

Definition _parse_cli_command (command : string) : CliCommand :=
  let '(head, params) := match cut_at " " (strip command) with
                         | Some r => r
                         | None => (strip command, "")
                         end in
  let '(path, method) := split_path head in
  let '(item, rest) := if bool_decide (params = "") then (None, params)
                       else split_item method params in
  mkCli path method (match item with Some "" => None | o => o end)
    (dict_of (find_params (String.length rest) rest)).

Example parse_add :
  _parse_cli_command "/ip/pool/add name=codevertex-pool ranges=10.0.0.2-10.0.0.9" =
  mkCli "/ip/pool" "add" None [("name", "codevertex-pool"); ("ranges", "10.0.0.2-10.0.0.9")].
Proof. vm_compute. reflexivity. Qed.

Example parse_set_item :
  _parse_cli_command "/ip/service/set telnet disabled=yes" =
  mkCli "/ip/service" "set" (Some "telnet") [("disabled", "yes")].
Proof. vm_compute. reflexivity. Qed.

(** A console expression in brackets is not evaluated: it is read as a
    parameter. *)
Example parse_find :
  _parse_cli_command "/certificate/sign [find name=codevertex-ca]" =
  mkCli "/certificate" "sign" None [("name", "codevertex-ca]")].
Proof. vm_compute. reflexivity. Qed.

(** A guarded command has no resource at all. *)
Example parse_guarded :
  _parse_cli_command ":do { /ip/pool/remove [find name=p] } on-error={}" =
  mkCli ":do" "get" None [("name", "p]"); ("on-error", "{}")].
Proof. vm_compute. reflexivity. Qed.

(** ** [execute_command] of a text *)

(** [str(e)] *)
Fixpoint exn_text (e : exn) : string :=
  match e with
  | ValueError m | ValidationError m | AttributeError m | TypeError m
  | ExternalServiceError m | RuntimeError m | HTTPException _ m | KeyError m
  | IndexError m | ProvisioningError m | RouterOperationError m | RouterConnectionError m
  | ConfigurationError m => m
  | UnboundLocalError name =>
      "cannot access local variable '" +:+ name +:+ "' where it is not associated with a value"
  | NameError name => "name '" +:+ name +:+ "' is not defined"
  | BillingError cause => exn_text cause
  | NoInspectionAvailable => "No inspection system is available"
  | MultipleResultsFound => "Multiple rows were found when exactly one was required"
  | DatabaseError => "database error"
  | PendingRollbackError => "This Session's transaction has been rolled back"
  | MissingGreenlet => "greenlet_spawn has not been called"
  | TreasuryError => "treasury error"
  end.

Section Execution.
Context {be : Backend} {ros : RouterOS}.

(** The API calls of one router with the parameters of the text. *)
Definition given_params (l : list (string * string)) : list (string * option string) :=
  map (fun kv => (kv.1, Some kv.2)) l.

Definition item_id (e : Entry) : option string :=
  match e !! "id" with Some "" => None | o => o end.

(** The item of a [set]: by its name, or by name or service among all of them. *)
Definition set_item (r : Router) (path item : string) (ps : list (string * option string))
    : run (option (list Entry)) :=
  named <- execute_command r path GET [("name", Some item)] ;;
  match default [] named ≫= fun e => [item_id e] with
  | Some id :: _ => execute_command r path SET (("id", Some id) :: ps)
  | _ =>
      all <- execute_command r path GET [] ;;
      let matches e :=
        (bool_decide (e !! "name" = Some item) || bool_decide (e !! "service" = Some item)) &&
        bool_decide (is_Some (item_id e)) in
      match filter (fun e => matches e = true) (default [] all) with
      | e :: _ => execute_command r path SET (("id", item_id e) :: ps)
      | [] => mraise (ValueError ("Item '" +:+ item +:+ "' not found"))
      end
  end.

Definition sync_execute (r : Router) (c : CliCommand) : run (option (list Entry)) :=
  let ps := given_params (cli_params c) in
  let on := execute_command r (cli_path c) in
  let meth m := bool_decide (cli_method c = m) in
  if meth "get" || meth "print" then on GET ps
  else if meth "add" then on ADD ps
  else if meth "set" then
    match cli_item c with Some item => set_item r (cli_path c) item ps | None => on SET ps end
  else if meth "remove" then on REMOVE ps
  else if meth "enable" then on SET (("disabled", Some "no") :: ps)
  else if meth "disable" then on SET (("disabled", Some "yes") :: ps)
  else if meth "sign" then on (CALL "sign") ps
  else mraise (ValueError ("Unknown method: " +:+ cli_method c)).

(** A text with a space or with one of these methods at its end is parsed;
    another one names a resource to read. *)
Definition is_cli (command : string) : bool :=
  contains_char " " command
  || existsb (fun m => ends_with ("/" +:+ m) (rstrip_char "/" command))
       ["add"; "set"; "remove"; "print"; "enable"; "disable"].

Definition execute_text (r : Router) (command : string) : run (option (list Entry)) :=
  let c := if is_cli command then _parse_cli_command command
           else mkCli command "get" None [] in
  mtry (sync_execute r c)
    (fun e => match e with
              | ExternalServiceError m => mraise (ExternalServiceError m)
              | _ => mraise (ExternalServiceError ("RouterOS command failed: " +:+ exn_text e))
              end).
End Execution.

(** ** Versions *)

(** A run of digits, at least one, and its value. *)
Definition read_number (s : string) : option (Z * string) :=
  match span (fun c => bool_decide (is_Some (digit_value c))) s with
  | (EmptyString, _) => None
  | (ds, rest) => Some (read_digits 0 ds, rest)
  end.

(** [re.match(r'(\d+)\.(\d+)(?:\.(\d+))?', version_string.strip())] *)
Definition parse_routeros_version (v : string) : Z * Z * Z :=
  match read_number (strip v) with
  | Some (major, String "." s) =>
      match read_number s with
      | Some (minor, String "." s') =>
          (major, minor, match read_number s' with Some (patch, _) => patch | None => 0 end)
      | Some (minor, _) => (major, minor, 0)
      | None => (7, 0, 0)
      end
  | _ => (7, 0, 0)
  end.

Definition is_v7_or_later (v : option string) : bool :=
  match v with
  | None | Some "" => true
  | Some s => 7 <=? (parse_routeros_version s).1.1
  end.

(** [ProvisioningService._compare_versions]: the numbers between the dots, other
    characters dropped. *)
Definition keep_digits (s : string) : string :=
  String.string_of_list_ascii
    (filter (fun c => bool_decide (is_Some (digit_value c)) = true) (String.list_ascii_of_string s)).

Definition before_char (x : ascii) (s : string) : string :=
  match cut_at x s with Some (a, _) => a | None => s end.

Definition parse_version (v : string) : list Z :=
  map (fun part => read_digits 0 (keep_digits part))
    (split_on "." (strip (before_char "(" (before_char " " v)))).

(** Padded with zeros to the same length and compared from the left. *)
Fixpoint compare_parts (l : list (Z * Z)) : comparison :=
  match l with
  | [] => Eq
  | (x, y) :: l' => match Z.compare x y with Eq => compare_parts l' | c => c end
  end.

Definition pad (n : nat) (l : list Z) : list Z := l ++ replicate (n - length l)%nat 0.

Definition _compare_versions (version1 version2 : string) : comparison :=
  let v1 := parse_version version1 in
  let v2 := parse_version version2 in
  let n := Nat.max (length v1) (length v2) in
  compare_parts (zip (pad n v1) (pad n v2)).

Example version_examples :
  parse_routeros_version "7.18.2 (stable)" = (7, 18, 2) /\
  parse_routeros_version "6.48.3" = (6, 48, 3) /\ parse_routeros_version "7.1beta4" = (7, 1, 0) /\
  is_v7_or_later (Some "6.49.10") = false /\
  _compare_versions "7.18.2 (stable)" "6.40" = Gt /\ _compare_versions "6.40.0" "6.40" = Eq.
Proof. vm_compute. repeat split. Qed.

(** ** Printing a command and parsing it back *)

Definition no_space (s : string) : bool := forallb nonspace (String.list_ascii_of_string s).

(** A value is written as it is when it is one word that no quotation mark
    opens, and in double quotes otherwise. *)
Definition render_value (v : string) : string :=
  let opens := match v with String c _ => bool_decide (c = single_quote) | EmptyString => false end in
  if no_space v && negb opens then v else String double_quote (v +:+ String double_quote "").

Definition render_param (kv : string * string) : string := kv.1 +:+ "=" +:+ render_value kv.2.

Fixpoint render_params (l : list (string * string)) : string :=
  match l with
  | [] => ""
  | kv :: l' => " " +:+ render_param kv +:+ render_params l'
  end.

Definition render_command (path method : string) (l : list (string * string)) : string :=
  path +:+ "/" +:+ method +:+ render_params l.

Definition key_ok (k : string) : bool :=
  negb (bool_decide (k = "")) && no_space k && negb (contains_char "=" k).
Definition value_ok (v : string) : bool :=
  negb (bool_decide (v = "")) && negb (contains_char double_quote v).
Definition param_ok (kv : string * string) : Prop := key_ok kv.1 = true /\ value_ok kv.2 = true.

(** What is left after a value: nothing, or more after a space. *)
Definition cut_here (s : string) : Prop :=
  match s with EmptyString => True | String c _ => is_space c = true end.

Lemma no_space_cons c s : no_space (String c s) = nonspace c && no_space s.
Proof. done. Qed.

Lemma span_all p s rest :
  forallb p (String.list_ascii_of_string s) = true ->
  match rest with EmptyString => True | String c _ => p c = false end ->
  span p (s +:+ rest) = (s, rest).
Proof.
  intros Hs Hr. induction s as [|c s IH].
  - destruct rest as [|c r]; [done|].
    change (span p (String c r) = ("", String c r)). cbn [span]. cbn beta iota in Hr. by rewrite Hr.
  - cbn in Hs. apply andb_true_iff in Hs as [Hc Hs].
    change (String c s +:+ rest) with (String c (s +:+ rest)). cbn [span]. by rewrite Hc, IH.
Qed.

Lemma quoted_other q c s : c <> q -> quoted q (String c s) = None.
Proof. intros H. cbn. by rewrite bool_decide_eq_false_2. Qed.

Lemma quoted_value q v rest :
  v <> "" -> contains_char q v = false ->
  quoted q (String q (v +:+ String q rest)) = Some (v, rest).
Proof.
  intros Hv Hq. cbn [quoted]. rewrite bool_decide_eq_true_2 by done.
  rewrite (span_all _ v (String q rest)).
  - by destruct v.
  - clear Hv. induction v as [|c v IH]; [done|]. cbn in Hq |- *.
    apply orb_false_iff in Hq as [Hc Hq]. by rewrite Hc, IH.
  - cbn. by rewrite bool_decide_eq_true_2.
Qed.

Lemma match_value_render v rest :
  value_ok v = true -> cut_here rest -> match_value (render_value v +:+ rest) = Some (v, rest).
Proof.
  intros [Hv%negb_true_iff Hq%negb_true_iff]%andb_true_iff Hrest.
  apply bool_decide_eq_false_1 in Hv. unfold render_value.
  destruct v as [|c v]; [done|]. set (w := String c v) in *.
  destruct (no_space w && negb (bool_decide (c = single_quote))) eqn:E.
  - apply andb_true_iff in E as [Hw Hc%negb_true_iff%bool_decide_eq_false_1].
    cbn in Hq. apply orb_false_iff in Hq as [Hd%bool_decide_eq_false_1 _].
    change (w +:+ rest) with (String c (v +:+ rest)). unfold match_value.
    rewrite !quoted_other by done. unfold bare.
    change (String c (v +:+ rest)) with (w +:+ rest). rewrite span_all; [done|done|].
    destruct rest as [|d r]; [done|]. cbn in Hrest. unfold nonspace. by rewrite Hrest.
  - change (String double_quote (w +:+ String double_quote "") +:+ rest)
      with (String double_quote ((w +:+ String double_quote "") +:+ rest)).
    rewrite string_app_assoc. unfold match_value.
    change (String double_quote "" +:+ rest) with (String double_quote rest).
    by rewrite quoted_value.
Qed.

Lemma match_key_render k v rest : forall key,
  no_space k = true -> contains_char "=" k = false -> value_ok v = true -> cut_here rest ->
  match_key key (k +:+ "=" +:+ render_value v +:+ rest) = Some (key +:+ k, v, rest).
Proof.
  induction k as [|c k IH]; intros key Hk He Hv Hrest.
  - change ("" +:+ "=" +:+ render_value v +:+ rest) with (String "=" (render_value v +:+ rest)).
    cbn [match_key]. rewrite bool_decide_eq_true_2 by done.
    by rewrite match_value_render, string_app_nil_r.
  - rewrite no_space_cons in Hk. apply andb_true_iff in Hk as [Hc%negb_true_iff Hk].
    cbn in He. apply orb_false_iff in He as [Hce He].
    change (String c k +:+ "=" +:+ render_value v +:+ rest)
      with (String c (k +:+ "=" +:+ render_value v +:+ rest)).
    cbn [match_key]. rewrite Hce, Hc, IH by done. by rewrite string_app_assoc.
Qed.

Lemma cut_here_params l : cut_here (render_params l).
Proof. by destruct l as [|kv l]. Qed.

Lemma find_param kv l n :
  param_ok kv ->
  find_params (S n) (render_param kv +:+ render_params l) = kv :: find_params n (render_params l).
Proof.
  destruct kv as [k v]. intros [[[Hk%negb_true_iff%bool_decide_eq_false_1 Hs]%andb_true_iff He%negb_true_iff]%andb_true_iff Hv].
  unfold render_param. cbn [fst snd] in *. destruct k as [|c k]; [done|].
  rewrite !string_app_assoc. rewrite no_space_cons in Hs.
  apply andb_true_iff in Hs as [Hc%negb_true_iff Hs].
  cbn in He. apply orb_false_iff in He as [_ He].
  change (String c k +:+ "=" +:+ render_value v +:+ render_params l)
    with (String c (k +:+ "=" +:+ render_value v +:+ render_params l)).
  cbn [find_params]. rewrite Hc, (match_key_render k v) by (done || apply cut_here_params). done.
Qed.

Lemma find_params_render l : forall n,
  Forall param_ok l -> (String.length (render_params l) <= n)%nat ->
  find_params n (render_params l) = l.
Proof.
  induction l as [|kv l IH]; intros n Hl Hn; [by destruct n|].
  apply Forall_cons in Hl as [Hkv Hl]. cbn [render_params] in *.
  change (" " +:+ render_param kv +:+ render_params l)
    with (String " " (render_param kv +:+ render_params l)) in *.
  cbn in Hn. destruct n as [|n]; [lia|]. cbn [find_params].
  change (is_space " ") with true. cbn iota. destruct n as [|n].
  { unfold render_param in Hn. rewrite !string_length_app in Hn. cbn in Hn. lia. }
  rewrite find_param by done. f_equal. apply IH; [done|].
  unfold render_param in Hn. rewrite !string_length_app in Hn. cbn in Hn. lia.
Qed.

(** *** Dictionaries without repeated keys *)
Lemma dict_set_fresh k v d : k ∉ d.*1 -> dict_set k v d = d ++ [(k, v)].
Proof.
  induction d as [|[k' v'] d IH]; [done|]. cbn. intros H%not_elem_of_cons.
  rewrite bool_decide_eq_false_2 by naive_solver. by rewrite IH by naive_solver.
Qed.

Lemma dict_of_nodup l : NoDup l.*1 -> dict_of l = l.
Proof.
  intros Hl. unfold dict_of. rewrite <- (app_nil_l l) at 2. revert Hl.
  enough (H : forall l' d, NoDup (d ++ l').*1 ->
    foldl (fun d kv => dict_set kv.1 kv.2 d) d l' = d ++ l') by exact (H l []).
  clear l. induction l' as [|[k v] l IH]; intros d Hd; [by rewrite app_nil_r|].
  cbn [foldl fst snd]. rewrite dict_set_fresh.
  - rewrite IH; [by rewrite <- app_assoc|]. by rewrite <- app_assoc.
  - rewrite fmap_app, NoDup_app in Hd. destruct Hd as (_ & Hd & _).
    intros Hk. apply (Hd k Hk). by left.
Qed.

(** *** Paths *)
Lemma split_on_snoc x p m :
  contains_char x m = false -> split_on x (p +:+ String x m) = split_on x p ++ [m].
Proof.
  intros Hm. induction p as [|c p IH].
  - change (split_on x (String x m) = [""; m]). cbn [split_on].
    rewrite bool_decide_eq_true_2 by done. by rewrite split_on_last.
  - change (split_on x (String c (p +:+ String x m)) = split_on x (String c p) ++ [m]).
    cbn [split_on]. destruct (bool_decide (c = x)); [by rewrite IH|]. rewrite IH.
    destruct (split_on x p) as [|q qs] eqn:E; [by apply split_on_nonempty in E|done].
Qed.

Lemma join_split x p : join (String x "") (split_on x p) = p.
Proof.
  induction p as [|c p IH]; [done|]. cbn.
  destruct (bool_decide_reflect (c = x)) as [->|Hne].
  - destruct (split_on x p) as [|q qs] eqn:E; [by apply split_on_nonempty in E|].
    change (join (String x "") ("" :: q :: qs)) with (String x (join (String x "") (q :: qs))).
    by rewrite IH.
  - destruct (split_on x p) as [|q qs] eqn:E; [by apply split_on_nonempty in E|].
    rewrite <- IH. by destruct qs.
Qed.

Lemma rstrip_char_keep x s c : c <> x -> rstrip_char x (s +:+ String c "") = s +:+ String c "".
Proof.
  intros H. induction s as [|d s IH].
  - change (rstrip_char x (String c "") = String c ""). cbn. by rewrite bool_decide_eq_false_2.
  - change (rstrip_char x (String d (s +:+ String c "")) = String d (s +:+ String c "")).
    cbn [rstrip_char]. rewrite IH. by destruct s.
Qed.

Lemma string_snoc s : s <> "" -> exists a c, s = a +:+ String c "".
Proof.
  induction s as [|c s IH]; [done|]. intros _. destruct s as [|d s]; [by exists "", c|].
  destruct IH as (a & e & E); [done|]. exists (String c a), e. by rewrite E.
Qed.

Lemma rstrip_keep s c : is_space c = false -> rstrip (s +:+ String c "") = s +:+ String c "".
Proof.
  intros H. induction s as [|d s IH].
  - change (rstrip (String c "") = String c ""). cbn. by rewrite H.
  - change (rstrip (String d (s +:+ String c "")) = String d (s +:+ String c "")).
    cbn [rstrip]. rewrite IH. by destruct s.
Qed.

Lemma cut_at_first x h t : contains_char x h = false -> cut_at x (h +:+ String x t) = Some (h, t).
Proof.
  induction h as [|c h IH].
  - intros _. change (cut_at x (String x t) = Some ("", t)). cbn. by rewrite bool_decide_eq_true_2.
  - cbn [contains_char]. intros [Hc Hh]%orb_false_iff.
    change (cut_at x (String c (h +:+ String x t)) = Some (String c h, t)).
    cbn [cut_at]. by rewrite Hc, IH.
Qed.

Lemma no_space_char s : no_space s = true -> contains_char " " s = false.
Proof.
  induction s as [|c s IH]; [done|]. rewrite no_space_cons. intros [Hc Hs]%andb_true_iff.
  cbn. rewrite IH by done. rewrite orb_false_r. apply bool_decide_eq_false_2. by intros ->.
Qed.

Lemma no_space_app s t : no_space (s +:+ t) = no_space s && no_space t.
Proof.
  induction s as [|c s IH]; [done|]. change (String c s +:+ t) with (String c (s +:+ t)).
  by rewrite !no_space_cons, IH, andb_assoc.
Qed.

(** The last character of a rendered command is not a space. *)
Definition ends_in_word (s : string) : Prop := exists a c, s = a +:+ String c "" /\ is_space c = false.

Lemma ends_in_word_app s t : ends_in_word t -> ends_in_word (s +:+ t).
Proof. intros (a & c & -> & H). exists (s +:+ a), c. by rewrite string_app_assoc. Qed.

Lemma ends_in_word_no_space s : s <> "" -> no_space s = true -> ends_in_word s.
Proof.
  intros Hs Hw. destruct (string_snoc s Hs) as (a & c & ->). exists a, c. split; [done|].
  rewrite no_space_app in Hw. apply andb_true_iff in Hw as [_ Hw]. cbn in Hw.
  rewrite andb_true_r in Hw. by apply negb_true_iff.
Qed.

Lemma render_value_ends v : v <> "" -> ends_in_word (render_value v).
Proof.
  intros Hv. unfold render_value. destruct (no_space v && _) eqn:E.
  - apply andb_true_iff in E as [E _]. by apply ends_in_word_no_space.
  - by exists (String double_quote v), double_quote.
Qed.

Lemma render_params_ends l : l <> [] -> Forall param_ok l -> ends_in_word (render_params l).
Proof.
  induction l as [|kv l IH]; [done|]. intros _ [Hkv Hl]%Forall_cons. cbn [render_params].
  apply ends_in_word_app. destruct l as [|kv' l].
  - cbn [render_params]. rewrite string_app_nil_r. unfold render_param. do 2 apply ends_in_word_app.
    apply render_value_ends. destruct Hkv as [_ Hv]. intros E. by rewrite E in Hv.
  - apply ends_in_word_app. by apply IH.
Qed.

Lemma strip_keep c s : is_space c = false -> ends_in_word (String c s) -> strip (String c s) = String c s.
Proof.
  intros Hc (a & d & E & Hd). unfold strip. cbn [lstrip]. rewrite Hc, E. by apply rstrip_keep.
Qed.

Lemma keyword_ok m : m ∈ method_keywords ->
  m <> "" /\ no_space m = true /\ contains_char "/" m = false /\ rstrip_char "/" m = m.
Proof.
  intros Hm. unfold method_keywords in Hm. repeat (apply elem_of_cons in Hm as [->|Hm]; [done|]).
  by apply elem_of_nil in Hm.
Qed.

Lemma split_path_render path m :
  m ∈ method_keywords -> split_path (path +:+ "/" +:+ m) = (path, m).
Proof.
  intros Hm. destruct (keyword_ok m Hm) as (Hne & Hs & Hslash & _).
  destruct (string_snoc m Hne) as (a & c & E). unfold split_path.
  assert (Hc : c <> "/"%char).
  { intros ->. rewrite E, contains_char_app in Hslash. apply orb_false_iff in Hslash as [_ H]. done. }
  replace (rstrip_char "/" (path +:+ "/" +:+ m)) with (path +:+ String "/" m).
  2:{ rewrite E at 2. rewrite <- (string_app_assoc "/" a), <- string_app_assoc, rstrip_char_keep by done.
      rewrite string_app_assoc, (string_app_assoc "/" a), <- E. done. }
  rewrite split_on_snoc by done. rewrite last_snoc, bool_decide_eq_true_2 by done.
  rewrite length_app, Nat.add_comm. cbn [length Nat.add Nat.pred].
  by rewrite take_app_length, join_split.
Qed.

Lemma first_word_equals kv l :
  param_ok kv -> exists w, contains_char "=" w = true /\
    (cut_at " " (render_param kv +:+ render_params l) = None /\ w = render_param kv +:+ render_params l \/
     exists rest, w <> "" /\ cut_at " " (render_param kv +:+ render_params l) = Some (w, rest)).
Proof.
  destruct kv as [k v]. intros [[[Hk%negb_true_iff%bool_decide_eq_false_1 Hs]%andb_true_iff He%negb_true_iff]%andb_true_iff Hv].
  cbn [fst snd] in *. set (t := render_value v +:+ render_params l).
  assert (E : render_param (k, v) +:+ render_params l = k +:+ String "=" t).
  { unfold render_param, t. cbn [fst snd]. by rewrite !string_app_assoc. }
  rewrite E. assert (Hin : forall w, contains_char "=" (k +:+ String "=" w) = true).
  { intros w. rewrite contains_char_app. cbn. by rewrite orb_true_r. }
  assert (Hcut : cut_at " " (k +:+ String "=" t) =
                 match cut_at " " t with Some (a, b) => Some (k +:+ String "=" a, b) | None => None end).
  { clear E Hin Hk. induction k as [|c k IH].
    - change (cut_at " " (String "=" t) = match cut_at " " t with Some (a, b) => Some (String "=" a, b) | None => None end).
      done.
    - rewrite no_space_cons in Hs. apply andb_true_iff in Hs as [Hc Hs].
      cbn in He. apply orb_false_iff in He as [_ He].
      change (String c k +:+ String "=" t) with (String c (k +:+ String "=" t)). cbn [cut_at].
      rewrite bool_decide_eq_false_2 by (intros ->; done). rewrite IH by done.
      by destruct (cut_at " " t) as [[a b]|]. }
  rewrite Hcut. destruct (cut_at " " t) as [[a b]|].
  - exists (k +:+ String "=" a). split; [done|]. right. exists b. split; [by destruct k|done].
  - exists (k +:+ String "=" t). split; [done|]. by left.
Qed.

Lemma split_item_render m kv l :
  param_ok kv ->
  split_item m (render_param kv +:+ render_params l) = (None, render_param kv +:+ render_params l).
Proof.
  intros Hkv. unfold split_item. destruct (bool_decide (m = "set")); [|done].
  destruct (first_word_equals kv l Hkv) as (w & Hw & [[-> ->]|(rest & Hne & ->)]).
  - by rewrite Hw.
  - destruct w as [|c w]; [done|]. by rewrite Hw.
Qed.

Lemma path_starts path : String.prefix "/" path = true -> exists p, path = String "/" p.
Proof.
  intros H%String.prefix_correct. destruct path as [|c p]; [done|].
  injection H as -> _. by exists p.
Qed.

Lemma render_command_strip path m l :
  String.prefix "/" path = true -> m ∈ method_keywords -> Forall param_ok l ->
  strip (render_command path m l) = render_command path m l.
Proof.
  intros [p ->]%path_starts Hm Hl. unfold render_command.
  change (String "/" p +:+ "/" +:+ m +:+ render_params l)
    with (String "/" (p +:+ "/" +:+ m +:+ render_params l)).
  apply strip_keep; [done|].
  change (String "/" (p +:+ "/" +:+ m +:+ render_params l))
    with ("/" +:+ p +:+ "/" +:+ m +:+ render_params l).
  do 3 apply ends_in_word_app. destruct l as [|kv l].
  - cbn [render_params]. rewrite string_app_nil_r.
    destruct (keyword_ok m Hm) as (Hne & Hs & _). by apply ends_in_word_no_space.
  - apply ends_in_word_app. by apply render_params_ends.
Qed.


