(* ===== verification/SetupCommands.v ===== *)
(** * The RouterOS commands that set up a router

    [src/app/modules/provisioning/commands.py]: the network plan, the filter of
    the WAN port, the commands of the basic configuration, of the hotspot and of
    the PPPoE server, each a text for the router's console with a description;
    and the script that [get_provisioning_script]
    ([src/app/api/v1/provisioning/workflow.py]) makes of them.

    The configuration is the JSON object of the session: a dictionary of
    strings, integers, booleans, nulls and lists of those. *)

From S2P Require Import Prelude PyString Numerics Models RouterCli.

(** ** Results that may be exceptions *)
Definition obind {A B} (m : outcome A) (k : A -> outcome B) : outcome B :=
  match m with Ok a => k a | Raise e => Raise e end.
Notation "x <-! m ;; k" := (obind m (fun x => k))
  (at level 90, m at next level, right associativity) : py_scope.

Fixpoint omapM {A B} (f : A -> outcome B) (l : list A) : outcome (list B) :=
  match l with
  | [] => Ok []
  | x :: l' => y <-! f x ;; ys <-! omapM f l' ;; Ok (y :: ys)
  end.

Definition quote (s : string) : string := String double_quote (s +:+ String double_quote "").

(** ** Values of the configuration *)

(** [repr(s)] of a printable string *)
Definition escape_in (q : ascii) (c : ascii) : string :=
  if bool_decide (c = "\"%char) || bool_decide (c = q) then String "\" (String c "") else String c "".

Definition str_repr (s : string) : string :=
  let q := if contains_char single_quote s && negb (contains_char double_quote s)
           then double_quote else single_quote in
  String q (String.concat "" (map (escape_in q) (String.list_ascii_of_string s)) +:+ String q "").

(** [repr(v)] and [str(v)], which an f-string writes *)
Fixpoint value_repr (v : ConfigValue) : string :=
  match v with
  | CStr s => str_repr s
  | CInt n => str_of_Z n
  | CBool b => if b then "True" else "False"
  | CNull => "None"
  | CList l => "[" +:+ join ", " (map value_repr l) +:+ "]"
  end.

Definition value_str (v : ConfigValue) : string :=
  match v with CStr s => s | _ => value_repr v end.

Definition value_truthy (v : ConfigValue) : bool :=
  match v with
  | CStr s => negb (bool_decide (s = ""))
  | CInt n => negb (n =? 0)
  | CBool b => b
  | CNull => false
  | CList l => match l with [] => false | _ => true end
  end.

(** [config.get(key, default)] and [config.get(a) or default] *)
Definition get_or (config : Configuration) (key : string) (default : ConfigValue) : ConfigValue :=
  match config !! key with Some v => v | None => default end.

Definition truthy_get (config : Configuration) (key : string) : option ConfigValue :=
  match config !! key with
  | Some v => if value_truthy v then Some v else None
  | None => None
  end.

Definition get_text (config : Configuration) (key default : string) : string :=
  value_str (get_or config key (CStr default)).

(** [int(v)] *)
Definition value_int (v : ConfigValue) : outcome Z :=
  match v with
  | CStr s => match py_int s with
              | Some n => Ok n
              | None => Raise (ValueError ("invalid literal for int() with base 10: " +:+ str_repr s))
              end
  | CInt n => Ok n
  | CBool b => Ok (if b then 1 else 0)
  | CNull | CList _ => Raise (TypeError "int() argument must be a string, a bytes-like object or a real number")
  end.

(** A method of strings called on the value *)
Definition as_text (method : string) (v : ConfigValue) : outcome string :=
  match v with
  | CStr s => Ok s
  | _ => Raise (AttributeError ("object has no attribute '" +:+ method +:+ "'"))
  end.

(** [sep.join(l)] and [list(v)] *)
Definition join_values (sep : string) (l : list ConfigValue) : outcome string :=
  parts <-! omapM (fun v => match v with
                            | CStr s => Ok s
                            | _ => Raise (TypeError "sequence item: expected str instance")
                            end) l ;;
  Ok (join sep parts).

Definition list_of (v : ConfigValue) : outcome (list ConfigValue) :=
  match v with
  | CList l => Ok l
  | CStr s => Ok (map (fun c => CStr (String c "")) (String.list_ascii_of_string s))
  | _ => Raise (TypeError "object is not iterable")
  end.

(** [s in l] for a string *)
Definition lists_text (s : string) (l : list ConfigValue) : bool :=
  existsb (fun v => match v with CStr s' => bool_decide (s' = s) | _ => false end) l.

(** ** [calculate_network_config] *)
Record NetworkPlan : Type := mkPlan {
  np_gateway : string;
  np_pool_start : string;
  np_pool_end : string;
  np_network : string
}.

Definition part (parts : list string) (i : nat) : outcome string :=
  match parts !! i with Some s => Ok s | None => Raise (IndexError "list index out of range") end.

Definition text_int (s : string) : outcome Z := value_int (CStr s).

Definition dotted (a b c d : string) : string := a +:+ "." +:+ b +:+ "." +:+ c +:+ "." +:+ d.

Definition calculate_network_config (subnet_address : string) (cidr : Z) : outcome NetworkPlan :=
  let parts := split_on "." subnet_address in
  let network := subnet_address +:+ "/" +:+ str_of_Z cidr in
  a <-! part parts 0 ;;
  b <-! part parts 1 ;;
  if cidr =? 16 then
    Ok (mkPlan (dotted a b "0" "1") (dotted a b "0" "2") (dotted a b "255" "254") network)
  else
    c <-! part parts 2 ;;
    let plan last := Ok (mkPlan (dotted a b c "1") (dotted a b c "2") (dotted a b last "254") network) in
    if cidr =? 22 then n <-! text_int c ;; plan (str_of_Z (n + 3))
    else if cidr =? 23 then n <-! text_int c ;; plan (str_of_Z (n + 1))
    else plan c.

(** ** [filter_wan_from_bridge_ports] *)
Definition same_port (p wan : string) : bool := bool_decide (strip (lower p) = strip (lower wan)).

Definition filter_wan_from_bridge_ports (ports : list ConfigValue) (wan : ConfigValue)
    : outcome (list string * bool) :=
  wan <-! as_text "lower" wan ;;
  names <-! omapM (as_text "lower") ports ;;
  Ok (filter (fun p => same_port p wan = false) names,
      existsb (fun p => same_port p wan) names).

(** ** Commands *)
Record Command : Type := mkCmd {
  c_type : string;
  c_command : string;
  c_description : string;
  c_critical : bool;
  c_rollback : option string
}.

Definition optional (command description : string) : Command :=
  mkCmd "api_call" command description false None.
Definition critical (command description : string) : Command :=
  mkCmd "api_call" command description true None.
Definition undoable (command description rollback : string) : Command :=
  mkCmd "api_call" command description true (Some rollback).

(** A console command whose failure is ignored *)
Definition guarded (body : string) : string := ":do { " +:+ body +:+ " } on-error={}".

Definition _cleanup_commands : list (string * string) :=
  [("Clearing active hotspot sessions", guarded "/ip/hotspot/active/remove [find]");
   ("Clearing stored hotspot MAC cookies", guarded "/ip/hotspot/cookie/remove [find]");
   ("Clearing tracked hotspot hosts", guarded "/ip/hotspot/host/remove [find]");
   ("Clearing previous hotspot server", guarded "/ip/hotspot/remove [find interface=codevertex-bridge]");
   ("Clearing previous hotspot profile", guarded "/ip/hotspot/profile/remove [find name=codevertex-hsprof]");
   ("Clearing previous hotspot ip-binding", guarded ("/ip/hotspot/ip-binding/remove [find comment~" +:+ quote "codevertex-gateway-bypass" +:+ "]"));
   ("Clearing previous PPPoE server", guarded ("/interface/pppoe-server/server/remove [find service-name~" +:+ quote "codevertex" +:+ "]"));
   ("Clearing previous PPP profile", guarded ("/ppp/profile/remove [find name~" +:+ quote "codevertex" +:+ "]"));
   ("Clearing previous PPP secrets", guarded ("/ppp/secret/remove [find comment~" +:+ quote "codevertex" +:+ "]"));
   ("Clearing previous walled-garden hosts", guarded ("/ip/hotspot/walled-garden/remove [find comment~" +:+ quote "codevertex-portal" +:+ "]"));
   ("Clearing previous walled-garden IPs", guarded ("/ip/hotspot/walled-garden/ip/remove [find comment~" +:+ quote "codevertex-portal" +:+ "]"));
   ("Clearing previous captive login.html", guarded ("/file/remove [find name=" +:+ quote "hotspot/login.html" +:+ "]"));
   ("Clearing previous captive alogin.html", guarded ("/file/remove [find name=" +:+ quote "hotspot/alogin.html" +:+ "]"));
   ("Clearing previous DHCP server", guarded "/ip/dhcp-server/remove [find name=codevertex-dhcp]");
   ("Clearing previous DHCP network", guarded ("/ip/dhcp-server/network/remove [find comment~" +:+ quote "codevertex-dhcp-network" +:+ "]"));
   ("Clearing previous IP pool", guarded "/ip/pool/remove [find name=codevertex-pool]");
   ("Clearing previous captive DNS entries", guarded ("/ip/dns/static/remove [find comment~" +:+ quote "codevertex-captive-portal-detection" +:+ "]"));
   ("Clearing previous DNS-redirect NAT", guarded ("/ip/firewall/nat/remove [find comment~" +:+ quote "codevertex-dns-redirect" +:+ "]"));
   ("Clearing previous masquerade NAT", guarded ("/ip/firewall/nat/remove [find comment~" +:+ quote "codevertex-masquerade" +:+ "]"));
   ("Clearing previous DoH-block filter", guarded ("/ip/firewall/filter/remove [find comment~" +:+ quote "codevertex-block-doh" +:+ "]"));
   ("Clearing previous anti-sharing rules", guarded ("/ip/firewall/mangle/remove [find comment~" +:+ quote "codevertex-anti-sharing" +:+ "]"));
   ("Clearing previous anti-sharing drop", guarded ("/ip/firewall/filter/remove [find comment~" +:+ quote "codevertex-anti-sharing" +:+ "]"));
   ("Clearing previous bridge IP", guarded "/ip/address/remove [find interface=codevertex-bridge]");
   ("Clearing previous bridge", guarded "/interface/bridge/remove [find name=codevertex-bridge]")].

(** ** The basic configuration *)

(** What the generators read first: the subnet, the prefix and the plan. *)
Definition network_of (config : Configuration) : outcome (string * Z * NetworkPlan) :=
  cidr <-! value_int (get_or config "cidr" (CInt 16)) ;;
  subnet <-! as_text "split" (get_or config "subnet_address" (CStr "172.31.0.0")) ;;
  plan <-! calculate_network_config subnet cidr ;;
  Ok (subnet, cidr, plan).

Definition default_ntp_servers : ConfigValue :=
  CList [CStr "time.cloudflare.com"; CStr "time.google.com"].

Definition identity_commands (config : Configuration) : list Command :=
  match (match truthy_get config "identity" with
         | Some v => Some v
         | None => truthy_get config "router_identity"
         end) with
  | Some v => [optional ("/system/identity/set name=" +:+ value_str v) "Setting system identity"]
  | None => []
  end.

Definition ntp_commands (config : Configuration) (v7 : bool) : outcome (list Command) :=
  match get_or config "ntp_servers" default_ntp_servers with
  | CList (first :: others) =>
      if v7 then
        servers <-! join_values "," (first :: others) ;;
        Ok [optional ("/system/ntp/client/set enabled=yes servers=" +:+ servers)
              "Configuring NTP time synchronization (v7)"]
      else
        let secondary := match others with v :: _ => value_str v | [] => "time.google.com" end in
        Ok [optional ("/system/ntp/client/set enabled=yes primary-ntp=" +:+ value_str first
                      +:+ " secondary-ntp=" +:+ secondary)
              "Configuring NTP time synchronization (v6)"]
  | _ => Ok []
  end.

Definition clock_command (config : Configuration) (v7 : bool) : Command :=
  let timezone := match truthy_get config "timezone" with Some v => value_str v | None => "Africa/Nairobi" end in
  if v7 then optional ("/system/clock/set time-zone-name=" +:+ timezone)
               ("Setting timezone to " +:+ timezone +:+ " (v7)")
  else optional "/system/clock/set time-zone-autodetect=yes" "Enabling timezone auto-detect (v6)".

Definition bridge_command (bridge : string) : Command :=
  undoable ("/interface/bridge/add name=" +:+ bridge) ("Ensuring bridge " +:+ bridge +:+ " exists")
    ("/interface/bridge/remove [find name=" +:+ bridge +:+ "]").

Definition requested_ports (config : Configuration) : list ConfigValue :=
  match get_or config "bridge_ports" (CList []) with
  | CList (p :: ps) => p :: ps
  | _ => [get_or config "interface" (CStr "ether2")]
  end.

Definition port_remove (port : string) : string :=
  "/interface/bridge/port/remove [find interface=" +:+ port +:+ "]".

Definition port_command (bridge port : string) : Command :=
  undoable
    (guarded (port_remove port) +:+ "; /interface/bridge/port/add interface=" +:+ port
     +:+ " bridge=" +:+ bridge +:+ " hw=no")
    ("Adding port " +:+ port +:+ " to bridge (hw=no: HW-offload bypasses the CPU, so the hotspot can't register clients as hosts → no captive intercept)")
    (port_remove port).

Definition wan_warning (wan : string) : Command :=
  optional "/system/identity/print"
    ("[WARN] WAN interface '" +:+ wan +:+ "' was excluded from bridge ports to prevent network lockout").

(** The commands after the ports: addresses, pool, DNS, DHCP, NAT. *)
Definition address_command (gateway cidr bridge : string) : Command :=
  let address := gateway +:+ "/" +:+ cidr in
  undoable ("/ip/address/add address=" +:+ address +:+ " interface=" +:+ bridge)
    ("Assigning gateway IP " +:+ address +:+ " to bridge")
    ("/ip/address/remove [find address=" +:+ address +:+ "]").

Definition pool_command (pool first_ip last_ip : string) : Command :=
  undoable ("/ip/pool/add name=" +:+ pool +:+ " ranges=" +:+ first_ip +:+ "-" +:+ last_ip)
    ("Creating IP pool " +:+ pool) ("/ip/pool/remove [find name=" +:+ pool +:+ "]").

Definition dns_command (config : Configuration) : outcome Command :=
  servers <-! match get_or config "dns_servers" (CList [CStr "8.8.8.8"; CStr "8.8.4.4"]) with
              | CList l => join_values "," l
              | v => Ok (value_str v)
              end ;;
  Ok (optional ("/ip/dns/set servers=" +:+ servers +:+ " allow-remote-requests=yes")
        "Configuring DNS servers").

Definition dhcp_server_command (server bridge pool : string) : Command :=
  undoable ("/ip/dhcp-server/add name=" +:+ server +:+ " interface=" +:+ bridge
            +:+ " address-pool=" +:+ pool +:+ " disabled=no")
    ("Creating DHCP server on " +:+ bridge) ("/ip/dhcp-server/remove [find name=" +:+ server +:+ "]").

Definition dhcp_network_command (subnet cidr gateway : string) : Command :=
  critical ("/ip/dhcp-server/network/add address=" +:+ subnet +:+ "/" +:+ cidr +:+ " gateway=" +:+ gateway
            +:+ " dns-server=" +:+ gateway +:+ " comment=codevertex-dhcp-network")
    "Configuring DHCP network parameters".

Definition masquerade_command (wan : string) : Command :=
  critical ("/ip/firewall/nat/add chain=srcnat action=masquerade out-interface=" +:+ wan
            +:+ " comment=codevertex-masquerade")
    ("Enabling NAT masquerade on " +:+ wan).

Definition generate_configuration_commands (config : Configuration) (routeros_version : option string)
    : outcome (list Command) :=
  net <-! network_of config ;;
  let '(subnet, cidr, plan) := net in
  let gateway := get_text config "gateway" (np_gateway plan) in
  let pool_start := get_text config "ip_pool_start" (np_pool_start plan) in
  let pool_end := get_text config "ip_pool_end" (np_pool_end plan) in
  let pool := get_text config "pool_name" "codevertex-pool" in
  let bridge := get_text config "bridge_name" "codevertex-bridge" in
  let wan := get_or config "wan_interface" (CStr "ether1") in
  let v7 := is_v7_or_later routeros_version in
  ntp <-! ntp_commands config v7 ;;
  ports <-! filter_wan_from_bridge_ports (requested_ports config) wan ;;
  dns <-! dns_command config ;;
  Ok (identity_commands config ++ ntp ++ [clock_command config v7]
      ++ map (fun dc => optional dc.2 dc.1) _cleanup_commands
      ++ [bridge_command bridge]
      ++ (if ports.2 then [wan_warning (value_str wan)] else [])
      ++ map (port_command bridge) ports.1
      ++ [address_command gateway (str_of_Z cidr) bridge;
          pool_command pool pool_start pool_end;
          dns;
          dhcp_server_command (get_text config "dhcp_server_name" "codevertex-dhcp") bridge pool;
          dhcp_network_command subnet (str_of_Z cidr) gateway;
          masquerade_command (value_str wan)]).

(** ** The hotspot *)

(** The texts found by [re.search] in a URL: the host after [http://] or
    [https://], and its leading digits and dots. *)
Definition after_scheme (s : string) : option string :=
  let after p := if String.prefix p s then Some (String.substring (String.length p) (String.length s) s) else None in
  match after "https://" with Some t => Some t | None => after "http://" end.

Fixpoint search_url (stop : ascii -> bool) (s : string) : option string :=
  let here := match after_scheme s with
              | Some t => match (span (fun c => negb (stop c)) t).1 with "" => None | h => Some h end
              | None => None
              end in
  match here, s with
  | Some h, _ => Some h
  | None, String _ s' => search_url stop s'
  | None, EmptyString => None
  end.

Definition is_ip_char (c : ascii) : bool :=
  bool_decide (is_Some (digit_value c)) || bool_decide (c = "."%char).

Definition url_host : string -> option string :=
  search_url (fun c => bool_decide (c = ":"%char) || bool_decide (c = "/"%char)).
Definition url_ip : string -> option string := search_url (fun c => negb (is_ip_char c)).

Definition newline : string := String "010" "".

(** [re.match(r'^[0-9.]+$', host)]: a final newline is allowed. *)
Definition only_ip_chars (host : string) : bool :=
  match span is_ip_char host with
  | (EmptyString, _) => false
  | (_, rest) => bool_decide (rest = "") || bool_decide (rest = newline)
  end.

(** A URL of the configuration, and the error of [re.search] on other values *)
Definition url_text (v : ConfigValue) : outcome string :=
  match v with CStr s => Ok s | _ => Raise (TypeError "expected string or bytes-like object") end.

(** The hosts let through by name and those also pinned by address. *)
Definition garden := (list ConfigValue * list string)%type.

Definition add_host (host : string) (g : garden) : garden :=
  let '(hosts, cloud) := g in
  (if lists_text host hosts then hosts else hosts ++ [CStr host],
   if only_ip_chars host || bool_decide (host ∈ cloud) then cloud else cloud ++ [host]).

Definition add_url_host (v : option ConfigValue) (g : garden) : outcome garden :=
  match v with
  | None => Ok g
  | Some v => url <-! url_text v ;;
              Ok (match url_host url with Some host => add_host host g | None => g end)
  end.

Definition payment_hosts : list string :=
  ["*.paystack.com"; "*.paystack.co"; "*.paystackcdn.com"; "*.flutterwave.com"; "*.mpesa.in";
   "*.safaricom.co.ke"].

(** [settings] of [app/core/config.py] *)
Class SetupSettings := {
  backend_url : option string;
  frontend_url : option string;
  settings_treasury_status_host : string;
  settings_treasury_pay_page_url : string
}.

Definition or_text (a b : string) : string := if bool_decide (a = "") then b else a.

Section Hotspot.
Context {settings : SetupSettings}.

Definition default_treasury_host : string :=
  or_text settings_treasury_status_host "booksapi.codevertexafrica.com".
Definition default_treasury_ui_host : string :=
  match url_host settings_treasury_pay_page_url with
  | Some h => h
  | None => "books.codevertexafrica.com"
  end.

(** [(config.get(key) or default or "").strip()] *)
Definition host_setting (config : Configuration) (key default : string) : outcome string :=
  match truthy_get config key with
  | Some v => s <-! as_text "strip" v ;; Ok (strip s)
  | None => Ok (strip default)
  end.

Definition captive_cloud_hosts (status ui : string) : list string :=
  (if bool_decide (status = "") then [] else [status])
  ++ (if bool_decide (ui = "") || bool_decide (ui = status) then [] else [ui])
  ++ ["api.qrserver.com"; "public-files-paystack-prod.s3.eu-west-1.amazonaws.com";
      "cdnjs.cloudflare.com"; "s3-eu-west-1.amazonaws.com"].

(** The walled garden: the configured hosts, the portal and the API, the payment
    gateways, and the hosts of the payment page. *)
Definition walled_garden (config : Configuration) : outcome garden :=
  hosts <-! list_of (get_or config "walled_garden_hosts" (CList [])) ;;
  g <-! add_url_host (truthy_get config "billing_server_url") (hosts, []) ;;
  g <-! add_url_host (truthy_get config "api_server_url") g ;;
  status <-! host_setting config "treasury_status_host" default_treasury_host ;;
  ui <-! host_setting config "treasury_ui_host" default_treasury_ui_host ;;
  Ok (foldl (fun g h => add_host h g) (g.1 ++ map CStr payment_hosts, g.2)
        (captive_cloud_hosts status ui)).

(** The addresses let through: the configured ones and the portal's when its
    URL names one. *)
Definition walled_garden_ips (config : Configuration) : outcome (list ConfigValue) :=
  match get_or config "walled_garden_ips" (CList []), truthy_get config "billing_server_url" with
  | v, Some url =>
      url <-! url_text url ;;
      match url_ip url, v with
      | None, v => list_of v
      | Some ip, CList l => Ok (if lists_text ip l then l else l ++ [CStr ip])
      | Some ip, CStr s => if contains_text ip s then list_of v
                           else Raise (AttributeError "'str' object has no attribute 'append'")
      | Some _, _ => Raise (TypeError "argument is not iterable")
      end
  | v, None => list_of v
  end.

Definition doh_providers : list (string * string) :=
  [("8.8.8.8", "google-dns-1"); ("8.8.4.4", "google-dns-2"); ("1.1.1.1", "cloudflare-dns-1");
   ("1.0.0.1", "cloudflare-dns-2"); ("9.9.9.9", "quad9-dns"); ("149.112.112.112", "quad9-dns-2");
   ("208.67.222.222", "opendns-1"); ("208.67.220.220", "opendns-2")].

(** Certificates, profile and server. *)
Definition certificate_commands (ca cert dns_name : string) : list Command :=
  [optional ("/certificate/add name=" +:+ ca +:+ " common-name=codevertex-ca key-usage=key-cert-sign,crl-sign key-size=2048 days-valid=3650")
     "Creating CA certificate for hotspot SSL";
   optional ("/certificate/sign [find name=" +:+ ca +:+ "]") "Self-signing CA certificate";
   optional ("/certificate/add name=" +:+ cert +:+ " common-name=" +:+ dns_name +:+ " key-size=2048 days-valid=3650")
     "Creating SSL certificate for hotspot captive portal";
   optional ("/certificate/sign [find name=" +:+ cert +:+ "] ca=" +:+ ca)
     "Signing hotspot certificate with CA"].

Definition profile_commands (profile gateway dns_name : string) : list Command :=
  [critical ("/ip/hotspot/profile/add name=" +:+ profile +:+ " hotspot-address=" +:+ gateway
             +:+ " dns-name=" +:+ dns_name
             +:+ " use-radius=no login-by=http-pap,http-chap,mac-cookie http-cookie-lifetime=1d split-user-domain=no")
     ("Creating hotspot profile " +:+ profile);
   optional (guarded ("/ip/hotspot/profile/set [find name=" +:+ profile +:+ "] ssl-certificate=none"))
     "Ensuring hotspot profile has NO ssl-certificate (HTTP-only captive)"].

Definition hotspot_command (name bridge pool profile : string) : Command :=
  critical ("/ip/hotspot/add name=" +:+ name +:+ " interface=" +:+ bridge +:+ " address-pool=" +:+ pool
            +:+ " profile=" +:+ profile
            +:+ " addresses-per-mac=1 idle-timeout=5m keepalive-timeout=none disabled=no")
    ("Creating hotspot " +:+ name +:+ " on " +:+ bridge).

Definition fetch_page (url : option ConfigValue) (page description : string) : list Command :=
  match url with
  | Some v => [optional (guarded ("/tool/fetch url=" +:+ quote (value_str v) +:+ " dst-path=hotspot/"
                                  +:+ page +:+ " check-certificate=no")) description]
  | None => []
  end.

Definition portal_page_commands (config : Configuration) (profile gateway : string) : list Command :=
  fetch_page (truthy_get config "login_template_url") "login.html"
    "Installing captive-portal login.html (external-redirect page)"
  ++ fetch_page (truthy_get config "alogin_template_url") "alogin.html"
       "Installing captive-portal alogin.html (post-auth page)"
  ++ [optional (guarded ("/ip/hotspot/profile/set [find name=" +:+ profile +:+ "] html-directory=hotspot"))
        "Activating captive-portal templates (html-directory=hotspot)";
      optional ("/ip/hotspot/ip-binding/add address=" +:+ gateway +:+ " type=bypassed comment=codevertex-gateway-bypass")
        ("Bypassing gateway " +:+ gateway +:+ " from hotspot authentication")].

(** DNS forced through the router. *)
Definition dns_redirect_command (bridge protocol name : string) : Command :=
  optional ("/ip/firewall/nat/add chain=dstnat action=redirect to-ports=53 protocol=" +:+ protocol
            +:+ " dst-port=53 in-interface=" +:+ bridge +:+ " comment=codevertex-dns-redirect")
    ("DNS redirect NAT rule (" +:+ name +:+ ") to force DNS through router").

Definition doh_commands (bridge : string) : list Command :=
  map (fun '(ip, comment) =>
         optional ("/ip/firewall/address-list/add list=codevertex-doh-providers address=" +:+ ip
                   +:+ " comment=" +:+ comment)
           ("Adding DoH provider " +:+ ip +:+ " (" +:+ comment +:+ ") to address list"))
    doh_providers
  ++ [optional ("/ip/firewall/filter/add chain=forward action=reject reject-with=icmp-network-unreachable dst-address-list=codevertex-doh-providers protocol=tcp dst-port=443 in-interface="
                +:+ bridge +:+ " comment=codevertex-block-doh")
        "Blocking DNS-over-HTTPS to prevent captive portal bypass"].

Definition allow_host (v : ConfigValue) : Command :=
  optional ("/ip/hotspot/walled-garden/add dst-host=" +:+ quote (value_str v) +:+ " action=allow comment=codevertex-portal")
    ("Allow unauthenticated access to " +:+ value_str v).

Definition allow_ip (v : ConfigValue) : Command :=
  optional ("/ip/hotspot/walled-garden/ip/add dst-address=" +:+ value_str v +:+ " action=accept comment=codevertex-portal")
    ("Allow unauthenticated access to IP " +:+ value_str v).

Definition pin_host (host : string) : Command :=
  optional (guarded ("/ip/hotspot/walled-garden/ip/add dst-address=[:resolve " +:+ quote host
                     +:+ "] action=accept comment=codevertex-portal-ip"))
    ("Pin cloud host " +:+ host +:+ " to walled-garden by resolved IP (unauth HTTPS passthrough)").

Definition anti_sharing_commands (config : Configuration) (name : string) : list Command :=
  let flag key := bool_decide (is_Some (truthy_get config key)) in
  if flag "enable_anti_sharing" || flag "enableAntiSharing" || flag "enable_hotspot_anti_sharing" then
    [optional ("/ip/hotspot/set " +:+ name +:+ " idle-timeout=5m")
       "Configure hotspot idle timeout for anti-sharing";
     optional "/ip/firewall/mangle/add chain=forward action=change-ttl new-ttl=set:64 passthrough=yes ttl=equal:65 protocol=tcp dst-port=80,443,53 comment=codevertex-anti-sharing"
       "Anti-sharing TTL rule for TCP (HTTP/HTTPS/DNS)";
     optional "/ip/firewall/mangle/add chain=forward action=change-ttl new-ttl=set:64 passthrough=yes ttl=equal:65 protocol=udp dst-port=53,67,68 comment=codevertex-anti-sharing"
       "Anti-sharing TTL rule for UDP (DNS/DHCP)";
     optional "/ip/firewall/filter/add chain=forward action=drop ttl=equal:1 comment=codevertex-anti-sharing"
       "Block suspicious low-TTL packets"]
  else [].

(** The portal URL is computed and dropped: only the failure of [rstrip] on a
    value that is no string can be seen. *)
Definition portal_url (config : Configuration) : outcome string :=
  match truthy_get config "captive_portal_url", truthy_get config "billing_server_url" with
  | Some v, _ => Ok (value_str v)
  | None, Some server =>
      s <-! as_text "rstrip" server ;;
      Ok (rstrip_char "/" s +:+ "/buy/" +:+ get_text config "organization_slug" "default")
  | None, None => Ok ""
  end.

Definition generate_hotspot_commands (config : Configuration) : outcome (list Command) :=
  net <-! network_of config ;;
  let gateway := get_text config "gateway" (np_gateway net.2) in
  let name := get_text config "hotspot_name" "codevertex-hotspot" in
  let bridge := get_text config "bridge_name" "codevertex-bridge" in
  let pool := get_text config "pool_name" "codevertex-pool" in
  let profile := get_text config "hotspot_profile" "codevertex-hsprof" in
  let dns_name := get_text config "hotspot_dns_name" "hotspot.local" in
  _ <-! portal_url config ;;
  g <-! walled_garden config ;;
  ips <-! walled_garden_ips config ;;
  Ok ([optional "/ip/service/set ftp disabled=no" "Enabling FTP service for template upload"]
      ++ certificate_commands (get_text config "hotspot_ca_cert_name" "codevertex-ca")
           (get_text config "hotspot_cert_name" "codevertex-hotspot-cert") dns_name
      ++ profile_commands profile gateway dns_name
      ++ [hotspot_command name bridge pool profile]
      ++ portal_page_commands config profile gateway
      ++ [dns_redirect_command bridge "udp" "UDP"; dns_redirect_command bridge "tcp" "TCP"]
      ++ doh_commands bridge
      ++ map allow_host g.1 ++ map allow_ip ips ++ map pin_host g.2
      ++ anti_sharing_commands config name).

(** ** PPPoE *)
Definition generate_pppoe_commands (config : Configuration) : outcome (list Command) :=
  net <-! network_of config ;;
  let service := get_text config "service_name" "codevertex-pppoe" in
  let bridge := get_text config "bridge_name" "codevertex-bridge" in
  let profile := get_text config "ppp_profile_name" "codevertex-pppoe-profile" in
  let pool := get_text config "pool_name" "codevertex-pool" in
  let local := get_text config "gateway" (np_gateway net.2) in
  Ok [critical ("/ppp/profile/add name=" +:+ profile +:+ " local-address=" +:+ local
                +:+ " remote-address=" +:+ pool +:+ " dns-server=" +:+ local)
        ("Creating PPP profile " +:+ profile);
      critical ("/interface/pppoe-server/server/add service-name=" +:+ service +:+ " interface=" +:+ bridge
                +:+ " default-profile=" +:+ profile +:+ " disabled=no")
        ("Enabling PPPoE server " +:+ service +:+ " on " +:+ bridge)].
End Hotspot.

(** The commands of the service, as the workflow and as the script choose them:
    the workflow takes every other type for both services. *)
Definition both_services {set : SetupSettings} (config : Configuration) : outcome (list Command) :=
  hotspot <-! generate_hotspot_commands config ;;
  pppoe <-! generate_pppoe_commands config ;;
  Ok (hotspot ++ pppoe).

Definition workflow_commands {set : SetupSettings} (t : option ServiceType) (config : Configuration)
    : outcome (list Command) :=
  match t with
  | Some ST_HOTSPOT => generate_hotspot_commands config
  | Some PPPOE_SERVER => generate_pppoe_commands config
  | _ => both_services config
  end.

Definition script_service_commands {set : SetupSettings} (t : option ServiceType) (config : Configuration)
    : outcome (list Command) :=
  match t with
  | Some ST_HOTSPOT => generate_hotspot_commands config
  | Some PPPOE_SERVER => generate_pppoe_commands config
  | Some ST_BOTH => both_services config
  | _ => Ok []
  end.

(** All commands of a setup. *)
Definition setup_commands {set : SetupSettings} (t : option ServiceType) (config : Configuration)
    (version : option string) : outcome (list Command) :=
  basic <-! generate_configuration_commands config version ;;
  service <-! script_service_commands t config ;;
  Ok (basic ++ service).

(** ** The script *)

Definition put (s : string) : string := ":put " +:+ quote s.
Definition log_line (level s : string) : string := ":log " +:+ level +:+ " " +:+ quote s.

(** A command of the script reports its success; a critical one aborts the
    script when it fails. *)
Definition script_line (c : Command) : string :=
  let d := c_description c in
  ":do { " +:+ c_command c +:+ "; " +:+ put ("[OK] " +:+ d) +:+ "; " +:+ log_line "info" ("[PROVISION] " +:+ d)
  +:+ " } on-error={ "
  +:+ (if c_critical c then
         put ("[FAIL] " +:+ d) +:+ "; " +:+ log_line "error" ("[PROVISION] CRITICAL FAILURE: " +:+ d)
         +:+ "; :error " +:+ quote ("Provisioning aborted: " +:+ d)
       else
         put ("[WARN] " +:+ d +:+ " (non-critical)") +:+ "; "
         +:+ log_line "warning" ("[PROVISION] " +:+ d +:+ " failed (non-critical)"))
  +:+ " }".

Fixpoint script_commands (index : Z) (total : string) (l : list Command) : list string :=
  match l with
  | [] => []
  | c :: l' =>
      (if bool_decide (c_command c = "") then []
       else ["# [" +:+ str_of_Z index +:+ "/" +:+ total +:+ "] " +:+ c_description c; script_line c; ""])
      ++ script_commands (index + 1) total l'
  end.

Definition rule : string := put "=========================================".

Definition script_header (session_id : string) (version : option string) : list string :=
  let version := match version with Some "" | None => "auto-detect" | Some v => v end in
  ["# Codevertex ISP Billing - Provisioning Script"; "# Generated for session: " +:+ session_id;
   "# RouterOS version: " +:+ version; "# All operations are logged to /log and displayed in terminal";
   ""; put ""; rule; put "Codevertex Provisioning - Starting"; rule; ""].

Definition script_footer (base session_id token : string) : list string :=
  let url := base +:+ "/api/v1/provisioning/provision-script/" +:+ session_id +:+ "/complete?token="
             +:+ token +:+ "&status=completed" in
  let mode := if String.prefix "https://" url then "https" else "http" in
  [put ""; rule; put "Provisioning completed successfully"; rule; "";
   "# Notify backend of completion"; ":do {";
   "  /tool/fetch mode=" +:+ mode +:+ " url=" +:+ quote url +:+ " http-method=post dst-path=provision-complete.result";
   "  " +:+ put "[OK] Backend notified of provisioning completion";
   "  " +:+ log_line "info" "[PROVISION] Backend notified of completion";
   "} on-error={ " +:+ put "[WARN] Failed to notify backend (non-critical)" +:+ "; "
   +:+ log_line "warning" "[PROVISION] Failed to notify backend" +:+ " }"].

Definition render_script (base session_id token : string) (version : option string) (l : list Command) : string :=
  join newline (script_header session_id version
                ++ script_commands 1 (str_of_Z (Z.of_nat (length l))) l
                ++ script_footer base session_id token) +:+ newline.
