(* ===== verification/SetupCommandsFacts.v ===== *)
(** * What the setup commands guarantee

    The WAN port is never put into the bridge and every other requested port is;
    the network plan of an aligned subnet is its CIDR arithmetic. *)

From S2P Require Import Prelude PyString Numerics Models RouterCli SetupCommands WireGuard.

(** ** The ports of the bridge *)

(** The commands that put a port into a bridge, by how they begin. *)
Definition adds_port (c : Command) : bool :=
  String.prefix ":do { /interface/bridge/port/remove [find interface=" (c_command c).

Lemma filter_none {A} (p : A -> bool) l :
  Forall (fun x => p x = false) l -> filter (fun x => p x = true) l = [].
Proof.
  induction 1 as [|x l Hx _ IH]; [done|]. rewrite filter_cons_False; [done|by rewrite Hx].
Qed.

Lemma filter_all {A} (p : A -> bool) l :
  Forall (fun x => p x = true) l -> filter (fun x => p x = true) l = l.
Proof.
  induction 1 as [|x l Hx _ IH]; [done|]. rewrite filter_cons_True by done. by rewrite IH.
Qed.

Lemma port_command_adds bridge p : adds_port (port_command bridge p) = true.
Proof.
  unfold adds_port, port_command, guarded, port_remove. cbn [c_command undoable].
  rewrite !string_app_assoc. apply (prefix_app ":do { /interface/bridge/port/remove [find interface=").
Qed.

Lemma omapM_texts (method : string) l names :
  omapM (as_text method) l = Ok names -> l = map CStr names.
Proof.
  revert names. induction l as [|v l IH]; intros names; cbn [omapM].
  - by intros [= <-].
  - destruct v; cbn; try done. destruct (omapM (as_text method) l) as [ns|e]; [|done].
    cbn. intros [= <-]. cbn. by rewrite (IH ns).
Qed.

Lemma identity_no_port config : Forall (fun c => adds_port c = false) (identity_commands config).
Proof. unfold identity_commands. case_match; repeat constructor. Qed.

Lemma ntp_no_port config v7 l :
  ntp_commands config v7 = Ok l -> Forall (fun c => adds_port c = false) l.
Proof.
  unfold ntp_commands. destruct (get_or config "ntp_servers" default_ntp_servers) as [| | | |[|v vs]];
    try (intros [= <-]; by constructor).
  destruct v7.
  - destruct (join_values "," (v :: vs)) as [s|e]; [|done]. intros [= <-]. by repeat constructor.
  - intros [= <-]. by repeat constructor.
Qed.

Lemma cleanup_no_port :
  Forall (fun c => adds_port c = false) (map (fun dc => optional dc.2 dc.1) _cleanup_commands).
Proof. apply Forall_forall. intros c Hc. revert c Hc. apply (proj1 (Forall_forall _ _)). by repeat constructor. Qed.

(** A result of a sequence of fallible steps, one step at a time. *)
Ltac outcome_inv :=
  repeat match goal with
         | H : obind ?m _ = Ok _ |- _ =>
             let E := fresh "E" in
             destruct m as [?|?] eqn:E; cbn [obind] in H; [|discriminate H]
         | H : Ok _ = Ok _ |- _ => injection H as <-
         end.

Lemma dns_no_port config c : dns_command config = Ok c -> adds_port c = false.
Proof. unfold dns_command. intros H. outcome_inv. done. Qed.

Lemma clock_no_port config v7 : Forall (fun c => adds_port c = false) [clock_command config v7].
Proof. destruct v7; by repeat constructor. Qed.

Lemma warning_no_port (b : bool) wan :
  Forall (fun c => adds_port c = false) (if b then [wan_warning wan] else []).
Proof. destruct b; by repeat constructor. Qed.

(** The parts of the basic configuration. *)
Definition fixed_commands (config : Configuration) (subnet : string) (cidr : Z) (plan : NetworkPlan)
    (wan : ConfigValue) (dns : Command) : list Command :=
  let gateway := get_text config "gateway" (np_gateway plan) in
  let bridge := get_text config "bridge_name" "codevertex-bridge" in
  let pool := get_text config "pool_name" "codevertex-pool" in
  [address_command gateway (str_of_Z cidr) bridge;
   pool_command pool (get_text config "ip_pool_start" (np_pool_start plan))
     (get_text config "ip_pool_end" (np_pool_end plan));
   dns;
   dhcp_server_command (get_text config "dhcp_server_name" "codevertex-dhcp") bridge pool;
   dhcp_network_command subnet (str_of_Z cidr) gateway;
   masquerade_command (value_str wan)].

Lemma configuration_shape config version l :
  generate_configuration_commands config version = Ok l ->
  exists subnet cidr plan ntp wan ports dns,
    network_of config = Ok (subnet, cidr, plan) /\
    ntp_commands config (is_v7_or_later version) = Ok ntp /\
    get_or config "wan_interface" (CStr "ether1") = CStr wan /\
    requested_ports config = map CStr ports /\
    dns_command config = Ok dns /\
    let bridge := get_text config "bridge_name" "codevertex-bridge" in
    l = identity_commands config ++ ntp ++ [clock_command config (is_v7_or_later version)]
        ++ map (fun dc => optional dc.2 dc.1) _cleanup_commands ++ [bridge_command bridge]
        ++ (if existsb (fun p => same_port p wan) ports then [wan_warning wan] else [])
        ++ map (port_command bridge) (filter (fun p => same_port p wan = false) ports)
        ++ fixed_commands config subnet cidr plan (CStr wan) dns.
Proof.
  unfold generate_configuration_commands. intros H.
  destruct (network_of config) as [[[subnet cidr] plan]|e] eqn:En; [|discriminate H]. cbn [obind] in H.
  destruct (ntp_commands config (is_v7_or_later version)) as [ntp|e] eqn:Entp; [|discriminate H]. cbn [obind] in H.
  unfold filter_wan_from_bridge_ports in H.
  destruct (get_or config "wan_interface" (CStr "ether1")) as [wan| | | |] eqn:Ew; try discriminate H.
  cbn [as_text obind] in H.
  destruct (omapM (as_text "lower") (requested_ports config)) as [ports|e] eqn:Ep; [|discriminate H].
  cbn [obind] in H. destruct (dns_command config) as [dns|e] eqn:Ed; [|discriminate H].
  cbn [obind fst snd] in H. injection H as <-.
  exists subnet, cidr, plan, ntp, wan, ports, dns. repeat (split; [by eauto using omapM_texts|]). done.
Qed.

Section Service.
Context {settings : SetupSettings}.

Lemma service_no_port t config l :
  script_service_commands t config = Ok l -> Forall (fun c => adds_port c = false) l.
Proof.
  assert (Hh : forall l, generate_hotspot_commands config = Ok l -> Forall (fun c => adds_port c = false) l).
  { intros l'. unfold generate_hotspot_commands. intros H. outcome_inv.
    repeat first [ apply Forall_app; split | apply Forall_cons; split; [done|] | apply Forall_nil; done ].
    all: try (unfold portal_page_commands, fetch_page, anti_sharing_commands, doh_commands; repeat case_match;
              repeat first [ apply Forall_app; split | apply Forall_cons; split; [done|] | apply Forall_nil; done ]).
    all: apply Forall_map, Forall_true; done. }
  assert (Hp : forall l, generate_pppoe_commands config = Ok l -> Forall (fun c => adds_port c = false) l).
  { intros l'. unfold generate_pppoe_commands. intros H. outcome_inv. by repeat constructor. }
  unfold script_service_commands, both_services.
  destruct t as [[]|]; intros H; outcome_inv; eauto; try by constructor.
  apply Forall_app. eauto.
Qed.

(** C17. Whatever the configuration and the service, the commands that put a port
    into a bridge are those of the requested ports other than the WAN port, once
    each and in their order: the WAN port is compared without regard to case and
    to spaces around it, and no other command of the setup adds a port. *)
Theorem wan_never_bridged t config version l :
  setup_commands t config version = Ok l ->
  exists wan ports,
    get_or config "wan_interface" (CStr "ether1") = CStr wan /\
    requested_ports config = map CStr ports /\
    filter (fun c => adds_port c = true) l =
      map (port_command (get_text config "bridge_name" "codevertex-bridge"))
        (filter (fun p => same_port p wan = false) ports).
Proof.
  unfold setup_commands. intros H. outcome_inv.
  destruct (configuration_shape _ _ _ E) as (subnet & cidr & plan & ntp & wan & ports & dns & _ & Hn & Hw & Hp & Hd & ->).
  exists wan, ports. split; [done|]. split; [done|].
  rewrite !filter_app, (filter_none _ _ (identity_no_port config)), (filter_none _ _ (ntp_no_port _ _ _ Hn)).
  rewrite (filter_none _ _ cleanup_no_port), (filter_none _ _ (service_no_port _ _ _ E0)).
  rewrite (filter_none _ (fixed_commands _ _ _ _ _ _)).
  2:{ unfold fixed_commands. apply dns_no_port in Hd.
      repeat first [ apply Forall_cons; split; [done|] | apply Forall_nil; done ]. }
  rewrite (filter_all _ (map _ _)) by (apply Forall_map, Forall_true; intros; apply port_command_adds).
  rewrite (filter_none _ [_] (clock_no_port config (is_v7_or_later version))).
  rewrite (filter_none _ [bridge_command _]) by (by repeat constructor).
  rewrite (filter_none _ _ (warning_no_port (existsb _ ports) wan)).
  by rewrite !app_nil_r.
Qed.
End Service.

(** ** The network plan *)

Definition ip_of (a b c d : Z) : Z := a * 2 ^ 24 + b * 2 ^ 16 + c * 2 ^ 8 + d.

Lemma ip_of_octets a b c d :
  0 <= a <= 255 -> 0 <= b <= 255 -> 0 <= c <= 255 -> 0 <= d <= 255 ->
  octet_strings (ip_of a b c d) = [str_of_Z a; str_of_Z b; str_of_Z c; str_of_Z d].
Proof.
  intros Ha Hb Hc Hd. unfold octet_strings, ip_of. rewrite !octet_mod, !Z.shiftr_div_pow2 by lia.
  change (2 ^ (8 * 3)) with 16777216. change (2 ^ (8 * 2)) with 65536. change (2 ^ (8 * 1)) with 256.
  change (2 ^ (8 * 0)) with 1. change (2 ^ 24) with 16777216. change (2 ^ 16) with 65536.
  change (2 ^ 8) with 256. repeat f_equal; Z.to_euclidean_division_equations; lia.
Qed.

Lemma ip_str_dotted a b c d :
  0 <= a <= 255 -> 0 <= b <= 255 -> 0 <= c <= 255 -> 0 <= d <= 255 ->
  ip_str (ip_of a b c d) = dotted (str_of_Z a) (str_of_Z b) (str_of_Z c) (str_of_Z d).
Proof. intros. change (ip_str ?n) with (join "." (octet_strings n)). by rewrite ip_of_octets. Qed.

(** An address of the network that a host may have. *)
Definition usable (n cidr a : Z) : Prop := n < a < n + hostmask cidr.

(** The last address of the pool of a network. *)
Definition plan_last (n cidr : Z) : Z :=
  if bool_decide (cidr ∈ [16; 22; 23]) then n + hostmask cidr - 1 else n - n mod 256 + 254.

Lemma calculate_network_config_octets a b c d cidr :
  0 <= a <= 255 -> 0 <= b <= 255 -> 0 <= c <= 255 -> 0 <= d <= 255 ->
  let n := ip_of a b c d in
  n mod 2 ^ (32 - cidr) = 0 -> 0 <= cidr <= 32 ->
  calculate_network_config (ip_str n) cidr =
  Ok (mkPlan (ip_str (n - n mod 256 + 1)) (ip_str (n - n mod 256 + 2)) (ip_str (plan_last n cidr))
        (ip_str n +:+ "/" +:+ str_of_Z cidr)).
Proof.
  intros Ha Hb Hc Hd n Hn Hr. unfold calculate_network_config. rewrite split_ip.
  replace (octet_strings n) with [str_of_Z a; str_of_Z b; str_of_Z c; str_of_Z d]
    by (symmetry; by apply ip_of_octets).
  assert (Hbase : n - n mod 256 = ip_of a b c 0).
  { unfold n, ip_of. change (2 ^ 24) with 16777216. change (2 ^ 16) with 65536. change (2 ^ 8) with 256.
    Z.to_euclidean_division_equations; lia. }
  replace (n - n mod 256 + 1) with (ip_of a b c 1) by (unfold ip_of in *; lia).
  replace (n - n mod 256 + 2) with (ip_of a b c 2) by (unfold ip_of in *; lia).
  rewrite !ip_str_dotted by lia.
  change (part [str_of_Z a; str_of_Z b; str_of_Z c; str_of_Z d] 0) with (Ok (str_of_Z a)).
  change (part [str_of_Z a; str_of_Z b; str_of_Z c; str_of_Z d] 1) with (Ok (str_of_Z b)).
  change (part [str_of_Z a; str_of_Z b; str_of_Z c; str_of_Z d] 2) with (Ok (str_of_Z c)).
  assert (Hint : text_int (str_of_Z c) = Ok c).
  { unfold text_int, value_int. by rewrite py_int_str by lia. }
  cbn [obind]. rewrite Hint. cbn [obind]. clear Hint. unfold plan_last.
  assert (Hpart : forall p, n mod 2 ^ p = 0 -> 8 <= p <= 16 ->
    d = 0 /\ c mod 2 ^ (p - 8) = 0 /\ n = ip_of a b c 0).
  { intros p Hp Hp8. assert (Hd0 : d = 0).
    { assert (H8 : n mod 256 = 0).
      { apply Z.mod_divide; [done|]. apply Z.mod_divide in Hp; [|lia].
        transitivity (2 ^ p); [|done]. exists (2 ^ (p - 8)). change 256 with (2 ^ 8).
        rewrite <- Z.pow_add_r by lia. f_equal. lia. }
      rewrite H8 in Hbase. unfold n, ip_of in Hbase. lia. }
    subst d. split; [done|]. split; [|done].
    replace p with (8 + (p - 8)) in Hp by lia. rewrite Z.pow_add_r in Hp by lia.
    apply Z.mod_divide; [lia|]. apply Z.mod_divide in Hp; [|lia]. destruct Hp as [k Hk].
    exists (k - (a * 2 ^ 16 + b * 2 ^ 8) / 2 ^ (p - 8)).
    assert (Hdiv : (2 ^ (p - 8) | a * 2 ^ 16 + b * 2 ^ 8)).
    { exists (a * 2 ^ (24 - p) + b * 2 ^ (16 - p)). rewrite Z.mul_add_distr_r, <- !Z.mul_assoc, <- !Z.pow_add_r by lia.
      f_equal; f_equal; f_equal; lia. }
    destruct Hdiv as [j Hj]. rewrite Hj, Z.div_mul by lia. unfold n, ip_of in Hk.
    change (2 ^ 8) with 256 in *. change (2 ^ 24) with (256 * 2 ^ 16) in Hk. nia. }
  destruct (Z.eqb_spec cidr 16) as [->|H16]; [|destruct (Z.eqb_spec cidr 22) as [->|H22];
    [|destruct (Z.eqb_spec cidr 23) as [->|H23]]].
  - destruct (Hpart 16 Hn ltac:(lia)) as (-> & Hc0 & En). change (2 ^ (16 - 8)) with 256 in Hc0.
    rewrite Z.mod_small in Hc0 by lia. subst c.
    change (bool_decide (16 ∈ [16; 22; 23])) with true. change (hostmask 16) with 65535. cbn iota.
    replace (n + 65535 - 1) with (ip_of a b 255 254) by (rewrite En; unfold ip_of; lia).
    by rewrite ip_str_dotted by lia.
  - destruct (Hpart 10 Hn ltac:(lia)) as (-> & Hc0 & En). change (2 ^ (10 - 8)) with 4 in Hc0.
    change (bool_decide (22 ∈ [16; 22; 23])) with true. change (hostmask 22) with 1023. cbn iota.
    replace (n + 1023 - 1) with (ip_of a b (c + 3) 254) by (rewrite En; unfold ip_of; lia).
    rewrite ip_str_dotted by (done || Z.to_euclidean_division_equations; lia). done.
  - destruct (Hpart 9 Hn ltac:(lia)) as (-> & Hc0 & En). change (2 ^ (9 - 8)) with 2 in Hc0.
    change (bool_decide (23 ∈ [16; 22; 23])) with true. change (hostmask 23) with 511. cbn iota.
    replace (n + 511 - 1) with (ip_of a b (c + 1) 254) by (rewrite En; unfold ip_of; lia).
    rewrite ip_str_dotted by (done || Z.to_euclidean_division_equations; lia). done.
  - rewrite bool_decide_eq_false_2 by (rewrite !elem_of_cons, elem_of_nil; lia).
    replace (n - n mod 256 + 254) with (ip_of a b c 254) by (unfold ip_of in *; lia).
    by rewrite ip_str_dotted by lia.
Qed.

Lemma aligned_base n cidr :
  0 <= n -> 0 <= cidr <= 24 -> n mod 2 ^ (32 - cidr) = 0 -> n mod 256 = 0.
Proof.
  intros Hn Hc H. apply Z.mod_divide; [done|]. apply Z.mod_divide in H; [|lia].
  transitivity (2 ^ (32 - cidr)); [|done]. exists (2 ^ (24 - cidr)). change 256 with (2 ^ 8).
  rewrite <- Z.pow_add_r by lia. f_equal. lia.
Qed.

Lemma hostmask_bounds cidr : 0 <= cidr <= 32 ->
  (cidr <= 24 -> 255 <= hostmask cidr) /\ (25 <= cidr -> hostmask cidr <= 127).
Proof.
  intros Hc. unfold hostmask. split; intros H.
  - assert (2 ^ 8 <= 2 ^ (32 - cidr)) by (apply Z.pow_le_mono_r; lia). lia.
  - assert (2 ^ (32 - cidr) <= 2 ^ 7) by (apply Z.pow_le_mono_r; lia). lia.
Qed.

(** C37. For the address of a network, the plan's gateway, first and last pool
    addresses are usable addresses of that network, the gateway before the pool,
    exactly when the prefix has at most 24 bits; for the prefixes 16, 22, 23 and
    24 they are all the network's usable addresses, the first one being the
    gateway. *)
Theorem network_plan_exact n cidr :
  0 <= n < 2 ^ 32 -> 0 <= cidr <= 32 -> n mod 2 ^ (32 - cidr) = 0 ->
  exists gateway first last,
    calculate_network_config (ip_str n) cidr =
      Ok (mkPlan (ip_str gateway) (ip_str first) (ip_str last) (ip_str n +:+ "/" +:+ str_of_Z cidr)) /\
    (usable n cidr gateway /\ usable n cidr first /\ usable n cidr last <-> cidr <= 24) /\
    gateway < first <= last /\
    (cidr ∈ [16; 22; 23; 24] -> forall a, usable n cidr a <-> a = gateway \/ first <= a <= last).
Proof.
  intros Hn Hc Ha.
  exists (n - n mod 256 + 1), (n - n mod 256 + 2), (plan_last n cidr). split.
  { rewrite (octets_value n Hn) at 1 2 3 4.
    pose proof (calculate_network_config_octets (octet n 3) (octet n 2) (octet n 1) (octet n 0) cidr
      (octet_bounds n 3) (octet_bounds n 2) (octet_bounds n 1) (octet_bounds n 0)) as H.
    cbv zeta in H. unfold ip_of in H. rewrite <- (octets_value n Hn) in *. by apply H. }
  destruct (hostmask_bounds cidr Hc) as [Hlo Hhi].
  pose proof (Z.mod_pos_bound n 256 ltac:(done)) as Hm.
  assert (Hlast : plan_last n cidr = n + hostmask cidr - 1 /\ cidr ∈ [16; 22; 23] \/
                  plan_last n cidr = n - n mod 256 + 254 /\ cidr ∉ [16; 22; 23]).
  { unfold plan_last. destruct (bool_decide_reflect (cidr ∈ [16; 22; 23])); auto. }
  assert (H24 : cidr ∈ [16; 22; 23] -> cidr <= 24) by (rewrite !elem_of_cons, elem_of_nil; lia).
  unfold usable. split; [|split].
  - split.
    + intros (H1 & H2 & H3). destruct (decide (cidr <= 24)); [done|].
      destruct Hlast as [[_ Hin]|[E _]]; [by apply H24|]. rewrite E in *. lia.
    + intros H. assert (Hb : n mod 256 = 0) by (apply (aligned_base n cidr); [lia|lia|done]).
      specialize (Hlo H). destruct Hlast as [[-> _]|[-> _]]; lia.
  - split; [lia|]. destruct Hlast as [[-> Hin]|[-> _]]; [|lia]. specialize (Hlo (H24 Hin)). lia.
  - intros Hin a. assert (H : cidr <= 24) by (revert Hin; rewrite !elem_of_cons, elem_of_nil; lia).
    assert (Hb : n mod 256 = 0) by (apply (aligned_base n cidr); [lia|lia|done]). specialize (Hlo H).
    destruct Hlast as [[-> _]|[-> Hnot]]; [lia|].
    assert (cidr = 24) as -> by (revert Hin Hnot; rewrite !elem_of_cons, elem_of_nil; lia).
    change (hostmask 24) with 255. lia.
Qed.

Lemma network_plan_exact_witness :
  calculate_network_config "10.20.4.0" 22 =
    Ok (mkPlan "10.20.4.1" "10.20.4.2" "10.20.7.254" "10.20.4.0/22") /\
  exists gateway first last,
    calculate_network_config (ip_str 169083904) 22 =
      Ok (mkPlan (ip_str gateway) (ip_str first) (ip_str last) (ip_str 169083904 +:+ "/" +:+ str_of_Z 22)) /\
    (usable 169083904 22 gateway /\ usable 169083904 22 first /\ usable 169083904 22 last <-> 22 <= 24) /\
    gateway < first <= last /\
    (22 ∈ [16; 22; 23; 24] -> forall a, usable 169083904 22 a <-> a = gateway \/ first <= a <= last).
Proof.
  split; [vm_compute; reflexivity|].
  apply (network_plan_exact 169083904 22); [lia|lia|reflexivity].
Defined.

(** Beyond 24 bits the plan leaves the network: of 10.0.0.192/26 the gateway is
    10.0.0.1 and the pool ends at 10.0.0.254. An unaligned base of a /22 makes
    an octet above 255. *)
Example plan_of_a_small_network :
  calculate_network_config "10.0.0.192" 26 =
    Ok (mkPlan "10.0.0.1" "10.0.0.2" "10.0.0.254" "10.0.0.192/26") /\
  calculate_network_config "10.0.254.0" 22 =
    Ok (mkPlan "10.0.254.1" "10.0.254.2" "10.0.257.254" "10.0.254.0/22").
Proof. vm_compute. split; reflexivity. Qed.

(** ** Concrete setups *)
Definition demo_settings : SetupSettings := {|
  backend_url := Some "https://api.isp.ke/"; frontend_url := Some "https://isp.ke";
  settings_treasury_status_host := "booksapi.codevertexafrica.com";
  settings_treasury_pay_page_url := "https://books.codevertexafrica.com" |}.

Definition office : Configuration :=
  {["bridge_ports" := CList [CStr "ether2"; CStr " ETHER1 "; CStr "ether3"]]}.

Definition office_setup : outcome (list Command) :=
  setup_commands (set := demo_settings) (Some ST_BOTH) office (Some "7.18.2 (stable)").

Lemma wan_never_bridged_witness :
  exists l, office_setup = Ok l /\ length l = 77%nat /\
  exists wan ports,
    get_or office "wan_interface" (CStr "ether1") = CStr wan /\
    requested_ports office = map CStr ports /\
    filter (fun c => adds_port c = true) l =
      map (port_command (get_text office "bridge_name" "codevertex-bridge"))
        (filter (fun p => same_port p wan = false) ports).
Proof.
  destruct office_setup as [l|e] eqn:E; [|exfalso; vm_compute in E; discriminate E].
  exists l. split; [reflexivity|]. split; [|exact (wan_never_bridged (settings := demo_settings) (Some ST_BOTH) office (Some "7.18.2 (stable)") l E)].
  assert (H : match office_setup with Ok l => length l | Raise _ => O end = 77%nat) by (vm_compute; reflexivity).
  by rewrite E in H.
Defined.
