(* ===== verification/Provisioning.v ===== *)
(** * Provisioning sessions

    [ProvisioningService] ([src/app/modules/provisioning/service.py]), its
    command executor ([commands.py]), its rollbacks ([rollback.py]), and the
    endpoints that act on sessions
    ([src/app/api/v1/provisioning/workflow.py],
    [src/app/tasks/provisioning_tasks.py]).

    A run works on one session: it holds the ORM instance of its row, whose
    attributes it reads without asking the database again ([expire_on_commit] is
    off), and writes only the columns it assigns. While it waits for a router or
    sleeps, other requests commit changes of their own: [pv_others] lists what
    they do, one entry per wait. A wait between an assignment and its commit is
    not listed: what others commit there has the same effect before the
    assignment. The lines logged to the browser and the progress inside a step
    are left out; the messages that announce a completed session are kept. *)

From S2P Require Import Prelude PyString Numerics Models Session AgentQueue RouterCli SetupCommands WireGuard.
From stdpp Require Import sorting.
Open Scope Z_scope.

(** ** Addresses *)

(** [ipaddress.ip_address(s).is_private] of the standard library; the answer on
    IPv6 texts is a parameter. *)
Definition private_networks : list (Z * Z) :=
  [(0, 8); (10 * 2 ^ 24, 8); (127 * 2 ^ 24, 8); (2851995648, 16); (2886729728, 12); (3221225472, 29);
   (3221225642, 31); (3221225984, 24); (3232235520, 16); (3323068416, 15); (3325256704, 24);
   (3405803776, 24); (4026531840, 4); (4294967295, 32)].

Definition in_network (n : Z) (net : Z * Z) : bool := Z.shiftr n (32 - net.2) =? Z.shiftr net.1 (32 - net.2).

(** What a run needs from outside: the answer of [is_private] on IPv6 texts,
    the access token of a user, and the upload of the login pages by FTP. *)
Class ProvisioningEnv {ros : RouterOS} := {
  private_v6 : string -> bool;
  provisioning_token : string -> string;
  ftp_upload : Dev -> Router -> outcome unit * Dev
}.

Section IsPrivate.
Context {ros : RouterOS} {env : ProvisioningEnv}.
Definition ip_is_private (s : string) : bool :=
  match parse_ip s with
  | Some n => existsb (in_network n) private_networks
  | None => private_v6 s
  end.
End IsPrivate.

(** ** The state of a run *)

(** What happens elsewhere while the run waits. *)
Record Elsewhere : Type := mkElsewhere {
  el_delay : Z;
  el_change : DB -> DB
}.

Inductive Task : Type :=
  | Workflow (id : Z)
  | AutomaticRollback (id : Z)
  | CancelRollback (id : Z).

Section State.
Context {ros : RouterOS}.

Record Prov : Type := mkProv {
  pv_world : World;
  pv_id : Z;
  pv_me : ProvisioningSession;
  pv_dirty : bool;
  pv_others : list Elsewhere;
  pv_checkins : list (string * option string);
  pv_streams : gset string;
  pv_tasks : list Task
}.

#[global] Instance Prov_eta : Eta Prov := fun p =>
  mkProv (pv_world p) (pv_id p) (pv_me p) (pv_dirty p) (pv_others p) (pv_checkins p) (pv_streams p) (pv_tasks p).
End State.

Abbreviation prov := (M Prov).

Definition active_status (s : ProvisioningStatus) : bool :=
  match s with PS_PENDING | PS_IN_PROGRESS => true | _ => false end.

Definition blank_session : ProvisioningSession :=
  mkProvSession "" 0 0 PS_PENDING STEP_CONNECTION 0 None None None None None false None false false.

Section Provisioning.
Context {be : Backend} {ros : RouterOS} {cfg : AgentConfig} {settings : SetupSettings} {env : ProvisioningEnv}.

(** ** Operations of a run *)
Definition lift {A} (m : run A) : prov A := fun p =>
  let (r, w) := m (pv_world p) in (r, p <| pv_world := w |>).

Definition me : prov ProvisioningSession := fun p => (Ok (pv_me p), p).
Definition my_id : prov Z := fun p => (Ok (pv_id p), p).
Definition now : prov datetime := lift utcnow.

(** A wait. *)
Definition elsewhere : prov unit := fun p =>
  match pv_others p with
  | [] => (Ok tt, p)
  | e :: rest =>
      (Ok tt, p <| pv_others := rest |>
                <| pv_world ::= fun w => w <| w_now ::= Z.add (el_delay e) |>
                                           <| w_view ::= el_change e |> <| w_durable ::= el_change e |> |>)
  end.

(** Reads of the database by instances; after a refused flush their attributes
    are expired and reading them raises. *)
Definition unbroken : prov unit := lift (fun w =>
  if w_broken w then (Raise MissingGreenlet, w) else (Ok tt, w)).

Definition set_me (f : ProvisioningSession -> ProvisioningSession) : prov unit :=
  unbroken ;;;
  i <- my_id ;;
  lift (assign (over t_prov_sessions (alter f i))) ;;;
  mmodify (fun p => p <| pv_me ::= f |> <| pv_dirty := true |>).

Definition set_step (i : Z) (f : ProvisioningStepLog -> ProvisioningStepLog) : prov unit :=
  unbroken ;;; lift (assign (over t_prov_steps (alter f i))).

Definition set_prov_command (i : Z) (f : ProvisioningCommand -> ProvisioningCommand) : prov unit :=
  unbroken ;;; lift (assign (over t_prov_commands (alter f i))).

(** [commit]: an [UPDATE] of a row that is gone is an error. *)
Definition commit_run : prov unit := fun p =>
  if pv_dirty p && bool_decide (t_prov_sessions (w_view (pv_world p)) !! pv_id p = None) then
    (Raise DatabaseError, p <| pv_world ::= fun w => w <| w_view := w_durable w |> <| w_broken := true |> |>)
  else (lift commit ;;; mmodify (fun p => p <| pv_dirty := false |>)) p.

Definition schedule (t : Task) : prov unit := mmodify (fun p => p <| pv_tasks ::= (fun l => l ++ [t]) |>).

(** [streaming_manager]: the end of a session is announced only when its
    streaming was started in this process. *)
Definition start_stream (sid : string) : prov unit :=
  mmodify (fun p => p <| pv_streams ::= union {[sid]} |>).

Definition end_stream (sid : string) (success : bool) : prov unit := fun p =>
  if bool_decide (sid ∈ pv_streams p) && success then lift (ws_send (WsComplete sid)) p else (Ok tt, p).

(** ** Queries *)
Definition session_rows (p : ProvisioningSession -> bool) (db : DB) : list (Z * ProvisioningSession) :=
  select (fun _ => p) (t_prov_sessions db).

(** The session with this identifier becomes the instance of the run, unless the
    run holds it already. *)
Definition _get_session_by_id (sid : string) : prov bool :=
  rows <- lift (query (session_rows (fun s => bool_decide (ps_session_id s = sid)))) ;;
  row <- lift (scalar_one_or_none rows) ;;
  match row with
  | None => mreturn false
  | Some (i, s) =>
      (fun p => if pv_id p =? i then (Ok true, p)
                else (Ok true, p <| pv_id := i |> <| pv_me := s |> <| pv_dirty := false |>))
  end.

Definition _get_active_session (router_id : Z) : prov (option (Z * ProvisioningSession)) :=
  rows <- lift (query (session_rows (fun s => (ps_router_id s =? router_id) && active_status (ps_status s)))) ;;
  lift (scalar_one_or_none rows).

(** [RouterService.get_by_id] wraps every error. *)
Definition router_by_id (router_id : Z) : prov (option Router) :=
  mtry (if router_id <=? 0 then mraise (ValidationError "Invalid router ID")
        else lift (query (fun db => t_routers db !! router_id)))
    (fun e => mraise (RouterOperationError ("Unexpected error: " +:+ exn_text e))).

Definition _get_step_log (step : ProvisioningStep) : prov (Z * ProvisioningStepLog) :=
  i <- my_id ;;
  rows <- lift (query (fun db =>
    select (fun _ l => (sl_session_id l =? i) && bool_decide (sl_step l = step)) (t_prov_steps db))) ;;
  row <- lift (scalar_one_or_none rows) ;;
  match row with Some r => mreturn r | None => mraise DatabaseError end.

(** ** [_validate_configuration] *)
Definition set_default (k : string) (v : ConfigValue) (c : Configuration) : Configuration :=
  match c !! k with Some _ => c | None => <[k := v]> c end.

Definition set_default_opt (k : string) (v : option ConfigValue) (c : Configuration) : Configuration :=
  match v with Some v => set_default k v c | None => c end.

Definition nonempty (o : option string) : option string :=
  match o with Some "" => None | _ => o end.

(** The match of [(https?://[^:]+):?(\d+)?] up to the first colon after the
    scheme. *)
Fixpoint url_origin (s : string) : option string :=
  let host t := match (span (fun c => negb (bool_decide (c = ":"%char))) t).1 with "" => None | h => Some h end in
  let here :=
    if String.prefix "https://" s then
      option_map (String.append "https://") (host (String.substring 8 (String.length s) s))
    else if String.prefix "http://" s then
      option_map (String.append "http://") (host (String.substring 7 (String.length s) s))
    else None in
  match here, s with
  | Some h, _ => Some h
  | None, String _ s' => url_origin s'
  | None, EmptyString => None
  end.

Definition default_billing_url : option ConfigValue :=
  match nonempty frontend_url with
  | Some u => Some (CStr u)
  | None =>
      match nonempty backend_url with
      | Some b => option_map (fun host => CStr (host +:+ ":3000")) (url_origin b)
      | None => None
      end
  end.

(** The organization of the router, or of the user. *)
Definition organization_of (router_id user_id : option Z) (db : DB) : option Z :=
  let of_router := i ← router_id; r ← t_routers db !! i; rt_organization_id r in
  let of_user := i ← user_id; u ← t_users db !! i; usr_organization_id u in
  match of_router with Some 0 | None => of_user | Some o => Some o end.

Definition slug_of (db : DB) (o : option Z) : option string :=
  i ← o; g ← t_organizations db !! i; nonempty (Some (org_row_slug g)).

Definition _get_organization_slug (router_id user_id : option Z) : prov (option string) :=
  mtry (lift (query (fun db =>
          match slug_of db (i ← router_id; r ← t_routers db !! i; rt_organization_id r) with
          | Some s => Some s
          | None => slug_of db (i ← user_id; u ← t_users db !! i; usr_organization_id u)
          end)))
    (fun _ => mreturn None).

Definition _get_organization_settings (router_id user_id : option Z) : prov (option PortalPage) :=
  mtry (lift (query (fun db => o ← organization_of router_id user_id db; t_portal_pages db !! o)))
    (fun _ => mreturn None).

Definition with_portal_page (page : option PortalPage) (c : Configuration) : Configuration :=
  match page with
  | None => c
  | Some g =>
      set_default "session_timeout_minutes" (CInt (pg_session_timeout_minutes g))
        (set_default_opt "hotspot_redirect_url" (option_map CStr (nonempty (Some (pg_hotspot_redirect_url g))))
          (set_default "hotspot_template_type" (CStr (or_text (pg_hotspot_template g) "Aurora")) c))
  end.

Definition service_defaults (t : ServiceType) (c : Configuration) : Configuration :=
  match t with
  | ST_HOTSPOT =>
      set_default "walled_garden_hosts" (CList [])
        (set_default "gateway" (CStr "172.31.1.1")
          (set_default "ip_pool_end" (CStr "172.31.1.254")
            (set_default "ip_pool_start" (CStr "172.31.1.1")
              (set_default "hotspot_name" (CStr "ISP-Hotspot") c))))
  | PPPOE_SERVER =>
      set_default "ip_pool_end" (CStr "172.31.1.254")
        (set_default "ip_pool_start" (CStr "172.31.1.1")
          (set_default "service_name" (CStr "ISP-PPPoE") c))
  | _ => c
  end.

Definition common_defaults (c : Configuration) : Configuration :=
  set_default_opt "api_server_url" (option_map CStr (nonempty backend_url))
    (set_default_opt "billing_server_url" default_billing_url
      (set_default "wan_interface" (CStr "ether1")
        (set_default "dns_servers" (CList [CStr "8.8.8.8"; CStr "8.8.4.4"])
          (set_default "interface" (CStr "ether2") c)))).

Definition _validate_configuration (t : ServiceType) (c : Configuration) (router_id user_id : option Z)
    : prov Configuration :=
  let c := common_defaults c in
  c <- (match c !! "organization_slug" with
        | Some _ => mreturn c
        | None => slug <- _get_organization_slug router_id user_id ;;
                  mreturn (<["organization_slug" := CStr (default "default" slug)]> c)
        end) ;;
  page <- (match t with
           | ST_HOTSPOT | ST_BOTH => _get_organization_settings router_id user_id
           | _ => mreturn None
           end) ;;
  mreturn (service_defaults t (with_portal_page page c)).

(** ** Creating a session *)
Definition rollback_run : prov unit := lift rollback.

Definition _create_step_logs : prov unit :=
  i <- my_id ;;
  _ <- mfold (fun _ (so : ProvisioningStep * Z) =>
         id <- lift (query (fun db => next_id (t_prov_steps db))) ;;
         lift (assign (over t_prov_steps (insert id
           (mkStepLog i so.1 so.2 PS_PENDING None None None None)))))
       tt [(STEP_CONNECTION, 1); (STEP_CONFIGURATION, 2); (STEP_SERVICE_SETUP, 3)] ;;
  commit_run.

Definition default_timeout_minutes : Z := 30.

(** The template's defaults below the given configuration. *)
Definition merge_template (t : ServiceType) (template : option ProvisioningTemplate) (c : Configuration)
    : Configuration :=
  match template with
  | Some p => if bool_decide (pt_service_type p = t) then c ∪ pt_default_configuration p else c
  | None => c
  end.

Definition is_application_error (e : exn) : bool :=
  match e with ValidationError _ | ProvisioningError _ => true | _ => false end.

(** [session_id] is the UUID drawn for the session. *)
Definition create_provisioning_session (session_id : string) (router_id user_id : Z) (t : ServiceType)
    (configuration : Configuration) (template_id : option Z) : prov Z :=
  mtry
    (router <- router_by_id router_id ;;
     (match router with
      | Some _ => mreturn tt
      | None => mraise (ValidationError ("Router " +:+ str_of_Z router_id +:+ " not found"))
      end) ;;;
     active <- _get_active_session router_id ;;
     (match active with
      | Some (_, s) => mraise (ProvisioningError
          ("Router " +:+ str_of_Z router_id +:+ " already has an active provisioning session: "
           +:+ ps_session_id s))
      | None => mreturn tt
      end) ;;;
     template <- (match template_id with
                  | None | Some 0 => mreturn None
                  | Some k => lift (query (fun db => t_prov_templates db !! k))
                  end) ;;
     validated <- _validate_configuration t (merge_template t template configuration)
                    (Some router_id) (Some user_id) ;;
     time <- now ;;
     let s := mkProvSession session_id router_id user_id PS_PENDING STEP_CONNECTION 0 (Some t)
                (Some validated) (Some (time + timedelta_minutes default_timeout_minutes))
                None None false None false false in
     id <- lift (query (fun db => next_id (t_prov_sessions db))) ;;
     lift (assign (over t_prov_sessions (insert id s))) ;;;
     mmodify (fun p => p <| pv_id := id |> <| pv_me := s |>) ;;;
     commit_run ;;;
     _create_step_logs ;;;
     mreturn id)
    (fun e => if is_application_error e then mraise e else rollback_run ;;; mraise e).

(** ** Executing a command *)

(** [str(e).lower()] of an error that says the item is there already. *)
Definition is_already_exists_error (text : string) : bool :=
  (contains_text "already" text &&
   (contains_text "exists" text || contains_text "have" text || contains_text "item" text
    || contains_text "added" text))
  || contains_text "with such name exists" text || contains_text "such name already" text
  || contains_text "already added" text.

Definition is_socket_error (text : string) : bool :=
  contains_text "socket" text || contains_text "connection" text || contains_text "10038" text
  || contains_text "10054" text || contains_text "10053" text || contains_text "broken pipe" text
  || contains_text "timed out" text.

Definition execute (r : Router) (command : string) : prov (option (list Entry)) :=
  elsewhere ;;; lift (execute_text r command).

Definition connect (r : Router) : prov unit := elsewhere ;;; lift (client_connect r).

(** [client.execute_script] does not exist. *)
Definition run_command (r : Router) (c : Command) : prov (option (list Entry)) :=
  if bool_decide (c_type c = "api_call") then execute r (c_command c)
  else mraise (AttributeError "'MikroTikClient' object has no attribute 'execute_script'").

Definition output_of (reply : option (list Entry)) : option CommandOutput :=
  match reply with None | Some [] => None | Some l => Some (Rows l) end.

Definition finished (start finish : datetime) (output : option CommandOutput) (c : ProvisioningCommand)
    : ProvisioningCommand :=
  c <| pc_duration := Some (finish - start) |> <| pc_output := output |>
    <| pc_success := true |> <| pc_status := PS_COMPLETED |>.

Definition failed_attempt (attempt : Z) (e : exn) (c : ProvisioningCommand) : ProvisioningCommand :=
  c <| pc_retry_count := attempt + 1 |> <| pc_error_message := Some (exn_text e) |>
    <| pc_success := false |>.

(** The wait before the next attempt: a lost connection is opened again. *)
Definition before_retry (r : Router) (e : exn) : prov unit :=
  if is_socket_error (lower (exn_text e)) then
    mtry (elsewhere ;;; connect r) (fun _ => elsewhere)
  else elsewhere.

(** The attempts from the number [attempt] on; [others] more are allowed after
    this one. *)
Fixpoint attempts (r : Router) (c : Command) (id attempt : Z) (others : nat) : prov bool :=
  start <- now ;;
  outcome <- mattempt
    (set_prov_command id (fun x => x <| pc_executed_at := Some start |> <| pc_status := PS_IN_PROGRESS |>) ;;;
     reply <- run_command r c ;;
     finish <- now ;;
     set_prov_command id (finished start finish (output_of reply)) ;;;
     commit_run) ;;
  match outcome with
  | Ok _ => mreturn true
  | Raise e =>
      if is_already_exists_error (lower (exn_text e)) then
        finish <- now ;;
        set_prov_command id (finished start finish (Some (Remark "Resource already exists"))) ;;;
        commit_run ;;;
        mreturn true
      else
        set_prov_command id (failed_attempt attempt e) ;;;
        match others with
        | S others =>
            before_retry r e ;;;
            set_prov_command id (fun x => x <| pc_status := PS_PENDING |>) ;;;
            commit_run ;;;
            attempts r c id (attempt + 1) others
        | O =>
            set_prov_command id (fun x => x <| pc_status := PS_FAILED |>) ;;;
            commit_run ;;;
            mreturn false
        end
  end.

Definition max_retries : nat := 3.

Definition command_row (session : Z) (c : Command) : ProvisioningCommand :=
  mkProvCommand session (c_type c) (c_command c) (c_description c) 0 PS_PENDING None None false None None
    (c_rollback c) false 0 (Z.of_nat max_retries) (c_critical c).

Definition execute_command_with_retry (r : Router) (c : Command) : prov bool :=
  i <- my_id ;;
  id <- lift (query (fun db => next_id (t_prov_commands db))) ;;
  lift (assign (over t_prov_commands (insert id (command_row i c)))) ;;;
  commit_run ;;;
  attempts r c id 0 max_retries.

(** ** Rollbacks *)

(** The successful commands with a rollback, by falling [execution_order]; the
    server orders equal ones as it likes. *)
Definition order_desc (a b : Z * ProvisioningCommand) : Prop :=
  pc_execution_order b.2 <= pc_execution_order a.2.
#[local] Instance order_desc_dec : RelDecision order_desc.
Proof. intros a b. unfold order_desc. apply _. Defined.

Definition rollback_rows (i : Z) (db : DB) : list (Z * ProvisioningCommand) :=
  merge_sort order_desc
    (select (fun _ c => (pc_session_id c =? i) && pc_success c && bool_decide (is_Some (pc_rollback_command c)))
       (t_prov_commands db)).

(** [execute_rollback], the task of a failed session: [RouterService] has
    neither [api_cls] nor [get_api]. *)
Definition execute_rollback : prov unit :=
  mtry
    (i <- my_id ;;
     _ <- lift (query (rollback_rows i)) ;;
     s <- me ;;
     _ <- router_by_id (ps_router_id s) ;;
     mraise (AttributeError "'RouterService' object has no attribute 'get_api'"))
    (fun _ => mreturn tt).

Definition undo (r : Router) (ic : Z * ProvisioningCommand) : prov unit :=
  mtry
    (_ <- execute r (default "" (pc_rollback_command ic.2)) ;;
     set_prov_command ic.1 (fun c => c <| pc_rollback_executed := true |>))
    (fun _ => mreturn tt).

(** [_execute_rollback], the task of a cancelled or timed out session *)
Definition _execute_rollback : prov unit :=
  mtry
    (i <- my_id ;;
     commands <- lift (query (rollback_rows i)) ;;
     s <- me ;;
     router <- router_by_id (ps_router_id s) ;;
     match router with
     | None => mraise (AttributeError "'NoneType' object has no attribute 'ip_address'")
     | Some r =>
         connect r ;;;
         mfold (fun _ ic => undo r ic) tt commands ;;;
         set_me (fun s => s <| ps_rollback_completed := true |>) ;;;
         commit_run
     end)
    (fun _ => mreturn tt).

(** ** Errors *)
Definition config_item (key : string) (default : bool) (s : ProvisioningSession) : bool :=
  match ps_configuration s with
  | None => default
  | Some c => match c !! key with Some v => value_truthy v | None => default end
  end.

Definition _handle_provisioning_error (message : string) : prov unit :=
  time <- now ;;
  set_me (fun s => s <| ps_status := PS_FAILED |> <| ps_error_message := Some message |>
                     <| ps_completed_at := Some time |>) ;;;
  s <- me ;;
  i <- my_id ;;
  mwhen (config_item "rollback_on_failure" true s)
    (set_me (fun s => s <| ps_rollback_required := true |>) ;;;
     schedule (AutomaticRollback i)) ;;;
  commit_run.

Definition elapsed (l : ProvisioningStepLog) (time : datetime) : option Z :=
  option_map (fun start => time - start) (sl_started_at l).

Definition _handle_step_error (step : ProvisioningStep) (log : Z) (message : string) : prov unit :=
  time <- now ;;
  set_step log (fun l => l <| sl_status := PS_FAILED |> <| sl_error_details := Some message |>
                           <| sl_completed_at := Some time |> <| sl_duration ::= fun d =>
                                match elapsed l time with Some t => Some t | None => d end |>) ;;;
  _handle_provisioning_error ("Step " +:+ step_value step +:+ " failed: " +:+ message).

(** ** The steps *)
Definition ok_or_none {A} (m : prov (option A)) : prov (option A) := mtry m (fun _ => mreturn None).
Definition quietly (m : prov unit) : prov unit := mtry m (fun _ => mreturn tt).

Definition api (r : Router) (path : string) (m : RosMethod) (args : list (string * option string))
    : prov (option (list Entry)) :=
  elsewhere ;;; lift (execute_command r path m args).

(** [get_system_info], [get_hotspot_servers]: any error is an empty answer. *)
Definition get_system_info (r : Router) : prov (option Entry) :=
  reply <- ok_or_none (api r "/system/resource" GET []) ;;
  mreturn (match reply with Some (e :: _) => Some e | _ => None end).

Definition get_hotspot_servers (r : Router) : prov (list Entry) :=
  reply <- ok_or_none (api r "/ip/hotspot" GET []) ;;
  mreturn (default [] reply).

(** *** The router's compatibility *)
Definition tenth_megabytes (n : Z) : Z := round_half_even (10 * n) 1048576.

Definition megabytes (n : Z) : string :=
  let t := tenth_megabytes n in str_of_Z (t / 10) +:+ "." +:+ str_of_Z (t mod 10).

(** [int(info.get(key, 0))], or [other] when it does not parse. *)
Definition info_number (info : Entry) (key : string) (other : Z) : Z :=
  match info !! key with
  | None => 0
  | Some s => default other (py_int s)
  end.

Definition _validate_router_compatibility (info : Entry) : prov unit :=
  let version := default "0.0" (info !! "version") in
  let cpu := info_number info "cpu-load" 0 in
  let memory := info_number info "free-memory" (100 * 1024 * 1024) in
  match _compare_versions version "6.40" with
  | Lt => mraise (ValidationError ("RouterOS version " +:+ version
            +:+ " is not supported. Minimum version: 6.40"))
  | _ =>
      if 90 <? cpu then mraise (ValidationError ("Router CPU load too high: " +:+ str_of_Z cpu +:+ "%"))
      else if memory <? 10 * 1024 * 1024 then
        mraise (ValidationError ("Insufficient free memory: " +:+ megabytes memory +:+ "MB"))
      else mreturn tt
  end.

(** The frame of a step: its log, its work, its error handler. *)
Definition begin_step (log : Z) : prov unit :=
  time <- now ;;
  set_step log (fun l => l <| sl_status := PS_IN_PROGRESS |> <| sl_started_at := Some time |>) ;;;
  commit_run.

Definition end_step (log : Z) (next : ProvisioningSession -> ProvisioningSession) : prov unit :=
  time <- now ;;
  set_step log (fun l => l <| sl_status := PS_COMPLETED |> <| sl_completed_at := Some time |>
                           <| sl_duration := elapsed l time |>) ;;;
  set_me next ;;;
  commit_run.

(** [_update_step_progress] commits. *)
Definition _update_step_progress : prov unit := unbroken ;;; commit_run.

Definition my_router : prov Router :=
  s <- me ;;
  router <- router_by_id (ps_router_id s) ;;
  match router with
  | Some r => mreturn r
  | None => mraise (AttributeError "'NoneType' object has no attribute 'ip_address'")
  end.

Definition step (which : ProvisioningStep) (work : Router -> prov unit)
    (next : ProvisioningSession -> ProvisioningSession) : prov unit :=
  found <- _get_step_log which ;;
  mtry (begin_step found.1 ;;; r <- my_router ;; work r ;;; end_step found.1 next)
    (fun e => _handle_step_error which found.1 (exn_text e)).

(** *** Step 1 *)

(** The version is kept in the instance's dictionary: the column is written only
    when the dictionary is a new one, because a change inside it is not seen. *)
Definition remember_version (info : Entry) : prov unit :=
  match info !! "version" with
  | None | Some "" => mreturn tt
  | Some v =>
      s <- me ;;
      let store c := <["routeros_version" := CStr v]> c in
      if bool_decide (default ∅ (ps_configuration s) = ∅)
      then set_me (fun s => s <| ps_configuration := Some (store ∅) |>)
      else mmodify (fun p => p <| pv_me ::= fun s => s <| ps_configuration ::= fmap store |> |>)
  end.

Definition connection_work (r : Router) : prov unit :=
  _update_step_progress ;;;
  connect r ;;;
  _update_step_progress ;;;
  info <- get_system_info r ;;
  match info with
  | None => mraise (RouterConnectionError "Failed to retrieve system information")
  | Some info =>
      if bool_decide (info = ∅) then mraise (RouterConnectionError "Failed to retrieve system information")
      else
        _update_step_progress ;;;
        remember_version info ;;;
        _update_step_progress ;;;
        _validate_router_compatibility info
  end.

Definition _execute_connection_step : prov unit :=
  step STEP_CONNECTION connection_work
    (fun s => s <| ps_current_step := STEP_CONFIGURATION |> <| ps_progress := 333 |>).

(** *** Step 2 *)

(** What an earlier provisioning left, by resource, key and text. *)
Definition leftovers : list (string * string) :=
  [("/ip/dns/static", "comment"); ("/ip/firewall/nat", "comment"); ("/ip/hotspot/walled-garden", "comment");
   ("/ip/hotspot/walled-garden/ip", "comment"); ("/ip/firewall/filter", "comment");
   ("/ip/firewall/mangle", "comment"); ("/ip/hotspot", "name"); ("/ip/hotspot/profile", "name");
   ("/certificate", "name"); ("/interface/pppoe-server/server", "service-name"); ("/ppp/profile", "name");
   ("/ip/dhcp-server", "name"); ("/ip/dhcp-server/network", "comment"); ("/ip/pool", "name");
   ("/interface/bridge/port", "bridge"); ("/ip/address", "interface"); ("/interface/bridge", "name")].

Definition entry_id (e : Entry) : option string :=
  match nonempty (e !! "id") with Some i => Some i | None => nonempty (e !! ".id") end.

Definition remove_by_filter (r : Router) (path key : string) : prov unit :=
  quietly
    (items <- api r path GET [] ;;
     mfold (fun _ e =>
       match entry_id e with
       | Some id =>
           if contains_text "codevertex" (lower (default "" (e !! key)))
           then quietly (_ <- api r path REMOVE [("id", Some id)] ;; mreturn tt)
           else mreturn tt
       | None => mreturn tt
       end) tt (default [] items)).

Definition cleanup_existing_provisioning (r : Router) : prov unit :=
  mfold (fun _ pk => remove_by_filter r pk.1 pk.2) tt leftovers.

(** The commands one after the other: a critical one that fails ends the step. *)
Definition run_commands (r : Router) (failure : string) (l : list Command) : prov unit :=
  mfold (fun _ c =>
    _update_step_progress ;;;
    success <- execute_command_with_retry r c ;;
    if negb success && c_critical c then mraise (ConfigurationError (failure +:+ c_description c))
    else mreturn tt) tt l.

Definition of_outcome {A} (o : outcome A) : prov A :=
  match o with Ok a => mreturn a | Raise e => mraise e end.

(** [config.get('routeros_version') or router.routeros_version]; a value that is
    no text fails where it is read. *)
Definition command_version (c : Configuration) (r : Router) : outcome (option string) :=
  match truthy_get c "routeros_version" with
  | Some v => s <-! as_text "strip" v ;; Ok (Some s)
  | None => Ok (rt_routeros_version r)
  end.

Definition my_configuration : prov Configuration :=
  s <- me ;; mreturn (default ∅ (ps_configuration s)).

(** The client has neither [get_system_identity] nor [get_ip_pools] nor
    [get_pppoe_servers]. *)
Definition missing_method (name : string) : exn :=
  AttributeError ("'MikroTikClient' object has no attribute '" +:+ name +:+ "'").

Definition verify_basic_configuration (c : Configuration) : prov unit :=
  if bool_decide (is_Some (c !! "identity")) then mraise (missing_method "get_system_identity")
  else if bool_decide (is_Some (c !! "pool_name")) then mraise (missing_method "get_ip_pools")
  else mreturn tt.

(** The backup before the commands does nothing: the client has no
    [export_configuration]. *)
Definition configuration_work (r : Router) : prov unit :=
  connect r ;;;
  c <- my_configuration ;;
  _update_step_progress ;;;
  cleanup_existing_provisioning r ;;;
  _update_step_progress ;;;
  version <- of_outcome (command_version c r) ;;
  commands <- of_outcome (generate_configuration_commands c version) ;;
  run_commands r "Critical command failed: " commands ;;;
  _update_step_progress ;;;
  verify_basic_configuration c ;;;
  _update_step_progress.

Definition _execute_configuration_step : prov unit :=
  step STEP_CONFIGURATION configuration_work
    (fun s => s <| ps_current_step := STEP_SERVICE_SETUP |> <| ps_progress := 666 |>).

(** *** Step 3 *)
Definition disable_default_services : list string :=
  ["/ip/service/set telnet disabled=yes"; "/ip/service/set ftp disabled=yes";
   "/ip/service/set www disabled=yes"; "/ip/service/set ssh port=2222"].

Definition create_firewall_rules (management_ip : string) : list string :=
  ["/ip/firewall/filter/add chain=input action=accept connection-state=established,related comment=codevertex-allow-established";
   "/ip/firewall/filter/add chain=input action=accept protocol=icmp comment=codevertex-allow-icmp";
   "/ip/firewall/filter/add chain=input action=accept dst-port=8728 protocol=tcp src-address=" +:+ management_ip
     +:+ " comment=codevertex-allow-api";
   "/ip/firewall/filter/add chain=input action=accept dst-port=8291 protocol=tcp comment=codevertex-allow-winbox"].

Definition apply_security_configuration (r : Router) (c : Configuration) : prov unit :=
  mfold (fun _ command => quietly (_ <- execute r command ;; mreturn tt)) tt
    (["/ip/firewall/filter/remove [find where comment~" +:+ quote "codevertex" +:+ "]"]
     ++ disable_default_services
     ++ create_firewall_rules (get_text c "management_ip" "0.0.0.0/0")).

Definition verify_service_configuration (r : Router) (t : option ServiceType) (c : Configuration) : prov unit :=
  match t with
  | Some ST_HOTSPOT =>
      servers <- get_hotspot_servers r ;;
      let expected := get_or c "hotspot_name" (CStr "ISP-Hotspot") in
      let named e := match expected, e !! "name" with
                     | CStr s, Some n => bool_decide (n = s)
                     | CNull, None => true
                     | _, _ => false
                     end in
      if existsb named servers then mreturn tt
      else mraise (ConfigurationError ("Hotspot " +:+ value_str expected +:+ " not created"))
  | Some PPPOE_SERVER => mraise (missing_method "get_pppoe_servers")
  | _ => mreturn tt
  end.

(** The upload of the login pages; they are activated when it succeeds. *)
Definition upload_pages (r : Router) (c : Configuration) : prov unit :=
  elsewhere ;;;
  quietly
    (elsewhere ;;;
     (lift (fun w => let (o, d) := ftp_upload (w_dev w) r in (o, w <| w_dev := d |>))) ;;;
     quietly (_ <- execute r ("/ip/hotspot/profile/set " +:+ get_text c "hotspot_profile" "codevertex-hsprof"
                              +:+ " html-directory=hotspot") ;; mreturn tt)).

Definition service_work (r : Router) : prov unit :=
  connect r ;;;
  c <- my_configuration ;;
  s <- me ;;
  let t := ps_service_type s in
  commands <- of_outcome (workflow_commands t c) ;;
  run_commands r "Service configuration failed: " commands ;;;
  mwhen (bool_decide (t = Some ST_HOTSPOT \/ t = Some ST_BOTH))
    (_update_step_progress ;;; upload_pages r c) ;;;
  _update_step_progress ;;;
  apply_security_configuration r c ;;;
  _update_step_progress ;;;
  verify_service_configuration r t c ;;;
  _update_step_progress.

Definition _execute_service_setup_step : prov unit :=
  step STEP_SERVICE_SETUP service_work (fun s => s <| ps_progress := 1000 |>).

(** ** The workflow *)

(** [mark_provisioning_complete] of [app/services/router_provisioning.py]. The
    setup columns of a router without a row here have their defaults. *)
Definition default_setup : RouterSetup := mkSetup "pending" false None.

Definition config_set (k : string) (v : JsonScalar) (l : list (string * JsonScalar)) : list (string * JsonScalar) :=
  if existsb (fun kv => bool_decide (kv.1 = k)) l
  then map (fun kv => if bool_decide (kv.1 = k) then (k, v) else kv) l else l ++ [(k, v)].

Definition mark_provisioning_complete (router_id : Z) (service_type : string) : prov unit :=
  found <- lift (query (fun db => t_routers db !! router_id)) ;;
  match found with
  | None => mraise (ValueError ("Router " +:+ str_of_Z router_id +:+ " not found"))
  | Some _ =>
      time <- now ;;
      lift (assign (over t_router_setup (insert router_id (mkSetup "provisioned" true (Some time))))) ;;;
      mwhen (negb (bool_decide (service_type = "")))
        (lift (assign (over t_routers (alter (fun r => r <| rt_config ::= fun c =>
           config_set "provisioned_at" (JNum time) (config_set "provisioned_service_type" (JStr service_type) c) |>)
           router_id)))) ;;;
      lift commit
  end.

Definition service_text (t : option ServiceType) : string :=
  match t with Some t => service_value t | None => "None" end.

Definition is_failed (s : ProvisioningSession) : bool := bool_decide (ps_status s = PS_FAILED).

(** What follows the steps when none has failed. *)
Definition complete_workflow : prov unit :=
  s <- me ;;
  mwhen (bool_decide (ps_status s = PS_IN_PROGRESS))
    (time <- now ;;
     set_me (fun s => s <| ps_status := PS_COMPLETED |> <| ps_success := true |>
                        <| ps_completed_at := Some time |> <| ps_progress := 1000 |>) ;;;
     commit_run ;;;
     quietly (mark_provisioning_complete (ps_router_id s) (service_text (ps_service_type s))) ;;;
     end_stream (ps_session_id s) true).

(** The rest of the workflow, unless the step before has failed. *)
Definition unless_failed (rest : prov unit) : prov unit :=
  s <- me ;;
  if is_failed s then end_stream (ps_session_id s) false else rest.

Definition _execute_provisioning_workflow : prov unit :=
  s <- me ;;
  mtry
    (start_stream (ps_session_id s) ;;;
     _execute_connection_step ;;;
     unless_failed
       (_execute_configuration_step ;;;
        unless_failed
          (_execute_service_setup_step ;;;
           complete_workflow)))
    (fun e => end_stream (ps_session_id s) false ;;; _handle_provisioning_error (exn_text e)).

(** ** Starting *)
Definition agent_ready (r : Router) : bool :=
  rt_agent_installed r && bool_decide (is_Some (nonempty (rt_agent_token r))).

Definition script_url (s : ProvisioningSession) : string :=
  rstrip_char "/" (default "" backend_url) +:+ "/api/v1/provisioning/provision-script/"
  +:+ ps_session_id s +:+ "?token=" +:+ provisioning_token (str_of_Z (ps_user_id s)).

(** The delivery by the polling agent: [true] when the command is queued. *)
Definition deliver_by_agent : prov bool :=
  mtry
    (s <- me ;;
     router <- router_by_id (ps_router_id s) ;;
     match router with
     | Some r =>
         if agent_ready r then
           _ <- lift (queue_command (ps_router_id s) "fetch_import" [("url", script_url s)] 1
                        (Some "provisioning") (Some (ps_session_id s)) None) ;;
           commit_run ;;;
           mreturn true
         else mreturn false
     | None => mreturn false
     end)
    (fun _ => mreturn false).

(** The first check-in of the router that is waiting: by its address, or by its
    name. *)
Fixpoint take_checkin (p : string * option string -> bool) (l : list (string * option string))
    : option (list (string * option string)) :=
  match l with
  | [] => None
  | c :: l' => if p c then Some l' else option_map (cons c) (take_checkin p l')
  end.

Definition matching_checkin (r : Router) (l : list (string * option string))
    : option (list (string * option string)) :=
  match take_checkin (fun c => bool_decide (c.1 = rt_ip_address r)) l with
  | Some l' => Some l'
  | None => take_checkin (fun c => match nonempty c.2 with
                                   | Some i => bool_decide (i = rt_name r)
                                   | None => false
                                   end) l
  end.

Definition consume_checkin : prov bool :=
  mtry
    (r <- my_router ;;
     checkins <- (fun p => (Ok (pv_checkins p), p)) ;;
     match matching_checkin r checkins with
     | None => mreturn false
     | Some rest =>
         mmodify (fun p => p <| pv_checkins := rest |>) ;;;
         time <- now ;;
         set_me (fun s => s <| ps_status := PS_COMPLETED |> <| ps_success := true |>
                            <| ps_completed_at := Some time |> <| ps_progress := 1000 |>) ;;;
         commit_run ;;;
         s <- me ;;
         end_stream (ps_session_id s) true ;;;
         mreturn true
     end)
    (fun _ => mreturn false).

Definition unreachable_message (ip : string) : string :=
  "Router " +:+ ip +:+ " is on a private network (NAT) and the management agent is not installed yet, so the platform cannot reach it directly. Re-run the bootstrap command on the router to install the agent, then start provisioning again.".

Definition refuse_unreachable : prov bool :=
  mtry
    (s <- me ;;
     router <- router_by_id (ps_router_id s) ;;
     match router with
     | None => mreturn false
     | Some r =>
         if ip_is_private (rt_ip_address r) && negb (agent_ready r) then
           time <- now ;;
           set_me (fun s => s <| ps_status := PS_FAILED |> <| ps_success := false |>
                              <| ps_error_message := Some (unreachable_message (rt_ip_address r)) |>
                              <| ps_completed_at := Some time |>) ;;;
           commit_run ;;;
           end_stream (ps_session_id s) false ;;;
           mreturn true
         else mreturn false
     end)
    (fun _ => mreturn false).

Definition start_provisioning (sid : string) : prov bool :=
  mtry
    (found <- _get_session_by_id sid ;;
     (if (found : bool) then mreturn tt
      else mraise (ProvisioningError ("Session " +:+ sid +:+ " not found"))) ;;;
     s <- me ;;
     (if bool_decide (ps_status s = PS_PENDING) then mreturn tt
      else mraise (ProvisioningError ("Session " +:+ sid +:+ " is not in pending status"))) ;;;
     time <- now ;;
     set_me (fun s => s <| ps_status := PS_IN_PROGRESS |> <| ps_started_at := Some time |>
                        <| ps_current_step := STEP_CONNECTION |>) ;;;
     commit_run ;;;
     delivered <- deliver_by_agent ;;
     if (delivered : bool) then mreturn true
     else
       consumed <- consume_checkin ;;
       if (consumed : bool) then mreturn true
       else
         refused <- refuse_unreachable ;;
         if (refused : bool) then mreturn false
         else
           i <- my_id ;;
           schedule (Workflow i) ;;;
           mreturn true)
    (fun e => (if is_application_error e then mreturn tt else rollback_run) ;;; mreturn false).

(** ** The other operations on sessions *)
Definition cancel_provisioning (sid : string) (reason : option string) (force : bool) : prov bool :=
  mtry
    (found <- _get_session_by_id sid ;;
     s <- me ;;
     if negb found || negb (active_status (ps_status s)) then mreturn false
     else
       time <- now ;;
       set_me (fun s => s <| ps_status := PS_CANCELLED |>
                          <| ps_error_message := Some (match nonempty reason with
                                                      | Some r => "Cancelled by user: " +:+ r
                                                      | None => "Cancelled by user"
                                                      end) |>
                          <| ps_completed_at := Some time |>) ;;;
       i <- my_id ;;
       steps <- lift (query (fun db => select (fun _ l =>
         (sl_session_id l =? i) && bool_decide (sl_status l = PS_PENDING)) (t_prov_steps db))) ;;
       _ <- mfold (fun _ il => set_step il.1 (fun l => l <| sl_status := PS_CANCELLED |>)) tt steps ;;
       commit_run ;;;
       s <- me ;;
       mwhen (force || config_item "rollback_on_cancel" true s) (schedule (CancelRollback i)) ;;;
       mreturn true)
    (fun _ => mreturn false).

Definition step_order (s : ProvisioningStep) : Z :=
  match s with STEP_CONNECTION => 1 | STEP_CONFIGURATION => 2 | STEP_SERVICE_SETUP => 3 end.

Definition reset_step (l : ProvisioningStepLog) : ProvisioningStepLog :=
  l <| sl_status := PS_PENDING |> <| sl_started_at := None |> <| sl_completed_at := None |>
    <| sl_duration := None |> <| sl_error_details := None |>.

Definition retry_provisioning (sid : string) (from_step : option ProvisioningStep) (reset_configuration : bool)
    (updated : option Configuration) : prov bool :=
  found <- _get_session_by_id sid ;;
  s <- me ;;
  if negb found || negb (is_failed s) then mreturn false
  else
    set_me (fun s => s <| ps_status := PS_PENDING |> <| ps_error_message := None |> <| ps_success := false |>
                       <| ps_rollback_required := false |> <| ps_rollback_completed := false |>) ;;;
    (match updated with
     | None => mreturn tt
     | Some u =>
         if bool_decide (u = ∅) then mreturn tt
         else if reset_configuration then set_me (fun s => s <| ps_configuration := Some u |>)
         else set_me (fun s => s <| ps_configuration := Some (u ∪ default ∅ (ps_configuration s)) |>)
     end) ;;;
    let first := default STEP_CONNECTION from_step in
    i <- my_id ;;
    steps <- lift (query (fun db => select (fun _ l =>
      (sl_session_id l =? i) && (step_order first <=? sl_step_order l)) (t_prov_steps db))) ;;
    _ <- mfold (fun _ il => set_step il.1 reset_step) tt steps ;;
    set_me (fun s => s <| ps_current_step := first |> <| ps_progress := (step_order first - 1) * 333 |>) ;;;
    commit_run ;;;
    start_provisioning sid.

Definition delete_row (i : Z) (db : DB) : DB :=
  db <| t_prov_sessions ::= delete i |>
     <| t_prov_steps ::= filter (fun kl => sl_session_id kl.2 <> i) |>
     <| t_prov_commands ::= filter (fun kc => pc_session_id kc.2 <> i) |>.

(** The steps and commands go with their session. *)
Definition delete_session (sid : string) : prov bool :=
  found <- _get_session_by_id sid ;;
  s <- me ;;
  if negb found || active_status (ps_status s) then mreturn false
  else
    i <- my_id ;;
    lift (assign (delete_row i)) ;;;
    lift commit ;;;
    mreturn true.

(** [cancel_active_sessions_for_router]: all of them at once. *)
Definition force_cancelled (time : datetime) (s : ProvisioningSession) : ProvisioningSession :=
  s <| ps_status := PS_CANCELLED |> <| ps_error_message := Some "Force cancelled for reprovisioning" |>
    <| ps_completed_at := Some time |>.

Definition cancel_active_sessions_for_router (router_id : Z) : prov Z :=
  mtry
    (active <- lift (query (session_rows (fun s => (ps_router_id s =? router_id) && active_status (ps_status s)))) ;;
     time <- now ;;
     mwhen (negb (Nat.eqb (length active) 0))
       (_ <- mfold (fun _ row => lift (assign (over t_prov_sessions (alter (force_cancelled time) row.1)))) tt active ;;
        lift commit) ;;;
     mreturn (Z.of_nat (length active)))
    (fun e => mraise (HTTPException 500 ("Failed to cancel active sessions: " +:+ exn_text e))).

(** [provisioning_script_complete], the callback of the script, after the check
    of its token. [session.progress] is no column. *)
Definition provisioning_script_complete (sid status : string) : prov unit :=
  found <- _get_session_by_id sid ;;
  (if (found : bool) then mreturn tt else mraise (HTTPException 404 "Provisioning session not found")) ;;;
  time <- now ;;
  set_me (fun s =>
    if bool_decide (status = "failed") then
      s <| ps_status := PS_FAILED |> <| ps_completed_at := Some time |>
        <| ps_error_message := Some "Script-based provisioning reported failure" |>
    else s <| ps_status := PS_COMPLETED |> <| ps_completed_at := Some time |>) ;;;
  commit_run ;;;
  s <- me ;;
  mwhen (bool_decide (status = "completed") && negb (ps_router_id s =? 0))
    (quietly (mark_provisioning_complete (ps_router_id s) (service_text (ps_service_type s)))) ;;;
  lift (ws_send (WsComplete sid)).

(** [monitor_provisioning_sessions]: the sessions that run past their time. *)
Definition timed_out (time : datetime) (s : ProvisioningSession) : bool :=
  bool_decide (ps_status s = PS_IN_PROGRESS)
  && match ps_timeout_at s with Some t => t <? time | None => false end.

Definition time_out (time : datetime) (s : ProvisioningSession) : ProvisioningSession :=
  s <| ps_status := PS_TIMEOUT |> <| ps_error_message := Some "Provisioning session timed out" |>
    <| ps_completed_at := Some time |>
    <| ps_rollback_required ::= fun b => config_item "rollback_on_timeout" true s || b |>.

Definition monitor_provisioning_sessions : prov Z :=
  time <- now ;;
  late <- lift (query (session_rows (timed_out time))) ;;
  _ <- mfold (fun _ row =>
         lift (assign (over t_prov_sessions (alter (time_out time) row.1))) ;;;
         mwhen (config_item "rollback_on_timeout" true row.2) (schedule (CancelRollback row.1))) tt late ;;
  lift commit ;;;
  mreturn (Z.of_nat (length late)).

(** [cleanup_old_provisioning_sessions]: what ended more than 30 days ago. *)
Definition old_session (time : datetime) (s : ProvisioningSession) : bool :=
  negb (active_status (ps_status s))
  && match ps_completed_at s with Some t => t <? time - timedelta_days 30 | None => false end.

Definition cleanup_old_provisioning_sessions : prov Z :=
  time <- now ;;
  old <- lift (query (session_rows (old_session time))) ;;
  _ <- mfold (fun _ row => lift (assign (delete_row row.1))) tt old ;;
  lift commit ;;;
  mreturn (Z.of_nat (length old)).

(** [rollback_provisioning_session] *)
Definition rollback_provisioning_session (sid : string) : prov unit :=
  found <- _get_session_by_id sid ;;
  s <- me ;;
  if negb found then mraise (RuntimeError ("Provisioning session " +:+ sid +:+ " not found"))
  else if negb (ps_rollback_required s) || ps_rollback_completed s then mreturn tt
  else _execute_rollback.

(** [get_provisioning_script], after the check of its token *)
Definition script_configuration (s : ProvisioningSession) (db : DB) : Configuration :=
  let c := default ∅ (ps_configuration s) in
  let org := r ← t_routers db !! ps_router_id s; rt_organization_id r in
  match (match org with Some 0 => None | o => o end) with
  | Some o =>
      match t_organizations db !! o with
      | Some row =>
          let c := match truthy_get c "timezone", nonempty (t_org_timezones db !! o) with
                   | None, Some z => <["timezone" := CStr z]> c
                   | _, _ => c
                   end in
          let base := rstrip_char "/" (default "" backend_url) in
          let slug := org_row_slug row in
          if bool_decide (base = "") || bool_decide (slug = "") then c
          else
            let page name := CStr (base +:+ "/api/v1/provisioning/templates/" +:+ name +:+ "?org_slug=" +:+ slug) in
            set_default "alogin_template_url" (page "alogin.html")
              (set_default "login_template_url" (page "login.html") (set_default "org_slug" (CStr slug) c))
      | None => c
      end
  | None => c
  end.

Definition get_provisioning_script (sid token : string) : prov string :=
  found <- _get_session_by_id sid ;;
  (if (found : bool) then mreturn tt else mraise (HTTPException 404 "Provisioning session not found")) ;;;
  s <- me ;;
  c <- lift (query (script_configuration s)) ;;
  version <- of_outcome (match truthy_get (default ∅ (ps_configuration s)) "routeros_version" with
                         | Some v => s <-! as_text "strip" v ;; Ok (Some s)
                         | None => Ok None
                         end) ;;
  commands <- of_outcome (setup_commands (ps_service_type s) c version) ;;
  mreturn (render_script (default "" backend_url) sid token version commands).
End Provisioning.
