(* ===== verification/ProvisioningFacts.v ===== *)
(** * What provisioning guarantees

    The direct workflow cannot set up a router that refuses console scripts; the
    executor's attempts; the delivery by the agent; the callback of the script;
    at most one active session per router, as long as nothing is retried. *)

From S2P Require Import Prelude PyString Numerics Models Session AgentQueue RouterCli SetupCommands SetupCommandsFacts Provisioning.

Section Rules.
Context {be : Backend} {ros : RouterOS} {cfg : AgentConfig} {settings : SetupSettings} {env : ProvisioningEnv}.

(** ** Properties of the instance

    A property of the instance is kept by everything that does not assign to
    it. *)
Definition about_me (Q : ProvisioningSession -> Prop) (p : Prov) : Prop := Q (pv_me p).

Lemma keeps_lift {A} Q (m : run A) : preserves (about_me Q) (lift m).
Proof. intros p Hp. unfold lift. by destruct (m (pv_world p)). Qed.

Lemma keeps_elsewhere Q : preserves (about_me Q) elsewhere.
Proof. intros p Hp. unfold elsewhere. by destruct (pv_others p). Qed.

Lemma keeps_commit Q : preserves (about_me Q) commit_run.
Proof.
  intros p Hp. unfold commit_run. destruct (_ && _); [done|].
  apply preserves_then; [apply keeps_lift|intros _|done]. by intros q Hq.
Qed.

Lemma keeps_set_me (Q : ProvisioningSession -> Prop) f :
  (forall s, Q s -> Q (f s)) -> preserves (about_me Q) (set_me f).
Proof.
  intros Hf. unfold set_me. repeat (apply preserves_then; [|intros ?]); try apply keeps_lift.
  - by intros p Hp.
  - intros p Hp. by apply Hf.
Qed.

Lemma keeps_modify Q f : (forall p, pv_me (f p) = pv_me p) -> preserves (about_me Q) (mmodify f).
Proof. intros Hf p Hp. unfold about_me. simpl. by rewrite Hf. Qed.

Lemma keeps_end_stream Q sid b : preserves (about_me Q) (end_stream sid b).
Proof. intros p Hp. unfold end_stream. case_match; [by apply keeps_lift|done]. Qed.

Lemma keeps_when Q b m : preserves (about_me Q) m -> preserves (about_me Q) (mwhen b m).
Proof. intros Hm p Hp. destruct b; [by apply Hm|done]. Qed.

Lemma keeps_read {A} Q (f : Prov -> A) : preserves (about_me Q) (fun p => (Ok (f p), p)).
Proof. by intros p Hp. Qed.

(** One operation at a time. *)
Ltac keep_step :=
  first
    [ apply preserves_return | apply preserves_raise | apply keeps_lift | apply keeps_elsewhere
    | apply keeps_commit | apply keeps_modify; intros ?; reflexivity | apply keeps_end_stream
    | apply (keeps_read _ pv_me) | apply (keeps_read _ pv_id)
    | apply preserves_try; [|intros ?] | apply preserves_attempt | apply preserves_fold; intros ? ?
    | apply preserves_then; [|intros ?] | apply keeps_when
    | match goal with |- preserves _ (match ?x with _ => _ end) => destruct x eqn:? end ].
Ltac keep := repeat keep_step.

Lemma keeps_unbroken Q : preserves (about_me Q) unbroken.
Proof. apply keeps_lift. Qed.

Lemma keeps_set_step Q i f : preserves (about_me Q) (set_step i f).
Proof. unfold set_step, unbroken. keep. Qed.

Lemma keeps_set_command Q i f : preserves (about_me Q) (set_prov_command i f).
Proof. unfold set_prov_command, unbroken. keep. Qed.

Lemma keeps_router Q i : preserves (about_me Q) (router_by_id i).
Proof. unfold router_by_id. keep. Qed.

Lemma keeps_my_router Q : preserves (about_me Q) my_router.
Proof. unfold my_router, me. keep; apply keeps_router. Qed.

Lemma keeps_progress Q : preserves (about_me Q) _update_step_progress.
Proof. unfold _update_step_progress, unbroken. keep. Qed.

Lemma keeps_connect Q r : preserves (about_me Q) (connect r).
Proof. unfold connect. keep. Qed.

Lemma keeps_execute Q r c : preserves (about_me Q) (execute r c).
Proof. unfold execute. keep. Qed.

Lemma keeps_api Q r path m args : preserves (about_me Q) (api r path m args).
Proof. unfold api. keep. Qed.

Lemma keeps_attempts Q r c id n : forall k, preserves (about_me Q) (attempts r c id k n).
Proof.
  induction n as [|n IH]; intros k; cbn [attempts]; unfold now, run_command, before_retry;
    keep; try apply keeps_set_command; try apply keeps_execute; try apply keeps_connect; try apply IH.
Qed.

Lemma keeps_command Q r c : preserves (about_me Q) (execute_command_with_retry r c).
Proof. unfold execute_command_with_retry, my_id. repeat first [apply keeps_attempts | keep_step]. Qed.

Lemma keeps_run_commands Q r f l : preserves (about_me Q) (run_commands r f l).
Proof. unfold run_commands. repeat first [apply keeps_progress | apply keeps_command | keep_step]. Qed.

Lemma keeps_cleanup Q r : preserves (about_me Q) (cleanup_existing_provisioning r).
Proof. unfold cleanup_existing_provisioning, remove_by_filter, quietly. repeat first [apply keeps_api | keep_step]. Qed.

Lemma keeps_of_outcome {A} Q (o : outcome A) : preserves (about_me Q) (of_outcome o).
Proof. destruct o; keep. Qed.

Lemma keeps_configuration Q : preserves (about_me Q) my_configuration.
Proof. unfold my_configuration, me. keep. Qed.

Lemma keeps_verify Q c : preserves (about_me Q) (verify_basic_configuration c).
Proof. unfold verify_basic_configuration. keep. Qed.

Lemma keeps_schedule Q t : preserves (about_me Q) (schedule t).
Proof. unfold schedule. keep. Qed.
End Rules.

Ltac keep_step :=
  first
    [ apply preserves_return | apply preserves_raise | apply keeps_lift | apply keeps_elsewhere
    | apply keeps_commit | apply keeps_progress | apply keeps_set_step | apply keeps_set_command
    | apply keeps_my_router | apply keeps_router | apply keeps_connect | apply keeps_execute
    | apply keeps_api | apply keeps_command | apply keeps_run_commands | apply keeps_cleanup
    | apply keeps_of_outcome | apply keeps_configuration | apply keeps_verify | apply keeps_schedule
    | apply keeps_unbroken | apply keeps_end_stream
    | apply keeps_modify; intros ?; reflexivity
    | apply (keeps_read _ pv_me) | apply (keeps_read _ pv_id)
    | apply preserves_try; [|intros ?] | apply preserves_attempt | apply preserves_fold; intros ? ?
    | apply preserves_then; [|intros ?] | apply keeps_when
    | match goal with |- preserves _ (match ?x with _ => _ end) => destruct x eqn:? end ].
Ltac keep := repeat keep_step.

(** ** The direct workflow *)
Section Direct.
Context {be : Backend} {ros : RouterOS} {cfg : AgentConfig} {settings : SetupSettings} {env : ProvisioningEnv}.

(** RouterOS answers a path that is no resource with an error ([no such
    command]); the resources of its API begin with a slash. *)
Definition refuses_scripts : Prop :=
  forall d c, String.prefix "/" (ros_path c) = false ->
    exists m, fst (ros_execute d c) = Raise (ExternalServiceError m) /\
              is_already_exists_error (lower m) = false.

(** A requested port is not the WAN port. *)
Definition lan_port (c : Configuration) : Prop :=
  Exists (fun v => match v, get_or c "wan_interface" (CStr "ether1") with
                   | CStr p, CStr wan => same_port p wan = false
                   | _, _ => True
                   end) (requested_ports c).

Lemma port_command_parse bridge port :
  is_cli (c_command (port_command bridge port)) = true /\
  cli_path (_parse_cli_command (c_command (port_command bridge port))) = ":do" /\
  cli_method (_parse_cli_command (c_command (port_command bridge port))) = "get".
Proof.
  set (body := "{ " +:+ port_remove port +:+ " } on-error={}; /interface/bridge/port/add interface=" +:+ port
               +:+ " bridge=" +:+ bridge +:+ " hw=no").
  assert (E : c_command (port_command bridge port) = ":do" +:+ String " " body).
  { unfold port_command, guarded, body. cbn [c_command undoable]. by rewrite !string_app_assoc. }
  rewrite E. split; [|].
  - unfold is_cli. rewrite contains_char_app. done.
  - unfold _parse_cli_command.
    assert (Hs : strip (":do" +:+ String " " body) = ":do" +:+ String " " body).
    { apply strip_keep; [done|]. change (ends_in_word (":do " +:+ body)).
      unfold body. do 7 apply ends_in_word_app. by exists " hw=n", "o"%char. }
    rewrite Hs, cut_at_first by done. change (split_path ":do") with (":do", "get").
    cbn iota beta. by destruct (if bool_decide (body = "") then _ else _) as [item rest].
Qed.

Lemma sync_execute_get r c :
  cli_method c = "get" -> sync_execute r c = execute_command r (cli_path c) GET (given_params (cli_params c)).
Proof. intros H. unfold sync_execute. by rewrite H. Qed.

Context (Hrefuse : refuses_scripts).

Lemma port_command_refused r bridge port w :
  exists m w', execute_text r (c_command (port_command bridge port)) w = (Raise (ExternalServiceError m), w') /\
    is_already_exists_error (lower m) = false.
Proof.
  destruct (port_command_parse bridge port) as (Hc & Hp & Hm). unfold execute_text. rewrite Hc.
  set (c := _parse_cli_command _) in *. unfold mtry. rewrite sync_execute_get, Hp by done.
  unfold execute_command.
  destruct (Hrefuse (w_dev w) (mkRos (rt_ip_address r) ":do" GET (given_params (cli_params c)))) as (m & E & Hm'); [done|].
  destruct (ros_execute _ _) as [o d]. cbn [fst] in E. subst o. cbn iota beta.
  eexists m, _. split; [reflexivity|exact Hm'].
Qed.

(** The exceptions that are no remark about an existing item. *)
Definition plain_failure (e : exn) : Prop := is_already_exists_error (lower (exn_text e)) = false.

(** An attempt at the command of a port fails. *)
Lemma port_attempt_fails r bridge port id start (k : option (list Entry) -> prov unit) p :
  exists e p', (set_prov_command id start ;;;
                reply <- run_command r (port_command bridge port) ;; k reply) p = (Raise e, p') /\ plain_failure e.
Proof.
  unfold set_prov_command, unbroken, mthen at 1, mthen at 1. unfold lift at 1.
  destruct (w_broken (pv_world p)) eqn:Eb; cbn iota beta; [by do 2 eexists|].
  unfold lift at 1, assign, mmodify. cbn iota beta. unfold mthen, run_command, execute.
  change (bool_decide (c_type (port_command bridge port) = "api_call")) with true. cbn iota.
  set (q := p <| pv_world := _ |> <| pv_world := _ |>). unfold mthen.
  assert (He : exists q', elsewhere q = (Ok tt, q')) by (unfold elsewhere; case_match; by eexists).
  destruct He as [q' ->]. unfold lift.
  destruct (port_command_refused r bridge port (pv_world q')) as (m & w' & -> & Hm). by do 2 eexists.
Qed.
Lemma triple_any {A} (P : Prov -> Prop) (m : prov A) : triple P m (fun _ _ => True) (fun _ => True).
Proof. intros p _. by destruct (m p) as [[a|e] p']. Qed.

Lemma triple_drop {A B} (m : prov A) (k : A -> prov B) (Q : B -> Prov -> Prop) :
  (forall a, triple (fun _ => True) (k a) Q (fun _ => True)) ->
  triple (fun _ => True) (mthen m k) Q (fun _ => True).
Proof. intros Hk. by apply (triple_then _ _ _ (fun _ _ => True)); [apply triple_any|]. Qed.

Lemma triple_fact {A} (F : Prop) (m : prov A) Q E :
  (F -> triple (fun _ => True) m Q E) -> triple (fun _ => F) m Q E.
Proof. intros H p Hp. by apply H. Qed.

Lemma port_attempts_fail r bridge port id n : forall k,
  triple (fun _ => True) (attempts r (port_command bridge port) id k n) (fun b _ => b = false) (fun _ => True).
Proof.
  induction n as [|n IH]; intros k; cbn [attempts]; apply triple_drop; intros start.
  all: apply (triple_then _ _ _ (fun o _ => exists e, o = Raise e /\ plain_failure e)).
  1,3: intros p _; unfold mattempt;
    destruct (port_attempt_fails r bridge port id
      (fun x => x <| pc_executed_at := Some start |> <| pc_status := PS_IN_PROGRESS |>)
      (fun reply => finish <- now ;; set_prov_command id (finished start finish (output_of reply)) ;;; commit_run) p)
      as (e & p' & -> & He); by exists e.
  all: intros o; apply triple_fact; intros (e & -> & He); rewrite He.
  - do 3 (apply triple_drop; intros _). by intros q _.
  - do 4 (apply triple_drop; intros _). apply IH.
Qed.

Lemma port_command_fails r bridge port :
  triple (fun _ => True) (execute_command_with_retry r (port_command bridge port))
    (fun b _ => b = false) (fun _ => True).
Proof.
  unfold execute_command_with_retry. apply triple_drop. intros i. apply triple_drop. intros id.
  do 2 (apply triple_drop; intros _). apply port_attempts_fail.
Qed.

(** A list of commands with one that puts a port into the bridge is never
    executed to its end. *)
Lemma run_commands_stop r failure bridge port l :
  port_command bridge port ∈ l ->
  triple (fun _ => True) (run_commands r failure l) (fun _ _ => False) (fun _ => True).
Proof.
  unfold run_commands. induction l as [|c l IH]; intros Hin; [by apply elem_of_nil in Hin|].
  cbn [mfold]. apply elem_of_cons in Hin as [<-|Hin].
  - apply (triple_then _ _ _ (fun _ _ => False)); [|by intros a p].
    apply triple_drop. intros _. eapply triple_then; [apply port_command_fails|].
    intros b p ->. cbn [negb andb c_critical port_command undoable]. done.
  - apply triple_drop. intros []. by apply IH.
Qed.

Lemma lan_port_command c version l :
  lan_port c -> generate_configuration_commands c version = Ok l ->
  exists bridge port, port_command bridge port ∈ l.
Proof.
  intros Hl (subnet & cidr & plan & ntp & wan & ports & dns & _ & _ & Hw & Hp & _ & ->)%configuration_shape.
  unfold lan_port in Hl. rewrite Hw, Hp in Hl.
  apply Exists_exists in Hl as (v & (port & -> & Hport)%list_elem_of_fmap & Hv).
  exists (get_text c "bridge_name" "codevertex-bridge"), port.
  do 6 (apply elem_of_app; right). apply elem_of_app. left.
  apply list_elem_of_fmap. exists port. split; [done|]. by apply list_elem_of_filter.
Qed.

(** The sessions on their way: in progress with a port to set up, or failed. *)
Definition working (s : ProvisioningSession) : Prop :=
  ps_status s = PS_IN_PROGRESS /\ ps_success s = false /\ lan_port (default ∅ (ps_configuration s)).
Definition has_failed (s : ProvisioningSession) : Prop := ps_status s = PS_FAILED /\ ps_success s = false.
Definition unfinished (s : ProvisioningSession) : Prop := working s \/ has_failed s.

Lemma lan_port_version v c : lan_port c -> lan_port (<["routeros_version" := v]> c).
Proof.
  unfold lan_port, requested_ports, get_or. by rewrite !lookup_insert_ne by done.
Qed.

Lemma unfinished_failing f :
  (forall s, ps_status (f s) = PS_FAILED /\ ps_success (f s) = ps_success s) ->
  forall s, unfinished s -> has_failed (f s).
Proof. intros Hf s Hs. destruct (Hf s) as [H1 H2]. split; [done|]. rewrite H2. by destruct Hs as [(_ & ? & _)|[_ ?]]. Qed.

(** Once failed, the error handlers and the ends of the steps keep it so. *)
Lemma set_me_triple (P Q : ProvisioningSession -> Prop) f :
  (forall s, P s -> Q (f s)) -> triple (about_me P) (set_me f) (fun _ => about_me Q) (about_me P).
Proof.
  intros Hf p Hp. unfold set_me, unbroken, mthen, lift, my_id, assign, mmodify.
  destruct (w_broken (pv_world p)); [done|]. by apply Hf.
Qed.

Lemma handle_error_fails message :
  triple (about_me unfinished) (_handle_provisioning_error message)
    (fun _ => about_me has_failed) (about_me unfinished).
Proof.
  unfold _handle_provisioning_error.
  eapply triple_then; [apply triple_preserves, keeps_lift|]. intros time.
  eapply triple_then; [apply (set_me_triple unfinished has_failed); by apply unfinished_failing|]. intros [].
  apply (triple_weaken _ (about_me has_failed) _ _ (fun _ => about_me has_failed) _ (about_me has_failed));
    [done|done|intros p Hp; by right|].
  apply triple_preserves. unfold me, my_id.
  repeat first [apply keeps_set_me; intros ? [? ?]; by split | keep_step].
Qed.

Lemma step_error_fails which log message :
  triple (about_me unfinished) (_handle_step_error which log message)
    (fun _ => about_me has_failed) (about_me unfinished).
Proof.
  unfold _handle_step_error.
  eapply triple_then; [apply triple_preserves, keeps_lift|]. intros time.
  eapply triple_then; [apply triple_preserves, keeps_set_step|]. intros []. apply handle_error_fails.
Qed.

(** A step whose work keeps the session on its way does so, error handler
    included. *)
Lemma step_keeps which work next :
  (forall r, preserves (about_me unfinished) (work r)) -> (forall s, unfinished s -> unfinished (next s)) ->
  preserves (about_me unfinished) (step which work next).
Proof.
  intros Hw Hn. unfold step, _get_step_log, begin_step, end_step, now, my_id.
  apply preserves_then; [keep|]. intros found. apply preserves_try.
  - repeat first [apply Hw | apply keeps_set_me; apply Hn | keep_step].
  - intros e. apply preserves_triple.
    apply (triple_weaken _ (about_me unfinished) _ _ (fun _ => about_me has_failed) _ (about_me unfinished));
      [done|intros _ p Hp; by right|done|]. apply step_error_fails.
Qed.

Lemma still_working {A} (m : prov A) :
  preserves (about_me working) m ->
  triple (about_me working) m (fun _ => about_me working) (about_me unfinished).
Proof.
  intros Hm p Hp. specialize (Hm p Hp). destruct (m p) as [[a|e] p']; [done|by left].
Qed.

(** A step whose work never ends without an error leaves a failed session. *)
Lemma step_stops which work next :
  (forall r, triple (about_me working) (work r) (fun _ _ => False) (about_me unfinished)) ->
  triple (about_me working) (step which work next) (fun _ => about_me has_failed) (about_me unfinished).
Proof.
  intros Hw. unfold step.
  eapply triple_then; [apply still_working; unfold _get_step_log, my_id; keep|]. intros found.
  eapply triple_try; [|intros e; apply step_error_fails].
  eapply triple_then; [apply still_working; unfold begin_step, now; keep|]. intros [].
  eapply triple_then; [apply still_working; keep|]. intros r.
  eapply triple_then; [apply Hw|]. by intros [] p.
Qed.

Lemma lan_port_fresh v : lan_port (<["routeros_version" := v]> ∅).
Proof. apply lan_port_version. unfold lan_port. apply Exists_cons_hd. by vm_compute. Qed.

Lemma remember_version_keeps info : preserves (about_me working) (remember_version info).
Proof.
  unfold remember_version, me. destruct (info !! "version") as [v|]; [|keep].
  assert (H : preserves (about_me working) (s <- me ;; if bool_decide (default ∅ (ps_configuration s) = ∅)
    then set_me (fun s => s <| ps_configuration := Some (<["routeros_version" := CStr v]> ∅) |>)
    else mmodify (fun p => p <| pv_me ::= fun s => s <| ps_configuration ::= fmap <["routeros_version" := CStr v]> |> |>)));
    [|by destruct v; [keep|]].
  unfold me. apply preserves_then; [keep|]. intros s0. case_match.
  - apply keeps_set_me. intros s (H1 & H2 & H3). split_and!; try done. apply lan_port_fresh.
  - intros p (H1 & H2 & H3). unfold about_me, working. cbn. split_and!; try done.
    destruct (ps_configuration (pv_me p)); [by apply lan_port_version|done].
Qed.

Lemma connection_keeps r : preserves (about_me working) (connection_work r).
Proof.
  unfold connection_work, get_system_info, ok_or_none, _validate_router_compatibility.
  repeat first [apply remember_version_keeps | keep_step].
Qed.

Lemma connection_step_keeps :
  triple (about_me working) _execute_connection_step (fun _ => about_me unfinished) (about_me unfinished).
Proof.
  unfold _execute_connection_step, step.
  eapply triple_then; [apply still_working; unfold _get_step_log, my_id; keep|]. intros found.
  eapply triple_try; [|intros e; eapply (triple_weaken _ _ _ _ (fun _ => about_me has_failed)); 
    [done|intros _ p Hp; by right|done|apply step_error_fails]].
  eapply triple_then; [apply still_working; unfold begin_step, now; keep|]. intros [].
  eapply triple_then; [apply still_working; keep|]. intros r.
  eapply triple_then; [apply still_working, connection_keeps|]. intros [].
  apply (triple_weaken _ (about_me working) _ _ (fun _ => about_me working) _ (about_me working));
    [done|intros _ p Hp; by left|intros p Hp; by left|]. apply triple_preserves.
  unfold end_step, now.
  repeat first [apply keeps_set_me; intros s (? & ? & ?); by split_and! | keep_step].
Qed.

(** The commands of the second step are never executed to their end. *)
Lemma configuration_stops r :
  triple (about_me working) (configuration_work r) (fun _ _ => False) (about_me unfinished).
Proof.
  unfold configuration_work.
  eapply triple_then; [apply still_working; keep|]. intros [].
  eapply triple_then.
  { instantiate (1 := fun c p => about_me working p /\ lan_port c).
    intros p Hp. unfold my_configuration, me, mthen. cbn. split; [done|]. by destruct Hp as (_ & _ & ?). }
  intros c p [Hp Hc]. revert p Hp.
  change (triple (about_me working) (_update_step_progress ;;; cleanup_existing_provisioning r ;;;
    _update_step_progress ;;; version <- of_outcome (command_version c r) ;;
    commands <- of_outcome (generate_configuration_commands c version) ;;
    run_commands r "Critical command failed: " commands ;;; _update_step_progress ;;;
    verify_basic_configuration c ;;; _update_step_progress) (fun _ _ => False) (about_me unfinished)).
  do 3 (eapply triple_then; [apply still_working; keep|]; intros []).
  eapply triple_then; [apply still_working; keep|]. intros version.
  destruct (generate_configuration_commands c version) as [l|e] eqn:El.
  - change (of_outcome (Ok l)) with (mreturn (S := Prov) l).
    destruct (lan_port_command c version l Hc El) as (bridge & port & Hin).
    intros p Hp. unfold mthen at 1, mreturn at 1. cbn iota beta.
    assert (H1 := run_commands_stop r "Critical command failed: " bridge port l Hin p I).
    assert (H2 := keeps_run_commands working r "Critical command failed: " l p Hp).
    unfold mthen at 1. destruct (run_commands _ _ _ p) as [[[]|e] p']; [done|by left].
  - intros p Hp. by left.
Qed.

Definition not_completed (s : ProvisioningSession) : Prop := ps_success s = false /\ ps_status s <> PS_COMPLETED.

Lemma unfinished_not_completed s : unfinished s -> not_completed s.
Proof. by intros [(H1 & H2 & _)|[H1 H2]]; split; rewrite ?H1. Qed.

Lemma unless_failed_keeps rest :
  triple (about_me working) rest (fun _ => about_me has_failed) (about_me unfinished) ->
  triple (about_me unfinished) (unless_failed rest) (fun _ => about_me has_failed) (about_me unfinished).
Proof.
  intros Hr p Hp. unfold unless_failed, me, mthen, is_failed. cbn.
  destruct Hp as [Hw|Hf].
  - rewrite bool_decide_eq_false_2 by (by destruct Hw as (-> & _)). by apply Hr.
  - rewrite bool_decide_eq_true_2 by apply Hf.
    assert (H := keeps_end_stream has_failed (ps_session_id (pv_me p)) false p Hf).
    destruct (end_stream _ _ p) as [[[]|e] p']; [done|by right].
Qed.

Lemma failed_stays rest : triple (about_me has_failed) (unless_failed rest) (fun _ => about_me has_failed) (about_me unfinished).
Proof.
  intros p Hp. unfold unless_failed, me, mthen, is_failed. cbn.
  rewrite bool_decide_eq_true_2 by apply Hp.
  assert (H := keeps_end_stream has_failed (ps_session_id (pv_me p)) false p Hp).
  destruct (end_stream _ _ p) as [[[]|e] p']; [done|by right].
Qed.

Lemma workflow_fails :
  triple (about_me working) _execute_provisioning_workflow (fun _ => about_me has_failed) (about_me unfinished).
Proof.
  unfold _execute_provisioning_workflow, start_stream.
  eapply triple_then; [apply still_working; unfold me; keep|]. intros s.
  eapply triple_try.
  - eapply triple_then; [apply still_working; keep|]. intros [].
    eapply triple_then; [apply connection_step_keeps|]. intros [].
    apply unless_failed_keeps.
    eapply triple_then; [apply step_stops, configuration_stops|]. intros [].
    apply failed_stays.
  - intros e. eapply triple_then; [apply triple_preserves; keep|]. intros [].
    apply handle_error_fails.
Qed.

(** C7. The direct workflow cannot set up a router that answers a console script
    sent as an API path with an error, as RouterOS does: whatever else the router
    answers and whatever happens meanwhile, the run of a session that asks for a
    port beside the WAN port never completes it; a run that ends without an error
    of the database leaves it failed. *)
Theorem direct_setup_never_completes r p p' :
  ps_status (pv_me p) = PS_IN_PROGRESS -> ps_success (pv_me p) = false ->
  lan_port (default ∅ (ps_configuration (pv_me p))) ->
  _execute_provisioning_workflow p = (r, p') ->
  ps_success (pv_me p') = false /\ ps_status (pv_me p') <> PS_COMPLETED /\
  (r = Ok tt -> ps_status (pv_me p') = PS_FAILED).
Proof.
  intros Hs Hx Hl Hrun. assert (H := workflow_fails p (conj Hs (conj Hx Hl))). rewrite Hrun in H.
  destruct r as [[]|e].
  - destruct H as [H1 H2]. by rewrite H1.
  - destruct H as [(H1 & H2 & _)|[H1 H2]]; by rewrite H1.
Qed.
End Direct.

(** *** Concrete sessions *)
Definition demo_env {ros : RouterOS} : ProvisioningEnv := {|
  private_v6 := fun _ => false; provisioning_token := fun u => "token-" +:+ u;
  ftp_upload := fun d _ => (Ok tt, d) |}.

(** A router that knows its resources and no console scripts; it accepts every
    other command. *)
#[local] Instance strict_router : RouterOS := {|
  Dev := unit;
  ros_connect := fun d _ => (Ok tt, d);
  ros_execute := fun d c =>
    if String.prefix "/" (ros_path c)
    then (Ok (Some [({["version" := "7.18.2"; "free-memory" := "104857600"; "cpu-load" := "3"]} : Entry)]), d)
    else (Raise (ExternalServiceError "no such command prefix"), d);
  ros_active := fun d _ => ([], d) |}.

#[local] Instance strict_env : ProvisioningEnv := demo_env.
#[local] Existing Instance demo_settings.

Definition prov_start (db : DB) : Prov := mkProv (start 1000 db tt) 0 blank_session false [] [] ∅ [].
Definition branch_db : DB := empty_db <| t_routers := {[7 := sample_router]} |>.

(** A session of the router, started as the service starts it. *)
Definition started : outcome unit * Prov :=
  (create_provisioning_session "s-1" 7 1 ST_HOTSPOT {["bridge_ports" := CList [CStr "ether3"]]} None ;;;
   set_me (fun s => s <| ps_status := PS_IN_PROGRESS |>) ;;; commit_run) (prov_start branch_db).

Lemma strict_refuses : refuses_scripts.
Proof. intros d c Hp. exists "no such command prefix". cbn. by rewrite Hp. Qed.

Lemma direct_setup_never_completes_witness :
  exists r p', _execute_provisioning_workflow (snd started) = (r, p') /\
    ps_error_message (pv_me p') <> None /\
    ps_success (pv_me p') = false /\ ps_status (pv_me p') <> PS_COMPLETED /\
    (r = Ok tt -> ps_status (pv_me p') = PS_FAILED).
Proof.
  destruct (_execute_provisioning_workflow (snd started)) as [r p'] eqn:E.
  exists r, p'. split; [reflexivity|]. split.
  - assert (H : ps_error_message (pv_me (snd (_execute_provisioning_workflow (snd started)))) <> None)
      by (vm_compute; discriminate).
    by rewrite E in H.
  - apply (direct_setup_never_completes strict_refuses r (snd started) p'); [reflexivity|reflexivity| |exact E].
    vm_compute. apply Exists_cons_hd. reflexivity.
Defined.
