(* ===== verification/ActiveSessions.v ===== *)
(** * At most one active session per router

    [create_provisioning_session] refuses a router that has an active session.
    Here: every operation on sessions but [retry_provisioning] keeps at most one
    active session per router, and [retry_provisioning] does not. *)

From S2P Require Import Prelude PyString Numerics Models Session AgentQueue RouterCli SetupCommands SetupCommandsFacts Provisioning ProvisioningFacts.

Definition one_active (m : gmap Z ProvisioningSession) : Prop :=
  forall i j s t, m !! i = Some s -> m !! j = Some t ->
    active_status (ps_status s) = true -> active_status (ps_status t) = true ->
    ps_router_id s = ps_router_id t -> i = j.

Definition one_active_db (db : DB) : Prop := one_active (t_prov_sessions db).

(** A change of a row that makes no session active and moves none. *)
Definition harmless (f : ProvisioningSession -> ProvisioningSession) : Prop :=
  forall s, active_status (ps_status (f s)) = true ->
    active_status (ps_status s) = true /\ ps_router_id (f s) = ps_router_id s.

Lemma one_active_alter f i m : harmless f -> one_active m -> one_active (alter f i m).
Proof.
  intros Hf Hm a b s t Ha Hb Hs Ht Hr.
  apply lookup_alter_Some in Ha, Hb.
  destruct Ha as [(<- & s0 & Ha & ->)|[_ Ha]], Hb as [(<- & t0 & Hb & ->)|[_ Hb]]; [done| | |].
  - destruct (Hf _ Hs) as [Hs0 E]. apply (Hm _ _ s0 t); [done..|]. by rewrite <- E.
  - destruct (Hf _ Ht) as [Ht0 E]. apply (Hm _ _ s t0); [done..|]. by rewrite <- E.
  - by apply (Hm _ _ s t).
Qed.

Lemma one_active_insert i s m :
  one_active m ->
  (forall j t, m !! j = Some t -> ps_router_id t = ps_router_id s -> active_status (ps_status t) = false) ->
  one_active (<[i := s]> m).
Proof.
  intros Hm Hnone a b u v Ha Hb Hu Hv Hr.
  apply lookup_insert_Some in Ha, Hb.
  destruct Ha as [[<- <-]|[_ Ha]], Hb as [[<- <-]|[_ Hb]]; [done| | |].
  - by rewrite (Hnone b v) in Hv.
  - by rewrite (Hnone a u) in Hu.
  - by apply (Hm _ _ u v).
Qed.

(** The row [i] replaced by one with another active status. *)
Lemma one_active_same f i m s :
  m !! i = Some s -> active_status (ps_status s) = true ->
  ps_router_id (f s) = ps_router_id s -> one_active m -> one_active (alter f i m).
Proof.
  intros Hi Hs E Hm a b u v Ha Hb Hu Hv Hr.
  apply lookup_alter_Some in Ha, Hb.
  destruct Ha as [(<- & s0 & Ha & ->)|[_ Ha]], Hb as [(<- & t0 & Hb & ->)|[_ Hb]]; [done| | |]; simplify_eq.
  - apply (Hm _ _ s v); [done..|]. by rewrite <- E.
  - apply (Hm _ _ u s); [done..|]. by rewrite <- E.
  - by apply (Hm _ _ u v).
Qed.

Section Rules.
Context {be : Backend} {ros : RouterOS} {cfg : AgentConfig} {settings : SetupSettings} {env : ProvisioningEnv}.

(** The tables, and what others do to them meanwhile. *)
Definition calm (p : Prov) : Prop :=
  db_inv one_active_db (pv_world p) /\
  Forall (fun e => forall db, one_active_db db -> one_active_db (el_change e db)) (pv_others p).

Lemma calm_lift {A} (m : run A) : preserves (db_inv one_active_db) m -> preserves calm (lift m).
Proof.
  intros Hm p [Hp Ho]. specialize (Hm _ Hp). unfold lift.
  destruct (m (pv_world p)) as [r w]. split; [exact Hm|exact Ho].
Qed.

Lemma calm_elsewhere : preserves calm elsewhere.
Proof.
  intros p Hp. unfold elsewhere. destruct (pv_others p) as [|e l] eqn:E; [done|].
  destruct Hp as [[Hv Hd] Ho]. rewrite E in Ho. apply Forall_cons in Ho as [He Ho]. split; [|done]. split; by apply He.
Qed.

Lemma calm_modify f :
  (forall p, pv_world (f p) = pv_world p) -> (forall p, pv_others (f p) = pv_others p) ->
  preserves calm (mmodify f).
Proof. intros H1 H2 p [Hp Ho]. split; simpl; by rewrite ?H1, ?H2. Qed.

Lemma calm_commit : preserves calm commit_run.
Proof.
  intros p Hp. unfold commit_run. destruct (_ && _).
  - destruct Hp as [[Hv Hd] Ho]. by repeat split.
  - apply preserves_then; [apply calm_lift, preserves_commit|intros _|done]. by apply calm_modify.
Qed.

Lemma calm_set_me f : harmless f -> preserves calm (set_me f).
Proof.
  intros Hf. unfold set_me, unbroken, my_id.
  apply preserves_then; [apply calm_lift; intros w Hw; by case_match|]. intros _.
  apply preserves_then; [by intros p|]. intros i.
  apply preserves_then; [|intros _; by apply calm_modify].
  apply calm_lift, preserves_assign. intros db. by apply one_active_alter.
Qed.

Lemma calm_end_stream sid b : preserves calm (end_stream sid b).
Proof. intros p Hp. unfold end_stream. case_match; [|done]. by apply (calm_lift _ (preserves_ws_send _ _)). Qed.

Lemma calm_read {A} (f : Prov -> A) : preserves calm (fun p => (Ok (f p), p)).
Proof. by intros p. Qed.

Lemma calm_when b m : preserves calm m -> preserves calm (mwhen b m).
Proof. intros Hm p Hp. destruct b; [by apply Hm|done]. Qed.

Lemma calm_unbroken : preserves calm unbroken.
Proof. apply calm_lift. intros w Hw. by case_match. Qed.

Lemma execute_text_keeps r c : preserves (db_inv one_active_db) (execute_text r c).
Proof. unfold execute_text, sync_execute, set_item. preserve. Qed.

Lemma calm_execute r c : preserves calm (execute r c).
Proof. apply preserves_then; [apply calm_elsewhere|]. intros _. apply calm_lift, execute_text_keeps. Qed.
Lemma calm_connect r : preserves calm (connect r).
Proof. apply preserves_then; [apply calm_elsewhere|]. intros _. apply calm_lift, preserves_connect. Qed.
Lemma calm_api r path m args : preserves calm (api r path m args).
Proof. apply preserves_then; [apply calm_elsewhere|]. intros _. apply calm_lift, preserves_execute_command. Qed.
Lemma calm_queue i a ps n src sid ex : preserves calm (lift (queue_command i a ps n src sid ex)).
Proof. apply calm_lift. unfold queue_command. preserve. done. Qed.
End Rules.

Ltac calm_step :=
  first
    [ apply preserves_return | apply preserves_raise | apply calm_elsewhere | apply calm_commit
    | apply calm_unbroken | apply calm_end_stream | apply calm_execute | apply calm_connect | apply calm_api
    | apply calm_queue | apply (calm_read pv_me) | apply (calm_read pv_id)
    | apply calm_set_me; intros ?; first [done | intros ?; by split]
    | apply calm_modify; intros ?; reflexivity
    | apply preserves_try; [|intros ?] | apply preserves_attempt | apply preserves_fold; intros ? ?
    | apply preserves_then; [|intros ?] | apply calm_when
    | apply calm_lift; preserve; try done
    | match goal with |- preserves _ (match ?x with _ => _ end) => destruct x eqn:? end ].
Ltac calm := repeat calm_step.

(** ** The workflow and the rollbacks *)
Section Workflow.
Context {be : Backend} {ros : RouterOS} {cfg : AgentConfig} {settings : SetupSettings} {env : ProvisioningEnv}.

Lemma calm_set_step i f : preserves calm (set_step i f).
Proof. unfold set_step. calm. Qed.

Lemma calm_set_command i f : preserves calm (set_prov_command i f).
Proof. unfold set_prov_command. calm. Qed.

Lemma calm_router i : preserves calm (router_by_id i).
Proof. unfold router_by_id. calm. Qed.

Lemma calm_attempts r c id n : forall k, preserves calm (attempts r c id k n).
Proof.
  induction n as [|n IH]; intros k; cbn [attempts]; unfold now, run_command, before_retry;
    repeat first [apply calm_set_command | apply IH | calm_step].
Qed.

Lemma calm_run_commands r f l : preserves calm (run_commands r f l).
Proof.
  unfold run_commands, execute_command_with_retry, _update_step_progress, my_id.
  repeat first [apply calm_attempts | calm_step].
Qed.

Lemma calm_handle_error message : preserves calm (_handle_provisioning_error message).
Proof. unfold _handle_provisioning_error, now, me, my_id, schedule. calm. Qed.

Lemma calm_get_step_log which : preserves calm (_get_step_log which).
Proof. unfold _get_step_log, my_id. calm. Qed.

Lemma calm_my_router : preserves calm my_router.
Proof. unfold my_router, me. apply preserves_then; [calm|intros ?]. apply preserves_then; [apply calm_router|intros ?]. calm. Qed.

Lemma calm_step_error which log message : preserves calm (_handle_step_error which log message).
Proof.
  unfold _handle_step_error, now. apply preserves_then; [calm|intros ?].
  apply preserves_then; [apply calm_set_step|intros ?]. apply calm_handle_error.
Qed.

Lemma calm_step_frame which work next :
  (forall r, preserves calm (work r)) -> harmless next -> preserves calm (step which work next).
Proof.
  intros Hw Hn. unfold step. apply preserves_then; [apply calm_get_step_log|intros found].
  apply preserves_try; [|intros e; apply calm_step_error]. unfold begin_step, end_step, now.
  repeat match goal with |- preserves _ (mthen _ _) => apply preserves_then; [|intros ?] end;
    first [apply calm_set_me, Hn | apply calm_set_step | apply calm_my_router | apply Hw | calm].
Qed.

Lemma calm_of_outcome {A} (o : outcome A) : preserves calm (of_outcome o).
Proof. destruct o; calm. Qed.

Lemma calm_cleanup r : preserves calm (cleanup_existing_provisioning r).
Proof. unfold cleanup_existing_provisioning, remove_by_filter, quietly. calm. Qed.

Lemma calm_security r c : preserves calm (apply_security_configuration r c).
Proof. unfold apply_security_configuration, quietly. calm. Qed.

Lemma calm_verify_service r t c : preserves calm (verify_service_configuration r t c).
Proof. unfold verify_service_configuration, get_hotspot_servers, ok_or_none. calm. Qed.

Lemma calm_progress : preserves calm _update_step_progress.
Proof. unfold _update_step_progress. calm. Qed.

Lemma calm_my_configuration : preserves calm my_configuration.
Proof. unfold my_configuration, me. calm. Qed.

Lemma calm_upload r c : preserves calm (upload_pages r c).
Proof.
  unfold upload_pages, quietly.
  repeat first [apply calm_lift; intros w Hw; destruct (ftp_upload _ _); exact Hw | calm_step].
Qed.

Lemma calm_connection r : preserves calm (connection_work r).
Proof.
  unfold connection_work, _update_step_progress, get_system_info, ok_or_none, remember_version,
    _validate_router_compatibility, me. calm.
Qed.

Ltac calm_work :=
  repeat match goal with
    | |- preserves _ (mthen _ _) => apply preserves_then; [|intros ?]
    | |- preserves _ (mwhen _ _) => apply calm_when
    | |- preserves _ (of_outcome _) => apply calm_of_outcome
    | |- preserves _ _update_step_progress => apply calm_progress
    | |- preserves _ (cleanup_existing_provisioning _) => apply calm_cleanup
    | |- preserves _ (run_commands _ _ _) => apply calm_run_commands
    | |- preserves _ (apply_security_configuration _ _) => apply calm_security
    | |- preserves _ (verify_service_configuration _ _ _) => apply calm_verify_service
    | |- preserves _ (upload_pages _ _) => apply calm_upload
    | |- preserves _ my_configuration => apply calm_my_configuration
    | |- preserves _ (connect _) => apply calm_connect
    | |- preserves _ me => apply (calm_read pv_me)
    end.

Lemma calm_configuration r : preserves calm (configuration_work r).
Proof. unfold configuration_work. calm_work. unfold verify_basic_configuration. calm. Qed.

Lemma calm_service r : preserves calm (service_work r).
Proof. unfold service_work. calm_work. Qed.

Lemma calm_mark_complete i t : preserves calm (mark_provisioning_complete i t).
Proof. unfold mark_provisioning_complete, now. calm. Qed.

Lemma calm_steps :
  preserves calm _execute_connection_step /\ preserves calm _execute_configuration_step /\
  preserves calm _execute_service_setup_step.
Proof.
  split_and!; (apply calm_step_frame; [|intros s Hs; by split]).
  - exact calm_connection.
  - exact calm_configuration.
  - exact calm_service.
Qed.

Lemma calm_complete : preserves calm complete_workflow.
Proof.
  unfold complete_workflow, quietly, now.
  repeat match goal with
    | |- preserves _ (mthen _ _) => apply preserves_then; [|intros ?]
    | |- preserves _ (mwhen _ _) => apply calm_when
    | |- preserves _ (mtry _ _) => apply preserves_try; [|intros ?]
    | |- preserves _ (mark_provisioning_complete _ _) => apply calm_mark_complete
    end; calm.
Qed.

Lemma calm_unless_failed rest : preserves calm rest -> preserves calm (unless_failed rest).
Proof.
  intros Hr. unfold unless_failed. apply preserves_then; [apply (calm_read pv_me)|]. intros s.
  destruct (is_failed s); [apply calm_end_stream|done].
Qed.

Lemma calm_workflow : preserves calm _execute_provisioning_workflow.
Proof.
  destruct calm_steps as (H1 & H2 & H3). unfold _execute_provisioning_workflow.
  apply preserves_then; [apply (calm_read pv_me)|]. intros s. apply preserves_try.
  - apply preserves_then; [by apply calm_modify|]. intros _.
    apply preserves_then; [done|]. intros _. apply calm_unless_failed.
    apply preserves_then; [done|]. intros _. apply calm_unless_failed.
    apply preserves_then; [done|]. intros _. apply calm_complete.
  - intros e. apply preserves_then; [apply calm_end_stream|]. intros _. apply calm_handle_error.
Qed.

Lemma calm_execute_rollback : preserves calm execute_rollback.
Proof. unfold execute_rollback, my_id, me. repeat first [apply calm_router | calm_step]. Qed.

Lemma calm_cancel_rollback : preserves calm _execute_rollback.
Proof. unfold _execute_rollback, undo, my_id, me. repeat first [apply calm_router | apply calm_set_command | calm_step]. Qed.
End Workflow.

(** ** Operations that only read *)
Section Reads.
Context {be : Backend} {ros : RouterOS} {cfg : AgentConfig} {settings : SetupSettings} {env : ProvisioningEnv}.

Definition reads {A} (m : prov A) : Prop := forall p, snd (m p) = p.

Lemma reads_return {A} (a : A) : reads (mreturn a).
Proof. done. Qed.
Lemma reads_raise {A} e : reads (mraise (A := A) e).
Proof. done. Qed.
Lemma reads_then {A B} (m : prov A) (k : A -> prov B) : reads m -> (forall a, reads (k a)) -> reads (mthen m k).
Proof.
  intros Hm Hk p. specialize (Hm p). unfold mthen. destruct (m p) as [[a|e] q]; simpl in *; subst; [apply Hk|done].
Qed.
Lemma reads_try {A} (m : prov A) h : reads m -> (forall e, reads (h e)) -> reads (mtry m h).
Proof.
  intros Hm Hh p. specialize (Hm p). unfold mtry. destruct (m p) as [[a|e] q]; simpl in *; subst; [done|apply Hh].
Qed.
Lemma reads_query {A} (f : DB -> A) : reads (lift (query f)).
Proof. intros []. unfold lift, query. simpl. by destruct (w_broken _). Qed.
Lemma run_query {A} (f : DB -> A) p :
  lift (query f) p = if w_broken (pv_world p) then (Raise PendingRollbackError, p) else (Ok (f (w_view (pv_world p))), p).
Proof. destruct p. unfold lift, query. simpl. by destruct (w_broken _). Qed.
Lemma run_scalar {A} (l : list A) p :
  lift (scalar_one_or_none l) p =
    (match l with [] => Ok None | [x] => Ok (Some x) | _ => Raise MultipleResultsFound end, p).
Proof. destruct p. by destruct l as [|x [|y l]]. Qed.
Lemma reads_scalar {A} (l : list A) : reads (lift (scalar_one_or_none l)).
Proof. intros []. by destruct l as [|x [|y l]]. Qed.
Lemma reads_now : reads now.
Proof. by intros []. Qed.

Ltac reads :=
  repeat first
    [ apply reads_return | apply reads_raise | apply reads_query | apply reads_scalar | apply reads_now
    | apply reads_try; [|intros ?] | apply reads_then; [|intros ?]
    | match goal with |- reads (match ?x with _ => _ end) => destruct x end ].

Lemma reads_router i : reads (router_by_id i).
Proof. unfold router_by_id. reads. Qed.
Lemma reads_active i : reads (_get_active_session i).
Proof. unfold _get_active_session. reads. Qed.
Lemma reads_validate t c i u : reads (_validate_configuration t c i u).
Proof. unfold _validate_configuration, _get_organization_slug, _get_organization_settings. reads. Qed.

(** A reading step before [k] changes nothing for [k]. *)
Lemma triple_reads {A B} P (m : prov A) (k : A -> prov B) Q E :
  reads m -> (forall p, P p -> E p) -> (forall a, triple P (k a) Q E) -> triple P (mthen m k) Q E.
Proof.
  intros Hm HE Hk p Hp. specialize (Hm p). unfold mthen.
  destruct (m p) as [[a|e] q]; simpl in *; subst; [by apply Hk|by apply HE].
Qed.

(** ** Creating *)
Definition router_free (router_id : Z) (p : Prov) : Prop :=
  forall j t, t_prov_sessions (w_view (pv_world p)) !! j = Some t -> ps_router_id t = router_id ->
    active_status (ps_status t) = false.

Lemma no_active_session router_id :
  triple calm (_get_active_session router_id)
    (fun o p => calm p /\ (o = None -> router_free router_id p)) calm.
Proof.
  intros p Hp. unfold _get_active_session, mthen, session_rows. rewrite run_query.
  destruct (w_broken _); [done|]. rewrite run_scalar.
  destruct (select _ _) as [|x [|y l]] eqn:El.
  - split; [done|]. intros _ j t Hj Hr. assert (H := select_nil_inv _ _ j t El Hj).
    cbn beta in H. by rewrite Hr, Z.eqb_refl in H.
  - by split.
  - done.
Qed.

Lemma calm_insert id s p :
  calm p -> router_free (ps_router_id s) p ->
  calm (p <| pv_world ::= over w_view (over t_prov_sessions (insert id s)) |>).
Proof. intros [[Hv Hd] Ho] Hf. split; [|done]. split; [|done]. by apply one_active_insert. Qed.

Lemma calm_create sid router_id user_id t c template :
  preserves calm (create_provisioning_session sid router_id user_id t c template).
Proof.
  unfold create_provisioning_session. apply preserves_try.
  2: intros e; unfold rollback_run; calm.
  apply preserves_triple.
  apply triple_reads; [apply reads_router|done|]. intros router.
  apply triple_reads; [reads|done|]. intros [].
  apply (triple_then _ _ _ (fun o p => calm p /\ (o = None -> router_free router_id p))); [apply no_active_session|].
  intros o. destruct o as [[i s]|].
  { apply (triple_weaken _ calm _ _ (fun _ => calm) _ calm); [by intros p []|done|done|].
    apply triple_preserves. calm. }
  apply (triple_weaken _ (fun p => calm p /\ router_free router_id p) _ _ (fun _ => calm) _ calm);
    [intros p [H1 H2]; split; [done|by apply H2]|done|done|].
  apply triple_reads; [reads|by intros p []|]. intros [].
  apply triple_reads; [reads|by intros p []|]. intros tmpl.
  apply triple_reads; [apply reads_validate|by intros p []|]. intros validated.
  apply triple_reads; [apply reads_now|by intros p []|]. intros time.
  apply triple_reads; [reads|by intros p []|]. intros id.
  apply (triple_then _ _ _ (fun _ => calm)).
  - intros p [Hp Hf]. exact (calm_insert id (mkProvSession sid router_id user_id PS_PENDING STEP_CONNECTION 0
      (Some t) (Some validated) (Some (time + timedelta_minutes default_timeout_minutes)) None None false None
      false false) p Hp Hf).
  - intros []. apply triple_preserves. unfold _create_step_logs, my_id. calm.
Qed.

(** ** Starting *)

(** The instance of a run is the row, if the row exists. *)
Definition in_step (p : Prov) : Prop :=
  forall s, t_prov_sessions (w_view (pv_world p)) !! pv_id p = Some s -> s = pv_me p.

Definition loaded (p : Prov) : Prop :=
  calm p /\ t_prov_sessions (w_view (pv_world p)) !! pv_id p = Some (pv_me p).

Lemma get_session_loads sid :
  triple (fun p => calm p /\ in_step p) (_get_session_by_id sid) (fun b p => calm p /\ (b = true -> loaded p)) calm.
Proof.
  intros p [Hp Hs]. unfold _get_session_by_id, mthen, session_rows. rewrite run_query.
  destruct (w_broken _); [done|]. rewrite run_scalar.
  destruct (select _ _) as [|[i s] [|y l]] eqn:El; [by split| |done].
  assert (Hi : (i, s) ∈ select (fun (_ : Z) s => bool_decide (ps_session_id s = sid))
                (t_prov_sessions (w_view (pv_world p)))) by (rewrite El; apply list_elem_of_here).
  apply elem_of_select in Hi as [Hi _].
  destruct (pv_id p =? i) eqn:Ei; (split; [exact Hp|]); intros _; (split; [exact Hp|]); [|exact Hi].
  apply Z.eqb_eq in Ei. rewrite Ei. rewrite Hi. f_equal. apply Hs. by rewrite Ei.
Qed.

Lemma start_active f :
  (forall s, ps_router_id (f s) = ps_router_id s) ->
  triple (fun p => loaded p /\ active_status (ps_status (pv_me p)) = true) (set_me f) (fun _ => calm) calm.
Proof.
  intros Hf p [[Hp Hl] Ha]. unfold set_me, unbroken, mthen, lift, my_id, assign, mmodify.
  destruct (w_broken (pv_world p)); [done|]. destruct Hp as [[Hv Hd] Ho].
  split; [|done]. split; [|done]. by apply (one_active_same _ _ _ (pv_me p)).
Qed.
End Reads.

(** ** The requests *)
Section Requests.
Context {be : Backend} {ros : RouterOS} {cfg : AgentConfig} {settings : SetupSettings} {env : ProvisioningEnv}.

Lemma calm_start sid :
  triple (fun p => calm p /\ in_step p) (start_provisioning sid) (fun _ => calm) calm.
Proof.
  unfold start_provisioning. eapply triple_try.
  2: { intros e. apply triple_preserves. unfold rollback_run. calm. }
  eapply triple_then; [apply get_session_loads|]. intros found.
  destruct found.
  2: { apply (triple_weaken _ calm _ _ (fun _ => calm) _ calm); [by intros p []|done|done|]. by intros p Hp. }
  apply (triple_weaken _ loaded _ _ (fun _ => calm) _ calm); [intros p [_ H]; by apply H|done|done|].
  apply triple_reads; [apply reads_return|by intros p []|]. intros [].
  intros p Hp. unfold mthen at 1, me. cbn iota beta.
  destruct (bool_decide _) eqn:Es; [|exact (proj1 Hp)].
  apply bool_decide_eq_true_1 in Es. unfold mthen at 1, mreturn at 1. cbn iota beta.
  assert (H : loaded p /\ active_status (ps_status (pv_me p)) = true) by (split; [done|by rewrite Es]).
  clear Hp Es. revert p H.
  match goal with |- forall p, _ -> match ?m p with _ => _ end =>
    change (triple (fun p => loaded p /\ active_status (ps_status (pv_me p)) = true) m (fun _ => calm) calm) end.
  apply triple_reads; [apply reads_now|by intros p [[] _]|]. intros time.
  eapply triple_then; [by apply start_active|]. intros [].
  apply triple_preserves. unfold deliver_by_agent, consume_checkin, refuse_unreachable, my_router, now, me, my_id, schedule.
  repeat first [apply calm_router | apply (calm_read pv_checkins) | calm_step].
Qed.

Lemma calm_found sid (k : bool -> prov bool) :
  (forall b, preserves calm (k b)) ->
  triple (fun p => calm p /\ in_step p) (found <- _get_session_by_id sid ;; k found) (fun _ => calm) calm.
Proof.
  intros Hk. eapply triple_then; [apply get_session_loads|]. intros b.
  apply (triple_weaken _ calm _ _ (fun _ => calm) _ calm); [by intros p []|done|done|].
  by apply triple_preserves.
Qed.

Lemma calm_get_session sid : preserves calm (_get_session_by_id sid).
Proof.
  intros p Hp. unfold _get_session_by_id, mthen, session_rows. rewrite run_query.
  destruct (w_broken _); [done|]. rewrite run_scalar. destruct (select _ _) as [|[i s] [|y l]]; [done| |done].
  by destruct (pv_id p =? i).
Qed.

Lemma calm_cancel sid reason force : preserves calm (cancel_provisioning sid reason force).
Proof.
  unfold cancel_provisioning, me, my_id, now, schedule.
  repeat first [apply calm_get_session | apply calm_set_step | calm_step].
Qed.

Lemma one_active_delete i db : one_active_db db -> one_active_db (delete_row i db).
Proof.
  intros Hm a b s t Ha Hb. cbn in Ha, Hb. apply lookup_delete_Some in Ha as [_ Ha], Hb as [_ Hb].
  by apply (Hm _ _ s t).
Qed.

Lemma calm_delete sid : preserves calm (delete_session sid).
Proof.
  unfold delete_session, me, my_id.
  repeat first [ apply calm_get_session | apply calm_lift, preserves_assign; intros ?; apply one_active_delete
               | calm_step ].
Qed.

Lemma calm_assign_row f i :
  harmless f -> preserves calm (lift (assign (over t_prov_sessions (alter f i)))).
Proof. intros Hf. apply calm_lift, preserves_assign. intros db. by apply one_active_alter. Qed.

Lemma calm_cancel_all router_id : preserves calm (cancel_active_sessions_for_router router_id).
Proof.
  unfold cancel_active_sessions_for_router, now.
  repeat first [apply calm_assign_row; intros ?; done | calm_step].
Qed.

Lemma calm_script_complete sid status : preserves calm (provisioning_script_complete sid status).
Proof.
  unfold provisioning_script_complete, now, me, quietly.
  repeat first [ apply calm_get_session | apply calm_mark_complete
               | apply calm_set_me; intros s Hs; by case_bool_decide | calm_step ].
Qed.

Lemma calm_monitor : preserves calm monitor_provisioning_sessions.
Proof.
  unfold monitor_provisioning_sessions, now, schedule.
  repeat first [apply calm_assign_row; intros ?; done | calm_step].
Qed.

Lemma calm_clean_up : preserves calm cleanup_old_provisioning_sessions.
Proof.
  unfold cleanup_old_provisioning_sessions, now.
  repeat first [apply calm_lift, preserves_assign; intros ?; apply one_active_delete | calm_step].
Qed.

Lemma calm_rollback_session sid : preserves calm (rollback_provisioning_session sid).
Proof.
  unfold rollback_provisioning_session, me.
  repeat first [apply calm_get_session | apply calm_cancel_rollback | calm_step].
Qed.
End Requests.

Section History.
Context {be : Backend} {ros : RouterOS} {cfg : AgentConfig} {settings : SetupSettings} {env : ProvisioningEnv}.

(** Every operation on sessions but the retry. *)
Inductive Request : Type :=
  | Create (session_id : string) (router_id user_id : Z) (t : ServiceType) (c : Configuration) (template : option Z)
  | Start (session_id : string)
  | RunWorkflow
  | RunAutomaticRollback
  | RunCancelRollback
  | Cancel (session_id : string) (reason : option string) (force : bool)
  | CancelAll (router_id : Z)
  | DeleteSession (session_id : string)
  | ScriptComplete (session_id status : string)
  | RollbackSession (session_id : string)
  | Monitor
  | CleanUp.

Definition ignore {A} (m : prov A) : prov unit := _ <- m ;; mreturn tt.

Definition serve (q : Request) : prov unit :=
  match q with
  | Create sid r u t c template => ignore (create_provisioning_session sid r u t c template)
  | Start sid => ignore (start_provisioning sid)
  | RunWorkflow => _execute_provisioning_workflow
  | RunAutomaticRollback => execute_rollback
  | RunCancelRollback => _execute_rollback
  | Cancel sid reason force => ignore (cancel_provisioning sid reason force)
  | CancelAll r => ignore (cancel_active_sessions_for_router r)
  | DeleteSession sid => ignore (delete_session sid)
  | ScriptComplete sid status => provisioning_script_complete sid status
  | RollbackSession sid => rollback_provisioning_session sid
  | Monitor => ignore monitor_provisioning_sessions
  | CleanUp => ignore cleanup_old_provisioning_sessions
  end.

Lemma calm_ignore {A} (m : prov A) : preserves calm m -> preserves calm (ignore m).
Proof. intros Hm. apply preserves_then; [done|]. intros a. apply preserves_return. Qed.

Lemma serve_calm q p : calm p -> in_step p -> calm (snd (serve q p)).
Proof.
  intros Hp Hs. destruct q; cbn [serve].
  1, 6-8, 11-12: apply calm_ignore; [|exact Hp].
  - apply calm_create.
  - apply calm_cancel.
  - apply calm_cancel_all.
  - apply calm_delete.
  - apply calm_monitor.
  - apply calm_clean_up.
  - unfold ignore, mthen. assert (H := calm_start session_id p (conj Hp Hs)).
    by destruct (start_provisioning session_id p) as [[b|e] p'].
  - by apply calm_workflow.
  - by apply calm_execute_rollback.
  - by apply calm_cancel_rollback.
  - by apply calm_script_complete.
  - by apply calm_rollback_session.
Qed.

(** What others commit while a request waits: changes of one row that make no
    session active, the start of a pending session, a new session for a router
    without an active one, a deletion, and changes of other tables. *)
Inductive concurrent : (DB -> DB) -> Prop :=
  | concurrent_elsewhere f : (forall db, t_prov_sessions (f db) = t_prov_sessions db) -> concurrent f
  | concurrent_row i f : harmless f -> concurrent (over t_prov_sessions (alter f i))
  | concurrent_start i time : concurrent (over t_prov_sessions (alter (fun s =>
      if bool_decide (ps_status s = PS_PENDING)
      then s <| ps_status := PS_IN_PROGRESS |> <| ps_started_at := Some time |> else s) i))
  | concurrent_create s : concurrent (fun db =>
      if existsb (fun kt => (ps_router_id kt.2 =? ps_router_id s) && active_status (ps_status kt.2))
           (map_to_list (t_prov_sessions db))
      then db else over t_prov_sessions (insert (next_id (t_prov_sessions db)) s) db)
  | concurrent_delete i : concurrent (delete_row i)
  | concurrent_then f g : concurrent f -> concurrent g -> concurrent (fun db => g (f db)).

Lemma concurrent_keeps f : concurrent f -> forall db, one_active_db db -> one_active_db (f db).
Proof.
  induction 1 as [f Hf|i f Hf|i time|s|i|f g _ IHf _ IHg]; intros db Hdb.
  - unfold one_active_db. by rewrite Hf.
  - by apply one_active_alter.
  - apply one_active_alter; [|done]. intros s. case_bool_decide as Hs; [|by intros].
    intros _. by rewrite Hs.
  - destruct (existsb _ _) eqn:E; [done|]. apply one_active_insert; [done|].
    intros j t Hj Hr. apply not_true_iff_false. intros Ha.
    apply not_true_iff_false in E. apply E, existsb_exists. exists (j, t). split.
    + by apply list_elem_of_In, elem_of_map_to_list.
    + cbn. by rewrite Hr, Z.eqb_refl, Ha.
  - by apply one_active_delete.
  - by apply IHg, IHf.
Qed.

(** The databases reached by requests: each begins with no instance, or with the
    instance of a row as it is, and what happens meanwhile is [concurrent]. *)
Inductive history (w0 : World) : World -> Prop :=
  | history_nil : history w0 w0
  | history_cons q p :
      history w0 (pv_world p) -> in_step p -> Forall (fun e => concurrent (el_change e)) (pv_others p) ->
      history w0 (pv_world (snd (serve q p))).

End History.

(** ** Concrete requests *)
#[local] Existing Instance strict_router.
#[local] Existing Instance strict_env.
#[local] Existing Instance demo_settings.

Definition fresh (w : World) : Prov := mkProv w 0 blank_session false [] [] ∅ [].

Lemma fresh_in_step w :
  bool_decide (t_prov_sessions (w_view w) !! 0 = None) = true -> in_step (fresh w).
Proof. intros H%bool_decide_eq_true_1 s Hs. unfold fresh in Hs. cbn in Hs. by rewrite H in Hs. Qed.

Fixpoint served (w : World) (l : list Request) : World :=
  match l with
  | [] => w
  | q :: l => served (pv_world (snd (serve q (fresh w)))) l
  end.

Fixpoint without_instances (w : World) (l : list Request) : bool :=
  match l with
  | [] => true
  | q :: l => bool_decide (t_prov_sessions (w_view w) !! 0 = None)
              && without_instances (pv_world (snd (serve q (fresh w)))) l
  end.

Lemma served_history w0 l : forall w, history w0 w -> without_instances w l = true -> history w0 (served w l).
Proof.
  induction l as [|q l IH]; intros w Hw Hl; [done|]. cbn [without_instances served] in *.
  apply andb_true_iff in Hl as [H1 H2]. apply IH; [|done].
  apply history_cons; [done|by apply fresh_in_step|by apply Forall_nil_2].
Qed.

Definition hotspot_ports : Configuration := {["bridge_ports" := CList [CStr "ether3"]]}.
Definition office_requests : list Request :=
  [Create "s-1" 7 1 ST_HOTSPOT hotspot_ports None; Cancel "s-1" None false;
   Create "s-2" 7 1 ST_HOTSPOT hotspot_ports None; Start "s-2"; Create "s-3" 7 1 ST_HOTSPOT hotspot_ports None].

Definition statuses (w : World) : list (Z * (string * ProvisioningStatus)) :=
  map (fun ks => (ks.1, (ps_session_id ks.2, ps_status ks.2))) (map_to_list (t_prov_sessions (w_durable w))).


(** A failed session that is retried beside a new one makes two active ones; from
    then on every creation for the router fails with an error of the query. *)
Definition after_retry : outcome bool * Prov :=
  retry_provisioning "s-1" None false None
    (fresh (served (start 1000 branch_db tt)
      [Create "s-1" 7 1 ST_HOTSPOT hotspot_ports None; ScriptComplete "s-1" "failed";
       Create "s-2" 7 1 ST_HOTSPOT hotspot_ports None])).

Example retry_makes_two_active :
  fst after_retry = Ok true /\
  statuses (pv_world (snd after_retry)) = [(2, ("s-2", PS_PENDING)); (1, ("s-1", PS_IN_PROGRESS))] /\
  fst (create_provisioning_session "s-3" 7 1 ST_HOTSPOT ∅ None (fresh (pv_world (snd after_retry)))) =
    Raise MultipleResultsFound.
Proof. vm_compute. repeat split; reflexivity. Qed.
