(* ===== verification/ProvisioningDelivery.v ===== *)
(** * How a session is delivered and reported

    The delivery of a session by the polling agent, up to the poll that hands
    its command out, and what the callback of the script makes of a session. *)

From S2P Require Import Prelude PyString Numerics Models Session AgentQueue RouterSync RouterCli SetupCommands SetupCommandsFacts Provisioning ProvisioningFacts ActiveSessions.

Section Delivery.
Context {be : Backend} {ros : RouterOS} {cfg : AgentConfig} {settings : SetupSettings} {env : ProvisioningEnv}.

Definition started_session (time : datetime) (s : ProvisioningSession) : ProvisioningSession :=
  s <| ps_status := PS_IN_PROGRESS |> <| ps_started_at := Some time |> <| ps_current_step := STEP_CONNECTION |>.

(** The command queued for the agent. *)
Definition import_command (time : datetime) (s : ProvisioningSession) : RouterCommand :=
  mkCommand (ps_router_id s) "fetch_import" [("url", script_url s)] 1 CMD_PENDING time None None
    (Some (time + timedelta_seconds (agent_command_expiry_hours * 3600))) None 0 3
    (Some "provisioning") (Some (ps_session_id s)).

(** ** Runs in good order *)
Lemma run_lift {A} (m : run A) p o w : m (pv_world p) = (o, w) -> lift m p = (o, p <| pv_world := w |>).
Proof. unfold lift. by intros ->. Qed.

Lemma run_unbroken p : w_broken (pv_world p) = false -> unbroken p = (Ok tt, p).
Proof. intros H. unfold unbroken. erewrite run_lift by by rewrite H. by destruct p. Qed.

Definition put_me (f : ProvisioningSession -> ProvisioningSession) (p : Prov) : Prov :=
  p <| pv_world ::= over w_view (over t_prov_sessions (alter f (pv_id p))) |> <| pv_me ::= f |> <| pv_dirty := true |>.

Lemma run_set_me f p : w_broken (pv_world p) = false -> set_me f p = (Ok tt, put_me f p).
Proof.
  intros H. unfold set_me. rewrite (mthen_ok _ _ _ _ _ (run_unbroken p H)).
  by destruct p.
Qed.

Definition committed (p : Prov) : Prov :=
  p <| pv_world ::= (fun w => w <| w_durable := w_view w |>) |> <| pv_dirty := false |>.

Lemma run_commit p :
  good (pv_world p) -> is_Some (t_prov_sessions (w_view (pv_world p)) !! pv_id p) ->
  commit_run p = (Ok tt, committed p).
Proof.
  intros Hg [s Hs]. unfold commit_run. rewrite Hs, bool_decide_eq_false_2, andb_false_r by done.
  rewrite (mthen_ok _ _ _ _ _ (run_lift _ _ _ _ (commit_good _ Hg))). by destruct p.
Qed.

Lemma run_router p i r :
  w_broken (pv_world p) = false -> 0 < i -> t_routers (w_view (pv_world p)) !! i = Some r ->
  router_by_id i p = (Ok (Some r), p).
Proof.
  intros Hb Hi Hr. unfold router_by_id. destruct (Z.leb_spec i 0); [lia|].
  apply mtry_ok. by rewrite run_query, Hb, Hr.
Qed.

(** The session with the given identifier is the only one, and not held yet. *)
Definition stored (sid : string) (i : Z) (s : ProvisioningSession) (p : Prov) : Prop :=
  t_prov_sessions (w_view (pv_world p)) !! i = Some s /\ ps_session_id s = sid /\
  (forall j t, t_prov_sessions (w_view (pv_world p)) !! j = Some t -> ps_session_id t = sid -> j = i) /\
  pv_id p <> i.

Definition holding (i : Z) (s : ProvisioningSession) (p : Prov) : Prov :=
  p <| pv_id := i |> <| pv_me := s |> <| pv_dirty := false |>.

Lemma run_get_session sid i s p :
  w_broken (pv_world p) = false -> stored sid i s p -> _get_session_by_id sid p = (Ok true, holding i s p).
Proof.
  intros Hb (Hi & Hs & Hu & Hne). unfold _get_session_by_id, mthen, session_rows. rewrite run_query, Hb, run_scalar.
  rewrite (select_unique _ _ i s); [|done|by apply bool_decide_eq_true_2|].
  - by rewrite (proj2 (Z.eqb_neq _ _) Hne).
  - intros j t Hj Ht. apply (Hu j t Hj). by apply bool_decide_eq_true_1 in Ht.
Qed.

Lemma good_sessions f w : good w -> good (w <| w_view ::= over t_prov_sessions f |>).
Proof. intros Hg. by apply good_view. Qed.

Lemma good_queue f w : good w -> good (w <| w_view ::= over t_commands f |>).
Proof. intros Hg. by apply good_view. Qed.

(** ** The delivery by the agent *)
Definition delivered (time : datetime) (i : Z) (s : ProvisioningSession) (db : DB) : DB :=
  over t_commands (insert (next_id (t_commands db)) (import_command time s))
    (over t_prov_sessions (alter (started_session time) i) db).

(** The run after the delivery. *)
Definition after_delivery (i : Z) (s : ProvisioningSession) (p : Prov) : Prov :=
  p <| pv_id := i |> <| pv_me := started_session (w_now (pv_world p)) s |> <| pv_dirty := false |>
    <| pv_world ::= (fun w => w <| w_view ::= delivered (w_now w) i s |> <| w_durable := delivered (w_now w) i s (w_view w) |>) |>.

Lemma start_by_agent p sid i s r :
  good (pv_world p) -> stored sid i s p -> ps_status s = PS_PENDING -> 0 < ps_router_id s ->
  t_routers (w_view (pv_world p)) !! ps_router_id s = Some r -> agent_ready r = true ->
  start_provisioning sid p = (Ok true, after_delivery i s p).
Proof.
  intros Hg Hst Hs Hid Hr Ha. assert (Hb := good_broken _ Hg).
  unfold start_provisioning. apply mtry_ok.
  rewrite (mthen_ok _ _ _ _ _ (run_get_session sid i s p Hb Hst)). cbn iota.
  rewrite mthen_return. rewrite (mthen_ok me _ (holding i s p) s (holding i s p)) by done.
  rewrite Hs, bool_decide_eq_true_2, mthen_return by done.
  rewrite (mthen_ok now _ (holding i s p) (w_now (pv_world p)) (holding i s p)) by by destruct p.
  set (p1 := holding i s p).
  rewrite (mthen_ok _ _ _ _ _ (run_set_me (started_session (w_now (pv_world p))) p1 Hb)).
  set (p2 := put_me _ p1). assert (Hg2 : good (pv_world p2)) by (by apply good_sessions).
  assert (Hrow : t_prov_sessions (w_view (pv_world p2)) !! i = Some (started_session (w_now (pv_world p)) s)).
  { cbn. by rewrite lookup_alter_eq, (proj1 Hst). }
  assert (Ec := run_commit p2 Hg2 (ex_intro _ _ Hrow)).
  rewrite (mthen_ok _ _ _ _ _ Ec). set (p3 := committed p2).
  assert (Hg3 : good (pv_world p3)) by (by apply good_commit).
  assert (E : deliver_by_agent p3 = (Ok true, after_delivery i s p)); [|by rewrite (mthen_ok _ _ _ _ _ E)].
  unfold deliver_by_agent. apply mtry_ok.
  rewrite (mthen_ok me _ p3 (started_session (w_now (pv_world p)) s) p3) by done. cbv beta.
  change (script_url (started_session (w_now (pv_world p)) s)) with (script_url s).
  change (ps_router_id (started_session (w_now (pv_world p)) s)) with (ps_router_id s).
  change (ps_session_id (started_session (w_now (pv_world p)) s)) with (ps_session_id s).
  rewrite (mthen_ok _ _ _ _ _ (run_router p3 (ps_router_id s) r (good_broken _ Hg3) Hid Hr)), Ha.
  rewrite (mthen_ok _ _ _ _ _ (run_lift _ p3 _ _
             (queue_command_good (ps_router_id s) "fetch_import" [("url", script_url s)] 1 (Some "provisioning")
                (Some (ps_session_id s)) _ Hg3))).
  match goal with |- mthen _ _ ?q = _ => assert (Hq : good (pv_world q)) by (by apply good_queue) end.
  rewrite (mthen_ok _ _ _ _ _ (run_commit _ Hq (ex_intro _ _ Hrow))). by destruct p.
Qed.


(** ** The callback of the script *)
Definition reported (status : string) (time : datetime) (s : ProvisioningSession) : ProvisioningSession :=
  if bool_decide (status = "failed") then
    s <| ps_status := PS_FAILED |> <| ps_completed_at := Some time |>
      <| ps_error_message := Some "Script-based provisioning reported failure" |>
  else s <| ps_status := PS_COMPLETED |> <| ps_completed_at := Some time |>.

Definition set_up (status : string) (time : datetime) (router_id : Z) (m : gmap Z RouterSetup) : gmap Z RouterSetup :=
  if bool_decide (status = "completed") then <[router_id := mkSetup "provisioned" true (Some time)]> m else m.

Lemma run_mark_complete p i r service :
  good (pv_world p) -> t_routers (w_view (pv_world p)) !! i = Some r ->
  exists p', mark_provisioning_complete i service p = (Ok tt, p') /\
    t_prov_sessions (w_durable (pv_world p')) = t_prov_sessions (w_view (pv_world p)) /\
    t_router_setup (w_durable (pv_world p')) =
      <[i := mkSetup "provisioned" true (Some (w_now (pv_world p)))]> (t_router_setup (w_view (pv_world p))) /\
    w_ws (pv_world p') = w_ws (pv_world p) /\ w_trace (pv_world p') = w_trace (pv_world p).
Proof.
  intros Hg Hr. unfold mark_provisioning_complete.
  rewrite (mthen_ok _ _ p (Some r) p) by by rewrite run_query, (good_broken _ Hg), Hr.
  rewrite (mthen_ok now _ p (w_now (pv_world p)) p) by by destruct p.
  set (time := w_now (pv_world p)).
  rewrite (mthen_ok _ _ p tt (p <| pv_world ::= over w_view (over t_router_setup
             (insert i (mkSetup "provisioned" true (Some time)))) |>)) by done.
  set (p1 := p <| pv_world ::= _ |>). assert (Hg1 : good (pv_world p1)) by by apply good_view.
  set (change := fun r : Router => r <| rt_config ::= _ |>).
  assert (H : exists p2, mwhen (negb (bool_decide (service = "")))
                (lift (assign (over t_routers (alter change i)))) p1 = (Ok tt, p2) /\ good (pv_world p2) /\
              t_prov_sessions (w_view (pv_world p2)) = t_prov_sessions (w_view (pv_world p)) /\
              t_router_setup (w_view (pv_world p2)) = t_router_setup (w_view (pv_world p1)) /\
              w_ws (pv_world p2) = w_ws (pv_world p) /\ w_trace (pv_world p2) = w_trace (pv_world p)).
  { destruct (negb _); [|by exists p1]. eexists. split; [reflexivity|].
    split; [|done]. by apply good_alter_router. }
  destruct H as (p2 & E & Hg2 & Hs & Hset & Hw & Ht). rewrite (mthen_ok _ _ _ _ _ E).
  rewrite (run_lift _ _ _ _ (commit_good _ Hg2)). eexists. split; [reflexivity|]. cbn. by rewrite Hs, Hset, Hw, Ht.
Qed.

(** The callback of a script decides the session alone: whatever the session's
    status was - cancelled, timed out, failed - it becomes failed when the script
    says so and completed otherwise, and its success flag stays as it was; every
    other session is untouched, the router counts as provisioned exactly when
    the report is [completed], and the end is announced in every case. *)
Theorem script_callback_exact p sid i s r status :
  good (pv_world p) -> stored sid i s p ->
  ps_router_id s <> 0 -> t_routers (w_view (pv_world p)) !! ps_router_id s = Some r ->
  exists p', provisioning_script_complete sid status p = (Ok tt, p') /\
    t_prov_sessions (w_durable (pv_world p')) =
      <[i := reported status (w_now (pv_world p)) s]> (t_prov_sessions (w_view (pv_world p))) /\
    t_router_setup (w_durable (pv_world p')) =
      set_up status (w_now (pv_world p)) (ps_router_id s) (t_router_setup (w_view (pv_world p))) /\
    w_ws (pv_world p') = w_ws (pv_world p) ++ [WsComplete sid] /\
    w_trace (pv_world p') = w_trace (pv_world p).
Proof.
  intros Hg Hst Hid Hr. assert (Hb := good_broken _ Hg). set (time := w_now (pv_world p)).
  unfold provisioning_script_complete.
  rewrite (mthen_ok _ _ _ _ _ (run_get_session sid i s p Hb Hst)). cbn iota. rewrite mthen_return.
  set (p1 := holding i s p). rewrite (mthen_ok now _ p1 time p1) by by destruct p.
  rewrite (mthen_ok _ _ _ _ _ (run_set_me (reported status time) p1 Hb)).
  set (p2 := put_me _ p1). assert (Hg2 : good (pv_world p2)) by by apply good_sessions.
  assert (Hrow : t_prov_sessions (w_view (pv_world p2)) !! i = Some (reported status time s)).
  { cbn. by rewrite lookup_alter_eq, (proj1 Hst). }
  rewrite (mthen_ok _ _ _ _ _ (run_commit p2 Hg2 (ex_intro _ _ Hrow))). set (p3 := committed p2).
  assert (Hg3 : good (pv_world p3)) by by apply good_commit.
  rewrite (mthen_ok me _ p3 (reported status time s) p3) by done.
  assert (Hm : t_prov_sessions (w_view (pv_world p2)) =
    <[i := reported status time s]> (t_prov_sessions (w_view (pv_world p)))).
  { apply map_eq. intros j. cbn. destruct (decide (j = i)) as [->|Hj].
    - by rewrite lookup_alter_eq, lookup_insert_eq, (proj1 Hst).
    - by rewrite lookup_alter_ne, lookup_insert_ne. }
  assert (Hrid : ps_router_id (reported status time s) = ps_router_id s) by (unfold reported; by case_match).
  rewrite Hrid, (proj2 (Z.eqb_neq _ _) Hid), andb_true_r. unfold set_up.
  destruct (bool_decide (status = "completed")); cbn [mwhen].
  - destruct (run_mark_complete p3 (ps_router_id s) r (service_text (ps_service_type (reported status time s))) Hg3 Hr)
      as (p4 & E & H1 & H2 & H3 & H4).
    rewrite (mthen_ok _ _ p3 tt p4) by by apply mtry_ok.
    eexists. split; [reflexivity|]. split_and!.
    + cbn. by rewrite H1.
    + cbn. by rewrite H2.
    + cbn. by rewrite H3.
    + cbn. by rewrite H4.
  - rewrite mthen_return. eexists. split; [reflexivity|]. split_and!; done.
Qed.
End Delivery.

(** ** Concrete deliveries *)
#[local] Existing Instance strict_router.
#[local] Existing Instance strict_env.
#[local] Existing Instance demo_settings.

Definition waiting (status : ProvisioningStatus) : ProvisioningSession :=
  mkProvSession "s-1" 7 1 status STEP_CONNECTION 0 (Some ST_HOTSPOT) (Some hotspot_ports)
    (Some 1800001000) None None false None false false.

Definition polling_router : Router :=
  sample_router <| rt_agent_installed := true |> <| rt_agent_token := Some "hash" |>.

Definition session_db (status : ProvisioningStatus) : DB :=
  empty_db <| t_routers := {[7 := polling_router]} |> <| t_prov_sessions := {[1 := waiting status]} |>.

Definition request_at (status : ProvisioningStatus) : Prov := fresh (start 1000 (session_db status) tt).

Lemma waiting_stored status : stored "s-1" 1 (waiting status) (request_at status).
Proof.
  split; [reflexivity|]. split; [reflexivity|]. split; [|discriminate].
  intros j t Hj _. change (({[1 := waiting status]} : gmap Z ProvisioningSession) !! j = Some t) in Hj.
  by apply lookup_singleton_Some in Hj as [<- _].
Qed.

Lemma request_good status : good (pv_world (request_at status)).
Proof.
  apply good_start. apply (schema_ok_frame (empty_db <| t_routers := {[7 := polling_router]} |>)); [done..|].
  apply (bool_decide_eq_true_1 _). vm_compute. reflexivity.
Qed.

Definition demo_url : string :=
  "https://api.isp.ke/api/v1/provisioning/provision-script/s-1?token=token-1".


(** A cancelled session whose script still runs is completed, without success. *)
Lemma script_callback_exact_witness :
  exists p' s', provisioning_script_complete "s-1" "completed" (request_at PS_CANCELLED) = (Ok tt, p') /\
    t_prov_sessions (w_durable (pv_world p')) !! 1 = Some s' /\
    ps_status s' = PS_COMPLETED /\ ps_success s' = false /\
    t_router_setup (w_durable (pv_world p')) !! 7 = Some (mkSetup "provisioned" true (Some 1000)).
Proof.
  destruct (script_callback_exact (request_at PS_CANCELLED) "s-1" 1 (waiting PS_CANCELLED) polling_router "completed")
    as (p' & E & H1 & H2 & _ & _).
  - apply request_good.
  - apply waiting_stored.
  - discriminate.
  - reflexivity.
  - exists p', (reported "completed" 1000 (waiting PS_CANCELLED)). split; [exact E|]. rewrite H1, H2.
    split; [reflexivity|]. split; [reflexivity|]. split; reflexivity.
Defined.
