(* ===== verification/ProvisioningCommands.v ===== *)
(** * The attempts at a command and what is recorded of them *)

From S2P Require Import Prelude PyString Numerics Models Session AgentQueue RouterCli SetupCommands SetupCommandsFacts Provisioning ProvisioningFacts ActiveSessions ProvisioningDelivery.

Section Attempts.
Context {be : Backend} {ros : RouterOS} {cfg : AgentConfig} {settings : SetupSettings} {env : ProvisioningEnv}.

(** A run with a database in order and nobody else at work. *)
Definition ready (p : Prov) : Prop := good (pv_world p) /\ pv_others p = [] /\ pv_dirty p = false.

Definition rows (p : Prov) : gmap Z ProvisioningCommand := t_prov_commands (w_view (pv_world p)).

(** [m] ends normally or not, in a ready state with the same commands. *)
Definition steady {A} (m : prov A) : Prop :=
  forall p, ready p -> ready (snd (m p)) /\ rows (snd (m p)) = rows p.

Lemma steady_return {A} (a : A) : steady (mreturn a).
Proof. by intros p Hp. Qed.
Lemma steady_raise {A} e : steady (mraise (A := A) e).
Proof. by intros p Hp. Qed.

Lemma steady_then {A B} (m : prov A) (k : A -> prov B) : steady m -> (forall a, steady (k a)) -> steady (mthen m k).
Proof.
  intros Hm Hk p Hp. destruct (Hm p Hp) as [H1 H2]. unfold mthen. destruct (m p) as [[a|e] q]; [|done].
  destruct (Hk a q H1) as [H3 H4]. split; [done|]. by rewrite H4.
Qed.

Lemma steady_try {A} (m : prov A) h : steady m -> (forall e, steady (h e)) -> steady (mtry m h).
Proof.
  intros Hm Hh p Hp. destruct (Hm p Hp) as [H1 H2]. unfold mtry. destruct (m p) as [[a|e] q]; [done|].
  destruct (Hh e q H1) as [H3 H4]. split; [done|]. by rewrite H4.
Qed.

Lemma steady_elsewhere : steady elsewhere.
Proof. intros p Hp. unfold elsewhere. destruct (pv_others p) eqn:E; [done|]. destruct Hp as (_ & H & _). by rewrite E in H. Qed.

Lemma steady_device {A} (m : run A) : device_only m -> steady (lift m).
Proof.
  intros Hm p (Hg & Ho & Hd). assert (Hg' := device_only_good m _ Hm Hg). assert (E := Hm (pv_world p)).
  unfold lift, rows. destruct (m (pv_world p)) as [o w]. simpl in *. split; [by split_and!|]. by rewrite E.
Qed.

Lemma device_only_text r text : device_only (execute_text r text).
Proof. unfold execute_text, sync_execute, set_item. cbv zeta. repeat device_step. Qed.

Lemma steady_connect r : steady (connect r).
Proof. apply steady_then; [apply steady_elsewhere|]. intros _. apply steady_device, device_only_connect. Qed.

Lemma steady_run_command r c : steady (run_command r c).
Proof.
  unfold run_command, execute. destruct (bool_decide _); [|apply steady_raise].
  apply steady_then; [apply steady_elsewhere|]. intros _. apply steady_device, device_only_text.
Qed.

Lemma steady_before_retry r e : steady (before_retry r e).
Proof.
  unfold before_retry. destruct (is_socket_error _); [|apply steady_elsewhere].
  apply steady_try; [|intros _; apply steady_elsewhere].
  apply steady_then; [apply steady_elsewhere|]. intros _. apply steady_connect.
Qed.

Lemma before_retry_returns r e : never_raises (before_retry r e).
Proof.
  assert (He : never_raises elsewhere) by (intros p; unfold elsewhere; destruct (pv_others p); by do 2 eexists).
  unfold before_retry. destruct (is_socket_error _); [|done]. by apply never_raises_try.
Qed.

(** ** Writing the row *)
Lemma run_set_command p id f :
  ready p -> exists p', set_prov_command id f p = (Ok tt, p') /\ ready p' /\ rows p' = alter f id (rows p).
Proof.
  intros (Hg & Ho & Hd). unfold set_prov_command.
  rewrite (mthen_ok _ _ _ _ _ (run_unbroken p (good_broken _ Hg))).
  eexists. split; [reflexivity|]. split; [|done]. split_and!; [|done..]. by apply good_view.
Qed.

Lemma run_commit_ready p :
  ready p -> exists p', commit_run p = (Ok tt, p') /\ ready p' /\ rows p' = rows p /\
    t_prov_commands (w_durable (pv_world p')) = rows p'.
Proof.
  intros (Hg & Ho & Hd). unfold commit_run. rewrite Hd. cbn [andb].
  rewrite (mthen_ok _ _ _ _ _ (run_lift _ _ _ _ (commit_good _ Hg))).
  eexists. split; [reflexivity|]. split; [|done]. split_and!; [by apply good_commit|done|done].
Qed.

(** An assignment and its commit. *)
Lemma run_set_commit p id f m :
  ready p -> rows p = m ->
  exists p', (set_prov_command id f ;;; commit_run) p = (Ok tt, p') /\ ready p' /\ rows p' = alter f id m /\
    t_prov_commands (w_durable (pv_world p')) = rows p'.
Proof.
  intros Hp Hm. destruct (run_set_command p id f Hp) as (p1 & E1 & H1 & R1).
  destruct (run_commit_ready p1 H1) as (p2 & E2 & H2 & R2 & D2).
  exists p2. rewrite (mthen_ok _ _ _ _ _ E1). split_and!; [done..| |done]. by rewrite R2, R1, Hm.
Qed.

Lemma alter_insert (f : ProvisioningCommand -> ProvisioningCommand) id x (m : gmap Z ProvisioningCommand) :
  alter f id (<[id := x]> m) = <[id := f x]> m.
Proof.
  apply map_eq. intros j. destruct (decide (j = id)) as [->|Hj].
  - by rewrite lookup_alter_eq, !lookup_insert_eq.
  - by rewrite lookup_alter_ne, !lookup_insert_ne.
Qed.

(** What stays of a command whatever its attempts do. *)
Definition command_keys (x : ProvisioningCommand) : Z * string * string * option string * Z :=
  (pc_session_id x, pc_command_type x, pc_command x, pc_rollback_command x, pc_execution_order x).

Definition recorded (c0 x : ProvisioningCommand) (b : bool) (least most : Z) : Prop :=
  command_keys x = command_keys c0 /\ pc_success x = b /\
  pc_status x = (if b then PS_COMPLETED else PS_FAILED) /\
  (if b then least <= pc_retry_count x <= most else pc_retry_count x = most + 1 /\ is_Some (pc_error_message x)).

(** The first part of an attempt: it commits the success, or fails with the row
    in progress. *)
Lemma attempt_once r c id start m x p :
  ready p -> rows p = <[id := x]> m ->
  let try :=
    set_prov_command id (fun x => x <| pc_executed_at := Some start |> <| pc_status := PS_IN_PROGRESS |>) ;;;
    reply <- run_command r c ;;
    finish <- now ;;
    set_prov_command id (finished start finish (output_of reply)) ;;;
    commit_run in
  exists o p' y, try p = (o, p') /\ ready p' /\ rows p' = <[id := y]> m /\
    command_keys y = command_keys x /\ pc_retry_count y = pc_retry_count x /\
    (o = Ok tt -> pc_success y = true /\ pc_status y = PS_COMPLETED /\
                  t_prov_commands (w_durable (pv_world p')) = rows p').
Proof.
  intros Hp Hm try. unfold try.
  destruct (run_set_command p id (fun x => x <| pc_executed_at := Some start |> <| pc_status := PS_IN_PROGRESS |>) Hp)
    as (p1 & E1 & H1 & R1). rewrite Hm, alter_insert in R1.
  rewrite (mthen_ok _ _ _ _ _ E1). destruct (steady_run_command r c p1 H1) as [H2 R2]. unfold mthen at 1.
  destruct (run_command r c p1) as [[reply|e] p2]; simpl in H2, R2.
  - rewrite (mthen_ok now _ p2 (w_now (pv_world p2)) p2) by by destruct p2.
    rewrite R1 in R2.
    destruct (run_set_commit p2 id (finished start (w_now (pv_world p2)) (output_of reply)) _ H2 R2)
      as (p3 & E3 & H3 & R3 & D3). rewrite alter_insert in R3.
    exists (Ok tt), p3. eexists. split; [exact E3|]. split; [done|]. split; [exact R3|]. by repeat split.
  - exists (Raise e), p2. eexists. split; [done|]. split; [done|]. split; [by rewrite R2, R1|]. by repeat split.
Qed.

Lemma attempts_recorded r c id n m : forall k x p,
  ready p -> rows p = <[id := x]> m ->
  pc_retry_count x = k -> exists b p' y,
    attempts r c id k n p = (Ok b, p') /\ ready p' /\ rows p' = <[id := y]> m /\
    t_prov_commands (w_durable (pv_world p')) = rows p' /\ recorded x y b k (k + Z.of_nat n).
Proof.
  induction n as [|n IH]; intros k x p Hp Hm Hk; cbn [attempts];
    rewrite (mthen_ok now _ p (w_now (pv_world p)) p) by (by destruct p);
    destruct (attempt_once r c id (w_now (pv_world p)) m x p Hp Hm) as (o & p1 & y & E1 & H1 & R1 & K1 & C1 & D1);
    rewrite (mthen_ok _ _ _ _ _ (mattempt_run _ _ _ _ E1)).
  all: destruct o as [[]|e].
  1, 3: destruct (D1 eq_refl) as (S1 & T1 & D2); exists true, p1, y; split_and!; [done..|];
    split_and!; [done|done|done|lia|lia].
  all: destruct (is_already_exists_error _).
  1, 3: rewrite (mthen_ok now _ p1 (w_now (pv_world p1)) p1) by (by destruct p1);
    destruct (run_set_commit p1 id (finished (w_now (pv_world p)) (w_now (pv_world p1))
      (Some (Remark "Resource already exists"))) _ H1 R1) as (p2 & E2 & H2 & R2 & D2);
    rewrite alter_insert in R2;
    exists true, p2; eexists; rewrite <- mthen_assoc, (mthen_ok _ _ _ _ _ E2);
    split_and!; [done|done|exact R2|done|]; split_and!; [exact K1|done|done|cbn; lia|cbn; lia].
  all: destruct (run_set_command p1 id (failed_attempt k e) H1) as (p2 & E2 & H2 & R2);
    rewrite R1, alter_insert in R2; rewrite (mthen_ok _ _ _ _ _ E2).
  - destruct (run_set_commit p2 id (fun x => x <| pc_status := PS_FAILED |>) _ H2 R2) as (p3 & E3 & H3 & R3 & D3).
    rewrite alter_insert in R3. exists false, p3. eexists. rewrite <- mthen_assoc, (mthen_ok _ _ _ _ _ E3).
    split_and!; [done|done|exact R3|done|]. split_and!; [exact K1|done|done|cbn; lia|by eexists].
  - destruct (steady_before_retry r e p2 H2) as [H3 R3]. destruct (before_retry_returns r e p2) as ([] & p3 & E3).
    rewrite E3 in H3, R3. simpl in H3, R3. rewrite R2 in R3. rewrite (mthen_ok _ _ _ _ _ E3).
    destruct (run_set_commit p3 id (fun x => x <| pc_status := PS_PENDING |>) _ H3 R3) as (p4 & E4 & H4 & R4 & _).
    rewrite alter_insert in R4. rewrite <- mthen_assoc, (mthen_ok _ _ _ _ _ E4).
    destruct (IH (k + 1) _ p4 H4 R4 eq_refl) as (b & p5 & z & E5 & H5 & R5 & D5 & K5 & S5 & T5 & N5).
    exists b, p5, z. split_and!; [done..|]. split_and!; [by rewrite K5|done|done|].
    destruct b; [lia|]. destruct N5 as [N5 M5]. split; [lia|done].
Qed.

End Attempts.

(** ** A concrete command *)
#[local] Existing Instance strict_router.
#[local] Existing Instance strict_env.
#[local] Existing Instance demo_settings.

