(* ===== verification/RouterUnits.v ===== *)
(** * The texts of a router's resources

    What a router says of its uptime, memory, clock rate and load as text, read by
    [MikroTikClient] ([src/app/integrations/mikrotik/client.py]) and written for
    display by [src/app/schemas/router.py]. *)

From S2P Require Import Prelude PyString Numerics RouterCli.
From Stdlib Require Import Floats.SpecFloat.
Open Scope Z_scope.

(** ** Reading *)

(** The number of [re.search(r'(\d+)u', s)]. *)
Fixpoint search_unit (u : ascii) (acc : option Z) (s : string) : option Z :=
  match s with
  | EmptyString => None
  | String c s' =>
      match digit_value c, acc with
      | Some d, _ => search_unit u (Some (10 * default 0 acc + d)) s'
      | None, Some n => if bool_decide (c = u) then Some n else search_unit u None s'
      | None, None => search_unit u None s'
      end
  end.

Definition uptime_units : list (ascii * Z) :=
  [("w"%char, 604800); ("d"%char, 86400); ("h"%char, 3600); ("m"%char, 60); ("s"%char, 1)].

Definition _parse_uptime (s : string) : Z :=
  foldl (fun total um => total + default 0 (search_unit um.1 None s) * um.2) 0 uptime_units.

(** A number of digits and dots: the digits as an integer and the number of those
    behind the dot; [float] refuses a second dot and a text without digits. *)
Fixpoint decimal_from (m : Z) (places : option nat) (digits : bool) (s : string) : option (Z * nat) :=
  match s with
  | EmptyString => if digits then Some (m, default 0%nat places) else None
  | String c s' =>
      match digit_value c with
      | Some d => decimal_from (10 * m + d) (option_map S places) true s'
      | None => match places with None => decimal_from m (Some 0%nat) digits s' | Some _ => None end
      end
  end.

(** [float(s)], and a product truncated by [int]; binary64 of the standard
    library. *)
Definition float_of (m : Z) (places : nat) : spec_float :=
  match m with
  | Z.pos p => SFdiv 53 1024 (S754_finite false p 0) (S754_finite false (Z.to_pos (10 ^ Z.of_nat places)) 0)
  | _ => S754_zero false
  end.

Definition times (x : spec_float) (n : Z) : spec_float :=
  SFmul 53 1024 x (S754_finite false (Z.to_pos n) 0).

Definition int_of (x : spec_float) : outcome Z :=
  match x with
  | S754_zero _ => Ok 0
  | S754_finite false m e => Ok (Z.shiftl (Z.pos m) e)
  | S754_finite true m e => Ok (- Z.shiftl (Z.pos m) e)
  | S754_infinity _ => Raise (ValueError "cannot convert float infinity to integer")
  | S754_nan => Raise (ValueError "cannot convert float NaN to integer")
  end.

Definition number_char (c : ascii) : bool := bool_decide (is_Some (digit_value c)) || bool_decide (c = "."%char).

Definition scaled (number : string) (k : Z) : outcome Z :=
  match decimal_from 0 None false number with
  | None => Raise (ValueError ("could not convert string to float: '" +:+ number +:+ "'"))
  | Some (m, places) => int_of (times (float_of m places) k)
  end.

(** The factor of the first letter of the unit; what follows it is not looked
    at, and no unit is a factor of one. *)
Definition unit_factor (rest : string) : Z :=
  match lower (lstrip rest) with
  | String "k" _ => 2 ^ 10
  | String "m" _ => 2 ^ 20
  | String "g" _ => 2 ^ 30
  | String "t" _ => 2 ^ 40
  | _ => 1
  end.

Definition _parse_size (s : string) : outcome Z :=
  match span number_char s with
  | (EmptyString, _) => Ok 0
  | (number, rest) => scaled number (unit_factor rest)
  end.

Definition _parse_frequency (s : string) : outcome Z :=
  match span number_char s with
  | (EmptyString, _) => Ok 0
  | (number, rest) =>
      let rest := lower (lstrip rest) in
      if String.prefix "ghz" rest then scaled number 1000
      else if String.prefix "mhz" rest || String.prefix "hz" rest then scaled number 1
      else Ok 0
  end.

Definition _parse_percentage (s : string) : Z :=
  match read_number s with
  | Some (n, _) => n
  | None => 0
  end.

Example sizes :
  _parse_size "128.0MiB" = Ok 134217728 /\ _parse_size "81.1MiB" = Ok 85039513 /\
  _parse_size "1.5 GB" = Ok 1610612736 /\ _parse_size "134217728" = Ok 134217728 /\ _parse_size "12B" = Ok 12.
Proof. vm_compute. repeat split; reflexivity. Qed.

(** A clock rate in GHz loses a MHz to binary rounding; without a unit, which is
    how the API reports it, it is read as zero. *)
Example frequencies :
  _parse_frequency "600MHz" = Ok 600 /\ _parse_frequency "1.2GHz" = Ok 1200 /\
  _parse_frequency "1.001GHz" = Ok 1000 /\ _parse_frequency "600" = Ok 0.
Proof. vm_compute. repeat split; reflexivity. Qed.

(** ** Writing *)
Definition tenths (n unit : Z) : string :=
  let t := round_half_even (10 * n) unit in str_of_Z (t / 10) +:+ "." +:+ str_of_Z (t mod 10).

Definition format_bytes_mikrotik (n : Z) : string :=
  if 2 ^ 30 <=? n then tenths n (2 ^ 30) +:+ "GiB"
  else if 2 ^ 20 <=? n then tenths n (2 ^ 20) +:+ "MiB"
  else if 2 ^ 10 <=? n then tenths n (2 ^ 10) +:+ "KiB"
  else str_of_Z n +:+ "B".

Definition uptime_part (n : Z) (u : ascii) : string := if 0 <? n then str_of_Z n +:+ String u "" else "".

Definition format_uptime_mikrotik (seconds : Z) : string :=
  let front := uptime_part (seconds / 86400) "d" +:+ uptime_part (seconds mod 86400 / 3600) "h"
               +:+ uptime_part (seconds mod 3600 / 60) "m" in
  let s := seconds mod 60 in
  front +:+ (if (0 <? s) || bool_decide (front = "") then str_of_Z s +:+ "s" else "").

Example uptimes :
  format_uptime_mikrotik 19137 = "5h18m57s" /\ format_uptime_mikrotik 172800 = "2d" /\ format_uptime_mikrotik 0 = "0s".
Proof. vm_compute. repeat split; reflexivity. Qed.

(** ** The round trip of an uptime *)
Lemma search_unit_digits u s : forall acc t,
  all_digits s = true -> search_unit u (Some acc) (s +:+ t) = search_unit u (Some (read_digits acc s)) t.
Proof.
  induction s as [|c s IH]; intros acc t Hs; [done|].
  destruct (all_digits_cons c s Hs) as [[d Hd] Hs'].
  change (String c s +:+ t) with (String c (s +:+ t)). simpl. rewrite Hd. simpl. by apply IH.
Qed.

Lemma search_unit_number u v n t :
  0 <= n -> digit_value v = None ->
  search_unit u None (str_of_Z n +:+ String v t) = if bool_decide (v = u) then Some n else search_unit u None t.
Proof.
  intros Hn Hv. destruct (str_of_Z_digits n Hn) as (Hd & Hr & Hne).
  destruct (str_of_Z n) as [|c s] eqn:E; [done|].
  destruct (all_digits_cons c s Hd) as [[d Hc] Hs].
  change (String c s +:+ String v t) with (String c (s +:+ String v t)). cbn [search_unit]. rewrite Hc. cbn [default].
  rewrite search_unit_digits by done. cbn [search_unit]. rewrite Hv.
  cbn [read_digits] in Hr. rewrite Hc in Hr. cbn in Hr |- *. by rewrite Hr.
Qed.

(** The value a written part has for the unit [u]. *)
Definition part_value (u v : ascii) (n : Z) (rest : option Z) : option Z :=
  if 0 <? n then (if bool_decide (v = u) then Some n else rest) else rest.

Lemma search_part u v n t :
  digit_value v = None ->
  search_unit u None (uptime_part n v +:+ t) = part_value u v n (search_unit u None t).
Proof.
  intros Hv. unfold uptime_part, part_value. destruct (Z.ltb_spec 0 n); [|done].
  rewrite string_app_assoc. change (String v "" +:+ t) with (String v t). apply search_unit_number; [lia|done].
Qed.

(** The uptime written for display is read back exactly, for every number of
    seconds. *)
Theorem uptime_round_trip n : 0 <= n -> _parse_uptime (format_uptime_mikrotik n) = n.
Proof.
  intros Hn. unfold format_uptime_mikrotik.
  set (d := n / 86400). set (h := n mod 86400 / 3600). set (m := n mod 3600 / 60). set (s := n mod 60).
  assert (Hsum : n = d * 86400 + h * 3600 + m * 60 + s /\ 0 <= d /\ 0 <= h /\ 0 <= m /\ 0 <= s).
  { unfold d, h, m, s. Z.to_euclidean_division_equations. lia. }
  destruct Hsum as (Hsum & Hd & Hh & Hm & Hs). clearbody d h m s.
  set (front := uptime_part d "d" +:+ uptime_part h "h" +:+ uptime_part m "m").
  set (tail := if (0 <? s) || bool_decide (front = "") then str_of_Z s +:+ "s" else "").
  assert (Ht : forall u, search_unit u None tail =
            if bool_decide (tail = "") then None else if bool_decide ("s"%char = u) then Some s else None).
  { intros u. unfold tail. destruct (_ || _) eqn:E; [|by rewrite bool_decide_eq_true_2].
    rewrite bool_decide_eq_false_2; [by rewrite search_unit_number|].
    destruct (str_of_Z_digits s Hs) as (_ & _ & Hne). by destruct (str_of_Z s). }
  assert (Hs0 : tail = "" -> s = 0).
  { unfold tail. destruct (Z.ltb_spec 0 s); [|lia]. simpl.
    destruct (str_of_Z_digits s Hs) as (_ & _ & Hne). by destruct (str_of_Z s). }
  clearbody tail. unfold _parse_uptime, front. cbn [foldl uptime_units fst snd].
  rewrite !string_app_assoc, !search_part, !Ht by done. unfold part_value.
  repeat match goal with |- context [bool_decide (?a = ?b)] =>
    first [rewrite (bool_decide_eq_true_2 (a = b)) by done | rewrite (bool_decide_eq_false_2 (a = b)) by done] end.
  destruct (Z.ltb_spec 0 d), (Z.ltb_spec 0 h), (Z.ltb_spec 0 m), (decide (tail = "")) as [Et|Et];
    rewrite ?(bool_decide_eq_true_2 (tail = "")), ?(bool_decide_eq_false_2 (tail = "")) by done;
    cbn [default from_option id]; try (specialize (Hs0 Et)); lia.
Qed.

Lemma uptime_round_trip_witness : _parse_uptime "2d3h45m10s" = 186310 /\ _parse_uptime (format_uptime_mikrotik 186310) = 186310.
Proof. split; [vm_compute; reflexivity|apply (uptime_round_trip 186310); lia]. Defined.
