(* ===== verification/RouterRegistry.v ===== *)
(** * The registry of routers

    [RouterService] ([src/app/modules/routers/service.py]), the status
    synchronisation of the client ([src/app/integrations/mikrotik/client.py]) and
    the endpoints around them ([src/app/api/v1/network/routers.py]).

    A service belongs to one request (or one task): its cache and the ORM
    instances it holds live as long as it does. An instance is known by its key
    and the epoch it was loaded in: after a rollback its attributes are expired
    and reading them raises. *)

From S2P Require Import Prelude PyString Numerics Models Session AgentQueue RouterCli RouterUnits WireGuard Provisioning.
Open Scope Z_scope.

Record CacheEntry : Type := mkCacheEntry {
  ce_router : Z;
  ce_epoch : nat;
  ce_at : datetime
}.

(** [_is_vpn_winbox_port] *)
Definition _is_vpn_winbox_port (port : option Z) : bool :=
  match port with Some p => (51000 <=? p) && (p <=? 59999) | None => false end.

(** [_validate_mac_address]; the pattern ends before a final newline. *)
Definition is_hex (c : ascii) : bool :=
  let n := Z.of_nat (Ascii.nat_of_ascii c) in
  (48 <=? n) && (n <=? 57) || (65 <=? n) && (n <=? 70) || (97 <=? n) && (n <=? 102).

Fixpoint mac_pairs (n : nat) (s : string) : bool :=
  match n, s with
  | 1%nat, String a (String b rest) => is_hex a && is_hex b && (bool_decide (rest = "") || bool_decide (rest = String "010" ""))
  | S n, String a (String b (String sep rest)) =>
      is_hex a && is_hex b && (bool_decide (sep = ":"%char) || bool_decide (sep = "-"%char)) && mac_pairs n rest
  | _, _ => false
  end.

Definition _validate_mac_address (mac : string) : bool := bool_decide (mac = "") || mac_pairs 6 mac.

Definition _validate_router_credentials (username password : string) : bool :=
  negb (bool_decide (username = "")) && (Z.of_nat (String.length username) <=? 50)
  && (Z.of_nat (String.length password) <=? 255).

(** What the registry needs from outside: which IPv6 texts [ipaddress] accepts,
    which routers the table of package assignments refers to, and the platform's
    VPN domain. *)
Class RegistryEnv := {
  is_ipv6 : string -> bool;
  package_assigned : Z -> bool;
  settings_vpn_domain : string
}.

Section State.
Context {ros : RouterOS}.
Record Registry : Type := mkRegistry {
  rg_world : World;
  rg_cache : gmap string CacheEntry
}.
#[global] Instance Registry_eta : Eta Registry := fun r => mkRegistry (rg_world r) (rg_cache r).
End State.

Abbreviation reg := (M Registry).

(** The fields of an update: absent, null, or a value. *)
Record RouterPatch : Type := mkPatch {
  pa_name : option (option string);
  pa_ip_address : option (option string);
  pa_port : option (option Z);
  pa_description : option (option string);
  pa_location : option (option string);
  pa_router_type : option RouterType
}.

Definition present {A} (o : option A) : bool := match o with Some _ => true | None => false end.

Definition empty_patch (u : RouterPatch) : bool :=
  negb (present (pa_name u) || present (pa_ip_address u) || present (pa_port u)
        || present (pa_description u) || present (pa_location u) || present (pa_router_type u)).

(** The SQLAlchemy errors *)
Definition is_sqlalchemy_error (e : exn) : bool :=
  match e with
  | DatabaseError | PendingRollbackError | MultipleResultsFound | MissingGreenlet | NoInspectionAvailable => true
  | _ => false
  end.

Section Service.
Context {be : Backend} {ros : RouterOS} {cfg : AgentConfig} {env : RegistryEnv}.

(** The tenant of the service; none for the platform's owner and for tasks. *)
Variable organization_id : option Z.

Definition tenant : option Z := match organization_id with Some 0 => None | o => o end.

Definition lift {A} (m : run A) : reg A := fun g =>
  let (r, w) := m (rg_world g) in (r, g <| rg_world := w |>).

Definition in_scope (r : Router) : bool :=
  match tenant with Some o => bool_decide (rt_organization_id r = Some o) | None => true end.

(** ** The cache *)
Definition cache_ttl : Z := timedelta_seconds 300.

Definition cache_key (id : Z) : string :=
  "router:" +:+ str_of_Z id +:+ ":" +:+ match organization_id with Some o => str_of_Z o | None => "None" end.

Definition _get_from_cache (key : string) : reg (option CacheEntry) := fun g =>
  (Ok (match rg_cache g !! key with
       | Some e => if w_now (rg_world g) - ce_at e <? cache_ttl then Some e else None
       | None => None
       end), g).

Definition _set_cache (key : string) (id : Z) : reg unit :=
  mmodify (fun g => g <| rg_cache ::= <[key := mkCacheEntry id (w_epoch (rg_world g)) (w_now (rg_world g))]> |>).

(** Every key that contains the text: the entries of router 12 go with those of
    router 1. *)
Definition _invalidate_cache (pattern : string) : reg unit :=
  mmodify (fun g => g <| rg_cache ::= filter (fun ke => contains_text pattern ke.1 = false) |>).

(** ** Instances *)
Abbreviation Instance := (Z * nat)%type.

Definition attrs (x : Instance) : reg Router :=
  lift (row_attrs (snd x) ;;;
        w <- mget ;;
        match t_routers (w_view w) !! fst x with
        | Some r => mreturn r
        | None => mraise (AttributeError "deleted instance")
        end).

Definition failed_retrieval (e : exn) : exn :=
  RouterOperationError ((if is_sqlalchemy_error e then "Failed to retrieve router: " else "Unexpected error: ")
                        +:+ exn_text e).

Definition get_by_id (id : Z) : reg (option Instance) :=
  mtry
    (if id <=? 0 then mraise (ValidationError "Invalid router ID")
     else
       cached <- _get_from_cache (cache_key id) ;;
       match cached with
       | Some e =>
           let x := (ce_router e, ce_epoch e) in
           match tenant with
           | Some o =>
               r <- attrs x ;;
               mreturn (if bool_decide (rt_organization_id r = Some o) then Some x else None)
           | None => mreturn (Some x)
           end
       | None =>
           found <- lift (query (fun db => match t_routers db !! id with
                                           | Some r => if in_scope r then Some r else None
                                           | None => None
                                           end)) ;;
           match found with
           | None => mreturn None
           | Some _ =>
               _set_cache (cache_key id) id ;;;
               epoch <- lift epoch ;;
               mreturn (Some (id, epoch))
           end
       end)
    (fun e => mraise (failed_retrieval e)).

(** ** WinBox ports *)
Definition or_port (o : option Z) (d : Z) : Z := match o with None | Some 0 => d | Some p => p end.

Definition port_range (db : DB) : Z * Z :=
  match (o ← tenant; t_remote_access db !! o) with
  | Some a => (or_port (ra_winbox_port_start a) 51000, or_port (ra_winbox_port_end a) 59999)
  | None => (51000, 59999)
  end.

Definition used_ports (db : DB) : list Z := omap (fun kr => rt_winbox_port kr.2) (map_to_list (t_routers db)).

(** The first port of [first], [first + 1], ... that is not used. *)
Fixpoint first_free (used : list Z) (first : Z) (n : nat) : option Z :=
  match n with
  | O => None
  | S n => if bool_decide (first ∈ used) then first_free used (first + 1) n else Some first
  end.

Definition _assign_winbox_port : reg Z :=
  range <- lift (query port_range) ;;
  used <- lift (query used_ports) ;;
  match first_free used range.1 (Z.to_nat (range.2 + 1 - range.1)) with
  | Some p => mreturn p
  | None => mraise (RouterOperationError
      ("No available Winbox ports in range " +:+ str_of_Z range.1 +:+ "-" +:+ str_of_Z range.2
       +:+ ". Consider expanding the port range in organization settings."))
  end.

Definition resolve_vpn_domain (r : Router) : reg string :=
  settings <- lift (query (fun db => o ← rt_organization_id r; match o with 0 => None | _ => t_remote_access db !! o end)) ;;
  let override := strip (default "" (a ← settings; ra_vpn_domain a)) in
  mreturn (if bool_decide (override = "") || bool_decide (override = "vpn.codevertex.com")
           then strip settings_vpn_domain else override).

Definition get_winbox_url (id : Z) : reg (option string) :=
  found <- get_by_id id ;;
  match found with
  | None => mreturn None
  | Some x =>
      r <- attrs x ;;
      if _is_vpn_winbox_port (rt_winbox_port r) then
        domain <- resolve_vpn_domain r ;;
        mreturn (if bool_decide (domain = "") then None
                 else Some (domain +:+ ":" +:+ str_of_Z (default 0 (rt_winbox_port r))))
      else mreturn None
  end.

(** ** Creating *)
Definition _validate_ip_address (s : string) : bool := bool_decide (is_Some (parse_ip s)) || is_ipv6 s.

Definition matching (p : Router -> bool) (db : DB) : list (Z * Router) :=
  select (fun _ r => p r) (t_routers db).

Definition check (b : bool) (message : string) : reg unit :=
  if b then mreturn tt else mraise (ValidationError message).

(** [scalar_one_or_none] of the routers that satisfy [p]: none may. *)
Definition no_duplicate (p : Router -> bool) (message : string) : reg unit :=
  rows <- lift (query (matching p)) ;;
  row <- lift (scalar_one_or_none rows) ;;
  match row with None => mreturn tt | Some _ => mraise (ValidationError message) end.

(** A write fails as a whole, and is rolled back. *)
Definition or_rollback (verb : string) {A} (m : reg A) : reg A :=
  mtry m (fun e =>
    lift rollback ;;;
    match e with
    | ValidationError _ => mraise e
    | RouterOperationError m =>
        mraise (RouterOperationError ((if bool_decide (verb = "delete") then "" else "Unexpected error: ") +:+ m))
    | DatabaseError => mraise (RouterOperationError
        (if bool_decide (verb = "create") then "Router creation failed due to data integrity constraints"
         else "Failed to " +:+ verb +:+ " router: " +:+ exn_text e))
    | _ => mraise (RouterOperationError
        ((if is_sqlalchemy_error e then "Failed to " +:+ verb +:+ " router: " else "Unexpected error: ")
         +:+ exn_text e))
    end).

Definition new_router (name ip_address username password : string) (port winbox_port : Z) : Router :=
  mkRouter organization_id (strip name) ip_address port username password OFFLINE true None 0 None None None
    None None None None None false 10 None None None (Some winbox_port) None None false [].

Definition stripped (o : option string) : option string :=
  match o with None | Some "" => None | Some s => Some (strip s) end.

Definition create_router (name ip_address username password : string) (type : RouterType) (port : Z)
    (location description : option string) : reg Z :=
  or_rollback "create"
    (check (negb (bool_decide (name = "")) && (3 <=? Z.of_nat (String.length (strip name))))
       "Router name must be at least 3 characters long" ;;;
     check (_validate_ip_address ip_address) "Invalid IP address format" ;;;
     check (_validate_router_credentials username password) "Invalid router credentials" ;;;
     check ((1 <=? port) && (port <=? 65535)) "Port must be between 1 and 65535" ;;;
     no_duplicate (fun r => bool_decide (rt_ip_address r = ip_address) && in_scope r)
       ("Router with IP address " +:+ ip_address +:+ " already exists") ;;;
     no_duplicate (fun r => bool_decide (rt_name r = strip name) && in_scope r)
       ("Router with name '" +:+ name +:+ "' already exists") ;;;
     winbox_port <- _assign_winbox_port ;;
     id <- lift (query (fun db => next_id (t_routers db))) ;;
     time <- lift utcnow ;;
     lift (assign (over t_routers (insert id (new_router name ip_address username password port winbox_port)))) ;;;
     lift (assign (over t_router_info (insert id
       (mkRouterInfo type (stripped description) (stripped location) None None None None time)))) ;;;
     lift commit ;;;
     mreturn id).

(** ** Updating *)

(** [update_data['port'] < 1] of a null *)
Definition null_comparison : exn := TypeError "'<' not supported between instances of 'NoneType' and 'int'".
Definition null_strip : exn := AttributeError "'NoneType' object has no attribute 'strip'".

Definition _validate_router_data (u : RouterPatch) : reg unit :=
  (match pa_ip_address u with
   | Some (Some ip) => check (_validate_ip_address ip) "Invalid IP address format"
   | Some None => mraise (ValidationError "Invalid IP address format")
   | None => mreturn tt
   end) ;;;
  match pa_port u with
  | Some (Some p) => check ((1 <=? p) && (p <=? 65535)) "Port must be between 1 and 65535"
  | Some None => mraise null_comparison
  | None => mreturn tt
  end.

(** The address and the name must be new among the routers of all tenants. *)
Definition check_new_address (id : Z) (u : RouterPatch) (r : Router) : reg unit :=
  match pa_ip_address u with
  | Some (Some ip) =>
      if bool_decide (ip = rt_ip_address r) then mreturn tt
      else
        rows <- lift (query (fun db => select (fun i r => bool_decide (rt_ip_address r = ip) && negb (i =? id)) (t_routers db))) ;;
        row <- lift (scalar_one_or_none rows) ;;
        match row with
        | None => mreturn tt
        | Some _ => mraise (ValidationError ("Router with IP address " +:+ ip +:+ " already exists"))
        end
  | _ => mreturn tt
  end.

Definition check_new_name (id : Z) (u : RouterPatch) (r : Router) : reg unit :=
  match pa_name u with
  | Some (Some name) =>
      if bool_decide (name = rt_name r) then mreturn tt
      else
        rows <- lift (query (fun db => select (fun i r => bool_decide (rt_name r = strip name) && negb (i =? id)) (t_routers db))) ;;
        row <- lift (scalar_one_or_none rows) ;;
        match row with
        | None => mreturn tt
        | Some _ => mraise (ValidationError ("Router with name '" +:+ name +:+ "' already exists"))
        end
  | Some None => mraise null_strip
  | None => mreturn tt
  end.

(** A null leaves its field alone. *)
Definition apply_patch (u : RouterPatch) (r : Router) : Router :=
  let r := match pa_name u with Some (Some n) => r <| rt_name := strip n |> | _ => r end in
  let r := match pa_ip_address u with Some (Some ip) => r <| rt_ip_address := ip |> | _ => r end in
  match pa_port u with Some (Some p) => r <| rt_port := p |> | _ => r end.

Definition apply_info (u : RouterPatch) (i : RouterInfo) : RouterInfo :=
  let i := match pa_description u with Some (Some d) => i <| ri_description := Some (strip d) |> | _ => i end in
  let i := match pa_location u with Some (Some l) => i <| ri_location := Some (strip l) |> | _ => i end in
  match pa_router_type u with Some t => i <| ri_type := t |> | None => i end.

Definition sets_nothing (u : RouterPatch) : bool :=
  let null {A} (o : option (option A)) := match o with Some (Some _) => false | _ => true end in
  null (pa_name u) && null (pa_ip_address u) && null (pa_port u) && null (pa_description u)
  && null (pa_location u) && negb (present (pa_router_type u)).

Definition update_router (id : Z) (u : RouterPatch) : reg (option Instance) :=
  or_rollback "update"
    (check (0 <? id) "Invalid router ID" ;;;
     check (negb (empty_patch u)) "Invalid update data" ;;;
     found <- get_by_id id ;;
     match found with
     | None => mreturn None
     | Some x =>
         _validate_router_data u ;;;
         r <- attrs x ;;
         check_new_address id u r ;;;
         check_new_name id u r ;;;
         check (negb (match pa_name u with Some (Some n) => bool_decide (strip n = "") | _ => false end))
           "Router name cannot be empty" ;;;
         if sets_nothing u then mreturn (Some x)
         else
           lift (assign (over t_routers (alter (apply_patch u) id))) ;;;
           lift (assign (over t_router_info (alter (apply_info u) id))) ;;;
           lift commit ;;;
           _invalidate_cache ("router:" +:+ str_of_Z id) ;;;
           mreturn (Some x)
     end).

(** ** Deleting *)
Definition _log_router_action (id : Z) (action details : string) (success : bool) : reg unit :=
  lift (assign (over t_router_logs (fun l => l ++ [mkRouterLog id action details success]))) ;;;
  lift commit.

(** [MikroTikClient.cleanup_provisioning], as [delete_router] calls it: it
    connects; its calls of [execute_command] lack the positional parameter
    [command_or_path], and the [TypeError] is caught. *)
Definition cleanup_provisioning (x : Instance) : reg unit :=
  r <- attrs x ;;
  lift (mtry (client_connect r) (fun _ => mreturn tt)).

(** The statuses of subscriptions that keep their router *)
Definition keeps_router (s : SubscriptionStatus) : bool :=
  match s with ACTIVE | PENDING | SUSPENDED => true | _ => false end.

Definition subs_of (id : Z) (db : DB) : list Z :=
  map fst (map_to_list (filter (fun ks => sub_router_id ks.2 = id) (t_subs db))).

Definition sessions_of (id : Z) (db : DB) : list Z :=
  map fst (map_to_list (filter (fun ks => ps_router_id ks.2 = id) (t_prov_sessions db))).

Definition delete_sessions_of (id : Z) (db : DB) : DB := foldr delete_row db (sessions_of id db).

(** [db.delete(router)]: the subscriptions, devices, logs, commands and backups
    go with the router. *)
Definition delete_router_rows (id : Z) (db : DB) : DB :=
  (foldr delete_sub_row db (subs_of id db))
    <| t_devices ::= filter (fun kd => dv_router_id kd.2 <> id) |>
    <| t_router_logs ::= filter (fun l => rl_router_id l <> id) |>
    <| t_commands ::= filter (fun kc => cmd_router_id kc.2 <> id) |>
    <| t_backups ::= filter (fun kb => bak_router_id kb.2 <> id) |>
    <| t_router_info ::= delete id |> <| t_router_setup ::= delete id |>
    <| t_routers ::= delete id |>.

(** The server refuses while a row it does not clear refers to one of them. *)
Definition router_referenced (id : Z) (db : DB) : bool :=
  existsb (fun i => sub_referenced i db) (subs_of id db) || package_assigned id.

Definition delete_router_row (id : Z) : run unit := fun w =>
  if w_broken w then (Raise PendingRollbackError, w)
  else if router_referenced id (w_view w) then (Raise DatabaseError, w <| w_broken := true |>)
  else (Ok tt, w <| w_view ::= delete_router_rows id |>).

Definition delete_router (id : Z) (cleanup_device : bool) : reg bool :=
  or_rollback "delete"
    (check (0 <? id) "Invalid router ID" ;;;
     found <- get_by_id id ;;
     match found with
     | None => mreturn false
     | Some x =>
         active <- lift (select_subs (fun _ s => (sub_router_id s =? id) && keeps_router (sub_status s)) None) ;;
         match active with
         | [] =>
             mwhen cleanup_device
               (mtry (cleanup_provisioning x)
                  (fun e => _log_router_action id "cleanup_provisioning"
                     ("Failed to cleanup device (may be offline): " +:+ exn_text e) false)) ;;;
             attrs x ;;;
             lift (assign (delete_sessions_of id)) ;;;
             lift (delete_router_row id) ;;;
             lift commit ;;;
             _invalidate_cache ("router:" +:+ str_of_Z id) ;;;
             mreturn true
         | _ => mraise (RouterOperationError
                  ("Cannot delete router with " +:+ str_of_Z (Z.of_nat (length active)) +:+ " active subscriptions"))
         end
     end).

(** ** The status of a router *)

(** [MikroTikClient.get_system_info] *)
Definition get_system_info (r : Router) : run (option Entry) :=
  reply <- mtry (execute_command r "/system/resource" GET []) (fun _ => mreturn None) ;;
  mreturn (match reply with Some (e :: _) => Some e | _ => None end).

Definition of_outcome {A} (o : outcome A) : reg A := match o with Ok a => mreturn a | Raise e => mraise e end.

Definition set_router (id : Z) (f : Router -> Router) : reg unit := lift (assign (over t_routers (alter f id))).
Definition set_info (id : Z) (f : RouterInfo -> RouterInfo) : reg unit := lift (assign (over t_router_info (alter f id))).

Definition int_value (s : string) : outcome Z :=
  match py_int s with
  | Some n => Ok n
  | None => Raise (ValueError ("invalid literal for int() with base 10: '" +:+ s +:+ "'"))
  end.

Definition size_of (info : Entry) (key : string) : reg Z := of_outcome (_parse_size (default "" (info !! key))).

(** An exception keeps the columns assigned before it. *)
Definition record_system_info (id : Z) (info : Entry) : reg unit :=
  time <- lift utcnow ;;
  set_router id (fun r => r <| rt_status := ONLINE |> <| rt_last_seen := Some time |>
                            <| rt_uptime := _parse_uptime (default "0s" (info !! "uptime")) |>
                            <| rt_routeros_version := info !! "version" |>) ;;;
  set_info id (fun i => i <| ri_board_name := info !! "board-name" |> <| ri_architecture := info !! "architecture-name" |>) ;;;
  match info !! "cpu-count" with
  | Some n => n <- of_outcome (int_value n) ;; set_info id (fun i => i <| ri_cpu_count := Some n |>)
  | None => mreturn tt
  end ;;;
  frequency <- of_outcome (_parse_frequency (default "" (info !! "cpu-frequency"))) ;;
  set_info id (fun i => i <| ri_cpu_frequency := Some frequency |>) ;;;
  set_router id (fun r => r <| rt_cpu_load := Some (_parse_percentage (default "" (info !! "cpu-load"))) |>) ;;;
  n <- size_of info "total-memory" ;; set_router id (fun r => r <| rt_total_memory := Some n |>) ;;;
  n <- size_of info "free-memory" ;; set_router id (fun r => r <| rt_free_memory := Some n |>) ;;;
  n <- size_of info "total-hdd-space" ;; set_router id (fun r => r <| rt_total_hdd_space := Some n |>) ;;;
  n <- size_of info "free-hdd-space" ;; set_router id (fun r => r <| rt_free_hdd_space := Some n |>).

(** [MikroTikClient.sync_router_status]; its log line reads the instance. *)
Definition client_sync_router_status (x : Instance) : reg bool :=
  let offline := set_router (fst x) (fun r => r <| rt_status := OFFLINE |>) ;;; attrs x ;;; mreturn false in
  mtry
    (r <- attrs x ;;
     lift (client_connect r) ;;;
     info <- lift (get_system_info r) ;;
     match info with
     | Some info => if bool_decide (info = ∅) then offline else record_system_info (fst x) info ;;; mreturn true
     | None => offline
     end)
    (fun _ => offline).

Definition _sync_router_status_internal (x : Instance) : reg bool :=
  mtry
    (success <- client_sync_router_status x ;;
     mwhen success (_log_router_action (fst x) "sync_status" "Status sync successful" true) ;;;
     mreturn success)
    (fun e =>
       attrs x ;;;
       _log_router_action (fst x) "sync_status" ("Status sync failed: " +:+ exn_text e) false ;;;
       mraise e).

(** Waiting 1, 2, ... seconds between the attempts *)
Fixpoint _retry_operation {A} (operation : reg A) (attempt left_over : nat) : reg A :=
  match left_over with
  | O => operation
  | S n =>
      mtry operation (fun _ =>
        lift (mmodify (over w_now (fun t => t + timedelta_seconds (2 ^ Z.of_nat attempt)))) ;;;
        _retry_operation operation (S attempt) n)
  end.

Definition sync_router_status (id : Z) : reg bool :=
  mtry
    (check (0 <? id) "Invalid router ID" ;;;
     found <- get_by_id id ;;
     match found with
     | None => mreturn false
     | Some x =>
         success <- _retry_operation (_sync_router_status_internal x) 0 2 ;;
         mwhen success (lift commit ;;; _invalidate_cache ("router:" +:+ str_of_Z id)) ;;;
         mreturn success
     end)
    (fun e =>
       match e with
       | ValidationError _ => mraise e
       | _ => _log_router_action id "sync_status" ("Failed to sync status: " +:+ exn_text e) false ;;; mreturn false
       end).

(** Every tenant's routers are listed; those of other tenants count as failed. *)
Record SyncCounts : Type := mkSyncCounts { total_routers : Z; synced_count : Z; failed_count : Z }.

Definition sync_all_routers : reg SyncCounts :=
  ids <- lift (query (fun db => map fst (scan (t_routers db)))) ;;
  loaded <- lift epoch ;;
  counts <- mfold (fun (c : Z * Z) id =>
      success <- mtry (attrs (id, loaded) ;;; sync_router_status id) (fun _ => mreturn false) ;;
      mreturn (if success : bool then (c.1 + 1, c.2) else (c.1, c.2 + 1))) (0, 0) ids ;;
  mreturn (mkSyncCounts (Z.of_nat (length ids)) counts.1 counts.2).

(** ** Figures *)
Record RouterStats : Type := mkRouterStats {
  rs_total : Z;
  rs_active : Z;
  rs_online : Z;
  rs_offline : Z
}.

Definition count_routers (p : Router -> bool) (db : DB) : Z := Z.of_nat (length (matching p db)).

(** Of every tenant *)
Definition get_router_stats : reg RouterStats :=
  total <- lift (query (count_routers (fun _ => true))) ;;
  active <- lift (query (count_routers rt_is_active)) ;;
  online <- lift (query (count_routers (fun r => bool_decide (rt_status r = ONLINE)))) ;;
  offline <- lift (query (count_routers (fun r => bool_decide (rt_status r = OFFLINE)))) ;;
  mreturn (mkRouterStats total active online offline).

(** ** Devices; the model has no columns [name], [status] and [description]. *)
Definition create_router_device (id : Z) : reg unit :=
  mraise (TypeError "'name' is an invalid keyword argument for RouterDevice").

Definition delete_router_device (device_id : Z) : reg bool :=
  device <- lift (query (fun db => t_devices db !! device_id)) ;;
  match device with
  | None => mreturn false
  | Some _ => mraise (AttributeError "'RouterDevice' object has no attribute 'name'")
  end.
End Service.
