(* ===== verification/RegistryFacts.v ===== *)
(** * What the registry of routers guarantees

    The requests start with an empty cache and with a session that holds no
    pending change: every service is made for one request. *)

From S2P Require Import Prelude PyString Numerics Models Session AgentQueue RouterCli RouterUnits WireGuard Provisioning RouterRegistry.
Open Scope Z_scope.

Section Facts.
Context {be : Backend} {ros : RouterOS} {cfg : AgentConfig} {env : RegistryEnv}.
Variable organization_id : option Z.

(** ** Rules *)

(** The tables are those of [db], committed; [trace] has been sent to routers
    and the instances are those of [epoch]. *)
Definition at_rest (db : DB) (trace : list RosCommand) (e : nat) (g : Registry) : Prop :=
  w_view (rg_world g) = db /\ w_durable (rg_world g) = db /\ w_trace (rg_world g) = trace /\
  w_epoch (rg_world g) = e.

Definition committed (db : DB) (trace : list RosCommand) (g : Registry) : Prop :=
  w_durable (rg_world g) = db /\ w_trace (rg_world g) = trace.

Definition settled (db : DB) (trace : list RosCommand) (g : Registry) : Prop :=
  w_view (rg_world g) = db /\ committed db trace g.

(** An instance whose assignments are not committed yet *)
Definition pending (db view : DB) (trace : list RosCommand) (g : Registry) : Prop :=
  w_view (rg_world g) = view /\ committed db trace g.

Lemma at_rest_committed db t e g : at_rest db t e g -> committed db t g.
Proof. by intros (_ & ? & ? & _). Qed.

Section Rules.
Context {A : Type} (P : Registry -> Prop) (E : Registry -> Prop).
Hypothesis P_E : forall g, P g -> E g.

Lemma triple_check (b : bool) (m : string) : triple P (check b m) (fun _ g => P g /\ b = true) E.
Proof. unfold check. destruct b; intros g Hg; simpl; auto. Qed.

Lemma triple_raise (e : exn) (Q : A -> Registry -> Prop) : triple P (mraise e) Q E.
Proof. intros g Hg. by apply P_E. Qed.

Lemma triple_query (f : DB -> A) :
  triple P (lift (query f)) (fun a g => P g /\ a = f (w_view (rg_world g))) E.
Proof.
  intros g Hg. unfold lift, query. destruct (w_broken (rg_world g)); simpl.
  - destruct g. simpl. by apply P_E.
  - split; [|done]. by destruct g.
Qed.

End Rules.

Lemma triple_pure {A} (P : Registry -> Prop) (Q0 : Prop) (m : reg A) Q E :
  (Q0 -> triple P m Q E) -> triple (fun g => P g /\ Q0) m Q E.
Proof. intros H g [Hg H0]. by apply H. Qed.

(** One check, or one query, of a handler *)
Lemma check_then {B} P E b m (k : unit -> reg B) Q :
  (forall g, P g -> E g) -> (b = true -> triple P (k tt) Q E) -> triple P (mthen (check b m) k) Q E.
Proof.
  intros PE Hk. eapply triple_then; [exact (triple_check P E PE b m)|]. intros []. by apply triple_pure.
Qed.

Lemma query_then {A B} P E (f : DB -> A) db (k : A -> reg B) Q :
  (forall g, P g -> E g) -> (forall g, P g -> w_view (rg_world g) = db) ->
  triple P (k (f db)) Q E -> triple P (mthen (lift (query f)) k) Q E.
Proof.
  intros PE Hdb Hk. eapply triple_then; [exact (triple_query P E PE f)|].
  intros a g [Hg ->]. rewrite (Hdb g Hg). by apply Hk.
Qed.

Lemma clock_then {B} P E (k : datetime -> reg B) Q :
  (forall time, triple P (k time) Q E) -> triple P (mthen (lift utcnow) k) Q E.
Proof. intros Hk g Hg. unfold lift, mthen, utcnow. destruct g as [w c]. by apply (Hk (w_now w)). Qed.

Lemma no_duplicate_then {B} P E p m db (k : unit -> reg B) Q :
  (forall g, P g -> E g) -> (forall g, P g -> w_view (rg_world g) = db) ->
  (matching p db = [] -> triple P (k tt) Q E) -> triple P (mthen (no_duplicate p m) k) Q E.
Proof.
  intros PE Hdb Hk. unfold no_duplicate.
  eapply triple_then with (Q' := fun _ g => P g /\ matching p db = []); [|intros []; by apply triple_pure].
  eapply query_then; [done..|]. intros g Hg. unfold lift, mthen, scalar_one_or_none.
  destruct (matching p db) as [|r [|r' l]]; destruct g; simpl in *; auto.
Qed.

Lemma triple_or_rollback {A} P verb (m : reg A) Q db t :
  triple P m Q (committed db t) -> triple P (or_rollback verb m) Q (settled db t).
Proof.
  intros Hm. unfold or_rollback. eapply triple_try; [exact Hm|]. intros e.
  assert (Hr : triple (committed db t) (lift rollback) (fun _ => settled db t) (settled db t)).
  { intros g [Hd Ht]. split; [|split]; by destruct g as [[]]. }
  eapply triple_then; [exact Hr|]. intros []. simpl. destruct e; by apply triple_raise.
Qed.

Lemma triple_commit db view t :
  triple (pending db view t) (lift commit) (fun _ => settled view t) (committed db t).
Proof.
  intros g (Hv & Hd & Ht). unfold lift, commit, flush, mthen, mmodify.
  destruct (w_broken (rg_world g)) eqn:Eb; simpl; [done|].
  destruct (_ || _) eqn:Er; simpl; [done|]. by subst.
Qed.

Lemma triple_assign db view t f :
  triple (pending db view t) (lift (assign f)) (fun _ => pending db (f view) t) (committed db t).
Proof. intros g (Hv & Hd & Ht). destruct g as [[]]; simpl in *. by subst. Qed.

Lemma at_rest_pending db t e g : at_rest db t e g -> pending db db t g.
Proof. by intros (? & ? & ? & _). Qed.

(** ** Creating a router *)
Lemma free_port_search used n : forall first p,
  first_free used first n = Some p <->
  first <= p < first + Z.of_nat n /\ p ∉ used /\ forall q, first <= q < p -> q ∈ used.
Proof.
  induction n as [|n IH]; intros first p; [split; [done|lia]|]. simpl.
  destruct (bool_decide_reflect (first ∈ used)) as [Hin|Hout].
  - rewrite IH. split; intros (Hr & Hn & Hl); (split; [|split; [done|]]).
    + lia.
    + intros q Hq. destruct (decide (q = first)) as [->|]; [done|]. apply Hl. lia.
    + assert (p <> first) by (intros ->; done). lia.
    + intros q Hq. apply Hl. lia.
  - split.
    + intros [= <-]. split; [lia|]. split; [done|]. lia.
    + intros (Hr & Hn & Hl). destruct (decide (p = first)) as [->|]; [done|].
      destruct Hout. apply Hl. lia.
Qed.

Lemma elem_of_used_ports p db :
  p ∈ used_ports db <-> exists i r, t_routers db !! i = Some r /\ rt_winbox_port r = Some p.
Proof.
  unfold used_ports. rewrite list_elem_of_omap. split.
  - intros ([i r] & Hin & Hp). exists i, r. by apply elem_of_map_to_list in Hin.
  - intros (i & r & Hi & Hp). exists (i, r). by rewrite elem_of_map_to_list.
Qed.

(** The lowest port of the tenant's range that no router has *)
Definition lowest_free_port (db : DB) (p : Z) : Prop :=
  let range := port_range organization_id db in
  range.1 <= p <= range.2 /\
  (forall i r, t_routers db !! i = Some r -> rt_winbox_port r <> Some p) /\
  (forall q, range.1 <= q < p -> exists i r, t_routers db !! i = Some r /\ rt_winbox_port r = Some q).

Lemma first_free_port db p :
  let range := port_range organization_id db in
  first_free (used_ports db) range.1 (Z.to_nat (range.2 + 1 - range.1)) = Some p <-> lowest_free_port db p.
Proof.
  intros range. rewrite free_port_search, elem_of_used_ports. unfold lowest_free_port. fold range.
  setoid_rewrite elem_of_used_ports. split.
  - intros (Hr & Hn & Hl). split; [lia|]. split; [|done]. intros i r Hi Hp. apply Hn. by exists i, r.
  - intros (Hr & Hn & Hl). split; [lia|]. split; [|done]. intros (i & r & Hi & Hp). by apply (Hn i r).
Qed.

Lemma triple_assign_port db t e :
  triple (at_rest db t e) (_assign_winbox_port organization_id)
    (fun p g => at_rest db t e g /\ lowest_free_port db p) (committed db t).
Proof.
  unfold _assign_winbox_port. eapply triple_then; [apply triple_query, at_rest_committed|]. intros range.
  eapply triple_then;
    [apply triple_query; intros g [Hg _]; exact (at_rest_committed _ _ _ _ Hg)|]. intros used g [[Hg ->] ->].
  destruct Hg as (Hv & Hrest). rewrite Hv.
  destruct (first_free _ _ _) as [p|] eqn:Ef; simpl; [|by destruct Hrest as (? & ? & _)].
  split; [done|]. by apply first_free_port.
Qed.

Section Create.
Variables (name ip_address username password : string) (type : RouterType) (port : Z)
  (location description : option string).

(** What a creation requires *)
Definition valid_router : bool :=
  negb (bool_decide (name = "")) && (3 <=? Z.of_nat (String.length (strip name)))
  && _validate_ip_address ip_address && _validate_router_credentials username password
  && (1 <=? port) && (port <=? 65535).

Definition new_in_tenant (db : DB) : Prop := forall i r,
  t_routers db !! i = Some r -> in_scope organization_id r = true ->
  rt_ip_address r <> ip_address /\ rt_name r <> strip name.

Definition with_router (id winbox_port : Z) (time : datetime) (db : DB) : DB :=
  db <| t_routers ::= insert id (new_router organization_id name ip_address username password port winbox_port) |>
     <| t_router_info ::= insert id (mkRouterInfo type (stripped description) (stripped location) None None None None time) |>.

Abbreviation create := (create_router organization_id name ip_address username password type port location description).

Definition created (db : DB) (t : list RosCommand) (id : Z) (g : Registry) : Prop :=
  t_routers db !! id = None /\ valid_router = true /\ new_in_tenant db /\
  exists p time, lowest_free_port db p /\ settled (with_router id p time db) t g.

Lemma no_match_new db :
  matching (fun r => bool_decide (rt_ip_address r = ip_address) && in_scope organization_id r) db = [] ->
  matching (fun r => bool_decide (rt_name r = strip name) && in_scope organization_id r) db = [] ->
  new_in_tenant db.
Proof.
  intros Hi Hn i r Hr Hs. split; intros Heq; subst.
  - assert (Hin : (i, r) ∈ matching (fun r' => bool_decide (rt_ip_address r' = rt_ip_address r) && in_scope organization_id r') db).
    { apply elem_of_select. by rewrite bool_decide_eq_true_2. }
    rewrite Hi in Hin. by apply elem_of_nil in Hin.
  - assert (Hin : (i, r) ∈ matching (fun r' => bool_decide (rt_name r' = strip name) && in_scope organization_id r') db).
    { apply elem_of_select. by rewrite bool_decide_eq_true_2. }
    rewrite Hn in Hin. by apply elem_of_nil in Hin.
Qed.

Lemma create_sound db t e : triple (at_rest db t e) create (created db t) (settled db t).
Proof.
  assert (Hc := at_rest_committed db t e).
  assert (Hv : forall g, at_rest db t e g -> w_view (rg_world g) = db) by by intros g [? _].
  apply triple_or_rollback. unfold created.
  apply check_then; [done|intros Hname]. apply check_then; [done|intros Hip].
  apply check_then; [done|intros Hcred]. apply check_then; [done|intros Hport].
  apply (no_duplicate_then _ _ _ _ db); [done..|intros Hi].
  apply (no_duplicate_then _ _ _ _ db); [done..|intros Hn].
  eapply triple_then; [apply triple_assign_port|]. intros p. apply triple_pure. intros Hp.
  apply (query_then _ _ _ db); [done..|].
  apply clock_then. intros time.
  eapply triple_weaken; [apply at_rest_pending|intros ?? H; exact H|intros ? H; exact H|].
  eapply triple_then; [apply triple_assign|]. intros []. eapply triple_then; [apply triple_assign|]. intros [].
  eapply triple_then; [apply triple_commit|]. intros []. apply triple_return. intros g Hg.
  split; [apply next_id_fresh|]. split; [unfold valid_router; by rewrite Hname, Hip, Hcred|].
  split; [by apply no_match_new|]. by exists p, time.
Qed.

(** The router keys stay unique: the port is a free one. *)
Lemma schema_with_router id p time db :
  schema_ok db -> t_routers db !! id = None -> lowest_free_port db p -> schema_ok (with_router id p time db).
Proof.
  intros (H1 & H2 & H3 & H4 & Hp) Hid (_ & Hfree & _). refine (conj H1 (conj H2 (conj H3 (conj H4 _)))).
  revert Hp. unfold portal_ok, portal_tables. simpl. rewrite !fmap_insert.
  intros (P1 & P2 & P3 & P4 & P5 & P6 & P7 & P8 & P9).
  refine (conj P1 (conj P2 (conj P3 (conj P4 (conj P5 (conj P6 (conj _ (conj _ P9)))))))).
  - apply unique_opt_insert; [done|]. intros j y _ [? [=]].
  - apply unique_opt_insert; [done|]. intros j y Hj _. apply lookup_fmap_Some in Hj as (r & <- & Hr).
    exact (Hfree j r Hr).
Qed.

Lemma lift_ok {A} (m : run A) g a w : m (rg_world g) = (Ok a, w) -> lift m g = (Ok a, g <| rg_world := w |>).
Proof. unfold lift. by intros ->. Qed.

Lemma lift_query {A} (f : DB -> A) g :
  w_broken (rg_world g) = false -> lift (query f) g = (Ok (f (w_view (rg_world g))), g).
Proof. intros Hb. rewrite (lift_ok _ _ _ _ (query_good f _ Hb)). by destruct g. Qed.

Lemma no_duplicate_ok p m g :
  w_broken (rg_world g) = false -> matching p (w_view (rg_world g)) = [] -> no_duplicate p m g = (Ok tt, g).
Proof.
  intros Hb Hm. unfold no_duplicate. rewrite (mthen_ok _ _ _ _ _ (lift_query _ g Hb)), Hm.
  unfold mthen, lift. by destruct g.
Qed.

Lemma new_no_match db p :
  (forall i r, t_routers db !! i = Some r -> p r = false) -> matching p db = [].
Proof.
  intros Hp. destruct (matching p db) as [|[i r] l] eqn:E; [done|].
  assert (Hin : (i, r) ∈ matching p db) by (rewrite E; left).
  apply elem_of_select in Hin as [Hi Hr]. by rewrite (Hp i r Hi) in Hr.
Qed.

Lemma create_complete g p :
  good (rg_world g) -> valid_router = true -> new_in_tenant (w_view (rg_world g)) ->
  lowest_free_port (w_view (rg_world g)) p ->
  exists g', create g = (Ok (next_id (t_routers (w_view (rg_world g)))), g').
Proof.
  intros Hg Hv Hn Hp. assert (Hb := good_broken _ Hg).
  unfold valid_router in Hv. rewrite !andb_true_iff in Hv. destruct Hv as [[[[[Hv1 Hv2] Hv3] Hv4] Hv5] Hv6].
  unfold create_router, or_rollback, check. rewrite Hv1, Hv2, Hv3, Hv4, Hv5, Hv6. cbn [andb].
  set (id := next_id _).
  assert (Hno : forall q, (forall r, q r = true ->
      in_scope organization_id r = true /\ (rt_ip_address r = ip_address \/ rt_name r = strip name)) ->
    matching q (w_view (rg_world g)) = []).
  { intros q Hq. apply new_no_match. intros i r Hr. apply not_true_is_false. intros [Hs Hor]%Hq.
    destruct (Hn i r Hr Hs) as [H1 H2]. by destruct Hor. }
  assert (Ha : _assign_winbox_port organization_id g = (Ok p, g)).
  { unfold _assign_winbox_port. rewrite !(mthen_ok _ _ _ _ _ (lift_query _ g Hb)).
    by rewrite (proj2 (first_free_port _ p) Hp). }
  set (time := w_now (rg_world g)).
  assert (Hw : good ((rg_world g) <| w_view ::= with_router id p time |>)).
  { destruct Hg as [H1 H2 H3]. split; [done..|]. apply schema_with_router; [done|apply next_id_fresh|done]. }
  pose proof (commit_good _ Hw) as Hc.
  eexists. apply mtry_ok. do 4 rewrite mthen_return.
  erewrite mthen_ok; [|by apply no_duplicate_ok, Hno; [|intros r [?%bool_decide_eq_true ?]%andb_true_iff; auto]].
  erewrite mthen_ok; [|by apply no_duplicate_ok, Hno; [|intros r [?%bool_decide_eq_true ?]%andb_true_iff; auto]].
  rewrite (mthen_ok _ _ _ _ _ Ha), (mthen_ok _ _ _ _ _ (lift_query _ g Hb)).
  unfold lift, mthen, mmodify, utcnow, assign, mreturn. cbn -[commit].
  match goal with |- context [commit ?w'] => rewrite (Hc : commit w' = _) end. reflexivity.
Qed.

(** C9. Registering a router: what is registered is valid and new within the
    tenant, exactly one row is inserted, with the lowest WinBox port of the
    tenant's range that no router of any tenant has; a refused registration
    changes nothing; and a valid, new router is registered whenever a port is
    free. No command is sent to any router. *)
Theorem create_router_exact g :
  let db := w_view (rg_world g) in
  w_durable (rg_world g) = db ->
  match create g with
  | (Ok id, g') => created db (w_trace (rg_world g)) id g'
  | (Raise _, g') => settled db (w_trace (rg_world g)) g'
  end /\
  (good (rg_world g) -> valid_router = true -> new_in_tenant db -> (exists p, lowest_free_port db p) ->
   exists g', create g = (Ok (next_id (t_routers db)), g')).
Proof.
  intros db Hd. split; [|intros Hg Hv Hn [p Hp]; by apply (create_complete g p)].
  apply (create_sound db (w_trace (rg_world g)) (w_epoch (rg_world g))). by repeat split.
Qed.
End Create.

(** ** Finding a router *)
Definition fresh_service (db : DB) (t : list RosCommand) (e : nat) (g : Registry) : Prop :=
  at_rest db t e g /\ rg_cache g = ∅.

Definition in_tenant (id : Z) (db : DB) : bool :=
  match t_routers db !! id with Some r => in_scope organization_id r | None => false end.

Definition found_router (db : DB) (e : nat) (id : Z) (found : option (Z * nat)) : Prop :=
  found = if in_tenant id db then Some (id, e) else None.

Lemma fresh_service_view db t e g : fresh_service db t e g -> w_view (rg_world g) = db.
Proof. by intros [[? _] _]. Qed.

Lemma fresh_service_committed db t e g : fresh_service db t e g -> committed db t g.
Proof. intros [? _]. by eapply at_rest_committed. Qed.

Lemma triple_get_by_id db t e id :
  triple (fresh_service db t e) (get_by_id organization_id id)
    (fun found g => at_rest db t e g /\ found_router db e id found) (committed db t).
Proof.
  unfold get_by_id. eapply triple_try with (E' := committed db t); [|intros x; by apply triple_raise].
  destruct (id <=? 0); [apply triple_raise, fresh_service_committed|].
  eapply triple_then with (Q' := fun c g => fresh_service db t e g /\ c = None).
  { intros g Hg. unfold _get_from_cache. rewrite (proj2 Hg), lookup_empty. by split. }
  intros c. apply triple_pure. intros ->.
  apply (query_then _ _ _ db); [apply fresh_service_committed|apply fresh_service_view|].
  unfold found_router, in_tenant.
  destruct (t_routers db !! id) as [r|]; [|apply triple_return; by intros g [Hg _]].
  destruct (in_scope organization_id r); [|apply triple_return; by intros g [Hg _]].
  intros g [(Hv & Hd & Ht & He) _]. destruct g as [[] c]. simpl in *. by subst.
Qed.

Lemma triple_attrs db view t e id :
  triple (fun g => pending db view t g /\ w_epoch (rg_world g) = e) (attrs (id, e))
    (fun r g => (pending db view t g /\ w_epoch (rg_world g) = e) /\ t_routers view !! id = Some r) (committed db t).
Proof.
  intros g [(Hv & Hd & Ht) He]. unfold attrs, lift, mthen, mget. simpl. rewrite (row_attrs_fresh _ _ He).
  destruct (t_routers (w_view (rg_world g)) !! id) as [r|] eqn:E; destruct g; simpl in *; by subst.
Qed.

(** ** Deleting a router *)
Definition without_router (id : Z) (db : DB) : DB := delete_router_rows id (delete_sessions_of id db).

(** Nothing of the router is left, and nothing of the other routers is lost. *)
Definition router_gone (id : Z) (db db' : DB) : Prop :=
  t_routers db' = delete id (t_routers db) /\
  t_subs db' = filter (fun ks => sub_router_id ks.2 <> id) (t_subs db) /\
  t_prov_sessions db' = filter (fun ks => ps_router_id ks.2 <> id) (t_prov_sessions db) /\
  t_devices db' = filter (fun kd => dv_router_id kd.2 <> id) (t_devices db) /\
  t_router_logs db' = filter (fun l => rl_router_id l <> id) (t_router_logs db) /\
  t_commands db' = filter (fun kc => cmd_router_id kc.2 <> id) (t_commands db) /\
  t_backups db' = filter (fun kb => bak_router_id kb.2 <> id) (t_backups db) /\
  t_history db' = t_history db /\ t_usage db' = t_usage db /\ t_payments db' = t_payments db.

Lemma foldr_keeps {A} (f : Z -> DB -> DB) (p : DB -> A) l db :
  (forall i db, p (f i db) = p db) -> p (foldr f db l) = p db.
Proof. intros H. induction l as [|i l IH]; simpl; [done|]. by rewrite H, IH. Qed.

Lemma foldr_deletes {A} (f : Z -> DB -> DB) (p : DB -> gmap Z A) l db :
  (forall i db, p (f i db) = delete i (p db)) -> p (foldr f db l) = foldr delete (p db) l.
Proof. intros H. induction l as [|i l IH]; simpl; [done|]. by rewrite H, IH. Qed.

Lemma delete_filtered {A} (P : A -> Prop) `{!forall x, Decision (P x)} (m : gmap Z A) :
  foldr delete m (map fst (map_to_list (filter (fun kx => P kx.2) m))) = filter (fun kx => ~ P kx.2) m.
Proof.
  apply map_eq. intros i.
  set (l := map fst _). assert (Hl : forall j, j ∈ l <-> exists x, m !! j = Some x /\ P x).
  { intros j. unfold l. rewrite list_elem_of_fmap. split.
    - intros ([k x] & -> & Hin%elem_of_map_to_list). apply map_lookup_filter_Some in Hin as [??]. by exists x.
    - intros (x & Hj & Hx). exists (j, x). split; [done|].
      apply elem_of_map_to_list, map_lookup_filter_Some. by split. }
  clearbody l. destruct (decide (i ∈ l)) as [Hi|Hi].
  - assert (Hn : foldr delete m l !! i = None).
    { clear Hl. induction l as [|j l IH]; [by apply elem_of_nil in Hi|]. simpl.
      destruct (decide (i = j)) as [->|Hne]; [by rewrite lookup_delete_eq|].
      rewrite lookup_delete_ne by done. apply IH. by apply elem_of_cons in Hi as [?|?]. }
    rewrite Hn. symmetry. apply map_lookup_filter_None. right. intros x Hx. simpl.
    apply Hl in Hi as (y & Hy & Py). rewrite Hx in Hy. injection Hy as ->. intros Hno. by apply Hno.
  - assert (Hn : foldr delete m l !! i = m !! i).
    { clear Hl. induction l as [|j l IH]; [done|]. simpl. apply not_elem_of_cons in Hi as [Hne Hi].
      rewrite lookup_delete_ne by done. by apply IH. }
    rewrite Hn. destruct (m !! i) as [x|] eqn:E.
    + symmetry. apply map_lookup_filter_Some. split; [done|]. intros Px. apply Hi, Hl. by exists x.
    + symmetry. apply map_lookup_filter_None. by left.
Qed.

Lemma without_router_gone id db : router_gone id db (without_router id db).
Proof.
  assert (Hk : forall {A} (p : DB -> A), (forall i d, p (delete_row i d) = p d) ->
            p (delete_sessions_of id db) = p db) by (intros A p Hp; by apply foldr_keeps).
  unfold router_gone, without_router, delete_router_rows.
  set (d := delete_sessions_of id db).
  assert (Hs : forall {A} (p : DB -> A), (forall i d', p (delete_sub_row i d') = p d') ->
            p (foldr delete_sub_row d (subs_of id d)) = p d) by (intros A p Hp; by apply foldr_keeps).
  simpl. rewrite (Hs _ t_routers), (Hs _ t_prov_sessions), (Hs _ t_devices), (Hs _ t_router_logs),
    (Hs _ t_commands), (Hs _ t_backups), (Hs _ t_history), (Hs _ t_usage), (Hs _ t_payments) by done.
  rewrite (foldr_deletes _ t_subs) by done. unfold d.
  rewrite (Hk _ t_routers), (Hk _ t_devices), (Hk _ t_router_logs), (Hk _ t_commands), (Hk _ t_backups),
    (Hk _ t_history), (Hk _ t_usage), (Hk _ t_payments) by done.
  unfold subs_of. rewrite (Hk _ t_subs) by done.
  unfold delete_sessions_of, sessions_of. rewrite (foldr_deletes _ t_prov_sessions) by done.
  refine (conj eq_refl (conj _ (conj _ _))); [exact (delete_filtered (fun s => sub_router_id s = id) _)| |done].
  exact (delete_filtered (fun s => ps_router_id s = id) _).
Qed.

Lemma triple_select_subs db t e p :
  triple (at_rest db t e) (lift (select_subs p None))
    (fun ids g => at_rest db t e g /\ ids = map fst (select p (t_subs db))) (committed db t).
Proof.
  intros g (Hv & Hd & Ht & He). unfold lift, select_subs, query, load_subs, mthen, mmodify, mreturn.
  destruct g as [[] c]. simpl in *. destruct w_broken; simpl; by subst.
Qed.

(** The clean-up of the device reaches no further than the connection, and an
    instance just loaded can be read. *)
Lemma triple_cleanup db t e id r :
  t_routers db !! id = Some r ->
  triple (at_rest db t e) (cleanup_provisioning (id, e)) (fun _ => at_rest db t e) (fun _ => False).
Proof.
  intros Hr g (Hv & Hd & Ht & He). unfold cleanup_provisioning, attrs, lift, mthen, mget, mtry, client_connect.
  simpl. rewrite (row_attrs_fresh _ _ He), Hv, Hr. simpl.
  destruct (ros_connect (w_dev (rg_world g)) r) as [[[]|x] d]; by repeat split.
Qed.

Definition deletable (id : Z) (db : DB) : Prop :=
  in_tenant id db = true /\ package_assigned id = false /\
  forall i s, t_subs db !! i = Some s -> sub_router_id s = id ->
    sub_status s ∉ [ACTIVE; PENDING; SUSPENDED] /\ sub_referenced i db = false.

Definition deleted (id : Z) (db : DB) (t : list RosCommand) (b : bool) (g : Registry) : Prop :=
  if b then deletable id db /\ settled (without_router id db) t g
  else in_tenant id db = false /\ settled db t g.

Lemma sessions_gone_referenced id db : router_referenced id (delete_sessions_of id db) = router_referenced id db.
Proof.
  assert (Hk : forall {A} (p : DB -> A), (forall i d, p (delete_row i d) = p d) ->
            p (delete_sessions_of id db) = p db) by (intros A p Hp; by apply foldr_keeps).
  unfold router_referenced, subs_of. rewrite (Hk _ t_subs) by done. f_equal.
  induction (map fst _) as [|i l IH]; simpl; [done|]. rewrite IH. f_equal.
  unfold sub_referenced. by rewrite (Hk _ t_history), (Hk _ t_usage).
Qed.

Lemma not_referenced id db i s :
  router_referenced id db = false -> t_subs db !! i = Some s -> sub_router_id s = id -> sub_referenced i db = false.
Proof.
  intros [Hr _]%orb_false_iff Hi Hs. destruct (sub_referenced i db) eqn:E; [|done].
  rewrite <- Hr. symmetry. apply existsb_exists. exists i. split; [|done].
  apply list_elem_of_In, list_elem_of_fmap. exists (i, s). split; [done|].
  apply elem_of_map_to_list, map_lookup_filter_Some. by split.
Qed.

Lemma triple_delete_rows db t id :
  triple (pending db (delete_sessions_of id db) t) (lift (delete_router_row id))
    (fun _ g => pending db (without_router id db) t g /\ router_referenced id db = false) (committed db t).
Proof.
  intros g (Hv & Hd & Ht). unfold lift, delete_router_row. destruct (w_broken _) eqn:Eb; [by destruct g|].
  rewrite Hv, sessions_gone_referenced. destruct (router_referenced id db) eqn:Er; simpl; [done|].
  by repeat split; simpl; rewrite ?Hv.
Qed.

Lemma delete_sound db t e id cleanup :
  triple (fresh_service db t e) (delete_router organization_id id cleanup) (deleted id db t) (settled db t).
Proof.
  assert (Hc := at_rest_committed db t e).
  apply triple_or_rollback. apply check_then; [apply fresh_service_committed|intros _].
  eapply triple_then; [apply triple_get_by_id|]. intros found. apply triple_pure. unfold found_router. intros ->.
  destruct (in_tenant id db) eqn:Ein.
  2:{ apply triple_return. intros g (Hv & Hd & Ht & _). by repeat split. }
  assert (exists r, t_routers db !! id = Some r) as [r Hr].
  { unfold in_tenant in Ein. destruct (t_routers db !! id) as [r|]; [by exists r|done]. }
  eapply triple_then; [apply triple_select_subs|]. intros active. apply triple_pure. intros Hactive.
  destruct active as [|i l]; [|by apply triple_raise].
  eapply triple_then with (Q' := fun _ => at_rest db t e).
  { destruct cleanup; [|by apply triple_return].
    eapply triple_try; [exact (triple_cleanup db t e id r Hr)|]. by intros x g []. }
  intros []. eapply triple_then with (Q' := fun _ => pending db db t).
  { eapply triple_weaken; [| |intros ? H; exact H|exact (triple_attrs db db t e id)].
    - intros g Hg. split; [by eapply at_rest_pending|apply Hg].
    - by intros r' g [[Hg _] _]. }
  intros _. eapply triple_then; [apply triple_assign|]. intros [].
  eapply triple_then; [apply triple_delete_rows|]. intros []. apply triple_pure. intros Hnot.
  eapply triple_then; [apply triple_commit|]. intros [].
  intros g (Hv & Hd & Ht). split; [|by repeat split]. split; [done|]. split.
  { by apply orb_false_iff in Hnot as [_ ?]. }
  intros i s Hi Hs. split; [|by apply (not_referenced id db i s)].
  intros Hst. assert (Ek : keeps_router (sub_status s) = true).
  { rewrite !elem_of_cons, elem_of_nil in Hst. by destruct Hst as [->|[->|[->|[]]]]. }
  assert (Hin : (i, s) ∈ select (fun _ s => (sub_router_id s =? id) && keeps_router (sub_status s)) (t_subs db)).
  { apply elem_of_select. split; [done|]. by rewrite Hs, Z.eqb_refl, Ek. }
  apply (list_elem_of_fmap_2 fst) in Hin. eapply elem_of_nil. rewrite Hactive. exact Hin.
Qed.


(** ** The status of a router *)

(** The tables of [db] but for what is observed of the router [id] and the log. *)
Definition observed (id : Z) (db db' : DB) : Prop := exists f h l,
  (forall r, router_keys (f r) = router_keys r) /\
  db' = db <| t_routers ::= alter f id |> <| t_router_info ::= alter h id |> <| t_router_logs ::= fun l0 => l0 ++ l |>.

Section Sync.
Variables (id : Z) (db : DB) (e : nat) (time : datetime).

(** Observations are pending, and the router's row satisfies [st]. *)
Definition observing (st : Router -> Prop) (g : Registry) : Prop :=
  good (rg_world g) /\ w_durable (rg_world g) = db /\ w_epoch (rg_world g) = e /\ w_now (rg_world g) = time /\
  observed id db (w_view (rg_world g)) /\
  exists r, t_routers (w_view (rg_world g)) !! id = Some r /\ st r.

Definition anything (r : Router) : Prop := True.
Definition online (r : Router) : Prop := rt_status r = ONLINE /\ rt_last_seen r = Some time.
Definition offline (r : Router) : Prop := rt_status r = OFFLINE.

Lemma observing_anything st g : observing st g -> observing anything g.
Proof. intros (? & ? & ? & ? & ? & r & ? & _). do 5 (split; [done|]). by exists r. Qed.

Lemma triple_set_router (st st' : Router -> Prop) f :
  (forall r, router_keys (f r) = router_keys r) -> (forall r, st r -> st' (f r)) ->
  triple (observing st) (set_router id f) (fun _ => observing st') (fun _ => False).
Proof.
  intros Hk Hf g (Hg & Hd & He & Ht & (f0 & h & l & Hk0 & Hv) & r & Hr & Hst).
  split; [by apply good_alter_router|]. split; [done|]. split; [done|]. split; [done|]. split.
  - exists (f ∘ f0), h, l. split; [intros r'; simpl; by rewrite Hk, Hk0|].
    simpl. rewrite Hv. simpl. by rewrite alter_alter_eq.
  - exists (f r). simpl. rewrite lookup_alter_eq, Hr. split; [done|by apply Hf].
Qed.

Lemma triple_set_info st h : triple (observing st) (set_info id h) (fun _ => observing st) (fun _ => False).
Proof.
  intros g (Hg & Hd & He & Ht & (f & h0 & l & Hk & Hv) & r & Hr & Hst).
  split; [by apply good_view|]. split; [done|]. split; [done|]. split; [done|]. split; [|by exists r].
  exists f, (h ∘ h0), l. split; [done|]. simpl. rewrite Hv. simpl. by rewrite alter_alter_eq.
Qed.

Lemma triple_outcome {A} st (o : outcome A) :
  triple (observing st) (of_outcome o) (fun _ => observing st) (observing anything).
Proof. intros g Hg. destruct o; simpl; [done|by eapply observing_anything]. Qed.

(** Every column after the first is any value. *)
Lemma online_next {A B} (m : reg A) (k : A -> reg B) Q :
  triple (observing online) m (fun _ => observing online) (observing anything) ->
  (forall a, triple (observing online) (k a) Q (observing anything)) ->
  triple (observing online) (mthen m k) Q (observing anything).
Proof. intros Hm Hk. eapply triple_then; [exact Hm|done]. Qed.

Lemma no_error {A} P (m : reg A) Q E : triple P m Q (fun _ => False) -> triple P m Q E.
Proof. intros H s Hs. specialize (H s Hs). by destruct (m s) as [[a|x] s']. Qed.

Lemma triple_record info :
  triple (observing anything) (record_system_info id info) (fun _ => observing online) (observing anything).
Proof.
  assert (Hset : forall f, (forall r, router_keys (f r) = router_keys r) -> (forall r, online r -> online (f r)) ->
            triple (observing online) (set_router id f) (fun _ => observing online) (observing anything)).
  { intros f H1 H2. by apply no_error, triple_set_router. }
  assert (Hinfo : forall h, triple (observing online) (set_info id h) (fun _ => observing online) (observing anything))
    by (intros h; apply no_error, triple_set_info).
  intros g Hg. assert (Htime : w_now (rg_world g) = time) by apply Hg. revert Hg.
  unfold record_system_info. unfold mthen at 1, lift at 1, utcnow at 1. rewrite Htime.
  assert (Heta : g <| rg_world := rg_world g |> = g) by by destruct g. rewrite Heta. revert g Htime Heta.
  enough (Ht : triple (observing anything) _ (fun _ => observing online) (observing anything)) by (intros g _ _; exact (Ht g)).
  eapply triple_then; [apply no_error, triple_set_router with (st' := online); by intros|]. intros [].
  apply online_next; [apply Hinfo|intros []].
  apply online_next.
  { destruct (info !! "cpu-count") as [n|]; [|by apply triple_return].
    apply online_next; [apply triple_outcome|intros m; apply Hinfo]. }
  intros []. apply online_next; [apply triple_outcome|intros frequency].
  apply online_next; [apply Hinfo|intros []]. apply online_next; [by apply Hset|intros []].
  do 3 (apply online_next; [apply triple_outcome|intros ?]; apply online_next; [by apply Hset|intros []]).
  apply online_next; [apply triple_outcome|intros ?]. by apply Hset.
Qed.

(** The client's answer is false with the status set to offline, and true with
    the router's answer recorded; it does not raise. *)
Definition answered (b : bool) : Registry -> Prop := observing (if b then online else offline).

Lemma triple_client :
  triple (observing anything) (client_sync_router_status (id, e)) answered (fun _ => False).
Proof.
  assert (Hattrs : forall st, triple (observing st) (attrs (id, e)) (fun r => observing st) (fun _ => False)).
  { intros st g (Hg & Hd & He & Ht & Ho & r & Hr & Hst). unfold attrs, lift, mthen, mget. simpl.
    rewrite (row_attrs_fresh _ _ He), Hr. simpl. destruct g. do 5 (split; [done|]). by exists r. }
  assert (Hoff : triple (observing anything)
      (set_router id (fun r => r <| rt_status := OFFLINE |>) ;;; attrs (id, e) ;;; mreturn false) answered (fun _ => False)).
  { eapply triple_then; [by apply triple_set_router with (st' := offline)|]. intros [].
    eapply triple_then; [apply Hattrs|]. intros r. by apply triple_return. }
  unfold client_sync_router_status. eapply triple_try with (E' := observing anything); [|intros x; exact Hoff].
  eapply triple_then; [apply no_error, Hattrs|]. intros r.
  eapply triple_then with (Q' := fun _ => observing anything).
  { intros g (Hg & Hrest). unfold lift, client_connect. destruct (ros_connect _ r) as [[[]|x] d].
    all: split; [by destruct Hg|exact Hrest]. }
  intros []. eapply triple_then with (Q' := fun _ => observing anything).
  { intros g (Hg & Hrest). unfold lift, get_system_info, mtry, mthen, execute_command.
    destruct (ros_execute _ _) as [[[[|i l]|]|x] d]; split; try (by destruct Hg); exact Hrest. }
  intros [info|]; [|by apply no_error]. case_bool_decide; [by apply no_error|].
  eapply triple_then; [apply triple_record|]. intros []. by apply triple_return.
Qed.
(** What was observed is committed. *)
Definition recorded (b : bool) (g : Registry) : Prop :=
  if b then good (rg_world g) /\ w_durable (rg_world g) = w_view (rg_world g) /\
            observed id db (w_view (rg_world g)) /\
            exists r, t_routers (w_view (rg_world g)) !! id = Some r /\ online r
  else observing offline g.

Lemma triple_log_commit action details success :
  triple (observing online) (_log_router_action id action details success) (fun _ => recorded true) (fun _ => False).
Proof.
  intros g (Hg & Hd & He & Ht & (f & h & l & Hk & Hv) & r & Hr & Hst).
  assert (Hg' : good ((rg_world g) <| w_view ::= over t_router_logs (fun l0 => l0 ++ [mkRouterLog id action details success]) |>))
    by by apply good_view.
  unfold _log_router_action, lift, mthen, assign, mmodify. cbn -[commit].
  match goal with |- context [commit ?w'] => rewrite (commit_good _ Hg' : commit w' = _) end.
  split; [by apply good_commit|]. split; [done|]. split; [|by exists r].
  exists f, h, (l ++ [mkRouterLog id action details success]). split; [done|]. simpl. rewrite Hv. simpl.
  by rewrite app_assoc.
Qed.

Lemma triple_internal :
  triple (observing anything) (_sync_router_status_internal (id, e)) recorded (fun _ => False).
Proof.
  unfold _sync_router_status_internal. eapply triple_try with (E' := fun _ => False); [|by intros x g []].
  eapply triple_then; [apply triple_client|]. intros [|]; cbn [mwhen answered].
  - eapply triple_then; [apply triple_log_commit|]. intros []. by apply triple_return.
  - eapply triple_then with (Q' := fun _ => recorded false); [by apply triple_return|]. intros []. by apply triple_return.
Qed.
End Sync.

(** An operation that does not raise is not repeated. *)
Lemma triple_retry {A} P (m : reg A) Q n k :
  triple P m Q (fun _ => False) -> triple P (_retry_operation m k n) Q (fun _ => False).
Proof.
  intros Hm. destruct n as [|n]; [exact Hm|]. simpl. eapply triple_try; [exact Hm|]. by intros x g [].
Qed.

Lemma get_by_id_good id g :
  w_broken (rg_world g) = false -> rg_cache g = ∅ -> 0 < id ->
  exists g', rg_world g' = rg_world g /\
    get_by_id organization_id id g =
      (Ok (if in_tenant id (w_view (rg_world g)) then Some (id, w_epoch (rg_world g)) else None), g').
Proof.
  intros Hb Hc Hid. unfold get_by_id. rewrite (proj2 (Z.leb_gt id 0)) by lia.
  assert (Hg : _get_from_cache (cache_key organization_id id) g = (Ok None, g))
    by (unfold _get_from_cache; by rewrite Hc, lookup_empty).
  unfold mtry. rewrite (mthen_ok _ _ _ _ _ Hg), (mthen_ok _ _ _ _ _ (lift_query _ g Hb)). unfold in_tenant.
  destruct (t_routers _ !! id) as [r|]; [|by exists g]. destruct (in_scope organization_id r); [|by exists g].
  eexists. split; [|reflexivity]. by destruct g.
Qed.

End Facts.

(** ** Concrete requests *)

(** The router at 10.0.0.1 cannot be reached; the others answer. *)
#[local] Instance partly_reachable : RouterOS := {|
  Dev := unit;
  ros_connect := fun d r => if bool_decide (rt_ip_address r = "10.0.0.1")
                            then (Raise (ExternalServiceError "timed out"), d) else (Ok tt, d);
  ros_execute := fun d c =>
    (Ok (Some [({["uptime" := "2d3h"; "version" := "7.18.2"; "cpu-load" := "6"; "total-memory" := "134217728"]} : Entry)]), d);
  ros_active := fun d _ => ([], d) |}.

#[local] Instance demo_registry : RegistryEnv := {|
  is_ipv6 := fun _ => false; package_assigned := fun _ => false; settings_vpn_domain := "vpn.isp.ke" |}.

Definition answering_router : Router := sample_router <| rt_name := "north" |> <| rt_ip_address := "10.0.0.2" |>.

(** The unreachable one, 7, was online; both have a WinBox port but 51001. *)
Definition registry_db : DB :=
  empty_db <| t_routers := {[7 := sample_router <| rt_status := ONLINE |> <| rt_winbox_port := Some 51000 |>;
                             8 := answering_router <| rt_winbox_port := Some 51002 |>]} |>.

Definition ended_sub : Subscription :=
  mkSubscription (Some 1) 5 3 7 HOTSPOT EXPIRED "C001" "pw" (Some 0) (Some 1000) false 0 0 0 0 0 None
    false None None None.

Definition request (db : DB) : Registry := mkRegistry (start 100 db tt) ∅.

Lemma registry_request_good db : bool_decide (schema_ok db) = true -> good (rg_world (request db)).
Proof. intros H. apply good_start. by apply bool_decide_eq_true_1 in H. Qed.

Definition demo_create : reg Z :=
  create_router (Some 1) " branch " "10.0.0.9" "admin" "pw" MIKROTIK 8728 None (Some "roof").

Lemma registry_port_free : lowest_free_port (Some 1) registry_db 51001.
Proof.
  apply first_free_port. vm_compute. reflexivity.
Qed.

Lemma registry_branch_new : new_in_tenant (Some 1) " branch " "10.0.0.9" registry_db.
Proof.
  intros i r Hr _. unfold registry_db in Hr. simpl in Hr.
  apply lookup_insert_Some in Hr as [[_ <-]|[_ Hr]]; [by split|].
  apply lookup_singleton_Some in Hr as [_ <-]. by split.
Qed.

Lemma create_router_exact_witness : exists g', demo_create (request registry_db) = (Ok 9, g').
Proof.
  destruct (create_router_exact (Some 1) " branch " "10.0.0.9" "admin" "pw" MIKROTIK 8728 None (Some "roof")
              (request registry_db) eq_refl) as [_ H].
  apply H.
  - apply registry_request_good. vm_compute. reflexivity.
  - vm_compute. reflexivity.
  - exact registry_branch_new.
  - exists 51001. exact registry_port_free.
Defined.

(** A router with an expired subscription goes, and its subscription with it. *)
Definition delete_db : DB := registry_db <| t_subs := {[42 := ended_sub]} |>.

Definition deleted_rows : bool :=
  match delete_router (Some 1) 7 true (request delete_db) with
  | (Ok true, g') => bool_decide (t_routers (w_durable (rg_world g')) !! 7 = None)
                     && bool_decide (t_subs (w_durable (rg_world g')) !! 42 = None)
  | _ => false
  end.



(** Within one run over all routers the unreachable router is recorded as
    offline after all, by the commit for the next one that answers. *)
Definition statuses (db : DB) : list RouterStatus := map (fun kr => rt_status kr.2) (map_to_list (t_routers db)).

Example offline_recorded_by_the_next :
  match sync_all_routers (Some 1) (request registry_db) with
  | (Ok c, g') => Some (synced_count c, failed_count c,
                        (rt_status <$> t_routers (w_durable (rg_world g')) !! 7))
  | _ => None
  end = Some (1, 1, Some OFFLINE).
Proof. vm_compute. reflexivity. Qed.

(** A creation looks for duplicates in its tenant, an update everywhere: the
    address of another tenant's router may be given to a new router but not to
    an old one. *)
Definition other_tenant_db : DB :=
  empty_db <| t_routers := {[7 := sample_router; 8 := answering_router <| rt_organization_id := Some 2 |>]} |>.

Example foreign_address_accepted_by_creation :
  fst (create_router (Some 1) "branch" "10.0.0.2" "admin" "pw" MIKROTIK 8728 None None (request other_tenant_db)) = Ok 9.
Proof. vm_compute. reflexivity. Qed.

Definition move_to (ip : string) : RouterPatch := mkPatch None (Some (Some ip)) None None None None.

Example foreign_address_refused_by_update :
  fst (update_router (Some 1) 7 (move_to "10.0.0.2") (request other_tenant_db))
  = Raise (ValidationError "Router with IP address 10.0.0.2 already exists").
Proof. vm_compute. reflexivity. Qed.

(** An expired subscription with a history keeps its router for ever. *)
Definition history_db : DB :=
  delete_db <| t_history := [mkHistory 42 "expired" None None "period over" None None] |>.

Example history_keeps_the_router :
  fst (delete_router (Some 1) 7 true (request history_db))
  = Raise (RouterOperationError ("Failed to delete router: " +:+ exn_text DatabaseError)).
Proof. vm_compute. reflexivity. Qed.
