(* ===== verification/PlanService.v ===== *)
(** * The administration of service plans

    [PlanService] of [src/app/modules/plans/service.py] over [service_plans],
    [plan_features] and [plan_pricing]. The service has no tenant: its
    operations take any plan's key. *)

From stdpp Require Import sorting.
From S2P Require Import Prelude PyString Numerics Calendar Models Session Plan AgentQueue RouterSync Subscriptions.
Open Scope Z_scope.

(** Which plans a voucher batch refers to; batches are not modelled. *)
Class VoucherBatches := { batch_of : Z -> bool }.

Record PlanFilter : Type := mkPlanFilter {
  plf_organization_id : option Z;
  plf_type : option PlanType;
  plf_status : option PlanStatus;
  plf_search : option string;
  plf_is_active : option bool
}.

(** The fields of an update: a field that is absent or null is not written. *)
Record PlanPatch : Type := mkPlanPatch {
  pu_name : option string;
  pu_description : option string;
  pu_plan_type : option PlanType;
  pu_price : option money;
  pu_currency : option string;
  pu_billing_cycle : option BillingCycle;
  pu_download_speed : option Z;
  pu_upload_speed : option Z;
  pu_data_limit : option Z;
  pu_time_limit : option Z;
  pu_validity_days : option Z;
  pu_duration_minutes : option Z;
  pu_fup_enabled : option bool;
  pu_fup_threshold : option Z;
  pu_fup_download_speed : option Z;
  pu_fup_upload_speed : option Z;
  pu_concurrent_sessions : option Z;
  pu_auto_renewal : option bool;
  pu_is_popular : option bool;
  pu_sort_order : option Z;
  pu_enable_burst : option bool;
  pu_burst_download : option Z;
  pu_burst_upload : option Z;
  pu_burst_threshold : option Z;
  pu_burst_time : option Z;
  pu_enable_schedule : option bool;
  pu_schedule_start_time : option string;
  pu_schedule_end_time : option string;
  pu_config : option string;
  pu_notes : option string
}.

(** [if value is not None: setattr(plan, field, value)], for a column that may
    be null and for one that may not *)
Definition keep_or {A} (old : option A) (new : option A) : option A :=
  match new with Some _ => new | None => old end.

Definition patch_plan (u : PlanPatch) (p : ServicePlan) : ServicePlan :=
  p <| plan_name := default (plan_name p) (pu_name u) |>
    <| plan_type := default (plan_type p) (pu_plan_type u) |>
    <| plan_price := default (plan_price p) (numeric_2 <$> pu_price u) |>
    <| plan_currency := default (plan_currency p) (pu_currency u) |>
    <| plan_billing_cycle := default (plan_billing_cycle p) (pu_billing_cycle u) |>
    <| plan_download_speed := default (plan_download_speed p) (pu_download_speed u) |>
    <| plan_upload_speed := default (plan_upload_speed p) (pu_upload_speed u) |>
    <| plan_data_limit := default (plan_data_limit p) (pu_data_limit u) |>
    <| plan_time_limit := default (plan_time_limit p) (pu_time_limit u) |>
    <| plan_validity_days := default (plan_validity_days p) (pu_validity_days u) |>
    <| plan_duration_minutes := keep_or (plan_duration_minutes p) (pu_duration_minutes u) |>
    <| plan_concurrent_sessions := default (plan_concurrent_sessions p) (pu_concurrent_sessions u) |>
    <| plan_is_popular := default (plan_is_popular p) (pu_is_popular u) |>
    <| plan_sort_order := default (plan_sort_order p) (pu_sort_order u) |>
    <| plan_enable_burst := default (plan_enable_burst p) (pu_enable_burst u) |>
    <| plan_burst_download := keep_or (plan_burst_download p) (pu_burst_download u) |>
    <| plan_burst_upload := keep_or (plan_burst_upload p) (pu_burst_upload u) |>
    <| plan_burst_threshold := keep_or (plan_burst_threshold p) (pu_burst_threshold u) |>
    <| plan_burst_time := keep_or (plan_burst_time p) (pu_burst_time u) |>.

Definition patch_details (u : PlanPatch) (d : PlanDetails) : PlanDetails :=
  d <| pld_description := keep_or (pld_description d) (pu_description u) |>
    <| pld_fup_enabled := default (pld_fup_enabled d) (pu_fup_enabled u) |>
    <| pld_fup_threshold := keep_or (pld_fup_threshold d) (pu_fup_threshold u) |>
    <| pld_fup_download_speed := keep_or (pld_fup_download_speed d) (pu_fup_download_speed u) |>
    <| pld_fup_upload_speed := keep_or (pld_fup_upload_speed d) (pu_fup_upload_speed u) |>
    <| pld_auto_renewal := default (pld_auto_renewal d) (pu_auto_renewal u) |>
    <| pld_enable_schedule := default (pld_enable_schedule d) (pu_enable_schedule u) |>
    <| pld_schedule_start_time := keep_or (pld_schedule_start_time d) (pu_schedule_start_time u) |>
    <| pld_schedule_end_time := keep_or (pld_schedule_end_time d) (pu_schedule_end_time u) |>
    <| pld_config := keep_or (pld_config d) (pu_config u) |>
    <| pld_notes := keep_or (pld_notes d) (pu_notes u) |>.

(** [order_by(sort_order.asc(), created_at.desc())], [order_by(sort_order.asc())] *)
Definition listed_before (a b : Z * ServicePlan) : Prop :=
  plan_sort_order a.2 < plan_sort_order b.2 \/
  plan_sort_order a.2 = plan_sort_order b.2 /\ plan_created_at b.2 <= plan_created_at a.2.
#[export] Instance listed_before_dec : RelDecision listed_before.
Proof. intros a b. unfold listed_before. apply _. Defined.

Definition sorted_before (a b : Z * ServicePlan) : Prop := plan_sort_order a.2 <= plan_sort_order b.2.
#[export] Instance sorted_before_dec : RelDecision sorted_before.
Proof. intros a b. unfold sorted_before. apply _. Defined.

Section Service.
Context {be : Backend} {ros : RouterOS} {batches : VoucherBatches}.

Definition get_by_id (id : Z) : run (option ServicePlan) := query (fun db => t_plans db !! id).

(** *** Listing *)
Definition text_matches (pattern : string) (column : option string) : bool :=
  match column with Some s => ilike s pattern | None => false end.

Definition plan_matches (f : PlanFilter) (details : gmap Z PlanDetails) (id : Z) (p : ServicePlan) : bool :=
  matches (plf_organization_id f) (fun o => bool_decide (plan_organization_id p = Some o))
  && matches (plf_type f) (fun t => bool_decide (plan_type p = t))
  && matches (plf_status f) (fun s => bool_decide (plan_status p = s))
  && matches (plf_is_active f) (fun b => bool_decide (plan_status p = if b : bool then PLAN_ACTIVE else PLAN_INACTIVE))
  && match plf_search f with
     | None | Some "" => true
     | Some s =>
         let pattern := "%" +:+ s +:+ "%" in
         ilike (plan_name p) pattern || text_matches pattern (d ← details !! id; pld_description d)
     end.

Definition get_all (pg : PaginationParams) (f : PlanFilter) : run (Page (Z * ServicePlan)) :=
  query (fun db => paginate pg (merge_sort listed_before
                     (select (plan_matches f (t_plan_details db)) (t_plans db)))).

Definition active_plans (keep : ServicePlan -> bool) (db : DB) : list (Z * ServicePlan) :=
  merge_sort sorted_before (select (fun _ p => keep p && bool_decide (plan_status p = PLAN_ACTIVE)) (t_plans db)).

Definition get_popular_plans (limit : Z) : run (list (Z * ServicePlan)) :=
  query (fun db => take (Z.to_nat limit) (active_plans plan_is_popular db)).

Definition get_plans_by_type (t : PlanType) (limit : option Z) : run (list (Z * ServicePlan)) :=
  query (fun db =>
    let rows := active_plans (fun p => bool_decide (plan_type p = t)) db in
    match limit with None | Some 0 => rows | Some n => take (Z.to_nat n) rows end).

(** *** Writing; [p] and [d] carry the arguments of [create_plan]. *)
Definition create_plan (p : ServicePlan) (d : PlanDetails) : run Z :=
  time <- utcnow ;;
  id <- query (fun db => next_id (t_plans db)) ;;
  assign (over t_plans (insert id (p <| plan_status := PLAN_ACTIVE |> <| plan_price ::= numeric_2 |>
                                     <| plan_created_at := time |>))) ;;;
  assign (over t_plan_details (insert id d)) ;;;
  commit ;;;
  mreturn id.

(** A write to a plan that is there. *)
Definition on_plan {A} (id : Z) (missing : A) (m : run A) : run A :=
  found <- get_by_id id ;;
  match found with None => mreturn missing | Some _ => m end.

Definition update_plan (id : Z) (u : PlanPatch) : run bool :=
  on_plan id false
    (assign (over t_plans (alter (patch_plan u) id)) ;;;
     assign (over t_plan_details (alter (patch_details u) id)) ;;;
     commit ;;;
     mreturn true).

Definition set_status (id : Z) (s : PlanStatus) : run unit :=
  assign (over t_plans (alter (fun p => p <| plan_status := s |>) id)) ;;; commit.

Definition activate_plan (id : Z) : run bool := on_plan id false (set_status id PLAN_ACTIVE ;;; mreturn true).
Definition deactivate_plan (id : Z) : run bool := on_plan id false (set_status id PLAN_INACTIVE ;;; mreturn true).

(** [db.delete(plan)]: features and prices go with the plan; the plan of a
    voucher, of a batch and of a purchase would become null, which the server
    refuses. A refused flush drops the transaction. *)
Definition plan_referenced (id : Z) (db : DB) : bool :=
  existsb (fun kv => vch_plan_id kv.2 =? id) (map_to_list (t_vouchers db))
  || existsb (fun kp => pur_plan_id kp.2 =? id) (map_to_list (t_purchases db))
  || batch_of id.

Definition delete_plan_rows (id : Z) (db : DB) : DB :=
  db <| t_plans ::= delete id |> <| t_plan_details ::= delete id |>
     <| t_plan_features ::= filter (fun kf => pf_plan_id kf.2 <> id) |>
     <| t_plan_pricing ::= filter (fun kp => pp_plan_id kp.2 <> id) |>.

Definition delete_plan_row (id : Z) : run unit :=
  refuse_if (plan_referenced id) ;;; assign (delete_plan_rows id).

(** Subscriptions of any status keep the plan's row. *)
Definition delete_plan (id : Z) : run bool :=
  on_plan id false
    (subscriptions <- select_subs (fun _ s => sub_plan_id s =? id) None ;;
     match subscriptions with
     | [] => delete_plan_row id ;;; commit
     | _ => set_status id DISCONTINUED
     end ;;;
     mreturn true).

(** *** Features and prices *)
Definition rows_of_plan {A} (plan_of : A -> Z) (id : Z) (m : gmap Z A) : list (Z * A) :=
  select (fun _ x => plan_of x =? id) m.

Definition get_plan_features (id : Z) : run (list (Z * PlanFeature)) :=
  query (fun db => rows_of_plan pf_plan_id id (t_plan_features db)).

Definition get_plan_pricing (id : Z) : run (list (Z * PlanPricing)) :=
  query (fun db => rows_of_plan pp_plan_id id (t_plan_pricing db)).

(** The server refuses a row of a plan that is not there. *)
Definition with_plan (id : Z) : run unit := refuse_if (fun db => bool_decide (t_plans db !! id = None)).

Definition add_plan_feature (f : PlanFeature) : run Z :=
  with_plan (pf_plan_id f) ;;;
  id <- query (fun db => next_id (t_plan_features db)) ;;
  assign (over t_plan_features (insert id f)) ;;;
  commit ;;;
  mreturn id.

Definition remove_plan_feature (id : Z) : run bool :=
  found <- query (fun db => t_plan_features db !! id) ;;
  match found with
  | None => mreturn false
  | Some _ => assign (over t_plan_features (delete id)) ;;; commit ;;; mreturn true
  end.

Definition add_plan_pricing (plan_id duration_months : Z) (price : money) (discount_percentage : Z) : run Z :=
  with_plan plan_id ;;;
  id <- query (fun db => next_id (t_plan_pricing db)) ;;
  assign (over t_plan_pricing (insert id
    (mkPlanPricing plan_id duration_months (numeric_2 price) discount_percentage true))) ;;;
  commit ;;;
  mreturn id.

(** *** Figures *)
Record PlanStats : Type := mkPlanStats {
  pst_plan_id : Z;
  pst_plan_name : string;
  pst_total_subscriptions : Z;
  pst_active_subscriptions : Z;
  pst_inactive_subscriptions : Z;
  pst_revenue : money
}.

Definition count_subs (keep : Subscription -> bool) (db : DB) : Z :=
  Z.of_nat (length (select (fun _ => keep) (t_subs db))).

Definition get_plan_stats (id : Z) : run (option PlanStats) :=
  found <- get_by_id id ;;
  match found with
  | None => mreturn None
  | Some p =>
      total <- query (count_subs (fun s => sub_plan_id s =? id)) ;;
      active <- query (count_subs (fun s => (sub_plan_id s =? id) && bool_decide (sub_status s = ACTIVE))) ;;
      mreturn (Some (mkPlanStats id (plan_name p) total active (total - active) (plan_price p * active)))
  end.

Record PlanSummary : Type := mkPlanSummary {
  psu_total_plans : Z;
  psu_active_plans : Z;
  psu_plans_by_type : list (PlanType * Z)
}.

Definition count_plans (keep : ServicePlan -> bool) (db : DB) : Z :=
  Z.of_nat (length (select (fun _ => keep) (t_plans db))).

Definition plan_types : list PlanType := [INTERNET; PT_HOTSPOT; PT_PPPOE; BOTH].

(** [GROUP BY plan_type] has no row for a type without plans. *)
Definition get_plan_stats_summary : run PlanSummary :=
  total <- query (count_plans (fun _ => true)) ;;
  active <- query (count_plans (fun p => bool_decide (plan_status p = PLAN_ACTIVE))) ;;
  groups <- query (fun db => filter (fun tn => 0 < tn.2)
              (map (fun t => (t, count_plans (fun p => bool_decide (plan_type p = t)) db)) plan_types)) ;;
  mreturn (mkPlanSummary total active groups).
End Service.

(** ** What deleting a plan does *)
Section Facts.
Context {be : Backend} {ros : RouterOS} {batches : VoucherBatches}.

Definition plan_subscribed (id : Z) (db : DB) : Prop := exists i s, t_subs db !! i = Some s /\ sub_plan_id s = id.

Definition discontinued (id : Z) (db : DB) : DB := over t_plans (alter (fun p => p <| plan_status := DISCONTINUED |>) id) db.

Lemma on_plan_found {A} id missing (m : run A) w p :
  w_broken w = false -> t_plans (w_view w) !! id = Some p -> on_plan id missing m w = m w.
Proof.
  intros Hb Hp. unfold on_plan. by rewrite (mthen_ok _ _ _ _ _ (query_good _ w Hb : get_by_id id w = _)), Hp.
Qed.

Lemma on_plan_missing {A} id (missing : A) (m : run A) w :
  w_broken w = false -> t_plans (w_view w) !! id = None -> on_plan id missing m w = (Ok missing, w).
Proof.
  intros Hb Hp. unfold on_plan. by rewrite (mthen_ok _ _ _ _ _ (query_good _ w Hb : get_by_id id w = _)), Hp.
Qed.

Lemma no_subscription id db :
  select (fun _ s => sub_plan_id s =? id) (t_subs db) = [] <-> ~ plan_subscribed id db.
Proof.
  split.
  - intros E (i & s & Hi & Hs).
    assert (H : (i, s) ∈ select (fun _ s => sub_plan_id s =? id) (t_subs db)).
    { apply elem_of_select. split; [done|]. by apply Z.eqb_eq. }
    rewrite E in H. by apply elem_of_nil in H.
  - intros H. destruct (select _ _) as [|[i s] l] eqn:E; [done|]. destruct H.
    assert (Hin : (i, s) ∈ select (fun _ s => sub_plan_id s =? id) (t_subs db)) by (rewrite E; left).
    apply elem_of_select in Hin as [Hi Hs%Z.eqb_eq]. by exists i, s.
Qed.

Lemma select_subs_run p w :
  w_broken w = false ->
  exists f, select_subs p None w = (Ok (map fst (select p (t_subs (w_view w)))), w <| w_loaded ::= f |>).
Proof.
  intros Hb. unfold select_subs. rewrite (mthen_ok _ _ _ _ _ (query_good _ w Hb)). eexists. reflexivity.
Qed.

(** C31. Deleting a plan: a plan that any subscription, whatever its status, is on
    is discontinued and kept with all it has; one that only vouchers, purchases
    or batches refer to is refused by the server, with an error the endpoint does
    not translate, and nothing changes; otherwise the plan goes with its features
    and prices, and nothing else. *)
Theorem delete_plan_exact w id :
  let db := w_view w in
  good w -> w_durable w = db ->
  match delete_plan id w with
  | (Ok true, w') => is_Some (t_plans db !! id) /\
      ((plan_subscribed id db /\ w_durable w' = discontinued id db) \/
       (~ plan_subscribed id db /\ plan_referenced id db = false /\ w_durable w' = delete_plan_rows id db))
  | (Ok false, w') => t_plans db !! id = None /\ w_durable w' = db
  | (Raise e, w') => e = DatabaseError /\ ~ plan_subscribed id db /\ plan_referenced id db = true /\ w_durable w' = db
  end.
Proof.
  intros db Hg Hd. assert (Hb := good_broken _ Hg). unfold delete_plan. fold db.
  destruct (t_plans db !! id) as [p|] eqn:Hp; [|by rewrite on_plan_missing].
  rewrite (on_plan_found _ _ _ _ p) by done.
  destruct (select_subs_run (fun _ s => sub_plan_id s =? id) w Hb) as [f E].
  rewrite (mthen_ok _ _ _ _ _ E). fold db. apply (good_loaded w f) in Hg.
  destruct (select _ _) as [|[i s] l] eqn:El; cbn [map fst].
  - assert (Hn : ~ plan_subscribed id db) by by apply no_subscription. unfold mthen, delete_plan_row, mthen, refuse_if, assign, mmodify.
    change (w_broken (w <| w_loaded ::= f |>)) with (w_broken w). rewrite Hb.
    change (w_view (w <| w_loaded ::= f |>)) with db. destruct (plan_referenced id db) eqn:Er; [done|].
    assert (Hg' : good ((w <| w_loaded ::= f |>) <| w_view ::= delete_plan_rows id |>)) by by apply good_view.
    match goal with |- context [commit ?w'] => rewrite (commit_good _ Hg' : commit w' = _) end.
    split; [done|]. by right.
  - assert (Hn : plan_subscribed id db).
    { assert (Hin : (i, s) ∈ select (fun _ s => sub_plan_id s =? id) (t_subs (w_view w))) by (rewrite El; left).
      apply elem_of_select in Hin as [Hi Hs%Z.eqb_eq]. by exists i, s. }
    unfold set_status, mthen, assign, mmodify.
    assert (Hg' : good ((w <| w_loaded ::= f |>) <| w_view ::= discontinued id |>)) by by apply good_view.
    match goal with |- context [commit ?w'] => rewrite (commit_good _ Hg' : commit w' = _) end.
    split; [done|]. by left.
Qed.
End Facts.

(** ** Concrete requests *)
#[local] Existing Instance unreachable_router.
#[local] Instance no_batches : VoucherBatches := {| batch_of := fun _ => false |}.

Definition ended_plan_db : DB := direct_db EXPIRED.

Lemma delete_plan_exact_witness :
  exists w', delete_plan 3 (start_offline 0 ended_plan_db) = (Ok true, w') /\
    w_durable w' = discontinued 3 ended_plan_db.
Proof.
  assert (E : (match fst (delete_plan 3 (start_offline 0 ended_plan_db)) with Ok true => true | _ => false end) = true)
    by (vm_compute; reflexivity).
  assert (Hg : good (start_offline 0 ended_plan_db)) by (apply good_offline; vm_compute; reflexivity).
  pose proof (delete_plan_exact (start_offline 0 ended_plan_db) 3 Hg eq_refl) as H.
  destruct (delete_plan 3 (start_offline 0 ended_plan_db)) as [[[|]|x] w']; [|discriminate E..].
  exists w'. split; [reflexivity|]. destruct H as [_ [[_ H]|[Hn _]]]; [exact H|].
  destruct Hn. exists 42, (sample_sub EXPIRED). split; reflexivity.
Defined.

(** A null does not clear a column: a plan with a duration keeps it. *)
Definition no_changes : PlanPatch :=
  mkPlanPatch None None None None None None None None None None None None None None None None None None None
    None None None None None None None None None None None.

Example duration_not_cleared :
  plan_duration_minutes (patch_plan no_changes (sample_plan <| plan_duration_minutes := Some 90 |>)) = Some 90.
Proof. reflexivity. Qed.
