(* ===== verification/Bandwidth.v ===== *)
(** * Bandwidth profiles on the routers

    [BandwidthProfileManager] of
    [src/app/modules/subscriptions/bandwidth_manager.py] and the two tasks of
    [src/app/tasks/subscription_tasks.py] that run it. *)

From S2P Require Import Prelude PyString Numerics Models Session Plan RouterCli.
Open Scope Z_scope.

(** [f"plan_{plan.id}_{plan.name[:20].replace(' ', '_')}"] *)
Definition underscored (s : string) : string := string_map (fun c => if bool_decide (c = " "%char) then "_"%char else c) s.

Definition bandwidth_profile (id : Z) (p : ServicePlan) : string :=
  "plan_" +:+ str_of_Z id +:+ "_" +:+ underscored (String.substring 0 20 (plan_name p)).

(** Speeds are in Mbps; a burst of zero is none. *)
Definition kilobits (o : option Z) : option Z := match o with None | Some 0 => None | Some n => Some (n * 1000) end.

Definition plan_rate_limit (p : ServicePlan) : string :=
  format_rate_limit (plan_download_speed p * 1000) (plan_upload_speed p * 1000)
    (kilobits (plan_burst_download p)) (kilobits (plan_burst_upload p)) 75 10.

(** [format_simple_queue_target] *)
Definition format_simple_queue_target (ip_address : string) : string :=
  if contains_char "/" ip_address then ip_address else ip_address +:+ "/32".

Abbreviation Settings := (list (string * option string)).

(** [next((p for p in (rows or []) if p.get('name') == name), None)] *)
Definition named (name : string) (reply : option (list Entry)) : option Entry :=
  head (filter (fun e => e !! "name" = Some name) (default [] reply)).

(** What one profile or queue came to *)
Inductive Written : Type := Created | Updated | Refused (e : exn).

Section Manager.
Context {be : Backend} {ros : RouterOS}.

(** Look the name up, then write over the entry that has it or add one. *)
Definition write_entry (r : Router) (path name : string) (data : Settings) : run Written :=
  reply <- execute_command r path GET [] ;;
  match named name reply with
  | Some entry =>
      match entry !! ".id" with
      | Some i => execute_command r path SET (("id", Some i) :: data) ;;; mreturn Updated
      | None => mraise (KeyError ".id")
      end
  | None => execute_command r path ADD data ;;; mreturn Created
  end.

Definition or_refused (m : run Written) : run Written := mtry m (fun e => mreturn (Refused e)).

Definition hotspot_data (id : Z) (p : ServicePlan) : Settings :=
  [("name", Some (bandwidth_profile id p)); ("rate-limit", Some (plan_rate_limit p)); ("shared-users", Some "1");
   ("idle-timeout", Some "15m"); ("keepalive-timeout", Some "2m"); ("status-autorefresh", Some "1m")].

(** The model of plans has no [shared_users], [session_timeout_minutes],
    [local_address], [remote_address] or [dns_servers]. *)
Definition _sync_hotspot_profile (r : Router) (plan : Z * ServicePlan) : run Written :=
  or_refused (write_entry r "/ip/hotspot/user/profile" (bandwidth_profile plan.1 plan.2) (hotspot_data plan.1 plan.2)).

Definition ppp_data (id : Z) (p : ServicePlan) : Settings :=
  [("name", Some (bandwidth_profile id p)); ("rate-limit", Some (plan_rate_limit p)); ("only-one", Some "yes");
   ("session-timeout", Some "0s"); ("idle-timeout", Some "15m")].

Definition _sync_ppp_profile (r : Router) (plan : Z * ServicePlan) : run Written :=
  or_refused (write_entry r "/ppp/profile" (bandwidth_profile plan.1 plan.2) (ppp_data plan.1 plan.2)).

(** *** Queues of one user *)
Definition queue_name (username : string) : string := "user_" +:+ username.

Definition three_quarters (n : Z) : Z := float_trunc (float_of_ratio (n * 3) 4).

Definition queue_data (username ip_address : string) (p : ServicePlan) (parent : option string) : Settings :=
  let up := plan_upload_speed p * 1000 in
  let down := plan_download_speed p * 1000 in
  [("name", Some (queue_name username)); ("target", Some (format_simple_queue_target ip_address));
   ("max-limit", Some (kbps up +:+ "/" +:+ kbps down));
   ("comment", Some ("Auto-created for user " +:+ username))]
  ++ (match plan_burst_download p with
      | None | Some 0 => []
      | Some b =>
          [("burst-limit", Some (kbps (or_zero (plan_burst_upload p) * 1000) +:+ "/" +:+ kbps (b * 1000)));
           ("burst-threshold", Some (kbps (three_quarters up) +:+ "/" +:+ kbps (three_quarters down)));
           ("burst-time", Some "10s/10s")]
      end)
  ++ match parent with None | Some "" => [] | Some q => [("parent", Some q)] end.

(** A burst download without a burst upload multiplies a null. *)
Definition queue_burst (p : ServicePlan) : run unit :=
  match plan_burst_download p, plan_burst_upload p with
  | None, _ | Some 0, _ | _, Some _ => mreturn tt
  | Some _, None => mraise (TypeError "unsupported operand type(s) for *: 'NoneType' and 'int'")
  end.

Definition create_user_queue (r : Router) (username ip_address : string) (p : ServicePlan) (parent : option string)
    : run Written :=
  or_refused (queue_burst p ;;;
              write_entry r "/queue/simple" (queue_name username) (queue_data username ip_address p parent)).

Definition create_parent_queue (r : Router) (name : string) (max_download_kbps max_upload_kbps : Z) : run Written :=
  or_refused (write_entry r "/queue/simple" name
    [("name", Some name); ("target", Some "0.0.0.0/0");
     ("max-limit", Some (kbps max_upload_kbps +:+ "/" +:+ kbps max_download_kbps));
     ("queue", Some "pcq-upload-default/pcq-download-default");
     ("comment", Some "Parent queue for bandwidth aggregation")]).

(** Whether a queue was removed *)
Definition remove_user_queue (r : Router) (username : string) : run (outcome bool) :=
  mattempt
    (reply <- execute_command r "/queue/simple" GET [] ;;
     match named (queue_name username) reply with
     | Some entry =>
         match entry !! ".id" with
         | Some i => execute_command r "/queue/simple" REMOVE [("id", Some i)] ;;; mreturn true
         | None => mraise (KeyError ".id")
         end
     | None => mreturn false
     end).

(** *** Profiles of all plans *)
Record ProfileCounts : Type := mkProfileCounts {
  pc_created : Z;
  pc_updated : Z;
  pc_errors : list (Z * exn)
}.
#[export] Instance ProfileCounts_eta : Eta ProfileCounts := fun c =>
  mkProfileCounts (pc_created c) (pc_updated c) (pc_errors c).

Definition no_profiles : ProfileCounts := mkProfileCounts 0 0 [].

Definition count (id : Z) (x : Written) (c : ProfileCounts) : ProfileCounts :=
  match x with
  | Created => c <| pc_created ::= Z.succ |>
  | Updated => c <| pc_updated ::= Z.succ |>
  | Refused e => c <| pc_errors ::= fun l => l ++ [(id, e)] |>
  end.

Record ProfileReport : Type := mkProfileReport {
  pr_success : bool;
  pr_hotspot : ProfileCounts;
  pr_ppp : ProfileCounts;
  pr_error : option string;
  pr_message : option string
}.

Definition failed_report (message : string) : ProfileReport :=
  mkProfileReport false no_profiles no_profiles (Some message) None.

(** [select(ServicePlan).where(ServicePlan.is_active == True)]: the class has no
    such attribute. *)
Definition no_is_active : exn := AttributeError "type object 'ServicePlan' has no attribute 'is_active'".
Definition active_plan_rows : run (list (Z * ServicePlan)) := mraise no_is_active.

Definition sync_plan (r : Router) (counts : ProfileCounts * ProfileCounts) (plan : Z * ServicePlan)
    : run (ProfileCounts * ProfileCounts) :=
  h <- _sync_hotspot_profile r plan ;;
  p <- _sync_ppp_profile r plan ;;
  mreturn (count plan.1 h counts.1, count plan.1 p counts.2).

Definition sync_all_profiles_to_router (r : Router) (plans : option (list (Z * ServicePlan))) : run ProfileReport :=
  mtry
    (plans <- match plans with Some l => mreturn l | None => active_plan_rows end ;;
     match plans with
     | [] => mreturn (mkProfileReport true no_profiles no_profiles None (Some "No plans to sync"))
     | _ =>
         connected <- mattempt (client_connect r) ;;
         match connected with
         | Raise e => mreturn (failed_report ("Failed to connect to router: " +:+ exn_text e))
         | Ok _ =>
             counts <- mfold (sync_plan r) (no_profiles, no_profiles) plans ;;
             client_disconnect r ;;;
             mreturn (mkProfileReport true counts.1 counts.2 None None)
         end
     end)
    (fun e => mreturn (failed_report (exn_text e))).

Record RoutersReport : Type := mkRoutersReport {
  rr_total_routers : Z;
  rr_successful : Z;
  rr_failed : Z;
  rr_results : list (Z * ProfileReport);
  rr_error : option string
}.
#[export] Instance RoutersReport_eta : Eta RoutersReport := fun c =>
  mkRoutersReport (rr_total_routers c) (rr_successful c) (rr_failed c) (rr_results c) (rr_error c).

Definition no_routers : RoutersReport := mkRoutersReport 0 0 0 [] None.

Definition add_report (id : Z) (x : ProfileReport) (c : RoutersReport) : RoutersReport :=
  let c := c <| rr_results ::= fun l => l ++ [(id, x)] |> in
  if pr_success x then c <| rr_successful ::= Z.succ |> else c <| rr_failed ::= Z.succ |>.

(** The report keeps what it holds when an exception ends the run. *)
Definition sync_all_routers : run RoutersReport := fun w =>
  match query (fun db => select (fun _ r => bool_decide (rt_status r = ONLINE)) (t_routers db)) w with
  | (Raise e, w) => (Ok (no_routers <| rr_error := Some (exn_text e) |>), w)
  | (Ok routers, w) =>
      let report := no_routers <| rr_total_routers := Z.of_nat (length routers) |> in
      match active_plan_rows w with
      | (Raise e, w) => (Ok (report <| rr_error := Some (exn_text e) |>), w)
      | (Ok plans, w) =>
          mfold (fun c ir => x <- sync_all_profiles_to_router ir.2 (Some plans) ;; mreturn (add_report ir.1 x c))
            report routers w
      end
  end.

(** *** The tasks *)
Definition sync_bandwidth_profiles_to_router (router_id : Z) : run ProfileReport :=
  router <- query (fun db => t_routers db !! router_id) ;;
  match router with
  | None => mreturn (failed_report "Router not found")
  | Some r => sync_all_profiles_to_router r None
  end.

Definition sync_bandwidth_profiles_to_all_routers : run RoutersReport := sync_all_routers.
End Manager.

(** ** What a run guarantees *)
Section Facts.
Context {be : Backend} {ros : RouterOS}.

Definition accounted (c : ProfileCounts) : Z := pc_created c + pc_updated c + Z.of_nat (length (pc_errors c)).

Lemma accounted_count id x c : accounted (count id x c) = accounted c + 1.
Proof. unfold accounted, count. destruct x; simpl; rewrite ?length_app; simpl; lia. Qed.

Lemma or_refused_returns (m : run Written) : never_raises (or_refused m).
Proof. apply never_raises_try. intros e. apply never_raises_return. Qed.

Lemma sync_plan_accounted r counts plan w :
  exists counts' w', sync_plan r counts plan w = (Ok counts', w') /\
    accounted counts'.1 = accounted counts.1 + 1 /\ accounted counts'.2 = accounted counts.2 + 1.
Proof.
  assert (Hh : never_raises (_sync_hotspot_profile r plan)) by apply or_refused_returns.
  assert (Hp : never_raises (_sync_ppp_profile r plan)) by apply or_refused_returns.
  unfold sync_plan. destruct (Hh w) as (h & w1 & E1). destruct (Hp w1) as (p & w2 & E2).
  rewrite (mthen_ok _ _ _ _ _ E1), (mthen_ok _ _ _ _ _ E2).
  eexists _, w2. split; [reflexivity|]. split; apply accounted_count.
Qed.

Lemma sync_plans_accounted r l : forall counts w,
  exists counts' w', mfold (sync_plan r) counts l w = (Ok counts', w') /\
    accounted counts'.1 = accounted counts.1 + Z.of_nat (length l) /\
    accounted counts'.2 = accounted counts.2 + Z.of_nat (length l).
Proof.
  induction l as [|plan l IH]; intros counts w; [exists counts, w; simpl; split; [done|lia]|].
  destruct (sync_plan_accounted r counts plan w) as (c1 & w1 & E1 & H1 & H2).
  destruct (IH c1 w1) as (c2 & w2 & E2 & H3 & H4). exists c2, w2. cbn [mfold].
  rewrite (mthen_ok _ _ _ _ _ E1). split; [exact E2|]. cbn [length]. lia.
Qed.

(** A run over given plans never raises, and on a router that could be
    reached it reports for each plan exactly one hotspot and one PPP profile as
    created, updated or failed, whatever the router answers. *)
Theorem profiles_accounted r plans w :
  exists rep w', sync_all_profiles_to_router r (Some plans) w = (Ok rep, w') /\
    (pr_success rep = true ->
     accounted (pr_hotspot rep) = Z.of_nat (length plans) /\ accounted (pr_ppp rep) = Z.of_nat (length plans)).
Proof.
  unfold sync_all_profiles_to_router, mtry. rewrite mthen_return.
  destruct plans as [|plan l]; [by eexists _, w|].
  destruct (client_connect r w) as [[[]|e] w1] eqn:E; rewrite (mthen_ok _ _ _ _ _ (mattempt_run _ _ _ _ E)); [|by eexists _, w1].
  destruct (sync_plans_accounted r (plan :: l) (no_profiles, no_profiles) w1) as (c & w2 & Ef & H1 & H2).
  rewrite (mthen_ok _ _ _ _ _ Ef). eexists _, w2. split; [reflexivity|]. by intros _.
Qed.

(** The scheduled synchronisations of bandwidth profiles never reach a
    router: the query for the plans raises, the error is reported as a failure,
    and neither a command is sent nor anything changed. *)
Theorem profiles_never_sent router_id w :
  let one := sync_bandwidth_profiles_to_router router_id w in
  let all := sync_bandwidth_profiles_to_all_routers w in
  match one.1 with Ok rep => pr_success rep = false | Raise e => w_broken w = true end /\
  match all.1 with Ok rep => rr_successful rep = 0 /\ is_Some (rr_error rep) | Raise _ => False end /\
  one.2 = w /\ all.2 = w.
Proof.
  unfold sync_bandwidth_profiles_to_router, sync_bandwidth_profiles_to_all_routers, sync_all_routers, mthen, query.
  destruct (w_broken w); [by repeat split|]. by destruct (t_routers (w_view w) !! router_id); repeat split.
Qed.

(** The profile that a synchronised subscription is given ([Plan.profile_name])
    is none of those written here. *)
Lemma profiles_unused n id p : 0 <= n -> profile_name n <> bandwidth_profile id p.
Proof.
  intros Hn. unfold profile_name, bandwidth_profile. intros [= E].
  assert (E' : str_of_Z n = str_of_Z id +:+ ("_" +:+ underscored (String.substring 0 20 (plan_name p)))) by exact E.
  assert (H : contains_char "_" (str_of_Z n) = false) by by apply str_of_Z_no_char.
  rewrite E', !contains_char_app in H. simpl in H. by rewrite orb_true_r in H.
Qed.
End Facts.

(** The threshold is three quarters of the speed, whatever the plan's own is. *)
Example burst_profile :
  bandwidth_profile 3 (mkServicePlan (Some 1) "Home 5" PT_HOTSPOT PLAN_ACTIVE 0 "KES" DAILY 5 5 (-1) 0 1 None 1
    false 0 true (Some 8) (Some 6) None None 0) = "plan_3_Home_5" /\
  plan_rate_limit (mkServicePlan (Some 1) "Home 5" PT_HOTSPOT PLAN_ACTIVE 0 "KES" DAILY 5 5 (-1) 0 1 None 1
    false 0 true (Some 8) (Some 6) None None 0) = "5000k/5000k 6000k/8000k 3750k/3750k 10s/10s".
Proof. vm_compute. split; reflexivity. Qed.
