(* ===== verification/Expenses.v ===== *)
(** * Expenses of a tenant

    [ExpenseService] of [src/app/modules/expenses/service.py] with the endpoints
    of [src/app/api/v1/business/expenses.py] as the requests it serves. *)

From stdpp Require Import sorting.
From S2P Require Import Prelude PyString Numerics Calendar Models Session Plan AgentQueue RouterSync Subscriptions.
Open Scope Z_scope.

(** [ExpenseUpdate]: a field that is absent or null is not written. *)
Record ExpensePatch : Type := mkExpensePatch {
  eu_date : option Z;
  eu_category : option ExpenseCategory;
  eu_description : option string;
  eu_amount : option money;
  eu_currency : option string;
  eu_receipt_url : option string;
  eu_notes : option string
}.

Definition patch_expense (u : ExpensePatch) (e : Expense) : Expense :=
  e <| exp_date := default (exp_date e) (eu_date u) |>
    <| exp_category := default (exp_category e) (eu_category u) |>
    <| exp_description := default (exp_description e) (eu_description u) |>
    <| exp_amount := default (exp_amount e) (numeric_2 <$> eu_amount u) |>
    <| exp_currency := default (exp_currency e) (eu_currency u) |>
    <| exp_receipt_url := match eu_receipt_url u with Some s => Some s | None => exp_receipt_url e end |>
    <| exp_notes := match eu_notes u with Some s => Some s | None => exp_notes e end |>.

Record ExpenseFilter : Type := mkExpenseFilter {
  ef_status : option ExpenseStatus;
  ef_category : option ExpenseCategory;
  ef_search : option string;
  ef_date_from : option Z;
  ef_date_to : option Z
}.

Definition later_expense (a b : Z * Expense) : Prop :=
  exp_date b.2 < exp_date a.2 \/ exp_date a.2 = exp_date b.2 /\ exp_created_at b.2 <= exp_created_at a.2.
#[export] Instance later_expense_dec : RelDecision later_expense.
Proof. intros a b. unfold later_expense. apply _. Defined.

(** The date of an instant, and the first of its month *)
Definition today_of (t : datetime) : Z := t / usec_per_day.
Definition month_start_of (t : datetime) : Z := let '(_, _, d) := date_of t in today_of t - (d - 1).

Section Service.
Context {be : Backend} {ros : RouterOS}.
(** [ExpenseService(db, organization_id, user_id)] *)
Variables organization_id user_id : Z.

Definition own (e : Expense) : bool := exp_organization_id e =? organization_id.

Definition get_by_id (id : Z) : run (option Expense) :=
  query (fun db => match t_expenses db !! id with Some e => if own e then Some e else None | None => None end).

Definition expense_matches (f : ExpenseFilter) (e : Expense) : bool :=
  own e
  && matches (ef_status f) (fun s => bool_decide (exp_status e = s))
  && matches (ef_category f) (fun c => bool_decide (exp_category e = c))
  && match ef_search f with
     | None | Some "" => true
     | Some s =>
         let pattern := "%" +:+ s +:+ "%" in
         ilike (exp_description e) pattern || match exp_notes e with Some n => ilike n pattern | None => false end
     end
  && matches (ef_date_from f) (fun d => d <=? exp_date e)
  && matches (ef_date_to f) (fun d => exp_date e <=? d).

Definition get_all (pg : PaginationParams) (f : ExpenseFilter) : run (Page (Z * Expense)) :=
  query (fun db => paginate pg (merge_sort later_expense (select (fun _ => expense_matches f) (t_expenses db)))).

Definition create_expense (date : Z) (category : ExpenseCategory) (description : string) (amount : money)
    (currency : string) (receipt_url notes : option string) : run Z :=
  time <- utcnow ;;
  id <- query (fun db => next_id (t_expenses db)) ;;
  assign (over t_expenses (insert id
    (mkExpense organization_id date category description (numeric_2 amount) currency receipt_url user_id
       EX_PENDING notes None None None time))) ;;;
  commit ;;;
  mreturn id.

(** Only a pending expense is changed. *)
Definition on_pending {A} (id : Z) (missing : A) (message : string) (m : run A) : run A :=
  found <- get_by_id id ;;
  match found with
  | None => mreturn missing
  | Some e => if bool_decide (exp_status e = EX_PENDING) then m else mraise (ValueError message)
  end.

Definition write_expense (id : Z) (f : Expense -> Expense) : run bool :=
  assign (over t_expenses (alter f id)) ;;; commit ;;; mreturn true.

Definition update_expense (id : Z) (u : ExpensePatch) : run bool :=
  on_pending id false "Can only update pending expenses" (write_expense id (patch_expense u)).

Definition delete_expense (id : Z) : run bool :=
  on_pending id false "Can only delete pending expenses"
    (assign (over t_expenses (delete id)) ;;; commit ;;; mreturn true).

Definition decide_expense (s : ExpenseStatus) (reason : option string) (time : datetime) (e : Expense) : Expense :=
  e <| exp_status := s |> <| exp_approved_by_user_id := Some user_id |> <| exp_approved_at := Some time |>
    <| exp_rejection_reason := reason |>.

Definition approve_expense (id : Z) : run bool :=
  on_pending id false "Can only approve pending expenses"
    (time <- utcnow ;; write_expense id (decide_expense EX_APPROVED None time)).

Definition reject_expense (id : Z) (rejection_reason : string) : run bool :=
  on_pending id false "Can only reject pending expenses"
    (time <- utcnow ;; write_expense id (decide_expense EX_REJECTED (Some rejection_reason) time)).

(** *** Figures *)
Record ExpenseStats : Type := mkExpenseStats {
  es_total_expenses : Z;
  es_approved_expenses : Z;
  es_pending_expenses : Z;
  es_rejected_expenses : Z;
  es_total_amount : money;
  es_daily_expenses : money;
  es_monthly_expenses : money;
  es_by_category : list (string * money)
}.

Definition with_status (s : ExpenseStatus) (e : Expense) : bool := own e && bool_decide (exp_status e = s).

Definition count_expenses (p : Expense -> bool) (db : DB) : Z := Z.of_nat (length (select (fun _ => p) (t_expenses db))).

Definition sum_amounts (p : Expense -> bool) (db : DB) : money :=
  sum_Z (map (fun ke => exp_amount ke.2) (select (fun _ => p) (t_expenses db))).

Definition categories : list ExpenseCategory :=
  [EC_INFRASTRUCTURE; EC_EQUIPMENT; EC_MAINTENANCE; EC_UTILITIES; EC_LICENSES; EC_MARKETING; EC_SALARIES;
   EC_OFFICE; EC_TRAVEL; EC_OTHER].

(** [str(cat)] of a member of a text enumeration names the class too. *)
Definition category_key (c : ExpenseCategory) : string :=
  "ExpenseCategory." +:+
  match c with
  | EC_INFRASTRUCTURE => "INFRASTRUCTURE" | EC_EQUIPMENT => "EQUIPMENT" | EC_MAINTENANCE => "MAINTENANCE"
  | EC_UTILITIES => "UTILITIES" | EC_LICENSES => "LICENSES" | EC_MARKETING => "MARKETING"
  | EC_SALARIES => "SALARIES" | EC_OFFICE => "OFFICE" | EC_TRAVEL => "TRAVEL" | EC_OTHER => "OTHER"
  end.

Definition of_category (c : ExpenseCategory) (e : Expense) : bool :=
  with_status EX_APPROVED e && bool_decide (exp_category e = c).

(** [GROUP BY category] has a row only for a category with expenses. The amounts
    are sent as floats; the model keeps the decimals they come from. *)
Definition get_statistics : run ExpenseStats :=
  time <- utcnow ;;
  count <- query (count_expenses (with_status EX_APPROVED)) ;;
  amount <- query (sum_amounts (with_status EX_APPROVED)) ;;
  approved <- query (count_expenses (with_status EX_APPROVED)) ;;
  pending <- query (count_expenses (with_status EX_PENDING)) ;;
  rejected <- query (count_expenses (with_status EX_REJECTED)) ;;
  daily <- query (sum_amounts (fun e => with_status EX_APPROVED e && (exp_date e =? today_of time))) ;;
  monthly <- query (sum_amounts (fun e => with_status EX_APPROVED e && (month_start_of time <=? exp_date e))) ;;
  groups <- query (fun db =>
    map (fun c => (category_key c, sum_amounts (of_category c) db))
        (filter (fun c => 0 < count_expenses (of_category c) db) categories)) ;;
  mreturn (mkExpenseStats count approved pending rejected amount daily monthly groups).

(** ** Requests *)
Inductive ExpenseRequest : Type :=
  | CreateExpense (date : Z) (category : ExpenseCategory) (description : string) (amount : money)
      (currency : string) (receipt_url notes : option string)
  | UpdateExpense (id : Z) (u : ExpensePatch)
  | DeleteExpense (id : Z)
  | ApproveExpense (id : Z)
  | RejectExpense (id : Z) (reason : string)
  | ListExpenses (pg : PaginationParams) (f : ExpenseFilter)
  | ExpenseStatistics.

Definition discard {A} (m : run A) : run unit := m ;;; mreturn tt.

Definition serve (q : ExpenseRequest) : run unit :=
  match q with
  | CreateExpense d c s a cur r n => discard (create_expense d c s a cur r n)
  | UpdateExpense id u => discard (update_expense id u)
  | DeleteExpense id => discard (delete_expense id)
  | ApproveExpense id => discard (approve_expense id)
  | RejectExpense id reason => discard (reject_expense id reason)
  | ListExpenses pg f => discard (get_all pg f)
  | ExpenseStatistics => discard get_statistics
  end.
End Service.

(** ** Histories *)
Section Histories.
Context {be : Backend} {ros : RouterOS}.

(** A request of any tenant and user, at any time, with any flush refused, on a
    session of its own *)
Inductive step : DB -> DB -> Prop :=
  | step_request organization_id user_id now faults dev q db :
      step db (w_durable (snd (serve organization_id user_id q ((start now db dev) <| w_faults := faults |>)))).

Definition decided (id : Z) (e : Expense) (db : DB) : Prop :=
  t_expenses db !! id = Some e /\ exp_status e <> EX_PENDING.

(** The row is decided in both views of the session. *)
Definition keeps_decided (id : Z) (e : Expense) (w : World) : Prop :=
  decided id e (w_view w) /\ decided id e (w_durable w).

Lemma keeps_decided_commit id e : preserves (keeps_decided id e) commit.
Proof.
  intros w [Hv Hd]. unfold commit, flush, mthen, mmodify. destruct (w_broken w); [done|].
  destruct (_ || _); simpl; by split.
Qed.

Lemma keeps_query {A} id e (f : DB -> A) : preserves (keeps_decided id e) (query f).
Proof. intros w Hw. unfold query. by destruct (w_broken w). Qed.

Lemma keeps_write {A} id e (f : gmap Z Expense -> gmap Z Expense) (a : A) :
  (forall m : gmap Z Expense, m !! id = Some e -> f m !! id = Some e) ->
  preserves (keeps_decided id e) (assign (over t_expenses f) ;;; commit ;;; mreturn a).
Proof.
  intros Hf. apply preserves_then.
  - intros w [[Hv Hs] Hd]. split; [|done]. split; [by apply Hf|done].
  - intros _. apply preserves_then; [apply keeps_decided_commit|]. intros _. apply preserves_return.
Qed.

(** A guarded write of another row, or of this one, which the guard refuses. *)
Lemma keeps_on_pending organization_id id e i message (m : run bool) :
  (i <> id -> preserves (keeps_decided id e) m) ->
  preserves (keeps_decided id e) (on_pending organization_id i false message m).
Proof.
  intros Hm w Hw. unfold on_pending, get_by_id, mthen, query.
  destruct (w_broken w); [done|].
  destruct (t_expenses (w_view w) !! i) as [e'|] eqn:Ei; [|done]. destruct (own _ e'); [|done].
  case_bool_decide as Hp; [|done]. apply Hm; [|done]. intros ->.
  destruct Hw as [[Hv Hs] _]. congruence.
Qed.

Lemma keeps_create organization_id user_id id e d c s a cur r n :
  preserves (keeps_decided id e) (create_expense organization_id user_id d c s a cur r n).
Proof.
  intros w Hw. unfold create_expense, utcnow. unfold mthen at 1. unfold mthen at 1, query.
  destruct (w_broken w); [done|]. set (i := next_id _).
  assert (Hi : i <> id).
  { intros <-. destruct Hw as [[Hv _] _]. unfold i in Hv. by rewrite next_id_fresh in Hv. }
  apply keeps_write; [|done]. intros m Hm. by rewrite lookup_insert_ne.
Qed.

Lemma keeps_alter organization_id id e i message f :
  preserves (keeps_decided id e) (on_pending organization_id i false message (write_expense i f)).
Proof.
  apply keeps_on_pending. intros Hi. apply keeps_write. intros m Hm. by rewrite lookup_alter_ne.
Qed.

Lemma serve_keeps organization_id user_id q id e : preserves (keeps_decided id e) (serve organization_id user_id q).
Proof.
  assert (Hd : forall A (m : run A), preserves (keeps_decided id e) m -> preserves (keeps_decided id e) (discard m)).
  { intros A m Hm. apply preserves_then; [exact Hm|]. intros _. apply preserves_return. }
  destruct q; apply Hd.
  - apply keeps_create.
  - apply keeps_alter.
  - apply keeps_on_pending. intros Hi. apply keeps_write. intros m Hm. by rewrite lookup_delete_ne.
  - apply keeps_on_pending. intros Hi. apply preserves_then; [by intros w Hw|]. intros time.
    apply keeps_write. intros m Hm. by rewrite lookup_alter_ne.
  - apply keeps_on_pending. intros Hi. apply preserves_then; [by intros w Hw|]. intros time.
    apply keeps_write. intros m Hm. by rewrite lookup_alter_ne.
  - apply keeps_query.
  - unfold get_statistics.
    repeat (apply preserves_then; [first [apply keeps_query|by intros w Hw]|]; intros ?). apply preserves_return.
Qed.

(** C22. A decision is final: once an expense is approved or rejected, no sequence
    of requests, of whatever tenants and users and with whatever flushes refused,
    changes or removes its row. *)
Theorem decided_expense_final db db' id e :
  rtc step db db' -> t_expenses db !! id = Some e -> exp_status e <> EX_PENDING -> t_expenses db' !! id = Some e.
Proof.
  intros Hs Hi He. assert (Hd : decided id e db) by by split. clear Hi He.
  enough (H : decided id e db') by apply H.
  induction Hs as [db|db db1 db' [organization_id user_id now faults dev q db0] _ IH]; [done|].
  apply IH. apply (serve_keeps organization_id user_id q). by split.
Qed.
End Histories.

(** ** A concrete history *)
#[local] Existing Instance unreachable_router.

Definition fuel_expense : Expense :=
  mkExpense 1 20000 EC_UTILITIES "generator fuel" (units 50) "KES" None 5 EX_PENDING None None None None 0.

Definition expense_db : DB := empty_db <| t_expenses := {[3 := fuel_expense]} |>.

Definition after (organization_id user_id : Z) (q : ExpenseRequest) (db : DB) : DB :=
  w_durable (snd (serve organization_id user_id q ((start_offline 100 db) <| w_faults := [] |>))).

Definition approved_db : DB := after 1 9 (ApproveExpense 3) expense_db.
Definition approved_expense : Expense := decide_expense 9 EX_APPROVED None 100 fuel_expense.

Lemma decided_expense_final_witness :
  t_expenses (after 1 8 (RejectExpense 3 "late") approved_db) !! 3 = Some approved_expense.
Proof.
  apply (decided_expense_final approved_db _ 3 approved_expense).
  - apply rtc_once. exact (step_request 1 8 100 [] tt (RejectExpense 3 "late") approved_db).
  - vm_compute. reflexivity.
  - discriminate.
Defined.
