(* ===== verification/Tickets.v ===== *)
(** * Support tickets of a tenant

    [TicketService] of [src/app/modules/tickets/service.py] with the endpoints of
    [src/app/api/v1/support/tickets.py] as the requests it serves. *)

From stdpp Require Import sorting.
From S2P Require Import Prelude PyString Numerics Calendar Models Session Plan AgentQueue RouterSync Subscriptions.
Open Scope Z_scope.

(** [SupportTicketUpdate]: a field that is absent or null is not written. *)
Record TicketPatch : Type := mkTicketPatch {
  tu_subject : option string;
  tu_description : option string;
  tu_category : option string;
  tu_priority : option TicketPriority;
  tu_tags : option string;
  tu_attachments : option string
}.

Definition given_or {A} (old new : option A) : option A := match new with Some a => Some a | None => old end.

Definition patch_ticket (u : TicketPatch) (t : SupportTicket) : SupportTicket :=
  t <| tkt_subject := default (tkt_subject t) (tu_subject u) |>
    <| tkt_description := default (tkt_description t) (tu_description u) |>
    <| tkt_category := given_or (tkt_category t) (tu_category u) |>
    <| tkt_priority := default (tkt_priority t) (tu_priority u) |>
    <| tkt_tags := given_or (tkt_tags t) (tu_tags u) |>
    <| tkt_attachments := given_or (tkt_attachments t) (tu_attachments u) |>.

Record TicketFilter : Type := mkTicketFilter {
  tf_status : option TicketStatus;
  tf_priority : option TicketPriority;
  tf_user_id : option Z;
  tf_assigned_to : option Z;
  tf_category : option string;
  tf_search : option string
}.

Definition later_ticket (a b : Z * SupportTicket) : Prop := tkt_created_at b.2 <= tkt_created_at a.2.
#[export] Instance later_ticket_dec : RelDecision later_ticket.
Proof. intros a b. unfold later_ticket. apply _. Defined.

(** [_generate_ticket_number]; [suffix] is what [token_hex(3)] drew. *)
Definition ticket_number (time : datetime) (suffix : string) : string :=
  "TKT-" +:+ date_digits time +:+ "-" +:+ upper suffix.

Section Service.
Context {be : Backend} {ros : RouterOS}.
(** [TicketService(db, organization_id, user_id)] *)
Variables organization_id user_id : Z.

Definition own_ticket (t : SupportTicket) : bool := tkt_organization_id t =? organization_id.

Definition get_by_id (id : Z) : run (option SupportTicket) :=
  query (fun db => match t_tickets db !! id with Some t => if own_ticket t then Some t else None | None => None end).

Definition searched (text : option string) (columns : list (option string)) : bool :=
  match text with
  | None | Some "" => true
  | Some s => existsb (fun c => match c with Some c => ilike c ("%" +:+ s +:+ "%") | None => false end) columns
  end.

Definition ticket_matches (f : TicketFilter) (t : SupportTicket) : bool :=
  own_ticket t
  && matches (tf_status f) (fun s => bool_decide (tkt_status t = s))
  && matches (tf_priority f) (fun p => bool_decide (tkt_priority t = p))
  && matches (given (tf_user_id f)) (Z.eqb (tkt_user_id t))
  && matches (given (tf_assigned_to f)) (fun a => bool_decide (tkt_assigned_to t = Some a))
  && searched (tf_category f) [tkt_category t]
  && searched (tf_search f) [Some (tkt_ticket_number t); Some (tkt_subject t); Some (tkt_description t)].

Definition get_all (pg : PaginationParams) (f : TicketFilter) : run (Page (Z * SupportTicket)) :=
  query (fun db => paginate pg (merge_sort later_ticket (select (fun _ => ticket_matches f) (t_tickets db)))).

(** The number is unique: the server refuses one that is taken. The ticket is
    opened in the name of any user the request gives. *)
Definition create_ticket (suffix : string) (for_user : Z) (subject description : string) (priority : TicketPriority)
    (category tags attachments : option string) : run Z :=
  time <- utcnow ;;
  let number := ticket_number time suffix in
  id <- query (fun db => next_id (t_tickets db)) ;;
  refuse_if (fun db => existsb (fun kt => bool_decide (tkt_ticket_number kt.2 = number)) (map_to_list (t_tickets db))) ;;;
  assign (over t_tickets (insert id
    (mkTicket organization_id for_user None number subject description TS_OPEN priority category tags None None None
       attachments time))) ;;;
  commit ;;;
  mreturn id.

Definition on_ticket {A} (id : Z) (missing : A) (m : SupportTicket -> run A) : run A :=
  found <- get_by_id id ;;
  match found with None => mreturn missing | Some t => m t end.

Definition write_ticket (id : Z) (f : SupportTicket -> SupportTicket) : run bool :=
  assign (over t_tickets (alter f id)) ;;; commit ;;; mreturn true.

Definition update_ticket (id : Z) (u : TicketPatch) : run bool :=
  on_ticket id false (fun _ => write_ticket id (patch_ticket u)).

Definition assigned (to : Z) (t : SupportTicket) : SupportTicket :=
  let t := t <| tkt_assigned_to := Some to |> in
  if bool_decide (tkt_status t = TS_OPEN) then t <| tkt_status := TS_IN_PROGRESS |> else t.

Definition assign_ticket (id assigned_to : Z) : run bool := on_ticket id false (fun _ => write_ticket id (assigned assigned_to)).

Definition add_message (id : Z) (message : string) (is_internal : bool) (attachments : option string)
    : run (option Z) :=
  on_ticket id None (fun _ =>
    time <- utcnow ;;
    mid <- query (fun db => next_id (t_ticket_messages db)) ;;
    assign (over t_ticket_messages (insert mid (mkTicketMessage id user_id message is_internal attachments time))) ;;;
    commit ;;;
    mreturn (Some mid)).

Definition resolved (resolution : string) (time : datetime) (t : SupportTicket) : SupportTicket :=
  t <| tkt_status := TS_RESOLVED |> <| tkt_resolution := Some resolution |> <| tkt_resolved_at := Some time |>.

Definition resolve_ticket (id : Z) (resolution : string) : run bool :=
  on_ticket id false (fun t =>
    if bool_decide (tkt_status t = TS_CLOSED) then mraise (ValueError "Cannot resolve a closed ticket")
    else time <- utcnow ;; write_ticket id (resolved resolution time)).

Definition closed (time : datetime) (t : SupportTicket) : SupportTicket :=
  t <| tkt_status := TS_CLOSED |> <| tkt_closed_at := Some time |>.

Definition close_ticket (id : Z) : run bool :=
  on_ticket id false (fun _ => time <- utcnow ;; write_ticket id (closed time)).

(** *** Figures *)
Record TicketStats : Type := mkTicketStats {
  ts_total_tickets : Z;
  ts_open_tickets : Z;
  ts_in_progress_tickets : Z;
  ts_resolved_tickets : Z;
  ts_closed_tickets : Z;
  ts_urgent_tickets : Z
}.

Definition count_tickets (p : SupportTicket -> bool) (db : DB) : Z :=
  Z.of_nat (length (select (fun _ t => own_ticket t && p t) (t_tickets db))).

Definition has_status (s : TicketStatus) (t : SupportTicket) : bool := bool_decide (tkt_status t = s).

Definition get_statistics : run TicketStats :=
  total <- query (count_tickets (fun _ => true)) ;;
  opened <- query (count_tickets (has_status TS_OPEN)) ;;
  in_progress <- query (count_tickets (has_status TS_IN_PROGRESS)) ;;
  solved <- query (count_tickets (has_status TS_RESOLVED)) ;;
  done_with <- query (count_tickets (has_status TS_CLOSED)) ;;
  urgent <- query (count_tickets (fun t => bool_decide (tkt_priority t = TP_URGENT)
                                           && (has_status TS_OPEN t || has_status TS_IN_PROGRESS t))) ;;
  mreturn (mkTicketStats total opened in_progress solved done_with urgent).

(** ** Requests *)
Inductive TicketRequest : Type :=
  | CreateTicket (suffix : string) (for_user : Z) (subject description : string) (priority : TicketPriority)
      (category tags attachments : option string)
  | UpdateTicket (id : Z) (u : TicketPatch)
  | AssignTicket (id to : Z)
  | AddMessage (id : Z) (message : string) (is_internal : bool) (attachments : option string)
  | ResolveTicket (id : Z) (resolution : string)
  | CloseTicket (id : Z)
  | ListTickets (pg : PaginationParams) (f : TicketFilter)
  | TicketStatistics.

Definition discard {A} (m : run A) : run unit := m ;;; mreturn tt.

Definition serve (q : TicketRequest) : run unit :=
  match q with
  | CreateTicket x u s d p c t a => discard (create_ticket x u s d p c t a)
  | UpdateTicket id u => discard (update_ticket id u)
  | AssignTicket id to => discard (assign_ticket id to)
  | AddMessage id m i a => discard (add_message id m i a)
  | ResolveTicket id r => discard (resolve_ticket id r)
  | CloseTicket id => discard (close_ticket id)
  | ListTickets pg f => discard (get_all pg f)
  | TicketStatistics => discard get_statistics
  end.
End Service.

(** ** Histories *)

(** What one request may make of a ticket's status *)
Inductive moves : TicketStatus -> TicketStatus -> Prop :=
  | stays s : moves s s
  | is_assigned : moves TS_OPEN TS_IN_PROGRESS
  | is_resolved s : s <> TS_CLOSED -> moves s TS_RESOLVED
  | is_closed s : moves s TS_CLOSED.

Section Histories.
Context {be : Backend} {ros : RouterOS}.

(** A request of any tenant and user, at any time, with any flush refused, on a
    session of its own *)
Inductive step (organization_id : Z) : DB -> DB -> Prop :=
  | step_request user_id now faults dev q db :
      step organization_id db
        (w_durable (snd (serve organization_id user_id q ((start now db dev) <| w_faults := faults |>)))).

(** One request of a tenant leaves every ticket in place; one of the tenant moves
    as allowed and keeps who and what it is, one of another tenant is untouched. *)
Definition follows (organization_id : Z) (t t' : SupportTicket) : Prop :=
  if own_ticket organization_id t
  then moves (tkt_status t) (tkt_status t') /\ tkt_organization_id t' = tkt_organization_id t /\
       tkt_user_id t' = tkt_user_id t /\ tkt_ticket_number t' = tkt_ticket_number t /\
       (tkt_status t = TS_CLOSED -> tkt_resolution t' = tkt_resolution t)
  else t' = t.

Definition all_follow (organization_id : Z) (db db' : DB) : Prop := forall id t,
  t_tickets db !! id = Some t -> exists t', t_tickets db' !! id = Some t' /\ follows organization_id t t'.

Lemma follows_refl o t : follows o t t.
Proof. unfold follows. destruct (own_ticket o t); [|done]. repeat split; try done. constructor. Qed.

Lemma all_follow_refl o db : all_follow o db db.
Proof. intros id t Hi. exists t. split; [done|apply follows_refl]. Qed.

(** A session on unchanged tables, then with a change that follows *)
Definition unchanged (db : DB) (w : World) : Prop := w_view w = db /\ w_durable w = db.
Definition changed (o : Z) (db : DB) (w : World) : Prop := all_follow o db (w_view w) /\ all_follow o db (w_durable w).

Lemma commit_changed o db : preserves (changed o db) commit.
Proof.
  intros w [Hv Hd]. unfold commit, flush, mthen, mmodify. destruct (w_broken w); [done|].
  destruct (_ || _); simpl; by split.
Qed.

Lemma unchanged_changed o db w : unchanged db w -> changed o db w.
Proof. intros [Hv Hd]. split; rewrite ?Hv, ?Hd; apply all_follow_refl. Qed.

Lemma write_changed {A} o (f : DB -> DB) (a : A) db w :
  unchanged db w -> all_follow o db (f db) -> changed o db (snd ((assign f ;;; commit ;;; mreturn a) w)).
Proof.
  intros [Hv Hd] Hf. unfold mthen at 1, assign, mmodify.
  assert (Hw : changed o db (over w_view f w)).
  { split.
    - change (all_follow o db (f (w_view w))). by rewrite Hv.
    - change (all_follow o db (w_durable w)). rewrite Hd. apply all_follow_refl. }
  apply (preserves_then (changed o db) commit (fun _ => mreturn a)); [apply commit_changed|intros _; apply preserves_return|exact Hw].
Qed.

Lemma alter_follows o id f (db : DB) :
  (forall t, t_tickets db !! id = Some t -> follows o t (f t)) -> all_follow o db (over t_tickets (alter f id) db).
Proof.
  intros Hf i t Hi. simpl. destruct (decide (i = id)) as [->|Hne].
  - exists (f t). rewrite lookup_alter_eq, Hi. split; [done|by apply Hf].
  - exists t. rewrite lookup_alter_ne by done. split; [done|apply follows_refl].
Qed.

Lemma on_ticket_changed {A} o id missing (m : SupportTicket -> run A) db w :
  unchanged db w ->
  (forall t, t_tickets db !! id = Some t -> own_ticket o t = true -> changed o db (snd (m t w))) ->
  changed o db (snd (on_ticket o id missing m w)).
Proof.
  intros Hw Hm. pose proof (unchanged_changed o db w Hw) as Hc. unfold on_ticket, get_by_id, mthen, query.
  destruct (w_broken w); [done|]. rewrite (proj1 Hw).
  destruct (t_tickets db !! id) as [t|] eqn:Ei; [|done]. destruct (own_ticket o t) eqn:Eo; [|done]. by apply Hm.
Qed.

(** A write of a ticket of the tenant that the request has just read *)
Lemma write_ticket_changed o id f db w t :
  unchanged db w -> t_tickets db !! id = Some t -> own_ticket o t = true ->
  moves (tkt_status t) (tkt_status (f t)) -> tkt_organization_id (f t) = tkt_organization_id t ->
  tkt_user_id (f t) = tkt_user_id t -> tkt_ticket_number (f t) = tkt_ticket_number t ->
  (tkt_status t = TS_CLOSED -> tkt_resolution (f t) = tkt_resolution t) ->
  changed o db (snd (write_ticket id f w)).
Proof.
  intros Hw Hi Ho H1 H2 H3 H4 H5. apply write_changed; [done|]. apply alter_follows.
  intros t' Ht'. rewrite Hi in Ht'. injection Ht' as <-. unfold follows. by rewrite Ho.
Qed.

(** A write after the clock was read *)
Lemma write_now_changed o id (f : datetime -> SupportTicket -> SupportTicket) db w :
  (forall time, changed o db (snd (write_ticket id (f time) w))) ->
  changed o db (snd ((time <- utcnow ;; write_ticket id (f time)) w)).
Proof. intros H. apply H. Qed.

Lemma refused_changed {A} o b (m : run A) db w :
  unchanged db w -> changed o db (snd (m w)) -> changed o db (snd ((refuse_if b ;;; m) w)).
Proof.
  intros [Hv Hd] Hm. unfold mthen at 1, refuse_if. destruct (w_broken w); simpl; [by apply unchanged_changed|].
  destruct (b _); simpl; [|exact Hm]. split; simpl; rewrite Hd; apply all_follow_refl.
Qed.

Lemma create_changed o x u s d p c t a db w :
  unchanged db w -> changed o db (snd (create_ticket o x u s d p c t a w)).
Proof.
  intros Hw. unfold create_ticket, utcnow. unfold mthen at 1. unfold mthen at 1, query.
  destruct (w_broken w); [by apply unchanged_changed|]. rewrite (proj1 Hw).
  apply refused_changed; [done|]. apply write_changed; [done|].
  intros i t' Hi. exists t'. split; [|apply follows_refl]. simpl. rewrite lookup_insert_ne; [done|].
  intros <-. by rewrite next_id_fresh in Hi.
Qed.

Lemma message_changed o user_id id m i a db w :
  unchanged db w -> changed o db (snd (add_message o user_id id m i a w)).
Proof.
  intros Hw. apply on_ticket_changed; [done|]. intros t _ _. unfold utcnow. unfold mthen at 1. unfold mthen at 1, query.
  destruct (w_broken w); [by apply unchanged_changed|]. apply write_changed; [done|].
  intros i' t' Hi. exists t'. split; [exact Hi|apply follows_refl].
Qed.

Lemma assigned_moves to t : moves (tkt_status t) (tkt_status (assigned to t)).
Proof. unfold assigned. simpl. case_bool_decide as E; simpl; [rewrite E|]; constructor. Qed.

Lemma serve_changed o user_id q db w : unchanged db w -> changed o db (snd (serve o user_id q w)).
Proof.
  intros Hw. assert (Hc := unchanged_changed o db w Hw).
  assert (Hd : forall A (m : run A), changed o db (snd (m w)) -> changed o db (snd (discard m w))).
  { intros A m Hm. unfold discard, mthen. by destruct (m w) as [[a|x] w']. }
  destruct q; apply Hd; clear Hd.
  - by apply create_changed.
  - apply on_ticket_changed; [done|]. intros t Hi Ho. apply (write_ticket_changed o id _ db w t); try done. apply stays.
  - apply on_ticket_changed; [done|]. intros t Hi Ho.
    apply (write_ticket_changed o id _ db w t); try done; [apply assigned_moves|..];
      unfold assigned; simpl; by case_bool_decide.
  - by apply message_changed.
  - apply on_ticket_changed; [done|]. intros t Hi Ho. case_bool_decide as Hs; [done|].
    apply write_now_changed. intros time. apply (write_ticket_changed o id _ db w t); try done. by apply is_resolved.
  - apply on_ticket_changed; [done|]. intros t Hi Ho.
    apply write_now_changed. intros time. apply (write_ticket_changed o id _ db w t); try done. apply is_closed.
  - unfold serve, get_all, query. by destruct (w_broken w).
  - assert (Hq : forall A B (f : DB -> A) (k : A -> run B),
      (forall a, changed o db (snd (k a w))) -> changed o db (snd ((x <- query f ;; k x) w))).
    { intros A B f k Hk. unfold mthen, query. destruct (w_broken w); [done|apply Hk]. }
    unfold get_statistics. do 6 (apply Hq; intros ?). done.
Qed.


(** A closed ticket stays closed, with its resolution, whoever asks for whatever. *)
Theorem closed_ticket_final db db' id t :
  rtc (fun a b => exists o, step o a b) db db' -> t_tickets db !! id = Some t -> tkt_status t = TS_CLOSED ->
  exists t', t_tickets db' !! id = Some t' /\ tkt_status t' = TS_CLOSED /\ tkt_resolution t' = tkt_resolution t.
Proof.
  intros Hs. revert t. induction Hs as [db|db db1 db' [o [user_id now faults dev q db0]] _ IH]; intros t Hi Ht; [by exists t|].
  destruct (serve_changed o user_id q db0 ((start now db0 dev) <| w_faults := faults |>)) as [_ Hf]; [by split|].
  destruct (Hf id t Hi) as [t1 [H1 Hfol]].
  assert (H : tkt_status t1 = TS_CLOSED /\ tkt_resolution t1 = tkt_resolution t).
  { unfold follows in Hfol. destruct (own_ticket o t); [|by subst].
    destruct Hfol as [Hm [_ [_ [_ Hr]]]]. split; [|by apply Hr]. rewrite Ht in Hm. inversion Hm; congruence. }
  destruct H as [H2 H3]. destruct (IH t1 H1 H2) as [t2 [Ha [Hb Hc]]]. exists t2. rewrite Hc. by repeat split.
Qed.
End Histories.

(** ** A concrete history *)
#[local] Existing Instance unreachable_router.

Definition slow_ticket : SupportTicket :=
  mkTicket 1 5 None "TKT-20250201-0A1B2C" "slow" "the link is slow" TS_OPEN TP_HIGH None None None None None None 0.

Definition ticket_db : DB := empty_db <| t_tickets := {[4 := slow_ticket]} |>.

Definition after (organization_id user_id : Z) (q : TicketRequest) (db : DB) : DB :=
  w_durable (snd (serve organization_id user_id q ((start_offline 100 db) <| w_faults := [] |>))).


Definition closed_db : DB := after 1 9 (CloseTicket 4) (after 1 9 (ResolveTicket 4 "cable replaced") ticket_db).
Definition closed_ticket : SupportTicket := closed 100 (resolved "cable replaced" 100 slow_ticket).

Lemma closed_ticket_final_witness :
  exists t', t_tickets (after 1 9 (ResolveTicket 4 "again") closed_db) !! 4 = Some t' /\ tkt_status t' = TS_CLOSED /\
             tkt_resolution t' = Some "cable replaced".
Proof.
  apply (closed_ticket_final closed_db _ 4 closed_ticket).
  - apply rtc_once. exists 1. exact (step_request 1 9 100 [] tt (ResolveTicket 4 "again") closed_db).
  - vm_compute. reflexivity.
  - reflexivity.
Defined.
