(* ===== verification/Onboarding.v ===== *)
(** * Sign-up of providers

    The endpoints of [src/app/api/v1/onboarding.py]. A sign-up in progress is a
    document in Redis, under the e-mail address; the last step writes the
    organization, its administrator and its settings. *)

From S2P Require Import Prelude PyString Numerics Calendar Timestamps Models Session Passwords Pppoe Identity RateLimit.
Open Scope Z_scope.

(** ** Sessions *)
Record Business : Type := mkBusiness {
  bd_name : string;
  bd_type : OrganizationType;
  bd_phone : string;
  bd_country : string;
  bd_city : option string
}.

Record OnboardingSession : Type := mkOnboarding {
  os_verification_code : string;
  os_expires_at : datetime;
  os_step : string;
  os_verified : bool;
  os_business_details : option Business
}.
#[export] Instance OnboardingSession_eta : Eta OnboardingSession := fun r =>
  mkOnboarding (os_verification_code r) (os_expires_at r) (os_step r) (os_verified r) (os_business_details r).

(** The JSON document of a session: its instant and its enumeration are texts. *)
Record BusinessDocument : Type := mkBusinessDoc {
  bj_name : string;
  bj_type : string;
  bj_phone : string;
  bj_country : string;
  bj_city : option string
}.

Record SessionDocument : Type := mkSessionDoc {
  sj_verification_code : string;
  sj_expires_at : string;
  sj_step : string;
  sj_verified : bool;
  sj_business_details : option BusinessDocument
}.

Definition type_value (t : OrganizationType) : string :=
  match t with OT_HOTSPOT => "hotspot" | OT_PPPOE => "pppoe" | OT_HYBRID => "hybrid" end.

(** [OrganizationType(value)] *)
Definition type_of_value (s : string) : outcome OrganizationType :=
  if bool_decide (s = "hotspot") then Ok OT_HOTSPOT
  else if bool_decide (s = "pppoe") then Ok OT_PPPOE
  else if bool_decide (s = "hybrid") then Ok OT_HYBRID
  else Raise (ValueError ("'" +:+ s +:+ "' is not a valid OrganizationType")).

Definition business_document (b : Business) : BusinessDocument :=
  mkBusinessDoc (bd_name b) (type_value (bd_type b)) (bd_phone b) (bd_country b) (bd_city b).

Definition document_of (s : OnboardingSession) : SessionDocument :=
  mkSessionDoc (os_verification_code s) (isoformat (os_expires_at s)) (os_step s) (os_verified s)
    (business_document <$> os_business_details s).

Definition business_of (j : BusinessDocument) : outcome Business :=
  match type_of_value (bj_type j) with
  | Ok t => Ok (mkBusiness (bj_name j) t (bj_phone j) (bj_country j) (bj_city j))
  | Raise e => Raise e
  end.

Definition session_of (j : SessionDocument) : outcome OnboardingSession :=
  match fromisoformat (sj_expires_at j) with
  | Raise e => Raise e
  | Ok t =>
      let session := mkOnboarding (sj_verification_code j) t (sj_step j) (sj_verified j) in
      match sj_business_details j with
      | None => Ok (session None)
      | Some b => match business_of b with Ok b => Ok (session (Some b)) | Raise e => Raise e end
      end
  end.

(** ** The server of the documents *)

(** [GET], [SET] with [EX] and [DEL] on a Redis server; [held] is the document a
    key holds with the time it expires at. [json.loads] undoes [json.dumps]: the
    server is said to hold the document itself. Times are in milliseconds. *)
Class RedisDocuments := {
  Docs : Type;
  held : Docs -> Z -> string -> option (SessionDocument * Z);
  set_ex : Docs -> Z -> string -> SessionDocument -> Z -> Docs;
  del : Docs -> Z -> string -> Docs;
  held_later : forall s now t k, now <= t ->
    held s t k = match held s now k with Some (j, e) => if t <? e then Some (j, e) else None | None => None end;
  held_set : forall s now k j ex, 0 < ex -> held (set_ex s now k j ex) now k = Some (j, now + ex * 1000);
  held_set_other : forall s now k j ex k', k' <> k -> held (set_ex s now k j ex) now k' = held s now k';
  held_del : forall s now k, held (del s now k) now k = None;
  held_del_other : forall s now k k', k' <> k -> held (del s now k) now k' = held s now k'
}.

(** What happens to a command: answered, lost on the way, or carried out without
    an answer. *)
Inductive Fate : Type := Answered | Lost | Unanswered.

(** The settings the sign-up reads, and the salt drawn for a password. *)
Class SignupEnv := {
  default_trial_days : Z;
  debug : bool;
  limits : LimitConfig;
  gensalt : string
}.

Section State.
Context {ros : RouterOS} {redis : Redis} {documents : RedisDocuments}.
Record Signup : Type := mkSignup {
  sg_world : World;
  sg_counters : Store;
  sg_docs : Docs;
  sg_fates : list Fate
}.
#[global] Instance Signup_eta : Eta Signup := fun r => mkSignup (sg_world r) (sg_counters r) (sg_docs r) (sg_fates r).
End State.

Abbreviation signup := (M Signup).

(** Where a request comes from, and whether the limiter finds its server. *)
Record Caller : Type := mkCaller {
  ca_ip : string;
  ca_limiter_up : bool
}.

Section Endpoints.
Context {be : Backend} {ros : RouterOS} {redis : Redis} {documents : RedisDocuments} {bc : Bcrypt} {env : SignupEnv}.

Definition lift {A} (m : run A) : signup A := fun g =>
  let (r, w) := m (sg_world g) in (r, g <| sg_world := w |>).

Definition from_outcome {A} (o : outcome A) : signup A := fun g => (o, g).

Definition redis_now (g : Signup) : Z := w_now (sg_world g) / 1000.

(** ** The documents *)
Definition redis_down : exn := RuntimeError "redis".

Definition command {A} (f : Docs -> Z -> A * Docs) : signup A := fun g =>
  let (a, docs) := f (sg_docs g) (redis_now g) in
  let g' := g <| sg_fates ::= tail |> in
  match sg_fates g with
  | [] | Answered :: _ => (Ok a, g' <| sg_docs := docs |>)
  | Lost :: _ => (Raise redis_down, g')
  | Unanswered :: _ => (Raise redis_down, g' <| sg_docs := docs |>)
  end.

Definition ONBOARDING_SESSION_TTL_SECONDS : Z := 3600.

Definition _session_key (email : string) : string := "isp:onboarding:" +:+ lower (strip email).

Definition unavailable : exn :=
  HTTPException 503 "Registration is temporarily unavailable. Please try again shortly.".

Definition load_session (email : string) : signup (option OnboardingSession) :=
  raw <- mtry (command (fun docs now => (fst <$> held docs now (_session_key email), docs)))
              (fun _ => mraise unavailable) ;;
  match raw with
  | None => mreturn None
  | Some j => s <- from_outcome (session_of j) ;; mreturn (Some s)
  end.

Definition save_session (email : string) (s : OnboardingSession) : signup unit :=
  mtry (command (fun docs now =>
          (tt, set_ex docs now (_session_key email) (document_of s) ONBOARDING_SESSION_TTL_SECONDS)))
       (fun _ => mraise unavailable).

Definition delete_session (email : string) : signup unit :=
  mtry (command (fun docs now => (tt, del docs now (_session_key email)))) (fun _ => mreturn tt).

(** [limit_credential_attempt] *)
Definition limit (who : Caller) (scope email : string) : signup unit := fun g =>
  let (v, counters) := limit_credential_attempt limits (ca_limiter_up who) (sg_counters g) (redis_now g)
                         (ca_ip who) scope (Some email) in
  let g' := g <| sg_counters := counters |> in
  match v with
  | Pass => (Ok tt, g')
  | Wait _ => (Raise (HTTPException 429 "Too many attempts. Please wait and try again."), g')
  end.

Definition bad_request {A} (detail : string) : signup A := mraise (HTTPException 400 detail).

Definition users_with (email : string) (db : DB) : Z :=
  Z.of_nat (length (select (fun _ u => bool_decide (usr_email u = email)) (t_users db))).

Definition organizations_with (email : string) (db : DB) : Z :=
  Z.of_nat (length (select (fun _ o => bool_decide (org_row_email o = email)) (t_organizations db))).

(** ** Steps *)
Definition check_email_availability (email : string) : signup (bool * string) :=
  user_count <- lift (query (users_with email)) ;;
  if 0 <? user_count then mreturn (false, "This email is already registered. Please login instead.")
  else
    org_count <- lift (query (organizations_with email)) ;;
    if 0 <? org_count then mreturn (false, "This email is already associated with an organization.")
    else mreturn (true, "Email is available for registration.").

(** [code] is what [generate_verification_code] drew. *)
Definition send_verification_code (who : Caller) (email code : string) : signup string :=
  limit who "onboarding-send" email ;;;
  user_count <- lift (query (users_with email)) ;;
  if 0 <? user_count then bad_request "Email is already registered"
  else
    now <- lift utcnow ;;
    save_session email (mkOnboarding code (now + timedelta_minutes 15) "verification_sent" false None) ;;;
    mreturn (if debug then "Verification code sent to " +:+ email +:+ ". [DEV: " +:+ code +:+ "]"
             else "Verification code sent to " +:+ email +:+ ". Please check your inbox.").

Definition verify_code (who : Caller) (email code : string) : signup unit :=
  limit who "onboarding-verify" email ;;;
  session <- load_session email ;;
  match session with
  | None => bad_request "No verification code found. Please request a new code."
  | Some s =>
      now <- lift utcnow ;;
      if os_expires_at s <? now then
        delete_session email ;;;
        bad_request "Verification code has expired. Please request a new code."
      else if negb (bool_decide (os_verification_code s = code)) then bad_request "Invalid verification code."
      else save_session email (s <| os_verified := true |> <| os_step := "email_verified" |>)
  end.

Definition submit_business_details (email : string) (b : Business) : signup unit :=
  session <- load_session email ;;
  match session with
  | None => bad_request "Please start the registration process from the beginning."
  | Some s =>
      if negb (os_verified s) then bad_request "Please verify your email first."
      else save_session email (s <| os_business_details := Some b |> <| os_step := "business_details" |>)
  end.

Definition resend_verification_code (who : Caller) (email code : string) : signup string :=
  limit who "onboarding-send" email ;;;
  session <- load_session email ;;
  match session with
  | None => bad_request "Please start the registration process from the beginning."
  | Some s =>
      now <- lift utcnow ;;
      save_session email (s <| os_verification_code := code |> <| os_expires_at := now + timedelta_minutes 15 |>) ;;;
      mreturn (if debug then "New verification code sent to " +:+ email +:+ ". [DEV: " +:+ code +:+ "]"
               else "New verification code sent to " +:+ email +:+ ".")
  end.

Definition get_onboarding_status (email : string) : signup (string * option string * option string) :=
  session <- load_session email ;;
  match session with
  | None => mraise (HTTPException 404 "No onboarding session found for this email.")
  | Some s =>
      mreturn (os_step s, bd_name <$> os_business_details s,
               (fun b => type_value (bd_type b)) <$> os_business_details s)
  end.

(** ** The last step *)

(** [c.isalnum()] of a character of seven bits *)
Definition is_alnum (c : ascii) : bool :=
  let n := Z.of_nat (Ascii.nat_of_ascii c) in
  (48 <=? n) && (n <=? 57) || (65 <=? n) && (n <=? 90) || (97 <=? n) && (n <=? 122).

Fixpoint keep_chars (p : ascii -> bool) (s : string) : string :=
  match s with
  | EmptyString => ""
  | String c s' => if p c then String c (keep_chars p s') else keep_chars p s'
  end.

Definition base_slug (name : string) : string :=
  keep_chars (fun c => is_alnum c || bool_decide (c = "-"%char))
    (string_map (fun c => if bool_decide (c = " "%char) then "-"%char else c) (lower name)).

Definition numbered_slug (base : string) (counter : Z) : string := base +:+ "-" +:+ str_of_Z counter.

Definition new_organization (uuid slug email : string) (b : Business) (trial_ends_at : datetime) : OrganizationRow :=
  mkOrgRow uuid None (bd_name b) slug TRIAL email (Some (bd_phone b)) None None None (bd_city b)
    (Some trial_ends_at) None None.

Definition default_terms (b : Business) : OrganizationTerms := mkTerms (bd_type b) (bd_country b) 5 50 3.

Definition admin_user (org : Z) (email first last hash : string) : User :=
  mkUser (Some org) (fst (split_once "@" email)) email None first last hash ISP_ADMIN U_ACTIVE true false
    None None None None.

Definition subscribed_sms : string :=
  "Hello @username! You've successfully subscribed to @package_name. Username: @username, Password: @password, Expires: @expiry_date. Thank you!".
Definition expired_sms : string :=
  "Hello @username! Your @package_name subscription expired on @expiry_date. Renew now to continue enjoying our services.".
Definition expiring_sms : string :=
  "Hello @username! Your @package_name subscription expires in @days_left days on @expiry_date. Renew now to avoid interruption.".

Definition default_messages : OrganizationMessages :=
  mkMessages true true (Some subscribed_sms) true (Some subscribed_sms) true (Some expired_sms) true (Some expired_sms)
    true (Some expiring_sms) true (Some expiring_sms) false.

(** What is added: the organization, its administrator, its settings. *)
Definition add_organization (org : Z) (o : OrganizationRow) (t : OrganizationTerms) (db : DB) : DB :=
  db <| t_organizations ::= insert org o |> <| t_org_terms ::= insert org t |>
     <| t_org_timezones ::= insert org "Africa/Nairobi" |>.

Definition add_admin (user : Z) (u : User) (verified_at : datetime) (db : DB) : DB :=
  db <| t_users ::= insert user u |> <| t_emails_verified ::= insert user verified_at |>.

Definition add_settings (org : Z) (db : DB) : DB :=
  db <| t_settings ::= insert org (mkOrgSettings (Some 14) (Some 14) "C" 1) |>
     <| t_portal_pages ::= insert org (mkPortalPage "Aurora" "https://www.google.com" 60) |>
     <| t_remote_access ::= insert org (mkRemote (Some 51000) (Some 59999) (Some "vpn.codevertexafrica.com")) |>
     <| t_org_messages ::= insert org default_messages |>.

(** The search for a slug ends: it has one more candidate than there are slugs. *)
Definition register (email first last password uuid : string) (b : Business) : run unit :=
  let base := base_slug (bd_name b) in
  used <- query slugs ;;
  match free_name used (numbered_slug base) base 1 (S (length used)) with
  | None => mraise (RuntimeError "no free slug")
  | Some slug =>
      now <- utcnow ;;
      org <- query (fun db => next_id (t_organizations db)) ;;
      assign (add_organization org (new_organization uuid slug email b (now + timedelta_days default_trial_days))
                (default_terms b)) ;;;
      flush ;;;
      hash <- Pppoe.lift (get_password_hash password gensalt) ;;
      user <- query (fun db => next_id (t_users db)) ;;
      assign (add_admin user (admin_user org email first last hash) now) ;;;
      flush ;;;
      assign (add_settings org) ;;;
      commit
  end.

(** The answer is built from a name the function does not define. *)
Definition complete_registration (email first last password uuid : string) : signup unit :=
  session <- load_session email ;;
  match session with
  | None => bad_request "Please start the registration process from the beginning."
  | Some s =>
      if negb (os_verified s) then bad_request "Please verify your email first."
      else
        match os_business_details s with
        | None => bad_request "Please submit business details first."
        | Some b =>
            lift (register email first last password uuid b) ;;;
            delete_session email ;;;
            mraise (NameError "trial_days")
        end
  end.

(** ** Requests *)
Inductive SignupRequest : Type :=
  | CheckEmail (email : string)
  | SendVerification (email code : string)
  | VerifyCode (email code : string)
  | BusinessDetails (email : string) (b : Business)
  | SecuritySetup (email first last password uuid : string)
  | OnboardingStatus (email : string)
  | ResendCode (email code : string).

Definition discard {A} (m : signup A) : signup unit := m ;;; mreturn tt.

Definition serve (who : Caller) (q : SignupRequest) : signup unit :=
  match q with
  | CheckEmail e => discard (check_email_availability e)
  | SendVerification e c => discard (send_verification_code who e c)
  | VerifyCode e c => verify_code who e c
  | BusinessDetails e b => submit_business_details e b
  | SecuritySetup e f l p u => complete_registration e f l p u
  | OnboardingStatus e => discard (get_onboarding_status e)
  | ResendCode e c => discard (resend_verification_code who e c)
  end.
End Endpoints.
