(* ===== verification/OnboardingFacts.v ===== *)
(** * Sign-up of providers: who may register *)

From S2P Require Import Prelude PyString Numerics Calendar Timestamps Models Session Passwords WireGuard Identity IdentityFacts RateLimit Onboarding.
Open Scope Z_scope.

(** ** Sessions and their documents *)
Lemma type_round_trip t : type_of_value (type_value t) = Ok t.
Proof. by destruct t. Qed.

(** What is stored is what is loaded. *)
Lemma session_round_trip s : 0 <= os_expires_at s < max_instant -> session_of (document_of s) = Ok s.
Proof.
  intros Hs. unfold session_of, document_of. simpl. rewrite isoformat_round_trip by done.
  destruct s as [c e st v [[n t p co ci]|]]; simpl; [|done]. unfold business_of. simpl. by rewrite type_round_trip.
Qed.

(** The slug search *)
Lemma slug_found name used :
  exists slug, free_name used (numbered_slug (base_slug name)) (base_slug name) 1 (S (length used)) = Some slug /\
               slug ∉ used.
Proof.
  apply free_name_found.
  - intros j Hj E. apply (f_equal String.length) in E. unfold numbered_slug in E.
    rewrite !string_length_app in E. simpl in E. lia.
  - intros i j Hi Hj E%string_app_inj. injection E as E. apply str_of_Z_inj in E; lia.
Qed.

(** ** Histories *)
Section Histories.
Context {be : Backend} {ros : RouterOS} {redis : Redis} {documents : RedisDocuments} {bc : Bcrypt} {env : SignupEnv}.

Record BackendState : Type := mkState {
  bs_db : DB;
  bs_counters : Store;
  bs_docs : Docs
}.

Definition opened (now : datetime) (fates : list Fate) (faults : list bool) (dev : Dev) (st : BackendState) : Signup :=
  mkSignup ((start now (bs_db st) dev) <| w_faults := faults |>) (bs_counters st) (bs_docs st) fates.

Definition closed_state (g : Signup) : BackendState := mkState (w_durable (sg_world g)) (sg_counters g) (sg_docs g).

Definition served (now : datetime) (who : Caller) (q : SignupRequest) (fates : list Fate) (faults : list bool)
    (dev : Dev) (st : BackendState) : BackendState :=
  closed_state (snd (serve who q (opened now fates faults dev st))).

Definition ms (t : datetime) : Z := t / 1000.

Definition clock_ok (now : datetime) : Prop := 0 <= now /\ now + timedelta_minutes 15 < max_instant.

(** The requests of a history with their times, from a server without sign-ups;
    between them the rest of the backend changes tables and counters at will. *)
Inductive history : datetime -> list (datetime * SignupRequest) -> BackendState -> Prop :=
  | history_start now st : (forall k, held (bs_docs st) (ms now) k = None) -> history now [] st
  | history_request t l st now who q fates faults dev :
      history t l st -> t <= now -> clock_ok now ->
      history now (l ++ [(now, q)]) (served now who q fates faults dev st)
  | history_elsewhere t l st db counters :
      history t l st -> history t l (mkState db counters (bs_docs st)).

(** A request that issues a code for a key, and one that presents it *)
Definition issues (q : SignupRequest) (key code : string) : Prop :=
  match q with
  | SendVerification e c | ResendCode e c => _session_key e = key /\ c = code
  | _ => False
  end.

Definition presents (q : SignupRequest) (key code : string) : Prop :=
  match q with VerifyCode e c => _session_key e = key /\ c = code | _ => False end.

(** A code was issued for the key and presented within a quarter of an hour. *)
Definition confirmed (l : list (datetime * SignupRequest)) (key : string) : Prop :=
  exists l1 l2 l3 t1 t2 q1 q2 code,
    l = l1 ++ (t1, q1) :: l2 ++ (t2, q2) :: l3 /\ issues q1 key code /\ presents q2 key code /\
    t2 <= t1 + timedelta_minutes 15.

(** The code of a session was issued, with its time; a verified session was confirmed. *)
Definition accounted (l : list (datetime * SignupRequest)) (key : string) (s : OnboardingSession) : Prop :=
  (exists l1 l2 t q, l = l1 ++ (t, q) :: l2 /\ issues q key (os_verification_code s) /\ clock_ok t /\
     os_expires_at s = t + timedelta_minutes 15) /\
  (os_verified s = true -> confirmed l key).

Lemma confirmed_app l l' key : confirmed l key -> confirmed (l ++ l') key.
Proof.
  intros (l1 & l2 & l3 & t1 & t2 & q1 & q2 & c & -> & H). exists l1, l2, (l3 ++ l'), t1, t2, q1, q2, c.
  split; [|done]. rewrite <- app_assoc. simpl. by rewrite <- app_assoc.
Qed.

Lemma accounted_app l l' key s : accounted l key s -> accounted (l ++ l') key s.
Proof.
  intros [(l1 & l2 & t & q & -> & H) Hv]. split; [|intros E; by apply confirmed_app, Hv].
  exists l1, (l2 ++ l'), t, q. split; [|done]. by rewrite <- app_assoc.
Qed.

Lemma accounted_expires l key s : accounted l key s -> 0 <= os_expires_at s < max_instant.
Proof.
  intros [(l1 & l2 & t & q & _ & _ & [H1 H2] & ->) _]. unfold timedelta_minutes, usec_per_second in *. lia.
Qed.

(** Every document of the server is accounted for. *)
Definition docs_accounted (l : list (datetime * SignupRequest)) (docs : Docs) (now : Z) : Prop :=
  forall key j e, held docs now key = Some (j, e) -> exists s, j = document_of s /\ accounted l key s.

(** In a request at [w_now], with the world unchanged *)
Definition in_order (w : World) (l : list (datetime * SignupRequest)) (g : Signup) : Prop :=
  sg_world g = w /\ docs_accounted l (sg_docs g) (redis_now g).

Lemma docs_set l docs now key s :
  docs_accounted l docs now -> accounted l key s ->
  docs_accounted l (set_ex docs now key (document_of s) ONBOARDING_SESSION_TTL_SECONDS) now.
Proof.
  intros Hd Hs k j e. destruct (decide (k = key)) as [->|Hk].
  - rewrite held_set by done. intros [= <- <-]. by exists s.
  - rewrite held_set_other by done. apply Hd.
Qed.

Lemma docs_del l docs now key : docs_accounted l docs now -> docs_accounted l (del docs now key) now.
Proof.
  intros Hd k j e. destruct (decide (k = key)) as [->|Hk]; [by rewrite held_del|].
  rewrite held_del_other by done. apply Hd.
Qed.

(** ** The operations on documents *)
Lemma command_in_order {A} w l (f : Docs -> Z -> A * Docs) :
  (forall docs now, docs_accounted l docs now -> docs_accounted l (snd (f docs now)) now) ->
  preserves (in_order w l) (command f).
Proof.
  intros Hf g [Hw Hd]. unfold command. specialize (Hf _ _ Hd).
  destruct (f (sg_docs g) (redis_now g)) as [a docs]. simpl in Hf.
  destruct (sg_fates g) as [|[] fs]; by split.
Qed.

Lemma save_in_order w l email s :
  accounted l (_session_key email) s -> preserves (in_order w l) (save_session email s).
Proof.
  intros Hs. apply preserves_try; [|intros e; apply preserves_raise].
  apply command_in_order. intros docs now Hd. by apply docs_set.
Qed.

Lemma delete_in_order w l email : preserves (in_order w l) (delete_session email).
Proof.
  apply preserves_try; [|intros e; apply preserves_return].
  apply command_in_order. intros docs now Hd. by apply docs_del.
Qed.

Lemma load_in_order w l email :
  triple (in_order w l) (load_session email)
    (fun o g => in_order w l g /\ match o with Some s => accounted l (_session_key email) s | None => True end)
    (in_order w l).
Proof.
  intros g [Hw Hd]. unfold load_session, mtry, command, mthen, from_outcome.
  assert (Hfs : forall fs, in_order w l (g <| sg_fates := fs |>)) by by split.
  destruct (held (sg_docs g) (redis_now g) (_session_key email)) as [[j e]|] eqn:Eh.
  - destruct (Hd _ _ _ Eh) as [s [-> Hs]]. pose proof (session_round_trip s (accounted_expires _ _ _ Hs)) as E.
    destruct (sg_fates g) as [|[] fs]; cbn -[session_of document_of]; rewrite ?E; by split.
  - destruct (sg_fates g) as [|[] fs]; simpl; by split.
Qed.

(** ** Handlers *)
Lemma load_then {A} w l email (k : option OnboardingSession -> signup A) :
  preserves (in_order w l) (k None) ->
  (forall s, accounted l (_session_key email) s -> preserves (in_order w l) (k (Some s))) ->
  preserves (in_order w l) (mthen (load_session email) k).
Proof.
  intros Hn Hs g Hg. pose proof (load_in_order w l email g Hg) as H. unfold mthen.
  destruct (load_session email g) as [[[o|]|e] g']; [destruct H as [H1 H2]; by apply (Hs o)|by apply Hn, H|exact H].
Qed.

Lemma query_in_order {A} w l (f : DB -> A) : preserves (in_order w l) (lift (query f)).
Proof.
  intros g [Hw Hd]. unfold lift, query. destruct (w_broken (sg_world g)); by split.
Qed.

Lemma limit_in_order w l who scope email : preserves (in_order w l) (limit who scope email).
Proof.
  intros g [Hw Hd]. unfold limit. destruct (limit_credential_attempt _ _ _ _ _ _ _) as [[|r] counters]; by split.
Qed.

Lemma utcnow_then {A} w l (k : datetime -> signup A) :
  preserves (in_order w l) (k (w_now w)) -> preserves (in_order w l) (mthen (lift utcnow) k).
Proof.
  intros Hk [w' c d f] [Hw Hd]. simpl in Hw. subst w'. exact (Hk (mkSignup w c d f) (conj eq_refl Hd)).
Qed.

Lemma discard_in_order {A} w l (m : signup A) : preserves (in_order w l) m -> preserves (in_order w l) (discard m).
Proof. intros Hm. apply preserves_then; [exact Hm|]. intros a. apply preserves_return. Qed.

Lemma issued_now l now q key s :
  clock_ok now -> issues q key (os_verification_code s) -> os_expires_at s = now + timedelta_minutes 15 ->
  (os_verified s = true -> confirmed l key) -> accounted (l ++ [(now, q)]) key s.
Proof.
  intros Hc Hi He Hv. split; [by exists l, [], now, q|]. intros E. by apply confirmed_app, Hv.
Qed.

(** A code issued in the history of a request was issued before it when the
    request issues none. *)
Lemma issued_before (l l1 l2 : list (datetime * SignupRequest)) now t q q' key code :
  l ++ [(now, q)] = l1 ++ (t, q') :: l2 -> issues q' key code -> ~ issues q key code ->
  exists l2', l = l1 ++ (t, q') :: l2' /\ l2 = l2' ++ [(now, q)].
Proof.
  intros E Hi Hn. destruct l2 as [|x l2 _] using rev_ind.
  - apply app_inj_tail in E as [_ [= -> ->]]. done.
  - rewrite app_comm_cons, app_assoc in E. apply app_inj_tail in E as [-> <-]. by exists l2.
Qed.

Lemma confirmed_now l now email code s :
  accounted (l ++ [(now, VerifyCode email code)]) (_session_key email) s ->
  os_verification_code s = code -> now <= os_expires_at s ->
  confirmed (l ++ [(now, VerifyCode email code)]) (_session_key email).
Proof.
  intros [(l1 & l2 & t & q & E & Hi & _ & He) _] Hc Ht.
  destruct (issued_before _ _ _ _ _ _ _ _ _ E Hi) as (l2' & -> & ->); [by intros []|].
  exists l1, l2', [], t, now, q, (VerifyCode email code), code. rewrite Hc in Hi.
  rewrite E. split; [done|]. split; [done|]. split; [done|lia].
Qed.

(** No request but the last step touches the world; all keep the documents in order. *)
Lemma serve_in_order w l who q :
  clock_ok (w_now w) -> (forall e f n p u, q <> SecuritySetup e f n p u) ->
  preserves (in_order w (l ++ [(w_now w, q)])) (serve who q).
Proof.
  intros Hc Hq. destruct q as [e|e c|e c|e b|e f n p u|e|e c].
  - apply discard_in_order, preserves_then; [apply query_in_order|]. intros n.
    case_match; [apply preserves_return|]. apply preserves_then; [apply query_in_order|]. intros n'.
    case_match; apply preserves_return.
  - apply discard_in_order, preserves_then; [apply limit_in_order|]. intros _.
    apply preserves_then; [apply query_in_order|]. intros n. case_match; [apply preserves_raise|].
    apply utcnow_then, preserves_then; [|intros _; apply preserves_return].
    apply save_in_order, issued_now; done.
  - apply preserves_then; [apply limit_in_order|]. intros _. apply load_then; [apply preserves_raise|].
    intros s Hs. apply utcnow_then. destruct (Z.ltb_spec (os_expires_at s) (w_now w)) as [Ht|Ht].
    { apply preserves_then; [apply delete_in_order|]. intros _. apply preserves_raise. }
    case_bool_decide as Ec; [|apply preserves_raise]. apply save_in_order.
    split; [exact (proj1 Hs)|]. intros _. by apply (confirmed_now l (w_now w) e c s).
  - apply load_then; [apply preserves_raise|]. intros s Hs. destruct (os_verified s) eqn:Ev; [|apply preserves_raise].
    apply save_in_order. split; [exact (proj1 Hs)|]. intros _. by apply (proj2 Hs).
  - by destruct (Hq e f n p u).
  - apply discard_in_order, load_then; [apply preserves_raise|]. intros s Hs. apply preserves_return.
  - apply discard_in_order, preserves_then; [apply limit_in_order|]. intros _.
    apply load_then; [apply preserves_raise|]. intros s Hs. apply utcnow_then.
    apply preserves_then; [|intros _; apply preserves_return]. apply save_in_order.
    split; [by exists l, [], (w_now w), (ResendCode e c)|]. exact (proj2 Hs).
Qed.

(** ** The last step *)
Definition at_time (n : datetime) (w : World) : Prop := w_now w = n.

Lemma query_at {A} n (f : DB -> A) : preserves (at_time n) (query f).
Proof. intros w Hw. unfold query. by destruct (w_broken w). Qed.

Lemma flush_at n : preserves (at_time n) flush.
Proof. intros w Hw. unfold flush. destruct (w_broken w); [done|]. by destruct (_ || _). Qed.

Lemma register_at n email first last password uuid b : preserves (at_time n) (register email first last password uuid b).
Proof.
  assert (Ha : forall f, preserves (at_time n) (assign f)) by (by intros f w Hw).
  unfold register. apply preserves_then; [apply query_at|]. intros used.
  destruct (free_name _ _ _ _ _) as [slug|]; [|apply preserves_raise].
  apply preserves_then; [by intros w Hw|]. intros now. apply preserves_then; [apply query_at|]. intros org.
  apply preserves_then; [apply Ha|]. intros _. apply preserves_then; [apply flush_at|]. intros _.
  apply preserves_then; [unfold Pppoe.lift; destruct (get_password_hash password gensalt); by intros w Hw|]. intros hash.
  apply preserves_then; [apply query_at|]. intros user. apply preserves_then; [apply Ha|]. intros _.
  apply preserves_then; [apply flush_at|]. intros _. apply preserves_then; [apply Ha|]. intros _.
  apply preserves_then; [apply flush_at|]. intros _. by intros w Hw.
Qed.

(** The world changes only for a confirmed key; the documents stay in order. *)
Lemma complete_in_order w l email first last password uuid g :
  in_order w l g ->
  let g' := snd (complete_registration email first last password uuid g) in
  docs_accounted l (sg_docs g') (w_now w / 1000) /\ (sg_world g' = w \/ confirmed l (_session_key email)).
Proof.
  intros Hg. assert (Hback : forall g', in_order w l g' ->
    docs_accounted l (sg_docs g') (w_now w / 1000) /\ (sg_world g' = w \/ confirmed l (_session_key email))).
  { intros g' [Hw Hd]. unfold redis_now in Hd. rewrite Hw in Hd. split; [exact Hd|by left]. }
  pose proof (load_in_order w l email g Hg) as H. cbv zeta. unfold complete_registration.
  destruct (load_session email g) as [[[s|]|e] g1] eqn:El;
    [rewrite (mthen_ok _ _ _ _ _ El)|rewrite (mthen_ok _ _ _ _ _ El); by apply Hback, H
    |rewrite (mthen_raise _ _ _ _ _ El); by apply Hback].
  destruct H as [H1 [_ Hv]]. destruct (os_verified s) eqn:Ev; [|by apply Hback]. specialize (Hv eq_refl).
  simpl. destruct (os_business_details s) as [b|]; [|by apply Hback].
  split; [|by right]. unfold mthen at 1, lift at 1.
  pose proof (register_at (w_now w) email first last password uuid b (sg_world g1)) as Hn.
  unfold at_time in Hn. rewrite (proj1 H1) in Hn. specialize (Hn eq_refl). rewrite (proj1 H1).
  destruct (register email first last password uuid b w) as [[[]|e] w'] eqn:Er; simpl in Hn.
  - assert (Hd : in_order w' l (g1 <| sg_world := w' |>)).
    { destruct H1 as [Hw1 Hd1]. split; [done|]. unfold redis_now in *. simpl. rewrite Hw1 in Hd1. by rewrite Hn. }
    unfold mthen. pose proof (delete_in_order w' l email _ Hd) as Hdel.
    destruct (delete_session email _) as [[[]|e] g2]; destruct Hdel as [Hw2 Hd2]; simpl in *;
      unfold redis_now in Hd2; by rewrite Hw2, Hn in Hd2.
  - destruct H1 as [Hw1 Hd1]. unfold redis_now in Hd1. simpl. by rewrite Hw1 in Hd1.
Qed.

(** ** Histories keep the documents in order *)
Lemma docs_later l l' docs now t : now <= t -> docs_accounted l docs now -> docs_accounted (l ++ l') docs t.
Proof.
  intros Ht Hd key j e. rewrite (held_later docs now t key Ht).
  destruct (held docs now key) as [[j' e']|] eqn:Eh; [|done]. destruct (t <? e'); [|done]. intros [= <- <-].
  destruct (Hd _ _ _ Eh) as [s [-> Hs]]. exists s. split; [done|by apply accounted_app].
Qed.

Lemma ms_le a b : a <= b -> ms a <= ms b.
Proof. intros H. by apply Z.div_le_mono. Qed.

(** One request, from documents in order *)
Lemma request_step t l st now who q fates faults dev :
  docs_accounted l (bs_docs st) (ms t) -> t <= now -> clock_ok now ->
  let st' := served now who q fates faults dev st in
  docs_accounted (l ++ [(now, q)]) (bs_docs st') (ms now) /\
  (bs_db st' = bs_db st \/
   exists email first last password uuid, q = SecuritySetup email first last password uuid /\
     confirmed l (_session_key email)).
Proof.
  intros Hd Ht Hc. cbv zeta. set (w := (start now (bs_db st) dev) <| w_faults := faults |>).
  assert (Hg : forall l', in_order w (l ++ l') (opened now fates faults dev st)).
  { intros l'. split; [done|]. apply (docs_later l l' _ (ms t)); [by apply ms_le|exact Hd]. }
  assert (Hq : (exists e f n p u, q = SecuritySetup e f n p u) \/ forall e f n p u, q <> SecuritySetup e f n p u).
  { destruct q; try (by right). left. by eexists _, _, _, _, _. }
  unfold served, closed_state. simpl. destruct Hq as [(e & f & n & p & u & ->)|Hq].
  - specialize (Hg []). rewrite app_nil_r in Hg.
    destruct (complete_in_order w l e f n p u _ Hg) as [H1 H2]. split.
    + apply (docs_later l _ _ (ms now)); [lia|exact H1].
    + destruct H2 as [E|H2]; [left|right; by exists e, f, n, p, u]. simpl. by rewrite E.
  - pose proof (serve_in_order w l who q Hc Hq _ (Hg [(now, q)])) as [Hw H]. split.
    + unfold redis_now in H. rewrite Hw in H. exact H.
    + left. by rewrite Hw.
Qed.

Lemma history_accounted t l st : history t l st -> docs_accounted l (bs_docs st) (ms t).
Proof.
  induction 1 as [now st H|t l st now who q fates faults dev Hh IH Ht Hc|t l st db counters Hh IH]; [| |exact IH].
  - intros key j e. by rewrite H.
  - exact (proj1 (request_step t l st now who q fates faults dev IH Ht Hc)).
Qed.

(** C6. Nobody registers an unconfirmed address: whatever requests came before,
    in whatever order, with whatever commands and flushes lost, a request changes
    the database only if it is the last step for an address whose key was sent a
    code that was then presented within a quarter of an hour of its issue. *)
Theorem registration_confirmed t l st now who q fates faults dev :
  history t l st -> t <= now -> clock_ok now ->
  bs_db (served now who q fates faults dev st) <> bs_db st ->
  exists email first last password uuid,
    q = SecuritySetup email first last password uuid /\ confirmed l (_session_key email).
Proof.
  intros Hh Ht Hc Hn.
  destruct (request_step t l st now who q fates faults dev (history_accounted t l st Hh) Ht Hc) as [_ [E|H]];
    [by destruct Hn|exact H].
Qed.

(** ** What the last step writes *)
Definition registered (now : datetime) (uuid email first last hash slug : string) (b : Business) (db : DB) : DB :=
  let org := next_id (t_organizations db) in
  add_settings org
    (add_admin (next_id (t_users db)) (admin_user org email first last hash) now
      (add_organization org
        (new_organization uuid slug email b (now + timedelta_days default_trial_days)) (default_terms b) db)).

Lemma flush_cases w : w_broken w = false ->
  flush w = (Ok tt, w <| w_faults ::= tail |>) \/
  exists w', flush w = (Raise DatabaseError, w') /\ w_durable w' = w_durable w.
Proof.
  intros Hb. unfold flush. rewrite Hb. destruct (_ || _); [right|by left]. by eexists.
Qed.

Lemma register_exact w email first last password uuid b :
  w_broken w = false ->
  (exists slug hash w', register email first last password uuid b w = (Ok tt, w') /\
     slug ∉ slugs (w_view w) /\ get_password_hash password gensalt = Ok hash /\
     w_durable w' = registered (w_now w) uuid email first last hash slug b (w_view w)) \/
  exists e w', register email first last password uuid b w = (Raise e, w') /\ w_durable w' = w_durable w.
Proof.
  intros Hb. unfold register. rewrite (mthen_ok _ _ w (slugs (w_view w)) w) by (unfold query; by rewrite Hb).
  destruct (slug_found (bd_name b) (slugs (w_view w))) as (slug & -> & Hfree).
  rewrite (mthen_ok utcnow _ w (w_now w) w) by done.
  rewrite (mthen_ok _ _ w (next_id (t_organizations (w_view w))) w) by (unfold query; by rewrite Hb).
  set (org := next_id _). set (o := new_organization _ _ _ _ _).
  set (w1 := w <| w_view ::= add_organization org o (default_terms b) |>).
  rewrite (mthen_ok (assign _) _ w tt w1) by done.
  destruct (flush_cases w1 Hb) as [E|(w' & E & Hd)]; [|right; rewrite (mthen_raise _ _ _ _ _ E); by eexists _, _].
  rewrite (mthen_ok _ _ _ _ _ E). clear E. set (w2 := w1 <| w_faults ::= tail |>).
  destruct (get_password_hash password gensalt) as [hash|e] eqn:Eh; [|right; by eexists _, _].
  rewrite (mthen_ok (Pppoe.lift _) _ w2 hash w2) by done.
  rewrite (mthen_ok _ _ w2 (next_id (t_users (w_view w))) w2)
    by (unfold query; change (w_broken w2) with (w_broken w); by rewrite Hb).
  set (w3 := w2 <| w_view ::= add_admin (next_id (t_users (w_view w))) (admin_user org email first last hash) (w_now w) |>).
  rewrite (mthen_ok (assign _) _ w2 tt w3) by done.
  destruct (flush_cases w3 Hb) as [E|(w' & E & Hd)]; [|right; rewrite (mthen_raise _ _ _ _ _ E); by eexists _, _].
  rewrite (mthen_ok _ _ _ _ _ E). clear E. set (w4 := w3 <| w_faults ::= tail |>).
  set (w5 := w4 <| w_view ::= add_settings org |>). rewrite (mthen_ok (assign _) _ w4 tt w5) by done. unfold commit.
  destruct (flush_cases w5 Hb) as [E|(w' & E & Hd)]; [|right; rewrite (mthen_raise _ _ _ _ _ E); by eexists _, _].
  left. rewrite (mthen_ok _ _ _ _ _ E). by exists slug, hash; eexists.
Qed.

Lemma load_cases email g :
  (exists e g', load_session email g = (Raise e, g') /\ sg_world g' = sg_world g) \/
  (exists g', load_session email g = (Ok None, g') /\ sg_world g' = sg_world g) \/
  exists g' j x s, load_session email g = (Ok (Some s), g') /\ sg_world g' = sg_world g /\
    held (sg_docs g) (redis_now g) (_session_key email) = Some (j, x) /\ session_of j = Ok s.
Proof.
  unfold load_session, mtry, command, mthen, from_outcome.
  destruct (held (sg_docs g) (redis_now g) (_session_key email)) as [[j x]|] eqn:Eh.
  - cbn [fst fmap option_fmap option_map]. destruct (sg_fates g) as [|[] fs]; cbn -[session_of];
      try (left; by eexists _, _); destruct (session_of j) as [s|e] eqn:Es;
      try (left; by eexists _, _); right; right; by eexists _, j, x, s.
  - destruct (sg_fates g) as [|[] fs]; simpl; try (left; by eexists _, _); right; left; by eexists.
Qed.
Lemma delete_answers email g :
  exists g', delete_session email g = (Ok tt, g') /\ sg_world g' = sg_world g.
Proof. unfold delete_session, mtry, command. destruct (sg_fates g) as [|[] fs]; by eexists. Qed.

(** C19. Registration is all or nothing, and never answers: the last step always
    ends in an exception; either the database is as it was, or the organization,
    its administrator and its settings are all there, under a slug nobody had,
    for the business of a verified session, and the request still fails, on a
    name the function does not define. *)
Theorem registration_all_or_nothing now who email first last password uuid fates faults dev st :
  let r := serve who (SecuritySetup email first last password uuid) (opened now fates faults dev st) in
  exists e, fst r = Raise e /\
    (bs_db (closed_state (snd r)) = bs_db st \/
     exists j x s b slug hash,
       e = NameError "trial_days" /\
       held (bs_docs st) (ms now) (_session_key email) = Some (j, x) /\ session_of j = Ok s /\
       os_verified s = true /\ os_business_details s = Some b /\
       slug ∉ slugs (bs_db st) /\ get_password_hash password gensalt = Ok hash /\
       bs_db (closed_state (snd r)) = registered now uuid email first last hash slug b (bs_db st)).
Proof.
  cbv zeta. simpl (serve _ _). set (g := opened now fates faults dev st). unfold complete_registration.
  assert (Hu : forall g', sg_world g' = sg_world g -> bs_db (closed_state g') = bs_db st) by (by intros g' E; simpl; rewrite E).
  destruct (load_cases email g) as [(e & g' & El & Hw)|[(g' & El & Hw)|(g' & j & x & s & El & Hw & Hj & Hs)]].
  - rewrite (mthen_raise _ _ _ _ _ El). exists e. split; [done|]. left. by apply Hu.
  - rewrite (mthen_ok _ _ _ _ _ El). eexists. split; [reflexivity|]. left. by apply Hu.
  - rewrite (mthen_ok _ _ _ _ _ El). clear El.
    destruct (os_verified s) eqn:Ev; [|eexists; split; [reflexivity|left; by apply Hu]].
    destruct (os_business_details s) as [b|] eqn:Eb; [|eexists; split; [reflexivity|left; by apply Hu]].
    simpl (negb true). cbv iota.
    destruct (register_exact (sg_world g) email first last password uuid b eq_refl)
      as [(slug & hash & w' & Er & Hslug & Hhash & Hd)|(e & w' & Er & Hd)].
    + rewrite (mthen_ok (lift _) _ g' tt (g' <| sg_world := w' |>)) by (unfold lift; by rewrite Hw, Er).
      destruct (delete_answers email (g' <| sg_world := w' |>)) as (g2 & E2 & Hw2).
      rewrite (mthen_ok _ _ _ _ _ E2). eexists. split; [reflexivity|]. right.
      exists j, x, s, b, slug, hash. unfold mraise, closed_state. simpl. rewrite Hw2. by split_all.
    + rewrite (mthen_raise (lift _) _ g' e (g' <| sg_world := w' |>)) by (unfold lift; by rewrite Hw, Er).
      exists e. split; [done|]. left. exact Hd.
Qed.


(** C30. A saved session is found again by every spelling of its address, exactly
    as it was saved, by every request of the next hour, and by none after. *)
Theorem saved_session_found email email' s g t :
  fst (save_session email s g) = Ok tt -> _session_key email' = _session_key email ->
  0 <= os_expires_at s < max_instant -> w_now (sg_world g) <= t ->
  let later := (snd (save_session email s g)) <| sg_world ::= (fun w => w <| w_now := t |>) |> <| sg_fates := [] |> in
  fst (load_session email' later)
  = Ok (if ms t <? ms (w_now (sg_world g)) + ONBOARDING_SESSION_TTL_SECONDS * 1000 then Some s else None).
Proof.
  intros Hok Hkey He Ht. cbv zeta.
  set (docs := set_ex (sg_docs g) (redis_now g) (_session_key email) (document_of s) ONBOARDING_SESSION_TTL_SECONDS).
  assert (Hd : sg_docs (snd (save_session email s g)) = docs).
  { revert Hok. unfold save_session, mtry, command. destruct (sg_fates g) as [|[] fs]; done. }
  unfold load_session, mtry, command, mthen, from_outcome. cbn [sg_fates over].
  unfold redis_now. simpl. rewrite Hd, Hkey. unfold docs.
  rewrite (held_later _ (redis_now g) (t / 1000)) by (by apply Z.div_le_mono).
  rewrite held_set by done. fold (ms t) (ms (w_now (sg_world g))).
  unfold redis_now. fold (ms (w_now (sg_world g))).
  destruct (ms t <? _); cbn -[session_of document_of]; [|done]. by rewrite session_round_trip.
Qed.
End Histories.

(** ** A server of the documents *)
Notation document_table := (gmap string (SessionDocument * Z)).

Definition table_held (m : document_table) (now : Z) (k : string) : option (SessionDocument * Z) :=
  match m !! k with Some (j, e) => if now <? e then Some (j, e) else None | None => None end.

#[export] Program Instance table_documents : RedisDocuments := {|
  Docs := document_table;
  held := table_held;
  set_ex m now k j ex := <[k := (j, now + ex * 1000)]> m;
  del m now k := delete k m
|}.
Next Obligation.
  intros s now t k Ht. unfold table_held. destruct (s !! k) as [[j e]|]; [|done].
  destruct (Z.ltb_spec now e), (Z.ltb_spec t e); try done; lia.
Qed.
Next Obligation.
  intros s now k j ex Hex. unfold table_held. rewrite lookup_insert_eq. by rewrite (proj2 (Z.ltb_lt _ _)) by lia.
Qed.
Next Obligation. intros s now k j ex k' Hk. unfold table_held. by rewrite lookup_insert_ne. Qed.
Next Obligation. intros s now k. unfold table_held. by rewrite lookup_delete_eq. Qed.
Next Obligation. intros s now k k' Hk. unfold table_held. by rewrite lookup_delete_ne. Qed.

(** ** A sign-up *)
#[local] Existing Instance unreachable_router.

#[local] Instance signup_env : SignupEnv := {|
  default_trial_days := 14;
  debug := false;
  limits := limits_on;
  gensalt := "hashed "
|}.

#[local] Instance signup_bcrypt : Bcrypt := {|
  bcrypt_checkpw plain hashed := Ok (bool_decide (hashed = "hashed " +:+ plain));
  bcrypt_hashpw plain salt := Ok (salt +:+ plain)
|}.

Definition fast_net : Business := mkBusiness "Fast Net!" OT_HYBRID "+254700000001" "Kenya" (Some "Nairobi").
Definition browser : Caller := mkCaller "203.0.113.9" true.
Definition instant (seconds : Z) : datetime := 1738368000000000 + timedelta_seconds seconds.

Definition st_before : BackendState := mkState empty_db (∅ : gmap string (Z * option Z)) (∅ : document_table).

Definition sign_up : list (datetime * SignupRequest) :=
  [(instant 0, SendVerification "noc@fast.ke" "482913"); (instant 60, VerifyCode "NOC@fast.ke" "482913");
   (instant 120, BusinessDetails "noc@fast.ke" fast_net)].

Definition served_all (l : list (datetime * SignupRequest)) (st : BackendState) : BackendState :=
  fold_left (fun st tq => served (ros := unreachable_router) tq.1 browser tq.2 [] [] tt st) l st.

Definition st_signed : BackendState := served_all sign_up st_before.

Definition last_step : SignupRequest := SecuritySetup "noc@fast.ke" "Ada" "Otieno" "correct horse" "6f1c".

Definition st_registered : BackendState := served (ros := unreachable_router) (instant 180) browser last_step [] [] tt st_signed.

Lemma sign_up_history : history (instant 120) sign_up st_signed.
Proof.
  apply (history_request (ros := unreachable_router) (instant 60) (take 2 sign_up) _ (instant 120) browser _ [] [] tt);
    [|discriminate|split; [discriminate|reflexivity]].
  apply (history_request (ros := unreachable_router) (instant 0) (take 1 sign_up) _ (instant 60) browser _ [] [] tt);
    [|discriminate|split; [discriminate|reflexivity]].
  apply (history_request (ros := unreachable_router) (instant 0) [] _ (instant 0) browser _ [] [] tt);
    [|reflexivity|split; [discriminate|reflexivity]].
  by apply history_start.
Qed.

Example registered_slug : org_row_slug <$> t_organizations (bs_db st_registered) !! 1 = Some "fast-net".
Proof. vm_compute. reflexivity. Qed.

Lemma registration_confirmed_witness :
  exists email first last password uuid,
    last_step = SecuritySetup email first last password uuid /\ confirmed sign_up (_session_key email).
Proof.
  apply (registration_confirmed (ros := unreachable_router) (instant 120) sign_up st_signed (instant 180) browser last_step [] [] tt).
  - exact sign_up_history.
  - discriminate.
  - split; [discriminate|reflexivity].
  - intros E.
    assert (H1 : t_organizations (bs_db st_registered) !! 1 <> None) by (vm_compute; discriminate).
    assert (H2 : t_organizations (bs_db st_signed) !! 1 = None) by (vm_compute; reflexivity).
    assert (E' : bs_db st_registered = bs_db st_signed) by exact E.
    rewrite E' in H1. exact (H1 H2).
Defined.

Lemma registration_all_or_nothing_witness :
  exists e, fst (serve browser last_step (opened (ros := unreachable_router) (instant 180) [] [] tt st_signed)) = Raise e.
Proof.
  destruct (registration_all_or_nothing (ros := unreachable_router) (instant 180) browser "noc@fast.ke" "Ada" "Otieno" "correct horse" "6f1c" [] [] tt st_signed)
    as (e & H & _). by exists e.
Defined.

Definition noc_session : OnboardingSession := mkOnboarding "482913" (instant 900) "verification_sent" false None.
Definition noc_signup : Signup := opened (ros := unreachable_router) (instant 0) [Answered] [] tt st_before.

Lemma saved_session_found_witness :
  fst (load_session "NOC@fast.ke " ((snd (save_session "noc@fast.ke" noc_session noc_signup))
        <| sg_world ::= (fun w => w <| w_now := instant 3599 |>) |> <| sg_fates := [] |>)) = Ok (Some noc_session).
Proof.
  apply (saved_session_found (ros := unreachable_router) "noc@fast.ke" "NOC@fast.ke " noc_session noc_signup (instant 3599));
    [reflexivity|reflexivity|split; [discriminate|reflexivity]|discriminate].
Defined.

(** The user name of an administrator is the local part of the address: of two
    providers at [noc@], the second is refused. *)
Definition st_rival : BackendState :=
  served_all [(instant 200, SendVerification "noc@slow.ke" "111222"); (instant 260, VerifyCode "noc@slow.ke" "111222");
              (instant 320, BusinessDetails "noc@slow.ke" fast_net)] st_registered.

Example same_local_part_refused :
  fst (serve browser (SecuritySetup "noc@slow.ke" "Ben" "Kamau" "battery staple" "77aa")
         (opened (ros := unreachable_router) (instant 380) [] [] tt st_rival)) = Raise DatabaseError.
Proof. vm_compute. reflexivity. Qed.
