(* ===== verification/Organizations.v ===== *)
(** * Tenants as the platform's owner administers them

    The endpoints of [src/app/api/v1/platform/organizations.py] that write, and
    [get_organization]. The caller has passed [require_platform_owner]; [owner]
    is its key. *)

From S2P Require Import Prelude PyString Numerics Models Session Plan AgentQueue Portal Passwords Pppoe Events Identity Access.
Open Scope Z_scope.

Record OrganizationCreate : Type := mkOrgCreate {
  oc_name : string;
  oc_slug : string;
  oc_organization_type : OrganizationType;
  oc_email : string;
  oc_phone : option string;
  oc_address : option string;
  oc_city : option string;
  oc_country : string;
  oc_default_currency : string;
  oc_timezone : string;
  oc_notification_email : option string;
  oc_notification_phone : option string;
  oc_trial_days : Z;
  oc_max_routers : Z;
  oc_max_customers : Z;
  oc_max_users : Z
}.

(** [OrganizationUpdate]: a field is absent, null, or a value. *)
Record OrganizationUpdate : Type := mkOrgUpdate {
  ou_name : option (option string);
  ou_email : option (option string);
  ou_phone : option (option string);
  ou_address : option (option string);
  ou_city : option (option string);
  ou_country : option (option string);
  ou_portal_domain : option (option string);
  ou_max_routers : option (option Z);
  ou_max_customers : option (option Z);
  ou_max_users : option (option Z);
  ou_status : option (option OrganizationStatus)
}.

(** A null for a column that takes none *)
Definition null_refused (u : OrganizationUpdate) : bool :=
  is_null (ou_name u) || is_null (ou_email u) || is_null (ou_country u) || is_null (ou_max_routers u)
  || is_null (ou_max_customers u) || is_null (ou_max_users u) || is_null (ou_status u).

Definition patch_organization (u : OrganizationUpdate) (o : OrganizationRow) : OrganizationRow :=
  o <| org_row_name ::= set_column (ou_name u) |>
    <| org_row_email ::= set_column (ou_email u) |>
    <| org_row_phone ::= set_nullable (ou_phone u) |>
    <| org_row_address ::= set_nullable (ou_address u) |>
    <| org_row_city ::= set_nullable (ou_city u) |>
    <| org_row_portal_domain ::= set_nullable (ou_portal_domain u) |>
    <| org_row_status ::= set_column (ou_status u) |>.

Definition patch_terms (u : OrganizationUpdate) (t : OrganizationTerms) : OrganizationTerms :=
  t <| ot_country ::= set_column (ou_country u) |>
    <| ot_max_routers ::= set_column (ou_max_routers u) |>
    <| ot_max_customers ::= set_column (ou_max_customers u) |>
    <| ot_max_users ::= set_column (ou_max_users u) |>.

(** The columns' defaults *)
Definition default_terms : OrganizationTerms := mkTerms OT_HOTSPOT "Kenya" 5 100 5.
Definition default_licence : OrganizationLicence := mkLicence "KES" None false None None None None None None.

(** The texts of the settings of a new tenant; the columns of the WhatsApp texts
    are not modelled. *)
Definition subscribed_sms : string :=
  "Hello @username! You've successfully subscribed to @package_name. Username: @username, Password: @password, Expires: @expiry_date. Thank you!".
Definition expired_sms : string :=
  "Hello @username! Your @package_name subscription expired on @expiry_date. Renew now to continue enjoying our services. Paybill: @paybill, Account: @account_number".
Definition expiring_sms : string :=
  "Hello @username! Your @package_name subscription expires in @days_left days on @expiry_date. Renew now to avoid interruption. Paybill: @paybill, Account: @account_number".

Definition default_messages : OrganizationMessages :=
  mkMessages true true (Some subscribed_sms) true (Some subscribed_sms) true (Some expired_sms) true (Some expired_sms)
    true (Some expiring_sms) true (Some expiring_sms) false.

(** [org.is_trial] and the like read the clock themselves: one instant here. *)
Definition later_of (base : option datetime) (now : datetime) : datetime :=
  let base := default now base in if base <? now then now else base.

Section Administration.
Context {be : Backend} {ros : RouterOS}.
Variable owner : Z.

Definition not_found : exn := HTTPException 404 "Organization not found".

Definition find_organization (id : Z) : run OrganizationRow :=
  organization <- query (fun db => t_organizations db !! id) ;;
  match organization with Some o => mreturn o | None => mraise not_found end.

(** [OrganizationResponse.model_validate(organization)]: the attribute [uuid] is
    a [UUID], the field takes a text. *)
Definition respond : run unit := mraise (ValidationError "uuid: Input should be a valid string").

(** A change of the row; [updated_by] is the caller. *)
Definition write_organization (id : Z) (fo : OrganizationRow -> OrganizationRow)
    (fl : OrganizationLicence -> OrganizationLicence) : run unit :=
  assign (fun db =>
    db <| t_organizations ::= alter fo id |>
       <| t_licences ::= fun m => update_with default_licence (fun l => fl l <| lic_updated_by := Some owner |>) m id |>) ;;;
  commit.

Definition new_row (uuid : string) (now : datetime) (c : OrganizationCreate) : OrganizationRow :=
  mkOrgRow uuid None (oc_name c) (oc_slug c) TRIAL (oc_email c) (oc_phone c) (oc_notification_email c)
    (oc_notification_phone c) (oc_address c) (oc_city c) (Some (now + timedelta_days (oc_trial_days c))) None None.

Definition add_organization (id : Z) (uuid : string) (now : datetime) (c : OrganizationCreate) (db : DB) : DB :=
  db <| t_organizations ::= insert id (new_row uuid now c) |>
     <| t_org_terms ::= insert id (mkTerms (oc_organization_type c) (oc_country c) (oc_max_routers c) (oc_max_customers c) (oc_max_users c)) |>
     <| t_org_timezones ::= insert id (oc_timezone c) |>
     <| t_licences ::= insert id (default_licence <| lic_default_currency := oc_default_currency c |> <| lic_created_by := Some owner |>) |>.

Definition add_settings (id : Z) (db : DB) : DB :=
  db <| t_settings ::= insert id (mkOrgSettings (Some 14) (Some 14) "C" 1) |>
     <| t_portal_pages ::= insert id (mkPortalPage "Aurora" "https://www.google.com" 60) |>
     <| t_remote_access ::= insert id (mkRemote (Some 51000) (Some 59999) (Some "vpn.codevertexafrica.com")) |>
     <| t_org_messages ::= insert id default_messages |>.

Definition create_organization (uuid : string) (c : OrganizationCreate) : run unit :=
  by_slug <- one_org (fun _ o => bool_decide (org_row_slug o = oc_slug c)) ;;
  match by_slug with
  | Some _ => mraise (HTTPException 400 "Organization slug already exists")
  | None =>
      by_email <- one_org (fun _ o => bool_decide (org_row_email o = oc_email c)) ;;
      match by_email with
      | Some _ => mraise (HTTPException 400 "Organization email already exists")
      | None =>
          now <- utcnow ;;
          id <- query (fun db => next_id (t_organizations db)) ;;
          assign (add_organization id uuid now c) ;;;
          commit ;;;
          assign (add_settings id) ;;;
          commit ;;;
          respond
      end
  end.

Definition get_organization (id : Z) : run unit := _ <- find_organization id ;; respond.

Definition update_organization (id : Z) (u : OrganizationUpdate) : run unit :=
  _ <- find_organization id ;;
  refuse_if (fun _ => null_refused u) ;;;
  assign (over t_org_terms (fun m => update_with default_terms (patch_terms u) m id)) ;;;
  write_organization id (patch_organization u) (fun l => l) ;;;
  respond.

Definition suspend_organization (id : Z) (reason : option string) : run unit :=
  _ <- find_organization id ;;
  now <- utcnow ;;
  write_organization id (fun o => o <| org_row_status := O_SUSPENDED |>)
    (fun l => (match truthy_text reason with Some _ => l <| lic_bypass_reason := None |> | None => l end)
              <| lic_suspended_at := Some now |>).

Definition reactivated_status (now : datetime) (o : OrganizationRow) : OrganizationStatus :=
  if is_trial now o then TRIAL else O_ACTIVE.

Definition reactivate_organization (id : Z) : run OrganizationStatus :=
  o <- find_organization id ;;
  now <- utcnow ;;
  write_organization id (fun o => o <| org_row_status := reactivated_status now o |>)
    (fun l => l <| lic_suspended_at := None |> <| lic_grace_period_ends_at := None |>) ;;;
  mreturn (reactivated_status now o).

(** The end that is moved: that of a trial that runs, or that of the subscription. *)
Definition extended (now : datetime) (days : Z) (o : OrganizationRow) : OrganizationRow :=
  let o :=
    if is_trial now o then
      o <| org_row_trial_ends_at := Some (later_of (org_row_trial_ends_at o) now + timedelta_days days) |>
    else
      o <| org_row_subscription_ends_at := Some (later_of (org_row_subscription_ends_at o) now + timedelta_days days) |> in
  if bool_decide (org_row_status o ∈ [O_SUSPENDED; PENDING_PAYMENT]) then
    o <| org_row_status := if negb (is_trial now o) then O_ACTIVE else TRIAL |>
  else o.

Definition extended_licence (o : OrganizationRow) (l : OrganizationLicence) : OrganizationLicence :=
  if bool_decide (org_row_status o ∈ [O_SUSPENDED; PENDING_PAYMENT]) then l <| lic_grace_period_ends_at := None |> else l.

Definition extend_organization_subscription (id days : Z) : run OrganizationStatus :=
  o <- find_organization id ;;
  now <- utcnow ;;
  write_organization id (extended now days) (extended_licence o) ;;;
  mreturn (org_row_status (extended now days o)).

Definition toggle_licence_bypass (id : Z) (enable : bool) (reason : option string) : run (bool * option string) :=
  _ <- find_organization id ;;
  let reason := if enable then reason else None in
  write_organization id (fun o => o)
    (fun l => l <| lic_licence_bypass := enable |> <| lic_bypass_reason := reason |>
                <| lic_bypass_set_by := if enable then Some owner else None |>) ;;;
  mreturn (enable, reason).

Definition activated (now : datetime) (months : Z) (o : OrganizationRow) : OrganizationRow :=
  o <| org_row_status := O_ACTIVE |> <| org_row_subscription_ends_at := Some (now + timedelta_days (30 * months)) |>.

Definition activate_organization (id subscription_months : Z) : run datetime :=
  _ <- find_organization id ;;
  now <- utcnow ;;
  write_organization id (activated now subscription_months)
    (fun l => l <| lic_activated_at := Some now |> <| lic_grace_period_ends_at := None |>) ;;;
  mreturn (now + timedelta_days (30 * subscription_months)).
End Administration.

(** ** What the operations do *)
Section Facts.
Context {be : Backend} {ros : RouterOS}.

Lemma write_cases owner id fo fl w : w_broken w = false ->
  let r := write_organization owner id fo fl w in
  (fst r = Raise DatabaseError /\ w_durable (snd r) = w_durable w) \/
  (fst r = Ok tt /\ t_organizations (w_durable (snd r)) = alter fo id (t_organizations (w_view w))).
Proof.
  intros Hb. cbv zeta. unfold write_organization, commit, flush, assign, mthen, mmodify. simpl. rewrite Hb.
  destruct (_ || _); [by left|by right].
Qed.

(** An operation that finds the row, writes it and answers with a value *)
Lemma administered {A} owner id (fo : datetime -> OrganizationRow -> OrganizationRow) fl (a : datetime -> OrganizationRow -> A)
    now faults dev db o :
  t_organizations db !! id = Some o ->
  let m := o <- find_organization id ;; now <- utcnow ;;
           write_organization owner id (fo now) (fl now o) ;;; mreturn (a now o) in
  let r := m ((start now db dev) <| w_faults := faults |>) in
  (fst r = Raise DatabaseError /\ w_durable (snd r) = db) \/
  (fst r = Ok (a now o) /\ t_organizations (w_durable (snd r)) !! id = Some (fo now o)).
Proof.
  intros Hi. cbv zeta. set (w := (start now db dev) <| w_faults := faults |>).
  rewrite (mthen_ok _ _ w o w) by (unfold find_organization, mthen, query; simpl; by rewrite Hi).
  rewrite (mthen_ok utcnow _ w now w) by done.
  destruct (write_cases owner id (fo now) (fl now o) w eq_refl) as [[Hr Hd]|[Hr Hd]];
    unfold mthen; destruct (write_organization _ _ _ _ w) as [[[]|e] w']; simpl in *; simplify_eq; [by left|right].
  split; [done|]. by rewrite Hd, lookup_alter_eq, Hi.
Qed.

(** Access after an extension, and access that was there before *)
Lemma extended_active now days o t :
  0 <= days -> org_row_status o <> O_INACTIVE ->
  (t < now + timedelta_days days \/ is_subscription_active t o = true) ->
  is_subscription_active t (extended now days o) = true.
Proof.
  intros Hd Hs Ht. destruct o as [u a n slug s e ph ne np ad ci te pd se].
  unfold extended, later_of, is_subscription_active, is_trial, timedelta_days, usec_per_second in *. simpl in *.
  destruct s; try done; simpl in *; destruct te as [te|], se as [se|]; simpl in *;
    repeat match goal with
      | |- context [?x <? ?y] => destruct (Z.ltb_spec x y); simpl in *
      | H : context [?x <? ?y] |- _ => destruct (Z.ltb_spec x y); simpl in *
      end; try done; try lia; destruct Ht; try done; lia.
Qed.

(** C26. An extension by some days gives access for that long, from the moment it
    is made, to every tenant that is not inactive, and takes away no access it
    had; a refused one changes nothing. *)
Theorem extension_gives_access owner id days now faults dev db o :
  t_organizations db !! id = Some o -> org_row_status o <> O_INACTIVE -> 0 <= days ->
  let r := extend_organization_subscription owner id days ((start now db dev) <| w_faults := faults |>) in
  (fst r = Raise DatabaseError /\ w_durable (snd r) = db) \/
  exists s o', fst r = Ok s /\ t_organizations (w_durable (snd r)) !! id = Some o' /\ org_row_status o' = s /\
    (forall t, t < now + timedelta_days days -> is_subscription_active t o' = true) /\
    (forall t, is_subscription_active t o = true -> is_subscription_active t o' = true).
Proof.
  intros Hi Hs Hd.
  destruct (administered owner id (fun now => extended now days) (fun _ => extended_licence)
              (fun now o => org_row_status (extended now days o)) now faults dev db o Hi) as [H|[Hr Ho]]; [by left|right].
  exists (org_row_status (extended now days o)), (extended now days o). split_all; [exact Hr|exact Ho|done|..].
  - intros t Ht. apply extended_active; [done|done|by left].
  - intros t Ht. apply extended_active; [done|done|by right].
Qed.

(** A suspended tenant is never reactivated into its trial, whatever is left of
    it: it becomes active, with the access its paid subscription gives. *)
Theorem reactivation_forgets_trial owner id now faults dev db o :
  t_organizations db !! id = Some o -> org_row_status o = O_SUSPENDED ->
  let r := reactivate_organization owner id ((start now db dev) <| w_faults := faults |>) in
  (fst r = Raise DatabaseError /\ w_durable (snd r) = db) \/
  (fst r = Ok O_ACTIVE /\ exists o', t_organizations (w_durable (snd r)) !! id = Some o' /\
     forall t, is_subscription_active t o' = match org_row_subscription_ends_at o with Some e => t <? e | None => false end).
Proof.
  intros Hi Hs.
  destruct (administered owner id (fun now o => o <| org_row_status := reactivated_status now o |>)
              (fun _ _ l => l <| lic_suspended_at := None |> <| lic_grace_period_ends_at := None |>)
              reactivated_status now faults dev db o Hi) as [H|[Hr Ho]]; [by left|right].
  assert (E : reactivated_status now o = O_ACTIVE) by (unfold reactivated_status, is_trial; by rewrite Hs).
  rewrite E in Hr. split; [exact Hr|]. eexists. split; [exact Ho|]. intros t.
  unfold is_subscription_active, is_trial. simpl. by rewrite E.
Qed.

(** No tenant is ever shown: the creation, the reading and the update end in an
    exception whatever they wrote. *)
Theorem administration_answers_fail owner uuid c id u w :
  (exists e, fst (create_organization owner uuid c w) = Raise e) /\
  (exists e, fst (get_organization id w) = Raise e) /\
  (exists e, fst (update_organization owner id u w) = Raise e).
Proof.
  assert (Hthen : forall A B (m : run A) (k : A -> run B), (forall a w, exists e, fst (k a w) = Raise e) ->
    forall w, exists e, fst (mthen m k w) = Raise e).
  { intros A B m k Hk w'. unfold mthen. destruct (m w') as [[a|e] w2]; [apply Hk|by eexists]. }
  split_all; revert w.
  - apply Hthen. intros [x|] w; [by eexists|]. revert w. apply Hthen. intros [x|] w; [by eexists|]. revert w.
    do 6 (apply Hthen; intros ?). intros w. by eexists.
  - apply Hthen. intros o w. by eexists.
  - do 4 (apply Hthen; intros ?). intros w. by eexists.
Qed.
End Facts.

(** ** Two tenants in their trial *)
#[local] Existing Instance unreachable_router.

Definition trial_tenant (s : OrganizationStatus) : OrganizationRow :=
  mkOrgRow "6f1c" None "Fast Net" "fast-net" s "noc@fast.ke" None None None None None (Some (timedelta_days 14)) None None.

Definition tenant_db (s : OrganizationStatus) : DB := empty_db <| t_organizations := {[1 := trial_tenant s]} |>.

Lemma extension_gives_access_witness :
  exists s o', t_organizations (w_durable (snd (extend_organization_subscription 9 1 30
                 ((start_offline (timedelta_days 3) (tenant_db TRIAL)) <| w_faults := [] |>)))) !! 1 = Some o' /\
    org_row_status o' = s /\ is_subscription_active (timedelta_days 32) o' = true.
Proof.
  destruct (extension_gives_access (ros := unreachable_router) 9 1 30 (timedelta_days 3) [] tt (tenant_db TRIAL) (trial_tenant TRIAL))
    as [[H _]|(s & o' & _ & Ho & Hs & Ht & _)].
  - reflexivity.
  - discriminate.
  - discriminate.
  - vm_compute in H. discriminate.
  - exists s, o'. split; [exact Ho|]. split; [exact Hs|]. apply Ht. reflexivity.
Defined.

Example suspended_in_trial_locked_out :
  let w := snd (reactivate_organization 9 1 (start_offline (timedelta_days 3) (tenant_db O_SUSPENDED))) in
  is_subscription_active (timedelta_days 3) <$> t_organizations (w_durable w) !! 1 = Some false.
Proof. vm_compute. reflexivity. Qed.
