(* ===== verification/Accounts.v ===== *)
(** * Accounts: signing in and administration

    [UserService] ([app/modules/auth/users.py]) with the endpoints of
    [app/api/v1/users/users.py], and the local sign-in of [AuthService]
    ([app/modules/auth/service.py]) with its endpoints
    ([app/api/v1/auth/auth.py]); what users without privileges can change, and
    what a sign-in does. *)

From S2P Require Import Prelude PyString Numerics Models Onboarding Session Plan AgentQueue Vouchers Bridge BridgeFacts Portal PortalFacts Passwords Pppoe PppoeFacts Events Identity IdentityFacts Access AccessFacts.
Open Scope Z_scope.

Class Signer := {
  (** [jwt.encode] of claims that expire after some seconds *)
  jwt_encode : LocalClaims -> Z -> string;
  (** [settings.access_token_expire_minutes] and [settings.refresh_token_expire_days] *)
  access_token_expire_minutes : Z;
  refresh_token_expire_days : Z
}.

(** [UserUpdate]: a field is absent, null, or a value. *)
Record UserUpdate : Type := mkUserUpdate {
  uu_first_name : option (option string);
  uu_last_name : option (option string);
  uu_phone : option (option string);
  uu_bio : option (option string);
  uu_avatar_url : option (option string)
}.

(** [s.lstrip("0")] *)
Fixpoint lstrip_zeros (s : string) : string :=
  match s with String "0" s' => lstrip_zeros s' | _ => s end.

(** [validate_phone]: a number without a country code is one of Kenya. *)
Definition validate_phone (v : string) : string :=
  if bool_decide (v = "") || String.prefix "+" v then v else "+254" +:+ lstrip_zeros v.

Definition patch_user (u : UserUpdate) (x : User) : User :=
  x <| usr_first_name ::= set_column (uu_first_name u) |>
    <| usr_last_name ::= set_column (uu_last_name u) |>
    <| usr_phone ::= set_nullable (option_map (option_map validate_phone) (uu_phone u)) |>.

Definition no_profile : UserProfile := mkUserProfile None None.

Definition patch_profile (u : UserUpdate) (p : UserProfile) : UserProfile :=
  mkUserProfile (set_nullable (uu_bio u) (up_bio p)) (set_nullable (uu_avatar_url u) (up_avatar_url p)).

(** A null for one of the names, which take none *)
Definition name_nulled (u : UserUpdate) : bool := is_null (uu_first_name u) || is_null (uu_last_name u).

(** The tokens of a sign-in and the lifetime announced with them *)
Record TokenPair : Type := mkTokenPair {
  tp_access_token : string;
  tp_refresh_token : string;
  tp_expires_in : Z
}.

(** ** The answer: [UserSchema.model_validate(user)] *)
Definition text_between (least most : nat) (s : string) : bool :=
  Nat.leb least (String.length s) && Nat.leb (String.length s) most.

(** A final line break is skipped by the [$] of a pattern. *)
Fixpoint without_final_newline (s : string) : string :=
  match s with
  | EmptyString => EmptyString
  | String c EmptyString => if bool_decide (c = "010"%char) then EmptyString else s
  | String c s' => String c (without_final_newline s')
  end.

Definition some_chars (p : ascii -> bool) (s : string) : bool := negb (bool_decide (s = "")) && all_chars p s.
Definition one_of (l : list ascii) (c : ascii) : bool := is_alnum c || bool_decide (c ∈ l).

(** [^[a-zA-Z0-9_.+-]+@[a-zA-Z0-9-]+\.[a-zA-Z0-9-.]+$]: the first at sign ends
    the local part, the first dot after it the label. *)
Definition email_pattern (v : string) : bool :=
  match split_once "@" v with
  | (local, Some domain) =>
      match split_once "." domain with
      | (label, Some rest) =>
          some_chars (one_of ["_"; "."; "+"; "-"]%char) local && some_chars (one_of ["-"%char]) label
          && some_chars (one_of ["-"; "."]%char) (without_final_newline rest)
      | (_, None) => false
      end
  | (_, None) => false
  end.

Definition user_schema_ok (x : User) : bool :=
  text_between 3 50 (usr_username x) && text_between 3 255 (usr_email x) && email_pattern (usr_email x)
  && match usr_phone x with Some v => Nat.leb (String.length v) 20 | None => true end
  && text_between 1 50 (usr_first_name x) && text_between 1 50 (usr_last_name x).

#[export] Instance LocalClaims_eta : Eta LocalClaims :=
  fun r => mkLocalClaims (lc_type r) (lc_sub r) (lc_username r) (lc_role r) (lc_organization_id r).

Section Accounts.
Context {be : Backend} {ros : RouterOS} {rbac : RbacRoles} {tok : Tokens} {cfg : AgentConfig} {env : PortalEnv} {signer : Signer} {bc : Bcrypt}.

(** ** Tokens ([app/core/security.py]) *)
Definition user_claims (user_id : Z) (username role : string) (organization_id : option Z) : LocalClaims :=
  mkLocalClaims None (Some (str_of_Z user_id)) (Some username) (Some role) organization_id.

Definition create_access_token (data : LocalClaims) (lifetime : option Z) : string :=
  jwt_encode (data <| lc_type := Some "access" |>) (default (access_token_expire_minutes * 60) lifetime).

Definition create_refresh_token (data : LocalClaims) : string :=
  jwt_encode (data <| lc_type := Some "refresh" |>) (refresh_token_expire_days * 86400).

(** ** [UserService] *)
Definition write_user (id : Z) (f : User -> User) : run bool :=
  user <- get_user_by_id id ;;
  match user with
  | None => mreturn false
  | Some _ => set_user id f ;;; commit ;;; mreturn true
  end.

Definition update_user (id : Z) (u : UserUpdate) : run bool :=
  user <- get_user_by_id id ;;
  match user with
  | None => mreturn false
  | Some _ =>
      refuse_if (fun _ => name_nulled u) ;;;
      set_user id (patch_user u) ;;;
      assign (over t_profiles (fun m => update_with no_profile (patch_profile u) m id)) ;;;
      commit ;;;
      mreturn true
  end.

Definition update_user_status (id : Z) (s : UserStatus) : run bool := write_user id (fun x => x <| usr_status := s |>).
Definition update_user_role (id : Z) (r : UserRole) : run bool := write_user id (fun x => x <| usr_role := r |>).
Definition deactivate_user (id : Z) : run bool :=
  write_user id (fun x => x <| usr_is_active := false |> <| usr_status := U_INACTIVE |>).
Definition activate_user (id : Z) : run bool :=
  write_user id (fun x => x <| usr_is_active := true |> <| usr_status := U_ACTIVE |>).
(** A deleted user is deactivated. *)
Definition delete_user (id : Z) : run bool := deactivate_user id.

(** ** The endpoints of users *)
Definition user_not_found : exn := HTTPException 404 "User not found".

Definition found (m : run bool) : run unit := ok <- m ;; if ok : bool then mreturn tt else mraise user_not_found.

Definition model_validate (x : User) : run unit :=
  if user_schema_ok x then mreturn tt else mraise (ValidationError "UserSchema").

(** The changed row is the answer. *)
Definition shown (id : Z) (m : run bool) : run unit :=
  found m ;;;
  user <- query (fun db => t_users db !! id) ;;
  match user with Some x => model_validate x | None => mreturn tt end.

Definition admin_set_password (caller : User) (id : Z) (new_password salt : string) : run unit :=
  user <- get_user_by_id id ;;
  match user with
  | None => mraise user_not_found
  | Some (_, x) =>
      if bool_decide (usr_role x = PLATFORM_OWNER) && negb (bool_decide (usr_role caller = PLATFORM_OWNER)) then
        mraise (HTTPException 403 "Cannot change platform owner password")
      else
        hash <- lift (get_password_hash new_password salt) ;;
        set_user id (fun x => x <| usr_hashed_password := hash |>) ;;;
        commit
  end.

(** A token of a year for the user; its claim [token_purpose] is read nowhere. *)
Definition generate_api_token (id : Z) : run string :=
  user <- get_user_by_id id ;;
  match user with
  | None => mraise user_not_found
  | Some (i, x) =>
      mreturn (create_access_token (user_claims i (usr_username x) (role_value (usr_role x)) (usr_organization_id x))
                 (Some (365 * 86400)))
  end.

Inductive AccountRequest : Type :=
  | UpdateMe (u : UserUpdate)
  | UpdateUser (id : Z) (u : UserUpdate)
  | SetStatus (id : Z) (s : UserStatus)
  | SetRole (id : Z) (r : UserRole)
  | ActivateUser (id : Z)
  | DeactivateUser (id : Z)
  | DeleteUser (id : Z)
  | SetPassword (id : Z) (new_password salt : string)
  | GenerateApiToken (id : Z).

(** The token of the answer, where there is one *)
Definition serve (rq : Request) (random : string) (q : AccountRequest) : run (option string) :=
  match q with
  | UpdateMe u => caller <- get_current_user rq random ;; shown caller.1 (update_user caller.1 u) ;;; mreturn None
  | UpdateUser id u => _ <- require_admin rq random ;; shown id (update_user id u) ;;; mreturn None
  | SetStatus id s => _ <- require_admin rq random ;; shown id (update_user_status id s) ;;; mreturn None
  | SetRole id r => _ <- require_admin rq random ;; shown id (update_user_role id r) ;;; mreturn None
  | ActivateUser id => _ <- require_admin rq random ;; shown id (activate_user id) ;;; mreturn None
  | DeactivateUser id => _ <- require_admin rq random ;; shown id (deactivate_user id) ;;; mreturn None
  | DeleteUser id => _ <- require_admin rq random ;; found (delete_user id) ;;; mreturn None
  | SetPassword id p salt => caller <- require_admin rq random ;; admin_set_password caller.2 id p salt ;;; mreturn None
  | GenerateApiToken id => _ <- require_admin rq random ;; token <- generate_api_token id ;; mreturn (Some token)
  end.

(** ** Signing in *)
(** The endpoints announce thirty minutes whatever the settings say. *)
Definition create_token_pair (user_id : Z) (username role : string) : TokenPair :=
  let data := user_claims user_id username role None in
  mkTokenPair (create_access_token data None) (create_refresh_token data) (30 * 60).

Definition named (name : string) (x : User) : bool :=
  (bool_decide (usr_email x = name) || bool_decide (usr_username x = name)) && usr_is_active x.

Definition seen (now : datetime) (x : User) : User := x <| usr_last_login := Some now |>.

(** Any error is a failed sign-in. *)
Definition authenticate_user (username_or_email password : string) : run (option (Z * User)) :=
  mtry
    (user <- one_user (named username_or_email) ;;
     match user with
     | None => mreturn None
     | Some (i, x) =>
         if negb (verify_password password (usr_hashed_password x)) then mreturn None
         else
           now <- utcnow ;;
           set_user i (seen now) ;;;
           commit ;;;
           mreturn (Some (i, x))
     end)
    (fun _ => mreturn None).

Definition update_last_login (id : Z) : run unit :=
  mtry
    (user <- query (fun db => t_users db !! id) ;;
     match user with
     | None => mreturn tt
     | Some _ => now <- utcnow ;; set_user id (seen now) ;;; commit
     end)
    (fun _ => mreturn tt).

Definition incorrect : exn := HTTPException 401 "Incorrect username or password".

Definition login (username password : string) : run TokenPair :=
  attempt "admin-login" (Some username) ;;;
  user <- authenticate_user username password ;;
  match user with
  | None => mraise incorrect
  | Some (i, x) =>
      if negb (usr_is_active x) then mraise (HTTPException 400 "Inactive user")
      else
        let pair := create_token_pair i (usr_username x) (role_value (usr_role x)) in
        update_last_login i ;;;
        model_validate x ;;;
        mreturn pair
  end.

Definition refresh_token (token : string) : run TokenPair :=
  info <- lift (verify_token token "refresh") ;;
  match info with
  | None => mraise (HTTPException 401 "Invalid refresh token")
  | Some td =>
      user <- get_user_by_id (td_user_id td) ;;
      match user with
      | Some (i, x) =>
          if usr_is_active x then mreturn (create_token_pair i (usr_username x) (role_value (usr_role x)))
          else mraise (HTTPException 401 "User not found or inactive")
      | None => mraise (HTTPException 401 "User not found or inactive")
      end
  end.
End Accounts.

(** ** What the requests do *)
Section Facts.
Context {be : Backend} {ros : RouterOS} {rbac : RbacRoles} {tok : Tokens} {env : PortalEnv} {signer : Signer} {bc : Bcrypt}.

Definition administrator (u : User) : bool := usr_is_active u && bool_decide (usr_role u ∈ admin_roles).

Lemma require_admin_refused rq random w i u :
  get_current_user rq random w = (Ok (i, u), w) -> administrator u = false ->
  exists e, require_admin rq random w = (Raise e, w).
Proof.
  intros Hc Ha. unfold require_admin, get_current_active_user, mthen. rewrite Hc. unfold if_active.
  unfold administrator in Ha. simpl. destruct (usr_is_active u); [|by eexists].
  unfold guard_role. simpl in *. rewrite Ha. by eexists.
Qed.

(** The tables after a profile was updated *)
Definition profile_written (i : Z) (p : UserUpdate) (db : DB) : DB :=
  db <| t_users ::= alter (patch_user p) i |> <| t_profiles ::= fun m => update_with no_profile (patch_profile p) m i |>.

Lemma durable_read {A} (f : DB -> A) w : w_durable (snd (query f w)) = w_durable w.
Proof. unfold query. by destruct (w_broken w). Qed.

Lemma durable_then_return {A B} (m : run A) (b : B) w : w_durable (snd ((m ;;; mreturn b) w)) = w_durable (snd (m w)).
Proof. unfold mthen. by destruct (m w) as [[a|e] w1]. Qed.

Lemma shown_durable id m w : w_durable (snd (shown id m w)) = w_durable (snd (m w)).
Proof.
  unfold shown, found, mthen. destruct (m w) as [[[]|e] w1]; simpl; [|done..].
  pose proof (durable_read (fun db => t_users db !! id) w1) as H.
  destruct (query _ w1) as [[[x|]|e] w2]; simpl in *; [|done..]. unfold model_validate. by destruct (user_schema_ok x).
Qed.

Lemma update_user_cases i p w : w_broken w = false ->
  let db := w_durable (snd (update_user i p w)) in
  db = w_durable w \/ (is_Some (t_users (w_view w) !! i) /\ db = profile_written i p (w_view w)).
Proof.
  intros Hb. cbv zeta. unfold update_user, get_user_by_id.
  destruct (i <=? 0); [by left|]. unfold mthen, mtry, query. rewrite Hb. simpl.
  destruct (t_users (w_view w) !! i) as [x|] eqn:Hi; simpl; [|by left].
  unfold refuse_if. rewrite Hb. destruct (name_nulled p); simpl; [by left|].
  unfold set_user, assign, mmodify, commit, mthen, flush. simpl. rewrite Hb.
  destruct (_ || _); simpl; [by left|right]. by split.
Qed.


(** *** Signing in *)
Definition sign_ins (name : string) (db : DB) : list (Z * User) := select (fun _ => named name) (t_users db).

Lemma authenticate_run name password w : good w ->
  authenticate_user name password w =
    match sign_ins name (w_view w) with
    | [(i, x)] =>
        if verify_password password (usr_hashed_password x) then
          let db := over t_users (alter (seen (w_now w)) i) (w_view w) in
          (Ok (Some (i, x)), w <| w_view := db |> <| w_durable := db |>)
        else (Ok None, w)
    | _ => (Ok None, w)
    end.
Proof.
  intros Hg. pose proof (good_broken w Hg) as Hb. unfold authenticate_user, mtry, one_user, sign_ins.
  unfold mthen at 1 2, query. rewrite Hb. simpl.
  destruct (select _ _) as [|[i x] [|? ?]]; simpl; try done.
  destruct (verify_password _ _); simpl; [|done].
  set (w1 := w <| w_view ::= over t_users (alter (seen (w_now w)) i) |>).
  assert (Hg1 : good w1) by (by apply good_alter_user).
  rewrite (mthen_ok utcnow _ w (w_now w) w), (mthen_ok (set_user _ _) _ w tt w1) by done.
  by rewrite (mthen_ok _ _ _ _ _ (commit_good w1 Hg1)).
Qed.

Lemma update_last_login_run i w : good w ->
  exists w', update_last_login i w = (Ok tt, w') /\
    (w_durable w' = over t_users (alter (seen (w_now w)) i) (w_view w) \/ (t_users (w_view w) !! i = None /\ w' = w)).
Proof.
  intros Hg. unfold update_last_login, mtry. rewrite (mthen_ok _ _ _ _ _ (query_good _ w (good_broken w Hg))).
  destruct (t_users (w_view w) !! i) as [x|] eqn:Hi; [|exists w; by split; [|right]].
  set (w1 := w <| w_view ::= over t_users (alter (seen (w_now w)) i) |>).
  assert (Hg1 : good w1) by (by apply good_alter_user).
  rewrite (mthen_ok utcnow _ w (w_now w) w), (mthen_ok (set_user _ _) _ w tt w1) by done.
  rewrite (commit_good w1 Hg1). eexists. split; [reflexivity|]. by left.
Qed.

Lemma seen_twice now i (users : gmap Z User) : alter (seen now) i (alter (seen now) i users) = alter (seen now) i users.
Proof.
  apply map_eq. intros j. destruct (decide (i = j)) as [->|Hne]; [|by rewrite !lookup_alter_ne].
  rewrite !lookup_alter_eq. by destruct (users !! j).
Qed.


(** A refresh gives tokens only to an active account that exists. *)
Theorem refresh_needs_active_account token pair w w' :
  refresh_token token w = (Ok pair, w') ->
  exists td x, verify_token token "refresh" = Ok (Some td) /\ w' = w /\
    t_users (w_view w) !! td_user_id td = Some x /\ usr_is_active x = true /\
    pair = create_token_pair (td_user_id td) (usr_username x) (role_value (usr_role x)).
Proof.
  intros (info & w1 & [-> Hv]%lift_inv & E)%then_inv. destruct info as [td|]; [|done].
  apply then_inv in E as (user & w2 & Hu & E). exists td. unfold get_user_by_id in Hu.
  destruct (_ <=? 0); [done|]. unfold mtry, query in Hu. destruct (w_broken w); [done|]. injection Hu as <- <-.
  destruct (t_users (w_view w) !! td_user_id td) as [x|] eqn:Hi; simpl in E; [|done].
  destruct (usr_is_active x) eqn:Ha; [|done]. injection E as <- <-. exists x. by split_all.
Qed.
End Facts.

(** ** Accounts of one provider *)
#[local] Existing Instance unreachable_router.

#[export] Instance sample_signer : Signer := {
  jwt_encode c lifetime := default "" (lc_sub c) +:+ "." +:+ default "" (lc_type c) +:+ "." +:+ str_of_Z lifetime;
  access_token_expire_minutes := 15;
  refresh_token_expire_days := 7
}.

Definition by_ann : Request := request_with "Bearer ann" None.

(** The tables with ann's account changed, and that of the platform's owner *)
Definition owner_user : User :=
  (customer_user None "root" "root@isp.ke" None "Root" "R") <| usr_role := PLATFORM_OWNER |>.

Definition ann_db (f : User -> User) : DB := staff_db <| t_users := {[3 := f staff_user; 9 := owner_user]} |>.

Definition technician : User -> User := fun u => u <| usr_role := ISP_TECHNICIAN |>.

Definition new_name : UserUpdate := mkUserUpdate (Some (Some "Anna")) None (Some (Some "0712")) None None.



(** What is announced is not what the settings give. *)
Example announced_lifetime :
  tp_expires_in <$> (match fst (login "ann" "secret" (start_offline 7 (ann_db id))) with Ok p => Some p | Raise _ => None end)
  = Some 1800.
Proof. vm_compute. reflexivity. Qed.

(** An administrator of a provider makes itself the owner of the platform, *)
Example administrator_promotes_itself :
  usr_role <$> t_users (w_durable (snd (serve by_ann "r" (SetRole 3 PLATFORM_OWNER) (start_offline 0 (ann_db id))))) !! 3
  = Some PLATFORM_OWNER.
Proof. vm_compute. reflexivity. Qed.

(** or takes a token of the owner of the platform, whose password it may not set. *)
Example administrator_takes_owner_token :
  fst (serve by_ann "r" (GenerateApiToken 9) (start_offline 0 (ann_db id))) = Ok (Some "9.access.31536000") /\
  fst (serve by_ann "r" (SetPassword 9 "pw" "s") (start_offline 0 (ann_db id)))
    = Raise (HTTPException 403 "Cannot change platform owner password").
Proof. vm_compute. by split. Qed.

(** A suspended account keeps its rights and signs in. *)
Example suspended_administrator_served :
  let db := ann_db (fun u => u <| usr_status := U_SUSPENDED |>) in
  fst (serve by_ann "r" (ActivateUser 9) (start_offline 0 db)) = Ok None /\
  tp_access_token <$> (match fst (login "ann" "secret" (start_offline 7 db)) with Ok p => Some p | Raise _ => None end)
    = Some "3.access.900".
Proof. vm_compute. by split. Qed.

(** An account whose user name has two characters has its sign-in recorded, and
    no token. *)
Definition short_named : User -> User := fun u => u <| usr_username := "me" |>.

Example short_name_cannot_sign_in :
  let r := login "ann@acme.ke" "secret" (start_offline 7 (ann_db short_named)) in
  fst r = Raise (ValidationError "UserSchema") /\
  (t_users (w_durable (snd r)) !! 3 ≫= usr_last_login) = Some 7.
Proof. vm_compute. by split. Qed.
